(* ===== verification/_CoqProject ===== *)
-Q . S2P
Prelude.v
Regs.v
State.v
Access.v
Bench.v
Hw.v
SwBench.v
ExtFeat.v
Route.v
IdtCps.v
IdtGen2.v
Tsi568.v
Tsi57x.v
IdtGen3.v
SwTables.v
Mbox.v
Em.v
Driver.v
Mport.v
Scan.v
ScanBench.v
EnumInv.v
EnumSpec.v
EnumTerm.v
EnumRoutes.v
Msg.v
Sysfs.v
ScanTyped.v
RioCm.v
RioCmOps.v
RioCmBench.v
RioCmRing.v
RioCmTx.v
RioCmSend.v
RioCmIoctl.v
RioCmHand.v
RioCmInv.v
RioCmLife.v
Rionet.v
RionetTx.v
RionetPeers.v
RioDma.v
Tsi721Regs.v
Tsi721.v
Tsi721Msg.v
Tsi721Dma.v
Tsi721Init.v
Tsi721Base.v
Tsi721Bench.v
Tsi721Obw.v
Tsi721Sg.v
Tsi721Queue.v
MportCdev.v
MportDma.v
MportOps.v
MportBench.v
MportEvents.v
MportInv.v
MportCalls.v
MportLife.v
