(* ===== verification/Prelude.v ===== *)
(** * The RapidIO subsystem: a verification library

    This development models the Linux RapidIO subsystem in src/ and proves what
    makes it correct.  The subsystem has these parts.

    - Master ports drive a fabric of end points and switches.  Their access
      operations read and write configuration registers of local and remote
      devices (src/rio-access.c).
    - The core (src/rio.c) keeps ports, networks and devices, locks devices against
      other hosts, programs the routing tables of switches through the operations
      of the switch drivers (src/switches/), manages mailboxes, doorbells and
      port-writes, reacts to port errors and asks for channels of DMA engines.
    - src/rio-scan.c enumerates a network: it walks over the fabric, gives devices
      component tags and destination ids, and fills the routing tables; other hosts
      discover what was enumerated.
    - src/rio-driver.c matches and binds device drivers.
    - src/devices/tsi721.c and tsi721_dma.c drive a PCIe bridge that is a master port:
      maintenance accesses, doorbells, port-writes, address windows, message engines
      and DMA channels.
    - src/rio_cm.c multiplexes channels over one mailbox, with a char device for
      applications; src/rionet.c is a network device over another mailbox.
    - src/devices/rio_mport_cdev.c is the char device of a master port: applications
      access registers, map windows and buffers, start DMA transfers, get doorbells
      and port-writes as events, and add and remove devices.

    ** How state and operations correspond to the code

    C functions are functions of the same name in the monad [M S], a state monad
    with outcomes: [Done a s], [UB] for what C leaves undefined (a null or dangling
    pointer, an index or a shift out of range, use of freed memory) and [NoFuel]
    when a loop has used up its fuel.  Prelude defines the monad, the notations of
    [rio_scope], machine integers as [Z] with their wrap-around, and the predicate
    [fine]/[spec] with its rules: a computation keeps a relation between the states
    before and after.  An [int] result is a [Z], error numbers are negative.

    Objects live in heaps ([gmap ptr _]); a struct is a record that has the fields
    the code uses (State).  [kstate W] has the heaps of devices, networks and master
    ports, the global variables of the core, and the state [ks_hw : W] of everything
    outside: hardware and kernel.  The drivers add their own objects: [mstate] has
    message buffers (Msg), [cstate] the channels (RioCm), [nstate] the nets (Rionet),
    [tstate] the private data of a bridge (Tsi721), [mcstate] the files and mappings
    (MportCdev).  A driver calls the core through [core], which acts on the part
    of its state that is the core's.

    Hardware is reached only through the records of function pointers that the code
    itself calls (rio_ops, rio_switch_ops) or, in a bridge driver, through the registers
    and memory of [Tsi721Hw].  What the kernel does (allocation that may fail, resource
    trees, module references, device registration, sleeping, DMA engines, user memory)
    is a field of a type class: [KernelEnv], [Externals], [Drivers], [CmEnv], [NetEnv],
    [Tsi721Pci], [Tsi721Callbacks], [DmaCore], [DmaEngine], [CdevEnv], [CdevWait],
    [CdevKernel].  A theorem says in its hypotheses, or in a class of laws such as
    [ResourceLaws], what it expects of them; the files Bench, SwBench, ScanBench,
    RioCmBench, Tsi721Bench and MportBench have concrete instances at which the witnesses evaluate
    the definitions.  The host is little-endian where byte order shows.

    Functions run under the locks the code takes, so a critical section is a step.
    Where the code sleeps for an event ([cm_wait], [wait_for_completion], [wait_event])
    the environment may do anything that other threads can do.  The channels of rio_cm.c
    have the points between two critical sections of one function as well: [cm_gap]
    stands for what other threads do in the allocations and on the semaphore of
    riocm_ch_connect, riocm_ch_alloc, riocm_ch_accept, riocm_send_ack and
    riocm_send_close, and between the look at a channel's state and its exchange in
    riocm_resp_handler.  RioCmLife says what others must leave alone there, which the
    code does not ensure ([accept_race], [response_race]).

    Everywhere else a function that takes a lock several times, or none, is one step
    from one wait to the next.  Where this leaves something out that the code allows:
    mport_cdev_mmap drops its lock between finding a mapping and taking the reference,
    so that the mapping may be freed in between; mport_read goes round while the handlers
    of doorbells and port-writes append to its queue; riocm_ch_alloc puts a channel
    into the table before it has set its fields; and the remaining allocations and copies
    of user memory in rio_cm.c may sleep too, at points where no state of a channel has
    been looked at that is not looked at again.

    The configuration has the DMA engine and MSI-X.  Creating a sysfs file is a call of
    the kernel that may fail.

    ** Files

    - Regs: registers, masks and ids (rio_regs.h, rio_ids.h, parts of rio.h).
    - State: data structures of rio.h and rio_drv.h and access to the heaps.
    - Access: rio-access.c and the inline accessors of rio_drv.h.
    - Bench, Hw, SwBench: a register file as hardware, and lemmas on what code that
      only uses hardware leaves alone.
    - ExtFeat: extended feature blocks.  The search ends for acyclic lists and finds
      the first block.
    - Route: host locks and routing.  Locking ends and excludes; adding, reading and
      clearing routes refine a table.
    - IdtCps, IdtGen2, IdtGen3, Tsi568, Tsi57x: the switch drivers.  Each one's
      routing operations implement a routing table over its registers; loops of the
      error handlers end and stay in bounds.
    - SwTables: the drivers as instances of one interface, and ownership of a switch.
    - Mbox: mailboxes, doorbells, port-writes: all or nothing, released as taken.
    - Em: error management; the handler of port-writes.
    - Driver, Mport: binding of drivers; registration of ports and scan methods;
      initialisation.
    - Scan: all of rio-scan.c.  EnumInv proves step by step, and EnumSpec states, that
      enumeration keeps tags and ids distinct, whatever the hardware answers; EnumTerm
      bounds its recursion; EnumRoutes says which routes the last pass of enumeration
      adds.  The drivers' tables of SwTables discharge what these files ask of a switch
      driver (classes [QuietTables] and [TotalTables]).  ScanTyped: every field of a
      device keeps its width, a switch part belongs to switches, arrays have their sizes.
    - Msg: message buffers, byte order, mailbox queues of rio_drv.h.
    - Sysfs: the rest of rio-sysfs.c.  Files of the configuration space read and write
      the bytes of a range; the text of the routes overruns its page in a large system.
    - RioCm, RioCmOps: all of rio_cm.c.  RioCmRing: the receive ring is a queue.
      RioCmTx: the transmit ring.  RioCmSend: packets and sending.  RioCmIoctl: the
      requests with user memory.  RioCmHand: a connection, run through both of its nodes.
      RioCmInv and RioCmLife: the life of channels under any sequence of calls.
    - Rionet: all of rionet.c.  RionetTx: sending and the reports of it.  RionetPeers:
      the counters of active peers.
    - RioDma: the DMA wrappers of the core and the kernel's DMA engine as an interface.
    - Tsi721Regs, Tsi721 (accesses, doorbells, port-writes, windows), Tsi721Msg (message
      engines), Tsi721Dma (all of tsi721_dma.c), Tsi721Init (interrupts, set-up, removal):
      the bridge.  Tsi721Base has frame rules, Tsi721Bench a simulated bridge, Tsi721Obw
      the outbound windows, Tsi721Sg the descriptors that a scatter list becomes,
      Tsi721Queue the circulation of a channel's descriptors.
    - MportCdev (data, maintenance, mappings), MportDma (transfers), MportOps (events,
      devices, files, requests, ports): all of rio_mport_cdev.c.  MportBench has a
      simulated kernel; MportInv, MportCalls and MportLife are on the references that files
      and memory areas have to mappings, under any sequence of calls.  MportEvents:
      doorbells become events of the files that asked for them, and reading takes them.

    ** Fuel

    [LOCK_FUEL] exceeds the 1000 retries that the callers of rio_lock_device ask
    for.  [ID_FUEL] exceeds the number of destination ids.  [PORT_FUEL] exceeds
    the number of ports that an 8-bit field can give.  [TX_FUEL] exceeds the 128
    slots of the transmit ring, [RING_FUEL] and [IMQ_FUEL] the 512 slots of a mailbox
    queue, [OBW_FUEL] the eight outbound windows, [IBW_FUEL] the shifts of a size,
    [STOP_FUEL] the tries to stop a DMA channel.  Other loops have their fuel as an
    argument, and the theorems say how much is enough.

    ** What is not modelled, and why

    Debug output, and the sysfs registration tables, have no state of their own.
    Configurations without DMA engine or MSI-X are left out.  Weak memory and races
    inside a critical section are outside the model, as are strings for ethtool.

    ** What is modelled without a theorem of its own

    An answer that comes after a connection has timed out, and closing seen from both
    nodes (the safety of RioCmLife covers them one node at a time).  The routes that
    enumeration sets on its way, before the last pass.  Joining and leaving of peers of
    rionet.c beyond their counters.  Discovery has the types of ScanTyped, and no theorem
    on the network that it finds. *)

From Stdlib Require Export ZArith Lia List.
From stdpp Require Export base tactics numbers list gmap.

Declare Scope rio_scope.
Delimit Scope rio_scope with rio.
Open Scope Z_scope.
Open Scope rio_scope.

(** ** Machine integers

    A [w]-bit unsigned C value is a [Z] in [0, 2^w); a conversion to the type
    is reduction modulo [2^w].  [s32] is the conversion to [int]. *)

Definition u8 (x : Z) : Z := x mod 2 ^ 8.
Definition u16 (x : Z) : Z := x mod 2 ^ 16.
Definition u32 (x : Z) : Z := x mod 2 ^ 32.
Definition u64 (x : Z) : Z := x mod 2 ^ 64.
Definition s32 (x : Z) : Z :=
  let y := x mod 2 ^ 32 in if y <? 2 ^ 31 then y else y - 2 ^ 32.

(** The C operator [~] on a [u32] operand. *)
Definition not32 (x : Z) : Z := u32 (Z.lnot x).

(** A C condition: an integer is true when it is not zero. *)
Definition truthy (x : Z) : bool := negb (x =? 0).

Lemma u8_range x : 0 <= u8 x < 2 ^ 8.
Proof. apply Z.mod_pos_bound. lia. Qed.
Lemma u16_range x : 0 <= u16 x < 2 ^ 16.
Proof. apply Z.mod_pos_bound. lia. Qed.
Lemma u32_range x : 0 <= u32 x < 2 ^ 32.
Proof. apply Z.mod_pos_bound. lia. Qed.

Lemma u8_small x : 0 <= x < 2 ^ 8 -> u8 x = x.
Proof. apply Z.mod_small. Qed.
Lemma u16_small x : 0 <= x < 2 ^ 16 -> u16 x = x.
Proof. apply Z.mod_small. Qed.
Lemma u32_small x : 0 <= x < 2 ^ 32 -> u32 x = x.
Proof. apply Z.mod_small. Qed.

Lemma s32_range x : - 2 ^ 31 <= s32 x < 2 ^ 31.
Proof.
  unfold s32. pose proof (Z.mod_pos_bound x (2 ^ 32)).
  destruct (Z.ltb_spec (x mod 2 ^ 32) (2 ^ 31)); lia.
Qed.

Lemma s32_small x : - 2 ^ 31 <= x < 2 ^ 31 -> s32 x = x.
Proof.
  intros H. unfold s32. destruct (Z.leb_spec 0 x).
  - rewrite Z.mod_small by lia. destruct (Z.ltb_spec x (2 ^ 31)); lia.
  - replace (x mod 2 ^ 32) with (x + 2 ^ 32).
    + destruct (Z.ltb_spec (x + 2 ^ 32) (2 ^ 31)); lia.
    + rewrite <- (Z.mod_small (x + 2 ^ 32) (2 ^ 32)) by lia.
      rewrite <- (Z.mul_1_l (2 ^ 32)) at 1. apply Z.mod_add. lia.
Qed.

(** Masking with [2^n - 1] is reduction modulo [2^n]. *)
Lemma land_mask x n : 0 <= n -> Z.land x (2 ^ n - 1) = x mod 2 ^ n.
Proof. intros H. rewrite <- Z.land_ones by lia. f_equal. rewrite Z.ones_equiv. lia. Qed.

Lemma land_ff x : Z.land x 0xff = x mod 2 ^ 8.
Proof. by apply (land_mask x 8). Qed.
Lemma land_ffff x : Z.land x 0xffff = x mod 2 ^ 16.
Proof. by apply (land_mask x 16). Qed.

Lemma land_nonneg_le x m : 0 <= m -> 0 <= Z.land x m <= m.
Proof.
  intros Hm. apply Z.ldiff_le; [done|].
  apply Z.bits_inj'. intros n _.
  rewrite Z.ldiff_spec, Z.land_spec, Z.bits_0.
  by destruct (Z.testbit x n), (Z.testbit m n).
Qed.

(** Proves an equation between bit expressions by comparing all bits. *)
Ltac zbits :=
  apply Z.bits_inj'; let n := fresh "n" in let Hn := fresh "Hn" in
  intros n Hn;
  repeat first
    [ rewrite Z.lor_spec | rewrite Z.land_spec | rewrite Z.ldiff_spec
    | rewrite Z.bits_0 | rewrite Z.lnot_spec by lia
    | rewrite Z.shiftl_spec by lia | rewrite Z.shiftr_spec by lia ].

(** ** Error numbers of the kernel's errno.h *)

Definition ENOENT : Z := 2.
Definition EIO : Z := 5.
Definition EAGAIN : Z := 11.
Definition ENOMEM : Z := 12.
Definition EFAULT : Z := 14.
Definition EBUSY : Z := 16.
Definition ENODEV : Z := 19.
Definition EINVAL : Z := 22.
Definition ENOSYS : Z := 38.
Definition ENODATA : Z := 61.

(** ** The execution monad

    A C function is a state transformer that ends in one of three ways: it
    returns a value in a new state ([Done]); it performs an access that the C
    language leaves undefined, such as following a null or dangling pointer or
    indexing past an array ([UB]); or the loop bound given to the model was too
    small for this run ([NoFuel]). *)

Inductive outcome (S A : Type) : Type :=
| Done (a : A) (s : S)
| UB
| NoFuel.
Arguments Done {S A} a s.
Arguments UB {S A}.
Arguments NoFuel {S A}.

Definition M (S A : Type) : Type := S -> outcome S A.

Definition ret {S A} (a : A) : M S A := fun s => Done a s.

Definition bind {S A B} (m : M S A) (k : A -> M S B) : M S B :=
  fun s => match m s with Done a s' => k a s' | UB => UB | NoFuel => NoFuel end.

Definition gets {S A} (f : S -> A) : M S A := fun s => Done (f s) s.
Definition modify {S} (f : S -> S) : M S unit := fun s => Done tt (f s).
Definition ub {S A} : M S A := fun _ => UB.
Definition nofuel {S A} : M S A := fun _ => NoFuel.

(** Reading through a pointer: undefined when there is no object. *)
Definition deref {S A} (o : option A) : M S A :=
  match o with Some a => ret a | None => ub end.

Notation "x <- m ;; k" := (bind m (fun x => k))
  (at level 100, m at next level, right associativity) : rio_scope.
Notation "'let!' p := m ;; k" := (bind m (fun p => k))
  (at level 100, p pattern, m at next level, right associativity) : rio_scope.
Notation "m ;;; k" := (bind m (fun _ => k))
  (at level 100, right associativity) : rio_scope.

Definition when {S} (b : bool) (m : M S unit) : M S unit :=
  if b then m else ret tt.

(** ** Loops *)

(** [for (i = ...)] over a fixed sequence of indices. *)
Fixpoint for_ {S A} (l : list A) (body : A -> M S unit) : M S unit :=
  match l with
  | [] => ret tt
  | i :: l' => body i ;;; for_ l' body
  end.

(** The same with an early exit: the body returns [Some r] to leave the loop
    with result [r]. *)
Fixpoint for_exit {S A R} (l : list A) (body : A -> M S (option R))
    : M S (option R) :=
  match l with
  | [] => ret None
  | i :: l' =>
      r <- body i ;;
      match r with Some x => ret (Some x) | None => for_exit l' body end
  end.

(** A general loop: the body returns [inl a] to go round again with loop
    variables [a], and [inr b] to leave with [b]. *)
Fixpoint loop {S A B} (fuel : nat) (body : A -> M S (A + B)) (a : A) : M S B :=
  match fuel with
  | O => nofuel
  | S fuel' =>
      r <- body a ;;
      match r with inl a' => loop fuel' body a' | inr b => ret b end
  end.

(** [[start, start + step, ...]], [n] numbers. *)
Fixpoint zseq (start step : Z) (n : nat) : list Z :=
  match n with O => [] | S n' => start :: zseq (start + step) step n' end.

(** The values of [i] in [for (i = lo; i < hi; i++)]. *)
Definition zrange (lo hi : Z) : list Z := zseq lo 1 (Z.to_nat (hi - lo)).

Lemma zseq_length start step n : length (zseq start step n) = n.
Proof. revert start. induction n; intros; simpl; [done|by rewrite IHn]. Qed.

Lemma elem_of_zseq x start step n :
  x ∈ zseq start step n <-> exists k, 0 <= k < Z.of_nat n /\ x = start + step * k.
Proof.
  revert start. induction n as [|n IH]; intros start; simpl.
  - rewrite elem_of_nil. split; [done|]. intros (k & ? & ?). lia.
  - rewrite elem_of_cons, IH. split.
    + intros [->|(k & Hk & ->)]; [exists 0; lia|exists (k + 1); lia].
    + intros (k & Hk & ->). destruct (decide (k = 0)) as [->|]; [left; lia|].
      right. exists (k - 1). lia.
Qed.

Lemma elem_of_zrange x lo hi : x ∈ zrange lo hi <-> lo <= x < hi.
Proof.
  unfold zrange. rewrite elem_of_zseq. split.
  - intros (k & ? & ->). lia.
  - intros ?. exists (x - lo). lia.
Qed.

Lemma zrange_cons lo hi : lo < hi -> zrange lo hi = lo :: zrange (lo + 1) hi.
Proof.
  intros H. unfold zrange.
  replace (Z.to_nat (hi - lo)) with (S (Z.to_nat (hi - (lo + 1)))) by lia. done.
Qed.

Lemma zrange_nil lo hi : hi <= lo -> zrange lo hi = [].
Proof. intros H. unfold zrange. by replace (Z.to_nat (hi - lo)) with O by lia. Qed.

Lemma zseq_app start step n m :
  zseq start step (n + m) = zseq start step n ++ zseq (start + step * Z.of_nat n) step m.
Proof.
  revert start. induction n as [|n IH]; intros start; simpl.
  - f_equal. lia.
  - rewrite IH. do 3 f_equal. lia.
Qed.

Lemma zrange_snoc lo hi : lo <= hi -> zrange lo (hi + 1) = zrange lo hi ++ [hi].
Proof.
  intros H. unfold zrange.
  replace (Z.to_nat (hi + 1 - lo)) with (Z.to_nat (hi - lo) + 1)%nat by lia.
  rewrite zseq_app. simpl. do 3 f_equal. lia.
Qed.

(** ** Reasoning about runs

    [spec u f m s Q]: the run of [m] from [s] ends in a state and value that
    satisfy [Q]; an undefined access is tolerated only if [u], running out of
    fuel only if [f].  [total] tolerates neither, [safe] allows only the model's
    fuel to run out, [partial] tolerates both. *)

Definition spec {S A} (u f : Prop) (m : M S A) (s : S) (Q : A -> S -> Prop) : Prop :=
  match m s with Done a s' => Q a s' | UB => u | NoFuel => f end.

Abbreviation total := (spec False False).
Abbreviation safe := (spec False True).
Abbreviation partial := (spec True True).

Section spec.
Context {S : Type} (u f : Prop).

Lemma spec_ret {A} (a : A) (s : S) Q : Q a s -> spec u f (ret a) s Q.
Proof. done. Qed.

Lemma spec_bind {A B} (m : M S A) (k : A -> M S B) s Q :
  spec u f m s (fun a s' => spec u f (k a) s' Q) -> spec u f (bind m k) s Q.
Proof. unfold spec, bind. by destruct (m s). Qed.

Lemma spec_mono {A} (m : M S A) (s : S) (P Q : A -> S -> Prop) :
  spec u f m s P -> (forall a s', P a s' -> Q a s') -> spec u f m s Q.
Proof. unfold spec. destruct (m s); auto. Qed.

Lemma spec_gets {A} (g : S -> A) s Q : Q (g s) s -> spec u f (gets g) s Q.
Proof. done. Qed.

Lemma spec_modify (g : S -> S) s Q : Q tt (g s) -> spec u f (modify g) s Q.
Proof. done. Qed.

Lemma spec_when (b : bool) (m : M S unit) s Q :
  (b = true -> spec u f m s Q) -> (b = false -> Q tt s) ->
  spec u f (when b m) s Q.
Proof. intros H1 H2. destruct b; [by apply H1|by apply H2]. Qed.

Lemma spec_deref {A} (o : option A) (s : S) (Q : A -> S -> Prop) :
  (forall a, o = Some a -> Q a s) -> (o = None -> u) -> spec u f (deref o) s Q.
Proof. destruct o; unfold spec; simpl; auto. Qed.

(** Invariant rule for the counted loop. *)
Lemma spec_for {A} (I : list A -> S -> Prop) (l : list A) (body : A -> M S unit) s (Q : unit -> S -> Prop) :
  I l s ->
  (forall i l' s', I (i :: l') s' -> spec u f (body i) s' (fun _ s'' => I l' s'')) ->
  (forall s', I [] s' -> Q tt s') ->
  spec u f (for_ l body) s Q.
Proof.
  intros HI Hstep HQ. revert s HI. induction l as [|i l IH]; intros s HI; simpl.
  - apply spec_ret. auto.
  - apply spec_bind. eapply spec_mono; [by apply Hstep|]. auto.
Qed.

(** Invariant rule for the counted loop with exit: the invariant [I] of the
    remaining indices holds as long as the loop goes on. *)
Lemma spec_for_exit {A R} (I : list A -> S -> Prop) (l : list A)
    (body : A -> M S (option R)) s (Q : option R -> S -> Prop) :
  I l s ->
  (forall i l' s', I (i :: l') s' -> spec u f (body i) s' (fun r s'' =>
     match r with None => I l' s'' | Some x => Q (Some x) s'' end)) ->
  (forall s', I [] s' -> Q None s') ->
  spec u f (for_exit l body) s Q.
Proof.
  intros HI Hstep HQ. revert s HI. induction l as [|i l IH]; intros s HI; simpl.
  - apply spec_ret. auto.
  - apply spec_bind. eapply spec_mono; [by apply Hstep|].
    intros [x|] s'; [apply spec_ret|apply IH].
Qed.

(** Invariant rule for the general loop, for runs that may lack fuel. *)
Lemma spec_loop_inv {A B} (I : A -> S -> Prop) (body : A -> M S (A + B)) fuel a s Q :
  f ->
  I a s ->
  (forall a s, I a s ->
     spec u f (body a) s (fun r s' =>
       match r with inl a' => I a' s' | inr b => Q b s' end)) ->
  spec u f (loop fuel body a) s Q.
Proof.
  intros Hf HI Hstep. revert a s HI. induction fuel as [|n IH]; intros a s HI; simpl.
  - exact Hf.
  - apply spec_bind. eapply spec_mono; [by apply Hstep|].
    intros [a'|b] s'; [apply IH|apply spec_ret].
Qed.

(** The same with a measure: enough fuel, so the loop finishes. *)
Lemma spec_loop_measure {A B} (I : A -> S -> Prop) (mu : A -> S -> nat)
    (body : A -> M S (A + B)) fuel a s Q :
  I a s -> (mu a s < fuel)%nat ->
  (forall a s, I a s ->
     spec u f (body a) s (fun r s' =>
       match r with
       | inl a' => I a' s' /\ (mu a' s' < mu a s)%nat
       | inr b => Q b s'
       end)) ->
  spec u f (loop fuel body a) s Q.
Proof.
  intros HI Hmu Hstep. revert a s HI Hmu.
  induction fuel as [|n IH]; intros a s HI Hmu; simpl; [lia|].
  apply spec_bind. eapply spec_mono; [by apply Hstep|].
  intros [a'|b] s'; [|apply spec_ret].
  intros [HI' Hlt]. apply IH; [done|lia].
Qed.
End spec.

Lemma total_Done {S A} (m : M S A) s Q :
  total m s Q <-> exists a s', m s = Done a s' /\ Q a s'.
Proof.
  unfold spec. destruct (m s) as [a s'| |]; split; try done.
  - by eauto.
  - by intros (? & ? & [= -> ->] & ?).
  - by intros (? & ? & ? & ?).
  - by intros (? & ? & ? & ?).
Qed.

Lemma total_partial {S A} (m : M S A) s Q : total m s Q -> partial m s Q.
Proof. unfold spec. by destruct (m s). Qed.

(** A run has all the properties it has severally. *)
Lemma spec_and {S A} (u f u' f' : Prop) (m : M S A) s (P Q : A -> S -> Prop) :
  spec u f m s P -> spec u' f' m s Q -> spec u f m s (fun a s' => P a s' /\ Q a s').
Proof. unfold spec. by destruct (m s). Qed.

Lemma bind_Done {S A B} (m : M S A) (k : A -> M S B) s a s' :
  m s = Done a s' -> bind m k s = k a s'.
Proof. unfold bind. by intros ->. Qed.

Lemma bind_assoc {S A B C} (m : M S A) (f : A -> M S B) (k : B -> M S C) s :
  bind (bind m f) k s = bind m (fun a => bind (f a) k) s.
Proof. unfold bind. by destruct (m s). Qed.

(** Steps over a call whose run is known. *)
Lemma spec_run {S A B} (u f : Prop) (m : M S A) (k : A -> M S B) s a s' Q :
  m s = Done a s' -> spec u f (k a) s' Q -> spec u f (bind m k) s Q.
Proof. unfold spec, bind. by intros ->. Qed.

Lemma spec_Done {S A} (u f : Prop) (m : M S A) s a s' (Q : A -> S -> Prop) :
  m s = Done a s' -> Q a s' -> spec u f m s Q.
Proof. unfold spec. by intros ->. Qed.

Lemma spec_assoc {S A B C} (u f : Prop) (m : M S A) (g : A -> M S B) (k : B -> M S C) s Q :
  spec u f (x <- m ;; y <- g x ;; k y) s Q -> spec u f (y <- (x <- m ;; g x) ;; k y) s Q.
Proof. unfold spec, bind. by destruct (m s). Qed.

Lemma spec_assoc_r {S A B C} (u f : Prop) (m : M S A) (g : A -> M S B) (k : B -> M S C) s Q :
  spec u f (y <- (x <- m ;; g x) ;; k y) s Q -> spec u f (x <- m ;; y <- g x ;; k y) s Q.
Proof. unfold spec, bind. by destruct (m s). Qed.

Lemma bind_ret {S A B} (a : A) (k : A -> M S B) : bind (ret a) k = k a.
Proof. done. Qed.

Lemma for_app {S A} (l1 l2 : list A) (body : A -> M S unit) s :
  for_ (l1 ++ l2) body s = (for_ l1 body ;;; for_ l2 body) s.
Proof.
  revert s. induction l1 as [|i l IH]; intros s; simpl; [done|].
  unfold bind in *. destruct (body i s) as [[] s'| |]; [apply IH|done|done].
Qed.

(** More fuel never changes a finished run. *)
Lemma loop_fuel_mono {S A B} (body : A -> M S (A + B)) n m a s b s' :
  loop n body a s = Done b s' -> (n <= m)%nat -> loop m body a s = Done b s'.
Proof.
  revert m a s. induction n as [|n IH]; intros m a s H Hle; simpl in H; [done|].
  destruct m as [|m]; [lia|]. simpl. unfold bind in *.
  destruct (body a s) as [[a'|b'] s''| |]; try done. apply IH; [done|lia].
Qed.

Ltac srun H := eapply (spec_run _ _ _ _ _ _ _ _ H).

(** ** Frame conditions

    [keeps R m]: every finished run of [m] relates its start and end state by
    [R].  With [R] a preorder this composes along the monad, so that "this code
    touches only that part of the state" is proved by [auto with frame]. *)

Definition keeps {S A} (R : S -> S -> Prop) (m : M S A) : Prop :=
  forall s a s', m s = Done a s' -> R s s'.

Create HintDb frame discriminated.
#[export] Hint Constants Opaque : frame.
#[export] Hint Variables Opaque : frame.

Section keeps.
Context {S : Type} (R : S -> S -> Prop) `{!PreOrder R}.

Lemma keeps_ret {A} (a : A) : keeps R (ret a).
Proof. intros s a' s' [=]. subst. reflexivity. Qed.
Lemma keeps_gets {A} (g : S -> A) : keeps R (gets g).
Proof. intros s a s' [=]. subst. reflexivity. Qed.
Lemma keeps_deref {A} (o : option A) : keeps R (deref o).
Proof. destruct o; [apply keeps_ret|done]. Qed.
Lemma keeps_ub {A} : keeps R (@ub S A).
Proof. done. Qed.
Lemma keeps_nofuel {A} : keeps R (@nofuel S A).
Proof. done. Qed.
Lemma keeps_bind {A B} (m : M S A) (k : A -> M S B) :
  keeps R m -> (forall a, keeps R (k a)) -> keeps R (bind m k).
Proof.
  intros Hm Hk s b s'. unfold bind. destruct (m s) as [a s1| |] eqn:E; [|done..].
  intros H. transitivity s1; [by eapply Hm|by eapply Hk].
Qed.
Lemma keeps_assoc {A B C} (m : M S A) (f : A -> M S B) (k : B -> M S C) :
  keeps R (x <- m ;; y <- f x ;; k y) -> keeps R (y <- (x <- m ;; f x) ;; k y).
Proof.
  intros H s c s' Hr. apply (H s c). unfold bind in *. by destruct (m s) as [a s1| |].
Qed.
Lemma keeps_when b (m : M S unit) : keeps R m -> keeps R (when b m).
Proof. destruct b; [done|intros _; apply keeps_ret]. Qed.
Lemma keeps_for {A} (l : list A) (body : A -> M S unit) :
  (forall i, keeps R (body i)) -> keeps R (for_ l body).
Proof.
  intros Hb. induction l; simpl; [apply keeps_ret|by apply keeps_bind].
Qed.
Lemma keeps_for_exit {A X} (l : list A) (body : A -> M S (option X)) :
  (forall i, i ∈ l -> keeps R (body i)) -> keeps R (for_exit l body).
Proof.
  induction l as [|i l IH]; simpl; intros Hb; [apply keeps_ret|].
  apply keeps_bind; [apply Hb, list_elem_of_here|]. intros []; [apply keeps_ret|].
  apply IH. intros j Hj. by apply Hb, list_elem_of_further.
Qed.
Lemma keeps_loop {A B} fuel (body : A -> M S (A + B)) a :
  (forall a, keeps R (body a)) -> keeps R (loop fuel body a).
Proof.
  intros Hb. revert a. induction fuel; intros a; simpl; [apply keeps_nofuel|].
  apply keeps_bind; [done|]. intros []; [done|apply keeps_ret].
Qed.
End keeps.

#[export] Hint Resolve keeps_ret keeps_gets keeps_deref keeps_ub keeps_nofuel
  keeps_bind keeps_when keeps_for keeps_for_exit keeps_loop : frame.
#[export] Hint Extern 1 (PreOrder _) => typeclasses eauto : frame.

(** Splits the matches and conditionals of a [keeps] goal and applies the
    composition rules. *)
Ltac frame_step :=
  match goal with
  | |- forall _, _ => intro
  | |- keeps _ (bind _ _) => apply keeps_bind; [typeclasses eauto| |]
  | |- keeps _ (match ?x with _ => _ end) => destruct x
  | |- keeps _ (let '_ := ?x in _) => destruct x
  end.
Ltac solve_frame := repeat frame_step; eauto 20 with frame.

(** The same, going into conditional code and loops as well. *)
Ltac keeps_step :=
  match goal with
  | |- forall _, _ => intro
  | |- keeps _ (ret _) => apply keeps_ret; typeclasses eauto
  | |- keeps _ (bind _ _) =>
      apply keeps_bind; [typeclasses eauto| |]
  | |- keeps _ (when _ _) => apply keeps_when; [typeclasses eauto|]
  | |- keeps _ (for_ _ _) => apply keeps_for; [typeclasses eauto|]
  | |- keeps _ (for_exit _ _) => apply keeps_for_exit; [typeclasses eauto|]
  | |- keeps _ (loop _ _ _) => apply keeps_loop; [typeclasses eauto|]
  | |- keeps _ (match ?x with _ => _ end) => destruct x
  | |- keeps _ (let '_ := ?x in _) => destruct x
  end.
Ltac solve_keeps := repeat first [solve [auto 2 with frame] | keeps_step].

Lemma keeps_partial {S A} (R : S -> S -> Prop) (m : M S A) s :
  keeps R m -> partial m s (fun _ s' => R s s').
Proof. unfold spec. destruct (m s) eqn:E; [|done..]. intros H. by eapply H. Qed.

(** ** Runs that stay in an invariant

    [fine u f P V m]: started in [P], the run of [m] ends in [P] with a value in
    [V] ([u] and [f] as for [spec]).  The rules follow the program, so that long
    straight-line code is proved by [solve_fine]. *)

Definition fine {S A} (u f : Prop) (P : S -> Prop) (V : A -> Prop) (m : M S A) : Prop :=
  forall s, P s -> spec u f m s (fun a s' => V a /\ P s').

Definition any {A} (_ : A) : Prop := True.

Create HintDb fine discriminated.
#[export] Hint Constants Opaque : fine.
#[export] Hint Variables Opaque : fine.

Section fine.
Context {S : Type} (u f : Prop) (P : S -> Prop).

Lemma fine_ret {A} (V : A -> Prop) a : V a -> fine u f P V (ret a).
Proof. intros HV s HP. by apply spec_ret. Qed.
Lemma fine_bind {A B} (V : A -> Prop) (V' : B -> Prop) (m : M S A) (k : A -> M S B) :
  fine u f P V m -> (forall a, V a -> fine u f P V' (k a)) -> fine u f P V' (bind m k).
Proof.
  intros Hm Hk s HP. apply spec_bind. eapply spec_mono; [by apply Hm|].
  intros a s' [HV HP']. by apply Hk.
Qed.
Lemma fine_mono {A} (V V' : A -> Prop) (m : M S A) :
  fine u f P V m -> (forall a, V a -> V' a) -> fine u f P V' m.
Proof. intros Hm HV s HP. eapply spec_mono; [by apply Hm|]. intros a s' []. auto. Qed.
Lemma fine_any {A} (V : A -> Prop) (m : M S A) : fine u f P V m -> fine u f P any m.
Proof. intros Hm. by eapply fine_mono. Qed.
Lemma fine_when (V : unit -> Prop) (b : bool) (m : M S unit) :
  V tt -> (b = true -> fine u f P V m) -> fine u f P V (when b m).
Proof. intros HV Hm. destruct b; [by apply Hm|by apply fine_ret]. Qed.
Lemma fine_for {A} (V : unit -> Prop) (l : list A) (body : A -> M S unit) :
  V tt -> (forall i, i ∈ l -> fine u f P any (body i)) -> fine u f P V (for_ l body).
Proof.
  intros HV. induction l as [|i l IH]; intros Hb; simpl; [by apply fine_ret|].
  eapply fine_bind; [apply Hb, list_elem_of_here|]. intros _ _. apply IH.
  intros j Hj. by apply Hb, list_elem_of_further.
Qed.
Lemma fine_for_exit {A X} (l : list A) (body : A -> M S (option X)) :
  (forall i, i ∈ l -> fine u f P any (body i)) -> fine u f P any (for_exit l body).
Proof.
  induction l as [|i l IH]; intros Hb; simpl; [by apply fine_ret|].
  eapply fine_bind; [apply Hb, list_elem_of_here|].
  intros [x|] _; [by apply fine_ret|]. apply IH. intros j Hj. by apply Hb, list_elem_of_further.
Qed.
(** A loop whose variables satisfy [J] and decrease [mu]. *)
Lemma fine_loop {A B} (V : B -> Prop) (J : A -> Prop) (mu : A -> nat) (body : A -> M S (A + B)) fuel a :
  J a -> (mu a < fuel)%nat ->
  (forall a, J a -> fine u f P (fun r => match r with
     | inl a' => J a' /\ (mu a' < mu a)%nat | inr b => V b end) (body a)) ->
  fine u f P V (loop fuel body a).
Proof.
  intros HJ Hmu Hb s HP.
  apply (spec_loop_measure _ _ (fun a s => J a /\ P s) (fun a _ => mu a)); [done|done|].
  intros a' s' [HJ' HP']. eapply spec_mono; [by apply Hb|].
  intros [a2|b] s2 [H1 H2]; [|done]. destruct H1. auto.
Qed.
(** A loop that the fuel of the model may cut short. *)
Lemma fine_loop_partial {A B} (V : B -> Prop) (J : A -> Prop) (body : A -> M S (A + B)) fuel a :
  f -> J a ->
  (forall a, J a -> fine u f P (fun r => match r with
     | inl a' => J a' | inr b => V b end) (body a)) ->
  fine u f P V (loop fuel body a).
Proof.
  intros Hf HJ Hb s HP.
  apply (spec_loop_inv _ _ (fun a s => J a /\ P s)); [done|done|].
  intros a' s' [HJ' HP']. eapply spec_mono; [by apply Hb|].
  intros [a2|b] s2 [H1 H2]; auto.
Qed.
End fine.

#[export] Hint Extern 1 (any _) => exact I : fine.
#[export] Hint Extern 1 (forall _, any _) => (intro; exact I) : fine.

Ltac fine_step :=
  match goal with
  | |- fine _ _ _ _ (bind _ _) =>
      eapply fine_bind; [first [solve [eauto 3 with fine] | apply (fine_any _ _ _ any)]
        |intro; let H := fresh "H" in intro H; try match type of H with _ = ?y => subst y end]
  | |- fine _ _ _ _ (ret _) => apply fine_ret
  | |- fine _ _ _ _ (when _ _) => apply fine_when; [try exact I|intro]
  | |- fine _ _ _ _ (for_ _ _) => apply fine_for; [try exact I|intros ? ?]
  | |- fine _ _ _ _ (for_exit _ _) => apply fine_for_exit; intros ? ?
  | |- fine _ _ _ _ (match ?x with _ => _ end) => destruct x eqn:?
  | |- fine _ _ _ _ (let '_ := ?x in _) => destruct x eqn:?
  | |- any _ => exact I
  end.
Ltac solve_fine := repeat first [fine_step | solve [eauto 3 with fine]
  | eapply fine_any; solve [eauto 3 with fine]].

(** ** Records with updatable fields

    [setf field v r] is the record [r] with [field] set to [v]; the class
    instance is built from the record's eta expansion. *)

Class Eta (R : Type) := eta : R -> R.
Class Field {R T : Type} (f : R -> T) := updf : (T -> T) -> R -> R.

Ltac build_field f :=
  match goal with
  | |- (?T -> ?T) -> ?R -> ?R =>
      let g := fresh "g" in let r := fresh "r" in
      intros g r;
      let i := constr:(_ : Eta R) in
      let e := eval red in (i r) in
      let p := eval pattern (f r) in e in
      match p with ?h _ => let t := eval cbv beta in (h (g (f r))) in exact t end
  end.
#[export] Hint Extern 1 (Field ?f) => (unfold Field; build_field f) : typeclass_instances.

Definition setf {R T : Type} (f : R -> T) `{!Field f} (v : T) (r : R) : R :=
  updf (fun _ => v) r.
Arguments setf {R T} f {_} v r /.
Arguments updf {R T} f {_} g r /.
