(* ===== verification/Regs.v ===== *)
(** * Register map and identifiers

    The constants and accessor macros of include/rio_regs.h, include/rio.h,
    rio.h and include/rio_ids.h that the modelled code uses, under their source
    names, and the facts about bit fields that the components share. *)

From S2P Require Import Prelude.

(** ** include/rio_regs.h: capability and command/status registers *)

Definition RIO_DEV_ID_CAR : Z := 0x00.
Definition RIO_DEV_INFO_CAR : Z := 0x04.
Definition RIO_ASM_ID_CAR : Z := 0x08.
Definition RIO_ASM_INFO_CAR : Z := 0x0c.
Definition RIO_EXT_FTR_PTR_MASK : Z := 0x0000ffff.
Definition RIO_PEF_CAR : Z := 0x10.
Definition RIO_PEF_SWITCH : Z := 0x10000000.
Definition RIO_PEF_MULTIPORT : Z := 0x08000000.
Definition RIO_PEF_EXT_RT : Z := 0x00000200.
Definition RIO_PEF_EXT_FEATURES : Z := 0x00000008.
Definition RIO_SWP_INFO_CAR : Z := 0x14.
Definition RIO_SWP_INFO_PORT_TOTAL_MASK : Z := 0x0000ff00.
Definition RIO_SWP_INFO_PORT_NUM_MASK : Z := 0x000000ff.
Definition RIO_GET_TOTAL_PORTS (x : Z) : Z :=
  Z.shiftr (Z.land x RIO_SWP_INFO_PORT_TOTAL_MASK) 8.
Definition RIO_GET_PORT_NUM (x : Z) : Z := Z.land x RIO_SWP_INFO_PORT_NUM_MASK.
Definition RIO_SRC_OPS_CAR : Z := 0x18.
Definition RIO_SRC_OPS_PORT_WRITE : Z := 0x00000004.
Definition RIO_DST_OPS_CAR : Z := 0x1c.
Definition RIO_SRC_OPS_DOORBELL : Z := 0x00000400.
Definition RIO_DST_OPS_DOORBELL : Z := 0x00000400.
Definition RIO_SRC_OPS_DATA_MSG : Z := 0x00000800.
Definition RIO_DST_OPS_DATA_MSG : Z := 0x00000800.
Definition RIO_OPS_READ : Z := 0x00008000.
Definition RIO_OPS_WRITE : Z := 0x00004000.
Definition RIO_OPS_ATOMIC_TST_SWP : Z := 0x00000100.
Definition RIO_OPS_ATOMIC_INC : Z := 0x00000080.
Definition RIO_OPS_ATOMIC_DEC : Z := 0x00000040.
Definition RIO_OPS_ATOMIC_SET : Z := 0x00000020.
Definition RIO_OPS_ATOMIC_CLR : Z := 0x00000010.
Definition RIO_SWITCH_RT_LIMIT : Z := 0x34.
Definition RIO_RT_MAX_DESTID : Z := 0x0000ffff.
Definition RIO_DID_CSR : Z := 0x60.
Definition RIO_HOST_DID_LOCK_CSR : Z := 0x68.
Definition RIO_COMPONENT_TAG_CSR : Z := 0x6c.
Definition RIO_STD_RTE_CONF_DESTID_SEL_CSR : Z := 0x70.
Definition RIO_STD_RTE_CONF_EXTCFGEN : Z := 0x80000000.
Definition RIO_STD_RTE_CONF_PORT_SEL_CSR : Z := 0x74.
Definition RIO_STD_RTE_DEFAULT_PORT : Z := 0x78.

(** ** Extended feature blocks *)

Definition RIO_EFB_PTR_MASK : Z := 0xffff0000.
Definition RIO_EFB_ID_MASK : Z := 0x0000ffff.
Definition RIO_GET_BLOCK_PTR (x : Z) : Z := Z.shiftr (Z.land x RIO_EFB_PTR_MASK) 16.
Definition RIO_GET_BLOCK_ID (x : Z) : Z := Z.land x RIO_EFB_ID_MASK.
Definition RIO_EFB_SER_EP_M1_ID : Z := 0x0001.
Definition RIO_EFB_SER_EP_SW_M1_ID : Z := 0x0002.
Definition RIO_EFB_SER_EPF_M1_ID : Z := 0x0003.
Definition RIO_EFB_SER_EP_ID : Z := 0x0004.
Definition RIO_EFB_SER_EP_REC_ID : Z := 0x0005.
Definition RIO_EFB_SER_EP_FREE_ID : Z := 0x0006.
Definition RIO_EFB_ERR_MGMNT : Z := 0x0007.
Definition RIO_EFB_SER_EPF_SW_M1_ID : Z := 0x0009.
Definition RIO_EFB_SER_EP_M2_ID : Z := 0x0011.
Definition RIO_EFB_SER_EP_SW_M2_ID : Z := 0x0012.
Definition RIO_EFB_SER_EPF_M2_ID : Z := 0x0013.
Definition RIO_EFB_ERR_MGMNT_HS : Z := 0x0017.
Definition RIO_EFB_SER_EPF_SW_M2_ID : Z := 0x0019.

(** ** LP-Serial physical layer registers; [n] port number, [m] register map *)

Definition RIO_PORT_LINKTO_CTL_CSR : Z := 0x0020.
Definition RIO_PORT_GEN_CTL_CSR : Z := 0x003c.
Definition RIO_PORT_GEN_MASTER : Z := 0x40000000.
Definition RIO_PORT_GEN_DISCOVERED : Z := 0x20000000.
Definition RIO_PORT_N_MNT_REQ_CSR (n m : Z) : Z := 0x40 + n * (0x20 * m).
Definition RIO_MNT_REQ_CMD_IS : Z := 0x04.
Definition RIO_PORT_N_MNT_RSP_CSR (n m : Z) : Z := 0x44 + n * (0x20 * m).
Definition RIO_PORT_N_MNT_RSP_RVAL : Z := 0x80000000.
Definition RIO_PORT_N_MNT_RSP_ASTAT : Z := 0x000007e0.
Definition RIO_PORT_N_MNT_RSP_LSTAT : Z := 0x0000001f.
Definition RIO_PORT_N_ACK_STS_CSR (n : Z) : Z := 0x48 + n * 0x20.
Definition RIO_PORT_N_ACK_CLEAR : Z := 0x80000000.
Definition RIO_PORT_N_ACK_INBOUND : Z := 0x3f000000.
Definition RIO_PORT_N_ACK_OUTSTAND : Z := 0x00003f00.
Definition RIO_PORT_N_ACK_OUTBOUND : Z := 0x0000003f.
Definition RIO_PORT_N_ERR_STS_CSR (n m : Z) : Z := 0x58 + n * (0x20 * m).
Definition RIO_PORT_N_ERR_STS_OUT_ES : Z := 0x00010000.
Definition RIO_PORT_N_ERR_STS_INP_ES : Z := 0x00000100.
Definition RIO_PORT_N_ERR_STS_PORT_UA : Z := 0x00000008.
Definition RIO_PORT_N_ERR_STS_PORT_OK : Z := 0x00000002.
Definition RIO_PORT_N_ERR_STS_PORT_UNINIT : Z := 0x00000001.
Definition RIO_PORT_N_CTL_CSR (n m : Z) : Z := 0x5c + n * (0x20 * m).
Definition RIO_PORT_N_CTL_PWIDTH : Z := 0xc0000000.
Definition RIO_PORT_N_CTL_PWIDTH_4 : Z := 0x40000000.
Definition RIO_PORT_N_CTL_LOCKOUT : Z := 0x00000002.
Definition RIO_PORT_N_CTL_EN_RX : Z := 0x00200000.
Definition RIO_PORT_N_CTL_EN_TX : Z := 0x00400000.
Definition RIO_PORT_N_OB_ACK_CSR (n : Z) : Z := 0x60 + n * 0x40.
Definition RIO_PORT_N_OB_ACK_CLEAR : Z := 0x80000000.
Definition RIO_PORT_N_IB_ACK_CSR (n : Z) : Z := 0x64 + n * 0x40.

(** ** Error management extensions *)

Definition RIO_EM_LTL_ERR_DETECT : Z := 0x008.
Definition REM_LTL_ERR_ILLTRAN : Z := 0x08000000.
Definition REM_LTL_ERR_UNSOLR : Z := 0x00800000.
Definition REM_LTL_ERR_UNSUPTR : Z := 0x00400000.
Definition REM_LTL_ERR_IMPSPEC : Z := 0x000000ff.
Definition RIO_EM_PW_TGT_DEVID : Z := 0x028.
Definition RIO_EM_PW_TGT_DEVID_D8 : Z := 0x00ff0000.
Definition RIO_EM_PW_TGT_DEVID_DEV16 : Z := 0x00008000.
Definition RIO_EM_PW_TX_CTRL : Z := 0x034.
Definition RIO_EM_PW_TX_CTRL_PW_DIS : Z := 0x00000001.
Definition RIO_EM_PN_ERR_DETECT (x : Z) : Z := 0x040 + x * 0x40.
Definition REM_PED_IMPL_SPEC : Z := 0x80000000.
Definition RIO_EM_PN_ERRRATE_EN (x : Z) : Z := 0x044 + x * 0x40.
Definition RIO_EM_PN_ERRRATE_EN_OK2U : Z := 0x40000000.
Definition RIO_EM_PN_ERRRATE_EN_U2OK : Z := 0x10000000.
Definition RIO_BC_RT_CTL_CSR : Z := 0x020.
Definition RIO_RT_ENTRY_DROP_PKT : Z := 0x300.

(** ** include/rio.h *)

Definition RIO_INVALID_DESTID : Z := 0xffff.
Definition RIO_MAINT_SPACE_SZ : Z := 0x1000000.
Definition RIO_MAX_MPORTS : Z := 8.
Definition RIO_GLOBAL_TABLE : Z := 0xff.
Definition RIO_INVALID_ROUTE : Z := 0xff.
Definition RIO_MAX_ROUTE_ENTRIES (size : Z) : Z :=
  if truthy size then Z.shiftl 1 16 else Z.shiftl 1 8.
Definition RIO_ANY_DESTID (size : Z) : Z := if truthy size then 0xffff else 0xff.
Definition RIO_MAX_MBOX : Z := 4.
Definition RIO_BAD_SIZE : Z := 0x81.
Definition RIO_CTAG_UDEVID : Z := 0x0001ffff.
Definition RIO_SCAN_ENUM_NO_WAIT : Z := 0x00000001.
Definition RIO_ANY_ID : Z := 0xFFFF.

(** ** rio.h *)

Definition RIO_MAX_CHK_RETRY : Z := 3.
Definition RIO_MPORT_ANY : Z := -1.
Definition RIO_GET_DID (size x : Z) : Z :=
  if truthy size then Z.land x 0xffff else Z.shiftr (Z.land x 0x00ff0000) 16.
Definition RIO_SET_DID (size x : Z) : Z :=
  if truthy size then Z.land x 0xffff else Z.shiftl (Z.land x 0x000000ff) 16.

(** ** include/rio_ids.h *)

Definition RIO_VID_TUNDRA : Z := 0x000d.
Definition RIO_DID_TSI568 : Z := 0x0568.
Definition RIO_DID_TSI572 : Z := 0x0572.
Definition RIO_DID_TSI574 : Z := 0x0574.
Definition RIO_DID_TSI577 : Z := 0x0577.
Definition RIO_DID_TSI578 : Z := 0x0578.
Definition RIO_VID_IDT : Z := 0x0038.
Definition RIO_DID_IDT70K200 : Z := 0x0310.
Definition RIO_DID_IDTCPS8 : Z := 0x035c.
Definition RIO_DID_IDTCPS12 : Z := 0x035d.
Definition RIO_DID_IDTCPS16 : Z := 0x035b.
Definition RIO_DID_IDTCPS6Q : Z := 0x035f.
Definition RIO_DID_IDTCPS10Q : Z := 0x035e.
Definition RIO_DID_IDTCPS1848 : Z := 0x0374.
Definition RIO_DID_IDTCPS1432 : Z := 0x0375.
Definition RIO_DID_IDTCPS1616 : Z := 0x0379.
Definition RIO_DID_IDTVPS1616 : Z := 0x0377.
Definition RIO_DID_IDTSPS1616 : Z := 0x0378.
Definition RIO_DID_IDTRXS1632 : Z := 0x80e5.
Definition RIO_DID_IDTRXS2448 : Z := 0x80e6.

(** ** Field facts *)

Lemma RIO_GET_TOTAL_PORTS_div x : RIO_GET_TOTAL_PORTS x = (x / 2 ^ 8) mod 2 ^ 8.
Proof.
  unfold RIO_GET_TOTAL_PORTS, RIO_SWP_INFO_PORT_TOTAL_MASK.
  rewrite Z.shiftr_land, Z.shiftr_div_pow2 by lia.
  change (Z.shiftr 0x0000ff00 8) with (2 ^ 8 - 1). by apply land_mask.
Qed.

Lemma RIO_GET_TOTAL_PORTS_range x : 0 <= RIO_GET_TOTAL_PORTS x < 2 ^ 8.
Proof. rewrite RIO_GET_TOTAL_PORTS_div. apply Z.mod_pos_bound. lia. Qed.

Lemma RIO_GET_PORT_NUM_mod x : RIO_GET_PORT_NUM x = x mod 2 ^ 8.
Proof. unfold RIO_GET_PORT_NUM. by apply (land_mask x 8). Qed.

Lemma RIO_GET_PORT_NUM_range x : 0 <= RIO_GET_PORT_NUM x < 2 ^ 8.
Proof. rewrite RIO_GET_PORT_NUM_mod. apply Z.mod_pos_bound. lia. Qed.

Lemma RIO_GET_BLOCK_PTR_div x : RIO_GET_BLOCK_PTR x = (x / 2 ^ 16) mod 2 ^ 16.
Proof.
  unfold RIO_GET_BLOCK_PTR, RIO_EFB_PTR_MASK.
  rewrite Z.shiftr_land, Z.shiftr_div_pow2 by lia.
  change (Z.shiftr 0xffff0000 16) with (2 ^ 16 - 1). by apply land_mask.
Qed.

Lemma RIO_GET_BLOCK_ID_mod x : RIO_GET_BLOCK_ID x = x mod 2 ^ 16.
Proof. unfold RIO_GET_BLOCK_ID. by apply (land_mask x 16). Qed.

(** A header word built from a pointer and an identifier gives both back. *)
Lemma efb_header_fields p i :
  0 <= p < 2 ^ 16 -> 0 <= i < 2 ^ 16 ->
  RIO_GET_BLOCK_PTR (p * 2 ^ 16 + i) = p /\ RIO_GET_BLOCK_ID (p * 2 ^ 16 + i) = i.
Proof.
  intros Hp Hi. rewrite RIO_GET_BLOCK_PTR_div, RIO_GET_BLOCK_ID_mod.
  rewrite Z.div_add_l, (Z.div_small i), Z.add_0_r, Z.mod_small by lia.
  by rewrite Z.add_comm, Z.mod_add, Z.mod_small by lia.
Qed.

Lemma RIO_GET_DID_range size x :
  0 <= RIO_GET_DID size x < (if truthy size then 2 ^ 16 else 2 ^ 8).
Proof.
  unfold RIO_GET_DID. destruct (truthy size).
  - rewrite land_ffff. apply Z.mod_pos_bound. lia.
  - rewrite Z.shiftr_land. change (Z.shiftr 0x00ff0000 16) with (2 ^ 8 - 1).
    rewrite land_mask by lia. apply Z.mod_pos_bound. lia.
Qed.

Lemma RIO_GET_SET_DID size did :
  RIO_GET_DID size (RIO_SET_DID size did) =
  if truthy size then did mod 2 ^ 16 else did mod 2 ^ 8.
Proof.
  unfold RIO_GET_DID, RIO_SET_DID. destruct (truthy size).
  - rewrite <- Z.land_assoc, Z.land_diag. apply land_ffff.
  - rewrite Z.shiftr_land, Z.shiftr_shiftl_l by lia.
    change (16 - 16) with 0. rewrite Z.shiftl_0_r.
    change (Z.shiftr 0x00ff0000 16) with 0xff.
    rewrite <- Z.land_assoc, Z.land_diag. apply land_ff.
Qed.
