(* ===== verification/State.v ===== *)
(** * Kernel state of the RapidIO core

    The data structures of include/rio.h and the file-level state of rio.c and
    rio-scan.c.  Objects that the C code reaches through pointers live in heaps
    ([gmap ptr _]); list heads are lists of pointers in list order; the hardware
    and everything else outside the driver is the type [W], reached through the
    operations of [rio_ops] and of the classes [KernelEnv] and [Externals]. *)

From S2P Require Import Prelude Regs.

Abbreviation ptr := positive.

(** ** Resources (struct resource of the kernel's ioport.h) *)

(** A resource with the ranges claimed inside it.  Claimed ranges are named by
    their bounds. *)
Record resource := mk_resource {
  res_start : Z;
  res_end : Z;
  res_flags : Z;
  res_child : list (Z * Z);
}.
#[export] Instance eta_resource : Eta resource := fun r =>
  mk_resource (res_start r) (res_end r) (res_flags r) (res_child r).

(** A zeroed struct resource. *)
Definition zero_resource : resource := mk_resource 0 0 0 [].

Definition RIO_RESOURCE_DOORBELL : Z := 0x00000200.
Definition RIO_RESOURCE_MAILBOX : Z := 0x00000400.
Definition RIO_DOORBELL_RESOURCE : nat := 0.
Definition RIO_INB_MBOX_RESOURCE : nat := 1.
Definition RIO_OUTB_MBOX_RESOURCE : nat := 2.
Definition RIO_MAX_DEV_RESOURCES : nat := 16.
Definition RIO_MAX_MPORT_RESOURCES : nat := 16.

Definition rio_init_mbox_res (start end_ : Z) : resource :=
  mk_resource start end_ RIO_RESOURCE_MAILBOX [].
Definition rio_init_dbell_res (start end_ : Z) : resource :=
  mk_resource (u16 start) (u16 end_) RIO_RESOURCE_DOORBELL [].

(** ** Switches and devices *)

(** The addresses of the static [rio_switch_ops] tables of switches/. *)
Inductive switch_ops_ptr :=
| idtcps_ops_p | tsi568_ops_p | tsi57x_ops_p | idtg2_ops_p | idtg3_ops_p.
#[export] Instance switch_ops_ptr_eq_dec : EqDecision switch_ops_ptr.
Proof. solve_decision. Defined.

(** [rs_route_table] is [None] when the array is not allocated. *)
Record rio_switch := mk_rio_switch {
  rs_route_table : option (list Z);
  rs_port_ok : Z;
  rs_ops : option switch_ops_ptr;
  rs_nextdev : list (option ptr);
}.
#[export] Instance eta_rio_switch : Eta rio_switch := fun r =>
  mk_rio_switch (rs_route_table r) (rs_port_ok r) (rs_ops r) (rs_nextdev r).

Inductive rio_device_state :=
| RIO_DEVICE_INITIALIZING | RIO_DEVICE_RUNNING | RIO_DEVICE_GONE | RIO_DEVICE_SHUTDOWN.
#[export] Instance rio_device_state_eq_dec : EqDecision rio_device_state.
Proof. solve_decision. Defined.

(** [rd_ref] is the reference count of the embedded struct device;
    [rd_rswitch] is [None] for a device allocated without the trailing
    struct rio_switch. *)
Record rio_dev := mk_rio_dev {
  rd_net : option ptr;
  rd_do_enum : bool;
  rd_did : Z;
  rd_vid : Z;
  rd_device_rev : Z;
  rd_asm_did : Z;
  rd_asm_vid : Z;
  rd_asm_rev : Z;
  rd_efptr : Z;
  rd_pef : Z;
  rd_swpinfo : Z;
  rd_src_ops : Z;
  rd_dst_ops : Z;
  rd_comp_tag : Z;
  rd_phys_efptr : Z;
  rd_phys_rmap : Z;
  rd_em_efptr : Z;
  rd_dma_mask : Z;
  rd_driver : option ptr;
  rd_riores : list resource;
  rd_pwcback : option ptr;
  rd_destid : Z;
  rd_hopcount : Z;
  rd_prev : option ptr;
  rd_state : rio_device_state;
  rd_ref : Z;
  rd_rswitch : option rio_switch;
}.
#[export] Instance eta_rio_dev : Eta rio_dev := fun r =>
  mk_rio_dev (rd_net r) (rd_do_enum r) (rd_did r) (rd_vid r) (rd_device_rev r)
    (rd_asm_did r) (rd_asm_vid r) (rd_asm_rev r) (rd_efptr r) (rd_pef r)
    (rd_swpinfo r) (rd_src_ops r) (rd_dst_ops r) (rd_comp_tag r)
    (rd_phys_efptr r) (rd_phys_rmap r) (rd_em_efptr r) (rd_dma_mask r)
    (rd_driver r) (rd_riores r) (rd_pwcback r) (rd_destid r) (rd_hopcount r)
    (rd_prev r) (rd_state r) (rd_ref r) (rd_rswitch r).

(** kzalloc of a struct rio_dev, without and with the trailing switch. *)
Definition zero_rio_dev (sw : option rio_switch) : rio_dev :=
  mk_rio_dev None false 0 0 0 0 0 0 0 0 0 0 0 0 0 0 0 0 None
    (replicate RIO_MAX_DEV_RESOURCES zero_resource) None 0 0 None
    RIO_DEVICE_INITIALIZING 0 sw.

Record rio_device_id := mk_rio_device_id {
  id_did : Z; id_vid : Z; id_asm_did : Z; id_asm_vid : Z;
}.

Definition RIO_DEVICE (dev ven : Z) : rio_device_id :=
  mk_rio_device_id dev ven RIO_ANY_ID RIO_ANY_ID.

(** union rio_pw_msg, seen through its [em] member. *)
Record rio_pw_msg := mk_rio_pw_msg {
  pw_comptag : Z; pw_errdetect : Z; pw_is_port : Z; pw_ltlerrdet : Z;
}.

(** ** Master ports *)

Record rio_mport_attr := mk_rio_mport_attr {
  attr_flags : Z; attr_link_speed : Z; attr_link_width : Z;
  attr_dma_max_sge : Z; attr_dma_max_size : Z; attr_dma_align : Z;
}.

(** struct rio_ops.  A read callback returns its status and the contents of
    [*data], which the caller has set to zero before the call.  The callbacks
    that may be absent are options. *)
Record rio_ops (W : Type) := mk_rio_ops {
  op_lcread : ptr -> Z -> Z -> Z -> W -> (Z * Z) * W;
  op_lcwrite : ptr -> Z -> Z -> Z -> Z -> W -> Z * W;
  op_cread : ptr -> Z -> Z -> Z -> Z -> Z -> W -> (Z * Z) * W;
  op_cwrite : ptr -> Z -> Z -> Z -> Z -> Z -> Z -> W -> Z * W;
  op_dsend : ptr -> Z -> Z -> Z -> W -> Z * W;
  op_pwenable : option (ptr -> Z -> W -> Z * W);
  op_open_outb_mbox : option (ptr -> ptr -> Z -> Z -> W -> Z * W);
  op_close_outb_mbox : option (ptr -> Z -> W -> W);
  op_open_inb_mbox : option (ptr -> ptr -> Z -> Z -> W -> Z * W);
  op_close_inb_mbox : option (ptr -> Z -> W -> W);
  op_map_inb : option (ptr -> Z -> Z -> Z -> Z -> W -> Z * W);
  op_unmap_inb : option (ptr -> Z -> W -> W);
  op_query_mport : option (ptr -> rio_mport_attr -> W -> (Z * rio_mport_attr) * W);
  op_map_outb : option (ptr -> Z -> Z -> Z -> Z -> W -> (Z * Z) * W);
  op_unmap_outb : option (ptr -> Z -> Z -> W -> W);
  op_add_outb_message : ptr -> Z -> Z -> list Z -> Z -> W -> Z * W;
  op_add_inb_buffer : ptr -> Z -> ptr -> W -> Z * W;
  op_get_inb_message : ptr -> Z -> W -> option (ptr * list Z) * W;
}.
Arguments mk_rio_ops {W}.
Arguments op_lcread {W}. Arguments op_lcwrite {W}. Arguments op_cread {W}.
Arguments op_cwrite {W}. Arguments op_dsend {W}. Arguments op_pwenable {W}.
Arguments op_open_outb_mbox {W}. Arguments op_close_outb_mbox {W}.
Arguments op_open_inb_mbox {W}. Arguments op_close_inb_mbox {W}.
Arguments op_map_inb {W}. Arguments op_unmap_inb {W}. Arguments op_query_mport {W}.
Arguments op_map_outb {W}. Arguments op_unmap_outb {W}.
Arguments op_add_outb_message {W}. Arguments op_add_inb_buffer {W}. Arguments op_get_inb_message {W}.

(** Callbacks and the pointers handed back to them are opaque addresses. *)
Record rio_msg := mk_rio_msg { msg_res : option (Z * Z); msg_mcback : option ptr }.
#[export] Instance eta_rio_msg : Eta rio_msg := fun r =>
  mk_rio_msg (msg_res r) (msg_mcback r).
Record rio_dbell := mk_rio_dbell {
  db_res : Z * Z; db_dinb : ptr; db_dev_id : ptr;
}.
Record rio_pwrite := mk_rio_pwrite { pw_pwcback : ptr; pw_context : ptr }.

(** [mp_nnode] tells whether the list node is linked. *)
Record rio_mport (W : Type) := mk_rio_mport {
  mp_dbells : list rio_dbell;
  mp_pwrites : list rio_pwrite;
  mp_nnode : bool;
  mp_net : option ptr;
  mp_riores : list resource;
  mp_inb_msg : list rio_msg;
  mp_outb_msg : list rio_msg;
  mp_host_deviceid : Z;
  mp_ops : rio_ops W;
  mp_id : Z;
  mp_index : Z;
  mp_sys_size : Z;
  mp_phys_efptr : Z;
  mp_phys_rmap : Z;
  mp_nscan : option ptr;
  mp_state : rio_device_state;
  mp_pwe_refcnt : Z;
}.
Arguments mk_rio_mport {W}.
Arguments mp_dbells {W}. Arguments mp_pwrites {W}. Arguments mp_nnode {W}.
Arguments mp_net {W}. Arguments mp_riores {W}. Arguments mp_inb_msg {W}.
Arguments mp_outb_msg {W}. Arguments mp_host_deviceid {W}. Arguments mp_ops {W}.
Arguments mp_id {W}. Arguments mp_index {W}. Arguments mp_sys_size {W}.
Arguments mp_phys_efptr {W}. Arguments mp_phys_rmap {W}. Arguments mp_nscan {W}.
Arguments mp_state {W}. Arguments mp_pwe_refcnt {W}.
#[export] Instance eta_rio_mport W : Eta (rio_mport W) := fun r =>
  mk_rio_mport (mp_dbells r) (mp_pwrites r) (mp_nnode r) (mp_net r) (mp_riores r)
    (mp_inb_msg r) (mp_outb_msg r) (mp_host_deviceid r) (mp_ops r) (mp_id r)
    (mp_index r) (mp_sys_size r) (mp_phys_efptr r) (mp_phys_rmap r) (mp_nscan r)
    (mp_state r) (mp_pwe_refcnt r).

(** ** Networks *)

(** struct rio_id_table of rio-scan.c; [idt_table] is the bit array. *)
Record rio_id_table := mk_rio_id_table {
  idt_start : Z; idt_max : Z; idt_table : list bool;
}.
#[export] Instance eta_rio_id_table : Eta rio_id_table := fun r =>
  mk_rio_id_table (idt_start r) (idt_max r) (idt_table r).

(** The nodes of [switches] are named by the devices that contain them. *)
Record rio_net := mk_rio_net {
  net_linked : bool;
  net_devices : list ptr;
  net_switches : list ptr;
  net_mports : list ptr;
  net_hport : option ptr;
  net_id : Z;
  net_enum_data : option rio_id_table;
  net_release : bool;
}.
#[export] Instance eta_rio_net : Eta rio_net := fun r =>
  mk_rio_net (net_linked r) (net_devices r) (net_switches r) (net_mports r)
    (net_hport r) (net_id r) (net_enum_data r) (net_release r).

Record rio_scan_node := mk_rio_scan_node { sn_mport_id : Z; sn_ops : ptr }.

(** ** The whole state *)

Record kstate (W : Type) := mk_kstate {
  ks_hw : W;
  ks_allocs : Z;
  ks_fresh : ptr;
  ks_devs : gmap ptr rio_dev;
  ks_nets : gmap ptr rio_net;
  ks_mports : gmap ptr (rio_mport W);
  rio_devices : list ptr;
  rio_nets : list ptr;
  rio_mports : list ptr;
  rio_scans : list rio_scan_node;
  next_portid : Z;
  hdid : list Z;
  ids_num : Z;
  next_destid : Z;
  next_comptag : Z;
}.
Arguments mk_kstate {W}.
Arguments ks_hw {W}. Arguments ks_allocs {W}. Arguments ks_fresh {W}.
Arguments ks_devs {W}. Arguments ks_nets {W}. Arguments ks_mports {W}.
Arguments rio_devices {W}. Arguments rio_nets {W}. Arguments rio_mports {W}.
Arguments rio_scans {W}. Arguments next_portid {W}. Arguments hdid {W}.
Arguments ids_num {W}. Arguments next_destid {W}. Arguments next_comptag {W}.
#[export] Instance eta_kstate W : Eta (kstate W) := fun s =>
  mk_kstate (ks_hw s) (ks_allocs s) (ks_fresh s) (ks_devs s) (ks_nets s)
    (ks_mports s) (rio_devices s) (rio_nets s) (rio_mports s) (rio_scans s)
    (next_portid s) (hdid s) (ids_num s) (next_destid s) (next_comptag s).

Abbreviation KM W := (M (kstate W)).

(** The state with the hardware replaced. *)
Definition with_hw {W} (w : W) (s : kstate W) : kstate W := setf ks_hw w s.

(** ** What lies outside the repository *)

(** The kernel services the code calls: memory allocation that may fail, delays
    and the tick counter (jiffies, an unsigned long, HZ ticks per second),
    module reference counts, and the resource tree of kernel/resource.c.
    [env_indet] is the indeterminate contents of an uninitialised variable. *)
Class KernelEnv (W : Type) := {
  env_alloc : W -> bool * W;
  env_udelay : Z -> W -> W;
  env_jiffies : W -> Z;
  env_HZ : Z;
  env_try_module_get : ptr -> W -> bool * W;
  env_module_put : ptr -> W -> W;
  env_indet : W -> Z;
  env_request_resource : resource -> Z * Z -> Z * resource;
  env_release_resource : resource -> Z * Z -> Z * resource;
}.

(** What kernel/resource.c documents of the two calls on a root whose claimed
    ranges are [res_child]: a request succeeds exactly when the range lies in
    the root and overlaps no claimed range, and then claims it; a release of a
    claimed range succeeds and returns it; failures are negative and change
    nothing. *)
Definition ranges_overlap (a b : Z * Z) : bool :=
  (a.1 <=? b.2) && (b.1 <=? a.2).
Definition range_free (root : resource) (r : Z * Z) : bool :=
  (res_start root <=? r.1) && (r.2 <=? res_end root) && (r.1 <=? r.2) &&
  forallb (fun c => negb (ranges_overlap r c)) (res_child root).

Class ResourceLaws (W : Type) `{KernelEnv W} := {
  request_free : forall root r, range_free root r = true ->
    env_request_resource root r = (0, setf res_child (r :: res_child root) root);
  request_busy : forall root r, range_free root r = false ->
    env_request_resource root r = (- EBUSY, root);
  release_claimed : forall root r, r ∈ res_child root ->
    exists l1 l2, res_child root = l1 ++ r :: l2 /\
      env_release_resource root r = (0, setf res_child (l1 ++ l2) root);
  release_unclaimed : forall root r, r ∉ res_child root ->
    env_release_resource root r = (- EINVAL, root);
}.

(** Code reached through function pointers and the driver core, which may call
    back into the subsystem: it acts on the whole state.  [ext_net_children] are
    the RapidIO devices below a net in the device model, in the order in which
    device_for_each_child visits them; [ext_work_order] is the order in which a
    work queue runs what has been queued. *)
Class Externals (W : Type) := {
  ext_device_register_dev : ptr -> KM W Z;
  ext_device_unregister_dev : ptr -> KM W unit;
  ext_device_register_net : ptr -> KM W Z;
  ext_device_unregister_net : ptr -> KM W unit;
  ext_device_register_mport : ptr -> KM W Z;
  ext_device_unregister_mport : ptr -> KM W unit;
  ext_device_create_file : ptr -> KM W Z;
  ext_device_remove_file : ptr -> KM W unit;
  ext_device_create_bin_file : ptr -> KM W Z;
  ext_device_remove_bin_file : ptr -> KM W unit;
  ext_net_children : ptr -> kstate W -> list ptr;
  ext_alloc_workqueue : KM W bool;
  ext_destroy_workqueue : KM W unit;
  ext_work_order : list ptr -> kstate W -> list ptr;
  ext_dev_pwcback : ptr -> ptr -> rio_pw_msg -> Z -> KM W Z;
  ext_mport_pwcback : ptr -> ptr -> ptr -> rio_pw_msg -> Z -> KM W Z;
  ext_scan_enumerate : ptr -> ptr -> Z -> KM W Z;
  ext_scan_discover : ptr -> ptr -> Z -> KM W Z;
}.

(** Externals that do nothing, for the witnesses. *)
Definition idle_externals {W} : Externals W := {|
  ext_device_register_dev _ := ret 0; ext_device_unregister_dev _ := ret tt;
  ext_device_register_net _ := ret 0; ext_device_unregister_net _ := ret tt;
  ext_device_register_mport _ := ret 0; ext_device_unregister_mport _ := ret tt;
  ext_device_create_file _ := ret 0; ext_device_remove_file _ := ret tt;
  ext_device_create_bin_file _ := ret 0; ext_device_remove_bin_file _ := ret tt;
  ext_net_children _ _ := []; ext_work_order l _ := l;
  ext_alloc_workqueue := ret true; ext_destroy_workqueue := ret tt;
  ext_dev_pwcback _ _ _ _ := ret 0; ext_mport_pwcback _ _ _ _ _ := ret 0;
  ext_scan_enumerate _ _ _ := ret 0; ext_scan_discover _ _ _ := ret 0;
|}.

(** ** Primitive steps *)

Section primitives.
Context {W : Type} `{!KernelEnv W}.

Definition hw_call {A} (g : W -> A * W) : KM W A := fun s =>
  let '(a, w) := g (ks_hw s) in Done a (with_hw w s).

Definition hw_do (g : W -> W) : KM W unit :=
  modify (fun s => with_hw (g (ks_hw s)) s).

Definition udelay (us : Z) : KM W unit := hw_do (env_udelay us).
Definition mdelay (ms : Z) : KM W unit := udelay (1000 * ms).
Definition msleep (ms : Z) : KM W unit := udelay (1000 * ms).
Definition try_module_get (owner : ptr) : KM W bool :=
  hw_call (env_try_module_get owner).
Definition module_put (owner : ptr) : KM W unit := hw_do (env_module_put owner).

(** The contents of an uninitialised [u32] variable. *)
Definition uninit : KM W Z := gets (fun s => u32 (env_indet (ks_hw s))).

(** kzalloc/kmalloc: whether memory was available; counts live objects. *)
Definition kzalloc : KM W bool :=
  ok <- hw_call env_alloc ;;
  when ok (modify (fun s => setf ks_allocs (ks_allocs s + 1) s)) ;;;
  ret ok.
Definition kfree : KM W unit :=
  modify (fun s => setf ks_allocs (ks_allocs s - 1) s).

Definition fresh_ptr : KM W ptr := fun s =>
  Done (ks_fresh s) (setf ks_fresh (Pos.succ (ks_fresh s)) s).

Definition get_mport (p : ptr) : KM W (rio_mport W) :=
  o <- gets (fun s => ks_mports s !! p) ;; deref o.
Definition upd_mport (p : ptr) (g : rio_mport W -> rio_mport W) : KM W unit :=
  m <- get_mport p ;;
  modify (fun s => setf ks_mports (<[p := g m]> (ks_mports s)) s).

Definition get_dev (p : ptr) : KM W rio_dev :=
  o <- gets (fun s => ks_devs s !! p) ;; deref o.
Definition upd_dev (p : ptr) (g : rio_dev -> rio_dev) : KM W unit :=
  d <- get_dev p ;;
  modify (fun s => setf ks_devs (<[p := g d]> (ks_devs s)) s).

Definition get_net (p : ptr) : KM W rio_net :=
  o <- gets (fun s => ks_nets s !! p) ;; deref o.
Definition upd_net (p : ptr) (g : rio_net -> rio_net) : KM W unit :=
  n <- get_net p ;;
  modify (fun s => setf ks_nets (<[p := g n]> (ks_nets s)) s).

(** [rdev->rswitch]: undefined on a device without the trailing switch. *)
Definition get_rswitch (p : ptr) : KM W rio_switch :=
  d <- get_dev p ;; deref (rd_rswitch d).
Definition upd_rswitch (p : ptr) (g : rio_switch -> rio_switch) : KM W unit :=
  sw <- get_rswitch p ;; upd_dev p (setf rd_rswitch (Some (g sw))).

(** [a[i]] and [a[i] = v] on an array of the modelled length. *)
Definition array_get {A} (a : list A) (i : Z) : KM W A :=
  if 0 <=? i then deref (a !! Z.to_nat i) else ub.
Definition array_set {A} (a : list A) (i : Z) (v : A) : KM W (list A) :=
  if (0 <=? i) && (i <? Z.of_nat (length a)) then ret (<[Z.to_nat i := v]> a) else ub.

(** [rdev->net->hport] *)
Definition dev_hport (d : rio_dev) : KM W ptr :=
  n <- deref (rd_net d) ;; net <- get_net n ;; deref (net_hport net).

(** *** Frames *)

(** Everything but the hardware is as before. *)
Definition same_kernel (s s' : kstate W) : Prop := s' = with_hw (ks_hw s') s.

#[export] Instance same_kernel_preorder : PreOrder same_kernel.
Proof.
  split.
  - intros []. reflexivity.
  - intros s1 s2 s3 H1 H2. unfold same_kernel in *.
    etransitivity; [exact H2|]. rewrite H1. reflexivity.
Qed.

Lemma same_kernel_set_hw (s : kstate W) w : same_kernel s (with_hw w s).
Proof. reflexivity. Qed.

Lemma keeps_hw_call {A} (g : W -> A * W) : keeps same_kernel (hw_call g).
Proof.
  intros s a s'. unfold hw_call. destruct (g (ks_hw s)) as [x w].
  intros [=]. subst. apply same_kernel_set_hw.
Qed.

Lemma keeps_hw_do (g : W -> W) : keeps same_kernel (hw_do g).
Proof. intros s a s' [=]. subst. apply same_kernel_set_hw. Qed.

Lemma keeps_udelay us : keeps same_kernel (udelay us).
Proof. apply keeps_hw_do. Qed.
Lemma keeps_mdelay ms : keeps same_kernel (mdelay ms).
Proof. apply keeps_hw_do. Qed.
Lemma keeps_msleep ms : keeps same_kernel (msleep ms).
Proof. apply keeps_hw_do. Qed.
Lemma keeps_try_module_get o : keeps same_kernel (try_module_get o).
Proof. apply keeps_hw_call. Qed.
Lemma keeps_module_put o : keeps same_kernel (module_put o).
Proof. apply keeps_hw_do. Qed.
End primitives.

(** Reading through a heap pointer never changes the state, whatever the
    frame. *)
Section reads.
Context {W : Type} `{!KernelEnv W} (R : kstate W -> kstate W -> Prop) `{!PreOrder R}.

Lemma keeps_uninit : keeps R uninit.
Proof. unfold uninit. solve_frame. Qed.

Lemma keeps_get_mport p : keeps R (get_mport p).
Proof. unfold get_mport. solve_frame. Qed.
Lemma keeps_get_dev p : keeps R (get_dev p).
Proof. unfold get_dev. solve_frame. Qed.
Lemma keeps_get_net p : keeps R (get_net p).
Proof. unfold get_net. solve_frame. Qed.
Lemma keeps_get_rswitch p : keeps R (get_rswitch p).
Proof. unfold get_rswitch. solve_frame. apply keeps_get_dev. Qed.
Lemma keeps_array_get {A} (a : list A) i : keeps R (array_get a i).
Proof. unfold array_get. solve_frame. Qed.
Lemma keeps_array_set {A} (a : list A) i v : keeps R (array_set a i v).
Proof. unfold array_set. solve_frame. Qed.
Lemma keeps_dev_hport d : keeps R (dev_hport d).
Proof. unfold dev_hport. solve_frame. apply keeps_get_net. Qed.
End reads.

#[export] Hint Resolve keeps_hw_call keeps_hw_do keeps_udelay keeps_mdelay
  keeps_msleep keeps_try_module_get keeps_module_put keeps_get_mport keeps_get_dev keeps_get_net
  keeps_get_rswitch keeps_array_get keeps_array_set keeps_dev_hport keeps_uninit : frame.

(** Equations for the successful reads. *)
Section run.
Context {W : Type}.
Implicit Types s : kstate W.

Lemma run_get_mport s p m : ks_mports s !! p = Some m -> get_mport p s = Done m s.
Proof. intros H. unfold get_mport, bind, gets. by rewrite H. Qed.
Lemma run_get_dev s p d : ks_devs s !! p = Some d -> get_dev p s = Done d s.
Proof. intros H. unfold get_dev, bind, gets. by rewrite H. Qed.
Lemma run_get_net s p n : ks_nets s !! p = Some n -> get_net p s = Done n s.
Proof. intros H. unfold get_net, bind, gets. by rewrite H. Qed.
Lemma run_get_rswitch s p d sw :
  ks_devs s !! p = Some d -> rd_rswitch d = Some sw -> get_rswitch p s = Done sw s.
Proof.
  intros H Hsw. unfold get_rswitch. rewrite (bind_Done _ _ _ _ _ (run_get_dev _ _ _ H)).
  by rewrite Hsw.
Qed.
Lemma run_upd_dev s p d g :
  ks_devs s !! p = Some d ->
  upd_dev p g s = Done tt (setf ks_devs (<[p := g d]> (ks_devs s)) s).
Proof.
  intros H. unfold upd_dev. by rewrite (bind_Done _ _ _ _ _ (run_get_dev _ _ _ H)).
Qed.
Lemma run_upd_mport s p m g :
  ks_mports s !! p = Some m ->
  upd_mport p g s = Done tt (setf ks_mports (<[p := g m]> (ks_mports s)) s).
Proof.
  intros H. unfold upd_mport. by rewrite (bind_Done _ _ _ _ _ (run_get_mport _ _ _ H)).
Qed.
Lemma run_upd_net s p n g :
  ks_nets s !! p = Some n ->
  upd_net p g s = Done tt (setf ks_nets (<[p := g n]> (ks_nets s)) s).
Proof.
  intros H. unfold upd_net. by rewrite (bind_Done _ _ _ _ _ (run_get_net _ _ _ H)).
Qed.
Lemma run_array_get {A} s (a : list A) i v :
  0 <= i -> a !! Z.to_nat i = Some v -> array_get a i s = Done v s.
Proof.
  intros Hi Hv. unfold array_get. destruct (Z.leb_spec 0 i); [|lia]. by rewrite Hv.
Qed.
Lemma run_array_set {A} s (a : list A) i v :
  0 <= i < Z.of_nat (length a) ->
  array_set a i v s = Done (<[Z.to_nat i := v]> a) s.
Proof.
  intros Hi. unfold array_set.
  destruct (Z.leb_spec 0 i), (Z.ltb_spec i (Z.of_nat (length a))); done || lia.
Qed.
Lemma run_dev_hport s d n net h :
  rd_net d = Some n -> ks_nets s !! n = Some net -> net_hport net = Some h ->
  dev_hport d s = Done h s.
Proof.
  intros H1 H2 H3. unfold dev_hport. rewrite H1. cbn [deref]. rewrite bind_ret.
  rewrite (bind_Done _ _ _ _ _ (run_get_net _ _ _ H2)). by rewrite H3.
Qed.
End run.

(** The state with one object, or the allocation count, replaced. *)
Section with_.
Context {W : Type}.
Implicit Types s : kstate W.

Definition with_mport (p : ptr) (m : rio_mport W) s : kstate W :=
  setf ks_mports (<[p := m]> (ks_mports s)) s.
Definition with_dev (p : ptr) (d : rio_dev) s : kstate W :=
  setf ks_devs (<[p := d]> (ks_devs s)) s.
Definition with_allocs (n : Z) s : kstate W := setf ks_allocs n s.

Lemma with_mport_lookup p m s : ks_mports (with_mport p m s) !! p = Some m.
Proof. apply lookup_insert_eq. Qed.
Lemma with_mport_twice p m m' s : with_mport p m (with_mport p m' s) = with_mport p m s.
Proof. unfold with_mport. cbn. by rewrite insert_insert_eq. Qed.
Lemma with_mport_same p m s : ks_mports s !! p = Some m -> with_mport p m s = s.
Proof. intros H. unfold with_mport. rewrite insert_id by done. by destruct s. Qed.
Lemma with_dev_lookup p d s : ks_devs (with_dev p d s) !! p = Some d.
Proof. apply lookup_insert_eq. Qed.
Lemma with_dev_twice p d d' s : with_dev p d (with_dev p d' s) = with_dev p d s.
Proof. unfold with_dev. cbn. by rewrite insert_insert_eq. Qed.
Lemma with_dev_same p d s : ks_devs s !! p = Some d -> with_dev p d s = s.
Proof. intros H. unfold with_dev. rewrite insert_id by done. by destruct s. Qed.
Lemma with_allocs_same s : with_allocs (ks_allocs s) s = s.
Proof. by destruct s. Qed.

Lemma with_allocs_back w s :
  with_allocs (ks_allocs s + 1 - 1) (with_hw w s) = with_hw w s.
Proof. destruct s. cbn. unfold with_allocs, with_hw. cbn. f_equal. lia. Qed.

Lemma upd_mport_with s p m g :
  ks_mports s !! p = Some m -> upd_mport p g s = Done tt (with_mport p (g m) s).
Proof. intros H. by rewrite (run_upd_mport _ _ _ _ H). Qed.
Lemma upd_dev_with s p d g :
  ks_devs s !! p = Some d -> upd_dev p g s = Done tt (with_dev p (g d) s).
Proof. intros H. by rewrite (run_upd_dev _ _ _ _ H). Qed.

Lemma run_kzalloc `{!KernelEnv W} s :
  kzalloc s = if (env_alloc (ks_hw s)).1
    then Done true (with_allocs (ks_allocs s + 1) (with_hw (env_alloc (ks_hw s)).2 s))
    else Done false (with_hw (env_alloc (ks_hw s)).2 s).
Proof.
  unfold kzalloc, hw_call, bind. destruct (env_alloc (ks_hw s)) as [[] w]; by destruct s.
Qed.
Lemma run_kfree s : kfree s = Done tt (with_allocs (ks_allocs s - 1) s).
Proof. done. Qed.
End with_.

(** [run H] steps over the first call of a sequence whose run is [H]. *)
Ltac run H := rewrite (bind_Done _ _ _ _ _ H).

(** What a state with only the hardware changed still has. *)
Section same_kernel.
Context {W : Type}.
Implicit Types s : kstate W.

Lemma sk_mports s s' : same_kernel s s' -> ks_mports s' = ks_mports s.
Proof. by intros ->. Qed.
Lemma sk_devs s s' : same_kernel s s' -> ks_devs s' = ks_devs s.
Proof. by intros ->. Qed.
Lemma sk_nets s s' : same_kernel s s' -> ks_nets s' = ks_nets s.
Proof. by intros ->. Qed.
Lemma sk_with_hw s w : same_kernel s (with_hw w s).
Proof. apply same_kernel_set_hw. Qed.
Lemma hw_with_hw s w : ks_hw (with_hw w s) = w.
Proof. done. Qed.
Lemma sk_refl s : same_kernel s s.
Proof. reflexivity. Qed.
Lemma sk_trans s1 s2 s3 : same_kernel s1 s2 -> same_kernel s2 s3 -> same_kernel s1 s3.
Proof. intros H1 H2. by transitivity s2. Qed.
End same_kernel.

(** ** Runs that change only the hardware *)

Section quiet.
Context {W : Type} `{!KernelEnv W} (u f : Prop) (s0 : kstate W).

Abbreviation quiet := (fine u f (same_kernel s0)).

Lemma quiet_hw_call {A} (g : W -> A * W) : quiet any (hw_call g).
Proof.
  intros s Hs. unfold spec, hw_call. destruct (g (ks_hw s)) as [a w].
  split; [done|]. by eapply sk_trans; [|apply sk_with_hw].
Qed.
Lemma quiet_hw_do (g : W -> W) : quiet any (hw_do g).
Proof. intros s Hs. split; [done|]. by eapply sk_trans; [|apply sk_with_hw]. Qed.
Lemma quiet_udelay us : quiet any (udelay us).
Proof. apply quiet_hw_do. Qed.
Lemma quiet_mdelay ms : quiet any (mdelay ms).
Proof. apply quiet_hw_do. Qed.
Lemma quiet_msleep ms : quiet any (msleep ms).
Proof. apply quiet_hw_do. Qed.
Lemma quiet_try_module_get o : quiet any (try_module_get o).
Proof. apply quiet_hw_call. Qed.
Lemma quiet_module_put o : quiet any (module_put o).
Proof. apply quiet_hw_do. Qed.
Lemma quiet_uninit : quiet (fun v => 0 <= v < 2 ^ 32) uninit.
Proof. intros s Hs. split; [apply u32_range|done]. Qed.
Lemma quiet_get_mport p m : ks_mports s0 !! p = Some m -> quiet (eq m) (get_mport p).
Proof.
  intros H s Hs. unfold spec. rewrite (run_get_mport s p m) by (by rewrite (sk_mports _ _ Hs)). done.
Qed.
Lemma quiet_get_dev p d : ks_devs s0 !! p = Some d -> quiet (eq d) (get_dev p).
Proof.
  intros H s Hs. unfold spec. rewrite (run_get_dev s p d) by (by rewrite (sk_devs _ _ Hs)). done.
Qed.
Lemma quiet_get_net p n : ks_nets s0 !! p = Some n -> quiet (eq n) (get_net p).
Proof.
  intros H s Hs. unfold spec. rewrite (run_get_net s p n) by (by rewrite (sk_nets _ _ Hs)). done.
Qed.
Lemma quiet_get_rswitch p d sw :
  ks_devs s0 !! p = Some d -> rd_rswitch d = Some sw -> quiet (eq sw) (get_rswitch p).
Proof.
  intros H Hsw s Hs. unfold spec.
  rewrite (run_get_rswitch s p d sw) by (by rewrite ?(sk_devs _ _ Hs)). done.
Qed.
Lemma quiet_dev_hport d n net h :
  rd_net d = Some n -> ks_nets s0 !! n = Some net -> net_hport net = Some h ->
  quiet (eq h) (dev_hport d).
Proof.
  intros H1 H2 H3 s Hs. unfold spec.
  rewrite (run_dev_hport s d n net h) by (by rewrite ?(sk_nets _ _ Hs)). done.
Qed.
Lemma quiet_deref {A} (o : option A) a : o = Some a -> quiet (eq a) (deref o).
Proof. intros -> s Hs. done. Qed.
Lemma quiet_array_get {A} (a : list A) i :
  0 <= i < Z.of_nat (length a) -> quiet (fun x => x ∈ a) (array_get a i).
Proof.
  intros Hi s Hs. unfold spec.
  destruct (lookup_lt_is_Some_2 a (Z.to_nat i)) as [x Hx]; [lia|].
  rewrite (run_array_get s a i x) by (done || lia). split; [|done].
  by eapply list_elem_of_lookup_2.
Qed.
End quiet.
#[export] Hint Resolve quiet_hw_call quiet_hw_do quiet_udelay quiet_mdelay quiet_msleep
  quiet_try_module_get quiet_module_put quiet_uninit quiet_get_mport quiet_get_dev quiet_get_net
  quiet_get_rswitch quiet_dev_hport quiet_deref quiet_array_get : fine.
