(* ===== verification/Access.v ===== *)
(** * Configuration space access (rio-access.c and the wrappers of rio_drv.h)

    Every access checks the alignment of the offset and then calls the master
    port's low-level operation.  A read takes the old contents of the variable
    it reads into and returns the new contents with the status, because a
    misaligned read leaves the variable as it was. *)

From S2P Require Import Prelude Regs State.

Definition RIO_8_BAD (offset : Z) : bool := false.
Definition RIO_16_BAD (offset : Z) : bool := truthy (Z.land offset 1).
Definition RIO_32_BAD (offset : Z) : bool := truthy (Z.land offset 3).

Section access.
Context {W : Type}.

(** The four macros that generate the accessors, for a size given by its
    alignment check, its C type and its length. *)
Definition RIO_LOP_READ (bad : Z -> bool) (type : Z -> Z) (len : Z)
    (mport : ptr) (offset value : Z) : KM W (Z * Z) :=
  if bad offset then ret (RIO_BAD_SIZE, value)
  else
    mp <- get_mport mport ;;
    let! (res, data) := hw_call (op_lcread (mp_ops mp) mport (mp_id mp) offset len) ;;
    ret (res, type (u32 data)).

Definition RIO_LOP_WRITE (bad : Z -> bool) (type : Z -> Z) (len : Z)
    (mport : ptr) (offset value : Z) : KM W Z :=
  if bad offset then ret RIO_BAD_SIZE
  else
    mp <- get_mport mport ;;
    hw_call (op_lcwrite (mp_ops mp) mport (mp_id mp) offset len (type value)).

Definition RIO_OP_READ (bad : Z -> bool) (type : Z -> Z) (len : Z)
    (mport : ptr) (destid hopcount offset value : Z) : KM W (Z * Z) :=
  if bad offset then ret (RIO_BAD_SIZE, value)
  else
    mp <- get_mport mport ;;
    let! (res, data) :=
      hw_call (op_cread (mp_ops mp) mport (mp_id mp) destid hopcount offset len) ;;
    ret (res, type (u32 data)).

Definition RIO_OP_WRITE (bad : Z -> bool) (type : Z -> Z) (len : Z)
    (mport : ptr) (destid hopcount offset value : Z) : KM W Z :=
  if bad offset then ret RIO_BAD_SIZE
  else
    mp <- get_mport mport ;;
    hw_call (op_cwrite (mp_ops mp) mport (mp_id mp) destid hopcount offset len
               (type value)).

Definition rio_local_read_config_8 := RIO_LOP_READ RIO_8_BAD u8 1.
Definition rio_local_read_config_16 := RIO_LOP_READ RIO_16_BAD u16 2.
Definition rio_local_read_config_32 := RIO_LOP_READ RIO_32_BAD u32 4.
Definition rio_local_write_config_8 := RIO_LOP_WRITE RIO_8_BAD u8 1.
Definition rio_local_write_config_16 := RIO_LOP_WRITE RIO_16_BAD u16 2.
Definition rio_local_write_config_32 := RIO_LOP_WRITE RIO_32_BAD u32 4.
Definition rio_mport_read_config_8 := RIO_OP_READ RIO_8_BAD u8 1.
Definition rio_mport_read_config_16 := RIO_OP_READ RIO_16_BAD u16 2.
Definition rio_mport_read_config_32 := RIO_OP_READ RIO_32_BAD u32 4.
Definition rio_mport_write_config_8 := RIO_OP_WRITE RIO_8_BAD u8 1.
Definition rio_mport_write_config_16 := RIO_OP_WRITE RIO_16_BAD u16 2.
Definition rio_mport_write_config_32 := RIO_OP_WRITE RIO_32_BAD u32 4.

(** The inline wrappers on a device: its port is [rdev->net->hport]. *)
Definition rio_read_config_32 (rdev : ptr) (offset value : Z) : KM W (Z * Z) :=
  d <- get_dev rdev ;;
  hport <- dev_hport d ;;
  rio_mport_read_config_32 hport (rd_destid d) (rd_hopcount d) (u32 offset) value.

Definition rio_write_config_32 (rdev : ptr) (offset data : Z) : KM W Z :=
  d <- get_dev rdev ;;
  hport <- dev_hport d ;;
  rio_mport_write_config_32 hport (rd_destid d) (rd_hopcount d) (u32 offset) data.

Definition rio_mport_send_doorbell (mport : ptr) (destid data : Z) : KM W Z :=
  mp <- get_mport mport ;;
  hw_call (op_dsend (mp_ops mp) mport (mp_id mp) destid (u16 data)).

Definition rio_send_doorbell (rdev : ptr) (data : Z) : KM W Z :=
  d <- get_dev rdev ;;
  hport <- dev_hport d ;;
  rio_mport_send_doorbell hport (rd_destid d) data.

(** Offsets of the per-port physical layer registers of a device. *)
Definition RIO_DEV_PORT_N_MNT_REQ_CSR (d : rio_dev) (n : Z) : Z :=
  u32 (rd_phys_efptr d + RIO_PORT_N_MNT_REQ_CSR n (rd_phys_rmap d)).
Definition RIO_DEV_PORT_N_MNT_RSP_CSR (d : rio_dev) (n : Z) : Z :=
  u32 (rd_phys_efptr d + RIO_PORT_N_MNT_RSP_CSR n (rd_phys_rmap d)).
Definition RIO_DEV_PORT_N_ACK_STS_CSR (d : rio_dev) (n : Z) : Z :=
  u32 (rd_phys_efptr d + RIO_PORT_N_ACK_STS_CSR n).
Definition RIO_DEV_PORT_N_ERR_STS_CSR (d : rio_dev) (n : Z) : Z :=
  u32 (rd_phys_efptr d + RIO_PORT_N_ERR_STS_CSR n (rd_phys_rmap d)).
Definition RIO_DEV_PORT_N_CTL_CSR (d : rio_dev) (n : Z) : Z :=
  u32 (rd_phys_efptr d + RIO_PORT_N_CTL_CSR n (rd_phys_rmap d)).
Definition RIO_DEV_PORT_N_OB_ACK_CSR (d : rio_dev) (n : Z) : Z :=
  u32 (rd_phys_efptr d + RIO_PORT_N_OB_ACK_CSR n).
Definition RIO_DEV_PORT_N_IB_ACK_CSR (d : rio_dev) (n : Z) : Z :=
  u32 (rd_phys_efptr d + RIO_PORT_N_IB_ACK_CSR n).

(** *** Frames *)

Lemma keeps_lop_read bad type len p off v :
  keeps same_kernel (RIO_LOP_READ bad type len p off v).
Proof. unfold RIO_LOP_READ. solve_frame. Qed.
Lemma keeps_lop_write bad type len p off v :
  keeps same_kernel (RIO_LOP_WRITE bad type len p off v).
Proof. unfold RIO_LOP_WRITE. solve_frame. Qed.
Lemma keeps_op_read bad type len p d h off v :
  keeps same_kernel (RIO_OP_READ bad type len p d h off v).
Proof. unfold RIO_OP_READ. solve_frame. Qed.
Lemma keeps_op_write bad type len p d h off v :
  keeps same_kernel (RIO_OP_WRITE bad type len p d h off v).
Proof. unfold RIO_OP_WRITE. solve_frame. Qed.
End access.

#[export] Hint Resolve keeps_lop_read keeps_lop_write keeps_op_read keeps_op_write : frame.

Section access_frames.
Context {W : Type}.

Lemma keeps_local_read_32 p off v :
  keeps (@same_kernel W) (rio_local_read_config_32 p off v).
Proof. apply keeps_lop_read. Qed.
Lemma keeps_local_write_32 p off v :
  keeps (@same_kernel W) (rio_local_write_config_32 p off v).
Proof. apply keeps_lop_write. Qed.
Lemma keeps_mport_read_32 p d h off v :
  keeps (@same_kernel W) (rio_mport_read_config_32 p d h off v).
Proof. apply keeps_op_read. Qed.
Lemma keeps_mport_write_32 p d h off v :
  keeps (@same_kernel W) (rio_mport_write_config_32 p d h off v).
Proof. apply keeps_op_write. Qed.
Lemma keeps_read_32 r off v : keeps (@same_kernel W) (rio_read_config_32 r off v).
Proof. unfold rio_read_config_32. solve_frame. apply keeps_op_read. Qed.
Lemma keeps_write_32 r off v : keeps (@same_kernel W) (rio_write_config_32 r off v).
Proof. unfold rio_write_config_32. solve_frame. apply keeps_op_write. Qed.
Lemma keeps_send_doorbell p d x : keeps (@same_kernel W) (rio_mport_send_doorbell p d x).
Proof. unfold rio_mport_send_doorbell. solve_frame. Qed.
End access_frames.

#[export] Hint Resolve keeps_local_read_32 keeps_local_write_32 keeps_mport_read_32
  keeps_mport_write_32 keeps_read_32 keeps_write_32 keeps_send_doorbell : frame.

(** ** Runs of an aligned access *)

Section runs.
Context {W : Type}.
Implicit Types s : kstate W.

Lemma run_mport_read s p mp destid hop off v res data w :
  ks_mports s !! p = Some mp -> RIO_32_BAD off = false ->
  op_cread (mp_ops mp) p (mp_id mp) destid hop off 4 (ks_hw s) = ((res, data), w) ->
  rio_mport_read_config_32 p destid hop off v s = Done (res, u32 data) (with_hw w s).
Proof.
  intros Hp Hoff Hop. unfold rio_mport_read_config_32, RIO_OP_READ. rewrite Hoff.
  run (run_get_mport _ _ _ Hp). unfold bind, hw_call. rewrite Hop. cbn.
  unfold u32. by rewrite Z.mod_mod.
Qed.

Lemma run_mport_write s p mp destid hop off v res w :
  ks_mports s !! p = Some mp -> RIO_32_BAD off = false ->
  op_cwrite (mp_ops mp) p (mp_id mp) destid hop off 4 (u32 v) (ks_hw s) = (res, w) ->
  rio_mport_write_config_32 p destid hop off v s = Done res (with_hw w s).
Proof.
  intros Hp Hoff Hop. unfold rio_mport_write_config_32, RIO_OP_WRITE. rewrite Hoff.
  run (run_get_mport _ _ _ Hp). unfold hw_call. by rewrite Hop.
Qed.

Lemma run_local_read s p mp off v res data w :
  ks_mports s !! p = Some mp -> RIO_32_BAD off = false ->
  op_lcread (mp_ops mp) p (mp_id mp) off 4 (ks_hw s) = ((res, data), w) ->
  rio_local_read_config_32 p off v s = Done (res, u32 data) (with_hw w s).
Proof.
  intros Hp Hoff Hop. unfold rio_local_read_config_32, RIO_LOP_READ. rewrite Hoff.
  run (run_get_mport _ _ _ Hp). unfold bind, hw_call. rewrite Hop. cbn.
  unfold u32. by rewrite Z.mod_mod.
Qed.

Lemma run_local_write s p mp off v res w :
  ks_mports s !! p = Some mp -> RIO_32_BAD off = false ->
  op_lcwrite (mp_ops mp) p (mp_id mp) off 4 (u32 v) (ks_hw s) = (res, w) ->
  rio_local_write_config_32 p off v s = Done res (with_hw w s).
Proof.
  intros Hp Hoff Hop. unfold rio_local_write_config_32, RIO_LOP_WRITE. rewrite Hoff.
  run (run_get_mport _ _ _ Hp). unfold hw_call. by rewrite Hop.
Qed.

(** A 32-bit access is misaligned exactly when the offset is no multiple of 4. *)
Lemma RIO_32_BAD_mod off : RIO_32_BAD off = negb (off mod 4 =? 0).
Proof. unfold RIO_32_BAD, truthy. by rewrite (land_mask off 2 ltac:(lia) : Z.land off 3 = _). Qed.
Lemma RIO_16_BAD_mod off : RIO_16_BAD off = negb (off mod 2 =? 0).
Proof. unfold RIO_16_BAD, truthy. by rewrite (land_mask off 1 ltac:(lia) : Z.land off 1 = _). Qed.
End runs.

(** ** Accesses never fail on an existing port *)

Section total.
Context {W : Type} (u f : Prop).
Implicit Types s : kstate W.

Lemma spec_mport_read s p mp d h off v (Q : Z * Z -> kstate W -> Prop) :
  ks_mports s !! p = Some mp ->
  (forall rc x s', same_kernel s s' -> x = v \/ 0 <= x < 2 ^ 32 -> Q (rc, x) s') ->
  spec u f (rio_mport_read_config_32 p d h off v) s Q.
Proof.
  intros Hp HQ. unfold rio_mport_read_config_32, RIO_OP_READ.
  destruct (RIO_32_BAD off); [apply HQ; [reflexivity|by left]|].
  unfold spec. run (run_get_mport _ _ _ Hp). unfold bind, hw_call.
  destruct (op_cread _ _ _ _ _ _ _ _) as [[rc x] w]. cbn.
  apply HQ; [apply sk_with_hw|right; apply u32_range].
Qed.

Lemma spec_mport_write s p mp d h off v (Q : Z -> kstate W -> Prop) :
  ks_mports s !! p = Some mp ->
  (forall rc s', same_kernel s s' -> Q rc s') ->
  spec u f (rio_mport_write_config_32 p d h off v) s Q.
Proof.
  intros Hp HQ. unfold rio_mport_write_config_32, RIO_OP_WRITE.
  destruct (RIO_32_BAD off); [apply HQ; reflexivity|].
  unfold spec. run (run_get_mport _ _ _ Hp). unfold hw_call.
  destruct (op_cwrite _ _ _ _ _ _ _ _ _) as [rc w]. cbn. apply HQ, sk_with_hw.
Qed.
End total.

Section quiet.
Context {W : Type} `{!KernelEnv W} (u f : Prop) (s0 : kstate W).

Lemma quiet_mport_read p mp d h off v :
  ks_mports s0 !! p = Some mp -> 0 <= v < 2 ^ 32 ->
  fine u f (same_kernel s0) (fun r => 0 <= r.2 < 2 ^ 32) (rio_mport_read_config_32 p d h off v).
Proof.
  intros Hp Hv s Hs. apply spec_mport_read with mp; [by rewrite (sk_mports _ _ Hs)|].
  intros rc x s' Hk [->|Hx]; (split; [done|by transitivity s]).
Qed.
Lemma quiet_mport_write p mp d h off v :
  ks_mports s0 !! p = Some mp ->
  fine u f (same_kernel s0) any (rio_mport_write_config_32 p d h off v).
Proof.
  intros Hp s Hs. apply spec_mport_write with mp; [by rewrite (sk_mports _ _ Hs)|].
  intros rc s' Hk. split; [done|by transitivity s].
Qed.
End quiet.
#[export] Hint Resolve quiet_mport_read quiet_mport_write : fine.
