(* ===== verification/Bench.v ===== *)
(** * A concrete world for the witnesses

    The theorems hold for every hardware behaviour.  This file provides the
    instance at which the witnesses apply them: registers that hold what was
    last written, an allocator that fails when its budget is spent, and the
    resource tree of the kernel. *)

From S2P Require Import Prelude Regs State.

(** Local registers by offset, remote registers by (destid, hopcount, offset);
    [bw_mem] allocations still succeed; [bw_time] counts microseconds. *)
Record bench := mk_bench {
  bw_local : gmap Z Z;
  bw_dev : gmap (Z * Z * Z) Z;
  bw_mem : nat;
  bw_time : Z;
}.
#[export] Instance eta_bench : Eta bench := fun r =>
  mk_bench (bw_local r) (bw_dev r) (bw_mem r) (bw_time r).

Fixpoint remove_range (r : Z * Z) (l : list (Z * Z)) : list (Z * Z) :=
  match l with
  | [] => []
  | x :: l' => if decide (x = r) then l' else x :: remove_range r l'
  end.

#[export] Instance bench_env : KernelEnv bench := {|
  env_alloc w := match bw_mem w with
                 | O => (false, w)
                 | S n => (true, setf bw_mem n w)
                 end;
  env_udelay us w := setf bw_time (bw_time w + us) w;
  env_jiffies w := bw_time w / 1000;
  env_HZ := 1000;
  env_try_module_get _ w := (true, w);
  env_module_put _ w := w;
  env_indet w := 0xdeadbeef;
  env_request_resource root r :=
    if range_free root r then (0, setf res_child (r :: res_child root) root)
    else (- EBUSY, root);
  env_release_resource root r :=
    if bool_decide (r ∈ res_child root)
    then (0, setf res_child (remove_range r (res_child root)) root)
    else (- EINVAL, root);
|}.

Lemma remove_range_app r l :
  r ∈ l -> exists l1 l2, l = l1 ++ r :: l2 /\ remove_range r l = l1 ++ l2.
Proof.
  induction l as [|x l IH]; [by intros ?%elem_of_nil|]. simpl.
  destruct (decide (x = r)) as [->|Hne]; [by exists [], l|].
  intros [->|Hin]%elem_of_cons; [done|].
  destruct (IH Hin) as (l1 & l2 & -> & ->). by exists (x :: l1), l2.
Qed.

(** The instance satisfies the documented laws of the resource tree. *)
#[export] Instance bench_resource_laws : ResourceLaws bench.
Proof.
  split; intros root r Hr; cbn.
  - by rewrite Hr.
  - by rewrite Hr.
  - destruct (remove_range_app _ _ Hr) as (l1 & l2 & H1 & H2).
    exists l1, l2. split; [done|]. rewrite bool_decide_true by done. by rewrite H2.
  - by rewrite bool_decide_false.
Qed.

Definition bench_ops : rio_ops bench := {|
  op_lcread _ _ off _ w := ((0, default 0 (bw_local w !! off)), w);
  op_lcwrite _ _ off _ v w := (0, setf bw_local (<[off := v]> (bw_local w)) w);
  op_cread _ _ d h off _ w := ((0, default 0 (bw_dev w !! (d, h, off))), w);
  op_cwrite _ _ d h off _ v w := (0, setf bw_dev (<[(d, h, off) := v]> (bw_dev w)) w);
  op_dsend _ _ _ _ w := (0, w);
  op_pwenable := Some (fun _ e w => (0, setf bw_local (<[0x1000 := e]> (bw_local w)) w));
  op_open_outb_mbox := Some (fun _ _ _ _ w => (0, w));
  op_close_outb_mbox := Some (fun _ _ w => w);
  op_open_inb_mbox := Some (fun _ _ _ n w => (if n =? 0 then - EINVAL else 0, w));
  op_close_inb_mbox := Some (fun _ _ w => w);
  op_map_inb := None;
  op_unmap_inb := None;
  op_query_mport := None;
  op_map_outb := None;
  op_unmap_outb := None;
  op_add_outb_message _ _ _ _ _ w := (0, w); op_add_inb_buffer _ _ _ w := (0, w);
  op_get_inb_message _ _ w := (None, w);
|}.

Definition bench_mport : rio_mport bench := {|
  mp_dbells := []; mp_pwrites := []; mp_nnode := false; mp_net := None;
  mp_riores := [rio_init_dbell_res 0 0xffff; rio_init_mbox_res 0 3;
                rio_init_mbox_res 0 3];
  mp_inb_msg := replicate 4 (mk_rio_msg None None);
  mp_outb_msg := replicate 4 (mk_rio_msg None None);
  mp_host_deviceid := 1; mp_ops := bench_ops; mp_id := 0; mp_index := 0;
  mp_sys_size := 0; mp_phys_efptr := 0x100; mp_phys_rmap := 1;
  mp_nscan := None; mp_state := RIO_DEVICE_RUNNING; mp_pwe_refcnt := 0;
|}.

(** A state with one master port, at address 1, over the registers given. *)
Definition bench_state (loc : gmap Z Z) (dev : gmap (Z * Z * Z) Z) : kstate bench := {|
  ks_hw := mk_bench loc dev 100 0;
  ks_allocs := 0; ks_fresh := 10%positive;
  ks_devs := ∅; ks_nets := ∅; ks_mports := {[ 1%positive := bench_mport ]};
  rio_devices := []; rio_nets := []; rio_mports := [1%positive]; rio_scans := [];
  next_portid := 1; hdid := [1]; ids_num := 1; next_destid := 0; next_comptag := 1;
|}.
