(* ===== verification/Hw.v ===== *)
(** * Registers behind a path

    What the theorems assume of a switch: its lock register and the registers
    of its routing tables, each as a class of laws over an abstract hardware
    state, and the rules for one access and for what a sequence of accesses
    leaves alone. *)

From S2P Require Import Prelude Regs State Access.

(** ** Paths

    A path is what an access needs besides the register offset: the master
    port, its object, and the destination id and hop count of the target. *)

Record path (W : Type) := mk_path {
  pa_port : ptr; pa_mp : rio_mport W; pa_destid : Z; pa_hop : Z;
}.
Arguments mk_path {W}. Arguments pa_port {W}. Arguments pa_mp {W}.
Arguments pa_destid {W}. Arguments pa_hop {W}.

Section path.
Context {W : Type} `{!KernelEnv W}.
Implicit Types (pa : path W) (s : kstate W) (w : W).

Definition reg_write pa (off v : Z) w : Z * W :=
  op_cwrite (mp_ops (pa_mp pa)) (pa_port pa) (mp_id (pa_mp pa)) (pa_destid pa)
    (pa_hop pa) off 4 v w.
Definition reg_read pa (off : Z) w : (Z * Z) * W :=
  op_cread (mp_ops (pa_mp pa)) (pa_port pa) (mp_id (pa_mp pa)) (pa_destid pa)
    (pa_hop pa) off 4 w.

Definition on_path s pa : Prop := ks_mports s !! pa_port pa = Some (pa_mp pa).

Lemma on_path_sk s s' pa : same_kernel s s' -> on_path s pa -> on_path s' pa.
Proof. intros H. unfold on_path. by rewrite (sk_mports _ _ H). Qed.

(** The accessors at the end of a path. *)
Definition path_write pa (off v : Z) : KM W Z :=
  rio_mport_write_config_32 (pa_port pa) (pa_destid pa) (pa_hop pa) off v.
Definition path_read pa (off v : Z) : KM W (Z * Z) :=
  rio_mport_read_config_32 (pa_port pa) (pa_destid pa) (pa_hop pa) off v.

Lemma run_write s pa off v :
  on_path s pa -> RIO_32_BAD off = false ->
  path_write pa off v s
  = Done (reg_write pa off (u32 v) (ks_hw s)).1
      (with_hw (reg_write pa off (u32 v) (ks_hw s)).2 s).
Proof.
  intros H1 H2. eapply run_mport_write; [done|done|]. apply surjective_pairing.
Qed.

Lemma run_read s pa off v :
  on_path s pa -> RIO_32_BAD off = false ->
  path_read pa off v s
  = Done ((reg_read pa off (ks_hw s)).1.1, u32 (reg_read pa off (ks_hw s)).1.2)
      (with_hw (reg_read pa off (ks_hw s)).2 s).
Proof.
  intros H1 H2. eapply run_mport_read; [done|done|].
  by rewrite <- !surjective_pairing.
Qed.

Lemma run_uninit s : uninit s = Done (u32 (env_indet (ks_hw s))) s.
Proof. done. Qed.

Context (u f : Prop).

Lemma spec_write s pa off v (Q : Z -> kstate W -> Prop) :
  on_path s pa -> RIO_32_BAD off = false ->
  Q (reg_write pa off (u32 v) (ks_hw s)).1
    (with_hw (reg_write pa off (u32 v) (ks_hw s)).2 s) ->
  spec u f (path_write pa off v) s Q.
Proof. intros H1 H2 HQ. unfold spec. by rewrite run_write. Qed.

Lemma spec_read s pa off v (Q : Z * Z -> kstate W -> Prop) :
  on_path s pa -> RIO_32_BAD off = false ->
  Q ((reg_read pa off (ks_hw s)).1.1, u32 (reg_read pa off (ks_hw s)).1.2)
    (with_hw (reg_read pa off (ks_hw s)).2 s) ->
  spec u f (path_read pa off v) s Q.
Proof. intros H1 H2 HQ. unfold spec. by rewrite run_read. Qed.
End path.

(** ** What accesses leave alone

    [stable_at pa off I]: reading or writing the register [off] keeps the
    property [I] of the hardware; [stable_delay I]: the passing of time does. *)

Section stable.
Context {W : Type} `{!KernelEnv W} (pa : path W).
Implicit Types (s : kstate W) (w : W) (I : W -> Prop).

Definition stable_at (off : Z) I : Prop :=
  forall w, I w -> (forall v, I (reg_write pa off v w).2) /\ I (reg_read pa off w).2.
Definition stable_delay I : Prop := forall us w, I w -> I (env_udelay us w).

(** Only the hardware changes, and not [I]. *)
Definition pres I s s' : Prop :=
  on_path s pa -> same_kernel s s' /\ (I (ks_hw s) -> I (ks_hw s')).

#[export] Instance pres_preorder I : PreOrder (pres I).
Proof.
  split.
  - intros s _. split; [reflexivity|done].
  - intros s1 s2 s3 H1 H2 Hp. destruct (H1 Hp) as [Hk1 Hi1].
    destruct (H2 (on_path_sk _ _ _ Hk1 Hp)) as [Hk2 Hi2].
    split; [by transitivity s2|auto].
Qed.

Lemma pres_write I off v :
  stable_at off I -> keeps (pres I) (path_write pa off v).
Proof.
  intros HI s a s' H Hp. unfold path_write in H. destruct (RIO_32_BAD off) eqn:E.
  - unfold rio_mport_write_config_32, RIO_OP_WRITE in H. rewrite E in H.
    injection H as <- <-. split; [reflexivity|done].
  - fold (path_write pa off v) in H. rewrite run_write in H by done. injection H as <- <-.
    split; [apply sk_with_hw|]. intros Hi. by apply HI.
Qed.

Lemma pres_read I off v :
  stable_at off I -> keeps (pres I) (path_read pa off v).
Proof.
  intros HI s a s' H Hp. unfold path_read in H. destruct (RIO_32_BAD off) eqn:E.
  - unfold rio_mport_read_config_32, RIO_OP_READ in H. rewrite E in H.
    injection H as <- <-. split; [reflexivity|done].
  - fold (path_read pa off v) in H. rewrite run_read in H by done. injection H as <- <-.
    split; [apply sk_with_hw|]. intros Hi. by apply HI.
Qed.

Lemma pres_udelay I us : stable_delay I -> keeps (pres I) (udelay us).
Proof.
  intros HI s a s' [= <- <-] Hp. split; [apply sk_with_hw|]. by apply HI.
Qed.

(** Everything the code does to a switch except taking and freeing its lock. *)
Definition off_lock I : Prop :=
  stable_delay I /\ forall off, off <> RIO_HOST_DID_LOCK_CSR -> stable_at off I.
End stable.

(** ** The lock register *)

(** What a write of [v] does to the host device lock register when it holds
    [cur] (RapidIO part 3): it takes a free lock, frees a lock held with the
    same id, and is ignored otherwise. *)
Definition lock_update (cur v : Z) : Z :=
  if cur =? 0xffff then v else if cur =? v then 0xffff else cur.

(** The lock register at the end of a path; while the code waits, other hosts
    may write their own ids to it. *)
Class LockReg {W : Type} `{KernelEnv W} (pa : path W) := {
  lock_val : W -> Z;
  lock_val_range : forall w, 0 <= lock_val w < 2 ^ 16;
  lock_write : forall w v, 0 <= v < 2 ^ 16 ->
    let r := reg_write pa RIO_HOST_DID_LOCK_CSR v w in
    r.1 = 0 /\ lock_val r.2 = lock_update (lock_val w) v;
  lock_read : forall w,
    let r := reg_read pa RIO_HOST_DID_LOCK_CSR w in
    r.1 = (0, lock_val w) /\ lock_val r.2 = lock_val w;
  lock_other : forall off w, off <> RIO_HOST_DID_LOCK_CSR ->
    (forall v, lock_val (reg_write pa off v w).2 = lock_val w) /\
    lock_val (reg_read pa off w).2 = lock_val w;
  lock_delay : forall us w,
    exists others, Forall (fun v => 0 <= v < 0xffff /\ v <> mp_host_deviceid (pa_mp pa)) others /\
      lock_val (env_udelay us w) = fold_left lock_update others (lock_val w);
}.

Lemma lock_update_other host others cur :
  Forall (fun v => 0 <= v < 0xffff /\ v <> host) others ->
  cur = host -> host <> 0xffff -> fold_left lock_update others cur = host.
Proof.
  intros Ho -> Hh. induction Ho as [|v l [Hv Hne] Ho IH]; [done|]. simpl.
  unfold lock_update at 2. destruct (Z.eqb_spec host 0xffff); [done|].
  destruct (Z.eqb_spec host v); [congruence|done].
Qed.

(** Once this host holds the lock, it keeps it until it unlocks. *)
Lemma lock_held_off_lock {W} `{!KernelEnv W} (pa : path W) `{!LockReg pa} :
  mp_host_deviceid (pa_mp pa) <> 0xffff ->
  off_lock pa (fun w => lock_val w = mp_host_deviceid (pa_mp pa)).
Proof.
  intros Hne. split.
  - intros us w Hw. destruct (lock_delay us w) as (others & Ho & ->).
    by apply lock_update_other.
  - intros off Hoff w Hw. destruct (lock_other off w Hoff) as [H1 H2].
    split; [intros v|]; congruence.
Qed.

(** ** Routing table registers *)

(** What a write of [v] to the standard port select register does to the
    routing table when the destination id select register holds [sel]: with the
    extended configuration bit set it writes four consecutive entries. *)
Definition lut_update (sel v : Z) (lut : Z -> Z) (d : Z) : Z :=
  let base := Z.land sel 0xffff in
  if Z.testbit sel 31 then
    if (base <=? d) && (d <? base + 4) then Z.land (Z.shiftr v (8 * (d - base))) 0xff
    else lut d
  else if d =? base then Z.land v 0xff else lut d.

(** The standard destination id select and port select registers. *)
Class StdLut {W : Type} `{KernelEnv W} (pa : path W) := {
  st_sel : W -> Z;
  st_lut : W -> Z -> Z;
  st_write_sel : forall w v, 0 <= v < 2 ^ 32 ->
    let r := reg_write pa RIO_STD_RTE_CONF_DESTID_SEL_CSR v w in
    r.1 = 0 /\ st_sel r.2 = v /\ forall d, st_lut r.2 d = st_lut w d;
  st_write_port : forall w v, 0 <= v < 2 ^ 32 ->
    let r := reg_write pa RIO_STD_RTE_CONF_PORT_SEL_CSR v w in
    r.1 = 0 /\ st_sel r.2 = st_sel w /\
    forall d, st_lut r.2 d = lut_update (st_sel w) v (st_lut w) d;
  st_read_port : forall w, Z.testbit (st_sel w) 31 = false ->
    let r := reg_read pa RIO_STD_RTE_CONF_PORT_SEL_CSR w in
    r.1.1 = 0 /\ r.1.2 mod 2 ^ 8 = st_lut w (Z.land (st_sel w) 0xffff) /\
    st_sel r.2 = st_sel w /\ forall d, st_lut r.2 d = st_lut w d;
  st_delay : forall d p, stable_delay (fun w => st_lut w d = p);
}.

(** No other register changes the table. *)
Class StdFrame {W : Type} `{KernelEnv W} (pa : path W) `{!StdLut pa} :=
  st_frame : forall d off p, off <> RIO_STD_RTE_CONF_PORT_SEL_CSR ->
    off <> RIO_STD_RTE_CONF_DESTID_SEL_CSR ->
    stable_at pa off (fun w => st_lut w d = p).

(** A register that always reads as [val]. *)
Class ConstReg {W : Type} `{KernelEnv W} (pa : path W) (off val : Z) := {
  const_val : 0 <= val < 2 ^ 32;
  const_read : forall w, (reg_read pa off w).1 = (0, val);
}.

(** ** What the core relies on in a switch's routing operations

    A switch holds routing tables, seen as functions from a table number and a
    destination id to an output port, [RIO_INVALID_ROUTE] for none.  Adding an
    entry sets this entry of this table and no other entry of it; reading
    returns it and changes no table; clearing makes a table all invalid.
    The operations do not touch the lock register. *)

Definition get_status (limit p : Z) : Z := if limit <? p then -1 else 0.

Class RouteOps {W : Type} `{KernelEnv W} (pa : path W)
    (add : ptr -> Z -> Z -> Z -> Z -> Z -> KM W Z)
    (get : ptr -> Z -> Z -> Z -> Z -> Z -> KM W (Z * Z))
    (clr : ptr -> Z -> Z -> Z -> KM W Z) := {
  rt_view : W -> Z -> Z -> Z;
  rt_table : Z -> bool;
  rt_dest : Z -> bool;
  rt_port : Z -> bool;
  rt_limit : Z;
  rt_add : forall s t d p, on_path s pa ->
    rt_table t = true -> rt_dest d = true -> rt_port p = true ->
    total (add (pa_port pa) (pa_destid pa) (pa_hop pa) t d p) s (fun rc s' =>
      same_kernel s s' /\ rc = 0 /\ forall d', rt_dest d' = true ->
      rt_view (ks_hw s') t d' = if d' =? d then p else rt_view (ks_hw s) t d');
  rt_get : forall s t d old, on_path s pa ->
    rt_table t = true -> rt_dest d = true -> rt_port (rt_view (ks_hw s) t d) = true ->
    total (get (pa_port pa) (pa_destid pa) (pa_hop pa) t d old) s (fun r s' =>
      same_kernel s s' /\ r.2 = rt_view (ks_hw s) t d /\
      r.1 = get_status rt_limit r.2 /\
      forall d', rt_dest d' = true -> rt_view (ks_hw s') t d' = rt_view (ks_hw s) t d');
  rt_clr : forall s t, on_path s pa -> rt_table t = true ->
    total (clr (pa_port pa) (pa_destid pa) (pa_hop pa) t) s (fun rc s' =>
      same_kernel s s' /\ rc = 0 /\ forall d, rt_dest d = true ->
      rt_view (ks_hw s') t d = RIO_INVALID_ROUTE);
  rt_add_frame : forall I t d p, rt_table t = true -> rt_dest d = true ->
    off_lock pa I ->
    keeps (pres pa I) (add (pa_port pa) (pa_destid pa) (pa_hop pa) t d p);
  rt_get_frame : forall I t d p, rt_table t = true -> rt_dest d = true ->
    off_lock pa I ->
    keeps (pres pa I) (get (pa_port pa) (pa_destid pa) (pa_hop pa) t d p);
  rt_clr_frame : forall I t, rt_table t = true -> off_lock pa I ->
    keeps (pres pa I) (clr (pa_port pa) (pa_destid pa) (pa_hop pa) t);
  rt_lock_frame : forall t d p, rt_table t = true -> rt_dest d = true ->
    stable_delay (fun w => rt_view w t d = p) /\
    stable_at pa RIO_HOST_DID_LOCK_CSR (fun w => rt_view w t d = p);
}.
