(* ===== verification/SwBench.v ===== *)
(** * Concrete switches for the witnesses

    A world with one switch behind a master port, in the register models of
    the switch families: the standard routing registers with the per-port table
    select of the IDT switches, the Tsi57x/Tsi568 registers, and the memory
    mapped tables of the Gen3 switches.  Every register without a meaning here
    is memory. *)

From S2P Require Import Prelude Regs State Access Hw.

(** [sw_psel] selects a table, [sw_sel] is the destination id select register
    (of each table), [sw_lut] the routing tables, [sw_reg] the plain registers
    by offset, [sw_log] the entries of the error log. *)
Record swbench := mk_swbench {
  sw_lock : Z;
  sw_psel : Z;
  sw_sel : Z -> Z;
  sw_lut : Z -> Z -> Z;
  sw_reg : gmap Z Z;
  sw_time : Z;
  sw_log : list Z;
}.
#[export] Instance eta_swbench : Eta swbench := fun r =>
  mk_swbench (sw_lock r) (sw_psel r) (sw_sel r) (sw_lut r) (sw_reg r) (sw_time r) (sw_log r).

(** The module at address 13 cannot be held. *)
#[export] Instance swbench_env : KernelEnv swbench := {|
  env_alloc w := (true, w);
  env_udelay us w := setf sw_time (sw_time w + us) w;
  env_jiffies w := sw_time w / 1000;
  env_HZ := 1000;
  env_try_module_get o w := (negb (Pos.eqb o 13), w);
  env_module_put _ w := w;
  env_indet w := 0;
  env_request_resource root r := (0, root);
  env_release_resource root r := (0, root);
|}.

(** ** Standard registers, with a table select at offset [0x10070] *)

Definition IDT_PSEL : Z := 0x10070.
Definition IDT_LOG : Z := 0xfd0004.

Definition log_entries (w : swbench) : list Z :=
  List.filter (fun v => (0 <? v) && (v <? 2 ^ 32)) (sw_log w).

(** [g2]: whether the switch has the table select. *)
Definition std_write (g2 : bool) (off v : Z) (w : swbench) : Z * swbench :=
  (0,
   if off =? RIO_HOST_DID_LOCK_CSR then setf sw_lock (lock_update (Z.land (sw_lock w) 0xffff) v) w
   else if off =? RIO_STD_RTE_CONF_DESTID_SEL_CSR then setf sw_sel (fun _ => v) w
   else if g2 && (off =? IDT_PSEL) then setf sw_psel v w
   else if off =? RIO_STD_RTE_CONF_PORT_SEL_CSR
   then setf sw_lut (fun t d =>
          if (sw_psel w =? 0) || (sw_psel w =? t)
          then lut_update (sw_sel w 0) v (sw_lut w t) d else sw_lut w t d) w
   else setf sw_reg (<[off := v]> (sw_reg w)) w).

Definition std_read (g2 : bool) (off : Z) (w : swbench) : (Z * Z) * swbench :=
  if g2 && (off =? IDT_LOG)
  then ((0, hd 0 (log_entries w)), setf sw_log (tl (log_entries w)) w)
  else
  ((0,
    if off =? RIO_HOST_DID_LOCK_CSR then Z.land (sw_lock w) 0xffff
    else if off =? RIO_STD_RTE_CONF_DESTID_SEL_CSR then sw_sel w 0
    else if g2 && (off =? IDT_PSEL) then sw_psel w
    else if off =? RIO_STD_RTE_CONF_PORT_SEL_CSR
    then sw_lut w (sw_psel w) (Z.land (sw_sel w 0) 0xffff)
    else if off =? RIO_PEF_CAR then RIO_PEF_SWITCH + RIO_PEF_EXT_RT
    else if off =? RIO_SWITCH_RT_LIMIT then 0x1ff
    else default 0 (sw_reg w !! off)), w).

(** A low-level interface that reaches the switch at every destination id. *)
Definition sw_ops (wr : Z -> Z -> swbench -> Z * swbench)
    (rd : Z -> swbench -> (Z * Z) * swbench) : rio_ops swbench := {|
  op_lcread _ _ off _ w := rd off w;
  op_lcwrite _ _ off _ v w := wr off v w;
  op_cread _ _ _ _ off _ w := rd off w;
  op_cwrite _ _ _ _ off _ v w := wr off v w;
  op_dsend _ _ _ _ w := (0, w);
  op_pwenable := None;
  op_open_outb_mbox := None; op_close_outb_mbox := None;
  op_open_inb_mbox := None; op_close_inb_mbox := None;
  op_map_inb := None; op_unmap_inb := None; op_query_mport := None;
  op_map_outb := None; op_unmap_outb := None;
  op_add_outb_message _ _ _ _ _ w := (0, w); op_add_inb_buffer _ _ _ w := (0, w);
  op_get_inb_message _ _ w := (None, w);
|}.

Definition sw_mport (ops : rio_ops swbench) (host sys_size : Z) : rio_mport swbench := {|
  mp_dbells := []; mp_pwrites := []; mp_nnode := false; mp_net := None;
  mp_riores := []; mp_inb_msg := []; mp_outb_msg := [];
  mp_host_deviceid := host; mp_ops := ops; mp_id := 0; mp_index := 0;
  mp_sys_size := sys_size; mp_phys_efptr := 0x100; mp_phys_rmap := 1;
  mp_nscan := None; mp_state := RIO_DEVICE_RUNNING; mp_pwe_refcnt := 0;
|}.

(** A port at address 1, a network at 2 and a switch at 3. *)
Definition sw_net : rio_net :=
  mk_rio_net true [3%positive] [3%positive] [] (Some 1%positive) 0 None false.

Definition sw_switch (ops : option switch_ops_ptr) (nports : Z) : rio_switch :=
  mk_rio_switch (Some (replicate 256 RIO_INVALID_ROUTE)) 0 ops
    (replicate (Z.to_nat nports) None).

Definition sw_dev (ops : option switch_ops_ptr) (nports : Z) : rio_dev :=
  setf rd_net (Some 2%positive) (setf rd_pef RIO_PEF_SWITCH
    (setf rd_swpinfo (256 * nports) (setf rd_phys_efptr 0x100 (setf rd_phys_rmap 1
      (setf rd_em_efptr 0x1000 (setf rd_do_enum true (zero_rio_dev (Some (sw_switch ops nports))))))))).

Definition sw_state (rops : rio_ops swbench) (ops : option switch_ops_ptr) (w : swbench)
    : kstate swbench := {|
  ks_hw := w; ks_allocs := 0; ks_fresh := 10%positive;
  ks_devs := {[ 3%positive := sw_dev ops 4 ]};
  ks_nets := {[ 2%positive := sw_net ]};
  ks_mports := {[ 1%positive := sw_mport rops 1 0 ]};
  rio_devices := [3%positive]; rio_nets := [2%positive]; rio_mports := [1%positive];
  rio_scans := []; next_portid := 1; hdid := [1]; ids_num := 1;
  next_destid := 0; next_comptag := 1;
|}.

(** The path from that port to the switch. *)
Definition sw_path (rops : rio_ops swbench) (host sys_size : Z) : path swbench :=
  mk_path 1%positive (sw_mport rops host sys_size) 0 0.

(** All routes [p], the lock holding [lock]. *)
Definition sw_world (lock p : Z) : swbench :=
  mk_swbench lock 0 (fun _ => 0) (fun _ _ => p) ∅ 0 [].

(** ** The standard switch obeys the laws *)

Definition std_ops (g2 : bool) := sw_ops (std_write g2) (std_read g2).
Definition std_path (g2 : bool) (size : Z) := sw_path (std_ops g2) 1 size.

(** Decides the tests on register offsets. *)
Ltac sw_cases :=
  repeat match goal with
    | |- context [?a =? ?b] => destruct (Z.eqb_spec a b); try (exfalso; lia)
    end; cbn; try done.

Section std_laws.
Context (g2 : bool) (size : Z).

#[export] Program Instance std_path_lock : LockReg (std_path g2 size) := {|
  lock_val w := Z.land (sw_lock w) 0xffff;
|}.
Next Obligation. intros w. cbn. rewrite land_ffff. apply Z.mod_pos_bound. lia. Qed.
Next Obligation.
  intros w v Hv. cbn. split; [done|]. rewrite land_ffff. apply Z.mod_small.
  assert (0 <= Z.land (sw_lock w) 0xffff < 2 ^ 16)
    by (rewrite land_ffff; apply Z.mod_pos_bound; lia).
  unfold lock_update. sw_cases.
Qed.
Next Obligation. intros w. by destruct g2. Qed.
Next Obligation.
  intros off w Hoff. unfold reg_write, reg_read, std_write, std_read. cbn. split.
  - intros v. destruct g2; sw_cases.
  - unfold std_read. by repeat case_match.
Qed.
Next Obligation. intros us w. by exists []. Qed.

Lemma lut_update_mod sel v lut d :
  lut_update sel v lut d mod 2 ^ 8 = lut_update sel v (fun d => lut d mod 2 ^ 8) d.
Proof.
  unfold lut_update. rewrite !land_ff.
  destruct (Z.testbit sel 31); (destruct (_ && _) || destruct (_ =? _)); try done;
    by rewrite Z.mod_mod.
Qed.

#[export] Program Instance std_path_lut : StdLut (std_path g2 size) := {|
  st_sel w := sw_sel w 0;
  st_lut w d := sw_lut w (sw_psel w) d mod 2 ^ 8;
|}.
Next Obligation. done. Qed.
Next Obligation.
  intros w v Hv. unfold reg_write, std_write. cbn. rewrite andb_false_r. cbn.
  split; [done|split; [done|]]. intros d. by rewrite Z.eqb_refl, orb_true_r, lut_update_mod.
Qed.
Next Obligation.
  intros w Ht. by destruct g2.
Qed.
Next Obligation. intros d p us w H. exact H. Qed.
End std_laws.

#[export] Instance std_path_frame size : StdFrame (std_path false size).
Proof.
  intros d off p H1 H2 w Hw. unfold reg_write, reg_read, std_write. cbn.
  split; [|exact Hw].
  intros v. sw_cases.
Qed.

#[export] Instance std_path_pef g2 size :
  ConstReg (std_path g2 size) RIO_PEF_CAR (RIO_PEF_SWITCH + RIO_PEF_EXT_RT).
Proof. split; [by vm_compute|]. intros w. by destruct g2. Qed.
#[export] Instance std_path_limit g2 size :
  ConstReg (std_path g2 size) RIO_SWITCH_RT_LIMIT 0x1ff.
Proof. split; [by vm_compute|]. intros w. by destruct g2. Qed.

Lemma std_host g2 size : 0 <= mp_host_deviceid (pa_mp (std_path g2 size)) < 0xffff.
Proof. cbn. lia. Qed.
