(* ===== verification/ExtFeat.v ===== *)
(** * Extended feature blocks (rio.c)

    The walks along the linked list of extended feature blocks in a device's
    configuration space. *)

From S2P Require Import Prelude Regs State Access Bench.

Section extfeat.
Context {W : Type} `{!KernelEnv W}.

(** [if (local) rio_local_read_config_32 else rio_mport_read_config_32] *)
Definition read_cfg (port : ptr) (local : bool) (destid hopcount off value : Z)
    : KM W (Z * Z) :=
  if local then rio_local_read_config_32 port off value
  else rio_mport_read_config_32 port destid hopcount off value.

Definition rio_mport_get_efb (port : ptr) (local : bool) (destid hopcount from : Z)
    : KM W Z :=
  v <- uninit ;;
  if from =? 0 then
    let! (_, reg_val) := read_cfg port local destid hopcount RIO_ASM_INFO_CAR v ;;
    ret (Z.land reg_val RIO_EXT_FTR_PTR_MASK)
  else
    let! (_, reg_val) := read_cfg port local destid hopcount from v ;;
    ret (RIO_GET_BLOCK_ID reg_val).

(** The two groups of cases of the switch statement. *)
Definition is_rmap1 (id : Z) : bool :=
  existsb (Z.eqb id)
    [RIO_EFB_SER_EP_ID; RIO_EFB_SER_EP_REC_ID; RIO_EFB_SER_EP_FREE_ID;
     RIO_EFB_SER_EP_M1_ID; RIO_EFB_SER_EP_SW_M1_ID; RIO_EFB_SER_EPF_M1_ID;
     RIO_EFB_SER_EPF_SW_M1_ID].
Definition is_rmap2 (id : Z) : bool :=
  existsb (Z.eqb id)
    [RIO_EFB_SER_EP_M2_ID; RIO_EFB_SER_EP_SW_M2_ID; RIO_EFB_SER_EPF_M2_ID;
     RIO_EFB_SER_EPF_SW_M2_ID].

(** One round of the loop of [rio_mport_get_physefb]; it leaves with the
    block's offset and the new contents of [*rmap]. *)
Definition physefb_step (port : ptr) (local : bool) (destid hopcount rmap : Z)
    (v : Z * Z) : KM W ((Z * Z) + (Z * Z)) :=
  let '(ext_ftr_ptr, ftr_header) := v in
  if ext_ftr_ptr =? 0 then ret (inr (ext_ftr_ptr, rmap))
  else
    let! (_, ftr_header) :=
      read_cfg port local destid hopcount ext_ftr_ptr ftr_header ;;
    let ftr_header := RIO_GET_BLOCK_ID ftr_header in
    if is_rmap1 ftr_header then ret (inr (ext_ftr_ptr, 1))
    else if is_rmap2 ftr_header then ret (inr (ext_ftr_ptr, 2))
    else
      ext_ftr_ptr <- rio_mport_get_efb port local destid hopcount ext_ftr_ptr ;;
      ret (inl (ext_ftr_ptr, ftr_header)).

Definition rio_mport_get_physefb (fuel : nat) (port : ptr) (local : bool)
    (destid hopcount rmap : Z) : KM W (Z * Z) :=
  ext_ftr_ptr <- rio_mport_get_efb port local destid hopcount 0 ;;
  ftr_header <- uninit ;;
  loop fuel (physefb_step port local destid hopcount rmap) (ext_ftr_ptr, ftr_header).

(** One round of the loop of [rio_mport_get_feature]. *)
Definition feature_step (port : ptr) (local : bool) (destid hopcount ftr : Z)
    (v : Z * Z) : KM W ((Z * Z) + Z) :=
  let '(ext_ftr_ptr, ftr_header) := v in
  if ext_ftr_ptr =? 0 then ret (inr 0)
  else
    let! (_, ftr_header) :=
      read_cfg port local destid hopcount ext_ftr_ptr ftr_header ;;
    if RIO_GET_BLOCK_ID ftr_header =? ftr then ret (inr ext_ftr_ptr)
    else
      let ext_ftr_ptr := RIO_GET_BLOCK_PTR ftr_header in
      if ext_ftr_ptr =? 0 then ret (inr 0)
      else ret (inl (ext_ftr_ptr, ftr_header)).

Definition rio_mport_get_feature (fuel : nat) (port : ptr) (local : bool)
    (destid hopcount ftr : Z) : KM W Z :=
  asm_info <- uninit ;;
  let! (_, asm_info) := read_cfg port local destid hopcount RIO_ASM_INFO_CAR asm_info ;;
  ftr_header <- uninit ;;
  loop fuel (feature_step port local destid hopcount ftr)
    (Z.land asm_info RIO_EXT_FTR_PTR_MASK, ftr_header).

(** *** Frames *)

Lemma keeps_read_cfg p l d h o v : keeps same_kernel (read_cfg p l d h o v).
Proof. unfold read_cfg. solve_frame. Qed.
Hint Resolve keeps_read_cfg : frame.
Lemma keeps_get_efb p l d h from : keeps same_kernel (rio_mport_get_efb p l d h from).
Proof. unfold rio_mport_get_efb. solve_frame. Qed.
Hint Resolve keeps_get_efb : frame.
Lemma keeps_get_physefb n p l d h r :
  keeps same_kernel (rio_mport_get_physefb n p l d h r).
Proof.
  unfold rio_mport_get_physefb. repeat frame_step; auto with frame.
  apply keeps_loop; [typeclasses eauto|]. unfold physefb_step. solve_frame.
Qed.
Lemma keeps_get_feature n p l d h ftr :
  keeps same_kernel (rio_mport_get_feature n p l d h ftr).
Proof.
  unfold rio_mport_get_feature. repeat frame_step; auto with frame.
  apply keeps_loop; [typeclasses eauto|]. unfold feature_step. solve_frame.
Qed.
End extfeat.

#[export] Hint Resolve keeps_read_cfg keeps_get_efb keeps_get_physefb keeps_get_feature
  : frame.

(** ** Specification: the list of blocks a configuration space holds *)

(** [efb_chain cs p l]: in the configuration space [cs] the blocks reached from
    offset [p] are [l], a list of (offset, block id), ended by a null pointer. *)
Inductive efb_chain (cs : Z -> Z) : Z -> list (Z * Z) -> Prop :=
| efb_end : efb_chain cs 0 []
| efb_block p i next l :
    0 < p < 2 ^ 16 -> p mod 4 = 0 ->
    0 <= i < 2 ^ 16 -> 0 <= next < 2 ^ 16 ->
    cs p = next * 2 ^ 16 + i ->
    efb_chain cs next l ->
    efb_chain cs p ((p, i) :: l).

(** The offset of the first block with a given id, 0 when there is none. *)
Fixpoint find_block (ftr : Z) (l : list (Z * Z)) : Z :=
  match l with
  | [] => 0
  | (p, i) :: l' => if i =? ftr then p else find_block ftr l'
  end.

Section spec.
Context {W : Type} `{!KernelEnv W}.
Implicit Types s : kstate W.

(** From state [s] the target answers every aligned 32-bit read with the
    contents of [cs] and is not changed by it. *)
Definition answers (s : kstate W) (port : ptr) (local : bool)
    (destid hopcount : Z) (cs : Z -> Z) : Prop :=
  exists mp, ks_mports s !! port = Some mp /\
  forall off, off mod 4 = 0 ->
    0 <= cs off < 2 ^ 32 /\
    (if local then op_lcread (mp_ops mp) port (mp_id mp) off 4 (ks_hw s)
     else op_cread (mp_ops mp) port (mp_id mp) destid hopcount off 4 (ks_hw s))
    = ((0, cs off), ks_hw s).

Lemma set_same_hw s : with_hw (ks_hw s) s = s.
Proof. by destruct s. Qed.

Lemma run_read_cfg s port local destid hop cs off v :
  answers s port local destid hop cs -> off mod 4 = 0 ->
  read_cfg port local destid hop off v s = Done (0, cs off) s.
Proof.
  intros (mp & Hmp & Hr) Hoff. destruct (Hr off Hoff) as [Hrng Hrd].
  assert (RIO_32_BAD off = false) as Hal by (rewrite RIO_32_BAD_mod, Hoff; done).
  unfold read_cfg. destruct local.
  - rewrite (run_local_read _ _ _ _ _ _ _ _ Hmp Hal Hrd), u32_small by done.
    by rewrite set_same_hw.
  - rewrite (run_mport_read _ _ _ _ _ _ _ _ _ _ Hmp Hal Hrd), u32_small by done.
    by rewrite set_same_hw.
Qed.

Lemma efb_chain_header (cs : Z -> Z) p i next :
  0 <= i < 2 ^ 16 -> 0 <= next < 2 ^ 16 -> cs p = next * 2 ^ 16 + i ->
  RIO_GET_BLOCK_ID (cs p) = i /\ RIO_GET_BLOCK_PTR (cs p) = next.
Proof. intros ? ? ->. destruct (efb_header_fields next i); auto. Qed.

Lemma run_get_efb_first s port local destid hop cs :
  answers s port local destid hop cs ->
  rio_mport_get_efb port local destid hop 0 s
  = Done (Z.land (cs RIO_ASM_INFO_CAR) RIO_EXT_FTR_PTR_MASK) s.
Proof.
  intros Hans. unfold rio_mport_get_efb, uninit. unfold bind at 1, gets at 1. cbn [Z.eqb].
  by run (run_read_cfg _ _ _ _ _ _ RIO_ASM_INFO_CAR
            (u32 (env_indet (ks_hw s))) Hans eq_refl).
Qed.

Lemma run_get_efb_next s port local destid hop cs from :
  answers s port local destid hop cs -> from mod 4 = 0 -> from <> 0 ->
  rio_mport_get_efb port local destid hop from s = Done (RIO_GET_BLOCK_ID (cs from)) s.
Proof.
  intros Hans Hal Hnz. unfold rio_mport_get_efb, uninit. unfold bind at 1, gets at 1.
  destruct (Z.eqb_spec from 0); [done|].
  by run (run_read_cfg _ _ _ _ _ _ from (u32 (env_indet (ks_hw s))) Hans Hal).
Qed.

(** *** Any list, cyclic ones included *)

(** The blocks that a search for [ftr] visits from [p] on, and what it finds: the first block
    with the id or, at the end of the list, 0.  A search on a cycle without the id finds nothing. *)
Inductive efb_find (cs : Z -> Z) (ftr : Z) : Z -> list Z -> Z -> Prop :=
| find_end : efb_find cs ftr 0 [] 0
| find_here p : p <> 0 -> RIO_GET_BLOCK_ID (cs p) = ftr -> efb_find cs ftr p [p] p
| find_next p l r : p <> 0 -> RIO_GET_BLOCK_ID (cs p) <> ftr ->
    efb_find cs ftr (RIO_GET_BLOCK_PTR (cs p)) l r -> efb_find cs ftr p (p :: l) r.

(** The offsets that the pointers lead to. *)
Inductive efb_reach (cs : Z -> Z) (p : Z) : Z -> Prop :=
| reach_first : efb_reach cs p p
| reach_next q : efb_reach cs p q -> q <> 0 -> efb_reach cs p (RIO_GET_BLOCK_PTR (cs q)).

Lemma efb_reach_step cs p q : p <> 0 -> efb_reach cs (RIO_GET_BLOCK_PTR (cs p)) q -> efb_reach cs p q.
Proof. intros Hp. induction 1; [by apply reach_next; [apply reach_first|]|by apply reach_next]. Qed.

Lemma efb_find_det cs ftr p l1 r1 l2 r2 : efb_find cs ftr p l1 r1 -> efb_find cs ftr p l2 r2 -> l1 = l2 /\ r1 = r2.
Proof.
  intros H1. revert l2 r2. induction H1 as [|p Hp Hi|p l r Hp Hi Hf IH]; intros l2 r2 H2; inversion H2; subst; try done.
  destruct (IH l0 r2) as [-> ->]; done.
Qed.
Lemma efb_find_suffix cs ftr p l r q : efb_find cs ftr p l r -> q ∈ l ->
  exists l', efb_find cs ftr q l' r /\ (length l' <= length l)%nat.
Proof.
  induction 1 as [|p Hp Hi|p l r Hp Hi Hf IH]; [by intros ?%elem_of_nil|..].
  - intros ->%list_elem_of_singleton. exists [p]. split; [by apply find_here|done].
  - intros [->|Hin]%elem_of_cons; [exists (p :: l); split; [by apply find_next|done]|].
    destruct (IH Hin) as (l' & ? & ?). exists l'. split; [done|cbn; lia].
Qed.
Lemma efb_find_nodup cs ftr p l r : efb_find cs ftr p l r -> NoDup l.
Proof.
  induction 1 as [|p Hp Hi|p l r Hp Hi Hf IH]; [constructor|apply NoDup_singleton|]. constructor; [|done].
  intros Hin. destruct (efb_find_suffix _ _ _ _ _ _ Hf Hin) as (l' & Hl' & Hlen).
  destruct (efb_find_det cs ftr p l' r (p :: l) r) as [-> _]; [done|by apply find_next|]. simpl in Hlen. lia.
Qed.
Lemma efb_find_reach cs ftr p l r q : efb_find cs ftr p l r -> q ∈ l -> efb_reach cs p q /\ q <> 0.
Proof.
  induction 1 as [|p Hp Hi|p l r Hp Hi Hf IH]; [by intros ?%elem_of_nil|..].
  - intros ->%list_elem_of_singleton. split; [constructor|done].
  - intros [->|Hin]%elem_of_cons; [split; [constructor|done]|]. destruct (IH Hin). split; [by apply efb_reach_step|done].
Qed.

(** The blocks of a device are at aligned offsets. *)
Definition efb_aligned (cs : Z -> Z) (p : Z) : Prop := forall q, efb_reach cs p q -> q mod 4 = 0.

Lemma efb_aligned_next cs p : p <> 0 -> efb_aligned cs p -> efb_aligned cs (RIO_GET_BLOCK_PTR (cs p)).
Proof. intros Hp H q Hq. by apply H, efb_reach_step. Qed.
Lemma efb_reach_range cs p q : 0 <= p < 2 ^ 16 -> efb_reach cs p q -> 0 <= q < 2 ^ 16.
Proof.
  intros Hp. destruct 1 as [|q _ _]; [done|].
  rewrite RIO_GET_BLOCK_PTR_div. apply Z.mod_pos_bound. lia.
Qed.
Lemma efb_find_length cs ftr p l r : 0 <= p < 2 ^ 16 -> efb_aligned cs p -> efb_find cs ftr p l r ->
  (length l <= Z.to_nat 16383)%nat.
Proof.
  intros Hp Hal H. rewrite <- (zseq_length 4 4 (Z.to_nat 16383)).
  apply submseteq_length, NoDup_submseteq; [by eapply efb_find_nodup|]. intros q Hq.
  destruct (efb_find_reach _ _ _ _ _ _ H Hq) as [Hr Hnz]. pose proof (efb_reach_range _ _ _ Hp Hr). pose proof (Hal q Hr).
  apply elem_of_zseq. exists (q / 4 - 1). pose proof (Z.div_mod q 4 ltac:(lia)). lia.
Qed.

(** The search loop finds what there is, with a round for each block, and nothing else. *)
Lemma feature_loop_finds s port local destid hop cs ftr p l r hdr fuel :
  answers s port local destid hop cs -> efb_aligned cs p -> efb_find cs ftr p l r -> (length l < fuel)%nat ->
  loop fuel (feature_step port local destid hop ftr) (p, hdr) s = Done r s.
Proof.
  intros Hans Hal Hf. revert hdr fuel Hal. induction Hf as [|p Hp Hi|p l r Hp Hi Hf IH]; intros hdr fuel Hal Hfuel;
    (destruct fuel as [|fuel]; [simpl in Hfuel; lia|]); [done|..];
    cbn [loop]; unfold feature_step at 1; (destruct (Z.eqb_spec p 0); [done|]); unfold bind at 1;
    run (run_read_cfg _ _ _ _ _ _ p hdr Hans (Hal p (reach_first _ _))).
  - by rewrite (proj2 (Z.eqb_eq _ _) Hi).
  - rewrite (proj2 (Z.eqb_neq _ _) Hi). destruct (Z.eqb_spec (RIO_GET_BLOCK_PTR (cs p)) 0) as [Hz|Hnz].
    + rewrite Hz in Hf. by inversion Hf; subst.
    + cbn [ret]. apply IH; [by apply efb_aligned_next|simpl in Hfuel; lia].
Qed.
Lemma feature_loop_only s port local destid hop cs ftr fuel : answers s port local destid hop cs -> forall p hdr,
  efb_aligned cs p ->
  spec False True (loop fuel (feature_step port local destid hop ftr) (p, hdr)) s
    (fun r s' => s' = s /\ exists l, efb_find cs ftr p l r).
Proof.
  intros Hans. induction fuel as [|fuel IH]; intros p hdr Hal; [done|].
  cbn [loop]. apply spec_bind. unfold feature_step.
  destruct (Z.eqb_spec p 0) as [->|Hp]; [split; [done|]; eexists; constructor|].
  srun (run_read_cfg _ _ _ _ _ _ p hdr Hans (Hal p (reach_first _ _))).
  destruct (Z.eqb_spec (RIO_GET_BLOCK_ID (cs p)) ftr) as [Hi|Hi]; [split; [done|]; eexists; by apply find_here|].
  destruct (Z.eqb_spec (RIO_GET_BLOCK_PTR (cs p)) 0) as [Hz|Hnz].
  - split; [done|]. eexists. apply find_next; [done..|]. rewrite Hz. constructor.
  - apply spec_ret. eapply spec_mono; [apply (IH (RIO_GET_BLOCK_PTR (cs p)) (cs p)); by apply efb_aligned_next|].
    intros r s' [-> [l Hf]]. split; [done|]. exists (p :: l). by apply find_next.
Qed.

(** The search in a list that ends. *)
Lemma efb_chain_find cs ftr p l : efb_chain cs p l -> exists l', efb_find cs ftr p l' (find_block ftr l).
Proof.
  induction 1 as [|p i next l Hp ? Hi Hn Hcs Hch [l' IH]]; [exists []; constructor|].
  destruct (efb_chain_header cs p i next Hi Hn Hcs) as [Hid Hptr]. cbn [find_block].
  destruct (Z.eqb_spec i ftr) as [->|Hne]; [exists [p]; apply find_here; [lia|done]|].
  exists (p :: l'). apply find_next; [lia|congruence|by rewrite Hptr].
Qed.
End spec.

(** Rounds that suffice for every terminated list of blocks. *)
Definition EFB_FUEL : nat := Z.to_nat 16384.

Section correctness.
Context {W : Type} `{!KernelEnv W}.
Implicit Types s : kstate W.

(** C30: on a device whose pointers to feature blocks are word-aligned, [rio_mport_get_feature]
    returns exactly when the list of blocks leads to one with the requested id or to its end:
    then the bound on the rounds is enough, and the result is the offset of the first block
    with the id, or 0 when the list ends without one.  Otherwise, on a list that is cyclic
    and does not have the id, it never returns: no number of rounds is enough. *)
Theorem rio_mport_get_feature_correct s port local destid hop cs ftr :
  let first := Z.land (cs RIO_ASM_INFO_CAR) RIO_EXT_FTR_PTR_MASK in
  let run fuel := rio_mport_get_feature fuel port local destid hop ftr s in
  answers s port local destid hop cs -> efb_aligned cs first ->
  (forall l r, efb_find cs ftr first l r -> run EFB_FUEL = Done r s) /\
  (forall l, efb_chain cs first l -> run EFB_FUEL = Done (find_block ftr l) s) /\
  (forall fuel, run fuel = NoFuel \/ exists l r, efb_find cs ftr first l r /\ run fuel = Done r s).
Proof.
  intros first run Hans Hal.
  assert (forall fuel, run fuel = loop fuel (feature_step port local destid hop ftr) (first, u32 (env_indet (ks_hw s))) s) as Hrun.
  { intros fuel. unfold run, rio_mport_get_feature, uninit. unfold bind at 1, gets at 1.
    run (run_read_cfg _ _ _ _ _ _ RIO_ASM_INFO_CAR (u32 (env_indet (ks_hw s))) Hans eq_refl). done. }
  assert (0 <= first < 2 ^ 16) as Hfirst by (unfold first; rewrite (land_ffff (cs RIO_ASM_INFO_CAR) : Z.land _ RIO_EXT_FTR_PTR_MASK = _); apply Z.mod_pos_bound; lia).
  assert (forall l r, efb_find cs ftr first l r -> run EFB_FUEL = Done r s) as Hfind.
  { intros l r Hf. rewrite Hrun. eapply feature_loop_finds; [done..|].
    apply efb_find_length in Hf; [|done..]. unfold EFB_FUEL. lia. }
  split; [done|split].
  - intros l Hch. destruct (efb_chain_find _ ftr _ _ Hch) as [l' Hf]. by eapply Hfind.
  - intros fuel. rewrite Hrun.
    pose proof (feature_loop_only s port local destid hop cs ftr fuel Hans first (u32 (env_indet (ks_hw s))) Hal) as H.
    unfold spec in H. destruct (loop _ _ _ s) as [r s'| |]; [|done|by left]. destruct H as [-> [l Hf]]. right. by exists l, r.
Qed.

(** [rio_mport_get_physefb] identifies the physical layer block at the
    head of the list: it returns the block's offset with register map 1 or 2
    according to the block's id, and a null offset with [*rmap] untouched
    when the device has no extended features. *)
Theorem rio_mport_get_physefb_head s port local destid hop cs rmap p fuel :
  answers s port local destid hop cs ->
  Z.land (cs RIO_ASM_INFO_CAR) RIO_EXT_FTR_PTR_MASK = p -> p mod 4 = 0 ->
  rio_mport_get_physefb (S fuel) port local destid hop rmap s
  = if p =? 0 then Done (0, rmap) s
    else if is_rmap1 (RIO_GET_BLOCK_ID (cs p)) then Done (p, 1) s
    else if is_rmap2 (RIO_GET_BLOCK_ID (cs p)) then Done (p, 2) s
    else loop fuel (physefb_step port local destid hop rmap)
           (RIO_GET_BLOCK_ID (cs p), RIO_GET_BLOCK_ID (cs p)) s.
Proof.
  intros Hans Hp Hal. unfold rio_mport_get_physefb.
  run (run_get_efb_first _ _ _ _ _ _ Hans). rewrite Hp.
  unfold uninit. unfold bind at 1, gets at 1. cbn [loop].
  unfold physefb_step at 1. destruct (Z.eqb_spec p 0) as [->|Hnz]; [done|].
  unfold bind at 1. run (run_read_cfg _ _ _ _ _ _ _ (u32 (env_indet (ks_hw s))) Hans Hal).
  destruct (is_rmap1 _); [done|]. destruct (is_rmap2 _); [done|].
  by run (run_get_efb_next _ _ _ _ _ _ _ Hans Hal Hnz).
Qed.

(** asked for the block after [from], [rio_mport_get_efb] returns the
    block *id* found at [from]; the offset of the next block, which its
    comment promises, is what it returns only when the two coincide. *)
Theorem rio_mport_get_efb_returns_id s port local destid hop cs from i next l :
  answers s port local destid hop cs ->
  efb_chain cs from ((from, i) :: l) ->
  RIO_GET_BLOCK_PTR (cs from) = next ->
  rio_mport_get_efb port local destid hop from s = Done i s /\
  (rio_mport_get_efb port local destid hop from s = Done next s <-> next = i).
Proof.
  intros Hans Hch Hnext. inversion Hch as [|? ? next' ? Hr Hal Hi Hn Hcs ?]; subst.
  destruct (efb_chain_header cs from i next') as [E1 E2]; [done..|].
  rewrite (run_get_efb_next _ _ _ _ _ _ _ Hans Hal ltac:(lia)), E1, E2.
  split; [done|]. split; [by intros [=]|by intros ->].
Qed.

(** a device whose block header points to itself keeps
    [rio_mport_get_feature] in its loop for ever: no number of rounds lets the
    search for another feature finish. *)
Theorem rio_mport_get_feature_cyclic s port local destid hop cs ftr p i fuel :
  answers s port local destid hop cs ->
  Z.land (cs RIO_ASM_INFO_CAR) RIO_EXT_FTR_PTR_MASK = p ->
  0 < p < 2 ^ 16 -> p mod 4 = 0 -> 0 <= i < 2 ^ 16 ->
  cs p = p * 2 ^ 16 + i -> i <> ftr ->
  rio_mport_get_feature fuel port local destid hop ftr s = NoFuel.
Proof.
  intros Hans Hp Hr Hal Hi Hcs Hne. unfold rio_mport_get_feature, uninit.
  unfold bind at 1, gets at 1.
  run (run_read_cfg _ _ _ _ _ _ RIO_ASM_INFO_CAR
         (u32 (env_indet (ks_hw s))) Hans eq_refl).
  unfold bind at 1, gets at 1. rewrite Hp.
  destruct (efb_chain_header cs p i p) as [E1 E2]; [lia|lia|done|].
  generalize (u32 (env_indet (ks_hw s))) as hdr.
  induction fuel as [|fuel IH]; intros hdr; [done|].
  cbn [loop]. unfold feature_step at 1. destruct (Z.eqb_spec p 0); [lia|].
  unfold bind at 1. run (run_read_cfg _ _ _ _ _ _ _ hdr Hans Hal).
  rewrite E1, E2. destruct (Z.eqb_spec i ftr); [done|].
  destruct (Z.eqb_spec p 0); [lia|]. apply IH.
Qed.
End correctness.

(** ** Witnesses *)

(** A device with an error management block at 0x100 and a physical layer block
    at 0x200, and one whose only block points to itself. *)
Definition efb_regs : gmap (Z * Z * Z) Z :=
  list_to_map [((0, 0, 0x0c), 0x00010100); ((0, 0, 0x100), 0x02000007);
               ((0, 0, 0x200), 0x00000001)].
Definition efb_loop_regs : gmap (Z * Z * Z) Z :=
  list_to_map [((0, 0, 0x0c), 0x00000100); ((0, 0, 0x100), 0x01000007)].

Definition bench_space (regs : gmap (Z * Z * Z) Z) (d h off : Z) : Z :=
  default 0 (regs !! (d, h, off)).

(** All register contents fit in 32 bits. *)
Definition regs_ok (regs : gmap (Z * Z * Z) Z) : bool :=
  forallb (fun p => (0 <=? p.2) && (p.2 <? 2 ^ 32)) (map_to_list regs).

Lemma bench_answers loc regs d h :
  regs_ok regs = true ->
  answers (bench_state loc regs) 1 false d h (bench_space regs d h).
Proof.
  intros Hr. exists bench_mport. split; [done|]. intros off Hoff. split; [|done].
  unfold bench_space. destruct (regs !! (d, h, off)) as [v|] eqn:E; simpl; [|lia].
  unfold regs_ok in Hr. rewrite forallb_forall in Hr.
  apply elem_of_map_to_list, list_elem_of_In in E. specialize (Hr _ E). simpl in Hr. lia.
Qed.

(** The blocks of the first device, and the cycle of the second, are aligned. *)
Lemma efb_regs_aligned : efb_aligned (bench_space efb_regs 0 0) 0x100.
Proof.
  intros q Hq. enough (q = 0x100 \/ q = 0x200 \/ q = 0) as [->|[->| ->]] by reflexivity.
  induction Hq as [|q _ [->|[->| ->]] Hz]; [by left|..|done]; vm_compute; auto.
Qed.
Lemma efb_loop_aligned : efb_aligned (bench_space efb_loop_regs 0 0) 0x100.
Proof.
  intros q Hq. enough (q = 0x100) as -> by reflexivity. induction Hq as [|q _ -> Hz]; reflexivity.
Qed.

Lemma rio_mport_get_feature_correct_witness :
  rio_mport_get_feature EFB_FUEL 1%positive false 0 0 RIO_EFB_SER_EP_M1_ID
    (bench_state ∅ efb_regs) = Done 0x200 (bench_state ∅ efb_regs) /\
  forall fuel, rio_mport_get_feature fuel 1%positive false 0 0 1 (bench_state ∅ efb_loop_regs) = NoFuel.
Proof.
  split.
  - apply (rio_mport_get_feature_correct _ _ _ _ _ (bench_space efb_regs 0 0) RIO_EFB_SER_EP_M1_ID
      (bench_answers ∅ efb_regs 0 0 eq_refl) efb_regs_aligned) with [0x100; 0x200].
    change (Z.land _ _) with 0x100. apply find_next; [done..|]. change (RIO_GET_BLOCK_PTR _) with 0x200. by apply find_here.
  - intros fuel. destruct (rio_mport_get_feature_correct _ _ _ _ _ (bench_space efb_loop_regs 0 0) 1
      (bench_answers ∅ efb_loop_regs 0 0 eq_refl) efb_loop_aligned) as (_ & _ & H).
    destruct (H fuel) as [|(l & r & Hf & _)]; [done|]. exfalso. change (Z.land _ _) with 0x100 in Hf.
    assert (forall p, efb_find (bench_space efb_loop_regs 0 0) 1 p l r -> p <> 0x100) as Hno; [|by apply (Hno 0x100)].
    clear. induction 1 as [|p Hp Hi|p l r Hp Hi Hf IH]; [done|by intros ->|]. intros ->. by apply IH.
Defined.

Lemma rio_mport_get_physefb_head_witness :
  rio_mport_get_physefb 1 1%positive false 0 0 0
    (bench_state ∅ (<[(0, 0, 0x100) := 1]> efb_regs))
  = Done (0x100, 1) (bench_state ∅ (<[(0, 0, 0x100) := 1]> efb_regs)).
Proof.
  rewrite (rio_mport_get_physefb_head _ _ _ _ _
             (bench_space (<[(0, 0, 0x100) := 1]> efb_regs) 0 0) _ 0x100 0).
  - reflexivity.
  - by apply bench_answers.
  - reflexivity.
  - reflexivity.
Defined.

Lemma rio_mport_get_efb_returns_id_witness :
  rio_mport_get_efb 1%positive false 0 0 0x100 (bench_state ∅ efb_regs)
  = Done 7 (bench_state ∅ efb_regs).
Proof.
  apply (rio_mport_get_efb_returns_id _ _ _ _ _ (bench_space efb_regs 0 0) 0x100 7
           0x200 [(0x200, 1)]).
  - by apply bench_answers.
  - apply (efb_block _ _ _ 0x200); [first [lia|reflexivity]..|].
    apply (efb_block _ _ _ 0); [first [lia|reflexivity]..|]. constructor.
  - reflexivity.
Defined.

Lemma rio_mport_get_feature_cyclic_witness :
  rio_mport_get_feature 5 1%positive false 0 0 1 (bench_state ∅ efb_loop_regs) = NoFuel.
Proof.
  apply (rio_mport_get_feature_cyclic _ _ _ _ _ (bench_space efb_loop_regs 0 0) _ 0x100 7);
    [|first [lia|reflexivity]..].
  by apply bench_answers.
Defined.
