(* ===== verification/Route.v ===== *)
(** * Device lock and switch routing tables (rio.c)

    The host device lock, the routing operations on the standard registers, and
    the dispatch of [rio_route_*] to a switch driver or to the standard
    operations. *)

From S2P Require Import Prelude Regs State Access Hw SwBench.

(** ** struct rio_switch_ops *)

(** A [get_entry] callback takes the old contents of [*route_port] and returns
    the status and the new contents. *)
Record rio_switch_ops (W : Type) := mk_rio_switch_ops {
  so_owner : ptr;
  so_add_entry : option (ptr -> Z -> Z -> Z -> Z -> Z -> KM W Z);
  so_get_entry : option (ptr -> Z -> Z -> Z -> Z -> Z -> KM W (Z * Z));
  so_clr_table : option (ptr -> Z -> Z -> Z -> KM W Z);
  so_set_domain : option (ptr -> Z -> Z -> Z -> KM W Z);
  so_get_domain : option (ptr -> Z -> Z -> Z -> KM W (Z * Z));
  so_em_init : option (ptr -> KM W Z);
  so_em_handle : option (ptr -> Z -> KM W Z);
}.
Arguments mk_rio_switch_ops {W}. Arguments so_owner {W}.
Arguments so_add_entry {W}. Arguments so_get_entry {W}. Arguments so_clr_table {W}.
Arguments so_set_domain {W}. Arguments so_get_domain {W}.
Arguments so_em_init {W}. Arguments so_em_handle {W}.

(** What a pointer to a switch operations table points to; the drivers of
    switches/ provide it. *)
Class SwitchTables (W : Type) := switch_ops : switch_ops_ptr -> rio_switch_ops W.

Section route.
Context {W : Type} `{!KernelEnv W}.

(** ** Standard routing registers *)

Definition rio_std_route_add_entry (mport : ptr)
    (destid hopcount table route_destid route_port : Z) : KM W Z :=
  when (table =? RIO_GLOBAL_TABLE)
    (rio_mport_write_config_32 mport destid hopcount
       RIO_STD_RTE_CONF_DESTID_SEL_CSR route_destid ;;;
     rio_mport_write_config_32 mport destid hopcount
       RIO_STD_RTE_CONF_PORT_SEL_CSR route_port ;;; ret tt) ;;;
  udelay 10 ;;;
  ret 0.

Definition rio_std_route_get_entry (mport : ptr)
    (destid hopcount table route_destid route_port : Z) : KM W (Z * Z) :=
  result <- uninit ;;
  if table =? RIO_GLOBAL_TABLE then
    rio_mport_write_config_32 mport destid hopcount
      RIO_STD_RTE_CONF_DESTID_SEL_CSR route_destid ;;;
    let! (_, result) := rio_mport_read_config_32 mport destid hopcount
      RIO_STD_RTE_CONF_PORT_SEL_CSR result ;;
    ret (0, u8 result)
  else ret (0, route_port).

(** The word that marks four consecutive entries invalid. *)
Definition invalid_route_x4 : Z :=
  Z.lor (Z.lor (Z.lor (Z.shiftl RIO_INVALID_ROUTE 24) (Z.shiftl RIO_INVALID_ROUTE 16))
           (Z.shiftl RIO_INVALID_ROUTE 8)) RIO_INVALID_ROUTE.

Definition rio_std_route_clr_table (mport : ptr) (destid hopcount table : Z) : KM W Z :=
  when (table =? RIO_GLOBAL_TABLE)
    (pef <- uninit ;;
     let! (_, pef) := rio_mport_read_config_32 mport destid hopcount RIO_PEF_CAR pef ;;
     mp <- get_mport mport ;;
     max_destid <-
       (if truthy (mp_sys_size mp) then
          let! (_, max_destid) := rio_mport_read_config_32 mport destid hopcount
            RIO_SWITCH_RT_LIMIT 0xff ;;
          ret (Z.land max_destid RIO_RT_MAX_DESTID)
        else ret 0xff) ;;
     let ext := truthy (Z.land pef RIO_PEF_EXT_RT) in
     let ext_cfg := if ext then 0x80000000 else 0 in
     let id_inc := if ext then 4 else 1 in
     let port_sel := if ext then invalid_route_x4 else RIO_INVALID_ROUTE in
     for_ (zseq 0 id_inc (Z.to_nat (max_destid / id_inc + 1))) (fun i =>
       rio_mport_write_config_32 mport destid hopcount
         RIO_STD_RTE_CONF_DESTID_SEL_CSR (Z.lor ext_cfg i) ;;;
       rio_mport_write_config_32 mport destid hopcount
         RIO_STD_RTE_CONF_PORT_SEL_CSR port_sel ;;; ret tt)) ;;;
  udelay 10 ;;;
  ret 0.

(** ** The host device lock *)

(** One round of the retry loop; the loop variables are [result] and [tcnt]. *)
Definition lock_step (port : ptr) (destid hopcount wait_ms : Z) (v : Z * Z)
    : KM W ((Z * Z) + Z) :=
  let '(result, tcnt) := v in
  mp <- get_mport port ;;
  if result =? u32 (mp_host_deviceid mp) then ret (inr 0)
  else if truthy wait_ms && (tcnt =? wait_ms) then ret (inr (- EINVAL))
  else
    mdelay 1 ;;;
    rio_mport_write_config_32 port destid hopcount RIO_HOST_DID_LOCK_CSR
      (mp_host_deviceid mp) ;;;
    let! (_, result) := rio_mport_read_config_32 port destid hopcount
      RIO_HOST_DID_LOCK_CSR result ;;
    ret (inl (result, s32 (tcnt + 1))).

Definition rio_lock_device (fuel : nat) (port : ptr) (destid hopcount wait_ms : Z)
    : KM W Z :=
  result <- uninit ;;
  mp <- get_mport port ;;
  rio_mport_write_config_32 port destid hopcount RIO_HOST_DID_LOCK_CSR
    (mp_host_deviceid mp) ;;;
  let! (_, result) := rio_mport_read_config_32 port destid hopcount
    RIO_HOST_DID_LOCK_CSR result ;;
  loop fuel (lock_step port destid hopcount wait_ms) (result, 0).

Definition rio_unlock_device (port : ptr) (destid hopcount : Z) : KM W Z :=
  result <- uninit ;;
  mp <- get_mport port ;;
  rio_mport_write_config_32 port destid hopcount RIO_HOST_DID_LOCK_CSR
    (mp_host_deviceid mp) ;;;
  let! (_, result) := rio_mport_read_config_32 port destid hopcount
    RIO_HOST_DID_LOCK_CSR result ;;
  if negb (Z.land result 0xffff =? 0xffff) then ret (- EINVAL) else ret 0.

(** Rounds that suffice for the timeout of 1000 ms used by the callers. *)
Definition LOCK_FUEL : nat := Z.to_nat 1001.

(** ** Dispatch *)

Context `{!SwitchTables W}.

(** The frame of the three functions: take the device lock if asked to, run the
    operation, release the lock.  [rc] starts at [-EINVAL] and is overwritten
    by the result of the locking. *)
Definition with_device_lock (rdev : ptr) (lock : bool) {A} (fail : Z -> A)
    (body : Z -> KM W A) : KM W A :=
  d <- get_dev rdev ;;
  rc <- (if lock then
           hport <- dev_hport d ;;
           rio_lock_device LOCK_FUEL hport (rd_destid d) (rd_hopcount d) 1000
         else ret (- EINVAL)) ;;
  if lock && truthy rc then ret (fail rc)
  else
    a <- body rc ;;
    when lock
      (d <- get_dev rdev ;;
       hport <- dev_hport d ;;
       rio_unlock_device hport (rd_destid d) (rd_hopcount d) ;;; ret tt) ;;;
    ret a.

(** The choice the three functions make: the standard operation when the switch
    has no operations or not this one, else the driver's operation if its module
    can be held; [fail] is what is left when it cannot. *)
Definition call_switch_op {F A} (sel : rio_switch_ops W -> option F) (std : F)
    (call : F -> KM W A) (sw : rio_switch) (fail : A) : KM W A :=
  match rs_ops sw with
  | None => call std
  | Some p =>
      match sel (switch_ops p) with
      | None => call std
      | Some op =>
          ok <- try_module_get (so_owner (switch_ops p)) ;;
          if ok : bool then
            a <- call op ;;
            module_put (so_owner (switch_ops p)) ;;;
            ret a
          else ret fail
      end
  end.

Definition rio_route_add_entry (rdev : ptr) (table route_destid route_port : Z)
    (lock : bool) : KM W Z :=
  sw <- get_rswitch rdev ;;
  with_device_lock rdev lock (fun rc => rc) (fun rc =>
    d <- get_dev rdev ;;
    hport <- dev_hport d ;;
    call_switch_op so_add_entry rio_std_route_add_entry
      (fun add_entry =>
         add_entry hport (rd_destid d) (rd_hopcount d) table route_destid route_port)
      sw rc).

Definition rio_route_get_entry (rdev : ptr) (table route_destid route_port : Z)
    (lock : bool) : KM W (Z * Z) :=
  sw <- get_rswitch rdev ;;
  with_device_lock rdev lock (fun rc => (rc, route_port)) (fun rc =>
    d <- get_dev rdev ;;
    hport <- dev_hport d ;;
    call_switch_op so_get_entry rio_std_route_get_entry
      (fun get_entry =>
         get_entry hport (rd_destid d) (rd_hopcount d) table route_destid route_port)
      sw (rc, route_port)).

Definition rio_route_clr_table (rdev : ptr) (table : Z) (lock : bool) : KM W Z :=
  sw <- get_rswitch rdev ;;
  with_device_lock rdev lock (fun rc => rc) (fun rc =>
    d <- get_dev rdev ;;
    hport <- dev_hport d ;;
    call_switch_op so_clr_table rio_std_route_clr_table
      (fun clr_table => clr_table hport (rd_destid d) (rd_hopcount d) table)
      sw rc).
End route.

(** ** The contract, seen through the operations alone

    What is written is read back, an entry does not disturb another one, and
    clearing removes every entry. *)

Definition table_spec {W} `{!KernelEnv W} (pa : path W)
    (add : ptr -> Z -> Z -> Z -> Z -> Z -> KM W Z)
    (get : ptr -> Z -> Z -> Z -> Z -> Z -> KM W (Z * Z))
    (clr : ptr -> Z -> Z -> Z -> KM W Z)
    (table dest port : Z -> bool) (limit : Z) : Prop :=
  let add := add (pa_port pa) (pa_destid pa) (pa_hop pa) in
  let get := get (pa_port pa) (pa_destid pa) (pa_hop pa) in
  let clr := clr (pa_port pa) (pa_destid pa) (pa_hop pa) in
  forall s t d p d' p' old,
  on_path s pa -> table t = true -> dest d = true -> port p = true ->
  dest d' = true -> port p' = true ->
  total (rc <- add t d p ;; rc' <- add t d' p' ;; r <- get t d old ;; ret (rc, rc', r)) s
    (fun r s' => same_kernel s s' /\ let q := if d =? d' then p' else p in
       r = (0, 0, (get_status limit q, q))) /\
  total (rc <- clr t ;; rc' <- add t d p ;; r <- get t d' old ;; ret (rc, rc', r)) s
    (fun r s' => same_kernel s s' /\ let q := if d' =? d then p else RIO_INVALID_ROUTE in
       r = (0, 0, (get_status limit q, q))).

Lemma route_ops_table_spec {W} `{!KernelEnv W} (pa : path W) add get clr
    `{!RouteOps pa add get clr} :
  rt_port RIO_INVALID_ROUTE = true ->
  table_spec pa add get clr rt_table rt_dest rt_port rt_limit.
Proof.
  intros Hinv. unfold table_spec. intros s t d p d' p' old Hs Ht Hd Hp Hd' Hp'.
  split; apply spec_bind.
  - eapply spec_mono; [by apply rt_add|]. cbn beta. intros rc s1 (Hk1 & -> & Hl1).
    apply spec_bind. apply (on_path_sk _ _ _ Hk1) in Hs as Hs1.
    eapply spec_mono; [by apply rt_add|]. cbn beta. intros rc' s2 (Hk2 & -> & Hl2).
    assert (rt_view (ks_hw s2) t d = if d =? d' then p' else p) as Hv.
    { rewrite Hl2, Hl1, Z.eqb_refl by done. done. }
    apply spec_bind. eapply spec_mono.
    { apply rt_get; [by eapply on_path_sk|done|done|rewrite Hv; by destruct (d =? d')]. }
    cbn beta. intros [rc x] s3 (Hk3 & Hx & Hrc & _). cbn [fst snd] in *. subst x rc.
    apply spec_ret. rewrite Hv. split; [by transitivity s2; [transitivity s1|]|done].
  - eapply spec_mono; [by apply rt_clr|]. cbn beta. intros rc s1 (Hk1 & -> & Hl1).
    apply spec_bind. apply (on_path_sk _ _ _ Hk1) in Hs as Hs1.
    eapply spec_mono; [by apply rt_add|]. cbn beta. intros rc' s2 (Hk2 & -> & Hl2).
    assert (rt_view (ks_hw s2) t d' = if d' =? d then p else RIO_INVALID_ROUTE) as Hv.
    { rewrite Hl2, Hl1 by done. done. }
    apply spec_bind. eapply spec_mono.
    { apply rt_get; [by eapply on_path_sk|done|done|rewrite Hv; by destruct (d' =? d)]. }
    cbn beta. intros [rc x] s3 (Hk3 & Hx & Hrc & _). cbn [fst snd] in *. subst x rc.
    apply spec_ret. rewrite Hv. split; [by transitivity s2; [transitivity s1|]|done].
Qed.

(** ** The standard routing operations keep their contract *)

(** Folds the accessors of the end of a path. *)
Ltac fold_path pa :=
  repeat change (rio_mport_write_config_32 (pa_port pa) (pa_destid pa) (pa_hop pa))
    with (path_write pa);
  repeat change (rio_mport_read_config_32 (pa_port pa) (pa_destid pa) (pa_hop pa))
    with (path_read pa).

(** Steps over a write or read at the end of a path. *)
Ltac step_write := apply spec_bind; apply spec_write; [done|done|].
Ltac step_read := apply spec_bind; apply spec_read; [done|done|].

(** The frame of a routing operation that stays away from the lock register. *)
Ltac solve_pres_with pa H tac :=
  let Hd := fresh "Hd" in let Hoff := fresh "Hoff" in
  destruct H as [Hd Hoff];
  fold_path pa;
  repeat first
    [ progress frame_step
    | apply keeps_ret | apply keeps_when | apply keeps_for
    | apply pres_write, Hoff; solve [done|tac] | apply pres_read, Hoff; solve [done|tac]
    | apply pres_udelay, Hd | apply keeps_uninit | apply keeps_get_mport
    | apply pres_preorder ].
Ltac solve_pres pa H := solve_pres_with pa H ltac:(fail).

Section std_fill.
Context {W : Type} `{!KernelEnv W} (pa : path W) `{!StdLut pa}.
Implicit Types s : kstate W.

(** [st_pres w w']: only the two registers were accessed on the way. *)
Definition st_pres (w w' : W) : Prop :=
  forall I : W -> Prop, stable_at pa RIO_STD_RTE_CONF_DESTID_SEL_CSR I ->
    stable_at pa RIO_STD_RTE_CONF_PORT_SEL_CSR I -> I w -> I w'.

#[export] Instance st_pres_preorder : PreOrder st_pres.
Proof.
  split; [by intros w I|]. intros w1 w2 w3 H1 H2 I Hs Hp Hi.
  apply H2; [done..|]. by apply H1.
Qed.

Lemma st_pres_sel w v : st_pres w (reg_write pa RIO_STD_RTE_CONF_DESTID_SEL_CSR v w).2.
Proof. intros I Hs _ Hi. by apply Hs. Qed.
Lemma st_pres_port w v : st_pres w (reg_write pa RIO_STD_RTE_CONF_PORT_SEL_CSR v w).2.
Proof. intros I _ Hp Hi. by apply Hp. Qed.
Lemma st_pres_port_read w : st_pres w (reg_read pa RIO_STD_RTE_CONF_PORT_SEL_CSR w).2.
Proof. intros I _ Hp Hi. by apply Hp. Qed.

(** The entries that one write to the port select register sets. *)
Definition covers (sel d : Z) : bool :=
  let base := Z.land sel 0xffff in
  if Z.testbit sel 31 then (base <=? d) && (d <? base + 4) else d =? base.

(** A sequence of select and port writes with one word sets exactly the covered
    entries. *)
Lemma std_fill (l : list Z) (g : Z -> Z) word v s :
  on_path s pa ->
  (forall i, i ∈ l -> 0 <= g i < 2 ^ 32) ->
  (forall i d lut, i ∈ l ->
     lut_update (g i) (u32 word) lut d = if covers (g i) d then v else lut d) ->
  total (for_ l (fun i =>
      path_write pa RIO_STD_RTE_CONF_DESTID_SEL_CSR (g i) ;;;
      path_write pa RIO_STD_RTE_CONF_PORT_SEL_CSR word ;;; ret tt)) s
    (fun _ s' => same_kernel s s' /\ st_pres (ks_hw s) (ks_hw s') /\ forall d,
       st_lut (ks_hw s') d
       = if existsb (fun i => covers (g i) d) l then v else st_lut (ks_hw s) d).
Proof.
  revert s. induction l as [|i l IH]; intros s Hs Hr Hu; cbn [for_].
  - apply spec_ret. split; [reflexivity|by split].
  - assert (i ∈ i :: l) as Hin by apply list_elem_of_here.
    apply spec_bind. step_write.
    destruct (st_write_sel (ks_hw s) (u32 (g i)) (u32_range _)) as (_ & Hsel & Hl1).
    set (w1 := (reg_write pa _ (u32 (g i)) (ks_hw s)).2) in *.
    step_write. destruct (st_write_port w1 (u32 word) (u32_range _)) as (_ & _ & Hl2).
    rewrite hw_with_hw.
    set (w2 := (reg_write pa _ (u32 word) w1).2) in *. apply spec_ret.
    eapply spec_mono; [apply IH; [done|by intros; apply Hr, list_elem_of_further|
      by intros; apply Hu, list_elem_of_further]|].
    intros [] s' (Hk & Hst & Hd). split; [exact Hk|split].
    { transitivity w2; [|done]. transitivity w1; [apply st_pres_sel|apply st_pres_port]. }
    intros d. rewrite Hd. cbn [existsb]. rewrite hw_with_hw.
    rewrite Hl2, Hsel, (u32_small (g i)), (Hu i) by auto. rewrite orb_comm. destruct (existsb _ l), (covers (g i) d);
      by simpl.
Qed.
End std_fill.

(** The entries that a select word covers, without and with the extended
    configuration bit. *)
Lemma sel_plain i : 0 <= i < 2 ^ 16 -> Z.land i 0xffff = i /\ Z.testbit i 31 = false.
Proof.
  intros Hi. split; [rewrite land_ffff; by apply Z.mod_small|].
  rewrite <- (Z.mod_small i (2 ^ 16)) by lia. apply Z.mod_pow2_bits_high. lia.
Qed.

Lemma sel_ext i :
  0 <= i < 2 ^ 16 ->
  Z.land (Z.lor 0x80000000 i) 0xffff = i /\ Z.testbit (Z.lor 0x80000000 i) 31 = true /\
  Z.lor 0x80000000 i = 0x80000000 + i.
Proof.
  intros Hi. destruct (sel_plain i Hi) as [H1 H2]. split; [|split].
  - rewrite Z.land_lor_distr_l, H1. by apply Z.lor_0_l.
  - by rewrite Z.lor_spec, H2.
  - symmetry. rewrite <- Z.lxor_lor; [apply Z.add_nocarry_lxor|].
    all: apply Z.bits_inj'; intros n Hn; rewrite Z.land_spec, Z.bits_0;
      rewrite <- (Z.mod_small i (2 ^ 16)) by lia;
      (destruct (Z.ltb_spec n 16);
       [change 0x80000000 with (2 ^ 31); rewrite Z.pow2_bits_false by lia; done
       |rewrite Z.mod_pow2_bits_high by lia; apply andb_false_r]).
Qed.

(** Writing four equal bytes through an extended select, or one byte through a
    plain one, stores that byte in every covered entry. *)
Lemma lut_update_x4 b sel d lut :
  0 <= b < 2 ^ 8 ->
  Z.testbit sel 31 = true ->
  lut_update sel (b * 0x01010101) lut d = if covers sel d then b else lut d.
Proof.
  intros Hb Hs. unfold lut_update, covers. rewrite Hs.
  destruct ((_ <=? _) && _) eqn:E; [|done].
  assert (exists k, d - Z.land sel 0xffff = k /\ 0 <= k < 4) as (k & -> & Hk).
  { eexists. split; [done|]. apply andb_true_iff in E as [?%Z.leb_le ?%Z.ltb_lt]. lia. }
  rewrite land_ff, Z.shiftr_div_pow2 by lia.
  assert (k = 0 \/ k = 1 \/ k = 2 \/ k = 3) as [-> | [-> | [-> | ->]]] by lia; simpl Z.mul; simpl Z.pow.
  all: Z.to_euclidean_division_equations; lia.
Qed.

Lemma lut_update_plain b sel d lut :
  Z.testbit sel 31 = false ->
  lut_update sel b lut d = if covers sel d then Z.land b 0xff else lut d.
Proof. intros Hs. unfold lut_update, covers. by rewrite Hs. Qed.

(** Clearing through extended selects from entry 0 on. *)
Section std_fill_x4.
Context {W : Type} `{!KernelEnv W} (pa : path W) `{!StdLut pa}.

Lemma std_fill_x4 b n (s : kstate W) :
  on_path s pa -> 0 <= b < 2 ^ 8 -> 4 * Z.of_nat n <= 2 ^ 16 ->
  total (for_ (zseq 0x80000000 4 n) (fun i =>
      path_write pa RIO_STD_RTE_CONF_DESTID_SEL_CSR i ;;;
      path_write pa RIO_STD_RTE_CONF_PORT_SEL_CSR (b * 0x01010101) ;;; ret tt)) s
    (fun _ s' => same_kernel s s' /\ st_pres pa (ks_hw s) (ks_hw s') /\
       forall d, 0 <= d < 4 * Z.of_nat n -> st_lut (ks_hw s') d = b).
Proof.
  intros Hs Hb Hn.
  assert (forall i, i ∈ zseq 0x80000000 4 n -> exists k, i = 0x80000000 + 4 * k /\
    0 <= k < Z.of_nat n /\ Z.land i 0xffff = 4 * k /\ Z.testbit i 31 = true) as Hi.
  { intros i (k & Hk & ->)%elem_of_zseq. exists k.
    destruct (sel_ext (4 * k)) as (H1 & H2 & H3); [lia|]. by rewrite H3 in H1, H2. }
  eapply spec_mono; [apply (std_fill pa _ (fun i => i) _ b); [done|..]|].
  - intros i (k & -> & ? & _)%Hi. lia.
  - intros i d lut (k & _ & _ & _ & ?)%Hi. rewrite u32_small by lia. by apply lut_update_x4.
  - intros _ s' (Hk & Hst & Hl). split; [done|split; [done|]]. intros d Hd. rewrite Hl.
    replace (existsb _ _) with true; [done|]. symmetry. apply existsb_exists.
    exists (0x80000000 + 4 * (d / 4)).
    assert (0x80000000 + 4 * (d / 4) ∈ zseq 0x80000000 4 n) as Hin.
    { apply elem_of_zseq. exists (d / 4). Z.to_euclidean_division_equations; lia. }
    split; [by apply list_elem_of_In|]. apply Hi in Hin as (k & ? & ? & Hb1 & Hb2).
    unfold covers. rewrite Hb1, Hb2. Z.to_euclidean_division_equations; lia.
Qed.
End std_fill_x4.

Section std_ops.
Context {W : Type} `{!KernelEnv W} (pa : path W) `{!StdLut pa} `{!StdFrame pa} (pef lim : Z)
  `{!ConstReg pa RIO_PEF_CAR pef} `{!ConstReg pa RIO_SWITCH_RT_LIMIT lim}.
Implicit Types s : kstate W.

(** The destination ids that clearing covers. *)
Definition std_max_destid : Z :=
  if truthy (mp_sys_size (pa_mp pa)) then Z.land lim RIO_RT_MAX_DESTID else 0xff.

Lemma std_max_destid_range : 0 <= std_max_destid < 2 ^ 16.
Proof.
  unfold std_max_destid. destruct (truthy _); [|lia].
  unfold RIO_RT_MAX_DESTID. rewrite land_ffff. apply Z.mod_pos_bound. lia.
Qed.

Lemma std_select s d :
  0 <= d < 2 ^ 16 ->
  let w1 := (reg_write pa RIO_STD_RTE_CONF_DESTID_SEL_CSR (u32 d) (ks_hw s)).2 in
  st_sel w1 = d /\ (forall d', st_lut w1 d' = st_lut (ks_hw s) d') /\
  Z.land (st_sel w1) 0xffff = d /\ Z.testbit (st_sel w1) 31 = false.
Proof.
  intros Hd w1. destruct (st_write_sel (ks_hw s) (u32 d) (u32_range _)) as (_ & Hsel & Hl).
  fold w1 in Hsel, Hl. rewrite u32_small in Hsel by lia.
  destruct (sel_plain d Hd). rewrite Hsel. auto.
Qed.

(** Writing the port of the selected entry. *)
Lemma spec_std_port (u f : Prop) s d p {A} (k : KM W A) R :
  on_path s pa -> 0 <= d < 2 ^ 16 -> st_sel (ks_hw s) = d ->
  (forall s', same_kernel s s' -> (forall d', st_lut (ks_hw s') d'
     = if d' =? d then u32 p mod 2 ^ 8 else st_lut (ks_hw s) d') ->
     st_pres pa (ks_hw s) (ks_hw s') -> spec u f k s' R) ->
  spec u f (path_write pa RIO_STD_RTE_CONF_PORT_SEL_CSR p ;;; k) s R.
Proof.
  intros Hs Hd Hsel Hk. step_write.
  destruct (st_write_port (ks_hw s) (u32 p) (u32_range _)) as (_ & _ & Hl2).
  set (w2 := (reg_write pa _ (u32 p) (ks_hw s)).2) in *.
  apply Hk; [done| |apply st_pres_port]. intros d'. destruct (sel_plain d Hd) as [Hb Ht].
  rewrite hw_with_hw, Hl2, Hsel, lut_update_plain by done.
  unfold covers. by rewrite Hb, Ht, land_ff.
Qed.

(** Selecting an entry and writing its port. *)
Lemma spec_std_set (u f : Prop) s d p {A} (k : KM W A) R :
  on_path s pa -> 0 <= d < 2 ^ 16 ->
  (forall s', same_kernel s s' -> (forall d', st_lut (ks_hw s') d'
     = if d' =? d then u32 p mod 2 ^ 8 else st_lut (ks_hw s) d') ->
     st_pres pa (ks_hw s) (ks_hw s') -> spec u f k s' R) ->
  spec u f (path_write pa RIO_STD_RTE_CONF_DESTID_SEL_CSR d ;;;
            path_write pa RIO_STD_RTE_CONF_PORT_SEL_CSR p ;;; k) s R.
Proof.
  intros Hs Hd Hk. step_write. destruct (std_select s d Hd) as (Hsel & Hl & _).
  apply (spec_std_port _ _ (with_hw _ s) d); [done..|]. intros s' Hk' Hl' Hst.
  apply Hk; [by eapply sk_trans; [apply sk_with_hw|]| |etransitivity; [apply st_pres_sel|exact Hst]].
  intros d'. rewrite Hl', hw_with_hw. destruct (d' =? d); [done|apply Hl].
Qed.

(** Selecting an entry and reading its port. *)
Lemma spec_std_fetch (u f : Prop) s d v (A : Type) (k : Z * Z -> KM W A) R :
  on_path s pa -> 0 <= d < 2 ^ 16 ->
  (forall x s', same_kernel s s' -> x mod 2 ^ 8 = st_lut (ks_hw s) d -> st_sel (ks_hw s') = d ->
     (forall d', st_lut (ks_hw s') d' = st_lut (ks_hw s) d') ->
     st_pres pa (ks_hw s) (ks_hw s') -> spec u f (k (0, x)) s' R) ->
  spec u f (path_write pa RIO_STD_RTE_CONF_DESTID_SEL_CSR d ;;;
            r <- path_read pa RIO_STD_RTE_CONF_PORT_SEL_CSR v ;; k r) s R.
Proof.
  intros Hs Hd Hk. step_write. destruct (std_select s d Hd) as (Hsel & Hl & Hb & Ht).
  set (w1 := (reg_write pa _ (u32 d) (ks_hw s)).2) in *. step_read. rewrite hw_with_hw.
  destruct (st_read_port w1 Ht) as (-> & Hv & Hsel2 & Hl2). rewrite Hb, Hl in Hv.
  apply Hk; [done| |by rewrite hw_with_hw, Hsel2|intros d'; by rewrite hw_with_hw, Hl2
            |etransitivity; [apply st_pres_sel|apply st_pres_port_read]].
  rewrite <- Hv. unfold u32. change (2 ^ 32) with (2 ^ 8 * 2 ^ 24).
  rewrite Z.rem_mul_r by lia. rewrite Z.mul_comm, Z.mod_add, Z.mod_mod by lia. done.
Qed.

Lemma std_delay_lut us w d : st_lut (env_udelay us w) d = st_lut w d.
Proof. exact (st_delay d (st_lut w d) us w eq_refl). Qed.

Lemma spec_udelay (u f : Prop) s us (Q : unit -> kstate W -> Prop) :
  Q tt (with_hw (env_udelay us (ks_hw s)) s) -> spec u f (udelay us) s Q.
Proof. done. Qed.

Lemma std_clr_entries s (ext : bool) :
  on_path s pa ->
  let inc := if ext then 4 else 1 in
  total (for_ (zseq 0 inc (Z.to_nat (std_max_destid / inc + 1))) (fun i =>
      path_write pa RIO_STD_RTE_CONF_DESTID_SEL_CSR
        (Z.lor (if ext then 0x80000000 else 0) i) ;;;
      path_write pa RIO_STD_RTE_CONF_PORT_SEL_CSR
        (if ext then invalid_route_x4 else RIO_INVALID_ROUTE) ;;; ret tt)) s
    (fun _ s' => same_kernel s s' /\ forall d, 0 <= d <= std_max_destid ->
       st_lut (ks_hw s') d = RIO_INVALID_ROUTE).
Proof.
  intros Hs inc. pose proof std_max_destid_range as Hm.
  assert (forall i, i ∈ zseq 0 inc (Z.to_nat (std_max_destid / inc + 1)) ->
            0 <= i < 2 ^ 16) as Hi.
  { intros i (k & Hk & ->)%elem_of_zseq. unfold inc in *.
    destruct ext; Z.to_euclidean_division_equations; lia. }
  eapply spec_mono; [apply (std_fill pa _ _ _ RIO_INVALID_ROUTE); [done|..]|].
  - intros i ?%Hi. destruct ext; [destruct (sel_ext i) as (_ & _ & ->); lia|].
    rewrite Z.lor_0_l. lia.
  - intros i d lut ?%Hi. destruct ext.
    + destruct (sel_ext i) as (_ & ? & _); [lia|]. by apply (lut_update_x4 0xff).
    + rewrite Z.lor_0_l. destruct (sel_plain i); [lia|]. by apply lut_update_plain.
  - intros _ s' (Hk & _ & Hl). split; [done|]. intros d Hd. rewrite Hl.
    replace (existsb _ _) with true; [done|]. symmetry. apply existsb_exists.
    exists (inc * (d / inc)). assert (0 < inc) by (unfold inc; destruct ext; lia).
    assert (inc * (d / inc) ∈ zseq 0 inc (Z.to_nat (std_max_destid / inc + 1))) as Hin.
    { apply elem_of_zseq. exists (d / inc).
      pose proof (Z.div_le_mono d std_max_destid inc). pose proof (Z.div_pos d inc). lia. }
    split; [by apply list_elem_of_In|]. apply Hi in Hin. unfold covers, inc in *.
    destruct ext.
    + destruct (sel_ext (4 * (d / 4))) as (-> & -> & _); [lia|].
      Z.to_euclidean_division_equations; lia.
    + rewrite Z.lor_0_l. destruct (sel_plain (1 * (d / 1))) as (-> & ->); [lia|].
      rewrite Z.div_1_r. lia.
Qed.
Lemma spec_read_const (u f : Prop) s off val v (A : Type) (k : Z * Z -> KM W A) R
    `{!ConstReg pa off val} :
  on_path s pa -> RIO_32_BAD off = false ->
  off <> RIO_STD_RTE_CONF_PORT_SEL_CSR -> off <> RIO_STD_RTE_CONF_DESTID_SEL_CSR ->
  (forall s', same_kernel s s' ->
     (forall d, st_lut (ks_hw s') d = st_lut (ks_hw s) d) -> spec u f (k (0, val)) s' R) ->
  spec u f (r <- path_read pa off v ;; k r) s R.
Proof.
  intros Hs Hb Hn1 Hn2 Hk. apply spec_bind, spec_read; [done|done|].
  rewrite (const_read (ks_hw s)). cbn [fst snd].
  rewrite u32_small by apply (const_val (val := val)).
  apply Hk; [done|]. intros d. rewrite hw_with_hw.
  apply (st_frame d off (st_lut (ks_hw s) d) Hn1 Hn2 (ks_hw s) eq_refl).
Qed.

Definition std_dest (d : Z) : bool := (0 <=? d) && (d <=? std_max_destid).

Lemma std_dest_range d : std_dest d = true -> 0 <= d < 2 ^ 16.
Proof. pose proof std_max_destid_range. unfold std_dest. lia. Qed.

Lemma std_add_ok s d p :
  on_path s pa -> std_dest d = true -> 0 <= p < 2 ^ 8 ->
  total (rio_std_route_add_entry (pa_port pa) (pa_destid pa) (pa_hop pa)
           RIO_GLOBAL_TABLE d p) s
    (fun rc s' => same_kernel s s' /\ rc = 0 /\ forall d', std_dest d' = true ->
       st_lut (ks_hw s') d' = if d' =? d then p else st_lut (ks_hw s) d').
Proof.
  intros Hs Hd%std_dest_range Hp. unfold rio_std_route_add_entry. fold_path pa.
  cbn [when Z.eqb]. rewrite Z.eqb_refl. cbn [when]. apply spec_bind.
  apply spec_std_set; [done..|]. intros s1 Hk Hl _. apply spec_ret. apply spec_bind, spec_udelay.
  apply spec_ret. split; [eapply sk_trans; [done|apply sk_with_hw]|split; [done|]].
  intros d' _. rewrite hw_with_hw, std_delay_lut, Hl, u32_small, Z.mod_small by lia. done.
Qed.

Lemma std_get_ok s d old :
  on_path s pa -> std_dest d = true ->
  total (rio_std_route_get_entry (pa_port pa) (pa_destid pa) (pa_hop pa)
           RIO_GLOBAL_TABLE d old) s
    (fun r s' => same_kernel s s' /\ r = (0, st_lut (ks_hw s) d) /\
       forall d', st_lut (ks_hw s') d' = st_lut (ks_hw s) d').
Proof.
  intros Hs Hd%std_dest_range. unfold rio_std_route_get_entry. fold_path pa.
  apply spec_bind, spec_gets. rewrite Z.eqb_refl.
  apply spec_std_fetch; [done..|]. intros x s' Hk Hx _ Hl _. apply spec_ret.
  unfold u8. by rewrite Hx.
Qed.

Lemma std_clr_ok s :
  on_path s pa ->
  total (rio_std_route_clr_table (pa_port pa) (pa_destid pa) (pa_hop pa)
           RIO_GLOBAL_TABLE) s
    (fun rc s' => same_kernel s s' /\ rc = 0 /\ forall d, std_dest d = true ->
       st_lut (ks_hw s') d = RIO_INVALID_ROUTE).
Proof.
  intros Hs. unfold rio_std_route_clr_table. fold_path pa. rewrite Z.eqb_refl. cbn [when].
  apply spec_bind, spec_bind, spec_gets.
  eapply (spec_read_const _ _ _ RIO_PEF_CAR pef); [typeclasses eauto|done|done|by vm_compute|by vm_compute|].
  intros s1 Hk1 _. apply (on_path_sk _ _ _ Hk1) in Hs as Hs1.
  apply spec_bind. unfold spec at 1. rewrite (run_get_mport _ _ _ Hs1).
  assert (forall s2, same_kernel s s2 ->
    spec False False (x <- for_ (zseq 0 (if truthy (Z.land pef RIO_PEF_EXT_RT) then 4 else 1)
        (Z.to_nat (std_max_destid / (if truthy (Z.land pef RIO_PEF_EXT_RT) then 4 else 1) + 1)))
      (fun i => path_write pa RIO_STD_RTE_CONF_DESTID_SEL_CSR
        (Z.lor (if truthy (Z.land pef RIO_PEF_EXT_RT) then 0x80000000 else 0) i) ;;;
      path_write pa RIO_STD_RTE_CONF_PORT_SEL_CSR
        (if truthy (Z.land pef RIO_PEF_EXT_RT) then invalid_route_x4 else RIO_INVALID_ROUTE) ;;;
      ret tt) ;; ret x) s2 (fun _ s' => spec False False (udelay 10 ;;; ret 0) s'
    (fun rc s' => same_kernel s s' /\ rc = 0 /\ forall d, std_dest d = true ->
       st_lut (ks_hw s') d = RIO_INVALID_ROUTE))) as Hloop.
  { intros s2 Hk2. apply spec_bind. eapply spec_mono.
    { apply std_clr_entries. by eapply on_path_sk. }
    intros [] s3 [Hk3 Hl]. apply spec_ret. apply spec_bind, spec_udelay, spec_ret.
    split; [eapply sk_trans; [done|]; eapply sk_trans; [done|apply sk_with_hw]|split; [done|]].
    intros d Hd. rewrite hw_with_hw, std_delay_lut. apply Hl. unfold std_dest in Hd. lia. }
  unfold std_max_destid in *. destruct (truthy (mp_sys_size (pa_mp pa))).
  - apply spec_bind, spec_bind, spec_read; [done|done|].
    rewrite (const_read (ks_hw s1)). cbn [fst snd]. apply spec_ret.
    rewrite u32_small by apply (const_val (val := lim)).
    set (s2 := with_hw _ _). specialize (Hloop s2).
    unfold spec, bind in Hloop |- *. destruct (for_ _ _ s2); apply Hloop;
      (eapply sk_trans; [done|apply sk_with_hw]).
  - apply spec_bind, spec_ret. specialize (Hloop s1 Hk1).
    unfold spec, bind in Hloop |- *. by destruct (for_ _ _ s1).
Qed.

#[export] Program Instance std_route_ops :
  RouteOps pa rio_std_route_add_entry rio_std_route_get_entry rio_std_route_clr_table := {|
  rt_view w _ d := st_lut w d;
  rt_table t := t =? RIO_GLOBAL_TABLE;
  rt_dest := std_dest;
  rt_port p := (0 <=? p) && (p <? 2 ^ 8);
  rt_limit := 2 ^ 8;
|}.
Next Obligation.
  cbn beta. intros s t d p Hs ->%Z.eqb_eq Hd Hp. apply std_add_ok; [done..|lia].
Qed.
Next Obligation.
  cbn beta. intros s t d old Hs ->%Z.eqb_eq Hd Hp.
  eapply spec_mono; [by apply std_get_ok|]. intros r s' (Hk & -> & Hl).
  unfold get_status. cbn [fst snd]. destruct (Z.ltb_spec (2 ^ 8) (st_lut (ks_hw s) d)); [lia|auto].
Qed.
Next Obligation. cbn beta. intros s t Hs ->%Z.eqb_eq. by apply std_clr_ok. Qed.
Next Obligation. cbn beta. intros I t d p _ _ Hf. unfold rio_std_route_add_entry. solve_pres pa Hf. Qed.
Next Obligation. cbn beta. intros I t d p _ _ Hf. unfold rio_std_route_get_entry. solve_pres pa Hf. Qed.
Next Obligation. cbn beta. intros I t _ Hf. unfold rio_std_route_clr_table. solve_pres pa Hf. Qed.
Next Obligation.
  cbn beta. intros t d p _ _. split; [apply st_delay|by apply st_frame].
Qed.
End std_ops.

(** ** Correctness of the lock *)

Section lock.
Context {W : Type} `{!KernelEnv W} (pa : path W) `{!LockReg pa}.
Implicit Types s : kstate W.

Let host := mp_host_deviceid (pa_mp pa).
Hypothesis host_range : 0 <= host < 0xffff.

Lemma lock_bad : RIO_32_BAD RIO_HOST_DID_LOCK_CSR = false.
Proof. done. Qed.

(** One attempt: write the host id, read the register back. *)
Lemma run_lock_attempt s v0 :
  on_path s pa ->
  exists w, lock_val w = lock_update (lock_val (ks_hw s)) host /\
  forall A (k : Z * Z -> KM W A),
    (rio_mport_write_config_32 (pa_port pa) (pa_destid pa) (pa_hop pa)
       RIO_HOST_DID_LOCK_CSR host ;;;
     x <- rio_mport_read_config_32 (pa_port pa) (pa_destid pa) (pa_hop pa)
       RIO_HOST_DID_LOCK_CSR v0 ;; k x) s
    = k (0, lock_val w) (with_hw w s).
Proof.
  intros Hs. destruct (lock_write (ks_hw s) host ltac:(lia)) as [_ Hv1].
  rewrite <- (u32_small host) in Hv1 at 1 by lia.
  set (w1 := (reg_write pa RIO_HOST_DID_LOCK_CSR (u32 host) (ks_hw s)).2) in *.
  destruct (lock_read w1) as [Hr Hv2].
  exists (reg_read pa RIO_HOST_DID_LOCK_CSR w1).2. split; [congruence|].
  intros A k. run (run_write s pa RIO_HOST_DID_LOCK_CSR host Hs lock_bad). fold w1.
  run (run_read (with_hw w1 s) pa RIO_HOST_DID_LOCK_CSR v0 Hs lock_bad). simpl.
  rewrite Hr. simpl. pose proof (lock_val_range w1). rewrite u32_small by lia. by rewrite Hv2.
Qed.

(** The loop of [rio_lock_device] ends with the lock held exactly when it
    returns 0, whatever the other hosts do meanwhile. *)
Lemma lock_loop_sound wait_ms fuel result tcnt s :
  on_path s pa -> result = lock_val (ks_hw s) ->
  partial (loop fuel (lock_step (pa_port pa) (pa_destid pa) (pa_hop pa) wait_ms)
             (result, tcnt)) s
    (fun rc s' => same_kernel s s' /\
       ((rc = 0 /\ lock_val (ks_hw s') = host) \/
        (rc = - EINVAL /\ lock_val (ks_hw s') <> host))).
Proof.
  intros Hs Hres.
  apply (spec_loop_inv _ _ (fun v s' => same_kernel s s' /\ v.1 = lock_val (ks_hw s')));
    [done|by split|].
  clear tcnt result Hres. intros [result tcnt] s1 [Hsk Hres]. simpl in Hres.
  assert (on_path s1 pa) as Hs1 by (unfold on_path in *; by rewrite (sk_mports _ _ Hsk)).
  unfold lock_step, spec. run (run_get_mport _ _ _ Hs1). fold host.
  rewrite u32_small by lia.
  destruct (Z.eqb_spec result host) as [->|Hne]; [split; [done|left; by split]|].
  destruct (truthy wait_ms && (tcnt =? wait_ms)).
  { split; [done|right; split; congruence]. }
  unfold mdelay, udelay, hw_do, bind at 1, modify.
  destruct (run_lock_attempt (with_hw (env_udelay (1000 * 1) (ks_hw s1)) s1) result)
    as (w & Hw & Hrun); [done|].
  rewrite Hrun. cbn. split; [|done].
  eapply sk_trans; [done|]. eapply sk_trans; [apply sk_with_hw|apply sk_with_hw].
Qed.
End lock.

Section lock_lemmas.
Context {W : Type} `{!KernelEnv W}.
Implicit Types s : kstate W.

(** The retry loop runs at most [wait_ms] times. *)
Lemma lock_device_total s port mp destid hop wait_ms fuel :
  ks_mports s !! port = Some mp ->
  0 < wait_ms < 2 ^ 31 -> wait_ms < Z.of_nat fuel ->
  total (rio_lock_device fuel port destid hop wait_ms) s
    (fun rc s' => (rc = 0 \/ rc = - EINVAL) /\ same_kernel s s').
Proof.
  intros Hp Hw Hf. unfold rio_lock_device. apply spec_bind, spec_gets, spec_bind.
  unfold spec at 1. rewrite (run_get_mport _ _ _ Hp).
  apply spec_bind. eapply spec_mport_write; [done|]. intros _ s1 Hs1.
  apply spec_bind. eapply spec_mport_read; [by rewrite (sk_mports _ _ Hs1)|].
  intros _ x s2 Hs2 _.
  apply (spec_loop_measure _ _ (fun v s' => same_kernel s s' /\ 0 <= v.2 <= wait_ms)
           (fun v _ => Z.to_nat (wait_ms - v.2))).
  - split; [by eapply sk_trans|simpl; lia].
  - simpl. lia.
  - clear x. intros [result tcnt] s3 [Hs3 Ht]. simpl in Ht.
    assert (ks_mports s3 !! port = Some mp) as Hp3 by (by rewrite (sk_mports _ _ Hs3)).
    unfold lock_step. apply spec_bind. unfold spec at 1. rewrite (run_get_mport _ _ _ Hp3).
    destruct (result =? _); [apply spec_ret; auto|].
    assert (truthy wait_ms = true) as -> by (unfold truthy; destruct (Z.eqb_spec wait_ms 0); [lia|done]).
    simpl. destruct (Z.eqb_spec tcnt wait_ms); [apply spec_ret; auto|].
    apply spec_bind, spec_modify. apply spec_bind.
    eapply spec_mport_write; [done|]. intros _ s4 Hs4.
    apply spec_bind. eapply spec_mport_read; [rewrite (sk_mports _ _ Hs4); done|].
    intros _ x s5 Hs5 _. apply spec_ret. simpl. rewrite s32_small by lia.
    split; [split; [|lia]|lia].
    eapply sk_trans; [done|]. eapply sk_trans; [apply sk_with_hw|]. by eapply sk_trans.
Qed.

Lemma lock_device_sound (pa : path W) `{!LockReg pa} s fuel wait_ms :
  let host := mp_host_deviceid (pa_mp pa) in
  0 <= host < 0xffff -> on_path s pa ->
  partial (rio_lock_device fuel (pa_port pa) (pa_destid pa) (pa_hop pa) wait_ms) s
    (fun rc s' => (rc = 0 /\ lock_val (ks_hw s') = host) \/
                  (rc = - EINVAL /\ lock_val (ks_hw s') <> host)).
Proof.
  intros host Hhost Hs.
  unfold rio_lock_device, spec. run (run_uninit s). run (run_get_mport _ _ _ Hs).
  fold host. destruct (run_lock_attempt pa Hhost s (u32 (env_indet (ks_hw s))) Hs)
    as (w & Hw & Hr). rewrite Hr.
  eapply spec_mono; [apply (lock_loop_sound pa Hhost); done|].
  intros a s1 [_ H]. exact H.
Qed.

(** Locking and unlocking leave alone what the lock register and time do not
    touch. *)
Lemma lock_device_pres (pa : path W) I fuel wait_ms :
  stable_delay I -> stable_at pa RIO_HOST_DID_LOCK_CSR I ->
  keeps (pres pa I)
    (rio_lock_device fuel (pa_port pa) (pa_destid pa) (pa_hop pa) wait_ms).
Proof.
  intros Hd Hl. unfold rio_lock_device, lock_step, mdelay. fold_path pa.
  repeat first
    [ progress frame_step | apply keeps_loop | apply keeps_ret | apply keeps_uninit
    | apply keeps_get_mport | apply pres_write, Hl | apply pres_read, Hl
    | apply pres_udelay, Hd | apply pres_preorder ].
Qed.

Lemma run_lock_free (pa : path W) `{!LockReg pa} s fuel wait_ms :
  let host := mp_host_deviceid (pa_mp pa) in
  0 <= host < 0xffff -> on_path s pa -> lock_val (ks_hw s) = 0xffff ->
  exists w, rio_lock_device (S fuel) (pa_port pa) (pa_destid pa) (pa_hop pa) wait_ms s
            = Done 0 (with_hw w s) /\ lock_val w = host.
Proof.
  intros host Hhost Hs Hfree.
  destruct (run_lock_attempt pa Hhost s (u32 (env_indet (ks_hw s))) Hs) as (w & Hw & Hr).
  exists w. unfold rio_lock_device. run (run_uninit s).
  run (run_get_mport _ _ _ Hs). rewrite Hr.
  rewrite Hfree in Hw. cbn in Hw. cbn [loop]. unfold lock_step at 1. unfold bind at 1.
  rewrite (bind_Done _ _ _ _ _ (run_get_mport (with_hw w s) _ _ Hs)).
  fold host. rewrite Hw. fold host. rewrite u32_small by lia. by rewrite Z.eqb_refl.
Qed.

Lemma unlock_device_pres (pa : path W) I :
  stable_at pa RIO_HOST_DID_LOCK_CSR I ->
  keeps (pres pa I) (rio_unlock_device (pa_port pa) (pa_destid pa) (pa_hop pa)).
Proof.
  intros Hl. unfold rio_unlock_device. fold_path pa.
  repeat first
    [ progress frame_step | apply keeps_ret | apply keeps_uninit
    | apply keeps_get_mport | apply pres_write, Hl | apply pres_read, Hl
    | apply pres_preorder ].
Qed.

Lemma run_unlock_device (pa : path W) `{!LockReg pa} s :
  let host := mp_host_deviceid (pa_mp pa) in
  0 <= host < 0xffff -> on_path s pa ->
  exists w, lock_val w = lock_update (lock_val (ks_hw s)) host /\
    rio_unlock_device (pa_port pa) (pa_destid pa) (pa_hop pa) s
    = Done (if lock_val w =? 0xffff then 0 else - EINVAL) (with_hw w s).
Proof.
  intros host Hhost Hs. destruct (run_lock_attempt pa Hhost s (u32 (env_indet (ks_hw s))) Hs)
    as (w & Hw & Hr). exists w. split; [done|]. unfold rio_unlock_device.
  run (run_uninit s). run (run_get_mport _ _ _ Hs). rewrite Hr, land_ffff.
  rewrite Z.mod_small by apply lock_val_range. by destruct (lock_val w =? 0xffff).
Qed.
End lock_lemmas.

(** ** The dispatch keeps the contract of the operations it selects *)

Section dispatch.
Context {W : Type} `{!KernelEnv W} `{!SwitchTables W}.
Implicit Types s : kstate W.

(** The operations that a switch uses. *)
Definition select_op {F} (sel : rio_switch_ops W -> option F) (std : F) (sw : rio_switch) : F :=
  default std (rs_ops sw ≫= fun p => sel (switch_ops p)).
Definition sel_add := select_op so_add_entry rio_std_route_add_entry.
Definition sel_get := select_op so_get_entry rio_std_route_get_entry.
Definition sel_clr := select_op so_clr_table rio_std_route_clr_table.

(** [rdev] is a switch that is reached over the path [pa]. *)
Record dev_at s (rdev : ptr) (sw : rio_switch) (pa : path W) : Prop := {
  da_dev : exists d net n, ks_devs s !! rdev = Some d /\ rd_rswitch d = Some sw /\
    rd_net d = Some n /\ ks_nets s !! n = Some net /\ net_hport net = Some (pa_port pa) /\
    rd_destid d = pa_destid pa /\ rd_hopcount d = pa_hop pa;
  da_path : on_path s pa;
}.

Lemma dev_at_sk s s' rdev sw pa : same_kernel s s' -> dev_at s rdev sw pa -> dev_at s' rdev sw pa.
Proof.
  intros Hk [H1 H2]. split; [|by eapply on_path_sk].
  by rewrite (sk_devs _ _ Hk), (sk_nets _ _ Hk).
Qed.

Lemma run_dev_path {A} s rdev sw pa (k : rio_dev -> ptr -> KM W A) :
  dev_at s rdev sw pa ->
  exists d, rd_destid d = pa_destid pa /\ rd_hopcount d = pa_hop pa /\
    (d <- get_dev rdev ;; hport <- dev_hport d ;; k d hport) s = k d (pa_port pa) s.
Proof.
  intros [(d & net & n & H1 & _ & H3 & H4 & H5 & H6 & H7) _]. exists d.
  split; [done|split; [done|]]. run (run_get_dev _ _ _ H1). by run (run_dev_hport _ _ _ _ _ H3 H4 H5).
Qed.

Lemma run_dev_rswitch s rdev sw pa :
  dev_at s rdev sw pa -> get_rswitch rdev s = Done sw s.
Proof. intros [(d & net & n & H1 & H2 & _) _]. by apply (run_get_rswitch _ _ _ _ H1). Qed.

(** The accessors of a device use its path. *)
Lemma dev_read_path s rdev sw pa off v :
  dev_at s rdev sw pa -> rio_read_config_32 rdev off v s = path_read pa (u32 off) v s.
Proof.
  intros [(d & net & n & H1 & _ & H3 & H4 & H5 & H6 & H7) _]. unfold rio_read_config_32, path_read.
  run (run_get_dev _ _ _ H1). run (run_dev_hport _ _ _ _ _ H3 H4 H5). by rewrite H6, H7.
Qed.
Lemma dev_write_path s rdev sw pa off v :
  dev_at s rdev sw pa -> rio_write_config_32 rdev off v s = path_write pa (u32 off) v s.
Proof.
  intros [(d & net & n & H1 & _ & H3 & H4 & H5 & H6 & H7) _]. unfold rio_write_config_32, path_write.
  run (run_get_dev _ _ _ H1). run (run_dev_hport _ _ _ _ _ H3 H4 H5). by rewrite H6, H7.
Qed.

Lemma quiet_dev_read (u f : Prop) s0 rdev sw pa off v :
  dev_at s0 rdev sw pa -> 0 <= v < 2 ^ 32 ->
  fine u f (same_kernel s0) (fun r => 0 <= r.2 < 2 ^ 32) (rio_read_config_32 rdev off v).
Proof.
  intros Hda Hv s Hs. unfold spec. rewrite (dev_read_path s rdev sw pa) by by eapply dev_at_sk.
  by apply (quiet_mport_read u f s0 (pa_port pa) (pa_mp pa)); [apply Hda|..].
Qed.
Lemma quiet_dev_write (u f : Prop) s0 rdev sw pa off v :
  dev_at s0 rdev sw pa ->
  fine u f (same_kernel s0) any (rio_write_config_32 rdev off v).
Proof.
  intros Hda s Hs. unfold spec. rewrite (dev_write_path s rdev sw pa) by by eapply dev_at_sk.
  by apply (quiet_mport_write u f s0 (pa_port pa) (pa_mp pa)); [apply Hda|..].
Qed.
Lemma quiet_dev_fields (u f : Prop) s0 rdev sw pa :
  dev_at s0 rdev sw pa -> exists d, rd_rswitch d = Some sw /\
    ks_devs s0 !! rdev = Some d /\
    fine u f (same_kernel s0) (eq d) (get_dev rdev) /\
    fine u f (same_kernel s0) (eq (pa_port pa)) (dev_hport d) /\
    fine u f (same_kernel s0) (eq sw) (get_rswitch rdev).
Proof.
  intros [(d & net & n & H1 & H2 & H3 & H4 & H5 & H6 & H7) _]. exists d.
  split; [done|split; [done|]]. eauto 10 with fine.
Qed.

(** Locking around a body: either the body runs, with this host holding the
    lock, and the lock is free afterwards; or the lock cannot be had and nothing
    but time and the competition for the lock has happened. *)
Lemma with_device_lock_ok {A} s rdev sw (pa : path W) `{!LockReg pa} (lock : bool)
    (fail : Z -> A) (body : Z -> KM W A) (J : W -> Prop) (Q : A -> W -> Prop) :
  let host := mp_host_deviceid (pa_mp pa) in
  0 <= host < 0xffff -> dev_at s rdev sw pa -> J (ks_hw s) ->
  stable_delay J -> stable_at pa RIO_HOST_DID_LOCK_CSR J ->
  (forall a, stable_at pa RIO_HOST_DID_LOCK_CSR (Q a)) ->
  (forall I rc s1, off_lock pa I -> same_kernel s s1 ->
     partial (body rc) s1 (fun _ s2 => pres pa I s1 s2)) ->
  (forall s1, same_kernel s s1 -> J (ks_hw s1) ->
     total (body (if lock then 0 else - EINVAL)) s1
       (fun a s2 => same_kernel s1 s2 /\ Q a (ks_hw s2))) ->
  total (with_device_lock rdev lock fail body) s (fun a s' => same_kernel s s' /\
    ((Q a (ks_hw s') /\ (lock = true -> lock_val (ks_hw s') = 0xffff)) \/
     (lock = true /\ a = fail (- EINVAL) /\ J (ks_hw s')))).
Proof.
  intros host Hhost Hda HJ HJd HJl HQ Hpres Hbody. unfold with_device_lock.
  pose proof (da_path _ _ _ _ Hda) as Hp.
  destruct (da_dev _ _ _ _ Hda) as (d & net & n & H1 & _ & H3 & H4 & H5 & H6 & H7).
  srun (run_get_dev _ _ _ H1). rewrite H6, H7.
  destruct lock; cbn [andb when].
  2:{ apply spec_bind, spec_ret, spec_bind.
      eapply spec_mono; [by apply Hbody|]. intros a s2 [Hk HQa].
      apply spec_bind, spec_ret, spec_ret. split; [done|left; by split]. }
  apply spec_bind. srun (run_dev_hport _ _ _ _ _ H3 H4 H5).
  eapply (spec_mono False False).
  { apply spec_and with True True; [apply (lock_device_total _ _ (pa_mp pa)); [done|lia|done]|].
    apply spec_and with True True; [by apply lock_device_sound|].
    apply (keeps_partial _ _ _ (lock_device_pres pa J LOCK_FUEL 1000 HJd HJl)). }
  intros rc s1 ((_ & Hk1) & Hrc & HJ1). destruct (HJ1 Hp) as [_ HJ1'].
  destruct Hrc as [[-> Hheld]|[-> _]].
  2:{ apply spec_ret. split; [done|]. right. auto. }
  cbn [truthy Z.eqb negb]. apply spec_bind. eapply spec_mono.
  { apply spec_and with True True; [by apply Hbody; auto|].
    apply (Hpres _ _ _ (lock_held_off_lock pa ltac:(lia)) Hk1). }
  intros a s2 ((Hk2 & HQa) & Hheld2). destruct (Hheld2 (on_path_sk _ _ _ Hk1 Hp)) as [_ Hheld2'].
  specialize (Hheld2' Hheld). assert (same_kernel s s2) as Hk by (by transitivity s1).
  apply spec_bind. cbn [when]. rewrite <- (sk_devs _ _ Hk) in H1.
  rewrite <- (sk_nets _ _ Hk) in H4. srun (run_get_dev _ _ _ H1). srun (run_dev_hport _ _ _ _ _ H3 H4 H5).
  rewrite H6, H7. apply (on_path_sk _ _ _ Hk) in Hp.
  destruct (run_unlock_device pa s2 Hhost Hp) as (w & Hw & Hrun). srun Hrun.
  apply spec_ret, spec_ret. split; [by transitivity s2|]. left. rewrite hw_with_hw. split.
  - destruct (unlock_device_pres pa (Q a) (HQ a) _ _ _ Hrun Hp) as [_ HQ']. by apply HQ'.
  - intros _. rewrite Hw, Hheld2'. unfold lock_update. rewrite Z.eqb_refl.
    destruct (Z.eqb_spec (mp_host_deviceid (pa_mp pa)) 0xffff); [lia|done].
Qed.

(** The driver module that owns the operations stays loaded; holding it is not
    visible in registers. *)
Definition module_loaded (sw : rio_switch) : Prop :=
  forall p (w : W), rs_ops sw = Some p ->
    env_try_module_get (so_owner (switch_ops p)) w = (true, w) /\
    env_module_put (so_owner (switch_ops p)) w = w.

Lemma spec_module (u f : Prop) {A} s o (k : bool -> KM W A) Q :
  (forall w, env_try_module_get o w = (true, w)) -> spec u f (k true) s Q ->
  spec u f (b <- try_module_get o ;; k b) s Q.
Proof.
  intros Hm Hk. apply spec_bind. unfold spec at 1, try_module_get, hw_call. rewrite Hm.
  by destruct s.
Qed.

Context (pa : path W) `{!LockReg pa} (sw : rio_switch)
  `{Hops : !RouteOps pa (sel_add sw) (sel_get sw) (sel_clr sw)}.

(** The body of the three functions runs the selected operation, and touches no
    more than it does. *)
Lemma route_body_ok {F A} (u f : Prop) s rdev sel (std : F) (call : ptr -> Z -> Z -> F -> KM W A) fail Q :
  module_loaded sw -> dev_at s rdev sw pa ->
  spec u f (call (pa_port pa) (pa_destid pa) (pa_hop pa) (select_op sel std sw)) s Q ->
  spec u f (d <- get_dev rdev ;; hport <- dev_hport d ;;
         call_switch_op sel std (call hport (rd_destid d) (rd_hopcount d)) sw fail) s Q.
Proof.
  intros Hm Hda HQ. destruct (da_dev _ _ _ _ Hda) as (dv & net & n & H1 & _ & H3 & H4 & H5 & H6 & H7).
  srun (run_get_dev _ _ _ H1). srun (run_dev_hport _ _ _ _ _ H3 H4 H5).
  rewrite H6, H7. unfold call_switch_op. unfold select_op in HQ.
  unfold module_loaded in Hm. destruct (rs_ops sw) as [q|]; [|done]. cbn in HQ.
  destruct (sel _); [|done]. apply spec_module; [intros w; by apply Hm|].
  apply spec_bind. eapply spec_mono; [exact HQ|]. intros a s' Ha.
  apply spec_bind, spec_modify, spec_ret. rewrite (proj2 (Hm q (ks_hw s') eq_refl)). by destruct s'.
Qed.

Let host := mp_host_deviceid (pa_mp pa).
Hypothesis host_range : 0 <= host < 0xffff.
Hypothesis loaded : module_loaded sw.

(** Locking, one operation [call], and unlocking: either the operation has had
    its effect [Q] and the lock is free, or the lock could not be had and the
    tables are as they were. *)
Lemma route_op_ok {F A} s rdev t sel (std : F) (call : ptr -> Z -> Z -> F -> KM W A)
    (fail : Z -> A) lock (Q : A -> W -> Prop) :
  dev_at s rdev sw pa -> rt_table t = true ->
  (forall a, stable_at pa RIO_HOST_DID_LOCK_CSR (Q a)) ->
  (forall I, off_lock pa I -> keeps (pres pa I)
     (call (pa_port pa) (pa_destid pa) (pa_hop pa) (select_op sel std sw))) ->
  (forall s1, on_path s1 pa ->
     (forall d, rt_dest d = true -> rt_view (ks_hw s1) t d = rt_view (ks_hw s) t d) ->
     total (call (pa_port pa) (pa_destid pa) (pa_hop pa) (select_op sel std sw)) s1
       (fun a s2 => same_kernel s1 s2 /\ Q a (ks_hw s2))) ->
  total (with_device_lock rdev lock fail (fun rc =>
      d <- get_dev rdev ;; hport <- dev_hport d ;;
      call_switch_op sel std (call hport (rd_destid d) (rd_hopcount d)) sw (fail rc))) s
    (fun a s' => same_kernel s s' /\
      ((Q a (ks_hw s') /\ (lock = true -> lock_val (ks_hw s') = 0xffff)) \/
       (lock = true /\ a = fail (- EINVAL) /\ forall d, rt_dest d = true ->
          rt_view (ks_hw s') t d = rt_view (ks_hw s) t d))).
Proof.
  intros Hda Ht HQ Hpres Hcall.
  apply (with_device_lock_ok _ _ _ pa lock fail _
    (fun w => forall d, rt_dest d = true -> rt_view w t d = rt_view (ks_hw s) t d) Q
    host_range Hda); [done| | |done| |].
  - intros us w Hw d Hd. apply (rt_lock_frame t d (rt_view (ks_hw s) t d) Ht Hd). by apply Hw.
  - intros w Hw. split; [intros v|]; intros d Hd;
      apply (rt_lock_frame t d (rt_view (ks_hw s) t d) Ht Hd); by apply Hw.
  - intros I rc s1 HI Hk. apply route_body_ok; [done|by eapply dev_at_sk|].
    by apply keeps_partial, Hpres.
  - intros s1 Hk HJ. apply route_body_ok; [done|by eapply dev_at_sk|].
    apply Hcall; [|done]. eapply on_path_sk; [done|apply Hda].
Qed.

Lemma route_add_ok s rdev t d p lock :
  dev_at s rdev sw pa ->
  rt_table t = true -> rt_dest d = true -> rt_port p = true ->
  total (rio_route_add_entry rdev t d p lock) s (fun rc s' => same_kernel s s' /\
    ((rc = 0 /\ (lock = true -> lock_val (ks_hw s') = 0xffff) /\
      forall d', rt_dest d' = true ->
        rt_view (ks_hw s') t d' = if d' =? d then p else rt_view (ks_hw s) t d') \/
     (rc = - EINVAL /\ lock = true /\ forall d', rt_dest d' = true ->
        rt_view (ks_hw s') t d' = rt_view (ks_hw s) t d'))).
Proof.
  intros Hda Ht Hd Hp. unfold rio_route_add_entry. srun (run_dev_rswitch _ _ _ _ Hda).
  eapply spec_mono.
  - apply (route_op_ok s rdev t so_add_entry rio_std_route_add_entry
      (fun port did hop op => op port did hop t d p) (fun rc => rc) lock
      (fun rc w => rc = 0 /\ forall d', rt_dest d' = true ->
         rt_view w t d' = if d' =? d then p else rt_view (ks_hw s) t d')); [done..| | |].
    + intros a w [-> Hw].
      split; [intros v|]; (split; [done|]; intros d' Hd';
        apply (rt_lock_frame t d' (if d' =? d then p else rt_view (ks_hw s) t d') Ht Hd');
        by apply Hw).
    + intros I HI. by apply rt_add_frame.
    + intros s1 Hs1 Heq. eapply spec_mono; [by apply rt_add|]. cbn beta.
      intros rc s2 (Hk & -> & Hv). split; [done|split; [done|]].
      intros d' Hd'. rewrite Hv by done. destruct (d' =? d); [done|by apply Heq].
  - cbn beta. intros rc s' (Hk & [[[-> Hv] Hl] | (Hl & -> & Hv)]); split; auto.
Qed.

Lemma route_get_ok s rdev t d old lock :
  dev_at s rdev sw pa ->
  rt_table t = true -> rt_dest d = true -> rt_port (rt_view (ks_hw s) t d) = true ->
  total (rio_route_get_entry rdev t d old lock) s (fun r s' => same_kernel s s' /\
    ((r = (get_status rt_limit (rt_view (ks_hw s) t d), rt_view (ks_hw s) t d) /\
      (lock = true -> lock_val (ks_hw s') = 0xffff)) \/
     (r = (- EINVAL, old) /\ lock = true)) /\
    forall d', rt_dest d' = true -> rt_view (ks_hw s') t d' = rt_view (ks_hw s) t d').
Proof.
  intros Hda Ht Hd Hp. unfold rio_route_get_entry. srun (run_dev_rswitch _ _ _ _ Hda).
  eapply spec_mono.
  - apply (route_op_ok s rdev t so_get_entry rio_std_route_get_entry
      (fun port did hop op => op port did hop t d old) (fun rc => (rc, old)) lock
      (fun r w => r = (get_status rt_limit (rt_view (ks_hw s) t d), rt_view (ks_hw s) t d) /\
         forall d', rt_dest d' = true -> rt_view w t d' = rt_view (ks_hw s) t d')); [done..| | |].
    + intros a w [-> Hw].
      split; [intros v|]; (split; [done|]; intros d' Hd';
        apply (rt_lock_frame t d' (rt_view (ks_hw s) t d') Ht Hd');
        by apply Hw).
    + intros I HI. by apply rt_get_frame.
    + intros s1 Hs1 Heq. eapply spec_mono; [apply rt_get; [done..|by rewrite Heq]|]. cbn beta.
      intros [rc x] s2 (Hk & Hx & Hrc & Hv). cbn [fst snd] in *. split; [done|].
      rewrite Heq in Hx by done. subst. split; [done|]. intros d' Hd'. by rewrite Hv, Heq.
  - cbn beta. intros r s' (Hk & [[[-> Hv] Hl] | (Hl & -> & Hv)]); auto 10.
Qed.

Lemma route_clr_ok s rdev t lock :
  dev_at s rdev sw pa -> rt_table t = true ->
  total (rio_route_clr_table rdev t lock) s (fun rc s' => same_kernel s s' /\
    ((rc = 0 /\ (lock = true -> lock_val (ks_hw s') = 0xffff) /\
      forall d, rt_dest d = true -> rt_view (ks_hw s') t d = RIO_INVALID_ROUTE) \/
     (rc = - EINVAL /\ lock = true /\ forall d, rt_dest d = true ->
        rt_view (ks_hw s') t d = rt_view (ks_hw s) t d))).
Proof.
  intros Hda Ht. unfold rio_route_clr_table. srun (run_dev_rswitch _ _ _ _ Hda).
  eapply spec_mono.
  - apply (route_op_ok s rdev t so_clr_table rio_std_route_clr_table
      (fun port did hop op => op port did hop t) (fun rc => rc) lock
      (fun rc w => rc = 0 /\ forall d, rt_dest d = true ->
         rt_view w t d = RIO_INVALID_ROUTE)); [done..| | |].
    + intros a w [-> Hw].
      split; [intros v|]; (split; [done|]; intros d' Hd';
        apply (rt_lock_frame t d' RIO_INVALID_ROUTE Ht Hd'); by apply Hw).
    + intros I HI. by apply rt_clr_frame.
    + intros s1 Hs1 Heq. eapply spec_mono; [by apply rt_clr|]. cbn beta.
      intros rc s2 (Hk & -> & Hv). auto.
  - cbn beta. intros rc s' (Hk & [[[-> Hv] Hl] | (Hl & -> & Hv)]); split; auto.
Qed.
End dispatch.

#[export] Hint Resolve quiet_dev_read quiet_dev_write : fine.

Section lock_theorems.
Context {W : Type} `{!KernelEnv W}.
Implicit Types s : kstate W.

(** Whatever the hardware answers, [rio_lock_device] with a time limit of
    [wait_ms] ms ends after at most [wait_ms] retries, with 0 or -EINVAL, and
    changes nothing but the hardware. *)
Theorem rio_lock_device_terminates s port mp destid hop wait_ms fuel :
  ks_mports s !! port = Some mp ->
  0 < wait_ms < 2 ^ 31 -> wait_ms < Z.of_nat fuel ->
  total (rio_lock_device fuel port destid hop wait_ms) s
    (fun rc s' => (rc = 0 \/ rc = - EINVAL) /\ same_kernel s s').
Proof.
  intros. by apply lock_device_total with mp.
Qed.

(** C31: mutual exclusion.  When [rio_lock_device] returns, it returns 0 exactly
    when the lock register holds this host's id, even though other hosts compete
    for the lock during every delay; and from then on no sequence of lock
    attempts by other hosts takes the lock away. *)
Theorem rio_lock_device_exclusive (pa : path W) `{!LockReg pa} s fuel wait_ms rc s' :
  let host := mp_host_deviceid (pa_mp pa) in
  0 <= host < 0xffff -> on_path s pa ->
  rio_lock_device fuel (pa_port pa) (pa_destid pa) (pa_hop pa) wait_ms s = Done rc s' ->
  (rc = 0 <-> lock_val (ks_hw s') = host) /\ (rc = 0 \/ rc = - EINVAL) /\
  (rc = 0 -> forall others,
     Forall (fun v => 0 <= v < 0xffff /\ v <> host) others ->
     fold_left lock_update others (lock_val (ks_hw s')) = host).
Proof.
  intros host Hhost Hs Hrun.
  pose proof (lock_device_sound pa s fuel wait_ms Hhost Hs) as Hspec. fold host in Hspec.
  unfold spec in Hspec; rewrite Hrun in Hspec. destruct Hspec as [[-> Hl]|[-> Hl]].
  - split; [done|]. split; [by left|]. intros _ others Ho.
    by apply lock_update_other; [..|lia].
  - split; [|split; [by right|done]]. by split.
Qed.

(** on a free lock [rio_lock_device] succeeds at once; unlocking a lock held
    by this host frees it and returns 0; unlocking a lock held by another host
    fails and changes nothing; and unlocking a free lock fails and, since the
    register takes the id that is written to it, leaves the lock taken. *)
Theorem rio_lock_unlock_device (pa : path W) `{!LockReg pa} s fuel wait_ms :
  let host := mp_host_deviceid (pa_mp pa) in
  let port := pa_port pa in let destid := pa_destid pa in let hop := pa_hop pa in
  let lock s := lock_val (ks_hw s) in
  0 <= host < 0xffff -> on_path s pa ->
  (lock s = 0xffff ->
     exists w, rio_lock_device (S fuel) port destid hop wait_ms s = Done 0 (with_hw w s) /\
               lock_val w = host) /\
  exists w,
    rio_unlock_device port destid hop s
    = Done (if lock s =? host then 0 else - EINVAL) (with_hw w s) /\
    lock_val w = (if lock s =? host then 0xffff
                  else if lock s =? 0xffff then host else lock s).
Proof.
  intros host port destid hop lock Hhost Hs.
  split; [by apply run_lock_free|].
  destruct (run_unlock_device pa s Hhost Hs) as (w' & Hw' & Hr'). exists w'.
    unfold port, destid, hop. rewrite Hr', Hw'. unfold lock, lock_update. fold host.
    destruct (Z.eqb_spec (lock_val (ks_hw s)) 0xffff) as [Hf|Hnf].
    + rewrite Hf. destruct (Z.eqb_spec 0xffff host), (Z.eqb_spec host 0xffff); [lia..|done].
    + destruct (Z.eqb_spec (lock_val (ks_hw s)) host) as [He|Hne]; [done|].
      destruct (Z.eqb_spec (lock_val (ks_hw s)) 0xffff); [lia|done].
Qed.
End lock_theorems.

(** ** Routing through the dispatch *)

Section route_theorems.
Context {W : Type} `{!KernelEnv W} `{!SwitchTables W} (pa : path W) `{!LockReg pa}
  (sw : rio_switch) `{Hops : !RouteOps pa (sel_add sw) (sel_get sw) (sel_clr sw)}.
Implicit Types s : kstate W.

(** C32: on a switch whose operations keep the routing contract,
    [rio_route_add_entry] either sets exactly the requested entry, returns 0 and
    leaves the device lock free, or cannot get the lock, returns -EINVAL and
    leaves the table as it was; nothing but the hardware changes. *)
Theorem rio_route_add_entry_correct s rdev t d p lock :
  0 <= mp_host_deviceid (pa_mp pa) < 0xffff -> module_loaded sw -> dev_at s rdev sw pa ->
  rt_table t = true -> rt_dest d = true -> rt_port p = true ->
  total (rio_route_add_entry rdev t d p lock) s (fun rc s' => same_kernel s s' /\
    ((rc = 0 /\ (lock = true -> lock_val (ks_hw s') = 0xffff) /\
      forall d', rt_dest d' = true ->
        rt_view (ks_hw s') t d' = if d' =? d then p else rt_view (ks_hw s) t d') \/
     (rc = - EINVAL /\ lock = true /\ forall d', rt_dest d' = true ->
        rt_view (ks_hw s') t d' = rt_view (ks_hw s) t d'))).
Proof. intros. by apply route_add_ok. Qed.

(** C33: round trip.  After [rio_route_add_entry] has returned 0,
    [rio_route_get_entry] delivers the new port for the entry that was set and
    the old port for every other entry of the table, unless it fails with
    -EINVAL to get the lock. *)
Theorem rio_route_add_get s rdev t d p d' old lock lock' :
  0 <= mp_host_deviceid (pa_mp pa) < 0xffff -> module_loaded sw -> dev_at s rdev sw pa ->
  rt_table t = true -> rt_dest d = true -> rt_port p = true ->
  rt_dest d' = true -> rt_port (rt_view (ks_hw s) t d') = true ->
  let q := if d' =? d then p else rt_view (ks_hw s) t d' in
  total (rc <- rio_route_add_entry rdev t d p lock ;;
         r <- rio_route_get_entry rdev t d' old lock' ;; ret (rc, r)) s
    (fun '(rc, r) s' => rc = 0 ->
       r = (get_status rt_limit q, q) \/ (lock' = true /\ r = (- EINVAL, old))).
Proof.
  intros Hh Hm Hda Ht Hd Hp Hd' Hp' q. apply spec_bind.
  eapply spec_mono; [by apply route_add_ok|]. cbn beta.
  intros rc s1 [Hk Hv]. apply spec_bind. apply (dev_at_sk _ _ _ _ _ Hk) in Hda.
  assert (rt_port (rt_view (ks_hw s1) t d') = true) as Hp1.
  { destruct Hv as [(_ & _ & Hv)|(_ & _ & Hv)]; rewrite Hv by done; [|done].
    by destruct (d' =? d). }
  eapply spec_mono; [by apply route_get_ok|]. cbn beta.
  intros r s2 (_ & Hr & _). apply spec_ret. intros ->.
  destruct Hv as [(_ & _ & Hv)|(? & _ & _)]; [|done].
  rewrite Hv in Hr by done. fold q in Hr. destruct Hr as [[-> _]|[-> ->]]; auto.
Qed.

(** After [rio_route_clr_table] has returned 0, [rio_route_get_entry]
    delivers [RIO_INVALID_ROUTE] for every destination of the table, unless it
    fails with -EINVAL to get the lock. *)
Theorem rio_route_clr_get s rdev t d old lock lock' :
  0 <= mp_host_deviceid (pa_mp pa) < 0xffff -> module_loaded sw -> dev_at s rdev sw pa ->
  rt_table t = true -> rt_dest d = true -> rt_port RIO_INVALID_ROUTE = true ->
  rt_port (rt_view (ks_hw s) t d) = true ->
  total (rc <- rio_route_clr_table rdev t lock ;;
         r <- rio_route_get_entry rdev t d old lock' ;; ret (rc, r)) s
    (fun '(rc, r) s' => rc = 0 ->
       r = (get_status rt_limit RIO_INVALID_ROUTE, RIO_INVALID_ROUTE) \/
       (lock' = true /\ r = (- EINVAL, old))).
Proof.
  intros Hh Hm Hda Ht Hd Hi Hp. apply spec_bind.
  eapply spec_mono; [by apply route_clr_ok|]. cbn beta.
  intros rc s1 [Hk Hv]. apply spec_bind. apply (dev_at_sk _ _ _ _ _ Hk) in Hda.
  assert (rt_port (rt_view (ks_hw s1) t d) = true) as Hp1.
  { destruct Hv as [(_ & _ & Hv)|(_ & _ & Hv)]; by rewrite Hv. }
  eapply spec_mono; [by apply route_get_ok|]. cbn beta.
  intros r s2 (_ & Hr & _). apply spec_ret. intros ->.
  destruct Hv as [(_ & _ & Hv)|(? & _ & _)]; [|done].
  rewrite Hv in Hr by done. destruct Hr as [[-> _]|[-> ->]]; auto.
Qed.
End route_theorems.

(** when the module of the driver's operations cannot be held, no entry is
    programmed: only the lock is taken and released, and every property of the
    hardware that does not depend on the lock register and time is as before.
    Without locking [rio_route_add_entry] then returns -EINVAL; with locking it
    returns the 0 of the successful lock, as if the entry had been set. *)
Theorem rio_route_add_entry_no_module {W} `{!KernelEnv W} `{!SwitchTables W}
    (pa : path W) `{!LockReg pa} (s : kstate W) rdev sw p op t d port (I : W -> Prop) :
  0 <= mp_host_deviceid (pa_mp pa) < 0xffff -> dev_at s rdev sw pa ->
  (forall w : W, env_try_module_get (so_owner (switch_ops p)) w = (false, w)) ->
  rs_ops sw = Some p -> so_add_entry (switch_ops p) = Some op ->
  lock_val (ks_hw s) = 0xffff ->
  stable_delay I -> stable_at pa RIO_HOST_DID_LOCK_CSR I -> I (ks_hw s) ->
  rio_route_add_entry rdev t d port false s = Done (- EINVAL) s /\
  total (rio_route_add_entry rdev t d port true) s (fun rc s' =>
    rc = 0 /\ same_kernel s s' /\ I (ks_hw s')).
Proof.
  intros Hh Hda Hm Hsw Hop Hfree HId HIl HI. unfold rio_route_add_entry, with_device_lock.
  pose proof (da_path _ _ _ _ Hda) as Hp.
  destruct (da_dev _ _ _ _ Hda) as (dv & net & n & H1 & H2 & H3 & H4 & H5 & H6 & H7).
  assert (forall s1 rc, same_kernel s s1 ->
    (d0 <- get_dev rdev ;; hport <- dev_hport d0 ;;
     call_switch_op so_add_entry rio_std_route_add_entry
       (fun f => f hport (rd_destid d0) (rd_hopcount d0) t d port) sw rc) s1 = Done rc s1)
    as Hbody.
  { intros s1 rc Hk. rewrite <- (sk_devs _ _ Hk) in H1. rewrite <- (sk_nets _ _ Hk) in H4.
    run (run_get_dev _ _ _ H1). run (run_dev_hport _ _ _ _ _ H3 H4 H5).
    unfold call_switch_op. rewrite Hsw, Hop. unfold try_module_get, hw_call, bind.
    rewrite Hm. by destruct s1. }
  split.
  - run (run_dev_rswitch _ _ _ _ Hda). run (run_get_dev _ _ _ H1).
    rewrite bind_ret. cbn [andb]. by run (Hbody s (- EINVAL) (sk_refl s)).
  - srun (run_dev_rswitch _ _ _ _ Hda). srun (run_get_dev _ _ _ H1).
    apply spec_bind. srun (run_dev_hport _ _ _ _ _ H3 H4 H5). rewrite H6, H7.
    destruct (run_lock_free pa s (pred LOCK_FUEL) 1000 Hh Hp Hfree) as (w & Hrun & Hw).
    change (S (pred LOCK_FUEL)) with LOCK_FUEL in Hrun.
    eapply (spec_Done _ _ _ _ _ _ _ Hrun). cbn [andb truthy Z.eqb negb].
    assert (I w) as HIw.
    { destruct (lock_device_pres pa I LOCK_FUEL 1000 HId HIl _ _ _ Hrun Hp) as [_ H].
      by apply H. }
    srun (Hbody (with_hw w s) 0 (sk_with_hw s w)). cbn [when]. apply spec_bind.
    srun (run_get_dev (with_hw w s) rdev dv H1).
    srun (run_dev_hport (with_hw w s) dv n net (pa_port pa) H3 H4 H5). rewrite H6, H7.
    destruct (run_unlock_device pa (with_hw w s) Hh Hp) as (w2 & Hw2 & Hrun2).
    srun Hrun2. apply spec_ret, spec_ret. split; [done|split].
    { eapply sk_trans; apply sk_with_hw. }
    destruct (unlock_device_pres pa I HIl _ _ _ Hrun2
      (on_path_sk _ _ _ (sk_with_hw s w) Hp)) as [_ H]. apply H, HIw.
Qed.

(** C34: the standard routing operations implement a routing table: what was
    added is read back, entries are independent, and after clearing every entry
    up to the table limit reads as [RIO_INVALID_ROUTE], in the four-entries-at-a-
    time mode as well as in the plain one. *)
Theorem rio_std_route_table {W} `{!KernelEnv W} (pa : path W) `{!StdLut pa} `{!StdFrame pa}
    (pef lim : Z) `{!ConstReg pa RIO_PEF_CAR pef} `{!ConstReg pa RIO_SWITCH_RT_LIMIT lim} :
  table_spec pa rio_std_route_add_entry rio_std_route_get_entry rio_std_route_clr_table
    (fun t => t =? RIO_GLOBAL_TABLE) (std_dest pa lim)
    (fun p => (0 <=? p) && (p <? 2 ^ 8)) (2 ^ 8).
Proof. by apply (route_ops_table_spec pa _ _ _ (RouteOps0 := std_route_ops pa pef lim)). Qed.

(** ** Witnesses: the standard switch *)

Section witnesses.

(** Tables in which every driver only replaces [add_entry], by the standard
    operation. *)
Definition plain_tables : SwitchTables swbench := fun _ => {|
  so_owner := 13%positive;
  so_add_entry := Some rio_std_route_add_entry;
  so_get_entry := None; so_clr_table := None; so_set_domain := None;
  so_get_domain := None; so_em_init := None; so_em_handle := None;
|}.
#[local] Existing Instance plain_tables.

Definition std_state (lock p : Z) : kstate swbench :=
  sw_state (std_ops false) None (sw_world lock p).

Lemma std_dev_at lock p : dev_at (std_state lock p) 3 (sw_switch None 4) (std_path false 0).
Proof. split; [|done]. by exists (sw_dev None 4), sw_net, 2%positive. Qed.

Lemma rio_lock_device_terminates_witness :
  total (rio_lock_device 4 1 0 0 3) (std_state 5 1)
    (fun rc s' => (rc = 0 \/ rc = - EINVAL) /\ same_kernel (std_state 5 1) s').
Proof.
  apply (rio_lock_device_terminates _ _ (sw_mport (std_ops false) 1 0));
    [reflexivity|lia|lia].
Defined.

Lemma rio_lock_device_exclusive_witness :
  exists s', rio_lock_device 4 1 0 0 3 (std_state 0xffff 1) = Done 0 s' /\
    fold_left lock_update [5; 7] (lock_val (pa := std_path false 0) (ks_hw s')) = 1.
Proof.
  eexists. split; [reflexivity|].
  refine (proj2 (proj2 (rio_lock_device_exclusive (std_path false 0) (std_state 0xffff 1)
    4 3 0 _ _ _ _)) _ [5; 7] _).
  - split; [discriminate|reflexivity].
  - reflexivity.
  - reflexivity.
  - reflexivity.
  - repeat constructor; discriminate.
Defined.

Lemma rio_lock_unlock_device_witness :
  exists w, rio_unlock_device 1 0 0 (std_state 0xffff 1)
            = Done (- EINVAL) (with_hw w (std_state 0xffff 1)) /\
            lock_val (pa := std_path false 0) w = 1.
Proof.
  refine (proj2 (rio_lock_unlock_device (std_path false 0) (std_state 0xffff 1) 0 0 _ _)).
  - split; [discriminate|reflexivity].
  - reflexivity.
Defined.

Abbreviation std_hops :=
  (std_route_ops (std_path false 0) (RIO_PEF_SWITCH + RIO_PEF_EXT_RT) 0x1ff).
Abbreviation lut := (st_lut (pa := std_path false 0)).
Abbreviation dest := (std_dest (std_path false 0) 0x1ff).

Lemma rio_route_add_entry_correct_witness :
  total (rio_route_add_entry 3 RIO_GLOBAL_TABLE 8 2 true) (std_state 0xffff 1)
    (fun rc s' => same_kernel (std_state 0xffff 1) s' /\
      ((rc = 0 /\ (true = true -> lock_val (pa := std_path false 0) (ks_hw s') = 0xffff) /\
        forall d', dest d' = true ->
          lut (ks_hw s') d' = if d' =? 8 then 2 else lut (ks_hw (std_state 0xffff 1)) d') \/
       (rc = - EINVAL /\ true = true /\ forall d', dest d' = true ->
          lut (ks_hw s') d' = lut (ks_hw (std_state 0xffff 1)) d'))).
Proof.
  exact (rio_route_add_entry_correct (std_path false 0) (sw_switch None 4)
    (Hops := std_hops) (std_state 0xffff 1) 3 RIO_GLOBAL_TABLE 8 2 true
    (std_host false 0) ltac:(done) (std_dev_at _ _) eq_refl eq_refl eq_refl).
Defined.

Lemma rio_route_add_get_witness :
  total (rc <- rio_route_add_entry 3 RIO_GLOBAL_TABLE 8 2 true ;;
         r <- rio_route_get_entry 3 RIO_GLOBAL_TABLE 8 0 true ;; ret (rc, r))
    (std_state 0xffff 1)
    (fun '(rc, r) s' => rc = 0 ->
       r = (get_status (2 ^ 8) 2, 2) \/ (true = true /\ r = (- EINVAL, 0))).
Proof.
  exact (rio_route_add_get (std_path false 0) (sw_switch None 4)
    (Hops := std_hops) (std_state 0xffff 1) 3 RIO_GLOBAL_TABLE 8 2 8 0 true true
    (std_host false 0) ltac:(done) (std_dev_at _ _)
    eq_refl eq_refl eq_refl eq_refl eq_refl).
Defined.

Lemma rio_route_clr_get_witness :
  total (rc <- rio_route_clr_table 3 RIO_GLOBAL_TABLE false ;;
         r <- rio_route_get_entry 3 RIO_GLOBAL_TABLE 255 0 true ;; ret (rc, r))
    (std_state 0xffff 1)
    (fun '(rc, r) s' => rc = 0 ->
       r = (get_status (2 ^ 8) RIO_INVALID_ROUTE, RIO_INVALID_ROUTE) \/
       (true = true /\ r = (- EINVAL, 0))).
Proof.
  exact (rio_route_clr_get (std_path false 0) (sw_switch None 4)
    (Hops := std_hops) (std_state 0xffff 1) 3 RIO_GLOBAL_TABLE 255 0 false true
    (std_host false 0) ltac:(done) (std_dev_at _ _)
    eq_refl eq_refl eq_refl eq_refl).
Defined.

Lemma rio_std_route_table_witness :
  table_spec (std_path false 1) rio_std_route_add_entry rio_std_route_get_entry
    rio_std_route_clr_table (fun t => t =? RIO_GLOBAL_TABLE) (std_dest (std_path false 1) 0x1ff)
    (fun p => (0 <=? p) && (p <? 2 ^ 8)) (2 ^ 8).
Proof.
  exact (rio_std_route_table (std_path false 1) (RIO_PEF_SWITCH + RIO_PEF_EXT_RT) 0x1ff).
Defined.

Lemma rio_route_add_entry_no_module_witness :
  let s := sw_state (std_ops false) (Some idtcps_ops_p) (sw_world 0xffff 1) in
  rio_route_add_entry 3 RIO_GLOBAL_TABLE 8 2 false s = Done (- EINVAL) s /\
  total (rio_route_add_entry 3 RIO_GLOBAL_TABLE 8 2 true) s (fun rc s' =>
    rc = 0 /\ same_kernel s s' /\ lut (ks_hw s') 8 = 1).
Proof.
  intros s. apply (rio_route_add_entry_no_module (std_path false 0) s 3
    (sw_switch (Some idtcps_ops_p) 4) idtcps_ops_p rio_std_route_add_entry
    RIO_GLOBAL_TABLE 8 2 (fun w => lut w 8 = 1)).
  - split; [discriminate|reflexivity].
  - split; [|done]. by exists (sw_dev (Some idtcps_ops_p) 4), sw_net, 2%positive.
  - reflexivity.
  - reflexivity.
  - reflexivity.
  - reflexivity.
  - apply st_delay.
  - apply st_frame; by vm_compute.
  - reflexivity.
Defined.
End witnesses.
