(* ===== verification/IdtCps.v ===== *)
(** * IDT CPS switches (switches/idtcps.c)

    The driver's routing operations, proved to keep the routing contract, the
    switch domain, and the life cycle of the driver on a device. *)

From S2P Require Import Prelude Regs State Access Hw SwBench Route.

Module IdtCps.

Definition CPS_DEFAULT_ROUTE : Z := 0xde.
Definition CPS_NO_ROUTE : Z := 0xdf.
Definition IDTCPS_RIO_DOMAIN : Z := 0xf20020.

Section ops.
Context {W : Type} `{!KernelEnv W}.

Definition idtcps_route_add_entry (mport : ptr)
    (destid hopcount table route_destid route_port : Z) : KM W Z :=
  result <- uninit ;;
  let route_port :=
    if route_port =? RIO_INVALID_ROUTE then CPS_DEFAULT_ROUTE else route_port in
  when (table =? RIO_GLOBAL_TABLE)
    (rio_mport_write_config_32 mport destid hopcount
       RIO_STD_RTE_CONF_DESTID_SEL_CSR route_destid ;;;
     let! (_, result) := rio_mport_read_config_32 mport destid hopcount
       RIO_STD_RTE_CONF_PORT_SEL_CSR result ;;
     let result := Z.lor (Z.land 0xffffff00 result) route_port in
     rio_mport_write_config_32 mport destid hopcount
       RIO_STD_RTE_CONF_PORT_SEL_CSR result ;;; ret tt) ;;;
  ret 0.

Definition idtcps_route_get_entry (mport : ptr)
    (destid hopcount table route_destid route_port : Z) : KM W (Z * Z) :=
  result <- uninit ;;
  if table =? RIO_GLOBAL_TABLE then
    rio_mport_write_config_32 mport destid hopcount
      RIO_STD_RTE_CONF_DESTID_SEL_CSR route_destid ;;;
    let! (_, result) := rio_mport_read_config_32 mport destid hopcount
      RIO_STD_RTE_CONF_PORT_SEL_CSR result ;;
    if (CPS_DEFAULT_ROUTE =? u8 result) || (CPS_NO_ROUTE =? u8 result)
    then ret (0, RIO_INVALID_ROUTE)
    else ret (0, u8 result)
  else ret (0, route_port).

(** The word that marks four consecutive entries with the default route. *)
Definition default_route_x4 : Z :=
  Z.lor (Z.lor (Z.lor (Z.shiftl CPS_DEFAULT_ROUTE 24) (Z.shiftl CPS_DEFAULT_ROUTE 16))
           (Z.shiftl CPS_DEFAULT_ROUTE 8)) CPS_DEFAULT_ROUTE.

(** [i] takes the values 0x80000000, 0x80000004, ..., 0x800000fc. *)
Definition idtcps_route_clr_table (mport : ptr) (destid hopcount table : Z) : KM W Z :=
  when (table =? RIO_GLOBAL_TABLE)
    (for_ (zseq 0x80000000 4 64) (fun i =>
       rio_mport_write_config_32 mport destid hopcount
         RIO_STD_RTE_CONF_DESTID_SEL_CSR i ;;;
       rio_mport_write_config_32 mport destid hopcount
         RIO_STD_RTE_CONF_PORT_SEL_CSR default_route_x4 ;;; ret tt)) ;;;
  ret 0.

Definition idtcps_set_domain (mport : ptr) (destid hopcount sw_domain : Z) : KM W Z :=
  rio_mport_write_config_32 mport destid hopcount IDTCPS_RIO_DOMAIN sw_domain ;;;
  ret 0.

Definition idtcps_get_domain (mport : ptr) (destid hopcount sw_domain : Z) : KM W (Z * Z) :=
  regval <- uninit ;;
  let! (_, regval) :=
    rio_mport_read_config_32 mport destid hopcount IDTCPS_RIO_DOMAIN regval ;;
  ret (0, u8 (Z.land regval 0xff)).

(** [owner] is the address of THIS_MODULE. *)
Definition idtcps_switch_ops (owner : ptr) : rio_switch_ops W := {|
  so_owner := owner;
  so_add_entry := Some idtcps_route_add_entry;
  so_get_entry := Some idtcps_route_get_entry;
  so_clr_table := Some idtcps_route_clr_table;
  so_set_domain := Some idtcps_set_domain;
  so_get_domain := Some idtcps_get_domain;
  so_em_init := None;
  so_em_handle := None;
|}.

Definition idtcps_probe (rdev : ptr) (id : rio_device_id) : KM W Z :=
  sw <- get_rswitch rdev ;;
  match rs_ops sw with
  | Some _ => ret (- EINVAL)
  | None =>
      upd_rswitch rdev (setf rs_ops (Some idtcps_ops_p)) ;;;
      d <- get_dev rdev ;;
      when (rd_do_enum d)
        (rio_write_config_32 rdev (rd_phys_efptr d + RIO_PORT_LINKTO_CTL_CSR)
           (Z.shiftl 0x8e 8) ;;;
         rio_write_config_32 rdev RIO_STD_RTE_DEFAULT_PORT CPS_NO_ROUTE ;;; ret tt) ;;;
      ret 0
  end.

Definition idtcps_remove (rdev : ptr) : KM W unit :=
  sw <- get_rswitch rdev ;;
  if decide (rs_ops sw = Some idtcps_ops_p)
  then upd_rswitch rdev (setf rs_ops None)
  else ret tt.

Definition idtcps_id_table : list rio_device_id := [
  RIO_DEVICE RIO_DID_IDTCPS6Q RIO_VID_IDT;
  RIO_DEVICE RIO_DID_IDTCPS8 RIO_VID_IDT;
  RIO_DEVICE RIO_DID_IDTCPS10Q RIO_VID_IDT;
  RIO_DEVICE RIO_DID_IDTCPS12 RIO_VID_IDT;
  RIO_DEVICE RIO_DID_IDTCPS16 RIO_VID_IDT;
  RIO_DEVICE RIO_DID_IDT70K200 RIO_VID_IDT ].
End ops.

(** ** The routing contract *)

(** The driver writes 0xde for an invalid route, and reads 0xde and 0xdf as
    invalid. *)
Definition cps_port (x : Z) : Z :=
  if (x =? CPS_DEFAULT_ROUTE) || (x =? CPS_NO_ROUTE) then RIO_INVALID_ROUTE else x.

Definition cps_dest (d : Z) : bool := (0 <=? d) && (d <=? 0xff).
Definition cps_valid (p : Z) : bool :=
  (0 <=? p) && (p <? 2 ^ 8) && negb (p =? CPS_DEFAULT_ROUTE) && negb (p =? CPS_NO_ROUTE).

Lemma cps_valid_range p : cps_valid p = true -> 0 <= p < 2 ^ 8 /\ cps_port p = p.
Proof.
  unfold cps_valid, cps_port. intros Hp.
  destruct (p =? CPS_DEFAULT_ROUTE), (p =? CPS_NO_ROUTE); simpl in *; lia.
Qed.

(** What the driver writes for a port reads back as that port. *)
Lemma cps_port_write p :
  cps_valid p = true ->
  let rp := if p =? RIO_INVALID_ROUTE then CPS_DEFAULT_ROUTE else p in
  0 <= rp < 2 ^ 8 /\ cps_port rp = p.
Proof.
  intros Hp rp. destruct (cps_valid_range p Hp) as [H1 H2]. unfold rp.
  destruct (Z.eqb_spec p RIO_INVALID_ROUTE) as [->|]; [|done].
  unfold CPS_DEFAULT_ROUTE. split; [lia|done].
Qed.

(** Replacing the low byte of a word. *)
Lemma low_byte x p : 0 <= p < 2 ^ 8 -> u32 (Z.lor (Z.land 0xffffff00 x) p) mod 2 ^ 8 = p.
Proof.
  intros Hp. unfold u32. rewrite <- !land_mask by lia. rewrite <- Z.land_assoc.
  change (Z.land (2 ^ 32 - 1) (2 ^ 8 - 1)) with 0xff.
  rewrite Z.land_lor_distr_l, <- (Z.land_assoc 0xffffff00), (Z.land_comm x), Z.land_assoc.
  change (Z.land 0xffffff00 0xff) with 0. rewrite Z.land_0_l, Z.lor_0_l, land_ff.
  by apply Z.mod_small.
Qed.

Section contract.
Context {W : Type} `{!KernelEnv W} (pa : path W) `{!StdLut pa} `{!StdFrame pa}.
Implicit Types s : kstate W.

Lemma cps_add_ok s d p :
  on_path s pa -> cps_dest d = true -> cps_valid p = true ->
  total (idtcps_route_add_entry (pa_port pa) (pa_destid pa) (pa_hop pa)
           RIO_GLOBAL_TABLE d p) s
    (fun rc s' => same_kernel s s' /\ rc = 0 /\ forall d', cps_dest d' = true ->
       cps_port (st_lut (ks_hw s') d') = if d' =? d then p else cps_port (st_lut (ks_hw s) d')).
Proof.
  unfold cps_dest. intros Hs Hd Hp. unfold idtcps_route_add_entry. fold_path pa.
  set (rp := if p =? RIO_INVALID_ROUTE then CPS_DEFAULT_ROUTE else p).
  destruct (cps_port_write p Hp) as [Hrp Hcp]. fold rp in Hrp, Hcp.
  apply spec_bind, spec_gets. rewrite Z.eqb_refl. cbn [when]. apply spec_bind.
  apply (spec_std_fetch pa); [done|lia|]. intros x s1 Hk1 _ Hsel Hl1 _.
  apply (spec_std_port pa _ _ _ d); [by eapply on_path_sk|lia|done|]. intros s2 Hk2 Hl2 _.
  apply spec_ret, spec_ret. split; [by transitivity s1|split; [done|]].
  intros d' _. rewrite Hl2, Hl1. destruct (d' =? d); [|done]. by rewrite low_byte.
Qed.

Lemma cps_get_ok s d old :
  on_path s pa -> cps_dest d = true ->
  total (idtcps_route_get_entry (pa_port pa) (pa_destid pa) (pa_hop pa)
           RIO_GLOBAL_TABLE d old) s
    (fun r s' => same_kernel s s' /\ r = (0, cps_port (st_lut (ks_hw s) d)) /\
       forall d', st_lut (ks_hw s') d' = st_lut (ks_hw s) d').
Proof.
  unfold cps_dest. intros Hs Hd. unfold idtcps_route_get_entry. fold_path pa.
  apply spec_bind, spec_gets. rewrite Z.eqb_refl.
  apply (spec_std_fetch pa); [done|lia|]. intros x s' Hk Hx _ Hl _.
  unfold u8, cps_port. rewrite Hx, !(Z.eqb_sym (st_lut _ _)).
  destruct (_ || _); by apply spec_ret.
Qed.

Lemma cps_clr_ok s :
  on_path s pa ->
  total (idtcps_route_clr_table (pa_port pa) (pa_destid pa) (pa_hop pa) RIO_GLOBAL_TABLE) s
    (fun rc s' => same_kernel s s' /\ rc = 0 /\ forall d, cps_dest d = true ->
       cps_port (st_lut (ks_hw s') d) = RIO_INVALID_ROUTE).
Proof.
  intros Hs. unfold idtcps_route_clr_table. fold_path pa. rewrite Z.eqb_refl. cbn [when].
  apply spec_bind. eapply spec_mono; [apply (std_fill_x4 pa 0xde 64); [done|lia..]|].
  intros _ s' (Hk & _ & Hl). apply spec_ret. split; [done|split; [done|]].
  unfold cps_dest. intros d Hd. by rewrite Hl by lia.
Qed.

#[export] Program Instance idtcps_route_ops :
  RouteOps pa idtcps_route_add_entry idtcps_route_get_entry idtcps_route_clr_table := {|
  rt_view w _ d := cps_port (st_lut w d);
  rt_table t := t =? RIO_GLOBAL_TABLE;
  rt_dest := cps_dest;
  rt_port := cps_valid;
  rt_limit := 2 ^ 8;
|}.
Next Obligation. cbn beta. intros s t d p Hs ->%Z.eqb_eq Hd Hp. by apply cps_add_ok. Qed.
Next Obligation.
  cbn beta. intros s t d old Hs ->%Z.eqb_eq Hd Hp.
  eapply spec_mono; [by apply cps_get_ok|]. intros r s' (Hk & -> & Hl).
  unfold cps_valid in Hp. unfold get_status. cbn [fst snd].
  destruct (Z.ltb_spec (2 ^ 8) (cps_port (st_lut (ks_hw s) d))); [lia|].
  repeat split; [done|]. intros d' _. by rewrite Hl.
Qed.
Next Obligation. cbn beta. intros s t Hs ->%Z.eqb_eq. by apply cps_clr_ok. Qed.
Next Obligation. cbn beta. intros I t d p _ _ Hf. unfold idtcps_route_add_entry. solve_pres pa Hf. Qed.
Next Obligation. cbn beta. intros I t d p _ _ Hf. unfold idtcps_route_get_entry. solve_pres pa Hf. Qed.
Next Obligation. cbn beta. intros I t _ Hf. unfold idtcps_route_clr_table. solve_pres pa Hf. Qed.
Next Obligation.
  cbn beta. intros t d p _ _. split.
  - intros us w <-. by rewrite std_delay_lut.
  - intros w <-. destruct (st_frame d RIO_HOST_DID_LOCK_CSR (st_lut w d) ltac:(by vm_compute)
      ltac:(by vm_compute) w eq_refl) as [H1 H2]. split; [intros v|]; by rewrite ?H1, ?H2.
Qed.
End contract.

(** C35: the driver's routing operations implement a routing table for 8-bit
    destination ids; 0xde, the value the driver stores for an invalid route, and
    0xdf are no usable ports. *)
Theorem idtcps_route_table {W} `{!KernelEnv W} (pa : path W) `{!StdLut pa} `{!StdFrame pa} :
  table_spec pa idtcps_route_add_entry idtcps_route_get_entry idtcps_route_clr_table
    (fun t => t =? RIO_GLOBAL_TABLE) cps_dest cps_valid (2 ^ 8).
Proof. by apply (route_ops_table_spec pa _ _ _ (RouteOps0 := idtcps_route_ops pa)). Qed.

Lemma idtcps_route_table_witness :
  table_spec (std_path false 0) idtcps_route_add_entry idtcps_route_get_entry
    idtcps_route_clr_table (fun t => t =? RIO_GLOBAL_TABLE) cps_dest cps_valid (2 ^ 8).
Proof. exact (idtcps_route_table (std_path false 0)). Defined.
End IdtCps.
