(* ===== verification/IdtGen2.v ===== *)
(** * IDT CPS Gen2 switches (switches/idt_gen2.c)

    The routing operations with their table select, proved to keep the routing
    contract; the switch domain; error management; the error log file; probe and
    remove. *)

From Stdlib Require Import Ascii.
From S2P Require Import Prelude Regs State Access Hw SwBench Route IdtCps.

Module IdtGen2.

Definition LOCAL_RTE_CONF_DESTID_SEL : Z := 0x010070.
Definition IDT_LT_ERR_REPORT_EN : Z := 0x03100c.
Definition IDT_PORT_ERR_REPORT_EN_BC : Z := 0x03ff04.
Definition IDT_PORT_ISERR_REPORT_EN_BC : Z := 0x03ff0c.
Definition IDT_PORT_INIT_TX_ACQUIRED : Z := 0x00000020.
Definition IDT_LANE_ERR_REPORT_EN_BC : Z := 0x03ff10.
Definition IDT_DEV_CTRL_1 : Z := 0xf2000c.
Definition IDT_DEV_CTRL_1_GENPW : Z := 0x02000000.
Definition IDT_DEV_CTRL_1_PRSTBEH : Z := 0x00000001.
Definition IDT_CFGBLK_ERR_CAPTURE_EN : Z := 0x020008.
Definition IDT_CFGBLK_ERR_REPORT : Z := 0xf20014.
Definition IDT_CFGBLK_ERR_REPORT_GENPW : Z := 0x00000002.
Definition IDT_AUX_PORT_ERR_CAP_EN : Z := 0x020000.
Definition IDT_AUX_ERR_REPORT_EN : Z := 0xf20018.
Definition IDT_ISLTL_ADDRESS_CAP : Z := 0x021014.
Definition IDT_RIO_DOMAIN : Z := 0xf20020.
Definition IDT_PW_INFO_CSR : Z := 0xf20024.
Definition IDT_I2C_MCTRL : Z := 0xf20050.
Definition IDT_I2C_MCTRL_GENPW : Z := 0x04000000.
Definition IDT_JTAG_CTRL : Z := 0xf2005c.
Definition IDT_LANE_CTRL (n : Z) : Z := 0xff8000 + n * 0x100.
Definition IDT_LANE_CTRL_GENPW : Z := 0x00200000.
Definition IDT_PORT_OPS (n : Z) : Z := 0xf40004 + n * 0x100.
Definition IDT_PORT_OPS_GENPW : Z := 0x08000000.
Definition IDT_PORT_OPS_PL_ELOG : Z := 0x00000040.
Definition IDT_PORT_OPS_LL_ELOG : Z := 0x00000020.
Definition IDT_PORT_OPS_LT_ELOG : Z := 0x00000010.
Definition IDT_PORT_ISERR_DET (n : Z) : Z := 0xf40008 + n * 0x100.
Definition IDT_ERR_CAP : Z := 0xfd0000.
Definition IDT_ERR_CAP_LOG_OVERWR : Z := 0x00000004.
Definition IDT_ERR_RD : Z := 0xfd0004.
Definition IDT_DEFAULT_ROUTE : Z := 0xde.
Definition IDT_NO_ROUTE : Z := 0xdf.

Section ops.
Context {W : Type} `{!KernelEnv W}.

(** The table number that selects a routing table; [table] is a [u16]. *)
Definition select_table (table : Z) : Z :=
  if table =? RIO_GLOBAL_TABLE then 0 else u16 (table + 1).

Definition idtg2_route_add_entry (mport : ptr)
    (destid hopcount table route_destid route_port : Z) : KM W Z :=
  let table := select_table table in
  let route_port :=
    if route_port =? RIO_INVALID_ROUTE then IDT_DEFAULT_ROUTE else route_port in
  rio_mport_write_config_32 mport destid hopcount LOCAL_RTE_CONF_DESTID_SEL table ;;;
  rio_mport_write_config_32 mport destid hopcount
    RIO_STD_RTE_CONF_DESTID_SEL_CSR route_destid ;;;
  rio_mport_write_config_32 mport destid hopcount
    RIO_STD_RTE_CONF_PORT_SEL_CSR route_port ;;;
  udelay 10 ;;;
  ret 0.

Definition idtg2_route_get_entry (mport : ptr)
    (destid hopcount table route_destid route_port : Z) : KM W (Z * Z) :=
  result <- uninit ;;
  let table := select_table table in
  rio_mport_write_config_32 mport destid hopcount LOCAL_RTE_CONF_DESTID_SEL table ;;;
  rio_mport_write_config_32 mport destid hopcount
    RIO_STD_RTE_CONF_DESTID_SEL_CSR route_destid ;;;
  let! (_, result) := rio_mport_read_config_32 mport destid hopcount
    RIO_STD_RTE_CONF_PORT_SEL_CSR result ;;
  if (IDT_DEFAULT_ROUTE =? u8 result) || (IDT_NO_ROUTE =? u8 result)
  then ret (0, RIO_INVALID_ROUTE)
  else ret (0, u8 result).

(** The word that marks four consecutive entries with the default route. *)
Definition idt_default_x4 : Z :=
  Z.lor (Z.lor (Z.lor (Z.shiftl IDT_DEFAULT_ROUTE 24) (Z.shiftl IDT_DEFAULT_ROUTE 16))
           (Z.shiftl IDT_DEFAULT_ROUTE 8)) IDT_DEFAULT_ROUTE.

Definition idtg2_route_clr_table (mport : ptr) (destid hopcount table : Z) : KM W Z :=
  let table := select_table table in
  rio_mport_write_config_32 mport destid hopcount LOCAL_RTE_CONF_DESTID_SEL table ;;;
  for_ (zseq RIO_STD_RTE_CONF_EXTCFGEN 4 64) (fun i =>
    rio_mport_write_config_32 mport destid hopcount RIO_STD_RTE_CONF_DESTID_SEL_CSR i ;;;
    rio_mport_write_config_32 mport destid hopcount
      RIO_STD_RTE_CONF_PORT_SEL_CSR idt_default_x4 ;;; ret tt) ;;;
  ret 0.

Definition idtg2_set_domain (mport : ptr) (destid hopcount sw_domain : Z) : KM W Z :=
  rio_mport_write_config_32 mport destid hopcount IDT_RIO_DOMAIN sw_domain ;;;
  ret 0.

Definition idtg2_get_domain (mport : ptr) (destid hopcount sw_domain : Z) : KM W (Z * Z) :=
  regval <- uninit ;;
  let! (_, regval) := rio_mport_read_config_32 mport destid hopcount IDT_RIO_DOMAIN regval ;;
  ret (0, u8 (Z.land regval 0xff)).

(** [regval |= bits] of a register through the uninitialised [regval]. *)
Definition set_bits (rdev : ptr) (off bits : Z) : KM W unit :=
  regval <- uninit ;;
  let! (_, regval) := rio_read_config_32 rdev off regval ;;
  rio_write_config_32 rdev off (Z.lor regval bits) ;;; ret tt.
Definition clear_bits (rdev : ptr) (off bits : Z) : KM W unit :=
  regval <- uninit ;;
  let! (_, regval) := rio_read_config_32 rdev off regval ;;
  rio_write_config_32 rdev off (Z.land regval (not32 bits)) ;;; ret tt.

Definition idtg2_em_init (rdev : ptr) : KM W Z :=
  rio_write_config_32 rdev IDT_PW_INFO_CSR 0x0000e000 ;;;
  rio_write_config_32 rdev IDT_LT_ERR_REPORT_EN
    (Z.lor (Z.lor REM_LTL_ERR_ILLTRAN REM_LTL_ERR_UNSOLR) REM_LTL_ERR_UNSUPTR) ;;;
  set_bits rdev IDT_DEV_CTRL_1 (Z.lor IDT_DEV_CTRL_1_GENPW IDT_DEV_CTRL_1_PRSTBEH) ;;;
  rio_write_config_32 rdev IDT_PORT_ERR_REPORT_EN_BC 0x807e8037 ;;;
  rio_write_config_32 rdev IDT_PORT_ISERR_REPORT_EN_BC IDT_PORT_INIT_TX_ACQUIRED ;;;
  d <- get_dev rdev ;;
  for_ (zrange 0 (RIO_GET_TOTAL_PORTS (rd_swpinfo d))) (fun i =>
    set_bits rdev (IDT_PORT_OPS i)
      (Z.lor (Z.lor (Z.lor IDT_PORT_OPS_GENPW IDT_PORT_OPS_PL_ELOG)
                IDT_PORT_OPS_LL_ELOG) IDT_PORT_OPS_LT_ELOG)) ;;;
  rio_write_config_32 rdev IDT_ERR_CAP IDT_ERR_CAP_LOG_OVERWR ;;;
  rio_write_config_32 rdev IDT_LANE_ERR_REPORT_EN_BC 0 ;;;
  d <- get_dev rdev ;;
  for_ (zrange 0 (if rd_did d =? RIO_DID_IDTCPS1848 then 48 else 16)) (fun i =>
    set_bits rdev (IDT_LANE_CTRL i) IDT_LANE_CTRL_GENPW) ;;;
  rio_write_config_32 rdev IDT_AUX_PORT_ERR_CAP_EN 0 ;;;
  rio_write_config_32 rdev IDT_AUX_ERR_REPORT_EN 0 ;;;
  rio_write_config_32 rdev IDT_JTAG_CTRL 0 ;;;
  clear_bits rdev IDT_I2C_MCTRL IDT_I2C_MCTRL_GENPW ;;;
  rio_write_config_32 rdev IDT_CFGBLK_ERR_CAPTURE_EN 0 ;;;
  clear_bits rdev IDT_CFGBLK_ERR_REPORT IDT_CFGBLK_ERR_REPORT_GENPW ;;;
  d <- get_dev rdev ;;
  rio_write_config_32 rdev (rd_phys_efptr d + RIO_PORT_LINKTO_CTL_CSR) (Z.shiftl 0x8e 8) ;;;
  ret 0.

(** The reads into [regval] only feed debug messages. *)
Definition idtg2_em_handler (rdev : ptr) (portnum : Z) : KM W Z :=
  regval <- uninit ;;
  em_ltlerrdet <- uninit ;;
  d <- get_dev rdev ;;
  let! (_, em_ltlerrdet) :=
    rio_read_config_32 rdev (rd_em_efptr d + RIO_EM_LTL_ERR_DETECT) em_ltlerrdet ;;
  when (truthy em_ltlerrdet)
    (when (truthy (Z.land em_ltlerrdet REM_LTL_ERR_IMPSPEC))
       (rio_read_config_32 rdev IDT_ISLTL_ADDRESS_CAP regval ;;;
        rio_write_config_32 rdev IDT_ISLTL_ADDRESS_CAP 0 ;;; ret tt)) ;;;
  em_perrdet <- uninit ;;
  let! (_, em_perrdet) :=
    rio_read_config_32 rdev (rd_em_efptr d + RIO_EM_PN_ERR_DETECT portnum) em_perrdet ;;
  when (truthy em_perrdet)
    (when (truthy (Z.land em_perrdet REM_PED_IMPL_SPEC))
       (rio_read_config_32 rdev (IDT_PORT_ISERR_DET portnum) regval ;;;
        rio_write_config_32 rdev (IDT_PORT_ISERR_DET portnum) 0 ;;; ret tt)) ;;;
  ret 0.

(** *** The error log file *)

Definition hex_digit (n : Z) : ascii :=
  nth (Z.to_nat n) ["0";"1";"2";"3";"4";"5";"6";"7";"8";"9";"a";"b";"c";"d";"e";"f"]%char "0"%char.

(** ["%08x\n"] of a [u32]. *)
Definition hex_line (v : Z) : list ascii :=
  map (fun i => hex_digit (Z.land (Z.shiftr v (4 * i)) 0xf)) [7; 6; 5; 4; 3; 2; 1; 0]
  ++ [ascii_of_nat 10].

(** [snprintf(buf + len, size, ...)]: what is written behind the first [len]
    bytes, cut to [size - 1] bytes, and the length it would have had. *)
Definition snprintf_at (buf : list ascii) (len size : Z) (text : list ascii)
    : Z * list ascii :=
  (Z.of_nat (length text),
   take (Z.to_nat len) buf ++ take (Z.to_nat (size - 1)) text).

Context (PAGE_SIZE : Z).

(** One round of the loop; the loop variables are [len], the buffer contents and
    [regval]. *)
Definition errlog_step (rdev : ptr) (v : Z * list ascii * Z)
    : KM W ((Z * list ascii * Z) + (Z * list ascii)) :=
  let '(len, buf, regval) := v in
  let! (rc, regval) := rio_read_config_32 rdev IDT_ERR_RD regval ;;
  if truthy rc then ret (inr (len, buf))
  else if regval =? 0 then ret (inr (len, buf))
  else
    let '(n, buf) := snprintf_at buf len (PAGE_SIZE - len) (hex_line regval) in
    let len := len + n in
    if PAGE_SIZE - 10 <=? len then ret (inr (len, buf))
    else ret (inl (len, buf, regval)).

Definition idtg2_show_errlog (fuel : nat) (rdev : ptr) : KM W (Z * list ascii) :=
  regval <- uninit ;;
  loop fuel (errlog_step rdev) (0, [], regval).

(** *** Probe and remove *)

Context `{!Externals W}.

Definition idtg2_sysfs (rdev : ptr) (create : bool) : KM W Z :=
  if create then ext_device_create_file rdev
  else ext_device_remove_file rdev ;;; ret 0.

Definition idtg2_switch_ops (owner : ptr) : rio_switch_ops W := {|
  so_owner := owner;
  so_add_entry := Some idtg2_route_add_entry;
  so_get_entry := Some idtg2_route_get_entry;
  so_clr_table := Some idtg2_route_clr_table;
  so_set_domain := Some idtg2_set_domain;
  so_get_domain := Some idtg2_get_domain;
  so_em_init := Some idtg2_em_init;
  so_em_handle := Some idtg2_em_handler;
|}.

Definition idtg2_probe (rdev : ptr) (id : rio_device_id) : KM W Z :=
  sw <- get_rswitch rdev ;;
  match rs_ops sw with
  | Some _ => ret (- EINVAL)
  | None =>
      upd_rswitch rdev (setf rs_ops (Some idtg2_ops_p)) ;;;
      d <- get_dev rdev ;;
      when (rd_do_enum d)
        (rio_write_config_32 rdev RIO_STD_RTE_DEFAULT_PORT IDT_NO_ROUTE ;;; ret tt) ;;;
      idtg2_sysfs rdev true ;;;
      ret 0
  end.

Definition idtg2_remove (rdev : ptr) : KM W unit :=
  sw <- get_rswitch rdev ;;
  if decide (rs_ops sw = Some idtg2_ops_p)
  then upd_rswitch rdev (setf rs_ops None) ;;; idtg2_sysfs rdev false ;;; ret tt
  else ret tt.

Definition idtg2_id_table : list rio_device_id := [
  RIO_DEVICE RIO_DID_IDTCPS1848 RIO_VID_IDT;
  RIO_DEVICE RIO_DID_IDTCPS1616 RIO_VID_IDT;
  RIO_DEVICE RIO_DID_IDTVPS1616 RIO_VID_IDT;
  RIO_DEVICE RIO_DID_IDTSPS1616 RIO_VID_IDT;
  RIO_DEVICE RIO_DID_IDTCPS1432 RIO_VID_IDT ].
End ops.

(** ** The routing contract *)

(** The table select register: which table the standard registers show. *)
Class PselLut {W : Type} `{KernelEnv W} (pa : path W) `{!StdLut pa} := {
  ps_lut : W -> Z -> Z -> Z;
  ps_cur : W -> Z;
  ps_eq : forall w d, st_lut w d = ps_lut w (ps_cur w) d;
  ps_write : forall w v, 0 <= v < 2 ^ 32 ->
    let r := reg_write pa LOCAL_RTE_CONF_DESTID_SEL v w in
    r.1 = 0 /\ ps_cur r.2 = v /\ forall t d, ps_lut r.2 t d = ps_lut w t d;
  ps_stable : forall off t, off <> LOCAL_RTE_CONF_DESTID_SEL ->
    stable_at pa off (fun w => ps_cur w = t);
  ps_frame : forall t d p,
    stable_at pa RIO_HOST_DID_LOCK_CSR (fun w => ps_lut w t d = p);
  ps_delay : forall us w, ps_cur (env_udelay us w) = ps_cur w /\
    forall t d, ps_lut (env_udelay us w) t d = ps_lut w t d;
}.

Section contract.
Context {W : Type} `{!KernelEnv W} (pa : path W) `{!StdLut pa} `{!PselLut pa}.
Implicit Types s : kstate W.

Definition g2_view (w : W) (t d : Z) : Z := IdtCps.cps_port (ps_lut w (select_table t) d).
Definition g2_table (t : Z) : bool := (0 <=? t) && (t <? 2 ^ 16).

Lemma select_table_range t : 0 <= select_table t < 2 ^ 32.
Proof.
  unfold select_table. destruct (t =? _); [lia|]. pose proof (u16_range (t + 1)). lia.
Qed.

(** Selecting the table of [t] makes the standard registers show it. *)
Lemma spec_select (u f : Prop) s t {A} (k : KM W A) Q :
  on_path s pa ->
  (forall s', same_kernel s s' -> ps_cur (ks_hw s') = select_table t ->
     (forall d, IdtCps.cps_port (st_lut (ks_hw s') d) = g2_view (ks_hw s) t d) ->
     spec u f k s' Q) ->
  spec u f (path_write pa LOCAL_RTE_CONF_DESTID_SEL (select_table t) ;;; k) s Q.
Proof.
  intros Hs Hk. step_write.
  destruct (ps_write (ks_hw s) (u32 (select_table t)) (u32_range _)) as (_ & Hc & Hl).
  rewrite u32_small in Hc at 2 by apply select_table_range.
  apply Hk; [done|by rewrite hw_with_hw|]. intros d. unfold g2_view.
  by rewrite hw_with_hw, ps_eq, Hl, Hc.
Qed.

(** The standard registers do not change the selection. *)
Lemma st_pres_cur w w' t : st_pres pa w w' -> ps_cur w = t -> ps_cur w' = t.
Proof.
  intros H Hc. by apply (H (fun w => ps_cur w = t)); [apply ps_stable; by vm_compute..|].
Qed.

Lemma g2_add_ok s t d p :
  on_path s pa -> IdtCps.cps_dest d = true -> IdtCps.cps_valid p = true ->
  total (idtg2_route_add_entry (pa_port pa) (pa_destid pa) (pa_hop pa) t d p) s
    (fun rc s' => same_kernel s s' /\ rc = 0 /\ forall d',
       g2_view (ks_hw s') t d' = if d' =? d then p else g2_view (ks_hw s) t d').
Proof.
  unfold IdtCps.cps_dest. intros Hs Hd Hp. unfold idtg2_route_add_entry. fold_path pa.
  change IDT_DEFAULT_ROUTE with IdtCps.CPS_DEFAULT_ROUTE.
  destruct (IdtCps.cps_port_write p Hp) as [Hrp Hcp].
  apply spec_select; [done|]. intros s1 Hk1 Hc1 Hv1.
  apply (spec_std_set pa); [by eapply on_path_sk|lia|]. intros s2 Hk2 Hl2 Hst.
  apply spec_bind, spec_udelay, spec_ret.
  split; [by transitivity s1; [|transitivity s2]|split; [done|]].
  intros d'. rewrite hw_with_hw. unfold g2_view at 1.
  destruct (ps_delay 10 (ks_hw s2)) as [Hcd ->].
  rewrite <- (st_pres_cur _ _ _ Hst Hc1), <- ps_eq, Hl2, <- Hv1.
  destruct (d' =? d); [|done]. by rewrite u32_small, Z.mod_small by lia.
Qed.

Lemma g2_get_ok s t d old :
  on_path s pa -> IdtCps.cps_dest d = true ->
  total (idtg2_route_get_entry (pa_port pa) (pa_destid pa) (pa_hop pa) t d old) s
    (fun r s' => same_kernel s s' /\ r = (0, g2_view (ks_hw s) t d) /\
       forall d', g2_view (ks_hw s') t d' = g2_view (ks_hw s) t d').
Proof.
  unfold IdtCps.cps_dest. intros Hs Hd. unfold idtg2_route_get_entry. fold_path pa.
  apply spec_bind, spec_gets. apply spec_select; [done|]. intros s1 Hk1 Hc1 Hv1.
  apply (spec_std_fetch pa); [by eapply on_path_sk|lia|]. intros x s2 Hk2 Hx _ Hl Hst.
  assert (same_kernel s s2) by (by transitivity s1).
  assert (forall d', g2_view (ks_hw s2) t d' = g2_view (ks_hw s) t d').
  { intros d'. unfold g2_view at 1.
    by rewrite <- (st_pres_cur _ _ _ Hst Hc1), <- ps_eq, Hl, <- Hv1. }
  rewrite <- Hv1. unfold u8, IdtCps.cps_port.
  rewrite Hx, (Z.eqb_sym IDT_DEFAULT_ROUTE), (Z.eqb_sym IDT_NO_ROUTE).
  change IdtCps.CPS_DEFAULT_ROUTE with IDT_DEFAULT_ROUTE.
  change IdtCps.CPS_NO_ROUTE with IDT_NO_ROUTE.
  destruct (_ || _); by apply spec_ret.
Qed.

Lemma g2_clr_ok s t :
  on_path s pa ->
  total (idtg2_route_clr_table (pa_port pa) (pa_destid pa) (pa_hop pa) t) s
    (fun rc s' => same_kernel s s' /\ rc = 0 /\ forall d, IdtCps.cps_dest d = true ->
       g2_view (ks_hw s') t d = RIO_INVALID_ROUTE).
Proof.
  intros Hs. unfold idtg2_route_clr_table. fold_path pa.
  apply spec_select; [done|]. intros s1 Hk1 Hc1 _. apply spec_bind.
  eapply spec_mono; [apply (std_fill_x4 pa 0xde 64); [by eapply on_path_sk|lia..]|].
  intros _ s2 (Hk & Hst & Hl). apply spec_ret.
  split; [by transitivity s1|split; [done|]]. unfold IdtCps.cps_dest. intros d Hd.
  unfold g2_view. rewrite <- (st_pres_cur _ _ _ Hst Hc1), <- ps_eq. by rewrite Hl by lia.
Qed.

#[export] Program Instance idtg2_route_ops :
  RouteOps pa idtg2_route_add_entry idtg2_route_get_entry idtg2_route_clr_table := {|
  rt_view := g2_view;
  rt_table := g2_table;
  rt_dest := IdtCps.cps_dest;
  rt_port := IdtCps.cps_valid;
  rt_limit := 2 ^ 8;
|}.
Next Obligation.
  cbn beta. intros s t d p Hs _ Hd Hp. eapply spec_mono; [by apply g2_add_ok|].
  intros rc s' (Hk & -> & Hv). auto.
Qed.
Next Obligation.
  cbn beta. intros s t d old Hs _ Hd [Hp _]%IdtCps.cps_valid_range.
  eapply spec_mono; [by apply g2_get_ok|]. intros r s' (Hk & -> & Hl).
  unfold get_status. cbn [fst snd].
  destruct (Z.ltb_spec (2 ^ 8) (g2_view (ks_hw s) t d)); [lia|auto].
Qed.
Next Obligation. cbn beta. intros s t Hs _. by apply g2_clr_ok. Qed.
Next Obligation. cbn beta. intros I t d p _ _ Hf. unfold idtg2_route_add_entry. solve_pres pa Hf. Qed.
Next Obligation. cbn beta. intros I t d p _ _ Hf. unfold idtg2_route_get_entry. solve_pres pa Hf. Qed.
Next Obligation. cbn beta. intros I t _ Hf. unfold idtg2_route_clr_table. solve_pres pa Hf. Qed.
Next Obligation.
  cbn beta. intros t d p _ _. unfold g2_view. split.
  - intros us w <-. by destruct (ps_delay us w) as [_ ->].
  - intros w <-. destruct (ps_frame (select_table t) d _ w eq_refl) as [H1 H2].
    split; [intros v|]; by rewrite ?H1, ?H2.
Qed.
End contract.

(** C36: the driver's routing operations implement a routing table for every
    table number, the global one and those of the ports. *)
Theorem idtg2_route_table {W} `{!KernelEnv W} (pa : path W) `{!StdLut pa} `{!PselLut pa} :
  table_spec pa idtg2_route_add_entry idtg2_route_get_entry idtg2_route_clr_table
    g2_table IdtCps.cps_dest IdtCps.cps_valid (2 ^ 8).
Proof. by apply (route_ops_table_spec pa _ _ _ (RouteOps0 := idtg2_route_ops pa)). Qed.

(** ** The error log file *)

(** The error log of a switch: a read of the log register takes the oldest
    entry, or gives 0 when there is none. *)
Class ErrLog {W : Type} `{KernelEnv W} (pa : path W) := {
  err_log : W -> list Z;
  err_log_range : forall w, Forall (fun v => 0 < v < 2 ^ 32) (err_log w);
  err_log_read : forall w, let r := reg_read pa IDT_ERR_RD w in
    r.1 = (0, hd 0 (err_log w)) /\ err_log r.2 = tl (err_log w);
}.

Section errlog.
Context {W : Type} `{!KernelEnv W} `{!SwitchTables W} (pa : path W) `{!ErrLog pa}.
Implicit Types s : kstate W.

Lemma hex_line_length v : length (hex_line v) = 9%nat.
Proof. done. Qed.

Lemma snprintf_fits buf len size text :
  len = Z.of_nat (length buf) -> Z.of_nat (length text) < size ->
  snprintf_at buf len size text = (Z.of_nat (length text), buf ++ text).
Proof.
  intros -> Hs. unfold snprintf_at. f_equal. rewrite Nat2Z.id, !take_ge by lia. done.
Qed.

(** The text of a list of log entries. *)
Definition log_text (l : list Z) : list ascii := concat (map hex_line l).

Lemma log_text_length l : length (log_text l) = (9 * length l)%nat.
Proof.
  unfold log_text. induction l as [|v l IH]; [done|].
  cbn [map concat]. rewrite length_app, IH, hex_line_length. simpl length. lia.
Qed.

Lemma log_text_snoc l v : log_text (l ++ [v]) = log_text l ++ hex_line v.
Proof. unfold log_text. rewrite map_app, concat_app. cbn [map concat]. by rewrite app_nil_r. Qed.

(** C38: reading the error log file terminates, stays within the page, and
    returns the oldest entries of the log, one line each, in order, without
    losing one: the entries not shown are still in the log, and some remain only
    when the page is full. *)
Theorem idtg2_show_errlog_correct (PAGE_SIZE : Z) s rdev sw fuel :
  dev_at s rdev sw pa -> 20 <= PAGE_SIZE -> PAGE_SIZE < 9 * Z.of_nat fuel ->
  total (idtg2_show_errlog PAGE_SIZE fuel rdev) s (fun '(len, buf) s' =>
    same_kernel s s' /\ len = Z.of_nat (length buf) /\ len < PAGE_SIZE /\
    exists shown rest, err_log (ks_hw s) = shown ++ rest /\ buf = log_text shown /\
      err_log (ks_hw s') = rest /\ (rest = [] \/ PAGE_SIZE - 10 <= len)).
Proof.
  intros Hda Hps Hfuel. unfold idtg2_show_errlog. apply spec_bind, spec_gets.
  set (I := fun (v : Z * list ascii * Z) s1 =>
    same_kernel s s1 /\ exists shown, err_log (ks_hw s) = shown ++ err_log (ks_hw s1) /\
      v.1.2 = log_text shown /\ v.1.1 = 9 * Z.of_nat (length shown) /\
      (shown = [] \/ v.1.1 < PAGE_SIZE - 10)).
  apply (spec_loop_measure _ _ I (fun v _ => Z.to_nat ((PAGE_SIZE - v.1.1) / 9))).
  { split; [done|]. exists []. by repeat split; [..|left]. }
  { cbn [fst snd]. Z.to_euclidean_division_equations; lia. }
  intros [[len buf] regval] s1 (Hk & shown & Hlog & Hbuf & Hlen & Hlt). cbn [fst snd] in *.
  unfold errlog_step. apply spec_bind. unfold spec at 1.
  pose proof (dev_at_sk _ _ _ _ _ Hk Hda) as Hda1.
  rewrite (dev_read_path _ _ _ _ _ _ Hda1), run_read by (done || apply Hda1).
  change (u32 IDT_ERR_RD) with IDT_ERR_RD.
  destruct (err_log_read (ks_hw s1)) as [-> Htl]. cbn [fst snd].
  pose proof (err_log_range (ks_hw s1)) as Hrng.
  set (s2 := with_hw _ s1). assert (same_kernel s s2) as Hk2
    by (eapply sk_trans; [exact Hk|apply sk_with_hw]).
  assert (len = Z.of_nat (length buf)) as Hlb by (rewrite Hbuf, log_text_length; lia).
  assert (len < PAGE_SIZE - 10) as Hroom by (destruct Hlt as [->|]; simpl in *; lia).
  cbn [truthy Z.eqb negb].
  destruct (err_log (ks_hw s1)) as [|v l] eqn:El; cbn [hd tl] in *.
  - apply spec_ret. split; [done|split; [done|split; [lia|]]].
    exists shown, []. repeat split; [done..|by left].
  - apply Forall_cons in Hrng as [Hv Hl]. rewrite u32_small by lia.
    destruct (Z.eqb_spec v 0); [lia|].
    rewrite snprintf_fits by (done || rewrite hex_line_length; lia).
    rewrite hex_line_length.
    assert (err_log (ks_hw s) = (shown ++ [v]) ++ l) as Hlog' by (by rewrite <- app_assoc).
    destruct (Z.leb_spec (PAGE_SIZE - 10) (len + Z.of_nat 9)); apply spec_ret.
    + split; [done|]. rewrite length_app, hex_line_length.
      split; [lia|split; [lia|]]. exists (shown ++ [v]), l.
      split; [done|split; [by rewrite log_text_snoc, Hbuf|split; [done|by right]]].
    + split; [split; [done|]|].
      * exists (shown ++ [v]). cbn [fst snd]. split; [by rewrite Hlog'; f_equal|].
        split; [by rewrite log_text_snoc, Hbuf|].
        split; [rewrite length_app; simpl; lia|right; lia].
      * cbn [fst snd]. Z.to_euclidean_division_equations; lia.
Qed.
End errlog.

(** ** Witness *)

#[export] Instance std_err_log size : ErrLog (std_path true size).
Proof.
  refine {| err_log := log_entries |}.
  - intros w. apply Forall_forall. intros v Hv. unfold log_entries in Hv.
    apply list_elem_of_In, List.filter_In in Hv as [_ Hv]. lia.
  - intros w. unfold reg_read. cbn. split; [done|].
    unfold log_entries at 1. cbn. unfold log_entries.
    induction (sw_log w) as [|v l IH]; [done|]. cbn.
    destruct (_ && _); [|done]. clear IH. cbn. induction l as [|x l IH]; [done|]. cbn.
    destruct ((0 <? x) && _) eqn:E; cbn; by rewrite ?E, IH.
Defined.

#[export] Program Instance std_psel size : PselLut (std_path true size) := {|
  ps_lut w t d := sw_lut w t d mod 2 ^ 8;
  ps_cur := sw_psel;
|}.
Next Obligation. done. Qed.
Next Obligation. done. Qed.
Next Obligation.
  intros size off t Hoff w <-. unfold reg_write, reg_read, std_write. cbn. unfold std_read. split.
  - intros v. change IDT_PSEL with LOCAL_RTE_CONF_DESTID_SEL.
    destruct (Z.eqb_spec off LOCAL_RTE_CONF_DESTID_SEL); [done|].
    by repeat destruct (off =? _).
  - by destruct (off =? IDT_LOG).
Qed.
Next Obligation. done. Qed.
Next Obligation. done. Qed.

Lemma idtg2_route_table_witness :
  table_spec (std_path true 0) idtg2_route_add_entry idtg2_route_get_entry
    idtg2_route_clr_table g2_table IdtCps.cps_dest IdtCps.cps_valid (2 ^ 8).
Proof. exact (idtg2_route_table (std_path true 0)). Defined.

Definition log_state : kstate swbench :=
  sw_state (std_ops true) None (setf sw_log [0x10; 0x2000] (sw_world 0xffff 1)).

#[local] Existing Instance plain_tables.

Lemma idtg2_show_errlog_correct_witness :
  exists len buf s', idtg2_show_errlog 4096 456 3 log_state = Done (len, buf) s' /\
    len = Z.of_nat (length buf) /\ len < 4096 /\
    exists shown rest, [0x10; 0x2000] = shown ++ rest /\ buf = log_text shown.
Proof.
  pose proof (idtg2_show_errlog_correct (std_path true 0) 4096 log_state 3
    (sw_switch None 4) 456) as H.
  apply total_Done in H as ([len buf] & s' & H1 & H2).
  - destruct H2 as (_ & H2 & H3 & shown & rest & H4 & H5 & _).
    exists len, buf, s'. split; [exact H1|split; [exact H2|split; [exact H3|]]].
    by exists shown, rest.
  - split; [|done]. by exists (sw_dev None 4), sw_net, 2%positive.
  - lia.
  - lia.
Defined.
End IdtGen2.
