(* ===== verification/Tsi568.v ===== *)
(** * Tsi568 switches (switches/tsi568.c)

    The broadcast and per-port routing registers that the Tsi568 and the Tsi57x
    family share, the Tsi568 driver's routing operations with the proof that they
    keep the routing contract, its error management, probe and remove. *)

From S2P Require Import Prelude Regs State Access Hw SwBench Route.

Module Tsi568.

Definition SPBC_ROUTE_CFG_DESTID : Z := 0x10070.
Definition SPBC_ROUTE_CFG_PORT : Z := 0x10074.
Definition SPP_ROUTE_CFG_DESTID (n : Z) : Z := 0x11070 + 0x100 * n.
Definition SPP_ROUTE_CFG_PORT (n : Z) : Z := 0x11074 + 0x100 * n.
Definition TSI568_SP_MODE (n : Z) : Z := 0x11004 + 0x100 * n.
Definition TSI568_SP_MODE_PW_DIS : Z := 0x08000000.

Section ops.
Context {W : Type} `{!KernelEnv W}.

Definition tsi568_route_add_entry (mport : ptr)
    (destid hopcount table route_destid route_port : Z) : KM W Z :=
  (if table =? RIO_GLOBAL_TABLE then
     rio_mport_write_config_32 mport destid hopcount SPBC_ROUTE_CFG_DESTID route_destid ;;;
     rio_mport_write_config_32 mport destid hopcount SPBC_ROUTE_CFG_PORT route_port
   else
     rio_mport_write_config_32 mport destid hopcount (SPP_ROUTE_CFG_DESTID table) route_destid ;;;
     rio_mport_write_config_32 mport destid hopcount (SPP_ROUTE_CFG_PORT table) route_port) ;;;
  udelay 10 ;;;
  ret 0.

Definition tsi568_route_get_entry (mport : ptr)
    (destid hopcount table route_destid route_port : Z) : KM W (Z * Z) :=
  result <- uninit ;;
  let! (_, result) :=
    (if table =? RIO_GLOBAL_TABLE then
       rio_mport_write_config_32 mport destid hopcount SPBC_ROUTE_CFG_DESTID route_destid ;;;
       rio_mport_read_config_32 mport destid hopcount SPBC_ROUTE_CFG_PORT result
     else
       rio_mport_write_config_32 mport destid hopcount (SPP_ROUTE_CFG_DESTID table)
         route_destid ;;;
       rio_mport_read_config_32 mport destid hopcount (SPP_ROUTE_CFG_PORT table) result) ;;
  let route_port := u8 result in
  ret (if 15 <? route_port then -1 else 0, route_port).

Definition tsi568_route_clr_table (mport : ptr) (destid hopcount table : Z) : KM W Z :=
  mp <- get_mport mport ;;
  let lut_size := if truthy (mp_sys_size mp) then 0x1ff else 0xff in
  (if table =? RIO_GLOBAL_TABLE then
     rio_mport_write_config_32 mport destid hopcount SPBC_ROUTE_CFG_DESTID 0x80000000 ;;;
     for_ (zrange 0 (lut_size + 1)) (fun _ =>
       rio_mport_write_config_32 mport destid hopcount SPBC_ROUTE_CFG_PORT
         RIO_INVALID_ROUTE ;;; ret tt)
   else
     rio_mport_write_config_32 mport destid hopcount (SPP_ROUTE_CFG_DESTID table) 0x80000000 ;;;
     for_ (zrange 0 (lut_size + 1)) (fun _ =>
       rio_mport_write_config_32 mport destid hopcount (SPP_ROUTE_CFG_PORT table)
         RIO_INVALID_ROUTE ;;; ret tt)) ;;;
  ret 0.

Definition tsi568_em_init (rdev : ptr) : KM W Z :=
  d <- get_dev rdev ;;
  for_ (zrange 0 (RIO_GET_TOTAL_PORTS (rd_swpinfo d))) (fun portnum =>
    regval <- uninit ;;
    let! (_, regval) := rio_read_config_32 rdev (TSI568_SP_MODE portnum) regval ;;
    rio_write_config_32 rdev (TSI568_SP_MODE portnum)
      (Z.lor regval TSI568_SP_MODE_PW_DIS) ;;; ret tt) ;;;
  ret 0.

Definition tsi568_switch_ops (owner : ptr) : rio_switch_ops W := {|
  so_owner := owner;
  so_add_entry := Some tsi568_route_add_entry;
  so_get_entry := Some tsi568_route_get_entry;
  so_clr_table := Some tsi568_route_clr_table;
  so_set_domain := None;
  so_get_domain := None;
  so_em_init := Some tsi568_em_init;
  so_em_handle := None;
|}.

Definition tsi568_probe (rdev : ptr) (id : rio_device_id) : KM W Z :=
  sw <- get_rswitch rdev ;;
  match rs_ops sw with
  | Some _ => ret (- EINVAL)
  | None => upd_rswitch rdev (setf rs_ops (Some tsi568_ops_p)) ;;; ret 0
  end.

Definition tsi568_remove (rdev : ptr) : KM W unit :=
  sw <- get_rswitch rdev ;;
  if decide (rs_ops sw = Some tsi568_ops_p)
  then upd_rswitch rdev (setf rs_ops None)
  else ret tt.

Definition tsi568_id_table : list rio_device_id := [ RIO_DEVICE RIO_DID_TSI568 RIO_VID_TUNDRA ].
End ops.

(** ** The routing registers *)

(** A table is a port number or, for the broadcast registers,
    [RIO_GLOBAL_TABLE]. *)
Definition sel_off (t : Z) : Z :=
  if t =? RIO_GLOBAL_TABLE then SPBC_ROUTE_CFG_DESTID else SPP_ROUTE_CFG_DESTID t.
Definition port_off (t : Z) : Z :=
  if t =? RIO_GLOBAL_TABLE then SPBC_ROUTE_CFG_PORT else SPP_ROUTE_CFG_PORT t.
Definition tsi_table (t : Z) : bool := (t =? RIO_GLOBAL_TABLE) || ((0 <=? t) && (t <? 16)).

(** A write to a port register sets the selected entry, in all tables for the
    broadcast register; with bit 31 of the select register set the selection
    moves on to the next entry. *)
Class TsiLut {W : Type} `{KernelEnv W} (pa : path W) := {
  ts_sel : W -> Z -> Z;
  ts_lut : W -> Z -> Z -> Z;
  ts_write_sel : forall w t v, tsi_table t = true -> 0 <= v < 2 ^ 32 ->
    let r := reg_write pa (sel_off t) v w in
    r.1 = 0 /\ ts_sel r.2 t = v /\ forall t' d, ts_lut r.2 t' d = ts_lut w t' d;
  ts_write_port : forall w t v, tsi_table t = true -> 0 <= v < 2 ^ 32 ->
    let r := reg_write pa (port_off t) v w in
    r.1 = 0 /\
    ts_sel r.2 t = (if Z.testbit (ts_sel w t) 31 then ts_sel w t + 1 else ts_sel w t) /\
    forall t' d, tsi_table t' = true -> ts_lut r.2 t' d =
      if ((t =? RIO_GLOBAL_TABLE) || (t' =? t)) && (d =? Z.land (ts_sel w t) 0xffff)
      then v mod 2 ^ 8 else ts_lut w t' d;
  ts_read_port : forall w t, tsi_table t = true -> Z.testbit (ts_sel w t) 31 = false ->
    let r := reg_read pa (port_off t) w in
    r.1.1 = 0 /\ r.1.2 mod 2 ^ 8 = ts_lut w t (Z.land (ts_sel w t) 0xffff) /\
    forall t' d, ts_lut r.2 t' d = ts_lut w t' d;
  ts_frame : forall t d p off,
    off = RIO_HOST_DID_LOCK_CSR \/ off = RIO_SWP_INFO_CAR ->
    stable_at pa off (fun w => ts_lut w t d = p);
  ts_delay : forall us w t d, ts_lut (env_udelay us w) t d = ts_lut w t d;
}.

Lemma sel_off_ok t : tsi_table t = true -> RIO_32_BAD (sel_off t) = false /\
  sel_off t <> RIO_HOST_DID_LOCK_CSR.
Proof.
  unfold tsi_table, sel_off, SPBC_ROUTE_CFG_DESTID, SPP_ROUTE_CFG_DESTID, RIO_HOST_DID_LOCK_CSR.
  intros Ht. rewrite RIO_32_BAD_mod.
  destruct (t =? _); [done|]. split; [|lia].
  apply negb_false_iff, Z.eqb_eq. Z.to_euclidean_division_equations; lia.
Qed.
Lemma port_off_ok t : tsi_table t = true -> RIO_32_BAD (port_off t) = false /\
  port_off t <> RIO_HOST_DID_LOCK_CSR.
Proof.
  unfold tsi_table, port_off, SPBC_ROUTE_CFG_PORT, SPP_ROUTE_CFG_PORT, RIO_HOST_DID_LOCK_CSR.
  intros Ht. rewrite RIO_32_BAD_mod.
  destruct (t =? _); [done|]. split; [|lia].
  apply negb_false_iff, Z.eqb_eq. Z.to_euclidean_division_equations; lia.
Qed.

(** The offsets of a valid table are not the lock register's. *)
Ltac tsi_off :=
  match goal with
  | H : tsi_table _ = true |- _ =>
      unfold tsi_table, SPBC_ROUTE_CFG_DESTID, SPBC_ROUTE_CFG_PORT, SPP_ROUTE_CFG_DESTID, SPP_ROUTE_CFG_PORT, RIO_GLOBAL_TABLE,
        RIO_HOST_DID_LOCK_CSR in *; lia
  end.

Section tsi_rules.
Context {W : Type} `{!KernelEnv W} (pa : path W) `{!TsiLut pa} (u f : Prop).
Implicit Types s : kstate W.

Lemma spec_tsi_sel s t v {A} (k : KM W A) Q :
  on_path s pa -> tsi_table t = true -> 0 <= v < 2 ^ 32 ->
  (forall s', same_kernel s s' -> ts_sel (ks_hw s') t = v ->
     (forall t' d, ts_lut (ks_hw s') t' d = ts_lut (ks_hw s) t' d) -> spec u f k s' Q) ->
  spec u f (path_write pa (sel_off t) v ;;; k) s Q.
Proof.
  intros Hs Ht Hv Hk. destruct (sel_off_ok t Ht) as [Hb _].
  apply spec_bind, spec_write; [done|done|]. rewrite u32_small by done.
  destruct (ts_write_sel (ks_hw s) t v Ht Hv) as (_ & H1 & H2). by apply Hk.
Qed.

Lemma spec_tsi_port s t v {A} (k : KM W A) Q :
  on_path s pa -> tsi_table t = true -> 0 <= v < 2 ^ 8 ->
  (forall s', same_kernel s s' ->
     ts_sel (ks_hw s') t = (if Z.testbit (ts_sel (ks_hw s) t) 31
       then ts_sel (ks_hw s) t + 1 else ts_sel (ks_hw s) t) ->
     (forall t' d, tsi_table t' = true -> ts_lut (ks_hw s') t' d =
       if ((t =? RIO_GLOBAL_TABLE) || (t' =? t)) && (d =? Z.land (ts_sel (ks_hw s) t) 0xffff)
       then v else ts_lut (ks_hw s) t' d) -> spec u f k s' Q) ->
  spec u f (path_write pa (port_off t) v ;;; k) s Q.
Proof.
  intros Hs Ht Hv Hk. destruct (port_off_ok t Ht) as [Hb _].
  apply spec_bind, spec_write; [done|done|]. rewrite u32_small by lia.
  destruct (ts_write_port (ks_hw s) t v Ht ltac:(lia)) as (_ & H1 & H2).
  apply Hk; [done|done|]. intros t' d Ht'. rewrite hw_with_hw, H2 by done.
  by rewrite Z.mod_small by lia.
Qed.

Lemma spec_tsi_fetch s t d v Q :
  on_path s pa -> tsi_table t = true -> 0 <= d < 2 ^ 16 ->
  (forall x s', same_kernel s s' -> u8 x = ts_lut (ks_hw s) t d ->
     (forall t' d, ts_lut (ks_hw s') t' d = ts_lut (ks_hw s) t' d) -> Q (0, x) s') ->
  spec u f (path_write pa (sel_off t) d ;;; path_read pa (port_off t) v) s Q.
Proof.
  intros Hs Ht Hd HQ. apply spec_tsi_sel; [done|done|lia|]. intros s1 Hk1 Hsel Hl1.
  destruct (port_off_ok t Ht) as [Hb _]. destruct (sel_plain d Hd) as [Hp Hbit].
  apply spec_read; [by eapply on_path_sk|done|].
  destruct (ts_read_port (ks_hw s1) t Ht ltac:(by rewrite Hsel)) as (-> & Hv & Hl2).
  rewrite Hsel, Hp, Hl1 in Hv. apply HQ; [by eapply sk_trans; [|apply sk_with_hw]| |].
  - rewrite <- Hv. unfold u8, u32. change (2 ^ 32) with (2 ^ 8 * 2 ^ 24).
    rewrite Z.rem_mul_r, Z.mul_comm, Z.mod_add, Z.mod_mod by lia. done.
  - intros t' d'. by rewrite hw_with_hw, Hl2, Hl1.
Qed.

(** Clearing [n] entries by automatic increment. *)
Lemma spec_tsi_fill s t n v (Q : unit -> kstate W -> Prop) :
  on_path s pa -> tsi_table t = true -> 0 <= v < 2 ^ 8 -> 0 <= n <= 2 ^ 16 ->
  (forall s', same_kernel s s' -> (forall t' d, tsi_table t' = true ->
     (t =? RIO_GLOBAL_TABLE) || (t' =? t) = true -> 0 <= d < n ->
     ts_lut (ks_hw s') t' d = v) -> Q tt s') ->
  spec u f (path_write pa (sel_off t) 0x80000000 ;;;
    for_ (zrange 0 n) (fun _ => path_write pa (port_off t) v ;;; ret tt)) s Q.
Proof.
  intros Hs Ht Hv Hn HQ. apply spec_tsi_sel; [done|done|lia|]. intros s1 Hk1 Hsel _.
  apply (spec_for _ _ (fun l s2 => exists i, 0 <= i <= n /\ l = zrange i n /\ same_kernel s s2 /\
    ts_sel (ks_hw s2) t = 0x80000000 + i /\ forall t' d, tsi_table t' = true ->
     (t =? RIO_GLOBAL_TABLE) || (t' =? t) = true -> 0 <= d < i ->
     ts_lut (ks_hw s2) t' d = v)).
  - exists 0. split; [lia|split; [done|split; [done|split; [done|lia]]]].
  - intros j l s2 (i & Hi & Hl & Hk & Hs2 & Hlut).
    assert (i < n) as Hlt.
    { destruct (Z.ltb_spec i n); [done|]. by rewrite zrange_nil in Hl by lia. }
    rewrite zrange_cons in Hl by done. injection Hl as -> ->.
    apply spec_tsi_port; [by eapply on_path_sk|done|done|].
    intros s3 Hk3 Hs3 Hl3. apply spec_ret.
    destruct (sel_ext i) as (He1 & He2 & He3); [lia|]. rewrite He3 in He1, He2.
    rewrite Hs2, He2 in Hs3. rewrite Hs2, He1 in Hl3.
    exists (i + 1). split; [lia|split; [done|split; [by transitivity s2|split; [lia|]]]].
    intros t' d Ht' Ho Hd. rewrite Hl3, Ho by done. destruct (Z.eqb_spec d i); [done|].
    apply Hlut; [done|done|lia].
  - intros s2 (i & Hi & Hl & Hk & _ & Hlut). apply HQ; [done|]. intros t' d Ht' Ho Hd.
    apply Hlut; [done|done|]. destruct (Z.ltb_spec i n); [by rewrite zrange_cons in Hl|lia].
Qed.
End tsi_rules.

(** ** The routing contract *)

Section contract.
Context {W : Type} `{!KernelEnv W} (pa : path W) `{!TsiLut pa}.
Implicit Types s : kstate W.

Definition tsi_dest (d : Z) : bool :=
  (0 <=? d) && (d <=? if truthy (mp_sys_size (pa_mp pa)) then 0x1ff else 0xff).
Definition tsi_port (p : Z) : bool := (0 <=? p) && (p <? 2 ^ 8).

Lemma tsi_dest_range d : tsi_dest d = true -> 0 <= d < 2 ^ 16.
Proof. unfold tsi_dest. destruct (truthy _); lia. Qed.

(** Both branches use the registers of the table. *)
Lemma tsi568_add_unfold t d p s :
  tsi568_route_add_entry (pa_port pa) (pa_destid pa) (pa_hop pa) t d p s
  = ((path_write pa (sel_off t) d ;;; path_write pa (port_off t) p) ;;; udelay 10 ;;; ret 0) s.
Proof. unfold tsi568_route_add_entry, sel_off, port_off. by destruct (t =? RIO_GLOBAL_TABLE). Qed.

Lemma tsi_set_ok s t d p :
  on_path s pa -> tsi_table t = true -> 0 <= d < 2 ^ 16 -> tsi_port p = true ->
  total ((path_write pa (sel_off t) d ;;; path_write pa (port_off t) p) ;;; udelay 10 ;;; ret 0) s
    (fun rc s' => same_kernel s s' /\ rc = 0 /\ forall t' d', tsi_table t' = true ->
       ts_lut (ks_hw s') t' d' =
       if ((t =? RIO_GLOBAL_TABLE) || (t' =? t)) && (d' =? d) then p
       else ts_lut (ks_hw s) t' d').
Proof.
  unfold tsi_port. intros Hs Ht Hd Hp.
  apply spec_bind. apply (spec_tsi_sel pa); [done|done|lia|]. intros s1 Hk1 Hsel Hl1.
  destruct (port_off_ok t Ht) as [Hb _]. apply spec_write; [by eapply on_path_sk|done|].
  destruct (ts_write_port (ks_hw s1) t (u32 p) Ht (u32_range _)) as (_ & _ & Hl2).
  apply spec_bind, spec_udelay, spec_ret.
  split; [eapply sk_trans; [done|]; eapply sk_trans; apply sk_with_hw|split; [done|]].
  intros t' d' Ht'. rewrite hw_with_hw, ts_delay, hw_with_hw, Hl2 by done.
  destruct (sel_plain d Hd) as [Hpl _]. rewrite Hsel, Hpl, u32_small, Z.mod_small by lia.
  by rewrite Hl1.
Qed.

Lemma tsi568_get_ok s t d old :
  on_path s pa -> tsi_table t = true -> 0 <= d < 2 ^ 16 ->
  total (tsi568_route_get_entry (pa_port pa) (pa_destid pa) (pa_hop pa) t d old) s
    (fun r s' => same_kernel s s' /\
       r = (get_status 15 (ts_lut (ks_hw s) t d), ts_lut (ks_hw s) t d) /\
       forall t' d', ts_lut (ks_hw s') t' d' = ts_lut (ks_hw s) t' d').
Proof.
  intros Hs Ht Hd. unfold tsi568_route_get_entry. fold_path pa.
  apply spec_bind, spec_gets. apply spec_bind.
  assert (forall v Q, spec False False
    (path_write pa (sel_off t) d ;;; path_read pa (port_off t) v) s Q ->
    spec False False (if t =? RIO_GLOBAL_TABLE
      then path_write pa SPBC_ROUTE_CFG_DESTID d ;;; path_read pa SPBC_ROUTE_CFG_PORT v
      else path_write pa (SPP_ROUTE_CFG_DESTID t) d ;;; path_read pa (SPP_ROUTE_CFG_PORT t) v)
      s Q) as Hif.
  { intros v Q. unfold sel_off, port_off. by destruct (t =? RIO_GLOBAL_TABLE). }
  apply Hif, (spec_tsi_fetch pa); [done..|]. intros x s' Hk Hx Hl. apply spec_ret.
  rewrite Hx. auto.
Qed.

Lemma tsi_clr_ok s t n :
  on_path s pa -> tsi_table t = true -> 0 <= n <= 2 ^ 16 ->
  total ((if t =? RIO_GLOBAL_TABLE then
     path_write pa SPBC_ROUTE_CFG_DESTID 0x80000000 ;;;
     for_ (zrange 0 n) (fun _ =>
       path_write pa SPBC_ROUTE_CFG_PORT RIO_INVALID_ROUTE ;;; ret tt)
   else
     path_write pa (SPP_ROUTE_CFG_DESTID t) 0x80000000 ;;;
     for_ (zrange 0 n) (fun _ =>
       path_write pa (SPP_ROUTE_CFG_PORT t) RIO_INVALID_ROUTE ;;; ret tt)) ;;; ret 0) s
    (fun rc s' => same_kernel s s' /\ rc = 0 /\ forall t' d, tsi_table t' = true ->
       (t =? RIO_GLOBAL_TABLE) || (t' =? t) = true -> 0 <= d < n ->
       ts_lut (ks_hw s') t' d = RIO_INVALID_ROUTE).
Proof.
  intros Hs Ht Hn. apply spec_bind.
  pose proof (spec_tsi_fill pa False False s t n RIO_INVALID_ROUTE) as Hfill.
  unfold sel_off, port_off in Hfill.
  destruct (t =? RIO_GLOBAL_TABLE); apply Hfill; try done;
    intros s' Hk Hl; by apply spec_ret.
Qed.

#[export] Program Instance tsi568_route_ops :
  RouteOps pa tsi568_route_add_entry tsi568_route_get_entry tsi568_route_clr_table := {|
  rt_view := ts_lut;
  rt_table := tsi_table;
  rt_dest := tsi_dest;
  rt_port := tsi_port;
  rt_limit := 15;
|}.
Next Obligation.
  cbn beta. intros s t d p Hs Ht Hd%tsi_dest_range Hp. unfold spec.
  rewrite tsi568_add_unfold. eapply (spec_mono False False); [by apply tsi_set_ok|].
  intros rc s' (Hk & -> & Hl). split; [done|split; [done|]]. intros d' _.
  by rewrite Hl, Z.eqb_refl, orb_true_r.
Qed.
Next Obligation.
  cbn beta. intros s t d old Hs Ht Hd%tsi_dest_range _.
  eapply spec_mono; [by apply tsi568_get_ok|]. intros r s' (Hk & -> & Hl). auto.
Qed.
Next Obligation.
  cbn beta. intros s t Hs Ht. unfold tsi568_route_clr_table.
  srun (run_get_mport _ _ _ Hs). fold_path pa.
  eapply spec_mono; [apply tsi_clr_ok; [done|done|destruct (truthy _); lia]|].
  intros rc s' (Hk & -> & Hl). split; [done|split; [done|]]. unfold tsi_dest. intros d Hd.
  apply Hl; [done|by rewrite Z.eqb_refl, orb_true_r|destruct (truthy _); lia].
Qed.
Next Obligation.
  cbn beta. intros I t d p Ht _ Hf. unfold tsi568_route_add_entry.
  solve_pres_with pa Hf ltac:(idtac; tsi_off).
Qed.
Next Obligation.
  cbn beta. intros I t d p Ht _ Hf. unfold tsi568_route_get_entry.
  solve_pres_with pa Hf ltac:(idtac; tsi_off).
Qed.
Next Obligation.
  cbn beta. intros I t Ht Hf. unfold tsi568_route_clr_table.
  solve_pres_with pa Hf ltac:(idtac; tsi_off).
Qed.
Next Obligation.
  cbn beta. intros t d p _ _. split; [|apply ts_frame; by left].
  intros us w <-. apply ts_delay.
Qed.
End contract.

(** The driver's routing operations implement a routing table for the
    broadcast registers and for each port; a port above 15, such as an invalid
    route, is read back with status -1. *)
Theorem tsi568_route_table {W} `{!KernelEnv W} (pa : path W) `{!TsiLut pa} :
  table_spec pa tsi568_route_add_entry tsi568_route_get_entry tsi568_route_clr_table
    tsi_table (tsi_dest pa) tsi_port 15.
Proof. by apply (route_ops_table_spec pa _ _ _ (RouteOps0 := tsi568_route_ops pa)). Qed.

(** *** A concrete Tsi switch *)

(** The table whose select or port register is at an offset. *)
Definition decode (base spp off : Z) : option Z :=
  if off =? base then Some RIO_GLOBAL_TABLE
  else
    let t := (off - spp) / 0x100 in
    if ((off - spp) mod 0x100 =? 0) && (0 <=? t) && (t <? 16) then Some t else None.

Definition tsi_write (off v : Z) (w : swbench) : Z * swbench :=
  (0,
   match decode 0x10070 0x11070 off, decode 0x10074 0x11074 off with
   | Some t, _ => setf sw_sel (fun t' => if t' =? t then v else sw_sel w t') w
   | None, Some t =>
       let sel := sw_sel w t in
       setf sw_sel (fun t' => if (t' =? t) && Z.testbit sel 31 then sel + 1 else sw_sel w t')
         (setf sw_lut (fun t' d =>
            if ((t =? RIO_GLOBAL_TABLE) || (t' =? t)) && (d =? Z.land sel 0xffff)
            then v mod 2 ^ 8 else sw_lut w t' d) w)
   | None, None =>
       if off =? RIO_HOST_DID_LOCK_CSR
       then setf sw_lock (lock_update (Z.land (sw_lock w) 0xffff) v) w
       else setf sw_reg (<[off := v]> (sw_reg w)) w
   end).

(** The ingress port of the requests is port 2 of 8. *)
Definition tsi_swp : Z := 0x0802.

Definition tsi_read (off : Z) (w : swbench) : (Z * Z) * swbench :=
  ((0,
    match decode 0x10070 0x11070 off, decode 0x10074 0x11074 off with
    | Some t, _ => sw_sel w t
    | None, Some t => sw_lut w t (Z.land (sw_sel w t) 0xffff)
    | None, None =>
        if off =? RIO_HOST_DID_LOCK_CSR then Z.land (sw_lock w) 0xffff
        else if off =? RIO_SWP_INFO_CAR then tsi_swp
        else default 0 (sw_reg w !! off)
    end), w).

Definition tsi_path (size : Z) : path swbench := sw_path (sw_ops tsi_write tsi_read) 1 size.

Lemma decode_own base spp t :
  tsi_table t = true -> base < spp ->
  decode base spp (if t =? RIO_GLOBAL_TABLE then base else spp + 0x100 * t) = Some t.
Proof.
  unfold tsi_table, decode. intros Ht Hb. destruct (Z.eqb_spec t RIO_GLOBAL_TABLE) as [Heq|Hne].
  - by rewrite Z.eqb_refl, Heq.
  - destruct (Z.eqb_spec (spp + 0x100 * t) base); [lia|].
    replace (spp + 0x100 * t - spp) with (t * 0x100) by lia.
    rewrite Z.mod_mul, Z.div_mul by lia. rewrite Z.eqb_refl. simpl.
    by replace ((0 <=? t) && (t <? 16)) with true by lia.
Qed.

(** The port registers are no select registers. *)
Lemma decode_other t :
  tsi_table t = true ->
  decode 0x10070 0x11070 (if t =? RIO_GLOBAL_TABLE then 0x10074 else 0x11074 + 0x100 * t) = None.
Proof.
  unfold tsi_table, decode. intros Ht. destruct (Z.eqb_spec t RIO_GLOBAL_TABLE) as [Heq|Hne];
    [by vm_compute|].
  destruct (Z.eqb_spec (0x11074 + 0x100 * t) 0x10070); [lia|].
  replace ((0x11074 + 0x100 * t - 0x11070) mod 0x100) with 4; [done|].
  Z.to_euclidean_division_equations; lia.
Qed.

#[export] Program Instance tsi_path_lut size : TsiLut (tsi_path size) := {|
  ts_sel := sw_sel;
  ts_lut w t d := sw_lut w t d mod 2 ^ 8;
|}.
Next Obligation.
  intros size w t v Ht Hv. unfold reg_write, sel_off, SPBC_ROUTE_CFG_DESTID, SPP_ROUTE_CFG_DESTID.
  cbn. unfold tsi_write. rewrite decode_own by (done || lia). cbn. by rewrite Z.eqb_refl.
Qed.
Next Obligation.
  intros size w t v Ht Hv. unfold reg_write, port_off, SPBC_ROUTE_CFG_PORT, SPP_ROUTE_CFG_PORT.
  cbn. unfold tsi_write. rewrite decode_other, decode_own by (done || lia). cbn.
  rewrite Z.eqb_refl. split; [done|split; [by destruct (Z.testbit (sw_sel w t) 31)|]].
  intros t' d _. destruct (_ || _); [|done].
  cbn. destruct (d =? Z.land (sw_sel w t) 0xffff); [by rewrite Z.mod_mod|done].
Qed.
Next Obligation.
  intros size w t Ht Hb. unfold reg_read, port_off, SPBC_ROUTE_CFG_PORT, SPP_ROUTE_CFG_PORT.
  cbn. unfold tsi_read. rewrite decode_other, decode_own by (done || lia). done.
Qed.
Next Obligation.
  intros size t d p off Ho w Hw. by destruct Ho; subst off.
Qed.
Next Obligation. done. Qed.

#[export] Instance tsi_path_swp size : ConstReg (tsi_path size) RIO_SWP_INFO_CAR tsi_swp.
Proof. by split. Qed.

Lemma tsi568_route_table_witness :
  table_spec (tsi_path 1) tsi568_route_add_entry tsi568_route_get_entry tsi568_route_clr_table
    tsi_table (tsi_dest (tsi_path 1)) tsi_port 15.
Proof. exact (tsi568_route_table (tsi_path 1)). Defined.
End Tsi568.
