(* ===== verification/Tsi57x.v ===== *)
(** * Tsi57x switches (switches/tsi57x.c)

    Routing operations with the proof that they keep the routing contract,
    switch domain, error management with the recovery from parity errors in the
    routing table, probe and remove.  The routing registers are those of
    Tsi568.v. *)

From S2P Require Import Prelude Regs State Access Hw SwBench Route Tsi568.

Module Tsi57x.
Import Tsi568.

Definition TSI578_SP_MODE (n : Z) : Z := 0x11004 + n * 0x100.
Definition TSI578_SP_MODE_GLBL : Z := 0x10004.
Definition TSI578_SP_MODE_PW_DIS : Z := 0x08000000.
Definition TSI578_SP_MODE_LUT_512 : Z := 0x01000000.
Definition TSI578_SP_CTL_INDEP (n : Z) : Z := 0x13004 + n * 0x100.
Definition TSI578_SP_LUT_PEINF (n : Z) : Z := 0x13010 + n * 0x100.
Definition TSI578_SP_CS_TX (n : Z) : Z := 0x13014 + n * 0x100.
Definition TSI578_SP_INT_STATUS (n : Z) : Z := 0x13018 + n * 0x100.
Definition TSI578_GLBL_ROUTE_BASE : Z := 0x10078.

Section ops.
Context {W : Type} `{!KernelEnv W}.

Definition tsi57x_route_add_entry (mport : ptr)
    (destid hopcount table route_destid route_port : Z) : KM W Z :=
  (if table =? RIO_GLOBAL_TABLE then
     rio_mport_write_config_32 mport destid hopcount SPBC_ROUTE_CFG_DESTID route_destid ;;;
     rio_mport_write_config_32 mport destid hopcount SPBC_ROUTE_CFG_PORT route_port
   else
     rio_mport_write_config_32 mport destid hopcount (SPP_ROUTE_CFG_DESTID table) route_destid ;;;
     rio_mport_write_config_32 mport destid hopcount (SPP_ROUTE_CFG_PORT table) route_port) ;;;
  udelay 10 ;;;
  ret 0.

Definition tsi57x_route_get_entry (mport : ptr)
    (destid hopcount table route_destid route_port : Z) : KM W (Z * Z) :=
  result <- uninit ;;
  let! (table, result) :=
    (if table =? RIO_GLOBAL_TABLE then
       let! (_, result) :=
         rio_mport_read_config_32 mport destid hopcount RIO_SWP_INFO_CAR result ;;
       ret (Z.land result RIO_SWP_INFO_PORT_NUM_MASK, result)
     else ret (table, result)) ;;
  rio_mport_write_config_32 mport destid hopcount (SPP_ROUTE_CFG_DESTID table) route_destid ;;;
  let! (_, result) :=
    rio_mport_read_config_32 mport destid hopcount (SPP_ROUTE_CFG_PORT table) result ;;
  let route_port := u8 result in
  ret (if 15 <? route_port then -1 else 0, route_port).

Definition tsi57x_route_clr_table (mport : ptr) (destid hopcount table : Z) : KM W Z :=
  mp <- get_mport mport ;;
  let lut_size := if truthy (mp_sys_size mp) then 0x1ff else 0xff in
  (if table =? RIO_GLOBAL_TABLE then
     rio_mport_write_config_32 mport destid hopcount SPBC_ROUTE_CFG_DESTID 0x80000000 ;;;
     for_ (zrange 0 (lut_size + 1)) (fun _ =>
       rio_mport_write_config_32 mport destid hopcount SPBC_ROUTE_CFG_PORT
         RIO_INVALID_ROUTE ;;; ret tt)
   else
     rio_mport_write_config_32 mport destid hopcount (SPP_ROUTE_CFG_DESTID table) 0x80000000 ;;;
     for_ (zrange 0 (lut_size + 1)) (fun _ =>
       rio_mport_write_config_32 mport destid hopcount (SPP_ROUTE_CFG_PORT table)
         RIO_INVALID_ROUTE ;;; ret tt)) ;;;
  ret 0.

Definition tsi57x_set_domain (mport : ptr) (destid hopcount sw_domain : Z) : KM W Z :=
  regval <- uninit ;;
  let! (_, regval) :=
    rio_mport_read_config_32 mport destid hopcount TSI578_SP_MODE_GLBL regval ;;
  rio_mport_write_config_32 mport destid hopcount TSI578_SP_MODE_GLBL
    (Z.land regval (not32 TSI578_SP_MODE_LUT_512)) ;;;
  rio_mport_write_config_32 mport destid hopcount TSI578_GLBL_ROUTE_BASE
    (u32 (Z.shiftl sw_domain 24)) ;;;
  ret 0.

Definition tsi57x_get_domain (mport : ptr) (destid hopcount sw_domain : Z) : KM W (Z * Z) :=
  regval <- uninit ;;
  let! (_, regval) :=
    rio_mport_read_config_32 mport destid hopcount TSI578_GLBL_ROUTE_BASE regval ;;
  ret (0, u8 (Z.shiftr regval 24)).

(** One port of the initialisation; the result tells whether the port is in x4
    mode, in which case the next one is skipped. *)
Definition em_init_port (rdev : ptr) (portnum : Z) : KM W bool :=
  d <- get_dev rdev ;;
  regval <- uninit ;;
  let! (_, regval) := rio_read_config_32 rdev (TSI578_SP_MODE portnum) regval ;;
  rio_write_config_32 rdev (TSI578_SP_MODE portnum)
    (Z.land regval (not32 TSI578_SP_MODE_PW_DIS)) ;;;
  let! (_, regval) := rio_read_config_32 rdev (RIO_DEV_PORT_N_ERR_STS_CSR d portnum) regval ;;
  rio_write_config_32 rdev (RIO_DEV_PORT_N_ERR_STS_CSR d portnum)
    (Z.land regval 0x07120214) ;;;
  let! (_, regval) := rio_read_config_32 rdev (TSI578_SP_INT_STATUS portnum) regval ;;
  rio_write_config_32 rdev (TSI578_SP_INT_STATUS portnum) (Z.land regval 0x000700bd) ;;;
  let! (_, regval) := rio_read_config_32 rdev (TSI578_SP_CTL_INDEP portnum) regval ;;
  rio_write_config_32 rdev (TSI578_SP_CTL_INDEP portnum) (Z.lor regval 0x000b0000) ;;;
  let! (_, regval) := rio_read_config_32 rdev (RIO_DEV_PORT_N_CTL_CSR d portnum) regval ;;
  ret (Z.land regval RIO_PORT_N_CTL_PWIDTH =? RIO_PORT_N_CTL_PWIDTH_4).

(** At most 255 ports. *)
Definition PORT_FUEL : nat := 256.

Definition em_init_step (rdev : ptr) (portnum : Z) : KM W (Z + unit) :=
  d <- get_dev rdev ;;
  if portnum <? RIO_GET_TOTAL_PORTS (rd_swpinfo d) then
    x4 <- em_init_port rdev portnum ;;
    ret (inl (portnum + if x4 : bool then 2 else 1))
  else ret (inr tt).

Definition tsi57x_em_init (rdev : ptr) : KM W Z :=
  loop PORT_FUEL (em_init_step rdev) 0 ;;;
  d <- get_dev rdev ;;
  rio_write_config_32 rdev (rd_phys_efptr d + RIO_PORT_LINKTO_CTL_CSR) (Z.shiftl 0x9a 8) ;;;
  ret 0.

(** Three link requests, each with three polls of the response. *)
Definition em_recover_link (rdev : ptr) (d : rio_dev) (portnum regval : Z)
    : KM W (option unit) :=
  for_exit [3; 2; 1] (fun _ =>
    rio_write_config_32 rdev (TSI578_SP_CS_TX portnum) 0x40fc8000 ;;;
    for_exit [3; 2; 1] (fun _ =>
      udelay 50 ;;;
      let! (_, regval) :=
        rio_read_config_32 rdev (RIO_DEV_PORT_N_MNT_RSP_CSR d portnum) regval ;;
      ret (if truthy (Z.land regval RIO_PORT_N_MNT_RSP_RVAL) then Some tt else None))).

Definition tsi57x_em_handler (rdev : ptr) (portnum : Z) : KM W Z :=
  d <- get_dev rdev ;;
  mport <- dev_hport d ;;
  err_status <- uninit ;;
  regval <- uninit ;;
  let! (_, err_status) :=
    rio_read_config_32 rdev (RIO_DEV_PORT_N_ERR_STS_CSR d portnum) err_status ;;
  when (truthy (Z.land err_status RIO_PORT_N_ERR_STS_PORT_OK) &&
        truthy (Z.land err_status
          (Z.lor RIO_PORT_N_ERR_STS_OUT_ES RIO_PORT_N_ERR_STS_INP_ES)))
    (let! (_, regval) :=
       rio_read_config_32 rdev (RIO_DEV_PORT_N_CTL_CSR d portnum) regval ;;
     when (negb (truthy (Z.land regval RIO_PORT_N_CTL_LOCKOUT)))
       (rio_write_config_32 rdev (RIO_DEV_PORT_N_CTL_CSR d portnum)
          (Z.lor regval RIO_PORT_N_CTL_LOCKOUT) ;;;
        udelay 50 ;;;
        rio_write_config_32 rdev (RIO_DEV_PORT_N_CTL_CSR d portnum) regval ;;; ret tt) ;;;
     let! (_, regval) :=
       rio_read_config_32 rdev (RIO_DEV_PORT_N_MNT_RSP_CSR d portnum) regval ;;
     em_recover_link rdev d portnum regval ;;; ret tt) ;;;
  intstat <- uninit ;;
  let! (_, intstat) := rio_read_config_32 rdev (TSI578_SP_INT_STATUS portnum) intstat ;;
  when (truthy (Z.land intstat 0x10000))
    (let! (_, regval) := rio_read_config_32 rdev (TSI578_SP_LUT_PEINF portnum) regval ;;
     mp <- get_mport mport ;;
     let regval :=
       if truthy (mp_sys_size mp) then Z.shiftr regval 16 else Z.shiftr regval 24 in
     sw <- get_rswitch rdev ;;
     route_table <- deref (rs_route_table sw) ;;
     route_port <- array_get route_table regval ;;
     tsi57x_route_add_entry mport (rd_destid d) (rd_hopcount d) RIO_GLOBAL_TABLE
       (u16 regval) route_port ;;; ret tt) ;;;
  rio_write_config_32 rdev (TSI578_SP_INT_STATUS portnum) (Z.land intstat 0x000700bd) ;;;
  ret 0.

Definition tsi57x_switch_ops (owner : ptr) : rio_switch_ops W := {|
  so_owner := owner;
  so_add_entry := Some tsi57x_route_add_entry;
  so_get_entry := Some tsi57x_route_get_entry;
  so_clr_table := Some tsi57x_route_clr_table;
  so_set_domain := Some tsi57x_set_domain;
  so_get_domain := Some tsi57x_get_domain;
  so_em_init := Some tsi57x_em_init;
  so_em_handle := Some tsi57x_em_handler;
|}.

Definition tsi57x_probe (rdev : ptr) (id : rio_device_id) : KM W Z :=
  sw <- get_rswitch rdev ;;
  match rs_ops sw with
  | Some _ => ret (- EINVAL)
  | None =>
      upd_rswitch rdev (setf rs_ops (Some tsi57x_ops_p)) ;;;
      d <- get_dev rdev ;;
      when (rd_do_enum d)
        (rio_write_config_32 rdev RIO_STD_RTE_DEFAULT_PORT RIO_INVALID_ROUTE ;;; ret tt) ;;;
      ret 0
  end.

Definition tsi57x_remove (rdev : ptr) : KM W unit :=
  sw <- get_rswitch rdev ;;
  if decide (rs_ops sw = Some tsi57x_ops_p)
  then upd_rswitch rdev (setf rs_ops None)
  else ret tt.

Definition tsi57x_id_table : list rio_device_id := [
  RIO_DEVICE RIO_DID_TSI572 RIO_VID_TUNDRA;
  RIO_DEVICE RIO_DID_TSI574 RIO_VID_TUNDRA;
  RIO_DEVICE RIO_DID_TSI577 RIO_VID_TUNDRA;
  RIO_DEVICE RIO_DID_TSI578 RIO_VID_TUNDRA ].
End ops.

(** ** The routing contract *)

Section contract.
Context {W : Type} `{!KernelEnv W} (pa : path W) `{!TsiLut pa} (swp : Z)
  `{!ConstReg pa RIO_SWP_INFO_CAR swp}.
Hypothesis ingress : RIO_GET_PORT_NUM swp < 16.
Implicit Types s : kstate W.

(** The global table is read at the port the request comes in by. *)
Definition t57_table (t : Z) : Z := if t =? RIO_GLOBAL_TABLE then RIO_GET_PORT_NUM swp else t.
Definition t57_view (w : W) (t d : Z) : Z := ts_lut w (t57_table t) d.

Lemma t57_table_ok t :
  tsi_table t = true -> tsi_table (t57_table t) = true /\ t57_table t <> RIO_GLOBAL_TABLE.
Proof.
  unfold tsi_table, t57_table, RIO_GLOBAL_TABLE. intros Ht.
  pose proof (RIO_GET_PORT_NUM_range swp). destruct (Z.eqb_spec t 255); lia.
Qed.

Lemma t57_hit t :
  (t =? RIO_GLOBAL_TABLE) || (t57_table t =? t) = true.
Proof. unfold t57_table. destruct (t =? _); [done|]. by rewrite Z.eqb_refl. Qed.

Lemma tsi57x_get_ok s t d old :
  on_path s pa -> tsi_table t = true -> 0 <= d < 2 ^ 16 ->
  total (tsi57x_route_get_entry (pa_port pa) (pa_destid pa) (pa_hop pa) t d old) s
    (fun r s' => same_kernel s s' /\
       r = (get_status 15 (t57_view (ks_hw s) t d), t57_view (ks_hw s) t d) /\
       forall d', t57_view (ks_hw s') t d' = t57_view (ks_hw s) t d').
Proof.
  intros Hs Ht Hd. unfold tsi57x_route_get_entry. fold_path pa.
  destruct (t57_table_ok t Ht) as [Ht' Hne]. apply spec_bind, spec_gets, spec_bind.
  assert (forall s1 v, same_kernel s s1 ->
    (forall t' d, ts_lut (ks_hw s1) t' d = ts_lut (ks_hw s) t' d) ->
    total (path_write pa (SPP_ROUTE_CFG_DESTID (t57_table t)) d ;;;
      let! (_, result) := path_read pa (SPP_ROUTE_CFG_PORT (t57_table t)) v ;;
      ret (if 15 <? u8 result then -1 else 0, u8 result)) s1
    (fun r s' => same_kernel s s' /\
       r = (get_status 15 (t57_view (ks_hw s) t d), t57_view (ks_hw s) t d) /\
       forall d', t57_view (ks_hw s') t d' = t57_view (ks_hw s) t d')) as Hrest.
  { intros s1 v Hk1 Hl1.
    pose proof (spec_tsi_fetch pa False False s1 (t57_table t) d v) as Hf.
    unfold sel_off, port_off in Hf.
    destruct (Z.eqb_spec (t57_table t) RIO_GLOBAL_TABLE) as [?|_]; [done|].
    specialize (Hf (fun r s' => total (let! (_, result) := ret r ;;
      ret (if 15 <? u8 result then -1 else 0, u8 result)) s'
      (fun r s' => same_kernel s s' /\
       r = (get_status 15 (t57_view (ks_hw s) t d), t57_view (ks_hw s) t d) /\
       forall d', t57_view (ks_hw s') t d' = t57_view (ks_hw s) t d'))).
    assert (forall (m1 : KM W Z) (m2 : KM W (Z * Z)) (k : Z * Z -> KM W (Z * Z)) Q,
      spec False False (m1 ;;; m2) s1 (fun r s' => spec False False (r' <- ret r ;; k r') s' Q) ->
      spec False False (m1 ;;; (r <- m2 ;; k r)) s1 Q) as Hassoc.
    { intros m1 m2 k Q. unfold spec, bind, ret. destruct (m1 s1) as [x s2| |]; [|done..].
      by destruct (m2 s2). }
    apply Hassoc, Hf; [by eapply on_path_sk|done|done|]. intros x s2 Hk2 Hx Hl2.
    apply spec_bind, spec_ret, spec_ret. unfold t57_view. rewrite Hx, Hl1.
    split; [by transitivity s1|split; [done|]]. intros d'. by rewrite Hl2, Hl1. }
  destruct (t =? RIO_GLOBAL_TABLE) eqn:Et.
  - apply spec_bind, spec_read; [done|done|]. rewrite (const_read (ks_hw s)). cbn [fst snd].
    apply spec_ret. rewrite u32_small by apply (const_val (val := swp)).
    specialize (Hrest (with_hw (reg_read pa RIO_SWP_INFO_CAR (ks_hw s)).2 s) swp (sk_with_hw _ _)).
    unfold t57_table in Hrest. rewrite Et in Hrest. apply Hrest.
    intros t' d'. by apply (ts_frame t' d' (ts_lut (ks_hw s) t' d') RIO_SWP_INFO_CAR
      (or_intror eq_refl) (ks_hw s)).
  - apply spec_ret. specialize (Hrest s (u32 (env_indet (ks_hw s))) (sk_refl s)).
    unfold t57_table in Hrest. rewrite Et in Hrest. by apply Hrest.
Qed.

(** The reading of a non-negative table stays away from the lock register. *)
Lemma get_tail_pres I n d v :
  off_lock pa I -> 0 <= n ->
  keeps (pres pa I) (path_write pa (SPP_ROUTE_CFG_DESTID n) d ;;;
    let! (_, result) := path_read pa (SPP_ROUTE_CFG_PORT n) v ;;
    ret (if 15 <? u8 result then -1 else 0, u8 result)).
Proof.
  intros Hf Hn. solve_pres_with pa Hf
    ltac:(idtac; unfold SPP_ROUTE_CFG_DESTID, SPP_ROUTE_CFG_PORT, RIO_HOST_DID_LOCK_CSR; lia).
Qed.

#[export] Program Instance tsi57x_route_ops :
  RouteOps pa tsi57x_route_add_entry tsi57x_route_get_entry tsi57x_route_clr_table := {|
  rt_view := t57_view;
  rt_table := tsi_table;
  rt_dest := tsi_dest pa;
  rt_port := tsi_port;
  rt_limit := 15;
|}.
Next Obligation.
  cbn beta. intros s t d p Hs Ht Hd%tsi_dest_range Hp. unfold spec.
  change (tsi57x_route_add_entry (W := W)) with (tsi568_route_add_entry (W := W)).
  rewrite tsi568_add_unfold. eapply (spec_mono False False); [by apply tsi_set_ok|].
  intros rc s' (Hk & -> & Hl). split; [done|split; [done|]]. intros d' _.
  unfold t57_view. rewrite Hl by apply t57_table_ok, Ht. by rewrite t57_hit.
Qed.
Next Obligation.
  cbn beta. intros s t d old Hs Ht Hd%tsi_dest_range _.
  eapply spec_mono; [by apply tsi57x_get_ok|]. intros r s' (Hk & -> & Hl). auto.
Qed.
Next Obligation.
  cbn beta. intros s t Hs Ht. unfold tsi57x_route_clr_table.
  srun (run_get_mport _ _ _ Hs). fold_path pa.
  eapply spec_mono; [apply (tsi_clr_ok pa); [done|done|destruct (truthy _); lia]|].
  intros rc s' (Hk & -> & Hl). split; [done|split; [done|]]. unfold tsi_dest. intros d Hd.
  apply Hl; [apply t57_table_ok, Ht|apply t57_hit|destruct (truthy _); lia].
Qed.
Next Obligation.
  cbn beta. intros I t d p Ht _ Hf. unfold tsi57x_route_add_entry.
  solve_pres_with pa Hf ltac:(idtac; tsi_off).
Qed.
Next Obligation.
  cbn beta. intros I t d p Ht _ Hf. unfold tsi57x_route_get_entry. fold_path pa.
  apply keeps_bind; [typeclasses eauto|apply keeps_uninit, _|]. intros v.
  destruct (t =? RIO_GLOBAL_TABLE); [|apply get_tail_pres; [done|]].
  - apply keeps_assoc, keeps_bind; [typeclasses eauto|apply pres_read, Hf; by vm_compute|].
    intros [rc x]. apply get_tail_pres; [done|].
    apply (land_nonneg_le x RIO_SWP_INFO_PORT_NUM_MASK). by vm_compute.
  - unfold tsi_table in Ht. unfold RIO_GLOBAL_TABLE in Ht. lia.
Qed.
Next Obligation.
  cbn beta. intros I t Ht Hf. unfold tsi57x_route_clr_table.
  solve_pres_with pa Hf ltac:(idtac; tsi_off).
Qed.
Next Obligation.
  cbn beta. intros t d p _ _. split; [|apply ts_frame; by left].
  intros us w <-. apply ts_delay.
Qed.
End contract.

(** The driver's routing operations implement a routing table for the
    broadcast registers, read back at the ingress port, and for each port. *)
Theorem tsi57x_route_table {W} `{!KernelEnv W} (pa : path W) `{!TsiLut pa} (swp : Z)
    `{!ConstReg pa RIO_SWP_INFO_CAR swp} :
  RIO_GET_PORT_NUM swp < 16 ->
  table_spec pa tsi57x_route_add_entry tsi57x_route_get_entry tsi57x_route_clr_table
    tsi_table (tsi_dest pa) tsi_port 15.
Proof. intros H. by apply (route_ops_table_spec pa _ _ _ (RouteOps0 := tsi57x_route_ops pa swp H)). Qed.

Lemma tsi57x_route_table_witness :
  table_spec (tsi_path 1) tsi57x_route_add_entry tsi57x_route_get_entry tsi57x_route_clr_table
    tsi_table (tsi_dest (tsi_path 1)) tsi_port 15.
Proof. by apply (tsi57x_route_table (tsi_path 1) tsi_swp). Defined.

(** ** Error management terminates and is safe *)

Section em.
Context {W : Type} `{!KernelEnv W} (pa : path W).
Implicit Types s : kstate W.

Lemma quiet_em_init_port s rdev sw portnum :
  dev_at s rdev sw pa ->
  fine False False (same_kernel s) any (em_init_port rdev portnum).
Proof.
  intros Hda. destruct (quiet_dev_fields False False _ _ _ _ Hda) as (d & _ & _ & Hd & _ & _).
  unfold em_init_port. solve_fine.
Qed.

(** Initialising the error management of a switch visits its ports in
    ascending order, skips one after each x4 port, and ends for any hardware
    after at most as many rounds as the switch has ports, with only hardware
    changed. *)
Theorem tsi57x_em_init_total s rdev sw :
  dev_at s rdev sw pa ->
  total (tsi57x_em_init rdev) s (fun rc s' => rc = 0 /\ same_kernel s s').
Proof.
  intros Hda. destruct (quiet_dev_fields False False _ _ _ _ Hda) as (d & _ & _ & Hd & _ & _).
  pose proof (RIO_GET_TOTAL_PORTS_range (rd_swpinfo d)).
  enough (fine False False (same_kernel s) (eq 0) (tsi57x_em_init rdev)) as Hq.
  { eapply spec_mono; [by apply Hq|]. by intros rc s' [<- Hk]. }
  unfold tsi57x_em_init. eapply fine_bind.
  - apply (fine_loop _ _ _ any (fun p => 0 <= p)
      (fun p => Z.to_nat (RIO_GET_TOTAL_PORTS (rd_swpinfo d) - p))).
    + lia.
    + unfold PORT_FUEL. lia.
    + intros p Hp. unfold em_init_step. eapply fine_bind; [done|]. intros ? <-.
      destruct (Z.ltb_spec p (RIO_GET_TOTAL_PORTS (rd_swpinfo d))); [|by apply fine_ret].
      eapply fine_bind; [by eapply quiet_em_init_port|]. intros x4 _. apply fine_ret.
      destruct x4; lia.
  - intros _ _. solve_fine.
Qed.

(** The error handler accesses nothing out of bounds and ends for any
    hardware, whatever destination id the parity error register reports,
    provided the saved routing table has the entries of the system size; it
    returns 0 and changes only hardware. *)
Theorem tsi57x_em_handler_safe s rdev sw tbl portnum :
  dev_at s rdev sw pa -> rs_route_table sw = Some tbl ->
  Z.of_nat (length tbl) = RIO_MAX_ROUTE_ENTRIES (mp_sys_size (pa_mp pa)) ->
  total (tsi57x_em_handler rdev portnum) s (fun rc s' => rc = 0 /\ same_kernel s s').
Proof.
  intros Hda Htbl Hlen.
  destruct (quiet_dev_fields False False _ _ _ _ Hda) as (d & Hdsw & _ & Hd & Hh & Hsw).
  enough (fine False False (same_kernel s) (eq 0) (tsi57x_em_handler rdev portnum)) as Hq.
  { eapply spec_mono; [by apply Hq|]. by intros rc s' [<- Hk]. }
  pose proof (da_path _ _ _ _ Hda) as Hp. unfold on_path in Hp.
  unfold tsi57x_em_handler, em_recover_link, tsi57x_route_add_entry.
  eapply fine_bind; [done|]. intros ? <-. eapply fine_bind; [done|]. intros ? <-.
  solve_fine. eapply fine_any, quiet_array_get.
  rewrite Hlen. unfold RIO_MAX_ROUTE_ENTRIES. cbn [snd] in *.
  destruct (truthy (mp_sys_size (pa_mp pa))); rewrite Z.shiftr_div_pow2 by lia.
  - change (Z.shiftl 1 16) with (2 ^ 16). Z.to_euclidean_division_equations; lia.
  - change (Z.shiftl 1 8) with (2 ^ 8). Z.to_euclidean_division_equations; lia.
Qed.
End em.

Definition tsi_state : kstate swbench :=
  sw_state (sw_ops tsi_write tsi_read) None (sw_world 0xffff 1).
#[local] Existing Instance plain_tables.

Lemma tsi_dev_at : dev_at tsi_state 3 (sw_switch None 4) (tsi_path 0).
Proof. split; [|done]. by exists (sw_dev None 4), sw_net, 2%positive. Qed.

Lemma tsi57x_em_init_total_witness :
  total (tsi57x_em_init 3) tsi_state (fun rc s' => rc = 0 /\ same_kernel tsi_state s').
Proof. exact (tsi57x_em_init_total (tsi_path 0) tsi_state 3 _ tsi_dev_at). Defined.

Lemma tsi57x_em_handler_safe_witness :
  total (tsi57x_em_handler 3 1) tsi_state (fun rc s' => rc = 0 /\ same_kernel tsi_state s').
Proof.
  exact (tsi57x_em_handler_safe (tsi_path 0) tsi_state 3 _ (replicate 256 RIO_INVALID_ROUTE) 1
    tsi_dev_at eq_refl eq_refl).
Defined.
End Tsi57x.
