(* ===== verification/IdtGen3.v ===== *)
(** * IDT RXS Gen3 switches (switches/idt_gen3.c)

    Memory mapped routing tables with error codes, error management, probe,
    remove and shutdown. *)

From S2P Require Import Prelude Regs State Access Hw SwBench Route.

Module IdtGen3.

Definition RIO_PW_ROUTE : Z := 0x40208.
Definition RIO_EM_DEV_INT_EN : Z := 0x40030.
Definition RIO_PLM_SPx_IMP_SPEC_CTL (x : Z) : Z := 0x10100 + x * 0x100.
Definition RIO_PLM_SPx_IMP_SPEC_CTL_SOFT_RST : Z := 0x02000000.
Definition RIO_PLM_SPx_PW_EN (x : Z) : Z := 0x10118 + x * 0x100.
Definition RIO_PLM_SPx_PW_EN_OK2U : Z := 0x40000000.
Definition RIO_PLM_SPx_PW_EN_LINIT : Z := 0x10000000.
Definition RIO_BC_L2_Gn_ENTRYx_CSR (n x : Z) : Z := 0x31000 + n * 0x400 + x * 0x4.
Definition RIO_SPx_L2_Gn_ENTRYy_CSR (x n y : Z) : Z :=
  0x51000 + x * 0x2000 + n * 0x400 + y * 0x4.

Section ops.
Context {W : Type} `{!KernelEnv W}.

Definition idtg3_route_add_entry (mport : ptr)
    (destid hopcount table route_destid route_port : Z) : KM W Z :=
  rval <- uninit ;;
  if 0xFF <? route_destid then ret (- EINVAL)
  else
    let entry :=
      if route_port =? RIO_INVALID_ROUTE then RIO_RT_ENTRY_DROP_PKT else route_port in
    if table =? RIO_GLOBAL_TABLE then
      rio_mport_write_config_32 mport destid hopcount
        (RIO_BC_L2_Gn_ENTRYx_CSR 0 route_destid) entry
    else
      let! (err, rval) :=
        rio_mport_read_config_32 mport destid hopcount RIO_SWP_INFO_CAR rval ;;
      if truthy err then ret err
      else if RIO_GET_TOTAL_PORTS rval <=? table then ret (- EINVAL)
      else
        rio_mport_write_config_32 mport destid hopcount
          (RIO_SPx_L2_Gn_ENTRYy_CSR table 0 route_destid) entry.

Definition idtg3_route_get_entry (mport : ptr)
    (destid hopcount table route_destid route_port : Z) : KM W (Z * Z) :=
  rval <- uninit ;;
  if 0xFF <? route_destid then ret (- EINVAL, route_port)
  else
    let! (err, rval) :=
      rio_mport_read_config_32 mport destid hopcount RIO_SWP_INFO_CAR rval ;;
    if truthy err then ret (err, route_port)
    else if negb (table =? RIO_GLOBAL_TABLE) && (RIO_GET_TOTAL_PORTS rval <=? table)
    then ret (- EINVAL, route_port)
    else
      let table := if table =? RIO_GLOBAL_TABLE then RIO_GET_PORT_NUM rval else table in
      let! (err, rval) :=
        rio_mport_read_config_32 mport destid hopcount
          (RIO_SPx_L2_Gn_ENTRYy_CSR table 0 route_destid) rval ;;
      if truthy err then ret (err, route_port)
      else if rval =? RIO_RT_ENTRY_DROP_PKT then ret (0, RIO_INVALID_ROUTE)
      else ret (0, u8 rval).

(** [for (i = 0; i <= 0xff; i++)] with a break on the first error. *)
Definition clr_entries (mport : ptr) (destid hopcount : Z) (entry_off : Z -> Z) : KM W Z :=
  r <- for_exit (zrange 0 0x100) (fun i =>
         err <- rio_mport_write_config_32 mport destid hopcount (entry_off i)
                  RIO_RT_ENTRY_DROP_PKT ;;
         ret (if truthy err then Some err else None)) ;;
  ret (default 0 r).

Definition idtg3_route_clr_table (mport : ptr) (destid hopcount table : Z) : KM W Z :=
  rval <- uninit ;;
  if table =? RIO_GLOBAL_TABLE then
    clr_entries mport destid hopcount (RIO_BC_L2_Gn_ENTRYx_CSR 0)
  else
    let! (err, rval) :=
      rio_mport_read_config_32 mport destid hopcount RIO_SWP_INFO_CAR rval ;;
    if truthy err then ret err
    else if RIO_GET_TOTAL_PORTS rval <=? table then ret (- EINVAL)
    else clr_entries mport destid hopcount (RIO_SPx_L2_Gn_ENTRYy_CSR table 0).

Definition idtg3_em_init (rdev : ptr) : KM W Z :=
  d <- get_dev rdev ;;
  rio_write_config_32 rdev RIO_EM_DEV_INT_EN 0 ;;;
  rio_write_config_32 rdev (rd_em_efptr d + RIO_EM_PW_TX_CTRL) RIO_EM_PW_TX_CTRL_PW_DIS ;;;
  for_ (zrange 0 (RIO_GET_TOTAL_PORTS (rd_swpinfo d))) (fun i =>
    rval <- uninit ;;
    let! (_, rval) := rio_read_config_32 rdev (RIO_DEV_PORT_N_ERR_STS_CSR d i) rval ;;
    if truthy (Z.land rval RIO_PORT_N_ERR_STS_PORT_UA) then ret tt
    else
      rio_write_config_32 rdev (rd_em_efptr d + RIO_EM_PN_ERR_DETECT i) 0 ;;;
      rio_write_config_32 rdev (rd_em_efptr d + RIO_EM_PN_ERRRATE_EN i)
        (Z.lor RIO_EM_PN_ERRRATE_EN_OK2U RIO_EM_PN_ERRRATE_EN_U2OK) ;;;
      rio_write_config_32 rdev (RIO_PLM_SPx_PW_EN i)
        (Z.lor RIO_PLM_SPx_PW_EN_OK2U RIO_PLM_SPx_PW_EN_LINIT) ;;; ret tt) ;;;
  (let tmp := RIO_GET_PORT_NUM (rd_swpinfo d) in
   if tmp <? 32 then rio_write_config_32 rdev RIO_PW_ROUTE (Z.shiftl 1 tmp) else ub) ;;;
  rio_write_config_32 rdev (rd_em_efptr d + RIO_EM_PW_TX_CTRL) 0 ;;;
  rio_write_config_32 rdev (rd_phys_efptr d + RIO_PORT_LINKTO_CTL_CSR) (Z.shiftl 0x8e 8) ;;;
  ret 0.

Definition idtg3_em_handler (rdev : ptr) (pnum : Z) : KM W Z :=
  d <- get_dev rdev ;;
  err_status <- uninit ;;
  let! (_, err_status) :=
    rio_read_config_32 rdev (RIO_DEV_PORT_N_ERR_STS_CSR d pnum) err_status ;;
  if truthy (Z.land err_status RIO_PORT_N_ERR_STS_PORT_UNINIT) then ret 0
  else
    when (truthy (Z.land err_status
            (Z.lor RIO_PORT_N_ERR_STS_OUT_ES RIO_PORT_N_ERR_STS_INP_ES)))
      (rval <- uninit ;;
       let! (_, rval) := rio_read_config_32 rdev (RIO_PLM_SPx_IMP_SPEC_CTL pnum) rval ;;
       rio_write_config_32 rdev (RIO_PLM_SPx_IMP_SPEC_CTL pnum)
         (Z.lor rval RIO_PLM_SPx_IMP_SPEC_CTL_SOFT_RST) ;;;
       udelay 10 ;;;
       rio_write_config_32 rdev (RIO_PLM_SPx_IMP_SPEC_CTL pnum) rval ;;;
       msleep 500) ;;;
    ret 0.

Definition idtg3_switch_ops (owner : ptr) : rio_switch_ops W := {|
  so_owner := owner;
  so_add_entry := Some idtg3_route_add_entry;
  so_get_entry := Some idtg3_route_get_entry;
  so_clr_table := Some idtg3_route_clr_table;
  so_set_domain := None;
  so_get_domain := None;
  so_em_init := Some idtg3_em_init;
  so_em_handle := Some idtg3_em_handler;
|}.

Definition idtg3_probe (rdev : ptr) (id : rio_device_id) : KM W Z :=
  sw <- get_rswitch rdev ;;
  match rs_ops sw with
  | Some _ => ret (- EINVAL)
  | None =>
      upd_rswitch rdev (setf rs_ops (Some idtg3_ops_p)) ;;;
      d <- get_dev rdev ;;
      when (rd_do_enum d)
        (rio_write_config_32 rdev (0x5000 + RIO_BC_RT_CTL_CSR) 0 ;;; ret tt) ;;;
      ret 0
  end.

Definition idtg3_remove (rdev : ptr) : KM W unit :=
  sw <- get_rswitch rdev ;;
  if decide (rs_ops sw = Some idtg3_ops_p)
  then upd_rswitch rdev (setf rs_ops None)
  else ret tt.

Definition idtg3_shutdown (rdev : ptr) : KM W unit :=
  d <- get_dev rdev ;;
  if negb (rd_do_enum d) then ret tt
  else
    rval <- uninit ;;
    let! (_, rval) := rio_read_config_32 rdev RIO_PW_ROUTE rval ;;
    let i := RIO_GET_PORT_NUM (rd_swpinfo d) in
    bit <- (if i <? 32 then ret (Z.land (u32 (Z.shiftl 1 i)) rval) else ub) ;;
    if negb (truthy bit) then ret tt
    else
      let! (_, rval) := rio_read_config_32 rdev (rd_em_efptr d + RIO_EM_PW_TGT_DEVID) rval ;;
      let destid :=
        if truthy (Z.land rval RIO_EM_PW_TGT_DEVID_DEV16) then u16 (Z.shiftr rval 16)
        else u16 (Z.shiftr (Z.land rval RIO_EM_PW_TGT_DEVID_D8) 16) in
      hport <- dev_hport d ;;
      mp <- get_mport hport ;;
      when (mp_host_deviceid mp =? destid)
        (rio_write_config_32 rdev (rd_em_efptr d + RIO_EM_PW_TX_CTRL) 0 ;;; ret tt).

Definition idtg3_id_table : list rio_device_id := [
  RIO_DEVICE RIO_DID_IDTRXS1632 RIO_VID_IDT;
  RIO_DEVICE RIO_DID_IDTRXS2448 RIO_VID_IDT ].
End ops.

(** ** The routing contract *)

(** The memory mapped tables of a switch with [nports] ports: a broadcast write
    sets the entry of every port, a per-port write that of one port. *)
Class G3Lut {W : Type} `{KernelEnv W} (pa : path W) (nports : Z) := {
  g3_entry : W -> Z -> Z -> Z;
  g3_write_bc : forall w d v, 0 <= d < 0x100 -> 0 <= v < 2 ^ 32 ->
    let r := reg_write pa (RIO_BC_L2_Gn_ENTRYx_CSR 0 d) v w in
    r.1 = 0 /\ forall x d', 0 <= x < nports ->
      g3_entry r.2 x d' = if d' =? d then v else g3_entry w x d';
  g3_write_port : forall w x d v, 0 <= x < nports -> 0 <= d < 0x100 -> 0 <= v < 2 ^ 32 ->
    let r := reg_write pa (RIO_SPx_L2_Gn_ENTRYy_CSR x 0 d) v w in
    r.1 = 0 /\ forall x' d', 0 <= x' < nports ->
      g3_entry r.2 x' d' = if (x' =? x) && (d' =? d) then v else g3_entry w x' d';
  g3_read : forall w x d, 0 <= x < nports -> 0 <= d < 0x100 ->
    let r := reg_read pa (RIO_SPx_L2_Gn_ENTRYy_CSR x 0 d) w in
    r.1 = (0, g3_entry w x d) /\ 0 <= g3_entry w x d < 2 ^ 32 /\
    forall x' d', g3_entry r.2 x' d' = g3_entry w x' d';
  g3_frame : forall x d p off,
    off = RIO_HOST_DID_LOCK_CSR \/ off = RIO_SWP_INFO_CAR ->
    stable_at pa off (fun w => g3_entry w x d = p);
  g3_delay : forall us w x d, g3_entry (env_udelay us w) x d = g3_entry w x d;
}.

Section contract.
Context {W : Type} `{!KernelEnv W} (pa : path W) (swp : Z).
Let nports := RIO_GET_TOTAL_PORTS swp.
Context `{!G3Lut pa nports} `{!ConstReg pa RIO_SWP_INFO_CAR swp}.
Hypothesis ingress : RIO_GET_PORT_NUM swp < nports.
Implicit Types s : kstate W.

Definition g3_port (x : Z) : Z := if x =? RIO_RT_ENTRY_DROP_PKT then RIO_INVALID_ROUTE else u8 x.
Definition g3_table (t : Z) : bool := (t =? RIO_GLOBAL_TABLE) || ((0 <=? t) && (t <? nports)).
Definition g3_index (t : Z) : Z := if t =? RIO_GLOBAL_TABLE then RIO_GET_PORT_NUM swp else t.
Definition g3_view (w : W) (t d : Z) : Z := g3_port (g3_entry w (g3_index t) d).
Definition g3_dest (d : Z) : bool := (0 <=? d) && (d <=? 0xff).
Definition g3_valid (p : Z) : bool := (0 <=? p) && (p <? 2 ^ 8).

Lemma g3_index_ok t : g3_table t = true -> 0 <= g3_index t < nports.
Proof.
  unfold g3_table, g3_index. intros Ht. pose proof (RIO_GET_PORT_NUM_range swp).
  destruct (t =? _); [lia|]. simpl in Ht. lia.
Qed.

Lemma bc_off_ok d : RIO_32_BAD (RIO_BC_L2_Gn_ENTRYx_CSR 0 d) = false.
Proof.
  unfold RIO_BC_L2_Gn_ENTRYx_CSR. rewrite RIO_32_BAD_mod.
  apply negb_false_iff, Z.eqb_eq. Z.to_euclidean_division_equations; lia.
Qed.
Lemma sp_off_ok x d : RIO_32_BAD (RIO_SPx_L2_Gn_ENTRYy_CSR x 0 d) = false.
Proof.
  unfold RIO_SPx_L2_Gn_ENTRYy_CSR. rewrite RIO_32_BAD_mod.
  apply negb_false_iff, Z.eqb_eq. Z.to_euclidean_division_equations; lia.
Qed.

Lemma spec_swp (u f : Prop) s v (A : Type) (k : Z * Z -> KM W A) R :
  on_path s pa ->
  (forall s', same_kernel s s' ->
     (forall x d, g3_entry (ks_hw s') x d = g3_entry (ks_hw s) x d) -> spec u f (k (0, swp)) s' R) ->
  spec u f (r <- path_read pa RIO_SWP_INFO_CAR v ;; k r) s R.
Proof.
  intros Hs Hk. apply spec_bind, spec_read; [done|done|].
  rewrite (const_read (ks_hw s)). cbn [fst snd].
  rewrite u32_small by apply (const_val (val := swp)).
  apply Hk; [done|]. intros x d. rewrite hw_with_hw.
  by apply (g3_frame x d (g3_entry (ks_hw s) x d) RIO_SWP_INFO_CAR (or_intror eq_refl) (ks_hw s)).
Qed.

(** The entry a write of [v] for table [t] sets, by broadcast or on one port. *)
Lemma spec_g3_write (u f : Prop) s t d v Q :
  on_path s pa -> g3_table t = true -> g3_dest d = true -> 0 <= v < 2 ^ 32 ->
  (forall s', same_kernel s s' -> (forall d',
     g3_entry (ks_hw s') (g3_index t) d'
     = if d' =? d then v else g3_entry (ks_hw s) (g3_index t) d') -> Q 0 s') ->
  spec u f (path_write pa (if t =? RIO_GLOBAL_TABLE then RIO_BC_L2_Gn_ENTRYx_CSR 0 d
                           else RIO_SPx_L2_Gn_ENTRYy_CSR t 0 d) v) s Q.
Proof.
  intros Hs Ht Hd Hv HQ. pose proof (g3_index_ok t Ht) as Hi. unfold g3_index, g3_dest in *.
  assert (0 <= d < 0x100) as Hd' by lia.
  apply spec_write; [done|destruct (t =? _); [apply bc_off_ok|apply sp_off_ok]|].
  rewrite u32_small by done. destruct (t =? RIO_GLOBAL_TABLE) eqn:Et.
  - destruct (g3_write_bc (ks_hw s) d v Hd' Hv) as [-> Hl]. apply HQ; [done|].
    intros d'. by apply Hl.
  - destruct (g3_write_port (ks_hw s) t d v Hi Hd' Hv) as [-> Hl]. apply HQ; [done|].
    intros d'. rewrite hw_with_hw, Hl by done. by rewrite Z.eqb_refl.
Qed.

Lemma g3_table_bound t : g3_table t = true -> (t =? RIO_GLOBAL_TABLE) = false ->
  (nports <=? t) = false.
Proof. unfold g3_table. intros Ht Hg. rewrite Hg in Ht. lia. Qed.

Lemma g3_add_ok s t d p :
  on_path s pa -> g3_table t = true -> g3_dest d = true -> g3_valid p = true ->
  total (idtg3_route_add_entry (pa_port pa) (pa_destid pa) (pa_hop pa) t d p) s
    (fun rc s' => same_kernel s s' /\ rc = 0 /\ forall d',
       g3_view (ks_hw s') t d' = if d' =? d then p else g3_view (ks_hw s) t d').
Proof.
  intros Hs Ht Hd Hp. unfold idtg3_route_add_entry. fold_path pa.
  apply spec_bind, spec_gets. destruct (Z.ltb_spec 0xff d); [unfold g3_dest in Hd; lia|].
  set (e := if p =? RIO_INVALID_ROUTE then RIO_RT_ENTRY_DROP_PKT else p).
  assert (0 <= e < 2 ^ 32 /\ g3_port e = p) as [He Hep].
  { unfold e, g3_port, g3_valid, u8 in *. destruct (Z.eqb_spec p RIO_INVALID_ROUTE) as [->|];
      [split; [by vm_compute|done]|]. split; [lia|]. unfold RIO_RT_ENTRY_DROP_PKT.
    destruct (Z.eqb_spec p 0x300); [lia|]. rewrite Z.mod_small; lia. }
  assert (forall s1, same_kernel s s1 ->
    (forall x d, g3_entry (ks_hw s1) x d = g3_entry (ks_hw s) x d) ->
    total (path_write pa (if t =? RIO_GLOBAL_TABLE then RIO_BC_L2_Gn_ENTRYx_CSR 0 d
                           else RIO_SPx_L2_Gn_ENTRYy_CSR t 0 d) e) s1
    (fun rc s' => same_kernel s s' /\ rc = 0 /\ forall d',
       g3_view (ks_hw s') t d' = if d' =? d then p else g3_view (ks_hw s) t d')) as Hw.
  { intros s1 Hk1 Hl1. apply spec_g3_write; [by eapply on_path_sk|done..|].
    intros s2 Hk2 Hl2. split; [by transitivity s1|split; [done|]].
    intros d'. unfold g3_view. rewrite Hl2, Hl1. by destruct (d' =? d). }
  destruct (t =? RIO_GLOBAL_TABLE) eqn:Et; [by apply Hw|].
  apply spec_swp; [done|]. intros s1 Hk1 Hl1. cbn [truthy Z.eqb negb]. fold nports.
  rewrite (g3_table_bound t Ht Et). by apply Hw.
Qed.

Lemma g3_get_ok s t d old :
  on_path s pa -> g3_table t = true -> g3_dest d = true ->
  total (idtg3_route_get_entry (pa_port pa) (pa_destid pa) (pa_hop pa) t d old) s
    (fun r s' => same_kernel s s' /\ r = (0, g3_view (ks_hw s) t d) /\
       forall d', g3_view (ks_hw s') t d' = g3_view (ks_hw s) t d').
Proof.
  intros Hs Ht Hd. unfold idtg3_route_get_entry. fold_path pa.
  apply spec_bind, spec_gets. destruct (Z.ltb_spec 0xff d); [unfold g3_dest in Hd; lia|].
  apply spec_swp; [done|]. intros s1 Hk1 Hl1. cbn [truthy Z.eqb negb]. fold nports.
  fold (g3_index t). pose proof (g3_index_ok t Ht) as Hi. unfold g3_dest in Hd.
  destruct (negb (t =? RIO_GLOBAL_TABLE) && (nports <=? t)) eqn:Eb.
  { apply andb_true_iff in Eb as [Eb1%negb_true_iff Eb2].
    by rewrite (g3_table_bound t Ht Eb1) in Eb2. }
  apply spec_bind, spec_read; [by eapply on_path_sk|apply sp_off_ok|].
  destruct (g3_read (ks_hw s1) (g3_index t) d Hi ltac:(lia)) as (-> & Hr & Hl2).
  cbn [fst snd truthy Z.eqb negb]. rewrite u32_small by done. unfold g3_view, g3_port.
  rewrite Hl1. set (s2 := with_hw _ s1).
  assert (same_kernel s s2 /\ forall x d, g3_entry (ks_hw s2) x d = g3_entry (ks_hw s) x d)
    as [Hk2 Hl].
  { split; [eapply sk_trans; [done|apply sk_with_hw]|]. intros x d'. unfold s2.
    by rewrite hw_with_hw, Hl2. }
  destruct (_ =? RIO_RT_ENTRY_DROP_PKT); apply spec_ret;
    (split; [done|split; [done|]]; intros d'; by rewrite Hl).
Qed.

Lemma g3_clr_loop s t :
  on_path s pa -> g3_table t = true ->
  total (clr_entries (pa_port pa) (pa_destid pa) (pa_hop pa)
    (if t =? RIO_GLOBAL_TABLE then RIO_BC_L2_Gn_ENTRYx_CSR 0
     else RIO_SPx_L2_Gn_ENTRYy_CSR t 0)) s
    (fun rc s' => same_kernel s s' /\ rc = 0 /\ forall d, g3_dest d = true ->
       g3_view (ks_hw s') t d = RIO_INVALID_ROUTE).
Proof.
  intros Hs Ht. unfold clr_entries. fold_path pa. apply spec_bind.
  apply (spec_for_exit _ _ (fun l s2 => exists i, 0 <= i <= 0x100 /\ l = zrange i 0x100 /\
    same_kernel s s2 /\ forall d, 0 <= d < i ->
      g3_entry (ks_hw s2) (g3_index t) d = RIO_RT_ENTRY_DROP_PKT)).
  - exists 0. split; [lia|split; [done|split; [done|lia]]].
  - intros j l s2 (i & Hi & Hl & Hk & Hlut).
    assert (i < 0x100) as Hlt.
    { destruct (Z.ltb_spec i 0x100); [done|]. by rewrite zrange_nil in Hl by lia. }
    rewrite zrange_cons in Hl by done. injection Hl as -> ->. apply spec_bind.
    replace ((if t =? RIO_GLOBAL_TABLE then _ else _) i) with
      (if t =? RIO_GLOBAL_TABLE then RIO_BC_L2_Gn_ENTRYx_CSR 0 i
       else RIO_SPx_L2_Gn_ENTRYy_CSR t 0 i) by (by destruct (t =? _)).
    apply spec_g3_write; [by eapply on_path_sk|done|unfold g3_dest; lia|by vm_compute|].
    intros s3 Hk3 Hl3. apply spec_ret. cbn [truthy Z.eqb negb].
    exists (i + 1). split; [lia|split; [done|split; [by transitivity s2|]]].
    intros d Hd. rewrite Hl3. destruct (Z.eqb_spec d i); [done|]. apply Hlut. lia.
  - intros s2 (i & Hi & Hl & Hk & Hlut). apply spec_ret. split; [done|split; [done|]].
    unfold g3_dest, g3_view. intros d Hd. rewrite Hlut; [done|].
    destruct (Z.ltb_spec i 0x100); [by rewrite zrange_cons in Hl|lia].
Qed.

Lemma g3_clr_ok s t :
  on_path s pa -> g3_table t = true ->
  total (idtg3_route_clr_table (pa_port pa) (pa_destid pa) (pa_hop pa) t) s
    (fun rc s' => same_kernel s s' /\ rc = 0 /\ forall d, g3_dest d = true ->
       g3_view (ks_hw s') t d = RIO_INVALID_ROUTE).
Proof.
  intros Hs Ht. unfold idtg3_route_clr_table. fold_path pa. apply spec_bind, spec_gets.
  destruct (t =? RIO_GLOBAL_TABLE) eqn:Et.
  - pose proof (g3_clr_loop s t Hs Ht) as Hl. by rewrite Et in Hl.
  - apply spec_swp; [done|]. intros s1 Hk1 Hl1. cbn [truthy Z.eqb negb]. fold nports.
    rewrite (g3_table_bound t Ht Et).
    pose proof (g3_clr_loop s1 t (on_path_sk _ _ _ Hk1 Hs) Ht) as Hl. rewrite Et in Hl.
    eapply spec_mono; [exact Hl|]. intros rc s' (Hk & -> & Hv).
    split; [by transitivity s1|auto].
Qed.

(** The entries' offsets are not the lock register's. *)
Ltac g3_off :=
  unfold g3_dest, g3_table, RIO_GLOBAL_TABLE, RIO_BC_L2_Gn_ENTRYx_CSR,
    RIO_SPx_L2_Gn_ENTRYy_CSR, RIO_HOST_DID_LOCK_CSR in *;
  repeat match goal with
    | |- context [RIO_GET_PORT_NUM ?x] => pose proof (RIO_GET_PORT_NUM_range x);
        generalize dependent (RIO_GET_PORT_NUM x); intros
    | |- context [if ?b then _ else _] => destruct b eqn:?
    end; lia.

Lemma clr_entries_pres I f :
  off_lock pa I -> (forall i, 0 <= i < 0x100 -> f i <> RIO_HOST_DID_LOCK_CSR) ->
  keeps (pres pa I) (clr_entries (pa_port pa) (pa_destid pa) (pa_hop pa) f).
Proof.
  intros [_ Hoff] Hf. unfold clr_entries. fold_path pa.
  apply keeps_bind; [typeclasses eauto| |intros; apply keeps_ret; typeclasses eauto].
  apply keeps_for_exit; [typeclasses eauto|]. intros i Hi%elem_of_zrange.
  apply keeps_bind; [typeclasses eauto|by apply pres_write, Hoff, Hf|].
  intros. apply keeps_ret; typeclasses eauto.
Qed.

#[export] Program Instance idtg3_route_ops :
  RouteOps pa idtg3_route_add_entry idtg3_route_get_entry idtg3_route_clr_table := {|
  rt_view := g3_view;
  rt_table := g3_table;
  rt_dest := g3_dest;
  rt_port := g3_valid;
  rt_limit := 2 ^ 8;
|}.
Next Obligation.
  cbn beta. intros s t d p Hs Ht Hd Hp. eapply spec_mono; [by apply g3_add_ok|].
  intros rc s' (Hk & -> & Hv). auto.
Qed.
Next Obligation.
  cbn beta. intros s t d old Hs Ht Hd Hp. eapply spec_mono; [by apply g3_get_ok|].
  intros r s' (Hk & -> & Hl). unfold g3_valid in Hp. unfold get_status. cbn [fst snd].
  destruct (Z.ltb_spec (2 ^ 8) (g3_view (ks_hw s) t d)); [lia|auto].
Qed.
Next Obligation. cbn beta. intros s t Hs Ht. by apply g3_clr_ok. Qed.
Next Obligation.
  cbn beta. intros I t d p Ht Hd Hf. unfold idtg3_route_add_entry.
  solve_pres_with pa Hf ltac:(idtac; g3_off).
Qed.
Next Obligation.
  cbn beta. intros I t d p Ht Hd Hf. unfold idtg3_route_get_entry. cbv zeta.
  assert (forall x, 0 <= RIO_GET_PORT_NUM x) by apply RIO_GET_PORT_NUM_range.
  solve_pres_with pa Hf ltac:(idtac; g3_off).
Qed.
Next Obligation.
  cbn beta. intros I t Ht Hf. unfold idtg3_route_clr_table.
  assert (forall f, (forall i, 0 <= i < 0x100 -> f i <> RIO_HOST_DID_LOCK_CSR) ->
    keeps (pres pa I) (clr_entries (pa_port pa) (pa_destid pa) (pa_hop pa) f)) as Hclr
    by (intros; by apply clr_entries_pres).
  solve_pres_with pa Hf ltac:(fail); apply Hclr; intros i Hi; g3_off.
Qed.
Next Obligation.
  cbn beta. intros t d p _ _. unfold g3_view. split.
  - intros us w <-. by rewrite g3_delay.
  - intros w <-. destruct (g3_frame (g3_index t) d _ RIO_HOST_DID_LOCK_CSR
      (or_introl eq_refl) w eq_refl) as [H1 H2].
    split; [intros v|]; by rewrite ?H1, ?H2.
Qed.
End contract.

(** C37: the driver's routing operations implement a routing table for 8-bit
    destination ids, by broadcast and for each port of the switch. *)
Theorem idtg3_route_table {W} `{!KernelEnv W} (pa : path W) (swp : Z)
    `{!G3Lut pa (RIO_GET_TOTAL_PORTS swp)} `{!ConstReg pa RIO_SWP_INFO_CAR swp} :
  RIO_GET_PORT_NUM swp < RIO_GET_TOTAL_PORTS swp ->
  table_spec pa idtg3_route_add_entry idtg3_route_get_entry idtg3_route_clr_table
    (g3_table swp) g3_dest g3_valid (2 ^ 8).
Proof. intros H. by apply (route_ops_table_spec pa _ _ _ (RouteOps0 := idtg3_route_ops pa swp H)). Qed.

(** out-of-range requests: a destination id above 255, or a port table
    beyond the ports of the switch, is refused with -EINVAL, whatever the
    hardware answers, and no register is written. *)
Theorem idtg3_route_add_invalid {W} `{!KernelEnv W} (pa : path W) (swp : Z)
    `{!ConstReg pa RIO_SWP_INFO_CAR swp} s t d p :
  on_path s pa ->
  0xff < d \/ (t <> RIO_GLOBAL_TABLE /\ RIO_GET_TOTAL_PORTS swp <= t) ->
  idtg3_route_add_entry (pa_port pa) (pa_destid pa) (pa_hop pa) t d p s
  = Done (- EINVAL)
      (if 0xff <? d then s
       else with_hw (reg_read pa RIO_SWP_INFO_CAR (ks_hw s)).2 s).
Proof.
  intros Hs Hbad. unfold idtg3_route_add_entry. fold_path pa. run (run_uninit s).
  destruct (Z.ltb_spec 0xff d); [done|]. destruct Hbad as [?|[Ht Hb]]; [lia|].
  destruct (Z.eqb_spec t RIO_GLOBAL_TABLE); [done|].
  run (run_read s pa RIO_SWP_INFO_CAR (u32 (env_indet (ks_hw s))) Hs eq_refl).
  rewrite (const_read (ks_hw s)). cbn [fst snd truthy Z.eqb negb].
  rewrite u32_small by apply (const_val (val := swp)).
  by destruct (Z.leb_spec (RIO_GET_TOTAL_PORTS swp) t); [|lia].
Qed.

(** ** Shutdown *)

(** The register that controls the transmission of port-writes. *)
Class PwTxReg {W : Type} `{KernelEnv W} (pa : path W) (off : Z) := {
  pw_tx : W -> Z;
  pw_tx_write : forall w v, pw_tx (reg_write pa off v w).2 = v;
  pw_tx_other : forall off' v w, off' <> off -> pw_tx (reg_write pa off' v w).2 = pw_tx w;
  pw_tx_read : forall off' w, pw_tx (reg_read pa off' w).2 = pw_tx w;
}.

(** the shutdown of a Gen3 switch, which is meant to disable its port-write
    messages, never sets the disable bit: it either leaves the control register
    alone or writes 0, the value with which [idtg3_em_init] enables them. *)
Theorem idtg3_shutdown_never_disables {W} `{!KernelEnv W} `{!SwitchTables W}
    (pa : path W) s rdev sw d `{!PwTxReg pa (u32 (rd_em_efptr d + RIO_EM_PW_TX_CTRL))} :
  dev_at s rdev sw pa -> ks_devs s !! rdev = Some d ->
  partial (idtg3_shutdown rdev) s (fun _ s' => same_kernel s s' /\
    (pw_tx (ks_hw s') = pw_tx (ks_hw s) \/
     Z.land (pw_tx (ks_hw s')) RIO_EM_PW_TX_CTRL_PW_DIS = 0)).
Proof.
  intros Hda Hdv.
  set (P := fun s' => same_kernel s s' /\ (pw_tx (ks_hw s') = pw_tx (ks_hw s) \/
     Z.land (pw_tx (ks_hw s')) RIO_EM_PW_TX_CTRL_PW_DIS = 0)).
  enough (fine True True P any (idtg3_shutdown rdev)) as Hq.
  { eapply spec_mono; [apply Hq; split; [reflexivity|by left]|]. by intros ? s' [_ H]. }
  destruct (da_dev _ _ _ _ Hda) as (d' & net & n & H1 & _ & H3 & H4 & H5 & H6 & H7).
  assert (d' = d) as -> by congruence.
  assert (fine True True P (eq d) (get_dev rdev)) as Hd.
  { intros s1 [Hk1 Hp]. rewrite <- (sk_devs _ _ Hk1) in Hdv.
    eapply spec_Done; [by apply run_get_dev|by split]. }
  assert (forall off v, fine True True P any (rio_read_config_32 rdev off v)) as Hrd.
  { intros off v s1 [Hk1 Hp]. unfold spec.
    rewrite (dev_read_path s1 rdev sw pa) by by eapply dev_at_sk.
    destruct (RIO_32_BAD (u32 off)) eqn:Eb.
    - unfold path_read, rio_mport_read_config_32, RIO_OP_READ. rewrite Eb. by split.
    - rewrite run_read by (done || (eapply on_path_sk; [done|apply Hda])).
      split; [done|]. split; [by eapply sk_trans; [|apply sk_with_hw]|].
      by rewrite hw_with_hw, pw_tx_read. }
  assert (fine True True P (eq (pa_port pa)) (dev_hport d)) as Hh.
  { intros s1 [Hk1 Hp]. rewrite <- (sk_nets _ _ Hk1) in H4.
    eapply spec_Done; [by apply (run_dev_hport _ d n net)|by split]. }
  assert (fine True True P any
    (rio_write_config_32 rdev (rd_em_efptr d + RIO_EM_PW_TX_CTRL) 0)) as Hwr.
  { intros s1 [Hk1 Hp]. unfold spec.
    rewrite (dev_write_path s1 rdev sw pa) by by eapply dev_at_sk.
    destruct (RIO_32_BAD (u32 (rd_em_efptr d + RIO_EM_PW_TX_CTRL))) eqn:Eb.
    - unfold path_write, rio_mport_write_config_32, RIO_OP_WRITE. rewrite Eb. by split.
    - rewrite run_write by (done || (eapply on_path_sk; [done|apply Hda])).
      split; [done|]. split; [by eapply sk_trans; [|apply sk_with_hw]|].
      right. by rewrite hw_with_hw, pw_tx_write. }
  assert (fine True True P any uninit) as Hun by (intros s1 Hs1; by split).
  assert (fine True True P any (get_mport (pa_port pa))) as Hm.
  { intros s1 Hs1. unfold get_mport, bind, gets, deref, spec.
    destruct (ks_mports s1 !! pa_port pa); [by split|done]. }
  unfold idtg3_shutdown. eapply fine_bind; [exact Hd|]. intros ? <-.
  destruct (negb (rd_do_enum d)); [by apply fine_ret|].
  eapply fine_bind; [exact Hun|]. intros rval _.
  eapply fine_bind; [apply Hrd|]. intros [? rval1] _. cbv zeta.
  eapply (fine_bind _ _ _ any).
  { destruct (_ <? 32); [by apply fine_ret|]. intros s1 _. done. }
  intros bit _. destruct (negb (truthy bit)); [by apply fine_ret|].
  eapply fine_bind; [apply Hrd|]. intros [? rval2] _.
  eapply fine_bind; [exact Hh|]. intros ? <-.
  eapply fine_bind; [exact Hm|]. intros mp _.
  apply fine_when; [done|]. intros _. eapply fine_bind; [apply Hwr|].
  intros. by apply fine_ret.
Qed.

(** ** A concrete Gen3 switch: 4 ports, requests come in by port 1 *)

Definition g3_swp : Z := 0x0401.

(** The port and destination id of a table offset; port 0xff for broadcast. *)
Definition g3_decode (off : Z) : option (Z * Z) :=
  if (0x31000 <=? off) && (off <? 0x31400) then Some (0xff, (off - 0x31000) / 4)
  else if (0x51000 <=? off) && (off <? 0x59000) && ((off - 0x51000) mod 0x2000 <? 0x400)
  then Some ((off - 0x51000) / 0x2000, ((off - 0x51000) mod 0x2000) / 4)
  else None.

Definition g3_write (off v : Z) (w : swbench) : Z * swbench :=
  (0, match g3_decode off with
      | Some (x, d) =>
          setf sw_lut (fun x' d' => if ((x =? 0xff) || (x' =? x)) && (d' =? d)
                                    then v mod 2 ^ 32 else sw_lut w x' d') w
      | None =>
          if off =? RIO_HOST_DID_LOCK_CSR
          then setf sw_lock (lock_update (Z.land (sw_lock w) 0xffff) v) w
          else setf sw_reg (<[off := v]> (sw_reg w)) w
      end).
Definition g3_rd (off : Z) (w : swbench) : (Z * Z) * swbench :=
  ((0, match g3_decode off with
       | Some (x, d) => sw_lut w x d mod 2 ^ 32
       | None =>
           if off =? RIO_HOST_DID_LOCK_CSR then Z.land (sw_lock w) 0xffff
           else if off =? RIO_SWP_INFO_CAR then g3_swp
           else default 0 (sw_reg w !! off)
       end), w).

Definition g3_path : path swbench := sw_path (sw_ops g3_write g3_rd) 1 0.

Lemma g3_decode_bc d : 0 <= d < 0x100 -> g3_decode (RIO_BC_L2_Gn_ENTRYx_CSR 0 d) = Some (0xff, d).
Proof.
  intros Hd. unfold g3_decode, RIO_BC_L2_Gn_ENTRYx_CSR.
  replace ((_ <=? _) && _) with true by lia. do 2 f_equal.
  Z.to_euclidean_division_equations; lia.
Qed.
Lemma g3_decode_sp x d : 0 <= x < 4 -> 0 <= d < 0x100 ->
  g3_decode (RIO_SPx_L2_Gn_ENTRYy_CSR x 0 d) = Some (x, d).
Proof.
  intros Hx Hd. unfold g3_decode, RIO_SPx_L2_Gn_ENTRYy_CSR.
  replace (_ && (_ <? 0x31400)) with false by lia.
  replace (0x51000 + x * 0x2000 + 0 * 0x400 + d * 4 - 0x51000) with (x * 0x2000 + 4 * d) by lia.
  replace ((x * 0x2000 + 4 * d) mod 0x2000) with (4 * d)
    by (Z.to_euclidean_division_equations; lia).
  replace (_ && _) with true by lia. do 2 f_equal; Z.to_euclidean_division_equations; lia.
Qed.

#[export] Program Instance g3_path_lut : G3Lut g3_path (RIO_GET_TOTAL_PORTS g3_swp) := {|
  g3_entry w x d := sw_lut w x d mod 2 ^ 32;
|}.
Next Obligation.
  intros w d v Hd Hv. unfold reg_write. cbn. unfold g3_write. rewrite g3_decode_bc by done.
  cbn. split; [done|]. intros x d' _. destruct (d' =? d); [by rewrite Z.mod_mod, Z.mod_small by lia|done].
Qed.
Next Obligation.
  intros w x d v Hx Hd Hv. unfold reg_write. cbn. unfold g3_write.
  rewrite g3_decode_sp by done. cbn. split; [done|]. intros x' d' _.
  destruct (Z.eqb_spec x 0xff) as [->|_]; [by destruct Hx|].
  simpl. destruct ((x' =? x) && (d' =? d)); [by rewrite Z.mod_mod, Z.mod_small by lia|done].
Qed.
Next Obligation.
  intros w x d Hx Hd. unfold reg_read. cbn. unfold g3_rd. rewrite g3_decode_sp by done.
  split; [done|split; [apply Z.mod_pos_bound; lia|done]].
Qed.
Next Obligation. intros x d p off Ho w Hw. by destruct Ho; subst off. Qed.
Next Obligation. done. Qed.

#[export] Instance g3_path_swp : ConstReg g3_path RIO_SWP_INFO_CAR g3_swp.
Proof. by split. Qed.

Lemma idtg3_route_table_witness :
  table_spec g3_path idtg3_route_add_entry idtg3_route_get_entry idtg3_route_clr_table
    (g3_table g3_swp) g3_dest g3_valid (2 ^ 8).
Proof. by apply (idtg3_route_table g3_path g3_swp). Defined.

Definition g3_state : kstate swbench :=
  sw_state (sw_ops g3_write g3_rd) None (sw_world 0xffff 1).
#[local] Existing Instance plain_tables.

Lemma idtg3_route_add_invalid_witness :
  idtg3_route_add_entry 1 0 0 4 8 2 g3_state = Done (- EINVAL) g3_state.
Proof.
  apply (idtg3_route_add_invalid g3_path g3_swp g3_state 4 8 2); [done|].
  right. by vm_compute.
Defined.

Lemma g3_dev_at : dev_at g3_state 3 (sw_switch None 4) g3_path.
Proof. split; [|done]. by exists (sw_dev None 4), sw_net, 2%positive. Qed.

Program Definition g3_pw_tx : PwTxReg g3_path (u32 (0x1000 + RIO_EM_PW_TX_CTRL)) := {|
  pw_tx w := default 0 (sw_reg w !! 0x1034);
|}.
Next Obligation.
  intros w v. change (default 0 (<[0x1034 := v]> (sw_reg w) !! 0x1034) = v).
  by rewrite lookup_insert_eq.
Qed.
Next Obligation.
  intros off v w Hne. unfold reg_write. cbn. unfold g3_write.
  destruct (g3_decode off) as [[x d]|]; [done|]. destruct (off =? _); [done|].
  cbn. by rewrite lookup_insert_ne.
Qed.
Next Obligation. done. Qed.

Lemma idtg3_shutdown_never_disables_witness :
  partial (idtg3_shutdown 3) g3_state (fun _ s' => same_kernel g3_state s' /\
    (default 0 (sw_reg (ks_hw s') !! 0x1034) = 0 \/
     Z.land (default 0 (sw_reg (ks_hw s') !! 0x1034)) RIO_EM_PW_TX_CTRL_PW_DIS = 0)).
Proof.
  exact (idtg3_shutdown_never_disables g3_path g3_state 3 _ (sw_dev None 4)
    (PwTxReg0 := g3_pw_tx) g3_dev_at eq_refl).
Defined.
End IdtGen3.
