(* ===== verification/SwTables.v ===== *)
(** * The switch drivers together

    The operations tables of switches/ behind their addresses, and the life
    cycle the five drivers share: a driver takes a switch that has no
    operations, and gives back only what it took. *)

From S2P Require Import Prelude Regs State Access Hw SwBench Route IdtCps IdtGen2 Tsi568 Tsi57x IdtGen3.

Section tables.
Context {W : Type} `{!KernelEnv W} `{!Externals W}.

(** The tables, for the addresses of the drivers' modules. *)
Definition switch_tables (owner : switch_ops_ptr -> ptr) : SwitchTables W := fun p =>
  match p with
  | idtcps_ops_p => IdtCps.idtcps_switch_ops (owner p)
  | tsi568_ops_p => Tsi568.tsi568_switch_ops (owner p)
  | tsi57x_ops_p => Tsi57x.tsi57x_switch_ops (owner p)
  | idtg2_ops_p => IdtGen2.idtg2_switch_ops (owner p)
  | idtg3_ops_p => IdtGen3.idtg3_switch_ops (owner p)
  end.

Definition switch_probe (p : switch_ops_ptr) : ptr -> rio_device_id -> KM W Z :=
  match p with
  | idtcps_ops_p => IdtCps.idtcps_probe
  | tsi568_ops_p => Tsi568.tsi568_probe
  | tsi57x_ops_p => Tsi57x.tsi57x_probe
  | idtg2_ops_p => IdtGen2.idtg2_probe
  | idtg3_ops_p => IdtGen3.idtg3_probe
  end.

Definition switch_remove (p : switch_ops_ptr) : ptr -> KM W unit :=
  match p with
  | idtcps_ops_p => IdtCps.idtcps_remove
  | tsi568_ops_p => Tsi568.tsi568_remove
  | tsi57x_ops_p => Tsi57x.tsi57x_remove
  | idtg2_ops_p => IdtGen2.idtg2_remove
  | idtg3_ops_p => IdtGen3.idtg3_remove
  end.

(** The sysfs calls of the Gen2 driver return and touch nothing modelled here
    but the hardware. *)
Class SysfsQuiet := {
  create_file_quiet : forall u f s p, fine u f (same_kernel s) any (ext_device_create_file p);
  remove_file_quiet : forall u f s p, fine u f (same_kernel s) any (ext_device_remove_file p);
}.

(** The state with the operations of the switch [rdev] replaced. *)
Definition with_ops (rdev : ptr) (d : rio_dev) (sw : rio_switch) (o : option switch_ops_ptr)
    (s : kstate W) : kstate W :=
  setf ks_devs (<[rdev := setf rd_rswitch (Some (setf rs_ops o sw)) d]> (ks_devs s)) s.

Context `{!SwitchTables W} `{!SysfsQuiet} (pa : path W).
Implicit Types s : kstate W.

Lemma run_set_ops s rdev d sw o :
  ks_devs s !! rdev = Some d -> rd_rswitch d = Some sw ->
  upd_rswitch rdev (setf rs_ops o) s = Done tt (with_ops rdev d sw o s).
Proof.
  intros H1 H2. unfold upd_rswitch. run (run_get_rswitch _ _ _ _ H1 H2).
  by rewrite (run_upd_dev _ _ _ _ H1).
Qed.

Lemma with_ops_dev_at s rdev d sw o :
  dev_at s rdev sw pa -> ks_devs s !! rdev = Some d ->
  dev_at (with_ops rdev d sw o s) rdev (setf rs_ops o sw) pa.
Proof.
  intros [(d' & net & n & H1 & H2 & H3) Hp] Hd. split; [|done].
  assert (d' = d) as -> by congruence.
  exists (setf rd_rswitch (Some (setf rs_ops o sw)) d), net, n.
  cbn [with_ops setf updf]. split; [apply lookup_insert_eq|]. split; [done|exact H3].
Qed.

(** After taking the switch the drivers only write registers. *)
Lemma probe_rest s rdev d sw p (rest : KM W Z) :
  dev_at s rdev sw pa -> ks_devs s !! rdev = Some d -> rs_ops sw = None ->
  (forall s1 sw1, dev_at s1 rdev sw1 pa -> fine False False (same_kernel s1) (eq 0) rest) ->
  total (sw <- get_rswitch rdev ;;
         match rs_ops sw with
         | Some _ => ret (- EINVAL)
         | None => upd_rswitch rdev (setf rs_ops (Some p)) ;;; rest
         end) s
    (fun rc s' => rc = 0 /\ same_kernel (with_ops rdev d sw (Some p) s) s').
Proof.
  intros Hda Hd Ho Hf. destruct (da_dev _ _ _ _ Hda) as (d' & net & n & H1 & H2 & _).
  assert (d' = d) as -> by congruence.
  srun (run_get_rswitch _ _ _ _ H1 H2). rewrite Ho.
  srun (run_set_ops s rdev d sw (Some p) H1 H2).
  pose proof (with_ops_dev_at s rdev d sw (Some p) Hda Hd) as Hda1.
  eapply spec_mono; [by eapply Hf|]. by intros rc s' [<- Hk].
Qed.

Lemma quiet_sysfs s rdev b : fine False False (same_kernel s) any (IdtGen2.idtg2_sysfs rdev b).
Proof.
  unfold IdtGen2.idtg2_sysfs. destruct b; [apply create_file_quiet|].
  eapply fine_bind; [apply remove_file_quiet|]. intros. by apply fine_ret.
Qed.

(** A driver takes a switch exactly when it has no operations: probing then
    returns 0 and installs the driver's table, and otherwise returns -EINVAL and
    changes nothing. *)
Theorem switch_probe_exclusive s rdev d sw p id :
  dev_at s rdev sw pa -> ks_devs s !! rdev = Some d ->
  match rs_ops sw with
  | None => total (switch_probe p rdev id) s
      (fun rc s' => rc = 0 /\ same_kernel (with_ops rdev d sw (Some p) s) s')
  | Some _ => switch_probe p rdev id s = Done (- EINVAL) s
  end.
Proof.
  intros Hda Hd. pose proof (run_dev_rswitch _ _ _ _ Hda) as Hsw.
  destruct (rs_ops sw) as [q|] eqn:Ho.
  - destruct p; cbn [switch_probe]; (etransitivity; [by apply bind_Done|]); by rewrite Ho.
  - destruct p; apply probe_rest; try done; intros s1 sw1 Hda1;
      destruct (quiet_dev_fields False False _ _ _ _ Hda1) as (d1 & _ & _ & Hg & _ & _);
      pose proof (quiet_sysfs s1 rdev true); solve_fine.
Qed.

(** removal by the driver whose operations are installed takes them away and
    leaves the switch free for the next probe; removal by any other driver
    changes nothing. *)
Theorem switch_remove_owner s rdev d sw p :
  dev_at s rdev sw pa -> ks_devs s !! rdev = Some d ->
  (rs_ops sw = Some p -> total (switch_remove p rdev) s
      (fun _ s' => same_kernel (with_ops rdev d sw None s) s')) /\
  (rs_ops sw <> Some p -> switch_remove p rdev s = Done tt s).
Proof.
  intros Hda Hd. pose proof (run_dev_rswitch _ _ _ _ Hda) as Hsw.
  destruct (da_dev _ _ _ _ Hda) as (d' & net & n & H1 & H2 & _).
  assert (d' = d) as -> by congruence.
  pose proof (run_set_ops s rdev d sw None H1 H2) as Hset. split; intros Ho.
  - destruct p; cbn [switch_remove];
      (srun Hsw; rewrite decide_True by done);
      try (eapply spec_Done; [exact Hset|reflexivity]).
    srun Hset. set (s1 := with_ops _ _ _ _ _).
    assert (fine False False (same_kernel s1) any
      (IdtGen2.idtg2_sysfs rdev false ;;; ret tt)) as Hq.
    { eapply fine_bind; [apply quiet_sysfs|]. intros. by apply fine_ret. }
    eapply spec_mono; [by apply Hq|]. by intros ? s' [_ Hk].
  - destruct p; cbn [switch_remove]; (etransitivity; [by apply bind_Done|]);
      by rewrite decide_False.
Qed.
End tables.

(** ** Witnesses *)

#[local] Existing Instance plain_tables.

#[local] Existing Instance idle_externals.
#[export] Instance sw_sysfs : SysfsQuiet (W := swbench).
Proof. split; intros; by apply fine_ret. Qed.

Lemma switch_probe_exclusive_witness :
  total (switch_probe idtg2_ops_p 3 (RIO_DEVICE 0 0)) (std_state 0xffff 1)
    (fun rc s' => rc = 0 /\
       same_kernel (with_ops 3 (sw_dev None 4) (sw_switch None 4) (Some idtg2_ops_p)
         (std_state 0xffff 1)) s').
Proof.
  exact (switch_probe_exclusive (std_path false 0) (std_state 0xffff 1) 3 (sw_dev None 4)
    (sw_switch None 4) idtg2_ops_p (RIO_DEVICE 0 0) (std_dev_at _ _) eq_refl).
Defined.

Lemma switch_remove_owner_witness :
  switch_remove idtg2_ops_p 3 (std_state 0xffff 1) = Done tt (std_state 0xffff 1).
Proof.
  apply (switch_remove_owner (std_path false 0) (std_state 0xffff 1) 3 (sw_dev None 4)
    (sw_switch None 4) idtg2_ops_p (std_dev_at _ _) eq_refl).
  discriminate.
Defined.
