(* ===== verification/Mbox.v ===== *)
(** * Mailboxes, doorbells, port-write handlers and memory regions (rio.c)

    The resources of a master port and of a device: who owns which mailbox and
    doorbell range, the lists of handlers, and the reference count that enables
    port-write reception. *)

From S2P Require Import Prelude Regs State Access Bench.

Section mbox.
Context {W : Type} `{!KernelEnv W}.

(** ** Resources of a port and of a device *)

(** request_resource and release_resource on [mport->riores[i]]. *)
Definition request_mport_resource (mport : ptr) (i : nat) (r : Z * Z) : KM W Z :=
  mp <- get_mport mport ;;
  root <- array_get (mp_riores mp) (Z.of_nat i) ;;
  let '(rc, root') := env_request_resource root r in
  upd_mport mport (setf mp_riores (<[i := root']> (mp_riores mp))) ;;;
  ret rc.
Definition release_mport_resource (mport : ptr) (i : nat) (r : Z * Z) : KM W Z :=
  mp <- get_mport mport ;;
  root <- array_get (mp_riores mp) (Z.of_nat i) ;;
  let '(rc, root') := env_release_resource root r in
  upd_mport mport (setf mp_riores (<[i := root']> (mp_riores mp))) ;;;
  ret rc.

Definition request_dev_resource (rdev : ptr) (i : nat) (r : Z * Z) : KM W Z :=
  d <- get_dev rdev ;;
  root <- array_get (rd_riores d) (Z.of_nat i) ;;
  let '(rc, root') := env_request_resource root r in
  upd_dev rdev (setf rd_riores (<[i := root']> (rd_riores d))) ;;;
  ret rc.
Definition release_dev_resource (rdev : ptr) (i : nat) (r : Z * Z) : KM W Z :=
  d <- get_dev rdev ;;
  root <- array_get (rd_riores d) (Z.of_nat i) ;;
  let '(rc, root') := env_release_resource root r in
  upd_dev rdev (setf rd_riores (<[i := root']> (rd_riores d))) ;;;
  ret rc.

(** ** Mailboxes

    The inbound and the outbound functions are the same text over different
    fields; a side says which. *)

Record mbox_side := mk_mbox_side {
  ms_resource : nat;
  ms_get : rio_mport W -> list rio_msg;
  ms_set : list rio_msg -> rio_mport W -> rio_mport W;
  ms_open : rio_ops W -> option (ptr -> ptr -> Z -> Z -> W -> Z * W);
  ms_close : rio_ops W -> option (ptr -> Z -> W -> W);
}.
Definition inb_side : mbox_side := {|
  ms_resource := RIO_INB_MBOX_RESOURCE;
  ms_get := mp_inb_msg; ms_set v m := setf mp_inb_msg v m;
  ms_open := op_open_inb_mbox; ms_close := op_close_inb_mbox |}.
Definition outb_side : mbox_side := {|
  ms_resource := RIO_OUTB_MBOX_RESOURCE;
  ms_get := mp_outb_msg; ms_set v m := setf mp_outb_msg v m;
  ms_open := op_open_outb_mbox; ms_close := op_close_outb_mbox |}.

(** [mport->xxx_msg[mbox] = m]. *)
Definition set_msg (sd : mbox_side) (mport : ptr) (mbox : Z) (m : rio_msg) : KM W unit :=
  mp <- get_mport mport ;;
  msgs <- array_set (ms_get sd mp) mbox m ;;
  upd_mport mport (ms_set sd msgs).

Definition request_mbox (sd : mbox_side) (mport dev_id : ptr) (mbox entries : Z) (cb : ptr)
    : KM W Z :=
  mp <- get_mport mport ;;
  match ms_open sd (mp_ops mp) with
  | None => ret (- ENOSYS)
  | Some open_mbox =>
      res <- kzalloc ;;
      if res : bool then
        rc <- request_mport_resource mport (ms_resource sd) (mbox, mbox) ;;
        if rc <? 0 then kfree ;;; ret rc
        else
          set_msg sd mport mbox (mk_rio_msg (Some (mbox, mbox)) (Some cb)) ;;;
          rc <- hw_call (open_mbox mport dev_id mbox entries) ;;
          if truthy rc then
            set_msg sd mport mbox (mk_rio_msg None None) ;;;
            release_mport_resource mport (ms_resource sd) (mbox, mbox) ;;;
            kfree ;;;
            ret rc
          else ret rc
      else ret (- ENOMEM)
  end.

Definition release_mbox (sd : mbox_side) (mport : ptr) (mbox : Z) : KM W Z :=
  mp <- get_mport mport ;;
  match ms_close sd (mp_ops mp) with
  | None => ret (- EINVAL)
  | Some close_mbox =>
      m <- array_get (ms_get sd mp) mbox ;;
      match msg_res m with
      | None => ret (- EINVAL)
      | Some r =>
          hw_do (close_mbox mport mbox) ;;;
          set_msg sd mport mbox (setf msg_mcback None m) ;;;
          rc <- release_mport_resource mport (ms_resource sd) r ;;
          if truthy rc then ret rc
          else kfree ;;; set_msg sd mport mbox (mk_rio_msg None None) ;;; ret 0
      end
  end.

Definition rio_request_inb_mbox := request_mbox inb_side.
Definition rio_release_inb_mbox := release_mbox inb_side.
Definition rio_request_outb_mbox := request_mbox outb_side.
Definition rio_release_outb_mbox := release_mbox outb_side.

(** ** Doorbells *)

Definition rio_setup_inb_dbell (mport dev_id : ptr) (res : Z * Z) (dinb : ptr) : KM W Z :=
  dbell <- kzalloc ;;
  if dbell : bool then
    upd_mport mport (fun m =>
      setf mp_dbells (mp_dbells m ++ [mk_rio_dbell res dinb dev_id]) m) ;;;
    ret 0
  else ret (- ENOMEM).

Definition rio_request_inb_dbell (mport dev_id : ptr) (start end_ : Z) (dinb : ptr) : KM W Z :=
  res <- kzalloc ;;
  if res : bool then
    rc <- request_mport_resource mport RIO_DOORBELL_RESOURCE (start, end_) ;;
    if rc <? 0 then kfree ;;; ret rc
    else rio_setup_inb_dbell mport dev_id (start, end_) dinb
  else ret (- ENOMEM).

(** Removes the first doorbell with the range, if there is one. *)
Fixpoint del_dbell (r : Z * Z) (l : list rio_dbell) : option (rio_dbell * list rio_dbell) :=
  match l with
  | [] => None
  | d :: l' =>
      if ((db_res d).1 =? r.1) && ((db_res d).2 =? r.2) then Some (d, l')
      else match del_dbell r l' with
           | Some (x, l'') => Some (x, d :: l'')
           | None => None
           end
  end.

(** The struct resource of the doorbell is not freed. *)
Definition rio_release_inb_dbell (mport : ptr) (start end_ : Z) : KM W Z :=
  mp <- get_mport mport ;;
  match del_dbell (start, end_) (mp_dbells mp) with
  | None => ret (- EINVAL)
  | Some (dbell, l) =>
      upd_mport mport (setf mp_dbells l) ;;;
      rc <- release_mport_resource mport RIO_DOORBELL_RESOURCE (db_res dbell) ;;
      kfree ;;;
      ret rc
  end.

Definition rio_request_outb_dbell (rdev : ptr) (start end_ : Z) : KM W (option (Z * Z)) :=
  res <- kzalloc ;;
  if res : bool then
    rc <- request_dev_resource rdev RIO_DOORBELL_RESOURCE (start, end_) ;;
    if rc <? 0 then kfree ;;; ret None else ret (Some (start, end_))
  else ret None.

Definition rio_release_outb_dbell (rdev : ptr) (res : Z * Z) : KM W Z :=
  rc <- release_dev_resource rdev RIO_DOORBELL_RESOURCE res ;;
  kfree ;;;
  ret rc.

(** ** Port-write handlers *)

Definition rio_add_mport_pw_handler (mport context pwcback : ptr) : KM W Z :=
  pwrite <- kzalloc ;;
  if pwrite : bool then
    upd_mport mport (fun m =>
      setf mp_pwrites (mp_pwrites m ++ [mk_rio_pwrite pwcback context]) m) ;;;
    ret 0
  else ret (- ENOMEM).

Fixpoint del_pwrite (context pwcback : ptr) (l : list rio_pwrite) : option (list rio_pwrite) :=
  match l with
  | [] => None
  | p :: l' =>
      if decide (pw_pwcback p = pwcback /\ pw_context p = context) then Some l'
      else match del_pwrite context pwcback l' with
           | Some l'' => Some (p :: l'')
           | None => None
           end
  end.

Definition rio_del_mport_pw_handler (mport context pwcback : ptr) : KM W Z :=
  mp <- get_mport mport ;;
  match del_pwrite context pwcback (mp_pwrites mp) with
  | None => ret (- EINVAL)
  | Some l => upd_mport mport (setf mp_pwrites l) ;;; kfree ;;; ret 0
  end.

Definition rio_request_inb_pwrite (rdev pwcback : ptr) : KM W Z :=
  d <- get_dev rdev ;;
  match rd_pwcback d with
  | Some _ => ret (- ENOMEM)
  | None => upd_dev rdev (setf rd_pwcback (Some pwcback)) ;;; ret 0
  end.

Definition rio_release_inb_pwrite (rdev : ptr) : KM W Z :=
  d <- get_dev rdev ;;
  match rd_pwcback d with
  | Some _ => upd_dev rdev (setf rd_pwcback None) ;;; ret 0
  | None => ret (- ENOMEM)
  end.

(** The increment and decrement happen inside the condition. *)
Definition rio_pw_enable (mport : ptr) (enable : Z) : KM W unit :=
  mp <- get_mport mport ;;
  match op_pwenable (mp_ops mp) with
  | None => ret tt
  | Some pwenable =>
      let n := mp_pwe_refcnt mp in
      if truthy enable then
        upd_mport mport (setf mp_pwe_refcnt (s32 (n + 1))) ;;;
        when (s32 (n + 1) =? 1) (hw_call (pwenable mport enable) ;;; ret tt)
      else if truthy n then
        upd_mport mport (setf mp_pwe_refcnt (s32 (n - 1))) ;;;
        when (s32 (n - 1) =? 0) (hw_call (pwenable mport enable) ;;; ret tt)
      else ret tt
  end.

(** ** Memory regions *)

Definition rio_map_inb_region (mport : ptr) (local rbase size rflags : Z) : KM W Z :=
  mp <- get_mport mport ;;
  match op_map_inb (mp_ops mp) with
  | None => ret (-1)
  | Some map_inb => hw_call (map_inb mport local rbase size rflags)
  end.

Definition rio_unmap_inb_region (mport : ptr) (lstart : Z) : KM W unit :=
  mp <- get_mport mport ;;
  match op_unmap_inb (mp_ops mp) with
  | None => ret tt
  | Some unmap_inb => hw_do (unmap_inb mport lstart)
  end.

(** Returns the status and the contents of [*local]. *)
Definition rio_map_outb_region (mport : ptr) (destid rbase size rflags local : Z)
    : KM W (Z * Z) :=
  mp <- get_mport mport ;;
  match op_map_outb (mp_ops mp) with
  | None => ret (- ENODEV, local)
  | Some map_outb => hw_call (map_outb mport destid rbase size rflags)
  end.

Definition rio_unmap_outb_region (mport : ptr) (destid rstart : Z) : KM W unit :=
  mp <- get_mport mport ;;
  match op_unmap_outb (mp_ops mp) with
  | None => ret tt
  | Some unmap_outb => hw_do (unmap_outb mport destid rstart)
  end.
End mbox.

(** ** Claiming and returning resources *)

Section lemmas.
Context {W : Type} `{!KernelEnv W}.
Implicit Types s : kstate W.

Definition with_riores (i : nat) (root : resource) (mp : rio_mport W) : rio_mport W :=
  setf mp_riores (<[i := root]> (mp_riores mp)) mp.

Lemma run_request_mport s mport mp i root r :
  ks_mports s !! mport = Some mp -> mp_riores mp !! i = Some root ->
  request_mport_resource mport i r s
  = Done (env_request_resource root r).1
      (with_mport mport (with_riores i (env_request_resource root r).2 mp) s).
Proof.
  intros H1 H2. unfold request_mport_resource. run (run_get_mport _ _ _ H1).
  run (run_array_get s (mp_riores mp) (Z.of_nat i) root ltac:(lia) ltac:(by rewrite Nat2Z.id)).
  destruct (env_request_resource root r) as [rc root']. by erewrite bind_Done by (by apply upd_mport_with).
Qed.

Lemma run_release_mport s mport mp i root r :
  ks_mports s !! mport = Some mp -> mp_riores mp !! i = Some root ->
  release_mport_resource mport i r s
  = Done (env_release_resource root r).1
      (with_mport mport (with_riores i (env_release_resource root r).2 mp) s).
Proof.
  intros H1 H2. unfold release_mport_resource. run (run_get_mport _ _ _ H1).
  run (run_array_get s (mp_riores mp) (Z.of_nat i) root ltac:(lia) ltac:(by rewrite Nat2Z.id)).
  destruct (env_release_resource root r) as [rc root']. by erewrite bind_Done by (by apply upd_mport_with).
Qed.

Lemma run_set_msg s (sd : mbox_side) mport mp mbox m :
  ks_mports s !! mport = Some mp -> 0 <= mbox < Z.of_nat (length (ms_get sd mp)) ->
  set_msg sd mport mbox m s
  = Done tt (with_mport mport (ms_set sd (<[Z.to_nat mbox := m]> (ms_get sd mp)) mp) s).
Proof.
  intros H1 H2. unfold set_msg. run (run_get_mport _ _ _ H1).
  run (run_array_set s (ms_get sd mp) mbox m H2). by apply upd_mport_with.
Qed.

Context `{!ResourceLaws W}.

(** A free range is not among the claimed ones. *)
Lemma range_free_notin root r : range_free root r = true -> r ∉ res_child root.
Proof.
  unfold range_free. intros [[[_ _]%andb_true_iff Hle]%andb_true_iff Hf]%andb_true_iff Hin.
  rewrite forallb_forall in Hf. specialize (Hf r).
  rewrite <- list_elem_of_In in Hf. specialize (Hf Hin). unfold ranges_overlap in Hf. lia.
Qed.

(** A claimed range is not free. *)
Lemma claimed_not_free root r : r ∈ res_child root -> r.1 <= r.2 -> range_free root r = false.
Proof.
  intros Hin Hle. destruct (range_free root r) eqn:E; [|done].
  by apply range_free_notin in E.
Qed.

Lemma notin_split {A} (r : A) l l1 l2 : r ∉ l -> r :: l = l1 ++ r :: l2 -> l1 ++ l2 = l.
Proof.
  intros Hn He. destruct l1 as [|x l1]; [by injection He|].
  injection He as <- ->. exfalso. apply Hn. set_solver.
Qed.

(** Releasing what was just claimed restores the resource. *)
Lemma claim_release root r :
  range_free root r = true ->
  env_release_resource (setf res_child (r :: res_child root) root) r = (0, root).
Proof.
  intros Hf. destruct (release_claimed (setf res_child (r :: res_child root) root) r)
    as (l1 & l2 & He & ->); [apply list_elem_of_here|].
  cbn in He. apply notin_split in He; [|by apply range_free_notin].
  cbn. rewrite He. by destruct root.
Qed.

(** What the proofs use of a side. *)
Record side_ok (sd : mbox_side (W := W)) : Prop := {
  so_get_set : forall v m, ms_get sd (ms_set sd v m) = v;
  so_set_set : forall v v' m, ms_set sd v (ms_set sd v' m) = ms_set sd v m;
  so_set_get : forall m, ms_set sd (ms_get sd m) m = m;
  so_get_res : forall i r m, ms_get sd (with_riores i r m) = ms_get sd m;
  so_set_res : forall i r v m,
    with_riores i r (ms_set sd v m) = ms_set sd v (with_riores i r m);
  so_res : forall v m, mp_riores (ms_set sd v m) = mp_riores m;
  so_ops : forall v m, mp_ops (ms_set sd v m) = mp_ops m;
}.

Lemma sides_ok sd : sd = inb_side \/ sd = outb_side -> side_ok sd.
Proof. by intros [-> | ->]; split; intros; try destruct m. Qed.

Lemma with_riores_twice i r r' (mp : rio_mport W) :
  with_riores i r (with_riores i r' mp) = with_riores i r mp.
Proof. unfold with_riores. cbn. by rewrite list_insert_insert_eq. Qed.
Lemma with_riores_same i r (mp : rio_mport W) :
  mp_riores mp !! i = Some r -> with_riores i r mp = mp.
Proof. intros H. unfold with_riores. rewrite list_insert_id by done. by destruct mp. Qed.
Lemma with_riores_lookup i r r' (mp : rio_mport W) :
  mp_riores mp !! i = Some r' -> mp_riores (with_riores i r mp) !! i = Some r.
Proof. intros H. cbn. apply list_lookup_insert_eq. by eapply lookup_lt_Some. Qed.

(** The port after a successful request. *)
Definition mbox_claimed (sd : mbox_side) (root : resource) (mbox : Z) (cb : ptr)
    (mp : rio_mport W) : rio_mport W :=
  ms_set sd (<[Z.to_nat mbox := mk_rio_msg (Some (mbox, mbox)) (Some cb)]> (ms_get sd mp))
    (with_riores (ms_resource sd)
       (setf res_child ((mbox, mbox) :: res_child root) root) mp).

Lemma run_request_mbox sd s mport mp root dev_id mbox entries cb :
  side_ok sd -> ks_mports s !! mport = Some mp ->
  mp_riores mp !! ms_resource sd = Some root ->
  0 <= res_start root -> res_end root < Z.of_nat (length (ms_get sd mp)) ->
  ms_get sd mp !! Z.to_nat mbox = Some (mk_rio_msg None None) ->
  request_mbox sd mport dev_id mbox entries cb s =
  match ms_open sd (mp_ops mp) with
  | None => Done (- ENOSYS) s
  | Some open_mbox =>
      let '(ok, w) := env_alloc (ks_hw s) in
      if negb ok then Done (- ENOMEM) (with_hw w s)
      else if negb (range_free root (mbox, mbox)) then Done (- EBUSY) (with_hw w s)
      else
        let '(rc, w') := open_mbox mport dev_id mbox entries w in
        if truthy rc then Done rc (with_hw w' s)
        else Done 0 (with_allocs (ks_allocs s + 1)
                       (with_mport mport (mbox_claimed sd root mbox cb mp) (with_hw w' s)))
  end.
Proof.
  intros Hsd Hmp Hroot Hlo Hhi Hempty. unfold request_mbox.
  run (run_get_mport _ _ _ Hmp). destruct (ms_open sd (mp_ops mp)) as [op|]; [|done].
  pose proof (run_kzalloc s) as Hal. destruct (env_alloc (ks_hw s)) as [ok w]. cbn [fst snd] in Hal.
  destruct ok; run Hal; [|done]. cbn [negb].
  set (s1 := with_allocs _ _). assert (ks_mports s1 !! mport = Some mp) as Hmp1 by done.
  run (run_request_mport s1 mport mp _ root (mbox, mbox) Hmp1 Hroot).
  destruct (range_free root (mbox, mbox)) eqn:Hfree; cbn [negb].
  - rewrite request_free by done. cbn [fst snd]. change (0 <? 0) with false. cbv iota.
    set (root1 := setf res_child _ root). set (mp1 := with_riores _ root1 mp).
    set (s2 := with_mport mport mp1 s1).
    assert (0 <= mbox < Z.of_nat (length (ms_get sd mp1))) as Hb.
    { unfold mp1. rewrite so_get_res by done. unfold range_free in Hfree. cbn [fst snd] in *. lia. }
    run (run_set_msg s2 sd mport mp1 mbox (mk_rio_msg (Some (mbox, mbox)) (Some cb))
      (with_mport_lookup _ _ _) Hb).
    set (mp2 := ms_set sd _ mp1). unfold s2. rewrite with_mport_twice.
    unfold hw_call, bind at 1. cbn. destruct (op mport dev_id mbox entries w) as [rc w'].
    destruct (truthy rc) eqn:Hrc.
    + set (s3 := with_hw _ _).
      assert (ks_mports s3 !! mport = Some mp2) as H3 by apply lookup_insert_eq.
      assert (0 <= mbox < Z.of_nat (length (ms_get sd mp2))) as Hb2.
      { unfold mp2. rewrite so_get_set by done. by rewrite length_insert. }
      run (run_set_msg s3 sd mport mp2 mbox (mk_rio_msg None None) H3 Hb2).
      set (mp3 := ms_set sd _ mp2). set (s4 := with_mport mport mp3 s3).
      assert (mp_riores mp3 !! ms_resource sd = Some root1) as Hr3.
      { unfold mp3, mp2. rewrite !so_res by done. by eapply with_riores_lookup. }
      run (run_release_mport s4 mport mp3 _ root1 (mbox, mbox) (with_mport_lookup _ _ _) Hr3).
      unfold root1. rewrite claim_release by done. cbn [fst snd].
      assert (with_riores (ms_resource sd) root mp3 = mp) as ->.
      { unfold mp3, mp2, mp1. rewrite !so_set_res, !so_set_set, so_get_set, so_get_res by done.
        rewrite with_riores_twice, with_riores_same by done.
        rewrite list_insert_insert_eq, list_insert_id by done. by apply so_set_get. }
      unfold bind, kfree, modify, ret. f_equal. unfold s4, s3.
      change (with_hw w' (with_mport mport mp2 s1)) with (with_mport mport mp2 (with_hw w' s1)).
      rewrite !with_mport_twice, with_mport_same by done. exact (with_allocs_back w' s).
    + unfold ret. f_equal; [unfold truthy in Hrc; lia|].
      unfold mp2, mp1. by rewrite so_get_res.
  - rewrite request_busy by done. cbn [fst snd]. change (- EBUSY <? 0) with true. cbv iota.
    unfold bind at 1, kfree, modify, ret. rewrite with_riores_same, with_mport_same by done.
    f_equal. exact (with_allocs_back w s).
Qed.

(** A request for an owned mailbox. *)
Lemma run_request_mbox_busy sd s mport mp root dev_id mbox entries cb :
  ks_mports s !! mport = Some mp -> mp_riores mp !! ms_resource sd = Some root ->
  range_free root (mbox, mbox) = false ->
  request_mbox sd mport dev_id mbox entries cb s =
  match ms_open sd (mp_ops mp) with
  | None => Done (- ENOSYS) s
  | Some _ =>
      let '(ok, w) := env_alloc (ks_hw s) in
      Done (if ok then - EBUSY else - ENOMEM) (with_hw w s)
  end.
Proof.
  intros Hmp Hroot Hbusy. unfold request_mbox.
  run (run_get_mport _ _ _ Hmp). destruct (ms_open sd (mp_ops mp)) as [op|]; [|done].
  pose proof (run_kzalloc s) as Hal. destruct (env_alloc (ks_hw s)) as [ok w]. cbn [fst snd] in Hal.
  destruct ok; run Hal; [|done].
  set (s1 := with_allocs _ _). assert (ks_mports s1 !! mport = Some mp) as Hmp1 by done.
  run (run_request_mport s1 mport mp _ root (mbox, mbox) Hmp1 Hroot).
  rewrite request_busy by done. cbn [fst snd]. change (- EBUSY <? 0) with true. cbv iota.
  unfold bind at 1, kfree, modify, ret. rewrite with_riores_same, with_mport_same by done.
  f_equal. exact (with_allocs_back w s).
Qed.

(** *** Doorbells *)

Definition dbell_at (r : Z * Z) (d : rio_dbell) : bool :=
  ((db_res d).1 =? r.1) && ((db_res d).2 =? r.2).

Lemma dbell_at_eq r d : dbell_at r d = true <-> db_res d = r.
Proof.
  unfold dbell_at. destruct (db_res d) as [a b], r as [a' b']. cbn.
  rewrite andb_true_iff, !Z.eqb_eq. split; [by intros [-> ->]|by intros [= -> ->]].
Qed.

Lemma del_dbell_app r l d l' :
  (forall x, x ∈ l -> db_res x <> r) -> db_res d = r ->
  del_dbell r (l ++ d :: l') = Some (d, l ++ l').
Proof.
  intros Hl Hd. induction l as [|x l IH]; cbn; fold (dbell_at r).
  - by rewrite (proj2 (dbell_at_eq r d) Hd : _ && _ = true).
  - destruct (dbell_at r x) eqn:Hx.
    + apply dbell_at_eq in Hx. by destruct (Hl x (list_elem_of_here _ _)).
    + unfold dbell_at in Hx. rewrite Hx, IH; [done|].
      intros y Hy. by apply Hl, list_elem_of_further.
Qed.

(** Every doorbell in service owns its range. *)
Definition dbells_own (mp : rio_mport W) (root : resource) : Prop :=
  forall d, d ∈ mp_dbells mp -> db_res d ∈ res_child root.

Definition dbell_claimed (root : resource) (r : Z * Z) (mp : rio_mport W) : rio_mport W :=
  with_riores RIO_DOORBELL_RESOURCE (setf res_child (r :: res_child root) root) mp.

Lemma run_setup_inb_dbell s mport mp dev_id r dinb :
  ks_mports s !! mport = Some mp ->
  rio_setup_inb_dbell mport dev_id r dinb s =
  let '(ok, w) := env_alloc (ks_hw s) in
  if negb ok then Done (- ENOMEM) (with_hw w s)
  else Done 0 (with_allocs (ks_allocs s + 1)
    (with_mport mport (setf mp_dbells (mp_dbells mp ++ [mk_rio_dbell r dinb dev_id]) mp)
      (with_hw w s))).
Proof.
  intros H. unfold rio_setup_inb_dbell. pose proof (run_kzalloc s) as Hal.
  destruct (env_alloc (ks_hw s)) as [[] w]; cbn [fst snd] in Hal; run Hal; [|done].
  by erewrite bind_Done by (by apply upd_mport_with).
Qed.

Lemma run_request_inb_dbell s mport mp root dev_id start end_ dinb :
  ks_mports s !! mport = Some mp ->
  mp_riores mp !! RIO_DOORBELL_RESOURCE = Some root ->
  rio_request_inb_dbell mport dev_id start end_ dinb s =
  let '(ok, w) := env_alloc (ks_hw s) in
  if negb ok then Done (- ENOMEM) (with_hw w s)
  else if negb (range_free root (start, end_)) then Done (- EBUSY) (with_hw w s)
  else
    let '(ok', w') := env_alloc w in
    let mp1 := dbell_claimed root (start, end_) mp in
    if negb ok' then
      Done (- ENOMEM) (with_allocs (ks_allocs s + 1) (with_mport mport mp1 (with_hw w' s)))
    else Done 0 (with_allocs (ks_allocs s + 1 + 1)
      (with_mport mport
        (setf mp_dbells (mp_dbells mp ++ [mk_rio_dbell (start, end_) dinb dev_id]) mp1)
        (with_hw w' s))).
Proof.
  intros Hmp Hroot. unfold rio_request_inb_dbell. pose proof (run_kzalloc s) as Hal.
  destruct (env_alloc (ks_hw s)) as [ok w]. cbn [fst snd] in Hal.
  destruct ok; run Hal; [|done]. cbn [negb].
  set (s1 := with_allocs _ _). assert (ks_mports s1 !! mport = Some mp) as Hmp1 by done.
  run (run_request_mport s1 mport mp _ root (start, end_) Hmp1 Hroot).
  destruct (range_free root (start, end_)) eqn:Hfree; cbn [negb].
  - rewrite request_free by done. cbn [fst snd]. change (0 <? 0) with false. cbv iota.
    fold (dbell_claimed root (start, end_) mp).
    rewrite (run_setup_inb_dbell _ mport (dbell_claimed root (start, end_) mp))
      by apply with_mport_lookup.
    change (ks_hw (with_mport _ _ s1)) with w.
    destruct (env_alloc w) as [[] w']; cbn [negb]; [|done].
    f_equal. unfold with_allocs, with_mport, with_hw. cbn. by rewrite insert_insert_eq.
  - rewrite request_busy by done. cbn [fst snd]. change (- EBUSY <? 0) with true. cbv iota.
    unfold bind at 1, kfree, modify, ret. rewrite with_riores_same, with_mport_same by done.
    f_equal. exact (with_allocs_back w s).
Qed.

(** *** Port-write handlers *)

(** The reference count after a call of rio_pw_enable. *)
Definition pw_depth (n e : Z) : Z := if truthy e then n + 1 else Z.max 0 (n - 1).

Lemma run_pw_enable s mport mp pwenable e :
  ks_mports s !! mport = Some mp -> op_pwenable (mp_ops mp) = Some pwenable ->
  0 <= mp_pwe_refcnt mp -> mp_pwe_refcnt mp + 1 < 2 ^ 31 ->
  let n := mp_pwe_refcnt mp in
  let n' := pw_depth n e in
  rio_pw_enable mport e s = Done tt
    (with_mport mport (setf mp_pwe_refcnt n' mp)
      (with_hw (if Bool.eqb (0 <? n) (0 <? n') then ks_hw s
                else (pwenable mport e (ks_hw s)).2) s)).
Proof.
  intros Hmp Hop H0 H1 n n'. unfold rio_pw_enable. run (run_get_mport _ _ _ Hmp). rewrite Hop.
  cbv zeta. fold n. fold n in H0, H1. unfold n', pw_depth. clear n'. destruct (truthy e).
  - rewrite s32_small by lia. erewrite bind_Done by (by apply upd_mport_with).
    destruct (Z.eqb_spec (n + 1) 1), (Z.ltb_spec 0 n), (Z.ltb_spec 0 (n + 1)); try lia; cbn [Bool.eqb when].
    + unfold bind, hw_call, with_mport, with_hw. cbn. by destruct (pwenable mport e (ks_hw s)).
    + unfold ret, with_hw. by destruct s.
  - unfold truthy. destruct (Z.eqb_spec n 0); cbn [negb].
    + replace (Z.max 0 (n - 1)) with n by lia. rewrite Bool.eqb_reflx.
      unfold ret. f_equal. unfold n. unfold with_hw. cbn. rewrite with_mport_same; [by destruct s|].
      cbn. rewrite Hmp. by destruct mp.
    + replace (Z.max 0 (n - 1)) with (n - 1) by lia.
      rewrite s32_small by lia. erewrite bind_Done by (by apply upd_mport_with).
      destruct (Z.eqb_spec (n - 1) 0), (Z.ltb_spec 0 n), (Z.ltb_spec 0 (n - 1)); try lia; cbn [Bool.eqb when].
      * unfold bind, hw_call, with_mport, with_hw. cbn. by destruct (pwenable mport e (ks_hw s)).
      * unfold ret, with_hw. by destruct s.
Qed.

Lemma del_pwrite_app context pwcback l p l' :
  (forall x, x ∈ l -> pw_pwcback x = pwcback -> pw_context x <> context) ->
  pw_pwcback p = pwcback -> pw_context p = context ->
  del_pwrite context pwcback (l ++ p :: l') = Some (l ++ l').
Proof.
  intros Hl H1 H2. induction l as [|x l IH]; cbn.
  - by rewrite decide_True.
  - rewrite decide_False.
    + rewrite IH; [done|]. intros y Hy. by apply Hl, list_elem_of_further.
    + intros [Ha Hb]. exact (Hl x (list_elem_of_here _ _) Ha Hb).
Qed.
End lemmas.

Section theorems.
Context {W : Type} `{!KernelEnv W} `{!ResourceLaws W}.
Implicit Types s : kstate W.

(** Requesting a mailbox is all or nothing.  The request succeeds exactly
    when the hardware supports it, memory is available, nobody owns the mailbox
    and the hardware opens it; then the range is claimed and the callback
    installed.  Every failure returns its error code and leaves the port, its
    resources and the allocation balance as they were.  An out-of-range mailbox
    number is refused before the array is touched. *)
Theorem rio_request_mbox_correct (sd : mbox_side) s mport mp root dev_id mbox entries cb :
  sd = inb_side \/ sd = outb_side -> ks_mports s !! mport = Some mp ->
  mp_riores mp !! ms_resource sd = Some root ->
  0 <= res_start root -> res_end root < Z.of_nat (length (ms_get sd mp)) ->
  ms_get sd mp !! Z.to_nat mbox = Some (mk_rio_msg None None) ->
  request_mbox sd mport dev_id mbox entries cb s =
  match ms_open sd (mp_ops mp) with
  | None => Done (- ENOSYS) s
  | Some open_mbox =>
      let '(ok, w) := env_alloc (ks_hw s) in
      if negb ok then Done (- ENOMEM) (with_hw w s)
      else if negb (range_free root (mbox, mbox)) then Done (- EBUSY) (with_hw w s)
      else
        let '(rc, w') := open_mbox mport dev_id mbox entries w in
        if truthy rc then Done rc (with_hw w' s)
        else Done 0 (with_allocs (ks_allocs s + 1)
                       (with_mport mport (mbox_claimed sd root mbox cb mp) (with_hw w' s)))
  end.
Proof. intros. apply run_request_mbox; auto using sides_ok. Qed.

(** Releasing a mailbox that was just requested undoes the request: the
    port's resources, message slots and the allocation balance are exactly as
    before, and the hardware has been opened and closed once. *)
Theorem rio_request_release_mbox (sd : mbox_side) s mport mp root dev_id mbox entries cb close_mbox :
  sd = inb_side \/ sd = outb_side -> ks_mports s !! mport = Some mp ->
  mp_riores mp !! ms_resource sd = Some root ->
  0 <= res_start root -> res_end root < Z.of_nat (length (ms_get sd mp)) ->
  ms_get sd mp !! Z.to_nat mbox = Some (mk_rio_msg None None) ->
  ms_close sd (mp_ops mp) = Some close_mbox -> 0 <= mbox ->
  total (rc <- request_mbox sd mport dev_id mbox entries cb ;;
         if truthy rc then ret (rc, 0) else
         rc' <- release_mbox sd mport mbox ;; ret (rc, rc')) s
    (fun '(rc, rc') s' => rc' = 0 /\ same_kernel s s').
Proof.
  intros Hs Hmp Hroot Hlo Hhi Hempty Hclose Hm. pose proof (sides_ok _ Hs) as Hsd.
  apply spec_bind. unfold spec at 1.
  rewrite (run_request_mbox sd s mport mp root) by done.
  destruct (ms_open sd (mp_ops mp)) as [op|]; [|by apply spec_ret].
  destruct (env_alloc (ks_hw s)) as [[] w]; cbn [negb]; [|by apply spec_ret].
  destruct (range_free root (mbox, mbox)) eqn:Hfree; cbn [negb]; [|by apply spec_ret].
  destruct (op mport dev_id mbox entries w) as [rc w'].
  destruct (truthy rc) eqn:Hrc; [rewrite Hrc; by apply spec_ret|].
  cbn [truthy Z.eqb negb].
  set (mp1 := mbox_claimed sd root mbox cb mp). set (s1 := with_allocs _ _).
  assert (ks_mports s1 !! mport = Some mp1) as H1 by apply lookup_insert_eq.
  assert (ms_get sd mp1 = <[Z.to_nat mbox := mk_rio_msg (Some (mbox, mbox)) (Some cb)]>
            (ms_get sd mp)) as Hg1 by (unfold mp1, mbox_claimed; by rewrite so_get_set).
  assert ((Z.to_nat mbox < length (ms_get sd mp))%nat) as Hlt by (by eapply lookup_lt_Some).
  apply spec_bind. unfold release_mbox.
  srun (run_get_mport _ _ _ H1).
  assert (ms_close sd (mp_ops mp1) = Some close_mbox) as ->
    by (unfold mp1, mbox_claimed; by rewrite so_ops).
  srun (run_array_get s1 (ms_get sd mp1) mbox (mk_rio_msg (Some (mbox, mbox)) (Some cb)) Hm
    ltac:(rewrite Hg1; by apply list_lookup_insert_eq)).
  cbn [msg_res]. apply spec_bind, spec_modify. set (s2 := with_hw _ s1).
  assert (0 <= mbox < Z.of_nat (length (ms_get sd mp1))) as Hb
    by (rewrite Hg1, length_insert; lia).
  srun (run_set_msg s2 sd mport mp1 mbox (mk_rio_msg (Some (mbox, mbox)) None) H1 Hb).
  set (mp2 := ms_set sd _ mp1).
  set (root1 := setf res_child ((mbox, mbox) :: res_child root) root).
  assert (mp_riores mp2 !! ms_resource sd = Some root1) as Hr2.
  { unfold mp2, mp1, mbox_claimed. rewrite !so_res by done. by eapply with_riores_lookup. }
  srun (run_release_mport (with_mport mport mp2 s2) mport mp2 _ root1 (mbox, mbox)
    (with_mport_lookup _ _ _) Hr2).
  unfold root1. rewrite claim_release by done. cbn [fst snd truthy Z.eqb negb].
  rewrite with_mport_twice. srun (run_kfree (with_mport mport
    (with_riores (ms_resource sd) root mp2) s2)).
  set (mp3 := with_riores (ms_resource sd) root mp2). set (s3 := with_allocs _ _).
  assert (ks_mports s3 !! mport = Some mp3) as H3 by apply lookup_insert_eq.
  assert (mp3 = ms_set sd (<[Z.to_nat mbox := mk_rio_msg (Some (mbox, mbox)) None]> (ms_get sd mp)) mp)
    as Hmp3.
  { unfold mp3, mp2, mp1, mbox_claimed. rewrite !so_set_res, !so_set_set, so_get_set by done.
    rewrite with_riores_twice, with_riores_same by done. by rewrite list_insert_insert_eq. }
  assert (ms_get sd mp3 = <[Z.to_nat mbox := mk_rio_msg (Some (mbox, mbox)) None]> (ms_get sd mp))
    as Hg3 by (by rewrite Hmp3, so_get_set).
  assert (0 <= mbox < Z.of_nat (length (ms_get sd mp3))) as Hb3
    by (rewrite Hg3, length_insert; lia).
  srun (run_set_msg s3 sd mport mp3 mbox (mk_rio_msg None None) H3 Hb3).
  apply spec_ret, spec_ret. split; [done|].
  rewrite Hg3, list_insert_insert_eq, (list_insert_id (ms_get sd mp)) by done.
  rewrite Hmp3, so_set_set, so_set_get by done.
  unfold same_kernel, s3, s2, s1. destruct s. unfold with_mport, with_allocs, with_hw. cbn in *.
  rewrite !insert_insert_eq, insert_id by done. f_equal. lia.
Qed.

(** exclusive ownership.  While a mailbox is owned, every further request for
    it is refused, with -EBUSY or for lack of memory, and changes nothing. *)
Theorem rio_request_mbox_exclusive (sd : mbox_side) s mport mp root dev_id mbox entries cb
    dev_id' entries' cb' s1 :
  sd = inb_side \/ sd = outb_side -> ks_mports s !! mport = Some mp ->
  mp_riores mp !! ms_resource sd = Some root ->
  0 <= res_start root -> res_end root < Z.of_nat (length (ms_get sd mp)) ->
  ms_get sd mp !! Z.to_nat mbox = Some (mk_rio_msg None None) ->
  request_mbox sd mport dev_id mbox entries cb s = Done 0 s1 ->
  total (request_mbox sd mport dev_id' mbox entries' cb') s1
    (fun rc s2 => same_kernel s1 s2 /\ (rc = - EBUSY \/ rc = - ENOMEM)).
Proof.
  intros Hs Hmp Hroot Hlo Hhi Hempty. pose proof (sides_ok _ Hs) as Hsd.
  rewrite (run_request_mbox sd s mport mp root) by done.
  destruct (ms_open sd (mp_ops mp)) as [op|] eqn:Hop; [|done].
  destruct (env_alloc (ks_hw s)) as [[] w]; cbn [negb]; [|done].
  destruct (range_free root (mbox, mbox)) eqn:Hfree; cbn [negb]; [|done].
  destruct (op mport dev_id mbox entries w) as [rc w'].
  destruct (truthy rc) eqn:Hrc; [by intros [= -> _]|]. intros [= <-].
  set (root1 := setf res_child ((mbox, mbox) :: res_child root) root).
  unfold spec. rewrite (run_request_mbox_busy sd _ mport (mbox_claimed sd root mbox cb mp) root1).
  - unfold mbox_claimed at 1. rewrite so_ops by done. cbn [mp_ops with_riores setf updf].
    rewrite Hop. destruct (env_alloc _) as [[] w2]; (split; [apply sk_with_hw|auto]).
  - apply lookup_insert_eq.
  - unfold mbox_claimed. rewrite so_res by done. by eapply with_riores_lookup.
  - apply claimed_not_free; [apply list_elem_of_here|]. cbn. lia.
Qed.

(** Requesting an inbound doorbell range, on every branch.  It succeeds
    exactly when both allocations do and the range is free; the doorbell is then
    appended to the port's list.  When the second allocation fails the caller
    gets -ENOMEM but the range stays claimed and one allocation stays live. *)
Theorem rio_request_inb_dbell_correct s mport mp root dev_id start end_ dinb :
  ks_mports s !! mport = Some mp ->
  mp_riores mp !! RIO_DOORBELL_RESOURCE = Some root ->
  rio_request_inb_dbell mport dev_id start end_ dinb s =
  let '(ok, w) := env_alloc (ks_hw s) in
  if negb ok then Done (- ENOMEM) (with_hw w s)
  else if negb (range_free root (start, end_)) then Done (- EBUSY) (with_hw w s)
  else
    let '(ok', w') := env_alloc w in
    let mp1 := dbell_claimed root (start, end_) mp in
    if negb ok' then
      Done (- ENOMEM) (with_allocs (ks_allocs s + 1) (with_mport mport mp1 (with_hw w' s)))
    else Done 0 (with_allocs (ks_allocs s + 1 + 1)
      (with_mport mport
        (setf mp_dbells (mp_dbells mp ++ [mk_rio_dbell (start, end_) dinb dev_id]) mp1)
        (with_hw w' s))).
Proof. apply run_request_inb_dbell. Qed.

(** Releasing an inbound doorbell range that was just requested gives back
    the range and the list entry, but not the memory: one of the two
    allocations of the request is never freed. *)
Theorem rio_request_release_inb_dbell s mport mp root dev_id start end_ dinb s1 :
  ks_mports s !! mport = Some mp ->
  mp_riores mp !! RIO_DOORBELL_RESOURCE = Some root -> dbells_own mp root ->
  rio_request_inb_dbell mport dev_id start end_ dinb s = Done 0 s1 ->
  rio_release_inb_dbell mport start end_ s1
  = Done 0 (with_allocs (ks_allocs s + 1) (with_hw (ks_hw s1) s)).
Proof.
  intros Hmp Hroot Hown. rewrite (run_request_inb_dbell s mport mp root) by done.
  destruct (env_alloc (ks_hw s)) as [[] w]; cbn [negb]; [|done].
  destruct (range_free root (start, end_)) eqn:Hfree; cbn [negb]; [|done].
  destruct (env_alloc w) as [[] w']; cbn [negb]; [|done]. intros [= <-].
  set (mp1 := dbell_claimed root (start, end_) mp).
  set (mp2 := setf mp_dbells (mp_dbells mp ++ [mk_rio_dbell (start, end_) dinb dev_id]) mp1).
  set (s1 := with_allocs _ _). unfold rio_release_inb_dbell.
  assert (ks_mports s1 !! mport = Some mp2) as H2 by apply lookup_insert_eq.
  run (run_get_mport _ _ _ H2).
  change (mp_dbells mp2) with (mp_dbells mp ++ [mk_rio_dbell (start, end_) dinb dev_id]).
  rewrite del_dbell_app, app_nil_r; [|intros x Hx Heq|done].
  2: { apply Hown in Hx. rewrite Heq in Hx. by eapply range_free_notin. }
  erewrite bind_Done by (by apply upd_mport_with). cbn [db_res].
  set (mp3 := setf mp_dbells (mp_dbells mp) mp2).
  set (root1 := setf res_child ((start, end_) :: res_child root) root).
  assert (mp_riores mp3 !! RIO_DOORBELL_RESOURCE = Some root1) as Hr3
    by (by eapply (with_riores_lookup _ _ _ mp)).
  run (run_release_mport (with_mport mport mp3 s1) mport mp3 _ root1 (start, end_)
    (with_mport_lookup _ _ _) Hr3).
  unfold root1. rewrite claim_release by done. cbn [fst snd].
  rewrite with_mport_twice. run (run_kfree (with_mport mport
    (with_riores RIO_DOORBELL_RESOURCE root mp3) s1)). unfold ret. f_equal.
  assert (with_riores RIO_DOORBELL_RESOURCE root mp3 = mp) as ->.
  { unfold mp3, mp2, mp1, dbell_claimed, with_riores. destruct mp. cbn in *.
    by rewrite list_insert_insert_eq, list_insert_id. }
  unfold s1, with_allocs, with_mport, with_hw. cbn. rewrite insert_insert_eq, insert_id by done.
  f_equal. lia.
Qed.

(** Port-write reception is counted.  Whatever sequence of enable and
    disable calls is made, the reference count is the number of enables not yet
    cancelled, surplus disables are ignored, and the hardware is left enabled
    exactly when the count is positive. *)
Theorem rio_pw_enable_counts (en : W -> bool) s mport mp pwenable es :
  ks_mports s !! mport = Some mp -> op_pwenable (mp_ops mp) = Some pwenable ->
  (forall e w, en (pwenable mport e w).2 = truthy e) ->
  0 <= mp_pwe_refcnt mp -> mp_pwe_refcnt mp + Z.of_nat (length es) < 2 ^ 31 ->
  en (ks_hw s) = (0 <? mp_pwe_refcnt mp) ->
  total (for_ es (rio_pw_enable mport)) s (fun _ s' =>
    let n := foldl pw_depth (mp_pwe_refcnt mp) es in
    en (ks_hw s') = (0 <? n) /\
    s' = with_mport mport (setf mp_pwe_refcnt n mp) (with_hw (ks_hw s') s)).
Proof.
  intros Hmp Hop Hen. revert s mp Hmp Hop.
  induction es as [|e es IH]; intros s mp Hmp Hop H0 Hlt Hon; cbn [for_ foldl].
  - apply spec_ret. split; [done|]. rewrite with_mport_same; [by destruct s|].
    cbn. rewrite Hmp. by destruct mp.
  - cbn [length] in Hlt. apply spec_bind. unfold spec at 1.
    rewrite (run_pw_enable s mport mp pwenable) by (done || lia).
    set (n' := pw_depth _ e). set (s1 := with_mport _ _ _).
    assert (0 <= n' <= mp_pwe_refcnt mp + 1) by (unfold n', pw_depth; destruct (truthy e); lia).
    eapply spec_mono; [apply (IH s1 (setf mp_pwe_refcnt n' mp))|].
    + apply with_mport_lookup.
    + done.
    + cbn. lia.
    + cbn. lia.
    + cbn. destruct (Bool.eqb _ _) eqn:Hb; [by rewrite Hon; apply Bool.eqb_prop|].
      rewrite Hen. unfold n', pw_depth in *. unfold truthy in *.
      destruct (Z.eqb_spec e 0); cbn [negb] in *.
      * destruct (Z.ltb_spec 0 (mp_pwe_refcnt mp)), (Z.ltb_spec 0 (Z.max 0 (mp_pwe_refcnt mp - 1)));
          done || lia.
      * symmetry. apply Z.ltb_lt. lia.
    + intros _ s' [H1 H2]. split; [exact H1|]. rewrite H2 at 1.
      unfold s1, with_mport, with_hw. cbn. by rewrite insert_insert_eq.
Qed.

(** adding a port-write handler that is not yet on the list, then deleting
    it, leaves the port and the allocation balance as they were; when there is no
    memory nothing is added and the deletion reports -EINVAL. *)
Theorem rio_add_del_mport_pw_handler s mport mp context pwcback :
  ks_mports s !! mport = Some mp ->
  (forall x, x ∈ mp_pwrites mp -> pw_pwcback x = pwcback -> pw_context x <> context) ->
  total (rc <- rio_add_mport_pw_handler mport context pwcback ;;
         rc' <- rio_del_mport_pw_handler mport context pwcback ;; ret (rc, rc')) s
    (fun '(rc, rc') s' => same_kernel s s' /\
       (rc = 0 /\ rc' = 0 \/ rc = - ENOMEM /\ rc' = - EINVAL)).
Proof.
  intros Hmp Hnew. unfold spec, rio_add_mport_pw_handler. pose proof (run_kzalloc s) as Hal.
  destruct (env_alloc (ks_hw s)) as [[] w]; cbn [fst snd] in Hal; unfold bind at 1; run Hal.
  - erewrite bind_Done by (by apply upd_mport_with). unfold ret at 1.
    set (p := mk_rio_pwrite pwcback context).
    set (mp1 := setf mp_pwrites (mp_pwrites mp ++ [p]) mp).
    set (s1 := with_mport mport mp1 _). unfold rio_del_mport_pw_handler.
    assert (ks_mports s1 !! mport = Some mp1) as H1 by apply with_mport_lookup.
    unfold bind at 1. run (run_get_mport _ _ _ H1).
    change (mp_pwrites mp1) with (mp_pwrites mp ++ [p]).
    rewrite del_pwrite_app, app_nil_r by done.
    erewrite bind_Done by (by apply upd_mport_with). unfold bind, kfree, modify, ret.
    split; [|by left]. unfold same_kernel, s1, mp1, with_mport, with_allocs, with_hw. cbn.
    rewrite insert_insert_eq, insert_id by (rewrite Hmp; by destruct mp). destruct s. cbn. f_equal. lia.
  - unfold ret at 1. unfold rio_del_mport_pw_handler. unfold bind at 1.
    run (run_get_mport (with_hw w s) mport mp Hmp).
    assert (del_pwrite context pwcback (mp_pwrites mp) = None) as ->.
    { clear Hmp. induction (mp_pwrites mp) as [|x l IH]; [done|]. cbn. rewrite decide_False.
      - rewrite IH; [done|]. intros y Hy. by apply Hnew, list_elem_of_further.
      - intros [Ha Hb]. exact (Hnew x (list_elem_of_here _ _) Ha Hb). }
    unfold ret. split; [apply sk_with_hw|by right].
Qed.
End theorems.

(** ** Witnesses *)

Section witnesses.

Abbreviation s0 := (bench_state ∅ ∅).
Abbreviation mbox_root := (rio_init_mbox_res 0 3).
Abbreviation dbell_root := (rio_init_dbell_res 0 0xffff).

Lemma rio_request_mbox_correct_witness :
  exists s', request_mbox inb_side 1 9 2 16 7 s0 = Done 0 s' /\ ks_allocs s' = 1.
Proof.
  eexists. split; [|shelve].
  etransitivity; [exact (rio_request_mbox_correct inb_side s0 1 bench_mport mbox_root 9 2 16 7
    ltac:(by left) eq_refl eq_refl ltac:(done) ltac:(done) eq_refl)|].
  vm_compute. reflexivity.
  Unshelve. reflexivity.
Defined.

Lemma rio_request_release_mbox_witness :
  total (rc <- request_mbox outb_side 1 9 2 16 7 ;;
         if truthy rc then ret (rc, 0) else
         rc' <- release_mbox outb_side 1 2 ;; ret (rc, rc')) s0
    (fun '(rc, rc') s' => rc' = 0 /\ same_kernel s0 s').
Proof.
  exact (rio_request_release_mbox outb_side s0 1 bench_mport mbox_root 9 2 16 7 (fun _ _ w => w)
    ltac:(by right) eq_refl eq_refl ltac:(done) ltac:(done) eq_refl eq_refl ltac:(done)).
Defined.

Lemma rio_request_mbox_exclusive_witness :
  exists s1, request_mbox inb_side 1 9 2 16 7 s0 = Done 0 s1 /\
    total (request_mbox inb_side 1 8 2 4 6) s1
      (fun rc s2 => same_kernel s1 s2 /\ (rc = - EBUSY \/ rc = - ENOMEM)).
Proof.
  eexists. split; [vm_compute; reflexivity|].
  eapply (rio_request_mbox_exclusive inb_side s0 1 bench_mport mbox_root 9 2 16 7 8 4 6).
  - by left.
  - reflexivity.
  - reflexivity.
  - done.
  - done.
  - reflexivity.
  - vm_compute. reflexivity.
Defined.

Lemma rio_request_inb_dbell_correct_witness :
  exists s', rio_request_inb_dbell 1 9 5 8 7 s0 = Done 0 s' /\ ks_allocs s' = 2.
Proof.
  eexists. split; [|shelve].
  etransitivity; [exact (rio_request_inb_dbell_correct s0 1 bench_mport dbell_root 9 5 8 7
    eq_refl eq_refl)|].
  vm_compute. reflexivity.
  Unshelve. reflexivity.
Defined.

Lemma rio_request_release_inb_dbell_witness :
  exists s1, rio_request_inb_dbell 1 9 5 8 7 s0 = Done 0 s1 /\
    rio_release_inb_dbell 1 5 8 s1 = Done 0 (with_allocs (ks_allocs s0 + 1) (with_hw (ks_hw s1) s0)).
Proof.
  eexists. split; [vm_compute; reflexivity|].
  eapply (rio_request_release_inb_dbell s0 1 bench_mport dbell_root 9 5 8 7).
  - reflexivity.
  - reflexivity.
  - by intros d Hd%elem_of_nil.
  - vm_compute. reflexivity.
Defined.

Lemma rio_pw_enable_counts_witness :
  total (for_ [1; 1; 0; 0; 0; 1] (rio_pw_enable 1)) s0 (fun _ s' =>
    truthy (default 0 (bw_local (ks_hw s') !! 0x1000)) = (0 <? 1) /\
    s' = with_mport 1 (setf mp_pwe_refcnt 1 bench_mport) (with_hw (ks_hw s') s0)).
Proof.
  refine (rio_pw_enable_counts (fun w => truthy (default 0 (bw_local w !! 0x1000))) s0 1 bench_mport
    (fun _ e w => (0, setf bw_local (<[0x1000 := e]> (bw_local w)) w)) [1; 1; 0; 0; 0; 1]
    eq_refl eq_refl _ ltac:(done) ltac:(done) eq_refl).
  intros e w. cbn. by rewrite lookup_insert_eq.
Defined.

Lemma rio_add_del_mport_pw_handler_witness :
  total (rc <- rio_add_mport_pw_handler 1 5 6 ;;
         rc' <- rio_del_mport_pw_handler 1 5 6 ;; ret (rc, rc')) s0
    (fun '(rc, rc') s' => same_kernel s0 s' /\
       (rc = 0 /\ rc' = 0 \/ rc = - ENOMEM /\ rc' = - EINVAL)).
Proof.
  apply (rio_add_del_mport_pw_handler s0 1 bench_mport 5 6); [reflexivity|].
  by intros x Hx%elem_of_nil.
Defined.
End witnesses.
