(* ===== verification/Em.v ===== *)
(** * Error management and inbound port-writes (rio.c)

    Finding a device by component tag, validating access to a device and the
    route to it, port lockout, error-stopped recovery and the handler of
    inbound port-write messages. *)

From S2P Require Import Prelude Regs State Access Hw SwBench ExtFeat Route.

Section em.
Context {W : Type} `{!KernelEnv W}.

(** ** Component tags *)

(** The elements that follow [p] in a list. *)
Fixpoint list_after (p : ptr) (l : list ptr) : option (list ptr) :=
  match l with
  | [] => None
  | q :: l' => if decide (q = p) then Some l' else list_after p l'
  end.

Definition comptag_step (comp_tag : Z) (p : ptr) : KM W (option ptr) :=
  rdev <- get_dev p ;;
  ret (if rd_comp_tag rdev =? comp_tag then Some p else None).

Definition rio_get_comptag (comp_tag : Z) (from : option ptr) : KM W (option ptr) :=
  l <- gets rio_devices ;;
  n <- (match from with Some p => deref (list_after p l) | None => ret l end) ;;
  for_exit n (comptag_step comp_tag).

(** ** Ports *)

Definition rio_set_port_lockout (rdev : ptr) (pnum : Z) (lock : bool) : KM W Z :=
  d <- get_dev rdev ;;
  regval <- uninit ;;
  let! (_, regval) := rio_read_config_32 rdev (RIO_DEV_PORT_N_CTL_CSR d pnum) regval ;;
  let regval :=
    if lock then Z.lor regval RIO_PORT_N_CTL_LOCKOUT
    else Z.land regval (not32 RIO_PORT_N_CTL_LOCKOUT) in
  rio_write_config_32 rdev (RIO_DEV_PORT_N_CTL_CSR d pnum) regval ;;;
  ret 0.

(** With CONFIG_RAPIDIO_ENABLE_RX_TX_PORTS, which the Makefile defines. *)
Definition rio_enable_rx_tx_port (fuel : nat) (port : ptr) (local : bool)
    (destid hopcount port_num : Z) : KM W Z :=
  rmap <- uninit ;;
  let! (ext_ftr_ptr, rmap) := rio_mport_get_physefb fuel port local destid hopcount rmap ;;
  regval <- uninit ;;
  if local then
    let! (_, regval) :=
      rio_local_read_config_32 port (u32 (ext_ftr_ptr + RIO_PORT_N_CTL_CSR 0 rmap)) regval ;;
    rio_local_write_config_32 port (u32 (ext_ftr_ptr + RIO_PORT_N_CTL_CSR 0 rmap))
      (Z.lor (Z.lor regval RIO_PORT_N_CTL_EN_RX) RIO_PORT_N_CTL_EN_TX) ;;;
    ret 0
  else
    let! (rc, regval) :=
      rio_mport_read_config_32 port destid hopcount
        (u32 (ext_ftr_ptr + RIO_PORT_N_CTL_CSR port_num rmap)) regval ;;
    if rc <? 0 then ret (- EIO)
    else
      rc <- rio_mport_write_config_32 port destid hopcount
        (u32 (ext_ftr_ptr + RIO_PORT_N_CTL_CSR port_num rmap))
        (Z.lor (Z.lor regval RIO_PORT_N_CTL_EN_RX) RIO_PORT_N_CTL_EN_TX) ;;
      if rc <? 0 then ret (- EIO) else ret 0.

(** ** Access and route validation *)

(** One round of the search for the failed link; it leaves with the device next
    to the link and the switch before it, if there is one. *)
Definition chk_route_step (v : ptr * Z) : KM W ((ptr * Z) + (ptr * option ptr)) :=
  let '(rdev, result) := v in
  d <- get_dev rdev ;;
  match rd_prev d with
  | None => ret (inr (rdev, None))
  | Some p =>
      dp <- get_dev p ;;
      if truthy (Z.land (rd_pef dp) RIO_PEF_SWITCH) then
        let! (rc, result) := rio_read_config_32 p RIO_DEV_ID_CAR result ;;
        if rc =? 0 then ret (inr (rdev, Some p)) else ret (inl (p, result))
      else ret (inr (rdev, None))
  end.

(** [nrdev] and [npnum] are the old contents of the two variables; the new ones
    are returned with the status. *)
Definition rio_chk_dev_route (fuel : nat) (rdev nrdev : ptr) (npnum : Z)
    : KM W (Z * (ptr * Z)) :=
  result <- uninit ;;
  let! (rdev, prev) := loop fuel chk_route_step (rdev, result) ;;
  match prev with
  | None => ret (- EIO, (nrdev, npnum))
  | Some prev =>
      sw <- get_rswitch prev ;;
      d <- get_dev rdev ;;
      route_table <- deref (rs_route_table sw) ;;
      p_port <- array_get route_table (rd_destid d) ;;
      if negb (p_port =? RIO_INVALID_ROUTE) then ret (0, (prev, p_port))
      else ret (- EIO, (nrdev, npnum))
  end.

Definition chk_access_step (mport : ptr) (destid hopcount : Z) (v : Z * Z)
    : KM W ((Z * Z) + Z) :=
  let '(i, tmp) := v in
  let! (rc, tmp) := rio_mport_read_config_32 mport destid hopcount RIO_DEV_ID_CAR tmp ;;
  if truthy rc then
    let i := i + 1 in
    if i =? RIO_MAX_CHK_RETRY then ret (inr (- EIO))
    else mdelay 1 ;;; ret (inl (i, tmp))
  else ret (inr 0).

Definition rio_mport_chk_dev_access (mport : ptr) (destid hopcount : Z) : KM W Z :=
  tmp <- uninit ;;
  loop (Z.to_nat RIO_MAX_CHK_RETRY) (chk_access_step mport destid hopcount) (0, tmp).

Definition rio_chk_dev_access (rdev : ptr) : KM W Z :=
  d <- get_dev rdev ;;
  hport <- dev_hport d ;;
  rio_mport_chk_dev_access hport (rd_destid d) (rd_hopcount d).

(** ** Error recovery *)

(** [lnkresp] is the old contents of the response variable, [None] for a null
    pointer; the new contents are returned with the status. *)
Definition input_status_poll (rdev : ptr) (d : rio_dev) (pnum : Z) (v : Z * Z)
    : KM W ((Z * Z) + option Z) :=
  let '(checkcount, regval) := v in
  if checkcount =? 0 then ret (inr None)
  else
    udelay 50 ;;;
    let! (_, regval) :=
      rio_read_config_32 rdev (RIO_DEV_PORT_N_MNT_RSP_CSR d pnum) regval ;;
    if truthy (Z.land regval RIO_PORT_N_MNT_RSP_RVAL) then ret (inr (Some regval))
    else ret (inl (checkcount - 1, regval)).

Definition rio_get_input_status (rdev : ptr) (pnum : Z) (lnkresp : option Z)
    : KM W (Z * option Z) :=
  d <- get_dev rdev ;;
  regval <- uninit ;;
  regval <- (match lnkresp with
             | Some _ =>
                 let! (_, regval) :=
                   rio_read_config_32 rdev (RIO_DEV_PORT_N_MNT_RSP_CSR d pnum) regval ;;
                 udelay 50 ;;;
                 ret regval
             | None => ret regval
             end) ;;
  rio_write_config_32 rdev (RIO_DEV_PORT_N_MNT_REQ_CSR d pnum) RIO_MNT_REQ_CMD_IS ;;;
  match lnkresp with
  | None => ret (0, None)
  | Some old =>
      r <- loop 4 (input_status_poll rdev d pnum) (3, regval) ;;
      match r with
      | Some regval => ret (0, Some regval)
      | None => ret (- EIO, Some old)
      end
  end.

(** Bringing the ackIDs of the two ends of a link together. *)
Definition sync_ackids (rdev : ptr) (nextdev : option ptr) (pnum regval : Z) : KM W unit :=
  d <- get_dev rdev ;;
  let far_ackid := Z.shiftr (Z.land regval RIO_PORT_N_MNT_RSP_ASTAT) 5 in
  let! (_, regval) :=
    rio_read_config_32 rdev (RIO_DEV_PORT_N_ACK_STS_CSR d pnum) regval ;;
  let near_ackid := Z.shiftr (Z.land regval RIO_PORT_N_ACK_INBOUND) 24 in
  when (negb (far_ackid =? Z.shiftr (Z.land regval RIO_PORT_N_ACK_OUTSTAND) 8) ||
        negb (far_ackid =? Z.land regval RIO_PORT_N_ACK_OUTBOUND))
    (rio_write_config_32 rdev (RIO_DEV_PORT_N_ACK_STS_CSR d pnum)
       (Z.lor (Z.lor (u32 (Z.shiftl near_ackid 24)) (u32 (Z.shiftl far_ackid 8))) far_ackid) ;;;
     let far_ackid := far_ackid + 1 in
     match nextdev with
     | None => ret tt
     | Some next =>
         nd <- get_dev next ;;
         rio_write_config_32 next
           (RIO_DEV_PORT_N_ACK_STS_CSR nd (RIO_GET_PORT_NUM (rd_swpinfo nd)))
           (Z.lor (Z.lor (u32 (Z.shiftl far_ackid 24)) (u32 (Z.shiftl near_ackid 8)))
              near_ackid) ;;;
         ret tt
     end).

Definition rio_clr_err_stopped (rdev : ptr) (pnum err_status : Z) : KM W Z :=
  sw <- get_rswitch rdev ;;
  nextdev <- array_get (rs_nextdev sw) pnum ;;
  d <- get_dev rdev ;;
  regval <- uninit ;;
  let! (_, err_status) :=
    (if err_status =? 0 then
       rio_read_config_32 rdev (RIO_DEV_PORT_N_ERR_STS_CSR d pnum) err_status
     else ret (0, err_status)) ;;
  let! (_, err_status) :=
    (if truthy (Z.land err_status RIO_PORT_N_ERR_STS_OUT_ES) then
       let! (rc, resp) := rio_get_input_status rdev pnum (Some regval) ;;
       when (negb (truthy rc)) (sync_ackids rdev nextdev pnum (default 0 resp)) ;;;
       rio_read_config_32 rdev (RIO_DEV_PORT_N_ERR_STS_CSR d pnum) err_status
     else ret (0, err_status)) ;;
  let! (_, err_status) :=
    (match nextdev with
     | Some next =>
         if truthy (Z.land err_status RIO_PORT_N_ERR_STS_INP_ES) then
           nd <- get_dev next ;;
           rio_get_input_status next (RIO_GET_PORT_NUM (rd_swpinfo nd)) None ;;;
           udelay 50 ;;;
           rio_read_config_32 rdev (RIO_DEV_PORT_N_ERR_STS_CSR d pnum) err_status
         else ret (0, err_status)
     | None => ret (0, err_status)
     end) ;;
  ret (if truthy (Z.land err_status
                    (Z.lor RIO_PORT_N_ERR_STS_OUT_ES RIO_PORT_N_ERR_STS_INP_ES))
       then 1 else 0).

(** ** The inbound port-write handler *)

(** [1 << n], undefined unless [n] is below the width of int. *)
Definition shift1 (n : Z) : KM W Z :=
  if (0 <=? n) && (n <? 32) then ret (Z.shiftl 1 n) else ub.

(** A register of error flags is cleared if it is not zero. *)
Definition clear_flags (rdev : ptr) (off : Z) : KM W unit :=
  v <- uninit ;;
  let! (_, v) := rio_read_config_32 rdev off v ;;
  when (truthy v) (rio_write_config_32 rdev off 0 ;;; ret tt).

(** A port came up, or is up: note it, and recover from error-stopped states. *)
Definition pw_port_ok (rdev : ptr) (portnum err_status : Z) : KM W unit :=
  sw <- get_rswitch rdev ;;
  bit <- shift1 portnum ;;
  when (negb (truthy (Z.land (rs_port_ok sw) bit)))
    (upd_rswitch rdev (setf rs_port_ok (Z.lor (rs_port_ok sw) bit)) ;;;
     rio_set_port_lockout rdev portnum false ;;; ret tt) ;;;
  when (truthy (Z.land err_status
                  (Z.lor RIO_PORT_N_ERR_STS_OUT_ES RIO_PORT_N_ERR_STS_INP_ES)))
    (rc <- rio_clr_err_stopped rdev portnum err_status ;;
     when (truthy rc) (rio_clr_err_stopped rdev portnum 0 ;;; ret tt)).

(** A port went down, or is down. *)
Definition pw_port_down (rdev : ptr) (portnum : Z) : KM W unit :=
  sw <- get_rswitch rdev ;;
  bit <- shift1 portnum ;;
  when (truthy (Z.land (rs_port_ok sw) bit))
    (upd_rswitch rdev (setf rs_port_ok (Z.land (rs_port_ok sw) (not32 bit))) ;;;
     rio_set_port_lockout rdev portnum true ;;;
     d <- get_dev rdev ;;
     if rd_phys_rmap d =? 1 then
       rio_write_config_32 rdev (RIO_DEV_PORT_N_ACK_STS_CSR d portnum) RIO_PORT_N_ACK_CLEAR ;;;
       ret tt
     else
       rio_write_config_32 rdev (RIO_DEV_PORT_N_OB_ACK_CSR d portnum) RIO_PORT_N_OB_ACK_CLEAR ;;;
       rio_write_config_32 rdev (RIO_DEV_PORT_N_IB_ACK_CSR d portnum) 0 ;;;
       ret tt).

Context `{!SwitchTables W} `{!Externals W}.

(** The part of the handler that serves a switch. *)
Definition pw_switch (rdev : ptr) (portnum : Z) : KM W Z :=
  sw <- get_rswitch rdev ;;
  (match rs_ops sw ≫= (fun p => so_em_handle (switch_ops p)) with
   | Some em_handle => em_handle rdev portnum ;;; ret tt
   | None => ret tt
   end) ;;;
  d <- get_dev rdev ;;
  err_status <- uninit ;;
  let! (_, err_status) :=
    rio_read_config_32 rdev (RIO_DEV_PORT_N_ERR_STS_CSR d portnum) err_status ;;
  (if truthy (Z.land err_status RIO_PORT_N_ERR_STS_PORT_OK)
   then pw_port_ok rdev portnum err_status
   else pw_port_down rdev portnum) ;;;
  d <- get_dev rdev ;;
  clear_flags rdev (rd_em_efptr d + RIO_EM_PN_ERR_DETECT portnum) ;;;
  clear_flags rdev (rd_em_efptr d + RIO_EM_LTL_ERR_DETECT) ;;;
  rio_write_config_32 rdev (RIO_DEV_PORT_N_ERR_STS_CSR d portnum) err_status ;;;
  ret 0.

(** After the callbacks: the device or, when it does not answer, the switch
    before the failed link. *)
Definition pw_device (fuel : nat) (rdev : ptr) (portnum : Z) : KM W Z :=
  acc <- rio_chk_dev_access rdev ;;
  let! (rc, (rdev, portnum)) :=
    (if truthy acc then rio_chk_dev_route fuel rdev rdev portnum
     else ret (0, (rdev, portnum))) ;;
  if truthy rc then ret (- EIO)
  else
    d <- get_dev rdev ;;
    if negb (truthy (Z.land (rd_pef d) RIO_PEF_SWITCH)) then ret 0
    else if rd_phys_efptr d =? 0 then ret 0
    else pw_switch rdev portnum.

Definition rio_inb_pwrite_handler (fuel : nat) (mport : ptr) (pw_msg : rio_pw_msg) : KM W Z :=
  rdev <- rio_get_comptag (Z.land (pw_comptag pw_msg) RIO_CTAG_UDEVID) None ;;
  cb <- (match rdev with
         | None => ret None
         | Some p => d <- get_dev p ;; ret (rd_pwcback d)
         end) ;;
  handled <- (match rdev, cb with
              | Some p, Some pwcback =>
                  rc <- ext_dev_pwcback pwcback p pw_msg 0 ;; ret (rc =? 0)
              | _, _ => ret false
              end) ;;
  if handled : bool then ret 0
  else
    mp <- get_mport mport ;;
    for_ (mp_pwrites mp) (fun pwrite =>
      ext_mport_pwcback (pw_pwcback pwrite) mport (pw_context pwrite) pw_msg 0 ;;; ret tt) ;;;
    match rdev with
    | None => ret 0
    | Some rdev => pw_device fuel rdev (Z.land (pw_is_port pw_msg) 0xff)
    end.
End em.

(** ** Devices that can be accessed *)

Section reach.
Context {W : Type} `{!KernelEnv W}.
Implicit Types s : kstate W.

(** The device [p] is [d], in a network with a host port. *)
Definition reach s (p : ptr) (d : rio_dev) : Prop :=
  ks_devs s !! p = Some d /\ exists n net h mp,
    rd_net d = Some n /\ ks_nets s !! n = Some net /\ net_hport net = Some h /\
    ks_mports s !! h = Some mp.

Lemma reach_sk s s' p d : same_kernel s s' -> reach s p d -> reach s' p d.
Proof. intros ->. done. Qed.

Lemma dev_at_reach s p sw pa : dev_at s p sw pa -> exists d, reach s p d /\ rd_rswitch d = Some sw.
Proof.
  intros [(d & net & n & H1 & H2 & H3 & H4 & H5 & _) Hp]. exists d.
  split; [|done]. split; [done|]. by exists n, net, (pa_port pa), (pa_mp pa).
Qed.

Context (u f : Prop) (s0 : kstate W).
Abbreviation quiet := (fine u f (same_kernel s0)).

Lemma quiet_reach_get p d : reach s0 p d -> quiet (eq d) (get_dev p).
Proof. intros [H _]. by apply quiet_get_dev. Qed.

Lemma quiet_reach_read p d off v :
  reach s0 p d -> 0 <= v < 2 ^ 32 ->
  quiet (fun r => 0 <= r.2 < 2 ^ 32) (rio_read_config_32 p off v).
Proof.
  intros (Hd & n & net & h & mp & H1 & H2 & H3 & H4) Hv. unfold rio_read_config_32.
  eapply fine_bind; [by apply quiet_get_dev|]. intros ? <-.
  eapply fine_bind; [by eapply quiet_dev_hport|]. intros ? <-. by eapply quiet_mport_read.
Qed.

Lemma quiet_reach_write p d off v :
  reach s0 p d -> quiet any (rio_write_config_32 p off v).
Proof.
  intros (Hd & n & net & h & mp & H1 & H2 & H3 & H4). unfold rio_write_config_32.
  eapply fine_bind; [by apply quiet_get_dev|]. intros ? <-.
  eapply fine_bind; [by eapply quiet_dev_hport|]. intros ? <-. by eapply quiet_mport_write.
Qed.

Hint Resolve quiet_reach_get quiet_reach_read quiet_reach_write : fine.

Lemma quiet_port_lockout p d n l : reach s0 p d -> quiet any (rio_set_port_lockout p n l).
Proof. intros H. unfold rio_set_port_lockout. solve_fine. Qed.

Lemma quiet_clear_flags p d off : reach s0 p d -> quiet any (clear_flags p off).
Proof. intros H. unfold clear_flags. solve_fine. Qed.

(** A link response is awaited at most three times; what is returned as one is
    valid. *)
Lemma quiet_input_status p d n resp :
  reach s0 p d ->
  quiet (fun r => r.1 = 0 /\ match resp with
            | None => r.2 = None
            | Some _ => exists v, r.2 = Some v /\ 0 <= v < 2 ^ 32 /\
                          truthy (Z.land v RIO_PORT_N_MNT_RSP_RVAL) = true
            end \/ r = (- EIO, resp))
    (rio_get_input_status p n resp).
Proof.
  intros H. unfold rio_get_input_status. eapply fine_bind; [by eauto with fine|]. intros ? <-.
  eapply fine_bind; [by eauto with fine|]. cbv beta. intros v0 Hv0.
  apply fine_bind with (V := fun v => 0 <= v < 2 ^ 32).
  { destruct resp; [|by apply fine_ret].
    eapply fine_bind; [by eauto with fine|]. intros [rc v] Hv. cbn in Hv. solve_fine. }
  intros v Hv. eapply fine_bind; [by eauto with fine|]. intros _ _.
  destruct resp as [old|]; [|apply fine_ret; by left].
  apply fine_bind with (V := fun r => match r with
    | Some x => 0 <= x < 2 ^ 32 /\ truthy (Z.land x RIO_PORT_N_MNT_RSP_RVAL) = true | None => True end).
  - apply (fine_loop _ _ _ _ (fun x => 0 <= x.1 /\ 0 <= x.2 < 2 ^ 32) (fun x => Z.to_nat x.1));
      [done|cbn; lia|]. clear v0 Hv0 v Hv. intros [c v] [Hc Hv]. cbn in Hc, Hv. unfold input_status_poll.
    destruct (Z.eqb_spec c 0); [by apply fine_ret|].
    eapply fine_bind; [by eauto with fine|]. intros _ _.
    eapply fine_bind; [by eauto with fine|]. intros [rc v'] Hv'. cbn in Hv'.
    destruct (truthy _) eqn:E; apply fine_ret; [done|cbn; lia].
  - intros [x|] Hx; apply fine_ret; [left; eauto 6|by right].
Qed.

(** The neighbours of a switch, where known, can be accessed. *)
Definition nextdevs_ok s (sw : rio_switch) : Prop :=
  forall q, Some q ∈ rs_nextdev sw -> exists dq, reach s q dq.

Lemma quiet_clr_err_stopped p d sw n err :
  reach s0 p d -> rd_rswitch d = Some sw -> nextdevs_ok s0 sw ->
  0 <= n < Z.of_nat (length (rs_nextdev sw)) -> 0 <= err < 2 ^ 32 ->
  quiet (fun rc => rc = 0 \/ rc = 1) (rio_clr_err_stopped p n err).
Proof.
  intros H Hsw Hnext Hn Herr. unfold rio_clr_err_stopped.
  eapply fine_bind; [eapply quiet_get_rswitch; [by apply H|done]|]. intros ? <-.
  eapply fine_bind; [by apply quiet_array_get|]. cbv beta. intros next Hin.
  eapply fine_bind; [by eauto with fine|]. intros ? <-.
  eapply fine_bind; [by eauto with fine|]. cbv beta. intros v0 Hv0.
  assert (forall m : KM W (Z * Z), m = ret (0, err) \/ m = rio_read_config_32 p
    (RIO_DEV_PORT_N_ERR_STS_CSR d n) err -> quiet (fun r => 0 <= r.2 < 2 ^ 32) m) as Hread.
  { intros m [-> | ->]; [by apply fine_ret|by eauto with fine]. }
  eapply fine_bind; [apply Hread; destruct (err =? 0); auto|]. clear Hread.
  intros [rc1 err1] Herr1. cbn in Herr1.
  apply fine_bind with (V := fun r => 0 <= r.2 < 2 ^ 32).
  { destruct (truthy _); [|by apply fine_ret].
    eapply fine_bind; [by eapply quiet_input_status|]. cbv beta. intros [rc resp] Hresp.
    eapply (fine_bind _ _ _ any); [|intros; by eauto with fine].
    apply fine_when; [done|]. intros Hrc. cbn in Hresp.
    destruct Hresp as [[_ (v & -> & Hv & _)]|[= -> ->]]; [|done]. cbn.
    unfold sync_ackids. eapply fine_bind; [by eauto with fine|]. intros ? <-.
    eapply fine_bind; [by eauto with fine|]. intros [rc' v'] Hv'. cbn in Hv'.
    apply fine_when; [done|]. intros _. eapply fine_bind; [by eauto with fine|]. intros _ _.
    destruct next as [q|]; [|by apply fine_ret]. destruct (Hnext q Hin) as [dq Hq]. solve_fine. }
  intros [rc2 err2] Herr2. cbn in Herr2.
  apply fine_bind with (V := fun r => 0 <= r.2 < 2 ^ 32).
  { destruct next as [q|]; [|by apply fine_ret]. destruct (Hnext q Hin) as [dq Hq].
    destruct (truthy _); [|by apply fine_ret].
    eapply fine_bind; [by eauto with fine|]. intros ? <-.
    eapply fine_bind; [by eapply quiet_input_status|]. intros _ _.
    eapply fine_bind; [by eauto with fine|]. intros _ _. by eauto with fine. }
  intros [rc3 err3] _. apply fine_ret. destruct (truthy _); auto.
Qed.
End reach.

#[export] Hint Resolve quiet_reach_get quiet_reach_read quiet_reach_write quiet_port_lockout
  quiet_clear_flags : fine.

(** ** Access and route validation *)

Section access.
Context {W : Type} `{!KernelEnv W}.
Implicit Types (s : kstate W) (pa : path W).

(** The hardware after a probe, and whether the probe succeeds. *)
Definition probe_next pa (w : W) : W := env_udelay 1000 (reg_read pa RIO_DEV_ID_CAR w).2.
Definition probe_ok pa (w : W) : bool := (reg_read pa RIO_DEV_ID_CAR w).1.1 =? 0.

Lemma run_chk_dev_access pa s :
  on_path s pa ->
  exists w, rio_mport_chk_dev_access (pa_port pa) (pa_destid pa) (pa_hop pa) s =
    Done (if probe_ok pa (ks_hw s) || probe_ok pa (probe_next pa (ks_hw s)) ||
             probe_ok pa (probe_next pa (probe_next pa (ks_hw s)))
          then 0 else - EIO) (with_hw w s).
Proof.
  intros Hs. unfold rio_mport_chk_dev_access. run (run_uninit s).
  change (Z.to_nat RIO_MAX_CHK_RETRY) with 3%nat.
  generalize (u32 (env_indet (ks_hw s))). intros v0.
  assert (forall w v i B (k : _ -> KM W B), bind (chk_access_step (pa_port pa) (pa_destid pa) (pa_hop pa) (i, v)) k (with_hw w s) =
    let v' := u32 (reg_read pa RIO_DEV_ID_CAR w).1.2 in
    if probe_ok pa w then k (inr 0) (with_hw (reg_read pa RIO_DEV_ID_CAR w).2 s)
    else if i + 1 =? 3 then k (inr (- EIO)) (with_hw (reg_read pa RIO_DEV_ID_CAR w).2 s)
    else k (inl (i + 1, v')) (with_hw (probe_next pa w) s)) as Hstep.
  { intros w v i B k. unfold chk_access_step. unfold bind at 1. fold_path pa.
    run (run_read (with_hw w s) pa RIO_DEV_ID_CAR v Hs eq_refl). cbn [fst snd]. rewrite hw_with_hw.
    unfold probe_ok, truthy. destruct (_ =? 0); cbn [negb]; [done|].
    change RIO_MAX_CHK_RETRY with 3. by destruct (i + 1 =? 3). }
  pose proof (Hstep (ks_hw s)) as Hstep0. replace (with_hw (ks_hw s) s) with s in Hstep0 by (by destruct s).
  cbn [loop]. rewrite Hstep0. clear Hstep0. cbv zeta. destruct (probe_ok pa (ks_hw s)); [by eexists|].
  change (0 + 1 =? 3) with false. cbv iota. cbn [loop]. rewrite Hstep. cbv zeta.
  destruct (probe_ok pa (probe_next pa (ks_hw s))); [by eexists|].
  change (0 + 1 + 1 =? 3) with false. cbv iota. cbn [loop]. rewrite Hstep. cbv zeta.
  destruct (probe_ok pa (probe_next _ _)); [by eexists|].
  change (0 + 1 + 1 + 1 =? 3) with true. by eexists.
Qed.

(** The switches before a device on the way from the host, the nearest first. *)
Inductive prev_chain s : ptr -> list ptr -> Prop :=
| chain_end rdev d :
    ks_devs s !! rdev = Some d ->
    (forall p, rd_prev d = Some p -> exists dp,
       ks_devs s !! p = Some dp /\ truthy (Z.land (rd_pef dp) RIO_PEF_SWITCH) = false) ->
    prev_chain s rdev []
| chain_switch rdev d p dp l :
    ks_devs s !! rdev = Some d -> rd_prev d = Some p ->
    ks_devs s !! p = Some dp -> truthy (Z.land (rd_pef dp) RIO_PEF_SWITCH) = true ->
    prev_chain s p l ->
    prev_chain s rdev (p :: l).

(** The first switch on the way back that answers, with the device after it. *)
Fixpoint failed_link (alive : ptr -> bool) (rdev : ptr) (l : list ptr) : option (ptr * ptr) :=
  match l with
  | [] => None
  | p :: l' => if alive p then Some (rdev, p) else failed_link alive p l'
  end.

(** The port that the saved routing table of [sw] gives for [rdev]. *)
Definition route_to s (sw rdev : ptr) : option Z :=
  d ← ks_devs s !! rdev; ds ← ks_devs s !! sw; rs ← rd_rswitch ds; tbl ← rs_route_table rs;
  if 0 <=? rd_destid d then tbl !! Z.to_nat (rd_destid d) else None.

(** Whether a device answers does not change during the search. *)
Definition probed s (alive : ptr -> bool) (p : ptr) : Prop :=
  forall s' v, same_kernel s s' ->
    total (rio_read_config_32 p RIO_DEV_ID_CAR v) s'
      (fun r s2 => same_kernel s s2 /\ (r.1 =? 0) = alive p).

Lemma chk_route_loop s alive rdev l fuel s1 v :
  prev_chain s rdev l -> (forall p, p ∈ l -> probed s alive p) -> (length l < fuel)%nat ->
  same_kernel s s1 ->
  total (loop fuel chk_route_step (rdev, v)) s1 (fun r s' => same_kernel s s' /\
    match failed_link alive rdev l with
    | Some (below, sw) => r = (below, Some sw)
    | None => r.2 = None
    end).
Proof.
  intros Hc. revert fuel s1 v.
  induction Hc as [rdev d Hd Hend|rdev d p dp l Hd Hp Hdp Hpef Hc IH]; intros fuel s1 v Hpr Hf Hk;
    (destruct fuel as [|fuel]; [cbn in Hf; lia|]); cbn [loop]; apply spec_bind; unfold chk_route_step;
    assert (ks_devs s1 = ks_devs s) as Hds by (by apply sk_devs).
  - srun (run_get_dev s1 rdev d ltac:(by rewrite Hds)). destruct (rd_prev d) as [p|].
    + destruct (Hend p eq_refl) as (dp & Hdp & Hpef).
      srun (run_get_dev s1 p dp ltac:(by rewrite Hds)). rewrite Hpef. by apply spec_ret, spec_ret.
    + by apply spec_ret, spec_ret.
  - srun (run_get_dev s1 rdev d ltac:(by rewrite Hds)). rewrite Hp.
    srun (run_get_dev s1 p dp ltac:(by rewrite Hds)). rewrite Hpef.
    apply spec_bind. eapply spec_mono; [by apply Hpr; [apply list_elem_of_here|]|].
    cbv beta. intros [rc v'] s2 [Hk2 Halive]. cbn [fst snd] in *. cbn [failed_link]. rewrite <- Halive.
    destruct (rc =? 0); [by apply spec_ret, spec_ret|]. apply spec_ret, IH; [|cbn in Hf; lia|done].
    intros q Hq. by apply Hpr, list_elem_of_further.
Qed.
End access.

(** ** The handler *)

Section handler.
Context {W : Type} `{!KernelEnv W}.
Implicit Types (s : kstate W) (pa : path W).

(** Searching by component tag. *)
Definition has_tag s (tag : Z) (p : ptr) : bool :=
  match ks_devs s !! p with Some d => rd_comp_tag d =? tag | None => false end.

Lemma run_get_comptag s tag :
  Forall (fun p => is_Some (ks_devs s !! p)) (rio_devices s) ->
  rio_get_comptag tag None s = Done (List.find (has_tag s tag) (rio_devices s)) s.
Proof.
  intros Hok. unfold rio_get_comptag, bind at 1, gets. rewrite bind_ret.
  induction Hok as [|p l [d Hd] _ IH]; [done|]. cbn [for_exit List.find].
  unfold comptag_step at 1. erewrite bind_Done.
  2: { run (run_get_dev _ _ _ Hd). unfold ret. reflexivity. }
  unfold has_tag at 1. rewrite Hd. destruct (_ =? tag); [done|apply IH].
Qed.

(** A call that ends, followed by an undefined access. *)
Lemma ub_bind {A B} (m : KM W A) (k : A -> KM W B) s Q :
  total m s Q -> (forall a s', Q a s' -> k a s' = UB) -> bind m k s = UB.
Proof. unfold spec, bind. destruct (m s); [auto|done..]. Qed.

Lemma quiet_const_read (u f : Prop) s0 p sw pa off v val `{!ConstReg pa (u32 off) val} :
  dev_at s0 p sw pa -> RIO_32_BAD (u32 off) = false ->
  fine u f (same_kernel s0) (eq (0, val)) (rio_read_config_32 p off v).
Proof.
  intros Hda Hoff s Hs. unfold spec. rewrite (dev_read_path s p sw pa) by by eapply dev_at_sk.
  rewrite run_read; [|eapply on_path_sk; [done|apply Hda]|done]. rewrite const_read. cbn [fst snd].
  rewrite u32_small by apply const_val. split; [done|]. eapply sk_trans; [done|apply sk_with_hw].
Qed.

(** A device that answers with its id passes the access check at once. *)
Lemma quiet_chk_access (u f : Prop) s0 p sw pa val `{!ConstReg pa RIO_DEV_ID_CAR val} :
  dev_at s0 p sw pa -> fine u f (same_kernel s0) (eq 0) (rio_chk_dev_access p).
Proof.
  intros Hda s Hs. unfold rio_chk_dev_access, spec.
  destruct (dev_at_sk _ _ _ _ _ Hs Hda) as [(d & net & n & H1 & _ & H3 & H4 & H5 & H6 & H7) Hp].
  run (run_get_dev _ _ _ H1). run (run_dev_hport _ _ _ _ _ H3 H4 H5). rewrite H6, H7.
  destruct (run_chk_dev_access pa s Hp) as [w ->]. unfold probe_ok at 1. rewrite const_read. cbn [fst snd].
  split; [done|]. eapply sk_trans; [done|apply sk_with_hw].
Qed.

(** The state with the port status of a switch replaced. *)
Definition with_port_ok (p : ptr) (d : rio_dev) (sw : rio_switch) (v : Z) s : kstate W :=
  with_dev p (setf rd_rswitch (Some (setf rs_port_ok v sw)) d) s.

Lemma with_port_ok_same p d sw s :
  ks_devs s !! p = Some d -> rd_rswitch d = Some sw -> with_port_ok p d sw (rs_port_ok sw) s = s.
Proof.
  intros Hd Hsw. apply with_dev_same. rewrite Hd. f_equal. destruct d, sw. cbn in *. by subst.
Qed.

Lemma with_port_ok_dev_at s p d sw pa v :
  dev_at s p sw pa -> ks_devs s !! p = Some d ->
  dev_at (with_port_ok p d sw v s) p (setf rs_port_ok v sw) pa.
Proof.
  intros [(d' & net & n & H1 & H2 & H3) Hp] Hd. split; [|done].
  assert (d' = d) as -> by congruence.
  exists (setf rd_rswitch (Some (setf rs_port_ok v sw)) d), net, n.
  split; [apply with_dev_lookup|]. split; [done|exact H3].
Qed.

Lemma with_port_ok_reach s p d sw v q dq :
  ks_devs s !! p = Some d -> reach s q dq -> exists dq', reach (with_port_ok p d sw v s) q dq'.
Proof.
  intros Hd (Hq & n & net & h & mp & H1 & H2 & H3 & H4).
  destruct (decide (q = p)) as [->|Hne].
  - exists (setf rd_rswitch (Some (setf rs_port_ok v sw)) d). split; [apply with_dev_lookup|].
    assert (dq = d) as -> by congruence. by exists n, net, h, mp.
  - exists dq. split; [by cbn; rewrite lookup_insert_ne|]. by exists n, net, h, mp.
Qed.

(** The port status word after an event on port [n]. *)
Definition port_status (ok : bool) (n old : Z) : Z :=
  if ok then Z.lor old (Z.shiftl 1 n) else Z.land old (not32 (Z.shiftl 1 n)).

Lemma port_status_bits ok n old i :
  0 <= n < 32 -> 0 <= i < 32 ->
  Z.testbit (port_status ok n old) i = if i =? n then ok else Z.testbit old i.
Proof.
  intros Hn Hi. unfold port_status.
  assert (Z.testbit (Z.shiftl 1 n) i = (i =? n)) as Hb.
  { rewrite Z.shiftl_1_l, Z.pow2_bits_eqb, Z.eqb_sym by lia. done. }
  destruct ok.
  - rewrite Z.lor_spec, Hb. destruct (i =? n); [apply orb_true_r|apply orb_false_r].
  - rewrite Z.land_spec. unfold not32, u32. rewrite Z.mod_pow2_bits_low, Z.lnot_spec, Hb by lia.
    destruct (i =? n); [apply andb_false_r|apply andb_true_r].
Qed.

Lemma port_bit_status n old :
  0 <= n < 32 -> truthy (Z.land old (Z.shiftl 1 n)) = Z.testbit old n.
Proof.
  intros Hn. rewrite Z.shiftl_1_l. unfold truthy. rewrite Z.land_comm. destruct (Z.testbit old n) eqn:E.
  - destruct (Z.eqb_spec (Z.land (2 ^ n) old) 0) as [H0|]; [|done].
    assert (Z.testbit (Z.land (2 ^ n) old) n = true) as H1
      by (rewrite Z.land_spec, Z.pow2_bits_true, E by lia; done).
    by rewrite H0, Z.bits_0 in H1.
  - assert (Z.land (2 ^ n) old = 0) as ->; [|done]. apply Z.bits_inj'. intros i Hi.
    rewrite Z.land_spec, Z.pow2_bits_eqb, Z.bits_0 by lia.
    destruct (Z.eqb_spec n i) as [<-|]; [by rewrite E|done].
Qed.
End handler.

Section events.
Context {W : Type} `{!KernelEnv W} (pa : path W).
Implicit Types s : kstate W.

Lemma port_status_same ok n old :
  0 <= n < 32 -> 0 <= old < 2 ^ 32 -> Z.testbit old n = ok -> port_status ok n old = old.
Proof.
  intros Hn Ho Hb. apply Z.bits_inj'. intros i Hi. destruct (Z.ltb_spec i 32) as [Hlt|Hge].
  - rewrite port_status_bits by lia. destruct (Z.eqb_spec i n) as [->|]; [by rewrite Hb|done].
  - rewrite <- (Z.mod_small old (2 ^ 32)) at 2 by lia. rewrite Z.mod_pow2_bits_high by lia.
    rewrite <- (Z.mod_small (port_status ok n old) (2 ^ 32)); [by rewrite Z.mod_pow2_bits_high by lia|].
    unfold port_status. destruct ok.
    + split; [apply Z.lor_nonneg; rewrite Z.shiftl_1_l; lia|].
      assert (Z.shiftl 1 n < 2 ^ 32) by (rewrite Z.shiftl_1_l; apply Z.pow_lt_mono_r; lia).
      rewrite <- (Z.mod_small old (2 ^ 32)), <- (Z.mod_small (Z.shiftl 1 n) (2 ^ 32))
        by (rewrite ?Z.shiftl_1_l in *; lia).
      rewrite <- !Z.land_ones, <- Z.land_lor_distr_l, Z.land_ones by lia. apply Z.mod_pos_bound. lia.
    + rewrite Z.land_comm. pose proof (u32_range (Z.lnot (Z.shiftl 1 n))) as Hr. unfold not32.
      pose proof (land_nonneg_le old (u32 (Z.lnot (Z.shiftl 1 n))) ltac:(lia)). rewrite Z.land_comm. lia.
Qed.

(** The state after the status of the port has been recorded. *)
Lemma pw_status_set s p d sw ok n :
  dev_at s p sw pa -> ks_devs s !! p = Some d ->
  0 <= n < 32 -> 0 <= rs_port_ok sw < 2 ^ 32 ->
  Z.testbit (rs_port_ok sw) n = ok ->
  with_port_ok p d sw (port_status ok n (rs_port_ok sw)) s = s.
Proof.
  intros Hda Hd Hn Ho Hb. rewrite port_status_same by done.
  destruct Hda as [(d' & _ & _ & H1 & H2 & _) _]. assert (d' = d) as -> by congruence.
  by apply with_port_ok_same.
Qed.

Lemma run_set_port_ok s p d sw v :
  dev_at s p sw pa -> ks_devs s !! p = Some d ->
  upd_rswitch p (setf rs_port_ok v) s = Done tt (with_port_ok p d sw v s).
Proof.
  intros Hda Hd. unfold upd_rswitch. run (run_dev_rswitch _ _ _ _ Hda).
  by rewrite (run_upd_dev _ _ _ _ Hd).
Qed.

Lemma run_shift1 s n : 0 <= n < 32 -> shift1 n s = Done (Z.shiftl 1 n) s.
Proof. intros Hn. unfold shift1. destruct (Z.leb_spec 0 n), (Z.ltb_spec n 32); done || lia. Qed.

(** Recording the status of a port: [m] follows if it changed. *)
Lemma pw_record s p d sw ok n (m : KM W unit) :
  dev_at s p sw pa -> ks_devs s !! p = Some d ->
  0 <= n < 32 -> 0 <= rs_port_ok sw < 2 ^ 32 ->
  let s1 := with_port_ok p d sw (port_status ok n (rs_port_ok sw)) s in
  fine False False (same_kernel s1) any m ->
  total (when (negb (Bool.eqb (Z.testbit (rs_port_ok sw) n) ok))
           (upd_rswitch p (setf rs_port_ok (port_status ok n (rs_port_ok sw))) ;;; m)) s
    (fun _ s' => same_kernel s1 s').
Proof.
  intros Hda Hd Hn Ho s1 Hm. apply spec_when; intros Hb.
  - srun (run_set_port_ok s p d sw (port_status ok n (rs_port_ok sw)) Hda Hd).
    eapply spec_mono; [by apply Hm, sk_refl|]. by intros _ s' [_ ?].
  - apply negb_false_iff, Bool.eqb_prop in Hb. unfold s1. by rewrite (pw_status_set s p d sw ok n).
Qed.

Lemma reach_with_port_ok s p d sw v :
  dev_at s p sw pa -> ks_devs s !! p = Some d ->
  reach (with_port_ok p d sw v s) p (setf rd_rswitch (Some (setf rs_port_ok v sw)) d).
Proof.
  intros Hda Hd. destruct (dev_at_reach _ _ _ _ Hda) as (d' & [Hd' (x & net & h & mp & H1 & H2)] & _).
  assert (d' = d) as -> by congruence. split; [apply with_dev_lookup|]. by exists x, net, h, mp.
Qed.

Lemma pw_port_ok_spec s p d sw n err :
  dev_at s p sw pa -> ks_devs s !! p = Some d -> nextdevs_ok s sw ->
  0 <= n < 32 -> n < Z.of_nat (length (rs_nextdev sw)) -> 0 <= err < 2 ^ 32 ->
  0 <= rs_port_ok sw < 2 ^ 32 ->
  total (pw_port_ok p n err) s
    (fun _ s' => same_kernel (with_port_ok p d sw (port_status true n (rs_port_ok sw)) s) s').
Proof.
  intros Hda Hd Hnext Hn Hlen Herr Ho. unfold pw_port_ok. srun (run_dev_rswitch _ _ _ _ Hda).
  srun (run_shift1 s n Hn). rewrite port_bit_status by done.
  pose proof (reach_with_port_ok s p d sw (port_status true n (rs_port_ok sw)) Hda Hd) as Hr.
  set (s1 := with_port_ok _ _ _ _ s) in *. apply spec_bind.
  replace (negb (Z.testbit (rs_port_ok sw) n)) with (negb (Bool.eqb (Z.testbit (rs_port_ok sw) n) true))
    by (by destruct (Z.testbit _ _)).
  eapply spec_mono; [apply (pw_record s p d sw true n); try done; solve_fine|].
  cbv beta. intros _ s2 Hk. fold s1 in Hk.
  assert (nextdevs_ok s1 (setf rs_port_ok (port_status true n (rs_port_ok sw)) sw)) as Hnext1.
  { intros q Hq. destruct (Hnext q Hq) as [dq Hdq]. by eapply with_port_ok_reach. }
  enough (fine False False (same_kernel s1) any (when (truthy (Z.land err
      (Z.lor RIO_PORT_N_ERR_STS_OUT_ES RIO_PORT_N_ERR_STS_INP_ES)))
    (rc <- rio_clr_err_stopped p n err ;;
     when (truthy rc) (rio_clr_err_stopped p n 0 ;;; ret tt)))) as Hf.
  { eapply spec_mono; [by apply Hf|]. by intros _ s' [_ ?]. }
  apply fine_when; [done|]. intros _.
  eapply fine_bind; [eapply quiet_clr_err_stopped; [done|done|done|cbn; lia|done]|].
  intros rc _. apply fine_when; [done|]. intros _.
  eapply fine_bind; [eapply quiet_clr_err_stopped; [done|done|done|cbn; lia|done]|].
  intros _ _. by apply fine_ret.
Qed.

Lemma pw_port_down_spec s p d sw n :
  dev_at s p sw pa -> ks_devs s !! p = Some d ->
  0 <= n < 32 -> 0 <= rs_port_ok sw < 2 ^ 32 ->
  total (pw_port_down p n) s
    (fun _ s' => same_kernel (with_port_ok p d sw (port_status false n (rs_port_ok sw)) s) s').
Proof.
  intros Hda Hd Hn Ho. unfold pw_port_down. srun (run_dev_rswitch _ _ _ _ Hda).
  srun (run_shift1 s n Hn). rewrite port_bit_status by done.
  pose proof (reach_with_port_ok s p d sw (port_status false n (rs_port_ok sw)) Hda Hd) as Hr.
  replace (Z.testbit (rs_port_ok sw) n) with (negb (Bool.eqb (Z.testbit (rs_port_ok sw) n) false))
    by (by destruct (Z.testbit _ _)).
  apply (pw_record s p d sw false n); try done. solve_fine.
Qed.
End events.

(** ** Properties of the port-write handler *)

Section theorems.
Context {W : Type} `{!KernelEnv W} `{!SwitchTables W} `{!Externals W} (pa : path W).
Implicit Types s : kstate W.

(** A port-write message [m] of the switch [p], which is reached over [pa] and
    has neither callbacks nor an error handler of its own. *)
Record pw_source s (mport : ptr) (m : rio_pw_msg) (p : ptr) (d : rio_dev) (sw : rio_switch)
    : Prop := {
  ps_list : Forall (fun q => is_Some (ks_devs s !! q)) (rio_devices s);
  ps_tag : List.find (has_tag s (Z.land (pw_comptag m) RIO_CTAG_UDEVID)) (rio_devices s) = Some p;
  ps_dev : ks_devs s !! p = Some d;
  ps_at : dev_at s p sw pa;
  ps_nocb : rd_pwcback d = None;
  ps_mport : exists mp, ks_mports s !! mport = Some mp /\ mp_pwrites mp = [];
  ps_pef : truthy (Z.land (rd_pef d) RIO_PEF_SWITCH) = true;
  ps_phys : rd_phys_efptr d <> 0;
  ps_noem : rs_ops sw ≫= (fun o => so_em_handle (switch_ops o)) = None;
}.

Lemma run_pw_handler s fuel mport m p d sw id `{!ConstReg pa RIO_DEV_ID_CAR id} :
  pw_source s mport m p d sw ->
  exists w, rio_inb_pwrite_handler fuel mport m s
            = pw_switch p (Z.land (pw_is_port m) 0xff) (with_hw w s).
Proof.
  intros [Hl Ht Hd Ha Hcb (mp & Hmp & Hpw) Hpef Hph Hem]. unfold rio_inb_pwrite_handler.
  run (run_get_comptag s (Z.land (pw_comptag m) RIO_CTAG_UDEVID) Hl). rewrite Ht.
  unfold bind at 1. run (run_get_dev _ _ _ Hd). unfold ret at 1. rewrite Hcb, bind_ret.
  run (run_get_mport _ _ _ Hmp). rewrite Hpw. cbn [for_]. rewrite bind_ret. unfold pw_device.
  pose proof (quiet_chk_access False False s p sw pa id Ha s (sk_refl s)) as Hc.
  apply total_Done in Hc as (rc & s1 & Hc & <- & Hk). run Hc. cbn [truthy Z.eqb negb].
  rewrite bind_ret. cbn [truthy Z.eqb negb].
  assert (ks_devs s1 !! p = Some d) as Hd1 by (by rewrite (sk_devs _ _ Hk)).
  run (run_get_dev _ _ _ Hd1). rewrite Hpef. cbn [negb].
  destruct (Z.eqb_spec (rd_phys_efptr d) 0); [done|]. exists (ks_hw s1). by rewrite <- Hk.
Qed.

(** C39: the status word of a switch follows its ports.  The message is from a
    switch that is accessible, has the error management block (phys_efptr), whose
    driver has no em_handle operation (unlike tsi57x and idt_gen2), whose device
    object has no pwcback, at a port without port-write handlers ([pw_source]); it
    reports a port below 32 that the switch has ([rio_inb_pwrite_handler_bad_port]
    has the others).  Then the handler leaves that port's bit of port_ok equal to the
    PORT_OK bit of the port's error status register and every other bit unchanged;
    nothing else but hardware changes, all accesses are in bounds, and the handler
    returns 0, whatever the other registers hold. *)
Theorem rio_inb_pwrite_handler_port_ok s fuel mport m p d sw id err
    `{!ConstReg pa RIO_DEV_ID_CAR id} :
  let n := Z.land (pw_is_port m) 0xff in
  pw_source s mport m p d sw -> nextdevs_ok s sw ->
  ConstReg pa (RIO_DEV_PORT_N_ERR_STS_CSR d n) err ->
  RIO_32_BAD (RIO_DEV_PORT_N_ERR_STS_CSR d n) = false ->
  n < 32 -> n < Z.of_nat (length (rs_nextdev sw)) -> 0 <= rs_port_ok sw < 2 ^ 32 ->
  total (rio_inb_pwrite_handler fuel mport m) s (fun rc s' => rc = 0 /\
    exists v, same_kernel (with_port_ok p d sw v s) s' /\
      forall i, 0 <= i < 32 -> Z.testbit v i =
        if i =? n then truthy (Z.land err RIO_PORT_N_ERR_STS_PORT_OK)
        else Z.testbit (rs_port_ok sw) i).
Proof.
  intros n Hsrc Hnext Hreg Hoff Hn Hlen Ho. pose proof (ps_dev _ _ _ _ _ _ Hsrc) as Hd.
  assert (0 <= n) as Hn0 by (unfold n; rewrite land_ff; apply Z.mod_pos_bound; lia).
  unfold spec. destruct (run_pw_handler s fuel mport m p d sw id Hsrc) as [w ->]. fold n.
  pose proof (dev_at_sk _ _ _ _ _ (sk_with_hw s w) (ps_at _ _ _ _ _ _ Hsrc)) as Ha.
  set (s1 := with_hw w s) in *. assert (ks_devs s1 !! p = Some d) as Hd1 by done.
  change (total (pw_switch p n) s1 (fun rc s' => rc = 0 /\
    exists v, same_kernel (with_port_ok p d sw v s) s' /\
      forall i, 0 <= i < 32 -> Z.testbit v i =
        if i =? n then truthy (Z.land err RIO_PORT_N_ERR_STS_PORT_OK)
        else Z.testbit (rs_port_ok sw) i)).
  unfold pw_switch. srun (run_dev_rswitch _ _ _ _ Ha). rewrite (ps_noem _ _ _ _ _ _ Hsrc).
  apply spec_bind, spec_ret. srun (run_get_dev _ _ _ Hd1). srun (run_uninit s1). apply spec_bind.
  assert (u32 (RIO_DEV_PORT_N_ERR_STS_CSR d n) = RIO_DEV_PORT_N_ERR_STS_CSR d n) as Hu
    by (apply u32_small, u32_range).
  rewrite <- Hu in Hreg, Hoff.
  eapply spec_mono; [by eapply (quiet_const_read False False s1 p sw pa); [..|apply sk_refl]|].
  cbv beta. intros ? s2 [<- Hk2]. pose proof (dev_at_sk _ _ _ _ _ Hk2 Ha) as Ha2.
  assert (ks_devs s2 !! p = Some d) as Hd2 by (by rewrite (sk_devs _ _ Hk2)).
  assert (nextdevs_ok s2 sw) as Hnext2.
  { intros q Hq. destruct (Hnext q Hq) as [dq Hdq]. exists dq. by apply (reach_sk s1). }
  assert (0 <= err < 2 ^ 32) as Herr by apply Hreg.
  set (ok := truthy (Z.land err RIO_PORT_N_ERR_STS_PORT_OK)).
  set (s3 := with_port_ok p d sw (port_status ok n (rs_port_ok sw)) s2).
  apply spec_bind, spec_mono with (P := fun _ s' => same_kernel s3 s').
  { unfold s3. destruct ok; [by apply (pw_port_ok_spec pa)|by apply (pw_port_down_spec pa)]. }
  cbv beta. intros _ s4 Hk4.
  pose proof (reach_with_port_ok pa s2 p d sw (port_status ok n (rs_port_ok sw)) Ha2 Hd2) as Hr.
  fold s3 in Hr. eapply spec_mono.
  { enough (fine False False (same_kernel s3) (eq 0) (d0 <- get_dev p ;;
      clear_flags p (rd_em_efptr d0 + RIO_EM_PN_ERR_DETECT n) ;;;
      clear_flags p (rd_em_efptr d0 + RIO_EM_LTL_ERR_DETECT) ;;;
      rio_write_config_32 p (RIO_DEV_PORT_N_ERR_STS_CSR d0 n) err ;;; ret 0)) as Hf by by apply Hf.
    solve_fine. }
  cbv beta. intros rc s5 [<- Hk5]. split; [done|].
  exists (port_status ok n (rs_port_ok sw)). split.
  - etransitivity; [|exact Hk5]. unfold s3. rewrite Hk2. done.
  - intros i Hi. by apply port_status_bits.
Qed.

(** The port number of a port-write message is not checked.  A message from
    an accessible switch that reports a port of 32 or more makes the handler
    shift 1 by that number, an undefined operation, whatever the switch
    answers. *)
Theorem rio_inb_pwrite_handler_bad_port s fuel mport m p d sw id
    `{!ConstReg pa RIO_DEV_ID_CAR id} :
  pw_source s mport m p d sw -> 32 <= Z.land (pw_is_port m) 0xff ->
  rio_inb_pwrite_handler fuel mport m s = UB.
Proof.
  set (n := Z.land (pw_is_port m) 0xff). intros Hsrc Hn.
  destruct (run_pw_handler s fuel mport m p d sw id Hsrc) as [w ->]. fold n.
  pose proof (dev_at_sk _ _ _ _ _ (sk_with_hw s w) (ps_at _ _ _ _ _ _ Hsrc)) as Ha.
  assert (ks_devs (with_hw w s) !! p = Some d) as Hd by apply (ps_dev _ _ _ _ _ _ Hsrc).
  unfold pw_switch. run (run_dev_rswitch _ _ _ _ Ha). rewrite (ps_noem _ _ _ _ _ _ Hsrc), bind_ret.
  run (run_get_dev _ _ _ Hd). run (run_uninit (with_hw w s)).
  eapply ub_bind; [eapply (quiet_dev_read False False); [exact Ha|apply u32_range|apply sk_refl]|].
  cbv beta. intros [rc err] s2 [_ Hk2]. pose proof (dev_at_sk _ _ _ _ _ Hk2 Ha) as Ha2.
  assert (shift1 n s2 = UB) as Hsh.
  { unfold shift1. destruct (Z.ltb_spec n 32); [lia|]. by rewrite andb_false_r. }
  unfold bind at 1. destruct (truthy _).
  - unfold pw_port_ok. rewrite (bind_Done _ _ _ _ _ (run_dev_rswitch _ _ _ _ Ha2)).
    unfold bind at 1. by rewrite Hsh.
  - unfold pw_port_down. rewrite (bind_Done _ _ _ _ _ (run_dev_rswitch _ _ _ _ Ha2)).
    unfold bind at 1. by rewrite Hsh.
Qed.

(** When a device does not answer, the route trace ends after at most as
    many rounds as there are switches before the device and names the nearest
    switch that answers, with the port that its routing table gives for the
    device after it; it fails with -EIO, leaving the reported device and port,
    when no switch answers or there is no route. *)
Theorem rio_chk_dev_route_correct s alive fuel rdev nrdev npnum l :
  prev_chain s rdev l -> (forall p, p ∈ l -> probed s alive p) -> (length l < fuel)%nat ->
  (forall below sw, failed_link alive rdev l = Some (below, sw) -> is_Some (route_to s sw below)) ->
  total (rio_chk_dev_route fuel rdev nrdev npnum) s (fun r s' => same_kernel s s' /\
    r = match failed_link alive rdev l with
        | None => (- EIO, (nrdev, npnum))
        | Some (below, sw) =>
            let port := default RIO_INVALID_ROUTE (route_to s sw below) in
            if port =? RIO_INVALID_ROUTE then (- EIO, (nrdev, npnum)) else (0, (sw, port))
        end).
Proof.
  intros Hc Hpr Hf Hrt. unfold rio_chk_dev_route. srun (run_uninit s).
  apply spec_bind. eapply spec_mono; [by apply (chk_route_loop s alive rdev l)|].
  cbv beta. intros [r prev] s1 [Hk Hr]. destruct (failed_link alive rdev l) as [[below sw]|].
  2: { cbn in Hr. subst prev. by apply spec_ret. }
  injection Hr as -> ->. cbv zeta. destruct (Hrt below sw eq_refl) as [port Hport]. rewrite Hport.
  change (default RIO_INVALID_ROUTE (Some port)) with port.
  unfold route_to in Hport.
  destruct (ks_devs s !! below) as [d|] eqn:Hd; [|done].
  destruct (ks_devs s !! sw) as [ds|] eqn:Hds; [|done]. cbn in Hport.
  destruct (rd_rswitch ds) as [rs|] eqn:Hrs; [|done]. cbn in Hport.
  destruct (rs_route_table rs) as [tbl|] eqn:Htbl; [|done]. cbn in Hport.
  destruct (Z.leb_spec 0 (rd_destid d)); [|done].
  srun (run_get_rswitch s1 sw ds rs ltac:(by rewrite (sk_devs _ _ Hk)) Hrs).
  srun (run_get_dev s1 below d ltac:(by rewrite (sk_devs _ _ Hk))). rewrite Htbl.
  apply spec_bind, spec_ret. srun (run_array_get s1 tbl (rd_destid d) port ltac:(done) Hport).
  destruct (port =? RIO_INVALID_ROUTE); by apply spec_ret.
Qed.
End theorems.

(** ** Witnesses *)

Section witnesses.
#[local] Existing Instance plain_tables.
#[local] Existing Instance idle_externals.

(** A switch whose device id and port 1 status registers are constant. *)
Definition em_read (off : Z) (w : swbench) : (Z * Z) * swbench :=
  if off =? RIO_DEV_ID_CAR then ((0, 0x80ab0038), w)
  else if off =? 0x178 then ((0, RIO_PORT_N_ERR_STS_PORT_OK + RIO_PORT_N_ERR_STS_OUT_ES), w)
  else std_read false off w.
Definition em_state : kstate swbench :=
  sw_state (sw_ops (std_write false) em_read) None (sw_world 0xffff 1).
Definition em_path : path swbench := sw_path (sw_ops (std_write false) em_read) 1 0.

Instance em_id : ConstReg em_path RIO_DEV_ID_CAR 0x80ab0038.
Proof. split; [by vm_compute|done]. Qed.

Lemma em_source n :
  pw_source em_path em_state 1 (mk_rio_pw_msg 0 0 n 0) 3 (sw_dev None 4) (sw_switch None 4).
Proof.
  split; try done.
  - repeat constructor. by eexists.
  - split; [|done]. by exists (sw_dev None 4), sw_net, 2%positive.
  - by exists (sw_mport (sw_ops (std_write false) em_read) 1 0).
Qed.

Lemma rio_inb_pwrite_handler_port_ok_witness :
  total (rio_inb_pwrite_handler 1 1 (mk_rio_pw_msg 0 0 0x101 0)) em_state (fun rc s' => rc = 0 /\
    exists v, same_kernel (with_port_ok 3 (sw_dev None 4) (sw_switch None 4) v em_state) s' /\
      forall i, 0 <= i < 32 -> Z.testbit v i = if i =? 1 then true else Z.testbit 0 i).
Proof.
  refine (rio_inb_pwrite_handler_port_ok em_path em_state 1 1 (mk_rio_pw_msg 0 0 0x101 0) 3
    (sw_dev None 4) (sw_switch None 4) 0x80ab0038
    (RIO_PORT_N_ERR_STS_PORT_OK + RIO_PORT_N_ERR_STS_OUT_ES) (em_source _) _ _ eq_refl _ _ _).
  - intros q Hq. vm_compute in Hq.
    repeat (apply elem_of_cons in Hq as [Hq|Hq]; [done|]). by apply elem_of_nil in Hq.
  - split; [by vm_compute|done].
  - by vm_compute.
  - by vm_compute.
  - by vm_compute.
Defined.

Lemma rio_inb_pwrite_handler_bad_port_witness :
  rio_inb_pwrite_handler 1 1 (mk_rio_pw_msg 0 0 40 0) em_state = UB.
Proof.
  refine (rio_inb_pwrite_handler_bad_port em_path em_state 1 1 (mk_rio_pw_msg 0 0 40 0) 3
    (sw_dev None 4) (sw_switch None 4) 0x80ab0038 (em_source _) _).
  by vm_compute.
Defined.

(** An end point at address 4 behind the switch, which answers. *)
Definition em_route_state : kstate swbench :=
  setf ks_devs ({[ 3%positive := setf rd_rswitch
      (Some (setf rs_route_table (Some (replicate 256 2)) (sw_switch None 4))) (sw_dev None 4);
    4%positive := setf rd_destid 7 (setf rd_prev (Some 3%positive) (zero_rio_dev None)) ]})
    em_state.

Lemma rio_chk_dev_route_correct_witness :
  total (rio_chk_dev_route 2 4 4 9) em_route_state (fun r s' =>
    same_kernel em_route_state s' /\ r = (0, (3%positive, 2))).
Proof.
  refine (rio_chk_dev_route_correct em_route_state (fun _ => true) 2 4 4 9 [3%positive] _ _ _ _).
  - eapply chain_switch; [done|done|done|done|]. eapply chain_end; [done|]. done.
  - intros p ->%list_elem_of_singleton s' v ->. unfold same_kernel. split; exact eq_refl.
  - cbn. lia.
  - intros below sw [= <- <-]. by eexists.
Defined.
End witnesses.
