(* ===== verification/Driver.v ===== *)
(** * The RapidIO bus: drivers and device references (rio-driver.c)

    Matching a device against a driver's table, reference counting, and the
    probe, remove and shutdown callbacks of the bus. *)

From S2P Require Import Prelude Regs State Access Bench.

(** struct rio_driver: its table and callbacks. *)
Record rio_driver (W : Type) := mk_rio_driver {
  drv_id_table : option (list rio_device_id);
  drv_probe : option (ptr -> rio_device_id -> KM W Z);
  drv_remove : option (ptr -> KM W unit);
  drv_shutdown : option (ptr -> KM W unit);
}.
Arguments mk_rio_driver {W}. Arguments drv_id_table {W}. Arguments drv_probe {W}.
Arguments drv_remove {W}. Arguments drv_shutdown {W}.

(** The drivers behind their addresses; they are other modules. *)
Class Drivers (W : Type) := driver_at : ptr -> rio_driver W.

(** ** Matching *)

Definition id_matches (id : rio_device_id) (rdev : rio_dev) : bool :=
  ((id_vid id =? RIO_ANY_ID) || (id_vid id =? rd_vid rdev)) &&
  ((id_did id =? RIO_ANY_ID) || (id_did id =? rd_did rdev)) &&
  ((id_asm_vid id =? RIO_ANY_ID) || (id_asm_vid id =? rd_asm_vid rdev)) &&
  ((id_asm_did id =? RIO_ANY_ID) || (id_asm_did id =? rd_asm_did rdev)).

(** The table ends with an entry without vendor ids; the end of the list stands
    for it as well. *)
Fixpoint rio_match_device (id : list rio_device_id) (rdev : rio_dev) : option rio_device_id :=
  match id with
  | [] => None
  | i :: id' =>
      if truthy (id_vid i) || truthy (id_asm_vid i) then
        if id_matches i rdev then Some i else rio_match_device id' rdev
      else None
  end.

Section driver.
Context {W : Type} `{!KernelEnv W}.

(** ** References

    get_device and put_device of the driver core on the embedded struct device;
    dropping the last reference runs [rio_release_dev]. *)

Definition rio_release_dev (rdev : ptr) : KM W unit :=
  modify (fun s => setf ks_devs (delete rdev (ks_devs s)) s) ;;; kfree.

Definition get_device (rdev : ptr) : KM W unit :=
  d <- get_dev rdev ;; upd_dev rdev (setf rd_ref (rd_ref d + 1)).
Definition put_device (rdev : ptr) : KM W unit :=
  d <- get_dev rdev ;;
  if rd_ref d <=? 0 then ub
  else if rd_ref d =? 1 then rio_release_dev rdev
  else upd_dev rdev (setf rd_ref (rd_ref d - 1)).

Definition rio_dev_get (rdev : option ptr) : KM W (option ptr) :=
  match rdev with
  | Some p => get_device p ;;; ret (Some p)
  | None => ret None
  end.
Definition rio_dev_put (rdev : option ptr) : KM W unit :=
  match rdev with
  | Some p => put_device p
  | None => ret tt
  end.

(** ** Bus callbacks *)

Context `{!Drivers W}.

Definition rio_device_probe (rdev drv : ptr) : KM W Z :=
  let rdrv := driver_at drv in
  d <- get_dev rdev ;;
  match rd_driver d, drv_probe rdrv with
  | None, Some probe =>
      match drv_id_table rdrv with
      | None => ret (- ENODEV)
      | Some id_table =>
          let id := rio_match_device id_table d in
          rio_dev_get (Some rdev) ;;;
          error <- (match id with Some i => probe rdev i | None => ret (- ENODEV) end) ;;
          if 0 <=? error then
            upd_dev rdev (setf rd_driver (Some drv)) ;;;
            ret 0
          else
            rio_dev_put (Some rdev) ;;;
            ret error
      end
  | _, _ => ret (- ENODEV)
  end.

Definition rio_device_remove (rdev : ptr) : KM W Z :=
  d <- get_dev rdev ;;
  (match rd_driver d with
   | Some drv =>
       (match drv_remove (driver_at drv) with
        | Some remove => remove rdev
        | None => ret tt
        end) ;;;
       upd_dev rdev (setf rd_driver None)
   | None => ret tt
   end) ;;;
  rio_dev_put (Some rdev) ;;;
  ret 0.

Definition rio_device_shutdown (rdev : ptr) : KM W unit :=
  d <- get_dev rdev ;;
  match rd_driver d with
  | Some drv =>
      match drv_shutdown (driver_at drv) with
      | Some shutdown => shutdown rdev
      | None => ret tt
      end
  | None => ret tt
  end.

Definition rio_match_bus (rdev drv : ptr) : KM W Z :=
  d <- get_dev rdev ;;
  match drv_id_table (driver_at drv) with
  | None => ret 0
  | Some id =>
      match rio_match_device id d with
      | Some _ => ret 1
      | None => ret 0
      end
  end.
End driver.

(** ** Matching finds the first entry *)

Lemma rio_match_device_spec ids d :
  (forall i, i ∈ ids -> truthy (id_vid i) || truthy (id_asm_vid i) = true) ->
  rio_match_device ids d = List.find (fun i => id_matches i d) ids.
Proof.
  induction ids as [|i ids IH]; intros Hok; [done|]. cbn.
  rewrite (Hok i (list_elem_of_here _ _)). destruct (id_matches i d); [done|].
  apply IH. intros j Hj. by apply Hok, list_elem_of_further.
Qed.

(** ** Reference counting *)

Section refs.
Context {W : Type} `{!KernelEnv W}.
Implicit Types s : kstate W.

(** A device with its reference count, or its driver, replaced. *)
Abbreviation ref_set n d := (setf rd_ref n d).

Lemma run_dev_get s p d :
  ks_devs s !! p = Some d ->
  rio_dev_get (Some p) s = Done (Some p) (with_dev p (ref_set (rd_ref d + 1) d) s).
Proof.
  intros H. unfold rio_dev_get, get_device.
  erewrite bind_Done; [|run (run_get_dev _ _ _ H); by apply upd_dev_with]. done.
Qed.

Lemma run_dev_put s p d :
  ks_devs s !! p = Some d -> 1 < rd_ref d ->
  rio_dev_put (Some p) s = Done tt (with_dev p (ref_set (rd_ref d - 1) d) s).
Proof.
  intros H Hr. unfold rio_dev_put, put_device. run (run_get_dev _ _ _ H).
  destruct (Z.leb_spec (rd_ref d) 0); [lia|]. destruct (Z.eqb_spec (rd_ref d) 1); [lia|].
  by apply upd_dev_with.
Qed.

(** Taking and dropping a reference. *)
Lemma run_dev_get_put s p d :
  ks_devs s !! p = Some d -> 0 < rd_ref d ->
  (rio_dev_get (Some p) ;;; rio_dev_put (Some p)) s = Done tt s.
Proof.
  intros H Hr. run (run_dev_get _ _ _ H).
  rewrite (run_dev_put _ p (ref_set (rd_ref d + 1) d)) by (apply with_dev_lookup || (cbn; lia)).
  rewrite with_dev_twice. cbn. f_equal. rewrite with_dev_same; [done|].
  rewrite H. f_equal. destruct d. cbn. f_equal. lia.
Qed.
End refs.

(** The reference count and driver of every device. *)
Definition refs {W} (s : kstate W) (q : ptr) : option (Z * option ptr) :=
  (fun d => (rd_ref d, rd_driver d)) <$> ks_devs s !! q.

Lemma refs_dev {W} (s : kstate W) q r o :
  refs s q = Some (r, o) -> exists d, ks_devs s !! q = Some d /\ rd_ref d = r /\ rd_driver d = o.
Proof. unfold refs. destruct (ks_devs s !! q) as [d|]; [|done]. intros [= <- <-]. by exists d. Qed.

Lemma refs_with_dev {W} (s : kstate W) p d q :
  refs (with_dev p d s) q = if decide (q = p) then Some (rd_ref d, rd_driver d) else refs s q.
Proof.
  unfold refs. cbn. destruct (decide (q = p)) as [->|]; [by rewrite lookup_insert_eq|].
  by rewrite lookup_insert_ne.
Qed.

(** ** Probing and removing are balanced *)

Section balance.
Context {W : Type} `{!KernelEnv W} `{!Drivers W}.
Implicit Types s : kstate W.

(** The callbacks of a driver return and leave the reference counts and drivers
    of devices alone. *)
Record driver_ok (drv p : ptr) : Prop := {
  do_probe : forall probe s i, drv_probe (driver_at drv) = Some probe ->
    total (probe p i) s (fun _ s' => forall q, refs s' q = refs s q);
  do_remove : forall remove s, drv_remove (driver_at drv) = Some remove ->
    total (remove p) s (fun _ s' => forall q, refs s' q = refs s q);
}.

(** Whether the driver claims the device [d]. *)
Definition claimable (drv : ptr) (d : rio_dev) : bool :=
  match rd_driver d, drv_probe (driver_at drv), drv_id_table (driver_at drv) with
  | None, Some _, Some ids => match rio_match_device ids d with Some _ => true | None => false end
  | _, _, _ => false
  end.

Lemma device_probe_spec s p drv d :
  ks_devs s !! p = Some d -> 0 < rd_ref d -> driver_ok drv p ->
  total (rio_device_probe p drv) s (fun rc s' =>
    (rc = 0 /\ claimable drv d = true /\
     forall q, refs s' q = if decide (q = p) then Some (rd_ref d + 1, Some drv) else refs s q) \/
    (rc < 0 /\ forall q, refs s' q = refs s q)).
Proof.
  intros Hd Hr Hdrv. unfold rio_device_probe, claimable. srun (run_get_dev _ _ _ Hd).
  destruct (rd_driver d) eqn:Hnone; [apply spec_ret; by right|].
  destruct (drv_probe (driver_at drv)) as [probe|] eqn:Hprobe; [|apply spec_ret; by right].
  destruct (drv_id_table _) as [ids|] eqn:Hids; [|apply spec_ret; by right].
  srun (run_dev_get s p d Hd). set (s1 := with_dev p _ s).
  assert (forall q, refs s1 q = if decide (q = p) then Some (rd_ref d + 1, None) else refs s q) as H1.
  { intros q. unfold s1. rewrite refs_with_dev. cbn. by rewrite Hnone. }
  assert (forall error s2, (forall q, refs s2 q = refs s1 q) -> error < 0 ->
    total (rio_dev_put (Some p) ;;; ret error) s2 (fun rc s' => rc < 0 /\ forall q, refs s' q = refs s q))
    as Hput.
  { intros error s2 H2 He. assert (refs s2 p = Some (rd_ref d + 1, None)) as Hp
      by (by rewrite H2, H1, decide_True).
    destruct (refs_dev _ _ _ _ Hp) as (d2 & Hd2 & Hr2 & Ho2).
    srun (run_dev_put s2 p d2 Hd2 ltac:(lia)). apply spec_ret. split; [done|]. intros q.
    rewrite refs_with_dev. cbn. destruct (decide (q = p)) as [->|Hne].
    - unfold refs. rewrite Hd. cbn. rewrite Ho2, Hnone. do 2 f_equal. lia.
    - by rewrite H2, H1, decide_False. }
  apply spec_bind. destruct (rio_match_device ids d) as [i|] eqn:Hmatch.
  - eapply spec_mono; [by eapply do_probe|]. cbv beta. intros error s2 H2.
    destruct (Z.leb_spec 0 error).
    + assert (refs s2 p = Some (rd_ref d + 1, None)) as Hp by (by rewrite H2, H1, decide_True).
      destruct (refs_dev _ _ _ _ Hp) as (d2 & Hd2 & Hr2 & _).
      srun (upd_dev_with s2 p d2 (setf rd_driver (Some drv)) Hd2). apply spec_ret. left.
      split; [done|split; [done|]]. intros q. rewrite refs_with_dev. cbn. rewrite Hr2.
      destruct (decide (q = p)); [done|]. by rewrite H2, H1, decide_False.
    + eapply spec_mono; [by apply Hput|]. auto.
  - apply spec_ret. change (0 <=? - ENODEV) with false. cbv iota.
    eapply spec_mono; [by apply Hput|]. auto.
Qed.

Lemma device_remove_spec s p drv r :
  refs s p = Some (r, Some drv) -> 1 < r -> driver_ok drv p ->
  total (rio_device_remove p) s (fun rc s' => rc = 0 /\
    forall q, refs s' q = if decide (q = p) then Some (r - 1, None) else refs s q).
Proof.
  intros Hp Hr Hdrv. destruct (refs_dev _ _ _ _ Hp) as (d & Hd & Hdr & Ho).
  unfold rio_device_remove. srun (run_get_dev _ _ _ Hd). rewrite Ho. apply spec_bind, spec_bind.
  apply spec_mono with (P := fun _ s' => forall q, refs s' q = refs s q).
  { destruct (drv_remove (driver_at drv)) eqn:E; [by eapply do_remove|by apply spec_ret]. }
  cbv beta. intros _ s1 H1. rewrite <- H1 in Hp. destruct (refs_dev _ _ _ _ Hp) as (d1 & Hd1 & Hdr1 & _).
  assert (1 < rd_ref (setf rd_driver None d1)) as Hr1 by (cbn; lia).
  unfold spec. rewrite (upd_dev_with _ _ _ _ Hd1).
  run (run_dev_put (with_dev p (setf rd_driver None d1) s1) p _ (with_dev_lookup _ _ _) Hr1).
  rewrite with_dev_twice. split; [done|]. intros q. rewrite refs_with_dev. cbn. rewrite Hdr1.
  by destruct (decide (q = p)).
Qed.
End balance.

Section theorems.
Context {W : Type} `{!KernelEnv W} `{!Drivers W}.
Implicit Types s : kstate W.

(** A driver claims only devices without a driver that its table matches.  A
    claimed device records the driver and gains one reference; in every other
    case the result is negative and all reference counts are as before. *)
Theorem rio_device_probe_correct s p drv d :
  ks_devs s !! p = Some d -> 0 < rd_ref d -> driver_ok drv p ->
  total (rio_device_probe p drv) s (fun rc s' =>
    (rc = 0 /\ claimable drv d = true /\
     forall q, refs s' q = if decide (q = p) then Some (rd_ref d + 1, Some drv) else refs s q) \/
    (rc < 0 /\ forall q, refs s' q = refs s q)).
Proof. apply device_probe_spec. Qed.

(** probing and then removing is balanced: whatever the driver does with the
    device, the reference counts and drivers of all devices are as before. *)
Theorem rio_device_probe_remove s p drv d :
  ks_devs s !! p = Some d -> 0 < rd_ref d -> driver_ok drv p ->
  total (rc <- rio_device_probe p drv ;;
         if rc <? 0 then ret rc else rio_device_remove p) s
    (fun _ s' => forall q, refs s' q = refs s q).
Proof.
  intros Hd Hr Hdrv. apply spec_bind.
  eapply spec_mono; [by apply (device_probe_spec s p drv d)|]. cbv beta.
  intros rc s1 [(-> & Hc & H1)|(Hrc & H1)].
  - change (0 <? 0) with false. cbv iota. eapply spec_mono.
    { apply (device_remove_spec s1 p drv (rd_ref d + 1)); [by rewrite H1, decide_True|lia|done]. }
    cbv beta. intros _ s2 (_ & H2) q. rewrite H2, H1. destruct (decide (q = p)) as [->|]; [|done].
    unfold refs. rewrite Hd. cbn. unfold claimable in Hc. destruct (rd_driver d); [done|].
    do 2 f_equal. lia.
  - destruct (Z.ltb_spec rc 0); [by apply spec_ret|lia].
Qed.
End theorems.

(** ** Witnesses *)

Section witnesses.
(** A driver for Tsi574 switches. *)
Instance wit_drivers : Drivers bench := fun _ => {|
  drv_id_table := Some [RIO_DEVICE RIO_DID_TSI572 RIO_VID_TUNDRA;
                        RIO_DEVICE RIO_DID_TSI574 RIO_VID_TUNDRA];
  drv_probe := Some (fun _ _ => ret 0);
  drv_remove := Some (fun _ => udelay 10);
  drv_shutdown := None;
|}.

Definition wit_dev : rio_dev :=
  setf rd_ref 1 (setf rd_did RIO_DID_TSI574 (setf rd_vid RIO_VID_TUNDRA (zero_rio_dev None))).
Definition wit_state : kstate bench :=
  setf ks_devs {[ 5%positive := wit_dev ]} (bench_state ∅ ∅).

Lemma wit_driver_ok : driver_ok 6 5.
Proof. split; [intros probe s i [= <-]|intros remove s [= <-]]; done. Qed.

Lemma rio_device_probe_correct_witness :
  total (rio_device_probe 5 6) wit_state (fun rc s' =>
    (rc = 0 /\ claimable 6 wit_dev = true /\
     forall q, refs s' q = if decide (q = 5%positive) then Some (2, Some 6%positive) else refs wit_state q) \/
    (rc < 0 /\ forall q, refs s' q = refs wit_state q)).
Proof.
  exact (rio_device_probe_correct wit_state 5 6 wit_dev eq_refl ltac:(by vm_compute) wit_driver_ok).
Defined.

Lemma rio_device_probe_remove_witness :
  total (rc <- rio_device_probe 5 6 ;; if rc <? 0 then ret rc else rio_device_remove 5) wit_state
    (fun _ s' => forall q, refs s' q = refs wit_state q).
Proof.
  exact (rio_device_probe_remove wit_state 5 6 wit_dev eq_refl ltac:(by vm_compute) wit_driver_ok).
Defined.
End witnesses.
