(* ===== verification/Mport.v ===== *)
(** * Devices, networks and master ports (rio.c)

    The lists of devices and networks, the search for devices, the registration
    of master ports and of enumeration methods, and the start of enumeration
    and discovery. *)

From S2P Require Import Prelude Regs State Access Bench Driver Em.

Section mport.
Context {W : Type} `{!KernelEnv W} `{!Externals W}.

(** ** Device ids and attributes of a port *)

Definition rio_local_get_device_id (port : ptr) : KM W Z :=
  result <- uninit ;;
  let! (_, result) := rio_local_read_config_32 port RIO_DID_CSR result ;;
  mp <- get_mport port ;;
  ret (u16 (RIO_GET_DID (mp_sys_size mp) result)).

Definition rio_local_set_device_id (port : ptr) (did : Z) : KM W unit :=
  mp <- get_mport port ;;
  rio_local_write_config_32 port RIO_DID_CSR (RIO_SET_DID (mp_sys_size mp) did) ;;;
  ret tt.

(** Returns the status and the contents of [*mport_attr]. *)
Definition rio_query_mport (port : ptr) (mport_attr : rio_mport_attr)
    : KM W (Z * rio_mport_attr) :=
  mp <- get_mport port ;;
  match op_query_mport (mp_ops mp) with
  | None => ret (- ENODATA, mport_attr)
  | Some query_mport => hw_call (query_mport port mport_attr)
  end.

(** ** Lists *)

(** [list_del]: undefined when the node is not on the list. *)
Fixpoint list_del (p : ptr) (l : list ptr) : option (list ptr) :=
  match l with
  | [] => None
  | q :: l' => if decide (q = p) then Some l' else cons q <$> list_del p l'
  end.

(** ** Networks *)

Definition zero_rio_net : rio_net := mk_rio_net false [] [] [] None 0 None false.

Definition rio_alloc_net (mport : ptr) : KM W (option ptr) :=
  ok <- kzalloc ;;
  if ok : bool then
    net <- fresh_ptr ;;
    modify (fun s => setf ks_nets (<[net := zero_rio_net]> (ks_nets s)) s) ;;;
    upd_mport mport (setf mp_net (Some net)) ;;;
    ret (Some net)
  else ret None.

Definition rio_add_net (net : ptr) : KM W Z :=
  err <- ext_device_register_net net ;;
  if truthy err then ret err
  else
    modify (fun s => setf rio_nets (rio_nets s ++ [net]) s) ;;;
    upd_net net (setf net_linked true) ;;;
    ret 0.

(** The release callback that rio-scan.c gives its networks: the table of
    destination ids is freed. *)
Definition rio_scan_release_net (net : ptr) : KM W unit :=
  n <- get_net net ;;
  match net_enum_data n with
  | Some _ => kfree ;;; upd_net net (setf net_enum_data None)
  | None => ret tt
  end.

Definition rio_free_net (net : ptr) : KM W unit :=
  n <- get_net net ;;
  when (net_linked n)
    (l <- gets rio_nets ;;
     l' <- deref (list_del net l) ;;
     modify (setf rio_nets l')) ;;;
  when (net_release n) (rio_scan_release_net net) ;;;
  ext_device_unregister_net net.

(** ** Devices *)

(** The attribute files of rio-sysfs.c; the three of a switch are one of the
    other, in this order: routes, lnext, hopcount. *)
Definition rio_create_sysfs_dev_files (rdev : ptr) : KM W Z :=
  d <- get_dev rdev ;;
  err <- ext_device_create_bin_file rdev ;;
  if (err =? 0) && truthy (Z.land (rd_pef d) RIO_PEF_SWITCH) then
    e1 <- ext_device_create_file rdev ;;
    e2 <- ext_device_create_file rdev ;;
    e3 <- ext_device_create_file rdev ;;
    ret (Z.lor (Z.lor (Z.lor err e1) e2) e3)
  else ret err.

Definition rio_remove_sysfs_dev_files (rdev : ptr) : KM W unit :=
  d <- get_dev rdev ;;
  ext_device_remove_bin_file rdev ;;;
  when (truthy (Z.land (rd_pef d) RIO_PEF_SWITCH))
    (ext_device_remove_file rdev ;;;
     ext_device_remove_file rdev ;;;
     ext_device_remove_file rdev).

Definition rio_add_device (rdev : ptr) : KM W Z :=
  upd_dev rdev (setf rd_state RIO_DEVICE_RUNNING) ;;;
  err <- ext_device_register_dev rdev ;;
  if truthy err then ret err
  else
    modify (fun s => setf rio_devices (rio_devices s ++ [rdev]) s) ;;;
    d <- get_dev rdev ;;
    (match rd_net d with
     | None => ret tt
     | Some net =>
         upd_net net (fun n => setf net_devices (net_devices n ++ [rdev]) n) ;;;
         when (truthy (Z.land (rd_pef d) RIO_PEF_SWITCH))
           (get_rswitch rdev ;;;
            upd_net net (fun n => setf net_switches (net_switches n ++ [rdev]) n))
     end) ;;;
    rio_create_sysfs_dev_files rdev ;;;
    ret 0.

(** [kfree(rswitch->route_table)]; the pointer is dead afterwards. *)
Definition free_route_table (rdev : ptr) : KM W unit :=
  sw <- get_rswitch rdev ;;
  match rs_route_table sw with
  | Some _ => kfree ;;; upd_rswitch rdev (setf rs_route_table None)
  | None => ret tt
  end.

Definition rio_del_device (rdev : ptr) (state : rio_device_state) : KM W unit :=
  upd_dev rdev (setf rd_state state) ;;;
  l <- gets rio_devices ;;
  l <- deref (list_del rdev l) ;;
  modify (setf rio_devices l) ;;;
  d <- get_dev rdev ;;
  (match rd_net d with
   | None => ret tt
   | Some net =>
       n <- get_net net ;;
       l <- deref (list_del rdev (net_devices n)) ;;
       upd_net net (setf net_devices l) ;;;
       when (truthy (Z.land (rd_pef d) RIO_PEF_SWITCH))
         (n <- get_net net ;;
          l <- deref (list_del rdev (net_switches n)) ;;
          upd_net net (setf net_switches l) ;;;
          free_route_table rdev)
   end) ;;;
  rio_remove_sysfs_dev_files rdev ;;;
  ext_device_unregister_dev rdev.

(** ** Searching for devices *)

Definition asm_matches (vid did asm_vid asm_did : Z) (d : rio_dev) : bool :=
  ((vid =? RIO_ANY_ID) || (rd_vid d =? vid)) &&
  ((did =? RIO_ANY_ID) || (rd_did d =? did)) &&
  ((asm_vid =? RIO_ANY_ID) || (rd_asm_vid d =? asm_vid)) &&
  ((asm_did =? RIO_ANY_ID) || (rd_asm_did d =? asm_did)).

Definition rio_get_asm (vid did asm_vid asm_did : Z) (from : option ptr) : KM W (option ptr) :=
  l <- gets rio_devices ;;
  n <- (match from with Some p => deref (list_after p l) | None => ret l end) ;;
  rdev <- for_exit n (fun p =>
    d <- get_dev p ;;
    ret (if asm_matches vid did asm_vid asm_did d then Some p else None)) ;;
  rio_dev_put from ;;;
  rio_dev_get rdev.

Definition rio_get_device (vid did : Z) (from : option ptr) : KM W (option ptr) :=
  rio_get_asm vid did RIO_ANY_ID RIO_ANY_ID from.

Definition rio_fixup_device (dev : ptr) : KM W unit := ret tt.

Definition init_step (dev : option ptr) : KM W (option ptr + Z) :=
  dev <- rio_get_device RIO_ANY_ID RIO_ANY_ID dev ;;
  match dev with
  | Some p => rio_fixup_device p ;;; ret (inl (Some p))
  | None => ret (inr 0)
  end.

Definition rio_init (fuel : nat) : KM W Z := loop fuel init_step None.

(** ** Master ports and enumeration methods *)

Definition rio_find_mport (mport_id : Z) : KM W (option ptr) :=
  ports <- gets rio_mports ;;
  for_exit ports (fun p =>
    port <- get_mport p ;; ret (if mp_id port =? mport_id then Some p else None)).

(** One port of the traversal that attaches a new method. *)
Definition attach_scan (mport_id : Z) (scan_ops p : ptr) : KM W (option unit) :=
  port <- get_mport p ;;
  if mp_id port =? mport_id then
    upd_mport p (setf mp_nscan (Some scan_ops)) ;;; ret (Some tt)
  else if (mport_id =? RIO_MPORT_ANY) && negb (bool_decide (is_Some (mp_nscan port))) then
    upd_mport p (setf mp_nscan (Some scan_ops)) ;;; ret None
  else ret None.

Definition rio_register_scan (mport_id : Z) (scan_ops : option ptr) : KM W Z :=
  match scan_ops with
  | None => ret (- EINVAL)
  | Some ops =>
      if negb (mport_id =? RIO_MPORT_ANY) && (RIO_MAX_MPORTS <=? mport_id) then ret (- EINVAL)
      else
        scans <- gets rio_scans ;;
        if existsb (fun scan => sn_mport_id scan =? mport_id) scans then ret (- EBUSY)
        else
          ok <- kzalloc ;;
          if ok : bool then
            ports <- gets rio_mports ;;
            for_exit ports (attach_scan mport_id ops) ;;;
            modify (fun s =>
              setf rio_scans (rio_scans s ++ [mk_rio_scan_node mport_id ops]) s) ;;;
            ret 0
          else ret (- ENOMEM)
  end.

(** Removes the first registration for the port number. *)
Fixpoint del_scan (mport_id : Z) (l : list rio_scan_node) : option (list rio_scan_node) :=
  match l with
  | [] => None
  | scan :: l' =>
      if sn_mport_id scan =? mport_id then Some l' else cons scan <$> del_scan mport_id l'
  end.

Definition rio_unregister_scan (mport_id : Z) (scan_ops : option ptr) : KM W Z :=
  if negb (mport_id =? RIO_MPORT_ANY) && (RIO_MAX_MPORTS <=? mport_id) then ret (- EINVAL)
  else
    ports <- gets rio_mports ;;
    for_ ports (fun p =>
      port <- get_mport p ;;
      when ((mp_id port =? mport_id) ||
            ((mport_id =? RIO_MPORT_ANY) && bool_decide (mp_nscan port = scan_ops)))
        (upd_mport p (setf mp_nscan None))) ;;;
    scans <- gets rio_scans ;;
    match del_scan mport_id scans with
    | Some l => kfree ;;; modify (setf rio_scans l) ;;; ret 0
    | None => ret 0
    end.

(** The owner of a method is named by the address of its operations. *)
Definition rio_mport_scan (mport_id : Z) : KM W Z :=
  port <- rio_find_mport mport_id ;;
  match port with
  | None => ret (- ENODEV)
  | Some p =>
      port <- get_mport p ;;
      match mp_nscan port with
      | None => ret (- EINVAL)
      | Some nscan =>
          ok <- try_module_get nscan ;;
          if ok : bool then
            rc <- (if 0 <=? mp_host_deviceid port then ext_scan_enumerate nscan p 0
                   else ext_scan_discover nscan p RIO_SCAN_ENUM_NO_WAIT) ;;
            module_put nscan ;;;
            ret rc
          else ret (- ENODEV)
      end
  end.

Definition disc_work_handler (mport : ptr) : KM W unit :=
  mp <- get_mport mport ;;
  nscan <- deref (mp_nscan mp) ;;
  ok <- try_module_get nscan ;;
  when ok (ext_scan_discover nscan mport 0 ;;; module_put nscan).

(** The first pass: enumerate on the hosts, count the others. *)
Fixpoint enum_pass (ports : list ptr) (n : Z) : KM W Z :=
  match ports with
  | [] => ret n
  | p :: ports' =>
      port <- get_mport p ;;
      if 0 <=? mp_host_deviceid port then
        (match mp_nscan port with
         | Some nscan =>
             ok <- try_module_get nscan ;;
             when ok (ext_scan_enumerate nscan p 0 ;;; module_put nscan)
         | None => ret tt
         end) ;;;
        enum_pass ports' n
      else enum_pass ports' (n + 1)
  end.

(** The second pass: the ports to queue for discovery. *)
Fixpoint disc_pass (ports : list ptr) : KM W (list ptr) :=
  match ports with
  | [] => ret []
  | p :: ports' =>
      port <- get_mport p ;;
      l <- disc_pass ports' ;;
      ret (if (mp_host_deviceid port <? 0) && bool_decide (is_Some (mp_nscan port))
           then p :: l else l)
  end.

(** The queued work runs at the latest in flush_workqueue. *)
Definition rio_init_mports (fuel : nat) : KM W Z :=
  next <- gets next_portid ;;
  if negb (truthy next) then ret (- ENODEV)
  else
    ports <- gets rio_mports ;;
    n <- enum_pass ports 0 ;;
    (if truthy n then
       wq <- ext_alloc_workqueue ;;
       if wq : bool then
         work <- kzalloc ;;
         if work : bool then
           ports <- gets rio_mports ;;
           queue <- disc_pass ports ;;
           queue <- gets (ext_work_order queue) ;;
           for_ queue disc_work_handler ;;;
           ext_destroy_workqueue ;;;
           kfree
         else ext_destroy_workqueue
       else ret tt
     else ret tt) ;;;
    rio_init fuel ;;;
    ret 0.

Definition rio_get_hdid (index : Z) : KM W Z :=
  ids <- gets ids_num ;;
  if (ids =? 0) || (ids <=? index) || (RIO_MAX_MPORTS <=? index) then ret (-1)
  else h <- gets hdid ;; array_get h index.

Definition rio_mport_initialize (mport : ptr) : KM W Z :=
  next <- gets next_portid ;;
  if RIO_MAX_MPORTS <=? next then ret (- ENODEV)
  else
    upd_mport mport (setf mp_state RIO_DEVICE_INITIALIZING) ;;;
    modify (setf next_portid (u8 (next + 1))) ;;;
    upd_mport mport (setf mp_id next) ;;;
    h <- rio_get_hdid next ;;
    upd_mport mport (setf mp_host_deviceid h) ;;;
    upd_mport mport (setf mp_nscan None) ;;;
    upd_mport mport (setf mp_pwe_refcnt 0) ;;;
    upd_mport mport (setf mp_pwrites []) ;;;
    ret 0.

(** One registered method that may be attached to a new port. *)
Definition attach_port (p : ptr) (scan : rio_scan_node) : KM W (option unit) :=
  port <- get_mport p ;;
  if (mp_id port =? sn_mport_id scan) || (sn_mport_id scan =? RIO_MPORT_ANY) then
    upd_mport p (setf mp_nscan (Some (sn_ops scan))) ;;;
    ret (if mp_id port =? sn_mport_id scan then Some tt else None)
  else ret None.

Definition rio_register_mport (port : ptr) : KM W Z :=
  scans <- gets rio_scans ;;
  for_exit scans (attach_port port) ;;;
  modify (fun s => setf rio_mports (rio_mports s ++ [port]) s) ;;;
  upd_mport port (setf mp_state RIO_DEVICE_RUNNING) ;;;
  ext_device_register_mport port.

Definition rio_mport_cleanup_callback (rdev : ptr) : KM W Z :=
  rio_del_device rdev RIO_DEVICE_SHUTDOWN ;;; ret 0.

Definition rio_net_remove_children (net : ptr) : KM W Z :=
  children <- gets (ext_net_children net) ;;
  for_ children (fun c => rio_mport_cleanup_callback c ;;; ret tt) ;;;
  ret 0.

Definition rio_unregister_mport (port : ptr) : KM W Z :=
  mp <- get_mport port ;;
  when (bool_decide (mp_state mp = RIO_DEVICE_RUNNING))
    (upd_mport port (setf mp_state RIO_DEVICE_SHUTDOWN)) ;;;
  (match mp_net mp with
   | None => ret tt
   | Some net =>
       n <- get_net net ;;
       when (bool_decide (net_hport n = Some port))
         (rio_net_remove_children net ;;; rio_free_net net)
   end) ;;;
  l <- gets rio_mports ;;
  l <- deref (list_del port l) ;;
  modify (setf rio_mports l) ;;;
  ext_device_unregister_mport port ;;;
  ret 0.
End mport.

(** ** The registry of enumeration methods *)

(** The method that a port number should have: its own one, else the one for
    all ports. *)
Definition scan_for (id : Z) (scans : list rio_scan_node) : option ptr :=
  sn_ops <$> List.find (fun scan => sn_mport_id scan =? id) scans.
Definition resolve (scans : list rio_scan_node) (id : Z) : option ptr :=
  match scan_for id scans with
  | Some ops => Some ops
  | None => scan_for RIO_MPORT_ANY scans
  end.

Lemma find_app {A} (f : A -> bool) l1 l2 :
  List.find f (l1 ++ l2) = match List.find f l1 with Some x => Some x | None => List.find f l2 end.
Proof. induction l1 as [|x l IH]; [done|]. cbn. by destruct (f x). Qed.

Lemma scan_for_app id l1 l2 :
  scan_for id (l1 ++ l2) = match scan_for id l1 with Some o => Some o | None => scan_for id l2 end.
Proof. unfold scan_for. rewrite find_app. by destruct (List.find _ l1). Qed.
Lemma scan_for_cons id scan l :
  scan_for id (scan :: l) = if sn_mport_id scan =? id then Some (sn_ops scan) else scan_for id l.
Proof. unfold scan_for. cbn [List.find]. by destruct (sn_mport_id scan =? id). Qed.

Lemma scan_for_snoc id scans id0 ops :
  existsb (fun scan => sn_mport_id scan =? id0) scans = false ->
  scan_for id (scans ++ [mk_rio_scan_node id0 ops]) =
  if id =? id0 then Some ops else scan_for id scans.
Proof.
  intros Hnew. unfold scan_for. rewrite find_app. cbn.
  destruct (Z.eqb_spec id id0) as [->|Hne].
  - assert (List.find (fun scan => sn_mport_id scan =? id0) scans = None) as ->.
    { destruct (List.find _ scans) as [x|] eqn:E; [|done]. apply find_some in E as [Hin Hx].
      enough (existsb (fun scan => sn_mport_id scan =? id0) scans = true) by congruence.
      apply existsb_exists. by exists x. }
    by rewrite Z.eqb_refl.
  - destruct (List.find _ scans); [done|]. destruct (Z.eqb_spec id0 id); [lia|done].
Qed.

Lemma resolve_snoc id scans id0 ops :
  existsb (fun scan => sn_mport_id scan =? id0) scans = false -> id <> RIO_MPORT_ANY ->
  resolve (scans ++ [mk_rio_scan_node id0 ops]) id =
  if id =? id0 then Some ops
  else match resolve scans id with
       | Some o => Some o
       | None => if id0 =? RIO_MPORT_ANY then Some ops else None
       end.
Proof.
  intros Hnew Hid. unfold resolve. rewrite !scan_for_snoc by done. rewrite (Z.eqb_sym RIO_MPORT_ANY).
  destruct (id =? id0); [done|]. destruct (scan_for id scans); [done|].
  destruct (Z.eqb_spec id0 RIO_MPORT_ANY) as [Heq|Hne].
  - rewrite Heq in Hnew. pose proof (scan_for_snoc RIO_MPORT_ANY scans 0 1%positive).
    assert (scan_for RIO_MPORT_ANY scans = None) as ->; [|done].
    unfold scan_for. destruct (List.find _ scans) as [x|] eqn:E; [|done].
    apply find_some in E as [Hin Hx].
    enough (existsb (fun scan => sn_mport_id scan =? RIO_MPORT_ANY) scans = true) by congruence.
    apply existsb_exists. by exists x.
  - by destruct (scan_for RIO_MPORT_ANY scans).
Qed.

Section registry.
Context {W : Type} `{!KernelEnv W} `{!Externals W}.
Implicit Types s : kstate W.

(** The registered ports exist, have distinct numbers below the next one to be
    given, and have the method attached that their number calls for. *)
Record registry s : Prop := {
  reg_nodup : NoDup (rio_mports s);
  reg_ports : forall p, p ∈ rio_mports s -> is_Some (ks_mports s !! p);
  reg_ids : forall p q mp mq, p ∈ rio_mports s -> q ∈ rio_mports s ->
    ks_mports s !! p = Some mp -> ks_mports s !! q = Some mq -> mp_id mp = mp_id mq -> p = q;
  reg_next : forall p mp, p ∈ rio_mports s -> ks_mports s !! p = Some mp ->
    0 <= mp_id mp < next_portid s;
  reg_count : 0 <= next_portid s <= RIO_MAX_MPORTS;
  reg_scans : NoDup (sn_mport_id <$> rio_scans s);
  reg_attached : forall p mp, p ∈ rio_mports s -> ks_mports s !! p = Some mp ->
    mp_nscan mp = resolve (rio_scans s) (mp_id mp);
}.

(** The ports are as in [s], but for the methods attached to them. *)
Definition reattached s s' (f : ptr -> rio_mport W -> option ptr) : Prop :=
  rio_mports s' = rio_mports s /\ rio_scans s' = rio_scans s /\ next_portid s' = next_portid s /\
  forall p mp, p ∈ rio_mports s -> ks_mports s !! p = Some mp ->
    exists mp', ks_mports s' !! p = Some mp' /\ mp_id mp' = mp_id mp /\ mp_nscan mp' = f p mp.

Lemma registry_reattached s s' scans' :
  registry s -> NoDup (sn_mport_id <$> scans') ->
  reattached s s' (fun _ mp => resolve scans' (mp_id mp)) ->
  registry (setf rio_scans scans' s').
Proof.
  intros [H0 H1 H2 H3 H4 H5 H6] Hnd (Hp & Hs & Hn & Hf). split; cbn; rewrite ?Hp, ?Hn; try done.
  - intros p Hin. destruct (H1 p Hin) as [mp Hmp]. destruct (Hf p mp Hin Hmp) as (mp' & -> & _). done.
  - intros p q mp' mq' Hin Hin' Hmp' Hmq' Hid.
    destruct (H1 p Hin) as [mp Hmp], (H1 q Hin') as [mq Hmq].
    destruct (Hf p mp Hin Hmp) as (x & Hx & Hx2 & _), (Hf q mq Hin' Hmq) as (y & Hy & Hy2 & _).
    assert (x = mp') as -> by congruence. assert (y = mq') as -> by congruence.
    apply (H2 p q mp mq Hin Hin' Hmp Hmq). congruence.
  - intros p mp' Hin Hmp'. destruct (H1 p Hin) as [mp Hmp].
    destruct (Hf p mp Hin Hmp) as (x & Hx & Hx2 & _). assert (x = mp') as -> by congruence.
    rewrite Hx2. by apply (H3 p).
  - intros p mp' Hin Hmp'. destruct (H1 p Hin) as [mp Hmp].
    destruct (Hf p mp Hin Hmp) as (x & Hx & Hx2 & Hx3). assert (x = mp') as -> by congruence.
    by rewrite Hx2, Hx3.
Qed.

(** Attaching a new method walks over the ports; [rest] are still to be seen. *)
Lemma attach_loop s id0 ops :
  registry s ->
  existsb (fun scan => sn_mport_id scan =? id0) (rio_scans s) = false ->
  total (for_exit (rio_mports s) (attach_scan id0 ops)) s (fun _ s' =>
    reattached s s' (fun _ mp => resolve (rio_scans s ++ [mk_rio_scan_node id0 ops]) (mp_id mp))).
Proof.
  intros Hreg Hnew. set (goal := fun mp : rio_mport W => resolve (rio_scans s ++ _) (mp_id mp)).
  assert (forall p mp, p ∈ rio_mports s -> ks_mports s !! p = Some mp -> goal mp =
    if mp_id mp =? id0 then Some ops
    else match mp_nscan mp with Some o => Some o
         | None => if id0 =? RIO_MPORT_ANY then Some ops else None end) as Hgoal.
  { intros p mp Hin Hmp. unfold goal. rewrite resolve_snoc; [|done|].
    - by rewrite (reg_attached s Hreg p mp Hin Hmp).
    - pose proof (reg_next s Hreg p mp Hin Hmp). unfold RIO_MPORT_ANY. lia. }
  set (upto := fun (rest : list ptr) p mp => if decide (p ∈ rest) then mp_nscan mp else goal mp).
  apply (spec_for_exit _ _ (fun rest s' => NoDup rest /\ (forall p, p ∈ rest -> p ∈ rio_mports s) /\
    reattached s s' (upto rest))).
  - split; [apply Hreg|split; [done|]]. split; [done|split; [done|split; [done|]]].
    intros p mp Hin Hmp. exists mp. unfold upto. by rewrite decide_True.
  - intros p rest s1 ([Hnot Hnd]%NoDup_cons & Hsub & Hp & Hs & Hn & Hf).
    assert (p ∈ rio_mports s) as Hin by apply Hsub, list_elem_of_here.
    destruct (reg_ports s Hreg p Hin) as [mp Hmp].
    destruct (Hf p mp Hin Hmp) as (mp1 & Hmp1 & Hid1 & Hsc1). unfold upto in Hsc1.
    rewrite decide_True in Hsc1 by apply list_elem_of_here.
    specialize (Hgoal p mp Hin Hmp) as Hg. pose proof (reg_next s Hreg p mp Hin Hmp) as Hpos.
    assert (forall f s2 n, s2 = with_mport p (setf mp_nscan n mp1) s1 -> n = goal mp -> f p mp = goal mp ->
      (forall q mq, q <> p -> q ∈ rio_mports s -> ks_mports s !! q = Some mq ->
         f q mq = upto (p :: rest) q mq) -> reattached s s2 f) as Hstep.
    { intros f s2 n -> Hn2 Hfp Hfq. split; [done|split; [done|split; [done|]]]. intros q mq Hinq Hmq.
      destruct (decide (q = p)) as [->|Hne].
      - assert (mq = mp) as -> by congruence. exists (setf mp_nscan n mp1).
        split; [apply with_mport_lookup|]. split; [done|]. cbn. congruence.
      - destruct (Hf q mq Hinq Hmq) as (x & Hx & Hx2 & Hx3). exists x.
        split; [by cbn; rewrite lookup_insert_ne|]. by rewrite Hfq. }
    assert (forall q mq, q <> p -> upto rest q mq = upto (p :: rest) q mq) as Hup.
    { intros q mq Hne. unfold upto. destruct (decide (q ∈ rest)).
      - by rewrite decide_True by by apply list_elem_of_further.
      - rewrite decide_False; [done|]. by intros [?|?]%elem_of_cons. }
    assert (upto rest p mp = goal mp) as Hupp by (unfold upto; by rewrite decide_False).
    assert (forall q, q ∈ rest -> q ∈ rio_mports s) as Hsub' by (intros; by apply Hsub, list_elem_of_further).
    unfold attach_scan. srun (run_get_mport _ _ _ Hmp1). rewrite Hid1, Hsc1. rewrite Hg in *.
    destruct (Z.eqb_spec (mp_id mp) id0) as [Hid|Hid].
    + srun (upd_mport_with _ _ _ (setf mp_nscan (Some ops)) Hmp1). apply spec_ret.
      apply (Hstep _ _ (Some ops)); [done|done|done|]. intros q mq Hne Hinq Hmq. unfold upto.
      destruct (decide (q ∈ p :: rest)); [|done]. rewrite (Hgoal q mq) by done.
      destruct (Z.eqb_spec (mp_id mq) id0) as [Hq|].
      { destruct Hne. apply (reg_ids s Hreg q p mq mp); [done..|congruence]. }
      destruct (mp_nscan mq); [done|]. destruct (Z.eqb_spec id0 RIO_MPORT_ANY); [|done].
      unfold RIO_MPORT_ANY in *. lia.
    + assert (forall s2, reattached s s2 (upto rest) -> spec False False (ret None) s2
        (fun (r : option unit) s3 => match r with
         | None => NoDup rest /\ (forall q, q ∈ rest -> q ∈ rio_mports s) /\ reattached s s3 (upto rest)
         | Some x => reattached s s3 (fun _ mp => goal mp) end)) as Hret by (intros; by apply spec_ret).
      assert (s1 = with_mport p (setf mp_nscan (mp_nscan mp1) mp1) s1) as Hsame.
      { rewrite with_mport_same; [done|]. rewrite Hmp1. by destruct mp1. }
      destruct (Z.eqb_spec id0 RIO_MPORT_ANY) as [->|]; cbn [andb].
      * destruct (mp_nscan mp) as [o|] eqn:Eo.
        -- rewrite bool_decide_true by done. cbn [negb]. apply Hret.
           by eapply Hstep; [exact Hsame|..]; try congruence; auto.
        -- rewrite bool_decide_false by (by intros []). cbn [negb].
           srun (upd_mport_with _ _ _ (setf mp_nscan (Some ops)) Hmp1). apply Hret.
           by eapply Hstep; [done|..]; try congruence; auto.
      * apply Hret. eapply Hstep; [exact Hsame|..]; auto; rewrite Hsc1; by destruct (mp_nscan mp).
  - intros s1 (_ & _ & Hr). exact Hr.
Qed.

(** What attaching the registered methods to one new port leaves there. *)
Lemma attach_port_loop s p mp :
  ks_mports s !! p = Some mp -> 0 <= mp_id mp -> mp_nscan mp = None ->
  NoDup (sn_mport_id <$> rio_scans s) ->
  total (for_exit (rio_scans s) (attach_port p)) s (fun _ s' =>
    s' = with_mport p (setf mp_nscan (resolve (rio_scans s) (mp_id mp)) mp) s).
Proof.
  intros Hmp Hid Hnone Hnd.
  (* [done_] has been traversed without a method of the port's own. *)
  apply (spec_for_exit _ _ (fun rest s' => exists done_, rio_scans s = done_ ++ rest /\
    scan_for (mp_id mp) done_ = None /\
    s' = with_mport p (setf mp_nscan (scan_for RIO_MPORT_ANY done_) mp) s)).
  - exists []. split; [done|split; [done|]]. cbn. rewrite with_mport_same; [done|].
    rewrite Hmp. f_equal. destruct mp. cbn in *. by subst.
  - intros scan rest s1 (done_ & Hl & Hno & ->). unfold attach_port.
    set (mp1 := setf mp_nscan (scan_for RIO_MPORT_ANY done_) mp).
    srun (run_get_mport _ _ mp1 (with_mport_lookup p mp1 s)). change (mp_id mp1) with (mp_id mp).
    assert (scan_for (mp_id mp) (done_ ++ [scan]) =
      if sn_mport_id scan =? mp_id mp then Some (sn_ops scan) else None) as Hown
      by (by rewrite scan_for_app, Hno, scan_for_cons).
    assert (sn_mport_id scan = RIO_MPORT_ANY -> scan_for RIO_MPORT_ANY done_ = None) as Hany.
    { intros He. unfold scan_for. destruct (List.find _ done_) as [x|] eqn:E; [|done].
      apply find_some in E as [Hin Hx]. apply list_elem_of_In in Hin.
      rewrite Hl, fmap_app in Hnd. apply NoDup_app in Hnd as (_ & Hnd & _).
      destruct (Hnd (sn_mport_id x)); [by apply list_elem_of_fmap_2|]. cbn.
      assert (sn_mport_id x = sn_mport_id scan) as -> by lia. apply list_elem_of_here. }
    assert (scan_for RIO_MPORT_ANY (done_ ++ [scan]) =
      if sn_mport_id scan =? RIO_MPORT_ANY then Some (sn_ops scan)
      else scan_for RIO_MPORT_ANY done_) as Hsnoc.
    { rewrite scan_for_app, scan_for_cons.
      destruct (Z.eqb_spec (sn_mport_id scan) RIO_MPORT_ANY) as [He|Hne]; [by rewrite Hany|].
      by destruct (scan_for RIO_MPORT_ANY done_). }
    rewrite Z.eqb_sym. destruct (Z.eqb_spec (sn_mport_id scan) (mp_id mp)) as [He|Hne]; cbn [orb].
    + srun (upd_mport_with _ _ _ (setf mp_nscan (Some (sn_ops scan))) (with_mport_lookup p mp1 s)).
      apply spec_ret. rewrite with_mport_twice. unfold resolve. rewrite Hl.
      assert (scan_for (mp_id mp) (done_ ++ scan :: rest) = Some (sn_ops scan)) as ->; [|done].
      by rewrite scan_for_app, Hno, scan_for_cons, (proj2 (Z.eqb_eq _ _) He).
    + destruct (Z.eqb_spec (sn_mport_id scan) RIO_MPORT_ANY) as [Ha|Ha].
      * srun (upd_mport_with _ _ _ (setf mp_nscan (Some (sn_ops scan))) (with_mport_lookup p mp1 s)).
        apply spec_ret. exists (done_ ++ [scan]). rewrite <- app_assoc. split; [done|].
        rewrite Hown, Hsnoc, with_mport_twice. done.
      * apply spec_ret. exists (done_ ++ [scan]). rewrite <- app_assoc. split; [done|].
        by rewrite Hown, Hsnoc.
  - intros s1 (done_ & Hl & Hno & ->). rewrite app_nil_r in Hl. unfold resolve. rewrite Hl, Hno. done.
Qed.

(** What registering the device of a port in the driver core leaves alone. *)
Definition register_quiet (p : ptr) : Prop := forall s,
  total (ext_device_register_mport p) s (fun _ s' =>
    ks_mports s' = ks_mports s /\ rio_mports s' = rio_mports s /\ rio_scans s' = rio_scans s /\
    next_portid s' = next_portid s).

Lemma registry_ext s s' :
  registry s -> ks_mports s' = ks_mports s -> rio_mports s' = rio_mports s ->
  rio_scans s' = rio_scans s -> next_portid s' = next_portid s -> registry s'.
Proof.
  intros [H0 H1 H2 H3 H4 H5 H6] E1 E2 E3 E4.
  split; rewrite ?E1, ?E2, ?E3, ?E4; try done.
Qed.

(** A port with a fresh number enters the registry. *)
Lemma registry_new s p mp :
  registry s -> p ∉ rio_mports s -> next_portid s < RIO_MAX_MPORTS ->
  mp_id mp = next_portid s -> mp_nscan mp = resolve (rio_scans s) (mp_id mp) ->
  registry (setf rio_mports (rio_mports s ++ [p]) (setf next_portid (next_portid s + 1) (with_mport p mp s))).
Proof.
  intros [H0 H1 H2 H3 H4 H5 H6] Hp Hlt Hid Hsc.
  assert (forall q mq, q ∈ rio_mports s ++ [p] -> <[p := mp]> (ks_mports s) !! q = Some mq ->
    (q = p /\ mq = mp) \/ (q <> p /\ q ∈ rio_mports s /\ ks_mports s !! q = Some mq)) as Hcase.
  { intros q mq [Hq|Hq%list_elem_of_singleton]%elem_of_app Hmq.
    - right. assert (q <> p) by (by intros ->). by rewrite lookup_insert_ne in Hmq.
    - left. subst q. rewrite lookup_insert_eq in Hmq. by injection Hmq. }
  split; cbn.
  - apply NoDup_app. split; [done|split; [|apply NoDup_singleton]].
    intros q Hq Hqp%list_elem_of_singleton. by subst q.
  - intros q [Hq|Hq%list_elem_of_singleton]%elem_of_app; [|subst q].
    + rewrite lookup_insert_ne by (by intros ->). by apply H1.
    + by rewrite lookup_insert_eq.
  - intros q r mq mr Hq Hr Hmq Hmr He.
    destruct (Hcase q mq Hq Hmq) as [[-> ->]|(Hne & Hq1 & Hq2)],
      (Hcase r mr Hr Hmr) as [[-> ->]|(Hne' & Hr1 & Hr2)]; [done|..].
    + pose proof (H3 r mr Hr1 Hr2). lia.
    + pose proof (H3 q mq Hq1 Hq2). lia.
    + by apply (H2 q r mq mr).
  - intros q mq Hq Hmq. destruct (Hcase q mq Hq Hmq) as [[-> ->]|(_ & Hq1 & Hq2)]; [lia|].
    pose proof (H3 q mq Hq1 Hq2). lia.
  - lia.
  - done.
  - intros q mq Hq Hmq. destruct (Hcase q mq Hq Hmq) as [[-> ->]|(_ & Hq1 & Hq2)]; [done|].
    by apply (H6 q).
Qed.


(** A new port gets the next number and, on registration, the method this
    number calls for, whichever of the port and the method was registered
    first; the ninth port is refused. *)
Theorem rio_register_mport_attached s p :
  registry s -> is_Some (ks_mports s !! p) -> p ∉ rio_mports s -> register_quiet p ->
  length (hdid s) = Z.to_nat RIO_MAX_MPORTS ->
  total (rc <- rio_mport_initialize p ;; if truthy rc then ret rc else rio_register_mport p) s
    (fun rc s' => registry s' /\
       if next_portid s <? RIO_MAX_MPORTS
       then rio_mports s' = rio_mports s ++ [p] /\ next_portid s' = next_portid s + 1 /\
            exists mp, ks_mports s' !! p = Some mp /\ mp_id mp = next_portid s
       else rc = - ENODEV /\ s' = s).
Proof.
  intros Hreg [mp Hmp] Hnew Hq Hlen. pose proof (reg_count s Hreg) as Hcount.
  apply spec_bind. unfold rio_mport_initialize. apply spec_bind, spec_gets.
  destruct (Z.ltb_spec (next_portid s) RIO_MAX_MPORTS) as [Hlt|Hge].
  2: { destruct (Z.leb_spec RIO_MAX_MPORTS (next_portid s)); [|lia]. apply spec_ret. by apply spec_ret. }
  destruct (Z.leb_spec RIO_MAX_MPORTS (next_portid s)); [lia|].
  set (n := next_portid s) in *. unfold RIO_MAX_MPORTS in *.
  srun (upd_mport_with _ _ _ (setf mp_state RIO_DEVICE_INITIALIZING) Hmp).
  apply spec_bind, spec_modify. rewrite u8_small by lia.
  set (mp1 := setf mp_state _ mp). set (s1 := setf next_portid (n + 1) (with_mport p mp1 s)).
  assert (ks_mports s1 !! p = Some mp1) as H1 by apply with_mport_lookup.
  srun (upd_mport_with _ _ _ (setf mp_id n) H1). set (mp2 := setf mp_id n mp1).
  set (s2 := with_mport p mp2 s1).
  assert (exists h, rio_get_hdid n s2 = Done h s2) as [h Hh].
  { unfold rio_get_hdid, bind, gets. destruct (_ || _); [by eexists|].
    destruct (lookup_lt_is_Some_2 (hdid s2) (Z.to_nat n)) as [h Hh]; [cbn; lia|].
    exists h. apply run_array_get; [lia|done]. }
  srun Hh. srun (upd_mport_with _ _ _ (setf mp_host_deviceid h) (with_mport_lookup p mp2 s1)).
  set (mp3 := setf mp_host_deviceid h mp2).
  srun (upd_mport_with _ _ _ (setf mp_nscan None) (with_mport_lookup p mp3 s2)).
  set (mp4 := setf mp_nscan None mp3).
  srun (upd_mport_with _ _ _ (setf mp_pwe_refcnt 0) (with_mport_lookup p mp4 (with_mport p mp3 s2))).
  set (mp5 := setf mp_pwe_refcnt 0 mp4).
  srun (upd_mport_with _ _ _ (setf mp_pwrites [])
    (with_mport_lookup p mp5 (with_mport p mp4 (with_mport p mp3 s2)))).
  set (mp6 := setf mp_pwrites [] mp5). apply spec_ret. cbn [truthy Z.eqb negb].
  unfold s2. rewrite !with_mport_twice. set (s3 := with_mport p mp6 s1).
  unfold rio_register_mport. apply spec_bind, spec_gets, spec_bind.
  eapply spec_mono.
  { apply (attach_port_loop s3 p mp6); [apply with_mport_lookup|cbn; lia|done|apply Hreg]. }
  cbv beta. intros _ s4 ->. apply spec_bind, spec_modify.
  set (mp7 := setf mp_nscan (resolve _ _) mp6). set (s4 := setf rio_mports _ _).
  assert (ks_mports s4 !! p = Some mp7) as H4 by apply with_mport_lookup.
  srun (upd_mport_with _ _ _ (setf mp_state RIO_DEVICE_RUNNING) H4).
  set (mp8 := setf mp_state RIO_DEVICE_RUNNING mp7). set (s5 := with_mport p mp8 s4).
  assert (s5 = setf rio_mports (rio_mports s ++ [p])
    (setf next_portid (n + 1) (with_mport p mp8 s))) as Hs5.
  { unfold s5, s4, s3, s1, with_mport. cbn. by rewrite !insert_insert_eq. }
  assert (registry s5) as Hreg5 by (rewrite Hs5; by apply registry_new).
  eapply spec_mono; [apply Hq|]. cbv beta. intros rc s6 (E1 & E2 & E3 & E4).
  split; [by apply (registry_ext s5)|]. rewrite E1, E2, E4, Hs5. split; [done|split; [done|]].
  exists mp8. split; [apply lookup_insert_eq|done].
Qed.
End registry.

(** ** The walk over all devices *)

Section walk.
Context {W : Type} `{!KernelEnv W}.
Implicit Types s : kstate W.

Lemma list_after_app p l1 l2 : p ∉ l1 -> list_after p (l1 ++ p :: l2) = Some l2.
Proof.
  induction l1 as [|q l1 IH]; intros Hp; cbn; [by rewrite decide_True|].
  rewrite decide_False by (intros ->; apply Hp, list_elem_of_here).
  apply IH. intros Hin. by apply Hp, list_elem_of_further.
Qed.

(** The state while a search holds a reference to [from]. *)
Definition held (from : option ptr) s : kstate W :=
  match from with
  | Some p => match ks_devs s !! p with
              | Some d => with_dev p (setf rd_ref (rd_ref d + 1) d) s
              | None => s
              end
  | None => s
  end.

Lemma run_put_held p s d :
  ks_devs s !! p = Some d -> 0 < rd_ref d -> rio_dev_put (Some p) (held (Some p) s) = Done tt s.
Proof.
  intros Hd Hr. unfold held. rewrite Hd.
  set (d1 := setf rd_ref (rd_ref d + 1) d).
  rewrite (run_dev_put _ p d1 (with_dev_lookup _ _ _)) by (cbn; lia).
  rewrite with_dev_twice, with_dev_same; [done|]. rewrite Hd. f_equal. unfold d1. destruct d. cbn. f_equal. lia.
Qed.

(** One search for any device: the next one on the list, with the reference
    moved from the previous one to it. *)
Lemma run_get_any s from l1 l2 :
  rio_devices s = l1 ++ l2 -> NoDup (rio_devices s) ->
  (forall p, p ∈ rio_devices s -> exists d, ks_devs s !! p = Some d /\ 0 < rd_ref d) ->
  (match from with Some p => exists l1', l1 = l1' ++ [p] | None => l1 = [] end) ->
  rio_get_device RIO_ANY_ID RIO_ANY_ID from (held from s) = Done (head l2) (held (head l2) s).
Proof.
  intros Hl Hnd Hok Hfrom. unfold rio_get_device, rio_get_asm, bind at 1, gets.
  assert (rio_devices (held from s) = l1 ++ l2) as ->.
  { rewrite <- Hl. destruct from as [p|]; [|done]. cbn. by destruct (ks_devs s !! p). }
  erewrite (bind_Done _ _ _ l2 (held from s)).
  2: { destruct from as [p|]; [|by subst l1]. destruct Hfrom as [l1' ->].
       rewrite Hl in Hnd. rewrite <- app_assoc in *. cbn in *.
       apply NoDup_app in Hnd as (_ & Hp & _). rewrite list_after_app; [done|].
       intros Hin. apply (Hp p Hin), list_elem_of_here. }
  erewrite (bind_Done _ _ _ (head l2) (held from s)).
  2: { destruct l2 as [|q l2]; [done|]. cbn [for_exit head].
       assert (exists d, ks_devs (held from s) !! q = Some d) as [d Hd].
       { destruct (Hok q) as (d & Hd & _); [rewrite Hl; apply elem_of_app; right; apply list_elem_of_here|].
         destruct from as [p|]; [|by exists d]. cbn. destruct (ks_devs s !! p) as [dp|]; [|by exists d].
         cbn. destruct (decide (q = p)) as [->|]; [rewrite lookup_insert_eq|rewrite lookup_insert_ne by done];
           eauto. }
       erewrite bind_Done; [|by run (run_get_dev _ _ _ Hd)]. done. }
  erewrite (bind_Done _ _ _ tt s).
  2: { destruct from as [p|]; [|done]. destruct (Hok p) as (d & Hd & Hr); [|by eapply run_put_held].
       destruct Hfrom as [l1' ->]. rewrite Hl. apply elem_of_app. left. apply elem_of_app. right.
       by apply list_elem_of_singleton. }
  destruct l2 as [|q l2]; [done|]. cbn [head].
  destruct (Hok q) as (d & Hd & _); [rewrite Hl; apply elem_of_app; right; apply list_elem_of_here|].
  rewrite (run_dev_get _ _ _ Hd). unfold held. by rewrite Hd.
Qed.

(** The walk over all devices that ends the start-up visits every device on
    the list once and ends; each device is referenced while it is visited, and
    at the end every reference count is as before. *)
Theorem rio_init_balanced s fuel :
  NoDup (rio_devices s) ->
  (forall p, p ∈ rio_devices s -> exists d, ks_devs s !! p = Some d /\ 0 < rd_ref d) ->
  (length (rio_devices s) < fuel)%nat ->
  rio_init fuel s = Done 0 s.
Proof.
  intros Hnd Hok Hf. unfold rio_init. change s with (held None s) at 1.
  enough (forall l2 l1 from fuel, rio_devices s = l1 ++ l2 -> (length l2 < fuel)%nat ->
    (match from with Some p => exists l1', l1 = l1' ++ [p] | None => l1 = [] end) ->
    loop fuel init_step from (held from s) = Done 0 s) as H by by apply (H (rio_devices s) []).
  clear fuel Hf. induction l2 as [|q l2 IH]; intros l1 from fuel Hl Hf Hfrom;
    (destruct fuel as [|fuel]; [cbn in Hf; lia|]); cbn [loop]; unfold init_step.
  - erewrite bind_Done; [|by run (run_get_any s from l1 [] Hl Hnd Hok Hfrom)]. done.
  - erewrite bind_Done; [|by run (run_get_any s from l1 (q :: l2) Hl Hnd Hok Hfrom)].
    cbn [head]. apply (IH (l1 ++ [q])); [by rewrite <- app_assoc|cbn in Hf; lia|by exists l1].
Qed.
End walk.

(** ** Witnesses *)

Section witnesses.
#[local] Existing Instance idle_externals.

Definition reg_state : kstate bench := setf hdid (replicate 8 (-1))
  (setf ks_mports {[ 1%positive := bench_mport; 2%positive := bench_mport ]} (bench_state ∅ ∅)).

Lemma reg_state_registry : registry reg_state.
Proof.
  assert (forall p, p ∈ rio_mports reg_state -> p = 1%positive) as H1
    by (by intros p ->%list_elem_of_singleton).
  split; try done.
  - apply NoDup_singleton.
  - by intros p ->%H1.
  - by intros p q mp mq ->%H1 ->%H1.
  - intros p mp ->%H1 [= <-]. by vm_compute.
  - apply NoDup_nil. exact I.
  - by intros p mp ->%H1 [= <-].
Qed.


Lemma rio_register_mport_attached_witness :
  total (rc <- rio_mport_initialize 2 ;; if truthy rc then ret rc else rio_register_mport 2) reg_state
    (fun rc s' => registry s' /\
       (rio_mports s' = [1%positive; 2%positive] /\ next_portid s' = 2 /\
        exists mp, ks_mports s' !! 2%positive = Some mp /\ mp_id mp = 1)).
Proof.
  refine (rio_register_mport_attached reg_state 2 reg_state_registry _ _ _ eq_refl).
  - by eexists.
  - by intros ?%list_elem_of_singleton.
  - done.
Defined.

Definition walk_state : kstate bench := setf rio_devices [5%positive; 6%positive]
  (setf ks_devs {[ 5%positive := setf rd_ref 1 (zero_rio_dev None);
                   6%positive := setf rd_ref 2 (zero_rio_dev None) ]} (bench_state ∅ ∅)).

Lemma rio_init_balanced_witness : rio_init 3 walk_state = Done 0 walk_state.
Proof.
  refine (rio_init_balanced walk_state 3 _ _ _).
  - apply (bool_decide_unpack _). by vm_compute.
  - intros p [->|[->|[]%elem_of_nil]%elem_of_cons]%elem_of_cons; eexists; (split; [reflexivity|done]).
  - cbn. lia.
Defined.
End witnesses.
