(* ===== verification/Scan.v ===== *)
(** * Enumeration and discovery (rio-scan.c)

    The table of destination ids, the set-up of a device, the recursive walks of
    enumeration and discovery, the update of routing tables and the entry points
    that rio.c calls. *)

From S2P Require Import Prelude Regs State Access Bench Hw SwBench ExtFeat Route Mbox Em Driver Mport.

(** ** Bit arrays *)

(** The position of the first bit equal to [b], counted from [i]; the position
    after the end when there is none. *)
Fixpoint find_bit (b : bool) (l : list bool) (i : Z) : Z :=
  match l with
  | [] => i
  | x :: l' => if Bool.eqb x b then i else find_bit b l' (i + 1)
  end.

Definition find_first_zero_bit (t : list bool) (size : Z) : Z :=
  find_bit false (take (Z.to_nat size) t) 0.
Definition find_first_bit (t : list bool) (size : Z) : Z :=
  find_bit true (take (Z.to_nat size) t) 0.
Definition find_next_bit (t : list bool) (size from : Z) : Z :=
  if size <=? from then size
  else find_bit true (drop (Z.to_nat from) (take (Z.to_nat size) t)) from.

(** The first bit is found: it has the value, and no earlier one does. *)
Lemma find_bit_spec b l i :
  let r := find_bit b l i in
  i <= r <= i + Z.of_nat (length l) /\
  (r < i + Z.of_nat (length l) -> l !! Z.to_nat (r - i) = Some b) /\
  (forall j, i <= j < r -> l !! Z.to_nat (j - i) = Some (negb b)).
Proof.
  revert i. induction l as [|x l IH]; intros i; cbn [find_bit length].
  - split; [lia|split; [lia|intros; lia]].
  - destruct (Bool.eqb x b) eqn:E.
    + apply Bool.eqb_prop in E as ->. split; [lia|split; [|intros; lia]]. by rewrite Z.sub_diag.
    + destruct (IH (i + 1)) as (H1 & H2 & H3). split; [lia|split].
      * intros Hr. replace (Z.to_nat (find_bit b l (i + 1) - i))
          with (S (Z.to_nat (find_bit b l (i + 1) - (i + 1)))) by lia. apply H2. lia.
      * intros j Hj. destruct (decide (j = i)) as [->|].
        { rewrite Z.sub_diag. by destruct x, b. }
        replace (Z.to_nat (j - i)) with (S (Z.to_nat (j - (i + 1)))) by lia. apply H3. lia.
Qed.

Section destid.
Context {W : Type} `{!KernelEnv W}.

(** ** Destination ids *)

Definition get_idtab (net : ptr) : KM W rio_id_table :=
  n <- get_net net ;; deref (net_enum_data n).
Definition set_idtab (net : ptr) (t : rio_id_table) : KM W unit :=
  upd_net net (setf net_enum_data (Some t)).

(** [set_bit] and [clear_bit] on the table. *)
Definition write_bit (net : ptr) (i : Z) (b : bool) : KM W unit :=
  idtab <- get_idtab net ;;
  table <- array_set (idt_table idtab) i b ;;
  set_idtab net (setf idt_table table idtab).

Definition rio_destid_alloc (net : ptr) : KM W Z :=
  idtab <- get_idtab net ;;
  let destid := find_first_zero_bit (idt_table idtab) (idt_max idtab) in
  if destid <? idt_max idtab then
    write_bit net destid true ;;;
    ret (u16 (destid + idt_start idtab))
  else ret (u16 RIO_INVALID_DESTID).

Definition rio_destid_reserve (net : ptr) (destid : Z) : KM W Z :=
  idtab <- get_idtab net ;;
  let destid := u16 (destid - idt_start idtab) in
  oldbit <- array_get (idt_table idtab) destid ;;
  write_bit net destid true ;;;
  ret (if oldbit : bool then 1 else 0).

Definition rio_destid_free (net : ptr) (destid : Z) : KM W unit :=
  idtab <- get_idtab net ;;
  write_bit net (u16 (destid - idt_start idtab)) false.

Definition rio_destid_first (net : ptr) : KM W Z :=
  idtab <- get_idtab net ;;
  let destid := find_first_bit (idt_table idtab) (idt_max idtab) in
  ret (u16 (if idt_max idtab <=? destid then RIO_INVALID_DESTID
            else destid + idt_start idtab)).

Definition rio_destid_next (net : ptr) (from : Z) : KM W Z :=
  idtab <- get_idtab net ;;
  let destid := find_next_bit (idt_table idtab) (idt_max idtab) (u16 from) in
  ret (u16 (if idt_max idtab <=? destid then RIO_INVALID_DESTID
            else destid + idt_start idtab)).
End destid.

(** ** The table is a set of ids *)

Section destid_lemmas.
Context {W : Type} `{!KernelEnv W}.
Implicit Types s : kstate W.

(** The state with the table of a network replaced. *)
Definition with_idtab (net : ptr) (n : rio_net) (t : rio_id_table) s : kstate W :=
  setf ks_nets (<[net := setf net_enum_data (Some t) n]> (ks_nets s)) s.

(** The network [net] is [n], with the table [t] of at most 2^16 ids. *)
Record idtab_at s (net : ptr) (n : rio_net) (t : rio_id_table) : Prop := {
  it_net : ks_nets s !! net = Some n;
  it_tab : net_enum_data n = Some t;
  it_len : Z.of_nat (length (idt_table t)) = idt_max t;
  it_start : 0 <= idt_start t;
  it_max : idt_start t + idt_max t <= 2 ^ 16;
}.

Lemma run_get_idtab s net n t : idtab_at s net n t -> get_idtab net s = Done t s.
Proof. intros H. unfold get_idtab. run (run_get_net _ _ _ (it_net _ _ _ _ H)). by rewrite (it_tab _ _ _ _ H). Qed.

Lemma run_write_bit s net n t i b :
  idtab_at s net n t -> 0 <= i < idt_max t ->
  write_bit net i b s = Done tt (with_idtab net n (setf idt_table (<[Z.to_nat i := b]> (idt_table t)) t) s).
Proof.
  intros H Hi. unfold write_bit. run (run_get_idtab _ _ _ _ H). rewrite <- (it_len _ _ _ _ H) in Hi.
  run (run_array_set s (idt_table t) i b Hi). by apply run_upd_net, H.
Qed.

(** Allocation takes the least free id, if there is one. *)
Lemma run_destid_alloc s net n t :
  idtab_at s net n t ->
  (exists i, 0 <= i < idt_max t /\ idt_table t !! Z.to_nat i = Some false /\
     (forall j, 0 <= j < i -> idt_table t !! Z.to_nat j = Some true) /\
     rio_destid_alloc net s = Done (idt_start t + i)
       (with_idtab net n (setf idt_table (<[Z.to_nat i := true]> (idt_table t)) t) s)) \/
  ((forall j, 0 <= j < idt_max t -> idt_table t !! Z.to_nat j = Some true) /\
   rio_destid_alloc net s = Done RIO_INVALID_DESTID s).
Proof.
  intros H. pose proof (it_len _ _ _ _ H) as Hlen. pose proof (it_start _ _ _ _ H) as Hst.
  pose proof (it_max _ _ _ _ H) as Hmax. unfold rio_destid_alloc.
  destruct (find_bit_spec false (idt_table t) 0) as (Hr & H2 & H3).
  set (r := find_bit _ _ _) in *. rewrite Z.sub_0_r in H2.
  assert (forall j, 0 <= j < r -> idt_table t !! Z.to_nat j = Some true) as H3'
    by (intros j Hj; rewrite <- (Z.sub_0_r j); by apply H3).
  destruct (Z.ltb_spec r (idt_max t)) as [Hlt|Hge].
  - left. exists r. split; [lia|split; [apply H2; lia|split; [done|]]].
    run (run_get_idtab _ _ _ _ H). unfold find_first_zero_bit. rewrite take_ge by lia. fold r.
    destruct (Z.ltb_spec r (idt_max t)); [|lia].
    run (run_write_bit s net n t r true H ltac:(lia)). unfold ret. rewrite u16_small by lia.
    f_equal. lia.
  - right. split; [intros j Hj; apply H3'; lia|]. run (run_get_idtab _ _ _ _ H).
    unfold find_first_zero_bit. rewrite take_ge by lia. fold r. by destruct (Z.ltb_spec r (idt_max t)); [lia|].
Qed.

Lemma with_idtab_at s net n t t' :
  idtab_at s net n t -> idt_start t' = idt_start t -> idt_max t' = idt_max t ->
  length (idt_table t') = length (idt_table t) ->
  idtab_at (with_idtab net n t' s) net (setf net_enum_data (Some t') n) t'.
Proof.
  intros [H1 H2 H3 H4 H5] E1 E2 E3.
  split; [apply lookup_insert_eq|done|congruence|congruence|lia].
Qed.
End destid_lemmas.

Section scan.
Context {W : Type} `{!KernelEnv W}.

(** ** Device ids and locks *)

Definition rio_get_device_id (port : ptr) (destid hopcount : Z) : KM W Z :=
  result <- uninit ;;
  let! (_, result) := rio_mport_read_config_32 port destid hopcount RIO_DID_CSR result ;;
  mp <- get_mport port ;;
  ret (u16 (RIO_GET_DID (mp_sys_size mp) result)).

Definition rio_set_device_id (port : ptr) (destid hopcount did : Z) : KM W unit :=
  mp <- get_mport port ;;
  rio_mport_write_config_32 port destid hopcount RIO_DID_CSR
    (RIO_SET_DID (mp_sys_size mp) did) ;;;
  ret tt.

(** The part of [rio_clear_locks] for the devices of the net; [result] and [ret_]
    are the variables of the function. *)
Fixpoint clear_locks_loop (port : ptr) (devs : list ptr) (result ret_ : Z) : KM W Z :=
  match devs with
  | [] => ret ret_
  | rdev :: devs' =>
      mp <- get_mport port ;;
      rio_write_config_32 rdev RIO_HOST_DID_LOCK_CSR (mp_host_deviceid mp) ;;;
      let! (_, result) := rio_read_config_32 rdev RIO_HOST_DID_LOCK_CSR result ;;
      let ret_ := if negb (Z.land result 0xffff =? 0xffff) then - EINVAL else ret_ in
      d <- get_dev rdev ;;
      let! (_, result) :=
        rio_read_config_32 rdev (rd_phys_efptr d + RIO_PORT_GEN_CTL_CSR) result ;;
      let result := Z.lor result (Z.lor RIO_PORT_GEN_DISCOVERED RIO_PORT_GEN_MASTER) in
      rio_write_config_32 rdev (rd_phys_efptr d + RIO_PORT_GEN_CTL_CSR) result ;;;
      clear_locks_loop port devs' result ret_
  end.

Definition rio_clear_locks (net : ptr) : KM W Z :=
  n <- get_net net ;;
  port <- deref (net_hport n) ;;
  result <- uninit ;;
  mp <- get_mport port ;;
  rio_local_write_config_32 port RIO_HOST_DID_LOCK_CSR (mp_host_deviceid mp) ;;;
  let! (_, result) := rio_local_read_config_32 port RIO_HOST_DID_LOCK_CSR result ;;
  clear_locks_loop port (net_devices n) result
    (if negb (Z.land result 0xffff =? 0xffff) then - EINVAL else 0).

Definition rio_enum_host (port : ptr) : KM W Z :=
  mp <- get_mport port ;;
  rio_local_write_config_32 port RIO_HOST_DID_LOCK_CSR (mp_host_deviceid mp) ;;;
  result <- uninit ;;
  let! (_, result) := rio_local_read_config_32 port RIO_HOST_DID_LOCK_CSR result ;;
  if negb (Z.land result 0xffff =? u32 (mp_host_deviceid mp)) then ret (-1)
  else rio_local_set_device_id port (u16 (mp_host_deviceid mp)) ;;; ret 0.

Definition rio_device_has_destid (src_ops dst_ops : Z) : bool :=
  truthy (Z.land (Z.lor src_ops dst_ops)
    (Z.lor RIO_OPS_READ (Z.lor RIO_OPS_WRITE (Z.lor RIO_OPS_ATOMIC_TST_SWP
      (Z.lor RIO_OPS_ATOMIC_INC (Z.lor RIO_OPS_ATOMIC_DEC
        (Z.lor RIO_OPS_ATOMIC_SET RIO_OPS_ATOMIC_CLR))))))).

Definition rio_is_switch (d : rio_dev) : bool := truthy (Z.land (rd_pef d) RIO_PEF_SWITCH).

Definition rio_sport_is_active (rdev : ptr) (sp : Z) : KM W Z :=
  d <- get_dev rdev ;;
  let! (_, result) := rio_read_config_32 rdev (RIO_DEV_PORT_N_ERR_STS_CSR d sp) 0 ;;
  ret (Z.land result RIO_PORT_N_ERR_STS_PORT_OK).

Definition rio_get_host_deviceid_lock (port : ptr) (hopcount : Z) : KM W Z :=
  mp <- get_mport port ;;
  result <- uninit ;;
  let! (_, result) := rio_mport_read_config_32 port (RIO_ANY_DESTID (mp_sys_size mp)) hopcount
    RIO_HOST_DID_LOCK_CSR result ;;
  ret (Z.land result 0xffff).

Definition rio_enum_complete (port : ptr) : KM W Z :=
  mp <- get_mport port ;;
  regval <- uninit ;;
  let! (_, regval) := rio_local_read_config_32 port
    (u32 (mp_phys_efptr mp + RIO_PORT_GEN_CTL_CSR)) regval ;;
  ret (if truthy (Z.land regval RIO_PORT_GEN_DISCOVERED) then 1 else 0).

Definition rio_mport_is_active (port : ptr) : KM W Z :=
  mp <- get_mport port ;;
  let! (_, result) := rio_local_read_config_32 port
    (u32 (mp_phys_efptr mp + RIO_PORT_N_ERR_STS_CSR (mp_index mp) (mp_phys_rmap mp))) 0 ;;
  ret (Z.land result RIO_PORT_N_ERR_STS_PORT_OK).

(** ** Setting up a device *)

(** The registers that identify a device, read one after the other. *)
Definition read_identity (fuel : nat) (port rdev : ptr) (destid hopcount : Z) : KM W unit :=
  let read := rio_mport_read_config_32 port destid hopcount in
  d <- get_dev rdev ;;
  let! (_, result) := read RIO_DEV_ID_CAR (rd_pef d) ;;
  upd_dev rdev (fun d =>
    setf rd_did (u16 (Z.shiftr result 16)) (setf rd_vid (Z.land result 0xffff) d)) ;;;
  let! (_, rev) := read RIO_DEV_INFO_CAR 0 ;;
  upd_dev rdev (setf rd_device_rev rev) ;;;
  let! (_, result) := read RIO_ASM_ID_CAR result ;;
  upd_dev rdev (fun d =>
    setf rd_asm_did (u16 (Z.shiftr result 16)) (setf rd_asm_vid (Z.land result 0xffff) d)) ;;;
  let! (_, result) := read RIO_ASM_INFO_CAR result ;;
  upd_dev rdev (setf rd_asm_rev (u16 (Z.shiftr result 16))) ;;;
  when (truthy (Z.land (rd_pef d) RIO_PEF_EXT_FEATURES))
    (upd_dev rdev (setf rd_efptr (Z.land result 0xffff)) ;;;
     let! (phys_efptr, phys_rmap) :=
       rio_mport_get_physefb fuel port false destid hopcount (rd_phys_rmap d) ;;
     upd_dev rdev (fun d => setf rd_phys_efptr phys_efptr (setf rd_phys_rmap phys_rmap d)) ;;;
     em_efptr <- rio_mport_get_feature fuel port false destid hopcount RIO_EFB_ERR_MGMNT ;;
     em_efptr <- (if em_efptr =? 0
                  then rio_mport_get_feature fuel port false destid hopcount RIO_EFB_ERR_MGMNT_HS
                  else ret em_efptr) ;;
     upd_dev rdev (setf rd_em_efptr em_efptr)) ;;;
  let! (_, src_ops) := read RIO_SRC_OPS_CAR 0 ;;
  upd_dev rdev (setf rd_src_ops src_ops) ;;;
  let! (_, dst_ops) := read RIO_DST_OPS_CAR 0 ;;
  upd_dev rdev (setf rd_dst_ops dst_ops).

(** Assigning or reading the component tag; false on counter overflow. *)
Definition setup_comptag (port rdev : ptr) (destid hopcount : Z) (do_enum : bool) : KM W bool :=
  if do_enum then
    tag <- gets next_comptag ;;
    if 0x10000 <=? tag then ret false
    else
      rio_mport_write_config_32 port destid hopcount RIO_COMPONENT_TAG_CSR tag ;;;
      modify (setf next_comptag (tag + 1)) ;;;
      upd_dev rdev (fun d => setf rd_comp_tag tag (setf rd_do_enum true d)) ;;;
      ret true
  else
    let! (_, tag) := rio_mport_read_config_32 port destid hopcount RIO_COMPONENT_TAG_CSR 0 ;;
    upd_dev rdev (setf rd_comp_tag tag) ;;;
    ret true.

(** Assigning or reading the destination id. *)
Definition setup_destid (net port rdev : ptr) (destid hopcount : Z) (do_enum : bool) : KM W unit :=
  d <- get_dev rdev ;;
  if rio_device_has_destid (rd_src_ops d) (rd_dst_ops d) then
    (if do_enum then
       id <- gets next_destid ;;
       rio_set_device_id port destid hopcount (u16 id) ;;;
       upd_dev rdev (setf rd_destid (u16 id)) ;;;
       next <- rio_destid_alloc net ;;
       modify (setf next_destid next)
     else
       id <- rio_get_device_id port destid hopcount ;;
       upd_dev rdev (setf rd_destid id)) ;;;
    upd_dev rdev (setf rd_hopcount 0xff)
  else
    upd_dev rdev (fun d => setf rd_destid destid (setf rd_hopcount hopcount d)).

Context `{!SwitchTables W} `{!Externals W}.

(** The part that differs for switches and end points; false without memory for
    the routing table. *)
Definition setup_kind (fuel : nat) (port rdev : ptr) (destid hopcount : Z) (do_enum : bool)
    : KM W bool :=
  d <- get_dev rdev ;;
  if rio_is_switch d then
    upd_rswitch rdev (setf rs_port_ok 0) ;;;
    mp <- get_mport port ;;
    ok <- kzalloc ;;
    if ok : bool then
      upd_rswitch rdev (setf rs_route_table (Some (replicate
        (Z.to_nat (RIO_MAX_ROUTE_ENTRIES (mp_sys_size mp))) RIO_INVALID_ROUTE))) ;;;
      when do_enum (rio_route_clr_table rdev RIO_GLOBAL_TABLE false ;;; ret tt) ;;;
      ret true
    else ret false
  else
    when do_enum (rio_enable_rx_tx_port fuel port false destid hopcount 0 ;;; ret tt) ;;;
    ret true.

(** [kfree] of the device and of its routing table, if it has got one. *)
Definition setup_cleanup (rdev : ptr) : KM W (option ptr) :=
  d <- get_dev rdev ;;
  when (bool_decide (is_Some (rs ← rd_rswitch d; rs_route_table rs))) kfree ;;;
  modify (fun s => setf ks_devs (delete rdev (ks_devs s)) s) ;;;
  kfree ;;;
  ret None.

Definition rio_setup_device (fuel : nat) (net port : ptr) (destid hopcount : Z) (do_enum : bool)
    : KM W (option ptr) :=
  result <- uninit ;;
  let! (rc, pef) := rio_mport_read_config_32 port destid hopcount RIO_PEF_CAR result ;;
  if truthy rc then ret None
  else
    let! (_, swpinfo) :=
      (if truthy (Z.land pef (Z.lor RIO_PEF_SWITCH RIO_PEF_MULTIPORT)) then
         rio_mport_read_config_32 port destid hopcount RIO_SWP_INFO_CAR 0
       else ret (0, 0)) ;;
    let rswitch :=
      if truthy (Z.land pef RIO_PEF_SWITCH)
      then Some (mk_rio_switch None 0 None
                   (replicate (Z.to_nat (RIO_GET_TOTAL_PORTS swpinfo)) None))
      else None in
    ok <- kzalloc ;;
    if ok : bool then
      rdev <- fresh_ptr ;;
      modify (fun s => setf ks_devs (<[rdev :=
        setf rd_net (Some net) (setf rd_pef pef (setf rd_swpinfo swpinfo
          (zero_rio_dev rswitch)))]> (ks_devs s)) s) ;;;
      read_identity fuel port rdev destid hopcount ;;;
      tagged <- setup_comptag port rdev destid hopcount do_enum ;;
      if negb tagged then setup_cleanup rdev
      else
        setup_destid net port rdev destid hopcount do_enum ;;;
        done_ <- setup_kind fuel port rdev destid hopcount do_enum ;;
        if negb done_ then setup_cleanup rdev
        else
          upd_dev rdev (setf rd_dma_mask 0xffffffff) ;;;
          d <- get_dev rdev ;;
          when (truthy (Z.land (rd_dst_ops d) RIO_DST_OPS_DOORBELL))
            (upd_dev rdev (setf rd_riores
               (<[RIO_DOORBELL_RESOURCE := rio_init_dbell_res 0 0xffff]> (rd_riores d)))) ;;;
          err <- rio_add_device rdev ;;
          if truthy err then setup_cleanup rdev
          else
            rio_dev_get (Some rdev)
    else ret None.
End scan.

(** ** Enumeration *)

Section enum.
Context {W : Type} `{!KernelEnv W} `{!SwitchTables W} `{!Externals W}.

(** [rdev->rswitch->route_table[i] = v] *)
Definition set_route (rdev : ptr) (i v : Z) : KM W unit :=
  sw <- get_rswitch rdev ;;
  tbl <- deref (rs_route_table sw) ;;
  tbl <- array_set tbl i (u8 v) ;;
  upd_rswitch rdev (setf rs_route_table (Some tbl)).

(** [prev->rswitch->nextdev[i] = rdev], for a previous device that is a switch. *)
Definition link_device (prev : option ptr) (i : Z) (rdev : ptr) : KM W unit :=
  match prev with
  | None => ret tt
  | Some p =>
      d <- get_dev p ;;
      when (rio_is_switch d)
        (sw <- get_rswitch p ;;
         nd <- array_set (rs_nextdev sw) i (Some rdev) ;;
         upd_rswitch p (setf rs_nextdev nd))
  end.

Definition rio_init_em (rdev : ptr) : KM W unit :=
  d <- get_dev rdev ;;
  if rio_is_switch d && truthy (rd_em_efptr d) then
    sw <- get_rswitch rdev ;;
    match rs_ops sw ≫= (fun o => so_em_init (switch_ops o)) with
    | Some em_init => em_init rdev ;;; ret tt
    | None => ret tt
    end
  else ret tt.

(** Enough rounds for the 2^16 destination ids. *)
Definition ID_FUEL : nat := Z.to_nat 65537.

(** One round of the loops that route known destination ids to a port. *)
Definition route_known_step (net port rdev : ptr) (sw_port : Z) (check_invalid : bool) (destid : Z)
    : KM W (Z + unit) :=
  next <- gets next_destid ;;
  if (negb check_invalid || negb (destid =? RIO_INVALID_DESTID)) && (destid <? next) then
    mp <- get_mport port ;;
    when (negb (destid =? mp_host_deviceid mp))
      (rio_route_add_entry rdev RIO_GLOBAL_TABLE destid sw_port false ;;;
       set_route rdev destid sw_port) ;;;
    destid <- rio_destid_next net (destid + 1) ;;
    ret (inl destid)
  else ret (inr tt).

(** Taking the device lock; there is no limit on the number of rounds. *)
Definition enum_lock_step (port : ptr) (hopcount : Z) (_ : unit) : KM W (unit + unit) :=
  mp <- get_mport port ;;
  tmp <- rio_get_host_deviceid_lock port hopcount ;;
  if tmp <? mp_host_deviceid mp then
    mdelay 1 ;;;
    rio_mport_write_config_32 port (RIO_ANY_DESTID (mp_sys_size mp)) hopcount
      RIO_HOST_DID_LOCK_CSR (mp_host_deviceid mp) ;;;
    ret (inl tt)
  else ret (inr tt).

(** A device that this host has already locked: another link to it is noted. *)
Definition enum_known (port : ptr) (hopcount : Z) (prev : option ptr) (prev_port : Z) : KM W unit :=
  mp <- get_mport port ;;
  regval <- uninit ;;
  let! (_, regval) := rio_mport_read_config_32 port (RIO_ANY_DESTID (mp_sys_size mp)) hopcount
    RIO_COMPONENT_TAG_CSR regval ;;
  if truthy regval then
    rdev <- rio_get_comptag (Z.land regval 0xffff) None ;;
    match rdev with
    | Some rdev => link_device prev prev_port rdev
    | None => ret tt
    end
  else ret tt.

(** The bit of a port in port_ok. *)
Definition set_port_ok (rdev : ptr) (port_num : Z) (ok : bool) : KM W unit :=
  sw <- get_rswitch rdev ;;
  bit <- shift1 port_num ;;
  upd_rswitch rdev (setf rs_port_ok
    (if ok then Z.lor (rs_port_ok sw) bit else Z.land (rs_port_ok sw) (not32 bit))).

(** After the devices behind a port have been enumerated. *)
Definition update_routes (net port rdev : ptr) (port_num cur_destid : Z) : KM W unit :=
  destid <- rio_destid_next net (cur_destid + 1) ;;
  when (negb (destid =? RIO_INVALID_DESTID))
    (loop ID_FUEL (route_known_step net port rdev port_num false) (u16 cur_destid)).

(** One port of a switch; [enum_peer] is the recursive call. *)
Definition enum_port (enum_peer : Z -> option ptr -> Z -> KM W Z) (fuel : nat)
    (net port rdev : ptr) (hopcount sw_inport port_num : Z) : KM W (option Z) :=
  mp <- get_mport port ;;
  let any := RIO_ANY_DESTID (mp_sys_size mp) in
  if sw_inport =? port_num then
    rio_enable_rx_tx_port fuel port false any hopcount port_num ;;;
    set_port_ok rdev port_num true ;;;
    ret None
  else
    cur_destid <- gets next_destid ;;
    active <- rio_sport_is_active rdev port_num ;;
    if truthy active then
      rio_enable_rx_tx_port fuel port false any hopcount port_num ;;;
      set_port_ok rdev port_num true ;;;
      rio_route_add_entry rdev RIO_GLOBAL_TABLE any port_num false ;;;
      rc <- enum_peer (u8 (hopcount + 1)) (Some rdev) port_num ;;
      if rc <? 0 then ret (Some (-1))
      else update_routes net port rdev port_num cur_destid ;;; ret None
    else
      d <- get_dev rdev ;;
      when (truthy (rd_em_efptr d)) (rio_set_port_lockout rdev port_num true ;;; ret tt) ;;;
      set_port_ok rdev port_num false ;;;
      ret None.

(** The part of [rio_enum_peer] for switches. *)
Definition enum_switch (enum_peer : Z -> option ptr -> Z -> KM W Z) (fuel : nat)
    (net port rdev : ptr) (hopcount : Z) : KM W Z :=
  d <- get_dev rdev ;;
  let sw_inport := RIO_GET_PORT_NUM (rd_swpinfo d) in
  mp <- get_mport port ;;
  rio_route_add_entry rdev RIO_GLOBAL_TABLE (u16 (mp_host_deviceid mp)) sw_inport false ;;;
  set_route rdev (mp_host_deviceid mp) sw_inport ;;;
  destid <- rio_destid_first net ;;
  loop ID_FUEL (route_known_step net port rdev sw_inport true) destid ;;;
  sw_destid <- gets next_destid ;;
  r <- for_exit (zrange 0 (RIO_GET_TOTAL_PORTS (rd_swpinfo d)))
    (enum_port enum_peer fuel net port rdev hopcount sw_inport) ;;
  match r with
  | Some rc => ret rc
  | None =>
      d <- get_dev rdev ;;
      when (truthy (Z.land (rd_src_ops d) RIO_SRC_OPS_PORT_WRITE) && truthy (rd_em_efptr d))
        (mp <- get_mport port ;;
         rio_write_config_32 rdev (rd_em_efptr d + RIO_EM_PW_TGT_DEVID)
           (Z.lor (Z.shiftl (mp_host_deviceid mp) 16) (Z.shiftl (mp_sys_size mp) 15)) ;;;
         ret tt) ;;;
      rio_init_em rdev ;;;
      next <- gets next_destid ;;
      when (next =? sw_destid)
        (next <- rio_destid_alloc net ;; modify (setf next_destid next)) ;;;
      upd_dev rdev (setf rd_destid (u16 sw_destid)) ;;;
      ret 0
  end.

(** [lfuel] bounds the wait for the device lock, [fuel] the walks along extended
    feature blocks, [depth] the recursion. *)
Fixpoint rio_enum_peer (lfuel fuel depth : nat) (net port : ptr) (hopcount : Z)
    (prev : option ptr) (prev_port : Z) : KM W Z :=
  match depth with
  | O => nofuel
  | S depth' =>
      mp <- get_mport port ;;
      let any := RIO_ANY_DESTID (mp_sys_size mp) in
      acc <- rio_mport_chk_dev_access port any hopcount ;;
      if truthy acc then ret (-1)
      else
        lock <- rio_get_host_deviceid_lock port hopcount ;;
        if lock =? mp_host_deviceid mp then
          enum_known port hopcount prev prev_port ;;; ret 0
        else
          rio_mport_write_config_32 port any hopcount RIO_HOST_DID_LOCK_CSR
            (mp_host_deviceid mp) ;;;
          loop lfuel (enum_lock_step port hopcount) tt ;;;
          lock <- rio_get_host_deviceid_lock port hopcount ;;
          if mp_host_deviceid mp <? lock then ret (-1)
          else
            rdev <- rio_setup_device fuel net port any hopcount true ;;
            match rdev with
            | None => ret (-1)
            | Some rdev =>
                upd_dev rdev (setf rd_prev prev) ;;;
                link_device prev prev_port rdev ;;;
                d <- get_dev rdev ;;
                if rio_is_switch d then
                  enum_switch (rio_enum_peer lfuel fuel depth' net port) fuel net port rdev hopcount
                else ret 0
            end
  end.

(** ** Networks *)

Definition rio_scan_alloc_net (mport : ptr) (do_enum : bool) (start : Z) : KM W (option ptr) :=
  net <- rio_alloc_net mport ;;
  net <- (match net with
          | Some n =>
              if do_enum then
                mp <- get_mport mport ;;
                ok <- kzalloc ;;
                if ok : bool then
                  let max := RIO_MAX_ROUTE_ENTRIES (mp_sys_size mp) in
                  upd_net n (fun x => setf net_release true (setf net_enum_data
                    (Some (mk_rio_id_table start max (replicate (Z.to_nat max) false))) x)) ;;;
                  ret (Some n)
                else rio_free_net n ;;; ret None
              else ret (Some n)
          | None => ret None
          end) ;;
  match net with
  | Some n =>
      mp <- get_mport mport ;;
      upd_net n (fun x => setf net_id (u8 (mp_id mp)) (setf net_hport (Some mport) x)) ;;;
      rio_add_net n ;;;
      ret (Some n)
  | None => ret None
  end.

(** One device and one switch of [rio_update_route_tables]. *)
Definition update_route (rdev swrdev : ptr) (destid : Z) : KM W unit :=
  d <- get_dev rdev ;;
  if rio_is_switch d && bool_decide (rdev = swrdev) then ret tt
  else
    sw <- get_rswitch swrdev ;;
    tbl <- deref (rs_route_table sw) ;;
    r <- array_get tbl destid ;;
    when (r =? RIO_INVALID_ROUTE)
      (sd <- get_dev swrdev ;;
       if rd_destid sd =? destid then ret tt
       else
         let sport := RIO_GET_PORT_NUM (rd_swpinfo sd) in
         rio_route_add_entry swrdev RIO_GLOBAL_TABLE destid sport false ;;;
         set_route swrdev destid sport).

Definition rio_update_route_tables (net : ptr) : KM W unit :=
  n <- get_net net ;;
  for_ (net_devices n) (fun rdev =>
    d <- get_dev rdev ;;
    n <- get_net net ;;
    for_ (net_switches n) (fun swrdev => update_route rdev swrdev (rd_destid d))).

Definition rio_enum_mport (lfuel fuel depth : nat) (mport : ptr) (flags : Z) : KM W Z :=
  mp <- get_mport mport ;;
  if mp_nnode mp then ret (- EBUSY)
  else
    host <- rio_enum_host mport ;;
    if host <? 0 then ret (- EBUSY)
    else
      active <- rio_mport_is_active mport ;;
      if truthy active then
        net <- rio_scan_alloc_net mport true 0 ;;
        match net with
        | None => ret (- ENOMEM)
        | Some net =>
            mp <- get_mport mport ;;
            rio_destid_reserve net (u16 (mp_host_deviceid mp)) ;;;
            rio_enable_rx_tx_port fuel mport true 0 0 0 ;;;
            tag <- gets next_comptag ;;
            modify (setf next_comptag (tag + 1)) ;;;
            rio_local_write_config_32 mport RIO_COMPONENT_TAG_CSR tag ;;;
            next <- rio_destid_alloc net ;;
            modify (setf next_destid next) ;;;
            rc <- rio_enum_peer lfuel fuel depth net mport 0 None 0 ;;
            if rc <? 0 then rio_clear_locks net ;;; ret (- EBUSY)
            else
              next <- gets next_destid ;;
              rio_destid_free net (u16 next) ;;;
              rio_update_route_tables net ;;;
              rio_clear_locks net ;;;
              rio_pw_enable mport 1 ;;;
              ret 0
        end
      else ret (- EINVAL).
End enum.

(** ** Discovery *)

Section disc.
Context {W : Type} `{!KernelEnv W} `{!SwitchTables W} `{!Externals W}.

(** One round of the search for a destination id routed to a port; the loop
    variables are [ndestid] and [route_port]. *)
Definition disc_route_step (rdev : ptr) (any port_num : Z) (v : Z * Z) : KM W ((Z * Z) + (Z * Z)) :=
  let '(ndestid, route_port) := v in
  if ndestid <? any then
    let! (_, route_port) :=
      rio_route_get_entry rdev RIO_GLOBAL_TABLE ndestid route_port false ;;
    if route_port =? port_num then ret (inr (ndestid, route_port))
    else ret (inl (u16 (ndestid + 1), route_port))
  else ret (inr (ndestid, route_port)).

(** One port of a switch; the variable [route_port] lives across the ports, so
    that the body returns it with the result. *)
Definition disc_port (disc_peer : Z -> Z -> option ptr -> Z -> KM W Z)
    (port rdev : ptr) (destid hopcount port_num route_port : Z) : KM W (option Z * Z) :=
  d <- get_dev rdev ;;
  if RIO_GET_PORT_NUM (rd_swpinfo d) =? port_num then ret (None, route_port)
  else
    active <- rio_sport_is_active rdev port_num ;;
    if truthy active then
      rio_lock_device LOCK_FUEL port destid hopcount 1000 ;;;
      mp <- get_mport port ;;
      let any := RIO_ANY_DESTID (mp_sys_size mp) in
      let! (ndestid, route_port) := loop ID_FUEL (disc_route_step rdev any port_num) (0, route_port) ;;
      if ndestid =? any then ret (None, route_port)
      else
        rio_unlock_device port destid hopcount ;;;
        rc <- disc_peer ndestid (u8 (hopcount + 1)) (Some rdev) port_num ;;
        ret (if rc <? 0 then Some (-1) else None, route_port)
    else ret (None, route_port).

Fixpoint disc_ports (disc_peer : Z -> Z -> option ptr -> Z -> KM W Z)
    (port rdev : ptr) (destid hopcount : Z) (ports : list Z) (route_port : Z) : KM W (option Z) :=
  match ports with
  | [] => ret None
  | n :: ports' =>
      let! (r, route_port) := disc_port disc_peer port rdev destid hopcount n route_port ;;
      match r with
      | Some rc => ret (Some rc)
      | None => disc_ports disc_peer port rdev destid hopcount ports' route_port
      end
  end.

Fixpoint rio_disc_peer (fuel depth : nat) (net port : ptr) (destid hopcount : Z)
    (prev : option ptr) (prev_port : Z) : KM W Z :=
  match depth with
  | O => nofuel
  | S depth' =>
      rdev <- rio_setup_device fuel net port destid hopcount false ;;
      match rdev with
      | None => ret (-1)
      | Some rdev =>
          upd_dev rdev (setf rd_prev prev) ;;;
          link_device prev prev_port rdev ;;;
          d <- get_dev rdev ;;
          if rio_is_switch d then
            upd_dev rdev (setf rd_destid destid) ;;;
            route_port <- uninit ;;
            r <- disc_ports (rio_disc_peer fuel depth' net port) port rdev destid hopcount
              (zrange 0 (RIO_GET_TOTAL_PORTS (rd_swpinfo d))) (u8 route_port) ;;
            match r with Some rc => ret rc | None => ret 0 end
          else ret 0
      end
  end.

(** One entry of a switch's table, copied to the saved one; [sport] is the
    variable that receives the entries. *)
Fixpoint build_table (rdev : ptr) (ids : list Z) (sport : Z) : KM W Z :=
  match ids with
  | [] => ret sport
  | i :: ids' =>
      let! (rc, sport) := rio_route_get_entry rdev RIO_GLOBAL_TABLE i sport false ;;
      when (negb (rc <? 0)) (set_route rdev i sport) ;;;
      build_table rdev ids' sport
  end.

Fixpoint build_tables (hport : ptr) (switches : list ptr) (sport : Z) : KM W unit :=
  match switches with
  | [] => ret tt
  | rdev :: switches' =>
      d <- get_dev rdev ;;
      rio_lock_device LOCK_FUEL hport (rd_destid d) (rd_hopcount d) 1000 ;;;
      mp <- get_mport hport ;;
      sport <- build_table rdev (zrange 0 (RIO_MAX_ROUTE_ENTRIES (mp_sys_size mp))) sport ;;
      d <- get_dev rdev ;;
      rio_unlock_device hport (rd_destid d) (rd_hopcount d) ;;;
      build_tables hport switches' sport
  end.

Definition rio_build_route_tables (net : ptr) : KM W unit :=
  n <- get_net net ;;
  sport <- uninit ;;
  match net_switches n with
  | [] => ret tt
  | switches => hport <- deref (net_hport n) ;; build_tables hport switches (u8 sport)
  end.

(** [time_before] on 64-bit tick counters. *)
Definition time_before (a b : Z) : bool := 2 ^ 63 <=? u64 (a - b).

(** One round of the wait for the enumerating host. *)
Definition disc_wait_step (mport : ptr) (to_end : Z) (_ : unit) : KM W (unit + bool) :=
  now <- gets (fun s => u64 (env_jiffies (ks_hw s))) ;;
  if time_before now to_end then
    done_ <- rio_enum_complete mport ;;
    if truthy done_ then ret (inr true)
    else msleep 10 ;;; ret (inl tt)
  else ret (inr false).

(** [wfuel] bounds the wait, [disctimeout] is the module parameter. *)
Definition rio_disc_mport (disctimeout : Z) (wfuel fuel depth : nat) (mport : ptr) (flags : Z)
    : KM W Z :=
  active <- rio_mport_is_active mport ;;
  if truthy active then
    done_ <- rio_enum_complete mport ;;
    if negb (truthy done_) && truthy (Z.land flags RIO_SCAN_ENUM_NO_WAIT) then ret (- EAGAIN)
    else
      enum_done <-
        (if truthy done_ then ret true
         else
           now <- gets (fun s => u64 (env_jiffies (ks_hw s))) ;;
           loop wfuel (disc_wait_step mport (u64 (now + u32 (disctimeout * env_HZ)))) tt) ;;
      if enum_done : bool then
        net <- rio_scan_alloc_net mport false 0 ;;
        match net with
        | None => ret (- EBUSY)
        | Some net =>
            mp <- get_mport mport ;;
            let! (_, id) :=
              rio_local_read_config_32 mport RIO_DID_CSR (u32 (mp_host_deviceid mp)) ;;
            upd_mport mport (setf mp_host_deviceid (RIO_GET_DID (mp_sys_size mp) id)) ;;;
            rc <- rio_disc_peer fuel depth net mport (RIO_ANY_DESTID (mp_sys_size mp)) 0 None 0 ;;
            if rc <? 0 then ret (- EBUSY)
            else rio_build_route_tables net ;;; ret 0
        end
      else ret (- EBUSY)
  else ret 0.

(** [rio_scan_ops] stands for the address of the operations. *)
Definition rio_basic_attach (fuel : nat) (rio_scan_ops : ptr) (scan : bool) : KM W Z :=
  rc <- rio_register_scan RIO_MPORT_ANY (Some rio_scan_ops) ;;
  if truthy rc then ret (- EIO)
  else
    when scan (rio_init_mports fuel ;;; ret tt) ;;;
    ret 0.
End disc.
