(* ===== verification/ScanBench.v ===== *)
(** * A small network for the witnesses of enumeration

    A host, a switch with four ports and two end points behind ports 1 and 3 of
    the switch.  Accesses are routed as the hardware does: by hop count and by
    the routing table of the switch. *)

From S2P Require Import Prelude Regs State Access Bench Hw Route IdtCps IdtGen2 Tsi568 Tsi57x IdtGen3 SwTables Mport Scan.

(** [fb_reg] holds the registers written so far by node and offset, [fb_sel] and
    [fb_lut] the select register and the routing table of the switch. *)
Record fabric := mk_fabric {
  fb_reg : gmap (Z * Z) Z;
  fb_sel : Z;
  fb_lut : gmap Z Z;
  fb_time : Z;
}.
#[export] Instance eta_fabric : Eta fabric := fun r =>
  mk_fabric (fb_reg r) (fb_sel r) (fb_lut r) (fb_time r).

#[export] Instance fabric_env : KernelEnv fabric := {|
  env_alloc w := (true, w);
  env_udelay us w := setf fb_time (fb_time w + us) w;
  env_jiffies w := fb_time w / 1000;
  env_HZ := 1000;
  env_try_module_get _ w := (true, w);
  env_module_put _ w := w;
  env_indet w := 0xdeadbeef;
  env_request_resource root r := (0, root);
  env_release_resource root r := (0, root);
|}.

(** Node 0 is the host, 1 the switch, 2 and 3 the end points.  Every node has its
    port registers at 0x100; the switch has links on ports 0, 1 and 3. *)
Definition fb_default (node off : Z) : Z :=
  if off =? RIO_DEV_ID_CAR then 0x10000 * node + 0x38
  else if off =? RIO_PEF_CAR then (if node =? 1 then RIO_PEF_SWITCH + RIO_PEF_EXT_FEATURES else RIO_PEF_EXT_FEATURES)
  else if off =? RIO_SWP_INFO_CAR then (if node =? 1 then 0x400 else 0)
  else if off =? RIO_ASM_INFO_CAR then 0x100
  else if off =? 0x100 then RIO_EFB_SER_EP_M1_ID
  else if off =? RIO_SRC_OPS_CAR then (if node =? 1 then 0 else RIO_OPS_READ)
  else if off =? RIO_HOST_DID_LOCK_CSR then 0xffff
  else if (off =? 0x158) || (off =? 0x178) || (off =? 0x1b8) then RIO_PORT_N_ERR_STS_PORT_OK
  else 0.

Definition fb_route (w : fabric) (destid : Z) : option Z :=
  match default RIO_INVALID_ROUTE (fb_lut w !! destid) with
  | 1 => Some 2 | 3 => Some 3 | 0 => Some 0 | _ => None
  end.
Definition fb_node (w : fabric) (destid hop : Z) : option Z :=
  if hop =? 0 then Some 1 else fb_route w destid.

Definition fb_read (node off : Z) (w : fabric) : (Z * Z) * fabric :=
  ((0, default (fb_default node off) (fb_reg w !! (node, off))), w).
Definition fb_write (node off v : Z) (w : fabric) : Z * fabric :=
  (0,
   if (node =? 1) && (off =? RIO_STD_RTE_CONF_DESTID_SEL_CSR) then setf fb_sel v w
   else if (node =? 1) && (off =? RIO_STD_RTE_CONF_PORT_SEL_CSR)
   then setf fb_lut (<[Z.land (fb_sel w) 0xffff := Z.land v 0xff]> (fb_lut w)) w
   else if off =? RIO_HOST_DID_LOCK_CSR
   then setf fb_reg (<[(node, off) := lock_update (fb_read node off w).1.2 v]> (fb_reg w)) w
   else setf fb_reg (<[(node, off) := v]> (fb_reg w)) w).

Definition fb_ops : rio_ops fabric := {|
  op_lcread _ _ off _ w := fb_read 0 off w;
  op_lcwrite _ _ off _ v w := fb_write 0 off v w;
  op_cread _ _ d h off _ w :=
    match fb_node w d h with Some n => fb_read n off w | None => ((1, 0), w) end;
  op_cwrite _ _ d h off _ v w :=
    match fb_node w d h with Some n => fb_write n off v w | None => (1, w) end;
  op_dsend _ _ _ _ w := (0, w);
  op_pwenable := None;
  op_open_outb_mbox := None; op_close_outb_mbox := None;
  op_open_inb_mbox := None; op_close_inb_mbox := None;
  op_map_inb := None; op_unmap_inb := None; op_query_mport := None;
  op_map_outb := None; op_unmap_outb := None;
  op_add_outb_message _ _ _ _ _ w := (0, w); op_add_inb_buffer _ _ _ w := (0, w);
  op_get_inb_message _ _ w := (None, w);
|}.

Definition fb_mport : rio_mport fabric := {|
  mp_dbells := []; mp_pwrites := []; mp_nnode := false; mp_net := None;
  mp_riores := []; mp_inb_msg := []; mp_outb_msg := [];
  mp_host_deviceid := 1; mp_ops := fb_ops; mp_id := 0; mp_index := 0;
  mp_sys_size := 0; mp_phys_efptr := 0x100; mp_phys_rmap := 1;
  mp_nscan := None; mp_state := RIO_DEVICE_RUNNING; mp_pwe_refcnt := 0;
|}.

Definition fb_state : kstate fabric := {|
  ks_hw := mk_fabric ∅ 0 ∅ 0; ks_allocs := 0; ks_fresh := 10%positive;
  ks_devs := ∅; ks_nets := ∅; ks_mports := {[ 1%positive := fb_mport ]};
  rio_devices := []; rio_nets := []; rio_mports := [1%positive]; rio_scans := [];
  next_portid := 1; hdid := [1]; ids_num := 1; next_destid := 0; next_comptag := 1;
|}.

#[export] Instance fb_externals : Externals fabric := idle_externals.
(** The drivers' tables; the switch of the network has no driver and is routed by the standard registers. *)
#[export] Instance fb_tables : SwitchTables fabric := switch_tables (fun _ => 13%positive).
