(* ===== verification/EnumInv.v ===== *)
(** * What enumeration keeps true

    Enumeration gives every device a component tag of its own and every end
    point a destination id of its own, whatever the hardware answers. *)

From S2P Require Import Prelude Regs State Access Bench Hw ExtFeat Route IdtCps IdtGen2 Tsi568 Tsi57x IdtGen3 SwTables Mbox Em Driver Mport Scan ScanBench.

(** ** Operations that touch only hardware *)

(** The operations of the switch drivers do. *)
Class QuietTables (W : Type) `{!SwitchTables W} := {
  quiet_add : forall p op, so_add_entry (switch_ops p) = Some op ->
    forall m d h t i n, keeps (@same_kernel W) (op m d h t i n);
  quiet_get : forall p op, so_get_entry (switch_ops p) = Some op ->
    forall m d h t i v, keeps (@same_kernel W) (op m d h t i v);
  quiet_clr : forall p op, so_clr_table (switch_ops p) = Some op ->
    forall m d h t, keeps (@same_kernel W) (op m d h t);
  quiet_em_init : forall p op, so_em_init (switch_ops p) = Some op ->
    forall r, keeps (@same_kernel W) (op r);
}.

Section quiet.
Context {W : Type} `{!KernelEnv W} `{!SwitchTables W} `{!Externals W} `{!QuietTables W}.

Lemma keeps_std_add m d h t i n : keeps (@same_kernel W) (rio_std_route_add_entry m d h t i n).
Proof. unfold rio_std_route_add_entry. solve_keeps. Qed.
Lemma keeps_std_get m d h t i v : keeps (@same_kernel W) (rio_std_route_get_entry m d h t i v).
Proof. unfold rio_std_route_get_entry. solve_keeps. Qed.
Lemma keeps_std_clr m d h t : keeps (@same_kernel W) (rio_std_route_clr_table m d h t).
Proof. unfold rio_std_route_clr_table. solve_keeps. Qed.
Lemma keeps_lock_device n p d h ms : keeps (@same_kernel W) (rio_lock_device n p d h ms).
Proof. unfold rio_lock_device, lock_step. solve_keeps. Qed.
Lemma keeps_unlock_device p d h : keeps (@same_kernel W) (rio_unlock_device p d h).
Proof. unfold rio_unlock_device. solve_keeps. Qed.
Hint Resolve keeps_std_add keeps_std_get keeps_std_clr keeps_lock_device keeps_unlock_device : frame.

Lemma keeps_call_switch_op {F A} (sel : rio_switch_ops W -> option F) (std : F) (call : F -> KM W A) sw fail :
  keeps same_kernel (call std) ->
  (forall p op, sel (switch_ops p) = Some op -> keeps same_kernel (call op)) ->
  keeps same_kernel (call_switch_op sel std call sw fail).
Proof.
  intros Hstd Hop. unfold call_switch_op. destruct (rs_ops sw) as [p|]; [|done].
  destruct (sel (switch_ops p)) as [op|] eqn:E; [|done].
  apply keeps_bind; [typeclasses eauto|apply keeps_try_module_get|]. intros [].
  - apply keeps_bind; [typeclasses eauto|by eapply Hop|]. solve_keeps.
  - apply keeps_ret. typeclasses eauto.
Qed.

Lemma keeps_with_device_lock {A} r lock (fail : Z -> A) (body : Z -> KM W A) :
  (forall rc, keeps same_kernel (body rc)) -> keeps same_kernel (with_device_lock r lock fail body).
Proof. intros Hb. unfold with_device_lock. solve_keeps. Qed.

Lemma keeps_route_add r t i n l : keeps (@same_kernel W) (rio_route_add_entry r t i n l).
Proof.
  unfold rio_route_add_entry. apply keeps_bind; [typeclasses eauto|auto with frame|]. intros sw.
  apply keeps_with_device_lock. intros rc. apply keeps_bind; [typeclasses eauto|auto with frame|].
  intros d. apply keeps_bind; [typeclasses eauto|auto with frame|]. intros h.
  apply keeps_call_switch_op; [apply keeps_std_add|]. intros p op Hop. by eapply quiet_add.
Qed.
Lemma keeps_route_get r t i v l : keeps (@same_kernel W) (rio_route_get_entry r t i v l).
Proof.
  unfold rio_route_get_entry. apply keeps_bind; [typeclasses eauto|auto with frame|]. intros sw.
  apply keeps_with_device_lock. intros rc. apply keeps_bind; [typeclasses eauto|auto with frame|].
  intros d. apply keeps_bind; [typeclasses eauto|auto with frame|]. intros h.
  apply keeps_call_switch_op; [apply keeps_std_get|]. intros p op Hop. by eapply quiet_get.
Qed.
Lemma keeps_route_clr r t l : keeps (@same_kernel W) (rio_route_clr_table r t l).
Proof.
  unfold rio_route_clr_table. apply keeps_bind; [typeclasses eauto|auto with frame|]. intros sw.
  apply keeps_with_device_lock. intros rc. apply keeps_bind; [typeclasses eauto|auto with frame|].
  intros d. apply keeps_bind; [typeclasses eauto|auto with frame|]. intros h.
  apply keeps_call_switch_op; [apply keeps_std_clr|]. intros p op Hop. by eapply quiet_clr.
Qed.
Hint Resolve keeps_route_add keeps_route_get keeps_route_clr : frame.

Lemma keeps_lockout r n l : keeps (@same_kernel W) (rio_set_port_lockout r n l).
Proof. unfold rio_set_port_lockout. solve_keeps. Qed.
Lemma keeps_enable_port k p l d h n : keeps (@same_kernel W) (rio_enable_rx_tx_port k p l d h n).
Proof. unfold rio_enable_rx_tx_port. solve_keeps. Qed.
Lemma keeps_chk_access p d h : keeps (@same_kernel W) (rio_mport_chk_dev_access p d h).
Proof. unfold rio_mport_chk_dev_access, chk_access_step. solve_keeps. Qed.
Lemma keeps_get_lock p h : keeps (@same_kernel W) (rio_get_host_deviceid_lock p h).
Proof. unfold rio_get_host_deviceid_lock. solve_keeps. Qed.
Lemma keeps_sport_active r n : keeps (@same_kernel W) (rio_sport_is_active r n).
Proof. unfold rio_sport_is_active. solve_keeps. Qed.
Lemma keeps_mport_active p : keeps (@same_kernel W) (rio_mport_is_active p).
Proof. unfold rio_mport_is_active. solve_keeps. Qed.
Lemma keeps_set_device_id p d h i : keeps (@same_kernel W) (rio_set_device_id p d h i).
Proof. unfold rio_set_device_id. solve_keeps. Qed.
Lemma keeps_local_set_device_id p i : keeps (@same_kernel W) (rio_local_set_device_id p i).
Proof. unfold rio_local_set_device_id. solve_keeps. Qed.
Lemma keeps_enum_lock_step p h v : keeps (@same_kernel W) (enum_lock_step p h v).
Proof.
  unfold enum_lock_step. repeat frame_step; auto using keeps_get_lock with frame.
Qed.
Lemma keeps_init_em r : keeps (@same_kernel W) (rio_init_em r).
Proof.
  unfold rio_init_em. apply keeps_bind; [typeclasses eauto|auto with frame|]. intros d.
  destruct (_ && _); [|auto with frame].
  apply keeps_bind; [typeclasses eauto|auto with frame|]. intros sw.
  destruct (rs_ops sw) as [p|]; cbn; [|auto with frame].
  destruct (so_em_init (switch_ops p)) eqn:E; [|auto with frame].
  apply keeps_bind; [typeclasses eauto|by eapply quiet_em_init|]. auto with frame.
Qed.
Lemma keeps_get_comptag t f : keeps (@same_kernel W) (rio_get_comptag t f).
Proof. unfold rio_get_comptag, comptag_step. solve_keeps. Qed.
End quiet.
#[export] Hint Resolve keeps_std_add keeps_std_get keeps_std_clr keeps_lock_device keeps_unlock_device
  keeps_route_add keeps_route_get keeps_route_clr keeps_lockout keeps_enable_port keeps_chk_access keeps_get_lock
  keeps_sport_active keeps_mport_active keeps_set_device_id keeps_local_set_device_id keeps_init_em
  keeps_enum_lock_step keeps_get_comptag : frame.

(** The tables of the five drivers are such. *)
Ltac head t := lazymatch t with ?f _ => head f | _ => t end.
Ltac keeps_unfold := match goal with |- keeps _ ?m => let f := head m in unfold f end.
Ltac solve_driver := repeat first [solve [auto 2 with frame] | keeps_step | progress keeps_unfold].

#[export] Instance switch_tables_quiet {W} `{!KernelEnv W} `{!Externals W} (owner : switch_ops_ptr -> ptr) :
  @QuietTables W (switch_tables owner).
Proof.
  split; intros p op H; destruct p; unfold switch_ops, switch_tables in H; cbn in H;
    try discriminate H; injection H as <-; intros; solve_driver.
Qed.

(** ** The invariant *)

Section inv.
Context {W : Type} (net : ptr).
Implicit Types (s : kstate W) (d e : rio_dev).

(** The table of destination ids of the network. *)
Definition idtab s : option rio_id_table := n ← ks_nets s !! net; net_enum_data n.
Definition in_use (t : rio_id_table) (i : Z) : Prop :=
  0 <= i /\ idt_table t !! Z.to_nat i = Some true.

(** An end point of the network that this host enumerated and gave a destination
    id. *)
Definition endpoint d : bool :=
  bool_decide (rd_net d = Some net) && rd_do_enum d && negb (rio_is_switch d) && (rd_hopcount d =? 0xff) &&
  rio_device_has_destid (rd_src_ops d) (rd_dst_ops d).

(** Component tags are below the counter and distinct.  The id to be given next
    and the ids given are marked in the table, and the ids given are distinct,
    unless the table was exhausted. *)
Record enum_inv s : Prop := {
  ei_tag : forall p d, ks_devs s !! p = Some d -> rd_do_enum d = true ->
    rd_comp_tag d < next_comptag s;
  ei_tag_inj : forall p q d e, ks_devs s !! p = Some d -> ks_devs s !! q = Some e ->
    rd_do_enum d = true -> rd_do_enum e = true -> rd_comp_tag d = rd_comp_tag e -> p = q;
  ei_table : exists t, idtab s = Some t /\ idt_start t = 0 /\
    Z.of_nat (length (idt_table t)) = idt_max t /\ idt_max t <= 2 ^ 16 /\
    (next_destid s = RIO_INVALID_DESTID \/ in_use t (next_destid s)) /\
    forall p d, ks_devs s !! p = Some d -> endpoint d = true ->
      rd_destid d = RIO_INVALID_DESTID \/ (in_use t (rd_destid d) /\ rd_destid d <> next_destid s);
  ei_id_inj : forall p q d e, ks_devs s !! p = Some d -> ks_devs s !! q = Some e ->
    endpoint d = true -> endpoint e = true -> rd_destid d = rd_destid e ->
    rd_destid d = RIO_INVALID_DESTID \/ p = q;
}.

(** What the invariant reads of a device. *)
Definition key d := (rd_do_enum d, rd_comp_tag d, rd_destid d, rd_hopcount d, rd_pef d,
  (rd_src_ops d, rd_dst_ops d, rd_net d)).

Lemma endpoint_key d e : key d = key e -> endpoint d = endpoint e.
Proof.
  unfold key, endpoint, rio_is_switch. by intros [= -> _ _ -> -> -> -> ->].
Qed.

(** [s'] has no tags and ids that [s] does not have. *)
Definition same_ids s s' : Prop :=
  next_comptag s' = next_comptag s /\ next_destid s' = next_destid s /\ idtab s' = idtab s /\
  (ks_fresh s <= ks_fresh s')%positive /\
  forall p d', ks_devs s' !! p = Some d' -> exists d, ks_devs s !! p = Some d /\ key d' = key d.

#[export] Instance same_ids_preorder : PreOrder same_ids.
Proof.
  split.
  - intros s. split; [done|split; [done|split; [done|split; [lia|]]]]. by eauto.
  - intros s1 s2 s3 (A1 & B1 & C1 & D1 & E1) (A2 & B2 & C2 & D2 & E2).
    split; [congruence|split; [congruence|split; [congruence|split; [lia|]]]].
    intros p d3 H3. destruct (E2 p d3 H3) as (d2 & H2 & K2). destruct (E1 p d2 H2) as (d1 & H1 & K1).
    exists d1. split; [done|congruence].
Qed.

(** A step of enumeration: it keeps the invariant, and what is a switch stays
    one. *)
Definition all_switch s (p : ptr) : Prop :=
  (p < ks_fresh s)%positive /\ forall d, ks_devs s !! p = Some d -> rio_is_switch d = true.
Definition enum_step s s' : Prop :=
  enum_inv s -> enum_inv s' /\ (ks_fresh s <= ks_fresh s')%positive /\
    forall p, all_switch s p -> all_switch s' p.

#[export] Instance enum_step_preorder : PreOrder enum_step.
Proof.
  split.
  - intros s Hs. split; [done|split; [lia|done]].
  - intros s1 s2 s3 H1 H2 Hs. destruct (H1 Hs) as (A1 & B1 & C1). destruct (H2 A1) as (A2 & B2 & C2).
    split; [done|split; [lia|auto]].
Qed.

Lemma same_ids_step s s' : same_ids s s' -> enum_step s s'.
Proof.
  intros (Ht & Hn & Hi & Hf & Hd) [H1 H2 H3 H4]. split; [|split; [done|]].
  - split.
    + intros p d' Hp He. destruct (Hd p d' Hp) as (d & Hp0 & Hk). rewrite Ht.
      injection Hk as Hk1 -> _ _ _ _ _ _. apply (H1 p d); congruence.
    + intros p q d' e' Hp Hq He1 He2 Heq. destruct (Hd p d' Hp) as (d & Hp0 & Hk).
      destruct (Hd q e' Hq) as (e & Hq0 & Hk'). injection Hk as ? ? _ _ _ _ _ _.
      injection Hk' as ? ? _ _ _ _ _ _. apply (H2 p q d e); congruence.
    + destruct H3 as (t & E1 & E2 & E3 & E4 & E5 & E6). exists t. rewrite Hi, Hn.
      split; [done|split; [done|split; [done|split; [done|split; [done|]]]]].
      intros p d' Hp He. destruct (Hd p d' Hp) as (d & Hp0 & Hk).
      rewrite (endpoint_key _ _ Hk) in He. injection Hk as _ _ -> _ _ _ _ _. by apply (E6 p).
    + intros p q d' e' Hp Hq He1 He2 Heq. destruct (Hd p d' Hp) as (d & Hp0 & Hk).
      destruct (Hd q e' Hq) as (e & Hq0 & Hk').
      rewrite (endpoint_key _ _ Hk) in He1. rewrite (endpoint_key _ _ Hk') in He2.
      injection Hk as _ _ Hk _ _ _ _ _. injection Hk' as _ _ Hk' _ _ _ _ _. rewrite Hk.
      apply (H4 p q d e); congruence.
  - intros p [Hp Hs]. split; [lia|]. intros d' Hd'. destruct (Hd p d' Hd') as (d & Hd0 & Hk).
    unfold rio_is_switch in *. injection Hk as _ _ _ _ -> _ _ _. by apply Hs.
Qed.

Lemma same_kernel_ids s s' : same_kernel s s' -> same_ids s s'.
Proof.
  intros ->. split; [done|split; [done|split; [done|split; [cbn; lia|]]]]. by eauto.
Qed.
End inv.

(** ** Composition *)

Section keeps_ids.
Context {W : Type} `{!KernelEnv W} (net : ptr).
Abbreviation E := (same_ids (W := W) net).
Abbreviation R := (enum_step (W := W) net).

Lemma ids_of_quiet {A} (m : KM W A) : keeps same_kernel m -> keeps E m.
Proof. intros Hm s a s' H. by eapply same_kernel_ids, Hm. Qed.
Lemma step_of_ids {A} (m : KM W A) : keeps E m -> keeps R m.
Proof. intros Hm s a s' H. by eapply same_ids_step, Hm. Qed.
Lemma step_of_quiet {A} (m : KM W A) : keeps same_kernel m -> keeps R m.
Proof. intros Hm. by apply step_of_ids, ids_of_quiet. Qed.

Lemma ids_modify (g : kstate W -> kstate W) : (forall s, E s (g s)) -> keeps E (modify g).
Proof. intros Hg s [] s' [= <-]. apply Hg. Qed.

(** Changes to the other parts of the state. *)
Lemma ids_modify_other (g : kstate W -> kstate W) :
  (forall s, next_comptag (g s) = next_comptag s /\ next_destid (g s) = next_destid s /\
     ks_nets (g s) = ks_nets s /\ ks_fresh (g s) = ks_fresh s /\ ks_devs (g s) = ks_devs s) ->
  keeps E (modify g).
Proof.
  intros Hg. apply ids_modify. intros s. destruct (Hg s) as (Ht & Hi & Hn & Hf & Hd).
  unfold same_ids, idtab. rewrite Ht, Hi, Hn, Hf, Hd. do 3 (split; [done|]). split; [lia|by eauto].
Qed.

Lemma ids_upd_dev p g : (forall d, key (g d) = key d) -> keeps E (upd_dev p g).
Proof.
  intros Hg s [] s'. unfold upd_dev, get_dev, gets, bind. destruct (ks_devs s !! p) as [d|] eqn:Hd; [|done].
  cbn. intros [= <-]. split; [done|split; [done|split; [done|split; [cbn; lia|]]]].
  cbn. intros q d'. destruct (decide (q = p)) as [->|Hne].
  - rewrite lookup_insert_eq. intros [= <-]. by exists d.
  - rewrite lookup_insert_ne by done. by eauto.
Qed.
Lemma ids_upd_rswitch p g : keeps E (upd_rswitch p g).
Proof.
  unfold upd_rswitch. apply keeps_bind; [typeclasses eauto|apply keeps_get_rswitch; typeclasses eauto|].
  intros sw. by apply ids_upd_dev.
Qed.
Lemma ids_upd_net n g : (forall x, net_enum_data (g x) = net_enum_data x) -> keeps E (upd_net n g).
Proof.
  intros Hg s [] s'. unfold upd_net, get_net, gets, bind. destruct (ks_nets s !! n) as [x|] eqn:Hx; [|done].
  cbn. intros [= <-]. split; [done|split; [done|split; [|split; [cbn; lia|by eauto]]]].
  unfold idtab. cbn. destruct (decide (net = n)) as [->|Hne].
  - rewrite lookup_insert_eq, Hx. cbn. apply Hg.
  - by rewrite lookup_insert_ne.
Qed.
Lemma ids_upd_mport p g : keeps E (upd_mport p g).
Proof.
  intros s [] s'. unfold upd_mport, get_mport, gets, bind. destruct (ks_mports s !! p) as [x|]; [|done].
  cbn. intros [= <-]. split; [done|split; [done|split; [done|split; [cbn; lia|by eauto]]]].
Qed.
Lemma ids_kzalloc : keeps E kzalloc.
Proof.
  unfold kzalloc. apply keeps_bind; [typeclasses eauto|apply ids_of_quiet; auto with frame|]. intros ok.
  apply keeps_bind; [typeclasses eauto| |intros; apply keeps_ret; typeclasses eauto].
  apply keeps_when; [typeclasses eauto|]. apply ids_modify. intros s.
  split; [done|split; [done|split; [done|split; [cbn; lia|by eauto]]]].
Qed.
Lemma ids_kfree : keeps E kfree.
Proof.
  apply ids_modify. intros s. split; [done|split; [done|split; [done|split; [cbn; lia|by eauto]]]].
Qed.
Lemma ids_delete r : keeps E (modify (fun s => setf ks_devs (delete r (ks_devs s)) s)).
Proof.
  apply ids_modify. intros s. split; [done|split; [done|split; [done|split; [cbn; lia|]]]].
  cbn. intros p d' H. apply lookup_delete_Some in H as [_ H]. by exists d'.
Qed.
Lemma ids_set_route r i v : keeps E (set_route r i v).
Proof.
  unfold set_route. solve_keeps. apply ids_upd_rswitch.
Qed.
Lemma ids_link p i r : keeps E (link_device p i r).
Proof. unfold link_device. solve_keeps. apply ids_upd_rswitch. Qed.
Lemma ids_set_port_ok r n b : keeps E (set_port_ok r n b).
Proof. unfold set_port_ok, shift1. solve_keeps; apply ids_upd_rswitch. Qed.
Lemma ids_dev_get p : keeps E (rio_dev_get p).
Proof.
  unfold rio_dev_get, get_device. solve_keeps. by apply ids_upd_dev.
Qed.
Lemma ids_destid_first : keeps E (rio_destid_first net).
Proof. unfold rio_destid_first, get_idtab. solve_keeps. Qed.
Lemma ids_destid_next i : keeps E (rio_destid_next net i).
Proof. unfold rio_destid_next, get_idtab. solve_keeps. Qed.
End keeps_ids.

#[export] Hint Resolve ids_kzalloc ids_kfree ids_delete ids_set_route ids_link ids_set_port_ok
  ids_dev_get ids_destid_first ids_destid_next ids_upd_mport : frame.
#[export] Hint Extern 2 (keeps (enum_step _) _) => apply step_of_ids : frame.
#[export] Hint Extern 3 (keeps (same_ids _) _) => apply ids_of_quiet : frame.

Ltac solve_enum := repeat first [solve [auto 4 with frame] | keeps_step].

(** ** Giving out ids *)

Section units.
Context {W : Type} `{!KernelEnv W} (net : ptr).
Implicit Types s : kstate W.

Lemma inv_idtab_at s t :
  idtab net s = Some t -> idt_start t = 0 -> Z.of_nat (length (idt_table t)) = idt_max t ->
  idt_max t <= 2 ^ 16 -> exists n, idtab_at s net n t.
Proof.
  intros H1 H2 H3 H4. unfold idtab in H1. destruct (ks_nets s !! net) as [n|] eqn:Hn; [|done].
  exists n. split; [done|done|done|lia|lia].
Qed.

Lemma in_use_insert t i j :
  0 <= i -> in_use t j -> in_use (setf idt_table (<[Z.to_nat i := true]> (idt_table t)) t) j.
Proof.
  intros Hi [Hj Hb]. split; [done|]. cbn. destruct (decide (i = j)) as [->|].
  - apply list_lookup_insert_eq. by eapply lookup_lt_Some.
  - rewrite list_lookup_insert_ne by lia. done.
Qed.
Lemma in_use_new t i b :
  0 <= i -> idt_table t !! Z.to_nat i = Some b ->
  in_use (setf idt_table (<[Z.to_nat i := true]> (idt_table t)) t) i.
Proof. intros Hi Hb. split; [done|]. cbn. apply list_lookup_insert_eq. by eapply lookup_lt_Some. Qed.

(** The id table and the next id after an allocation: the table has only grown
    and the new id was not in use. *)
Definition alloc_next s s' : Prop :=
  exists t t', idtab net s = Some t /\ idtab net s' = Some t' /\
    idt_start t' = idt_start t /\ idt_max t' = idt_max t /\
    length (idt_table t') = length (idt_table t) /\
    (forall i, in_use t i -> in_use t' i) /\
    (next_destid s' = RIO_INVALID_DESTID \/
     (in_use t' (next_destid s') /\ ~ in_use t (next_destid s'))) /\
    next_comptag s' = next_comptag s /\ ks_fresh s' = ks_fresh s /\ ks_devs s' = ks_devs s.

Lemma alloc_next_ok s :
  (exists t, idtab net s = Some t /\ idt_start t = 0 /\
     Z.of_nat (length (idt_table t)) = idt_max t /\ idt_max t <= 2 ^ 16) ->
  total (next <- rio_destid_alloc net ;; modify (setf next_destid next)) s
    (fun _ s' => alloc_next s s').
Proof.
  intros (t & H1 & H2 & H3 & H4). destruct (inv_idtab_at s t H1 H2 H3 H4) as [n Hat].
  destruct (run_destid_alloc s net n t Hat) as [(i & Hi & Hb & _ & Hrun)|[_ Hrun]].
  - srun Hrun. apply spec_modify. exists t. eexists. split; [done|]. split.
    { unfold idtab. cbn. rewrite lookup_insert_eq. reflexivity. }
    cbn [idt_start idt_max idt_table setf updf]. rewrite length_insert.
    split; [done|split; [done|split; [done|split; [intros j; apply in_use_insert; lia|]]]].
    split; [|done]. right. cbn [next_destid with_idtab setf updf]. rewrite H2. split.
    + by eapply in_use_new; [lia|].
    + intros [_ Hu]. change (idt_table t !! Z.to_nat i = Some true) in Hu. congruence.
  - srun Hrun. apply spec_modify. exists t, t. split; [done|split; [done|]].
    do 4 (split; [done|]). split; [|done]. by left.
Qed.

(** Advancing to the next id keeps the invariant: the ids given are in use, so
    none of them is the new one. *)
Lemma alloc_next_inv s s' : enum_inv net s -> alloc_next s s' -> enum_inv net s'.
Proof.
  intros [H1 H2 H3 H4] (t & t' & A1 & A2 & A3 & A4 & A5 & A6 & A7 & A8 & A9 & A10).
  destruct H3 as (t0 & B1 & B2 & B3 & B4 & B5 & B6). assert (t0 = t) as -> by congruence.
  split; rewrite ?A8, ?A10; [done|done| |done].
  exists t'. split; [done|split; [congruence|split; [congruence|split; [congruence|split]]]].
  - destruct A7 as [|[]]; auto.
  - intros p d Hp He. destruct (B6 p d Hp He) as [|[Hu _]]; [by left|].
    destruct A7 as [->|[_ Hn]].
    + destruct (decide (rd_destid d = RIO_INVALID_DESTID)); [by left|right; auto].
    + right. split; [auto|]. intros Heq. rewrite Heq in Hu. by apply Hn.
Qed.

Lemma step_alloc_next : keeps (enum_step net)
  (next <- rio_destid_alloc (W := W) net ;; modify (setf next_destid next)).
Proof.
  intros s [] s' Hrun Hinv. destruct (ei_table _ _ Hinv) as (t & H1 & H2 & H3 & H4 & _).
  pose proof (alloc_next_ok s ltac:(by exists t)) as Hok. unfold spec in Hok. rewrite Hrun in Hok.
  split; [by eapply alloc_next_inv|].
  destruct Hok as (_ & _ & _ & _ & _ & _ & _ & _ & _ & _ & Hf & Hd).
  unfold all_switch. rewrite Hf, Hd. split; [lia|done].
Qed.
End units.

(** ** Changing one device *)

Section device.
Context {W : Type} `{!KernelEnv W} (net : ptr).
Implicit Types (s : kstate W) (d e : rio_dev).

(** What a step from a state with the invariant leads to. *)
Definition after s s' : Prop :=
  enum_inv net s' /\ (ks_fresh s <= ks_fresh s')%positive /\ forall p, all_switch s p -> all_switch s' p.

Lemma after_refl s : enum_inv net s -> after s s.
Proof. intros H. split; [done|split; [lia|done]]. Qed.
Lemma after_trans s1 s2 s3 : after s1 s2 -> after s2 s3 -> after s1 s3.
Proof. intros (_ & A & B) (C & D & F). split; [done|split; [lia|auto]]. Qed.
Lemma after_inv s s' : after s s' -> enum_inv net s'.
Proof. by intros []. Qed.
Lemma step_after s s' : enum_step net s s' -> enum_inv net s -> after s s'.
Proof. intros H Hs. by apply H. Qed.
Lemma after_step s s' : (enum_inv net s -> after s s') -> enum_step net s s'.
Proof. intros H. exact H. Qed.

Lemma all_switch_replace s s' r d d' :
  ks_devs s !! r = Some d -> ks_devs s' = <[r := d']> (ks_devs s) -> rd_pef d' = rd_pef d ->
  (ks_fresh s <= ks_fresh s')%positive -> forall p, all_switch s p -> all_switch s' p.
Proof.
  intros Hd Hs' Hpef Hf p [Hp Hs]. split; [lia|]. intros e. rewrite Hs'.
  destruct (decide (p = r)) as [->|Hne].
  - rewrite lookup_insert_eq. intros [= <-]. specialize (Hs d Hd). unfold rio_is_switch in *.
    by rewrite Hpef.
  - rewrite lookup_insert_ne by done. apply Hs.
Qed.

(** A device that is not an end point afterwards. *)
Lemma replace_dev s s' r d d' :
  enum_inv net s -> ks_devs s !! r = Some d -> ks_devs s' = <[r := d']> (ks_devs s) ->
  rd_pef d' = rd_pef d -> endpoint net d' = false ->
  next_destid s' = next_destid s -> idtab net s' = idtab net s -> ks_fresh s' = ks_fresh s ->
  next_comptag s <= next_comptag s' ->
  (rd_do_enum d' = true -> rd_comp_tag d' < next_comptag s' /\
     forall q e, q <> r -> ks_devs s !! q = Some e -> rd_do_enum e = true ->
       rd_comp_tag e <> rd_comp_tag d') ->
  after s s'.
Proof.
  intros [H1 H2 H3 H4] Hd Hs' Hpef Hep E1 E2 E3 Htag Hnew.
  assert (forall q e, ks_devs s' !! q = Some e ->
    (q = r /\ e = d') \/ (q <> r /\ ks_devs s !! q = Some e)) as Hcase.
  { intros q e. rewrite Hs'. destruct (decide (q = r)) as [->|Hne].
    - rewrite lookup_insert_eq. intros [= <-]. by left.
    - rewrite lookup_insert_ne by done. by right. }
  split; [|split; [lia|apply (all_switch_replace s s' r d d' Hd Hs' Hpef); lia]]. split.
  - intros q e He Hen. destruct (Hcase q e He) as [[-> ->]|[Hne He']]; [by apply Hnew|].
    pose proof (H1 q e He' Hen). lia.
  - intros p q d1 d2 Hp Hq Hn1 Hn2 Heq.
    destruct (Hcase p d1 Hp) as [[-> ->]|[Hne Hp']], (Hcase q d2 Hq) as [[-> ->]|[Hne' Hq']]; [done|..].
    + by destruct (proj2 (Hnew Hn1) q d2 Hne' Hq' Hn2).
    + by destruct (proj2 (Hnew Hn2) p d1 Hne Hp' Hn1).
    + by apply (H2 p q d1 d2).
  - destruct H3 as (t & B1 & B2 & B3 & B4 & B5 & B6). exists t. rewrite E1, E2.
    split; [done|split; [done|split; [done|split; [done|split; [done|]]]]].
    intros q e He Hen. destruct (Hcase q e He) as [[-> ->]|[Hne He']]; [congruence|].
    by apply (B6 q).
  - intros p q d1 d2 Hp Hq Hn1 Hn2 Heq.
    destruct (Hcase p d1 Hp) as [[-> ->]|[Hne Hp']], (Hcase q d2 Hq) as [[-> ->]|[Hne' Hq']]; [congruence..|].
    by apply (H4 p q d1 d2).
Qed.

(** The same when the component tag stays. *)
Lemma replace_dev_keep s r d d' :
  enum_inv net s -> ks_devs s !! r = Some d -> rd_pef d' = rd_pef d -> endpoint net d' = false ->
  rd_do_enum d' = rd_do_enum d -> rd_comp_tag d' = rd_comp_tag d ->
  after s (with_dev r d' s).
Proof.
  intros Hinv Hd Hpef Hep Hen Htag. apply (replace_dev s _ r d d'); try done.
  rewrite Hen, Htag. intros He. split; [by apply (ei_tag _ _ Hinv r)|].
  intros q e Hne Hq Hqe Heq. by destruct Hne, (ei_tag_inj _ _ Hinv q r e d).
Qed.

Lemma partial_get_dev p s (Q : rio_dev -> kstate W -> Prop) :
  (forall d, ks_devs s !! p = Some d -> Q d s) -> partial (get_dev p) s Q.
Proof.
  intros H. unfold spec. destruct (ks_devs s !! p) as [d|] eqn:Hd.
  - rewrite (run_get_dev _ _ _ Hd). auto.
  - unfold get_dev, bind, gets. by rewrite Hd.
Qed.
Lemma partial_upd_dev p g s (Q : unit -> kstate W -> Prop) :
  (forall d, ks_devs s !! p = Some d -> Q tt (with_dev p (g d) s)) -> partial (upd_dev p g) s Q.
Proof.
  intros H. unfold spec. destruct (ks_devs s !! p) as [d|] eqn:Hd.
  - rewrite (upd_dev_with _ _ _ _ Hd). auto.
  - unfold upd_dev, get_dev, bind, gets. by rewrite Hd.
Qed.

Lemma next_destid_u16 s : enum_inv net s -> u16 (next_destid s) = next_destid s.
Proof.
  intros Hinv. destruct (ei_table _ _ Hinv) as (t & B1 & B2 & B3 & B4 & B5 & B6).
  destruct B5 as [-> | [Hpos Hu]]; [done|]. apply lookup_lt_Some in Hu. apply u16_small. lia.
Qed.

(** A device gets the next id, and the next one is drawn. *)
Lemma assign_id s s1 r d d' :
  enum_inv net s -> ks_devs s !! r = Some d -> rd_hopcount d = 0 -> rd_destid d = next_destid s ->
  alloc_next net s s1 ->
  rd_do_enum d' = rd_do_enum d -> rd_comp_tag d' = rd_comp_tag d -> rd_pef d' = rd_pef d ->
  rd_destid d' = rd_destid d ->
  after s (with_dev r d' s1).
Proof.
  intros Hinv Hd Hhop Hid Hal F1 F2 F3 F4.
  pose proof (alloc_next_inv net s s1 Hinv Hal) as [J1 J2 J3 J4].
  destruct Hal as (t & t' & A1 & A2 & A3 & A4 & A5 & A6 & A7 & A8 & A9 & A10).
  destruct (ei_table _ _ Hinv) as (t0 & B1 & B2 & B3 & B4 & B5 & B6).
  assert (t0 = t) as -> by congruence. clear B1.
  assert (forall q e, ks_devs (with_dev r d' s1) !! q = Some e ->
    (q = r /\ e = d') \/ (q <> r /\ ks_devs s1 !! q = Some e)) as Hcase.
  { intros q e. cbn. destruct (decide (q = r)) as [->|Hne].
    - rewrite lookup_insert_eq. intros [= <-]. by left.
    - rewrite lookup_insert_ne by done. by right. }
  assert (ks_devs s1 !! r = Some d) as Hd1 by congruence.
  split; [|split; [cbn; lia|]].
  2: { apply (all_switch_replace s _ r d d' Hd); [by cbn; rewrite A10|done|cbn; lia]. }
  split; cbn [next_comptag with_dev setf updf].
  - intros q e He Hen. destruct (Hcase q e He) as [[-> ->]|[_ He']]; [|by apply (J1 q)].
    rewrite F2. apply (J1 r d Hd1). congruence.
  - intros p q d1 d2 Hp Hq Hn1 Hn2 Heq.
    destruct (Hcase p d1 Hp) as [[-> ->]|[Hne Hp']], (Hcase q d2 Hq) as [[-> ->]|[Hne' Hq']]; [done|..].
    + apply (J2 r q d d2); congruence.
    + apply (J2 p r d1 d); congruence.
    + by apply (J2 p q d1 d2).
  - destruct J3 as (t1 & C1 & C2 & C3 & C4 & C5 & C6). assert (t1 = t') as -> by congruence.
    exists t'. split; [done|split; [done|split; [done|split; [done|split; [done|]]]]].
    intros q e He Hen. destruct (Hcase q e He) as [[-> ->]|[_ He']]; [|by apply (C6 q)].
    rewrite F4, Hid. cbn [next_destid with_dev setf updf]. destruct B5 as [|Hu]; [by left|].
    destruct A7 as [->|[_ Hn]].
    + destruct (decide (next_destid s = RIO_INVALID_DESTID)); [by left|right; auto].
    + right. split; [auto|]. intros Heq. rewrite Heq in Hu. by apply Hn.
  - intros p q d1 d2 Hp Hq Hn1 Hn2 Heq.
    destruct (Hcase p d1 Hp) as [[-> ->]|[Hne Hp']], (Hcase q d2 Hq) as [[-> ->]|[Hne' Hq']]; [by right|..].
    + rewrite A10 in Hq'. destruct (B6 q d2 Hq' Hn2) as [|[_ Hx]]; left; congruence.
    + rewrite A10 in Hp'. destruct (B6 p d1 Hp' Hn1) as [|[_ Hx]]; left; congruence.
    + by apply (J4 p q d1 d2).
Qed.
End device.

(** ** Setting up a device *)

(** The driver core changes no ids, tags or tables. *)
Class EnumQuiet (W : Type) `{!Externals W} := {
  eq_register : forall net p, keeps (@same_ids W net) (ext_device_register_dev p);
  eq_create : forall net p, keeps (@same_ids W net) (ext_device_create_file p);
  eq_create_bin : forall net p, keeps (@same_ids W net) (ext_device_create_bin_file p);
  eq_register_net : forall net p, keeps (@same_ids W net) (ext_device_register_net p);
  eq_unregister_net : forall net p, keeps (@same_ids W net) (ext_device_unregister_net p);
}.
#[export] Hint Resolve eq_register eq_create eq_create_bin eq_register_net eq_unregister_net : frame.

Section setup.
Context {W : Type} `{!KernelEnv W} `{!SwitchTables W} `{!Externals W} `{!QuietTables W}
  `{!EnumQuiet W} (net : ptr).
Implicit Types (s : kstate W) (d e : rio_dev).

(** The device is newly allocated: its hop count is still zero. *)
Definition newdev (r : ptr) s : Prop :=
  (r < ks_fresh s)%positive /\ forall d, ks_devs s !! r = Some d -> rd_hopcount d = 0.

(** From [s0], with [r] new. *)
Definition fresh_from (s0 : kstate W) (r : ptr) (s : kstate W) : Prop := after net s0 s /\ newdev r s.

Abbreviation phase s0 r := (fine True True (fresh_from s0 r)).

Lemma newdev_ids r s s' : same_ids net s s' -> newdev r s -> newdev r s'.
Proof.
  intros (_ & _ & _ & Hf & Hd) [Hr Hh]. split; [lia|]. intros d' Hd'.
  destruct (Hd r d' Hd') as (d & Hd0 & Hk). unfold key in Hk. injection Hk as _ _ _ -> _ _ _ _. by apply Hh.
Qed.

Lemma phase_ids {A} s0 r (m : KM W A) : keeps (same_ids net) m -> phase s0 r any m.
Proof.
  intros Hm s [Ha Hn]. unfold spec. destruct (m s) as [a s'| |] eqn:E; [|done..].
  split; [done|]. apply Hm in E. split; [|by eapply newdev_ids].
  eapply after_trans; [exact Ha|]. apply step_after; [by apply same_ids_step|by eapply after_inv].
Qed.

Lemma endpoint_new d : rd_hopcount d = 0 -> endpoint net d = false.
Proof. intros H. unfold endpoint. rewrite H. cbn. by rewrite andb_false_r. Qed.

(** Fields of the new device that do not make it an end point. *)
Lemma phase_upd s0 r g :
  (forall d, rd_do_enum (g d) = rd_do_enum d /\ rd_comp_tag (g d) = rd_comp_tag d /\
     rd_pef (g d) = rd_pef d /\ rd_hopcount (g d) = rd_hopcount d) ->
  phase s0 r any (upd_dev r g).
Proof.
  intros Hg s [Ha [Hr Hh]]. unfold spec. destruct (ks_devs s !! r) as [d|] eqn:Hd.
  2: { unfold upd_dev, get_dev, bind, gets. by rewrite Hd. }
  rewrite (upd_dev_with _ _ _ _ Hd). destruct (Hg d) as (G1 & G2 & G3 & G4).
  split; [done|]. pose proof (after_inv _ _ _ Ha) as Hinv. split.
  - eapply after_trans; [exact Ha|].
    apply (replace_dev net s _ r d (g d)); try done; [|].
    + apply endpoint_new. rewrite G4. by apply Hh.
    + rewrite G1, G2. intros He. split; [by apply (ei_tag _ _ Hinv r)|].
      intros q e Hne Hq Hen Heq. by destruct Hne, (ei_tag_inj _ _ Hinv q r e d).
  - split; [done|]. intros d' Hd'. rewrite with_dev_lookup in Hd'. injection Hd' as <-.
    rewrite G4. by apply Hh.
Qed.

Lemma phase_identity s0 fuel port r destid hop :
  phase s0 r any (read_identity fuel port r destid hop).
Proof.
  unfold read_identity.
  repeat first
    [ solve [apply phase_upd; intros; repeat split]
    | solve [apply phase_ids; solve_enum]
    | match goal with |- fine _ _ _ _ (bind _ _) => apply fine_bind with (V := any); [|intros ? _] end
    | fine_step ].
Qed.

Lemma phase_comptag s0 port r destid hop : phase s0 r any (setup_comptag port r destid hop true).
Proof.
  unfold setup_comptag. intros s Hp. apply spec_bind, spec_gets.
  destruct (Z.leb_spec 0x10000 (next_comptag s)); [by apply spec_ret|]. set (tag := next_comptag s).
  apply spec_bind. apply spec_mono with (P := fun _ s1 => fresh_from s0 r s1 /\ next_comptag s1 = tag).
  { unfold spec. destruct (rio_mport_write_config_32 _ _ _ _ _ s) as [a s1| |] eqn:E; [|done..].
    apply keeps_mport_write_32 in E as Hk. apply (same_kernel_ids net) in Hk as Hi.
    split; [|by destruct Hi as (-> & _)]. destruct Hp as [Ha Hn]. split; [|by eapply newdev_ids].
    eapply after_trans; [exact Ha|]. apply step_after; [by apply same_ids_step|by eapply after_inv]. }
  cbv beta. intros _ s1 [[Ha [Hr Hh]] Htag]. apply spec_bind, spec_modify.
  set (s2 := setf next_comptag (tag + 1) s1). apply spec_bind. unfold spec at 1.
  destruct (ks_devs s1 !! r) as [d|] eqn:Hd.
  2: { unfold upd_dev, get_dev, bind, gets. cbn. by rewrite Hd. }
  rewrite (upd_dev_with s2 r d _ Hd). apply spec_ret.
  pose proof (after_inv _ _ _ Ha) as Hinv. split; [done|]. split.
  - eapply after_trans; [exact Ha|].
    apply (replace_dev net s1 _ r d (setf rd_comp_tag tag (setf rd_do_enum true d))); try done.
    + apply endpoint_new. cbn. by apply Hh.
    + cbn. lia.
    + intros _. cbn. split; [lia|]. intros q e Hne Hq He Heq.
      pose proof (ei_tag _ _ Hinv q e Hq He). lia.
  - split; [done|]. intros d' Hd'. rewrite with_dev_lookup in Hd'. injection Hd' as <-. cbn. by apply Hh.
Qed.

(** The end of the phase: the device gets its id. *)
Lemma setup_destid_after s0 s port r destid hop :
  fresh_from s0 r s -> partial (setup_destid net port r destid hop true) s (fun _ s' => after net s0 s').
Proof.
  intros [Ha [Hr Hh]]. pose proof (after_inv _ _ _ Ha) as Hinv. unfold setup_destid.
  apply spec_bind, partial_get_dev. intros d Hd. pose proof (Hh d Hd) as Hhop.
  destruct (rio_device_has_destid (rd_src_ops d) (rd_dst_ops d)) eqn:Hhas.
  2: { apply partial_upd_dev. intros d' Hd'. assert (d' = d) as -> by congruence.
       eapply after_trans; [exact Ha|]. apply (replace_dev_keep net s r d); try done.
       unfold endpoint. cbn. rewrite Hhas. by rewrite andb_false_r. }
  apply spec_assoc, spec_bind, spec_gets, spec_assoc, spec_bind.
  rewrite (next_destid_u16 net s Hinv). set (id := next_destid s).
  apply spec_mono with (P := fun _ s1 => same_kernel s s1); [apply keeps_partial; auto with frame|].
  cbv beta. intros _ s1 Hk. apply (same_kernel_ids net) in Hk as Hi.
  assert (ks_devs s1 !! r = Some d) as Hd1 by (by rewrite (sk_devs _ _ Hk)).
  assert (next_destid s1 = id) as Hn1 by apply Hi.
  assert (after net s0 s1) as Ha1.
  { eapply after_trans; [exact Ha|]. by apply step_after; [apply same_ids_step|]. }
  apply spec_assoc, spec_bind, partial_upd_dev. intros d' Hd'. assert (d' = d) as -> by congruence.
  set (d2 := setf rd_destid id d). set (s2 := with_dev r d2 s1).
  assert (after net s0 s2) as Ha2.
  { eapply after_trans; [exact Ha1|].
    apply (replace_dev_keep net s1 r d); try done; [by eapply after_inv|by apply endpoint_new]. }
  pose proof (after_inv _ _ _ Ha2) as Hinv2. apply spec_assoc, spec_assoc_r, spec_bind.
  apply spec_mono with (P := fun _ s3 => alloc_next net s2 s3).
  { destruct (ei_table _ _ Hinv2) as (t & B1 & B2 & B3 & B4 & _).
    by apply total_partial, alloc_next_ok; exists t. }
  cbv beta. intros _ s3 Hal. apply partial_upd_dev. intros d3 Hd3. eapply after_trans; [exact Ha2|].
  assert (ks_devs s2 !! r = Some d2) as Hd2 by apply with_dev_lookup.
  assert (ks_devs s3 = ks_devs s2) as Hds by (by destruct Hal as (_ & _ & _ & _ & _ & _ & _ & _ & _ & _ & _ & ->)).
  rewrite Hds, Hd2 in Hd3. injection Hd3 as <-.
  by apply (assign_id net s2 s3 r d2).
Qed.

(** A new device object. *)
Lemma fresh_insert s d :
  enum_inv net s -> rd_do_enum d = false ->
  rd_hopcount d = 0 ->
  fresh_from s (ks_fresh s)
    (setf ks_devs (<[ks_fresh s := d]> (ks_devs s)) (setf ks_fresh (Pos.succ (ks_fresh s)) s)).
Proof.
  intros Hinv Hen Hhop. set (s' := setf ks_devs _ _). set (r := ks_fresh s).
  assert (forall q e, ks_devs s' !! q = Some e ->
    (q = r /\ e = d) \/ (q <> r /\ ks_devs s !! q = Some e)) as Hcase.
  { intros q e. cbn. fold r. destruct (decide (q = r)) as [->|Hne].
    - rewrite lookup_insert_eq. intros [= <-]. by left.
    - rewrite lookup_insert_ne by done. by right. }
  split; [split; [|split; [cbn; lia|]]|].
  - destruct Hinv as [H1 H2 H3 H4]. split.
    + intros q e He Hq. destruct (Hcase q e He) as [[-> ->]|[_ He']]; [congruence|by apply (H1 q)].
    + intros p q d1 d2 Hp Hq Hn1 Hn2 Heq.
      destruct (Hcase p d1 Hp) as [[-> ->]|[_ Hp']], (Hcase q d2 Hq) as [[-> ->]|[_ Hq']]; try congruence.
      by apply (H2 p q d1 d2).
    + destruct H3 as (t & B1 & B2 & B3 & B4 & B5 & B6). exists t.
      do 5 (split; [done|]). intros q e He Hq. destruct (Hcase q e He) as [[-> ->]|[_ He']].
      * by rewrite (endpoint_new d Hhop) in Hq.
      * by apply (B6 q).
    + intros p q d1 d2 Hp Hq Hn1 Hn2 Heq.
      destruct (Hcase p d1 Hp) as [[-> ->]|[_ Hp']]; [by rewrite (endpoint_new d Hhop) in Hn1|].
      destruct (Hcase q d2 Hq) as [[-> ->]|[_ Hq']]; [by rewrite (endpoint_new d Hhop) in Hn2|].
      by apply (H4 p q d1 d2).
  - intros p [Hp Hs]. split; [cbn; lia|]. intros e He.
    destruct (Hcase p e He) as [[-> _]|[_ He']]; [unfold r in Hp; lia|by apply Hs].
  - split; [cbn; lia|]. intros e He. destruct (Hcase r e He) as [[_ ->]|[Hne _]]; done.
Qed.

(** What follows the assignment of ids. *)
Lemma ids_setup_kind fuel port r destid hop : keeps (same_ids (W := W) net) (setup_kind fuel port r destid hop true).
Proof.
  unfold setup_kind. solve_enum; auto using ids_upd_rswitch.
Qed.
Lemma ids_setup_cleanup r : keeps (same_ids (W := W) net) (setup_cleanup r).
Proof. unfold setup_cleanup. solve_enum. Qed.
Lemma ids_add_device r : keeps (same_ids (W := W) net) (rio_add_device r).
Proof.
  unfold rio_add_device, rio_create_sysfs_dev_files.
  solve_enum; first [by apply ids_upd_dev | by apply ids_upd_net | by apply ids_modify_other].
Qed.

(** [m] runs from a state with the invariant and returns nothing or [r]. *)
Abbreviation gives r := (fun o : option ptr => o = None \/ o = Some r).

Lemma fine_after_step {A} s0 (m : KM W A) :
  keeps (enum_step net) m -> fine True True (after net s0) any m.
Proof.
  intros Hm s Hs. unfold spec. destruct (m s) as [a s'| |] eqn:E; [|done..]. split; [done|].
  eapply after_trans; [exact Hs|]. apply step_after; [by eapply Hm|by eapply after_inv].
Qed.
Lemma partial_bind_step {A B} s0 s (m : KM W A) (k : A -> KM W B) (Q : B -> kstate W -> Prop) :
  after net s0 s -> keeps (enum_step net) m ->
  (forall a s', after net s0 s' -> partial (k a) s' Q) -> partial (bind m k) s Q.
Proof.
  intros Hs Hm Hk. apply spec_bind. eapply spec_mono; [by apply (fine_after_step s0)|].
  intros a s' [_ H]. by apply Hk.
Qed.
Lemma fine_cleanup s0 r : fine True True (after net s0) (gives r) (setup_cleanup r).
Proof.
  unfold setup_cleanup.
  repeat (eapply fine_bind; [apply fine_after_step; solve_enum|intros ? _]).
  apply fine_ret. by left.
Qed.

(** The part of [rio_setup_device] after the ids. *)
Lemma setup_rest_after s0 fuel port r destid hop :
  fine True True (after net s0) (gives r)
    (done_ <- setup_kind fuel port r destid hop true ;;
     if negb done_ then setup_cleanup r
     else
       upd_dev r (setf rd_dma_mask 0xffffffff) ;;;
       d <- get_dev r ;;
       when (truthy (Z.land (rd_dst_ops d) RIO_DST_OPS_DOORBELL))
         (upd_dev r (setf rd_riores
            (<[RIO_DOORBELL_RESOURCE := rio_init_dbell_res 0 0xffff]> (rd_riores d)))) ;;;
       err <- rio_add_device r ;;
       if truthy err then setup_cleanup r else rio_dev_get (Some r)).
Proof.
  eapply fine_bind; [apply fine_after_step; auto using step_of_ids, ids_setup_kind|]. intros [] _.
  2: apply fine_cleanup. cbn [negb].
  eapply fine_bind; [apply fine_after_step, step_of_ids; by apply ids_upd_dev|intros _ _].
  eapply fine_bind; [apply fine_after_step; solve_enum|intros d _].
  eapply fine_bind; [apply fine_after_step, step_of_ids; solve_enum; by apply ids_upd_dev|intros _ _].
  eapply fine_bind; [apply fine_after_step; auto using step_of_ids, ids_add_device|intros err _].
  destruct (truthy err); [apply fine_cleanup|]. unfold rio_dev_get, get_device.
  eapply fine_bind; [apply fine_after_step, step_of_ids; solve_enum; by apply ids_upd_dev|intros _ _].
  apply fine_ret. by right.
Qed.

(** Setting up a device keeps the invariant and returns a device allocated
    before the end. *)
Lemma setup_device_after fuel port destid hop s :
  enum_inv net s ->
  partial (rio_setup_device fuel net port destid hop true) s
    (fun o s' => after net s s' /\ forall r, o = Some r -> (r < ks_fresh s')%positive).
Proof.
  intros Hinv. unfold rio_setup_device.
  (* the accesses before the allocation *)
  eapply partial_bind_step; [done|solve_enum|]. intros result s1 H1.
  eapply partial_bind_step; [exact H1|solve_enum|]. intros [rc pef] s2 H2.
  destruct (truthy rc); [by apply spec_ret|].
  eapply partial_bind_step; [exact H2|solve_enum|]. intros [rc' swpinfo] s3 H3.
  eapply partial_bind_step; [exact H3|solve_enum|]. intros [] s4 H4; [|by apply spec_ret].
  set (d0 := setf rd_net _ _). set (r := ks_fresh s4).
  pose proof (fresh_insert s4 d0 (after_inv _ _ _ H4) eq_refl eq_refl) as Hf. fold r in Hf.
  set (s5 := setf ks_devs _ _) in Hf. apply spec_bind. apply spec_Done with (a := r) (s' := setf ks_fresh (Pos.succ r) s4).
  { reflexivity. }
  apply spec_bind, spec_modify. change (setf ks_devs _ _) with s5.
  (* the device is new until it gets its id *)
  apply spec_bind. eapply spec_mono; [by apply phase_identity|]. intros [] s6 [_ H6].
  apply spec_bind. eapply spec_mono; [by apply phase_comptag|]. intros tagged s7 [_ H7].
  pose proof (after_inv _ _ _ (proj1 H7)) as H7i. pose proof (proj1 (proj2 H7)) as Hr.
  apply spec_mono with (P := fun o s' => gives r o /\ after net s7 s').
  2: { intros o s' [Ho Ha]. split.
    - eapply after_trans; [exact H4|]. eapply after_trans; [apply H7|exact Ha].
    - intros r' ->. destruct Ho as [|[= ->]]; [done|]. destruct Ha as (_ & Ha & _). lia. }
  destruct tagged; [|by apply fine_cleanup, after_refl]. cbn [negb].
  apply spec_bind. eapply spec_mono; [apply (setup_destid_after s7 s7)|].
  { split; [by apply after_refl|apply H7]. }
  intros [] s8 H8. by apply setup_rest_after.
Qed.
End setup.

(** ** The walk *)

Section walk.
Context {W : Type} `{!KernelEnv W} `{!SwitchTables W} `{!Externals W} `{!QuietTables W}
  `{!EnumQuiet W} (net : ptr).
Implicit Types (s : kstate W) (d e : rio_dev).

Lemma ids_route_known port rdev sp b destid :
  keeps (same_ids (W := W) net) (route_known_step net port rdev sp b destid).
Proof. unfold route_known_step. solve_enum. Qed.
Lemma ids_update_routes port rdev n c : keeps (same_ids (W := W) net) (update_routes net port rdev n c).
Proof. unfold update_routes. solve_enum; auto using ids_route_known. Qed.
Lemma ids_enum_known port hop prev n : keeps (same_ids (W := W) net) (enum_known port hop prev n).
Proof. unfold enum_known. solve_enum. Qed.
Hint Resolve ids_route_known ids_update_routes ids_enum_known : frame.

Section switch.
Context (enum_peer : Z -> option ptr -> Z -> KM W Z)
  (Hpeer : forall h p n, keeps (enum_step net) (enum_peer h p n)).

Lemma step_enum_port fuel port rdev hop inport n :
  keeps (enum_step net) (enum_port enum_peer fuel net port rdev hop inport n).
Proof. unfold enum_port. solve_enum; auto. Qed.

(** The switch itself takes an id at the end: it is no end point. *)
Lemma switch_destid s rdev id :
  all_switch s rdev -> fine True True (after net s) any (upd_dev rdev (setf rd_destid id)).
Proof.
  intros Hsw s' Hs'. apply partial_upd_dev. intros d Hd. split; [done|].
  eapply after_trans; [exact Hs'|]. apply (replace_dev_keep net s' rdev d); try done.
  - by eapply after_inv.
  - destruct Hs' as (_ & _ & Hk). destruct (Hk rdev Hsw) as [_ Hd']. specialize (Hd' d Hd).
    unfold endpoint. unfold rio_is_switch in *. cbn. rewrite Hd'. cbn. by rewrite andb_false_r.
Qed.

Lemma enum_switch_after s fuel port rdev hop :
  all_switch s rdev -> fine True True (after net s) any (enum_switch enum_peer fuel net port rdev hop).
Proof.
  intros Hsw. unfold enum_switch.
  repeat (eapply fine_bind; [apply fine_after_step; solve_enum; auto using step_enum_port|intros ? _]).
  match goal with o : option Z |- _ => destruct o end; [by apply fine_ret|].
  repeat (eapply fine_bind; [apply fine_after_step; solve [solve_enum]|intros ? _]).
  eapply fine_bind; [apply fine_after_step, keeps_when; [typeclasses eauto|apply step_alloc_next]|intros _ _].
  eapply fine_bind; [by apply switch_destid|intros _ _]. by apply fine_ret.
Qed.
End switch.

Lemma step_enum_peer lfuel fuel depth port hop prev n :
  keeps (enum_step net) (rio_enum_peer lfuel fuel depth net port hop prev n).
Proof.
  revert hop prev n. induction depth as [|depth IH]; intros hop prev n; cbn [rio_enum_peer]; [solve_enum|].
  do 2 (apply keeps_bind; [typeclasses eauto|solve_enum|intros ?]). destruct (truthy _); [solve_enum|].
  apply keeps_bind; [typeclasses eauto|solve_enum|intros lock]. destruct (_ =? _); [solve_enum|].
  do 3 (apply keeps_bind; [typeclasses eauto|solve_enum|intros ?]). destruct (_ <? _); [solve_enum|].
  intros s rc s' Hrun Hinv.
  match type of Hrun with ?m s = _ =>
    assert (partial m s (fun _ s' => after net s s')) as Hm; [clear Hrun|by unfold spec in Hm; rewrite Hrun in Hm] end.
  apply spec_bind. eapply spec_mono; [by apply setup_device_after|].
  intros [rdev|] s1 [H1 Hr]; [|by apply spec_ret]. specialize (Hr rdev eq_refl).
  pose proof (after_refl net s1 (after_inv _ _ _ H1)) as H1r.
  eapply partial_bind_step; [exact H1r|apply step_of_ids; by apply ids_upd_dev|]. intros _ s2 H2.
  eapply partial_bind_step; [exact H2|solve_enum|]. intros _ s3 H3.
  pose proof (after_trans net _ _ _ H1 H3) as H03. pose proof (after_inv _ _ _ H3) as Hi3.
  apply spec_bind, partial_get_dev. intros d Hd. destruct (rio_is_switch d) eqn:Hsw; [|by apply spec_ret].
  assert (all_switch s3 rdev) as Hall.
  { split; [destruct H3 as (_ & ? & _); lia|]. intros d' Hd'. by simplify_eq. }
  eapply spec_mono; [by apply (enum_switch_after _ IH s3); [|apply after_refl]|].
  intros _ s4 [_ H4]. by eapply after_trans.
Qed.
End walk.
