(* ===== verification/EnumSpec.v ===== *)
(** * Enumeration of a network

    [rio_enum_mport] from the empty network on: whatever the hardware answers,
    component tags are distinct and end points have destination ids of their
    own. *)

From S2P Require Import Prelude Regs State Access Bench Hw SwBench ExtFeat Route SwTables Mbox Em Driver Mport Scan ScanBench EnumInv.

Section ids.
Context {W : Type} (net : ptr).
Implicit Types (s : kstate W) (d e : rio_dev).

(** Tags are below the counter and distinct, end points of the network have
    distinct ids (an id is invalid when the table was exhausted). *)
Record ids_ok s : Prop := {
  io_tag : forall p d, ks_devs s !! p = Some d -> rd_do_enum d = true -> rd_comp_tag d < next_comptag s;
  io_tag_inj : forall p q d e, ks_devs s !! p = Some d -> ks_devs s !! q = Some e ->
    rd_do_enum d = true -> rd_do_enum e = true -> rd_comp_tag d = rd_comp_tag e -> p = q;
  io_id_inj : forall p q d e, ks_devs s !! p = Some d -> ks_devs s !! q = Some e ->
    endpoint net d = true -> endpoint net e = true -> rd_destid d = rd_destid e ->
    rd_destid d = RIO_INVALID_DESTID \/ p = q;
}.

Lemma inv_ids_ok s : enum_inv net s -> ids_ok s.
Proof. intros [H1 H2 _ H4]. by split. Qed.

(** The counter has not gone back and no tags or ids are new. *)
Definition no_new_ids s s' : Prop :=
  next_comptag s <= next_comptag s' /\ (ks_fresh s <= ks_fresh s')%positive /\
  forall p d', ks_devs s' !! p = Some d' -> exists d, ks_devs s !! p = Some d /\ key d' = key d.

#[export] Instance no_new_ids_preorder : PreOrder no_new_ids.
Proof.
  split.
  - intros s. split; [lia|split; [lia|]]. by eauto.
  - intros s1 s2 s3 (A1 & B1 & C1) (A2 & B2 & C2). split; [lia|split; [lia|]].
    intros p d3 H3. destruct (C2 p d3 H3) as (d2 & H2 & K2). destruct (C1 p d2 H2) as (d1 & H1 & K1).
    exists d1. split; [done|congruence].
Qed.

Lemma same_ids_no_new s s' : same_ids net s s' -> no_new_ids s s'.
Proof. intros (Ht & _ & _ & Hf & Hd). split; [lia|split; [done|done]]. Qed.

Lemma no_new_ids_ok s s' : no_new_ids s s' -> ids_ok s -> ids_ok s'.
Proof.
  intros (Ht & _ & Hd) [H1 H2 H3]. split.
  - intros p d' Hp He. destruct (Hd p d' Hp) as (d & Hp0 & Hk).
    injection Hk as Hk1 Hk2 _ _ _ _ _ _. specialize (H1 p d Hp0 ltac:(congruence)). lia.
  - intros p q d' e' Hp Hq He1 He2 Heq. destruct (Hd p d' Hp) as (d & Hp0 & Hk).
    destruct (Hd q e' Hq) as (e & Hq0 & Hk'). injection Hk as ? ? _ _ _ _ _ _.
    injection Hk' as ? ? _ _ _ _ _ _. apply (H2 p q d e); congruence.
  - intros p q d' e' Hp Hq He1 He2 Heq. destruct (Hd p d' Hp) as (d & Hp0 & Hk).
    destruct (Hd q e' Hq) as (e & Hq0 & Hk').
    rewrite (endpoint_key net _ _ Hk) in He1. rewrite (endpoint_key net _ _ Hk') in He2.
    injection Hk as _ _ Hk _ _ _ _ _. injection Hk' as _ _ Hk' _ _ _ _ _. rewrite Hk.
    apply (H3 p q d e); congruence.
Qed.

(** No device of the network exists. *)
Definition no_dev s : Prop := forall p d, ks_devs s !! p = Some d -> rd_net d <> Some net.

Lemma no_new_no_dev s s' : no_new_ids s s' -> no_dev s -> no_dev s'.
Proof.
  intros (_ & _ & Hd) Hs p d' Hp. destruct (Hd p d' Hp) as (d & Hp0 & Hk).
  injection Hk as _ _ _ _ _ _ _ ->. by eapply Hs.
Qed.
Lemma no_dev_endpoint s p d : no_dev s -> ks_devs s !! p = Some d -> endpoint net d = false.
Proof. intros Hs Hp. unfold endpoint. by rewrite bool_decide_false by (by eapply Hs). Qed.

(** The table of a network without devices that has the next id marked. *)
Lemma inv_of_table s t :
  ids_ok s -> no_dev s -> idtab net s = Some t -> idt_start t = 0 ->
  Z.of_nat (length (idt_table t)) = idt_max t -> idt_max t <= 2 ^ 16 ->
  (next_destid s = RIO_INVALID_DESTID \/ in_use t (next_destid s)) -> enum_inv net s.
Proof.
  intros [H1 H2 H3] Hn A1 A2 A3 A4 A5. split; [done|done| |done].
  exists t. do 5 (split; [done|]). intros p d Hp He. by rewrite (no_dev_endpoint s p d) in He.
Qed.

(** A new network: its table is there, its devices are not. *)
Record net_ready s : Prop := {
  nr_ids : ids_ok s;
  nr_none : no_dev s;
  nr_table : exists t, idtab net s = Some t /\ idt_start t = 0 /\
    Z.of_nat (length (idt_table t)) = idt_max t /\ idt_max t <= 2 ^ 16;
}.

Lemma ready_same s s' : same_ids net s s' -> net_ready s -> net_ready s'.
Proof.
  intros Hs [H1 H2 H3]. pose proof (same_ids_no_new _ _ Hs) as Hn.
  split; [by eapply no_new_ids_ok|by eapply no_new_no_dev|]. by destruct Hs as (_ & _ & -> & _).
Qed.

Lemma ready_alloc s s' : net_ready s -> alloc_next net s s' -> enum_inv net s'.
Proof.
  intros [H1 H2 (t & B1 & B2 & B3 & B4)] (t0 & t' & A1 & A2 & A3 & A4 & A5 & A6 & A7 & A8 & A9 & A10).
  assert (t0 = t) as -> by congruence.
  assert (no_new_ids s s') as Hn.
  { split; [lia|split; [by rewrite A9|]]. rewrite A10. by eauto. }
  apply (inv_of_table s' t'); try done; try congruence.
  - by eapply no_new_ids_ok.
  - by eapply no_new_no_dev.
  - destruct A7 as [|[]]; auto.
Qed.
End ids.

Section enumerate.
Context {W : Type} `{!KernelEnv W} `{!SwitchTables W} `{!Externals W} `{!QuietTables W}
  `{!EnumQuiet W} (net : ptr).
Implicit Types (s : kstate W) (d e : rio_dev).

Lemma fine_ready {A} (m : KM W A) :
  keeps (same_ids net) m -> fine True True (net_ready net) any m.
Proof.
  intros Hm s Hs. apply (spec_mono _ _ _ _ (fun _ s' => same_ids net s s')); [by apply keeps_partial|].
  intros a s' H. split; [done|]. by apply (ready_same net s).
Qed.
Lemma partial_array_get {A} (a : list A) i s (Q : A -> kstate W -> Prop) :
  (forall v, 0 <= i -> a !! Z.to_nat i = Some v -> Q v s) -> partial (array_get a i) s Q.
Proof.
  intros H. unfold spec, array_get. destruct (Z.leb_spec 0 i); [|done].
  destruct (a !! Z.to_nat i) as [v|] eqn:Hv; [by apply H|done].
Qed.
Lemma ready_reserve id : fine True True (net_ready (W := W) net) any (rio_destid_reserve net id).
Proof.
  intros s Hs. unfold rio_destid_reserve. destruct Hs as [H1 H2 (t & B1 & B2 & B3 & B4)].
  destruct (inv_idtab_at net s t B1 B2 B3 B4) as [n Hat].
  srun (run_get_idtab _ _ _ _ Hat). rewrite B2, Z.sub_0_r. pose proof (u16_range id) as Hid.
  apply spec_bind, partial_array_get. intros b _ Hb. apply lookup_lt_Some in Hb.
  assert (0 <= u16 id < idt_max t) as Hi by lia.
  srun (run_write_bit s net n t (u16 id) true Hat Hi). apply spec_ret. split; [done|].
  set (t' := setf idt_table _ t).
  assert (length (idt_table t') = length (idt_table t)) as Hlen by (cbn; apply length_insert).
  pose proof (with_idtab_at s net n t t' Hat eq_refl eq_refl Hlen) as [C1 C2 C3 C4 C5].
  split; [by destruct H1; split|done|]. exists t'. unfold idtab. rewrite C1. by rewrite Hlen.
Qed.

Lemma keeps_no_new {A} (m : KM W A) : keeps (same_ids net) m -> keeps no_new_ids m.
Proof. intros Hm s a s' H. by eapply same_ids_no_new, Hm. Qed.

(** The part of [rio_enum_mport] after the walk. *)
Lemma no_new_free id : keeps (no_new_ids (W := W)) (rio_destid_free net id).
Proof.
  unfold rio_destid_free, write_bit, get_idtab, set_idtab.
  repeat match goal with |- keeps _ (bind _ _) =>
    apply keeps_bind; [typeclasses eauto|apply keeps_no_new; solve_enum|intros ?] end.
  intros s [] s'. unfold upd_net, get_net, gets, bind. destruct (ks_nets s !! net); [|done].
  intros [= <-]. split; [cbn; lia|split; [cbn; lia|by eauto]].
Qed.
Lemma ids_update_route_tables : keeps (same_ids (W := W) net) (rio_update_route_tables net).
Proof. unfold rio_update_route_tables, update_route. solve_enum. Qed.
Lemma ids_clear_locks_loop port devs a b : keeps (same_ids (W := W) net) (clear_locks_loop port devs a b).
Proof. revert a b. induction devs; intros; cbn [clear_locks_loop]; solve_enum; auto. Qed.
Lemma ids_clear_locks : keeps (same_ids (W := W) net) (rio_clear_locks net).
Proof. unfold rio_clear_locks. solve_enum; auto using ids_clear_locks_loop. Qed.
Lemma ids_pw_enable p v : keeps (same_ids (W := W) net) (rio_pw_enable p v).
Proof. unfold rio_pw_enable. solve_enum. Qed.

Lemma ids_ok_after {A} (m : KM W A) : keeps no_new_ids m -> fine True True (ids_ok net) any m.
Proof.
  intros Hm s Hs. unfold spec. destruct (m s) as [a s'| |] eqn:E; [|done..]. split; [done|].
  eapply no_new_ids_ok; [by eapply Hm|done].
Qed.
Lemma enum_end_ids mport :
  fine True True (ids_ok (W := W) net) any
    (next <- gets next_destid ;;
     rio_destid_free net (u16 next) ;;;
     rio_update_route_tables net ;;;
     rio_clear_locks net ;;;
     rio_pw_enable mport 1 ;;;
     ret 0).
Proof.
  repeat match goal with |- fine _ _ _ _ (bind _ _) =>
    apply fine_bind with (V := any); [apply ids_ok_after|intros ? _] end.
  all: auto using keeps_no_new, no_new_free, ids_update_route_tables, ids_clear_locks, ids_pw_enable with frame.
  by apply fine_ret.
Qed.

(** Before the network is allocated. *)
Definition net_free s : Prop := ids_ok net s /\ no_dev net s /\ ks_fresh s = net.

Lemma free_quiet {A} (m : KM W A) : keeps same_kernel m -> fine True True net_free any m.
Proof.
  intros Hm s (H1 & H2 & H3). apply (spec_mono _ _ _ _ (fun _ s' => same_kernel s s')); [by apply keeps_partial|].
  intros a s' Hk. split; [done|]. pose proof (same_ids_no_new _ _ _ (same_kernel_ids net _ _ Hk)) as Hn.
  split; [by eapply no_new_ids_ok|split; [by eapply no_new_no_dev|]]. by rewrite Hk.
Qed.

Lemma partial_kzalloc s (Q : bool -> kstate W -> Prop) :
  (forall ok n w, Q ok (with_allocs n (with_hw w s))) -> partial kzalloc s Q.
Proof.
  intros H. unfold spec. rewrite run_kzalloc. destruct (env_alloc (ks_hw s)).1; [apply H|].
  specialize (H false (ks_allocs s) (env_alloc (ks_hw s)).2). by destruct s.
Qed.

Lemma free_allocs n w s : net_free s -> net_free (with_allocs n (with_hw w s)).
Proof. intros ([H1 H2 H3] & H4 & H5). split; [by split|done]. Qed.

(** The network is allocated and has no table yet. *)
Definition net_new s : Prop := ids_ok net s /\ no_dev net s.

Lemma new_keeps {A} (m : KM W A) : keeps no_new_ids m -> fine True True net_new any m.
Proof.
  intros Hm s [H1 H2]. apply (spec_mono _ _ _ _ (fun _ s' => no_new_ids s s')); [by apply keeps_partial|].
  intros a s' Hn. split; [done|]. split; [by eapply no_new_ids_ok|by eapply no_new_no_dev].
Qed.
Lemma partial_new {A B} (m : KM W A) (k : A -> KM W B) s (Q : B -> kstate W -> Prop) :
  net_new s -> keeps no_new_ids m -> (forall a s', net_new s' -> partial (k a) s' Q) ->
  partial (bind m k) s Q.
Proof.
  intros Hs Hm Hk. apply spec_bind. eapply spec_mono; [by apply (new_keeps m Hm)|].
  intros a s' [_ H]. by apply Hk.
Qed.
Lemma no_new_free_net n : keeps (no_new_ids (W := W)) (rio_free_net n).
Proof.
  assert (forall g, keeps (no_new_ids (W := W)) (upd_net n g)) as Hupd.
  { intros g s [] s'. unfold upd_net, get_net, gets, bind. destruct (ks_nets s !! n); [|done].
    intros [= <-]. split; [cbn; lia|split; [cbn; lia|by eauto]]. }
  unfold rio_free_net, rio_scan_release_net. repeat (keeps_step || (apply keeps_no_new; solve [solve_enum])); auto.
  all: apply keeps_no_new; try apply eq_unregister_net; by apply ids_modify_other.
Qed.
Lemma new_table s g max :
  net_new s -> (forall x, net_enum_data (g x) =
    Some (mk_rio_id_table 0 max (replicate (Z.to_nat max) false))) -> 0 <= max <= 2 ^ 16 ->
  partial (upd_net net g) s (fun _ s' => net_ready net s').
Proof.
  intros [[H1 H2 H3] H4] Hg Hmax. unfold spec. destruct (ks_nets s !! net) as [x|] eqn:Hx.
  2: { unfold upd_net, get_net, gets, bind. by rewrite Hx. }
  rewrite (run_upd_net _ _ _ _ Hx). split; [by split|done|].
  exists (mk_rio_id_table 0 max (replicate (Z.to_nat max) false)). unfold idtab. cbn [ks_nets setf updf].
  rewrite lookup_insert_eq. split; [apply Hg|split; [done|]]. cbn [idt_table idt_max].
  rewrite length_replicate. lia.
Qed.
Lemma max_entries size : 0 <= RIO_MAX_ROUTE_ENTRIES size <= 2 ^ 16.
Proof. unfold RIO_MAX_ROUTE_ENTRIES. by destruct (truthy size). Qed.

Lemma alloc_net_tail mport s :
  net_ready net s ->
  partial (mp <- get_mport mport ;;
    upd_net net (fun x => setf net_id (u8 (mp_id mp)) (setf net_hport (Some mport) x)) ;;;
    rio_add_net net ;;;
    ret (Some net)) s (fun o s' =>
    match o with Some n => n = net /\ net_ready net s' | None => ids_ok net s' end).
Proof.
  intros Hs. assert (Hf : fine True True (net_ready net) any (mp <- get_mport mport ;;
    upd_net net (fun x => setf net_id (u8 (mp_id mp)) (setf net_hport (Some mport) x)) ;;; rio_add_net net)).
  { apply fine_ready. unfold rio_add_net. solve_enum;
      first [by apply ids_upd_net | by apply ids_modify_other]. }
  specialize (Hf s Hs). unfold spec, bind in *. destruct (get_mport mport s) as [mp s1| |]; [|done..].
  destruct (upd_net net _ s1) as [a s2| |]; [|done..]. destruct (rio_add_net net s2); [|done..].
  by destruct Hf.
Qed.

Lemma scan_alloc_net_ready mport :
  forall s, net_free s ->
  partial (rio_scan_alloc_net mport true 0) s (fun o s' =>
    match o with Some n => n = net /\ net_ready net s' | None => ids_ok net s' end).
Proof.
  intros s Hs. unfold rio_scan_alloc_net, rio_alloc_net.
  apply spec_bind, spec_bind, partial_kzalloc. intros ok n w. pose proof (free_allocs n w s Hs) as H1.
  set (s1 := with_allocs _ _) in *. clearbody s1. destruct ok; [|apply spec_ret, spec_bind, spec_ret, spec_ret, H1].
  apply spec_bind. eapply spec_Done; [reflexivity|]. rewrite (proj2 (proj2 H1)).
  apply spec_bind, spec_modify.
  assert (net_new (setf ks_nets (<[net:=zero_rio_net]> (ks_nets s1)) (setf ks_fresh (Pos.succ net) s1))) as H2.
  { destruct H1 as ([A1 A2 A3] & A4 & _). split; [by split|done]. }
  set (s2 := setf ks_nets _ _) in *. change (setf ks_nets _ _) with s2. clearbody s2.
  apply partial_new; [done|apply keeps_no_new, ids_upd_mport|]. intros [] s3 H3. apply spec_ret, spec_bind.
  apply partial_new; [done|apply keeps_no_new; solve_enum|]. intros mp s4 H4.
  apply partial_new; [done|apply keeps_no_new, ids_kzalloc|]. intros [] s5 H5.
  - apply spec_bind. eapply spec_mono; [eapply new_table; [done|reflexivity|apply max_entries]|].
    intros [] s6 H6. apply spec_ret. by apply alloc_net_tail.
  - apply partial_new; [done|apply no_new_free_net|]. intros [] s6 [H6 _]. by apply spec_ret, spec_ret.
Qed.

Lemma partial_ready {A B} (m : KM W A) (k : A -> KM W B) s (Q : B -> kstate W -> Prop) :
  net_ready net s -> fine True True (net_ready net) any m ->
  (forall a s', net_ready net s' -> partial (k a) s' Q) -> partial (bind m k) s Q.
Proof.
  intros Hs Hm Hk. apply spec_bind. eapply spec_mono; [by apply Hm|]. intros a s' [_ H]. by apply Hk.
Qed.
Lemma ready_tag s : net_ready net s -> net_ready net (setf next_comptag (next_comptag s + 1) s).
Proof.
  intros [H1 H2 H3]. split; [|done|done]. apply (no_new_ids_ok net s); [|done].
  split; [cbn; lia|split; [cbn; lia|by eauto]].
Qed.

(** The whole of [rio_enum_mport]. *)
Lemma enum_mport_ids lfuel fuel depth mport flags s :
  net_free s ->
  partial (rio_enum_mport lfuel fuel depth mport flags) s (fun _ s' => ids_ok net s').
Proof.
  intros Hs. unfold rio_enum_mport. apply spec_bind. eapply spec_mono; [by apply (free_quiet (get_mport mport)); auto with frame|].
  intros mp s1 [_ H1]. destruct (mp_nnode mp); [apply spec_ret, H1|].
  apply spec_bind. eapply spec_mono; [apply (free_quiet (rio_enum_host mport)); [unfold rio_enum_host; solve_keeps|done]|].
  intros host s2 [_ H2]. destruct (host <? 0); [apply spec_ret, H2|].
  apply spec_bind. eapply spec_mono; [by apply (free_quiet (rio_mport_is_active mport)); auto with frame|].
  intros active s3 [_ H3]. destruct (truthy active); [|apply spec_ret, H3].
  apply spec_bind. eapply spec_mono; [by apply scan_alloc_net_ready|].
  intros [n|] s4 H4; [destruct H4 as [-> H4]|by apply spec_ret].
  apply partial_ready; [done|by apply fine_ready; solve_enum|]. intros mp4 s5 H5.
  apply partial_ready; [done|by apply ready_reserve|]. intros old s6 H6.
  apply partial_ready; [done|by apply fine_ready; solve_enum|]. intros rc6 s7 H7.
  apply spec_bind, spec_gets, spec_bind, spec_modify.
  pose proof (ready_tag s7 H7) as H8. set (s8 := setf next_comptag _ s7) in *. clearbody s8.
  apply partial_ready; [done|by apply fine_ready; solve_enum|]. intros rc8 s9 H9.
  apply spec_assoc_r, spec_bind. apply spec_mono with (P := fun _ s10 => alloc_next net s9 s10).
  { apply total_partial, alloc_next_ok, H9. }
  cbv beta. intros [] s10 H10. pose proof (ready_alloc _ _ _ H9 H10) as Hinv. apply spec_bind.
  apply spec_mono with (P := fun _ s11 => enum_step net s10 s11).
  { apply keeps_partial, step_enum_peer. }
  cbv beta. intros rc s11 H11. destruct (H11 Hinv) as [Hinv' _]. apply inv_ids_ok in Hinv'.
  destruct (rc <? 0).
  - apply spec_bind. eapply spec_mono; [by apply (ids_ok_after _ (keeps_no_new _ ids_clear_locks))|].
    intros _ s12 [_ H12]. by apply spec_ret.
  - eapply spec_mono; [by apply enum_end_ids|]. by intros _ s12 [_ H12].
Qed.
End enumerate.

#[export] Instance fb_quiet : QuietTables fabric.
Proof. apply switch_tables_quiet. Qed.
#[export] Instance fb_enum_quiet : EnumQuiet fabric.
Proof. split; intros; apply keeps_ret; typeclasses eauto. Qed.

Section claims.
Context {W : Type} `{!KernelEnv W} `{!Externals W}.

(** Taking an id out of the table again. *)
Lemma with_idtab_back net (s : kstate W) n t i :
  idtab_at s net n t -> idt_table t !! i = Some false ->
  let t' := setf idt_table (<[i := true]> (idt_table t)) t in
  with_idtab net (setf net_enum_data (Some t') n) (setf idt_table (<[i := false]> (idt_table t')) t')
    (with_idtab net n t' s) = s.
Proof.
  intros [H1 H2 _ _ _] Hb t'. unfold with_idtab. destruct s, n, t. cbn in *. subst.
  rewrite insert_insert_eq, list_insert_insert_eq, list_insert_id by done.
  by rewrite insert_id.
Qed.


(** C5: the table of a network is a set of destination ids.  Allocation returns
    the least id that is not in it and adds it, and freeing that id restores the
    table; a full table gives RIO_INVALID_DESTID and stays as it is. *)
Theorem rio_destid_alloc_free net (s : kstate W) n t (Hat : idtab_at s net n t) :
  (exists i, idt_start t <= i < idt_start t + idt_max t /\
     idt_table t !! Z.to_nat (i - idt_start t) = Some false /\
     (forall j, idt_start t <= j < i -> idt_table t !! Z.to_nat (j - idt_start t) = Some true) /\
     let t' := setf idt_table (<[Z.to_nat (i - idt_start t) := true]> (idt_table t)) t in
     rio_destid_alloc net s = Done i (with_idtab net n t' s) /\
     rio_destid_free net i (with_idtab net n t' s) = Done tt s) \/
  ((forall j, idt_start t <= j < idt_start t + idt_max t ->
      idt_table t !! Z.to_nat (j - idt_start t) = Some true) /\
   rio_destid_alloc net s = Done RIO_INVALID_DESTID s).
Proof.
  pose proof (it_len _ _ _ _ Hat) as Hlen. pose proof (it_start _ _ _ _ Hat) as Hst.
  pose proof (it_max _ _ _ _ Hat) as Hmax.
  destruct (run_destid_alloc s net n t Hat) as [(i & Hi & Hb & Hleast & Hrun)|[Hfull Hrun]].
  - left. exists (idt_start t + i). replace (idt_start t + i - idt_start t) with i by lia.
    split; [lia|split; [done|split]].
    { intros j Hj. apply Hleast. lia. }
    intros t'. split; [exact Hrun|]. assert (length (idt_table t') = length (idt_table t)) as Hlen' by (cbn; apply length_insert).
    pose proof (with_idtab_at s net n t t' Hat eq_refl eq_refl Hlen') as Hat'.
    unfold rio_destid_free. run (run_get_idtab _ _ _ _ Hat').
    change (idt_start t') with (idt_start t). rewrite u16_small by lia.
    replace (idt_start t + i - idt_start t) with i by lia.
    rewrite (run_write_bit _ _ _ _ i false Hat' Hi). f_equal. by apply with_idtab_back.
  - right. split; [|exact Hrun]. intros j Hj. apply Hfull. lia.
Qed.
End claims.


Lemma rio_destid_alloc_free_witness :
  let t := mk_rio_id_table 0 3 [true; false; true] in
  let n := setf net_enum_data (Some t) zero_rio_net in
  let s := setf ks_nets {[ 7%positive := n ]} fb_state in
  exists i t', rio_destid_alloc 7%positive s = Done i (with_idtab 7%positive n t' s) /\
    rio_destid_free 7%positive i (with_idtab 7%positive n t' s) = Done tt s.
Proof.
  intros t n s. assert (idtab_at s 7%positive n t) as Hat by (split; [reflexivity..|cbn; lia|cbn; lia]).
  destruct (rio_destid_alloc_free 7%positive s n t Hat) as [(i & Hi & _ & _ & H)|[Hfull _]].
  - eexists i, _. exact H.
  - exfalso. specialize (Hfull 1 ltac:(cbn; lia)). discriminate Hfull.
Defined.
