(* ===== verification/EnumTerm.v ===== *)
(** * The recursion of enumeration ends

    Every recursive call of rio_enum_peer that goes further uses up a component
    tag, and there are 2^16 of them. *)

From S2P Require Import Prelude Regs State Access Bench Hw SwBench ExtFeat Route SwTables Mbox Em Driver Mport Scan ScanBench EnumInv EnumSpec.

Section term.
Context {W : Type} `{!KernelEnv W} `{!SwitchTables W} `{!Externals W} `{!QuietTables W} `{!EnumQuiet W}.
Implicit Types s : kstate W.

(** ** Code that gives out no component tags *)

Definition same_tag s s' : Prop := next_comptag s' = next_comptag s.
#[export] Instance same_tag_preorder : PreOrder same_tag.
Proof. split; [done|]. intros s1 s2 s3. unfold same_tag. congruence. Qed.

Lemma tag_ids net {A} (m : KM W A) : keeps (same_ids net) m -> keeps same_tag m.
Proof. intros H s a s' Hr. by destruct (H _ _ _ Hr). Qed.
Lemma tag_kernel {A} (m : KM W A) : keeps same_kernel m -> keeps same_tag m.
Proof. intros H s a s' Hr. unfold same_tag. by rewrite (H _ _ _ Hr). Qed.
Lemma tag_modify (g : kstate W -> kstate W) : (forall s, next_comptag (g s) = next_comptag s) -> keeps same_tag (modify g).
Proof. intros Hg s a s' [= _ <-]. apply Hg. Qed.
Lemma tag_upd_dev p g : keeps same_tag (@upd_dev W p g).
Proof.
  intros s a s'. unfold upd_dev, get_dev, gets, bind. destruct (ks_devs s !! p); [|done]. by intros [= _ <-].
Qed.
Lemma tag_upd_net p g : keeps same_tag (@upd_net W p g).
Proof.
  intros s a s'. unfold upd_net, get_net, gets, bind. destruct (ks_nets s !! p); [|done]. by intros [= _ <-].
Qed.
Lemma tag_fresh : keeps same_tag (@fresh_ptr W).
Proof. by intros s a s' [= _ <-]. Qed.

Context (net : ptr).
Ltac solve_tag := repeat first
  [ solve [auto 2 using tag_upd_dev, tag_upd_net, tag_fresh]
  | solve [apply (tag_ids net); solve_enum]
  | solve [by apply tag_modify]
  | keeps_step ].

Lemma tag_identity fuel port r d h : keeps same_tag (read_identity fuel port r d h).
Proof. unfold read_identity. solve_tag. Qed.
Lemma tag_alloc : keeps same_tag (rio_destid_alloc net).
Proof. unfold rio_destid_alloc, write_bit, get_idtab, set_idtab. solve_tag. Qed.
Lemma tag_setup_destid port r d h : keeps same_tag (setup_destid net port r d h true).
Proof. unfold setup_destid. pose proof tag_alloc. solve_tag. Qed.
Lemma tag_setup_kind fuel port r d h : keeps same_tag (setup_kind fuel port r d h true).
Proof. apply (tag_ids net), ids_setup_kind. Qed.
Lemma tag_cleanup r : keeps same_tag (setup_cleanup r).
Proof. apply (tag_ids net), ids_setup_cleanup. Qed.
Lemma tag_add_device r : keeps same_tag (rio_add_device r).
Proof. apply (tag_ids net), ids_add_device. Qed.

(** ** Setting up a device uses a tag *)

Lemma tag_bind {A B} (m : KM W A) (k : A -> KM W B) s (Q : B -> kstate W -> Prop) :
  keeps same_tag m -> (forall a s', next_comptag s' = next_comptag s -> partial (k a) s' Q) ->
  partial (bind m k) s Q.
Proof.
  intros Hm Hk. apply spec_bind. eapply spec_mono; [by apply (keeps_partial same_tag)|]. intros a s' H. by apply Hk.
Qed.
Lemma tag_partial {A} (m : KM W A) s : keeps same_tag m -> partial m s (fun _ s' => next_comptag s' = next_comptag s).
Proof. intros Hm. by apply (keeps_partial same_tag). Qed.

Definition tag_le s s' : Prop := next_comptag s <= next_comptag s'.
#[export] Instance tag_le_preorder : PreOrder tag_le.
Proof. split; [intros s|intros s1 s2 s3]; unfold tag_le; lia. Qed.
Lemma tag_le_same {A} (m : KM W A) : keeps same_tag m -> keeps tag_le m.
Proof. intros H s a s' Hr. unfold tag_le. apply H in Hr. unfold same_tag in Hr. lia. Qed.

Lemma comptag_counts port r d h s :
  partial (setup_comptag port r d h true) s (fun ok s' =>
    if ok : bool then next_comptag s < 0x10000 /\ next_comptag s' = next_comptag s + 1
    else next_comptag s' = next_comptag s).
Proof.
  unfold setup_comptag. apply spec_bind, spec_gets. destruct (Z.leb_spec 0x10000 (next_comptag s)); [by apply spec_ret|].
  apply tag_bind; [solve_tag|]. intros rc s1 H1. apply spec_bind, spec_modify.
  apply tag_bind; [solve_tag|]. intros _ s2 H2. apply spec_ret. split; [done|exact H2].
Qed.

Lemma setup_rest_tags fuel port r d h s : 
  partial (setup_destid net port r d h true ;;;
    done_ <- setup_kind fuel port r d h true ;;
    if negb done_ then setup_cleanup r
    else
      upd_dev r (setf rd_dma_mask 0xffffffff) ;;;
      d <- get_dev r ;;
      when (truthy (Z.land (rd_dst_ops d) RIO_DST_OPS_DOORBELL))
        (upd_dev r (setf rd_riores
           (<[RIO_DOORBELL_RESOURCE := rio_init_dbell_res 0 0xffff]> (rd_riores d)))) ;;;
      err <- rio_add_device r ;;
      if truthy err then setup_cleanup r else rio_dev_get (Some r)) s
    (fun _ s' => next_comptag s' = next_comptag s).
Proof.
  apply tag_partial. pose proof tag_setup_destid. pose proof tag_setup_kind. pose proof tag_cleanup.
  pose proof tag_add_device. solve_tag.
Qed.

Lemma cleanup_none r s :
  partial (setup_cleanup r) s (fun o s' => o = None /\ next_comptag s' = next_comptag s).
Proof.
  pose proof (tag_partial _ s (tag_cleanup r)) as H. unfold setup_cleanup, spec, bind in *.
  destruct (get_dev r s) as [d s1| |]; [|done..]. destruct (when _ _ s1) as [? s2| |]; [|done..].
  destruct (modify _ s2) as [? s3| |]; [|done..]. by destruct (kfree s3).
Qed.

Lemma setup_device_tags fuel port d h s :
  partial (rio_setup_device fuel net port d h true) s (fun r s' =>
    match r with
    | Some _ => next_comptag s < 0x10000 /\ next_comptag s' = next_comptag s + 1
    | None => next_comptag s <= next_comptag s'
    end).
Proof.
  unfold rio_setup_device. apply tag_bind; [solve_tag|]. intros v s1 H1.
  apply tag_bind; [solve_tag|]. intros [rc pef] s2 H2. destruct (truthy rc); [apply spec_ret; lia|].
  apply tag_bind; [solve_tag|]. intros [x swp] s3 H3. apply tag_bind; [solve_tag|]. intros ok s4 H4.
  destruct ok; [|apply spec_ret; lia]. apply tag_bind; [solve_tag|]. intros r s5 H5.
  apply tag_bind; [solve_tag|]. intros _ s6 H6. apply tag_bind; [apply tag_identity|]. intros _ s7 H7.
  apply spec_bind. eapply spec_mono; [apply comptag_counts|]. intros [] s8 H8; cbn [negb].
  - eapply spec_mono; [apply setup_rest_tags|]. cbv beta. intros [] s9 H9; lia.
  - eapply spec_mono; [apply cleanup_none|]. cbv beta. intros o s9 [-> H9]. lia.
Qed.

(** ** Tags are never given back *)

Ltac solve_tags := repeat first
  [ keeps_step
  | solve [eauto 2]
  | solve [apply tag_le_same; solve_tag] ].

Lemma tags_enum_port ep fuel port rdev hop inport n :
  (forall h p k, keeps tag_le (ep h p k)) -> keeps tag_le (enum_port ep fuel net port rdev hop inport n).
Proof.
  intros Hep. pose proof (tag_le_same _ (tag_ids net _ (ids_update_routes net port rdev n 0))).
  assert (forall c, keeps tag_le (update_routes net port rdev n c)).
  { intros c. apply tag_le_same, (tag_ids net), ids_update_routes. }
  unfold enum_port. solve_tags.
Qed.
Lemma tags_enum_switch ep fuel port rdev hop :
  (forall h p k, keeps tag_le (ep h p k)) -> keeps tag_le (enum_switch ep fuel net port rdev hop).
Proof.
  intros Hep. assert (forall c b, keeps tag_le (route_known_step net port rdev c true b)).
  { intros c b. apply tag_le_same, (tag_ids net), ids_route_known. }
  pose proof (fun inport n => tags_enum_port ep fuel port rdev hop inport n Hep).
  pose proof (tag_le_same _ tag_alloc). unfold enum_switch. solve_tags.
Qed.
Lemma tags_setup_device fuel port d h : keeps tag_le (rio_setup_device fuel net port d h true).
Proof.
  intros s a s' Hr. pose proof (setup_device_tags fuel port d h s) as H. unfold spec in H. rewrite Hr in H.
  unfold tag_le. destruct a; lia.
Qed.
Lemma tags_enum_peer lfuel fuel depth port hop prev n :
  keeps tag_le (rio_enum_peer lfuel fuel depth net port hop prev n).
Proof.
  revert hop prev n. induction depth as [|depth IH]; intros hop prev n; cbn [rio_enum_peer]; [done|].
  pose proof (tag_le_same _ (tag_ids net _ (ids_enum_known net port hop prev n))).
  pose proof (tags_setup_device fuel port).
  pose proof (fun p => tags_enum_switch _ fuel port p hop IH). solve_tags.
Qed.

(** ** Runs that agree from a number of tags on *)

Definition agree (n : Z) {A} (m1 m2 : KM W A) : Prop := forall s, n <= next_comptag s -> m1 s = m2 s.

Lemma agree_refl n {A} (m : KM W A) : agree n m m.
Proof. done. Qed.
Lemma agree_bind n {A B} (m1 m2 : KM W A) (k1 k2 : A -> KM W B) :
  agree n m1 m2 -> keeps tag_le m1 -> (forall a, agree n (k1 a) (k2 a)) -> agree n (bind m1 k1) (bind m2 k2).
Proof.
  intros Hm Hk H s Hs. unfold bind. rewrite <- Hm by done. destruct (m1 s) as [a s1| |] eqn:E; [|done..].
  apply H. apply Hk in E. unfold tag_le in E. lia.
Qed.
Lemma agree_for_exit n {A R} (l : list A) (b1 b2 : A -> KM W (option R)) :
  (forall i, agree n (b1 i) (b2 i)) -> (forall i, keeps tag_le (b1 i)) ->
  agree n (for_exit l b1) (for_exit l b2).
Proof.
  intros Hb Hk. induction l as [|i l IH]; cbn [for_exit]; [done|]. apply agree_bind; [done..|].
  intros [x|]; [done|exact IH].
Qed.

Ltac agree_step :=
  match goal with
  | |- agree _ ?m ?m => apply agree_refl
  | |- agree _ (bind _ _) (bind _ _) => apply agree_bind; [|solve_tags|intros ?]
  | |- agree _ (match ?x with _ => _ end) _ => destruct x
  end.

Section congruence.
Context (n : Z) (ep1 ep2 : Z -> option ptr -> Z -> KM W Z)
  (Hk : forall h p k, keeps tag_le (ep1 h p k)) (Hep : forall h p k, agree n (ep1 h p k) (ep2 h p k)).

Lemma agree_enum_port fuel port rdev hop inport i :
  agree n (enum_port ep1 fuel net port rdev hop inport i) (enum_port ep2 fuel net port rdev hop inport i).
Proof. unfold enum_port. repeat agree_step. apply Hep. Qed.
Lemma agree_enum_switch fuel port rdev hop :
  agree n (enum_switch ep1 fuel net port rdev hop) (enum_switch ep2 fuel net port rdev hop).
Proof.
  assert (forall c b, keeps tag_le (route_known_step net port rdev c true b)).
  { intros c b. apply tag_le_same, (tag_ids net), ids_route_known. }
  pose proof (fun inport i => tags_enum_port ep1 fuel port rdev hop inport i Hk).
  pose proof (fun inport i => agree_enum_port fuel port rdev hop inport i).
  unfold enum_switch. repeat agree_step. by apply agree_for_exit.
Qed.
End congruence.

Lemma agree_setup n {B} fuel port d h (k1 k2 : option ptr -> KM W B) :
  agree n (k1 None) (k2 None) ->
  (forall r, n < 0x10000 -> agree (n + 1) (k1 (Some r)) (k2 (Some r))) ->
  agree n (bind (rio_setup_device fuel net port d h true) k1) (bind (rio_setup_device fuel net port d h true) k2).
Proof.
  intros H1 H2 s Hs. pose proof (setup_device_tags fuel port d h s) as H. unfold spec, bind in *.
  destruct (rio_setup_device fuel net port d h true s) as [[r|] s1| |]; [|apply H1; lia|done..].
  apply H2; lia.
Qed.

(** The bound on the depth that remains after a device has been set up. *)
Lemma agree_enum_peer lfuel fuel port n : forall d1 d2 hop prev k,
  0x10000 < n + Z.of_nat d1 -> 0x10000 < n + Z.of_nat d2 -> (0 < d1)%nat -> (0 < d2)%nat ->
  agree n (rio_enum_peer lfuel fuel d1 net port hop prev k) (rio_enum_peer lfuel fuel d2 net port hop prev k).
Proof.
  intros d1. revert n. induction d1 as [|d1 IH]; intros n [|d2] hop prev k H1 H2 H3 H4; try lia.
  pose proof (tag_le_same _ (tag_ids net _ (ids_enum_known net port hop prev k))).
  cbn [rio_enum_peer].
  repeat lazymatch goal with
    | |- agree _ (bind (rio_setup_device _ _ _ _ _ _) _) _ => fail
    | _ => agree_step end.
  apply agree_setup; [apply agree_refl|]. intros r Hn.
  repeat agree_step. apply agree_enum_switch.
  - intros h p j. apply tags_enum_peer.
  - intros h p j. apply IH; lia.
Qed.

End term.

(** C14: the recursion of enumeration is bounded.  A call goes down only after it
    has set up a device, which uses one of the 2^16 component tags, so that a
    depth above the number of free tags makes no difference, however the fabric
    is wired and whatever its devices answer. *)
Theorem rio_enum_peer_bounded {W : Type} `{!KernelEnv W} `{!Externals W} `{!EnumQuiet W}
    (owner : switch_ops_ptr -> ptr) (net : ptr) lfuel fuel port d1 d2 hop prev n (s : kstate W)
    (H1 : 0x10000 < next_comptag s + Z.of_nat d1) (H2 : 0x10000 < next_comptag s + Z.of_nat d2)
    (H3 : (0 < d1)%nat) (H4 : (0 < d2)%nat) :
  let enum_peer := @rio_enum_peer W _ (switch_tables owner) _ lfuel fuel in
  enum_peer d1 net port hop prev n s = enum_peer d2 net port hop prev n s.
Proof. by apply (agree_enum_peer (SwitchTables0 := switch_tables owner) net lfuel fuel port (next_comptag s)). Qed.

(** The fabric of the bench: what depth 4 finds is what any greater depth finds. *)
Lemma rio_enum_peer_bounded_witness :
  let s := setf next_comptag 0xfffd fb_state in
  rio_enum_peer 3 3 4 10 1 0 None 0 s = rio_enum_peer 3 3 1000 10 1 0 None 0 s.
Proof. intros s. apply (rio_enum_peer_bounded (fun _ => 13%positive) 10); [reflexivity|reflexivity|lia|lia]. Defined.
