(* ===== verification/EnumRoutes.v ===== *)
(** * The saved routing tables at the end of enumeration

    Devices that were found after a switch have no route in it.  [rio_update_route_tables]
    sends them towards the host, which knows the way. *)

From S2P Require Import Prelude Regs State Access Bench Hw ExtFeat Route IdtCps IdtGen2 Tsi568 Tsi57x IdtGen3 SwTables Mbox Em Driver Mport Scan ScanBench EnumInv.

(** ** Code that does not look at devices *)

Section blind.
Context {W : Type} `{!KernelEnv W}.
Implicit Types s : kstate W.

Definition put_devs (D : gmap ptr rio_dev) s : kstate W := setf ks_devs D s.
Definition moved {A} (D : gmap ptr rio_dev) (o : outcome (kstate W) A) : outcome (kstate W) A :=
  match o with Done a s => Done a (put_devs D s) | UB => UB | NoFuel => NoFuel end.

(** The run is the same whatever the devices are. *)
Definition blind {A} (m : KM W A) : Prop := forall D s, m (put_devs D s) = moved D (m s).

Lemma blind_ret {A} (a : A) : blind (ret a).
Proof. done. Qed.
Lemma blind_bind {A B} (m : KM W A) (k : A -> KM W B) : blind m -> (forall a, blind (k a)) -> blind (bind m k).
Proof. intros Hm Hk D s. unfold bind. rewrite Hm. destruct (m s); cbn; [apply Hk|done..]. Qed.
Lemma blind_when b (m : KM W unit) : blind m -> blind (when b m).
Proof. intros H. destruct b; [done|apply blind_ret]. Qed.
Lemma blind_for {A} (l : list A) (body : A -> KM W unit) : (forall a, blind (body a)) -> blind (for_ l body).
Proof. intros H. induction l; cbn [for_]; [apply blind_ret|]. by apply blind_bind. Qed.
Lemma blind_hw_call {A} (g : W -> A * W) : blind (hw_call g).
Proof. intros D s. unfold hw_call, put_devs. cbn. by destruct (g (ks_hw s)). Qed.
Lemma blind_hw_do (g : W -> W) : blind (hw_do g).
Proof. done. Qed.
Lemma blind_uninit : blind uninit.
Proof. done. Qed.
Lemma blind_get_mport p : blind (get_mport p).
Proof. intros D s. unfold get_mport, bind, gets, put_devs. cbn. by destruct (ks_mports s !! p). Qed.
End blind.

Create HintDb blind discriminated.
#[export] Hint Resolve blind_ret blind_hw_call blind_hw_do blind_uninit blind_get_mport : blind.

Ltac blind_step :=
  match goal with
  | |- blind (bind _ _) => apply blind_bind; [|intros]
  | |- blind (when _ _) => apply blind_when
  | |- blind (for_ _ _) => apply blind_for; intros
  | |- blind (match ?x with _ => _ end) => destruct x
  | |- blind ?m => let f := head m in unfold f
  end.
Ltac solve_blind := repeat first [solve [auto 2 with blind] | blind_step].

(** ** Adding a route always returns *)

(** The operations of a driver on a port that is there; they know the switch by its address only. *)
Class TotalTables (W : Type) `{!KernelEnv W} `{!SwitchTables W} := {
  total_add : forall p op, so_add_entry (switch_ops p) = Some op ->
    forall (s : kstate W) m mp d h t i n, ks_mports s !! m = Some mp ->
    fine False False (same_kernel s) any (op m d h t i n);
  blind_add : forall p op, so_add_entry (switch_ops p) = Some op -> forall m d h t i n, blind (op m d h t i n);
}.

Section total.
Context {W : Type} `{!KernelEnv W}.

Ltac fine_unfold := match goal with |- fine _ _ _ _ ?m => let f := head m in unfold f end.
Ltac solve_total Hm := repeat first
  [ solve [eauto 3 with fine] | eapply fine_any; solve [eauto 3 with fine]
  | eapply fine_any; solve [eapply quiet_mport_read; exact Hm | eapply quiet_mport_write; exact Hm]
  | fine_step | progress fine_unfold ].

Lemma total_std_add (s : kstate W) m mp d h t i n : ks_mports s !! m = Some mp ->
  fine False False (same_kernel s) any (rio_std_route_add_entry m d h t i n).
Proof. intros Hm. solve_total Hm. Qed.

Lemma blind_std_add m d h t i n : blind (@rio_std_route_add_entry W _ m d h t i n).
Proof. solve_blind. Qed.

#[export] Instance switch_tables_total (owner : switch_ops_ptr -> ptr) :
  @TotalTables W _ (switch_tables owner).
Proof.
  split; [intros p op H; destruct p; unfold switch_ops, switch_tables in H; cbn in H;
    try discriminate H; injection H as <-; intros s m mp d h t i n Hm; solve_total Hm|].
  intros p op H; destruct p; unfold switch_ops, switch_tables in H; cbn in H;
    try discriminate H; injection H as <-; intros m d h t i n; solve_blind.
Qed.
End total.

(** ** The tables as a function of the network *)

(** The port of a switch that leads to the host. *)
Definition back_port (d : rio_dev) : Z := RIO_GET_PORT_NUM (rd_swpinfo d).

(** A table in which the empty entries that [f] selects lead to the host, but not
    the one of the switch itself. *)
Definition filled (f : Z -> bool) (d : rio_dev) (tbl : list Z) : list Z :=
  imap (fun i v =>
    if (v =? RIO_INVALID_ROUTE) && negb (Z.of_nat i =? rd_destid d) && f (Z.of_nat i)
    then back_port d else v) tbl.

Definition fill_dev (f : Z -> bool) (d : rio_dev) : rio_dev :=
  match rd_rswitch d with
  | Some sw =>
      match rs_route_table sw with
      | Some tbl => setf rd_rswitch (Some (setf rs_route_table (Some (filled f d tbl)) sw)) d
      | None => d
      end
  | None => d
  end.

Definition fill_devs {W} (F : ptr -> Z -> bool) (s : kstate W) : kstate W :=
  setf ks_devs (map_imap (fun p d => Some (fill_dev (F p) d)) (ks_devs s)) s.

(** The ids of the devices in the list of a network. *)
Definition has_id {W} (s : kstate W) (l : list ptr) (i : Z) : bool :=
  existsb (fun r => match ks_devs s !! r with Some d => rd_destid d =? i | None => false end) l.

Section fill.
Implicit Types (d : rio_dev) (f g : Z -> bool).

Lemma filled_ext f g d tbl : (forall i, f i = g i) -> filled f d tbl = filled g d tbl.
Proof. intros H. apply imap_ext. intros i v _. by rewrite H. Qed.
Lemma filled_none d tbl : filled (fun _ => false) d tbl = tbl.
Proof.
  apply list_eq. intros i. unfold filled. rewrite list_lookup_imap.
  destruct (tbl !! i); [|done]. cbn. by rewrite andb_false_r.
Qed.
Lemma filled_length f d tbl : length (filled f d tbl) = length tbl.
Proof. apply length_imap. Qed.

(** Selecting one more entry. *)
Definition select (f : Z -> bool) (i : Z) (j : Z) : bool := (j =? i) || f j.

Lemma filled_select_used f d tbl i v : filled f d tbl !! Z.to_nat i = Some v -> 0 <= i ->
  v <> RIO_INVALID_ROUTE \/ i = rd_destid d -> filled (select f i) d tbl = filled f d tbl.
Proof.
  intros Hv Hi Hor. apply list_eq. intros j. unfold filled in *. rewrite list_lookup_imap in *.
  rewrite list_lookup_imap. destruct (tbl !! j) as [x|] eqn:Hx; [|done]. cbn. unfold select.
  destruct (Z.eqb_spec (Z.of_nat j) i) as [<-|]; [|done]. rewrite Nat2Z.id, Hx in Hv. cbn in Hv.
  destruct (Z.eqb_spec x RIO_INVALID_ROUTE); [|done].
  destruct (Z.eqb_spec (Z.of_nat j) (rd_destid d)); [done|]. cbn in *.
  destruct (f (Z.of_nat j)); [done|]. injection Hv as <-. by destruct Hor.
Qed.
Lemma filled_select_empty f d tbl i : filled f d tbl !! Z.to_nat i = Some RIO_INVALID_ROUTE -> 0 <= i ->
  i <> rd_destid d -> <[Z.to_nat i := u8 (back_port d)]> (filled f d tbl) = filled (select f i) d tbl.
Proof.
  intros Hv Hi Hne. rewrite (u8_small (back_port d)) by apply RIO_GET_PORT_NUM_range. apply list_eq. intros j.
  destruct (decide (Z.to_nat i = j)) as [<-|Hj].
  - rewrite list_lookup_insert_eq by (by eapply lookup_lt_Some).
    unfold filled in *. rewrite list_lookup_imap in *. destruct (tbl !! Z.to_nat i) as [x|] eqn:Hx; [|done].
    cbn in *. unfold select. rewrite Z2Nat.id in * by done. rewrite Z.eqb_refl.
    destruct (Z.eqb_spec i (rd_destid d)); [done|]. destruct (Z.eqb_spec x RIO_INVALID_ROUTE); cbn in *; [done|].
    injection Hv as ->. done.
  - rewrite list_lookup_insert_ne by done. unfold filled. rewrite !list_lookup_imap.
    destruct (tbl !! j); [|done]. cbn. unfold select. by rewrite (proj2 (Z.eqb_neq (Z.of_nat j) i)) by lia.
Qed.

Lemma fill_dev_ext f g d : (forall i, f i = g i) -> fill_dev f d = fill_dev g d.
Proof. intros H. unfold fill_dev. destruct (rd_rswitch d) as [sw|]; [|done].
  destruct (rs_route_table sw); [|done]. by rewrite (filled_ext f g). Qed.
Lemma fill_dev_none d : fill_dev (fun _ => false) d = d.
Proof.
  unfold fill_dev. destruct d as [? ? ? ? ? ? ? ? ? ? ? ? ? ? ? ? ? ? ? ? ? ? ? ? ? ? [[[]]|]]; [|done..].
  cbn. by rewrite filled_none.
Qed.
Lemma fill_dev_same f d : rd_destid (fill_dev f d) = rd_destid d /\ rd_swpinfo (fill_dev f d) = rd_swpinfo d /\
  rd_hopcount (fill_dev f d) = rd_hopcount d /\ rd_net (fill_dev f d) = rd_net d /\ rio_is_switch (fill_dev f d) = rio_is_switch d.
Proof. unfold fill_dev. destruct d as [? ? ? ? ? ? ? ? ? ? ? ? ? ? ? ? ? ? ? ? ? ? ? ? ? ? [[[]]|]]; done. Qed.
End fill.

Section fill_state.
Context {W : Type}.
Implicit Types (s : kstate W) (F G : ptr -> Z -> bool).

Lemma fill_devs_lookup F s p : ks_devs (fill_devs F s) !! p = fill_dev (F p) <$> ks_devs s !! p.
Proof. cbn. rewrite map_lookup_imap. by destruct (ks_devs s !! p). Qed.
Lemma fill_devs_ext F G s : (forall p i, F p i = G p i) -> fill_devs F s = fill_devs G s.
Proof.
  intros H. unfold fill_devs. f_equal. apply map_imap_ext. intros p.
  destruct (ks_devs s !! p) as [d|]; [|done]. cbn. do 2 f_equal. by apply fill_dev_ext.
Qed.
Lemma fill_devs_none s : fill_devs (fun _ _ => false) s = s.
Proof.
  destruct s. unfold fill_devs. cbn. f_equal. apply map_eq. intros p. rewrite map_lookup_imap.
  destruct (_ !! p); [|done]. cbn. by rewrite fill_dev_none.
Qed.
(** Changing one device. *)
Definition select_at F (p : ptr) (i : Z) (q : ptr) : Z -> bool := if decide (q = p) then select (F q) i else F q.

Lemma fill_devs_insert F s p d i w : ks_devs s !! p = Some d ->
  with_dev p (fill_dev (select (F p) i) d) (with_hw w (fill_devs F s)) = with_hw w (fill_devs (select_at F p i) s).
Proof.
  intros Hp. unfold with_dev, with_hw, fill_devs, setf. cbn. f_equal. apply map_eq. intros q.
  rewrite map_lookup_imap. unfold select_at. destruct (decide (q = p)) as [->|Hq].
  - rewrite lookup_insert_eq, Hp. done.
  - rewrite lookup_insert_ne by done. by rewrite map_lookup_imap.
Qed.
Lemma fill_devs_same F s p d i : ks_devs s !! p = Some d ->
  fill_dev (select (F p) i) d = fill_dev (F p) d -> fill_devs (select_at F p i) s = fill_devs F s.
Proof.
  intros Hp Hd. unfold fill_devs. f_equal. apply map_imap_ext. intros q. unfold select_at.
  destruct (decide (q = p)) as [->|]; [|done]. rewrite Hp. cbn. by rewrite Hd.
Qed.
End fill_state.

(** ** Updating the tables *)

Section update.
Context {W : Type} `{!KernelEnv W} `{!SwitchTables W} `{!TotalTables W}.
Implicit Types s : kstate W.

(** The port through which a device is reached is there. *)
Definition has_hport s (d : rio_dev) : Prop :=
  exists nn net h mp, rd_net d = Some nn /\ ks_nets s !! nn = Some net /\ net_hport net = Some h /\
    ks_mports s !! h = Some mp.

Lemma add_entry_total s p d sw t i v : ks_devs s !! p = Some d -> rd_rswitch d = Some sw -> has_hport s d ->
  total (rio_route_add_entry p t i v false) s (fun _ s' => same_kernel s s').
Proof.
  intros Hp Hsw (nn & net & h & mp & H1 & H2 & H3 & H4).
  apply (spec_mono _ _ _ _ (fun (_ : Z) s' => any tt /\ same_kernel s s')); [|by intros ? ? []].
  assert (fine False False (same_kernel s) any (rio_route_add_entry p t i v false)) as H; [|by apply H].
  unfold rio_route_add_entry, with_device_lock, call_switch_op. cbn [andb when].
  pose proof (quiet_get_dev False False s p d Hp). pose proof (quiet_get_rswitch False False s p d sw Hp Hsw).
  pose proof (quiet_dev_hport False False s d nn net h H1 H2 H3).
  eapply fine_bind; [eassumption|intros _ <-]. eapply fine_bind; [eassumption|intros _ <-].
  eapply fine_bind; [by apply (fine_ret _ _ _ any)|intros rc _]. eapply (fine_bind _ _ _ any); [|by intros; solve_fine].
  eapply fine_bind; [eassumption|intros _ <-]. eapply fine_bind; [eassumption|intros _ <-].
  destruct (rs_ops sw) as [q|]; [|by eapply total_std_add].
  destruct (so_add_entry (switch_ops q)) as [op|] eqn:Hop; [|by eapply total_std_add].
  eapply fine_bind; [apply quiet_try_module_get|intros [] _]; [|by apply fine_ret].
  eapply fine_bind; [by eapply total_add|intros a _]. eapply fine_bind; [apply quiet_module_put|intros _ _].
  by apply fine_ret.
Qed.

(** The saved tables play no part in it. *)
Lemma add_entry_blind s D p d sw tbl t i v : ks_devs s !! p = Some d -> rd_rswitch d = Some sw -> has_hport s d ->
  D !! p = Some (setf rd_rswitch (Some (setf rs_route_table tbl sw)) d) ->
  rio_route_add_entry p t i v false (put_devs D s) = moved D (rio_route_add_entry p t i v false s).
Proof.
  intros Hp Hsw (nn & net & h & mp & H1 & H2 & H3 & H4) HD. unfold rio_route_add_entry, with_device_lock.
  set (d' := setf rd_rswitch (Some (setf rs_route_table tbl sw)) d) in HD.
  assert (forall A (k : rio_switch -> KM W A), (forall x, k (setf rs_route_table tbl x) = k x) ->
    bind (get_rswitch p) k (put_devs D s) = k sw (put_devs D s) /\ (bind (get_rswitch p) k s = k sw s)) as Hsws.
  { intros A k Hk. erewrite !bind_Done by first [eapply run_get_rswitch; [exact HD|reflexivity]|by eapply run_get_rswitch].
    by rewrite Hk. }
  edestruct Hsws as [-> ->]; [by intros []|].
  run (run_get_dev (put_devs D s) p d' HD). run (run_get_dev s p d Hp). cbn [andb when]. rewrite !bind_ret.
  rewrite !bind_assoc. run (run_get_dev (put_devs D s) p d' HD). run (run_get_dev s p d Hp). rewrite !bind_assoc.
  run (run_dev_hport (put_devs D s) d' nn net h H1 H2 H3). run (run_dev_hport s d nn net h H1 H2 H3).
  match goal with |- ?m _ = moved _ (?m' _) => change m with m'; enough (blind m') as Hb by apply Hb end.
  apply blind_bind; [|intros; apply blind_bind; [apply blind_ret|intros; apply blind_ret]].
  unfold call_switch_op. destruct (rs_ops sw) as [q|]; [|apply blind_std_add].
  destruct (so_add_entry (switch_ops q)) as [op|] eqn:Hop; [|apply blind_std_add].
  apply blind_bind; [apply blind_hw_call|intros []]; [|apply blind_ret].
  apply blind_bind; [by eapply blind_add|intros]. apply blind_bind; [apply blind_hw_do|intros; apply blind_ret].
Qed.

(** A network whose tables can be updated: its devices are there, its switches
    have a table with an entry for the id of every device. *)
Record routable s (n : rio_net) : Prop := {
  ra_dev : forall r, r ∈ net_devices n -> exists d, ks_devs s !! r = Some d /\ 0 <= rd_destid d;
  ra_switch : forall p, p ∈ net_switches n -> exists d sw tbl, ks_devs s !! p = Some d /\
    rd_rswitch d = Some sw /\ rs_route_table sw = Some tbl /\ has_hport s d /\
    forall r e, r ∈ net_devices n -> ks_devs s !! r = Some e -> rd_destid e < Z.of_nat (length tbl);
}.

(** *** The requests to the hardware *)

(** A route that is missing: an empty entry of [p] for the id [i], which is not its own. *)
Definition lacking s (F : ptr -> Z -> bool) (p : ptr) (i : Z) : bool :=
  match ks_devs s !! p with
  | Some d =>
      match rd_rswitch d ≫= rs_route_table with
      | Some tbl => bool_decide (filled (F p) d tbl !! Z.to_nat i = Some RIO_INVALID_ROUTE) && negb (rd_destid d =? i)
      | None => false
      end
  | None => false
  end.
Definition port_to_host s (p : ptr) : Z := match ks_devs s !! p with Some d => back_port d | None => 0 end.

(** The entries that the pairs [l] have filled. *)
Definition after (l : list (ptr * Z)) (p : ptr) (i : Z) : bool := bool_decide ((p, i) ∈ l).

(** A switch [p] is asked for a route to [i] through the port [v]: one for every pair whose entry
    is missing when it is the pair's turn. *)
Fixpoint route_requests s (done l : list (ptr * Z)) : list (ptr * Z * Z) :=
  match l with
  | [] => []
  | (p, i) :: l' => (if lacking s (after done) p i then [(p, i, port_to_host s p)] else []) ++
      route_requests s (done ++ [(p, i)]) l'
  end.
Definition request (q : ptr * Z * Z) : KM W unit :=
  rio_route_add_entry q.1.1 RIO_GLOBAL_TABLE q.1.2 q.2 false ;;; ret tt.

Definition id_of s (r : ptr) : Z := match ks_devs s !! r with Some d => rd_destid d | None => 0 end.
(** Every switch for every device, in the order of the lists. *)
Definition route_pairs s (rs ps : list ptr) : list (ptr * Z) := flat_map (fun r => map (fun p => (p, id_of s r)) ps) rs.

Lemma route_requests_snoc s l p i : forall done, route_requests s done (l ++ [(p, i)]) =
  route_requests s done l ++ (if lacking s (after (done ++ l)) p i then [(p, i, port_to_host s p)] else []).
Proof.
  induction l as [|[q j] l IH]; intros done; cbn [app route_requests]; [by rewrite app_nil_r, app_nil_r|].
  by rewrite IH, <- !app_assoc.
Qed.
Lemma lacking_ext s F G p i : (forall p i, F p i = G p i) -> lacking s F p i = lacking s G p i.
Proof.
  intros H. unfold lacking. destruct (ks_devs s !! p) as [d|]; [|done]. destruct (_ ≫= _) as [tbl|]; [|done].
  by rewrite (filled_ext (F p) (G p)).
Qed.
Lemma after_snoc l p i q j : after (l ++ [(p, i)]) q j = select_at (after l) p i q j.
Proof.
  unfold after, select_at, select. destruct (decide (q = p)) as [->|Hq].
  - destruct (Z.eqb_spec j i) as [->|Hj]; cbn; [apply bool_decide_true|apply bool_decide_ext];
      rewrite elem_of_app, list_elem_of_singleton; [by right|]. split; [intros [?|[=]]; done|by left].
  - apply bool_decide_ext. rewrite elem_of_app, list_elem_of_singleton. split; [intros [?|[=]]; done|by left].
Qed.

(** The pairs [l] are done: their requests went to the hardware, in order, and the tables are filled. *)
Definition routed s (l : list (ptr * Z)) s' : Prop :=
  exists w, for_ (route_requests s [] l) request s = Done tt (with_hw w s) /\ s' = with_hw w (fill_devs (after l) s).

Lemma routed_dev l s s' p e : routed s l s' -> ks_devs s !! p = Some e -> ks_devs s' !! p = Some (fill_dev (after l p) e).
Proof.
  intros (w & _ & ->) Hp. change (ks_devs (fill_devs (after l) s) !! p = Some (fill_dev (after l p) e)).
  by rewrite fill_devs_lookup, Hp.
Qed.
(** A pair without a request. *)
Lemma routed_skip s l p i d s1 : routed s l s1 -> ks_devs s !! p = Some d -> lacking s (after l) p i = false ->
  fill_dev (select (after l p) i) d = fill_dev (after l p) d -> routed s (l ++ [(p, i)]) s1.
Proof.
  intros (w & Hw & ->) Hd Hl Hf. exists w. rewrite route_requests_snoc, app_nil_l, Hl, app_nil_r. split; [done|].
  f_equal. rewrite (fill_devs_ext _ _ _ (after_snoc l p i)). symmetry. by eapply fill_devs_same.
Qed.

Lemma run_set_route s p d sw tbl i v : ks_devs s !! p = Some d -> rd_rswitch d = Some sw ->
  rs_route_table sw = Some tbl -> 0 <= i < Z.of_nat (length tbl) ->
  set_route p i v s
  = Done tt (with_dev p (setf rd_rswitch (Some (setf rs_route_table (Some (<[Z.to_nat i := u8 v]> tbl)) sw)) d) s).
Proof.
  intros Hp Hsw Ht Hi. unfold set_route, upd_rswitch. pose proof (run_get_rswitch s p d sw Hp Hsw) as Hrun.
  run Hrun. rewrite Ht. cbn [deref]. rewrite bind_ret. run (run_array_set s tbl i (u8 v) Hi). run Hrun.
  by rewrite (upd_dev_with _ _ _ _ Hp).
Qed.

(** A pair with a request: the switch is asked, then the entry is filled. *)
Lemma routed_request s s1 n p i l d sw tbl : routable s n -> p ∈ net_switches n -> routed s l s1 ->
  ks_devs s !! p = Some d -> rd_rswitch d = Some sw -> rs_route_table sw = Some tbl ->
  filled (after l p) d tbl !! Z.to_nat i = Some RIO_INVALID_ROUTE -> 0 <= i -> i <> rd_destid d ->
  total (rio_route_add_entry p RIO_GLOBAL_TABLE i (back_port d) false ;;; set_route p i (back_port d)) s1
    (fun _ => routed s (l ++ [(p, i)])).
Proof.
  intros [_ Hswitch] Hp (w & Hw & ->) Hd Hsw Ht Hv Hi Hne.
  destruct (Hswitch p Hp) as (d0 & sw0 & tbl0 & Hd0 & _ & _ & Hport & _). assert (d0 = d) as -> by congruence.
  set (D := ks_devs (fill_devs (after l) s)). change (with_hw w (fill_devs (after l) s)) with (put_devs D (with_hw w s)).
  set (sw1 := setf rs_route_table (Some (filled (after l p) d tbl)) sw).
  assert (D !! p = Some (setf rd_rswitch (Some sw1) d)) as HD.
  { unfold D. rewrite fill_devs_lookup, Hd. cbn [fmap option_fmap option_map]. unfold fill_dev. by rewrite Hsw, Ht. }
  destruct (proj1 (total_Done _ _ _) (add_entry_total (with_hw w s) p d sw RIO_GLOBAL_TABLE i (back_port d) Hd Hsw Hport))
    as (rc & s2 & Hrun & Hk). unfold same_kernel in Hk. generalize dependent (ks_hw s2). intros w2 ->.
  change (with_hw w2 (with_hw w s)) with (with_hw w2 s) in Hrun.
  pose proof (add_entry_blind (with_hw w s) D p d sw _ RIO_GLOBAL_TABLE i (back_port d) Hd Hsw Hport HD) as Hblind.
  rewrite Hrun in Hblind. srun Hblind.
  eapply spec_Done; [apply (run_set_route (put_devs D (with_hw w2 s)) p (setf rd_rswitch (Some sw1) d) sw1 (filled (after l p) d tbl));
    [exact HD|done..|split; [done|]]|].
  { apply lookup_lt_Some in Hv. lia. }
  exists w2. rewrite route_requests_snoc, app_nil_l. unfold lacking, port_to_host. rewrite Hd, Hsw. cbn [mbind option_bind].
  rewrite Ht, bool_decide_true, (proj2 (Z.eqb_neq (rd_destid d) i)) by congruence. cbn [andb negb]. split.
  - rewrite for_app. run Hw. cbn [for_]. unfold request. cbn [fst snd]. rewrite bind_assoc. by run Hrun.
  - rewrite (fill_devs_ext _ _ _ (after_snoc l p i)), <- (fill_devs_insert (after l) s p d i w2 Hd).
    change (put_devs D (with_hw w2 s)) with (with_hw w2 (fill_devs (after l) s)).
    unfold fill_dev. rewrite Hsw, Ht. by rewrite <- (filled_select_empty (after l p) d tbl i) by congruence.
Qed.

Lemma update_route_routes s s1 n r p e l : routable s n -> r ∈ net_devices n -> p ∈ net_switches n ->
  ks_devs s !! r = Some e -> routed s l s1 ->
  total (update_route r p (rd_destid e)) s1 (fun _ => routed s (l ++ [(p, rd_destid e)])).
Proof.
  intros Hok Hr Hp He Hs1. destruct (ra_switch _ _ Hok p Hp) as (d & sw & tbl & Hd & Hsw & Ht & _ & Hlen).
  specialize (Hlen r e Hr He). destruct (ra_dev _ _ Hok r Hr) as (e0 & He0 & Hid). assert (e0 = e) as -> by congruence.
  set (i := rd_destid e) in *. pose proof (fun q x => routed_dev l s s1 q x Hs1) as Hlk.
  set (sw1 := setf rs_route_table (Some (filled (after l p) d tbl)) sw).
  assert (is_Some (filled (after l p) d tbl !! Z.to_nat i)) as [v Hv].
  { apply lookup_lt_is_Some. rewrite filled_length. lia. }
  assert (v <> RIO_INVALID_ROUTE \/ i = rd_destid d -> routed s (l ++ [(p, i)]) s1) as Hskip.
  { intros Hor. apply (routed_skip s l p i d s1 Hs1 Hd).
    - unfold lacking. rewrite Hd, Hsw. cbn [mbind option_bind]. rewrite Ht, Hv. destruct Hor as [Hne| ->].
      + by rewrite bool_decide_false by congruence.
      + rewrite Z.eqb_refl. apply andb_false_r.
    - unfold fill_dev. rewrite Hsw, Ht. by erewrite filled_select_used. }
  assert (ks_devs s1 !! p = Some (setf rd_rswitch (Some sw1) d)) as Hp1.
  { rewrite (Hlk p d Hd). unfold fill_dev. by rewrite Hsw, Ht. }
  unfold update_route. srun (run_get_dev s1 r _ (Hlk r e He)).
  destruct (rio_is_switch _ && bool_decide (r = p)) eqn:Hself.
  { apply andb_prop in Hself as [_ ->%bool_decide_eq_true]. apply spec_ret. apply Hskip. right. subst i. congruence. }
  srun (run_get_rswitch s1 p _ sw1 Hp1 eq_refl).
  apply spec_bind, spec_deref; [|done]. intros _ [= <-].
  srun (run_array_get s1 (filled (after l p) d tbl) i v Hid Hv).
  apply spec_when; [intros Hinv|intros Hinv; apply Hskip; left; by apply Z.eqb_neq].
  apply Z.eqb_eq in Hinv as ->.
  srun (run_get_dev s1 p _ Hp1). cbn [rd_destid rd_swpinfo setf updf].
  destruct (Z.eqb_spec (rd_destid d) i) as [Heq|Hne]; [apply spec_ret, Hskip; by right|].
  change (RIO_GET_PORT_NUM _) with (back_port d). eapply (routed_request s s1 n p i l d sw tbl); done.
Qed.

(** All switches for one device, and all devices. *)
Lemma device_routes s s1 n r e l0 : routable s n -> r ∈ net_devices n -> ks_devs s !! r = Some e -> routed s l0 s1 ->
  total (for_ (net_switches n) (fun p => update_route r p (rd_destid e))) s1
    (fun _ => routed s (l0 ++ map (fun p => (p, rd_destid e)) (net_switches n))).
Proof.
  intros Hok Hr He Hs1.
  apply (spec_for _ _ (fun l s2 => exists l1, net_switches n = l1 ++ l /\ routed s (l0 ++ map (fun p => (p, rd_destid e)) l1) s2)).
  - exists []. by rewrite app_nil_r.
  - intros p l s2 (l1 & Hl & Hs2). eapply spec_mono; [apply (update_route_routes s s2 n r p e (l0 ++ map (fun p => (p, rd_destid e)) l1) Hok Hr); [by rewrite Hl; apply elem_of_app; right; apply list_elem_of_here|done..]|].
    cbv beta. intros _ s3 Hs3. exists (l1 ++ [p]). split; [by rewrite <- app_assoc|]. by rewrite map_app, app_assoc.
  - intros s2 (l1 & Hl & Hs2). by rewrite app_nil_r in Hl; subst l1.
Qed.

Lemma update_tables_route net s n : ks_nets s !! net = Some n -> routable s n ->
  total (rio_update_route_tables net) s (fun _ => routed s (route_pairs s (net_devices n) (net_switches n))).
Proof.
  intros Hn Hok. unfold rio_update_route_tables. srun (run_get_net s net n Hn).
  apply (spec_for _ _ (fun l s2 => exists l0, net_devices n = l0 ++ l /\ routed s (route_pairs s l0 (net_switches n)) s2)).
  - exists []. split; [done|]. exists (ks_hw s). cbn. split; [by destruct s|].
    rewrite (fill_devs_ext _ (fun _ _ => false)), fill_devs_none; [by destruct s|done].
  - intros r l s2 (l0 & Hl & Hs2). assert (r ∈ net_devices n) as Hr by (rewrite Hl; set_solver).
    destruct (ra_dev _ _ Hok r Hr) as (e & He & _). srun (run_get_dev s2 r _ (routed_dev _ _ _ _ _ Hs2 He)).
    assert (ks_nets s2 !! net = Some n) as Hn2 by (by destruct Hs2 as (w & _ & ->)). srun (run_get_net s2 net n Hn2).
    rewrite (proj1 (fill_dev_same _ e)). eapply spec_mono; [by apply (device_routes s s2 n r e (route_pairs s l0 (net_switches n)) Hok Hr He)|].
    cbv beta. intros _ s3 Hs3. exists (l0 ++ [r]). split; [by rewrite <- app_assoc|].
    unfold route_pairs. rewrite flat_map_app. cbn [flat_map]. rewrite app_nil_r. unfold id_of at 2. by rewrite He.
  - intros s2 (l0 & Hl & Hs2). by rewrite app_nil_r in Hl; subst l0.
Qed.

(** The pairs are those of the switches with the ids of the devices. *)
Lemma after_pairs s n p i : routable s n -> after (route_pairs s (net_devices n) (net_switches n)) p i =
  bool_decide (p ∈ net_switches n) && has_id s (net_devices n) i.
Proof.
  intros Hok. apply eq_bool_prop_intro. unfold after. rewrite andb_True, !bool_decide_spec, list_elem_of_In. unfold route_pairs, has_id.
  rewrite Is_true_true, existsb_exists, in_flat_map. split.
  - intros (r & Hr & Hin). apply in_map_iff in Hin as (q & [= -> <-] & Hq). rewrite list_elem_of_In. split; [done|].
    exists r. split; [done|]. destruct (ra_dev _ _ Hok r) as (e & He & _); [by apply list_elem_of_In|].
    unfold id_of. rewrite He. apply Z.eqb_refl.
  - rewrite list_elem_of_In. intros [Hq (r & Hr & Hi)]. exists r. split; [done|]. apply in_map_iff. exists p. split; [|done].
    unfold id_of. destruct (ks_devs s !! r); [|done]. by apply Z.eqb_eq in Hi as ->.
Qed.
End update.

(** C6: on a network whose tables have an entry for every device id, [rio_update_route_tables]
    always returns.  It takes every switch for every device in order.  When the entry of the
    switch for the device's id has no route then, and the id is not the switch's own, the switch
    is asked through [rio_route_add_entry] for a route to the id through its port towards the
    host, and these requests are all that the hardware sees; the saved entry is set to the
    same port.  No other entry and nothing else changes.  So a switch has no route to a device
    with another id than its own only when its port towards the host is 255. *)
Theorem rio_update_route_tables_correct {W} `{!KernelEnv W} (owner : switch_ops_ptr -> ptr) net (s : kstate W) n :
  ks_nets s !! net = Some n -> routable s n ->
  let pairs := route_pairs s (net_devices n) (net_switches n) in
  match @rio_update_route_tables W _ (switch_tables owner) net s with
  | Done _ s' =>
      (exists w, for_ (route_requests s [] pairs) (@request W _ (switch_tables owner)) s = Done tt (with_hw w s) /\
         s' = with_hw w (fill_devs (fun p i => bool_decide (p ∈ net_switches n) && has_id s (net_devices n) i) s)) /\
      forall r p e d, r ∈ net_devices n -> p ∈ net_switches n ->
        ks_devs s !! r = Some e -> ks_devs s !! p = Some d -> rd_destid e <> rd_destid d ->
        exists d' sw tbl v, ks_devs s' !! p = Some d' /\ rd_rswitch d' = Some sw /\ rs_route_table sw = Some tbl /\
          tbl !! Z.to_nat (rd_destid e) = Some v /\ (v = RIO_INVALID_ROUTE -> back_port d = 0xff)
  | _ => False
  end.
Proof.
  intros Hn Hok pairs. pose proof (@update_tables_route _ _ (switch_tables owner) _ net s n Hn Hok) as H. unfold spec in H.
  destruct (@rio_update_route_tables W _ (switch_tables owner) net s) as [a s'| |]; [|exact H..].
  pose proof (fun p i => after_pairs s n p i Hok) as Hext. split.
  { destruct H as (w & Hw & ->). exists w. split; [exact Hw|]. f_equal. by apply fill_devs_ext. }
  intros r p e d Hr Hp He Hd Hne.
  destruct (ra_dev _ _ Hok r Hr) as (e0 & He0 & Hid).
  destruct (ra_switch _ _ Hok p Hp) as (d0 & sw & tbl & Hd0 & Hsw & Ht & _ & Hlen).
  specialize (Hlen r e Hr He). assert (e0 = e) as -> by congruence. assert (d0 = d) as -> by congruence.
  destruct (lookup_lt_is_Some_2 tbl (Z.to_nat (rd_destid e))) as [v Hv]; [lia|].
  pose proof (routed_dev _ _ _ _ _ H Hd) as Hd'. unfold fill_dev in Hd'. rewrite Hsw, Ht in Hd'.
  do 4 eexists. split; [exact Hd'|split; [done|split; [done|]]]. unfold filled. rewrite list_lookup_imap, Hv.
  cbn [fmap option_fmap option_map]. split; [done|]. rewrite Z2Nat.id by done.
  rewrite Hext, bool_decide_true, (proj2 (Z.eqb_neq (rd_destid e) _)) by done.
  assert (has_id s (net_devices n) (rd_destid e) = true) as ->.
  { apply existsb_exists. exists r. rewrite He, Z.eqb_refl. split; [by apply list_elem_of_In|done]. }
  by destruct (Z.eqb_spec v RIO_INVALID_ROUTE).
Qed.

(** ** An end point with id 2 that the switch with id 5 does not know *)

Definition rt_switch : rio_dev :=
  setf rd_net (Some 10%positive) (setf rd_destid 5 (setf rd_hopcount 0 (setf rd_pef RIO_PEF_SWITCH (setf rd_swpinfo 0x400
    (zero_rio_dev (Some (mk_rio_switch (Some [0xff; 3; 0xff; 0xff; 0xff; 0xff]) 0 None []))))))).
Definition rt_end : rio_dev := setf rd_net (Some 10%positive) (setf rd_destid 2 (zero_rio_dev None)).
Definition rt_net : rio_net :=
  setf net_devices [11%positive; 12%positive] (setf net_switches [12%positive]
    (setf net_hport (Some 1%positive) zero_rio_net)).
Definition rt_state : kstate fabric :=
  setf ks_devs {[ 11%positive := rt_end; 12%positive := rt_switch ]} (setf ks_nets {[ 10%positive := rt_net ]} fb_state).

Lemma rio_update_route_tables_correct_witness :
  routable rt_state rt_net /\
  match rio_update_route_tables 10%positive rt_state with
  | Done _ s' =>
      ((ks_devs s' !! 12%positive) ≫= rd_rswitch) ≫= rs_route_table = Some [0xff; 3; 0; 0xff; 0xff; 0xff] /\
      fb_lut (ks_hw s') !! 2 = Some 0 /\
      exists w, for_ [(12%positive, 2, 0)] request rt_state = Done tt (with_hw w rt_state) /\
        s' = with_hw w (fill_devs (fun p i =>
         bool_decide (p ∈ net_switches rt_net) && has_id rt_state (net_devices rt_net) i) rt_state)
  | _ => False
  end.
Proof.
  assert (routable rt_state rt_net) as Hok.
  { split.
    - intros r Hr. cbn in Hr. repeat (apply elem_of_cons in Hr as [->|Hr]); [..|by apply not_elem_of_nil in Hr].
      + exists rt_end. split; [reflexivity|cbn; lia].
      + exists rt_switch. split; [reflexivity|cbn; lia].
    - intros p Hp. cbn in Hp. apply list_elem_of_singleton in Hp as ->.
      do 3 eexists. split; [reflexivity|split; [reflexivity|split; [reflexivity|split]]].
      + do 4 eexists. split; [reflexivity|split; [reflexivity|split; reflexivity]].
      + intros r e Hr He. cbn in Hr. repeat (apply elem_of_cons in Hr as [->|Hr]); [..|by apply not_elem_of_nil in Hr];
          vm_compute in He; injection He as <-; cbn; lia. }
  split; [exact Hok|].
  pose proof (rio_update_route_tables_correct (fun _ => 13%positive) 10%positive rt_state rt_net eq_refl Hok) as H.
  assert (match rio_update_route_tables 10%positive rt_state with
    | Done _ s' => ((ks_devs s' !! 12%positive) ≫= rd_rswitch) ≫= rs_route_table = Some [0xff; 3; 0; 0xff; 0xff; 0xff] /\
        fb_lut (ks_hw s') !! 2 = Some 0
    | _ => False end) as Hv by (vm_compute; split; reflexivity).
  assert (route_requests rt_state [] (route_pairs rt_state (net_devices rt_net) (net_switches rt_net)) = [(12%positive, 2, 0)])
    as Hq by (vm_compute; reflexivity).
  change (@rio_update_route_tables fabric _ (switch_tables (fun _ => 13%positive)) 10%positive rt_state)
    with (rio_update_route_tables 10%positive rt_state) in H.
  destruct (rio_update_route_tables 10%positive rt_state) as [a s'| |]; [|exact Hv..].
  destruct H as [H _]. rewrite Hq in H. split; [exact (proj1 Hv)|split; [exact (proj2 Hv)|exact H]].
Defined.
