(* ===== verification/Msg.v ===== *)
(** * Message buffers

    What the drivers that use the messaging mailboxes share: message buffers in
    kernel memory, the byte order of packet fields, the inline wrappers of
    rio_drv.h for the mailbox queues, and completions. *)

From S2P Require Import Prelude Regs State.

(** The core's state with the contents of the allocated message buffers, byte by
    byte.  A buffer that is not there has been freed or never was allocated, so
    that using or freeing it is undefined. *)
Record mstate (W : Type) := mk_mstate { ms_k : kstate W; ms_bufs : gmap ptr (list Z) }.
Arguments mk_mstate {W}. Arguments ms_k {W}. Arguments ms_bufs {W}.
#[export] Instance eta_mstate W : Eta (mstate W) := fun s => mk_mstate (ms_k s) (ms_bufs s).

Abbreviation MM W := (M (mstate W)).

(** A driver's state that contains the core's. *)
Class MsgState (W S : Type) := {
  msg_of : S -> mstate W;
  set_msg : mstate W -> S -> S;
}.
#[export] Instance msg_state_self W : MsgState W (mstate W) := {| msg_of s := s; set_msg s _ := s |}.

(** Code of the core and of the buffers, run on a driver's state. *)
Definition lift {W S A} `{!MsgState W S} (m : MM W A) : M S A := fun s =>
  match m (msg_of s) with Done a k => Done a (set_msg k s) | UB => UB | NoFuel => NoFuel end.
Definition lift_k {W A} (m : KM W A) : MM W A := fun s =>
  match m (ms_k s) with Done a k => Done a (setf ms_k k s) | UB => UB | NoFuel => NoFuel end.
Definition core {W S A} `{!MsgState W S} (m : KM W A) : M S A := lift (lift_k m).

(** ** Arrays in any state *)

Definition slot_get {S A} (a : list A) (i : Z) : M S A :=
  if 0 <=? i then deref (a !! Z.to_nat i) else ub.
Definition slot_set {S A} (a : list A) (i : Z) (v : A) : M S (list A) :=
  if (0 <=? i) && (i <? Z.of_nat (length a)) then ret (<[Z.to_nat i := v]> a) else ub.

(** Access within the array. *)
Lemma run_slot_get {S A} (s : S) (a : list A) i v :
  0 <= i -> a !! Z.to_nat i = Some v -> slot_get a i s = Done v s.
Proof. intros Hi H. unfold slot_get. destruct (Z.leb_spec 0 i); [|lia]. by rewrite H. Qed.
Lemma run_slot_set {S A} (s : S) (a : list A) i v :
  0 <= i < Z.of_nat (length a) -> slot_set a i v s = Done (<[Z.to_nat i := v]> a) s.
Proof.
  intros Hi. unfold slot_set. destruct (Z.leb_spec 0 i), (Z.ltb_spec i (Z.of_nat (length a))); [done|lia..].
Qed.

Definition RIO_MAX_MSG_SIZE : Z := 0x1000.

(** ** Pieces of a byte string *)

Definition get_bytes (off n : nat) (b : list Z) : list Z := take n (drop off b).
Definition put_bytes (off : nat) (bytes b : list Z) : list Z :=
  take off b ++ bytes ++ drop (off + length bytes) b.

Lemma put_bytes_length off bytes b :
  (off + length bytes <= length b)%nat -> length (put_bytes off bytes b) = length b.
Proof. intros H. unfold put_bytes. rewrite !length_app, length_take, length_drop. lia. Qed.

(** What was put is got back, and other places are as they were. *)
Lemma get_put_same off bytes b :
  (off + length bytes <= length b)%nat -> get_bytes off (length bytes) (put_bytes off bytes b) = bytes.
Proof.
  intros H. unfold get_bytes, put_bytes. rewrite drop_app_length' by (rewrite length_take; lia).
  by rewrite take_app_length.
Qed.
Lemma get_put_other off off' n bytes b :
  (off' + n <= off \/ off + length bytes <= off')%nat -> (off + length bytes <= length b)%nat ->
  get_bytes off' n (put_bytes off bytes b) = get_bytes off' n b.
Proof.
  intros Hd Hb. unfold get_bytes, put_bytes. apply list_eq. intros i.
  destruct (decide (i < n)%nat) as [Hi|Hi]; [|by rewrite !lookup_take_ge by lia].
  rewrite !lookup_take_lt, !lookup_drop by lia. destruct Hd as [Hd|Hd].
  - rewrite lookup_app_l by (rewrite length_take; lia). by rewrite lookup_take_lt by lia.
  - rewrite lookup_app_r by (rewrite length_take; lia).
    rewrite lookup_app_r by (rewrite length_take; lia). rewrite length_take, lookup_drop. f_equal. lia.
Qed.

Section buffers.
Context {W : Type} `{!KernelEnv W}.

(** ** Allocation *)

(** [kzalloc] and [kmalloc] of [n] bytes, and [kfree] of a buffer. *)
Definition alloc_bytes (bytes : list Z) : MM W (option ptr) :=
  ok <- lift_k kzalloc ;;
  if ok : bool then
    p <- lift_k fresh_ptr ;;
    modify (fun s => setf ms_bufs (<[p := bytes]> (ms_bufs s)) s) ;;;
    ret (Some p)
  else ret None.
Definition kzalloc_buf (n : Z) : MM W (option ptr) := alloc_bytes (replicate (Z.to_nat n) 0).
Definition kmalloc_buf (n : Z) : MM W (option ptr) :=
  v <- lift_k uninit ;; alloc_bytes (replicate (Z.to_nat n) (u8 v)).
Definition kfree_buf (p : ptr) : MM W unit :=
  b <- gets (fun s => ms_bufs s !! p) ;;
  deref b ;;;
  modify (fun s => setf ms_bufs (delete p (ms_bufs s)) s) ;;;
  lift_k kfree.
(** [kfree] of a pointer that may be null. *)
Definition kfree_opt (p : option ptr) : MM W unit :=
  match p with Some p => kfree_buf p | None => ret tt end.

(** ** Contents *)

Definition get_buf (p : ptr) : MM W (list Z) :=
  b <- gets (fun s => ms_bufs s !! p) ;; deref b.
Definition set_buf (p : ptr) (bytes : list Z) : MM W unit :=
  modify (fun s => setf ms_bufs (<[p := bytes]> (ms_bufs s)) s).

(** Reading and writing [n] bytes at an offset: undefined outside the buffer. *)
Definition read_at (p : ptr) (off : nat) (n : nat) : MM W (list Z) :=
  b <- get_buf p ;;
  if (off + n <=? length b)%nat then ret (get_bytes off n b) else ub.
Definition write_at (p : ptr) (off : nat) (bytes : list Z) : MM W unit :=
  b <- get_buf p ;;
  if (off + length bytes <=? length b)%nat then set_buf p (put_bytes off bytes b) else ub.
End buffers.

(** ** Byte order *)

(** The bytes of an [n]-byte integer, most significant first, and back. *)
Fixpoint be_bytes (n : nat) (v : Z) : list Z :=
  match n with O => [] | S n' => be_bytes n' (v / 2 ^ 8) ++ [v mod 2 ^ 8] end.
Definition be_value (bytes : list Z) : Z := fold_left (fun v b => v * 2 ^ 8 + b) bytes 0.

(** The same, least significant first: how the host keeps its own integers. *)
Definition le_bytes (n : nat) (v : Z) : list Z := reverse (be_bytes n v).
Definition le_value (bytes : list Z) : Z := be_value (reverse bytes).

Definition is_byte (b : Z) : Prop := 0 <= b < 2 ^ 8.

Lemma be_bytes_length n v : length (be_bytes n v) = n.
Proof. revert v. induction n; intros v; [done|]. cbn. rewrite length_app, IHn. cbn. lia. Qed.
Lemma le_bytes_length n v : length (le_bytes n v) = n.
Proof. unfold le_bytes. by rewrite length_reverse, be_bytes_length. Qed.

Lemma be_bytes_bytes n v : Forall is_byte (be_bytes n v).
Proof.
  revert v. induction n as [|n IH]; intros v; [by constructor|]. apply Forall_app. split; [done|].
  apply Forall_singleton. apply Z.mod_pos_bound. lia.
Qed.

Lemma be_value_snoc l b : be_value (l ++ [b]) = be_value l * 2 ^ 8 + b.
Proof. unfold be_value. by rewrite fold_left_app. Qed.

Lemma be_value_range l : Forall is_byte l -> 0 <= be_value l < 2 ^ (8 * Z.of_nat (length l)).
Proof.
  induction l as [|b l IH] using rev_ind; intros H; [done|].
  apply Forall_app in H as [H1 H2]. rewrite Forall_singleton in H2. rewrite be_value_snoc, length_app.
  specialize (IH H1). unfold is_byte in H2. cbn [length].
  replace (8 * Z.of_nat (length l + 1)) with (8 * Z.of_nat (length l) + 8) by lia.
  rewrite Z.pow_add_r by lia. lia.
Qed.

(** Reading back what was written gives the value modulo the width. *)
Lemma be_value_bytes n v : be_value (be_bytes n v) = v mod 2 ^ (8 * Z.of_nat n).
Proof.
  revert v. induction n as [|n IH]; intros v; [by rewrite Z.mod_1_r|].
  cbn [be_bytes]. rewrite be_value_snoc, IH.
  replace (8 * Z.of_nat (S n)) with (8 + 8 * Z.of_nat n) by lia.
  rewrite Z.pow_add_r by lia. rewrite (Z.rem_mul_r v (2 ^ 8)) by lia. lia.
Qed.
Lemma be_round_trip n v : 0 <= v < 2 ^ (8 * Z.of_nat n) -> be_value (be_bytes n v) = v.
Proof. intros H. rewrite be_value_bytes. by apply Z.mod_small. Qed.
Lemma le_round_trip n v : 0 <= v < 2 ^ (8 * Z.of_nat n) -> le_value (le_bytes n v) = v.
Proof. intros H. unfold le_value, le_bytes. rewrite reverse_involutive. by apply be_round_trip. Qed.

(** ** The mailbox queues (inline functions of rio_drv.h and rio.h)

    The master port's operations take of the target device its destination id,
    and of a buffer to send its contents; a received message comes with the
    address of the buffer and what the hardware has written into it; its size is
    the second component of the result. *)

Section queues.
Context {W : Type} `{!KernelEnv W}.

Definition rio_mport_is_running (mport : ptr) : KM W bool :=
  mp <- get_mport mport ;; ret (bool_decide (mp_state mp = RIO_DEVICE_RUNNING)).

Definition rio_add_outb_message (mport rdev : ptr) (mbox : Z) (buffer : ptr) (len : Z) : MM W Z :=
  mp <- lift_k (get_mport mport) ;;
  d <- lift_k (get_dev rdev) ;;
  b <- read_at buffer 0 (Z.to_nat len) ;;
  lift_k (hw_call (op_add_outb_message (mp_ops mp) mport (rd_destid d) mbox b len)).

Definition rio_add_inb_buffer (mport : ptr) (mbox : Z) (buffer : ptr) : MM W Z :=
  mp <- lift_k (get_mport mport) ;;
  lift_k (hw_call (op_add_inb_buffer (mp_ops mp) mport mbox buffer)).

Definition rio_get_inb_message (mport : ptr) (mbox : Z) : MM W (option (ptr * Z)) :=
  mp <- lift_k (get_mport mport) ;;
  m <- lift_k (hw_call (op_get_inb_message (mp_ops mp) mport mbox)) ;;
  match m with
  | Some (p, bytes) => write_at p 0 bytes ;;; ret (Some (p, Z.of_nat (length bytes)))
  | None => ret None
  end.

(** What the hardware answers when it is given the first [len] bytes of [b]. *)
Definition hw_post (mport : ptr) (mp : rio_mport W) (d : rio_dev) (mbox : Z) (b : list Z) (len : Z)
    (m : mstate W) : Z * W :=
  op_add_outb_message (mp_ops mp) mport (rd_destid d) mbox (get_bytes 0 (Z.to_nat len) b) len
    (ks_hw (ms_k m)).

Lemma run_add_outb_message m mport mp rdev d mbox buf b len :
  ks_mports (ms_k m) !! mport = Some mp -> ks_devs (ms_k m) !! rdev = Some d ->
  ms_bufs m !! buf = Some b -> (Z.to_nat len <= length b)%nat ->
  rio_add_outb_message mport rdev mbox buf len m =
    Done (hw_post mport mp d mbox b len m).1
      (setf ms_k (with_hw (hw_post mport mp d mbox b len m).2 (ms_k m)) m).
Proof.
  intros Hm Hd Hb Hl. unfold rio_add_outb_message, hw_post.
  unfold bind at 1, lift_k at 1. rewrite (run_get_mport _ _ _ Hm). cbv beta iota.
  unfold bind at 1, lift_k at 1. cbn [ms_k setf updf]. rewrite (run_get_dev _ _ _ Hd). cbv beta iota.
  unfold bind at 1, read_at, get_buf, bind, gets. cbn [ms_bufs ms_k setf updf]. rewrite Hb. cbn [deref ret].
  destruct (Nat.leb_spec (0 + Z.to_nat len) (length b)); [|lia]. unfold ret, lift_k, hw_call.
  cbn [ms_k setf updf]. by destruct (op_add_outb_message (mp_ops mp) _ _ _ _ _ _).
Qed.
End queues.

(** ** Completions (struct completion): a count of events not yet waited for *)

Definition COMPLETE_ALL : Z := 2 ^ 32 - 1.
Definition comp_complete (c : Z) : Z := if c =? COMPLETE_ALL then c else c + 1.
(** [try_wait_for_completion]: the new count when there is an event. *)
Definition comp_try_wait (c : Z) : option Z :=
  if c =? 0 then None else if c =? COMPLETE_ALL then Some c else Some (c - 1).
