(* ===== verification/Sysfs.v ===== *)
(** * Files of devices, ports and the bus (rio-sysfs.c)

    Attributes print a field of a device into a page; the configuration space of a
    device can be read and written as a file, in accesses as wide as alignment
    allows; writing to the bus's file starts a scan.  Setting up and removing the
    files is part of Mport. *)

From Stdlib Require Import Ascii.
From stdpp Require Import pretty strings.
From S2P Require Import Prelude Regs State Access Mport Msg.

(** ** Text *)

Abbreviation text := (list ascii).

Definition digit_char (upper : bool) (n : Z) : ascii := ascii_of_nat (Z.to_nat (if n <? 10 then 48 + n else (if upper then 55 else 87) + n)).
(** ["%0wx"] or ["%0wX"]: at least [w] digits. *)
Definition hex_text (upper : bool) (w : nat) (v : Z) : text :=
  let len := Nat.max w (Z.to_nat (Z.log2 v / 4 + 1)) in
  (fun i => digit_char upper (Z.land (Z.shiftr v (4 * Z.of_nat i)) 0xf)) <$> rev (seq 0 len).
(** ["%u"] *)
Definition dec_text (v : Z) : text := String.list_ascii_of_string (pretty (Z.to_N v)).
Definition lit (s : string) : text := String.list_ascii_of_string s.
Definition newline : text := [ascii_of_nat 10].

(** What the kernel knows of a device's name, of the caller's rights, and how it reads a number. *)
Class SysfsEnv (W : Type) := {
  dev_name : ptr -> W -> text;
  capable_sys_admin : W -> bool;
  kstrtol : text -> option Z;
}.

Section sysfs.
Context {W : Type} `{!KernelEnv W} `{!SysfsEnv W}.
Variable PAGE_SIZE : Z.

(** [sprintf(str, ...)] behind what is in the page already; the text and its zero byte must fit. *)
Definition page_sprintf (page t : text) : KM W text :=
  if Z.of_nat (length page) + Z.of_nat (length t) <? PAGE_SIZE then ret (page ++ t) else ub.

(** A loop over indices that adds to the page. *)
Fixpoint print_each (l : list Z) (print : Z -> text -> KM W text) (page : text) : KM W text :=
  match l with [] => ret page | i :: l' => page <- print i page ;; print_each l' print page end.

(** ** Attributes of devices

    The value of a show function is the length of the text, that of the model is the text. *)

Definition config_attr (prefix : text) (w : nat) (field : rio_dev -> Z) (rdev : ptr) : KM W text :=
  d <- get_dev rdev ;; page_sprintf [] (prefix ++ hex_text false w (field d) ++ newline).
Definition did_show := config_attr (lit "0x") 4 rd_did.
Definition vid_show := config_attr (lit "0x") 4 rd_vid.
Definition device_rev_show := config_attr (lit "0x") 8 rd_device_rev.
Definition asm_did_show := config_attr (lit "0x") 4 rd_asm_did.
Definition asm_vid_show := config_attr (lit "0x") 4 rd_asm_vid.
Definition asm_rev_show := config_attr (lit "0x") 4 rd_asm_rev.
Definition destid_show := config_attr (lit "0x") 4 rd_destid.
Definition hopcount_show := config_attr (lit "0x") 2 rd_hopcount.

(** ["%04x %02x\n"] *)
Definition route_line (i r : Z) : text := hex_text false 4 i ++ lit " " ++ hex_text false 2 r ++ newline.
Definition route_print (rdev : ptr) (i : Z) (page : text) : KM W text :=
  sw <- get_rswitch rdev ;;
  table <- deref (rs_route_table sw) ;;
  r <- array_get table i ;;
  if r =? RIO_INVALID_ROUTE then ret page else page_sprintf page (route_line i r).
Definition routes_show (rdev : ptr) : KM W text :=
  d <- get_dev rdev ;;
  hport <- dev_hport d ;;
  mp <- get_mport hport ;;
  print_each (zrange 0 (RIO_MAX_ROUTE_ENTRIES (mp_sys_size mp))) (route_print rdev) [].

Definition rio_name (rdev : ptr) : KM W text := get_dev rdev ;;; gets (fun s => dev_name rdev (ks_hw s)).

Definition lprev_show (rdev : ptr) : KM W text :=
  d <- get_dev rdev ;;
  name <- match rd_prev d with Some prev => rio_name prev | None => ret (lit "root") end ;;
  page_sprintf [] (name ++ newline).

Definition next_print (rdev : ptr) (i : Z) (page : text) : KM W text :=
  sw <- get_rswitch rdev ;;
  next <- array_get (rs_nextdev sw) i ;;
  name <- match next with Some next => rio_name next | None => ret (lit "null") end ;;
  page_sprintf page (name ++ newline).
Definition lnext_show (rdev : ptr) : KM W text :=
  d <- get_dev rdev ;;
  if truthy (Z.land (rd_pef d) RIO_PEF_SWITCH)
  then print_each (zrange 0 (RIO_GET_TOTAL_PORTS (rd_swpinfo d))) (next_print rdev) []
  else ret [].

Definition modalias_show (rdev : ptr) : KM W text :=
  d <- get_dev rdev ;;
  page_sprintf [] (lit "rapidio:v" ++ hex_text true 4 (rd_vid d) ++ lit "d" ++ hex_text true 4 (rd_did d) ++
    lit "av" ++ hex_text true 4 (rd_asm_vid d) ++ lit "ad" ++ hex_text true 4 (rd_asm_did d) ++ newline).

(** ** The configuration space as a file *)

(** The inline wrappers for the other widths (rio_drv.h). *)
Definition rio_read_config_8 (rdev : ptr) (offset value : Z) : KM W (Z * Z) :=
  d <- get_dev rdev ;; hport <- dev_hport d ;;
  rio_mport_read_config_8 hport (rd_destid d) (rd_hopcount d) (u32 offset) value.
Definition rio_read_config_16 (rdev : ptr) (offset value : Z) : KM W (Z * Z) :=
  d <- get_dev rdev ;; hport <- dev_hport d ;;
  rio_mport_read_config_16 hport (rd_destid d) (rd_hopcount d) (u32 offset) value.
Definition rio_write_config_8 (rdev : ptr) (offset data : Z) : KM W Z :=
  d <- get_dev rdev ;; hport <- dev_hport d ;;
  rio_mport_write_config_8 hport (rd_destid d) (rd_hopcount d) (u32 offset) data.
Definition rio_write_config_16 (rdev : ptr) (offset data : Z) : KM W Z :=
  d <- get_dev rdev ;; hport <- dev_hport d ;;
  rio_mport_write_config_16 hport (rd_destid d) (rd_hopcount d) (u32 offset) data.

(** The variables: [off], [size] and the contents of [data], which starts at [init_off]. *)
Record cfg_io := mk_cfg_io { ci_off : Z; ci_size : Z; ci_data : list Z }.
#[export] Instance eta_cfg_io : Eta cfg_io := fun r => mk_cfg_io (ci_off r) (ci_size r) (ci_data r).

Definition advance (n : Z) (st : cfg_io) : cfg_io :=
  setf ci_off (ci_off st + n) (setf ci_size (u32 (ci_size st - n)) st).

Definition read_cfg_byte (dev : ptr) (init_off : Z) (st : cfg_io) : KM W cfg_io :=
  val <- uninit ;;
  let! (_, val) := rio_read_config_8 dev (ci_off st) (u8 val) ;;
  data <- slot_set (ci_data st) (ci_off st - init_off) val ;;
  ret (advance 1 (setf ci_data data st)).
Definition read_cfg_half (dev : ptr) (init_off : Z) (st : cfg_io) : KM W cfg_io :=
  val <- uninit ;;
  let! (_, val) := rio_read_config_16 dev (ci_off st) (u16 val) ;;
  let i := ci_off st - init_off in
  data <- slot_set (ci_data st) i (Z.land (Z.shiftr val 8) 0xff) ;;
  data <- slot_set data (i + 1) (Z.land val 0xff) ;;
  ret (advance 2 (setf ci_data data st)).
Definition read_cfg_word (dev : ptr) (init_off : Z) (st : cfg_io) : KM W cfg_io :=
  val <- uninit ;;
  let! (_, val) := rio_read_config_32 dev (ci_off st) val ;;
  let i := ci_off st - init_off in
  data <- slot_set (ci_data st) i (Z.land (Z.shiftr val 24) 0xff) ;;
  data <- slot_set data (i + 1) (Z.land (Z.shiftr val 16) 0xff) ;;
  data <- slot_set data (i + 2) (Z.land (Z.shiftr val 8) 0xff) ;;
  data <- slot_set data (i + 3) (Z.land val 0xff) ;;
  ret (advance 4 (setf ci_data data st)).

Definition write_cfg_byte (dev : ptr) (init_off : Z) (st : cfg_io) : KM W cfg_io :=
  b <- slot_get (ci_data st) (ci_off st - init_off) ;;
  rio_write_config_8 dev (ci_off st) b ;;;
  ret (advance 1 st).
Definition write_cfg_half (dev : ptr) (init_off : Z) (st : cfg_io) : KM W cfg_io :=
  let i := ci_off st - init_off in
  b1 <- slot_get (ci_data st) (i + 1) ;;
  b0 <- slot_get (ci_data st) i ;;
  rio_write_config_16 dev (ci_off st) (u16 (Z.lor b1 (Z.shiftl b0 8))) ;;;
  ret (advance 2 st).
Definition write_cfg_word (dev : ptr) (init_off : Z) (st : cfg_io) : KM W cfg_io :=
  let i := ci_off st - init_off in
  b3 <- slot_get (ci_data st) (i + 3) ;;
  b2 <- slot_get (ci_data st) (i + 2) ;;
  b1 <- slot_get (ci_data st) (i + 1) ;;
  b0 <- slot_get (ci_data st) i ;;
  rio_write_config_32 dev (ci_off st) (u32 (Z.lor (Z.lor (Z.lor b3 (Z.shiftl b2 8)) (Z.shiftl b1 16)) (Z.shiftl b0 24))) ;;;
  ret (advance 4 st).

(** The accesses in both directions: a byte and a half word up to alignment, words, and
    the rest.  The words are as many as the size allows. *)
Definition cfg_step (io : cfg_io -> KM W cfg_io) (st : cfg_io) : KM W (cfg_io + cfg_io) :=
  if 3 <? ci_size st then st <- io st ;; ret (inl st) else ret (inr st).
Definition cfg_run (byte half word : cfg_io -> KM W cfg_io) (st : cfg_io) : KM W cfg_io :=
  st <- (if truthy (Z.land (ci_off st) 1) && truthy (ci_size st) then byte st else ret st) ;;
  st <- (if truthy (Z.land (ci_off st) 3) && (2 <? ci_size st) then half st else ret st) ;;
  st <- loop (S (Z.to_nat (ci_size st))) (cfg_step word) st ;;
  st <- (if 2 <=? ci_size st then half st else ret st) ;;
  if 0 <? ci_size st then byte st else ret st.

(** The value and the contents of the buffer. *)
Definition rio_read_config (dev : ptr) (data : list Z) (off count : Z) : KM W (Z * list Z) :=
  get_dev dev ;;;
  admin <- gets (fun s => capable_sys_admin (ks_hw s)) ;;
  let size := if admin : bool then RIO_MAINT_SPACE_SZ else 0x100 in
  if size <=? off then ret (0, data)
  else
    let '(count, size) := (if size <? u64 (off + count) then (u32 (size - off), u32 (size - off)) else (count, u32 count)) in
    st <- cfg_run (read_cfg_byte dev off) (read_cfg_half dev off) (read_cfg_word dev off) (mk_cfg_io off size data) ;;
    ret (count, ci_data st).

Definition rio_write_config (dev : ptr) (data : list Z) (off count : Z) : KM W Z :=
  get_dev dev ;;;
  if RIO_MAINT_SPACE_SZ <=? off then ret 0
  else
    let '(count, size) := (if RIO_MAINT_SPACE_SZ <? u64 (off + count)
      then (u32 (RIO_MAINT_SPACE_SZ - off), u32 (RIO_MAINT_SPACE_SZ - off)) else (count, u32 count)) in
    cfg_run (write_cfg_byte dev off) (write_cfg_half dev off) (write_cfg_word dev off) (mk_cfg_io off size data) ;;;
    ret count.

(** ** Ports and the bus *)

(** [mport] is null if the file belongs to no port. *)
Definition port_attr (value : rio_mport W -> text) (mport : option ptr) : KM W (Z + text) :=
  match mport with
  | Some p => mp <- get_mport p ;; t <- page_sprintf [] (value mp ++ newline) ;; ret (inr t)
  | None => ret (inl (- ENODEV))
  end.
Definition port_destid_show := port_attr (fun mp => lit "0x" ++ hex_text false 4 (u32 (mp_host_deviceid mp))).
Definition sys_size_show := port_attr (fun mp => dec_text (mp_sys_size mp)).
End sysfs.

Section bus.
Context {W : Type} `{!KernelEnv W} `{!Externals W} `{!SysfsEnv W}.

Definition bus_scan_store (fuel : nat) (buf : text) (count : Z) : KM W Z :=
  match kstrtol buf with
  | None => ret (- EINVAL)
  | Some val =>
      if negb (val =? RIO_MPORT_ANY) && ((val <? 0) || (RIO_MAX_MPORTS <=? val)) then ret (- EINVAL)
      else
        rc <- (if val =? RIO_MPORT_ANY then rio_init_mports fuel else rio_mport_scan val) ;;
        ret (if rc =? 0 then s32 count else rc)
  end.
End bus.

(** ** The accesses cover the range *)

Lemma odd_land x : truthy (Z.land x 1) = negb (x mod 2 =? 0).
Proof. change 1 with (2 ^ 1 - 1). by rewrite land_mask. Qed.
Lemma word_land x : truthy (Z.land x 3) = negb (x mod 4 =? 0).
Proof. change 3 with (2 ^ 2 - 1). by rewrite land_mask. Qed.

Section cover.
Context {W : Type} (byte half word : cfg_io -> KM W cfg_io) (J : cfg_io -> kstate W -> Prop) (off0 n : Z).
Context (Hn : 0 <= n < 2 ^ 32).

(** An access of [k] aligned bytes inside the range keeps [J]. *)
Definition good_io (k : Z) (io : cfg_io -> KM W cfg_io) : Prop := forall st s, J st s ->
  off0 <= ci_off st -> (k | ci_off st) -> ci_off st + k <= off0 + n -> ci_size st = off0 + n - ci_off st ->
  total (io st) s (fun st' s' => J st' s' /\ ci_off st' = ci_off st + k /\ ci_size st' = ci_size st - k).
Context (Hbyte : good_io 1 byte) (Hhalf : good_io 2 half) (Hword : good_io 4 word).

(** What is true between the accesses. *)
Definition between (st : cfg_io) (s : kstate W) : Prop :=
  J st s /\ off0 <= ci_off st <= off0 + n /\ ci_size st = off0 + n - ci_off st.

Lemma spec_io k io st s : good_io k io -> 0 < k -> between st s -> (k | ci_off st) -> k <= ci_size st ->
  total (io st) s (fun st' s' => between st' s' /\ ci_off st' = ci_off st + k /\ ci_size st' = ci_size st - k).
Proof.
  intros Hio Hk (HJ & Ho & Hs) Hd Hle. eapply spec_mono; [apply Hio; [done|lia|done|lia|done]|].
  intros st' s' (HJ' & E1 & E2). split; [|done]. split; [done|lia].
Qed.

Lemma spec_cfg_run st s : J st s -> ci_off st = off0 -> ci_size st = n ->
  total (cfg_run byte half word st) s (fun st' s' => J st' s' /\ ci_off st' = off0 + n).
Proof.
  intros HJ Eo Es. assert (between st s) as Hst by (split; [done|lia]). unfold cfg_run. rewrite odd_land.
  (* up to a half word *)
  apply spec_bind, spec_mono with (P := fun st' s' => between st' s' /\ ((2 | ci_off st') \/ ci_size st' = 0)).
  { destruct (Z.eqb_spec (ci_off st mod 2) 0) as [E|E]; cbn [negb andb].
    - apply spec_ret. split; [done|]. left. by apply Z.mod_divide.
    - unfold truthy. destruct (Z.eqb_spec (ci_size st) 0); [apply spec_ret; auto|]. cbn [negb].
      eapply spec_mono; [eapply (spec_io 1); [done|lia|done|by exists (ci_off st); lia|lia]|].
      intros st' s' (Hb & E1 & E2). split; [done|]. left. rewrite E1. exists (ci_off st / 2 + 1).
      pose proof (Z.mod_pos_bound (ci_off st) 2). pose proof (Z.div_mod (ci_off st) 2). lia. }
  clear st s HJ Eo Es Hst. intros st s [Hst Hal]. pose proof Hst as (_ & Ho & Hs). rewrite word_land.
  (* up to a word *)
  apply spec_bind, spec_mono with (P := fun st' s' => between st' s' /\ ((4 | ci_off st') \/ ci_size st' <= 2 /\ ((2 | ci_off st') \/ ci_size st' = 0))).
  { destruct (Z.eqb_spec (ci_off st mod 4) 0) as [E|E]; cbn [negb andb].
    - apply spec_ret. split; [done|]. left. by apply Z.mod_divide.
    - destruct (Z.ltb_spec 2 (ci_size st)); [|apply spec_ret; auto]. destruct Hal as [[q Hq]|]; [|lia].
      eapply spec_mono; [eapply (spec_io 2); [done|lia|done|by exists q|lia]|].
      intros st' s' (Hb & E1 & E2). split; [done|]. left. rewrite E1, Hq in *. exists (q / 2 + 1).
      pose proof (Z.div_mod q 2). pose proof (Z.mod_pos_bound q 2). destruct (decide (q mod 2 = 0)); [|lia].
      exfalso. apply E. apply Z.mod_divide; [done|]. exists (q / 2). lia. }
  clear st s Hst Hal Ho Hs. intros st s [Hst Hal]. pose proof Hst as (_ & Ho & Hs).
  (* words *)
  apply spec_bind.
  apply (spec_loop_measure _ _ (fun st' s' => between st' s' /\ ((4 | ci_off st') \/ ci_size st' <= 2 /\ ((2 | ci_off st') \/ ci_size st' = 0)))
    (fun st' _ => Z.to_nat (ci_size st'))); [done|lia|].
  clear st s Hst Hal Ho Hs. intros st s [Hst Hal]. pose proof Hst as (_ & Ho & Hs). unfold cfg_step. destruct (Z.ltb_spec 3 (ci_size st)).
  { destruct Hal as [[q Hq]|]; [|lia]. apply spec_bind. eapply spec_mono; [eapply (spec_io 4); [done|lia|done|by exists q|lia]|].
    intros st' s' (Hb & E1 & E2). apply spec_ret. split; [|lia]. split; [done|]. left. exists (q + 1). lia. }
  apply spec_ret.
  (* the rest *)
  apply spec_bind, spec_mono with (P := fun st' s' => between st' s' /\ ci_size st' <= 1).
  { destruct (Z.leb_spec 2 (ci_size st)); [|apply spec_ret; split; [done|lia]].
    assert (2 | ci_off st). { destruct Hal as [[q ->]|[_ [|]]]; [exists (2 * q); lia|done|lia]. }
    eapply spec_mono; [eapply (spec_io 2); [done|lia|done..]|]. intros st' s' (Hb & E1 & E2). split; [done|lia]. }
  clear st s Hst Hal Ho Hs H. intros st s [Hst Hle]. pose proof Hst as (HJ & Ho & Hs). destruct (Z.ltb_spec 0 (ci_size st)).
  - eapply spec_mono; [eapply (spec_io 1); [done|lia|done|by exists (ci_off st); lia|lia]|].
    intros st' s' ((HJ' & Ho' & Hs') & E1 & E2). split; [done|lia].
  - apply spec_ret. split; [done|lia].
Qed.
End cover.

(** ** The configuration space as bytes *)

(** The hardware answers accesses of the device inside a range as a memory of bytes does,
    most significant byte first. *)
Definition access_ok (lo hi o n : Z) : Prop := (n = 1 \/ n = 2 \/ n = 4) /\ (n | o) /\ lo <= o /\ o + n <= hi.
Record byte_space {W} (mp : rio_mport W) (hport : ptr) (d : rio_dev) (lo hi : Z) (cell : W -> Z -> Z) : Prop := {
  bs_byte w a : is_byte (cell w a);
  bs_read w o n : access_ok lo hi o n ->
    op_cread (mp_ops mp) hport (mp_id mp) (rd_destid d) (rd_hopcount d) o n w = ((0, be_value (cell w <$> zrange o (o + n))), w);
  bs_write w o n v : access_ok lo hi o n -> exists r w',
    op_cwrite (mp_ops mp) hport (mp_id mp) (rd_destid d) (rd_hopcount d) o n v w = (r, w') /\
    cell w' <$> zrange o (o + n) = be_bytes (Z.to_nat n) v /\ forall a, ~ (o <= a < o + n) -> cell w' a = cell w a;
}.

(** The device with its network and port. *)
Record device_at {W} (s : kstate W) (rdev : ptr) (d : rio_dev) (hport : ptr) (mp : rio_mport W) : Prop := {
  da_dev : ks_devs s !! rdev = Some d;
  da_net : exists p n, rd_net d = Some p /\ ks_nets s !! p = Some n /\ net_hport n = Some hport;
  da_port : ks_mports s !! hport = Some mp;
}.

Lemma zrange_1 o : zrange o (o + 1) = [o].
Proof. by rewrite zrange_cons, zrange_nil by lia. Qed.
Lemma zrange_2 o : zrange o (o + 2) = [o; o + 1].
Proof. rewrite !zrange_cons, zrange_nil by lia. done. Qed.
Lemma zrange_4 o : zrange o (o + 4) = [o; o + 1; o + 2; o + 3].
Proof. rewrite !zrange_cons, zrange_nil by lia. repeat (f_equal; try lia). Qed.

Lemma zrange_length a b : a <= b -> Z.of_nat (length (zrange a b)) = b - a.
Proof. intros H. unfold zrange. rewrite zseq_length. lia. Qed.

Ltac bytes_in := repeat (apply Forall_cons_2; [done|]); apply Forall_nil_2.

Lemma zseq_lookup start step m (i : nat) : (i < m)%nat -> zseq start step m !! i = Some (start + step * Z.of_nat i).
Proof.
  revert start i. induction m as [|m IH]; intros start i Hi; [lia|]. destruct i as [|i]; cbn; [f_equal; lia|].
  rewrite IH by lia. f_equal. lia.
Qed.

(** *** Values and their bytes *)

Lemma byte_of x k : 0 <= k -> Z.land (Z.shiftr x k) 0xff = (x / 2 ^ k) mod 256.
Proof. intros Hk. change 0xff with (Z.ones 8). by rewrite Z.land_ones, Z.shiftr_div_pow2. Qed.
(** The bytes of a half word and a word, most significant first. *)
Lemma half_bytes b0 b1 : is_byte b0 -> is_byte b1 -> let v := u16 (u32 (b0 * 256 + b1)) in
  Z.land (Z.shiftr v 8) 0xff = b0 /\ Z.land v 0xff = b1.
Proof.
  unfold is_byte. intros H0 H1. cbv zeta. rewrite u32_small, u16_small by lia. rewrite <- (Z.shiftr_0_r (b0 * 256 + b1)) at 2.
  rewrite !byte_of by lia. split; Z.to_euclidean_division_equations; lia.
Qed.
Lemma word_bytes b0 b1 b2 b3 : is_byte b0 -> is_byte b1 -> is_byte b2 -> is_byte b3 ->
  let v := u32 (u32 (((b0 * 256 + b1) * 256 + b2) * 256 + b3)) in
  Z.land (Z.shiftr v 24) 0xff = b0 /\ Z.land (Z.shiftr v 16) 0xff = b1 /\ Z.land (Z.shiftr v 8) 0xff = b2 /\ Z.land v 0xff = b3.
Proof.
  unfold is_byte. intros H0 H1 H2 H3. cbv zeta. set (x := _ + b3).
  assert (0 <= x < 2 ^ 32) by (subst x; lia). rewrite !(u32_small x) by done. rewrite <- (Z.shiftr_0_r x) at 4.
  rewrite !byte_of by lia. subst x. split_and!; Z.to_euclidean_division_equations; lia.
Qed.

(** The bytes go together into one value. *)
Lemma lor_byte v b : 0 <= v -> is_byte b -> Z.lor (Z.shiftl v 8) b = v * 2 ^ 8 + b.
Proof.
  unfold is_byte. intros Hv H. symmetry. rewrite <- Z.shiftl_mul_pow2 by lia. apply Z.add_nocarry_lor.
  apply Z.bits_inj'. intros i Hi. rewrite Z.land_spec, Z.shiftl_spec, Z.bits_0 by done.
  destruct (Z.ltb_spec i 8); [by rewrite Z.testbit_neg_r by lia|].
  rewrite <- (Z.mod_small b (2 ^ 8)) by lia. by rewrite Z.mod_pow2_bits_high, andb_false_r by lia.
Qed.
Lemma join_half b0 b1 : is_byte b0 -> is_byte b1 -> Z.lor b1 (Z.shiftl b0 8) = be_value [b0; b1].
Proof. intros H0 H1. rewrite Z.lor_comm, lor_byte by (done || unfold is_byte in *; lia). done. Qed.
Lemma join_word b0 b1 b2 b3 : is_byte b0 -> is_byte b1 -> is_byte b2 -> is_byte b3 ->
  Z.lor (Z.lor (Z.lor b3 (Z.shiftl b2 8)) (Z.shiftl b1 16)) (Z.shiftl b0 24) = be_value [b0; b1; b2; b3].
Proof.
  intros H0 H1 H2 H3. change 16 with (8 + 8). change 24 with (8 + 8 + 8). rewrite <- !Z.shiftl_shiftl by lia.
  rewrite <- !Z.lor_assoc, <- !Z.shiftl_lor, (Z.lor_comm b3), (Z.lor_comm b2), (Z.lor_comm b1). unfold is_byte in *.
  rewrite (lor_byte b0 b1), (lor_byte _ b2), (lor_byte _ b3) by (unfold is_byte; lia). reflexivity.
Qed.

Lemma join_bytes bytes k : Forall is_byte bytes -> length bytes = k -> be_bytes k (be_value bytes) = bytes.
Proof.
  intros Hb' <-. induction bytes as [|b l IH] using rev_ind; [done|]. rewrite Forall_app, Forall_singleton in Hb'. destruct Hb' as [Hl Hb'].
  rewrite length_app, Nat.add_comm. cbn [length Nat.add be_bytes]. rewrite be_value_snoc. unfold is_byte in Hb'.
  replace ((be_value l * 2 ^ 8 + b) / 2 ^ 8) with (be_value l) by (apply (Z.div_unique _ _ _ b); lia).
  replace ((be_value l * 2 ^ 8 + b) mod 2 ^ 8) with b by (apply (Z.mod_unique _ _ (be_value l)); lia). by rewrite IH.
Qed.

Section bytes.
Context {W : Type} `{!KernelEnv W} `{!SysfsEnv W}.
Variables (s0 : kstate W) (rdev hport : ptr) (d : rio_dev) (mp : rio_mport W) (lo hi : Z) (cell : W -> Z -> Z).
Context (Hat : device_at s0 rdev d hport mp) (Hb : byte_space mp hport d lo hi cell) (Hlo : 0 <= lo) (Hhi : hi <= 2 ^ 32).

Lemma sysfs_get_dev w : get_dev rdev (with_hw w s0) = Done d (with_hw w s0).
Proof. unfold get_dev, bind, gets. cbn. by rewrite (da_dev _ _ _ _ _ Hat). Qed.
Lemma run_hport w : dev_hport d (with_hw w s0) = Done hport (with_hw w s0).
Proof.
  destruct (da_net _ _ _ _ _ Hat) as (p & n & E1 & E2 & E3). unfold dev_hport, get_net, bind, gets. rewrite E1. cbn.
  rewrite E2. cbn. by rewrite E3.
Qed.
Lemma run_mport w : get_mport hport (with_hw w s0) = Done mp (with_hw w s0).
Proof. unfold get_mport, bind, gets. cbn. by rewrite (da_port _ _ _ _ _ Hat). Qed.

Lemma run_op_read bad type len o v w : bad o = false -> access_ok lo hi o len ->
  (d <- get_dev rdev ;; hport <- dev_hport d ;; RIO_OP_READ bad type len hport (rd_destid d) (rd_hopcount d) (u32 o) v) (with_hw w s0) =
  Done (0, type (u32 (be_value (cell w <$> zrange o (o + len))))) (with_hw w s0).
Proof.
  intros Hbad Hacc. rewrite u32_small by (destruct Hacc as ([-> |[-> | ->]] & _ & ? & ?); lia).
  unfold bind at 1. rewrite sysfs_get_dev. unfold bind at 1. rewrite run_hport. unfold RIO_OP_READ. rewrite Hbad.
  unfold bind at 1. rewrite run_mport. unfold bind, hw_call. cbn. rewrite (bs_read _ _ _ _ _ _ Hb) by done. done.
Qed.
Lemma run_op_write bad type len o v w : bad o = false -> access_ok lo hi o len -> exists r w',
  (d <- get_dev rdev ;; hport <- dev_hport d ;; RIO_OP_WRITE bad type len hport (rd_destid d) (rd_hopcount d) (u32 o) v) (with_hw w s0) =
  Done r (with_hw w' s0) /\
  cell w' <$> zrange o (o + len) = be_bytes (Z.to_nat len) (type v) /\ forall a, ~ (o <= a < o + len) -> cell w' a = cell w a.
Proof.
  intros Hbad Hacc. rewrite u32_small by (destruct Hacc as ([-> |[-> | ->]] & _ & ? & ?); lia).
  destruct (bs_write _ _ _ _ _ _ Hb w o len (type v) Hacc) as (r & w' & E & H1 & H2). exists r, w'. split; [|done].
  unfold bind at 1. rewrite sysfs_get_dev. unfold bind at 1. rewrite run_hport. unfold RIO_OP_WRITE. rewrite Hbad.
  unfold bind at 1. rewrite run_mport. unfold hw_call. cbn. by rewrite E.
Qed.

(** *** Reading *)

Variables (off n : Z) (data : list Z).
Context (Hoff : lo <= off) (Hn : 0 <= n < 2 ^ 32) (Hend : off + n <= hi) (Hlen : off + n <= off + Z.of_nat (length data)).

(** The buffer when the cells up to [o] are read. *)
Definition read_to (w : W) (o : Z) : list Z := (cell w <$> zrange off o) ++ drop (Z.to_nat (o - off)) data.

Lemma run_store w o i s : i = o - off -> off <= o < off + n -> slot_set (read_to w o) i (cell w o) s = Done (read_to w (o + 1)) (s : kstate W).
Proof.
  intros -> Ho. pose proof (zrange_length off o ltac:(lia)) as El. rewrite run_slot_set.
  2: { unfold read_to. rewrite length_app, length_fmap, length_drop. lia. }
  f_equal. unfold read_to. replace (Z.to_nat (o - off)) with (length (cell w <$> zrange off o)) by (rewrite length_fmap; lia).
  set (m := length _). replace (Z.to_nat (o + 1 - off)) with (S m) by (unfold m; rewrite length_fmap; lia).
  assert (is_Some (data !! m)) as [x Hx] by (apply lookup_lt_is_Some; unfold m; rewrite length_fmap; lia).
  rewrite (drop_S data x m Hx). replace m with (length (cell w <$> zrange off o) + 0)%nat at 1 by (unfold m; lia).
  rewrite insert_app_r. cbn. rewrite zrange_snoc by lia. rewrite fmap_app, <- (assoc_L (++)). done.
Qed.

Definition reading (w : W) (st : cfg_io) (s : kstate W) : Prop := s = with_hw w s0 /\ ci_data st = read_to w (ci_off st).

Lemma byte_at w a : 0 <= cell w a < 256.
Proof. apply (bs_byte _ _ _ _ _ _ Hb). Qed.

Lemma half_value w o : be_value (cell w <$> zrange o (o + 2)) = cell w o * 256 + cell w (o + 1).
Proof. rewrite zrange_2. cbn. lia. Qed.
Lemma word_value w o : be_value (cell w <$> zrange o (o + 4)) =
  ((cell w o * 256 + cell w (o + 1)) * 256 + cell w (o + 2)) * 256 + cell w (o + 3).
Proof. rewrite zrange_4. cbn. lia. Qed.

Lemma access_here o k : k = 1 \/ k = 2 \/ k = 4 -> (k | o) -> off <= o -> o + k <= off + n -> access_ok lo hi o k.
Proof. intros Hk Hd H1 H2. split; [done|]. split; [done|]. lia. Qed.

Lemma good_read_byte w : good_io (reading w) off n 1 (read_cfg_byte rdev off).
Proof.
  intros st s [-> Ed] Ho Hd Hle Hs. unfold read_cfg_byte. eapply spec_run; [done|].
  srun (run_op_read RIO_8_BAD u8 1 (ci_off st) (u8 (u32 (env_indet w))) w eq_refl (access_here (ci_off st) 1 ltac:(auto) Hd Ho Hle)).
  rewrite zrange_1. cbn [fmap list_fmap be_value fold_left]. pose proof (byte_at w (ci_off st)).
  rewrite u32_small, u8_small, Ed by (cbn; lia). cbn [Z.mul Z.add]. srun (run_store w (ci_off st) (ci_off st - off) (with_hw w s0) eq_refl ltac:(lia)).
  apply spec_ret. split; [by split|]. split; [done|]. cbn. apply u32_small. lia.
Qed.
Lemma good_read_half w : good_io (reading w) off n 2 (read_cfg_half rdev off).
Proof.
  intros st s [-> Ed] Ho Hd Hle Hs. unfold read_cfg_half. eapply spec_run; [done|].
  assert (RIO_16_BAD (ci_off st) = false) as Hbad by (unfold RIO_16_BAD; rewrite odd_land; apply negb_false_iff, Z.eqb_eq, Z.mod_divide; done).
  srun (run_op_read RIO_16_BAD u16 2 (ci_off st) (u16 (u32 (env_indet w))) w Hbad (access_here (ci_off st) 2 ltac:(auto) Hd Ho Hle)).
  rewrite half_value. destruct (half_bytes (cell w (ci_off st)) (cell w (ci_off st + 1))) as [E0 E1]; [apply byte_at..|].
  rewrite E0, E1, Ed.
  srun (run_store w (ci_off st) (ci_off st - off) (with_hw w s0) eq_refl ltac:(lia)).
  srun (run_store w (ci_off st + 1) (ci_off st - off + 1) (with_hw w s0) ltac:(lia) ltac:(lia)).
  apply spec_ret. split; [|split; [done|cbn; apply u32_small; lia]]. split; [done|]. cbn. f_equal. lia.
Qed.
Lemma good_read_word w : good_io (reading w) off n 4 (read_cfg_word rdev off).
Proof.
  intros st s [-> Ed] Ho Hd Hle Hs. unfold read_cfg_word. eapply spec_run; [done|].
  assert (RIO_32_BAD (ci_off st) = false) as Hbad by (unfold RIO_32_BAD; rewrite word_land; apply negb_false_iff, Z.eqb_eq, Z.mod_divide; done).
  srun (run_op_read RIO_32_BAD u32 4 (ci_off st) (u32 (env_indet w)) w Hbad (access_here (ci_off st) 4 ltac:(auto) Hd Ho Hle)).
  rewrite word_value. set (o := ci_off st) in *.
  destruct (word_bytes (cell w o) (cell w (o + 1)) (cell w (o + 2)) (cell w (o + 3))) as (E0 & E1 & E2 & E3); [apply byte_at..|].
  rewrite E0, E1, E2, E3, Ed.
  srun (run_store w o (o - off) (with_hw w s0) eq_refl ltac:(lia)).
  srun (run_store w (o + 1) (o - off + 1) (with_hw w s0) ltac:(lia) ltac:(lia)). replace (o + 1 + 1) with (o + 2) by lia.
  srun (run_store w (o + 2) (o - off + 2) (with_hw w s0) ltac:(lia) ltac:(lia)). replace (o + 2 + 1) with (o + 3) by lia.
  srun (run_store w (o + 3) (o - off + 3) (with_hw w s0) ltac:(lia) ltac:(lia)). replace (o + 3 + 1) with (o + 4) by lia.
  apply spec_ret. split; [by split|split; [done|cbn; apply u32_small; lia]].
Qed.

(** *** Writing *)

(** The cells up to [o] are written, the others as they were. *)
Definition written_to (w w' : W) (o : Z) : Prop :=
  (forall a, off <= a < o -> Some (cell w' a) = data !! Z.to_nat (a - off)) /\ (forall a, ~ (off <= a < o) -> cell w' a = cell w a).
Definition writing (w : W) (st : cfg_io) (s : kstate W) : Prop :=
  ci_data st = data /\ exists w', s = with_hw w' s0 /\ written_to w w' (ci_off st).

Lemma written_more w w1 w2 o k bytes : off <= o -> written_to w w1 o -> cell w2 <$> zrange o (o + k) = bytes ->
  (forall a, ~ (o <= a < o + k) -> cell w2 a = cell w1 a) -> 0 <= k ->
  (forall i, 0 <= i < k -> bytes !! Z.to_nat i = data !! Z.to_nat (o + i - off)) -> written_to w w2 (o + k).
Proof.
  intros Ho [H1 H2] Hb2 H3 Hk Hbytes. split.
  - intros a Ha. destruct (decide (o <= a)) as [Hoa|]; [|rewrite H3 by lia; apply H1; lia].
    specialize (Hbytes (a - o) ltac:(lia)). rewrite <- Hb2, list_lookup_fmap in Hbytes.
    replace (o + (a - o) - off) with (a - off) in Hbytes by lia. rewrite <- Hbytes.
    assert (zrange o (o + k) !! Z.to_nat (a - o) = Some a) as ->; [|done].
    unfold zrange. rewrite zseq_lookup by lia. f_equal. lia.
  - intros a Ha. rewrite H3 by lia. apply H2. lia.
Qed.

Context (Hdata : Forall is_byte data).
Lemma data_get a : off <= a < off + n -> exists b, is_byte b /\ data !! Z.to_nat (a - off) = Some b /\
  forall i (s : kstate W), i = a - off -> slot_get data i s = Done b s.
Proof.
  intros Ha. assert (is_Some (data !! Z.to_nat (a - off))) as [b E] by (apply lookup_lt_is_Some; lia). exists b.
  split; [by eapply Forall_lookup_1 in E|]. split; [done|]. intros i s ->. apply run_slot_get; [lia|done].
Qed.

Lemma good_write_byte w : good_io (writing w) off n 1 (write_cfg_byte rdev off).
Proof.
  intros st s (Ed & w1 & -> & Hw) Ho Hd Hle Hs. unfold write_cfg_byte. rewrite Ed.
  destruct (data_get (ci_off st) ltac:(lia)) as (b & Hbb & Hb0 & Hg). srun (Hg _ (with_hw w1 s0) eq_refl).
  destruct (run_op_write RIO_8_BAD u8 1 (ci_off st) b w1 eq_refl (access_here (ci_off st) 1 ltac:(auto) Hd Ho Hle)) as (r & w2 & E & E1 & E2).
  srun E. apply spec_ret. split; [|split; [done|cbn; apply u32_small; lia]]. split; [done|]. exists w2. split; [done|].
  unfold is_byte in Hbb. rewrite u8_small in E1 by lia. eapply written_more; [exact Ho|exact Hw|exact E1|exact E2|lia|].
  intros i Hi. replace i with 0 by lia. rewrite Z.add_0_r, Hb0. change (Z.to_nat 1) with 1%nat. change (Z.to_nat 0) with 0%nat.
  cbn [be_bytes app lookup list_lookup]. by rewrite Z.mod_small.
Qed.
Lemma good_write_half w : good_io (writing w) off n 2 (write_cfg_half rdev off).
Proof.
  intros st s (Ed & w1 & -> & Hw) Ho Hd Hle Hs. unfold write_cfg_half. rewrite Ed.
  assert (RIO_16_BAD (ci_off st) = false) as Hbad by (unfold RIO_16_BAD; rewrite odd_land; apply negb_false_iff, Z.eqb_eq, Z.mod_divide; done).
  destruct (data_get (ci_off st) ltac:(lia)) as (b0 & Hb0 & E0 & G0). destruct (data_get (ci_off st + 1) ltac:(lia)) as (b1 & Hb1 & E1 & G1).
  srun (G1 (ci_off st - off + 1) (with_hw w1 s0) ltac:(lia)). srun (G0 (ci_off st - off) (with_hw w1 s0) eq_refl).
  rewrite join_half by done. assert (Forall is_byte [b0; b1]) as Hall by bytes_in.
  pose proof (be_value_range _ Hall) as Hr. cbn [length] in Hr.
  rewrite (u16_small (be_value _)) by exact Hr.
  destruct (run_op_write RIO_16_BAD u16 2 (ci_off st) (be_value [b0; b1]) w1 Hbad (access_here (ci_off st) 2 ltac:(auto) Hd Ho Hle))
    as (r & w2 & E & H1 & H2).
  srun E. apply spec_ret. split; [|split; [done|cbn; apply u32_small; lia]]. split; [done|]. exists w2. split; [done|].
  rewrite u16_small, join_bytes in H1 by (exact Hr || exact Hall || done).
  eapply written_more; [exact Ho|exact Hw|exact H1|exact H2|lia|].
  intros i Hi. destruct (decide (i = 0)) as [->|]; [by rewrite Z.add_0_r, E0|]. by replace i with 1 by lia.
Qed.
Lemma good_write_word w : good_io (writing w) off n 4 (write_cfg_word rdev off).
Proof.
  intros st s (Ed & w1 & -> & Hw) Ho Hd Hle Hs. unfold write_cfg_word. rewrite Ed. set (o := ci_off st) in *.
  assert (RIO_32_BAD o = false) as Hbad by (unfold RIO_32_BAD; rewrite word_land; apply negb_false_iff, Z.eqb_eq, Z.mod_divide; done).
  destruct (data_get o ltac:(lia)) as (b0 & Hb0 & E0 & G0). destruct (data_get (o + 1) ltac:(lia)) as (b1 & Hb1 & E1 & G1).
  destruct (data_get (o + 2) ltac:(lia)) as (b2 & Hb2 & E2 & G2). destruct (data_get (o + 3) ltac:(lia)) as (b3 & Hb3 & E3 & G3).
  srun (G3 (o - off + 3) (with_hw w1 s0) ltac:(lia)). srun (G2 (o - off + 2) (with_hw w1 s0) ltac:(lia)).
  srun (G1 (o - off + 1) (with_hw w1 s0) ltac:(lia)). srun (G0 (o - off) (with_hw w1 s0) eq_refl).
  rewrite join_word by done. assert (Forall is_byte [b0; b1; b2; b3]) as Hall by bytes_in.
  pose proof (be_value_range _ Hall) as Hr. cbn [length] in Hr.
  rewrite (u32_small (be_value _)) by exact Hr.
  destruct (run_op_write RIO_32_BAD u32 4 o (be_value [b0; b1; b2; b3]) w1 Hbad (access_here o 4 ltac:(auto) Hd Ho Hle))
    as (r & w2 & E & H1 & H2).
  srun E. apply spec_ret. split; [|split; [done|cbn; apply u32_small; lia]]. split; [done|]. exists w2. split; [done|].
  rewrite u32_small, join_bytes in H1 by (exact Hr || exact Hall || done).
  eapply written_more; [exact Ho|exact Hw|exact H1|exact H2|lia|].
  intros i Hi. fold o. destruct (decide (i = 0)) as [->|]; [by replace (o + 0 - off) with (o - off) by lia; rewrite E0|]. destruct (decide (i = 1)) as [->|]; [done|].
  destruct (decide (i = 2)) as [->|]; [done|]. by replace i with 3 by lia.
Qed.
End bytes.

(** ** The files of the configuration space *)

Section files.
Context {W : Type} `{!KernelEnv W} `{!SysfsEnv W}.

(** How much of a request of [count] bytes at [off] lies inside a space of [size] bytes. *)
Definition clipped (size off count : Z) : Z := Z.max 0 (Z.min count (size - off)).

Lemma clip_cases size off count : 0 <= size < 2 ^ 32 -> 0 <= off < size -> 0 <= count -> off + count < 2 ^ 64 ->
  (if size <? u64 (off + count) then (u32 (size - off), u32 (size - off)) else (count, u32 count)) =
    (clipped size off count, clipped size off count) /\ 0 <= clipped size off count < 2 ^ 32 /\
  off + clipped size off count <= size /\ clipped size off count <= count.
Proof.
  intros Hs Ho Hc H. unfold clipped, u64. rewrite (Z.mod_small (off + count)) by lia.
  destruct (Z.ltb_spec size (off + count)); rewrite u32_small by lia.
  - rewrite Z.min_r, Z.max_r by lia. split; [done|lia].
  - rewrite Z.min_l, Z.max_r by lia. split; [done|lia].
Qed.

Lemma rio_read_file (s : kstate W) rdev d hport mp cell data off count :
  let size := if capable_sys_admin (ks_hw s) then RIO_MAINT_SPACE_SZ else 0x100 in
  let n := clipped size off count in
  device_at s rdev d hport mp -> byte_space mp hport d off (off + n) cell ->
  0 <= off -> 0 <= count <= Z.of_nat (length data) -> off + count < 2 ^ 64 ->
  rio_read_config rdev data off count s =
    Done (n, (cell (ks_hw s) <$> zrange off (off + n)) ++ drop (Z.to_nat n) data) s.
Proof.
  intros size n Hat Hb Ho Hc H64. assert (s = with_hw (ks_hw s) s) as Es by (by destruct s).
  assert (0 <= size < 2 ^ 32 /\ size <= RIO_MAINT_SPACE_SZ) as [Hsz Hsm] by (subst size; unfold RIO_MAINT_SPACE_SZ; case_match; lia).
  assert (total (rio_read_config rdev data off count) s (fun r s' => r = (n, (cell (ks_hw s) <$> zrange off (off + n)) ++ drop (Z.to_nat n) data) /\ s' = s)) as Hr.
  2: { apply total_Done in Hr as (r & s' & E & -> & ->). done. }
  unfold rio_read_config. rewrite Es at 1. srun (sysfs_get_dev s rdev hport d mp Hat (ks_hw s)). rewrite <- Es. apply spec_bind, spec_gets.
  fold size. destruct (Z.leb_spec size off).
  { apply spec_ret. assert (n = 0) as -> by (subst n; unfold clipped; lia). rewrite Z.add_0_r, zrange_nil by lia. done. }
  destruct (clip_cases size off count Hsz ltac:(lia) ltac:(lia) H64) as (E & H1 & H2 & H3). rewrite E. fold n in H1, H2, H3 |- *.
  cbv beta iota. unfold RIO_MAINT_SPACE_SZ in Hsm. apply spec_bind. eapply spec_mono.
  - eapply (spec_cfg_run _ _ _ (reading s cell off data (ks_hw s)) off n); [lia|..|done|done].
    + eapply (good_read_byte s rdev hport d mp off (off + n)); try done; lia.
    + eapply (good_read_half s rdev hport d mp off (off + n)); try done; lia.
    + eapply (good_read_word s rdev hport d mp off (off + n)); try done; lia.
    + split; [done|]. unfold read_to. cbn. rewrite zrange_nil, Z.sub_diag by lia. done.
  - intros st s' [[-> Ed] Eo]. apply spec_ret. split; [|done]. rewrite Ed, Eo. unfold read_to. do 3 f_equal. lia.
Qed.

(** C27: Reading the configuration space as a file gives the bytes of the range, clipped to what the
    caller may see, for every offset and length: the accesses are aligned, stay inside the
    range and cover it, and the rest of the buffer is left alone. *)
Theorem rio_read_config_correct (s : kstate W) rdev d hport mp cell data off count :
  let size := if capable_sys_admin (ks_hw s) then RIO_MAINT_SPACE_SZ else 0x100 in
  let n := clipped size off count in
  device_at s rdev d hport mp -> byte_space mp hport d off (off + n) cell ->
  0 <= off -> 0 <= count <= Z.of_nat (length data) -> off + count < 2 ^ 64 ->
  rio_read_config rdev data off count s =
    Done (n, (cell (ks_hw s) <$> zrange off (off + n)) ++ drop (Z.to_nat n) data) s.
Proof. intros size n. apply rio_read_file. Qed.

(** C26: Writing the configuration space as a file stores the bytes of the range, clipped to the size
    of the space, and leaves every other byte as it was; reading the range back gives what
    was written. *)
Theorem rio_write_config_correct (s : kstate W) rdev d hport mp cell data off count :
  let n := clipped RIO_MAINT_SPACE_SZ off count in
  device_at s rdev d hport mp -> byte_space mp hport d off (off + n) cell -> Forall is_byte data ->
  0 <= off -> 0 <= count <= Z.of_nat (length data) -> off + count < 2 ^ 64 ->
  exists w, rio_write_config rdev data off count s = Done n (with_hw w s) /\
    (cell w <$> zrange off (off + n) = take (Z.to_nat n) data) /\
    (forall a, ~ (off <= a < off + n) -> cell w a = cell (ks_hw s) a) /\
    (capable_sys_admin w = true -> forall old, length old = length data ->
      rio_read_config rdev old off count (with_hw w s) = Done (n, take (Z.to_nat n) data ++ drop (Z.to_nat n) old) (with_hw w s)).
Proof.
  intros n Hat Hb Hdata Ho Hc H64. assert (s = with_hw (ks_hw s) s) as Es by (by destruct s).
  assert (total (rio_write_config rdev data off count) s (fun r s' => r = n /\ exists w, s' = with_hw w s /\
    written_to cell off data (ks_hw s) w (off + n))) as Hr.
  { unfold rio_write_config. rewrite Es at 1. srun (sysfs_get_dev s rdev hport d mp Hat (ks_hw s)). rewrite <- Es.
    destruct (Z.leb_spec RIO_MAINT_SPACE_SZ off).
    { apply spec_ret. assert (n = 0) as -> by (subst n; unfold clipped; lia). split; [done|]. exists (ks_hw s). split; [done|]. split; [lia|done]. }
    destruct (clip_cases RIO_MAINT_SPACE_SZ off count) as (E & H1 & H2 & H3); [unfold RIO_MAINT_SPACE_SZ; lia|lia..|].
    rewrite E. fold n in H1, H2, H3 |- *. cbv beta iota. unfold RIO_MAINT_SPACE_SZ in H2. apply spec_bind. eapply spec_mono.
    - eapply (spec_cfg_run _ _ _ (writing s cell off data (ks_hw s)) off n); [lia|..|done|done].
      + eapply (good_write_byte s rdev hport d mp off (off + n)); try done; lia.
      + eapply (good_write_half s rdev hport d mp off (off + n)); try done; lia.
      + eapply (good_write_word s rdev hport d mp off (off + n)); try done; lia.
      + split; [done|]. exists (ks_hw s). split; [done|]. split; [cbn; lia|done].
    - intros st s' [(_ & w & -> & Hw) Eo]. apply spec_ret. split; [done|]. exists w. by rewrite <- Eo. }
  apply total_Done in Hr as (r & s' & E & -> & w & -> & Hw1 & Hw2). exists w.
  assert (0 <= n <= count) as Hnc by (subst n; unfold clipped; lia).
  assert (cell w <$> zrange off (off + n) = take (Z.to_nat n) data) as Et.
  { apply list_eq. intros i. rewrite list_lookup_fmap. destruct (decide (i < Z.to_nat n)%nat).
    - unfold zrange. rewrite zseq_lookup, lookup_take_lt by lia. cbn. rewrite Hw1 by lia. f_equal. lia.
    - rewrite !lookup_ge_None_2; [done|rewrite length_take; lia|unfold zrange; rewrite zseq_length; lia]. }
  split; [exact E|]. split; [exact Et|]. split; [exact Hw2|]. intros Hadm old Hold.
  pose proof (rio_read_file (with_hw w s) rdev d hport mp cell old off count) as Hread. cbn [ks_hw with_hw setf updf] in Hread.
  rewrite Hadm in Hread. cbv zeta in Hread. rewrite Hread; [|by destruct Hat|done|lia|lia|lia]. fold n. by rewrite Et.
Qed.
End files.

(** ** The table of routes as text *)

Section routes.
Context {W : Type} `{!KernelEnv W} `{!SysfsEnv W}.
Variable PAGE_SIZE : Z.

(** The entries in use, with their numbers; one line each. *)
Definition used (table : list Z) (l : list Z) : list (Z * Z) :=
  omap (fun i => r ← table !! Z.to_nat i; if r =? RIO_INVALID_ROUTE then None else Some (i, r)) l.
Definition route_text (routes : list (Z * Z)) : text := concat ((fun '(i, r) => route_line i r) <$> routes).

Lemma hex_text_length up w v : 0 <= v < 2 ^ (4 * Z.of_nat w) -> (0 < w)%nat -> length (hex_text up w v) = w.
Proof.
  intros Hv Hw. unfold hex_text. rewrite length_fmap, length_rev, length_seq.
  assert (Z.log2 v / 4 + 1 <= Z.of_nat w); [|lia].
  destruct (decide (v = 0)) as [->|]; [change (Z.log2 0 / 4) with 0; lia|]. assert (Z.log2 v < 4 * Z.of_nat w) by (apply Z.log2_lt_pow2; lia).
  assert (Z.log2 v / 4 < Z.of_nat w) by (apply Z.div_lt_upper_bound; lia). lia.
Qed.
Lemma route_line_length i r : 0 <= i < 2 ^ 16 -> 0 <= r < 2 ^ 8 -> length (route_line i r) = 8%nat.
Proof. intros Hi Hr. unfold route_line. rewrite !length_app, !hex_text_length by lia. done. Qed.
Lemma route_text_length routes : (forall i r, (i, r) ∈ routes -> 0 <= i < 2 ^ 16 /\ 0 <= r < 2 ^ 8) ->
  length (route_text routes) = (8 * length routes)%nat.
Proof.
  induction routes as [|[i r] l IH]; intros H; [done|]. unfold route_text in *. cbn [fmap list_fmap concat length].
  destruct (H i r (list_elem_of_here _ _)). rewrite length_app, route_line_length, IH by (done || (intros; apply H; by apply list_elem_of_further)). lia.
Qed.

Lemma used_in table l i r : (i, r) ∈ used table l -> i ∈ l /\ table !! Z.to_nat i = Some r.
Proof.
  unfold used. rewrite list_elem_of_omap. intros (j & Hj & E). destruct (table !! Z.to_nat j) as [x|] eqn:Ex; [|done]. cbn in E.
  destruct (x =? RIO_INVALID_ROUTE); [done|]. by injection E as -> ->.
Qed.

Lemma max_routes size : RIO_MAX_ROUTE_ENTRIES size = 65536 \/ RIO_MAX_ROUTE_ENTRIES size = 256.
Proof. unfold RIO_MAX_ROUTE_ENTRIES. destruct (truthy size); auto. Qed.
Lemma used_cons table i l r : table !! Z.to_nat i = Some r ->
  used table (i :: l) = if r =? RIO_INVALID_ROUTE then used table l else (i, r) :: used table l.
Proof. intros E. unfold used. cbn [omap list_omap]. rewrite E. cbn. by destruct (r =? RIO_INVALID_ROUTE). Qed.
Lemma used_length table l : (length (used table l) <= length l)%nat.
Proof.
  induction l as [|i l IH]; [done|]. unfold used in *. cbn [omap list_omap]. case_match; cbn [length]; lia.
Qed.

Lemma print_routes (s : kstate W) rdev d sw table l page : ks_devs s !! rdev = Some d -> rd_rswitch d = Some sw ->
  rs_route_table sw = Some table -> Forall (fun r => 0 <= r < 2 ^ 8) table ->
  (forall i, i ∈ l -> 0 <= i < 2 ^ 16 /\ i < Z.of_nat (length table)) -> Z.of_nat (length page) < PAGE_SIZE ->
  print_each l (route_print PAGE_SIZE rdev) page s =
    (if Z.of_nat (length page) + 8 * Z.of_nat (length (used table l)) <? PAGE_SIZE then Done (page ++ route_text (used table l)) s else UB).
Proof.
  intros Hd Hsw Ht Hr. revert page. induction l as [|i l IH]; intros page Hl Hp; cbn [print_each].
  { change (length (used table [])) with 0%nat. destruct (Z.ltb_spec (Z.of_nat (length page) + 8 * Z.of_nat 0) PAGE_SIZE); [|lia].
    unfold route_text. cbn. by rewrite app_nil_r. }
  destruct (Hl i (list_elem_of_here _ _)) as [Hi Hi']. assert (is_Some (table !! Z.to_nat i)) as [r Er] by (apply lookup_lt_is_Some; lia).
  specialize (fun page => IH page (fun j Hj => Hl j (list_elem_of_further _ _ _ Hj))).
  assert (route_print PAGE_SIZE rdev i page s = if r =? RIO_INVALID_ROUTE then Done page s else page_sprintf PAGE_SIZE page (route_line i r) s) as E.
  { unfold route_print, get_rswitch, get_dev, array_get, bind, gets. cbn. rewrite Hd. cbn. rewrite Hsw. cbn. rewrite Ht. cbn.
    destruct (Z.leb_spec 0 i); [|lia]. rewrite Er. cbn. by destruct (r =? RIO_INVALID_ROUTE). }
  unfold bind. rewrite E, (used_cons table i l r Er). destruct (r =? RIO_INVALID_ROUTE); [rewrite IH; done|]. cbn [length].
  unfold page_sprintf. apply (Forall_lookup_1 _ _ _ _ Hr) in Er. rewrite route_line_length by lia. cbn [length].
  destruct (Z.ltb_spec (Z.of_nat (length page) + Z.of_nat 8) PAGE_SIZE); cbn [ret].
  - rewrite IH by (rewrite length_app, route_line_length; lia). rewrite length_app, route_line_length by lia.
    replace (Z.of_nat (length page + 8) + 8 * Z.of_nat (length (used table l))) with
      (Z.of_nat (length page) + 8 * Z.of_nat (S (length (used table l)))) by lia.
    destruct (_ <? _); [|done]. unfold route_text. cbn. by rewrite <- (assoc_L (++)).
  - destruct (Z.ltb_spec (Z.of_nat (length page) + 8 * Z.of_nat (S (length (used table l)))) PAGE_SIZE); [lia|done].
Qed.
End routes.

(** C28: The file of a switch's routes has one line of 8 characters for every entry of the table in
    use, in order.  It overruns the page, which is undefined, when they need as much as the
    page has, so at 512 routes of a large system; a small system never has so many. *)
Theorem routes_show_bounds {W : Type} `{!KernelEnv W} (PAGE_SIZE : Z) (s : kstate W) rdev d hport mp sw table :
  device_at s rdev d hport mp -> rd_rswitch d = Some sw -> rs_route_table sw = Some table ->
  Z.of_nat (length table) = RIO_MAX_ROUTE_ENTRIES (mp_sys_size mp) -> Forall (fun r => 0 <= r < 2 ^ 8) table -> 0 < PAGE_SIZE ->
  let routes := used table (zrange 0 (RIO_MAX_ROUTE_ENTRIES (mp_sys_size mp))) in
  routes_show PAGE_SIZE rdev s = (if 8 * Z.of_nat (length routes) <? PAGE_SIZE then Done (route_text routes) s else UB) /\
  length (route_text routes) = (8 * length routes)%nat /\
  (mp_sys_size mp = 0 -> 2048 < PAGE_SIZE -> routes_show PAGE_SIZE rdev s = Done (route_text routes) s).
Proof.
  intros Hat Hsw Ht Hlen Hr Hp routes. assert (s = with_hw (ks_hw s) s) as Es by (by destruct s).
  set (l := zrange 0 (RIO_MAX_ROUTE_ENTRIES (mp_sys_size mp))) in *.
  assert (forall i, i ∈ l -> 0 <= i < 2 ^ 16 /\ i < Z.of_nat (length table)) as Hl.
  { intros i Hi%elem_of_zrange. rewrite Hlen. destruct (max_routes (mp_sys_size mp)); lia. }
  assert (routes_show PAGE_SIZE rdev s = (if 8 * Z.of_nat (length routes) <? PAGE_SIZE then Done (route_text routes) s else UB)) as E.
  { unfold routes_show. pose proof (sysfs_get_dev s rdev hport d mp Hat (ks_hw s)) as E1. pose proof (run_hport s rdev hport d mp Hat (ks_hw s)) as E2.
    pose proof (run_mport s rdev hport d mp Hat (ks_hw s)) as E3. rewrite <- Es in E1, E2, E3.
    unfold bind. rewrite E1, E2, E3. fold l. rewrite (print_routes PAGE_SIZE s rdev d sw table) by (done || apply Hat || cbn; lia). done. }
  split; [exact E|]. split.
  - apply route_text_length. intros i r [Hi Hx]%used_in. split; [by apply Hl|]. by apply (Forall_lookup_1 _ _ _ _ Hr Hx).
  - intros Hsys Hps. rewrite E. destruct (Z.ltb_spec (8 * Z.of_nat (length routes)) PAGE_SIZE) as [|Hge]; [done|].
    assert (length routes <= length l)%nat as Hle by apply used_length. exfalso.
    assert (RIO_MAX_ROUTE_ENTRIES (mp_sys_size mp) = 256) as Emax by (by rewrite Hsys).
    pose proof (zrange_length 0 (RIO_MAX_ROUTE_ENTRIES (mp_sys_size mp)) ltac:(rewrite Emax; lia)) as Hz. fold l in Hz. lia.
Qed.

(** ** Witnesses *)

(** Hardware that is a memory of bytes. *)
Definition cfgworld : Type := Z -> Z.
Definition cfg_cell (w : cfgworld) (a : Z) : Z := w a mod 256.
#[export] Instance cfg_env : KernelEnv cfgworld := {|
  env_alloc w := (true, w); env_udelay _ w := w; env_jiffies _ := 0; env_HZ := 1000;
  env_try_module_get _ w := (true, w); env_module_put _ w := w; env_indet _ := 0xdeadbeef;
  env_request_resource root _ := (0, root); env_release_resource root _ := (0, root);
|}.
#[export] Instance cfg_sysfs : SysfsEnv cfgworld := {|
  dev_name _ _ := lit "dev"; capable_sys_admin _ := true; kstrtol _ := None;
|}.
Definition cfg_ops : rio_ops cfgworld := {|
  op_lcread _ _ _ _ w := ((0, 0), w);
  op_lcwrite _ _ _ _ _ w := (0, w);
  op_cread _ _ _ _ o n w := ((0, be_value (cfg_cell w <$> zrange o (o + n))), w);
  op_cwrite _ _ _ _ o n v w := (0, fun a => if (o <=? a) && (a <? o + n) then default 0 (be_bytes (Z.to_nat n) v !! Z.to_nat (a - o)) else w a);
  op_dsend _ _ _ _ w := (0, w);
  op_pwenable := None;
  op_open_outb_mbox := None; op_close_outb_mbox := None;
  op_open_inb_mbox := None; op_close_inb_mbox := None;
  op_map_inb := None; op_unmap_inb := None; op_query_mport := None;
  op_map_outb := None; op_unmap_outb := None;
  op_add_outb_message _ _ _ _ _ w := (0, w);
  op_add_inb_buffer _ _ _ w := (0, w);
  op_get_inb_message _ _ w := (None, w);
|}.
Definition cfg_mport : rio_mport cfgworld := {|
  mp_dbells := []; mp_pwrites := []; mp_nnode := false; mp_net := None;
  mp_riores := []; mp_inb_msg := []; mp_outb_msg := [];
  mp_host_deviceid := 7; mp_ops := cfg_ops; mp_id := 0; mp_index := 0;
  mp_sys_size := 0; mp_phys_efptr := 0x100; mp_phys_rmap := 1;
  mp_nscan := None; mp_state := RIO_DEVICE_RUNNING; mp_pwe_refcnt := 0;
|}.
(** Device 2 is a switch whose routes are port 3 for id 5 and port 1 for id 9. *)
Definition cfg_table : list Z := <[5%nat := 3]> (<[9%nat := 1]> (replicate 256 RIO_INVALID_ROUTE)).
Definition cfg_switch : rio_switch := mk_rio_switch (Some cfg_table) 0 None [].
Definition cfg_rdev : rio_dev := setf rd_net (Some 3%positive) (zero_rio_dev (Some cfg_switch)).
Definition cfg_state : kstate cfgworld := {|
  ks_hw := fun a => a; ks_allocs := 0; ks_fresh := 100%positive;
  ks_devs := {[ 2%positive := cfg_rdev ]}; ks_nets := {[ 3%positive := setf net_hport (Some 1%positive) zero_rio_net ]};
  ks_mports := {[ 1%positive := cfg_mport ]};
  rio_devices := []; rio_nets := []; rio_mports := [1%positive]; rio_scans := [];
  next_portid := 1; hdid := [1]; ids_num := 1; next_destid := 0; next_comptag := 1;
|}.

Lemma cfg_at : device_at cfg_state 2%positive cfg_rdev 1%positive cfg_mport.
Proof. split; [done| |done]. by eexists _, _. Qed.
Lemma cfg_space lo hi : byte_space cfg_mport 1%positive cfg_rdev lo hi cfg_cell.
Proof.
  split.
  - intros w a. unfold is_byte, cfg_cell. change (2 ^ 8) with 256. by apply Z.mod_pos_bound.
  - done.
  - intros w o n v Hacc. eexists _, _. split; [done|]. assert (0 <= n) by (destruct Hacc as [[-> |[-> | ->]] _]; lia). split.
    + apply list_eq. intros i. rewrite list_lookup_fmap. destruct (decide (i < Z.to_nat n)%nat).
      * unfold zrange. rewrite zseq_lookup by lia. cbn. unfold cfg_cell.
        destruct (Z.leb_spec o (o + 1 * Z.of_nat i)); [|lia]. destruct (Z.ltb_spec (o + 1 * Z.of_nat i) (o + n)); [|lia]. cbn [andb].
        replace (Z.to_nat (o + 1 * Z.of_nat i - o)) with i by lia.
        pose proof (be_bytes_bytes (Z.to_nat n) v) as Hbs.
        destruct (be_bytes (Z.to_nat n) v !! i) as [b|] eqn:E; cbn.
        -- f_equal. apply Z.mod_small. by apply (Forall_lookup_1 _ _ _ _ Hbs) in E.
        -- apply lookup_ge_None in E. rewrite be_bytes_length in E. lia.
      * rewrite !lookup_ge_None_2; [done|rewrite be_bytes_length; lia|unfold zrange; rewrite zseq_length; lia].
    + intros a Ha. unfold cfg_cell. destruct (Z.leb_spec o a); [|done]. destruct (Z.ltb_spec a (o + n)); [lia|done].
Qed.

Lemma rio_read_config_correct_witness :
  rio_read_config 2%positive (replicate 9 0) 0x101 7 cfg_state = Done (7, [1; 2; 3; 4; 5; 6; 7; 0; 0]) cfg_state.
Proof.
  exact (rio_read_config_correct cfg_state 2%positive cfg_rdev 1%positive cfg_mport cfg_cell (replicate 9 0) 0x101 7
    cfg_at (cfg_space _ _) ltac:(lia) ltac:(simpl; lia) ltac:(lia)).
Defined.
Lemma rio_write_config_correct_witness :
  exists w, rio_write_config 2%positive [11; 12; 13] 0xfffffe 3 cfg_state = Done 2 (with_hw w cfg_state) /\
    cfg_cell w 0xfffffe = 11 /\ cfg_cell w 0xffffff = 12.
Proof.
  destruct (rio_write_config_correct cfg_state 2%positive cfg_rdev 1%positive cfg_mport cfg_cell [11; 12; 13] 0xfffffe 3
    cfg_at (cfg_space _ _) ltac:(repeat (apply Forall_cons_2; [unfold is_byte; lia|]); apply Forall_nil_2) ltac:(lia) ltac:(simpl; lia) ltac:(lia))
    as (w & Hrun & Ht & _). exists w. split; [exact Hrun|]. cbn in Ht. injection Ht as H1 H2. split; [exact H1|exact H2].
Defined.
Lemma routes_show_bounds_witness :
  routes_show 4096 2%positive cfg_state = Done (route_text [(5, 3); (9, 1)]) cfg_state.
Proof.
  destruct (routes_show_bounds 4096 cfg_state 2%positive cfg_rdev 1%positive cfg_mport cfg_switch cfg_table
    cfg_at eq_refl eq_refl eq_refl ltac:(apply (Forall_impl (fun r => Z.leb 0 r && Z.ltb r 256 = true)); [|intros r Hr; lia];
      apply Forall_forall; intros r Hr; revert r Hr; apply Forall_forall; by vm_compute; repeat constructor) ltac:(lia)) as (_ & _ & H).
  exact (H eq_refl ltac:(lia)).
Defined.
