(* ===== verification/ScanTyped.v ===== *)
(** * The devices that enumeration and discovery build have the types of struct rio_dev

    Whatever the hardware answers, the fields of a device stay within the widths that
    the structure gives them, a device has the trailing struct rio_switch exactly when its
    features call it a switch, and the arrays of the switch have the sizes that the
    registers and the port's system size ask for.  The text of an attribute therefore
    has a fixed length. *)

From Stdlib Require Import Ascii.
From stdpp Require Import strings.
From S2P Require Import Prelude Regs State Access Bench ExtFeat Route SwTables Mbox Em Driver Mport Scan ScanBench EnumInv EnumSpec Sysfs.

(** ** Types *)

Definition word (w v : Z) : Prop := 0 <= v < 2 ^ w.

Record switch_typed (swpinfo : Z) (sw : rio_switch) : Prop := {
  st_nextdev : Z.of_nat (length (rs_nextdev sw)) = RIO_GET_TOTAL_PORTS swpinfo;
  st_port_ok : word 32 (rs_port_ok sw);
  st_table : forall t, rs_route_table sw = Some t ->
    (exists size, Z.of_nat (length t) = RIO_MAX_ROUTE_ENTRIES size) /\ Forall (word 8) t;
}.

Record dev_typed (d : rio_dev) : Prop := {
  dt_did : word 16 (rd_did d);
  dt_vid : word 16 (rd_vid d);
  dt_device_rev : word 32 (rd_device_rev d);
  dt_asm_did : word 16 (rd_asm_did d);
  dt_asm_vid : word 16 (rd_asm_vid d);
  dt_asm_rev : word 16 (rd_asm_rev d);
  dt_efptr : word 16 (rd_efptr d);
  dt_pef : word 32 (rd_pef d);
  dt_swpinfo : word 32 (rd_swpinfo d);
  dt_src_ops : word 32 (rd_src_ops d);
  dt_dst_ops : word 32 (rd_dst_ops d);
  dt_comp_tag : word 32 (rd_comp_tag d);
  dt_phys_efptr : word 32 (rd_phys_efptr d);
  dt_phys_rmap : word 32 (rd_phys_rmap d);
  dt_em_efptr : word 32 (rd_em_efptr d);
  dt_dma_mask : word 64 (rd_dma_mask d);
  dt_riores : length (rd_riores d) = RIO_MAX_DEV_RESOURCES;
  dt_destid : word 16 (rd_destid d);
  dt_hopcount : word 8 (rd_hopcount d);
  dt_rswitch : is_Some (rd_rswitch d) <-> rio_is_switch d = true;
  dt_switch : forall sw, rd_rswitch d = Some sw -> switch_typed (rd_swpinfo d) sw;
}.

Definition well_typed {W} (s : kstate W) : Prop :=
  0 <= next_comptag s /\ forall p d, ks_devs s !! p = Some d -> dev_typed d.

(** Changing one field to a value of its type. *)
Ltac solve_typed :=
  intros; match goal with H : dev_typed _ |- dev_typed _ => destruct H; split; cbn; done || auto end.

(** ** Words *)

Lemma word_u8 x : word 8 (u8 x).
Proof. apply u8_range. Qed.
Lemma word_u16 x : word 16 (u16 x).
Proof. apply u16_range. Qed.
Lemma word_u32 x : word 32 (u32 x).
Proof. apply u32_range. Qed.
Lemma word_land_ffff x : word 16 (Z.land x 0xffff).
Proof. rewrite land_ffff. apply u16_range. Qed.
Lemma word_mono v w v' : word v w -> v <= v' -> word v' w.
Proof.
  unfold word. intros [H1 H2] Hle. split; [done|]. pose proof (Z.pow_le_mono_r 2 v v'). lia.
Qed.
Lemma word_any_destid size : word 16 (RIO_ANY_DESTID size).
Proof. unfold word, RIO_ANY_DESTID. destruct (truthy size); lia. Qed.
Lemma word_lor w a b : 0 <= w -> word w a -> word w b -> word w (Z.lor a b).
Proof.
  intros Hw [Ha Ha'] [Hb Hb']. split; [by apply Z.lor_nonneg|].
  rewrite <- (Z.mod_small a (2 ^ w)), <- (Z.mod_small b (2 ^ w)) by done.
  rewrite <- !Z.land_ones, <- Z.land_lor_distr_l, Z.land_ones by done. apply Z.mod_pos_bound. lia.
Qed.
Lemma word_masked w a b : word w a -> 0 <= b -> word w (Z.land a b).
Proof.
  intros [Ha Ha'] Hb. unfold word. rewrite Z.land_comm. pose proof (land_nonneg_le b a Ha). lia.
Qed.
Lemma word_block_id x : word 32 (RIO_GET_BLOCK_ID x).
Proof. rewrite RIO_GET_BLOCK_ID_mod. apply (word_mono 16); [apply u16_range|lia]. Qed.
Lemma word_block_ptr x : word 32 (RIO_GET_BLOCK_PTR x).
Proof. rewrite RIO_GET_BLOCK_PTR_div. apply (word_mono 16); [apply u16_range|lia]. Qed.
Lemma word_ext_ftr x : word 32 (Z.land x RIO_EXT_FTR_PTR_MASK).
Proof. apply (word_mono 16); [apply word_land_ffff|lia]. Qed.
#[export] Hint Resolve word_u8 word_u16 word_u32 word_land_ffff word_any_destid word_block_id
  word_block_ptr word_ext_ftr : fine.

(** ** Single steps *)

Section steps.
Context {W : Type} `{!KernelEnv W}.
Implicit Types (s : kstate W) (d : rio_dev).

Abbreviation typed := (fine True True (well_typed (W := W))).

(** Only the devices and the tag counter matter. *)
Lemma typed_same s s' :
  next_comptag s' = next_comptag s -> ks_devs s' = ks_devs s -> well_typed s -> well_typed s'.
Proof. intros Ht Hd [H1 H2]. unfold well_typed. by rewrite Ht, Hd. Qed.

Lemma typed_quiet {A} (m : KM W A) : keeps same_kernel m -> typed any m.
Proof.
  intros Hm s Hs. unfold spec. destruct (m s) as [a s'| |] eqn:E; [|done..]. split; [done|].
  apply Hm in E. rewrite E. by apply (typed_same s).
Qed.
Lemma typed_modify_other (g : kstate W -> kstate W) :
  (forall s, next_comptag (g s) = next_comptag s /\ ks_devs (g s) = ks_devs s) -> typed any (modify g).
Proof. intros Hg s Hs. split; [done|]. destruct (Hg s). by apply (typed_same s). Qed.

Lemma typed_uninit : typed (word 32) uninit.
Proof. intros s Hs. split; [apply u32_range|done]. Qed.
Lemma typed_mport_read port destid hop off v :
  word 32 v -> typed (fun r => word 32 r.2) (rio_mport_read_config_32 port destid hop off v).
Proof.
  intros Hv. unfold rio_mport_read_config_32, RIO_OP_READ. destruct (RIO_32_BAD off); [by apply fine_ret|].
  eapply fine_bind; [apply typed_quiet; auto with frame|intros mp _].
  eapply fine_bind; [apply typed_quiet, keeps_hw_call|intros [res data] _].
  apply fine_ret, u32_range.
Qed.
Lemma typed_local_read port off v :
  word 32 v -> typed (fun r => word 32 r.2) (rio_local_read_config_32 port off v).
Proof.
  intros Hv. unfold rio_local_read_config_32, RIO_LOP_READ. destruct (RIO_32_BAD off); [by apply fine_ret|].
  eapply fine_bind; [apply typed_quiet; auto with frame|intros mp _].
  eapply fine_bind; [apply typed_quiet, keeps_hw_call|intros [res data] _].
  apply fine_ret, u32_range.
Qed.
Lemma typed_get_dev p : typed dev_typed (get_dev p).
Proof. intros s [Ht Hs]. apply partial_get_dev. intros d Hd. split; [by apply (Hs p)|done]. Qed.

Lemma typed_upd_dev p (g : rio_dev -> rio_dev) :
  (forall d, dev_typed d -> dev_typed (g d)) -> typed any (upd_dev p g).
Proof.
  intros Hg s [Ht Hs]. apply partial_upd_dev. intros d Hd. split; [done|split; [done|]]. intros q d' Hq.
  cbn in Hq. destruct (decide (q = p)) as [->|Hne].
  - rewrite lookup_insert_eq in Hq. injection Hq as <-. by apply Hg, (Hs p).
  - rewrite lookup_insert_ne in Hq by done. by apply (Hs q).
Qed.

(** Storing a switch of the right type. *)
Lemma typed_with_switch p d sw s :
  ks_devs s !! p = Some d -> is_Some (rd_rswitch d) -> switch_typed (rd_swpinfo d) sw -> well_typed s ->
  well_typed (with_dev p (setf rd_rswitch (Some sw) d) s).
Proof.
  intros Hd Hsome Hsw [Ht Hs]. split; [done|]. intros q e Hq. cbn in Hq. destruct (decide (q = p)) as [->|Hne].
  - rewrite lookup_insert_eq in Hq. injection Hq as <-. destruct (Hs p d Hd) as [].
    split; cbn; try done; [|by intros ? [= <-]].
    unfold rio_is_switch in *. cbn. split; [|by eauto]. intros _. by apply dt_rswitch0.
  - rewrite lookup_insert_ne in Hq by done. by apply (Hs q).
Qed.
Lemma partial_get_rswitch p s (Q : rio_switch -> kstate W -> Prop) :
  (forall d sw, ks_devs s !! p = Some d -> rd_rswitch d = Some sw -> Q sw s) -> partial (get_rswitch p) s Q.
Proof.
  intros H. unfold get_rswitch. apply spec_bind, partial_get_dev. intros d Hd.
  apply spec_deref; [|done]. intros sw Hsw. by apply (H d).
Qed.
Lemma partial_upd_rswitch p g s :
  (forall d sw, ks_devs s !! p = Some d -> rd_rswitch d = Some sw -> switch_typed (rd_swpinfo d) (g sw)) ->
  well_typed s -> partial (upd_rswitch p g) s (fun _ s' => any tt /\ well_typed s').
Proof.
  intros Hg Hs. unfold upd_rswitch. apply spec_bind, partial_get_rswitch. intros d sw Hd Hsw.
  apply partial_upd_dev. intros d' Hd'. assert (d' = d) as -> by congruence. split; [done|].
  apply typed_with_switch; auto.
Qed.
Lemma typed_upd_rswitch p g :
  (forall sw swpinfo, switch_typed swpinfo sw -> switch_typed swpinfo (g sw)) -> typed any (upd_rswitch p g).
Proof.
  intros Hg s Hs. eapply spec_mono; [apply (partial_upd_rswitch p g s)|done]; [|done].
  intros d sw Hd Hsw. apply Hg. by apply (proj2 Hs p d Hd).
Qed.

(** Reading an element and replacing one. *)
Lemma partial_array_set {A} (a : list A) i v s (Q : list A -> kstate W -> Prop) :
  Q (<[Z.to_nat i := v]> a) s -> partial (array_set a i v) s Q.
Proof. intros H. unfold array_set. by case_match. Qed.

(** The updates of the switch of a device. *)
Lemma typed_set_route p i v : typed any (set_route p i v).
Proof.
  intros s Hs. unfold set_route. apply spec_bind, partial_get_rswitch. intros d sw Hd Hsw.
  apply spec_bind, spec_deref; [|done]. intros t Ht. apply spec_bind, partial_array_set.
  apply partial_upd_rswitch; [|done]. intros d' sw' Hd' Hsw'. simplify_eq.
  destruct (dt_switch _ (proj2 Hs p d Hd) sw Hsw) as [H1 H2 H3]. destruct (H3 t Ht) as [H4 H5].
  split; [done|done|]. cbn. intros t' [= <-]. rewrite length_insert. split; [done|].
  apply Forall_insert; [done|apply u8_range].
Qed.
Lemma typed_link_device prev i r : typed any (link_device prev i r).
Proof.
  unfold link_device. destruct prev as [p|]; [|by apply fine_ret].
  eapply fine_bind; [apply typed_get_dev|intros d _]. apply fine_when; [done|intros _].
  intros s Hs. apply spec_bind, partial_get_rswitch. intros d1 sw Hd Hsw.
  apply spec_bind, partial_array_set. apply partial_upd_rswitch; [|done]. intros d' sw' Hd' Hsw'. simplify_eq.
  destruct (dt_switch _ (proj2 Hs p d1 Hd) sw Hsw) as [H1 H2 H3].
  split; [by cbn; rewrite length_insert|done|done].
Qed.
Lemma word_shiftl1 n : 0 <= n < 32 -> word 32 (Z.shiftl 1 n).
Proof.
  intros Hn. unfold word. rewrite Z.shiftl_1_l. split; [lia|]. apply Z.pow_lt_mono_r; lia.
Qed.
Lemma typed_set_port_ok p n ok : typed any (set_port_ok p n ok).
Proof.
  intros s Hs. unfold set_port_ok. apply spec_bind, partial_get_rswitch. intros d sw Hd Hsw.
  unfold shift1. destruct (_ && _) eqn:Hn; [|done]. apply andb_true_iff in Hn as [Hn1%Z.leb_le Hn2%Z.ltb_lt].
  apply spec_bind, spec_ret. apply partial_upd_rswitch; [|done]. intros d' sw' Hd' Hsw'. simplify_eq.
  destruct (dt_switch _ (proj2 Hs p d Hd) sw Hsw) as [H1 H2 H3]. split; [done| |done]. cbn.
  destruct ok; [apply word_lor; [lia|done|by apply word_shiftl1]|].
  apply word_masked; [done|apply u32_range].
Qed.

(** Allocation, and what works on the table of ids and on networks. *)
Lemma typed_kzalloc : typed any kzalloc.
Proof.
  intros s Hs. apply partial_kzalloc. intros ok n w. split; [done|]. by apply (typed_same s).
Qed.
Lemma typed_kfree : typed any kfree.
Proof. by apply typed_modify_other. Qed.
Lemma typed_upd_net n g : typed any (upd_net n g).
Proof.
  intros s Hs. unfold spec, upd_net, get_net, gets, bind. destruct (ks_nets s !! n); [|done].
  split; [done|]. by apply (typed_same s).
Qed.
Lemma typed_upd_mport p g : typed any (upd_mport p g).
Proof.
  intros s Hs. unfold spec, upd_mport, get_mport, gets, bind. destruct (ks_mports s !! p); [|done].
  split; [done|]. by apply (typed_same s).
Qed.
Lemma typed_delete r : typed any (modify (fun s : kstate W => setf ks_devs (delete r (ks_devs s)) s)).
Proof.
  intros s [Ht Hs]. split; [done|split; [done|]]. intros p d Hp. cbn in Hp.
  apply lookup_delete_Some in Hp as [_ Hp]. by apply (Hs p).
Qed.
End steps.

Create HintDb typed discriminated.
#[export] Hint Constants Opaque : typed.
#[export] Hint Variables Opaque : typed.
#[export] Hint Resolve typed_uninit typed_mport_read typed_local_read typed_get_dev typed_set_route
  typed_link_device typed_set_port_ok typed_kzalloc typed_kfree typed_upd_net typed_upd_mport typed_delete
  word_u8 word_u16 word_u32 word_land_ffff word_any_destid word_block_id word_block_ptr word_ext_ftr : typed.

(** Steps whose value does not matter. *)
Ltac typed_skip := first
  [ solve [eauto 2 with typed] | eapply fine_any; solve [eauto 2 with typed]
  | apply typed_quiet; solve [solve_keeps] | apply typed_upd_dev; solve [solve_typed; eauto 2 with typed]
  | solve [apply typed_modify_other; done] ].
Ltac typed_step :=
  match goal with
  | |- fine _ _ _ _ (bind _ _) =>
      eapply fine_bind; [first [solve [eauto 3 with typed] | apply (fine_any _ _ _ any); typed_skip | apply (fine_any _ _ _ any)]|intros ? ?]
  | _ => fine_step
  end.
Ltac solve_all := repeat first [solve [typed_skip] | typed_step].

(** ** Setting up a device *)

(** The driver core and the bus may change devices only within their types. *)
Class TypedCore (W : Type) `{!Externals W} := {
  tc_register : forall p, fine True True well_typed any (ext_device_register_dev (W := W) p);
  tc_create : forall p, fine True True well_typed any (ext_device_create_file (W := W) p);
  tc_create_bin : forall p, fine True True well_typed any (ext_device_create_bin_file (W := W) p);
  tc_register_net : forall p, fine True True well_typed any (ext_device_register_net (W := W) p);
  tc_unregister_net : forall p, fine True True well_typed any (ext_device_unregister_net (W := W) p);
}.
#[export] Hint Resolve tc_register tc_create tc_create_bin tc_register_net tc_unregister_net : typed.

Section setup.
Context {W : Type} `{!KernelEnv W} `{!SwitchTables W} `{!Externals W} `{!QuietTables W} `{!TypedCore W}.
Implicit Types (s : kstate W) (d : rio_dev).

Abbreviation typed := (fine True True (well_typed (W := W))).

Lemma typed_read_cfg port l destid hop off v :
  word 32 v -> typed (fun r => word 32 r.2) (read_cfg port l destid hop off v).
Proof. unfold read_cfg. destruct l; auto using typed_local_read, typed_mport_read. Qed.
Hint Resolve typed_read_cfg : typed.

Lemma typed_get_efb port l destid hop from : typed (word 32) (rio_mport_get_efb port l destid hop from).
Proof.
  unfold rio_mport_get_efb. eapply fine_bind; [apply typed_uninit|intros v Hv].
  destruct (from =? 0); (eapply fine_bind; [by apply typed_read_cfg|intros [r x] Hx]); apply fine_ret;
    auto using word_ext_ftr, word_block_id.
Qed.

(** The walks along extended feature blocks return offsets and maps of 32 bits. *)
Lemma typed_physefb fuel port l destid hop rmap :
  word 32 rmap ->
  typed (fun r => word 32 r.1 /\ word 32 r.2) (rio_mport_get_physefb fuel port l destid hop rmap).
Proof.
  intros Hr. unfold rio_mport_get_physefb. eapply fine_bind; [apply typed_get_efb|intros e He].
  eapply fine_bind; [apply typed_uninit|intros h Hh].
  apply fine_loop_partial with (J := fun v => word 32 v.1 /\ word 32 v.2); [done|done|].
  intros [p hd] [Hp Hhd]. cbn in Hp, Hhd. unfold physefb_step. destruct (p =? 0); [by apply fine_ret|].
  eapply fine_bind; [by apply typed_read_cfg|intros [r x] Hx].
  destruct (is_rmap1 _); [by apply fine_ret; split; [|unfold word; cbn; lia]|].
  destruct (is_rmap2 _); [by apply fine_ret; split; [|unfold word; cbn; lia]|].
  eapply fine_bind; [apply typed_get_efb|intros e' He']. apply fine_ret. split; [done|apply word_block_id].
Qed.
Lemma typed_feature fuel port l destid hop ftr :
  typed (word 32) (rio_mport_get_feature fuel port l destid hop ftr).
Proof.
  unfold rio_mport_get_feature. eapply fine_bind; [apply typed_uninit|intros a Ha].
  eapply fine_bind; [by apply typed_read_cfg|intros [r x] Hx].
  eapply fine_bind; [apply typed_uninit|intros h Hh].
  apply fine_loop_partial with (J := fun v => word 32 v.1 /\ word 32 v.2);
    [done|split; [apply word_ext_ftr|done]|].
  intros [p hd] [Hp Hhd]. cbn in Hp, Hhd. unfold feature_step. destruct (p =? 0); [by apply fine_ret|].
  eapply fine_bind; [by apply typed_read_cfg|intros [r' y] Hy].
  destruct (_ =? _); [by apply fine_ret|]. destruct (_ =? _); [by apply fine_ret|].
  apply fine_ret. split; [apply word_block_ptr|done].
Qed.

(** Storing a word in a field, for the values that the hardware gives. *)
Ltac store := apply typed_upd_dev; solve_typed; eauto 2 with typed.

Lemma typed_identity fuel port r destid hop : typed any (read_identity fuel port r destid hop).
Proof.
  unfold read_identity. eapply fine_bind; [apply typed_get_dev|intros d Hd].
  eapply fine_bind; [apply typed_mport_read, Hd|intros [rc id] Hid].
  eapply fine_bind; [store|intros _ _].
  eapply fine_bind; [by apply typed_mport_read|intros [rc1 rev] Hrev].
  eapply fine_bind; [store|intros _ _].
  eapply fine_bind; [by apply typed_mport_read|intros [rc2 asm] Hasm].
  eapply fine_bind; [store|intros _ _].
  eapply fine_bind; [by apply typed_mport_read|intros [rc3 info] Hinfo].
  eapply fine_bind; [store|intros _ _].
  eapply fine_bind with (V := any).
  { apply fine_when; [done|intros _].
    eapply fine_bind; [store|intros _ _].
    eapply fine_bind; [apply typed_physefb, Hd|intros [efptr rmap] [He Hr]].
    eapply fine_bind; [store|intros _ _].
    eapply fine_bind; [apply typed_feature|intros em Hem].
    eapply fine_bind with (V := word 32); [destruct (em =? 0); [apply typed_feature|by apply fine_ret]|intros em' Hem'].
    store. }
  intros _ _. eapply fine_bind; [by apply typed_mport_read|intros [rc4 src] Hsrc].
  eapply fine_bind; [store|intros _ _].
  eapply fine_bind; [by apply typed_mport_read|intros [rc5 dst] Hdst]. store.
Qed.

Lemma typed_comptag port r destid hop e : typed any (setup_comptag port r destid hop e).
Proof.
  unfold setup_comptag. destruct e.
  - eapply fine_bind with (V := fun tag => 0 <= tag); [intros s Hs; split; [apply Hs|done]|intros tag Hpos].
    destruct (Z.leb_spec 0x10000 tag); [by apply fine_ret|].
    assert (word 32 tag) as Htag by (unfold word; lia).
    eapply fine_bind; [apply typed_quiet; solve_keeps|intros _ _].
    eapply fine_bind with (V := any); [|intros _ _].
    { intros s [Ht Hs]. split; [done|]. split; [|done]. cbn. lia. }
    eapply fine_bind; [store|intros _ _]. by apply fine_ret.
  - eapply fine_bind; [by apply typed_mport_read|intros [rc tag] Htag].
    eapply fine_bind; [store|intros _ _]. by apply fine_ret.
Qed.

Lemma typed_get_device_id port destid hop : typed (word 16) (rio_get_device_id port destid hop).
Proof.
  unfold rio_get_device_id. eapply fine_bind; [apply typed_uninit|intros v Hv].
  eapply fine_bind; [by apply typed_mport_read|intros [rc x] Hx].
  eapply fine_bind; [apply typed_quiet; auto with frame|intros mp _]. apply fine_ret, u16_range.
Qed.
Lemma typed_set_idtab net t : typed any (set_idtab net t).
Proof. apply typed_upd_net. Qed.
Lemma typed_write_bit net i b : typed any (write_bit net i b).
Proof.
  unfold write_bit, get_idtab. eapply fine_bind; [apply typed_quiet; solve_keeps|intros t _].
  eapply fine_bind; [apply typed_quiet; solve_keeps|intros l _]. apply typed_set_idtab.
Qed.
Lemma typed_destid_alloc net : typed any (rio_destid_alloc net).
Proof.
  unfold rio_destid_alloc, get_idtab. eapply fine_bind; [apply typed_quiet; solve_keeps|intros t _].
  case_match; [|by apply fine_ret]. eapply fine_bind; [apply typed_write_bit|intros _ _]. by apply fine_ret.
Qed.
Hint Resolve typed_destid_alloc : typed.

Lemma typed_destid net port r destid hop e :
  word 16 destid -> word 8 hop -> typed any (setup_destid net port r destid hop e).
Proof.
  intros Hdest Hhop. unfold setup_destid. eapply fine_bind; [apply typed_get_dev|intros d Hd].
  destruct (rio_device_has_destid _ _); [|store].
  eapply fine_bind with (V := any); [|intros _ _; apply typed_upd_dev; solve_typed; unfold word; cbn; lia].
  destruct e.
  - eapply fine_bind; [apply typed_quiet; solve_keeps|intros id _].
    eapply fine_bind; [apply typed_quiet; auto with frame|intros _ _].
    eapply fine_bind; [store|intros _ _].
    eapply fine_bind; [apply typed_destid_alloc|intros nx _]. by apply typed_modify_other.
  - eapply fine_bind; [apply typed_get_device_id|intros id Hid]. store.
Qed.

(** A switch gets the table that the system size of its port asks for. *)
Lemma typed_kind fuel port r destid hop e : typed any (setup_kind fuel port r destid hop e).
Proof.
  unfold setup_kind. eapply fine_bind; [apply typed_get_dev|intros d Hd]. destruct (rio_is_switch d).
  - eapply fine_bind with (V := any); [|intros _ _].
    { apply typed_upd_rswitch. intros sw info [H1 H2 H3]. split; [done|unfold word; cbn; lia|done]. }
    eapply fine_bind; [apply typed_quiet; auto with frame|intros mp _].
    eapply fine_bind; [apply typed_kzalloc|intros [] _]; [|by apply fine_ret].
    eapply fine_bind with (V := any); [|intros _ _].
    { apply typed_upd_rswitch. intros sw info [H1 H2 H3]. split; [done|done|]. cbn. intros t [= <-]. split.
      - exists (mp_sys_size mp). rewrite length_replicate, Z2Nat.id by (apply max_entries). done.
      - apply Forall_replicate. unfold word, RIO_INVALID_ROUTE. lia. }
    eapply fine_bind with (V := any); [apply typed_quiet; solve_keeps|intros _ _]. by apply fine_ret.
  - eapply fine_bind with (V := any); [apply typed_quiet; solve_keeps|intros _ _]. by apply fine_ret.
Qed.
Lemma typed_cleanup r : typed any (setup_cleanup r).
Proof. unfold setup_cleanup. solve_all. Qed.
Lemma typed_add_device r : typed any (rio_add_device r).
Proof. unfold rio_add_device, rio_create_sysfs_dev_files. solve_all. Qed.
Lemma typed_dev_get o : typed any (rio_dev_get o).
Proof. unfold rio_dev_get, get_device. solve_all. Qed.

(** A new device, all of whose fields but the features are zero. *)
Lemma zero_dev_typed net pef info :
  word 32 pef -> word 32 info ->
  dev_typed (setf rd_net (Some net) (setf rd_pef pef (setf rd_swpinfo info (zero_rio_dev
    (if truthy (Z.land pef RIO_PEF_SWITCH)
     then Some (mk_rio_switch None 0 None (replicate (Z.to_nat (RIO_GET_TOTAL_PORTS info)) None)) else None))))).
Proof.
  intros Hp Hi. split; cbn; try done.
  - unfold rio_is_switch. cbn. destruct (truthy _); [by eauto|]. split; [by intros [? ?]|done].
  - intros sw Hsw. destruct (truthy _); [|done]. injection Hsw as <-. split; cbn; try done.
    rewrite length_replicate. pose proof (RIO_GET_TOTAL_PORTS_range info). lia.
Qed.

Lemma typed_setup_device fuel net port destid hop e :
  word 16 destid -> word 8 hop -> typed any (rio_setup_device fuel net port destid hop e).
Proof.
  intros Hdest Hhop. unfold rio_setup_device. eapply fine_bind; [apply typed_uninit|intros v Hv].
  eapply fine_bind; [by apply typed_mport_read|intros [rc pef] Hpef]. cbn in Hpef.
  destruct (truthy rc); [by apply fine_ret|].
  eapply fine_bind with (V := fun r => word 32 r.2); [|intros [rc' info] Hinfo; cbn in Hinfo].
  { destruct (truthy _); [by apply typed_mport_read|by apply fine_ret]. }
  eapply fine_bind; [apply typed_kzalloc|intros [] _]; [|by apply fine_ret].
  eapply fine_bind with (V := any); [|intros r _].
  { intros s Hs. split; [done|]. by apply (typed_same s). }
  eapply fine_bind with (V := any); [|intros _ _].
  { intros s [Ht Hs]. split; [done|split; [done|]]. intros q d Hq. cbn [ks_devs setf updf] in Hq.
    destruct (decide (q = r)) as [->|Hne]; [rewrite lookup_insert_eq in Hq; injection Hq as <-; by apply zero_dev_typed|].
    rewrite lookup_insert_ne in Hq by done. by apply (Hs q). }
  eapply fine_bind; [apply typed_identity|intros _ _].
  eapply fine_bind; [apply typed_comptag|intros [] _]; [cbn [negb]|apply typed_cleanup].
  eapply fine_bind; [by apply typed_destid|intros _ _].
  eapply fine_bind; [apply typed_kind|intros [] _]; [cbn [negb]|apply typed_cleanup].
  eapply fine_bind with (V := any); [apply typed_upd_dev; solve_typed; unfold word; cbn; lia|intros _ _].
  eapply fine_bind; [apply typed_get_dev|intros d Hd].
  eapply fine_bind with (V := any); [|intros _ _].
  { apply fine_when; [done|intros _]. apply typed_upd_dev. solve_typed. rewrite length_insert. apply Hd. }
  eapply fine_bind; [apply typed_add_device|intros err _].
  destruct (truthy err); [apply typed_cleanup|apply typed_dev_get].
Qed.
End setup.
#[export] Hint Resolve typed_setup_device typed_destid_alloc : typed.

(** ** Enumeration and discovery *)

Section walks.
Context {W : Type} `{!KernelEnv W} `{!SwitchTables W} `{!Externals W} `{!QuietTables W} `{!TypedCore W}.
Implicit Types (s : kstate W) (d : rio_dev).

Abbreviation typed := (fine True True (well_typed (W := W))).

(** Loops whose variables need no type. *)
Lemma typed_loop {A B} fuel (body : A -> KM W (A + B)) a :
  (forall a, typed any (body a)) -> typed any (loop fuel body a).
Proof.
  intros Hb. apply fine_loop_partial with (J := any); [done|done|]. intros a' _.
  eapply fine_mono; [apply Hb|]. by intros [].
Qed.

Lemma typed_route_known net port r n b destid : typed any (route_known_step net port r n b destid).
Proof. unfold route_known_step, rio_destid_next, get_idtab. solve_all. Qed.
Lemma typed_update_routes net port r n c : typed any (update_routes net port r n c).
Proof.
  unfold update_routes, rio_destid_next, get_idtab. eapply fine_bind; [apply typed_quiet; solve_keeps|intros x _].
  apply fine_when; [done|intros _]. apply typed_loop, typed_route_known.
Qed.
Lemma typed_enum_known port hop prev n : typed any (enum_known port hop prev n).
Proof. unfold enum_known. solve_all. Qed.

Section switch.
Context (peer : Z -> option ptr -> Z -> KM W Z) (Hpeer : forall h p n, word 8 h -> typed any (peer h p n)).

Lemma typed_enum_port fuel net port r hop inport n : typed any (enum_port peer fuel net port r hop inport n).
Proof.
  unfold enum_port. eapply fine_bind; [apply typed_quiet; auto with frame|intros mp _].
  destruct (inport =? n); [solve_all|].
  eapply fine_bind; [apply typed_quiet; solve_keeps|intros c _].
  eapply fine_bind; [apply typed_quiet; auto with frame|intros act _]. destruct (truthy act); [|solve_all].
  eapply fine_bind; [apply typed_quiet; auto with frame|intros _ _].
  eapply fine_bind; [apply typed_set_port_ok|intros _ _].
  eapply fine_bind; [apply typed_quiet; auto with frame|intros _ _].
  eapply fine_bind; [apply Hpeer, word_u8|intros rc _]. destruct (rc <? 0); [by apply fine_ret|].
  eapply fine_bind; [apply typed_update_routes|intros _ _]. by apply fine_ret.
Qed.
Lemma typed_enum_switch fuel net port r hop : typed any (enum_switch peer fuel net port r hop).
Proof.
  unfold enum_switch, rio_destid_first, get_idtab. eapply fine_bind; [apply typed_get_dev|intros d _].
  eapply fine_bind; [apply typed_quiet; auto with frame|intros mp _].
  eapply fine_bind; [apply typed_quiet; auto with frame|intros _ _].
  eapply fine_bind; [apply typed_set_route|intros _ _].
  eapply fine_bind; [apply typed_quiet; solve_keeps|intros first _].
  eapply fine_bind; [apply typed_loop, typed_route_known|intros _ _].
  eapply fine_bind; [apply typed_quiet; solve_keeps|intros sw_destid _].
  eapply fine_bind; [apply fine_for_exit; intros n _; apply typed_enum_port|intros [rc|] _]; [by apply fine_ret|].
  solve_all.
Qed.
End switch.

Lemma typed_enum_peer lfuel fuel depth net port hop prev n :
  word 8 hop -> typed any (rio_enum_peer lfuel fuel depth net port hop prev n).
Proof.
  revert hop prev n. induction depth as [|depth IH]; intros hop prev n Hhop; cbn [rio_enum_peer]; [done|].
  eapply fine_bind; [apply typed_quiet; auto with frame|intros mp _].
  eapply fine_bind; [apply typed_quiet; auto with frame|intros acc _]. destruct (truthy acc); [by apply fine_ret|].
  eapply fine_bind; [apply typed_quiet; auto with frame|intros lock _].
  destruct (lock =? _); [eapply fine_bind; [apply typed_enum_known|intros _ _]; by apply fine_ret|].
  eapply fine_bind; [apply typed_quiet; auto with frame|intros _ _].
  eapply fine_bind; [apply typed_quiet, keeps_loop; [typeclasses eauto|auto with frame]|intros _ _].
  eapply fine_bind; [apply typed_quiet; auto with frame|intros lock' _].
  destruct (_ <? lock'); [by apply fine_ret|].
  eapply fine_bind; [by apply typed_setup_device; [apply word_any_destid|]|intros [r|] _]; [|by apply fine_ret].
  eapply fine_bind with (V := any); [apply typed_upd_dev; solve_typed|intros _ _].
  eapply fine_bind; [apply typed_link_device|intros _ _].
  eapply fine_bind; [apply typed_get_dev|intros d _].
  destruct (rio_is_switch d); [|by apply fine_ret]. apply typed_enum_switch, IH.
Qed.

Lemma typed_disc_route r any_ n v : word 16 v.1 ->
  typed (fun x => match x with inl v => word 16 v.1 | inr v => word 16 v.1 end) (disc_route_step r any_ n v).
Proof.
  intros Hv. destruct v as [nd rp]. unfold disc_route_step. destruct (nd <? any_); [|by apply fine_ret].
  eapply fine_bind; [apply typed_quiet; auto with frame|intros [rc x] _].
  destruct (x =? n); apply fine_ret; [done|apply word_u16].
Qed.

Section disc.
Context (peer : Z -> Z -> option ptr -> Z -> KM W Z)
  (Hpeer : forall i h p n, word 16 i -> word 8 h -> typed any (peer i h p n)).

Lemma typed_disc_port port r destid hop n rp : typed any (disc_port peer port r destid hop n rp).
Proof.
  unfold disc_port. eapply fine_bind; [apply typed_get_dev|intros d _]. destruct (_ =? n); [by apply fine_ret|].
  eapply fine_bind; [apply typed_quiet; auto with frame|intros act _]. destruct (truthy act); [|by apply fine_ret].
  eapply fine_bind; [apply typed_quiet; auto with frame|intros _ _].
  eapply fine_bind; [apply typed_quiet; auto with frame|intros mp _].
  eapply fine_bind with (V := fun v => word 16 v.1); [|intros [nd rp'] Hnd].
  { apply fine_loop_partial with (J := fun v => word 16 v.1); [done|unfold word; cbn; lia|].
    intros v Hv. eapply fine_mono; [by apply typed_disc_route|]. by intros []. }
  destruct (nd =? _); [by apply fine_ret|].
  eapply fine_bind; [apply typed_quiet; auto with frame|intros _ _].
  eapply fine_bind; [by apply Hpeer, word_u8|intros rc _]. by apply fine_ret.
Qed.
Lemma typed_disc_ports port r destid hop ports rp : typed any (disc_ports peer port r destid hop ports rp).
Proof.
  revert rp. induction ports as [|n ports IH]; intros rp; cbn [disc_ports]; [by apply fine_ret|].
  eapply fine_bind; [apply typed_disc_port|intros [[rc|] rp'] _]; [by apply fine_ret|apply IH].
Qed.
End disc.

Lemma typed_disc_peer fuel depth net port destid hop prev n :
  word 16 destid -> word 8 hop -> typed any (rio_disc_peer fuel depth net port destid hop prev n).
Proof.
  revert destid hop prev n. induction depth as [|depth IH]; intros destid hop prev n Hd Hh; cbn [rio_disc_peer]; [done|].
  eapply fine_bind; [by apply typed_setup_device|intros [r|] _]; [|by apply fine_ret].
  eapply fine_bind with (V := any); [apply typed_upd_dev; solve_typed|intros _ _].
  eapply fine_bind; [apply typed_link_device|intros _ _].
  eapply fine_bind; [apply typed_get_dev|intros d _].
  destruct (rio_is_switch d); [|by apply fine_ret].
  eapply fine_bind with (V := any); [apply typed_upd_dev; solve_typed|intros _ _].
  eapply fine_bind; [apply typed_uninit|intros rp _].
  eapply fine_bind; [apply typed_disc_ports, IH|intros [rc|] _]; by apply fine_ret.
Qed.

(** Copying the tables of the switches. *)
Lemma typed_build_table r ids sport : typed any (build_table r ids sport).
Proof.
  revert sport. induction ids as [|i ids IH]; intros sport; cbn [build_table]; [by apply fine_ret|].
  eapply fine_bind; [apply typed_quiet; auto with frame|intros [rc sp] _].
  eapply fine_bind with (V := any); [apply fine_when; [done|intros _; apply typed_set_route]|intros _ _]. apply IH.
Qed.
Lemma typed_build_tables hport switches sport : typed any (build_tables hport switches sport).
Proof.
  revert sport. induction switches as [|r switches IH]; intros sport; cbn [build_tables]; [by apply fine_ret|].
  eapply fine_bind; [apply typed_get_dev|intros d _].
  eapply fine_bind; [apply typed_quiet; auto with frame|intros _ _].
  eapply fine_bind; [apply typed_quiet; auto with frame|intros mp _].
  eapply fine_bind; [apply typed_build_table|intros sp _].
  eapply fine_bind; [apply typed_get_dev|intros d' _].
  eapply fine_bind; [apply typed_quiet; auto with frame|intros _ _]. apply IH.
Qed.

(** Networks. *)
Lemma typed_free_net n : typed any (rio_free_net n).
Proof.
  unfold rio_free_net, rio_scan_release_net. solve_all.
Qed.
Lemma typed_alloc_net mport e start : typed any (rio_scan_alloc_net mport e start).
Proof.
  unfold rio_scan_alloc_net, rio_alloc_net, rio_add_net.
  eapply fine_bind with (V := any); [|intros o _].
  { eapply fine_bind; [apply typed_kzalloc|intros [] _]; [|by apply fine_ret].
    eapply fine_bind with (V := any); [intros s Hs; split; [done|by apply (typed_same s)]|intros net _]. solve_all. }
  eapply fine_bind with (V := any); [|intros o' _; solve_all].
  destruct o as [n|]; [|by apply fine_ret]. destruct e; [|by apply fine_ret].
  eapply fine_bind; [apply typed_quiet; auto with frame|intros mp _].
  eapply fine_bind; [apply typed_kzalloc|intros [] _].
  - eapply fine_bind; [apply typed_upd_net|intros _ _]. by apply fine_ret.
  - eapply fine_bind; [apply typed_free_net|intros _ _]. by apply fine_ret.
Qed.
Lemma typed_update_route r sw destid : typed any (update_route r sw destid).
Proof. unfold update_route. solve_all. Qed.
Lemma typed_update_tables net : typed any (rio_update_route_tables net).
Proof. unfold rio_update_route_tables. solve_all; apply typed_update_route. Qed.
Lemma keeps_clear_locks_loop port devs a b : keeps (@same_kernel W) (clear_locks_loop port devs a b).
Proof. revert a b. induction devs as [|r devs IH]; intros a b; cbn [clear_locks_loop]; solve_keeps. Qed.
Lemma typed_clear_locks net : typed any (rio_clear_locks net).
Proof. apply typed_quiet. unfold rio_clear_locks. solve_keeps. apply keeps_clear_locks_loop. Qed.

(** The two ways to scan a port. *)
Lemma typed_enum_mport lfuel fuel depth mport flags : typed any (rio_enum_mport lfuel fuel depth mport flags).
Proof.
  unfold rio_enum_mport. eapply fine_bind; [apply typed_quiet; auto with frame|intros mp _].
  destruct (mp_nnode mp); [by apply fine_ret|].
  eapply fine_bind; [apply typed_quiet; unfold rio_enum_host; solve_keeps|intros host _].
  destruct (host <? 0); [by apply fine_ret|].
  eapply fine_bind; [apply typed_quiet; auto with frame|intros act _]. destruct (truthy act); [|by apply fine_ret].
  eapply fine_bind; [apply typed_alloc_net|intros [net|] _]; [|by apply fine_ret].
  eapply fine_bind; [apply typed_quiet; auto with frame|intros mp' _].
  eapply fine_bind with (V := any); [|intros _ _].
  { unfold rio_destid_reserve, get_idtab. eapply fine_bind; [apply typed_quiet; solve_keeps|intros t _].
    eapply fine_bind; [apply typed_quiet; solve_keeps|intros old _].
    eapply fine_bind; [apply typed_write_bit|intros _ _]. by apply fine_ret. }
  eapply fine_bind; [apply typed_quiet; auto with frame|intros _ _].
  eapply fine_bind with (V := fun tag => 0 <= tag); [intros s Hs; split; [apply Hs|done]|intros tag Hpos].
  eapply fine_bind with (V := any); [intros s [Ht Hs]; split; [done|split; [cbn; lia|done]]|intros _ _].
  eapply fine_bind; [apply typed_quiet; auto with frame|intros _ _].
  eapply fine_bind; [apply typed_destid_alloc|intros nx _].
  eapply fine_bind with (V := any); [by apply typed_modify_other|intros _ _].
  eapply fine_bind; [by apply typed_enum_peer|intros rc _]. destruct (rc <? 0).
  - eapply fine_bind; [apply typed_clear_locks|intros _ _]. by apply fine_ret.
  - eapply fine_bind; [apply typed_quiet; solve_keeps|intros nx' _].
    eapply fine_bind with (V := any); [unfold rio_destid_free, get_idtab;
      (eapply fine_bind; [apply typed_quiet; solve_keeps|intros t _]); apply typed_write_bit|intros _ _].
    eapply fine_bind; [apply typed_update_tables|intros _ _].
    eapply fine_bind; [apply typed_clear_locks|intros _ _].
    eapply fine_bind with (V := any); [unfold rio_pw_enable; solve_all|intros _ _]. by apply fine_ret.
Qed.
Lemma typed_disc_mport timeout wfuel fuel depth mport flags :
  typed any (rio_disc_mport timeout wfuel fuel depth mport flags).
Proof.
  unfold rio_disc_mport. eapply fine_bind; [apply typed_quiet; auto with frame|intros act _].
  destruct (truthy act); [|by apply fine_ret].
  eapply fine_bind with (V := any); [apply typed_quiet; unfold rio_enum_complete; solve_keeps|intros dn _].
  destruct (_ && _); [by apply fine_ret|].
  eapply fine_bind with (V := any); [|intros [] _; [|by apply fine_ret]].
  { apply typed_quiet. unfold disc_wait_step, rio_enum_complete. solve_keeps. }
  eapply fine_bind; [apply typed_alloc_net|intros [net|] _]; [|by apply fine_ret].
  eapply fine_bind; [apply typed_quiet; auto with frame|intros mp _].
  eapply fine_bind; [apply typed_quiet; auto with frame|intros [rc id] _].
  eapply fine_bind; [apply typed_upd_mport|intros _ _].
  eapply fine_bind; [by apply typed_disc_peer; [apply word_any_destid|]|intros rc' _].
  destruct (rc' <? 0); [by apply fine_ret|].
  eapply fine_bind with (V := any); [|intros _ _; by apply fine_ret].
  unfold rio_build_route_tables. eapply fine_bind; [apply typed_quiet; auto with frame|intros n _].
  eapply fine_bind; [apply typed_uninit|intros sp _]. destruct (net_switches n); [by apply fine_ret|].
  eapply fine_bind; [apply typed_quiet; auto with frame|intros h _]. apply typed_build_tables.
Qed.
End walks.

(** ** The attributes *)

Section attrs.
Context {W : Type} (PAGE_SIZE : Z).

(** The attributes that print the identity of a device, with the lengths of their texts. *)
Definition identity_attrs : list ((ptr -> KM W text) * nat) :=
  [(did_show PAGE_SIZE, 7%nat); (vid_show PAGE_SIZE, 7%nat); (device_rev_show PAGE_SIZE, 11%nat);
   (asm_did_show PAGE_SIZE, 7%nat); (asm_vid_show PAGE_SIZE, 7%nat); (asm_rev_show PAGE_SIZE, 7%nat);
   (destid_show PAGE_SIZE, 7%nat); (hopcount_show PAGE_SIZE, 5%nat); (modalias_show PAGE_SIZE, 31%nat)].

(** [show] prints a text of length [n] for the device and changes nothing. *)
Definition prints s rdev (show : (ptr -> KM W text) * nat) : Prop :=
  exists t, show.1 rdev s = Done t s /\ length t = show.2.

Lemma prints_config s rdev d prefix w (field : rio_dev -> Z) :
  ks_devs s !! rdev = Some d -> word (4 * Z.of_nat w) (field d) -> (0 < w)%nat ->
  Z.of_nat (length prefix + w + 1) < PAGE_SIZE ->
  prints s rdev (config_attr PAGE_SIZE prefix w field, (length prefix + w + 1)%nat).
Proof.
  intros Hd Hf Hw Hp. set (t := prefix ++ hex_text false w (field d) ++ newline).
  assert (length t = length prefix + w + 1)%nat as Ht.
  { unfold t. rewrite !length_app, hex_text_length by done. cbn [length newline]. lia. }
  exists t. split; [|done]. cbn [fst]. unfold config_attr. run (run_get_dev _ _ _ Hd).
  unfold page_sprintf. fold t. rewrite Ht. cbn [length]. destruct (Z.ltb_spec (Z.of_nat 0 + Z.of_nat (length prefix + w + 1)) PAGE_SIZE); [done|lia].
Qed.
Lemma prints_modalias s rdev d :
  ks_devs s !! rdev = Some d -> dev_typed d -> 31 < PAGE_SIZE -> prints s rdev (modalias_show PAGE_SIZE, 31%nat).
Proof.
  intros Hd Ht Hp. unfold prints, modalias_show. cbn [fst snd]. run (run_get_dev _ _ _ Hd).
  unfold page_sprintf. match goal with |- context [?a ++ hex_text true 4 (rd_vid d) ++ ?b] => set (t := a ++ hex_text true 4 (rd_vid d) ++ b) end.
  assert (length t = 31%nat) as Hlen.
  { pose proof Ht as []. unfold t. rewrite !length_app, !hex_text_length by (assumption || lia). done. }
  rewrite Hlen. cbn [length]. destruct (Z.ltb_spec (Z.of_nat 0 + Z.of_nat 31) PAGE_SIZE); [by eauto|lia].
Qed.
Lemma prints_identity s rdev d :
  ks_devs s !! rdev = Some d -> dev_typed d -> 31 < PAGE_SIZE -> Forall (prints s rdev) identity_attrs.
Proof.
  intros Hd Ht Hp. pose proof Ht as []. unfold identity_attrs.
  repeat (apply Forall_cons; split); [..|by apply Forall_nil].
  all: try by eapply prints_modalias.
  all: match goal with |- prints _ _ (?f, _) => let h := head f in unfold h end;
    apply (prints_config s rdev d (lit "0x"%string)); cbn; [done|done|lia|lia].
Qed.
End attrs.

Section claims.
Context {W : Type} `{!KernelEnv W} `{!Externals W}.

(** C8: types.  Enumeration and discovery of a port, whatever they return and whatever
    the hardware answers, keep every device well typed: each field within the width that
    struct rio_dev gives it, a struct rio_switch behind exactly the devices whose features
    say switch, with as many links as the switch has ports and a routing table of
    RIO_MAX_ROUTE_ENTRIES bytes.  So the files that print a device's identity always have
    texts of the same length. *)
Theorem rio_scan_well_typed `{!TypedCore W} (owner : switch_ops_ptr -> ptr) (do_enum : bool)
    disctimeout wfuel lfuel fuel depth mport flags PAGE_SIZE (s s' : kstate W) rc
    (Hs : well_typed s) (Hpage : 31 < PAGE_SIZE)
    (Hrun : (if do_enum then @rio_enum_mport W _ (switch_tables owner) _ lfuel fuel depth mport flags
             else @rio_disc_mport W _ (switch_tables owner) _ disctimeout wfuel fuel depth mport flags) s = Done rc s') :
  well_typed s' /\
  forall rdev d, ks_devs s' !! rdev = Some d -> Forall (prints s' rdev) (identity_attrs PAGE_SIZE).
Proof.
  assert (well_typed s') as Hs'.
  { destruct do_enum.
    - pose proof (typed_enum_mport (SwitchTables0 := switch_tables owner) lfuel fuel depth mport flags s Hs) as H.
      unfold spec in H. rewrite Hrun in H. apply H.
    - pose proof (typed_disc_mport (SwitchTables0 := switch_tables owner) disctimeout wfuel fuel depth mport flags s Hs) as H.
      unfold spec in H. rewrite Hrun in H. apply H. }
  split; [done|]. intros rdev d Hd. by apply (prints_identity PAGE_SIZE s' rdev d Hd (proj2 Hs' rdev d Hd)).
Qed.
End claims.

#[export] Instance fb_typed_core : TypedCore fabric.
Proof. split; intros p; by apply fine_ret. Qed.

(** The simulated network: a switch and two end points are set up. *)
Lemma rio_scan_well_typed_witness :
  match rio_enum_mport 3 3 4 1 0 fb_state with
  | Done rc s' => rc = 0 /\ size (ks_devs s') = 3%nat /\ well_typed s' /\
      forall rdev d, ks_devs s' !! rdev = Some d -> Forall (prints s' rdev) (identity_attrs 4096)
  | _ => False
  end.
Proof.
  assert (well_typed fb_state) as H1 by (split; [cbn; lia|intros p d Hp; done]).
  pose proof (rio_scan_well_typed (fun _ => 13%positive) true 0 0 3 3 4 1 0 4096 fb_state) as H.
  assert (match rio_enum_mport 3 3 4 1 0 fb_state with
    | Done rc s' => rc = 0 /\ size (ks_devs s') = 3%nat | _ => False end) as Hv
    by (vm_compute; split; reflexivity).
  destruct (rio_enum_mport 3 3 4 1 0 fb_state) as [rc s'| |] eqn:E; [|exact Hv..].
  destruct Hv as [Hrc Hn]. split; [exact Hrc|split; [exact Hn|]].
  exact (H s' rc H1 ltac:(lia) E).
Defined.
