(* ===== verification/RioCm.v ===== *)
(** * Channelized messaging (rio_cm.c): channels and packets

    The channel objects, the connection protocol, the receive ring of a channel
    and the transmit ring of a mailbox.  What the code does under one lock is one
    step.  Where it sleeps on a completion, [cm_wait] stands for everything that
    happens until the caller is woken; [cm_gap] stands for what other threads do
    where it sleeps otherwise, or goes on without the lock under which it looked at
    the state of a channel. *)

From S2P Require Import Prelude Regs State Mbox Msg.

Definition RIOCM_TX_RING_SIZE : Z := 128.
Definition RIOCM_RX_RING_SIZE : Z := 128.
Definition RIOCM_CONNECT_TO : Z := 3.
Definition RIOCM_MAX_CHNUM : Z := 0xffff.
Definition RIOCM_CHNUM_AUTO : Z := 0.
Definition RIOCM_MAX_EP_COUNT : Z := 0x10000.

(** Error numbers of errno.h that only this driver uses. *)
Definition EINTR : Z := 4.
Definition ENOSPC : Z := 28.
Definition ETIME : Z := 62.
Definition ECONNRESET : Z := 104.
Definition ETIMEDOUT : Z := 110.
Definition ECONNREFUSED : Z := 111.
Definition ECANCELED : Z := 125.
Definition ERESTARTSYS : Z := 512.

Inductive rio_cm_state :=
| RIO_CM_IDLE | RIO_CM_CONNECT | RIO_CM_CONNECTED | RIO_CM_DISCONNECT
| RIO_CM_CHAN_BOUND | RIO_CM_LISTEN | RIO_CM_DESTROYING.
#[export] Instance rio_cm_state_eq_dec : EqDecision rio_cm_state.
Proof. solve_decision. Defined.

Definition RIO_CM_SYS : Z := 0xaa.
Definition RIO_CM_CHAN : Z := 0x55.

Definition CM_CONN_REQ : Z := 0.
Definition CM_CONN_ACK : Z := 1.
Definition CM_CONN_CLOSE : Z := 2.
Definition CM_DATA_MSG : Z := 3.
Definition CM_CONN_NACK : Z := 4.

(** ** Packets *)

(** struct rio_ch_chan_hdr: packed, its multi-byte fields in network order.  The
    offsets of its fields and its size. *)
Definition HDR_SIZE : Z := 20.
Definition OFF_SRC_ID : nat := 0.
Definition OFF_DST_ID : nat := 4.
Definition OFF_SRC_MBOX : nat := 8.
Definition OFF_DST_MBOX : nat := 9.
Definition OFF_TYPE : nat := 10.
Definition OFF_CH_OP : nat := 11.
Definition OFF_DST_CH : nat := 12.
Definition OFF_SRC_CH : nat := 14.
Definition OFF_MSG_LEN : nat := 16.

(** ** Data structures *)

Record tx_req := mk_tx_req { tr_rdev : ptr; tr_buffer : ptr; tr_len : Z }.

Record cm_dev := mk_cm_dev {
  cd_mport : option ptr;
  cd_rx_buf : list (option ptr);
  cd_rx_slots : Z;
  cd_tx_buf : list (option ptr);
  cd_tx_slot : Z;
  cd_tx_cnt : Z;
  cd_tx_ack_slot : Z;
  cd_tx_reqs : list tx_req;
  cd_peers : list ptr;
  cd_npeers : Z;
}.
#[export] Instance eta_cm_dev : Eta cm_dev := fun r =>
  mk_cm_dev (cd_mport r) (cd_rx_buf r) (cd_rx_slots r) (cd_tx_buf r) (cd_tx_slot r)
    (cd_tx_cnt r) (cd_tx_ack_slot r) (cd_tx_reqs r) (cd_peers r) (cd_npeers r).

Record chan_rx_ring := mk_chan_rx_ring {
  rr_buf : list (option ptr);
  rr_head : Z;
  rr_tail : Z;
  rr_count : Z;
  rr_inuse : list (option ptr);
  rr_inuse_cnt : Z;
}.
#[export] Instance eta_chan_rx_ring : Eta chan_rx_ring := fun r =>
  mk_chan_rx_ring (rr_buf r) (rr_head r) (rr_tail r) (rr_count r) (rr_inuse r) (rr_inuse_cnt r).

Record conn_req := mk_conn_req { cr_destid : Z; cr_chan : Z; cr_cmdev : ptr }.

(** [ch_comp] and [ch_comp_close] are the counts of the two completions. *)
Record rio_channel := mk_rio_channel {
  ch_id : Z;
  ch_ref : Z;
  ch_filp : option ptr;
  ch_cmdev : option ptr;
  ch_rdev : option ptr;
  ch_state : rio_cm_state;
  ch_context : option ptr;
  ch_loc_destid : Z;
  ch_rem_destid : Z;
  ch_rem_channel : Z;
  ch_accept_queue : list conn_req;
  ch_comp : Z;
  ch_comp_close : Z;
  ch_rx_ring : chan_rx_ring;
}.
#[export] Instance eta_rio_channel : Eta rio_channel := fun r =>
  mk_rio_channel (ch_id r) (ch_ref r) (ch_filp r) (ch_cmdev r) (ch_rdev r) (ch_state r)
    (ch_context r) (ch_loc_destid r) (ch_rem_destid r) (ch_rem_channel r)
    (ch_accept_queue r) (ch_comp r) (ch_comp_close r) (ch_rx_ring r).

Definition zero_rx_ring : chan_rx_ring :=
  mk_chan_rx_ring (replicate (Z.to_nat RIOCM_RX_RING_SIZE) None) 0 0 0
    (replicate (Z.to_nat RIOCM_RX_RING_SIZE) None) 0.

(** The state of the driver: the heap of its objects, the table of channels, the
    list of cm devices and the queued receive work items, which name their
    cm device. *)
Record cmstate (W : Type) := mk_cmstate {
  cs_m : mstate W;
  cs_cms : gmap ptr cm_dev;
  cs_chans : gmap ptr rio_channel;
  ch_idr : gmap Z ptr;
  cm_dev_list : list ptr;
  cs_works : list ptr;
}.
Arguments mk_cmstate {W}. Arguments cs_m {W}. Arguments cs_cms {W}. Arguments cs_chans {W}.
Arguments ch_idr {W}. Arguments cm_dev_list {W}. Arguments cs_works {W}.
#[export] Instance eta_cmstate W : Eta (cmstate W) := fun s =>
  mk_cmstate (cs_m s) (cs_cms s) (cs_chans s) (ch_idr s) (cm_dev_list s) (cs_works s).

Abbreviation CM W := (M (cmstate W)).
#[export] Instance cm_msg_state W : MsgState W (cmstate W) := {|
  msg_of s := cs_m s; set_msg m s := setf cs_m m s;
|}.

(** The services of the kernel that the driver needs besides: the allocation of
    a number from a range in an idr table, which does not change the table here;
    sleeping on a completion of a channel ([true] for [comp], [false] for
    [comp_close]), with all that other threads do meanwhile; what they do between
    two steps of a function, which acts next on the channel that is named without
    looking at its state again; time conversion; user memory. *)
Class CmEnv (W : Type) := {
  idr_pick : gmap Z ptr -> Z -> Z -> W -> Z * W;
  cm_wait : bool -> ptr -> Z -> CM W Z;
  cm_gap : option ptr -> CM W unit;
  msecs_to_jiffies : Z -> Z;
  user_read : Z -> Z -> W -> option (list Z);
  user_write : Z -> list Z -> W -> bool * W;
}.

Section objects.
Context {W : Type} `{!KernelEnv W}.

Definition get_cm (p : ptr) : CM W cm_dev :=
  o <- gets (fun s => cs_cms s !! p) ;; deref o.
Definition upd_cm (p : ptr) (g : cm_dev -> cm_dev) : CM W unit :=
  c <- get_cm p ;; modify (fun s => setf cs_cms (<[p := g c]> (cs_cms s)) s).
Definition get_ch (p : ptr) : CM W rio_channel :=
  o <- gets (fun s => cs_chans s !! p) ;; deref o.
Definition upd_ch (p : ptr) (g : rio_channel -> rio_channel) : CM W unit :=
  c <- get_ch p ;; modify (fun s => setf cs_chans (<[p := g c]> (cs_chans s)) s).
Definition upd_ring (p : ptr) (g : chan_rx_ring -> chan_rx_ring) : CM W unit :=
  upd_ch p (fun c => setf ch_rx_ring (g (ch_rx_ring c)) c).
Definition complete (p : ptr) : CM W unit :=
  upd_ch p (fun c => setf ch_comp (comp_complete (ch_comp c)) c).

(** ** Channel states and references *)

Definition riocm_cmp (ch : ptr) (cmp : rio_cm_state) : CM W bool :=
  c <- get_ch ch ;; ret (bool_decide (ch_state c = cmp)).

Definition riocm_cmp_exch (ch : ptr) (cmp exch : rio_cm_state) : CM W bool :=
  c <- get_ch ch ;;
  let r := bool_decide (ch_state c = cmp) in
  when r (upd_ch ch (setf ch_state exch)) ;;;
  ret r.

Definition riocm_exch (ch : ptr) (exch : rio_cm_state) : CM W rio_cm_state :=
  c <- get_ch ch ;;
  upd_ch ch (setf ch_state exch) ;;;
  ret (ch_state c).

Definition riocm_get_channel (nr : Z) : CM W (option ptr) :=
  ch <- gets (fun s => ch_idr s !! nr) ;;
  match ch with
  | Some p => upd_ch p (fun c => setf ch_ref (ch_ref c + 1) c) ;;; ret (Some p)
  | None => ret None
  end.

(** Freeing the buffers in an array while the count says that there are any; the
    entries stay, as the object is about to go. *)
Fixpoint free_slots (l : list (option ptr)) (cnt : Z) : CM W Z :=
  match l with
  | [] => ret cnt
  | b :: l' =>
      if cnt =? 0 then ret cnt
      else
        match b with
        | Some p => lift (kfree_buf p) ;;; free_slots l' (cnt - 1)
        | None => free_slots l' cnt
        end
  end.

Definition riocm_ch_free (ch : ptr) : CM W unit :=
  c <- get_ch ch ;;
  n <- free_slots (rr_inuse (ch_rx_ring c)) (rr_inuse_cnt (ch_rx_ring c)) ;;
  upd_ring ch (setf rr_inuse_cnt n) ;;;
  n <- free_slots (rr_buf (ch_rx_ring c)) (rr_count (ch_rx_ring c)) ;;
  upd_ring ch (setf rr_count n) ;;;
  upd_ch ch (fun c => setf ch_comp_close (comp_complete (ch_comp_close c)) c).

(** [kref_put]: the last reference frees. *)
Definition riocm_put_channel (ch : ptr) : CM W unit :=
  c <- get_ch ch ;;
  if ch_ref c <=? 0 then ub
  else
    upd_ch ch (setf ch_ref (ch_ref c - 1)) ;;;
    when (ch_ref c =? 1) (riocm_ch_free ch).

(** ** The receive queue of the mailbox *)

(** The first slot that holds the buffer. *)
Fixpoint find_slot (l : list (option ptr)) (p : option ptr) (i : nat) : option nat :=
  match l with
  | [] => None
  | b :: l' => if bool_decide (b = p) then Some i else find_slot l' p (S i)
  end.
End objects.

(** ** Fields of a packet *)

Section fields.
Context {W : Type} `{!KernelEnv W}.

Definition put_u8 (p : ptr) (off : nat) (v : Z) : CM W unit := lift (write_at p off (be_bytes 1 v)).
Definition put_be16 (p : ptr) (off : nat) (v : Z) : CM W unit := lift (write_at p off (be_bytes 2 v)).
Definition put_be32 (p : ptr) (off : nat) (v : Z) : CM W unit := lift (write_at p off (be_bytes 4 v)).
Definition get_u8 (p : ptr) (off : nat) : CM W Z := b <- lift (read_at p off 1) ;; ret (be_value b).
Definition get_be16 (p : ptr) (off : nat) : CM W Z := b <- lift (read_at p off 2) ;; ret (be_value b).
Definition get_be32 (p : ptr) (off : nat) : CM W Z := b <- lift (read_at p off 4) ;; ret (be_value b).
End fields.

(** ** The driver *)

Section driver.
Context {W : Type} `{!KernelEnv W} `{!CmEnv W}.
(** The module parameters: the mailbox and the first channel number for
    automatic allocation. *)
Context (cmbox chstart : Z).

Definition cm_mport (c : cm_dev) : CM W ptr := deref (cd_mport c).

Definition riocm_rx_get_msg (cm : ptr) : CM W (option ptr) :=
  c <- get_cm cm ;;
  mport <- cm_mport c ;;
  r <- lift (rio_get_inb_message mport cmbox) ;;
  let msg := fst <$> r in
  (match msg with
   | Some m =>
       match find_slot (cd_rx_buf c) (Some m) 0 with
       | Some i =>
           upd_cm cm (fun c => setf cd_rx_buf (<[i := None]> (cd_rx_buf c))
                                 (setf cd_rx_slots (cd_rx_slots c + 1) c))
       | None => ret tt
       end
   | None => ret tt
   end) ;;;
  ret msg.

(** The loop of [riocm_rx_fill]; it ends when the slots or the entries asked for
    are used up or there is no memory. *)
Fixpoint rx_fill_loop (cm : ptr) (slots : list nat) (nent : Z) : CM W unit :=
  match slots with
  | [] => ret tt
  | i :: slots' =>
      c <- get_cm cm ;;
      if truthy (cd_rx_slots c) && truthy nent then
        b <- deref (cd_rx_buf c !! i) ;;
        match b with
        | Some _ => rx_fill_loop cm slots' nent
        | None =>
            p <- lift (kmalloc_buf RIO_MAX_MSG_SIZE) ;;
            upd_cm cm (fun c => setf cd_rx_buf (<[i := p]> (cd_rx_buf c)) c) ;;;
            match p with
            | None => ret tt
            | Some p =>
                mport <- cm_mport c ;;
                lift (rio_add_inb_buffer mport cmbox p) ;;;
                upd_cm cm (fun c => setf cd_rx_slots (cd_rx_slots c - 1) c) ;;;
                rx_fill_loop cm slots' (nent - 1)
            end
        end
      else ret tt
  end.

Definition riocm_rx_fill (cm : ptr) (nent : Z) : CM W unit :=
  c <- get_cm cm ;;
  if cd_rx_slots c =? 0 then ret tt
  else rx_fill_loop cm (seq 0 (Z.to_nat RIOCM_RX_RING_SIZE)) nent.

Definition riocm_rx_free (cm : ptr) : CM W unit :=
  for_ (seq 0 (Z.to_nat RIOCM_RX_RING_SIZE)) (fun i =>
    c <- get_cm cm ;;
    b <- deref (cd_rx_buf c !! i) ;;
    match b with
    | Some p =>
        lift (kfree_buf p) ;;;
        upd_cm cm (fun c => setf cd_rx_buf (<[i := None]> (cd_rx_buf c)) c)
    | None => ret tt
    end).

(** ** Sending *)

Definition next_slot (i : Z) : Z := Z.land (i + 1) (RIOCM_TX_RING_SIZE - 1).

Definition riocm_queue_req (cm rdev buffer : ptr) (len : Z) : CM W Z :=
  ok <- core kzalloc ;;
  if ok : bool then
    upd_cm cm (fun c => setf cd_tx_reqs (cd_tx_reqs c ++ [mk_tx_req rdev buffer len]) c) ;;;
    ret 0
  else ret (- ENOMEM).

Definition riocm_post_send (cm rdev buffer : ptr) (len : Z) : CM W Z :=
  c <- get_cm cm ;;
  match cd_mport c with
  | None => ret (- ENODEV)
  | Some mport =>
      if cd_tx_cnt c =? RIOCM_TX_RING_SIZE then ret (- EBUSY)
      else
        tx <- slot_set (cd_tx_buf c) (cd_tx_slot c) (Some buffer) ;;
        upd_cm cm (setf cd_tx_buf tx) ;;;
        rc <- lift (rio_add_outb_message mport rdev cmbox buffer len) ;;
        upd_cm cm (fun c => setf cd_tx_cnt (cd_tx_cnt c + 1)
                              (setf cd_tx_slot (next_slot (cd_tx_slot c)) c)) ;;;
        ret rc
  end.

(** Filling a header; the message length is set by data messages only. *)
Definition fill_hdr (hdr : ptr) (src_id dst_id op dst_ch src_ch : Z) : CM W unit :=
  put_be32 hdr OFF_SRC_ID src_id ;;;
  put_be32 hdr OFF_DST_ID dst_id ;;;
  put_u8 hdr OFF_SRC_MBOX cmbox ;;;
  put_u8 hdr OFF_DST_MBOX cmbox ;;;
  put_u8 hdr OFF_TYPE RIO_CM_CHAN ;;;
  put_u8 hdr OFF_CH_OP op ;;;
  put_be16 hdr OFF_DST_CH dst_ch ;;;
  put_be16 hdr OFF_SRC_CH src_ch.

(** Sending a request packet: when the ring is full the packet goes to the queue
    of requests, which then owns it; else it is freed. *)
Definition send_request (cm rdev hdr : ptr) : CM W Z :=
  rc <- riocm_post_send cm rdev hdr HDR_SIZE ;;
  if rc =? - EBUSY then
    q <- riocm_queue_req cm rdev hdr HDR_SIZE ;;
    if q =? 0 then ret 0 else lift (kfree_buf hdr) ;;; ret rc
  else lift (kfree_buf hdr) ;;; ret rc.

(** The peer with a destination id. *)
Fixpoint find_peer (peers : list ptr) (destid : Z) : CM W (option ptr) :=
  match peers with
  | [] => ret None
  | rdev :: peers' =>
      d <- core (get_dev rdev) ;;
      if rd_destid d =? destid then ret (Some rdev) else find_peer peers' destid
  end.

Definition riocm_send_nack (cm : ptr) (rdestid rchan lchan : Z) : CM W Z :=
  c <- get_cm cm ;;
  peer <- find_peer (cd_peers c) rdestid ;;
  match peer with
  | None => ret (- ENODEV)
  | Some rdev =>
      hdr <- lift (kzalloc_buf HDR_SIZE) ;;
      match hdr with
      | None => ret (- ENOMEM)
      | Some hdr =>
          mport <- cm_mport c ;;
          mp <- core (get_mport mport) ;;
          fill_hdr hdr (mp_host_deviceid mp) rdestid CM_CONN_NACK rchan lchan ;;;
          send_request cm rdev hdr
      end
  end.

Definition riocm_send_ack (ch : ptr) : CM W Z :=
  cm_gap None ;;;
  hdr <- lift (kzalloc_buf HDR_SIZE) ;;
  match hdr with
  | None => ret (- ENOMEM)
  | Some hdr =>
      c <- get_ch ch ;;
      fill_hdr hdr (ch_loc_destid c) (ch_rem_destid c) CM_CONN_ACK (ch_rem_channel c) (ch_id c) ;;;
      cm <- deref (ch_cmdev c) ;;
      rdev <- deref (ch_rdev c) ;;
      send_request cm rdev hdr
  end.

Definition riocm_send_close (ch : ptr) : CM W Z :=
  cm_gap None ;;;
  hdr <- lift (kzalloc_buf HDR_SIZE) ;;
  match hdr with
  | None => ret (- ENOMEM)
  | Some hdr =>
      c <- get_ch ch ;;
      fill_hdr hdr (ch_loc_destid c) (ch_rem_destid c) CM_CONN_CLOSE (ch_rem_channel c) (ch_id c) ;;;
      cm <- deref (ch_cmdev c) ;;
      rdev <- deref (ch_rdev c) ;;
      send_request cm rdev hdr
  end.

(** Removing the slots that the hardware has sent, up to [slot]; a full ring has
    [slot] at its start. *)
Fixpoint ack_loop (fuel : nat) (cm : ptr) (slot ack_slot : Z) : CM W Z :=
  match fuel with
  | O => nofuel
  | S fuel' =>
      c <- get_cm cm ;;
      if truthy (cd_tx_cnt c) && (negb (ack_slot =? slot) || (cd_tx_cnt c =? RIOCM_TX_RING_SIZE)) then
        tx <- slot_set (cd_tx_buf c) ack_slot None ;;
        upd_cm cm (fun c => setf cd_tx_buf tx (setf cd_tx_cnt (cd_tx_cnt c - 1) c)) ;;;
        ack_loop fuel' cm slot (next_slot ack_slot)
      else ret ack_slot
  end.

(** Moving queued requests to the ring. *)
Fixpoint drain_reqs (cm : ptr) (reqs : list tx_req) : CM W unit :=
  match reqs with
  | [] => ret tt
  | req :: reqs' =>
      upd_cm cm (setf cd_tx_reqs reqs') ;;;
      c <- get_cm cm ;;
      tx <- slot_set (cd_tx_buf c) (cd_tx_slot c) (Some (tr_buffer req)) ;;
      upd_cm cm (setf cd_tx_buf tx) ;;;
      mport <- cm_mport c ;;
      lift (rio_add_outb_message mport (tr_rdev req) cmbox (tr_buffer req) (tr_len req)) ;;;
      lift (kfree_buf (tr_buffer req)) ;;;
      core kfree ;;;
      upd_cm cm (fun c => setf cd_tx_cnt (cd_tx_cnt c + 1)
                            (setf cd_tx_slot (next_slot (cd_tx_slot c)) c)) ;;;
      c <- get_cm cm ;;
      if cd_tx_cnt c =? RIOCM_TX_RING_SIZE then ret tt else drain_reqs cm reqs'
  end.

(** Enough rounds for a full ring. *)
Definition TX_FUEL : nat := 130.

Definition rio_txcq_handler (cm : ptr) (slot : Z) : CM W unit :=
  c <- get_cm cm ;;
  ack_slot <- ack_loop TX_FUEL cm slot (cd_tx_ack_slot c) ;;
  upd_cm cm (setf cd_tx_ack_slot ack_slot) ;;;
  c <- get_cm cm ;;
  when (cd_tx_cnt c <? RIOCM_TX_RING_SIZE) (drain_reqs cm (cd_tx_reqs c)).

Definition riocm_outb_msg_event (mport : ptr) (dev_id : option ptr) (mbox slot : Z) : CM W unit :=
  match dev_id with
  | Some cm =>
      c <- get_cm cm ;;
      mp <- cm_mport c ;;
      running <- core (rio_mport_is_running mp) ;;
      when running (rio_txcq_handler cm slot)
  | None => ret tt
  end.

(** ** Inbound packets *)

(** A request for a connection waits in the queue of a listening channel. *)
Definition riocm_req_handler (cm req_data : ptr) : CM W Z :=
  chnum <- get_be16 req_data OFF_DST_CH ;;
  let send_nack rc :=
    src_id <- get_be32 req_data OFF_SRC_ID ;;
    src_ch <- get_be16 req_data OFF_SRC_CH ;;
    riocm_send_nack cm src_id src_ch chnum ;;;
    ret rc in
  ch <- riocm_get_channel chnum ;;
  match ch with
  | None => send_nack (- ENODEV)
  | Some ch =>
      c <- get_ch ch ;;
      if negb (bool_decide (ch_state c = RIO_CM_LISTEN)) then
        riocm_put_channel ch ;;;
        send_nack (- EINVAL)
      else
        ok <- core kzalloc ;;
        if ok : bool then
          src_id <- get_be32 req_data OFF_SRC_ID ;;
          src_ch <- get_be16 req_data OFF_SRC_CH ;;
          upd_ch ch (fun c => setf ch_accept_queue
            (ch_accept_queue c ++ [mk_conn_req src_id src_ch cm]) c) ;;;
          complete ch ;;;
          riocm_put_channel ch ;;;
          ret 0
        else
          riocm_put_channel ch ;;;
          send_nack (- ENOMEM)
  end.

Definition riocm_resp_handler (resp_data : ptr) : CM W Z :=
  chnum <- get_be16 resp_data OFF_DST_CH ;;
  ch <- riocm_get_channel chnum ;;
  match ch with
  | None => ret (- ENODEV)
  | Some ch =>
      c <- get_ch ch ;;
      if negb (bool_decide (ch_state c = RIO_CM_CONNECT)) then
        riocm_put_channel ch ;;; ret (- EINVAL)
      else
        cm_gap (Some ch) ;;;
        op <- get_u8 resp_data OFF_CH_OP ;;
        when (op =? CM_CONN_ACK)
          (riocm_exch ch RIO_CM_CONNECTED ;;;
           src_ch <- get_be16 resp_data OFF_SRC_CH ;;
           upd_ch ch (setf ch_rem_channel src_ch)) ;;;
        complete ch ;;;
        riocm_put_channel ch ;;;
        ret 0
  end.

(** Closing: the table no longer has the channel when this is called.  The object
    is freed when its last user is gone within the time limit. *)
Definition riocm_ch_close (ch : ptr) : CM W Z :=
  state <- riocm_exch ch RIO_CM_DESTROYING ;;
  when (bool_decide (state = RIO_CM_CONNECTED)) (riocm_send_close ch ;;; ret tt) ;;;
  upd_ch ch (setf ch_comp COMPLETE_ALL) ;;;
  riocm_put_channel ch ;;;
  wret <- cm_wait false ch (msecs_to_jiffies 3000) ;;
  let rc := if wret =? 0 then - ETIMEDOUT else if wret =? - ERESTARTSYS then - EINTR else 0 in
  if rc =? 0 then
    get_ch ch ;;;
    modify (fun s => setf cs_chans (delete ch (cs_chans s)) s) ;;;
    core kfree ;;;
    ret 0
  else ret rc.

Definition idr_remove (id : Z) : CM W unit :=
  modify (fun s => setf ch_idr (delete id (ch_idr s)) s).

Definition riocm_close_handler (data : ptr) : CM W Z :=
  chnum <- get_be16 data OFF_DST_CH ;;
  ch <- gets (fun s => ch_idr s !! chnum) ;;
  match ch with
  | None => ret (- ENODEV)
  | Some ch =>
      c <- get_ch ch ;;
      idr_remove (ch_id c) ;;;
      riocm_exch ch RIO_CM_DISCONNECT ;;;
      riocm_ch_close ch ;;;
      ret 0
  end.

Definition rio_cm_handler (cm data : ptr) : CM W unit :=
  c <- get_cm cm ;;
  mport <- cm_mport c ;;
  running <- core (rio_mport_is_running mport) ;;
  when running
    (op <- get_u8 data OFF_CH_OP ;;
     if op =? CM_CONN_REQ then riocm_req_handler cm data ;;; ret tt
     else if (op =? CM_CONN_ACK) || (op =? CM_CONN_NACK) then riocm_resp_handler data ;;; ret tt
     else if op =? CM_CONN_CLOSE then riocm_close_handler data ;;; ret tt
     else ret tt) ;;;
  lift (kfree_buf data).

(** Placing a buffer at the head of the receive ring. *)
Definition ring_push (ring : chan_rx_ring) (buf : ptr) : CM W chan_rx_ring :=
  b <- slot_set (rr_buf ring) (rr_head ring) (Some buf) ;;
  ret (setf rr_buf b (setf rr_head (Z.rem (rr_head ring + 1) RIOCM_RX_RING_SIZE)
    (setf rr_count (rr_count ring + 1) ring))).

Definition rio_rx_data_handler (cm buf : ptr) : CM W Z :=
  chnum <- get_be16 buf OFF_DST_CH ;;
  ch <- riocm_get_channel chnum ;;
  match ch with
  | None => lift (kfree_buf buf) ;;; ret (- ENODEV)
  | Some ch =>
      c <- get_ch ch ;;
      if negb (bool_decide (ch_state c = RIO_CM_CONNECTED)) then
        lift (kfree_buf buf) ;;;
        riocm_put_channel ch ;;;
        ret (- EIO)
      else if rr_count (ch_rx_ring c) =? RIOCM_RX_RING_SIZE then
        lift (kfree_buf buf) ;;;
        riocm_put_channel ch ;;;
        ret (- ENOMEM)
      else
        ring <- ring_push (ch_rx_ring c) buf ;;
        upd_ring ch (fun _ => ring) ;;;
        complete ch ;;;
        riocm_put_channel ch ;;;
        ret 0
  end.

(** One round of [rio_ibmsg_handler]. *)
Definition ibmsg_step (cm : ptr) (_ : unit) : CM W (unit + unit) :=
  data <- riocm_rx_get_msg cm ;;
  match data with
  | None => ret (inr tt)
  | Some data =>
      riocm_rx_fill cm 1 ;;;
      type <- get_u8 data OFF_TYPE ;;
      (if negb (type =? RIO_CM_CHAN) then lift (kfree_buf data)
       else
         op <- get_u8 data OFF_CH_OP ;;
         if op =? CM_DATA_MSG then rio_rx_data_handler cm data ;;; ret tt
         else rio_cm_handler cm data) ;;;
      ret (inl tt)
  end.

(** [fuel] bounds the number of messages that are there. *)
Definition rio_ibmsg_handler (fuel : nat) (cm : ptr) : CM W unit :=
  core kfree ;;;
  c <- get_cm cm ;;
  mport <- cm_mport c ;;
  running <- core (rio_mport_is_running mport) ;;
  when running (loop fuel (ibmsg_step cm) tt).

Definition riocm_inb_msg_event (mport cm : ptr) (mbox slot : Z) : CM W unit :=
  c <- get_cm cm ;;
  mp <- cm_mport c ;;
  running <- core (rio_mport_is_running mp) ;;
  if running : bool then
    ok <- core kzalloc ;;
    when ok (modify (fun s => setf cs_works (cs_works s ++ [cm]) s))
  else ret tt.

(** ** Data messages *)

Definition riocm_ch_send (chid : Z) (buf : option ptr) (len : Z) : CM W Z :=
  match buf with
  | None => ret (- EINVAL)
  | Some buf =>
      if (chid =? 0) || (len =? 0) || (RIO_MAX_MSG_SIZE <? len) then ret (- EINVAL)
      else
        ch <- riocm_get_channel chid ;;
        match ch with
        | None => ret (- ENODEV)
        | Some ch =>
            ok <- riocm_cmp ch RIO_CM_CONNECTED ;;
            rc <- (if ok : bool then
                     c <- get_ch ch ;;
                     fill_hdr buf (ch_loc_destid c) (ch_rem_destid c) CM_DATA_MSG
                       (ch_rem_channel c) (ch_id c) ;;;
                     put_be16 buf OFF_MSG_LEN len ;;;
                     cm <- deref (ch_cmdev c) ;;
                     rdev <- deref (ch_rdev c) ;;
                     riocm_post_send cm rdev buf len
                   else ret (- EAGAIN)) ;;
            riocm_put_channel ch ;;;
            ret rc
        end
  end.

Definition riocm_ch_free_rxbuf (ch : ptr) (buf : option ptr) : CM W Z :=
  c <- get_ch ch ;;
  match find_slot (rr_inuse (ch_rx_ring c)) buf 0 with
  | Some i =>
      upd_ring ch (fun r => setf rr_inuse (<[i := None]> (rr_inuse r))
        (setf rr_inuse_cnt (rr_inuse_cnt r - 1) r)) ;;;
      lift (kfree_opt buf) ;;;
      ret 0
  | None => ret (- EINVAL)
  end.

(** Taking the buffer at the tail of the ring (none for an empty slot). *)
Definition ring_pop (ring : chan_rx_ring) : CM W (option ptr * chan_rx_ring) :=
  b <- slot_get (rr_buf ring) (rr_tail ring) ;;
  bufs <- slot_set (rr_buf ring) (rr_tail ring) None ;;
  ret (b, setf rr_buf bufs (setf rr_tail (Z.rem (rr_tail ring + 1) RIOCM_RX_RING_SIZE)
    (setf rr_count (rr_count ring - 1) ring))).

(** What [riocm_ch_receive] does after its wait has succeeded. *)
Definition receive_buf (ch : ptr) : CM W (Z * option ptr) :=
  c <- get_ch ch ;;
  let! (rxmsg, ring) := ring_pop (ch_rx_ring c) ;;
  match find_slot (rr_inuse ring) None 0 with
  | Some i =>
      upd_ring ch (fun _ => setf rr_inuse (<[i := rxmsg]> (rr_inuse ring))
        (setf rr_inuse_cnt (rr_inuse_cnt ring + 1) ring)) ;;;
      ret (0, rxmsg)
  | None =>
      upd_ring ch (fun _ => ring) ;;;
      lift (kfree_opt rxmsg) ;;;
      ret (- ENOMEM, None)
  end.

(** The result and the buffer stored through [buf]. *)
Definition riocm_ch_receive (ch : ptr) (timeout : Z) : CM W (Z * option ptr) :=
  ok <- riocm_cmp ch RIO_CM_CONNECTED ;;
  if negb ok then ret (- EAGAIN, None)
  else
    c <- get_ch ch ;;
    if rr_inuse_cnt (ch_rx_ring c) =? RIOCM_RX_RING_SIZE then ret (- ENOMEM, None)
    else
      wret <- cm_wait true ch timeout ;;
      rc <- (if wret =? 0 then ret (- ETIME)
             else if wret =? - ERESTARTSYS then ret (- EINTR)
             else
               ok <- riocm_cmp ch RIO_CM_CONNECTED ;;
               ret (if ok : bool then 0 else - ECONNRESET)) ;;
      if truthy rc then ret (rc, None) else receive_buf ch.
End driver.
