(* ===== verification/RioCmOps.v ===== *)
(** * Channelized messaging (rio_cm.c): channel operations and the char device

    Connecting, accepting, listening and binding; the ioctl handlers with their
    copies from and to user memory; the coming and going of devices and ports;
    the set-up of the driver. *)

From stdpp Require Import sorting.
From S2P Require Import Prelude Regs State Mbox Msg RioCm.

(** Table entries in the order of their numbers. *)
Definition id_le (a b : Z * ptr) : Prop := a.1 <= b.1.
#[export] Instance id_le_dec a b : Decision (id_le a b).
Proof. unfold id_le. apply _. Defined.

Section ops.
Context {W : Type} `{!KernelEnv W} `{!CmEnv W}.
Context (cmbox chstart : Z).

(** ** Connecting *)

Definition riocm_ch_connect (loc_ch : Z) (cm rdev : ptr) (rem_ch : Z) : CM W Z :=
  ch <- riocm_get_channel loc_ch ;;
  match ch with
  | None => ret (- ENODEV)
  | Some ch =>
      ok <- riocm_cmp_exch ch RIO_CM_IDLE RIO_CM_CONNECT ;;
      rc <- (if negb ok then ret (- EINVAL)
             else
               c <- get_cm cm ;;
               mport <- cm_mport c ;;
               mp <- core (get_mport mport) ;;
               upd_ch ch (fun x => setf ch_cmdev (Some cm) (setf ch_rdev (Some rdev)
                 (setf ch_context None (setf ch_loc_destid (u32 (mp_host_deviceid mp))
                   (setf ch_rem_channel rem_ch x))))) ;;;
               cm_gap None ;;;
               hdr <- lift (kzalloc_buf HDR_SIZE) ;;
               match hdr with
               | None => ret (- ENOMEM)
               | Some hdr =>
                   d <- core (get_dev rdev) ;;
                   fill_hdr cmbox hdr (u32 (mp_host_deviceid mp)) (rd_destid d) CM_CONN_REQ rem_ch loc_ch ;;;
                   rc <- riocm_post_send cmbox cm rdev hdr HDR_SIZE ;;
                   rc <- (if negb (rc =? - EBUSY) then lift (kfree_buf hdr) ;;; ret rc
                          else
                            q <- riocm_queue_req cm rdev hdr HDR_SIZE ;;
                            when (truthy q) (lift (kfree_buf hdr)) ;;;
                            ret q) ;;
                   if truthy rc then
                     riocm_cmp_exch ch RIO_CM_CONNECT RIO_CM_IDLE ;;; ret rc
                   else
                     wret <- cm_wait true ch (RIOCM_CONNECT_TO * env_HZ) ;;
                     if wret =? 0 then ret (- ETIME)
                     else if wret =? - ERESTARTSYS then ret (- EINTR)
                     else
                       ok <- riocm_cmp ch RIO_CM_CONNECTED ;;
                       ret (if ok : bool then 0 else - ECONNREFUSED)
               end) ;;
      riocm_put_channel ch ;;;
      ret rc
  end.

(** ** Channel objects *)

(** An error-valued pointer is [inl] of its error.  The new object is in the table
    only with its fields set; the code lists it first and sets them then. *)
Definition riocm_ch_alloc (ch_num : Z) : CM W (Z + ptr) :=
  cm_gap None ;;;
  ok <- core kzalloc ;;
  if negb ok then ret (inl (- ENOMEM))
  else
    let '(start, end_) :=
      if truthy ch_num then (ch_num, ch_num + 1) else (chstart, RIOCM_MAX_CHNUM + 1) in
    ch <- core fresh_ptr ;;
    idr <- gets ch_idr ;;
    id <- core (hw_call (idr_pick idr start end_)) ;;
    if id <? 0 then
      core kfree ;;; ret (inl (if id =? - ENOSPC then - EBUSY else id))
    else
      modify (fun s => setf ch_idr (<[id := ch]> (ch_idr s)) s) ;;;
      modify (fun s => setf cs_chans (<[ch := mk_rio_channel (u16 id) 1 None None None RIO_CM_IDLE None
        0 0 0 [] 0 0 zero_rx_ring]> (cs_chans s)) s) ;;;
      ret (inr ch).

(** The number is returned through the argument. *)
Definition riocm_ch_create (ch_num : Z) : CM W ((Z + ptr) * Z) :=
  r <- riocm_ch_alloc ch_num ;;
  match r with
  | inl e => ret (inl e, ch_num)
  | inr ch => c <- get_ch ch ;; ret (inr ch, ch_id c)
  end.

(** ** Accepting *)

(** The wait of [riocm_ch_accept] and what it finds then. *)
Definition accept_wait (ch : ptr) (timeout : Z) : CM W Z :=
  ok <- riocm_cmp ch RIO_CM_LISTEN ;;
  if negb ok then ret (- EINVAL)
  else
    err <- (if timeout =? 0 then
              c <- get_ch ch ;;
              match comp_try_wait (ch_comp c) with
              | Some n => upd_ch ch (setf ch_comp n) ;;; ret 0
              | None => ret (- EAGAIN)
              end
            else
              wret <- cm_wait true ch timeout ;;
              ret (if wret =? 0 then - ETIME else if wret =? - ERESTARTSYS then - EINTR else 0)) ;;
    if truthy err then ret err
    else
      c <- get_ch ch ;;
      ret (if negb (bool_decide (ch_state c = RIO_CM_LISTEN)) then - ECANCELED
           else match ch_accept_queue c with [] => - EIO | _ => 0 end).

(** Taking the first request into a new channel. *)
Definition accept_request (ch new_ch : ptr) : CM W unit :=
  c <- get_ch ch ;;
  match ch_accept_queue c with
  | [] => ub
  | req :: queue =>
      upd_ch ch (setf ch_accept_queue queue) ;;;
      upd_ch new_ch (fun x => setf ch_cmdev (ch_cmdev c) (setf ch_loc_destid (ch_loc_destid c)
        (setf ch_rem_destid (cr_destid req) (setf ch_rem_channel (cr_chan req) x)))) ;;;
      riocm_put_channel ch ;;;
      core kfree
  end.

(** The result and the new channel number stored through [new_ch_id], which a
    call that does not find the channel leaves alone. *)
Definition riocm_ch_accept (chid new_ch_id timeout : Z) : CM W ((Z + ptr) * Z) :=
  ch <- riocm_get_channel chid ;;
  match ch with
  | None => ret (inl (- EINVAL), new_ch_id)
  | Some ch =>
      err <- accept_wait ch timeout ;;
      if truthy err then riocm_put_channel ch ;;; ret (inl err, 0)
      else
        r <- riocm_ch_alloc RIOCM_CHNUM_AUTO ;;
        match r with
        | inl _ => riocm_put_channel ch ;;; ret (inl (- ENOMEM), 0)
        | inr new_ch =>
            accept_request ch new_ch ;;;
            cm_gap (Some new_ch) ;;;
            n <- get_ch new_ch ;;
            cm <- deref (ch_cmdev n) ;;
            c <- get_cm cm ;;
            peer <- find_peer (cd_peers c) (ch_rem_destid n) ;;
            match peer with
            | None =>
                idr_remove (ch_id n) ;;;
                riocm_put_channel new_ch ;;;
                ret (inl (- ENODEV), 0)
            | Some rdev =>
                upd_ch new_ch (fun x => setf ch_rdev (Some rdev) (setf ch_state RIO_CM_CONNECTED x)) ;;;
                riocm_send_ack cmbox new_ch ;;;
                n <- get_ch new_ch ;;
                ret (inr new_ch, ch_id n)
            end
        end
  end.

(** ** Listening and binding *)

(** [riocm_put_channel] is called without a channel as well. *)
Definition riocm_ch_listen (chid : Z) : CM W Z :=
  ch <- riocm_get_channel chid ;;
  rc <- (match ch with
         | None => ret (- EINVAL)
         | Some ch =>
             ok <- riocm_cmp_exch ch RIO_CM_CHAN_BOUND RIO_CM_LISTEN ;;
             ret (if ok : bool then 0 else - EINVAL)
         end) ;;
  ch <- deref ch ;;
  riocm_put_channel ch ;;;
  ret rc.

(** The first cm device whose port satisfies [test]. *)
Fixpoint find_cm (test : rio_mport W -> ptr -> bool) (l : list ptr) : CM W (option ptr) :=
  match l with
  | [] => ret None
  | cm :: l' =>
      c <- get_cm cm ;;
      mport <- cm_mport c ;;
      mp <- core (get_mport mport) ;;
      if test mp mport then ret (Some cm) else find_cm test l'
  end.

Definition riocm_ch_bind (chid mport_id : Z) (context : option ptr) : CM W Z :=
  l <- gets cm_dev_list ;;
  cm <- find_cm (fun mp _ => (mp_id mp =? mport_id) &&
                  bool_decide (mp_state mp = RIO_DEVICE_RUNNING)) l ;;
  match cm with
  | None => ret (- ENODEV)
  | Some cm =>
      ch <- riocm_get_channel chid ;;
      match ch with
      | None => ret (- EINVAL)
      | Some ch =>
          c <- get_ch ch ;;
          rc <- (if negb (bool_decide (ch_state c = RIO_CM_IDLE)) then ret (- EINVAL)
                 else
                   cd <- get_cm cm ;;
                   mport <- cm_mport cd ;;
                   mp <- core (get_mport mport) ;;
                   upd_ch ch (fun x => setf ch_cmdev (Some cm)
                     (setf ch_loc_destid (u32 (mp_host_deviceid mp))
                       (setf ch_context context (setf ch_state RIO_CM_CHAN_BOUND x)))) ;;;
                   ret 0) ;;
          riocm_put_channel ch ;;;
          ret rc
      end
  end.

(** ** All channels, in the order of their numbers *)

Definition idr_entries : CM W (list (Z * ptr)) :=
  gets (fun s => merge_sort id_le (map_to_list (ch_idr s))).

(** Taking the channels that satisfy [test] out of the table; the result is in
    the order in which they are closed then, the last one first. *)
Fixpoint take_channels (test : rio_channel -> bool) (before : ptr -> CM W unit)
    (l : list (Z * ptr)) (taken : list ptr) : CM W (list ptr) :=
  match l with
  | [] => ret taken
  | (_, ch) :: l' =>
      c <- get_ch ch ;;
      if test c then
        before ch ;;;
        idr_remove (ch_id c) ;;;
        take_channels test before l' (ch :: taken)
      else take_channels test before l' taken
  end.
Definition close_channels (test : rio_channel -> bool) (before : ptr -> CM W unit) : CM W unit :=
  l <- idr_entries ;;
  taken <- take_channels test before l [] ;;
  for_ taken (fun ch => riocm_ch_close cmbox ch ;;; ret tt).

(** ** The char device *)

Definition riocm_cdev_open : CM W Z :=
  l <- gets cm_dev_list ;;
  ret (match l with [] => - ENODEV | _ => 0 end).

Definition riocm_cdev_release (filp : ptr) : CM W Z :=
  close_channels (fun c => bool_decide (ch_filp c = Some filp)) (fun _ => ret tt) ;;;
  ret 0.

(** User memory: [copy_from_user] of a whole object and [copy_to_user]. *)
Definition copy_from_user (arg len : Z) : CM W (option (list Z)) :=
  core (gets (fun s => user_read arg len (ks_hw s))).
Definition copy_to_user (arg : Z) (bytes : list Z) : CM W bool :=
  core (hw_call (user_write arg bytes)).

(** The 32-bit integers of a kernel buffer, in the byte order of the host. *)
Definition put_u32 (buf : ptr) (i : nat) (v : Z) : CM W unit :=
  lift (write_at buf (4 * i) (le_bytes 4 v)).
Definition le_at (off n : nat) (bytes : list Z) : Z := le_value (get_bytes off n bytes).

Definition cm_ep_get_list_size (arg : Z) : CM W Z :=
  b <- copy_from_user arg 4 ;;
  match b with
  | None => ret (- EFAULT)
  | Some b =>
      let mport_id := le_at 0 4 b in
      if RIO_MAX_MPORTS <=? mport_id then ret (- EINVAL)
      else
        l <- gets cm_dev_list ;;
        cm <- find_cm (fun mp _ => mp_id mp =? mport_id) l ;;
        match cm with
        | None => ret (- ENODEV)
        | Some cm =>
            c <- get_cm cm ;;
            ok <- copy_to_user arg (le_bytes 4 (cd_npeers c)) ;;
            ret (if ok : bool then 0 else - EFAULT)
        end
  end.

(** Storing the ids of the peers behind the first two words; the loop ends when
    [i] has become [nent]. *)
Fixpoint ep_list_loop (buf : ptr) (peers : list ptr) (nent i : Z) : CM W Z :=
  match peers with
  | [] => ret i
  | rdev :: peers' =>
      d <- core (get_dev rdev) ;;
      put_u32 buf (Z.to_nat (i + 2)) (rd_destid d) ;;;
      if i + 1 =? nent then ret (i + 1) else ep_list_loop buf peers' nent (i + 1)
  end.

Definition cm_ep_get_list (arg : Z) : CM W Z :=
  b <- copy_from_user arg 8 ;;
  match b with
  | None => ret (- EFAULT)
  | Some b =>
      let info0 := le_at 0 4 b in
      let info1 := le_at 4 4 b in
      if (RIO_MAX_MPORTS <=? info1) || (RIOCM_MAX_EP_COUNT <? info0) then ret (- EINVAL)
      else
        l <- gets cm_dev_list ;;
        cm <- find_cm (fun mp _ => mp_id mp =? u8 info1) l ;;
        match cm with
        | None => ret (- ENODEV)
        | Some cm =>
            c <- get_cm cm ;;
            let nent := Z.min info0 (cd_npeers c) in
            buf <- lift (kzalloc_buf (4 * (nent + 2))) ;;
            match buf with
            | None => ret (- ENOMEM)
            | Some buf =>
                i <- ep_list_loop buf (cd_peers c) nent 0 ;;
                put_u32 buf 0 i ;;;
                put_u32 buf 1 info1 ;;;
                bytes <- lift (read_at buf 0 (Z.to_nat (4 * (info0 + 2)))) ;;
                ok <- copy_to_user arg bytes ;;
                lift (kfree_buf buf) ;;;
                ret (if ok : bool then 0 else - EFAULT)
            end
        end
  end.

(** Storing the ports behind the first word; all are counted. *)
Fixpoint mport_list_loop (buf : ptr) (l : list ptr) (entries count : Z) : CM W Z :=
  match l with
  | [] => ret count
  | cm :: l' =>
      c <- get_cm cm ;;
      when (count <? entries)
        (mport <- cm_mport c ;;
         mp <- core (get_mport mport) ;;
         put_u32 buf (Z.to_nat (count + 1))
           (Z.lor (Z.shiftl (mp_id mp) 16) (mp_host_deviceid mp))) ;;;
      mport_list_loop buf l' entries (count + 1)
  end.

Definition cm_mport_get_list (arg : Z) : CM W Z :=
  b <- copy_from_user arg 4 ;;
  match b with
  | None => ret (- EFAULT)
  | Some b =>
      let entries := le_at 0 4 b in
      if (entries =? 0) || (RIO_MAX_MPORTS <? entries) then ret (- EINVAL)
      else
        buf <- lift (kzalloc_buf (4 * (entries + 1))) ;;
        match buf with
        | None => ret (- ENOMEM)
        | Some buf =>
            l <- gets cm_dev_list ;;
            count <- mport_list_loop buf l entries 0 ;;
            put_u32 buf 0 count ;;;
            bytes <- lift (read_at buf 0 (Z.to_nat (4 * (count + 1)))) ;;
            ok <- copy_to_user arg bytes ;;
            lift (kfree_buf buf) ;;;
            ret (if ok : bool then 0 else - EFAULT)
        end
  end.

(** *** Channels *)

(** The file is noted in the new channel before the number is copied out. *)
Definition cm_chan_create (filp : ptr) (arg : Z) : CM W Z :=
  b <- copy_from_user arg 2 ;;
  match b with
  | None => ret (- EFAULT)
  | Some b =>
      let! (r, ch_num) := riocm_ch_create (le_at 0 2 b) ;;
      match r with
      | inl e => ret e
      | inr ch =>
          upd_ch ch (setf ch_filp (Some filp)) ;;;
          ok <- copy_to_user arg (le_bytes 2 ch_num) ;;
          ret (if ok : bool then 0 else - EFAULT)
      end
  end.

Definition cm_chan_close (filp : ptr) (arg : Z) : CM W Z :=
  b <- copy_from_user arg 2 ;;
  match b with
  | None => ret (- EFAULT)
  | Some b =>
      ch <- gets (fun s => ch_idr s !! le_at 0 2 b) ;;
      match ch with
      | None => ret 0
      | Some ch =>
          c <- get_ch ch ;;
          if negb (bool_decide (ch_filp c = Some filp)) then ret (- EINVAL)
          else idr_remove (ch_id c) ;;; riocm_ch_close cmbox ch
      end
  end.

(** struct rio_cm_channel as it lies in memory: its fields and size. *)
Definition CHANNEL_SIZE : Z := 8.
Definition chan_id (b : list Z) : Z := le_at 0 2 b.
Definition chan_remote_channel (b : list Z) : Z := le_at 2 2 b.
Definition chan_remote_destid (b : list Z) : Z := le_at 4 2 b.
Definition chan_mport_id (b : list Z) : Z := le_at 6 1 b.

Definition cm_chan_bind (arg : Z) : CM W Z :=
  b <- copy_from_user arg CHANNEL_SIZE ;;
  match b with
  | None => ret (- EFAULT)
  | Some b =>
      if RIO_MAX_MPORTS <=? chan_mport_id b then ret (- EINVAL)
      else riocm_ch_bind (chan_id b) (chan_mport_id b) None
  end.

Definition cm_chan_listen (arg : Z) : CM W Z :=
  b <- copy_from_user arg 2 ;;
  match b with
  | None => ret (- EFAULT)
  | Some b => riocm_ch_listen (le_at 0 2 b)
  end.

(** struct rio_cm_accept: ch_num, padding and wait_to. *)
Definition cm_chan_accept (filp : ptr) (arg : Z) : CM W Z :=
  b <- copy_from_user arg 8 ;;
  match b with
  | None => ret (- EFAULT)
  | Some b =>
      let wait_to := le_at 4 4 b in
      let accept_to := if truthy wait_to then msecs_to_jiffies wait_to else 0 in
      let! (r, ch_num) := riocm_ch_accept (le_at 0 2 b) (le_at 0 2 b) accept_to ;;
      match r with
      | inl e => ret e
      | inr ch =>
          upd_ch ch (setf ch_filp (Some filp)) ;;;
          ok <- copy_to_user arg (put_bytes 0 (le_bytes 2 ch_num) b) ;;
          ret (if ok : bool then 0 else - EFAULT)
      end
  end.

Definition cm_chan_connect (arg : Z) : CM W Z :=
  b <- copy_from_user arg CHANNEL_SIZE ;;
  match b with
  | None => ret (- EFAULT)
  | Some b =>
      if RIO_MAX_MPORTS <=? chan_mport_id b then ret (- EINVAL)
      else
        l <- gets cm_dev_list ;;
        cm <- find_cm (fun mp _ => mp_id mp =? chan_mport_id b) l ;;
        match cm with
        | None => ret (- ENODEV)
        | Some cm =>
            c <- get_cm cm ;;
            mport <- cm_mport c ;;
            mp <- core (get_mport mport) ;;
            if RIO_ANY_DESTID (mp_sys_size mp) <=? chan_remote_destid b then ret (- EINVAL)
            else
              peer <- find_peer (cd_peers c) (chan_remote_destid b) ;;
              match peer with
              | None => ret (- ENODEV)
              | Some rdev => riocm_ch_connect (chan_id b) cm rdev (chan_remote_channel b)
              end
        end
  end.

(** struct rio_cm_msg: ch_num, size, rxto and the address of the message. *)
Definition MSG_SIZE : Z := 16.
Definition msg_ch_num (b : list Z) : Z := le_at 0 2 b.
Definition msg_size (b : list Z) : Z := le_at 2 2 b.
Definition msg_rxto (b : list Z) : Z := le_at 4 4 b.
Definition msg_msg (b : list Z) : Z := le_at 8 8 b.

(** [memdup_user]: a copy of user memory in a new buffer. *)
Definition memdup_user (addr len : Z) : CM W (Z + ptr) :=
  p <- lift (kzalloc_buf len) ;;
  match p with
  | None => ret (inl (- ENOMEM))
  | Some p =>
      b <- copy_from_user addr len ;;
      match b with
      | None => lift (kfree_buf p) ;;; ret (inl (- EFAULT))
      | Some b => lift (write_at p 0 b) ;;; ret (inr p)
      end
  end.

Definition cm_chan_msg_send (arg : Z) : CM W Z :=
  b <- copy_from_user arg MSG_SIZE ;;
  match b with
  | None => ret (- EFAULT)
  | Some b =>
      if RIO_MAX_MSG_SIZE <? msg_size b then ret (- EINVAL)
      else
        buf <- memdup_user (msg_msg b) (msg_size b) ;;
        match buf with
        | inl e => ret e
        | inr buf =>
            rc <- riocm_ch_send cmbox (msg_ch_num b) (Some buf) (msg_size b) ;;
            lift (kfree_buf buf) ;;;
            ret rc
        end
  end.

(** MAX_SCHEDULE_TIMEOUT of the kernel: LONG_MAX. *)
Definition MAX_SCHEDULE_TIMEOUT : Z := 2 ^ 63 - 1.

(** Copying a received message out; [buf] may be null. *)
Definition copy_msg (addr : Z) (buf : option ptr) (len : Z) : CM W bool :=
  p <- deref buf ;;
  bytes <- lift (read_at p 0 (Z.to_nat len)) ;;
  copy_to_user addr bytes.

Definition cm_chan_msg_rcv (arg : Z) : CM W Z :=
  b <- copy_from_user arg MSG_SIZE ;;
  match b with
  | None => ret (- EFAULT)
  | Some b =>
      if (msg_ch_num b =? 0) || (msg_size b =? 0) then ret (- EINVAL)
      else
        ch <- riocm_get_channel (msg_ch_num b) ;;
        match ch with
        | None => ret (- ENODEV)
        | Some ch =>
            let rxto := if truthy (msg_rxto b) then msecs_to_jiffies (msg_rxto b)
                        else MAX_SCHEDULE_TIMEOUT in
            let! (rc, buf) := riocm_ch_receive ch rxto ;;
            rc <- (if truthy rc then ret rc
                   else
                     ok <- copy_msg (msg_msg b) buf (Z.min (msg_size b) RIO_MAX_MSG_SIZE) ;;
                     riocm_ch_free_rxbuf ch buf ;;;
                     ret (if ok : bool then 0 else - EFAULT)) ;;
            riocm_put_channel ch ;;;
            ret rc
        end
  end.

(** The commands of the char device. *)
Inductive cm_ioctl :=
| RIO_CM_EP_GET_LIST_SIZE | RIO_CM_EP_GET_LIST | RIO_CM_CHAN_CREATE | RIO_CM_CHAN_CLOSE
| RIO_CM_CHAN_BIND | RIO_CM_CHAN_LISTEN | RIO_CM_CHAN_ACCEPT | RIO_CM_CHAN_CONNECT
| RIO_CM_CHAN_SEND | RIO_CM_CHAN_RECEIVE | RIO_CM_MPORT_GET_LIST | cm_ioctl_other.

Definition riocm_cdev_ioctl (filp : ptr) (cmd : cm_ioctl) (arg : Z) : CM W Z :=
  match cmd with
  | RIO_CM_EP_GET_LIST_SIZE => cm_ep_get_list_size arg
  | RIO_CM_EP_GET_LIST => cm_ep_get_list arg
  | RIO_CM_CHAN_CREATE => cm_chan_create filp arg
  | RIO_CM_CHAN_CLOSE => cm_chan_close filp arg
  | RIO_CM_CHAN_BIND => cm_chan_bind arg
  | RIO_CM_CHAN_LISTEN => cm_chan_listen arg
  | RIO_CM_CHAN_ACCEPT => cm_chan_accept filp arg
  | RIO_CM_CHAN_CONNECT => cm_chan_connect arg
  | RIO_CM_CHAN_SEND => cm_chan_msg_send arg
  | RIO_CM_CHAN_RECEIVE => cm_chan_msg_rcv arg
  | RIO_CM_MPORT_GET_LIST => cm_mport_get_list arg
  | cm_ioctl_other => ret (- EINVAL)
  end.

(** ** Devices and ports that come and go *)

Definition dev_cm_capable (d : rio_dev) : bool :=
  truthy (Z.land (rd_src_ops d) RIO_SRC_OPS_DATA_MSG) &&
  truthy (Z.land (rd_dst_ops d) RIO_DST_OPS_DATA_MSG).

Definition riocm_add_dev (rdev : ptr) : CM W Z :=
  d <- core (get_dev rdev) ;;
  if negb (dev_cm_capable d) then ret 0
  else
    ok <- core kzalloc ;;
    if negb ok then ret (- ENOMEM)
    else
      l <- gets cm_dev_list ;;
      hport <- core (dev_hport d) ;;
      cm <- find_cm (fun _ mport => bool_decide (mport = hport)) l ;;
      match cm with
      | None => core kfree ;;; ret (- ENODEV)
      | Some cm =>
          upd_cm cm (fun c => setf cd_peers (cd_peers c ++ [rdev])
            (setf cd_npeers (u32 (cd_npeers c + 1)) c)) ;;;
          ret 0
      end.

(** Deleting the first occurrence. *)
Fixpoint del_peer (rdev : ptr) (l : list ptr) : option (list ptr) :=
  match l with
  | [] => None
  | p :: l' => if bool_decide (p = rdev) then Some l' else (cons p) <$> del_peer rdev l'
  end.

Definition riocm_remove_dev (rdev : ptr) : CM W unit :=
  d <- core (get_dev rdev) ;;
  if negb (dev_cm_capable d) then ret tt
  else
    l <- gets cm_dev_list ;;
    hport <- core (dev_hport d) ;;
    cm <- find_cm (fun _ mport => bool_decide (mport = hport)) l ;;
    match cm with
    | None => ret tt
    | Some cm =>
        c <- get_cm cm ;;
        match del_peer rdev (cd_peers c) with
        | None => ret tt
        | Some peers =>
            upd_cm cm (fun c => setf cd_peers peers (setf cd_npeers (u32 (cd_npeers c - 1)) c)) ;;;
            core kfree ;;;
            close_channels (fun c => bool_decide (ch_rdev c = Some rdev))
              (fun ch =>
                 d <- core (get_dev rdev) ;;
                 when (negb (bool_decide (rd_state d = RIO_DEVICE_SHUTDOWN)))
                   (riocm_exch ch RIO_CM_DISCONNECT ;;; ret tt))
        end
    end.

(** The addresses of the two event callbacks are arguments. *)
Definition riocm_add_mport (outb_event inb_event : ptr) (mport : ptr) : CM W Z :=
  ok <- core kzalloc ;;
  if negb ok then ret (- ENOMEM)
  else
    cm <- core fresh_ptr ;;
    let none := replicate 128 None in
    modify (fun s => setf cs_cms (<[cm :=
      mk_cm_dev (Some mport) none 0 none 0 0 0 [] [] 0]> (cs_cms s)) s) ;;;
    let free := modify (fun s => setf cs_cms (delete cm (cs_cms s)) s) ;;; core kfree in
    rc <- core (rio_request_outb_mbox mport cm cmbox RIOCM_TX_RING_SIZE outb_event) ;;
    if truthy rc then free ;;; ret (- ENODEV)
    else
      rc <- core (rio_request_inb_mbox mport cm cmbox RIOCM_RX_RING_SIZE inb_event) ;;
      if truthy rc then
        core (rio_release_outb_mbox mport cmbox) ;;; free ;;; ret (- ENODEV)
      else
        upd_cm cm (setf cd_rx_slots RIOCM_RX_RING_SIZE) ;;;
        riocm_rx_fill cmbox cm RIOCM_RX_RING_SIZE ;;;
        modify (fun s => setf cm_dev_list (cm_dev_list s ++ [cm]) s) ;;;
        ret 0.

(** Running what is queued for a cm device, as [flush_workqueue] does. *)
Definition flush_works (fuel : nat) (cm : ptr) : CM W unit :=
  works <- gets cs_works ;;
  modify (setf cs_works (filter (fun c => c <> cm) works)) ;;;
  for_ (filter (fun c => c = cm) works) (rio_ibmsg_handler cmbox fuel).

(** The list of cm devices without the first one of the port. *)
Fixpoint take_cm (mport : ptr) (l : list ptr) : CM W (option (ptr * list ptr)) :=
  match l with
  | [] => ret None
  | cm :: l' =>
      c <- get_cm cm ;;
      if bool_decide (cd_mport c = Some mport) then ret (Some (cm, l'))
      else
        r <- take_cm mport l' ;;
        ret ((fun '(x, l) => (x, cm :: l)) <$> r)
  end.

Definition riocm_remove_mport (fuel : nat) (mport : ptr) : CM W unit :=
  l <- gets cm_dev_list ;;
  r <- take_cm mport l ;;
  match r with
  | None => ret tt
  | Some (cm, l) =>
      modify (setf cm_dev_list l) ;;;
      flush_works fuel cm ;;;
      close_channels (fun c => bool_decide (ch_cmdev c = Some cm)) (fun _ => ret tt) ;;;
      core (rio_release_inb_mbox mport cmbox) ;;;
      core (rio_release_outb_mbox mport cmbox) ;;;
      c <- get_cm cm ;;
      for_ (cd_peers c) (fun _ =>
        upd_cm cm (fun c => setf cd_peers (tail (cd_peers c)) c) ;;; core kfree) ;;;
      riocm_rx_free cm ;;;
      modify (fun s => setf cs_cms (delete cm (cs_cms s)) s) ;;;
      core kfree
  end.

Definition rio_cm_shutdown : CM W unit :=
  l <- idr_entries ;;
  taken <- take_channels (fun c => bool_decide (ch_state c = RIO_CM_CONNECTED)) (fun _ => ret tt) l [] ;;
  for_ taken (fun ch => riocm_send_close cmbox ch ;;; ret tt).
End ops.

(** ** Loading and unloading *)

(** What the module registers with the kernel, in this order. *)
Inductive cm_registration :=
| CM_CLASS | CM_CHRDEV_REGION | CM_MPORT_INTERFACE | CM_DEV_INTERFACE | CM_REBOOT_NOTIFIER
| CM_CDEV | CM_CDEV_DEVICE.

(** The registration functions: each returns its error, which is negative, or 0. *)
Class CmRegister (W : Type) := {
  cm_register : cm_registration -> CM W Z;
  cm_unregister : cm_registration -> CM W unit;
}.

Section load.
Context {W : Type} `{!CmRegister W}.

Definition riocm_cdev_add : CM W Z :=
  rc <- cm_register CM_CDEV ;;
  if rc <? 0 then ret rc
  else
    rc <- cm_register CM_CDEV_DEVICE ;;
    if rc <? 0 then cm_unregister CM_CDEV ;;; ret rc else ret 0.

Definition riocm_init : CM W Z :=
  rc <- cm_register CM_CLASS ;;
  if rc <? 0 then ret rc
  else
    rc <- cm_register CM_CHRDEV_REGION ;;
    if truthy rc then cm_unregister CM_CLASS ;;; ret rc
    else
      let err_reg rc :=
        cm_unregister CM_CHRDEV_REGION ;;; cm_unregister CM_CLASS ;;; ret rc in
      let err_cl rc := cm_unregister CM_MPORT_INTERFACE ;;; err_reg rc in
      let err_sif rc := cm_unregister CM_DEV_INTERFACE ;;; err_cl rc in
      rc <- cm_register CM_MPORT_INTERFACE ;;
      if truthy rc then err_reg rc
      else
        rc <- cm_register CM_DEV_INTERFACE ;;
        if truthy rc then err_cl rc
        else
          rc <- cm_register CM_REBOOT_NOTIFIER ;;
          if truthy rc then err_sif rc
          else
            rc <- riocm_cdev_add ;;
            if truthy rc then cm_unregister CM_REBOOT_NOTIFIER ;;; err_sif (- ENODEV)
            else ret 0.

Definition riocm_exit : CM W unit :=
  cm_unregister CM_REBOOT_NOTIFIER ;;;
  cm_unregister CM_DEV_INTERFACE ;;;
  cm_unregister CM_MPORT_INTERFACE ;;;
  modify (setf ch_idr ∅) ;;;
  cm_unregister CM_CDEV_DEVICE ;;;
  cm_unregister CM_CDEV ;;;
  cm_unregister CM_CLASS ;;;
  cm_unregister CM_CHRDEV_REGION.
End load.
