(* ===== verification/RioCmBench.v ===== *)
(** * A simulated machine for the witnesses of channelized messaging

    Memory is always available, numbers are picked in order, sent messages are
    collected, nothing else happens while a thread sleeps, and user memory is a
    byte array in which addresses below 2^16 are valid. *)

From S2P Require Import Prelude Regs State Bench Msg RioCm RioCmOps.

Record cmworld := mk_cmworld {
  cw_sent : list (Z * list Z);
  cw_user : gmap Z Z;
  cw_time : Z;
}.
#[export] Instance eta_cmworld : Eta cmworld := fun w =>
  mk_cmworld (cw_sent w) (cw_user w) (cw_time w).

#[export] Instance cmw_env : KernelEnv cmworld := {|
  env_alloc w := (true, w);
  env_udelay us w := setf cw_time (cw_time w + us) w;
  env_jiffies w := cw_time w / 1000;
  env_HZ := 1000;
  env_try_module_get _ w := (true, w);
  env_module_put _ w := w;
  env_indet w := 0xdeadbeef;
  env_request_resource root r := (0, root);
  env_release_resource root r := (0, root);
|}.

(** The least number of the range that is free. *)
Fixpoint pick_from (idr : gmap Z ptr) (n : nat) (i : Z) : Z :=
  match n with
  | O => - ENOSPC
  | S n' => if decide (idr !! i = None) then i else pick_from idr n' (i + 1)
  end.

Definition wait_now (comp : bool) (ch : ptr) (_ : Z) : CM cmworld Z :=
  c <- get_ch ch ;;
  match comp_try_wait (if comp then ch_comp c else ch_comp_close c) with
  | Some n => upd_ch ch (if comp then setf ch_comp n else setf ch_comp_close n) ;;; ret 1
  | None => ret 0
  end.

Definition user_valid (addr len : Z) : bool := (0 <=? addr) && (addr + len <=? 2 ^ 16).
Fixpoint user_store (addr : Z) (bytes : list Z) (m : gmap Z Z) : gmap Z Z :=
  match bytes with
  | [] => m
  | b :: bytes' => user_store (addr + 1) bytes' (<[addr := b]> m)
  end.

#[export] Instance cmw_cm_env : CmEnv cmworld := {|
  idr_pick idr start end_ w := (pick_from idr (Z.to_nat (end_ - start)) start, w);
  cm_wait := wait_now;
  cm_gap _ := ret tt;
  msecs_to_jiffies m := m;
  user_read addr len w :=
    if user_valid addr len
    then Some ((fun i => u8 (default 0 (cw_user w !! i))) <$> zrange addr (addr + len)) else None;
  user_write addr bytes w :=
    if user_valid addr (Z.of_nat (length bytes))
    then (true, setf cw_user (user_store addr bytes (cw_user w)) w) else (false, w);
|}.

Definition cmw_ops : rio_ops cmworld := {|
  op_lcread _ _ _ _ w := ((0, 0), w);
  op_lcwrite _ _ _ _ _ w := (0, w);
  op_cread _ _ _ _ _ _ w := ((0, 0), w);
  op_cwrite _ _ _ _ _ _ _ w := (0, w);
  op_dsend _ _ _ _ w := (0, w);
  op_pwenable := None;
  op_open_outb_mbox := None; op_close_outb_mbox := None;
  op_open_inb_mbox := None; op_close_inb_mbox := None;
  op_map_inb := None; op_unmap_inb := None; op_query_mport := None;
  op_map_outb := None; op_unmap_outb := None;
  op_add_outb_message _ destid _ bytes _ w := (0, setf cw_sent (cw_sent w ++ [(destid, bytes)]) w);
  op_add_inb_buffer _ _ _ w := (0, w);
  op_get_inb_message _ _ w := (None, w);
|}.

Definition cmw_mport : rio_mport cmworld := {|
  mp_dbells := []; mp_pwrites := []; mp_nnode := false; mp_net := None;
  mp_riores := []; mp_inb_msg := []; mp_outb_msg := [];
  mp_host_deviceid := 7; mp_ops := cmw_ops; mp_id := 0; mp_index := 0;
  mp_sys_size := 0; mp_phys_efptr := 0x100; mp_phys_rmap := 1;
  mp_nscan := None; mp_state := RIO_DEVICE_RUNNING; mp_pwe_refcnt := 0;
|}.

(** Port 1 with the cm device 3, whose peer is the device 2 with the id 9. *)
Definition cmw_cm : cm_dev :=
  mk_cm_dev (Some 1%positive) (replicate 128 None) 128 (replicate 128 None) 0 0 0 [] [2%positive] 1.

Definition cmw_state (user : gmap Z Z) (chans : gmap ptr rio_channel) (idr : gmap Z ptr)
    (bufs : gmap ptr (list Z)) : cmstate cmworld := {|
  cs_m := {|
    ms_k := {|
      ks_hw := mk_cmworld [] user 0; ks_allocs := 10; ks_fresh := 100%positive;
      ks_devs := {[ 2%positive := setf rd_destid 9 (zero_rio_dev None) ]}; ks_nets := ∅;
      ks_mports := {[ 1%positive := cmw_mport ]};
      rio_devices := []; rio_nets := []; rio_mports := [1%positive]; rio_scans := [];
      next_portid := 1; hdid := [1]; ids_num := 1; next_destid := 0; next_comptag := 1;
    |};
    ms_bufs := bufs;
  |};
  cs_cms := {[ 3%positive := cmw_cm ]}; cs_chans := chans; ch_idr := idr;
  cm_dev_list := [3%positive]; cs_works := [];
|}.

(** A channel of the cm device, in a state and with an event count. *)
Definition cmw_channel (id : Z) (state : rio_cm_state) (comp : Z) (ring : chan_rx_ring) : rio_channel :=
  mk_rio_channel id 1 None (Some 3%positive) (Some 2%positive) state None 7 9 300 [] comp 0 ring.
