(* ===== verification/RioCmRing.v ===== *)
(** * The rings of channelized messaging

    The receive ring of a channel is a queue of message buffers, the transmit
    ring of a mailbox a window of slots between what has been acknowledged and
    what has been posted. *)

From S2P Require Import Prelude Regs State Mbox Msg RioCm RioCmOps RioCmBench.

(** Integers in user memory. *)
Lemma le_at_range off n b : Forall is_byte b -> 0 <= le_at off n b < 2 ^ (8 * Z.of_nat n).
Proof.
  intros H. unfold le_at, le_value, get_bytes.
  destruct (be_value_range (reverse (take n (drop off b)))) as [H1 H2].
  { apply Forall_reverse, Forall_take, Forall_drop, H. }
  split; [done|]. eapply Z.lt_le_trans; [exact H2|]. rewrite length_reverse, length_take.
  apply Z.pow_le_mono_r; lia.
Qed.

(** ** Runs on the driver's state *)

Section runs.
Context {W : Type} `{!KernelEnv W}.
Implicit Types s : cmstate W.

Definition with_ch (p : ptr) (c : rio_channel) s : cmstate W :=
  setf cs_chans (<[p := c]> (cs_chans s)) s.
Definition with_cm (p : ptr) (c : cm_dev) s : cmstate W :=
  setf cs_cms (<[p := c]> (cs_cms s)) s.
(** The state after a buffer has been freed. *)
Definition without_buf (p : ptr) s : cmstate W :=
  setf cs_m (mk_mstate (with_allocs (ks_allocs (ms_k (cs_m s)) - 1) (ms_k (cs_m s)))
    (delete p (ms_bufs (cs_m s)))) s.

Lemma run_get_ch s p c : cs_chans s !! p = Some c -> get_ch p s = Done c s.
Proof. intros H. unfold get_ch, gets, bind. by rewrite H. Qed.
Lemma run_get_cm s p c : cs_cms s !! p = Some c -> get_cm p s = Done c s.
Proof. intros H. unfold get_cm, gets, bind. by rewrite H. Qed.
Lemma run_upd_ch s p c g : cs_chans s !! p = Some c -> upd_ch p g s = Done tt (with_ch p (g c) s).
Proof. intros H. unfold upd_ch. by run (run_get_ch _ _ _ H). Qed.
Lemma run_upd_cm s p c g : cs_cms s !! p = Some c -> upd_cm p g s = Done tt (with_cm p (g c) s).
Proof. intros H. unfold upd_cm. by run (run_get_cm _ _ _ H). Qed.

Lemma with_ch_lookup p c s : cs_chans (with_ch p c s) !! p = Some c.
Proof. apply lookup_insert_eq. Qed.
Lemma with_ch_twice p c c' s : with_ch p c (with_ch p c' s) = with_ch p c s.
Proof. unfold with_ch. cbn. by rewrite insert_insert_eq. Qed.
Lemma with_ch_same p c s : cs_chans s !! p = Some c -> with_ch p c s = s.
Proof. intros H. unfold with_ch. rewrite insert_id by done. by destruct s. Qed.
Lemma with_cm_lookup p c s : cs_cms (with_cm p c s) !! p = Some c.
Proof. apply lookup_insert_eq. Qed.
Lemma with_cm_twice p c c' s : with_cm p c (with_cm p c' s) = with_cm p c s.
Proof. unfold with_cm. cbn. by rewrite insert_insert_eq. Qed.

Lemma with_cm_same p c s : cs_cms s !! p = Some c -> with_cm p c s = s.
Proof. intros H. unfold with_cm. rewrite insert_id by done. by destruct s. Qed.

Lemma run_lift {A} (m : MM W A) s a k :
  m (cs_m s) = Done a k -> lift m s = Done a (setf cs_m k s).
Proof. intros H. unfold lift. cbn. by rewrite H. Qed.
Lemma run_kfree_buf s p b : ms_bufs (cs_m s) !! p = Some b ->
  lift (kfree_buf p) s = Done tt (without_buf p s).
Proof. intros H. unfold lift, kfree_buf, gets, bind. cbn. by rewrite H. Qed.
Lemma run_read_at s p b off n :
  ms_bufs (cs_m s) !! p = Some b -> (off + n <= length b)%nat ->
  lift (read_at p off n) s = Done (get_bytes off n b) s.
Proof.
  intros H Hn. unfold lift, read_at, get_buf, gets, bind. cbn. rewrite H. cbn.
  destruct (Nat.leb_spec (off + n) (length b)); [|lia]. by destruct s.
Qed.
(** ** References *)

(** Taking a reference of the channel of a number. *)
Definition one_more (c : rio_channel) : rio_channel := setf ch_ref (ch_ref c + 1) c.

Lemma run_get_channel s nr p c :
  ch_idr s !! nr = Some p -> cs_chans s !! p = Some c ->
  riocm_get_channel nr s = Done (Some p) (with_ch p (one_more c) s).
Proof.
  intros Hn Hp. unfold riocm_get_channel, gets, bind. rewrite Hn. by rewrite (run_upd_ch _ _ _ _ Hp).
Qed.
Lemma run_no_channel s nr : ch_idr s !! nr = None -> riocm_get_channel nr s = Done None s.
Proof. intros Hn. unfold riocm_get_channel, gets, bind. by rewrite Hn. Qed.

(** Giving back a reference that is not the last one. *)
Lemma run_put_channel s p c :
  cs_chans s !! p = Some c -> 1 < ch_ref c ->
  riocm_put_channel p s = Done tt (with_ch p (setf ch_ref (ch_ref c - 1) c) s).
Proof.
  intros Hp Hr. unfold riocm_put_channel. run (run_get_ch _ _ _ Hp).
  destruct (Z.leb_spec (ch_ref c) 0); [lia|]. run (run_upd_ch _ _ _ (setf ch_ref (ch_ref c - 1)) Hp).
  destruct (Z.eqb_spec (ch_ref c) 1); [lia|done].
Qed.
End runs.

(** ** The receive ring *)

(** The ring holds the queue [q]: its slots from the tail on are the elements of
    [q], the others are empty. *)
Record ring_holds (r : chan_rx_ring) (q : list ptr) : Prop := {
  rh_len : length (rr_buf r) = 128%nat;
  rh_count : rr_count r = Z.of_nat (length q);
  rh_max : (length q <= 128)%nat;
  rh_tail : 0 <= rr_tail r < 128;
  rh_head : rr_head r = (rr_tail r + rr_count r) mod 128;
  rh_slots : forall i, 0 <= i < 128 ->
    rr_buf r !! Z.to_nat ((rr_tail r + i) mod 128) = Some (q !! Z.to_nat i);
}.

(** Positions in the ring are distinct. *)
Lemma ring_pos_inj t i j : 0 <= i < 128 -> 0 <= j < 128 -> (t + i) mod 128 = (t + j) mod 128 -> i = j.
Proof. intros Hi Hj H. Z.div_mod_to_equations. lia. Qed.
Lemma ring_pos_range t i : 0 <= (t + i) mod 128 < 128.
Proof. apply Z.mod_pos_bound. lia. Qed.

Lemma zero_ring_holds : ring_holds zero_rx_ring [].
Proof.
  split; [done|done|cbn; lia|done|done|]. intros i Hi. cbn [zero_rx_ring rr_buf rr_tail].
  rewrite lookup_nil. apply lookup_replicate_2. pose proof (ring_pos_range 0 i).
  change (Z.to_nat RIOCM_RX_RING_SIZE) with 128%nat. lia.
Qed.

Section ring.
Context {W : Type} `{!KernelEnv W}.
Implicit Types s : cmstate W.

Lemma run_ring_push s r q b :
  ring_holds r q -> (length q < 128)%nat ->
  exists r', ring_push r b s = Done r' s /\ ring_holds r' (q ++ [b]) /\
    rr_inuse r' = rr_inuse r /\ rr_inuse_cnt r' = rr_inuse_cnt r.
Proof.
  intros [H1 H2 H3 H4 H5 H6] Hq. unfold ring_push.
  assert (0 <= rr_head r < Z.of_nat (length (rr_buf r))) as Hh
    by (rewrite H1, H5; apply ring_pos_range).
  run (run_slot_set s (rr_buf r) (rr_head r) (Some b) Hh). eexists. split; [reflexivity|].
  split; [|done]. split; cbn [rr_buf rr_count rr_tail rr_head setf updf].
  - by rewrite length_insert.
  - rewrite length_app, H2. cbn. lia.
  - rewrite length_app. cbn. lia.
  - done.
  - change RIOCM_RX_RING_SIZE with 128. rewrite Z.rem_mod_nonneg by lia. rewrite H5.
    rewrite Z.add_mod_idemp_l by lia. f_equal. lia.
  - intros i Hi. pose proof (ring_pos_range (rr_tail r) i). destruct (decide (i = rr_count r)) as [->|Hne].
    + rewrite <- H5. rewrite list_lookup_insert_eq by lia.
      rewrite H2, Nat2Z.id. by rewrite lookup_app_r, Nat.sub_diag by lia.
    + rewrite list_lookup_insert_ne.
      2: { intros Heq. apply Hne. apply (ring_pos_inj (rr_tail r)); [lia|lia|]. rewrite <- H5. lia. }
      rewrite H6 by done. f_equal. destruct (decide (i < rr_count r)).
      * by rewrite lookup_app_l by lia.
      * rewrite lookup_ge_None_2 by lia. symmetry. apply lookup_ge_None_2. rewrite length_app. cbn. lia.
Qed.

Lemma run_ring_pop s r b q :
  ring_holds r (b :: q) ->
  exists r', ring_pop r s = Done (Some b, r') s /\ ring_holds r' q /\
    rr_inuse r' = rr_inuse r /\ rr_inuse_cnt r' = rr_inuse_cnt r.
Proof.
  intros [H1 H2 H3 H4 H5 H6]. unfold ring_pop. cbn [length] in *.
  assert (rr_buf r !! Z.to_nat (rr_tail r) = Some (Some b)) as Hb.
  { specialize (H6 0 ltac:(lia)). rewrite Z.add_0_r, Z.mod_small in H6 by lia. exact H6. }
  run (run_slot_get s (rr_buf r) (rr_tail r) (Some b) ltac:(lia) Hb).
  assert (0 <= rr_tail r < Z.of_nat (length (rr_buf r))) as Hh by lia.
  run (run_slot_set s (rr_buf r) (rr_tail r) None Hh). eexists. split; [reflexivity|].
  split; [|done]. split; cbn [rr_buf rr_count rr_tail rr_head setf updf].
  - by rewrite length_insert.
  - lia.
  - lia.
  - change RIOCM_RX_RING_SIZE with 128. rewrite Z.rem_mod_nonneg by lia. apply Z.mod_pos_bound. lia.
  - change RIOCM_RX_RING_SIZE with 128. rewrite Z.rem_mod_nonneg by lia. rewrite H5.
    rewrite Z.add_mod_idemp_l by lia. f_equal. lia.
  - intros i Hi. change RIOCM_RX_RING_SIZE with 128. rewrite Z.rem_mod_nonneg by lia.
    rewrite Z.add_mod_idemp_l by lia. replace (rr_tail r + 1 + i) with (rr_tail r + (i + 1)) by lia.
    pose proof (ring_pos_range (rr_tail r) (i + 1)). destruct (decide (i = 127)) as [->|].
    + replace ((rr_tail r + (127 + 1)) mod 128) with (rr_tail r).
      2: { replace (rr_tail r + (127 + 1)) with (rr_tail r + 1 * 128) by lia.
           rewrite Z.mod_add by lia. by rewrite Z.mod_small. }
      rewrite list_lookup_insert_eq by lia. symmetry. f_equal. apply lookup_ge_None_2. lia.
    + rewrite list_lookup_insert_ne.
      2: { intros Heq. assert (i + 1 = 0); [|lia]. apply (ring_pos_inj (rr_tail r)); [lia|lia|].
           rewrite Z.add_0_r, (Z.mod_small (rr_tail r)) by lia. lia. }
      rewrite H6 by lia. by replace (Z.to_nat (i + 1)) with (S (Z.to_nat i)) by lia.
Qed.
End ring.

(** ** Buffers handed to the user *)

Lemma find_slot_Some l p i k :
  find_slot l p k = Some i -> (k <= i)%nat /\ l !! (i - k)%nat = Some p.
Proof.
  revert k. induction l as [|b l IH]; intros k; cbn; [done|]. case_bool_decide as Hb.
  - intros [= <-]. rewrite Nat.sub_diag. split; [lia|by rewrite Hb].
  - intros H. destruct (IH _ H) as [Hk Hl]. split; [lia|].
    by replace (i - k)%nat with (S (i - S k)) by lia.
Qed.
Lemma find_slot_present l p k : p ∈ l -> exists i, find_slot l p k = Some i.
Proof.
  revert k. induction l as [|b l IH]; intros k Hp; [by apply not_elem_of_nil in Hp|].
  cbn. case_bool_decide as Hb; [by eexists|]. apply IH. apply elem_of_cons in Hp as [->|]; done.
Qed.

(** The buffers that the user has not given back. *)
Definition in_use (r : chan_rx_ring) : list ptr := omap id (rr_inuse r).
Record inuse_ok (r : chan_rx_ring) : Prop := {
  iu_len : length (rr_inuse r) = 128%nat;
  iu_cnt : rr_inuse_cnt r = Z.of_nat (length (in_use r));
}.

Lemma omap_insert_none (l : list (option ptr)) i b :
  l !! i = Some None -> omap id (<[i := Some b]> l) ≡ₚ b :: omap id l.
Proof.
  revert i. induction l as [|x l IH]; intros [|i] Hi; cbn in *; [done..| |].
  - injection Hi as ->. done.
  - destruct x as [x|]; cbn; [|by apply IH]. rewrite (IH i Hi). apply Permutation_swap.
Qed.
Lemma omap_insert_some (l : list (option ptr)) i b :
  l !! i = Some (Some b) -> omap id l ≡ₚ b :: omap id (<[i := None]> l).
Proof.
  revert i. induction l as [|x l IH]; intros [|i] Hi; cbn in *; [done..| |].
  - injection Hi as ->. done.
  - destruct x as [x|]; cbn; [|by apply IH]. rewrite (IH i Hi). apply Permutation_swap.
Qed.
Lemma omap_full (l : list (option ptr)) : None ∉ l -> length (omap id l) = length l.
Proof.
  induction l as [|x l IH]; intros H; cbn; [done|]. rewrite not_elem_of_cons in H. destruct H as [Hx Hl].
  destruct x; cbn; [|done]. f_equal. by apply IH.
Qed.

Section queue.
Context {W : Type} `{!KernelEnv W} `{!CmEnv W}.
Implicit Types s : cmstate W.

(** After a successful wait the first message of the ring goes to the user and
    is noted as in use. *)
Lemma run_receive_buf s ch c b q :
  cs_chans s !! ch = Some c -> ring_holds (ch_rx_ring c) (b :: q) -> inuse_ok (ch_rx_ring c) ->
  (length (in_use (ch_rx_ring c)) < 128)%nat ->
  exists r, receive_buf ch s = Done (0, Some b) (with_ch ch (setf ch_rx_ring r c) s) /\
    ring_holds r q /\ inuse_ok r /\ in_use r ≡ₚ b :: in_use (ch_rx_ring c).
Proof.
  intros Hc Hr [Hl Hn] Hfree. unfold receive_buf. run (run_get_ch _ _ _ Hc).
  destruct (run_ring_pop s _ _ _ Hr) as (r & Hpop & Hq & Hi1 & Hi2). run Hpop.
  assert (None ∈ rr_inuse r) as Hin.
  { destruct (decide (None ∈ rr_inuse r)) as [|Hno]; [done|]. exfalso.
    apply omap_full in Hno. rewrite Hi1 in Hno. unfold in_use in Hfree. lia. }
  destruct (find_slot_present _ _ 0 Hin) as [i Hi]. rewrite Hi.
  unfold upd_ring. run (run_upd_ch s ch c (fun c => setf ch_rx_ring
    (setf rr_inuse (<[i := Some b]> (rr_inuse r)) (setf rr_inuse_cnt (rr_inuse_cnt r + 1) r)) c) Hc).
  apply find_slot_Some in Hi as [_ Hi]. rewrite Nat.sub_0_r in Hi.
  pose proof (omap_insert_none _ _ b Hi) as Hperm.
  eexists. split; [reflexivity|]. split; [by destruct Hq; split|]. unfold in_use. cbn [rr_inuse setf updf].
  rewrite <- Hi1. split; [|exact Hperm]. split; cbn [rr_inuse rr_inuse_cnt setf updf].
  - rewrite length_insert. congruence.
  - unfold in_use. cbn [rr_inuse setf updf]. rewrite Hperm. cbn [length]. rewrite Hi2, Hn.
    unfold in_use. rewrite Hi1. lia.
Qed.

(** Giving a buffer back frees it. *)
Lemma run_free_rxbuf s ch c b bytes :
  cs_chans s !! ch = Some c -> inuse_ok (ch_rx_ring c) -> b ∈ in_use (ch_rx_ring c) ->
  ms_bufs (cs_m s) !! b = Some bytes ->
  exists r, riocm_ch_free_rxbuf ch (Some b) s =
      Done 0 (without_buf b (with_ch ch (setf ch_rx_ring r c) s)) /\
    inuse_ok r /\ in_use (ch_rx_ring c) ≡ₚ b :: in_use r /\ rr_buf r = rr_buf (ch_rx_ring c) /\
    rr_head r = rr_head (ch_rx_ring c) /\ rr_tail r = rr_tail (ch_rx_ring c) /\
    rr_count r = rr_count (ch_rx_ring c).
Proof.
  intros Hc [Hl Hn] Hb Hbuf. unfold riocm_ch_free_rxbuf. run (run_get_ch _ _ _ Hc).
  assert (Some b ∈ rr_inuse (ch_rx_ring c)) as Hin.
  { unfold in_use in Hb. apply list_elem_of_omap in Hb as (x & Hx & Hx'). cbn in Hx'. by subst. }
  destruct (find_slot_present _ _ 0 Hin) as [i Hi]. rewrite Hi.
  apply find_slot_Some in Hi as [_ Hi]. rewrite Nat.sub_0_r in Hi.
  pose proof (omap_insert_some _ _ b Hi) as Hperm.
  unfold upd_ring. erewrite bind_Done; [|by apply run_upd_ch].
  unfold kfree_opt. erewrite bind_Done; [|by eapply run_kfree_buf].
  eexists. split; [reflexivity|]. split; [|split; [exact Hperm|done]].
  split; cbn [rr_inuse rr_inuse_cnt setf updf]; [by rewrite length_insert|].
  unfold in_use in *. cbn [rr_inuse setf updf]. rewrite Hn, Hperm. cbn [length]. lia.
Qed.
End queue.

Section claims.
Context {W : Type} `{!KernelEnv W} `{!CmEnv W}.
Implicit Types s : cmstate W.

Lemma run_get_be16 s p b off :
  ms_bufs (cs_m s) !! p = Some b -> (off + 2 <= length b)%nat ->
  get_be16 p off s = Done (be_value (get_bytes off 2 b)) s.
Proof. intros H Hl. unfold get_be16. by run (run_read_at s p b off 2 H Hl). Qed.

(** The channel after a get and a put. *)
Lemma with_ch_one_more p c s :
  cs_chans s !! p = Some c ->
  with_ch p (setf ch_ref (ch_ref (one_more c) - 1) (one_more c)) (with_ch p (one_more c) s) = s.
Proof.
  intros H. rewrite with_ch_twice. replace (setf ch_ref _ _) with c; [by apply with_ch_same|].
  destruct c. unfold one_more. cbn. f_equal. lia.
Qed.

(** C9: a data packet for a number without a channel is freed; one for a channel
    that is not connected, or whose ring already holds 128 messages, is freed and
    changes nothing; else the packet joins the end of the channel's queue and one
    event is signalled.  The reference count of the channel is as before. *)
Theorem rio_rx_data_handler_correct cm buf bytes s
    (Hbuf : ms_bufs (cs_m s) !! buf = Some bytes) (Hlen : 14 <= Z.of_nat (length bytes)) :
  let nr := be_value (get_bytes 12 2 bytes) in
  match ch_idr s !! nr with
  | None => rio_rx_data_handler cm buf s = Done (- ENODEV) (without_buf buf s)
  | Some ch => forall c q,
      cs_chans s !! ch = Some c -> 1 <= ch_ref c -> ring_holds (ch_rx_ring c) q ->
      if negb (bool_decide (ch_state c = RIO_CM_CONNECTED)) then
        rio_rx_data_handler cm buf s = Done (- EIO) (without_buf buf s)
      else if decide (length q = 128)%nat then
        rio_rx_data_handler cm buf s = Done (- ENOMEM) (without_buf buf s)
      else exists r, rio_rx_data_handler cm buf s =
          Done 0 (with_ch ch (setf ch_rx_ring r (setf ch_comp (comp_complete (ch_comp c)) c)) s) /\
        ring_holds r (q ++ [buf]) /\ in_use r = in_use (ch_rx_ring c)
  end.
Proof.
  assert (Hnr : get_be16 buf OFF_DST_CH s = Done (be_value (get_bytes 12 2 bytes)) s)
    by (apply run_get_be16; [done|unfold OFF_DST_CH; lia]).
  intros nr. destruct (ch_idr s !! nr) as [ch|] eqn:Hidr.
  2: { unfold rio_rx_data_handler. run Hnr. run (run_no_channel _ _ Hidr).
       by run (run_kfree_buf s buf bytes Hbuf). }
  intros c q Hc Href Hr. unfold rio_rx_data_handler. run Hnr.
  run (run_get_channel _ _ _ _ Hidr Hc).
  run (run_get_ch (with_ch ch (one_more c) s) ch (one_more c) (with_ch_lookup _ _ _)).
  change (ch_state (one_more c)) with (ch_state c). change (ch_rx_ring (one_more c)) with (ch_rx_ring c).
  assert (Hdrop : forall rc, (lift (kfree_buf buf) ;;; riocm_put_channel ch ;;; ret rc : CM W Z)
    (with_ch ch (one_more c) s) = Done rc (without_buf buf s)).
  { intros rc. run (run_kfree_buf (with_ch ch (one_more c) s) buf bytes Hbuf).
    run (run_put_channel (without_buf buf (with_ch ch (one_more c) s)) ch (one_more c)
      (with_ch_lookup _ _ _) ltac:(cbn; lia)).
    unfold ret. f_equal. rewrite <- (with_ch_one_more ch c s Hc) at 2. done. }
  destruct (negb _); [apply Hdrop|]. rewrite (rh_count _ _ Hr). change RIOCM_RX_RING_SIZE with 128.
  destruct (decide (length q = 128)%nat) as [Hfull|Hfull].
  - rewrite Hfull. apply Hdrop.
  - destruct (Z.eqb_spec (Z.of_nat (length q)) 128); [lia|]. pose proof (rh_max _ _ Hr) as Hmax.
    destruct (run_ring_push (with_ch ch (one_more c) s) _ q buf Hr ltac:(lia)) as (r & Hpush & Hq & Hu & _).
    exists r. split; [|split; [done|by unfold in_use; rewrite Hu]]. run Hpush.
    unfold upd_ring, complete. erewrite bind_Done; [|by eapply run_upd_ch, with_ch_lookup].
    erewrite bind_Done; [|by eapply run_upd_ch, with_ch_lookup].
    erewrite bind_Done; [|eapply run_put_channel; [apply with_ch_lookup|cbn; lia]].
    unfold ret. f_equal. rewrite !with_ch_twice. f_equal. destruct c. unfold one_more. cbn. f_equal. lia.
Qed.

(** C10: a receiver gets the messages in the order of their arrival.  When the wait
    ends with an event on a connected channel, the oldest message leaves the queue
    and is noted as in use; giving it back frees the buffer, takes the note away
    and leaves the queue alone.  A wait that times out, is interrupted or ends on a
    channel that is no longer connected gives the error and no message. *)
Theorem riocm_ch_receive_correct ch timeout s s1 c c1 wret
    (Hc : cs_chans s !! ch = Some c) (Hst : ch_state c = RIO_CM_CONNECTED)
    (Hroom : rr_inuse_cnt (ch_rx_ring c) <> 128)
    (Hwait : cm_wait true ch timeout s = Done wret s1) (Hc1 : cs_chans s1 !! ch = Some c1) :
  if wret =? 0 then riocm_ch_receive ch timeout s = Done (- ETIME, None) s1
  else if wret =? - ERESTARTSYS then riocm_ch_receive ch timeout s = Done (- EINTR, None) s1
  else if negb (bool_decide (ch_state c1 = RIO_CM_CONNECTED)) then
    riocm_ch_receive ch timeout s = Done (- ECONNRESET, None) s1
  else forall b q bytes, ring_holds (ch_rx_ring c1) (b :: q) -> inuse_ok (ch_rx_ring c1) ->
    (length (in_use (ch_rx_ring c1)) < 128)%nat -> ms_bufs (cs_m s1) !! b = Some bytes ->
    exists r s2, riocm_ch_receive ch timeout s = Done (0, Some b) s2 /\
      s2 = with_ch ch (setf ch_rx_ring r c1) s1 /\
      ring_holds r q /\ inuse_ok r /\ in_use r ≡ₚ b :: in_use (ch_rx_ring c1) /\
      exists r', riocm_ch_free_rxbuf ch (Some b) s2 =
          Done 0 (without_buf b (with_ch ch (setf ch_rx_ring r' c1) s1)) /\
        ring_holds r' q /\ inuse_ok r' /\ in_use r' ≡ₚ in_use (ch_rx_ring c1).
Proof.
  assert (Hcmp : forall s c, cs_chans s !! ch = Some c ->
    riocm_cmp ch RIO_CM_CONNECTED s = Done (bool_decide (ch_state c = RIO_CM_CONNECTED)) s).
  { intros s0 c0 H0. unfold riocm_cmp. by run (run_get_ch _ _ _ H0). }
  assert (Hrun : riocm_ch_receive ch timeout s =
    (rc <- (if wret =? 0 then ret (- ETIME) else if wret =? - ERESTARTSYS then ret (- EINTR)
            else ok <- riocm_cmp ch RIO_CM_CONNECTED ;; ret (if ok : bool then 0 else - ECONNRESET)) ;;
     if truthy rc then ret (rc, None) else receive_buf ch) s1).
  { unfold riocm_ch_receive. run (Hcmp s c Hc). rewrite Hst, bool_decide_true by done. cbn [negb].
    run (run_get_ch _ _ _ Hc). change RIOCM_RX_RING_SIZE with 128.
    destruct (Z.eqb_spec (rr_inuse_cnt (ch_rx_ring c)) 128); [done|]. by run Hwait. }
  destruct (wret =? 0); [exact Hrun|]. destruct (wret =? - ERESTARTSYS); [exact Hrun|].
  unfold bind in Hrun. rewrite (Hcmp s1 c1 Hc1) in Hrun.
  case_bool_decide as Hst1; [|exact Hrun]. cbn in Hrun |- *. intros b q bytes Hr Hu Hfree Hb.
  rewrite Hrun.
  destruct (run_receive_buf s1 ch c1 b q Hc1 Hr Hu Hfree) as (r & Hrec & Hq & Hu1 & Hp).
  exists r, (with_ch ch (setf ch_rx_ring r c1) s1).
  split; [exact Hrec|]. split; [done|]. split; [done|]. split; [done|]. split; [done|].
  destruct (run_free_rxbuf (with_ch ch (setf ch_rx_ring r c1) s1) ch (setf ch_rx_ring r c1) b bytes)
    as (r' & Hfr & Hu' & Hp' & E1 & E2 & E3 & E4).
  { apply with_ch_lookup. } { done. } { cbn. rewrite Hp. apply list_elem_of_here. } { done. }
  exists r'. split; [rewrite Hfr, with_ch_twice; reflexivity|]. cbn in *. split.
  - destruct Hq. split; rewrite ?E1, ?E2, ?E3, ?E4; done.
  - split; [done|]. rewrite Hp in Hp'. by apply Permutation_cons_inv in Hp'.
Qed.
End claims.

Lemma rio_rx_data_handler_correct_witness :
  let bytes := [0;0;0;9; 0;0;0;7; 1; 1; 0x55; 3; 1;0; 1;44; 0;20; 0;0] in
  let c := cmw_channel 256 RIO_CM_CONNECTED 0 zero_rx_ring in
  let s := cmw_state ∅ {[4%positive := c]} {[256 := 4%positive]} {[5%positive := bytes]} in
  exists r, rio_rx_data_handler 3%positive 5%positive s =
      Done 0 (with_ch 4%positive (setf ch_rx_ring r (setf ch_comp 1 c)) s) /\
    ring_holds r [5%positive].
Proof.
  intros bytes c s.
  assert (Hlen : 14 <= Z.of_nat (length bytes)) by (cbn; lia).
  pose proof (rio_rx_data_handler_correct 3%positive 5%positive bytes s eq_refl Hlen) as H.
  cbv zeta in H. change (ch_idr s !! be_value (get_bytes 12 2 bytes)) with (Some 4%positive) in H.
  cbv iota in H. specialize (H c [] eq_refl ltac:(cbn; lia) zero_ring_holds).
  destruct H as (r & H1 & H2 & _). exists r. split; [exact H1|exact H2].
Defined.

Lemma riocm_ch_receive_correct_witness :
  let ring := mk_chan_rx_ring (<[0%nat := Some 5%positive]> (replicate 128 None)) 1 0 1 (replicate 128 None) 0 in
  let c := cmw_channel 256 RIO_CM_CONNECTED 1 ring in
  let s := cmw_state ∅ {[4%positive := c]} {[256 := 4%positive]} {[5%positive := [0]]} in
  exists s2, riocm_ch_receive 4%positive 10 s = Done (0, Some 5%positive) s2.
Proof.
  intros ring c s. pose (c1 := setf ch_comp 0 c). pose (s1 := with_ch 4%positive c1 s).
  assert (cm_wait true 4%positive 10 s = Done 1 s1) as Hwait by reflexivity.
  assert (cs_chans s1 !! 4%positive = Some c1) as Hc1 by reflexivity.
  assert (rr_inuse_cnt (ch_rx_ring c) <> 128) as Hn by done.
  pose proof (riocm_ch_receive_correct 4%positive 10 s s1 c c1 1 eq_refl eq_refl Hn Hwait Hc1) as H.
  cbn in H. destruct (H 5%positive [] [0]) as (r & s2 & Hrun & _).
  - split; [done|done|cbn; lia|cbn; lia|done|]. intros i Hi.
    destruct (decide (i = 0)) as [->|]; [done|].
    change (rr_buf (ch_rx_ring c1)) with (rr_buf ring). change (rr_tail (ch_rx_ring c1)) with 0.
    unfold ring. cbn [rr_buf]. rewrite Z.add_0_l, Z.mod_small by lia.
    rewrite list_lookup_insert_ne by lia.
    rewrite lookup_replicate_2 by lia. f_equal. symmetry. apply lookup_ge_None_2. cbn. lia.
  - by split.
  - cbn. lia.
  - reflexivity.
  - exists s2. exact Hrun.
Defined.
