(* ===== verification/RioCmTx.v ===== *)
(** * The transmit ring of channelized messaging

    The slots between the acknowledged and the posted ones are the messages that
    the hardware has not reported as sent; requests that found the ring full wait
    in a queue for the next report. *)

From S2P Require Import Prelude Regs State Mbox Msg RioCm RioCmOps RioCmBench RioCmRing.

(** The window of slots that are in flight. *)
Record tx_ok (c : cm_dev) : Prop := {
  tx_len : length (cd_tx_buf c) = 128%nat;
  tx_cnt : 0 <= cd_tx_cnt c <= 128;
  tx_ack : 0 <= cd_tx_ack_slot c < 128;
  tx_slot : cd_tx_slot c = (cd_tx_ack_slot c + cd_tx_cnt c) mod 128;
}.

Lemma next_slot_mod i : next_slot i = (i + 1) mod 128.
Proof. unfold next_slot. apply (land_mask (i + 1) 7). lia. Qed.

(** How many slots a report of [slot] acknowledges: those before it, all 128 for
    a full ring that starts at it, and never more than are in flight. *)
Definition acked (cnt ack slot : Z) : Z :=
  let d := (slot - ack) mod 128 in
  if (d =? 0) && (cnt =? 128) then 128 else Z.min d cnt.

Lemma acked_range cnt ack slot : 0 <= cnt <= 128 -> 0 <= acked cnt ack slot <= cnt.
Proof.
  intros H. unfold acked. pose proof (Z.mod_pos_bound (slot - ack) 128 ltac:(lia)).
  destruct (Z.eqb_spec ((slot - ack) mod 128) 0), (Z.eqb_spec cnt 128); cbn; lia.
Qed.

(** One round acknowledges one slot. *)
Lemma acked_step cnt ack slot :
  0 <= ack < 128 -> 0 <= slot < 128 -> 0 < cnt <= 128 -> (ack <> slot \/ cnt = 128) ->
  acked cnt ack slot = 1 + acked (cnt - 1) ((ack + 1) mod 128) slot.
Proof.
  intros Ha Hs Hc Hor. unfold acked.
  assert ((slot - (ack + 1) mod 128) mod 128 = ((slot - ack) mod 128 - 1) mod 128) as ->.
  { rewrite Zminus_mod_idemp_r, Zminus_mod_idemp_l. f_equal. lia. }
  pose proof (Z.mod_pos_bound (slot - ack) 128 ltac:(lia)) as Hd.
  assert (ack <> slot -> (slot - ack) mod 128 <> 0) as Hne by (intros ? ?; Z.div_mod_to_equations; lia).
  set (d := (slot - ack) mod 128) in *. destruct (Z.eqb_spec d 0) as [Hz|Hz].
  - assert (cnt = 128) as -> by (destruct Hor as [H|H]; [by apply Hne in H|done]).
    rewrite Hz. reflexivity.
  - rewrite (Z.mod_small (d - 1)) by lia. cbn [andb].
    destruct (Z.eqb_spec (d - 1) 0), (Z.eqb_spec (cnt - 1) 128); cbn [andb]; lia.
Qed.

Lemma acked_none cnt ack slot :
  0 <= cnt -> (cnt = 0 \/ (ack = slot /\ cnt <> 128)) -> acked cnt ack slot = 0.
Proof.
  intros Hc H. unfold acked. pose proof (Z.mod_pos_bound (slot - ack) 128 ltac:(lia)).
  destruct H as [->|[-> Hn]].
  - rewrite andb_false_r. lia.
  - rewrite Z.sub_diag. change (0 mod 128) with 0. destruct (Z.eqb_spec cnt 128); [done|cbn; lia].
Qed.

Section tx.
Context {W : Type} `{!KernelEnv W} `{!CmEnv W} (cmbox : Z).
Implicit Types s : cmstate W.

Lemma run_ack_loop fuel cm slot ack s c :
  cs_cms s !! cm = Some c -> length (cd_tx_buf c) = 128%nat -> 0 <= cd_tx_cnt c <= 128 ->
  0 <= ack < 128 -> 0 <= slot < 128 -> (Z.to_nat (acked (cd_tx_cnt c) ack slot) < fuel)%nat ->
  let k := acked (cd_tx_cnt c) ack slot in
  exists tx, length tx = 128%nat /\
    ack_loop fuel cm slot ack s =
      Done ((ack + k) mod 128) (with_cm cm (setf cd_tx_buf tx (setf cd_tx_cnt (cd_tx_cnt c - k) c)) s).
Proof.
  revert ack s c. induction fuel as [|fuel IH]; intros ack s c Hc Hl Hn Ha Hs Hf k; [lia|].
  cbn [ack_loop]. run (run_get_cm _ _ _ Hc). change RIOCM_TX_RING_SIZE with 128.
  destruct (truthy (cd_tx_cnt c) && (negb (ack =? slot) || (cd_tx_cnt c =? 128))) eqn:Hcond.
  - assert (0 < cd_tx_cnt c <= 128 /\ (ack <> slot \/ cd_tx_cnt c = 128)) as [Hc1 Hc2].
    { unfold truthy in Hcond. destruct (Z.eqb_spec (cd_tx_cnt c) 0), (Z.eqb_spec ack slot),
        (Z.eqb_spec (cd_tx_cnt c) 128); try discriminate Hcond; lia. }
    pose proof (acked_step _ ack slot Ha Hs Hc1 Hc2) as Hstep.
    assert (0 <= ack < Z.of_nat (length (cd_tx_buf c))) as Hai by lia.
    run (run_slot_set s (cd_tx_buf c) ack None Hai).
    run (run_upd_cm s cm c (fun c0 => setf cd_tx_buf (<[Z.to_nat ack:=None]> (cd_tx_buf c))
      (setf cd_tx_cnt (cd_tx_cnt c0 - 1) c0)) Hc).
    set (c1 := setf cd_tx_buf _ _). rewrite next_slot_mod.
    pose proof (acked_range (cd_tx_cnt c - 1) ((ack + 1) mod 128) slot ltac:(lia)) as Hr.
    destruct (IH ((ack + 1) mod 128) (with_cm cm c1 s) c1) as (tx & Htx & Hrun).
    + apply with_cm_lookup.
    + cbn. by rewrite length_insert.
    + cbn. lia.
    + apply Z.mod_pos_bound. lia.
    + done.
    + cbn [c1 cd_tx_cnt setf updf]. lia.
    + exists tx. split; [done|]. rewrite Hrun, with_cm_twice. cbn [c1 cd_tx_cnt setf updf].
      unfold k. rewrite Hstep. f_equal.
      * rewrite Z.add_mod_idemp_l by lia. f_equal. lia.
      * destruct c. cbn. do 2 f_equal. lia.
  - assert (cd_tx_cnt c = 0 \/ (ack = slot /\ cd_tx_cnt c <> 128)) as Hno.
    { unfold truthy in Hcond. destruct (Z.eqb_spec (cd_tx_cnt c) 0); [by left|]. right.
      destruct (Z.eqb_spec ack slot), (Z.eqb_spec (cd_tx_cnt c) 128); done. }
    pose proof (acked_none (cd_tx_cnt c) ack slot ltac:(lia) Hno) as Hk. exists (cd_tx_buf c). split; [done|].
    unfold k. rewrite Hk, Z.add_0_r, Z.sub_0_r, Z.mod_small by lia. unfold ret. f_equal.
    unfold with_cm. rewrite insert_id; [by destruct s|]. rewrite Hc. by destruct c.
Qed.

(** What the hardware is given, message after message: the contents [B] of the
    buffers go to the devices [D]. *)
Definition post_one (B : gmap ptr (list Z)) (D : gmap ptr rio_dev) (mport : ptr) (mp : rio_mport W)
    (w : W) (r : tx_req) : W :=
  (op_add_outb_message (mp_ops mp) mport (default 0 (rd_destid <$> D !! tr_rdev r)) cmbox
    (get_bytes 0 (Z.to_nat (tr_len r)) (default [] (B !! tr_buffer r))) (tr_len r) w).2.

(** Requests with their packets in memory and their devices known. *)
Record reqs_ok (B : gmap ptr (list Z)) (D : gmap ptr rio_dev) (reqs : list tx_req) : Prop := {
  rq_nodup : NoDup (tr_buffer <$> reqs);
  rq_buf : forall r, r ∈ reqs -> exists b, B !! tr_buffer r = Some b /\
    (Z.to_nat (tr_len r) <= length b)%nat;
  rq_dev : forall r, r ∈ reqs -> is_Some (D !! tr_rdev r);
}.

Lemma reqs_ok_tail B D r reqs : reqs_ok B D (r :: reqs) -> reqs_ok B D reqs.
Proof.
  intros [H1 H2 H3]. split.
  - by apply NoDup_cons in H1 as [_ ?].
  - intros x Hx. apply H2. by apply list_elem_of_further.
  - intros x Hx. apply H3. by apply list_elem_of_further.
Qed.

(** The state after requests have been handed over: each costs its packet and the
    request object. *)
Definition handed_over B D mport mp (rs : list tx_req) s : cmstate W :=
  setf cs_m (mk_mstate
    (with_allocs (ks_allocs (ms_k (cs_m s)) - 2 * Z.of_nat (length rs))
      (with_hw (foldl (post_one B D mport mp) (ks_hw (ms_k (cs_m s))) rs) (ms_k (cs_m s))))
    (foldl (fun m r => delete (tr_buffer r) m) (ms_bufs (cs_m s)) rs)) s.

(** The state after a call of the hardware. *)
Definition with_khw (w : W) s : cmstate W :=
  setf cs_m (setf ms_k (with_hw w (ms_k (cs_m s))) (cs_m s)) s.
(** What the hardware answers when it is given a message. *)
Definition hw_send s (mport : ptr) (mp : rio_mport W) (d : rio_dev) (b : list Z) (len : Z) : Z * W :=
  op_add_outb_message (mp_ops mp) mport (rd_destid d) cmbox (get_bytes 0 (Z.to_nat len) b) len
    (ks_hw (ms_k (cs_m s))).

Lemma run_outb s mport mp rdev d buf b len :
  ks_mports (ms_k (cs_m s)) !! mport = Some mp -> ks_devs (ms_k (cs_m s)) !! rdev = Some d ->
  ms_bufs (cs_m s) !! buf = Some b -> (Z.to_nat len <= length b)%nat ->
  lift (rio_add_outb_message mport rdev cmbox buf len) s =
    Done (hw_send s mport mp d b len).1 (with_khw (hw_send s mport mp d b len).2 s).
Proof.
  intros Hm Hd Hb Hl. apply run_lift. apply (run_add_outb_message _ mport mp rdev d cmbox buf b len Hm Hd Hb Hl).
Qed.

Lemma run_add_outb B D s mport mp r reqs :
  reqs_ok B D (r :: reqs) -> ks_mports (ms_k (cs_m s)) !! mport = Some mp ->
  ks_devs (ms_k (cs_m s)) = D -> ms_bufs (cs_m s) !! tr_buffer r = B !! tr_buffer r ->
  exists rc, lift (rio_add_outb_message mport (tr_rdev r) cmbox (tr_buffer r) (tr_len r)) s =
    Done rc (with_khw (post_one B D mport mp (ks_hw (ms_k (cs_m s))) r) s).
Proof.
  intros [_ H2 H3] Hm Hdev Hbuf. destruct (H2 r) as (b & Hb & Hl); [apply list_elem_of_here|].
  destruct (H3 r) as [d Hd]; [apply list_elem_of_here|]. rewrite Hb in Hbuf.
  eexists. rewrite (run_outb s mport mp (tr_rdev r) d (tr_buffer r) b (tr_len r)) by (rewrite ?Hdev; done).
  unfold post_one, hw_send. by rewrite Hb, Hd.
Qed.

(** The descriptor of the ring after [n] more messages. *)
Definition posted_ok (c c' : cm_dev) (n : Z) (reqs : list tx_req) : Prop :=
  tx_ok c' /\ cd_tx_cnt c' = cd_tx_cnt c + n /\ cd_tx_reqs c' = reqs /\
  cd_tx_ack_slot c' = cd_tx_ack_slot c /\ cd_mport c' = cd_mport c /\ cd_peers c' = cd_peers c /\
  cd_npeers c' = cd_npeers c /\ cd_rx_buf c' = cd_rx_buf c /\ cd_rx_slots c' = cd_rx_slots c.

(** One request. *)
Lemma run_drain_one B D mport mp cm r reqs s c :
  reqs_ok B D (r :: reqs) -> ks_mports (ms_k (cs_m s)) !! mport = Some mp ->
  ks_devs (ms_k (cs_m s)) = D -> ms_bufs (cs_m s) !! tr_buffer r = B !! tr_buffer r ->
  cs_cms s !! cm = Some c -> tx_ok c -> cd_mport c = Some mport -> cd_tx_cnt c < 128 ->
  exists c2, posted_ok c c2 1 reqs /\
    drain_reqs cmbox cm (r :: reqs) s =
      (if cd_tx_cnt c2 =? RIOCM_TX_RING_SIZE then ret tt else drain_reqs cmbox cm reqs)
        (with_cm cm c2 (handed_over B D mport mp [r] s)).
Proof.
  intros Hok Hm HD HB Hc [T1 T2 T3 T4] Hmp Hcnt.
  destruct (rq_buf _ _ _ Hok r) as (b & Hb & _); [apply list_elem_of_here|].
  set (tx := <[Z.to_nat (cd_tx_slot c) := Some (tr_buffer r)]> (cd_tx_buf c)).
  set (c1 := setf cd_tx_buf tx (setf cd_tx_reqs reqs c)).
  set (c2 := setf cd_tx_cnt (cd_tx_cnt c1 + 1) (setf cd_tx_slot (next_slot (cd_tx_slot c1)) c1)).
  exists c2. assert (0 <= cd_tx_slot c < Z.of_nat (length (cd_tx_buf c))) as Hslot.
  { rewrite T1, T4. apply Z.mod_pos_bound. lia. }
  split.
  - split; [|by cbn]. split; unfold c2, c1, tx; cbn [cd_tx_buf cd_tx_cnt cd_tx_ack_slot cd_tx_slot setf updf].
    + by rewrite length_insert.
    + lia.
    + done.
    + rewrite next_slot_mod, T4, Z.add_mod_idemp_l by lia. f_equal. lia.
  - cbn [drain_reqs]. run (run_upd_cm s cm c (setf cd_tx_reqs reqs) Hc).
    run (run_get_cm (with_cm cm (setf cd_tx_reqs reqs c) s) cm _ (with_cm_lookup _ _ _)).
    change (cd_tx_buf (setf cd_tx_reqs reqs c)) with (cd_tx_buf c).
    change (cd_tx_slot (setf cd_tx_reqs reqs c)) with (cd_tx_slot c).
    erewrite bind_Done; [|by apply run_slot_set]. fold tx.
    erewrite bind_Done; [|eapply run_upd_cm, with_cm_lookup]. rewrite with_cm_twice. fold c1.
    unfold cm_mport. change (cd_mport (setf cd_tx_reqs reqs c)) with (cd_mport c). rewrite Hmp.
    cbn [deref]. rewrite bind_ret.
    destruct (run_add_outb B D (with_cm cm c1 s) mport mp r reqs Hok Hm HD HB) as [rc Hadd]. run Hadd.
    erewrite bind_Done; [|by eapply run_kfree_buf; cbn; rewrite HB].
    erewrite bind_Done; [|reflexivity]. erewrite bind_Done; [|by eapply run_upd_cm, lookup_insert_eq].
    fold c2. erewrite bind_Done; [|by eapply run_get_cm, lookup_insert_eq].
    f_equal. unfold with_cm, handed_over, without_buf. cbn. rewrite insert_insert_eq. f_equal.
    f_equal. f_equal. unfold with_allocs, with_hw. cbn. f_equal. lia.
Qed.

Lemma run_drain B D mport mp cm reqs : forall s c,
  reqs_ok B D reqs -> ks_mports (ms_k (cs_m s)) !! mport = Some mp -> ks_devs (ms_k (cs_m s)) = D ->
  (forall r, r ∈ reqs -> ms_bufs (cs_m s) !! tr_buffer r = B !! tr_buffer r) ->
  cs_cms s !! cm = Some c -> tx_ok c -> cd_mport c = Some mport -> cd_tx_reqs c = reqs ->
  cd_tx_cnt c < 128 ->
  let n := Z.min (Z.of_nat (length reqs)) (128 - cd_tx_cnt c) in
  exists c', drain_reqs cmbox cm reqs s =
      Done tt (with_cm cm c' (handed_over B D mport mp (take (Z.to_nat n) reqs) s)) /\
    posted_ok c c' n (drop (Z.to_nat n) reqs).
Proof.
  induction reqs as [|r reqs IH]; intros s c Hok Hm HD HB Hc Htx Hmp Hrq Hcnt n.
  - exists c. cbn [drain_reqs]. assert (n = 0) as ->.
    { unfold n. cbn. pose proof (tx_cnt c Htx). lia. }
    cbn [Z.to_nat take drop].
    split; [|split; [done|split; [lia|done]]]. unfold ret. f_equal. unfold handed_over, with_cm. cbn.
    rewrite Z.sub_0_r. destruct s as [[[] ?] ? ? ? ? ?]. cbn in *. f_equal. by rewrite insert_id.
  - destruct (run_drain_one B D mport mp cm r reqs s c) as (c2 & Hp & ->);
      try done; [by apply HB, list_elem_of_here|].
    change RIOCM_TX_RING_SIZE with 128. destruct Hp as (P1 & P2 & P3 & P4 & P5 & P6 & P7 & P8 & P9).
    destruct (Z.eqb_spec (cd_tx_cnt c2) 128) as [Hfull|Hnot].
    + assert (n = 1) as -> by (unfold n; cbn [length]; lia). exists c2. cbn [Z.to_nat take drop].
      split; [done|]. repeat (split; [done|]). done.
    + destruct (IH (with_cm cm c2 (handed_over B D mport mp [r] s)) c2) as (c' & Hrun & Hp').
      { by eapply reqs_ok_tail. } { exact Hm. } { exact HD. }
      { intros x Hx. cbn. rewrite lookup_delete_ne; [by apply HB, list_elem_of_further|].
        pose proof (rq_nodup _ _ _ Hok) as Hnd. cbn in Hnd. apply NoDup_cons in Hnd as [Hnd _].
        intros Heq. apply Hnd. rewrite Heq. by apply list_elem_of_fmap_2. }
      { apply with_cm_lookup. } { done. } { congruence. } { done. } { pose proof (tx_cnt _ P1). lia. }
      exists c'. rewrite Hrun. set (m := Z.min (Z.of_nat (length reqs)) (128 - cd_tx_cnt c2)) in *.
      assert (n = m + 1) as Hn by (unfold n, m; cbn [length]; lia).
      assert (0 <= m) as Hm0 by (unfold m; pose proof (tx_cnt _ P1); lia).
      replace (Z.to_nat n) with (S (Z.to_nat m)) by lia. cbn [take drop]. split.
      * f_equal. unfold with_cm, handed_over. cbn [cs_cms cs_m setf updf ms_k ms_bufs foldl length].
        rewrite insert_insert_eq. f_equal. f_equal. unfold with_allocs, with_hw. cbn. f_equal. lia.
      * destruct Hp' as (Q1 & Q2 & Q3 & Q4 & Q5 & Q6 & Q7 & Q8 & Q9).
        split; [done|split; [lia|split; [done|]]]. repeat split; congruence.
Qed.

Lemma handed_over_nil B D mport mp s c cm :
  with_cm cm c (handed_over B D mport mp [] s) = with_cm cm c s.
Proof. unfold with_cm, handed_over. destruct s as [[[] ?] ? ? ? ? ?]. cbn. by rewrite Z.sub_0_r. Qed.

Lemma run_txcq B D cm slot s c mport mp :
  cs_cms s !! cm = Some c -> tx_ok c -> cd_mport c = Some mport ->
  ks_mports (ms_k (cs_m s)) !! mport = Some mp -> reqs_ok B D (cd_tx_reqs c) ->
  ks_devs (ms_k (cs_m s)) = D ->
  (forall r, r ∈ cd_tx_reqs c -> ms_bufs (cs_m s) !! tr_buffer r = B !! tr_buffer r) -> 0 <= slot < 128 ->
  let k := acked (cd_tx_cnt c) (cd_tx_ack_slot c) slot in
  let n := Z.to_nat (Z.min (Z.of_nat (length (cd_tx_reqs c))) (128 - (cd_tx_cnt c - k))) in
  exists c', rio_txcq_handler cmbox cm slot s =
      Done tt (with_cm cm c' (handed_over B D mport mp (take n (cd_tx_reqs c)) s)) /\
    tx_ok c' /\ cd_tx_cnt c' = cd_tx_cnt c - k + Z.of_nat n /\
    cd_tx_ack_slot c' = (cd_tx_ack_slot c + k) mod 128 /\
    cd_tx_reqs c' = drop n (cd_tx_reqs c) /\
    cd_mport c' = cd_mport c /\ cd_peers c' = cd_peers c /\ cd_npeers c' = cd_npeers c /\
    cd_rx_buf c' = cd_rx_buf c /\ cd_rx_slots c' = cd_rx_slots c.
Proof.
  intros Hc Htx Hmp Hm Hrq HD HB Hslot k n. pose proof Htx as [T1 T2 T3 T4].
  pose proof (acked_range (cd_tx_cnt c) (cd_tx_ack_slot c) slot T2) as Hk. fold k in Hk.
  destruct (run_ack_loop TX_FUEL cm slot (cd_tx_ack_slot c) s c Hc T1 T2 T3 Hslot) as (tx & Htl & Hack).
  { fold k. unfold TX_FUEL. lia. }
  fold k in Hack. unfold rio_txcq_handler. run (run_get_cm _ _ _ Hc). run Hack.
  erewrite bind_Done; [|eapply run_upd_cm, with_cm_lookup]. rewrite with_cm_twice.
  set (c1 := setf cd_tx_ack_slot _ _).
  run (run_get_cm (with_cm cm c1 s) cm c1 (with_cm_lookup _ _ _)).
  assert (tx_ok c1) as Hok1.
  { split; unfold c1; cbn [cd_tx_buf cd_tx_cnt cd_tx_ack_slot cd_tx_slot setf updf]; [done|lia|apply Z.mod_pos_bound; lia|].
    rewrite Z.add_mod_idemp_l by lia. rewrite T4. f_equal. lia. }
  change (cd_tx_cnt c1) with (cd_tx_cnt c - k). change RIOCM_TX_RING_SIZE with 128.
  destruct (Z.ltb_spec (cd_tx_cnt c - k) 128) as [Hlt|Hge].
  - cbn [when]. destruct (run_drain B D mport mp cm (cd_tx_reqs c)
      (with_cm cm c1 s) c1) as (c' & Hrun & Hp); try done; [by apply with_cm_lookup|].
    change (cd_tx_cnt c1) with (cd_tx_cnt c - k) in Hrun, Hp. fold n in Hrun, Hp.
    exists c'. change (cd_tx_reqs c1) with (cd_tx_reqs c). rewrite Hrun. split.
    { f_equal. unfold with_cm, handed_over. cbn. by rewrite insert_insert_eq. }
    destruct Hp as (P1 & P2 & P3 & P4 & P5). split; [done|]. split; [|done].
    rewrite P2. change (cd_tx_cnt c1) with (cd_tx_cnt c - k). unfold n. lia.
  - assert (n = 0%nat) as -> by (unfold n; lia). exists c1. cbn [when take drop].
    rewrite handed_over_nil. split; [done|]. split; [done|]. split; [cbn; lia|done].
Qed.
(** C11: a completion report of slot [slot] frees exactly the slots in flight that
    lie before it (all of them when the ring is full and starts there), and then as
    many waiting requests as fit are handed to the hardware in their order, each
    freed after it; the window of the ring stays well formed and nothing else
    changes. *)
Theorem rio_txcq_handler_correct cm slot s c mport mp
    (Hc : cs_cms s !! cm = Some c) (Htx : tx_ok c) (Hmp : cd_mport c = Some mport)
    (Hm : ks_mports (ms_k (cs_m s)) !! mport = Some mp)
    (Hrq : reqs_ok (ms_bufs (cs_m s)) (ks_devs (ms_k (cs_m s))) (cd_tx_reqs c))
    (Hslot : 0 <= slot < 128) :
  let k := acked (cd_tx_cnt c) (cd_tx_ack_slot c) slot in
  let n := Z.to_nat (Z.min (Z.of_nat (length (cd_tx_reqs c))) (128 - (cd_tx_cnt c - k))) in
  exists c', rio_txcq_handler cmbox cm slot s =
      Done tt (with_cm cm c' (handed_over (ms_bufs (cs_m s)) (ks_devs (ms_k (cs_m s))) mport mp
        (take n (cd_tx_reqs c)) s)) /\
    tx_ok c' /\ cd_tx_cnt c' = cd_tx_cnt c - k + Z.of_nat n /\
    cd_tx_ack_slot c' = (cd_tx_ack_slot c + k) mod 128 /\
    cd_tx_reqs c' = drop n (cd_tx_reqs c) /\
    cd_mport c' = cd_mport c /\ cd_peers c' = cd_peers c /\ cd_npeers c' = cd_npeers c /\
    cd_rx_buf c' = cd_rx_buf c /\ cd_rx_slots c' = cd_rx_slots c.
Proof. by apply run_txcq. Qed.

(** Handing over in two parts. *)
Lemma handed_over_app B D mport mp rs rs' s c cm :
  handed_over B D mport mp rs' (with_cm cm c (handed_over B D mport mp rs s)) =
  with_cm cm c (handed_over B D mport mp (rs ++ rs') s).
Proof.
  unfold handed_over, with_cm. cbn. rewrite !foldl_app. do 2 f_equal. unfold with_allocs, with_hw. cbn.
  f_equal. rewrite length_app. lia.
Qed.
Lemma handed_over_bufs B D mport mp rs s b :
  b ∉ (tr_buffer <$> rs) -> ms_bufs (cs_m (handed_over B D mport mp rs s)) !! b = ms_bufs (cs_m s) !! b.
Proof.
  unfold handed_over. cbn. generalize (ms_bufs (cs_m s)). induction rs as [|r rs IH]; intros m Hb; [done|].
  cbn in *. apply not_elem_of_cons in Hb as [Hb1 Hb2]. rewrite IH by done. by rewrite lookup_delete_ne.
Qed.
Lemma reqs_ok_drop B D n reqs : reqs_ok B D reqs -> reqs_ok B D (drop n reqs).
Proof.
  revert n. induction reqs as [|r reqs IH]; intros [|n] H; [done..|]. cbn. by apply IH, (reqs_ok_tail _ _ r).
Qed.

(** Any report makes room for at least one request: a ring that is full gives up
    a slot. *)
Lemma report_progress c slot :
  tx_ok c -> 0 <= slot < 128 -> 1 <= 128 - (cd_tx_cnt c - acked (cd_tx_cnt c) (cd_tx_ack_slot c) slot).
Proof.
  intros [_ Hn Ha _] Hs. unfold acked.
  pose proof (Z.mod_pos_bound (slot - cd_tx_ack_slot c) 128 ltac:(lia)) as Hd.
  destruct (Z.eqb_spec ((slot - cd_tx_ack_slot c) mod 128) 0), (Z.eqb_spec (cd_tx_cnt c) 128); cbn; lia.
Qed.

Lemma run_reports B D cm mport mp slots : forall s c,
  cs_cms s !! cm = Some c -> tx_ok c -> cd_mport c = Some mport ->
  ks_mports (ms_k (cs_m s)) !! mport = Some mp -> reqs_ok B D (cd_tx_reqs c) ->
  ks_devs (ms_k (cs_m s)) = D ->
  (forall r, r ∈ cd_tx_reqs c -> ms_bufs (cs_m s) !! tr_buffer r = B !! tr_buffer r) ->
  Forall (fun slot => 0 <= slot < 128) slots ->
  exists c' n, for_ slots (rio_txcq_handler cmbox cm) s =
      Done tt (with_cm cm c' (handed_over B D mport mp (take n (cd_tx_reqs c)) s)) /\
    (length slots <= n \/ length (cd_tx_reqs c) <= n)%nat /\
    cd_tx_reqs c' = drop n (cd_tx_reqs c) /\ tx_ok c'.
Proof.
  induction slots as [|slot slots IH]; intros s c Hc Htx Hmp Hm Hrq HD HB Hslots.
  - exists c, 0%nat. rewrite take_0, handed_over_nil, with_cm_same by done. cbn. auto with lia.
  - apply Forall_cons in Hslots as [Hslot Hslots]. pose proof (report_progress c slot Htx Hslot) as Hprog.
    destruct (run_txcq B D cm slot s c mport mp) as (c1 & Hrun & Htx1 & _ & _ & Hreqs & Hmp1 & _); try done.
    set (n1 := Z.to_nat _) in *. set (s1 := with_cm cm c1 _) in *.
    destruct (IH s1 c1) as (c' & n & Hruns & Hn & Hr & Htx').
    + apply with_cm_lookup.
    + done.
    + congruence.
    + done.
    + rewrite Hreqs. by apply reqs_ok_drop.
    + done.
    + rewrite Hreqs. intros r Hr. unfold s1. cbn [with_cm cs_m setf updf].
      change (ms_bufs _) with (ms_bufs (cs_m (handed_over B D mport mp (take n1 (cd_tx_reqs c)) s))).
      rewrite handed_over_bufs; [apply HB; rewrite <- (take_drop n1 (cd_tx_reqs c)); apply elem_of_app; by right|].
      pose proof (rq_nodup _ _ _ Hrq) as Hnd. rewrite <- (take_drop n1 (cd_tx_reqs c)), fmap_app in Hnd.
      apply NoDup_app in Hnd as (_ & Hnd & _). intros Hin. apply (Hnd _ Hin). by apply list_elem_of_fmap_2.
    + done.
    + exists c', (n1 + n)%nat. cbn [for_]. run Hrun. rewrite Hruns, Hreqs. unfold s1.
      rewrite handed_over_app, with_cm_twice, take_take_drop. split; [done|].
      rewrite Hreqs in Hn, Hr. rewrite Hr, drop_drop. rewrite length_drop in Hn.
      split; [|done]. cbn [length]. unfold n1 in *. lia.
Qed.

(** C15: every request that waits for the transmit ring is sent.  Whatever slots
    the hardware reports, after as many reports as there are requests none is
    left, and the hardware has been given all of them in the order in which they
    were queued; in between, every report hands over at least one. *)
Theorem tx_requests_sent slots cm s c mport mp
    (Hc : cs_cms s !! cm = Some c) (Htx : tx_ok c) (Hmp : cd_mport c = Some mport)
    (Hm : ks_mports (ms_k (cs_m s)) !! mport = Some mp)
    (Hrq : reqs_ok (ms_bufs (cs_m s)) (ks_devs (ms_k (cs_m s))) (cd_tx_reqs c))
    (Hslots : Forall (fun slot => 0 <= slot < 128) slots) :
  exists c' n, for_ slots (rio_txcq_handler cmbox cm) s =
      Done tt (with_cm cm c' (handed_over (ms_bufs (cs_m s)) (ks_devs (ms_k (cs_m s))) mport mp
        (take n (cd_tx_reqs c)) s)) /\
    (length slots <= n \/ length (cd_tx_reqs c) <= n)%nat /\
    cd_tx_reqs c' = drop n (cd_tx_reqs c) /\ tx_ok c'.
Proof. by apply run_reports. Qed.
End tx.

Lemma rio_txcq_handler_correct_witness :
  let c := setf cd_tx_cnt 128 (setf cd_tx_reqs [mk_tx_req 2 5 20] cmw_cm) in
  let s := with_cm 3%positive c (cmw_state ∅ ∅ ∅ {[ 5%positive := replicate 20 0 ]}) in
  exists s', rio_txcq_handler 1 3%positive 0 s = Done tt s' /\
    cd_tx_cnt <$> cs_cms s' !! 3%positive = Some 1.
Proof.
  intros c s. destruct (rio_txcq_handler_correct 1 3%positive 0 s c 1%positive cmw_mport)
    as (c' & Hrun & _ & Hn & _).
  - reflexivity.
  - by split; vm_compute.
  - reflexivity.
  - reflexivity.
  - split.
    + apply NoDup_singleton.
    + intros r Hr. apply list_elem_of_singleton in Hr as ->. eexists. split; [reflexivity|cbn; lia].
    + intros r Hr. apply list_elem_of_singleton in Hr as ->. eexists. reflexivity.
  - lia.
  - eexists. split; [exact Hrun|]. unfold with_cm at 1. cbn [cs_cms setf updf].
    rewrite lookup_insert_eq. cbn. f_equal. rewrite Hn. reflexivity.
Defined.

Lemma tx_requests_sent_witness :
  let c := setf cd_tx_reqs [mk_tx_req 2 5 20; mk_tx_req 2 6 20] cmw_cm in
  let s := with_cm 3%positive c
    (cmw_state ∅ ∅ ∅ {[ 5%positive := replicate 20 0; 6%positive := replicate 20 1 ]}) in
  exists c' n, for_ [0; 17] (rio_txcq_handler 1 3%positive) s =
      Done tt (with_cm 3%positive c' (handed_over 1 (ms_bufs (cs_m s)) (ks_devs (ms_k (cs_m s))) 1
        cmw_mport (take n (cd_tx_reqs c)) s)) /\ cd_tx_reqs c' = [].
Proof.
  intros c s. destruct (tx_requests_sent 1 [0; 17] 3%positive s c 1%positive cmw_mport) as (c' & n & H & Hn & Hr & _).
  - reflexivity.
  - by split; vm_compute.
  - reflexivity.
  - reflexivity.
  - split.
    + cbn. apply NoDup_cons; split; [by rewrite list_elem_of_singleton|apply NoDup_singleton].
    + intros r Hr. apply elem_of_cons in Hr as [->|Hr]; [eexists; split; [reflexivity|cbn; lia]|].
      apply list_elem_of_singleton in Hr as ->. eexists. split; [reflexivity|cbn; lia].
    + intros r Hr. apply elem_of_cons in Hr as [->|Hr]; [by eexists|].
      apply list_elem_of_singleton in Hr as ->. by eexists.
  - repeat constructor; lia.
  - exists c', n. split; [exact H|]. rewrite Hr. apply drop_ge. cbn in *. lia.
Defined.
