(* ===== verification/RioCmSend.v ===== *)
(** * Packets of channelized messaging

    What a header carries from the sender to the receiver, and the sending of data
    messages. *)

From S2P Require Import Prelude Regs State Mbox Msg RioCm RioCmOps RioCmBench RioCmRing RioCmTx.

Section send.
Context {W : Type} `{!KernelEnv W} `{!CmEnv W} (cmbox : Z).
Implicit Types s : cmstate W.

(** The state with the contents of a buffer replaced. *)
Definition with_buf (p : ptr) (b : list Z) s : cmstate W :=
  setf cs_m (setf ms_bufs (<[p := b]> (ms_bufs (cs_m s))) (cs_m s)) s.

Lemma with_buf_lookup p b s : ms_bufs (cs_m (with_buf p b s)) !! p = Some b.
Proof. apply lookup_insert_eq. Qed.
Lemma with_buf_twice p b b' s : with_buf p b (with_buf p b' s) = with_buf p b s.
Proof. unfold with_buf. cbn. by rewrite insert_insert_eq. Qed.

Lemma run_write_at s p b off bytes :
  ms_bufs (cs_m s) !! p = Some b -> (off + length bytes <= length b)%nat ->
  lift (write_at p off bytes) s = Done tt (with_buf p (put_bytes off bytes b) s).
Proof.
  intros H Hl. unfold lift, write_at, get_buf, set_buf, gets, bind. cbn. rewrite H. cbn.
  by destruct (Nat.leb_spec (off + length bytes) (length b)); [|lia].
Qed.
Lemma write_at_ub s p b off bytes :
  ms_bufs (cs_m s) !! p = Some b -> (length b < off + length bytes)%nat ->
  lift (write_at p off bytes) s = UB.
Proof.
  intros H Hl. unfold lift, write_at, get_buf, gets, bind. cbn. rewrite H. cbn.
  by destruct (Nat.leb_spec (off + length bytes) (length b)); [lia|].
Qed.

(** A sequence of writes at distinct places. *)
Definition puts (l : list (nat * list Z)) (b : list Z) : list Z :=
  foldl (fun b '(off, bytes) => put_bytes off bytes b) b l.
Definition writes (p : ptr) (l : list (nat * list Z)) : CM W unit :=
  for_ l (fun '(off, bytes) => lift (write_at p off bytes)).
Definition fits (n : nat) (l : list (nat * list Z)) : Prop :=
  Forall (fun '(off, bytes) => (off + length bytes <= n)%nat) l.

Lemma puts_length l b : fits (length b) l -> length (puts l b) = length b.
Proof.
  unfold fits. revert b. induction l as [|[off bytes] l IH]; intros b H; [done|].
  apply Forall_cons in H as [H1 H2]. change (length (puts l (put_bytes off bytes b)) = length b).
  rewrite IH; [by apply put_bytes_length|]. by rewrite put_bytes_length.
Qed.
Lemma run_writes l s p b :
  ms_bufs (cs_m s) !! p = Some b -> fits (length b) l ->
  writes p l s = Done tt (with_buf p (puts l b) s).
Proof.
  unfold fits. revert s b. induction l as [|[off bytes] l IH]; intros s b Hb Hf.
  - unfold writes, ret. cbn. unfold ret. f_equal. unfold with_buf. rewrite insert_id by done.
    by destruct s as [[] ? ? ? ? ?].
  - apply Forall_cons in Hf as [H1 H2]. unfold writes. cbn [for_]. erewrite bind_Done; [|by apply run_write_at].
    change (for_ l _) with (writes p l). rewrite (IH _ (put_bytes off bytes b)).
    + by rewrite with_buf_twice.
    + apply with_buf_lookup.
    + by rewrite put_bytes_length.
Qed.
(** A place that does not fit makes the sequence undefined. *)
Lemma writes_ub l s p b :
  ms_bufs (cs_m s) !! p = Some b -> ~ fits (length b) l -> writes p l s = UB.
Proof.
  unfold fits. revert s b. induction l as [|[off bytes] l IH]; intros s b Hb Hf; [by destruct Hf|].
  unfold writes. cbn [for_]. unfold bind. destruct (decide (off + length bytes <= length b)%nat) as [Hle|Hgt].
  - rewrite (run_write_at _ _ _ _ _ Hb Hle). apply (IH _ (put_bytes off bytes b)); [apply with_buf_lookup|].
    rewrite put_bytes_length by done. intros Hl. apply Hf. by constructor.
  - by rewrite (write_at_ub _ _ b) by (done || lia).
Qed.

(** Reading one of the places back. *)
Definition apart (off n : nat) (l : list (nat * list Z)) : Prop :=
  Forall (fun '(off', bytes) => (off + n <= off' \/ off' + length bytes <= off)%nat) l.
Lemma get_puts_other l b off n :
  fits (length b) l -> apart off n l -> get_bytes off n (puts l b) = get_bytes off n b.
Proof.
  unfold fits, apart. revert b. induction l as [|[off' bytes] l IH]; intros b Hf Ha; [done|].
  apply Forall_cons in Hf as [H1 H2]. apply Forall_cons in Ha as [H3 H4].
  change (puts ((off', bytes) :: l) b) with (puts l (put_bytes off' bytes b)). rewrite IH; [by apply get_put_other|by rewrite put_bytes_length|done].
Qed.
Lemma get_puts l1 l2 b off bytes :
  fits (length b) (l1 ++ (off, bytes) :: l2) -> apart off (length bytes) l2 ->
  get_bytes off (length bytes) (puts (l1 ++ (off, bytes) :: l2) b) = bytes.
Proof.
  unfold fits. intros Hf Ha. apply Forall_app in Hf as [Hf1 Hf2]. apply Forall_cons in Hf2 as [Hf2 Hf3].
  unfold puts. rewrite foldl_app. fold (puts l1 b).
  change (foldl _ (puts l1 b) ((off, bytes) :: l2)) with (puts l2 (put_bytes off bytes (puts l1 b))).
  assert (length (puts l1 b) = length b) as Hl by (by apply puts_length).
  rewrite get_puts_other; [apply get_put_same; lia| |done]. unfold fits. rewrite put_bytes_length; by rewrite Hl.
Qed.

(** The places of a header. *)
Definition hdr_places (src_id dst_id op dst_ch src_ch : Z) : list (nat * list Z) :=
  [(OFF_SRC_ID, be_bytes 4 src_id); (OFF_DST_ID, be_bytes 4 dst_id);
   (OFF_SRC_MBOX, be_bytes 1 cmbox); (OFF_DST_MBOX, be_bytes 1 cmbox);
   (OFF_TYPE, be_bytes 1 RIO_CM_CHAN); (OFF_CH_OP, be_bytes 1 op);
   (OFF_DST_CH, be_bytes 2 dst_ch); (OFF_SRC_CH, be_bytes 2 src_ch)].
Definition msg_places src_id dst_id dst_ch src_ch len : list (nat * list Z) :=
  hdr_places src_id dst_id CM_DATA_MSG dst_ch src_ch ++ [(OFF_MSG_LEN, be_bytes 2 len)].

Lemma fill_hdr_writes p a b op c d s :
  fill_hdr cmbox p a b op c d s = writes p (hdr_places a b op c d) s.
Proof.
  unfold writes, hdr_places, fill_hdr, put_be32, put_be16, put_u8. cbn [for_]. unfold bind.
  repeat match goal with |- context [match ?m with Done _ _ => _ | UB => _ | NoFuel => _ end] =>
    destruct m as [[] ?| |]; [|done..] end. done.
Qed.

Lemma fill_msg_writes {A} p a b c d len (k : CM W A) s :
  (fill_hdr cmbox p a b CM_DATA_MSG c d ;;; put_be16 p OFF_MSG_LEN len ;;; k) s =
  (writes p (msg_places a b c d len) ;;; k) s.
Proof.
  unfold bind at 1. rewrite fill_hdr_writes. unfold msg_places.
  unfold bind at 2. unfold writes at 2. rewrite for_app. unfold bind at 2. fold (writes p (hdr_places a b CM_DATA_MSG c d)).
  destruct (writes p (hdr_places a b CM_DATA_MSG c d) s) as [[] s1| |]; [|done..].
  cbn [for_]. unfold bind, put_be16. by destruct (lift _ s1) as [[] s2| |].
Qed.

(** What a receiver reads from a header. *)
Definition carries (b : list Z) (src_id dst_id op dst_ch src_ch : Z) : Prop :=
  be_value (get_bytes OFF_SRC_ID 4 b) = u32 src_id /\ be_value (get_bytes OFF_DST_ID 4 b) = u32 dst_id /\
  be_value (get_bytes OFF_TYPE 1 b) = RIO_CM_CHAN /\ be_value (get_bytes OFF_CH_OP 1 b) = u8 op /\
  be_value (get_bytes OFF_DST_CH 2 b) = u16 dst_ch /\ be_value (get_bytes OFF_SRC_CH 2 b) = u16 src_ch.

Lemma be_1 v : be_value (be_bytes 1 v) = u8 v.
Proof. apply (be_value_bytes 1). Qed.
Lemma be_2 v : be_value (be_bytes 2 v) = u16 v.
Proof. apply (be_value_bytes 2). Qed.
Lemma be_4 v : be_value (be_bytes 4 v) = u32 v.
Proof. apply (be_value_bytes 4). Qed.

(** A place of a list that is apart from those after it. *)
Lemma place l1 l2 l b off bytes n :
  l = l1 ++ (off, bytes) :: l2 -> fits (length b) l -> apart off n l2 -> n = length bytes ->
  get_bytes off n (puts l b) = bytes.
Proof. intros -> Hf Ha ->. by apply get_puts. Qed.

Lemma msg_places_fit a b c d len n : (18 <= n)%nat <-> fits n (msg_places a b c d len).
Proof.
  unfold fits, msg_places, hdr_places. cbn [app].
  repeat rewrite Forall_cons. rewrite Forall_nil, !be_bytes_length.
  unfold OFF_SRC_ID, OFF_DST_ID, OFF_SRC_MBOX, OFF_DST_MBOX, OFF_TYPE, OFF_CH_OP, OFF_DST_CH, OFF_SRC_CH, OFF_MSG_LEN.
  lia.
Qed.

Ltac place_of k l :=
  erewrite (place (take k l) (drop (S k) l));
  [|reflexivity|eassumption|repeat constructor; cbn; lia|reflexivity].

Lemma carries_msg a b c d len bytes :
  (18 <= length bytes)%nat ->
  let bytes' := puts (msg_places a b c d len) bytes in
  carries bytes' a b CM_DATA_MSG c d /\ be_value (get_bytes OFF_MSG_LEN 2 bytes') = u16 len /\
  length bytes' = length bytes /\
  forall off n, (18 <= off)%nat -> get_bytes off n bytes' = get_bytes off n bytes.
Proof.
  intros Hl bytes'. apply (msg_places_fit a b c d len) in Hl as Hf.
  set (l := msg_places a b c d len) in *. unfold bytes'.
  split; [|split; [|split]].
  - unfold carries. place_of 0%nat l. place_of 1%nat l. place_of 4%nat l. place_of 5%nat l.
    place_of 6%nat l. place_of 7%nat l. by rewrite !be_4, !be_2, !be_1.
  - place_of 8%nat l. apply be_2.
  - by apply puts_length.
  - intros off n Hoff. apply get_puts_other; [done|]. unfold apart, l, msg_places, hdr_places.
    repeat constructor; cbn; lia.
Qed.

(** Posting a packet: it takes a slot whatever the hardware answers. *)
Lemma run_post_send s cm c mport mp rdev d buf b len :
  cs_cms s !! cm = Some c -> cd_mport c = Some mport -> tx_ok c ->
  ks_mports (ms_k (cs_m s)) !! mport = Some mp -> ks_devs (ms_k (cs_m s)) !! rdev = Some d ->
  ms_bufs (cs_m s) !! buf = Some b -> (Z.to_nat len <= length b)%nat ->
  if cd_tx_cnt c =? 128 then riocm_post_send cmbox cm rdev buf len s = Done (- EBUSY) s
  else exists c', posted_ok c c' 1 (cd_tx_reqs c) /\
    riocm_post_send cmbox cm rdev buf len s =
      Done (hw_send cmbox s mport mp d b len).1 (with_cm cm c' (with_khw (hw_send cmbox s mport mp d b len).2 s)).
Proof.
  intros Hc Hmp [T1 T2 T3 T4] Hm Hd Hb Hl. unfold riocm_post_send. run (run_get_cm _ _ _ Hc).
  rewrite Hmp. change RIOCM_TX_RING_SIZE with 128. destruct (Z.eqb_spec (cd_tx_cnt c) 128); [done|].
  set (tx := <[Z.to_nat (cd_tx_slot c) := Some buf]> (cd_tx_buf c)). set (c1 := setf cd_tx_buf tx c).
  exists (setf cd_tx_cnt (cd_tx_cnt c1 + 1) (setf cd_tx_slot (next_slot (cd_tx_slot c1)) c1)). split.
  - split; [|by cbn]. split; unfold c1, tx; cbn [cd_tx_buf cd_tx_cnt cd_tx_ack_slot cd_tx_slot setf updf].
    + by rewrite length_insert.
    + lia.
    + done.
    + rewrite next_slot_mod, T4, Z.add_mod_idemp_l by lia. f_equal. lia.
  - assert (0 <= cd_tx_slot c < Z.of_nat (length (cd_tx_buf c))) as Hslot.
    { rewrite T1, T4. apply Z.mod_pos_bound. lia. }
    erewrite bind_Done; [|by apply run_slot_set]. fold tx.
    erewrite bind_Done; [|by apply run_upd_cm]. fold c1.
    erewrite bind_Done; [|by apply (run_outb cmbox (with_cm cm c1 s) mport mp rdev d buf b len)].
    erewrite bind_Done; [|by eapply run_upd_cm, lookup_insert_eq].
    unfold ret. f_equal. unfold with_cm, with_khw. cbn. by rewrite insert_insert_eq.
Qed.

(** Giving up the channel behind calls that leave its reference alone. *)
Lemma put_behind s ch c buf b (f : cmstate W -> cmstate W) : cs_chans s !! ch = Some c -> 1 <= ch_ref c ->
  (forall c' t, f (with_ch ch c' t) = with_ch ch c' (f t)) ->
  riocm_put_channel ch (f (with_buf buf b (with_ch ch (one_more c) s))) = Done tt (f (with_buf buf b s)).
Proof.
  intros Hc Href Hf. set (s1 := with_buf buf b s).
  assert (f (with_buf buf b (with_ch ch (one_more c) s)) = with_ch ch (one_more c) (f s1)) as ->.
  { rewrite <- Hf. reflexivity. }
  rewrite (run_put_channel _ ch _ (with_ch_lookup _ _ _)) by (cbn; lia). f_equal.
  rewrite <- Hf, <- Hf. f_equal. transitivity (with_buf buf b
    (with_ch ch (setf ch_ref (ch_ref (one_more c) - 1) (one_more c)) (with_ch ch (one_more c) s))); [reflexivity|].
  rewrite with_ch_one_more by done. reflexivity.
Qed.

(** Filling the message in and posting it. *)
Lemma run_fill_post c cm rdev buf bytes len s rc s' :
  let l := msg_places (ch_loc_destid c) (ch_rem_destid c) (ch_rem_channel c) (ch_id c) len in
  ms_bufs (cs_m s) !! buf = Some bytes -> (18 <= length bytes)%nat ->
  ch_cmdev c = Some cm -> ch_rdev c = Some rdev ->
  riocm_post_send cmbox cm rdev buf len (with_buf buf (puts l bytes) s) = Done rc s' ->
  (fill_hdr cmbox buf (ch_loc_destid c) (ch_rem_destid c) CM_DATA_MSG (ch_rem_channel c) (ch_id c) ;;;
   put_be16 buf OFF_MSG_LEN len ;;;
   let! cm := deref (ch_cmdev c) ;; let! rdev := deref (ch_rdev c) ;;
   riocm_post_send cmbox cm rdev buf len) s = Done rc s'.
Proof.
  intros l Hbuf Hl Hcm Hrd H.
  apply (msg_places_fit (ch_loc_destid c) (ch_rem_destid c) (ch_rem_channel c) (ch_id c) len) in Hl.
  rewrite fill_msg_writes. run (run_writes l s buf bytes Hbuf Hl). by rewrite Hcm, Hrd.
Qed.

(** C12: a data message goes out with a header from which the receiver reads both
    ids, both channel numbers, the operation and the length, and with its payload
    as it was; it takes a slot of the transmit ring and the result is the
    hardware's answer.  With a full ring it is refused with -EBUSY.  A wrong length,
    an unknown channel and a channel that is not connected give -EINVAL, -ENODEV
    and -EAGAIN and change nothing.  The length is not compared with the size of
    the header: a message shorter than the 18 bytes that are written (of the 20 that
    the header has) makes the function write past the end of the buffer. *)
Theorem riocm_ch_send_correct chid buf bytes len s
    (Hbuf : ms_bufs (cs_m s) !! buf = Some bytes) (Hlen : Z.of_nat (length bytes) = len) :
  if (chid =? 0) || (len =? 0) || (0x1000 <? len) then
    riocm_ch_send cmbox chid (Some buf) len s = Done (- EINVAL) s
  else match ch_idr s !! chid with
  | None => riocm_ch_send cmbox chid (Some buf) len s = Done (- ENODEV) s
  | Some ch => forall c, cs_chans s !! ch = Some c -> 1 <= ch_ref c ->
    if negb (bool_decide (ch_state c = RIO_CM_CONNECTED)) then
      riocm_ch_send cmbox chid (Some buf) len s = Done (- EAGAIN) s
    else if len <? 18 then riocm_ch_send cmbox chid (Some buf) len s = UB
    else forall cm cd mport mp rdev d,
      ch_cmdev c = Some cm -> ch_rdev c = Some rdev -> cs_cms s !! cm = Some cd -> tx_ok cd ->
      cd_mport cd = Some mport -> ks_mports (ms_k (cs_m s)) !! mport = Some mp ->
      ks_devs (ms_k (cs_m s)) !! rdev = Some d ->
      exists b, carries b (ch_loc_destid c) (ch_rem_destid c) CM_DATA_MSG (ch_rem_channel c) (ch_id c) /\
        be_value (get_bytes OFF_MSG_LEN 2 b) = len /\ length b = length bytes /\
        (forall off n, (18 <= off)%nat -> get_bytes off n b = get_bytes off n bytes) /\
        let s1 := with_buf buf b s in
        if cd_tx_cnt cd =? 128 then riocm_ch_send cmbox chid (Some buf) len s = Done (- EBUSY) s1
        else exists cd', posted_ok cd cd' 1 (cd_tx_reqs cd) /\
          riocm_ch_send cmbox chid (Some buf) len s =
            Done (hw_send cmbox s1 mport mp d b len).1
              (with_cm cm cd' (with_khw (hw_send cmbox s1 mport mp d b len).2 s1))
  end.
Proof.
  change 0x1000 with RIO_MAX_MSG_SIZE. unfold riocm_ch_send.
  destruct ((chid =? 0) || (len =? 0) || (RIO_MAX_MSG_SIZE <? len)) eqn:Hargs; [done|].
  assert (0 < len <= 4096) as Hrange.
  { apply orb_false_iff in Hargs as [Hargs H2]. apply orb_false_iff in Hargs as [_ H1].
    apply Z.eqb_neq in H1. apply Z.ltb_ge in H2. unfold RIO_MAX_MSG_SIZE in H2. lia. }
  destruct (ch_idr s !! chid) as [ch|] eqn:Hidr.
  2: { by run (run_no_channel _ _ Hidr). }
  intros c Hc Href. run (run_get_channel _ _ _ _ Hidr Hc). set (s0 := with_ch ch (one_more c) s).
  assert (cs_chans s0 !! ch = Some (one_more c)) as Hc0 by apply with_ch_lookup.
  assert (Hcmp : riocm_cmp ch RIO_CM_CONNECTED s0 =
    Done (bool_decide (ch_state c = RIO_CM_CONNECTED)) s0).
  { unfold riocm_cmp. by run (run_get_ch _ _ _ Hc0). }
  run Hcmp. case_bool_decide as Hst; cbn [negb].
  2: { rewrite bind_ret. run (run_put_channel s0 ch _ Hc0 ltac:(cbn; lia)). unfold ret. f_equal.
       by apply with_ch_one_more. }
  set (l := msg_places (ch_loc_destid c) (ch_rem_destid c) (ch_rem_channel c) (ch_id c) len).
  rewrite bind_assoc. run (run_get_ch _ _ _ Hc0). change (ch_loc_destid (one_more c)) with (ch_loc_destid c).
  change (ch_rem_destid (one_more c)) with (ch_rem_destid c).
  change (ch_rem_channel (one_more c)) with (ch_rem_channel c). change (ch_id (one_more c)) with (ch_id c).
  change (ch_cmdev (one_more c)) with (ch_cmdev c). change (ch_rdev (one_more c)) with (ch_rdev c).
  unfold bind at 1. rewrite fill_msg_writes. fold l.
  destruct (Z.ltb_spec len 18) as [Hshort|Hlong].
  - unfold bind at 1. rewrite (writes_ub l s0 buf bytes Hbuf); [done|].
    intros Hf. apply msg_places_fit in Hf. lia.
  - intros cm cd mport mp rdev d Hcm Hrd Hcd Htx Hmp Hm Hd.
    assert ((18 <= length bytes)%nat) as Hl by lia.
    destruct (carries_msg (ch_loc_destid c) (ch_rem_destid c) (ch_rem_channel c) (ch_id c) len bytes Hl)
      as (Hcar & Hml & Hlb & Hoth). fold l in Hcar, Hml, Hlb, Hoth.
    exists (puts l bytes). split; [exact Hcar|]. split; [rewrite Hml; apply u16_small; lia|].
    split; [done|]. split; [done|]. set (s1 := with_buf buf (puts l bytes) s).
    set (s2 := with_buf buf (puts l bytes) s0).
    pose proof (run_post_send s2 cm cd mport mp rdev d buf (puts l bytes) len Hcd Hmp Htx Hm Hd
      (with_buf_lookup _ _ _) ltac:(rewrite Hlb; lia)) as Hpost.
    pose proof (fun rc s' => run_fill_post c cm rdev buf bytes len s0 rc s' Hbuf Hl Hcm Hrd) as Hfront.
    destruct (cd_tx_cnt cd =? 128).
    + run (Hfront _ _ Hpost). by run (put_behind s ch c buf (puts l bytes) id Hc Href ltac:(done)).
    + destruct Hpost as (cd' & Hp & Hrun). exists cd'. split; [exact Hp|]. run (Hfront _ _ Hrun).
      by run (put_behind s ch c buf (puts l bytes)
        (fun t => with_cm cm cd' (with_khw (hw_send cmbox s1 mport mp d (puts l bytes) len).2 t)) Hc Href ltac:(done)).
Qed.
End send.

Lemma riocm_ch_send_correct_witness :
  let ring := mk_chan_rx_ring (replicate 128 None) 0 0 0 (replicate 128 None) 0 in
  let c := cmw_channel 5 RIO_CM_CONNECTED 0 ring in
  let s := cmw_state ∅ {[ 4%positive := c ]} {[ 5 := 4%positive ]} {[ 6%positive := replicate 20 7 ]} in
  exists s' b, riocm_ch_send 1 5 (Some 6%positive) 20 s = Done 0 s' /\
    be_value (get_bytes OFF_MSG_LEN 2 b) = 20 /\ get_bytes 18 2 b = [7; 7].
Proof.
  intros ring c s.
  pose proof (riocm_ch_send_correct 1 5 6%positive (replicate 20 7) 20 s) as H.
  specialize (H eq_refl eq_refl). cbn -[carries] in H.
  destruct (H c eq_refl ltac:(reflexivity) 3%positive cmw_cm 1%positive cmw_mport 2%positive
    (setf rd_destid 9 (zero_rio_dev None)) eq_refl eq_refl eq_refl ltac:(by split; vm_compute)
    eq_refl eq_refl eq_refl) as (b & _ & Hl & _ & Ho & cd' & _ & Hrun).
  eexists _, b. split; [exact Hrun|]. split; [exact Hl|]. rewrite Ho by lia. reflexivity.
Defined.
