(* ===== verification/RioCmIoctl.v ===== *)
(** * The lists that channelized messaging reports to applications

    The ioctl that copies the end points of a port to user memory: what it
    delivers, and for which arguments it reads or writes outside its buffer. *)

From S2P Require Import Prelude Regs State Mbox Msg RioCm RioCmOps RioCmBench RioCmRing RioCmTx RioCmSend.

(** ** Words in a buffer *)

Definition words (l : list Z) : list Z := concat (le_bytes 4 <$> l).

Lemma words_length l : length (words l) = (4 * length l)%nat.
Proof.
  unfold words. induction l as [|x l IH]; [done|].
  rewrite fmap_cons. cbn [concat]. rewrite length_app, le_bytes_length, IH. cbn [length]. lia.
Qed.
Lemma words_app l1 l2 : words (l1 ++ l2) = words l1 ++ words l2.
Proof. unfold words. by rewrite fmap_app, concat_app. Qed.

Lemma words_app_cons x l : words (x :: l) = le_bytes 4 x ++ words l.
Proof. done. Qed.

(** Storing the next word behind those that are there. *)
Lemma put_next pre v k :
  put_bytes (length pre) (le_bytes 4 v) (pre ++ replicate (4 * S k) 0) =
  (pre ++ le_bytes 4 v) ++ replicate (4 * k) 0.
Proof.
  unfold put_bytes. rewrite take_app_length, le_bytes_length, <- app_assoc. do 2 f_equal.
  rewrite <- drop_drop, drop_app_length, drop_replicate. f_equal. lia.
Qed.

(** Replacing the first two words. *)
Lemma put_first a b l :
  put_bytes 4 (le_bytes 4 b) (put_bytes 0 (le_bytes 4 a) (replicate 8 0 ++ l)) =
  le_bytes 4 a ++ le_bytes 4 b ++ l.
Proof. done. Qed.

Section lists.
Context {W : Type} `{!KernelEnv W} `{!CmEnv W} (cmbox : Z).
Implicit Types s : cmstate W.

Lemma run_core {A} (m : KM W A) s a k :
  m (ms_k (cs_m s)) = Done a k -> core m s = Done a (setf cs_m (setf ms_k k (cs_m s)) s).
Proof. intros H. unfold core, lift, lift_k. cbn. by rewrite H. Qed.
Lemma run_core_quiet {A} (m : KM W A) s a :
  m (ms_k (cs_m s)) = Done a (ms_k (cs_m s)) -> core m s = Done a s.
Proof. intros H. rewrite (run_core _ _ _ _ H). by destruct s as [[] ? ? ? ? ?]. Qed.
Lemma run_core_mport s p mp : ks_mports (ms_k (cs_m s)) !! p = Some mp -> core (get_mport p) s = Done mp s.
Proof. intros H. by apply run_core_quiet, run_get_mport. Qed.
Lemma run_core_dev s p d : ks_devs (ms_k (cs_m s)) !! p = Some d -> core (get_dev p) s = Done d s.
Proof. intros H. by apply run_core_quiet, run_get_dev. Qed.

(** ** Searching the cm devices *)

(** The port of a cm device. *)
Definition port_of s (cm : ptr) : option (ptr * rio_mport W) :=
  c ← cs_cms s !! cm; p ← cd_mport c; mp ← ks_mports (ms_k (cs_m s)) !! p; Some (p, mp).
(** Every cm device on the list exists, and so does its port. *)
Definition cms_ok s : Prop := Forall (fun cm => is_Some (port_of s cm)) (cm_dev_list s).
(** The first cm device whose port satisfies a test. *)
Definition passes (test : rio_mport W -> ptr -> bool) s (cm : ptr) : bool :=
  match port_of s cm with Some (p, mp) => test mp p | None => false end.
Definition first_cm (test : rio_mport W -> ptr -> bool) s : option ptr :=
  head (filter (fun cm => passes test s cm) (cm_dev_list s)).

Lemma run_find_cm_list test s l :
  Forall (fun cm => is_Some (port_of s cm)) l ->
  find_cm test l s = Done (head (filter (fun cm => passes test s cm) l)) s.
Proof.
  induction l as [|cm l IH]; intros H; [done|]. apply Forall_cons in H as [[[p mp] Hcm] H].
  pose proof Hcm as Hport. unfold port_of in Hcm. destruct (cs_cms s !! cm) as [c|] eqn:Hc; [|done]. cbn in Hcm.
  destruct (cd_mport c) as [p'|] eqn:Hp; [|done]. cbn in Hcm.
  destruct (ks_mports _ !! p') as [mp'|] eqn:Hmp; [|done]. injection Hcm as -> ->.
  cbn [find_cm]. run (run_get_cm _ _ _ Hc). unfold cm_mport. rewrite Hp. cbn [deref]. rewrite bind_ret.
  run (run_core_mport _ _ _ Hmp).
  rewrite filter_cons. destruct (test mp p) eqn:Ht.
  - rewrite decide_True; [done|]. unfold passes. by rewrite Hport, Ht.
  - rewrite decide_False; [by apply IH|]. unfold passes. rewrite Hport, Ht. by intros [].  
Qed.
Lemma run_find_cm test s : cms_ok s -> find_cm test (cm_dev_list s) s = Done (first_cm test s) s.
Proof. apply run_find_cm_list. Qed.

(** A cm device that was found is there, with its port. *)
Lemma first_cm_some test s cm : first_cm test s = Some cm ->
  exists c p mp, cs_cms s !! cm = Some c /\ cd_mport c = Some p /\
    ks_mports (ms_k (cs_m s)) !! p = Some mp /\ test mp p = true.
Proof.
  intros H%head_Some_elem_of. apply list_elem_of_filter in H as [H _]. revert H. unfold passes, port_of.
  destruct (cs_cms s !! cm) as [c|] eqn:Hc; [|done]. cbn.
  destruct (cd_mport c) as [p|] eqn:Hp; [|done]. cbn.
  destruct (ks_mports _ !! p) as [mp|] eqn:Hmp; [|done]. cbn. intros Ht. exists c, p, mp.
  repeat split; try done. by apply Is_true_true.
Qed.

(** ** The loop over the peers *)

Lemma run_ep_list_loop peers : forall ds s buf pre k nent i,
  Forall2 (fun p d => ks_devs (ms_k (cs_m s)) !! p = Some d) peers ds ->
  ms_bufs (cs_m s) !! buf = Some (pre ++ replicate (4 * k) 0) ->
  Z.of_nat (length pre) = 4 * (i + 2) -> 0 <= i -> nent = i + Z.of_nat k -> (0 < k)%nat ->
  (k <= length ds)%nat ->
  ep_list_loop buf peers nent i s =
    Done nent (with_buf buf (pre ++ words (rd_destid <$> take k ds)) s).
Proof.
  induction peers as [|p peers IH]; intros ds s buf pre k nent i Hp Hb Hl Hi Hn Hk Hd.
  { apply Forall2_nil_inv_l in Hp as ->. cbn in Hd. lia. }
  apply Forall2_cons_inv_l in Hp as (d & ds' & Hd1 & Hp & ->). destruct k as [|k]; [lia|].
  cbn [ep_list_loop]. run (run_core_dev _ _ _ Hd1). unfold put_u32.
  replace (4 * Z.to_nat (i + 2))%nat with (length pre) by lia.
  erewrite bind_Done; [|apply (run_write_at s buf _ _ _ Hb);
    rewrite length_app, length_replicate, le_bytes_length; lia].
  rewrite put_next. cbn [take fmap list_fmap]. rewrite words_app_cons.
  destruct (Z.eqb_spec (i + 1) nent) as [He|He].
  - destruct k as [|k]; [|lia]. rewrite take_0. cbn. unfold ret. by rewrite <- He, !app_nil_r.
  - erewrite (IH ds' _ buf (pre ++ le_bytes 4 (rd_destid d)) k nent (i + 1)).
    + rewrite with_buf_twice. by rewrite <- app_assoc.
    + done.
    + apply with_buf_lookup.
    + rewrite length_app, le_bytes_length. lia.
    + lia.
    + lia.
    + lia.
    + cbn in Hd. lia.
Qed.

(** ** A buffer for the time of a call *)

(** The state with a new buffer, and the state after it has been freed, with the
    hardware in the state [w]. *)
Definition with_temp (b : list Z) (w : W) s : cmstate W :=
  let k := ms_k (cs_m s) in
  setf cs_m (mk_mstate (setf ks_fresh (Pos.succ (ks_fresh k)) (with_allocs (ks_allocs k + 1) (with_hw w k)))
    (<[ks_fresh k := b]> (ms_bufs (cs_m s)))) s.
Definition spent (w : W) s : cmstate W :=
  let k := ms_k (cs_m s) in
  setf cs_m (mk_mstate (setf ks_fresh (Pos.succ (ks_fresh k)) (with_hw w k)) (ms_bufs (cs_m s))) s.

Abbreviation hw_of s := (ks_hw (ms_k (cs_m s))).
Abbreviation temp_of s := (ks_fresh (ms_k (cs_m s))).

Lemma run_temp n s :
  lift (kzalloc_buf n) s =
    if (env_alloc (hw_of s)).1
    then Done (Some (temp_of s)) (with_temp (replicate (Z.to_nat n) 0) (env_alloc (hw_of s)).2 s)
    else Done None (with_khw (env_alloc (hw_of s)).2 s).
Proof.
  unfold kzalloc_buf, alloc_bytes, lift, lift_k, bind. cbn. rewrite run_kzalloc.
  by destruct (env_alloc (hw_of s)) as [[] w].
Qed.
Lemma temp_lookup b w s : ms_bufs (cs_m (with_temp b w s)) !! temp_of s = Some b.
Proof. apply lookup_insert_eq. Qed.
Lemma temp_again b b' w s : with_buf (temp_of s) b (with_temp b' w s) = with_temp b w s.
Proof. unfold with_buf, with_temp. cbn. by rewrite insert_insert_eq. Qed.
Lemma run_temp_to_user arg bytes b w s :
  copy_to_user arg bytes (with_temp b w s) =
    Done (user_write arg bytes w).1 (with_temp b (user_write arg bytes w).2 s).
Proof.
  unfold copy_to_user, core, lift, lift_k, hw_call. cbn. by destruct (user_write arg bytes w).
Qed.
Lemma run_free_temp b w s :
  ms_bufs (cs_m s) !! temp_of s = None ->
  lift (kfree_buf (temp_of s)) (with_temp b w s) = Done tt (spent w s).
Proof.
  intros H. rewrite (run_kfree_buf _ _ _ (temp_lookup b w s)). unfold without_buf, spent, with_temp. f_equal.
  destruct s as [[k bufs] ? ? ? ? ?]. destruct k. cbn in *. rewrite delete_insert_id by done.
  unfold with_allocs. cbn. do 3 f_equal. lia.
Qed.

(** ** The end points of a port *)

Lemma run_from_user arg n s : copy_from_user arg n s = Done (user_read arg n (hw_of s)) s.
Proof. apply run_core_quiet. done. Qed.

(** Storing to a buffer without room is undefined. *)
Lemma ep_list_ub ds s w peers nent :
  Forall2 (fun p d => ks_devs (ms_k (cs_m s)) !! p = Some d) peers ds ->
  nent = 0 -> 0 < Z.of_nat (length ds) ->
  ep_list_loop (temp_of s) peers nent 0 (with_temp (replicate (Z.to_nat (4 * (nent + 2))) 0) w s) = UB.
Proof.
  intros Hp -> Hd. destruct Hp as [|p d peers ds Hp Hps]; [cbn in Hd; lia|].
  cbn [ep_list_loop]. run (run_core_dev (with_temp (replicate 8 0) w s) p d Hp).
  unfold put_u32, bind. by rewrite (write_at_ub _ _ _ _ _ (temp_lookup _ w s)) by (cbn; lia).
Qed.
Lemma ep_list_all ds s w peers nent :
  Forall2 (fun p d => ks_devs (ms_k (cs_m s)) !! p = Some d) peers ds ->
  0 <= nent <= Z.of_nat (length ds) -> ~ (nent = 0 /\ 0 < Z.of_nat (length ds)) ->
  ep_list_loop (temp_of s) peers nent 0 (with_temp (replicate (Z.to_nat (4 * (nent + 2))) 0) w s) =
    Done nent (with_temp (replicate 8 0 ++ words (rd_destid <$> take (Z.to_nat nent) ds)) w s).
Proof.
  intros Hp Hn H0. destruct (decide (nent = 0)) as [->|Hne].
  - destruct Hp; [done|]. cbn [length] in *. lia.
  - rewrite (run_ep_list_loop peers ds _ (temp_of s) (replicate 8 0) (Z.to_nat nent) nent 0);
      [by rewrite temp_again|done| |done|lia..].
    rewrite temp_lookup. f_equal. rewrite <- replicate_add. f_equal. lia.
Qed.

(** Completing and copying the buffer. *)
Lemma ep_list_finish arg s w i id ws n :
  ms_bufs (cs_m s) !! temp_of s = None ->
  (put_u32 (temp_of s) 0 i ;;; put_u32 (temp_of s) 1 id ;;;
   let! bytes := lift (read_at (temp_of s) 0 n) ;;
   let! ok := copy_to_user arg bytes ;;
   lift (kfree_buf (temp_of s)) ;;; ret (if ok : bool then 0 else - EFAULT))
    (with_temp (replicate 8 0 ++ words ws) w s) =
  if (n <=? 8 + 4 * length ws)%nat then
    let r := user_write arg (take n (words (i :: id :: ws))) w in
    Done (if r.1 then 0 else - EFAULT) (spent r.2 s)
  else UB.
Proof.
  intros Hf. unfold put_u32.
  erewrite bind_Done; [|apply (run_write_at _ _ _ _ _ (temp_lookup _ w s)); cbn; lia]. rewrite temp_again.
  erewrite bind_Done; [|apply (run_write_at _ _ _ _ _ (temp_lookup _ w s)); cbn; lia]. rewrite temp_again.
  change (put_bytes (4 * 1) _ _) with (words (i :: id :: ws)).
  destruct (Nat.leb_spec n (8 + 4 * length ws)) as [Hn|Hn].
  - erewrite bind_Done; [|apply (run_read_at _ _ _ _ _ (temp_lookup _ w s)); rewrite words_length; cbn; lia].
    unfold get_bytes. rewrite drop_0. run (run_temp_to_user arg (take n (words (i :: id :: ws))) (words (i :: id :: ws)) w s).
    run (run_free_temp (words (i :: id :: ws)) (user_write arg (take n (words (i :: id :: ws))) w).2 s Hf). done.
  - unfold lift at 1, read_at, get_buf, gets, bind. cbn [msg_of cm_msg_state]. rewrite temp_lookup. cbn [deref ret].
    destruct (Nat.leb_spec (0 + n) (length (words (i :: id :: ws)))) as [H|H]; [|done].
    rewrite words_length in H. cbn [length] in H. lia.
Qed.

(** C29: an application that asks for the end points of a port gets the
    destination ids of its first peers, as many as it has asked for.  It must
    know how many there are: asking for more makes the driver copy kernel memory
    from behind its buffer, and asking for none of several makes it write there.
    Unknown ports and numbers out of range are refused. *)
Theorem cm_ep_get_list_correct arg s b
    (Hcms : cms_ok s) (Hb : user_read arg 8 (hw_of s) = Some b) (Hbytes : Forall is_byte b)
    (Hfresh : ms_bufs (cs_m s) !! temp_of s = None) :
  let n := le_at 0 4 b in let id := le_at 4 4 b in
  if (RIO_MAX_MPORTS <=? id) || (0x10000 <? n) then cm_ep_get_list arg s = Done (- EINVAL) s
  else match first_cm (fun mp _ => mp_id mp =? u8 id) s with
  | None => cm_ep_get_list arg s = Done (- ENODEV) s
  | Some cm => forall c ds, cs_cms s !! cm = Some c ->
      Forall2 (fun p d => ks_devs (ms_k (cs_m s)) !! p = Some d) (cd_peers c) ds ->
      cd_npeers c = Z.of_nat (length ds) ->
      let (ok, w) := env_alloc (hw_of s) in
      if negb ok then cm_ep_get_list arg s = Done (- ENOMEM) (with_khw w s)
      else if (cd_npeers c <? n) || ((n =? 0) && (0 <? cd_npeers c)) then cm_ep_get_list arg s = UB
      else
        let r := user_write arg (words (n :: id :: (rd_destid <$> take (Z.to_nat n) ds))) w in
        cm_ep_get_list arg s = Done (if r.1 then 0 else - EFAULT) (spent r.2 s)
  end.
Proof.
  intros n id. unfold cm_ep_get_list. run (run_from_user arg 8 s). rewrite Hb. fold n id.
  change RIOCM_MAX_EP_COUNT with 0x10000.
  destruct ((RIO_MAX_MPORTS <=? id) || (0x10000 <? n)) eqn:Hargs; [done|].
  assert (0 <= n) as Hn by by apply le_at_range.
  run (eq_refl : gets cm_dev_list s = Done (cm_dev_list s) s).
  run (run_find_cm (fun mp _ => mp_id mp =? u8 id) s Hcms).
  destruct (first_cm _ s) as [cm|] eqn:Hcm; [|done]. intros c ds Hc Hp Hnp.
  run (run_get_cm _ _ _ Hc). rewrite Hnp. set (m := Z.of_nat (length ds)). set (nent := Z.min n m).
  pose proof (run_temp (4 * (nent + 2)) s) as Ht. destruct (env_alloc (hw_of s)) as [[] w]; cbn [fst snd negb] in *.
  2: { by run Ht. }
  run Ht. set (s1 := with_temp _ w s).
  destruct (decide (nent = 0 /\ 0 < m)) as [[H0 Hm]|Hloop].
  { replace ((m <? n) || ((n =? 0) && (0 <? m))) with true by (symmetry; apply orb_true_iff; lia).
    unfold bind at 1. unfold s1. rewrite (ep_list_ub ds s w (cd_peers c) nent Hp); [done|lia..]. }
  assert (Hrun : ep_list_loop (temp_of s) (cd_peers c) nent 0 s1 =
    Done nent (with_temp (replicate 8 0 ++ words (rd_destid <$> take (Z.to_nat nent) ds)) w s)).
  { apply ep_list_all; [done|lia..]. }
  run Hrun. rewrite ep_list_finish by done. rewrite length_fmap, length_take.
  destruct (Z.ltb_spec m n), (Z.eqb_spec n 0), (Z.ltb_spec 0 m); cbn [orb andb];
    try (exfalso; lia);
    (destruct (Nat.leb_spec (Z.to_nat (4 * (n + 2))) (8 + 4 * (Z.to_nat nent `min` length ds))%nat); try lia; try done).
  all: assert (nent = n) as -> by lia; rewrite take_ge; [done|];
    rewrite words_length; cbn [length]; rewrite length_fmap, length_take; lia.
Qed.
End lists.

Lemma cm_ep_get_list_correct_witness :
  let user := user_store 0x100 (le_bytes 4 1 ++ le_bytes 4 0) ∅ in
  let s := cmw_state user ∅ ∅ ∅ in
  exists w, cm_ep_get_list 0x100 s = Done 0 (spent w s) /\
    user_read 0x100 12 w = Some (words [1; 0; 9]).
Proof.
  intros user s. pose proof (cm_ep_get_list_correct 0x100 s (le_bytes 4 1 ++ le_bytes 4 0)) as H.
  assert (cms_ok s) as Hcms.
  { apply Forall_singleton. eexists. reflexivity. }
  specialize (H Hcms eq_refl ltac:(apply Forall_app; split; apply Forall_reverse, be_bytes_bytes) eq_refl).
  specialize (H cmw_cm [setf rd_destid 9 (zero_rio_dev None)] eq_refl
    ltac:(repeat constructor) eq_refl).
  eexists. split; [exact H|]. reflexivity.
Defined.
