(* ===== verification/RioCmHand.v ===== *)
(** * Setting up a connection of channelized messaging

    One node connects, the other accepts: the request and its answer travel as packets,
    and afterwards each end knows the number of the other. *)

From S2P Require Import Prelude Regs State Mbox Msg RioCm RioCmOps RioCmBench RioCmRing RioCmTx RioCmSend RioCmIoctl.

Section packets.
Context {W : Type} `{!KernelEnv W} `{!CmEnv W} (cmbox : Z).
Implicit Types s : cmstate W.

Abbreviation hw_of s := (ks_hw (ms_k (cs_m s))).
Abbreviation temp_of s := (ks_fresh (ms_k (cs_m s))).

(** ** Control packets *)

(** The contents of a request packet. *)
Definition hdr_bytes (src_id dst_id op dst_ch src_ch : Z) : list Z :=
  puts (hdr_places cmbox src_id dst_id op dst_ch src_ch) (replicate 20 0).

Lemma hdr_places_fit a b op c d : fits 20 (hdr_places cmbox a b op c d).
Proof.
  unfold fits, hdr_places. repeat rewrite Forall_cons. rewrite Forall_nil, !be_bytes_length.
  unfold OFF_SRC_ID, OFF_DST_ID, OFF_SRC_MBOX, OFF_DST_MBOX, OFF_TYPE, OFF_CH_OP, OFF_DST_CH, OFF_SRC_CH. lia.
Qed.
Lemma hdr_bytes_length a b op c d : length (hdr_bytes a b op c d) = 20%nat.
Proof. unfold hdr_bytes. by rewrite puts_length by apply hdr_places_fit. Qed.

Ltac place_of k l :=
  erewrite (place (take k l) (drop (S k) l));
  [|reflexivity|eassumption|repeat constructor; cbn; lia|reflexivity].

Lemma hdr_bytes_carry a b op c d : carries (hdr_bytes a b op c d) a b op c d.
Proof.
  pose proof (hdr_places_fit a b op c d) as Hf. change 20%nat with (length (replicate 20 0)) in Hf.
  unfold carries, hdr_bytes. set (l := hdr_places cmbox a b op c d) in *.
  place_of 0%nat l. place_of 1%nat l. place_of 4%nat l. place_of 5%nat l. place_of 6%nat l. place_of 7%nat l.
  by rewrite !be_4, !be_2, !be_1.
Qed.

(** A packet carries the same in a longer buffer. *)
Lemma get_bytes_app off n b pad : (off + n <= length b)%nat -> get_bytes off n (b ++ pad) = get_bytes off n b.
Proof.
  intros H. unfold get_bytes. rewrite drop_app_le by lia. rewrite take_app_le; [done|]. rewrite length_drop. lia.
Qed.
Lemma carries_app b pad a e op c d : length b = 20%nat -> carries b a e op c d -> carries (b ++ pad) a e op c d.
Proof.
  intros Hl H. unfold carries in *. rewrite !get_bytes_app; [done|..]; rewrite Hl;
    unfold OFF_SRC_ID, OFF_DST_ID, OFF_TYPE, OFF_CH_OP, OFF_DST_CH, OFF_SRC_CH; lia.
Qed.

(** Reading the fields of a received packet. *)
Lemma run_field s p b off n :
  ms_bufs (cs_m s) !! p = Some b -> (off + n <= length b)%nat ->
  (x <- lift (read_at p off n) ;; ret (be_value x)) s = Done (be_value (get_bytes off n b)) s.
Proof. intros H Hn. by run (run_read_at s p b off n H Hn). Qed.

Record packet_at s (p : ptr) (b : list Z) (src_id dst_id op dst_ch src_ch : Z) : Prop := {
  pk_buf : ms_bufs (cs_m s) !! p = Some b;
  pk_len : (20 <= length b)%nat;
  pk_carries : carries b src_id dst_id op dst_ch src_ch;
}.

Lemma run_dst_ch s p b a e op c d : packet_at s p b a e op c d -> get_be16 p OFF_DST_CH s = Done (u16 c) s.
Proof. intros [H1 H2 (_ & _ & _ & _ & H & _)]. rewrite <- H. apply run_field; [done|unfold OFF_DST_CH; lia]. Qed.
Lemma run_src_ch s p b a e op c d : packet_at s p b a e op c d -> get_be16 p OFF_SRC_CH s = Done (u16 d) s.
Proof. intros [H1 H2 (_ & _ & _ & _ & _ & H)]. rewrite <- H. apply run_field; [done|unfold OFF_SRC_CH; lia]. Qed.
Lemma run_src_id s p b a e op c d : packet_at s p b a e op c d -> get_be32 p OFF_SRC_ID s = Done (u32 a) s.
Proof. intros [H1 H2 (H & _)]. rewrite <- H. apply run_field; [done|unfold OFF_SRC_ID; lia]. Qed.
Lemma run_op s p b a e op c d : packet_at s p b a e op c d -> get_u8 p OFF_CH_OP s = Done (u8 op) s.
Proof. intros [H1 H2 (_ & _ & _ & H & _)]. rewrite <- H. apply run_field; [done|unfold OFF_CH_OP; lia]. Qed.

(** A port that can send: there is a free slot and the hardware takes messages. *)
Record can_send s (cm : ptr) (c : cm_dev) (mport : ptr) (mp : rio_mport W) : Prop := {
  cs_cm : cs_cms s !! cm = Some c;
  cs_tx : tx_ok c;
  cs_room : cd_tx_cnt c < 128;
  cs_port : cd_mport c = Some mport;
  cs_mp : ks_mports (ms_k (cs_m s)) !! mport = Some mp;
  cs_takes : forall destid b w, (op_add_outb_message (mp_ops mp) mport destid cmbox b HDR_SIZE w).1 = 0;
}.

(** Filling the new buffer, posting it and freeing it again. *)
Lemma run_fill w s a b op c d :
  fill_hdr cmbox (temp_of s) a b op c d (with_temp (replicate 20 0) w s) = Done tt (with_temp (hdr_bytes a b op c d) w s).
Proof.
  rewrite fill_hdr_writes. rewrite (run_writes _ _ _ (replicate 20 0)); [|apply temp_lookup|apply hdr_places_fit].
  by rewrite temp_again.
Qed.
Lemma with_cm_temp cm c b w s : with_cm cm c (with_temp b w s) = with_temp b w (with_cm cm c s).
Proof. done. Qed.
Lemma run_post w s cm c mport mp rdev d b :
  can_send s cm c mport mp -> ks_devs (ms_k (cs_m s)) !! rdev = Some d -> length b = 20%nat ->
  let w' := (op_add_outb_message (mp_ops mp) mport (rd_destid d) cmbox b HDR_SIZE w).2 in
  exists c', posted_ok c c' 1 (cd_tx_reqs c) /\
    riocm_post_send cmbox cm rdev (temp_of s) HDR_SIZE (with_temp b w s) = Done 0 (with_temp b w' (with_cm cm c' s)).
Proof.
  intros [H1 H2 H3 H4 H5 H6] Hd Hb w'.
  pose proof (run_post_send cmbox (with_temp b w s) cm c mport mp rdev d (temp_of s) b HDR_SIZE H1 H4 H2 H5 Hd
    (temp_lookup _ _ _) ltac:(rewrite Hb; change (Z.to_nat HDR_SIZE) with 20%nat; lia)) as H.
  destruct (Z.eqb_spec (cd_tx_cnt c) 128); [lia|]. destruct H as (c' & Hp & Hr). exists c'. split; [done|].
  rewrite Hr. unfold hw_send. change (ks_hw (ms_k (cs_m (with_temp b w s)))) with w.
  rewrite (H6 (rd_destid d) (get_bytes 0 (Z.to_nat HDR_SIZE) b) w). f_equal.
  assert (get_bytes 0 (Z.to_nat HDR_SIZE) b = b) as ->.
  { unfold get_bytes. rewrite drop_0. apply take_ge. rewrite Hb. change (Z.to_nat HDR_SIZE) with 20%nat. lia. }
  fold w'. done.
Qed.
Lemma run_send_request w s cm c mport mp rdev d b :
  can_send s cm c mport mp -> ks_devs (ms_k (cs_m s)) !! rdev = Some d -> length b = 20%nat ->
  ms_bufs (cs_m s) !! temp_of s = None ->
  let w' := (op_add_outb_message (mp_ops mp) mport (rd_destid d) cmbox b HDR_SIZE w).2 in
  exists c', posted_ok c c' 1 (cd_tx_reqs c) /\
    send_request cmbox cm rdev (temp_of s) (with_temp b w s) = Done 0 (spent w' (with_cm cm c' s)).
Proof.
  intros Hs Hd Hb Hf w'. destruct (run_post w s cm c mport mp rdev d b Hs Hd Hb) as (c' & Hp & Hr).
  exists c'. split; [done|]. unfold send_request. run Hr.
  change (0 =? - EBUSY) with false. cbv iota.
  erewrite bind_Done; [|exact (run_free_temp b w' (with_cm cm c' s) Hf)]. done.
Qed.

(** ** The listening side *)

(** The state after an object has been allocated. *)
Definition charged s : cmstate W :=
  let k := ms_k (cs_m s) in
  setf cs_m (setf ms_k (with_allocs (ks_allocs k + 1) (with_hw (env_alloc (hw_of s)).2 k)) (cs_m s)) s.
Lemma run_core_kzalloc s : (env_alloc (hw_of s)).1 = true -> core kzalloc s = Done true (charged s).
Proof. intros H. rewrite (run_core kzalloc s true _ ltac:(rewrite run_kzalloc, H; reflexivity)). done. Qed.

(** A channel with one more request, and with the request taken. *)
Definition requested (r : conn_req) (c : rio_channel) : rio_channel :=
  setf ch_comp (comp_complete (ch_comp c)) (setf ch_accept_queue (ch_accept_queue c ++ [r]) c).

Lemma run_req_handler s cm p b src dst na nb ch c :
  packet_at s p b src dst CM_CONN_REQ nb na -> ch_idr s !! u16 nb = Some ch -> cs_chans s !! ch = Some c ->
  ch_state c = RIO_CM_LISTEN -> 1 <= ch_ref c -> (env_alloc (hw_of s)).1 = true ->
  riocm_req_handler cmbox cm p s =
    Done 0 (with_ch ch (requested (mk_conn_req (u32 src) (u16 na) cm) c) (charged s)).
Proof.
  intros Hp Hidr Hc Hst Href Hmem. pose proof Hp as [Hbuf Hlen Hcar]. unfold riocm_req_handler.
  run (run_dst_ch _ _ _ _ _ _ _ _ Hp). run (run_get_channel _ _ _ _ Hidr Hc). set (s1 := with_ch ch (one_more c) s).
  assert (cs_chans s1 !! ch = Some (one_more c)) as Hc1 by apply with_ch_lookup.
  run (run_get_ch _ _ _ Hc1). rewrite bool_decide_eq_true_2 by done. cbn [negb].
  run (run_core_kzalloc s1 Hmem).
  assert (packet_at (charged s1) p b src dst CM_CONN_REQ nb na) as Hp1 by done.
  run (run_src_id _ _ _ _ _ _ _ _ Hp1). run (run_src_ch _ _ _ _ _ _ _ _ Hp1).
  erewrite bind_Done; [|by apply run_upd_ch]. unfold complete.
  erewrite bind_Done; [|by apply run_upd_ch, with_ch_lookup]. rewrite with_ch_twice.
  erewrite bind_Done; [|apply run_put_channel; [apply with_ch_lookup|cbn; lia]]. unfold ret. f_equal.
  rewrite with_ch_twice. unfold s1. transitivity (with_ch ch (setf ch_ref (ch_ref (one_more c) - 1)
    (requested (mk_conn_req (u32 src) (u16 na) cm) (one_more c))) (with_ch ch (one_more c) (charged s))); [done|].
  rewrite with_ch_twice. f_equal. unfold requested, one_more. destruct c. cbn. f_equal. lia.
Qed.
End packets.

(** ** Accepting *)

(** Nothing else happens between the steps. *)
Definition undisturbed (W : Type) `{!CmEnv W} : Prop := forall o (s : cmstate W), cm_gap o s = Done tt s.

Section accept.
Context {W : Type} `{!KernelEnv W} `{!CmEnv W} (cmbox chstart : Z).
Implicit Types s : cmstate W.
Context (Hgap : undisturbed W).

Abbreviation hw_of s := (ks_hw (ms_k (cs_m s))).
Abbreviation temp_of s := (ks_fresh (ms_k (cs_m s))).

(** The first peer with a destination id. *)
Definition has_id (D : gmap ptr rio_dev) (destid : Z) (p : ptr) : bool :=
  bool_decide (rd_destid <$> D !! p = Some destid).
Definition peer_with (D : gmap ptr rio_dev) (destid : Z) (peers : list ptr) : option ptr :=
  List.find (has_id D destid) peers.
Lemma run_find_peer s destid peers :
  Forall (fun p => is_Some (ks_devs (ms_k (cs_m s)) !! p)) peers ->
  find_peer peers destid s = Done (peer_with (ks_devs (ms_k (cs_m s))) destid peers) s.
Proof.
  unfold peer_with. induction peers as [|p peers IH]; intros H; [done|]. apply Forall_cons in H as [[d Hd] H].
  cbn [find_peer List.find]. run (run_core_dev _ _ _ Hd). unfold has_id at 1. rewrite Hd. cbn.
  destruct (Z.eqb_spec (rd_destid d) destid) as [->|Hne]; [by rewrite bool_decide_eq_true_2|].
  rewrite bool_decide_eq_false_2 by congruence. by apply IH.
Qed.

(** The state in which a new channel has got a number. *)
Definition pick s : Z * W := idr_pick (ch_idr s) chstart (RIOCM_MAX_CHNUM + 1) (env_alloc (hw_of s)).2.
Definition new_channel (id : Z) : rio_channel :=
  mk_rio_channel (u16 id) 1 None None None RIO_CM_IDLE None 0 0 0 [] 0 0 zero_rx_ring.
Definition numbered s : cmstate W :=
  let k := ms_k (cs_m s) in
  setf cs_chans (<[temp_of s := new_channel (pick s).1]> (cs_chans s))
    (setf ch_idr (<[(pick s).1 := temp_of s]> (ch_idr s))
      (setf cs_m (setf ms_k (setf ks_fresh (Pos.succ (ks_fresh k))
        (with_allocs (ks_allocs k + 1) (with_hw (pick s).2 k))) (cs_m s)) s)).
Lemma run_ch_alloc s :
  (env_alloc (hw_of s)).1 = true -> 0 <= (pick s).1 ->
  riocm_ch_alloc chstart RIOCM_CHNUM_AUTO s = Done (inr (temp_of s)) (numbered s).
Proof.
  intros Hmem Hid. unfold riocm_ch_alloc. run (Hgap None s). run (run_core_kzalloc s Hmem). cbn [negb truthy RIOCM_CHNUM_AUTO Z.eqb].
  unfold numbered, pick in *. set (idr := ch_idr s) in *. unfold truthy. cbn [RIOCM_CHNUM_AUTO Z.eqb negb].
  erewrite bind_Done; [|by apply (run_core fresh_ptr)]. erewrite bind_Done; [|reflexivity].
  unfold bind, core, lift, lift_k, hw_call. cbn. fold idr.
  destruct (idr_pick idr chstart (RIOCM_MAX_CHNUM + 1) (env_alloc (hw_of s)).2) as [id w]. cbn in Hid |- *.
  by destruct (Z.ltb_spec id 0); [lia|].
Qed.

(** The listening channel without its first request, and the new channel that serves it. *)
Definition taken (n : Z) (queue : list conn_req) (c : rio_channel) : rio_channel :=
  setf ch_accept_queue queue (setf ch_comp n c).
Definition serving (id : Z) (r : conn_req) (rdev : ptr) (c : rio_channel) : rio_channel :=
  mk_rio_channel (u16 id) 1 None (ch_cmdev c) (Some rdev) RIO_CM_CONNECTED None (ch_loc_destid c)
    (cr_destid r) (cr_chan r) [] 0 0 zero_rx_ring.

Lemma run_accept_wait s ch c n r queue :
  cs_chans s !! ch = Some c -> ch_state c = RIO_CM_LISTEN -> comp_try_wait (ch_comp c) = Some n ->
  ch_accept_queue c = r :: queue -> accept_wait ch 0 s = Done 0 (with_ch ch (setf ch_comp n c) s).
Proof.
  intros Hc Hst Hn Hq. unfold accept_wait, riocm_cmp. rewrite bind_assoc. run (run_get_ch _ _ _ Hc). rewrite bind_ret.
  rewrite bool_decide_eq_true_2 by done. cbn [negb Z.eqb]. rewrite bind_assoc. run (run_get_ch _ _ _ Hc). rewrite Hn.
  rewrite bind_assoc. run (run_upd_ch _ _ _ (setf ch_comp n) Hc). rewrite bind_ret.
  change (truthy 0) with false. cbv iota. erewrite bind_Done; [|by apply run_get_ch, with_ch_lookup].
  cbn [ch_state ch_accept_queue setf updf]. rewrite bool_decide_eq_true_2, Hq by done. done.
Qed.

Lemma run_send_ack s ch c cm cd mport mp rdev d :
  cs_chans s !! ch = Some c -> ch_cmdev c = Some cm -> ch_rdev c = Some rdev -> can_send cmbox s cm cd mport mp ->
  ks_devs (ms_k (cs_m s)) !! rdev = Some d -> ms_bufs (cs_m s) !! temp_of s = None ->
  (env_alloc (hw_of s)).1 = true ->
  let ack := hdr_bytes cmbox (ch_loc_destid c) (ch_rem_destid c) CM_CONN_ACK (ch_rem_channel c) (ch_id c) in
  let w := (op_add_outb_message (mp_ops mp) mport (rd_destid d) cmbox ack HDR_SIZE (env_alloc (hw_of s)).2).2 in
  exists cd', posted_ok cd cd' 1 (cd_tx_reqs cd) /\
    riocm_send_ack cmbox ch s = Done 0 (spent w (with_cm cm cd' s)).
Proof.
  intros Hc Hcm Hr Hs Hd Hf Hmem ack w.
  destruct (run_send_request cmbox (env_alloc (hw_of s)).2 s cm cd mport mp rdev d ack Hs Hd
    ltac:(apply hdr_bytes_length) Hf) as (cd' & Hp & Hrun).
  exists cd'. split; [done|]. unfold riocm_send_ack. run (Hgap None s).
  erewrite bind_Done; [|rewrite run_temp, Hmem; reflexivity]. cbv iota.
  erewrite bind_Done; [|by apply run_get_ch]. change (Z.to_nat HDR_SIZE) with 20%nat.
  rewrite Hcm, Hr. run (run_fill cmbox (env_alloc (hw_of s)).2 s (ch_loc_destid c) (ch_rem_destid c) CM_CONN_ACK
    (ch_rem_channel c) (ch_id c)). fold ack. exact Hrun.
Qed.

(** The request moves into the new channel. *)
Definition freed s : cmstate W :=
  setf cs_m (setf ms_k (with_allocs (ks_allocs (ms_k (cs_m s)) - 1) (ms_k (cs_m s))) (cs_m s)) s.
Definition assigned (r : conn_req) (c x : rio_channel) : rio_channel :=
  setf ch_cmdev (ch_cmdev c) (setf ch_loc_destid (ch_loc_destid c)
    (setf ch_rem_destid (cr_destid r) (setf ch_rem_channel (cr_chan r) x))).
Lemma with_ch_comm p q c e s : p <> q -> with_ch p c (with_ch q e s) = with_ch q e (with_ch p c s).
Proof. intros H. unfold with_ch. cbn. by rewrite insert_insert_ne by done. Qed.
Lemma run_accept_request s ch new c x r queue :
  cs_chans s !! ch = Some c -> ch_accept_queue c = r :: queue -> 1 < ch_ref c -> cs_chans s !! new = Some x ->
  ch <> new ->
  accept_request ch new s = Done tt (freed (with_ch new (assigned r c x)
    (with_ch ch (setf ch_ref (ch_ref c - 1) (setf ch_accept_queue queue c)) s))).
Proof.
  intros Hc Hq Href Hx Hne. unfold accept_request. run (run_get_ch _ _ _ Hc). rewrite Hq.
  run (run_upd_ch _ _ _ (setf ch_accept_queue queue) Hc). set (s1 := with_ch ch _ s).
  assert (cs_chans s1 !! new = Some x) as Hx1 by (unfold s1; cbn; by rewrite lookup_insert_ne).
  run (run_upd_ch _ _ _ (assigned r c) Hx1). unfold s1. rewrite (with_ch_comm new ch) by done.
  erewrite bind_Done; [|apply run_put_channel; [apply with_ch_lookup|done]].
  rewrite with_ch_twice. rewrite <- (with_ch_comm new ch) by done.
  rewrite (run_core kfree _ tt _ eq_refl). done.
Qed.

Lemma run_accept s nb n0 ch c n r queue cm cd mport mp rdev d :
  ch_idr s !! nb = Some ch -> cs_chans s !! ch = Some c -> ch_state c = RIO_CM_LISTEN -> 1 <= ch_ref c ->
  comp_try_wait (ch_comp c) = Some n -> ch_accept_queue c = r :: queue -> ch_cmdev c = Some cm ->
  can_send cmbox s cm cd mport mp -> Forall (fun p => is_Some (ks_devs (ms_k (cs_m s)) !! p)) (cd_peers cd) ->
  peer_with (ks_devs (ms_k (cs_m s))) (cr_destid r) (cd_peers cd) = Some rdev ->
  ks_devs (ms_k (cs_m s)) !! rdev = Some d ->
  (forall p, (temp_of s <= p)%positive -> ms_bufs (cs_m s) !! p = None) -> (ch < temp_of s)%positive ->
  (forall w, (env_alloc w).1 = true) -> 0 <= (pick s).1 <= RIOCM_MAX_CHNUM ->
  let new := temp_of s in let id := (pick s).1 in
  let ack := hdr_bytes cmbox (ch_loc_destid c) (cr_destid r) CM_CONN_ACK (cr_chan r) id in
  let w := (op_add_outb_message (mp_ops mp) mport (rd_destid d) cmbox ack HDR_SIZE (env_alloc (pick s).2).2).2 in
  exists s', riocm_ch_accept cmbox chstart nb n0 0 s = Done (inr new, id) s' /\
    cs_chans s' = <[new := serving id r rdev c]> (<[ch := taken n queue c]> (cs_chans s)) /\
    ch_idr s' = <[id := new]> (ch_idr s) /\ hw_of s' = w /\ ms_bufs (cs_m s') = ms_bufs (cs_m s).
Proof.
  intros Hidr Hc Hst Href Hn Hq Hcm Hsend Hpeers Hpeer Hd Hbufs Hlt Hmem Hid new id ack w.
  unfold riocm_ch_accept. run (run_get_channel _ _ _ _ Hidr Hc).
  erewrite bind_Done; [|by eapply (run_accept_wait _ ch (one_more c)); [apply with_ch_lookup|..]].
  rewrite with_ch_twice. change (truthy 0) with false. cbv iota.
  set (c1 := setf ch_comp n (one_more c)). set (s1 := with_ch ch c1 s).
  erewrite bind_Done; [|apply (run_ch_alloc s1); [apply Hmem|apply Hid]]. cbv iota. set (s2 := numbered s1).
  change (temp_of s1) with new.
  assert (cs_chans s2 !! ch = Some c1) as Hc2.
  { change (cs_chans s2) with (<[new := new_channel id]> (<[ch := c1]> (cs_chans s))).
    rewrite lookup_insert_ne by (unfold new; lia). apply lookup_insert_eq. }
  assert (cs_chans s2 !! new = Some (new_channel id)) as Hx2 by apply lookup_insert_eq.
  assert (ch <> new) as Hne by (unfold new; lia).
  run (run_accept_request s2 ch new c1 _ r queue Hc2 Hq ltac:(cbn; lia) Hx2 Hne). set (s3 := freed _). run (Hgap (Some new) s3).
  set (x3 := assigned r c1 (new_channel id)).
  assert (cs_chans s3 !! new = Some x3) as Hx3 by apply lookup_insert_eq.
  run (run_get_ch _ _ _ Hx3). change (ch_cmdev x3) with (ch_cmdev c). rewrite Hcm. cbn [deref]. rewrite bind_ret.
  run (run_get_cm s3 cm cd (cs_cm _ _ _ _ _ _ Hsend)).
  run (run_find_peer s3 (ch_rem_destid x3) (cd_peers cd) Hpeers).
  change (peer_with (ks_devs (ms_k (cs_m s3))) (ch_rem_destid x3) (cd_peers cd)) with
    (peer_with (ks_devs (ms_k (cs_m s))) (cr_destid r) (cd_peers cd)). rewrite Hpeer.
  run (run_upd_ch _ _ _ (fun x => setf ch_rdev (Some rdev) (setf ch_state RIO_CM_CONNECTED x)) Hx3).
  set (x4 := setf ch_rdev _ _). set (s4 := with_ch new x4 s3).
  assert (can_send cmbox s4 cm cd mport mp) as Hs4 by (destruct Hsend; by split).
  destruct (run_send_ack s4 new x4 cm cd mport mp rdev d) as (cd' & Hp & Hack);
    [apply with_ch_lookup|done|done|done|done|apply Hbufs; cbn; lia|apply Hmem|].
  run Hack. erewrite bind_Done; [|by apply run_get_ch, with_ch_lookup].
  assert (u16 id = id) as Hu by (apply u16_small; unfold RIOCM_MAX_CHNUM in Hid; fold id in Hid; lia).
  eexists. split; [unfold ret; do 2 f_equal; exact Hu|].
  split; [|split; [done|split; [|done]]].
  - change (<[new := x4]> (<[new := x3]> (<[ch := setf ch_ref (ch_ref c1 - 1) (setf ch_accept_queue queue c1)]>
      (<[new := new_channel id]> (<[ch := c1]> (cs_chans s))))) =
      <[new := serving id r rdev c]> (<[ch := taken n queue c]> (cs_chans s))).
    rewrite insert_insert_eq, (insert_insert_ne _ ch new), !insert_insert_eq by done. f_equal. f_equal.
    unfold taken. destruct c. cbn. f_equal. lia.
  - unfold w, ack. rewrite <- Hu at 1. done.
Qed.
End accept.

(** ** Connecting *)

Section connect.
Context {W : Type} `{!KernelEnv W} `{!CmEnv W} (cmbox : Z) (Hgap : undisturbed W).
Implicit Types s : cmstate W.

Abbreviation hw_of s := (ks_hw (ms_k (cs_m s))).
Abbreviation temp_of s := (ks_fresh (ms_k (cs_m s))).

(** What an answer does to the channel that waits for it. *)
Definition answered (op src_ch : Z) (c : rio_channel) : rio_channel :=
  let c := if op =? CM_CONN_ACK then setf ch_rem_channel src_ch (setf ch_state RIO_CM_CONNECTED c) else c in
  setf ch_comp (comp_complete (ch_comp c)) c.
Lemma run_resp_handler s p b src dst op na id ch c :
  packet_at s p b src dst op na id -> ch_idr s !! u16 na = Some ch -> cs_chans s !! ch = Some c ->
  ch_state c = RIO_CM_CONNECT -> 1 <= ch_ref c -> u8 op = op ->
  riocm_resp_handler p s = Done 0 (with_ch ch (answered op (u16 id) c) s).
Proof.
  intros Hp Hidr Hc Hst Href Hop. unfold riocm_resp_handler.
  run (run_dst_ch _ _ _ _ _ _ _ _ Hp). run (run_get_channel _ _ _ _ Hidr Hc). set (s1 := with_ch ch (one_more c) s).
  assert (cs_chans s1 !! ch = Some (one_more c)) as Hc1 by apply with_ch_lookup.
  run (run_get_ch _ _ _ Hc1). rewrite bool_decide_eq_true_2 by done. cbn [negb]. run (Hgap (Some ch) s1).
  assert (packet_at s1 p b src dst op na id) as Hp1 by (by destruct Hp; split).
  run (run_op _ _ _ _ _ _ _ _ Hp1). rewrite Hop.
  set (c2 := if op =? CM_CONN_ACK then setf ch_rem_channel (u16 id) (setf ch_state RIO_CM_CONNECTED (one_more c)) else one_more c).
  assert (when (op =? CM_CONN_ACK) (riocm_exch ch RIO_CM_CONNECTED ;;;
    src_ch <- get_be16 p OFF_SRC_CH ;; upd_ch ch (setf ch_rem_channel src_ch)) s1 = Done tt (with_ch ch c2 s1)) as Hw.
  { unfold c2. destruct (op =? CM_CONN_ACK); cbn [when]; [|unfold ret; by rewrite with_ch_same].
    unfold riocm_exch. rewrite bind_assoc. run (run_get_ch _ _ _ Hc1). rewrite bind_assoc.
    run (run_upd_ch _ _ _ (setf ch_state RIO_CM_CONNECTED) Hc1). rewrite bind_ret.
    assert (packet_at (with_ch ch (setf ch_state RIO_CM_CONNECTED (one_more c)) s1) p b src dst op na id) as Hp2
      by (by destruct Hp; split).
    run (run_src_ch _ _ _ _ _ _ _ _ Hp2). erewrite run_upd_ch; [|apply with_ch_lookup]. by rewrite with_ch_twice. }
  run Hw. unfold complete. erewrite bind_Done; [|by apply run_upd_ch, with_ch_lookup]. rewrite with_ch_twice.
  erewrite bind_Done; [|apply run_put_channel; [apply with_ch_lookup|unfold c2; destruct (op =? CM_CONN_ACK); cbn; lia]].
  unfold ret, s1. rewrite !with_ch_twice. f_equal. f_equal. unfold answered, c2.
  destruct c, (op =? CM_CONN_ACK); cbn; f_equal; lia.
Qed.

(** A thread that waits for the channel takes an event. *)
Definition take_event (ch : ptr) : CM W unit :=
  c <- get_ch ch ;;
  match comp_try_wait (ch_comp c) with Some n => upd_ch ch (setf ch_comp n) | None => ret tt end.
(** While the thread sleeps, the packet [b] is received into [data] and handled. *)
Definition answer_comes (ch data : ptr) (b : list Z) : Prop := forall s,
  cm_wait true ch (RIOCM_CONNECT_TO * env_HZ) s =
    (riocm_resp_handler data ;;; take_event ch ;;; ret 1) (with_buf data b s).

(** The channel that asks for a connection. *)
Definition asking (cm rdev : ptr) (loc rem : Z) (c : rio_channel) : rio_channel :=
  setf ch_cmdev (Some cm) (setf ch_rdev (Some rdev) (setf ch_context None (setf ch_loc_destid loc
    (setf ch_rem_channel rem (setf ch_state RIO_CM_CONNECT c))))).

Lemma run_connect s na nb cm cd mport mp rdev d ch c data b src dst op id :
  0 <= na < 2 ^ 16 -> ch_idr s !! na = Some ch -> cs_chans s !! ch = Some c -> ch_state c = RIO_CM_IDLE ->
  1 <= ch_ref c -> ch_comp c = 0 -> can_send cmbox s cm cd mport mp -> ks_devs (ms_k (cs_m s)) !! rdev = Some d ->
  ms_bufs (cs_m s) !! temp_of s = None -> (env_alloc (hw_of s)).1 = true ->
  (20 <= length b)%nat -> carries b src dst op na id -> op = CM_CONN_ACK \/ op = CM_CONN_NACK ->
  answer_comes ch data b ->
  let req := hdr_bytes cmbox (u32 (mp_host_deviceid mp)) (rd_destid d) CM_CONN_REQ nb na in
  let w := (op_add_outb_message (mp_ops mp) mport (rd_destid d) cmbox req HDR_SIZE (env_alloc (hw_of s)).2).2 in
  let asked := asking cm rdev (u32 (mp_host_deviceid mp)) nb c in
  exists s', riocm_ch_connect cmbox na cm rdev nb s = Done (if op =? CM_CONN_ACK then 0 else - ECONNREFUSED) s' /\
    cs_chans s' = <[ch := if op =? CM_CONN_ACK then setf ch_rem_channel (u16 id) (setf ch_state RIO_CM_CONNECTED asked)
                          else asked]> (cs_chans s) /\
    ch_idr s' = ch_idr s /\ hw_of s' = w.
Proof.
  intros Hna Hidr Hc Hst Href Hcomp Hsend Hd Hfree Hmem Hlen Hcar Hop Hans req w asked.
  unfold riocm_ch_connect. run (run_get_channel _ _ _ _ Hidr Hc). set (s1 := with_ch ch (one_more c) s).
  assert (cs_chans s1 !! ch = Some (one_more c)) as Hc1 by apply with_ch_lookup.
  assert (riocm_cmp_exch ch RIO_CM_IDLE RIO_CM_CONNECT s1 =
    Done true (with_ch ch (setf ch_state RIO_CM_CONNECT (one_more c)) s)) as Hexch.
  { unfold riocm_cmp_exch. run (run_get_ch _ _ _ Hc1). rewrite bool_decide_eq_true_2 by done. cbn [when].
    run (run_upd_ch _ _ _ (setf ch_state RIO_CM_CONNECT) Hc1). unfold ret, s1. by rewrite with_ch_twice. }
  run Hexch. cbn [negb]. set (s2 := with_ch ch _ s). pose proof Hsend as [Q1 Q2 Q3 Q4 Q5 Q6].
  set (asked1 := asking cm rdev (u32 (mp_host_deviceid mp)) nb (one_more c)). set (s3 := with_ch ch asked1 s).
  assert (can_send cmbox s3 cm cd mport mp) as Hs3 by (by split).
  destruct (run_post cmbox (env_alloc (hw_of s)).2 s3 cm cd mport mp rdev d req Hs3 Hd
    ltac:(apply hdr_bytes_length)) as (cd' & Hp & Hpost). fold w in Hpost.
  set (s4 := spent w (with_cm cm cd' s3)).
  (* the packet is sent *)
  rewrite bind_assoc. run (run_get_cm s2 cm cd Q1). rewrite bind_assoc. unfold cm_mport. rewrite Q4.
  cbn [deref]. rewrite bind_ret, bind_assoc. run (run_core_mport s2 mport mp Q5). rewrite bind_assoc.
  erewrite bind_Done; [|by apply run_upd_ch, with_ch_lookup]. unfold s2. rewrite with_ch_twice.
  match goal with |- context [with_ch ch ?x s] => change (with_ch ch x s) with s3 end.
  rewrite bind_assoc. run (Hgap None s3). rewrite bind_assoc.
  erewrite bind_Done; [|rewrite run_temp, (Hmem : (env_alloc (hw_of s3)).1 = true); reflexivity].
  cbv iota. rewrite bind_assoc. erewrite bind_Done; [|by apply run_core_dev]. rewrite bind_assoc.
  change (Z.to_nat HDR_SIZE) with 20%nat.
  run (run_fill cmbox (env_alloc (hw_of s)).2 s3 (u32 (mp_host_deviceid mp)) (rd_destid d) CM_CONN_REQ nb na). fold req.
  rewrite bind_assoc. run Hpost. rewrite bind_assoc. change (0 =? - EBUSY) with false. cbn [negb].
  rewrite bind_assoc. erewrite bind_Done; [|exact (run_free_temp req w (with_cm cm cd' s3) Hfree)]. fold s4. rewrite bind_ret.
  change (truthy 0) with false. cbv iota. rewrite bind_assoc.
  (* the answer comes *)
  set (s5 := with_buf data b s4). assert (cs_chans s5 !! ch = Some asked1) as Hc5 by apply with_ch_lookup.
  assert (packet_at s5 data b src dst op na id) as Hp5 by (split; [apply with_buf_lookup|done|done]).
  assert (u8 op = op) as Hop8 by (by destruct Hop as [-> | ->]).
  assert (cm_wait true ch (RIOCM_CONNECT_TO * env_HZ) s4 =
    Done 1 (with_ch ch (setf ch_comp 0 (answered op (u16 id) asked1)) s5)) as Hwait.
  { rewrite Hans. fold s5. erewrite bind_Done; [|eapply run_resp_handler; [exact Hp5|by rewrite u16_small|exact Hc5|done|cbn; lia|done]].
    unfold take_event. rewrite bind_assoc. erewrite bind_Done; [|by apply run_get_ch, with_ch_lookup].
    assert (ch_comp (answered op (u16 id) asked1) = 1) as ->.
    { unfold answered. destruct (op =? CM_CONN_ACK); cbn; by rewrite Hcomp. }
    cbn [comp_try_wait Z.eqb]. change (comp_try_wait 1) with (Some 0). cbv iota.
    erewrite bind_Done; [|by apply run_upd_ch, with_ch_lookup]. by rewrite with_ch_twice. }
  run Hwait. change (1 =? 0) with false. change (1 =? - ERESTARTSYS) with false. cbv iota. unfold riocm_cmp. rewrite !bind_assoc.
  erewrite bind_Done; [|by apply run_get_ch, with_ch_lookup]. rewrite !bind_ret.
  erewrite bind_Done; [|apply run_put_channel; [apply with_ch_lookup|]].
  2: { unfold answered. destruct (op =? CM_CONN_ACK); cbn; lia. }
  rewrite with_ch_twice. eexists. split.
  { unfold ret. f_equal. destruct Hop as [-> | ->]; cbn; [by rewrite bool_decide_eq_true_2|by rewrite bool_decide_eq_false_2]. }
  split; [|by split].
  change (cs_chans (with_ch ch ?c ?s)) with (<[ch := c]> (cs_chans s)).
  change (cs_chans s5) with (<[ch := asked1]> (cs_chans s)). rewrite insert_insert_eq. f_equal.
  unfold answered, asked, asked1, asking. destruct c, (op =? CM_CONN_ACK); cbn in *; f_equal; lia.
Qed.
End connect.

(** ** The two sides together *)

Section handshake.
Context {W : Type} `{!KernelEnv W} `{!CmEnv W} (cmbox chstart : Z).
Implicit Types s : cmstate W.

Abbreviation hw_of s := (ks_hw (ms_k (cs_m s))).
Abbreviation temp_of s := (ks_fresh (ms_k (cs_m s))).

(** An idle channel with the number [na] that is to be connected to the device [rdev]. *)
Record connector s na ch c cm cd mport mp rdev d : Prop := {
  co_nr : 0 <= na < 2 ^ 16;
  co_idr : ch_idr s !! na = Some ch;
  co_ch : cs_chans s !! ch = Some c;
  co_idle : ch_state c = RIO_CM_IDLE;
  co_ref : 1 <= ch_ref c;
  co_comp : ch_comp c = 0;
  co_send : can_send cmbox s cm cd mport mp;
  co_dev : ks_devs (ms_k (cs_m s)) !! rdev = Some d;
  co_free : ms_bufs (cs_m s) !! temp_of s = None;
}.
(** A listening channel with the number [nb] and without requests; channel numbers are left. *)
Record listener s nb ch c cm cd mport mp : Prop := {
  li_nr : 0 <= nb < 2 ^ 16;
  li_idr : ch_idr s !! nb = Some ch;
  li_ch : cs_chans s !! ch = Some c;
  li_listen : ch_state c = RIO_CM_LISTEN;
  li_ref : 1 <= ch_ref c;
  li_comp : ch_comp c = 0;
  li_queue : ch_accept_queue c = [];
  li_cm : ch_cmdev c = Some cm;
  li_send : can_send cmbox s cm cd mport mp;
  li_peers : Forall (fun p => is_Some (ks_devs (ms_k (cs_m s)) !! p)) (cd_peers cd);
  li_bufs : forall p, (temp_of s <= p)%positive -> ms_bufs (cs_m s) !! p = None;
  li_old : (ch < temp_of s)%positive;
  li_ids : forall w, 0 <= (idr_pick (ch_idr s) chstart (RIOCM_MAX_CHNUM + 1) w).1 <= RIOCM_MAX_CHNUM;
}.

(** The last thing that the hardware was given: the message [b] for [destid]. *)
Definition gave s (mport : ptr) (mp : rio_mport W) (destid : Z) (b : list Z) : Prop :=
  exists w, hw_of s = (op_add_outb_message (mp_ops mp) mport destid cmbox b HDR_SIZE w).2.

Lemma peer_has_id D destid peers p d : peer_with D destid peers = Some p -> D !! p = Some d -> rd_destid d = destid.
Proof.
  unfold peer_with. intros [_ H]%List.find_some Hd. unfold has_id in H.
  apply bool_decide_eq_true_1 in H. rewrite Hd in H. by injection H.
Qed.

(** The listening side: the request is queued, and accepting it connects a new channel. *)
Lemma run_serve s nb ch c cm cd mport mp rdev data req src dst na :
  undisturbed W -> (forall w : W, (env_alloc w).1 = true) -> listener s nb ch c cm cd mport mp -> (data < temp_of s)%positive ->
  peer_with (ks_devs (ms_k (cs_m s))) (u32 src) (cd_peers cd) = Some rdev ->
  (20 <= length req)%nat -> carries req src dst CM_CONN_REQ nb na ->
  exists s' id, (riocm_req_handler cmbox cm data ;;; riocm_ch_accept cmbox chstart nb 0 0) (with_buf data req s) =
      Done (inr (temp_of s), id) s' /\
    cs_chans s' = <[temp_of s := serving id (mk_conn_req (u32 src) (u16 na) cm) rdev c]> (cs_chans s) /\
    ch_idr s' = <[id := temp_of s]> (ch_idr s) /\ 0 <= id < 2 ^ 16 /\
    gave s' mport mp (u32 src) (hdr_bytes cmbox (ch_loc_destid c) (u32 src) CM_CONN_ACK (u16 na) id).
Proof.
  intros Hgap Hmem [L1 L2 L3 L4 L5 L6 L7 L8 L9 L10 L11 L12 L13] Hdata Hpeer Hlen Hcar.
  set (r := mk_conn_req (u32 src) (u16 na) cm). set (s0 := with_buf data req s).
  assert (packet_at s0 data req src dst CM_CONN_REQ nb na) as Hp by (split; [apply with_buf_lookup|done|done]).
  erewrite bind_Done; [|eapply (run_req_handler cmbox s0 cm data req src dst na nb ch c Hp);
    [by rewrite u16_small|done|done|done|apply Hmem]].
  fold r. set (s1 := with_ch ch (requested r c) (charged s0)). set (w1 := (env_alloc (hw_of s1)).2).
  assert (exists d, ks_devs (ms_k (cs_m s)) !! rdev = Some d) as [d Hd].
  { apply (proj1 (List.Forall_forall _ _) L10). unfold peer_with in Hpeer. by apply List.find_some in Hpeer as [? _]. }
  assert (can_send cmbox s1 cm cd mport mp) as Hs1 by (destruct L9; by split).
  destruct (run_accept cmbox chstart Hgap s1 nb 0 ch (requested r c) 0 r [] cm cd mport mp rdev d)
    as (s' & Hrun & Hch & Hidr & Hhw & _); try done.
  - apply with_ch_lookup.
  - cbn. by rewrite L6.
  - cbn. by rewrite L7.
  - intros p Hle. cbn in Hle |- *. rewrite lookup_insert_ne by lia. by apply L11.
  - apply L13.
  - exists s', (pick chstart s1).1. split; [exact Hrun|]. split; [|split; [exact Hidr|split]].
    + rewrite Hch. cbn [cs_chans with_ch setf updf s1]. rewrite insert_insert_eq.
      assert (taken 0 [] (requested r c) = c) as ->.
      { unfold taken, requested. destruct c. cbn in *. by subst. }
      f_equal. by rewrite insert_id.
    + pose proof (L13 (env_alloc (hw_of s1)).2) as H. unfold RIOCM_MAX_CHNUM in H at 2. change (pick chstart s1) with
        (idr_pick (ch_idr s) chstart (RIOCM_MAX_CHNUM + 1) (env_alloc (hw_of s1)).2).
      unfold RIOCM_MAX_CHNUM in H |- *. lia.
    + eexists. rewrite Hhw. by rewrite (peer_has_id _ _ _ _ _ Hpeer Hd).
Qed.

(** C7: a connection.  The node A connects its idle channel [na] to the number [nb] of a peer B
    that listens there.  A's hardware is given a request from which B reads A's id and [na].
    When B has received it, in a buffer of any size, and accepts, it gets a new channel that is
    connected to A's id and to [na], while the listening channel is as before; B's hardware is
    given an answer for A.  If this answer reaches A while it waits, the connect returns 0 and
    A's channel is connected to the new number, but it has not learnt B's id.  Nobody else uses
    the channels between the steps of the calls. *)
Theorem riocm_handshake (sA sB : cmstate W) na chA cA cmA cdA mportA mpA rdevA dA
    nb chB cB cmB cdB mportB mpB rdevB dataB padB
    (Hgap : undisturbed W) (Hmem : forall w : W, (env_alloc w).1 = true)
    (HA : connector sA na chA cA cmA cdA mportA mpA rdevA dA)
    (HB : listener sB nb chB cB cmB cdB mportB mpB) (Hdata : (dataB < temp_of sB)%positive)
    (Hid : 0 <= mp_host_deviceid mpA < 2 ^ 32)
    (Hpeer : peer_with (ks_devs (ms_k (cs_m sB))) (mp_host_deviceid mpA) (cd_peers cdB) = Some rdevB) :
  let req := hdr_bytes cmbox (mp_host_deviceid mpA) (rd_destid dA) CM_CONN_REQ nb na in
  carries req (mp_host_deviceid mpA) (rd_destid dA) CM_CONN_REQ nb na /\
  exists sB' new id newB,
    let ack := hdr_bytes cmbox (ch_loc_destid cB) (mp_host_deviceid mpA) CM_CONN_ACK na id in
    (riocm_req_handler cmbox cmB dataB ;;; riocm_ch_accept cmbox chstart nb 0 0) (with_buf dataB (req ++ padB) sB) =
      Done (inr new, id) sB' /\
    ch_idr sB' = <[id := new]> (ch_idr sB) /\ cs_chans sB' = <[new := newB]> (cs_chans sB) /\
    ch_state newB = RIO_CM_CONNECTED /\ ch_id newB = id /\ ch_rem_channel newB = na /\
    ch_rem_destid newB = mp_host_deviceid mpA /\ ch_loc_destid newB = ch_loc_destid cB /\
    carries ack (ch_loc_destid cB) (mp_host_deviceid mpA) CM_CONN_ACK na id /\
    gave sB' mportB mpB (mp_host_deviceid mpA) ack /\
    forall dataA padA, answer_comes chA dataA (ack ++ padA) ->
      exists sA' newA, riocm_ch_connect cmbox na cmA rdevA nb sA = Done 0 sA' /\
        cs_chans sA' = <[chA := newA]> (cs_chans sA) /\ ch_idr sA' = ch_idr sA /\
        ch_state newA = RIO_CM_CONNECTED /\ ch_id newA = ch_id cA /\ ch_rem_channel newA = id /\
        ch_loc_destid newA = mp_host_deviceid mpA /\ ch_rem_destid newA = ch_rem_destid cA /\
        gave sA' mportA mpA (rd_destid dA) req.
Proof.
  destruct HA as [A1 A2 A3 A4 A5 A6 A7 A8 A9]. set (host := mp_host_deviceid mpA) in *.
  intros req. assert (length req = 20%nat) as Hreq by apply hdr_bytes_length.
  assert (u32 host = host) as Hh by (by apply u32_small). assert (u16 na = na) as Hn by (by apply u16_small).
  destruct (run_serve sB nb chB cB cmB cdB mportB mpB rdevB dataB (req ++ padB) host (rd_destid dA) na Hgap Hmem HB Hdata)
    as (sB' & id & Hrun & Hch & Hidr & Hrange & Hgave).
  { by rewrite Hh. } { rewrite length_app. lia. } { apply carries_app; [done|apply hdr_bytes_carry]. }
  rewrite Hh, Hn in Hch, Hgave. set (ack := hdr_bytes cmbox (ch_loc_destid cB) host CM_CONN_ACK na id) in *.
  assert (length ack = 20%nat) as Hack by apply hdr_bytes_length.
  split; [apply hdr_bytes_carry|]. exists sB', (temp_of sB), id, (serving id (mk_conn_req host na cmB) rdevB cB).
  split; [exact Hrun|]. split; [exact Hidr|]. split; [exact Hch|].
  split; [done|]. split; [by apply u16_small|]. split; [done|]. split; [done|]. split; [done|].
  split; [apply hdr_bytes_carry|]. split; [exact Hgave|]. intros dataA padA Hans.
  destruct (run_connect cmbox Hgap sA na nb cmA cdA mportA mpA rdevA dA chA cA dataA (ack ++ padA) (ch_loc_destid cB) host
    CM_CONN_ACK id A1 A2 A3 A4 A5 A6 A7 A8 A9 (Hmem _)) as (sA' & Hc & Hchs & Hi & Hw); [..|].
  { rewrite length_app. lia. } { apply carries_app; [done|apply hdr_bytes_carry]. } { by left. } { exact Hans. }
  exists sA'. eexists. split; [exact Hc|]. split; [exact Hchs|]. split; [exact Hi|].
  fold host in Hw. rewrite Hh in Hw. fold req in Hw.
  split; [done|]. split; [done|]. split; [by apply u16_small|]. split; [exact Hh|]. split; [done|].
  by eexists.
Qed.
End handshake.

(** Two simulated nodes with the ids 9 and 7: channel 5 of the first asks for number 300 of the
    second, whose answer comes while the first waits. *)
Definition hand_ack : list Z := hdr_bytes 1 7 9 CM_CONN_ACK 5 256 ++ replicate 12 0.
Definition hand_env : CmEnv cmworld := {|
  idr_pick := idr_pick;
  cm_wait _ ch _ s := (riocm_resp_handler 50%positive ;;; take_event ch ;;; ret 1) (with_buf 50%positive hand_ack s);
  cm_gap _ := ret tt;
  msecs_to_jiffies := msecs_to_jiffies; user_read := user_read; user_write := user_write;
|}.
Definition hand_dev (id : Z) : gmap ptr rio_dev := {[ 2%positive := setf rd_destid id (zero_rio_dev None) ]}.
Definition hand_node (host peer : Z) (chans : gmap ptr rio_channel) (idr : gmap Z ptr) : cmstate cmworld :=
  let s := cmw_state ∅ chans idr ∅ in
  setf cs_m (setf ms_k (setf ks_devs (hand_dev peer)
    (setf ks_mports {[ 1%positive := setf mp_host_deviceid host cmw_mport ]} (ms_k (cs_m s)))) (cs_m s)) s.
Definition hand_A : cmstate cmworld :=
  hand_node 9 7 {[ 4%positive := cmw_channel 5 RIO_CM_IDLE 0 zero_rx_ring ]} {[ 5 := 4%positive ]}.
Definition hand_B : cmstate cmworld :=
  hand_node 7 9 {[ 4%positive := cmw_channel 300 RIO_CM_LISTEN 0 zero_rx_ring ]} {[ 300 := 4%positive ]}.

Lemma riocm_handshake_witness :
  exists sA' newA, @riocm_ch_connect cmworld _ hand_env 1 5 3%positive 2%positive 300 hand_A = Done 0 sA' /\
    cs_chans sA' !! 4%positive = Some newA /\ ch_state newA = RIO_CM_CONNECTED /\ ch_rem_channel newA = 256.
Proof.
  destruct (@riocm_handshake cmworld _ hand_env 1 256 hand_A hand_B 5 4%positive (cmw_channel 5 RIO_CM_IDLE 0 zero_rx_ring)
    3%positive cmw_cm 1%positive (setf mp_host_deviceid 9 cmw_mport) 2%positive (setf rd_destid 7 (zero_rio_dev None))
    300 4%positive (cmw_channel 300 RIO_CM_LISTEN 0 zero_rx_ring) 3%positive cmw_cm 1%positive
    (setf mp_host_deviceid 7 cmw_mport) 2%positive 60%positive [])
    as (Hreq & sB' & new & id & newB & Hrun & _ & Hch & _ & Hid & _ & _ & _ & Hack & Hgave & Hans).
  - by intros o s.
  - done.
  - split; try (vm_compute; split; done); done.
  - split; try (vm_compute; split; done); try done. by repeat constructor.
  - done.
  - split; [by apply Z.leb_le|by apply Z.ltb_lt].
  - reflexivity.
  - match type of Hrun with ?run = _ =>
      assert (match run with Done (inr _, i) _ => i = 256 | _ => False end) as Hi by (vm_compute; reflexivity);
      rewrite Hrun in Hi end.
    clear Hid. subst id. destruct (Hans 50%positive (replicate 12 0)) as (sA' & newA & H1 & H2 & _ & H3 & _ & H4 & _); [exact (fun s => eq_refl)|].
    exists sA', newA. split; [exact H1|]. split; [rewrite H2; apply lookup_insert_eq|]. split; [exact H3|exact H4].
Defined.
