(* ===== verification/RioCmInv.v ===== *)
(** * The life of a channel

    The states a channel goes through and the table of channel numbers: an
    invariant that every entry point of channelized messaging keeps, whatever
    other threads do while it sleeps. *)

From S2P Require Import Prelude Regs State Mbox Msg RioCm RioCmOps RioCmBench RioCmRing RioCmTx.

(** ** Code that leaves channel states and numbers alone *)

Section quiet.
Context {W : Type} `{!KernelEnv W} `{!CmEnv W}.
Implicit Types s : cmstate W.

(** Addresses are given out in ascending order. *)
Definition fresh_le (k k' : kstate W) : Prop := (ks_fresh k <= ks_fresh k')%positive.
#[export] Instance fresh_le_preorder : PreOrder fresh_le.
Proof. split; [intros k|intros k1 k2 k3]; unfold fresh_le; lia. Qed.

(** What the invariant reads of a channel. *)
Definition view (c : rio_channel) : Z * rio_cm_state := (ch_id c, ch_state c).

Definition same_chans s s' : Prop :=
  ch_idr s' = ch_idr s /\ fresh_le (ms_k (cs_m s)) (ms_k (cs_m s')) /\
  forall p, view <$> cs_chans s' !! p = view <$> cs_chans s !! p.
#[export] Instance same_chans_preorder : PreOrder same_chans.
Proof.
  split.
  - intros s. by repeat split.
  - intros s1 s2 s3 (A1 & A2 & A3) (B1 & B2 & B3). split; [congruence|]. split; [by etransitivity|].
    intros p. by rewrite B3, A3.
Qed.

(** *** The core and buffers *)

Definition fresh_le_m (m m' : mstate W) : Prop := fresh_le (ms_k m) (ms_k m').
#[export] Instance fresh_le_m_preorder : PreOrder fresh_le_m.
Proof. split; [intros m|intros m1 m2 m3]; unfold fresh_le_m, fresh_le; lia. Qed.

Lemma fresh_same_kernel {A} (m : KM W A) : keeps same_kernel m -> keeps fresh_le m.
Proof. intros H s a s' Hr. apply H in Hr. unfold fresh_le. by rewrite Hr. Qed.
Lemma fresh_modify (g : kstate W -> kstate W) :
  (forall k, ks_fresh (g k) = ks_fresh k) -> keeps fresh_le (modify g).
Proof. intros Hg s a s' [= _ <-]. unfold fresh_le. rewrite Hg. lia. Qed.
Lemma fresh_fresh_ptr : keeps fresh_le fresh_ptr.
Proof. intros s a s' [= _ <-]. unfold fresh_le. cbn. lia. Qed.
Lemma fresh_lift_k {A} (m : KM W A) : keeps fresh_le m -> keeps fresh_le_m (lift_k m).
Proof.
  intros H s a s'. unfold lift_k. destruct (m (ms_k s)) as [b k| |] eqn:E; [|done..].
  intros [= -> <-]. by eapply H.
Qed.
Lemma fresh_m_modify (g : mstate W -> mstate W) :
  (forall m, ms_k (g m) = ms_k m) -> keeps fresh_le_m (modify g).
Proof. intros Hg s a s' [= _ <-]. unfold fresh_le_m, fresh_le. rewrite Hg. lia. Qed.
Lemma sc_lift {A} (m : MM W A) : keeps fresh_le_m m -> keeps same_chans (lift m).
Proof.
  intros H s a s'. unfold lift. cbn. destruct (m (cs_m s)) as [b k| |] eqn:E; [|done..].
  intros [= -> <-]. split; [done|]. split; [by eapply H|done].
Qed.
Lemma sc_core {A} (m : KM W A) : keeps fresh_le m -> keeps same_chans (core m).
Proof. intros H. by apply sc_lift, fresh_lift_k. Qed.

Lemma fresh_upd_mport p g : keeps fresh_le (@upd_mport W p g).
Proof.
  intros s a s'. unfold upd_mport, get_mport, gets, bind. destruct (ks_mports s !! p); [|done].
  intros [= _ <-]. unfold fresh_le. cbn. lia.
Qed.
Lemma fresh_kzalloc : keeps fresh_le (@kzalloc W _).
Proof.
  intros s a s'. rewrite run_kzalloc. destruct (env_alloc (ks_hw s)).1; intros [= _ <-]; unfold fresh_le; cbn; lia.
Qed.
Lemma fresh_kfree : keeps fresh_le (@kfree W).
Proof. intros s a s' [= _ <-]. unfold fresh_le. cbn. lia. Qed.
Lemma fresh_get_mport p : keeps fresh_le (@get_mport W p).
Proof. apply fresh_same_kernel. auto with frame. Qed.
Lemma fresh_get_dev p : keeps fresh_le (@get_dev W p).
Proof. apply fresh_same_kernel. auto with frame. Qed.
Lemma fresh_dev_hport d : keeps fresh_le (@dev_hport W d).
Proof. apply fresh_same_kernel. auto with frame. Qed.
Lemma fresh_uninit : keeps fresh_le (@uninit W _).
Proof. apply fresh_same_kernel. auto with frame. Qed.
Lemma fresh_hw_call {A} (g : W -> A * W) : keeps fresh_le (hw_call g).
Proof. apply fresh_same_kernel, keeps_hw_call. Qed.
Lemma fresh_hw_do (g : W -> W) : keeps fresh_le (hw_do g).
Proof. apply fresh_same_kernel, keeps_hw_do. Qed.
Hint Resolve fresh_fresh_ptr fresh_upd_mport fresh_kzalloc fresh_kfree fresh_get_mport fresh_get_dev
  fresh_dev_hport fresh_uninit fresh_hw_call fresh_hw_do fresh_lift_k : frame.

Lemma fresh_request_mbox sd p d m e cb : keeps fresh_le (@request_mbox W _ sd p d m e cb).
Proof. unfold request_mbox, request_mport_resource, release_mport_resource, Mbox.set_msg, array_get, array_set. solve_keeps. Qed.
Lemma fresh_release_mbox sd p m : keeps fresh_le (@release_mbox W _ sd p m).
Proof. unfold release_mbox, release_mport_resource, Mbox.set_msg, array_get, array_set. solve_keeps. Qed.
Lemma fresh_running p : keeps fresh_le (@rio_mport_is_running W p).
Proof. unfold rio_mport_is_running. solve_keeps. Qed.
Hint Resolve fresh_request_mbox fresh_release_mbox fresh_running : frame.
Lemma fresh_mboxes :
  (forall p d m e cb, keeps fresh_le (@rio_request_inb_mbox W _ p d m e cb)) /\
  (forall p d m e cb, keeps fresh_le (@rio_request_outb_mbox W _ p d m e cb)) /\
  (forall p m, keeps fresh_le (@rio_release_inb_mbox W _ p m)) /\
  (forall p m, keeps fresh_le (@rio_release_outb_mbox W _ p m)).
Proof.
  unfold rio_request_inb_mbox, rio_request_outb_mbox, rio_release_inb_mbox, rio_release_outb_mbox.
  repeat split; intros; solve_keeps.
Qed.

Lemma fresh_get_buf p : keeps fresh_le_m (@get_buf W p).
Proof. unfold get_buf. solve_keeps. Qed.
Lemma fresh_set_buf p b : keeps fresh_le_m (@set_buf W p b).
Proof. by apply fresh_m_modify. Qed.
Hint Resolve fresh_get_buf fresh_set_buf : frame.
Lemma fresh_read_at p off n : keeps fresh_le_m (@read_at W p off n).
Proof. unfold read_at. solve_keeps. Qed.
Lemma fresh_write_at p off b : keeps fresh_le_m (@write_at W p off b).
Proof. unfold write_at. solve_keeps. Qed.
Lemma fresh_alloc b : keeps fresh_le_m (@alloc_bytes W _ b).
Proof. unfold alloc_bytes. repeat first [solve [auto 2 with frame] | solve [by apply fresh_m_modify] | keeps_step]. Qed.
Lemma fresh_kzalloc_buf n : keeps fresh_le_m (@kzalloc_buf W _ n).
Proof. apply fresh_alloc. Qed.
Hint Resolve fresh_read_at fresh_write_at fresh_alloc fresh_kzalloc_buf : frame.
Lemma fresh_kmalloc_buf n : keeps fresh_le_m (@kmalloc_buf W _ n).
Proof. unfold kmalloc_buf. solve_keeps. Qed.
Lemma fresh_kfree_buf p : keeps fresh_le_m (@kfree_buf W p).
Proof. unfold kfree_buf. repeat first [solve [auto 2 with frame] | solve [by apply fresh_m_modify] | keeps_step]. Qed.
Hint Resolve fresh_kmalloc_buf fresh_kfree_buf : frame.
Lemma fresh_kfree_opt p : keeps fresh_le_m (@kfree_opt W p).
Proof. unfold kfree_opt. solve_keeps. Qed.
Lemma fresh_add_outb mport rdev mbox b len : keeps fresh_le_m (@rio_add_outb_message W mport rdev mbox b len).
Proof. unfold rio_add_outb_message. solve_keeps. Qed.
Lemma fresh_add_inb mport mbox b : keeps fresh_le_m (@rio_add_inb_buffer W mport mbox b).
Proof. unfold rio_add_inb_buffer. solve_keeps. Qed.
Lemma fresh_get_inb mport mbox : keeps fresh_le_m (@rio_get_inb_message W mport mbox).
Proof. unfold rio_get_inb_message. solve_keeps. Qed.

(** *** The driver's objects *)

Lemma sc_modify (g : cmstate W -> cmstate W) :
  (forall s, cs_m (g s) = cs_m s /\ cs_chans (g s) = cs_chans s /\ ch_idr (g s) = ch_idr s) ->
  keeps same_chans (modify g).
Proof.
  intros Hg s a s' [= _ <-]. destruct (Hg s) as (H1 & H2 & H3). split; [done|].
  split; [unfold fresh_le; rewrite H1; lia|]. intros p. by rewrite H2.
Qed.
Lemma sc_upd_ch p (g : rio_channel -> rio_channel) :
  (forall c, view (g c) = view c) -> keeps same_chans (@upd_ch W p g).
Proof.
  intros Hg s a s'. unfold upd_ch, get_ch, gets, bind. destruct (cs_chans s !! p) as [c|] eqn:Hc; [|done].
  intros [= _ <-]. split; [done|]. split; [unfold fresh_le; cbn; lia|]. intros q. cbn.
  destruct (decide (p = q)) as [<-|Hne].
  - rewrite lookup_insert_eq, Hc. cbn. by rewrite Hg.
  - by rewrite lookup_insert_ne.
Qed.
Lemma sc_upd_cm p g : keeps same_chans (@upd_cm W p g).
Proof.
  unfold upd_cm, get_cm. repeat first [solve [auto 2 with frame] | by apply sc_modify | keeps_step].
Qed.
Lemma sc_get_cm p : keeps same_chans (@get_cm W p).
Proof. unfold get_cm. solve_keeps. Qed.
Lemma sc_get_ch p : keeps same_chans (@get_ch W p).
Proof. unfold get_ch. solve_keeps. Qed.
End quiet.
#[export] Hint Resolve fresh_fresh_ptr fresh_upd_mport fresh_kzalloc fresh_kfree fresh_get_mport fresh_get_dev
  fresh_dev_hport fresh_uninit fresh_hw_call fresh_hw_do fresh_lift_k fresh_running
  fresh_get_buf fresh_set_buf fresh_read_at fresh_write_at fresh_alloc fresh_kzalloc_buf fresh_kmalloc_buf
  fresh_kfree_buf fresh_kfree_opt fresh_add_outb fresh_add_inb fresh_get_inb
  sc_lift sc_core sc_upd_cm sc_get_cm sc_get_ch : frame.
#[export] Hint Extern 2 (keeps fresh_le (rio_request_inb_mbox _ _ _ _ _)) => apply fresh_mboxes : frame.
#[export] Hint Extern 2 (keeps fresh_le (rio_request_outb_mbox _ _ _ _ _)) => apply fresh_mboxes : frame.
#[export] Hint Extern 2 (keeps fresh_le (rio_release_inb_mbox _ _)) => apply fresh_mboxes : frame.
#[export] Hint Extern 2 (keeps fresh_le (rio_release_outb_mbox _ _)) => apply fresh_mboxes : frame.

Ltac solve_quiet := repeat first
  [ solve [auto 4 with frame]
  | solve [apply sc_upd_ch; intros; reflexivity]
  | solve [apply sc_modify; intros; repeat split; reflexivity]
  | keeps_step ].

Section driver.
Context {W : Type} `{!KernelEnv W} `{!CmEnv W} (cmbox chstart : Z).
Abbreviation quiet := (keeps (@same_chans W)).

Lemma sc_upd_ring p g : quiet (upd_ring p g).
Proof. apply sc_upd_ch. done. Qed.
Lemma sc_complete p : quiet (complete p).
Proof. apply sc_upd_ch. done. Qed.
Lemma sc_cmp p a : quiet (riocm_cmp p a).
Proof. unfold riocm_cmp. solve_quiet. Qed.
Lemma sc_get_channel nr : quiet (riocm_get_channel nr).
Proof. unfold riocm_get_channel. solve_quiet. Qed.
Lemma sc_free_slots l n : quiet (free_slots l n).
Proof. revert n. induction l as [|[p|] l IH]; intros n; cbn [free_slots]; solve_quiet; auto. Qed.
Hint Resolve sc_upd_ring sc_complete sc_cmp sc_get_channel sc_free_slots : frame.
Lemma sc_ch_free p : quiet (riocm_ch_free p).
Proof. unfold riocm_ch_free. solve_quiet. Qed.
Hint Resolve sc_ch_free : frame.
Lemma sc_put_channel p : quiet (riocm_put_channel p).
Proof. unfold riocm_put_channel. solve_quiet. Qed.
Lemma sc_cm_mport c : quiet (cm_mport c).
Proof. unfold cm_mport. solve_quiet. Qed.
Lemma sc_slot_set {A} (a : list A) i v : quiet (slot_set a i v).
Proof. unfold slot_set. solve_quiet. Qed.
Lemma sc_slot_get {A} (a : list A) i : quiet (slot_get a i).
Proof. unfold slot_get. solve_quiet. Qed.
Hint Resolve sc_put_channel sc_cm_mport sc_slot_set sc_slot_get : frame.
Lemma sc_rx_get_msg cm : quiet (riocm_rx_get_msg cmbox cm).
Proof. unfold riocm_rx_get_msg. solve_quiet. Qed.
Lemma sc_rx_fill_loop cm l n : quiet (rx_fill_loop cmbox cm l n).
Proof. revert n. induction l as [|i l IH]; intros n; cbn [rx_fill_loop]; solve_quiet; auto. Qed.
Hint Resolve sc_rx_get_msg sc_rx_fill_loop : frame.
Lemma sc_rx_fill cm n : quiet (riocm_rx_fill cmbox cm n).
Proof. unfold riocm_rx_fill. solve_quiet. Qed.
Lemma sc_rx_free cm : quiet (riocm_rx_free cm).
Proof. unfold riocm_rx_free. solve_quiet. Qed.
Lemma sc_queue_req cm r b l : quiet (riocm_queue_req cm r b l).
Proof. unfold riocm_queue_req. solve_quiet. Qed.
Lemma sc_post_send cm r b l : quiet (riocm_post_send cmbox cm r b l).
Proof. unfold riocm_post_send. solve_quiet. Qed.
Lemma sc_put_u8 p o v : quiet (put_u8 p o v).
Proof. unfold put_u8. solve_quiet. Qed.
Lemma sc_put_be16 p o v : quiet (put_be16 p o v).
Proof. unfold put_be16. solve_quiet. Qed.
Lemma sc_put_be32 p o v : quiet (put_be32 p o v).
Proof. unfold put_be32. solve_quiet. Qed.
Lemma sc_get_u8 p o : quiet (get_u8 p o).
Proof. unfold get_u8. solve_quiet. Qed.
Lemma sc_get_be16 p o : quiet (get_be16 p o).
Proof. unfold get_be16. solve_quiet. Qed.
Lemma sc_get_be32 p o : quiet (get_be32 p o).
Proof. unfold get_be32. solve_quiet. Qed.
Hint Resolve sc_rx_fill sc_rx_free sc_queue_req sc_post_send sc_put_u8 sc_put_be16 sc_put_be32
  sc_get_u8 sc_get_be16 sc_get_be32 : frame.
Lemma sc_fill_hdr h a b op c d : quiet (fill_hdr cmbox h a b op c d).
Proof. unfold fill_hdr. solve_quiet. Qed.
Lemma sc_send_request cm r h : quiet (send_request cmbox cm r h).
Proof. unfold send_request. solve_quiet. Qed.
Lemma sc_find_peer l i : quiet (find_peer l i).
Proof. induction l as [|p l IH]; cbn [find_peer]; solve_quiet. Qed.
Hint Resolve sc_fill_hdr sc_send_request sc_find_peer : frame.
Lemma sc_send_nack cm a b c : quiet (riocm_send_nack cmbox cm a b c).
Proof. unfold riocm_send_nack. solve_quiet. Qed.
Lemma sc_ack_loop n cm a b : quiet (ack_loop n cm a b).
Proof. revert b. induction n as [|n IH]; intros b; cbn [ack_loop]; solve_quiet; auto. Qed.
Lemma sc_drain_reqs cm l : quiet (drain_reqs cmbox cm l).
Proof. induction l as [|r l IH]; cbn [drain_reqs]; solve_quiet. Qed.
Hint Resolve sc_send_nack sc_ack_loop sc_drain_reqs : frame.
Lemma sc_txcq cm slot : quiet (rio_txcq_handler cmbox cm slot).
Proof. unfold rio_txcq_handler. solve_quiet. Qed.
Hint Resolve sc_txcq : frame.
Lemma sc_outb_event mport dev mbox slot : quiet (riocm_outb_msg_event cmbox mport dev mbox slot).
Proof. unfold riocm_outb_msg_event. solve_quiet. Qed.
Lemma sc_req_handler cm d : quiet (riocm_req_handler cmbox cm d).
Proof. unfold riocm_req_handler. solve_quiet. Qed.
Lemma sc_rx_data cm b : quiet (rio_rx_data_handler cm b).
Proof. unfold rio_rx_data_handler, ring_push. solve_quiet. Qed.
Lemma sc_inb_event mport cm mbox slot : quiet (riocm_inb_msg_event mport cm mbox slot).
Proof. unfold riocm_inb_msg_event. solve_quiet. Qed.
Lemma sc_ch_send i b l : quiet (riocm_ch_send cmbox i b l).
Proof. unfold riocm_ch_send. solve_quiet. Qed.
Lemma sc_free_rxbuf p b : quiet (riocm_ch_free_rxbuf p b).
Proof. unfold riocm_ch_free_rxbuf. solve_quiet. Qed.
Lemma sc_receive_buf p : quiet (receive_buf p).
Proof. unfold receive_buf, ring_pop. solve_quiet. Qed.
End driver.
#[export] Hint Resolve sc_upd_ring sc_complete sc_cmp sc_get_channel sc_free_slots sc_ch_free
  sc_put_channel sc_cm_mport sc_slot_set sc_slot_get sc_rx_get_msg sc_rx_fill_loop sc_rx_fill sc_rx_free
  sc_queue_req sc_post_send sc_put_u8 sc_put_be16 sc_put_be32 sc_get_u8 sc_get_be16 sc_get_be32
  sc_fill_hdr sc_send_request sc_find_peer sc_send_nack sc_ack_loop
  sc_drain_reqs sc_txcq sc_outb_event sc_req_handler sc_rx_data sc_inb_event sc_ch_send sc_free_rxbuf
  sc_receive_buf : frame.

(** ** The invariant *)

(** The transitions of the state of a channel and what makes them: the call of
    riocm_ch_connect, its failure to send, the answer of the peer, acceptance of
    the request in a new channel, binding, listening, and taking the channel out
    of the table. *)
Inductive cm_edge : rio_cm_state -> rio_cm_state -> Prop :=
| edge_connect : cm_edge RIO_CM_IDLE RIO_CM_CONNECT
| edge_send_failed : cm_edge RIO_CM_CONNECT RIO_CM_IDLE
| edge_ack : cm_edge RIO_CM_CONNECT RIO_CM_CONNECTED
| edge_accept : cm_edge RIO_CM_IDLE RIO_CM_CONNECTED
| edge_bind : cm_edge RIO_CM_IDLE RIO_CM_CHAN_BOUND
| edge_listen : cm_edge RIO_CM_CHAN_BOUND RIO_CM_LISTEN
| edge_disconnect a : a <> RIO_CM_DESTROYING -> cm_edge a RIO_CM_DISCONNECT
| edge_destroy a : cm_edge a RIO_CM_DESTROYING.

Section inv.
Context {W : Type}.
Implicit Types s : cmstate W.

(** A number in the table names an object that exists, has that number and is not
    being destroyed. *)
Record cm_inv s : Prop := {
  ci_idr : forall nr p, ch_idr s !! nr = Some p ->
    exists c, cs_chans s !! p = Some c /\ ch_id c = nr /\ ch_state c <> RIO_CM_DESTROYING;
  ci_fresh : forall p, is_Some (cs_chans s !! p) -> (p < ks_fresh (ms_k (cs_m s)))%positive;
}.

(** Not in the table. *)
Definition unlisted (p : ptr) s : Prop := forall nr, ch_idr s !! nr <> Some p.
Definition known (p : ptr) s : Prop := (p < ks_fresh (ms_k (cs_m s)))%positive.

(** What may happen to channels: their numbers stay, their states follow the
    transitions, what is taken out of the table or freed does not come back. *)
Record cm_trans s s' : Prop := {
  ct_fresh : (ks_fresh (ms_k (cs_m s)) <= ks_fresh (ms_k (cs_m s')))%positive;
  ct_state : forall p c c', cs_chans s !! p = Some c -> cs_chans s' !! p = Some c' ->
    ch_id c' = ch_id c /\ rtc cm_edge (ch_state c) (ch_state c');
  ct_unlisted : forall p, known p s -> unlisted p s -> unlisted p s';
  ct_freed : forall p, known p s -> cs_chans s !! p = None -> cs_chans s' !! p = None;
}.

(** One step of anybody: it keeps the invariant and the transitions. *)
Definition cm_step s s' : Prop := cm_inv s -> cm_inv s' /\ cm_trans s s'.

Lemma cm_trans_refl s : cm_trans s s.
Proof. split; [lia| |done|done]. intros p c c' H1 H2. rewrite H1 in H2. injection H2 as ->. done. Qed.
Lemma cm_trans_trans s1 s2 s3 : cm_inv s1 -> cm_trans s1 s2 -> cm_trans s2 s3 -> cm_trans s1 s3.
Proof.
  intros Hi [A1 A2 A3 A4] [B1 B2 B3 B4]. split; [lia| | |].
  - intros p c c' Hc Hc'. assert (known p s1) as Hp by by apply (ci_fresh _ Hi).
    destruct (cs_chans s2 !! p) as [c2|] eqn:Hc2.
    + destruct (A2 p c c2 Hc Hc2) as [E1 E2], (B2 p c2 c' Hc2 Hc') as [F1 F2].
      split; [congruence|by etransitivity].
    + rewrite B4 in Hc'; [done| |done]. unfold known in *. lia.
  - intros p Hp Hu. apply B3; [unfold known in *; lia|by apply A3].
  - intros p Hp Hu. apply B4; [unfold known in *; lia|by apply A4].
Qed.
#[export] Instance cm_step_preorder : PreOrder cm_step.
Proof.
  split.
  - intros s Hi. split; [done|apply cm_trans_refl].
  - intros s1 s2 s3 H1 H2 Hi. destruct (H1 Hi) as [Hi2 T1]. destruct (H2 Hi2) as [Hi3 T2].
    split; [done|by eapply cm_trans_trans].
Qed.

Lemma same_chans_step s s' : same_chans s s' -> cm_step s s'.
Proof.
  intros (H1 & H2 & H3) [I1 I2].
  assert (Hv : forall p c, cs_chans s !! p = Some c ->
    exists c', cs_chans s' !! p = Some c' /\ ch_id c' = ch_id c /\ ch_state c' = ch_state c).
  { intros p c Hc. specialize (H3 p). rewrite Hc in H3. destruct (cs_chans s' !! p) as [c'|]; [|done].
    exists c'. injection H3 as ? ?. auto. }
  assert (Hn : forall p, cs_chans s !! p = None -> cs_chans s' !! p = None).
  { intros p Hc. specialize (H3 p). rewrite Hc in H3. by destruct (cs_chans s' !! p). }
  split; split.
  - intros nr p. rewrite H1. intros Hp. destruct (I1 nr p Hp) as (c & Hc & Hid & Hst).
    destruct (Hv p c Hc) as (c' & Hc' & E1 & E2). exists c'. split; [done|split; congruence].
  - intros p [c' Hc']. destruct (cs_chans s !! p) as [c|] eqn:Hc; [|by rewrite Hn in Hc'].
    assert (known p s) by by apply I2. unfold known, fresh_le in *. lia.
  - exact H2.
  - intros p c c' Hc Hc'. destruct (Hv p c Hc) as (c2 & Hc2 & E1 & E2).
    assert (c2 = c') as -> by congruence. rewrite E2. done.
  - intros p _ Hu nr. rewrite H1. apply Hu.
  - intros p _. apply Hn.
Qed.
Lemma step_quiet {A} (m : CM W A) : keeps same_chans m -> keeps cm_step m.
Proof. intros H s a s' Hr. by eapply same_chans_step, H. Qed.

(** Changing the state of a channel along a transition. *)
Lemma step_with_ch s p c c' :
  cs_chans s !! p = Some c -> ch_id c' = ch_id c -> rtc cm_edge (ch_state c) (ch_state c') ->
  (ch_state c' = RIO_CM_DESTROYING -> unlisted p s) -> cm_step s (with_ch p c' s).
Proof.
  intros Hc Hid Hst Hu [I1 I2]. split; split.
  - intros nr q Hq. cbn in *. destruct (I1 nr q Hq) as (c0 & Hc0 & E1 & E2).
    destruct (decide (p = q)) as [<-|Hne].
    + rewrite lookup_insert_eq. exists c'. assert (c0 = c) as -> by congruence.
      split; [done|]. split; [congruence|]. intros Hd. by apply (Hu Hd nr).
    + rewrite lookup_insert_ne by done. by exists c0.
  - intros q. cbn. destruct (decide (p = q)) as [<-|Hne]; [intros _; apply (I2 p); by exists c|].
    rewrite lookup_insert_ne by done. apply I2.
  - cbn. lia.
  - intros q d d' Hd Hd'. cbn in Hd'. destruct (decide (p = q)) as [<-|Hne].
    + rewrite lookup_insert_eq in Hd'. injection Hd' as <-. assert (d = c) as -> by congruence. done.
    + rewrite lookup_insert_ne in Hd' by done. assert (d = d') as -> by congruence. done.
  - done.
  - intros q _ Hq. cbn. rewrite lookup_insert_ne; [done|]. intros ->. congruence.
Qed.

(** Taking a number out of the table. *)
Lemma step_idr_remove id : keeps (@cm_step) (@idr_remove W id).
Proof.
  intros s [] s' [= <-] [I1 I2]. split; split; unfold unlisted; cbn; try done; [| |].
  - intros nr p Hp. apply I1. by apply lookup_delete_Some in Hp as [_ ?].
  - intros p c c' H1 H2. rewrite H1 in H2. injection H2 as ->. done.
  - intros p _ Hu nr Hp. apply lookup_delete_Some in Hp as [_ Hp]. by apply (Hu nr).
Qed.
End inv.

(** ** Running under the invariant *)

(** Runs of [m] from [s] keep the invariant, follow the transitions and end in
    [Q]. *)
Definition goes {W A} (m : CM W A) (s : cmstate W) (Q : A -> cmstate W -> Prop) : Prop :=
  cm_inv s -> partial m s (fun a s' => cm_inv s' /\ cm_trans s s' /\ Q a s').

Section goes.
Context {W : Type}.
Implicit Types s : cmstate W.

Lemma goes_bind {A B} (m : CM W A) (k : A -> CM W B) s R Q :
  goes m s R -> (forall a s1, cm_trans s s1 -> R a s1 -> goes (k a) s1 Q) -> goes (bind m k) s Q.
Proof.
  intros Hm Hk Hi. apply spec_bind. eapply spec_mono; [by apply Hm|]. intros a s1 (Hi1 & T1 & HR).
  eapply spec_mono; [by apply (Hk a s1 T1 HR)|]. intros b s2 (Hi2 & T2 & HQ).
  split; [done|]. split; [by eapply cm_trans_trans|done].
Qed.
Lemma goes_ret {A} (a : A) s Q : Q a s -> goes (ret a) s Q.
Proof. intros HQ Hi. apply spec_ret. split; [done|]. split; [apply cm_trans_refl|done]. Qed.
Lemma goes_ub {A} s (Q : A -> cmstate W -> Prop) : goes ub s Q.
Proof. done. Qed.
Lemma goes_mono {A} (m : CM W A) s (P Q : A -> cmstate W -> Prop) :
  goes m s P -> (forall a s', P a s' -> Q a s') -> goes m s Q.
Proof. intros Hm HQ Hi. eapply spec_mono; [by apply Hm|]. intros a s' (H1 & H2 & H3). auto. Qed.
Lemma goes_step {A} (m : CM W A) s : keeps cm_step m -> goes m s (fun _ _ => True).
Proof.
  intros Hm Hi. unfold spec. destruct (m s) as [a s'| |] eqn:E; [|done..].
  destruct (Hm _ _ _ E Hi). auto.
Qed.
Lemma goes_quiet {A} (m : CM W A) s : keeps same_chans m -> goes m s (fun _ s' => same_chans s s').
Proof.
  intros Hm Hi. unfold spec. destruct (m s) as [a s'| |] eqn:E; [|done..]. apply Hm in E.
  by destruct (same_chans_step _ _ E Hi).
Qed.
Lemma step_goes {A} (m : CM W A) : (forall s, goes m s (fun _ _ => True)) -> keeps cm_step m.
Proof. intros Hm s a s' E Hi. specialize (Hm s Hi). unfold spec in Hm. rewrite E in Hm. by destruct Hm as (? & ? & _). Qed.
Lemma goes_gets {A} (g : cmstate W -> A) s : goes (gets g) s (fun a s' => a = g s /\ s' = s).
Proof. intros Hi. apply spec_gets. split; [done|]. split; [apply cm_trans_refl|done]. Qed.
Lemma goes_get_ch p s : goes (get_ch p) s (fun c s' => s' = s /\ cs_chans s !! p = Some c).
Proof.
  intros Hi. unfold get_ch. apply spec_bind, spec_gets, spec_deref; [|done]. intros c Hc.
  split; [done|]. split; [apply cm_trans_refl|done].
Qed.
Lemma goes_run {A} (m : CM W A) s a s' Q : m s = Done a s' -> cm_step s s' -> Q a s' -> goes m s Q.
Proof. intros Hr Hs HQ Hi. eapply spec_Done; [done|]. destruct (Hs Hi). auto. Qed.
Lemma goes_inv {A} (m : CM W A) s Q : (cm_inv s -> goes m s Q) -> goes m s Q.
Proof. intros H Hi. by apply H. Qed.

(** Every channel at [p] is in a state. *)
Definition in_state (p : ptr) (a : rio_cm_state) s : Prop :=
  forall c, cs_chans s !! p = Some c -> ch_state c = a.
Lemma in_state_same p a s s' : same_chans s s' -> in_state p a s -> in_state p a s'.
Proof.
  intros (_ & _ & H) Hs c' Hc'. specialize (H p). rewrite Hc' in H.
  destruct (cs_chans s !! p) as [c|] eqn:Hc; [|done]. injection H as _ Hst. rewrite Hst. by apply Hs.
Qed.

(** Changing the state of a channel that is in the state [a]. *)
Lemma goes_upd_state p g a b s :
  in_state p a s -> (forall c, ch_id (g c) = ch_id c /\ (ch_state c = a -> ch_state (g c) = b)) -> rtc cm_edge a b ->
  (b = RIO_CM_DESTROYING -> unlisted p s) -> goes (upd_ch p g) s (fun _ s' => in_state p b s').
Proof.
  intros Ha Hg Hab Hu. destruct (cs_chans s !! p) as [c|] eqn:Hc.
  2: { intros _. unfold spec, upd_ch, get_ch, gets, bind. by rewrite Hc. }
  destruct (Hg c) as [Hid Hst]. pose proof (Ha c Hc) as Hca. specialize (Hst Hca).
  eapply goes_run; [by apply run_upd_ch| |].
  - apply (step_with_ch s p c (g c)); [done|done| |].
    + by rewrite Hca, Hst.
    + by rewrite Hst.
  - intros c' Hc'. rewrite with_ch_lookup in Hc'. by injection Hc' as <-.
Qed.
Lemma step_cmp_exch p a b :
  rtc cm_edge a b -> b <> RIO_CM_DESTROYING -> keeps cm_step (@riocm_cmp_exch W p a b).
Proof.
  intros Hab Hb. apply step_goes. intros s. unfold riocm_cmp_exch. eapply goes_bind; [apply goes_get_ch|].
  intros c s1 _ [-> Hc]. case_bool_decide as Hst; cbn [when].
  - eapply goes_bind; [apply (goes_upd_state p _ a b)|].
    + intros c' Hc'. congruence.
    + intros c'. by split.
    + done.
    + done.
    + intros [] s2 _ _. by apply goes_ret.
  - eapply goes_bind; [by apply (goes_ret tt _ (fun _ _ => True))|]. intros [] s2 _ _. by apply goes_ret.
Qed.
Lemma goes_exch p b s a :
  in_state p a s -> rtc cm_edge a b -> (b = RIO_CM_DESTROYING -> unlisted p s) ->
  goes (riocm_exch p b) s (fun _ _ => True).
Proof.
  intros Ha Hab Hu. unfold riocm_exch. eapply goes_bind; [apply goes_get_ch|]. intros c s1 _ [-> Hc].
  eapply goes_bind; [by apply (goes_upd_state p _ a b)|]. intros [] s2 _ _. by apply goes_ret.
Qed.

(** A channel in the table, after its number is taken out. *)
Lemma unlisted_removed s nr p c :
  cm_inv s -> ch_idr s !! nr = Some p -> cs_chans s !! p = Some c ->
  unlisted p (setf ch_idr (delete (ch_id c) (ch_idr s)) s).
Proof.
  intros [I1 _] Hp Hc nr' Hp'. cbn in Hp'. apply lookup_delete_Some in Hp' as [Hne Hp'].
  destruct (I1 nr' p Hp') as (c' & Hc' & Hid & _). congruence.
Qed.
Lemma listed_known s nr p : cm_inv s -> ch_idr s !! nr = Some p -> known p s.
Proof. intros [I1 I2] Hp. destruct (I1 nr p Hp) as (c & Hc & _). apply I2. by exists c. Qed.

(** Freeing a channel object. *)
Lemma goes_delete p s :
  unlisted p s -> goes (modify (fun s => setf cs_chans (delete p (cs_chans s)) s)) s (fun _ _ => True).
Proof.
  intros Hu [I1 I2]. apply spec_modify. split; [|split; [|done]]; split; cbn; try done.
  - intros nr q Hq. destruct (I1 nr q Hq) as (c & Hc & E). exists c. split; [|done].
    rewrite lookup_delete_ne; [done|]. intros ->. by apply (Hu nr).
  - intros q [c Hc]. apply lookup_delete_Some in Hc as [_ Hc]. apply I2. by exists c.
  - intros q c c' Hc Hc'. apply lookup_delete_Some in Hc' as [_ Hc']. rewrite Hc in Hc'. by injection Hc' as ->.
  - intros q _ Hq. apply lookup_delete_None. by right.
Qed.
End goes.
