(* ===== verification/RioCmLife.v ===== *)
(** * Channels under concurrent operation

    Every entry point of channelized messaging keeps the invariant of RioCmInv and
    follows the transitions of the channel states, given that whatever runs while
    it sleeps does. *)

From stdpp Require Import sorting.
From S2P Require Import Prelude Regs State Mbox Msg RioCm RioCmOps RioCmBench RioCmRing RioCmTx RioCmHand RioCmInv.

(** What the code relies on: others act as it does itself while it sleeps and between
    its steps; nobody changes the state of the one channel that a thread acts upon
    next without looking again, which is the new channel of a thread in
    riocm_ch_accept and the channel that a response is for; a number from the idr is
    one of the range that is not in use; and user memory holds bytes.  The second of
    these is not what the code ensures: [accept_race] and [response_race] show what
    happens without it. *)
Class CmRely (W : Type) `{!CmEnv W} := {
  cm_rely : forall b p t, keeps (@cm_step W) (cm_wait b p t);
  cm_gap_rely : forall o, keeps (@cm_step W) (cm_gap o);
  cm_gap_state : forall p a s s', @in_state W p a s -> cm_gap (Some p) s = Done tt s' -> in_state p a s';
  idr_pick_free : forall idr start end_ w, let '(id, w') := idr_pick idr start end_ w in
    id < 0 \/ (start <= id < end_ /\ idr !! id = None);
  user_bytes : forall a n w b, user_read a n w = Some b -> Forall is_byte b;
}.
#[export] Hint Resolve step_idr_remove : frame.

Section life.
Context {W : Type} `{!KernelEnv W} `{!CmEnv W} `{!CmRely W} (cmbox chstart : Z).
Implicit Types s : cmstate W.
Abbreviation step := (keeps (@cm_step W)).

Lemma step_cm_wait b p t : step (cm_wait b p t).
Proof. apply cm_rely. Qed.
Lemma step_cm_gap o : step (cm_gap o).
Proof. apply cm_gap_rely. Qed.
Hint Resolve step_cm_wait step_cm_gap : frame.
Lemma goes_cm_gap p a s : in_state p a s -> goes (cm_gap (Some p)) s (fun _ s' => in_state p a s').
Proof.
  intros Ha Hi. destruct (cm_gap (Some p) s) as [[] s'| |] eqn:E; unfold spec; rewrite E; [|done..].
  destruct (cm_gap_rely _ _ _ _ E Hi) as [Hi' T]. split; [done|]. split; [done|]. by eapply cm_gap_state.
Qed.

(** Going on after a quiet part and after one that keeps the steps. *)
Lemma goes_skip {A B} (m : CM W A) (k : A -> CM W B) s Q :
  keeps same_chans m -> (forall a s1, cm_trans s s1 -> same_chans s s1 -> goes (k a) s1 Q) -> goes (bind m k) s Q.
Proof. intros Hm Hk. eapply goes_bind; [by apply goes_quiet|]. auto. Qed.
Lemma goes_then {A B} (m : CM W A) (k : A -> CM W B) s Q :
  step m -> (forall a s1, cm_trans s s1 -> goes (k a) s1 Q) -> goes (bind m k) s Q.
Proof. intros Hm Hk. eapply goes_bind; [by apply goes_step|]. auto. Qed.
Lemma goes_any {A} (m : CM W A) s : step m -> goes m s (fun _ _ => True).
Proof. apply goes_step. Qed.

(** Splitting a goal about [step]: quiet parts are solved on the way. *)
Ltac solve_step := repeat first
  [ solve [auto 4 with frame]
  | solve [apply step_quiet; solve_quiet]
  | solve [apply step_cmp_exch; [apply rtc_once; constructor|done]]
  | keeps_step ].

Lemma step_resp_handler d : step (riocm_resp_handler d).
Proof.
  apply step_goes. intros s. unfold riocm_resp_handler.
  apply goes_skip; [solve_quiet|]. intros nr s1 _ _. apply goes_skip; [solve_quiet|].
  intros [p|] s2 _ _; [|by apply goes_ret].
  eapply goes_bind; [apply goes_get_ch|]. intros c s3 _ [-> Hc].
  case_bool_decide as Hst; cbn [negb]; [|apply goes_any; solve_step].
  eapply goes_bind; [apply (goes_cm_gap p RIO_CM_CONNECT); intros c' Hc'; congruence|]. intros [] s0 _ H0.
  apply goes_skip; [solve_quiet|]. intros op s4 _ H4.
  assert (in_state p RIO_CM_CONNECT s4) as Hin by by eapply in_state_same.
  destruct (op =? CM_CONN_ACK); cbn [when].
  - eapply goes_bind.
    { eapply goes_bind; [apply (goes_exch p RIO_CM_CONNECTED _ _ Hin); [apply rtc_once; constructor|done]|].
      intros st s5 _ _. apply goes_any. solve_step. }
    intros [] s5 _ _. apply goes_any. solve_step.
  - apply goes_any. solve_step.
Qed.

Lemma step_send_ack p : step (riocm_send_ack cmbox p).
Proof. unfold riocm_send_ack. solve_step. Qed.
Lemma step_send_close p : step (riocm_send_close cmbox p).
Proof. unfold riocm_send_close. solve_step. Qed.
Hint Resolve step_send_ack step_send_close : frame.
Lemma goes_ch_close p s : unlisted p s -> known p s -> goes (riocm_ch_close cmbox p) s (fun _ _ => True).
Proof.
  intros Hu Hk. unfold riocm_ch_close. destruct (cs_chans s !! p) as [c|] eqn:Hc.
  2: { intros _. unfold spec, riocm_exch, get_ch, gets, bind. by rewrite Hc. }
  eapply goes_bind; [apply (goes_exch p RIO_CM_DESTROYING s (ch_state c)); [congruence|apply rtc_once; constructor|done]|].
  intros st s1 T1 _. apply goes_then; [solve_step|]. intros [] s2 T2. apply goes_then; [solve_step|].
  intros [] s3 T3. apply goes_then; [solve_step|]. intros [] s4 T4. apply goes_then; [solve_step|].
  intros wret s5 T5.
  assert (unlisted p s5) as Hu5.
  { apply (ct_unlisted _ _ T5), (ct_unlisted _ _ T4), (ct_unlisted _ _ T3), (ct_unlisted _ _ T2),
      (ct_unlisted _ _ T1); try done; destruct T1, T2, T3, T4; unfold known in *; lia. }
  match goal with |- goes (if ?b then _ else _) _ _ => destruct b end; [|by apply goes_ret].
  apply goes_skip; [solve_quiet|]. intros c5 s6 T6 S6. eapply goes_bind; [apply goes_delete|].
  - apply (ct_unlisted _ _ T6); [|done]. destruct T1, T2, T3, T4, T5. unfold known in *. lia.
  - intros [] s7 _ _. apply goes_any. solve_step.
Qed.

(** Taking a number of the table and closing its channel. *)
Lemma goes_remove_close nr p c s :
  ch_idr s !! nr = Some p -> cs_chans s !! p = Some c ->
  goes (idr_remove (ch_id c)) s (fun _ s' => unlisted p s' /\ known p s' /\ cs_chans s' !! p = Some c).
Proof.
  intros Hnr Hc. apply goes_inv. intros Hi. eapply goes_run; [reflexivity|by eapply step_idr_remove|].
  split; [by eapply unlisted_removed|]. split; [|done]. by eapply (listed_known s).
Qed.

Lemma step_close_handler d : step (riocm_close_handler cmbox d).
Proof.
  apply step_goes. intros s. unfold riocm_close_handler. apply goes_skip; [solve_quiet|].
  intros nr s1 _ _. eapply goes_bind; [apply goes_gets|]. intros o s2 _ [-> ->].
  destruct (ch_idr s1 !! nr) as [p|] eqn:Hnr; [|by apply goes_ret].
  eapply goes_bind; [apply goes_get_ch|]. intros c s3 _ [-> Hc].
  apply goes_inv. intros Hi. destruct (ci_idr _ Hi nr p Hnr) as (c0 & Hc0 & _ & Hst).
  assert (c0 = c) as -> by congruence.
  eapply goes_bind; [by apply (goes_remove_close nr p c)|]. intros [] s3 _ (Hu & Hk & Hc3).
  eapply goes_bind; [apply (goes_exch p RIO_CM_DISCONNECT s3 (ch_state c));
    [intros c' Hc'; congruence|by apply rtc_once, edge_disconnect|done]|].
  intros st s4 T4 _. eapply goes_bind; [apply goes_ch_close|].
  - by apply (ct_unlisted _ _ T4).
  - destruct T4. unfold known in *. lia.
  - intros rc s5 _ _. by apply goes_ret.
Qed.
Hint Resolve step_resp_handler step_close_handler : frame.

Lemma step_cm_handler cm d : step (rio_cm_handler cmbox cm d).
Proof. unfold rio_cm_handler. solve_step. Qed.
Hint Resolve step_cm_handler : frame.
Lemma step_ibmsg_handler fuel cm : step (rio_ibmsg_handler cmbox fuel cm).
Proof. unfold rio_ibmsg_handler, ibmsg_step. solve_step. Qed.
Lemma step_ch_receive p t : step (riocm_ch_receive p t).
Proof. unfold riocm_ch_receive. solve_step. Qed.
Lemma step_find_cm test l : keeps (@same_chans W) (find_cm test l).
Proof. induction l as [|cm l IH]; cbn [find_cm]; solve_quiet. Qed.
Hint Resolve step_ibmsg_handler step_ch_receive step_find_cm : frame.

Lemma step_ch_connect a cm r b : step (riocm_ch_connect cmbox a cm r b).
Proof. unfold riocm_ch_connect. solve_step. Qed.

(** ** New channels *)

Lemma step_new_channel s s' id c :
  let f := ks_fresh (ms_k (cs_m s)) in
  ks_fresh (ms_k (cs_m s')) = Pos.succ f -> cs_chans s' = <[f := c]> (cs_chans s) ->
  ch_idr s' = <[id := f]> (ch_idr s) -> ch_id c = id -> ch_state c = RIO_CM_IDLE ->
  ch_idr s !! id = None -> cm_step s s'.
Proof.
  intros f Hf Hc Hi Hid Hst Hfree [I1 I2]. assert (cs_chans s !! f = None) as Hnew.
  { apply eq_None_not_Some. intros H%I2. unfold f in H. lia. }
  split; split.
  - intros nr p. rewrite Hi, Hc. intros [[-> <-]|[Hne Hp]]%lookup_insert_Some.
    + exists c. rewrite lookup_insert_eq. split; [done|]. split; [done|congruence].
    + destruct (I1 nr p Hp) as (c0 & Hc0 & E). exists c0. split; [|done].
      rewrite lookup_insert_ne; [done|]. intros <-. congruence.
  - intros p. rewrite Hc, Hf. intros [c0 [[<- _]|[_ Hp]]%lookup_insert_Some]; [lia|].
    assert (p < f)%positive by (apply I2; by eexists). lia.
  - rewrite Hf. unfold f. lia.
  - intros p c1 c2 H1. rewrite Hc, lookup_insert_ne by congruence. intros H2.
    assert (c1 = c2) as -> by congruence. done.
  - intros p Hk Hu nr. rewrite Hi. intros [[_ Heq]|[_ Hp]]%lookup_insert_Some; [|by apply (Hu nr)].
    unfold known in Hk. fold f in Hk. lia.
  - intros p Hk Hp. rewrite Hc, lookup_insert_ne; [done|]. unfold known in Hk. fold f in Hk. lia.
Qed.

Lemma goes_ch_alloc ch_num s :
  0 <= chstart -> 0 <= ch_num < 2 ^ 16 ->
  goes (riocm_ch_alloc chstart ch_num) s (fun r s' =>
    match r with inl _ => True | inr p => in_state p RIO_CM_IDLE s' /\ known p s' end).
Proof.
  intros Hstart Hnum. unfold riocm_ch_alloc. apply goes_then; [solve_step|]. intros [] s0 _.
  apply goes_skip; [solve_quiet|]. intros ok s1 _ _.
  destruct ok; cbn [negb]; [|by apply goes_ret].
  destruct (if truthy ch_num then _ else _) as [start end_] eqn:Hse.
  assert (0 <= start /\ end_ <= 2 ^ 16) as [H0 H1].
  { destruct (truthy ch_num); injection Hse as <- <-; unfold RIOCM_MAX_CHNUM; lia. }
  intros Hi. set (f := ks_fresh (ms_k (cs_m s1))).
  pose proof (idr_pick_free (ch_idr s1) start end_ (ks_hw (ms_k (cs_m s1)))) as Hpick.
  unfold spec, bind, core, lift, lift_k, fresh_ptr, hw_call, gets, modify, ret. cbn.
  destruct (idr_pick (ch_idr s1) start end_ (ks_hw (ms_k (cs_m s1)))) as [id w]. cbn.
  destruct (Z.ltb_spec id 0) as [Hneg|Hpos].
  - cbn. match goal with |- cm_inv ?s' /\ _ => assert (same_chans s1 s') as Hs end.
    { split; [done|]. split; [unfold fresh_le; cbn; lia|done]. }
    by destruct (same_chans_step _ _ Hs Hi) as [Hi' T'].
  - destruct Hpick as [Hpick|[Hpick Hfree]]; [lia|]. cbn.
    match goal with |- cm_inv ?s' /\ _ => assert (cm_step s1 s') as Hs end.
    { eapply step_new_channel; try reflexivity; [|done]. cbn. apply u16_small. lia. }
    destruct (Hs Hi) as [Hi' T']. split; [done|]. split; [done|]. split.
    + intros c. cbn. rewrite lookup_insert_eq. by intros [= <-].
    + unfold known. cbn. lia.
Qed.

Lemma step_ch_create ch_num : 0 <= chstart -> 0 <= ch_num < 2 ^ 16 -> step (riocm_ch_create chstart ch_num).
Proof.
  intros H1 H2. apply step_goes. intros s. unfold riocm_ch_create.
  eapply goes_bind; [by apply goes_ch_alloc|]. intros r s1 _ _. apply goes_any. solve_step.
Qed.

(** ** Accepting *)

Lemma step_accept_wait p t : step (accept_wait p t).
Proof. unfold accept_wait. solve_step. Qed.
Lemma sc_accept_request p q : keeps (@same_chans W) (accept_request p q).
Proof. unfold accept_request. solve_quiet. Qed.
Hint Resolve step_accept_wait sc_accept_request : frame.

Lemma step_ch_accept i n t : 0 <= chstart -> step (riocm_ch_accept cmbox chstart i n t).
Proof.
  intros Hstart. apply step_goes. intros s. unfold riocm_ch_accept. apply goes_skip; [solve_quiet|].
  intros [p|] s1 _ _; [|by apply goes_ret]. apply goes_then; [solve_step|]. intros err s2 _.
  destruct (truthy err); [apply goes_any; solve_step|].
  eapply goes_bind; [apply goes_ch_alloc; [done|unfold RIOCM_CHNUM_AUTO; lia]|].
  intros [e|q] s3 _; [intros _; apply goes_any; solve_step|]. intros [Hidle Hk].
  apply goes_skip; [solve_quiet|]. intros [] s0 _ H0.
  eapply goes_bind; [apply (goes_cm_gap q RIO_CM_IDLE); by eapply in_state_same|]. intros [] s4 _ H4.
  apply goes_skip; [solve_quiet|]. intros n4 s5 _ H5. apply goes_skip; [solve_quiet|]. intros cm s6 _ H6. apply goes_skip; [solve_quiet|].
  intros c s7 _ H7. apply goes_skip; [solve_quiet|]. intros [rdev|] s8 _ H8.
  - eapply goes_bind; [apply (goes_upd_state q _ RIO_CM_IDLE RIO_CM_CONNECTED)|].
    + do 4 (eapply in_state_same; [done|]). done.
    + by intros c'.
    + apply rtc_once. constructor.
    + done.
    + intros [] s9 _ _. apply goes_any. solve_step.
  - apply goes_any. solve_step.
Qed.
Lemma step_ch_listen i : step (riocm_ch_listen i).
Proof. unfold riocm_ch_listen. solve_step. Qed.
Lemma step_ch_bind i m x : step (riocm_ch_bind i m x).
Proof.
  apply step_goes. intros s. unfold riocm_ch_bind. apply goes_skip; [solve_quiet|]. intros l s1 _ _.
  apply goes_skip; [solve_quiet|]. intros [cm|] s2 _ _; [|by apply goes_ret].
  apply goes_skip; [solve_quiet|]. intros [p|] s3 _ _; [|by apply goes_ret].
  eapply goes_bind; [apply goes_get_ch|]. intros c s4 _ [-> Hc].
  case_bool_decide as Hst; cbn [negb]; [|apply goes_any; solve_step].
  eapply goes_bind; [|intros rc s9 _ _; apply goes_any; solve_step].
  apply goes_skip; [solve_quiet|]. intros cd s5 _ H5. apply goes_skip; [solve_quiet|].
  intros mport s6 _ H6. apply goes_skip; [solve_quiet|]. intros mp s7 _ H7.
  eapply goes_bind; [apply (goes_upd_state p _ RIO_CM_IDLE RIO_CM_CHAN_BOUND)|].
  - do 3 (eapply in_state_same; [done|]). intros c' Hc'. congruence.
  - by intros c'.
  - apply rtc_once. constructor.
  - done.
  - intros [] s8 _ _. by apply (goes_ret _ _ (fun _ _ => True)).
Qed.

(** ** All channels *)

(** What may be done to a channel before it is taken out of the table. *)
Definition harmless (before : ptr -> CM W unit) : Prop :=
  forall s nr p, ch_idr s !! nr = Some p -> goes (before p) s (fun _ s' => ch_idr s' = ch_idr s).
Definition listed s (l : list (Z * ptr)) : Prop := Forall (fun e => ch_idr s !! e.1 = Some e.2) l.
Definition gone s (l : list ptr) : Prop := Forall (fun p => unlisted p s /\ known p s) l.

Lemma gone_trans s s' l : cm_trans s s' -> gone s l -> gone s' l.
Proof.
  intros T H. eapply Forall_impl; [exact H|]. intros p [Hu Hk]. split; [by apply (ct_unlisted _ _ T)|].
  destruct T. unfold known in *. lia.
Qed.

Lemma goes_take_channels test before l : harmless before ->
  forall s taken, NoDup l.*1 -> listed s l -> gone s taken ->
  goes (take_channels test before l taken) s (fun taken' s' => gone s' taken').
Proof.
  intros Hb. induction l as [|[id p] l IH]; intros s taken Hnd Hl Ht; cbn [take_channels]; [by apply goes_ret|].
  apply NoDup_cons in Hnd as [Hnotin Hnd]. apply Forall_cons in Hl as [Hp Hl]. cbn in Hp.
  eapply goes_bind; [apply goes_get_ch|]. intros c s1 _ [-> Hc].
  apply goes_inv. intros Hi. destruct (ci_idr _ Hi id p Hp) as (c0 & Hc0 & Hid & _).
  assert (c0 = c) as -> by congruence.
  destruct (test c); [|by apply IH].
  eapply goes_bind; [by apply (Hb s id p)|]. intros [] s2 T2 Hidr. cbv beta in Hidr.
  apply goes_inv. intros Hi2. rewrite <- Hidr in Hp.
  destruct (ci_idr _ Hi2 id p Hp) as (c2 & Hc2 & Hid2 & _).
  replace (ch_id c) with (ch_id c2) by congruence. pose proof (unlisted_removed _ _ _ _ Hi2 Hp Hc2) as Hun.
  pose proof (listed_known _ _ _ Hi2 Hp) as Hk.
  eapply goes_bind; [apply (goes_run _ _ tt (setf ch_idr (delete (ch_id c2) (ch_idr s2)) s2)
    (fun _ s' => s' = setf ch_idr (delete (ch_id c2) (ch_idr s2)) s2));
    [done|by eapply (step_idr_remove (ch_id c2))|done]|].
  intros [] s3 T3 ->. apply IH; [done| |].
  - eapply Forall_impl; [apply Forall_and; split; [exact Hl|]|].
    + apply Forall_forall. intros e He. exact (list_elem_of_fmap_2 fst l e He).
    + intros e [He Hin]. cbn. rewrite lookup_delete_ne; [by rewrite Hidr|]. intros Heq. apply Hnotin.
      by rewrite Hid2 in Heq; rewrite Heq.
  - constructor; [done|]. apply (gone_trans s2); [done|]. by apply (gone_trans s).
Qed.

Lemma idr_entries_listed s : NoDup (merge_sort id_le (map_to_list (ch_idr s))).*1 /\
  listed s (merge_sort id_le (map_to_list (ch_idr s))).
Proof.
  pose proof (merge_sort_Permutation id_le (map_to_list (ch_idr s))) as Hperm. split.
  - rewrite Hperm. apply NoDup_fst_map_to_list.
  - unfold listed. rewrite Hperm. apply Forall_forall. intros [id p] H. by apply elem_of_map_to_list in H.
Qed.
Lemma goes_take_all test before s : harmless before ->
  goes (l <- idr_entries ;; take_channels test before l []) s (fun taken s' => gone s' taken).
Proof.
  intros Hb. unfold idr_entries. eapply goes_bind; [apply goes_gets|]. intros l s1 _ [-> ->].
  destruct (idr_entries_listed s) as [H1 H2]. apply goes_take_channels; [done..|constructor].
Qed.
Lemma goes_close_all l s : gone s l ->
  goes (for_ l (fun p => riocm_ch_close cmbox p ;;; ret tt)) s (fun _ _ => True).
Proof.
  revert s. induction l as [|p l IH]; intros s Hg; cbn [for_]; [by apply goes_ret|].
  apply Forall_cons in Hg as [[Hu Hk] Hg]. eapply goes_bind.
  { eapply goes_bind; [by apply goes_ch_close|]. intros rc s1 _ _. by apply (goes_ret tt _ (fun _ _ => True)). }
  intros [] s1 T1 _. apply IH. by eapply gone_trans.
Qed.
Lemma step_close_channels test before : harmless before -> step (close_channels cmbox test before).
Proof.
  intros Hb. apply step_goes. intros s Hi. unfold close_channels. apply spec_assoc_r.
  revert Hi. change (goes (taken <- (l <- idr_entries ;; take_channels test before l []) ;;
    for_ taken (fun ch => riocm_ch_close cmbox ch ;;; ret tt)) s (fun _ _ => True)).
  eapply goes_bind; [by apply goes_take_all|]. intros taken s1 _ Hg. by apply goes_close_all.
Qed.
Lemma harmless_none : harmless (fun _ => ret tt).
Proof. intros s nr p _. by apply goes_ret. Qed.

(** ** The char device *)

Hint Resolve step_cm_wait step_cm_gap step_ch_connect step_ch_listen step_ch_bind step_accept_wait : frame.

Lemma sc_from_user a n : keeps (@same_chans W) (copy_from_user a n).
Proof. unfold copy_from_user. apply sc_core, fresh_same_kernel. auto with frame. Qed.
Lemma sc_to_user a b : keeps (@same_chans W) (copy_to_user a b).
Proof. unfold copy_to_user. solve_quiet. Qed.
Lemma sc_put_u32 p i v : keeps (@same_chans W) (put_u32 p i v).
Proof. unfold put_u32. solve_quiet. Qed.
Hint Resolve sc_from_user sc_to_user sc_put_u32 : frame.
Lemma sc_ep_list_size a : keeps (@same_chans W) (cm_ep_get_list_size a).
Proof. unfold cm_ep_get_list_size. solve_quiet. Qed.
Lemma sc_ep_list_loop b l n i : keeps (@same_chans W) (ep_list_loop b l n i).
Proof. revert i. induction l as [|p l IH]; intros i; cbn [ep_list_loop]; solve_quiet; auto. Qed.
Lemma sc_mport_list_loop b l e n : keeps (@same_chans W) (mport_list_loop b l e n).
Proof. revert n. induction l as [|p l IH]; intros n; cbn [mport_list_loop]; solve_quiet; auto. Qed.
Hint Resolve sc_ep_list_size sc_ep_list_loop sc_mport_list_loop : frame.
Lemma sc_ep_list a : keeps (@same_chans W) (cm_ep_get_list a).
Proof. unfold cm_ep_get_list. solve_quiet. Qed.
Lemma sc_mport_list a : keeps (@same_chans W) (cm_mport_get_list a).
Proof. unfold cm_mport_get_list. solve_quiet. Qed.
Lemma sc_memdup a n : keeps (@same_chans W) (memdup_user a n).
Proof. unfold memdup_user. solve_quiet. Qed.
Hint Resolve sc_ep_list sc_mport_list sc_memdup : frame.
Lemma sc_msg_send a : keeps (@same_chans W) (cm_chan_msg_send cmbox a).
Proof. unfold cm_chan_msg_send. solve_quiet. Qed.
Lemma sc_copy_msg a b n : keeps (@same_chans W) (copy_msg a b n).
Proof. unfold copy_msg. solve_quiet. Qed.
Hint Resolve sc_msg_send sc_copy_msg step_ch_receive : frame.
Lemma step_msg_rcv a : step (cm_chan_msg_rcv a).
Proof. unfold cm_chan_msg_rcv. solve_step. Qed.
Lemma step_chan_connect a : step (cm_chan_connect cmbox a).
Proof. unfold cm_chan_connect. solve_step. Qed.
Lemma step_chan_listen a : step (cm_chan_listen a).
Proof. unfold cm_chan_listen. solve_step. Qed.
Lemma step_chan_bind a : step (cm_chan_bind a).
Proof. unfold cm_chan_bind. solve_step. Qed.
Lemma step_chan_accept f a : 0 <= chstart -> step (cm_chan_accept cmbox chstart f a).
Proof.
  intros H. pose proof (fun i n t => step_ch_accept i n t H) as Hacc. unfold cm_chan_accept.
  solve_step; auto.
Qed.
Lemma step_chan_create f a : 0 <= chstart -> step (cm_chan_create chstart f a).
Proof.
  intros H. apply step_goes. intros s. unfold cm_chan_create.
  eapply goes_bind; [apply (goes_run _ s (user_read a 2 (ks_hw (ms_k (cs_m s)))) s
    (fun o s' => o = user_read a 2 (ks_hw (ms_k (cs_m s)))))|].
  - unfold copy_from_user, core, lift, lift_k, gets. cbn. by destruct s as [[] ? ? ? ? ?].
  - reflexivity.
  - done.
  - intros o s1 _ ->. destruct (user_read a 2 _) as [b|] eqn:Hb; [|by apply goes_ret].
    apply user_bytes in Hb. apply goes_then; [by apply step_ch_create, (le_at_range 0 2 b Hb)|].
    intros [r n] s2 _. apply goes_any. solve_step.
Qed.
Lemma step_chan_close f a : step (cm_chan_close cmbox f a).
Proof.
  apply step_goes. intros s. unfold cm_chan_close. apply goes_skip; [solve_quiet|].
  intros [b|] s1 _ _; [|by apply goes_ret].
  eapply goes_bind; [apply goes_gets|]. intros o s2 _ [-> ->].
  destruct (ch_idr s1 !! le_at 0 2 b) as [p|] eqn:Hnr; [|by apply goes_ret].
  eapply goes_bind; [apply goes_get_ch|]. intros c s3 _ [-> Hc].
  destruct (negb _); [by apply goes_ret|].
  eapply goes_bind; [by eapply goes_remove_close|]. intros [] s4 _ (Hu & Hk & _). by apply goes_ch_close.
Qed.
Lemma step_cdev_open : step (@riocm_cdev_open W).
Proof. unfold riocm_cdev_open. solve_step. Qed.
Lemma step_cdev_release f : step (riocm_cdev_release cmbox f).
Proof.
  unfold riocm_cdev_release. pose proof (fun test => step_close_channels test _ harmless_none) as H.
  solve_step; auto.
Qed.

(** ** Devices and ports *)

Lemma sc_add_dev r : keeps (@same_chans W) (riocm_add_dev r).
Proof. unfold riocm_add_dev. solve_quiet. Qed.
Lemma harmless_disconnect r : harmless (fun p => 
  d <- core (get_dev r) ;;
  when (negb (bool_decide (rd_state d = RIO_DEVICE_SHUTDOWN))) (riocm_exch p RIO_CM_DISCONNECT ;;; ret tt)).
Proof.
  intros s nr p Hp. apply goes_skip; [solve_quiet|]. intros d s1 _ H1.
  assert (ch_idr s1 = ch_idr s) as Hidr by by destruct H1.
  destruct (negb _); cbn [when]; [|by apply goes_ret].
  apply goes_inv. intros Hi. rewrite <- Hidr in Hp. destruct (ci_idr _ Hi nr p Hp) as (c & Hc & _ & Hst).
  unfold riocm_exch. rewrite <- Hidr. intros _. apply spec_bind, spec_bind.
  eapply spec_Done; [by apply run_get_ch|]. apply spec_bind. eapply spec_Done; [by apply run_upd_ch|].
  apply spec_ret, spec_ret.
  destruct (step_with_ch s1 p c (setf ch_state RIO_CM_DISCONNECT c) Hc) as [Hi' T']; try done.
  by apply rtc_once, edge_disconnect.
Qed.
Lemma step_remove_dev r : step (riocm_remove_dev cmbox r).
Proof.
  unfold riocm_remove_dev.
  pose proof (fun test => step_close_channels test _ (harmless_disconnect r)) as H. solve_step; auto.
Qed.
Lemma sc_add_mport o i m : keeps (@same_chans W) (riocm_add_mport cmbox o i m).
Proof. unfold riocm_add_mport. solve_quiet. Qed.
Lemma sc_take_cm m l : keeps (@same_chans W) (take_cm m l).
Proof. induction l as [|cm l IH]; cbn [take_cm]; solve_quiet. Qed.
Hint Resolve sc_take_cm step_ibmsg_handler : frame.
Lemma step_flush_works fuel cm : step (flush_works cmbox fuel cm).
Proof. unfold flush_works. solve_step. Qed.
Hint Resolve step_flush_works : frame.
Lemma step_remove_mport fuel m : step (riocm_remove_mport cmbox fuel m).
Proof.
  unfold riocm_remove_mport. pose proof (fun test => step_close_channels test _ harmless_none) as H.
  solve_step; auto.
Qed.
Lemma step_shutdown : step (rio_cm_shutdown cmbox).
Proof.
  apply step_goes. intros s Hi. unfold rio_cm_shutdown. apply spec_assoc_r.
  revert Hi. match goal with |- cm_inv _ -> spec _ _ ?m _ _ => change (goes m s (fun _ _ => True)) end.
  eapply goes_bind; [by apply goes_take_all, harmless_none|]. intros taken s1 _ Hg. apply goes_any. solve_step.
Qed.

(** ** Every entry point *)

(** What applications, the mailbox, the work queue, the driver core and the reboot
    notifier call. *)
Inductive cm_entry :=
| ent_open
| ent_release (filp : ptr)
| ent_ioctl (filp : ptr) (cmd : cm_ioctl) (arg : Z)
| ent_inb_msg (mport cm : ptr) (mbox slot : Z)
| ent_outb_msg (mport : ptr) (dev_id : option ptr) (mbox slot : Z)
| ent_work (fuel : nat) (cm : ptr)
| ent_add_dev (rdev : ptr)
| ent_remove_dev (rdev : ptr)
| ent_add_mport (outb inb mport : ptr)
| ent_remove_mport (fuel : nat) (mport : ptr)
| ent_shutdown.

Definition run_entry (e : cm_entry) : CM W unit :=
  match e with
  | ent_open => riocm_cdev_open ;;; ret tt
  | ent_release filp => riocm_cdev_release cmbox filp ;;; ret tt
  | ent_ioctl filp cmd arg => riocm_cdev_ioctl cmbox chstart filp cmd arg ;;; ret tt
  | ent_inb_msg mport cm mbox slot => riocm_inb_msg_event mport cm mbox slot
  | ent_outb_msg mport dev mbox slot => riocm_outb_msg_event cmbox mport dev mbox slot
  | ent_work fuel cm => rio_ibmsg_handler cmbox fuel cm
  | ent_add_dev rdev => riocm_add_dev rdev ;;; ret tt
  | ent_remove_dev rdev => riocm_remove_dev cmbox rdev
  | ent_add_mport outb inb mport => riocm_add_mport cmbox outb inb mport ;;; ret tt
  | ent_remove_mport fuel mport => riocm_remove_mport cmbox fuel mport
  | ent_shutdown => rio_cm_shutdown cmbox
  end.

Lemma step_ioctl filp cmd arg : 0 <= chstart -> step (riocm_cdev_ioctl cmbox chstart filp cmd arg).
Proof.
  intros H. destruct cmd; cbn [riocm_cdev_ioctl];
    auto using step_quiet, sc_ep_list_size, sc_ep_list, sc_mport_list, sc_msg_send, step_chan_create,
      step_chan_close, step_chan_bind, step_chan_listen, step_chan_accept, step_chan_connect, step_msg_rcv.
  apply keeps_ret. typeclasses eauto.
Qed.
Lemma step_entry e : 0 <= chstart -> step (run_entry e).
Proof.
  intros H. destruct e; cbn [run_entry];
    repeat match goal with |- keeps _ (bind _ _) =>
      apply keeps_bind; [typeclasses eauto| |intros ?; apply keeps_ret; typeclasses eauto] end;
    auto using step_quiet, step_cdev_open, step_cdev_release, step_ioctl, sc_inb_event, sc_outb_event,
      step_ibmsg_handler, sc_add_dev, step_remove_dev, sc_add_mport, step_remove_mport, step_shutdown.
Qed.

(** C13: for runs without an undefined access, whatever applications, peers and the
    hardware do in whatever order: a number in the table always names a live channel
    with that number that is not being destroyed; the state of a channel moves along
    the transitions only, so that for instance a channel that has been closed never
    carries data again; and a channel that has left the table or has been freed never
    comes back.  Other threads run as they like while one sleeps on a completion, in
    the allocations of riocm_ch_connect, riocm_ch_alloc, riocm_send_ack and
    riocm_send_close, on the semaphore in riocm_ch_accept, and between the look at the
    state and the exchange in riocm_resp_handler, with one exception: they do not
    change the state of the new channel in the accept, nor of the channel of the
    response between look and exchange (see [accept_race] and [response_race] for what
    happens if they do).  A new channel is in the table with its fields set. *)
Theorem riocm_channels_safe es s s' (Hstart : 0 <= chstart) (Hinv : cm_inv s)
    (Hrun : for_ es run_entry s = Done tt s') :
  cm_inv s' /\ cm_trans s s' /\
  forall p c c', cs_chans s !! p = Some c -> cs_chans s' !! p = Some c' ->
    ch_state c = RIO_CM_DISCONNECT \/ ch_state c = RIO_CM_DESTROYING ->
    ch_state c' = RIO_CM_DISCONNECT \/ ch_state c' = RIO_CM_DESTROYING.
Proof.
  destruct (keeps_for cm_step es run_entry (fun e => step_entry e Hstart) s tt s' Hrun Hinv) as [H1 H2].
  split; [done|]. split; [done|]. intros p c c' Hc Hc' Hst.
  destruct (ct_state _ _ H2 p c c' Hc Hc') as [_ Hr]. revert Hst.
  induction Hr as [a|a b d He _ IH]; [done|]. intros Hst. apply IH.
  destruct Hst as [->| ->]; inversion He; auto.
Qed.
End life.

#[export] Instance cmw_rely : CmRely cmworld.
Proof.
  split.
  - intros b p t. apply step_quiet. cbn. unfold wait_now. solve_quiet. apply sc_upd_ch. by destruct b.
  - intros o. apply keeps_ret. typeclasses eauto.
  - intros p a s s' Ha [= <-]. done.
  - intros idr start end_ w. cbn. remember (Z.to_nat (end_ - start)) as n eqn:Hn.
    assert (forall i, start <= i -> i + Z.of_nat n <= Z.max end_ i ->
      pick_from idr n i < 0 \/ (start <= pick_from idr n i < end_ /\ idr !! pick_from idr n i = None)) as H.
    { clear Hn. induction n as [|n IH]; intros i Hi He; cbn [pick_from]; [left; done|].
      destruct (decide (idr !! i = None)); [right; split; [lia|done]|]. apply IH; lia. }
    apply H; lia.
  - intros a n w b. cbn. destruct (user_valid a n); [|done]. intros [= <-]. apply Forall_forall.
    intros x Hx. apply list_elem_of_fmap in Hx as (i & -> & _). apply u8_range.
Qed.

Lemma riocm_channels_safe_witness :
  let user := user_store 0x100 [0; 0; 0; 0; 0; 0; 0; 0; 0; 1; 0; 0; 0; 0; 0; 0; 0; 1; 0; 0] ∅ in
  let s := cmw_state user ∅ ∅ ∅ in
  let es := [ent_ioctl 50 RIO_CM_CHAN_CREATE 0x100; ent_ioctl 50 RIO_CM_CHAN_BIND 0x108;
    ent_ioctl 50 RIO_CM_CHAN_LISTEN 0x110; ent_release 50; ent_shutdown] in
  exists s', for_ es (run_entry 1 256) s = Done tt s' /\ cm_inv s' /\ ch_idr s' = ∅.
Proof.
  intros user s es.
  destruct (for_ es (run_entry 1 256) s) as [[] s'| |] eqn:E; [|vm_compute in E; discriminate E..].
  exists s'. split; [done|]. split.
  - apply (riocm_channels_safe 1 256 es s s'); [lia| |exact E].
    split; [by intros nr p H|]. by intros p [c H].
  - apply (f_equal (fun o => match o with Done _ s => ch_idr s | _ => ∅ end)) in E. rewrite <- E.
    vm_compute. reflexivity.
Defined.

(** ** What is left out

    A thread in riocm_ch_accept has put the new channel into the table when it
    sleeps on the semaphore of the devices.  A CLOSE packet for the new channel that is
    handled meanwhile frees it, and the thread goes on with the freed object.  A response is for a channel whose
    state is looked at without its lock: an application that closes the channel at this
    moment makes it DESTROYING, and it is CONNECTED afterwards. *)
Definition race_env (gap : option ptr -> CM cmworld unit) : CmEnv cmworld := {|
  idr_pick := idr_pick; cm_wait := cm_wait; cm_gap := gap;
  msecs_to_jiffies := msecs_to_jiffies; user_read := user_read; user_write := user_write;
|}.
Definition race_node (state : rio_cm_state) (queue : list conn_req) (packet : list Z) : cmstate cmworld :=
  cmw_state (user_store 0x100 [44; 1] ∅)
    {[ 4%positive := setf ch_filp (Some 60%positive) (setf ch_accept_queue queue
         (cmw_channel 300 state (Z.of_nat (length queue)) zero_rx_ring)) ]}
    {[ 300 := 4%positive ]} {[ 50%positive := packet ]}.
Definition race_accept (gap : option ptr -> CM cmworld unit) : outcome (cmstate cmworld) ((Z + ptr) * Z) :=
  @riocm_ch_accept cmworld _ (race_env gap) 1 256 300 0 0
    (race_node RIO_CM_LISTEN [mk_conn_req 9 5 3%positive] (hdr_bytes 1 9 7 CM_CONN_CLOSE 256 5)).
Definition race_response (gap : option ptr -> CM cmworld unit) : outcome (cmstate cmworld) Z :=
  @riocm_resp_handler cmworld (race_env gap) 50%positive
    (race_node RIO_CM_CONNECT [] (hdr_bytes 1 9 7 CM_CONN_ACK 300 5)).
Definition when_named (m : CM cmworld unit) (o : option ptr) : CM cmworld unit :=
  match o with Some _ => m | None => ret tt end.

Lemma accept_race :
  match race_accept (fun _ => ret tt) with Done (inr _, id) _ => id = 256 | _ => False end /\
  race_accept (when_named (riocm_close_handler 1 50%positive ;;; ret tt)) = UB.
Proof. split; vm_compute; reflexivity. Qed.

Lemma response_race :
  exists s c, race_response (when_named (cm_chan_close 1 60%positive 0x100 ;;; ret tt)) = Done 0 s /\
    ch_idr s = ∅ /\ cs_chans s !! 4%positive = Some c /\ ch_state c = RIO_CM_CONNECTED.
Proof. vm_compute. by do 2 eexists. Qed.
