(* ===== verification/Rionet.v ===== *)
(** * The network device (rionet.c)

    Ethernet frames over a mailbox: the receive and transmit rings of socket
    buffers, the table of peers that have announced themselves by doorbells, and
    the coming and going of devices and ports.  Each function runs under the lock
    that the code takes for its critical part. *)

From S2P Require Import Prelude Regs State Access Mbox Mport Msg.

Definition RIONET_DOORBELL_JOIN : Z := 0x1000.
Definition RIONET_DOORBELL_LEAVE : Z := 0x1001.
Definition RIONET_MAILBOX : Z := 0.
Definition RIONET_TX_RING_SIZE : Z := 512.
Definition RIONET_RX_RING_SIZE : Z := 512.
Definition RIONET_MAX_NETS : Z := 8.
Definition RIONET_MSG_SIZE : Z := RIO_MAX_MSG_SIZE.
Definition ETH_HLEN : Z := 14.
Definition RIONET_MAX_MTU : Z := RIONET_MSG_SIZE - ETH_HLEN.
(** NETIF_MSG_DRV, LINK, RX_ERR and TX_ERR of netdevice.h. *)
Definition RIONET_DEFAULT_MSGLEVEL : Z := 0x0001 + 0x0004 + 0x0040 + 0x0080.

(** Results of the kernel's netdevice.h. *)
Definition NETDEV_TX_OK : Z := 0.
Definition NETDEV_TX_BUSY : Z := 0x10.
Definition NET_RX_DROP : Z := 1.

(** ** Data structures *)

(** A socket buffer as far as the driver uses it: its data, how many bytes of it
    are used and how many there is room for, and the reference count. *)
Record sk_buff := mk_sk_buff { skb_data : ptr; skb_len : Z; skb_end : Z; skb_users : Z }.
#[export] Instance eta_sk_buff : Eta sk_buff := fun r =>
  mk_sk_buff (skb_data r) (skb_len r) (skb_end r) (skb_users r).

Record rionet_private := mk_rionet_private {
  rp_mport : option ptr;
  rp_rx_skb : list (option ptr);
  rp_tx_skb : list (option ptr);
  rp_rx_slot : Z;
  rp_tx_slot : Z;
  rp_tx_cnt : Z;
  rp_ack_slot : Z;
  rp_msg_enable : Z;
  rp_open : bool;
}.
#[export] Instance eta_rionet_private : Eta rionet_private := fun r =>
  mk_rionet_private (rp_mport r) (rp_rx_skb r) (rp_tx_skb r) (rp_rx_slot r) (rp_tx_slot r)
    (rp_tx_cnt r) (rp_ack_slot r) (rp_msg_enable r) (rp_open r).

(** struct net_device with the private area: the counters of [stats], whether the
    transmit queue is stopped and the carrier on. *)
Record net_device := mk_net_device {
  nd_priv : rionet_private;
  nd_addr : list Z;
  nd_mtu : Z;
  nd_tx_packets : Z;
  nd_tx_bytes : Z;
  nd_rx_packets : Z;
  nd_rx_bytes : Z;
  nd_rx_dropped : Z;
  nd_stopped : bool;
  nd_carrier : bool;
}.
#[export] Instance eta_net_device : Eta net_device := fun r =>
  mk_net_device (nd_priv r) (nd_addr r) (nd_mtu r) (nd_tx_packets r) (nd_tx_bytes r)
    (nd_rx_packets r) (nd_rx_bytes r) (nd_rx_dropped r) (nd_stopped r) (nd_carrier r).

Record rionet_peer := mk_rionet_peer { pe_rdev : ptr; pe_res : option ptr }.

(** [rn_active] is none for a null or a freed array. *)
Record rionet_net := mk_rionet_net {
  rn_ndev : option ptr;
  rn_peers : list rionet_peer;
  rn_active : option (list (option ptr));
  rn_nact : Z;
}.
#[export] Instance eta_rionet_net : Eta rionet_net := fun r =>
  mk_rionet_net (rn_ndev r) (rn_peers r) (rn_active r) (rn_nact r).

(** The driver's state: the core and the data of buffers, socket buffers, network
    devices, doorbell resources and the table [nets]. *)
Record nstate (W : Type) := mk_nstate {
  ns_m : mstate W;
  ns_skbs : gmap ptr sk_buff;
  ns_ndevs : gmap ptr net_device;
  ns_res : gmap ptr (Z * Z);
  nets : list rionet_net;
}.
Arguments mk_nstate {W}. Arguments ns_m {W}. Arguments ns_skbs {W}. Arguments ns_ndevs {W}.
Arguments ns_res {W}. Arguments nets {W}.
#[export] Instance eta_nstate W : Eta (nstate W) := fun s =>
  mk_nstate (ns_m s) (ns_skbs s) (ns_ndevs s) (ns_res s) (nets s).
Abbreviation NM W := (M (nstate W)).
#[export] Instance rionet_msg_state W : MsgState W (nstate W) := {|
  msg_of s := ns_m s; set_msg m s := setf ns_m m s;
|}.

(** The network stack: it takes a received frame, and calls back into the driver
    when a device goes. *)
Class NetEnv (W : Type) := {
  netif_rx : list Z -> W -> Z * W;
  register_netdev : ptr -> NM W Z;
  unregister_netdev : ptr -> NM W unit;
}.

Definition is_rionet_capable (src_ops dst_ops : Z) : bool :=
  truthy (Z.land src_ops RIO_SRC_OPS_DATA_MSG) && truthy (Z.land dst_ops RIO_DST_OPS_DATA_MSG) &&
  truthy (Z.land src_ops RIO_SRC_OPS_DOORBELL) && truthy (Z.land dst_ops RIO_DST_OPS_DOORBELL).
Definition dev_rionet_capable (d : rio_dev) : bool :=
  is_rionet_capable (rd_src_ops d) (rd_dst_ops d).

(** On the six bytes of a MAC address. *)
Definition RIONET_MAC_MATCH (mac : list Z) : bool := bool_decide (take 4 mac = [0; 1; 0; 1]).
Definition RIONET_GET_DESTID (mac : list Z) : Z :=
  Z.lor (Z.shiftl (nth 4 mac 0) 8) (nth 5 mac 0).
Definition is_multicast_ether_addr (mac : list Z) : bool := Z.testbit (nth 0 mac 0) 0.

Section rionet.
Context {W : Type} `{!KernelEnv W} `{!NetEnv W}.

(** ** Access to the objects *)

Definition get_skb (p : ptr) : NM W sk_buff :=
  o <- gets (fun s => ns_skbs s !! p) ;; deref o.
Definition upd_skb (p : ptr) (g : sk_buff -> sk_buff) : NM W unit :=
  k <- get_skb p ;; modify (fun s => setf ns_skbs (<[p := g k]> (ns_skbs s)) s).
Definition get_ndev (p : ptr) : NM W net_device :=
  o <- gets (fun s => ns_ndevs s !! p) ;; deref o.
Definition upd_ndev (p : ptr) (g : net_device -> net_device) : NM W unit :=
  d <- get_ndev p ;; modify (fun s => setf ns_ndevs (<[p := g d]> (ns_ndevs s)) s).
(** [netdev_priv] *)
Definition get_priv (p : ptr) : NM W rionet_private := d <- get_ndev p ;; ret (nd_priv d).
Definition upd_priv (p : ptr) (g : rionet_private -> rionet_private) : NM W unit :=
  upd_ndev p (fun d => setf nd_priv (g (nd_priv d)) d).
Definition rnet_mport (rnet : rionet_private) : NM W (rio_mport W) :=
  p <- deref (rp_mport rnet) ;; core (get_mport p).

Definition get_nets (i : Z) : NM W rionet_net := l <- gets nets ;; slot_get l i.
Definition upd_nets (i : Z) (g : rionet_net -> rionet_net) : NM W unit :=
  n <- get_nets i ;; modify (fun s => setf nets (<[Z.to_nat i := g n]> (nets s)) s).
(** [nets[i].active[id]] *)
Definition get_active (i id : Z) : NM W (option ptr) :=
  n <- get_nets i ;; a <- deref (rn_active n) ;; slot_get a id.
Definition set_active (i id : Z) (v : option ptr) : NM W unit :=
  n <- get_nets i ;; a <- deref (rn_active n) ;; a <- slot_set a id v ;;
  upd_nets i (setf rn_active (Some a)).

(** ** Socket buffers *)

(** [dev_alloc_skb] *)
Definition dev_alloc_skb (size : Z) : NM W (option ptr) :=
  data <- lift (kmalloc_buf size) ;;
  match data with
  | None => ret None
  | Some data =>
      p <- core fresh_ptr ;;
      modify (fun s => setf ns_skbs (<[p := mk_sk_buff data 0 size 1]> (ns_skbs s)) s) ;;;
      ret (Some p)
  end.
(** Dropping a reference; the last one frees the buffer with its data. *)
Definition kfree_skb (p : option ptr) : NM W unit :=
  match p with
  | None => ret tt
  | Some p =>
      k <- get_skb p ;;
      if skb_users k =? 1 then
        lift (kfree_buf (skb_data k)) ;;;
        modify (fun s => setf ns_skbs (delete p (ns_skbs s)) s)
      else upd_skb p (fun k => setf skb_users (skb_users k - 1) k)
  end.
(** [skb_put] of what has been received: too much is a bug check. *)
Definition skb_put (p : ptr) (n : Z) : NM W unit :=
  k <- get_skb p ;;
  if skb_len k + n <=? skb_end k then upd_skb p (setf skb_len (skb_len k + n)) else ub.
(** Handing a frame to the network stack, which owns and frees it from then on. *)
Definition net_rx (p : ptr) : NM W Z :=
  k <- get_skb p ;;
  frame <- lift (read_at (skb_data k) 0 (Z.to_nat (skb_len k))) ;;
  error <- core (hw_call (netif_rx frame)) ;;
  kfree_skb (Some p) ;;;
  ret error.

(** ** Receiving *)

(** One round over slot [i], which ends the loop with the slot reached. *)
Definition rx_clean_step (ndev : ptr) (i : Z) : NM W (Z + Z) :=
  rnet <- get_priv ndev ;;
  let next :=
    let i' := Z.rem (i + 1) RIONET_RX_RING_SIZE in
    (ret (if i' =? rp_rx_slot rnet then inr i' else inl i') : NM W (Z + Z)) in
  skb <- slot_get (rp_rx_skb rnet) i ;;
  match skb with
  | None => next
  | Some skb =>
      mport <- deref (rp_mport rnet) ;;
      m <- lift (rio_get_inb_message mport RIONET_MAILBOX) ;;
      match m with
      | None => ret (inr i)
      | Some (data, msg_sz) =>
          upd_skb skb (setf skb_data data) ;;;
          skb_put skb msg_sz ;;;
          error <- net_rx skb ;;
          upd_ndev ndev (fun d =>
            if error =? NET_RX_DROP then setf nd_rx_dropped (u64 (nd_rx_dropped d + 1)) d
            else setf nd_rx_packets (u64 (nd_rx_packets d + 1))
                   (setf nd_rx_bytes (u64 (nd_rx_bytes d + msg_sz)) d)) ;;;
          next
      end
  end.

(** Enough rounds for a ring. *)
Definition RING_FUEL : nat := 513.

Definition rionet_rx_clean (ndev : ptr) : NM W Z :=
  rnet <- get_priv ndev ;;
  loop RING_FUEL (rx_clean_step ndev) (rp_rx_slot rnet).

Definition rx_fill_step (ndev : ptr) (end_ i : Z) : NM W (Z + Z) :=
  p <- dev_alloc_skb RIO_MAX_MSG_SIZE ;;
  rnet <- get_priv ndev ;;
  rx <- slot_set (rp_rx_skb rnet) i p ;;
  upd_priv ndev (setf rp_rx_skb rx) ;;;
  match p with
  | None => ret (inr i)
  | Some p =>
      k <- get_skb p ;;
      mport <- deref (rp_mport rnet) ;;
      lift (rio_add_inb_buffer mport RIONET_MAILBOX (skb_data k)) ;;;
      let i' := Z.rem (i + 1) RIONET_RX_RING_SIZE in
      ret (if i' =? end_ then inr i' else inl i')
  end.

Definition rionet_rx_fill (ndev : ptr) (end_ : Z) : NM W unit :=
  rnet <- get_priv ndev ;;
  i <- loop RING_FUEL (rx_fill_step ndev end_) (rp_rx_slot rnet) ;;
  upd_priv ndev (setf rp_rx_slot i).

Definition rionet_inb_msg_event (mport ndev : ptr) (mbox slot : Z) : NM W unit :=
  n <- rionet_rx_clean ndev ;;
  rnet <- get_priv ndev ;;
  when (negb (n =? rp_rx_slot rnet)) (rionet_rx_fill ndev n).

(** ** Transmitting *)

(** The result of the mailbox is not looked at. *)
Definition rionet_queue_tx_msg (skb ndev rdev : ptr) : NM W Z :=
  rnet <- get_priv ndev ;;
  mport <- deref (rp_mport rnet) ;;
  k <- get_skb skb ;;
  lift (rio_add_outb_message mport rdev 0 (skb_data k) (skb_len k)) ;;;
  tx <- slot_set (rp_tx_skb rnet) (rp_tx_slot rnet) (Some skb) ;;
  upd_ndev ndev (fun d =>
    setf nd_tx_packets (u64 (nd_tx_packets d + 1))
    (setf nd_tx_bytes (u64 (nd_tx_bytes d + skb_len k)) d)) ;;;
  let cnt := rp_tx_cnt rnet + 1 in
  when (cnt =? RIONET_TX_RING_SIZE) (upd_ndev ndev (setf nd_stopped true)) ;;;
  upd_priv ndev (fun r =>
    setf rp_tx_skb tx (setf rp_tx_cnt cnt
    (setf rp_tx_slot (Z.land (rp_tx_slot r + 1) (RIONET_TX_RING_SIZE - 1)) r))) ;;;
  ret 0.

(** The loop over the active peers: each one after the first takes a reference of
    the frame.  Returns the count. *)
Fixpoint xmit_active (skb ndev : ptr) (netid : Z) (l : list Z) (count : Z) : NM W Z :=
  match l with
  | [] => ret count
  | i :: l' =>
      a <- get_active netid i ;;
      match a with
      | None => xmit_active skb ndev netid l' count
      | Some rdev =>
          rionet_queue_tx_msg skb ndev rdev ;;;
          when (truthy count) (upd_skb skb (fun k => setf skb_users (skb_users k + 1) k)) ;;;
          xmit_active skb ndev netid l' (count + 1)
      end
  end.

(** A frame to one peer: without a peer it counts as sent. *)
Definition xmit_unicast (skb ndev : ptr) (netid destid : Z) : NM W unit :=
  a <- get_active netid destid ;;
  match a with
  | Some rdev => rionet_queue_tx_msg skb ndev rdev ;;; ret tt
  | None =>
      kfree_skb (Some skb) ;;;
      upd_ndev ndev (fun d => setf nd_tx_packets (u64 (nd_tx_packets d + 1)) d) ;;;
      k <- get_skb skb ;;
      upd_ndev ndev (fun d => setf nd_tx_bytes (u64 (nd_tx_bytes d + skb_len k)) d)
  end.

(** On a kernel from 4.7 on: the lock is waited for. *)
Definition rionet_start_xmit (skb ndev : ptr) : NM W Z :=
  rnet <- get_priv ndev ;;
  k <- get_skb skb ;;
  h_dest <- lift (read_at (skb_data k) 0 6) ;;
  mp <- rnet_mport rnet ;;
  add_num <- (if is_multicast_ether_addr h_dest
              then n <- get_nets (mp_id mp) ;; ret (rn_nact n) else ret 1) ;;
  if RIONET_TX_RING_SIZE <? rp_tx_cnt rnet + add_num then
    upd_ndev ndev (setf nd_stopped true) ;;;
    ret NETDEV_TX_BUSY
  else if is_multicast_ether_addr h_dest then
    count <- xmit_active skb ndev (mp_id mp) (zrange 0 (RIO_MAX_ROUTE_ENTRIES (mp_sys_size mp))) 0 ;;
    when (count =? 0) (kfree_skb (Some skb)) ;;;
    ret NETDEV_TX_OK
  else
    when (RIONET_MAC_MATCH h_dest) (xmit_unicast skb ndev (mp_id mp) (RIONET_GET_DESTID h_dest)) ;;;
    ret NETDEV_TX_OK.

Definition outb_step (ndev : ptr) (slot : Z) (_ : unit) : NM W (unit + unit) :=
  rnet <- get_priv ndev ;;
  if truthy (rp_tx_cnt rnet) && negb (rp_ack_slot rnet =? slot) then
    skb <- slot_get (rp_tx_skb rnet) (rp_ack_slot rnet) ;;
    kfree_skb skb ;;;
    tx <- slot_set (rp_tx_skb rnet) (rp_ack_slot rnet) None ;;
    upd_priv ndev (fun r =>
      setf rp_tx_skb tx
      (setf rp_ack_slot (Z.land (rp_ack_slot r + 1) (RIONET_TX_RING_SIZE - 1))
      (setf rp_tx_cnt (rp_tx_cnt r - 1) r))) ;;;
    ret (inl tt)
  else ret (inr tt).

Definition rionet_outb_msg_event (mport ndev : ptr) (mbox slot : Z) : NM W unit :=
  loop RING_FUEL (outb_step ndev slot) tt ;;;
  rnet <- get_priv ndev ;;
  when (rp_tx_cnt rnet <? RIONET_TX_RING_SIZE) (upd_ndev ndev (setf nd_stopped false)).

(** ** Peers joining and leaving *)

Definition rionet_dbell_event (mport ndev : ptr) (sid tid info : Z) : NM W unit :=
  rnet <- get_priv ndev ;;
  mp <- rnet_mport rnet ;;
  let netid := mp_id mp in
  if info =? RIONET_DOORBELL_JOIN then
    a <- get_active netid sid ;;
    match a with
    | Some _ => ret tt
    | None =>
        n <- get_nets netid ;;
        for_ (rn_peers n) (fun peer =>
          d <- core (get_dev (pe_rdev peer)) ;;
          when (rd_destid d =? sid)
            (set_active netid sid (Some (pe_rdev peer)) ;;;
             upd_nets netid (fun n => setf rn_nact (s32 (rn_nact n + 1)) n))) ;;;
        core (rio_mport_send_doorbell mport sid RIONET_DOORBELL_JOIN) ;;;
        ret tt
    end
  else if info =? RIONET_DOORBELL_LEAVE then
    a <- get_active netid sid ;;
    when (bool_decide (is_Some a))
      (set_active netid sid None ;;;
       upd_nets netid (fun n => setf rn_nact (s32 (rn_nact n - 1)) n))
  else ret tt.

(** ** Opening and closing

    The addresses of the three event callbacks are arguments. *)

Definition rionet_open (dbell_event inb_event outb_event : ptr) (ndev : ptr) : NM W Z :=
  rnet <- get_priv ndev ;;
  mp <- rnet_mport rnet ;;
  mport <- deref (rp_mport rnet) ;;
  let netid := mp_id mp in
  rc <- core (rio_request_inb_dbell mport ndev RIONET_DOORBELL_JOIN RIONET_DOORBELL_LEAVE dbell_event) ;;
  if rc <? 0 then ret rc
  else
    rc <- core (rio_request_inb_mbox mport ndev RIONET_MAILBOX RIONET_RX_RING_SIZE inb_event) ;;
    if rc <? 0 then ret rc
    else
      rc <- core (rio_request_outb_mbox mport ndev RIONET_MAILBOX RIONET_TX_RING_SIZE outb_event) ;;
      if rc <? 0 then ret rc
      else
        for_ (zrange 0 RIONET_RX_RING_SIZE) (fun i =>
          rnet <- get_priv ndev ;;
          rx <- slot_set (rp_rx_skb rnet) i None ;;
          upd_priv ndev (setf rp_rx_skb rx)) ;;;
        upd_priv ndev (setf rp_rx_slot 0) ;;;
        rionet_rx_fill ndev 0 ;;;
        upd_priv ndev (fun r => setf rp_tx_slot 0 (setf rp_tx_cnt 0 (setf rp_ack_slot 0 r))) ;;;
        upd_ndev ndev (fun d => setf nd_carrier true (setf nd_stopped false d)) ;;;
        n <- get_nets netid ;;
        for_ (rn_peers n) (fun peer =>
          core (rio_send_doorbell (pe_rdev peer) RIONET_DOORBELL_JOIN) ;;; ret tt) ;;;
        upd_priv ndev (setf rp_open true) ;;;
        ret rc.

(** Telling a peer that is active that this device goes. *)
Definition leave_peer (netid : Z) (peer : rionet_peer) : NM W unit :=
  d <- core (get_dev (pe_rdev peer)) ;;
  a <- get_active netid (rd_destid d) ;;
  when (bool_decide (is_Some a))
    (core (rio_send_doorbell (pe_rdev peer) RIONET_DOORBELL_LEAVE) ;;;
     set_active netid (rd_destid d) None).

(** Releasing the doorbells of a peer: it uses and frees the resource. *)
Definition release_peer_res (peer : rionet_peer) : NM W unit :=
  match pe_res peer with
  | None => ret tt
  | Some res =>
      o <- gets (fun s => ns_res s !! res) ;;
      r <- deref o ;;
      core (rio_release_outb_dbell (pe_rdev peer) r) ;;;
      modify (fun s => setf ns_res (delete res (ns_res s)) s)
  end.

Definition rionet_close (ndev : ptr) : NM W Z :=
  rnet <- get_priv ndev ;;
  mp <- rnet_mport rnet ;;
  mport <- deref (rp_mport rnet) ;;
  let netid := mp_id mp in
  upd_ndev ndev (fun d => setf nd_carrier false (setf nd_stopped true d)) ;;;
  upd_priv ndev (setf rp_open false) ;;;
  for_ (zrange 0 RIONET_RX_RING_SIZE) (fun i =>
    rnet <- get_priv ndev ;;
    skb <- slot_get (rp_rx_skb rnet) i ;;
    kfree_skb skb) ;;;
  n <- get_nets netid ;;
  for_ (rn_peers n) (fun peer => leave_peer netid peer ;;; release_peer_res peer) ;;;
  core (rio_release_inb_dbell mport RIONET_DOORBELL_JOIN RIONET_DOORBELL_LEAVE) ;;;
  core (rio_release_inb_mbox mport RIONET_MAILBOX) ;;;
  core (rio_release_outb_mbox mport RIONET_MAILBOX) ;;;
  ret 0.

(** ** Devices coming and going *)

(** The first peer of a device, and the list without it. *)
Fixpoint take_peer (rdev : ptr) (l : list rionet_peer) : option (rionet_peer * list rionet_peer) :=
  match l with
  | [] => None
  | p :: l' =>
      if bool_decide (pe_rdev p = rdev) then Some (p, l')
      else match take_peer rdev l' with
           | Some (x, l'') => Some (x, p :: l'')
           | None => None
           end
  end.

(** The id of the port that enumerates the net of a device. *)
Definition dev_netid (d : rio_dev) : NM W Z :=
  hport <- core (dev_hport d) ;; mp <- core (get_mport hport) ;; ret (mp_id mp).

Definition rionet_remove_dev (rdev : ptr) : NM W unit :=
  d <- core (get_dev rdev) ;;
  netid <- dev_netid d ;;
  if negb (dev_rionet_capable d) then ret tt
  else
    n <- get_nets netid ;;
    match take_peer rdev (rn_peers n) with
    | None => ret tt
    | Some (peer, peers) =>
        upd_nets netid (setf rn_peers peers) ;;;
        a <- get_active netid (rd_destid d) ;;
        when (bool_decide (is_Some a))
          (when (negb (bool_decide (rd_state d = RIO_DEVICE_GONE)) &&
                 negb (bool_decide (rd_state d = RIO_DEVICE_INITIALIZING)))
             (core (rio_send_doorbell rdev RIONET_DOORBELL_LEAVE) ;;; ret tt) ;;;
           set_active netid (rd_destid d) None ;;;
           upd_nets netid (fun n => setf rn_nact (s32 (rn_nact n - 1)) n)) ;;;
        release_peer_res peer ;;;
        core kfree
    end.

Definition rionet_get_msglevel (ndev : ptr) : NM W Z := rnet <- get_priv ndev ;; ret (rp_msg_enable rnet).
Definition rionet_set_msglevel (ndev : ptr) (value : Z) : NM W unit :=
  upd_priv ndev (setf rp_msg_enable value).

Definition rionet_change_mtu (ndev : ptr) (new_mtu : Z) : NM W Z :=
  if (new_mtu <? 68) || (RIONET_MAX_MTU <? new_mtu) then ret (- EINVAL)
  else upd_ndev ndev (setf nd_mtu new_mtu) ;;; ret 0.

(** The pages of the active table are counted as one allocation; when they are
    freed the table holds a dangling pointer. *)
Definition rionet_setup_netdev (mport ndev : ptr) : NM W Z :=
  mp <- core (get_mport mport) ;;
  ok <- core kzalloc ;;
  let active := if ok : bool
    then Some (replicate (Z.to_nat (RIO_MAX_ROUTE_ENTRIES (mp_sys_size mp))) None) else None in
  upd_nets (mp_id mp) (setf rn_active active) ;;;
  if negb ok then ret (- ENOMEM)
  else
    upd_priv ndev (fun r => setf rp_open false (setf rp_mport (Some mport) r)) ;;;
    device_id <- core (rio_local_get_device_id mport) ;;
    upd_ndev ndev (fun d =>
      setf nd_mtu RIONET_MAX_MTU
      (setf nd_addr [0; 1; 0; 1; Z.shiftr device_id 8; Z.land device_id 0xff] d)) ;;;
    upd_priv ndev (setf rp_msg_enable RIONET_DEFAULT_MSGLEVEL) ;;;
    rc <- register_netdev ndev ;;
    if truthy rc then
      core kfree ;;;
      upd_nets (mp_id mp) (setf rn_active None) ;;;
      ret rc
    else ret rc.

(** [alloc_etherdev]: a zeroed private area. *)
Definition zero_net_device : net_device :=
  mk_net_device (mk_rionet_private None (replicate 512 None) (replicate 512 None) 0 0 0 0 0 false)
    [0; 0; 0; 0; 0; 0] 1500 0 0 0 0 0 false true.
Definition alloc_etherdev : NM W (option ptr) :=
  ok <- core kzalloc ;;
  if ok : bool then
    p <- core fresh_ptr ;;
    modify (fun s => setf ns_ndevs (<[p := zero_net_device]> (ns_ndevs s)) s) ;;;
    ret (Some p)
  else ret None.
Definition free_netdev (p : ptr) : NM W unit :=
  get_ndev p ;;; modify (fun s => setf ns_ndevs (delete p (ns_ndevs s)) s) ;;; core kfree.

(** The network device of the net, made when there is none yet. *)
Definition add_netdev (hport : ptr) (netid : Z) : NM W Z :=
  n <- get_nets netid ;;
  match rn_ndev n with
  | Some _ => ret 0
  | None =>
      v1 <- core uninit ;;
      let! (_, lsrc_ops) := core (rio_local_read_config_32 hport RIO_SRC_OPS_CAR v1) ;;
      v2 <- core uninit ;;
      let! (_, ldst_ops) := core (rio_local_read_config_32 hport RIO_DST_OPS_CAR v2) ;;
      if negb (is_rionet_capable lsrc_ops ldst_ops) then ret (- ENODEV)
      else
        p <- alloc_etherdev ;;
        match p with
        | None => ret (- ENOMEM)
        | Some ndev =>
            rc <- rionet_setup_netdev hport ndev ;;
            if truthy rc then free_netdev ndev ;;; ret rc
            else
              upd_nets netid (fun n =>
                setf rn_ndev (Some ndev) (setf rn_nact 0 (setf rn_peers [] n))) ;;;
              ret 0
        end
  end.

Definition rionet_add_dev (rdev : ptr) : NM W Z :=
  d <- core (get_dev rdev) ;;
  netid <- dev_netid d ;;
  if RIONET_MAX_NETS <=? netid then ret (- ENODEV)
  else
    hport <- core (dev_hport d) ;;
    rc <- add_netdev hport netid ;;
    if truthy rc then ret rc
    else if negb (dev_rionet_capable d) then ret 0
    else
      n <- get_nets netid ;;
      ndev <- deref (rn_ndev n) ;;
      ok <- core kzalloc ;;
      if negb ok then ret (- ENOMEM)
      else
        res <- core (rio_request_outb_dbell rdev RIONET_DOORBELL_JOIN RIONET_DOORBELL_LEAVE) ;;
        match res with
        | None => core kfree ;;; ret (- ENOMEM)
        | Some r =>
            p <- core fresh_ptr ;;
            modify (fun s => setf ns_res (<[p := r]> (ns_res s)) s) ;;;
            upd_nets netid (fun n =>
              setf rn_peers (rn_peers n ++ [mk_rionet_peer rdev (Some p)]) n) ;;;
            rnet <- get_priv ndev ;;
            when (rp_open rnet)
              (core (rio_send_doorbell rdev RIONET_DOORBELL_JOIN) ;;; ret tt) ;;;
            ret 0
        end.

Definition rionet_shutdown : NM W unit :=
  for_ (zrange 0 RIONET_MAX_NETS) (fun i =>
    n <- get_nets i ;;
    when (bool_decide (is_Some (rn_ndev n))) (for_ (rn_peers n) (leave_peer i))).

Definition rionet_remove_mport (mport : ptr) : NM W unit :=
  mp <- core (get_mport mport) ;;
  let id := mp_id mp in
  n <- get_nets id ;;
  match rn_ndev n with
  | None => ret tt
  | Some ndev =>
      upd_ndev ndev (setf nd_stopped true) ;;;
      unregister_netdev ndev ;;;
      core kfree ;;;
      upd_nets id (setf rn_active None) ;;;
      free_netdev ndev ;;;
      upd_nets id (setf rn_ndev None)
  end.
End rionet.

(** ** Loading and unloading *)

Inductive rionet_registration := RIONET_REBOOT_NOTIFIER | RIONET_MPORT_INTERFACE | RIONET_DEV_INTERFACE.

Class RionetRegister (W : Type) := {
  rionet_register : rionet_registration -> NM W Z;
  rionet_unregister : rionet_registration -> NM W unit;
}.

Section load.
Context {W : Type} `{!RionetRegister W}.

Definition rionet_init : NM W Z :=
  rc <- rionet_register RIONET_REBOOT_NOTIFIER ;;
  if truthy rc then ret rc
  else
    rc <- rionet_register RIONET_MPORT_INTERFACE ;;
    if truthy rc then ret rc else rionet_register RIONET_DEV_INTERFACE.

Definition rionet_exit : NM W unit :=
  rionet_unregister RIONET_REBOOT_NOTIFIER ;;;
  rionet_unregister RIONET_DEV_INTERFACE ;;;
  rionet_unregister RIONET_MPORT_INTERFACE.
End load.
