(* ===== verification/RionetTx.v ===== *)
(** * The transmit ring of the network device

    A frame to several peers is one socket buffer in several slots of the ring,
    with a reference for each: the acknowledgements of the hardware free it exactly
    when the last slot is done. *)

From S2P Require Import Prelude Regs State Access Mbox Mport Msg Rionet RioCm RioCmOps RioCmBench RioCmRing.

(** ** The window of slots in flight *)

(** The slots from the acknowledged one on hold the frames [q]. *)
Record tx_holds (r : rionet_private) (q : list ptr) : Prop := {
  th_len : length (rp_tx_skb r) = 512%nat;
  th_cnt : rp_tx_cnt r = Z.of_nat (length q);
  th_max : (length q <= 512)%nat;
  th_ack : 0 <= rp_ack_slot r < 512;
  th_slot : rp_tx_slot r = (rp_ack_slot r + rp_tx_cnt r) mod 512;
  th_slots : forall i x, q !! i = Some x ->
    rp_tx_skb r !! Z.to_nat ((rp_ack_slot r + Z.of_nat i) mod 512) = Some (Some x);
}.

Lemma next_tx_slot i : Z.land (i + 1) (RIONET_TX_RING_SIZE - 1) = (i + 1) mod 512.
Proof. apply (land_mask (i + 1) 9). lia. Qed.
Lemma tx_pos_range t i : 0 <= (t + i) mod 512 < 512.
Proof. apply Z.mod_pos_bound. lia. Qed.
Lemma tx_pos_inj t i j : 0 <= i < 512 -> 0 <= j < 512 -> (t + i) mod 512 = (t + j) mod 512 -> i = j.
Proof. intros Hi Hj H. Z.div_mod_to_equations. lia. Qed.

(** The private data after a frame has been queued, and after one has been
    acknowledged. *)
Definition tx_pushed (skb : ptr) (r : rionet_private) : rionet_private :=
  setf rp_tx_skb (<[Z.to_nat (rp_tx_slot r) := Some skb]> (rp_tx_skb r))
  (setf rp_tx_cnt (rp_tx_cnt r + 1)
  (setf rp_tx_slot (Z.land (rp_tx_slot r + 1) (RIONET_TX_RING_SIZE - 1)) r)).
Definition tx_popped (r : rionet_private) : rionet_private :=
  setf rp_tx_skb (<[Z.to_nat (rp_ack_slot r) := None]> (rp_tx_skb r))
  (setf rp_ack_slot (Z.land (rp_ack_slot r + 1) (RIONET_TX_RING_SIZE - 1))
  (setf rp_tx_cnt (rp_tx_cnt r - 1) r)).

Lemma tx_push_holds r q skb :
  tx_holds r q -> (length q < 512)%nat -> tx_holds (tx_pushed skb r) (q ++ [skb]).
Proof.
  intros [H1 H2 H3 H4 H5 H6] Hq. pose proof (tx_pos_range (rp_ack_slot r) (rp_tx_cnt r)) as Hp.
  split; unfold tx_pushed; cbn [rp_tx_skb rp_tx_cnt rp_tx_slot rp_ack_slot setf updf].
  - by rewrite length_insert.
  - rewrite length_app, H2. cbn. lia.
  - rewrite length_app. cbn. lia.
  - done.
  - rewrite next_tx_slot, H5, Z.add_mod_idemp_l by lia. f_equal. lia.
  - intros i x Hx. apply lookup_app_Some in Hx as [Hx|[Hi Hx]].
    + pose proof (lookup_lt_Some _ _ _ Hx). rewrite list_lookup_insert_ne; [by apply H6|].
      intros E. apply Z2Nat.inj in E; [|rewrite H5; lia|apply tx_pos_range].
      rewrite H5, H2 in E. apply tx_pos_inj in E; lia.
    + assert (i = length q) as -> by (apply lookup_lt_Some in Hx; cbn in Hx; lia).
      rewrite Nat.sub_diag in Hx. cbn in Hx. injection Hx as <-. rewrite <- H2, <- H5.
      apply list_lookup_insert_eq. rewrite H1, H5. lia.
Qed.

Lemma tx_pop_holds r x q : tx_holds r (x :: q) -> tx_holds (tx_popped r) q.
Proof.
  intros [H1 H2 H3 H4 H5 H6]. cbn [length] in *.
  split; unfold tx_popped; cbn [rp_tx_skb rp_tx_cnt rp_tx_slot rp_ack_slot setf updf].
  - by rewrite length_insert.
  - lia.
  - lia.
  - rewrite next_tx_slot. apply Z.mod_pos_bound. lia.
  - rewrite H5, next_tx_slot, Z.add_mod_idemp_l by lia. f_equal. lia.
  - intros i y Hy. pose proof (lookup_lt_Some _ _ _ Hy).
    rewrite next_tx_slot, Z.add_mod_idemp_l by lia.
    replace (rp_ack_slot r + 1 + Z.of_nat i) with (rp_ack_slot r + Z.of_nat (S i)) by lia.
    rewrite list_lookup_insert_ne; [by apply H6|].
    intros E. apply Z2Nat.inj in E; [|lia|apply tx_pos_range].
    rewrite <- (Z.mod_small (rp_ack_slot r) 512), <- (Z.add_0_r (rp_ack_slot r)) in E at 1 by lia.
    apply tx_pos_inj in E; lia.
Qed.

(** ** Runs on the driver's state *)

Section runs.
Context {W : Type} `{!KernelEnv W} `{!NetEnv W}.
Implicit Types s : nstate W.

Definition with_ndev (p : ptr) (d : net_device) s : nstate W :=
  setf ns_ndevs (<[p := d]> (ns_ndevs s)) s.
Definition with_skb (p : ptr) (k : sk_buff) s : nstate W :=
  setf ns_skbs (<[p := k]> (ns_skbs s)) s.
(** The state after a socket buffer and its data have been freed. *)
Definition without_skb (p : ptr) (k : sk_buff) s : nstate W :=
  setf ns_skbs (delete p (ns_skbs s))
  (setf ns_m (mk_mstate (with_allocs (ks_allocs (ms_k (ns_m s)) - 1) (ms_k (ns_m s)))
    (delete (skb_data k) (ms_bufs (ns_m s)))) s).
Definition with_nhw (w : W) s : nstate W :=
  setf ns_m (setf ms_k (with_hw w (ms_k (ns_m s))) (ns_m s)) s.

Lemma run_get_skb s p k : ns_skbs s !! p = Some k -> get_skb p s = Done k s.
Proof. intros H. unfold get_skb, gets, bind. by rewrite H. Qed.
Lemma run_get_ndev s p d : ns_ndevs s !! p = Some d -> get_ndev p s = Done d s.
Proof. intros H. unfold get_ndev, gets, bind. by rewrite H. Qed.
Lemma run_get_priv s p d : ns_ndevs s !! p = Some d -> get_priv p s = Done (nd_priv d) s.
Proof. intros H. unfold get_priv. by run (run_get_ndev _ _ _ H). Qed.
Lemma run_upd_skb s p k g : ns_skbs s !! p = Some k -> upd_skb p g s = Done tt (with_skb p (g k) s).
Proof. intros H. unfold upd_skb. by run (run_get_skb _ _ _ H). Qed.
Lemma run_upd_ndev s p d g : ns_ndevs s !! p = Some d -> upd_ndev p g s = Done tt (with_ndev p (g d) s).
Proof. intros H. unfold upd_ndev. by run (run_get_ndev _ _ _ H). Qed.
Lemma run_upd_priv s p d g : ns_ndevs s !! p = Some d ->
  upd_priv p g s = Done tt (with_ndev p (setf nd_priv (g (nd_priv d)) d) s).
Proof. intros H. exact (run_upd_ndev s p d (fun d => setf nd_priv (g (nd_priv d)) d) H). Qed.

Lemma with_ndev_lookup p d s : ns_ndevs (with_ndev p d s) !! p = Some d.
Proof. apply lookup_insert_eq. Qed.
Lemma with_ndev_twice p d d' s : with_ndev p d (with_ndev p d' s) = with_ndev p d s.
Proof. unfold with_ndev. cbn. by rewrite insert_insert_eq. Qed.
Lemma with_ndev_same p d s : ns_ndevs s !! p = Some d -> with_ndev p d s = s.
Proof. intros H. unfold with_ndev. rewrite insert_id by done. by destruct s. Qed.
Lemma with_skb_lookup p k s : ns_skbs (with_skb p k s) !! p = Some k.
Proof. apply lookup_insert_eq. Qed.
Lemma with_skb_twice p k k' s : with_skb p k (with_skb p k' s) = with_skb p k s.
Proof. unfold with_skb. cbn. by rewrite insert_insert_eq. Qed.
Lemma with_skb_same p k s : ns_skbs s !! p = Some k -> with_skb p k s = s.
Proof. intros H. unfold with_skb. rewrite insert_id by done. by destruct s. Qed.

Lemma run_get_nets s i n : 0 <= i -> nets s !! Z.to_nat i = Some n -> get_nets i s = Done n s.
Proof. intros Hi H. unfold get_nets, gets, bind. by rewrite (run_slot_get s (nets s) i n Hi H). Qed.
Lemma run_get_active s i n a id v :
  0 <= i -> nets s !! Z.to_nat i = Some n -> rn_active n = Some a -> 0 <= id ->
  a !! Z.to_nat id = Some v -> get_active i id s = Done v s.
Proof.
  intros Hi Hn Ha Hid Hv. unfold get_active. run (run_get_nets _ _ _ Hi Hn). rewrite Ha.
  cbn [deref]. rewrite bind_ret. by apply run_slot_get.
Qed.

Lemma run_read_nskb s p b off n :
  ms_bufs (ns_m s) !! p = Some b -> (off + n <= length b)%nat ->
  lift (read_at p off n) s = Done (get_bytes off n b) s.
Proof.
  intros H Hn. unfold lift, read_at, get_buf, gets, bind. cbn. rewrite H. cbn.
  destruct (Nat.leb_spec (off + n) (length b)); [|lia]. by destruct s.
Qed.
Lemma run_rnet_mport s r p mp :
  rp_mport r = Some p -> ks_mports (ms_k (ns_m s)) !! p = Some mp -> rnet_mport r s = Done mp s.
Proof.
  intros H Hp. unfold rnet_mport. rewrite H. cbn [deref]. rewrite bind_ret. unfold core, lift, lift_k.
  cbn [msg_of rionet_msg_state set_msg]. rewrite (run_get_mport _ _ _ Hp). by destruct s as [[] ].
Qed.

(** Dropping a reference. *)
Definition dropped (p : ptr) (k : sk_buff) s : nstate W :=
  if skb_users k =? 1 then without_skb p k s
  else with_skb p (setf skb_users (skb_users k - 1) k) s.
Lemma run_kfree_skb s p k b :
  ns_skbs s !! p = Some k -> ms_bufs (ns_m s) !! skb_data k = Some b ->
  kfree_skb (Some p) s = Done tt (dropped p k s).
Proof.
  intros Hk Hb. unfold kfree_skb, dropped. run (run_get_skb _ _ _ Hk). destruct (skb_users k =? 1).
  - unfold lift, kfree_buf, gets, bind. cbn [msg_of rionet_msg_state]. by rewrite Hb.
  - apply (run_upd_skb s p k (fun k => setf skb_users (skb_users k - 1) k) Hk).
Qed.
End runs.

(** ** Queueing frames *)

(** The network device with one more frame of [len] bytes in its ring. *)
Definition nd_queued (skb : ptr) (len : Z) (d : net_device) : net_device :=
  setf nd_priv (tx_pushed skb (nd_priv d))
  (setf nd_stopped (nd_stopped d || (rp_tx_cnt (nd_priv d) + 1 =? RIONET_TX_RING_SIZE))
  (setf nd_tx_packets (u64 (nd_tx_packets d + 1))
  (setf nd_tx_bytes (u64 (nd_tx_bytes d + len)) d))).

(** After [n] frames. *)
Lemma nd_queued_holds n skb len d q :
  tx_holds (nd_priv d) q -> (length q + n <= 512)%nat ->
  tx_holds (nd_priv (Nat.iter n (nd_queued skb len) d)) (q ++ replicate n skb).
Proof.
  intros H Hn. induction n as [|n IH]; [by rewrite app_nil_r|].
  replace (S n) with (n + 1)%nat by lia. rewrite replicate_add, app_assoc. cbn [replicate].
  replace (n + 1)%nat with (S n) by lia. rewrite Nat.iter_succ.
  apply tx_push_holds; [apply IH; lia|]. rewrite length_app, length_replicate. lia.
Qed.
Lemma nd_queued_counts n skb len d :
  u64 (nd_tx_packets (Nat.iter n (nd_queued skb len) d)) = u64 (nd_tx_packets d + Z.of_nat n) /\
  u64 (nd_tx_bytes (Nat.iter n (nd_queued skb len) d)) = u64 (nd_tx_bytes d + Z.of_nat n * len).
Proof.
  induction n as [|n [IH1 IH2]]; [by rewrite !Z.add_0_r|].
  rewrite Nat.iter_succ. unfold nd_queued at 1 3. cbn [nd_tx_packets nd_tx_bytes setf updf].
  unfold u64 in *. rewrite !Z.mod_mod by lia.
  rewrite <- Z.add_mod_idemp_l, IH1, <- (Z.add_mod_idemp_l _ len), IH2, !Z.add_mod_idemp_l by lia.
  split; f_equal; lia.
Qed.
Lemma nd_queued_mport n skb len d :
  rp_mport (nd_priv (Nat.iter n (nd_queued skb len) d)) = rp_mport (nd_priv d).
Proof. by induction n. Qed.
(** The queue is stopped by the frame that fills the ring. *)
Lemma nd_queued_stopped n skb len d q :
  tx_holds (nd_priv d) q -> (length q + n <= 512)%nat ->
  nd_stopped (Nat.iter n (nd_queued skb len) d) =
    nd_stopped d || ((0 <? n) && (length q + n =? 512))%nat.
Proof.
  intros H Hn. induction n as [|n IH]; [by rewrite orb_false_r|].
  pose proof (th_cnt _ _ (nd_queued_holds n skb len d q H ltac:(lia))) as Hc.
  rewrite Nat.iter_succ. unfold nd_queued at 1. cbn [nd_stopped setf updf].
  rewrite IH by lia. rewrite Hc, length_app, length_replicate. unfold RIONET_TX_RING_SIZE.
  destruct (nd_stopped d); [done|]. cbn [orb].
  destruct (Nat.eqb_spec (length q + n) 512), (Nat.eqb_spec (length q + S n) 512),
    (Z.eqb_spec (Z.of_nat (length q + n) + 1) 512); try lia; by rewrite ?andb_false_r.
Qed.

Section xmit.
Context {W : Type} `{!KernelEnv W} `{!NetEnv W}.
Implicit Types s : nstate W.

(** The state after the hardware and the network device have changed. *)
Definition queued (ndev : ptr) (d : net_device) (w : W) s : nstate W := with_ndev ndev d (with_nhw w s).

(** What the hardware is given for a peer. *)
Definition post_frame (D : gmap ptr rio_dev) (mport : ptr) (mp : rio_mport W) (b : list Z) (len : Z)
    (w : W) (rdev : ptr) : W :=
  (op_add_outb_message (mp_ops mp) mport (default 0 (rd_destid <$> D !! rdev)) 0
    (get_bytes 0 (Z.to_nat len) b) len w).2.

(** A network device that can send the frame. *)
Record can_send (skb ndev mport : ptr) (mp : rio_mport W) (d : net_device) (k : sk_buff) (b : list Z) s : Prop := {
  cs_dev : ns_ndevs s !! ndev = Some d;
  cs_port : rp_mport (nd_priv d) = Some mport;
  cs_mport : ks_mports (ms_k (ns_m s)) !! mport = Some mp;
  cs_skb : ns_skbs s !! skb = Some k;
  cs_data : ms_bufs (ns_m s) !! skb_data k = Some b;
  cs_len : (Z.to_nat (skb_len k) <= length b)%nat;
}.

Lemma run_queue_tx s skb ndev mport mp d k b rdev dv q :
  can_send skb ndev mport mp d k b s -> ks_devs (ms_k (ns_m s)) !! rdev = Some dv ->
  tx_holds (nd_priv d) q -> (length q < 512)%nat ->
  rionet_queue_tx_msg skb ndev rdev s =
    Done 0 (queued ndev (nd_queued skb (skb_len k) d)
      (post_frame (ks_devs (ms_k (ns_m s))) mport mp b (skb_len k) (ks_hw (ms_k (ns_m s))) rdev) s).
Proof.
  intros [H1 H2 H3 H4 H5 H6] Hdv Hq Hlt. unfold rionet_queue_tx_msg.
  run (run_get_priv _ _ _ H1). rewrite H2. cbn [deref]. rewrite bind_ret. run (run_get_skb _ _ _ H4).
  unfold bind at 1, lift at 1. cbn [msg_of rionet_msg_state set_msg].
  rewrite (run_add_outb_message (ns_m s) mport mp rdev dv 0 (skb_data k) b (skb_len k) H3 Hdv H5 H6).
  cbv beta iota.
  unfold hw_post. set (w := (op_add_outb_message _ _ _ _ _ _ _).2).
  replace (post_frame _ _ _ _ _ _ _) with w by (unfold post_frame, w; by rewrite Hdv).
  change (setf ns_m _ s) with (with_nhw w s). clearbody w.
  assert (0 <= rp_tx_slot (nd_priv d) < Z.of_nat (length (rp_tx_skb (nd_priv d)))) as Hs.
  { rewrite (th_len _ _ Hq), (th_slot _ _ Hq). apply tx_pos_range. }
  run (run_slot_set (with_nhw w s) _ (rp_tx_slot (nd_priv d)) (Some skb) Hs).
  assert (ns_ndevs (with_nhw w s) !! ndev = Some d) as Hd by exact H1.
  unfold queued, nd_queued. set (s1 := with_nhw w s) in *. cbv zeta.
  erewrite bind_Done; [|by apply run_upd_ndev]. unfold when.
  destruct (rp_tx_cnt (nd_priv d) + 1 =? RIONET_TX_RING_SIZE) eqn:E.
  - erewrite bind_Done; [|apply run_upd_ndev, with_ndev_lookup]. rewrite with_ndev_twice.
    erewrite bind_Done; [|apply run_upd_priv, with_ndev_lookup]. rewrite with_ndev_twice.
    rewrite orb_true_r. reflexivity.
  - rewrite bind_ret. erewrite bind_Done; [|apply run_upd_priv, with_ndev_lookup]. rewrite with_ndev_twice.
    rewrite orb_false_r. reflexivity.
Qed.

(** The same with the frame's references changed. *)
Definition xmitted (skb ndev : ptr) (d : net_device) (w : W) (k : sk_buff) s : nstate W :=
  queued ndev d w (with_skb skb k s).

Lemma xmitted_twice skb ndev d d' w w' k k' s :
  xmitted skb ndev d w k (xmitted skb ndev d' w' k' s) = xmitted skb ndev d w k s.
Proof. unfold xmitted, queued, with_ndev, with_nhw, with_skb. cbn. by rewrite !insert_insert_eq. Qed.
Lemma xmitted_same skb ndev mport mp d k b s :
  can_send skb ndev mport mp d k b s -> xmitted skb ndev d (ks_hw (ms_k (ns_m s))) k s = s.
Proof.
  intros [H1 _ _ H4 _ _]. unfold xmitted, queued, with_ndev, with_nhw, with_skb. cbn.
  rewrite !insert_id by done. by destruct s as [[[] ] ].
Qed.
Lemma can_send_next skb ndev mport mp d d' w k u b s :
  can_send skb ndev mport mp d k b s -> rp_mport (nd_priv d') = Some mport ->
  can_send skb ndev mport mp d' (setf skb_users u k) b (xmitted skb ndev d' w (setf skb_users u k) s).
Proof. intros [H1 H2 H3 H4 H5 H6] H. by split; [apply lookup_insert_eq| | |apply lookup_insert_eq| |]. Qed.

(** References are taken for all queued copies of the frame but the first. *)
Definition extra_refs (c n : Z) : Z := Z.max 0 (c + n - 1) - Z.max 0 (c - 1).

Lemma extra_refs_none c n : n = 0 -> extra_refs c n = 0.
Proof. intros ->. unfold extra_refs. rewrite Z.add_0_r. lia. Qed.

Lemma run_xmit_active skb ndev mport mp b netid n a : forall rest start s d k q c,
  can_send skb ndev mport mp d k b s ->
  0 <= netid -> nets s !! Z.to_nat netid = Some n -> rn_active n = Some a -> drop start a = rest ->
  (forall rdev, Some rdev ∈ rest -> is_Some (ks_devs (ms_k (ns_m s)) !! rdev)) ->
  tx_holds (nd_priv d) q -> (length q + length (omap id rest) <= 512)%nat -> 0 <= c ->
  let acts := omap id rest in
  xmit_active skb ndev netid (zseq (Z.of_nat start) 1 (length rest)) c s =
    Done (c + Z.of_nat (length acts))
      (xmitted skb ndev (Nat.iter (length acts) (nd_queued skb (skb_len k)) d)
        (foldl (post_frame (ks_devs (ms_k (ns_m s))) mport mp b (skb_len k)) (ks_hw (ms_k (ns_m s))) acts)
        (setf skb_users (skb_users k + extra_refs c (Z.of_nat (length acts))) k) s).
Proof.
  induction rest as [|o rest IH]; intros start s d k q c Hcs Hid Hn Ha Hdrop Hdev Hq Hl Hc acts.
  - unfold acts. rewrite extra_refs_none, !Z.add_0_r by done.
    replace (setf skb_users (skb_users k) k) with k by (by destruct k). cbn [omap list_omap length foldl].
    change (Nat.iter 0 (nd_queued skb (skb_len k)) d) with d. by rewrite (xmitted_same _ _ mport mp _ _ b _ Hcs).
  - cbn [length zseq xmit_active].
    assert (a !! start = Some o) as Ho by (rewrite <- (Nat.add_0_r start), <- lookup_drop, Hdrop; done).
    assert (drop (S start) a = rest) as Hdrop'.
    { rewrite <- Nat.add_1_r, <- drop_drop, Hdrop. done. }
    run (run_get_active s netid n a (Z.of_nat start) o Hid Hn Ha ltac:(lia) ltac:(by rewrite Nat2Z.id)).
    replace (Z.of_nat start + 1) with (Z.of_nat (S start)) by lia. unfold acts. cbn [omap list_omap].
    assert (forall rdev, Some rdev ∈ rest -> is_Some (ks_devs (ms_k (ns_m s)) !! rdev)) as Hdev'
      by (intros rdev Hr; apply Hdev; by apply list_elem_of_further).
    destruct o as [rdev|]; cbn [id]; [|by apply (IH (S start) s d k q c)].
    destruct (Hdev rdev) as [dv Hdv]; [apply list_elem_of_here|]. cbn [omap list_omap id length] in Hl.
    erewrite bind_Done; [|eapply run_queue_tx; [done|done|done|lia]].
    set (w1 := post_frame _ _ _ _ _ _ _). set (d1 := nd_queued _ _ d).
    set (k1 := setf skb_users (skb_users k + extra_refs c 1) k).
    assert (when (truthy c) (upd_skb skb (fun k => setf skb_users (skb_users k + 1) k)) (queued ndev d1 w1 s)
      = Done tt (xmitted skb ndev d1 w1 k1 s)) as Hstep.
    { unfold xmitted, k1, truthy. unfold extra_refs. destruct (Z.eqb_spec c 0) as [->|Hne]; cbn [negb when].
      - change (Z.max 0 (0 + 1 - 1) - Z.max 0 (0 - 1)) with 0. rewrite Z.add_0_r.
        replace (setf skb_users (skb_users k) k) with k by (by destruct k).
        by rewrite (with_skb_same _ _ _ (cs_skb _ _ _ _ _ _ _ _ Hcs)).
      - rewrite (run_upd_skb _ skb k) by exact (cs_skb _ _ _ _ _ _ _ _ Hcs).
        replace (Z.max 0 (c + 1 - 1) - Z.max 0 (c - 1)) with 1 by lia. reflexivity. }
    run Hstep.
    rewrite (IH (S start) (xmitted skb ndev d1 w1 k1 s) d1 k1 (q ++ [skb]) (c + 1)); [..|lia].
    + rewrite xmitted_twice. cbn [length]. f_equal; [lia|]. cbn [foldl]. f_equal.
      * rewrite Nat.iter_succ_r. done.
      * unfold k1, extra_refs. cbn. f_equal. lia.
    + by apply can_send_next with (d := d); [|exact (cs_port _ _ _ _ _ _ _ _ Hcs)].
    + done.
    + done.
    + done.
    + done.
    + done.
    + apply tx_push_holds; [done|lia].
    + rewrite length_app. cbn. lia.
Qed.
End xmit.

(** ** Frames in flight *)

Definition occ (q : list ptr) (x : ptr) : Z := Z.of_nat (count_occ Pos.eq_dec q x).

Lemma occ_app q1 q2 x : occ (q1 ++ q2) x = occ q1 x + occ q2 x.
Proof. unfold occ. rewrite count_occ_app. lia. Qed.
Lemma occ_cons y q x : occ (y :: q) x = (if decide (y = x) then 1 else 0) + occ q x.
Proof. unfold occ. cbn. destruct (Pos.eq_dec y x), (decide (y = x)); try done; lia. Qed.
Lemma occ_notin q x : x ∉ q -> occ q x = 0.
Proof. intros H. unfold occ. rewrite (proj1 (count_occ_not_In Pos.eq_dec q x)); [done|]. by rewrite <- list_elem_of_In. Qed.
Lemma occ_pos q x : x ∈ q -> 0 < occ q x.
Proof. intros H. unfold occ. apply list_elem_of_In, (count_occ_In Pos.eq_dec) in H. lia. Qed.
Lemma occ_nonneg q x : 0 <= occ q x.
Proof. unfold occ. lia. Qed.
Lemma occ_replicate n x : occ (replicate n x) x = Z.of_nat n.
Proof. induction n as [|n IH]; [done|]. cbn [replicate]. rewrite occ_cons, IH, decide_True by done. lia. Qed.

Section frames.
Context {W : Type} `{!KernelEnv W} `{!NetEnv W}.
Implicit Types s : nstate W.

(** The driver has a reference of each frame for each of its slots, and frames do
    not share their data. *)
Record frames_ok (q : list ptr) s : Prop := {
  fo_skb : forall x, x ∈ q -> exists k b, ns_skbs s !! x = Some k /\ occ q x <= skb_users k /\
    ms_bufs (ns_m s) !! skb_data k = Some b;
  fo_sep : forall x y kx ky, x ∈ q -> y ∈ q -> ns_skbs s !! x = Some kx -> ns_skbs s !! y = Some ky ->
    skb_data kx = skb_data ky -> x = y;
}.

Lemma frames_ok_app q1 q2 s : frames_ok (q1 ++ q2) s -> frames_ok q1 s.
Proof.
  intros [F1 F2]. split.
  - intros x Hx. destruct (F1 x) as (k & b & Hk & Ho & Hb); [by apply elem_of_app; left|].
    exists k, b. rewrite occ_app in Ho. pose proof (occ_nonneg q2 x). split; [done|]. split; [lia|done].
  - intros x y kx ky Hx Hy. by apply F2; apply elem_of_app; left.
Qed.

(** Acknowledging a slot. *)
Lemma dropped_frames x q k s :
  frames_ok (x :: q) s -> ns_skbs s !! x = Some k -> frames_ok q (dropped x k s).
Proof.
  intros [F1 F2] Hk. unfold dropped. destruct (Z.eqb_spec (skb_users k) 1) as [Hu|Hu].
  - assert (x ∉ q) as Hx.
    { intros Hx. apply occ_pos in Hx. destruct (F1 x) as (k' & b & Hk' & Ho & _); [apply list_elem_of_here|].
      rewrite occ_cons, decide_True in Ho by done. assert (k' = k) as -> by congruence. lia. }
    assert (forall y, y ∈ q -> y <> x) as Hne by (intros y Hy ->; done).
    split.
    + intros y Hy. destruct (F1 y) as (ky & b & Hky & Ho & Hb); [by apply list_elem_of_further|].
      exists ky, b. cbn. rewrite occ_cons, decide_False in Ho by (intros ->; done).
      split; [rewrite lookup_delete_ne; [done|by intros ->]|]. split; [lia|].
      rewrite lookup_delete_ne; [done|]. intros E. apply (Hne y Hy).
      by apply (F2 y x ky k); [apply list_elem_of_further|apply list_elem_of_here| | |].
    + cbn. intros y z ky kz Hy Hz Hky Hkz. rewrite lookup_delete_ne in Hky, Hkz by (intros ->; done).
      by apply F2; [apply list_elem_of_further..| |].
  - split.
    + intros y Hy. destruct (F1 y) as (ky & b & Hky & Ho & Hb); [by apply list_elem_of_further|]. cbn.
      rewrite occ_cons in Ho. destruct (decide (x = y)) as [->|Hne].
      * exists (setf skb_users (skb_users k - 1) k), b. assert (ky = k) as -> by congruence.
        split; [apply lookup_insert_eq|]. cbn. split; [lia|done].
      * exists ky, b. by rewrite lookup_insert_ne.
    + cbn. intros y z ky kz Hy Hz Hky Hkz E.
      assert (forall p kp, (<[x := setf skb_users (skb_users k - 1) k]> (ns_skbs s) : gmap ptr sk_buff) !! p = Some kp ->
        exists kp', ns_skbs s !! p = Some kp' /\ skb_data kp' = skb_data kp) as Hold.
      { intros p kp Hp. destruct (decide (x = p)) as [<-|Hp'].
        - rewrite lookup_insert_eq in Hp. injection Hp as <-. by exists k.
        - rewrite lookup_insert_ne in Hp by done. by exists kp. }
      destruct (Hold _ _ Hky) as (k1 & H1 & E1), (Hold _ _ Hkz) as (k2 & H2 & E2).
      apply (F2 y z k1 k2); try done; [by apply list_elem_of_further..|congruence].
Qed.

(** The references of all frames after the slots [l] have been acknowledged. *)
Definition refs_dropped (l : list ptr) s s' : Prop :=
  (forall x k, ns_skbs s !! x = Some k -> 0 < skb_users k -> ns_skbs s' !! x =
    if skb_users k - occ l x =? 0 then None else Some (setf skb_users (skb_users k - occ l x) k)) /\
  (forall x, ns_skbs s !! x = None -> ns_skbs s' !! x = None).

Lemma refs_dropped_none s : refs_dropped [] s s.
Proof.
  split; [|done]. intros x k Hk Hu. change (occ [] x) with 0. rewrite Z.sub_0_r. destruct (Z.eqb_spec (skb_users k) 0); [lia|].
  rewrite Hk. by destruct k.
Qed.
Lemma refs_dropped_cons x l k s s' :
  frames_ok (x :: l) s -> ns_skbs s !! x = Some k -> refs_dropped l (dropped x k s) s' ->
  refs_dropped (x :: l) s s'.
Proof.
  intros Hf Hk [Hd Hgone]. split; [|intros y Hy; apply Hgone; unfold dropped;
    destruct (skb_users k =? 1); cbn; [rewrite lookup_delete_None|rewrite lookup_insert_None]; naive_solver].
  intros y ky Hy Hu. rewrite occ_cons. destruct (decide (x = y)) as [<-|Hne].
  - assert (ky = k) as -> by congruence. unfold dropped in Hd, Hgone.
    destruct (Z.eqb_spec (skb_users k) 1) as [E|E].
    + rewrite Hgone by apply lookup_delete_eq. destruct (fo_skb _ _ Hf x) as (k' & b & Hk' & Ho & _); [apply list_elem_of_here|].
      assert (k' = k) as -> by congruence. rewrite occ_cons, decide_True in Ho by done.
      pose proof (occ_nonneg l x). by replace (skb_users k - (1 + occ l x)) with 0 by lia.
    + rewrite (Hd x (setf skb_users (skb_users k - 1) k)); [|apply lookup_insert_eq|cbn; lia].
      cbn. by replace (skb_users k - 1 - occ l x) with (skb_users k - (1 + occ l x)) by lia.
  - rewrite Z.add_0_l. apply Hd; [|done]. unfold dropped.
    destruct (skb_users k =? 1); cbn; by rewrite ?lookup_delete_ne, ?lookup_insert_ne.
Qed.

(** ** Acknowledgements *)

(** How many of [cnt] slots a report of [slot] acknowledges. *)
Definition tx_acked (cnt ack slot : Z) : nat := Z.to_nat (Z.min ((slot - ack) mod 512) cnt).

Lemma tx_acked_step cnt ack slot :
  0 <= ack < 512 -> 0 <= slot < 512 -> 0 < cnt -> ack <> slot ->
  tx_acked cnt ack slot = S (tx_acked (cnt - 1) ((ack + 1) mod 512) slot).
Proof.
  intros Ha Hs Hc Hne. unfold tx_acked.
  assert ((slot - (ack + 1) mod 512) mod 512 = (slot - ack) mod 512 - 1) as ->.
  { Z.div_mod_to_equations. lia. }
  assert ((slot - ack) mod 512 <> 0) by (Z.div_mod_to_equations; lia).
  pose proof (Z.mod_pos_bound (slot - ack) 512 ltac:(lia)). lia.
Qed.

Definition nd_popped (d : net_device) : net_device := setf nd_priv (tx_popped (nd_priv d)) d.

Lemma nd_popped_holds n d q :
  tx_holds (nd_priv d) q -> (n <= length q)%nat ->
  tx_holds (nd_priv (Nat.iter n nd_popped d)) (drop n q).
Proof.
  intros H Hn. induction n as [|n IH]; [by rewrite drop_0|]. rewrite Nat.iter_succ.
  destruct (lookup_lt_is_Some_2 q n) as [x Hx]; [lia|].
  specialize (IH ltac:(lia)). rewrite (drop_S _ _ _ Hx) in IH. by apply tx_pop_holds in IH.
Qed.

(** The slots [l] acknowledged one after the other: what changes, and how. *)
Record outb_done (ndev : ptr) (d : net_device) (l : list ptr) s s' : Prop := {
  od_ndevs : ns_ndevs s' = <[ndev := Nat.iter (length l) nd_popped d]> (ns_ndevs s);
  od_refs : refs_dropped l s s';
  od_nets : nets s' = nets s;
  od_res : ns_res s' = ns_res s;
  od_core : exists n, ms_k (ns_m s') = with_allocs n (ms_k (ns_m s));
}.

Lemma outb_done_cons ndev d x k l s s' :
  ns_ndevs s !! ndev = Some d -> frames_ok (x :: l) s -> ns_skbs s !! x = Some k ->
  outb_done ndev (nd_popped d) l (with_ndev ndev (nd_popped d) (dropped x k s)) s' ->
  outb_done ndev d (x :: l) s s'.
Proof.
  intros Hd Hf Hk [O1 O2 O3 O4 [m O5]]. split.
  - rewrite O1. cbn [length]. rewrite Nat.iter_succ_r. unfold dropped.
    destruct (skb_users k =? 1); cbn; by rewrite insert_insert_eq.
  - by apply (refs_dropped_cons x l k).
  - rewrite O3. unfold dropped. by destruct (skb_users k =? 1).
  - rewrite O4. unfold dropped. by destruct (skb_users k =? 1).
  - exists m. rewrite O5. unfold dropped. by destruct (skb_users k =? 1).
Qed.

Lemma run_outb_loop ndev slot : forall q fuel s d,
  ns_ndevs s !! ndev = Some d -> tx_holds (nd_priv d) q -> frames_ok q s -> 0 <= slot < 512 ->
  let n := tx_acked (rp_tx_cnt (nd_priv d)) (rp_ack_slot (nd_priv d)) slot in
  (n < fuel)%nat ->
  exists s', loop fuel (outb_step ndev slot) tt s = Done tt s' /\
    outb_done ndev d (take n q) s s' /\ frames_ok (drop n q) s'.
Proof.
  induction q as [|x q IH]; intros fuel s d Hd Hq Hf Hs n Hfuel.
  all: destruct fuel as [|fuel]; [lia|]; cbn [loop]; unfold outb_step at 1; rewrite bind_assoc;
    run (run_get_priv _ _ _ Hd).
  - assert (n = 0%nat) as Hn by (unfold n, tx_acked; rewrite (th_cnt _ _ Hq); cbn [length]; lia).
    rewrite Hn, (th_cnt _ _ Hq). cbn. exists s. split; [done|]. split; [|done]. split; try done.
    + by rewrite insert_id.
    + apply refs_dropped_none.
    + exists (ks_allocs (ms_k (ns_m s))). by destruct s as [[[] ] ].
  - pose proof (th_cnt _ _ Hq) as Hc. cbn [length] in Hc. pose proof (th_ack _ _ Hq) as Ha.
    assert (truthy (rp_tx_cnt (nd_priv d)) = true) as -> by (unfold truthy; destruct (Z.eqb_spec (rp_tx_cnt (nd_priv d)) 0); [lia|done]).
    cbn [andb]. destruct (Z.eqb_spec (rp_ack_slot (nd_priv d)) slot) as [E|E]; cbn [negb].
    + assert (n = 0%nat) as -> by (unfold n, tx_acked; rewrite E, Z.sub_diag; change (0 mod 512) with 0; lia).
      exists s. split; [done|]. split; [|done]. split; try done.
      * by rewrite insert_id.
      * apply refs_dropped_none.
      * exists (ks_allocs (ms_k (ns_m s))). by destruct s as [[[] ] ].
    + pose proof (tx_acked_step (rp_tx_cnt (nd_priv d)) _ slot Ha Hs ltac:(lia) E) as Hstep.
      destruct (fo_skb _ _ Hf x) as (k & b & Hk & Ho & Hb); [apply list_elem_of_here|].
      pose proof (th_slots _ _ Hq 0 x eq_refl) as Hx. rewrite Z.add_0_r, Z.mod_small in Hx by lia.
      rewrite bind_assoc. run (run_slot_get s _ _ _ (proj1 Ha) Hx). rewrite bind_assoc.
      run (run_kfree_skb s x k b Hk Hb). rewrite bind_assoc.
      erewrite bind_Done; [|apply run_slot_set; rewrite (th_len _ _ Hq); lia]. rewrite bind_assoc.
      assert (ns_ndevs (dropped x k s) !! ndev = Some d) as Hd'
        by (unfold dropped; by destruct (skb_users k =? 1)).
      erewrite bind_Done; [|by apply run_upd_priv]. rewrite bind_ret.
      change (setf nd_priv _ d) with (nd_popped d).
      destruct (IH fuel (with_ndev ndev (nd_popped d) (dropped x k s)) (nd_popped d)) as (s' & Hrun & Hod & Hfr).
      * apply with_ndev_lookup.
      * exact (tx_pop_holds _ _ _ Hq).
      * destruct (dropped_frames x q k s Hf Hk) as [F1 F2]. by split.
      * done.
      * cbn. rewrite next_tx_slot. lia.
      * unfold n. rewrite Hstep. rewrite <- next_tx_slot. exists s'. split; [exact Hrun|]. split.
        -- cbn [take]. apply (outb_done_cons ndev d x k); [done| |done|exact Hod].
           apply (frames_ok_app _ (drop (tx_acked (rp_tx_cnt (nd_priv d) - 1)
             (Z.land (rp_ack_slot (nd_priv d) + 1) (RIONET_TX_RING_SIZE - 1)) slot) q)).
           cbn [app]. by rewrite take_drop.
        -- exact Hfr.
Qed.
End frames.

(** ** The properties *)

Section properties.
Context {W : Type} `{!KernelEnv W} `{!NetEnv W}.
Implicit Types s : nstate W.

(** A frame with its own references and data joins the ones in flight. *)
Lemma frames_ok_xmit skb ndev d' w k b q n s :
  ms_bufs (ns_m s) !! skb_data k = Some b -> frames_ok q s -> skb ∉ q -> Z.of_nat n <= skb_users k ->
  (forall x kx, x ∈ q -> ns_skbs s !! x = Some kx -> skb_data kx <> skb_data k) ->
  frames_ok (q ++ replicate n skb) (xmitted skb ndev d' w k s).
Proof.
  intros C5 [F1 F2] Hnew Hn Hsep.
  assert (forall x, x ∈ q ++ replicate n skb -> x ∈ q \/ x = skb) as Hin.
  { intros x Hx. apply elem_of_app in Hx as [Hx|Hx]; [by left|]. apply elem_of_replicate in Hx as [-> _]. by right. }
  split.
  - intros x Hx. rewrite occ_app. cbn. destruct (decide (skb = x)) as [<-|Hne].
    + exists k, b. rewrite lookup_insert_eq, (occ_notin q) by done. rewrite occ_replicate. split; [done|].
      split; [lia|done].
    + apply Hin in Hx as [Hx| ->]; [|done]. destruct (F1 x Hx) as (kx & bx & Hk & Ho & Hb). exists kx, bx.
      rewrite lookup_insert_ne by done. split; [done|]. split; [|done].
      rewrite (occ_notin (replicate n skb)); [lia|]. intros H. by apply elem_of_replicate in H as [<- _].
  - cbn. intros x y kx ky Hx Hy Hkx Hky E. apply Hin in Hx as [Hx| ->], Hy as [Hy| ->]; [| | |done].
    + rewrite lookup_insert_ne in Hkx, Hky by (intros ->; done). by apply (F2 x y kx ky).
    + rewrite lookup_insert_ne in Hkx by (intros ->; done). rewrite lookup_insert_eq in Hky.
      injection Hky as <-. by destruct (Hsep x kx Hx Hkx).
    + rewrite lookup_insert_ne in Hky by (intros ->; done). rewrite lookup_insert_eq in Hkx.
      injection Hkx as <-. by destruct (Hsep y ky Hy Hky).
Qed.

(** What [rionet_start_xmit] leaves of a multicast frame: a slot of the ring for each
    of the [n] peers and as many references, or nothing without peers. *)
Record multicast_done (skb ndev : ptr) (d : net_device) (k : sk_buff) (q : list ptr) (n : nat) (w : W) s' : Prop := {
  md_ring : exists d', ns_ndevs s' !! ndev = Some d' /\ tx_holds (nd_priv d') (q ++ replicate n skb) /\
    nd_stopped d' = nd_stopped d || ((0 <? n) && (length q + n =? 512))%nat /\
    u64 (nd_tx_packets d') = u64 (nd_tx_packets d + Z.of_nat n);
  md_frames : frames_ok (q ++ replicate n skb) s';
  md_refs : ns_skbs s' !! skb = if decide (n = 0%nat) then None else Some (setf skb_users (Z.of_nat n) k);
  md_hw : ks_hw (ms_k (ns_m s')) = w;
}.

Lemma frames_ok_without skb k b q s :
  ns_skbs s !! skb = Some k -> ms_bufs (ns_m s) !! skb_data k = Some b -> skb_users k = 1 ->
  frames_ok q s -> skb ∉ q ->
  (forall x kx, x ∈ q -> ns_skbs s !! x = Some kx -> skb_data kx <> skb_data k) ->
  frames_ok q (dropped skb k s).
Proof.
  intros Hk Hb Hu [F1 F2] Hnew Hsep. apply dropped_frames; [|done]. split.
  - intros x Hx. apply elem_of_cons in Hx as [->|Hx].
    + exists k, b. rewrite occ_cons, decide_True, (occ_notin q) by done. split; [done|]. split; [lia|done].
    + rewrite occ_cons, decide_False by (intros ->; done). by apply F1.
  - intros x y kx ky Hx Hy Hkx Hky E. apply elem_of_cons in Hx as [->|Hx], Hy as [->|Hy]; [done| | |].
    + assert (kx = k) as -> by congruence. by destruct (Hsep y ky Hy Hky).
    + assert (ky = k) as -> by congruence. by destruct (Hsep x kx Hx Hkx).
    + by apply (F2 x y kx ky).
Qed.

Lemma run_multicast skb ndev mport mp d k b n s :
  can_send skb ndev mport mp d k b s -> (6 <= length b)%nat ->
  is_multicast_ether_addr (take 6 b) = true ->
  0 <= mp_id mp -> nets s !! Z.to_nat (mp_id mp) = Some n ->
  rionet_start_xmit skb ndev s =
    if RIONET_TX_RING_SIZE <? rp_tx_cnt (nd_priv d) + rn_nact n then
      Done NETDEV_TX_BUSY (with_ndev ndev (setf nd_stopped true d) s)
    else (count <- xmit_active skb ndev (mp_id mp) (zrange 0 (RIO_MAX_ROUTE_ENTRIES (mp_sys_size mp))) 0 ;;
      when (count =? 0) (kfree_skb (Some skb)) ;;; ret NETDEV_TX_OK) s.
Proof.
  intros [C1 C2 C3 C4 C5 C6] Hb6 Hmc Hid Hn. unfold rionet_start_xmit.
  run (run_get_priv _ _ _ C1). run (run_get_skb _ _ _ C4).
  erewrite bind_Done; [|by apply (run_read_nskb s (skb_data k) b 0 6)].
  erewrite bind_Done; [|by eapply run_rnet_mport]. change (get_bytes 0 6 b) with (take 6 b). rewrite Hmc.
  rewrite bind_assoc. run (run_get_nets _ _ _ Hid Hn). rewrite bind_ret.
  destruct (RIONET_TX_RING_SIZE <? _); [|done]. by run (run_upd_ndev s ndev d (setf nd_stopped true) C1).
Qed.

(** C16: A multicast frame of which the driver has the only reference is posted once to
    every active peer, in the order of their ids, and takes one slot of the ring and
    one reference for each; without active peers it is freed; and when the ring has
    no room for all peers nothing is sent, the queue stops and the stack is asked to
    come again. *)
Theorem rionet_start_xmit_multicast skb ndev mport mp d k b q n a s :
  can_send skb ndev mport mp d k b s -> (6 <= length b)%nat ->
  is_multicast_ether_addr (take 6 b) = true ->
  0 <= mp_id mp -> nets s !! Z.to_nat (mp_id mp) = Some n -> rn_active n = Some a ->
  length a = Z.to_nat (RIO_MAX_ROUTE_ENTRIES (mp_sys_size mp)) ->
  (forall rdev, Some rdev ∈ a -> is_Some (ks_devs (ms_k (ns_m s)) !! rdev)) ->
  Z.of_nat (length (omap id a)) <= rn_nact n ->
  tx_holds (nd_priv d) q -> frames_ok q s -> skb ∉ q -> skb_users k = 1 ->
  (forall x kx, x ∈ q -> ns_skbs s !! x = Some kx -> skb_data kx <> skb_data k) ->
  if 512 <? Z.of_nat (length q) + rn_nact n then
    rionet_start_xmit skb ndev s = Done NETDEV_TX_BUSY (with_ndev ndev (setf nd_stopped true d) s)
  else exists s', rionet_start_xmit skb ndev s = Done NETDEV_TX_OK s' /\
    multicast_done skb ndev d k q (length (omap id a))
      (foldl (post_frame (ks_devs (ms_k (ns_m s))) mport mp b (skb_len k)) (ks_hw (ms_k (ns_m s))) (omap id a)) s'.
Proof.
  intros Hcs Hb6 Hmc Hid Hn Ha Hla Hdev Hact Hq Hf Hnew Hu Hsep. destruct (Hcs) as [C1 C2 C3 C4 C5 C6].
  rewrite (run_multicast skb ndev mport mp d k b n s Hcs Hb6 Hmc Hid Hn).
  rewrite (th_cnt _ _ Hq). change RIONET_TX_RING_SIZE with 512.
  destruct (Z.ltb_spec 512 (Z.of_nat (length q) + rn_nact n)) as [Hbig|Hfit]; [done|].
  set (m := length (omap id a)) in *. unfold zrange. rewrite Z.sub_0_r, <- Hla.
  pose proof (run_xmit_active skb ndev mport mp b (mp_id mp) n a a 0 s d k q 0 Hcs Hid Hn Ha eq_refl Hdev Hq
    ltac:(fold m; lia) ltac:(lia)) as Hrun.
  cbv zeta in Hrun. fold m in Hrun. erewrite bind_Done; [|exact Hrun]. clear Hrun.
  set (d' := Nat.iter m _ d). set (w := foldl _ _ _). set (k' := setf skb_users _ k).
  assert (tx_holds (nd_priv d') (q ++ replicate m skb)) as Hq' by (apply nd_queued_holds; [done|lia]).
  assert (nd_stopped d' = nd_stopped d || ((0 <? m) && (length q + m =? 512))%nat) as Hst
    by (apply nd_queued_stopped; [done|lia]).
  assert (u64 (nd_tx_packets d') = u64 (nd_tx_packets d + Z.of_nat m)) as Hpk by apply nd_queued_counts.
  unfold when. destruct (Z.eqb_spec (0 + Z.of_nat m) 0) as [Hz|Hz].
  - assert (m = 0%nat) as Em by lia. assert (k' = k) as Ek.
    { unfold k'. rewrite extra_refs_none, Z.add_0_r by lia. by destruct k. }
    rewrite Ek. erewrite bind_Done; [|eapply run_kfree_skb; [apply lookup_insert_eq|exact C5]].
    eexists. split; [reflexivity|]. unfold dropped. rewrite Hu. cbn [Z.eqb Pos.eqb]. split.
    + exists d'. split; [apply lookup_insert_eq|]. done.
    + replace (without_skb skb k (xmitted skb ndev d' w k s)) with (dropped skb k (xmitted skb ndev d' w k s))
        by (unfold dropped; by rewrite Hu).
      assert (frames_ok (q ++ replicate m skb) (xmitted skb ndev d' w k s)) as Hf'
        by (apply (frames_ok_xmit _ _ _ _ _ b); try done; lia).
      rewrite Em, app_nil_r in Hf' |- *. apply (frames_ok_without skb k b); try done; [apply lookup_insert_eq|].
      intros x kx Hx. cbn. rewrite lookup_insert_ne by (intros ->; done). by apply Hsep.
    + rewrite decide_True by done. apply lookup_delete_eq.
    + done.
  - rewrite bind_ret. assert (k' = setf skb_users (Z.of_nat m) k) as Ek.
    { unfold k', extra_refs. rewrite Hu. f_equal. lia. }
    eexists. split; [reflexivity|]. split.
    + exists d'. split; [apply lookup_insert_eq|]. done.
    + rewrite Ek. apply (frames_ok_xmit _ _ _ _ _ b); try done.
    + rewrite decide_False by lia. rewrite <- Ek. apply lookup_insert_eq.
    + done.
Qed.

(** C17: A report of the transmit mailbox gives back one reference for each
    acknowledged slot, so that a frame is freed with its last slot; the other frames
    stay in the ring in their order, and a ring with room is filled again. *)
Theorem rionet_outb_msg_event_correct mport ndev mbox slot q d s :
  ns_ndevs s !! ndev = Some d -> tx_holds (nd_priv d) q -> frames_ok q s -> 0 <= slot < 512 ->
  let n := tx_acked (rp_tx_cnt (nd_priv d)) (rp_ack_slot (nd_priv d)) slot in
  exists s' d', rionet_outb_msg_event mport ndev mbox slot s = Done tt s' /\
    ns_ndevs s' !! ndev = Some d' /\ tx_holds (nd_priv d') (drop n q) /\
    nd_stopped d' = (if decide (length (drop n q) = 512%nat) then nd_stopped d else false) /\
    refs_dropped (take n q) s s' /\ frames_ok (drop n q) s' /\ nets s' = nets s.
Proof.
  intros Hd Hq Hf Hs n. assert (n <= length q)%nat as Hn.
  { unfold n, tx_acked. rewrite (th_cnt _ _ Hq). lia. }
  pose proof (th_max _ _ Hq) as Hmax. unfold rionet_outb_msg_event.
  destruct (run_outb_loop ndev slot q RING_FUEL s d Hd Hq Hf Hs) as (s1 & Hrun & [O1 O2 O3 O4 O5] & Hfr);
    [fold n; unfold RING_FUEL; lia|]. fold n in O1, O2, Hfr. run Hrun.
  assert (tx_holds (nd_priv (Nat.iter n nd_popped d)) (drop n q)) as Hq' by by apply nd_popped_holds.
  assert (nd_stopped (Nat.iter n nd_popped d) = nd_stopped d) as Hst by (clear; by induction n).
  rewrite length_take, Nat.min_l in O1 by done. set (d1 := Nat.iter n nd_popped d) in *.
  assert (ns_ndevs s1 !! ndev = Some d1) as Hd1 by (rewrite O1; apply lookup_insert_eq).
  run (run_get_priv _ _ _ Hd1). rewrite (th_cnt _ _ Hq'). unfold when.
  change RIONET_TX_RING_SIZE with 512. pose proof (th_max _ _ Hq') as Hmax'.
  destruct (Z.ltb_spec (Z.of_nat (length (drop n q))) 512).
  - rewrite (run_upd_ndev s1 ndev d1 (setf nd_stopped false) Hd1). do 2 eexists. split; [reflexivity|].
    split; [apply with_ndev_lookup|]. rewrite decide_False by lia. destruct Hfr as [F1 F2]. repeat (split; [done|]). done.
  - exists s1, d1. rewrite decide_True by lia. done.
Qed.

(** A frame for a peer that has left, of which the driver has the only reference: its
    length is read after it has been freed. *)
Lemma rionet_xmit_after_free skb ndev k b netid destid n a d s :
  ns_skbs s !! skb = Some k -> skb_users k = 1 -> ms_bufs (ns_m s) !! skb_data k = Some b ->
  0 <= netid -> nets s !! Z.to_nat netid = Some n -> rn_active n = Some a ->
  0 <= destid -> a !! Z.to_nat destid = Some None -> ns_ndevs s !! ndev = Some d ->
  xmit_unicast skb ndev netid destid s = UB.
Proof.
  intros Hk Hu Hb Hi Hn Ha Hid Hv Hd. unfold xmit_unicast.
  run (run_get_active _ _ _ _ _ _ Hi Hn Ha Hid Hv). run (run_kfree_skb _ _ _ _ Hk Hb).
  unfold dropped. rewrite Hu. cbn [Z.eqb Pos.eqb].
  erewrite bind_Done; [|apply run_upd_ndev; exact Hd].
  unfold get_skb, bind, gets. cbn. by rewrite lookup_delete_eq.
Qed.
End properties.

(** ** Witnesses: two active peers *)

(** The network device 5 of port 1: the peers 2 and 4 are active at their ids 9 and
    12, and the buffer 7 has the data 6. *)
Definition nw_active : list (option ptr) :=
  <[9%nat := Some 2%positive]> (<[12%nat := Some 4%positive]> (replicate 256 None)).
Definition nw_net : rionet_net := mk_rionet_net (Some 5%positive) [] (Some nw_active) 2.
Definition nw_frame : list Z := replicate 20 255.
Definition nw_skb (users : Z) : sk_buff := mk_sk_buff 6 20 20 users.
Definition nw_ndev (tx : list ptr) : net_device :=
  setf nd_priv (mk_rionet_private (Some 1%positive) (replicate 512 None)
    ((Some <$> tx) ++ replicate (512 - length tx) None) 0 (Z.of_nat (length tx)) (Z.of_nat (length tx)) 0 0 true)
    zero_net_device.
Definition nw_state (users : Z) (tx : list ptr) : nstate cmworld := {|
  ns_m := setf ms_k (setf ks_devs {[ 2%positive := setf rd_destid 9 (zero_rio_dev None);
      4%positive := setf rd_destid 12 (zero_rio_dev None) ]} (ms_k (cs_m (cmw_state ∅ ∅ ∅ ∅))))
    (cs_m (cmw_state ∅ ∅ ∅ {[ 6%positive := nw_frame ]}));
  ns_skbs := {[ 7%positive := nw_skb users ]};
  ns_ndevs := {[ 5%positive := nw_ndev tx ]};
  ns_res := ∅;
  nets := nw_net :: replicate 7 (mk_rionet_net None [] None 0);
|}.

Lemma nw_active_devs rdev : Some rdev ∈ nw_active -> rdev = 2%positive \/ rdev = 4%positive.
Proof.
  intros H. assert (rdev ∈ omap id nw_active) as Hin by (apply list_elem_of_omap; by exists (Some rdev)).
  change (omap id nw_active) with [2; 4]%positive in Hin.
  apply elem_of_cons in Hin as [->|Hin]; [by left|]. right. by apply list_elem_of_singleton in Hin.
Qed.

Lemma rionet_start_xmit_multicast_witness :
  exists s', rionet_start_xmit 7%positive 5%positive (nw_state 1 []) = Done NETDEV_TX_OK s' /\
    cw_sent (ks_hw (ms_k (ns_m s'))) = [(9, nw_frame); (12, nw_frame)] /\
    ns_skbs s' !! 7%positive = Some (nw_skb 2).
Proof.
  pose proof (rionet_start_xmit_multicast 7%positive 5%positive 1%positive cmw_mport (nw_ndev []) (nw_skb 1) nw_frame
    [] nw_net nw_active (nw_state 1 [])) as H.
  destruct H as (s' & Hrun & [_ _ Hrefs Hhw]).
  - by split; [..|cbn; lia].
  - cbn. lia.
  - reflexivity.
  - cbn. lia.
  - reflexivity.
  - reflexivity.
  - reflexivity.
  - intros rdev Hr. apply nw_active_devs in Hr as [->| ->]; by eexists.
  - cbn. lia.
  - split; try done; cbn; lia.
  - split; [intros x Hx|intros x y kx ky Hx]; by apply elem_of_nil in Hx.
  - apply not_elem_of_nil.
  - reflexivity.
  - intros x kx Hx. by apply elem_of_nil in Hx.
  - exists s'. split; [exact Hrun|]. rewrite Hhw, Hrefs. split; reflexivity.
Defined.

Lemma rionet_outb_msg_event_correct_witness :
  exists s' d', rionet_outb_msg_event 1%positive 5%positive 0 2 (nw_state 2 [7; 7]%positive) = Done tt s' /\
    ns_ndevs s' !! 5%positive = Some d' /\ rp_tx_cnt (nd_priv d') = 0 /\ ns_skbs s' !! 7%positive = None.
Proof.
  destruct (rionet_outb_msg_event_correct 1%positive 5%positive 0 2 [7; 7]%positive (nw_ndev [7; 7]%positive)
    (nw_state 2 [7; 7]%positive)) as (s' & d' & Hrun & Hd & Hq & _ & [Hrefs _] & _).
  - reflexivity.
  - split; try done; try (cbn; lia).
    intros [|[|i]] x Hx; [injection Hx as <-; reflexivity..|done].
  - assert (forall x, x ∈ [7; 7]%positive -> x = 7%positive) as Hin by 
      by (intros x Hx; repeat (apply elem_of_cons in Hx as [->|Hx]; [done|]); by apply elem_of_nil in Hx). split.
    + intros x Hx. apply Hin in Hx as ->. exists (nw_skb 2), nw_frame. split; [reflexivity|]. split; [by vm_compute|reflexivity].
    + intros x y kx ky Hx Hy _ _ _. apply Hin in Hx as ->. by apply Hin in Hy as ->.
  - lia.
  - exists s', d'. split; [exact Hrun|]. split; [exact Hd|]. rewrite (th_cnt _ _ Hq). split; [reflexivity|].
    rewrite (Hrefs 7%positive (nw_skb 2)); [reflexivity..].
Defined.
