(* ===== verification/RionetPeers.v ===== *)
(** * The active peers of the network device

    The table of active peers and their number: an invariant of everything that the
    driver does, on which the transmit ring relies for multicast frames. *)

From S2P Require Import Prelude Regs State Access Mbox Mport Msg Rionet RioCm RioCmOps RioCmBench RioCmRing RionetTx.

Section peers.
Context {W : Type} `{!KernelEnv W} `{!NetEnv W}.
Implicit Types s : nstate W.

(** ** Code that leaves the table of nets alone *)

Definition same_nets s s' : Prop := nets s' = nets s.
#[export] Instance same_nets_preorder : PreOrder same_nets.
Proof. split; [done|]. intros s1 s2 s3 H1 H2. unfold same_nets in *. congruence. Qed.

Lemma sn_lift {A} (m : MM W A) : keeps same_nets (lift m : NM W A).
Proof. intros s a s'. unfold lift. by destruct (m (msg_of s)) as [b k| |]; [intros [= _ <-]|..]. Qed.
Lemma sn_core {A} (m : KM W A) : keeps same_nets (core m : NM W A).
Proof. apply sn_lift. Qed.
Lemma sn_modify (g : nstate W -> nstate W) : (forall s, nets (g s) = nets s) -> keeps same_nets (modify g).
Proof. intros Hg s a s' [= _ <-]. apply Hg. Qed.
Hint Resolve sn_lift sn_core : frame.

Lemma sn_slot_get {A} (a : list A) i : keeps same_nets (slot_get a i : NM W A).
Proof. unfold slot_get. solve_keeps. Qed.
Lemma sn_slot_set {A} (a : list A) i v : keeps same_nets (slot_set a i v : NM W (list A)).
Proof. unfold slot_set. solve_keeps. Qed.
Hint Resolve sn_slot_get sn_slot_set : frame.
Lemma sn_get_skb p : keeps same_nets (get_skb p : NM W _).
Proof. unfold get_skb. solve_keeps. Qed.
Lemma sn_get_ndev p : keeps same_nets (get_ndev p : NM W _).
Proof. unfold get_ndev. solve_keeps. Qed.
Lemma sn_get_nets i : keeps same_nets (get_nets i : NM W _).
Proof. unfold get_nets. solve_keeps. Qed.
Hint Resolve sn_get_skb sn_get_ndev sn_get_nets : frame.
Lemma sn_upd_skb p g : keeps same_nets (upd_skb p g : NM W _).
Proof. unfold upd_skb. apply keeps_bind; [typeclasses eauto|auto with frame|]. intros k. by apply sn_modify. Qed.
Lemma sn_upd_ndev p g : keeps same_nets (upd_ndev p g : NM W _).
Proof. unfold upd_ndev. apply keeps_bind; [typeclasses eauto|auto with frame|]. intros k. by apply sn_modify. Qed.
Lemma sn_get_priv p : keeps same_nets (get_priv p : NM W _).
Proof. unfold get_priv. solve_keeps. Qed.
Lemma sn_upd_priv p g : keeps same_nets (upd_priv p g : NM W _).
Proof. apply sn_upd_ndev. Qed.
Lemma sn_rnet_mport r : keeps same_nets (rnet_mport r : NM W _).
Proof. unfold rnet_mport. solve_keeps. Qed.
Lemma sn_get_active i id : keeps same_nets (get_active i id : NM W _).
Proof. unfold get_active. solve_keeps. Qed.
Hint Resolve sn_upd_skb sn_upd_ndev sn_get_priv sn_upd_priv sn_rnet_mport sn_get_active : frame.

Ltac solve_sn := repeat first [solve [auto 2 with frame] | solve [by apply sn_modify] | keeps_step].

Lemma sn_kfree_skb p : keeps same_nets (kfree_skb p : NM W _).
Proof. unfold kfree_skb. solve_sn. Qed.
Lemma sn_dev_alloc_skb n : keeps same_nets (dev_alloc_skb n : NM W _).
Proof. unfold dev_alloc_skb. solve_sn. Qed.
Lemma sn_skb_put p n : keeps same_nets (skb_put p n : NM W _).
Proof. unfold skb_put. solve_sn. Qed.
Hint Resolve sn_kfree_skb sn_dev_alloc_skb sn_skb_put : frame.
Lemma sn_net_rx p : keeps same_nets (net_rx p).
Proof. unfold net_rx. solve_sn. Qed.
Hint Resolve sn_net_rx : frame.

Lemma sn_rx_fill nd e : keeps same_nets (rionet_rx_fill nd e : NM W _).
Proof. unfold rionet_rx_fill, rx_fill_step. solve_sn. Qed.
Lemma sn_rx_clean nd : keeps same_nets (rionet_rx_clean nd).
Proof. unfold rionet_rx_clean, rx_clean_step. solve_sn. Qed.
Hint Resolve sn_rx_fill sn_rx_clean : frame.
Lemma sn_inb p nd mb sl : keeps same_nets (rionet_inb_msg_event p nd mb sl).
Proof. unfold rionet_inb_msg_event. solve_sn. Qed.
Lemma sn_outb p nd mb sl : keeps same_nets (rionet_outb_msg_event p nd mb sl : NM W _).
Proof. unfold rionet_outb_msg_event, outb_step. solve_sn. Qed.
Lemma sn_queue skb nd rd : keeps same_nets (rionet_queue_tx_msg skb nd rd : NM W _).
Proof. unfold rionet_queue_tx_msg. solve_sn. Qed.
Hint Resolve sn_queue : frame.
Lemma sn_xmit_active skb nd i l c : keeps same_nets (xmit_active skb nd i l c : NM W _).
Proof. revert c. induction l; intros c; cbn; solve_sn. Qed.
Lemma sn_xmit_unicast skb nd i id : keeps same_nets (xmit_unicast skb nd i id : NM W _).
Proof. unfold xmit_unicast. solve_sn. Qed.
Hint Resolve sn_xmit_active sn_xmit_unicast : frame.
Lemma sn_xmit skb nd : keeps same_nets (rionet_start_xmit skb nd : NM W _).
Proof. unfold rionet_start_xmit. solve_sn. Qed.
Lemma sn_open f1 f2 f3 nd : keeps same_nets (rionet_open f1 f2 f3 nd : NM W _).
Proof. unfold rionet_open. solve_sn. Qed.
Lemma sn_release_peer pe : keeps same_nets (release_peer_res pe : NM W _).
Proof. unfold release_peer_res. solve_sn. Qed.
Lemma sn_alloc_etherdev : keeps same_nets (alloc_etherdev : NM W _).
Proof. unfold alloc_etherdev. solve_sn. Qed.
Lemma sn_free_netdev p : keeps same_nets (free_netdev p : NM W _).
Proof. unfold free_netdev. solve_sn. Qed.
Lemma sn_dev_netid d : keeps same_nets (dev_netid d : NM W _).
Proof. unfold dev_netid. solve_sn. Qed.
Hint Resolve sn_release_peer sn_alloc_etherdev sn_free_netdev sn_dev_netid : frame.
End peers.

(** ** The number of active peers *)

Definition active_count (a : list (option ptr)) : Z := Z.of_nat (length (omap id a)).

Lemma count_insert a k v :
  (k < length a)%nat -> active_count (<[k := v]> a) =
    active_count a - (if a !! k is Some (Some _) then 1 else 0) + (if v is Some _ then 1 else 0).
Proof.
  intros Hk. destruct (lookup_lt_is_Some_2 a k Hk) as [o Ho]. rewrite Ho.
  assert (active_count a = active_count (take k a ++ o :: drop (S k) a)) as -> by by rewrite take_drop_middle.
  rewrite insert_take_drop by done. unfold active_count. rewrite !omap_app, !length_app.
  destruct o, v; cbn; lia.
Qed.

(** The counter of a net covers the active peers, and has not wrapped around. *)
Definition covers (n : rionet_net) : Prop :=
  0 <= rn_nact n < 2 ^ 31 /\ forall a, rn_active n = Some a -> active_count a <= rn_nact n.

(** What the driver relies on: registering a network device does not call back into
    the table of nets, unregistering closes the device if it is open. *)
Class NetRely (W : Type) `{KernelEnv W} `{NetEnv W} := {
  register_quiet : forall p (s s' : nstate W) rc, register_netdev p s = Done rc s' -> nets s' = nets s;
  unregister_closes : forall p (s s' : nstate W), unregister_netdev p s = Done tt s' -> nets s' = nets s \/
    exists s1 s2 rc, nets s1 = nets s /\ rionet_close p s1 = Done rc s2 /\ nets s' = nets s2;
}.

Section covered.
Context {W : Type} `{!KernelEnv W} `{!NetEnv W}.
Implicit Types s : nstate W.

Definition covered s : Prop := Forall covers (nets s).
Definition cov s s' : Prop := covered s -> covered s'.
#[export] Instance cov_preorder : PreOrder cov.
Proof. split; [intros s H; exact H|]. intros s1 s2 s3 H1 H2 H. exact (H2 (H1 H)). Qed.

Lemma cov_same {A} (m : NM W A) : keeps same_nets m -> keeps cov m.
Proof. intros H s a s' Hr. apply H in Hr. unfold same_nets, cov, covered in *. by rewrite Hr. Qed.

Lemma covered_same s s' : same_nets s s' -> covered s -> covered s'.
Proof. unfold same_nets, covered. by intros ->. Qed.

(** What is known when an access has succeeded. *)
Lemma get_nets_Done i s n s' :
  get_nets i s = Done n s' -> s' = s /\ 0 <= i /\ nets s !! Z.to_nat i = Some n.
Proof.
  unfold get_nets, bind, gets, slot_get. destruct (Z.leb_spec 0 i); [|done].
  destruct (nets s !! Z.to_nat i); [|done]. intros [= -> ->]. done.
Qed.
Lemma upd_nets_Done i g s u s' :
  upd_nets i g s = Done u s' -> exists n, 0 <= i /\ nets s !! Z.to_nat i = Some n /\
    nets s' = <[Z.to_nat i := g n]> (nets s).
Proof.
  unfold upd_nets, bind. destruct (get_nets i s) as [n s1| |] eqn:E; [|done..].
  apply get_nets_Done in E as (-> & Hi & Hn). intros [= _ <-]. by exists n.
Qed.
Lemma get_active_Done i x s v s' :
  get_active i x s = Done v s' -> s' = s /\ exists n a, 0 <= i /\ nets s !! Z.to_nat i = Some n /\
    rn_active n = Some a /\ a !! Z.to_nat x = Some v.
Proof.
  unfold get_active, bind. destruct (get_nets i s) as [n s1| |] eqn:E; [|done..].
  apply get_nets_Done in E as (-> & Hi & Hn). destruct (rn_active n) as [a|] eqn:Ha; [|done].
  cbn. unfold slot_get. destruct (0 <=? x); [|done]. destruct (a !! Z.to_nat x) eqn:Hv; [|done].
  intros [= -> <-]. split; [done|]. by exists n, a.
Qed.
Lemma set_active_Done i x v s u s' :
  set_active i x v s = Done u s' -> exists n a, 0 <= i /\ nets s !! Z.to_nat i = Some n /\
    rn_active n = Some a /\ (Z.to_nat x < length a)%nat /\
    nets s' = <[Z.to_nat i := setf rn_active (Some (<[Z.to_nat x := v]> a)) n]> (nets s).
Proof.
  unfold set_active, bind at 1. destruct (get_nets i s) as [n s1| |] eqn:E; [|done..].
  apply get_nets_Done in E as (-> & Hi & Hn). destruct (rn_active n) as [a|] eqn:Ha; [|done].
  cbn [deref]. rewrite bind_ret. unfold bind at 1, slot_set.
  destruct (Z.leb_spec 0 x), (Z.ltb_spec x (Z.of_nat (length a))); try done. cbn [andb ret].
  intros H'. apply upd_nets_Done in H' as (n' & _ & Hn' & Hs'). assert (n' = n) as -> by congruence.
  exists n, a. split; [done|]. split; [done|]. split; [done|]. split; [lia|done].
Qed.

Lemma covered_at s i n : covered s -> nets s !! i = Some n -> covers n.
Proof. intros H Hn. exact (Forall_lookup_1 _ _ _ _ H Hn). Qed.
Lemma covered_set s s' i n : covered s -> covers n -> nets s' = <[i := n]> (nets s) -> covered s'.
Proof. intros H Hn E. unfold covered. rewrite E. by apply Forall_insert. Qed.

Lemma cov_upd_nets i g : (forall n, covers n -> covers (g n)) -> keeps cov (upd_nets i g : NM W unit).
Proof.
  intros Hg s u s' Hr Hc. apply upd_nets_Done in Hr as (n & Hi & Hn & E).
  eapply covered_set; [done| |exact E]. eapply Hg, covered_at; done.
Qed.
Lemma cov_clear i x : keeps cov (set_active i x None : NM W unit).
Proof.
  intros s u s' Hr Hc. apply set_active_Done in Hr as (n & a & Hi & Hn & Ha & Hx & E).
  destruct (covered_at _ _ _ Hc Hn) as [H1 H2]. eapply covered_set; [done| |exact E].
  split; [done|]. cbn. intros a' [= <-]. specialize (H2 _ Ha). rewrite count_insert by done.
  destruct (a !! Z.to_nat x) as [[]|]; lia.
Qed.

(** Leaving: the peer that goes was counted. *)
Lemma cov_leave {A} (pre : NM W A) i x :
  keeps same_nets pre ->
  keeps cov (a <- get_active i x ;;
    when (bool_decide (is_Some a)) (pre ;;; set_active i x None ;;;
      upd_nets i (fun n => setf rn_nact (s32 (rn_nact n - 1)) n))).
Proof.
  intros Hpre s u s' Hr Hc. unfold bind at 1 in Hr.
  destruct (get_active i x s) as [v s0| |] eqn:Ev; [|done..].
  apply get_active_Done in Ev as (-> & n & a & Hi & Hn & Ha & Hv).
  destruct v as [p|]; [|by injection Hr as _ <-]. rewrite bool_decide_true in Hr by done. cbn [when] in Hr.
  unfold bind at 1 in Hr. destruct (pre s) as [y s1| |] eqn:Ep; [|done..]. apply Hpre in Ep. unfold same_nets in Ep.
  unfold bind at 1 in Hr. destruct (set_active i x None s1) as [z s2| |] eqn:Es; [|done..].
  apply set_active_Done in Es as (n1 & a1 & _ & Hn1 & Ha1 & Hx & E1). rewrite Ep, Hn in Hn1. injection Hn1 as <-.
  rewrite Ha in Ha1. injection Ha1 as <-. apply upd_nets_Done in Hr as (n2 & _ & Hn2 & E2).
  rewrite E1, list_lookup_insert_eq in Hn2 by (rewrite Ep; by eapply lookup_lt_Some). injection Hn2 as <-.
  rewrite E1, list_insert_insert_eq in E2. rewrite Ep in E2.
  destruct (covered_at _ _ _ Hc Hn) as [H1 H2]. specialize (H2 _ Ha).
  eapply covered_set; [exact Hc| |exact E2].
  assert (0 < active_count a) as Hpos.
  { unfold active_count. assert (p ∈ omap id a) as Hin by (apply list_elem_of_omap; exists (Some p); split; [by eapply list_elem_of_lookup_2|done]).
    destruct (omap id a); [by apply elem_of_nil in Hin|cbn; lia]. }
  split; cbn; rewrite s32_small by lia; [lia|]. intros a' [= <-]. rewrite count_insert by done. rewrite Hv. lia.
Qed.

Lemma bind_inv {S A B} (m : M S A) (k : A -> M S B) (st : S) b st' :
  bind m k st = Done b st' -> exists a st1, m st = Done a st1 /\ k a st1 = Done b st'.
Proof. unfold bind. destruct (m st) as [a st1| |]; [|done..]. by exists a, st1. Qed.
Lemma keeps_assoc_r {S A B C} (R : S -> S -> Prop) (m : M S A) (f : A -> M S B) (k : B -> M S C) :
  keeps R (y <- (x <- m ;; f x) ;; k y) -> keeps R (x <- m ;; y <- f x ;; k y).
Proof. intros H st c st' Hr. apply (H st c). unfold bind in *. by destruct (m st). Qed.

(** Joining: every peer with the id of the doorbell is counted. *)
Definition join_body (i sid : Z) (peer : rionet_peer) : NM W unit :=
  d <- core (get_dev (pe_rdev peer)) ;;
  when (rd_destid d =? sid)
    (set_active i sid (Some (pe_rdev peer)) ;;;
     upd_nets i (fun n => setf rn_nact (s32 (rn_nact n + 1)) n)).

Lemma join_body_covered i sid peer s u s' n :
  join_body i sid peer s = Done u s' -> covered s -> nets s !! Z.to_nat i = Some n -> rn_nact n + 1 < 2 ^ 31 ->
  covered s' /\ exists n', nets s' !! Z.to_nat i = Some n' /\ rn_nact n' <= rn_nact n + 1.
Proof.
  intros Hr Hc Hn Hroom. apply bind_inv in Hr as (d & s1 & Hd & Hr). apply sn_core in Hd. unfold same_nets in Hd.
  destruct (rd_destid d =? sid); cbn [when] in Hr.
  - apply bind_inv in Hr as (z & s2 & Es & Hr).
    apply set_active_Done in Es as (n1 & a & _ & Hn1 & Ha & Hx & E1). rewrite Hd, Hn in Hn1. injection Hn1 as <-.
    apply upd_nets_Done in Hr as (n2 & _ & Hn2 & E2). pose proof (lookup_lt_Some _ _ _ Hn) as Hlt.
    rewrite E1, list_lookup_insert_eq in Hn2 by (by rewrite Hd). injection Hn2 as <-.
    rewrite E1, list_insert_insert_eq, Hd in E2. destruct (covered_at _ _ _ Hc Hn) as [H1 H2].
    specialize (H2 _ Ha). split.
    + eapply covered_set; [exact Hc| |exact E2]. split; cbn; rewrite s32_small by lia; [lia|].
      intros a' [= <-]. rewrite count_insert by done. destruct (a !! Z.to_nat sid) as [[]|]; lia.
    + eexists. rewrite E2, list_lookup_insert_eq by done. split; [done|]. cbn. rewrite s32_small by lia. lia.
  - injection Hr as _ <-. unfold covered. rewrite Hd. split; [done|]. exists n. split; [done|lia].
Qed.
Lemma join_loop_covered i sid l : forall s u s' n,
  for_ l (join_body i sid) s = Done u s' -> covered s -> nets s !! Z.to_nat i = Some n ->
  rn_nact n + Z.of_nat (length l) < 2 ^ 31 -> covered s'.
Proof.
  induction l as [|peer l IH]; intros s u s' n Hr Hc Hn Hroom; [by injection Hr as _ <-|]. cbn [length] in Hroom.
  apply bind_inv in Hr as (z & s1 & Hb & Hr).
  destruct (join_body_covered _ _ _ _ _ _ _ Hb Hc Hn ltac:(lia)) as (Hc1 & n1 & Hn1 & Hle).
  eapply IH; [exact Hr|done|exact Hn1|lia].
Qed.

(** ** The handlers *)

(** Room in the counters for all peers. *)
Definition room s : Prop := Forall (fun n => rn_nact n + Z.of_nat (length (rn_peers n)) < 2 ^ 31) (nets s).

Lemma dbell_covered mport ndev sid tid info s u s' :
  room s -> rionet_dbell_event mport ndev sid tid info s = Done u s' -> covered s -> covered s'.
Proof.
  intros Hroom Hr Hc. apply bind_inv in Hr as (r & s1 & E1 & Hr). apply sn_get_priv in E1.
  apply bind_inv in Hr as (mp & s2 & E2 & Hr). apply sn_rnet_mport in E2. unfold same_nets in E1, E2.
  assert (covered s2) as Hc2 by (unfold covered; by rewrite E2, E1).
  destruct (info =? RIONET_DOORBELL_JOIN); [|destruct (info =? RIONET_DOORBELL_LEAVE)].
  - apply bind_inv in Hr as (v & s3 & E3 & Hr). apply get_active_Done in E3 as (-> & _).
    destruct v; [by injection Hr as _ <-|].
    apply bind_inv in Hr as (n & s3 & E3 & Hr). apply get_nets_Done in E3 as (-> & Hi & Hn).
    apply bind_inv in Hr as (z & s3 & E3 & Hr). fold (join_body (mp_id mp) sid) in E3.
    assert (covered s3) as Hc3.
    { eapply join_loop_covered; [exact E3|done|exact Hn|]. rewrite E2, E1 in Hn. exact (Forall_lookup_1 _ _ _ _ Hroom Hn). }
    apply bind_inv in Hr as (y & s4 & E4 & Hr). apply sn_core in E4. unfold same_nets in E4.
    injection Hr as _ <-. unfold covered. by rewrite E4.
  - refine (cov_leave (ret tt) (mp_id mp) sid _ _ _ _ Hr Hc2). apply keeps_ret. typeclasses eauto.
  - by injection Hr as _ <-.
Qed.

Lemma cov_leave_peer i peer : keeps cov (leave_peer i peer : NM W unit).
Proof.
  unfold leave_peer. apply keeps_bind; [typeclasses eauto|apply cov_same, sn_core|]. intros d.
  apply keeps_bind; [typeclasses eauto|apply cov_same, sn_get_active|]. intros a.
  apply keeps_when; [typeclasses eauto|]. apply keeps_bind; [typeclasses eauto|apply cov_same, sn_core|].
  intros _. apply cov_clear.
Qed.
Hint Resolve sn_get_ndev sn_get_nets sn_get_skb sn_lift sn_core sn_slot_get sn_slot_set sn_upd_skb sn_upd_ndev sn_get_priv sn_upd_priv
  sn_rnet_mport sn_get_active sn_kfree_skb sn_release_peer sn_dev_netid sn_free_netdev sn_alloc_etherdev : frame.
Hint Resolve cov_leave_peer cov_clear : frame.
Ltac solve_cov := repeat first [solve [auto 2 with frame] | solve [apply cov_same; auto 2 with frame] | keeps_step].

Lemma cov_close nd : keeps cov (rionet_close nd : NM W Z).
Proof. unfold rionet_close. solve_cov. Qed.
Lemma cov_shutdown : keeps cov (rionet_shutdown : NM W unit).
Proof. unfold rionet_shutdown. solve_cov. Qed.
Lemma cov_set_peers i l : keeps cov (upd_nets i (setf rn_peers l) : NM W unit).
Proof. by apply cov_upd_nets. Qed.
Hint Resolve cov_close cov_set_peers : frame.
Lemma cov_remove_dev rd : keeps cov (rionet_remove_dev rd : NM W unit).
Proof.
  unfold rionet_remove_dev. keeps_step; [solve_cov|]. intros d. keeps_step; [solve_cov|]. intros i.
  destruct (negb _); [solve_cov|]. keeps_step; [solve_cov|]. intros n.
  destruct (take_peer rd (rn_peers n)) as [[peer peers]|]; [|solve_cov]. keeps_step; [solve_cov|]. intros _.
  apply keeps_assoc_r. keeps_step; [|solve_cov]. apply cov_leave. apply keeps_when; [typeclasses eauto|].
  apply keeps_bind; [typeclasses eauto|apply sn_core|]. intros _. apply keeps_ret. typeclasses eauto.
Qed.

(** *** Devices coming and going *)

Definition same_ports s s' : Prop := ks_mports (ms_k (ns_m s')) = ks_mports (ms_k (ns_m s)).
#[export] Instance same_ports_preorder : PreOrder same_ports.
Proof. split; [done|]. intros s1 s2 s3 H1 H2. unfold same_ports in *. congruence. Qed.

Lemma core_inv {A} (m : KM W A) s a s' :
  (core m : NM W A) s = Done a s' -> exists k, m (ms_k (ns_m s)) = Done a k /\ s' = setf ns_m (setf ms_k k (ns_m s)) s.
Proof.
  unfold core, lift, lift_k. cbn. destruct (m (ms_k (ns_m s))) as [b k| |]; [|done..]. intros [= -> <-]. by exists k.
Qed.
Lemma sp_core {A} (m : KM W A) : keeps same_kernel m -> keeps same_ports (core m : NM W A).
Proof. intros H s a s' Hr. apply core_inv in Hr as (k & Hk & ->). apply H in Hk. unfold same_ports. cbn. by rewrite Hk. Qed.
Lemma core_both {A} (m : KM W A) s a s' :
  (core m : NM W A) s = Done a s' -> keeps same_kernel m -> same_nets s s' /\ same_ports s s'.
Proof. intros Hr H. split; [by eapply sn_core|by eapply sp_core]. Qed.
Lemma sp_kzalloc : keeps same_ports (core kzalloc : NM W bool).
Proof.
  intros s a s' Hr. apply core_inv in Hr as (k & Hk & ->). rewrite run_kzalloc in Hk.
  destruct (env_alloc (ks_hw (ms_k (ns_m s)))).1; by injection Hk as _ <-.
Qed.
Lemma sp_alloc_etherdev : keeps same_ports (alloc_etherdev : NM W (option ptr)).
Proof.
  unfold alloc_etherdev. apply keeps_bind; [typeclasses eauto|apply sp_kzalloc|]. intros [|]; [|apply keeps_ret; typeclasses eauto].
  apply keeps_bind; [typeclasses eauto| |].
  - intros s a s' Hr. apply core_inv in Hr as (k & [= _ <-] & ->). done.
  - intros p. apply keeps_bind; [typeclasses eauto| |intros _; apply keeps_ret; typeclasses eauto].
    by intros s a s' [= _ <-].
Qed.

Lemma core_get_mport_inv hport s mp s' :
  (core (get_mport hport) : NM W _) s = Done mp s' -> s' = s /\ ks_mports (ms_k (ns_m s)) !! hport = Some mp.
Proof.
  intros H. apply core_inv in H as (k & Hk & ->). unfold get_mport, gets, bind in Hk.
  destruct (ks_mports (ms_k (ns_m s)) !! hport); [|done]. injection Hk as -> <-. split; [by destruct s as [[] ]|done].
Qed.

Lemma count_none n : active_count (replicate n None) = 0.
Proof. by induction n. Qed.

(** Nobody is active in a net. *)
Definition nobody (i : Z) s : Prop := forall n a, nets s !! Z.to_nat i = Some n -> rn_active n = Some a -> active_count a = 0.
Lemma nobody_same i s s' : same_nets s s' -> nobody i s -> nobody i s'.
Proof. unfold same_nets, nobody. by intros ->. Qed.

Context `{!NetRely W}.

Lemma setup_covered hport nd s rc s' :
  rionet_setup_netdev hport nd s = Done rc s' -> covered s ->
  covered s' /\ (rc = 0 -> exists mp, ks_mports (ms_k (ns_m s)) !! hport = Some mp /\ nobody (mp_id mp) s').
Proof.
  intros Hr Hc. unfold rionet_setup_netdev in Hr. apply bind_inv in Hr as (mp & s1 & E & Hr).
  apply core_get_mport_inv in E as [-> Hmp].
  apply bind_inv in Hr as (ok & s1 & E & Hr). apply sn_core in E.
  apply bind_inv in Hr as (u & s2 & E2 & Hr).
  assert (covered s2) as Hc2.
  { refine (cov_upd_nets _ _ _ _ _ _ E2 (covered_same _ _ E Hc)). intros n [H1 H2]. split; [done|]. cbn.
    destruct ok; [|done]. intros a [= <-]. rewrite count_none. lia. }
  destruct ok; cbn [negb] in Hr; [|injection Hr as <- <-; by split].
  assert (nobody (mp_id mp) s2) as Hno.
  { apply upd_nets_Done in E2 as (n & _ & Hn & E2). intros n' a. rewrite E2, list_lookup_insert_eq by (by eapply lookup_lt_Some).
    intros [= <-]. cbn. intros [= <-]. apply count_none. }
  clear E E2. apply bind_inv in Hr as (u2 & s3 & E3 & Hr). apply sn_upd_priv in E3.
  apply bind_inv in Hr as (di & s4 & E4 & Hr). apply sn_core in E4.
  apply bind_inv in Hr as (u4 & s5 & E5 & Hr). apply sn_upd_ndev in E5.
  apply bind_inv in Hr as (u5 & s6 & E6 & Hr). apply sn_upd_priv in E6.
  apply bind_inv in Hr as (rc' & s7 & E7 & Hr). apply register_quiet in E7.
  assert (same_nets s2 s7) as Hs by (unfold same_nets in *; congruence).
  pose proof (covered_same _ _ Hs Hc2) as Hc7.
  unfold truthy in Hr. destruct (Z.eqb_spec rc' 0) as [->|Hne]; cbn [negb] in Hr.
  - injection Hr as <- <-. split; [done|]. intros _. exists mp. split; [done|]. by eapply nobody_same.
  - apply bind_inv in Hr as (u6 & s8 & E8 & Hr). apply sn_core in E8.
    apply bind_inv in Hr as (u7 & s9 & E9 & Hr). injection Hr as <- <-. split; [|done].
    refine (cov_upd_nets _ _ _ _ _ _ E9 (covered_same _ _ E8 Hc7)). by intros n [H1 _].
Qed.

Lemma add_netdev_covered hport netid s rc s' mp :
  add_netdev hport netid s = Done rc s' -> covered s ->
  ks_mports (ms_k (ns_m s)) !! hport = Some mp -> netid = mp_id mp -> covered s'.
Proof.
  intros Hr Hc Hmp ->. unfold add_netdev in Hr. apply bind_inv in Hr as (n & s1 & E & Hr).
  apply get_nets_Done in E as (-> & Hi & Hn). destruct (rn_ndev n); [by injection Hr as _ <-|].
  apply bind_inv in Hr as (v1 & s1 & E1 & Hr).
  apply core_both in E1 as [N1 P1]; [|auto with frame].
  apply bind_inv in Hr as ([c1 l1] & s2 & E2 & Hr).
  apply core_both in E2 as [N2 P2]; [|auto with frame].
  apply bind_inv in Hr as (v2 & s3 & E3 & Hr).
  apply core_both in E3 as [N3 P3]; [|auto with frame].
  apply bind_inv in Hr as ([c2 l2] & s4 & E4 & Hr).
  apply core_both in E4 as [N4 P4]; [|auto with frame].
  assert (same_nets s s4) as N by (unfold same_nets in *; congruence).
  assert (same_ports s s4) as P by (unfold same_ports in *; congruence).
  destruct (negb _); [injection Hr as _ <-; exact (covered_same _ _ N Hc)|].
  apply bind_inv in Hr as (p & s5 & E5 & Hr).
  pose proof (sn_alloc_etherdev _ _ _ E5) as N5. apply sp_alloc_etherdev in E5 as P5.
  pose proof (covered_same _ _ N5 (covered_same _ _ N Hc)) as Hc5.
  destruct p as [nd|]; [|by injection Hr as _ <-].
  apply bind_inv in Hr as (rc' & s6 & E6 & Hr). destruct (setup_covered _ _ _ _ _ E6 Hc5) as [Hc6 Hno].
  unfold truthy in Hr. destruct (Z.eqb_spec rc' 0) as [->|Hne]; cbn [negb] in Hr.
  - destruct (Hno eq_refl) as (mp' & Hmp' & Hnob). rewrite P5, P, Hmp in Hmp'. injection Hmp' as <-.
    apply bind_inv in Hr as (u & s7 & E7 & Hr). injection Hr as _ <-.
    apply upd_nets_Done in E7 as (n' & _ & Hn' & E7). eapply covered_set; [exact Hc6| |exact E7].
    split; cbn; [lia|]. intros a Ha. by rewrite (Hnob _ _ Hn' Ha).
  - apply bind_inv in Hr as (u & s7 & E7 & Hr). apply sn_free_netdev in E7. injection Hr as _ <-.
  exact (covered_same _ _ E7 Hc6).
Qed.

Lemma core_get_dev_inv rd s d s' :
  (core (get_dev rd) : NM W _) s = Done d s' -> s' = s.
Proof.
  intros H. apply core_inv in H as (k & Hk & ->). unfold get_dev, gets, bind in Hk.
  destruct (ks_devs (ms_k (ns_m s)) !! rd); [|done]. injection Hk as _ <-. by destruct s as [[] ].
Qed.
Lemma dev_netid_inv d s i s' :
  dev_netid d s = Done i s' -> s' = s /\ exists hport mp, ks_mports (ms_k (ns_m s)) !! hport = Some mp /\ i = mp_id mp /\
    dev_hport d (ms_k (ns_m s)) = Done hport (ms_k (ns_m s)).
Proof.
  unfold dev_netid. intros H. apply bind_inv in H as (hport & s1 & E & H). apply core_inv in E as (k & Hk & ->).
  assert (k = ms_k (ns_m s)) as ->.
  { unfold dev_hport, deref, get_net, gets, bind in Hk. destruct (rd_net d) as [n|]; [|done]. cbn in Hk.
    destruct (ks_nets (ms_k (ns_m s)) !! n); [|done]. cbn in Hk. destruct (net_hport _); [by injection Hk|done]. }
  apply bind_inv in H as (mp & s2 & E2 & H). apply core_get_mport_inv in E2 as [-> Hmp]. injection H as <- <-.
  split; [by destruct s as [[] ]|]. exists hport, mp. done.
Qed.

Lemma cov_add_peer i p : keeps cov (upd_nets i (fun n => setf rn_peers (rn_peers n ++ [p]) n) : NM W unit).
Proof. by apply cov_upd_nets. Qed.
Hint Resolve cov_add_peer : frame.

Lemma add_dev_covered rd s rc s' : rionet_add_dev rd s = Done rc s' -> covered s -> covered s'.
Proof.
  intros Hr Hc. unfold rionet_add_dev in Hr. apply bind_inv in Hr as (d & s1 & E & Hr).
  apply core_get_dev_inv in E as ->. apply bind_inv in Hr as (i & s1 & E & Hr).
  apply dev_netid_inv in E as (-> & hport & mp & Hmp & -> & Hh).
  destruct (_ <=? _); [by injection Hr as _ <-|]. apply bind_inv in Hr as (hp & s1 & E & Hr).
  apply core_inv in E as (k & Hk & ->). rewrite Hh in Hk. injection Hk as <- <-.
  apply bind_inv in Hr as (rc1 & s2 & E2 & Hr).
  assert (covered s2) as Hc2 by (eapply add_netdev_covered; [exact E2|exact Hc|exact Hmp|done]).
  match type of Hr with ?m s2 = _ => assert (keeps cov m) as K end; [|exact (K _ _ _ Hr Hc2)].
  solve_cov. by apply cov_same, sn_modify.
Qed.

Lemma remove_mport_covered mport s u s' : rionet_remove_mport mport s = Done u s' -> covered s -> covered s'.
Proof.
  intros Hr Hc. unfold rionet_remove_mport in Hr. apply bind_inv in Hr as (mp & s1 & E & Hr).
  apply core_get_mport_inv in E as [-> Hmp]. apply bind_inv in Hr as (n & s1 & E & Hr).
  apply get_nets_Done in E as (-> & Hi & Hn). destruct (rn_ndev n) as [nd|]; [|by injection Hr as _ <-].
  apply bind_inv in Hr as (u1 & s1 & E1 & Hr). apply sn_upd_ndev in E1.
  apply bind_inv in Hr as ([] & s2 & E2 & Hr).
  assert (covered s2) as Hc2.
  { apply covered_same in E1; [|done]. apply unregister_closes in E2 as [E2|(a & b & rc & Ha & Hab & Hb)].
    - by apply (covered_same s1).
    - apply (covered_same b); [done|]. eapply cov_close; [exact Hab|]. by apply (covered_same s1). }
  assert (forall v, keeps cov (upd_nets (mp_id mp) (setf rn_ndev v) : NM W unit)) as K1 by (intros v; by apply cov_upd_nets).
  assert (keeps cov (upd_nets (mp_id mp) (setf rn_active None) : NM W unit)) as K2
    by (apply cov_upd_nets; by intros n' [? _]).
  match type of Hr with ?m s2 = _ => assert (keeps cov m) as K end; [|exact (K _ _ _ Hr Hc2)].
  repeat first [apply K1|apply K2|solve [apply cov_same; auto 2 with frame]|keeps_step].
Qed.
End covered.

(** ** Everything the driver does *)

Section steps.
Context {W : Type} `{!KernelEnv W} `{!NetEnv W}.

(** The entry points.  A join doorbell comes when the counters have room for the
    peers of their nets: closing a device leaves its counter as it is, so that it can
    grow without end. *)
Inductive rionet_step : nstate W -> nstate W -> Prop :=
| step_xmit skb ndev s rc s' : rionet_start_xmit skb ndev s = Done rc s' -> rionet_step s s'
| step_dbell mport ndev sid tid info s s' : room s ->
    rionet_dbell_event mport ndev sid tid info s = Done tt s' -> rionet_step s s'
| step_inb mport ndev mbox slot s s' : rionet_inb_msg_event mport ndev mbox slot s = Done tt s' -> rionet_step s s'
| step_outb mport ndev mbox slot s s' : rionet_outb_msg_event mport ndev mbox slot s = Done tt s' -> rionet_step s s'
| step_open f1 f2 f3 ndev s rc s' : rionet_open f1 f2 f3 ndev s = Done rc s' -> rionet_step s s'
| step_close ndev s rc s' : rionet_close ndev s = Done rc s' -> rionet_step s s'
| step_add_dev rdev s rc s' : rionet_add_dev rdev s = Done rc s' -> rionet_step s s'
| step_remove_dev rdev s s' : rionet_remove_dev rdev s = Done tt s' -> rionet_step s s'
| step_shutdown s s' : rionet_shutdown s = Done tt s' -> rionet_step s s'
| step_remove_mport mport s s' : rionet_remove_mport mport s = Done tt s' -> rionet_step s s'
| step_outside s s' : nets s' = nets s -> rionet_step s s'.

Context `{!NetRely W}.

Lemma step_covered s s' : rionet_step s s' -> covered s -> covered s'.
Proof.
  intros [] Hc.
  - eapply covered_same; [by eapply sn_xmit|done].
  - by eapply dbell_covered.
  - eapply covered_same; [by eapply sn_inb|done].
  - eapply covered_same; [by eapply sn_outb|done].
  - eapply covered_same; [by eapply sn_open|done].
  - by eapply cov_close.
  - by eapply add_dev_covered.
  - by eapply cov_remove_dev.
  - by eapply cov_shutdown.
  - by eapply remove_mport_covered.
  - by eapply covered_same.
Qed.
Lemma steps_covered s s' : rtc rionet_step s s' -> covered s -> covered s'.
Proof. intros Hr. induction Hr as [s|s s1 s' Hs _ IH]; [done|]. intros Hc. by eapply IH, step_covered. Qed.

(** C18: Whatever the driver and its environment do, the counter of a net is never less
    than the number of its active peers, so that the room that a multicast frame is
    given in the transmit ring is enough. *)
Theorem rionet_peers_covered s s' :
  Forall (fun n => rn_nact n = 0 /\ rn_active n = None) (nets s) -> rtc rionet_step s s' ->
  forall i n a, nets s' !! i = Some n -> rn_active n = Some a -> active_count a <= rn_nact n.
Proof.
  intros H0 Hr i n a Hn Ha. eapply steps_covered in Hr.
  - destruct (covered_at _ _ _ Hr Hn) as [_ H]. by apply H.
  - eapply Forall_impl; [exact H0|]. intros n' [H1 H2]. split; [by rewrite H1|]. by rewrite H2.
Qed.
End steps.

(** ** Witness: two devices are added and join *)

#[export] Instance cmw_net_env : NetEnv cmworld := {|
  netif_rx _ w := (0, w); register_netdev _ := ret 0; unregister_netdev _ := ret tt;
|}.
#[export] Instance cmw_net_rely : NetRely cmworld.
Proof. split; [by intros p s s' rc [= _ <-]|]. intros p s s' [= <-]. by left. Qed.

(** A port with all capabilities. *)
Definition nw_ops : rio_ops cmworld := {|
  op_lcread _ _ _ _ w := ((0, 0xffffffff), w);
  op_lcwrite := op_lcwrite cmw_ops; op_cread := op_cread cmw_ops; op_cwrite := op_cwrite cmw_ops;
  op_dsend := op_dsend cmw_ops; op_pwenable := None;
  op_open_outb_mbox := None; op_close_outb_mbox := None;
  op_open_inb_mbox := None; op_close_inb_mbox := None;
  op_map_inb := None; op_unmap_inb := None; op_query_mport := None;
  op_map_outb := None; op_unmap_outb := None;
  op_add_outb_message := op_add_outb_message cmw_ops;
  op_add_inb_buffer := op_add_inb_buffer cmw_ops; op_get_inb_message := op_get_inb_message cmw_ops;
|}.
Definition nw_dev (destid : Z) : rio_dev :=
  setf rd_destid destid (setf rd_net (Some 8%positive) (setf rd_src_ops 0xffffffff
    (setf rd_dst_ops 0xffffffff (zero_rio_dev None)))).
Definition nw_boot : nstate cmworld := {|
  ns_m := {|
    ms_k := setf ks_mports {[ 1%positive := setf mp_ops nw_ops cmw_mport ]}
      (setf ks_nets {[ 8%positive := mk_rio_net true [] [] [] (Some 1%positive) 0 None false ]}
      (setf ks_devs {[ 2%positive := nw_dev 9; 4%positive := nw_dev 12 ]} (ms_k (cs_m (cmw_state ∅ ∅ ∅ ∅)))));
    ms_bufs := ∅ |};
  ns_skbs := ∅; ns_ndevs := ∅; ns_res := ∅;
  nets := replicate 8 (mk_rionet_net None [] None 0);
|}.
Definition after {A} (m : NM cmworld A) (s : nstate cmworld) : nstate cmworld :=
  match m s with Done _ s' => s' | _ => s end.
Definition nw_added : nstate cmworld := after (rionet_add_dev 4) (after (rionet_add_dev 2) nw_boot).
(** The network device is the object at address 100. *)
Definition nw_join (sid : Z) : NM cmworld unit := rionet_dbell_event 1 100 sid 0 RIONET_DOORBELL_JOIN.
Definition nw_joined : nstate cmworld := after (nw_join 12) (after (nw_join 9) nw_added).

Lemma rionet_peers_covered_witness :
  rtc rionet_step nw_boot nw_joined /\
  exists n a, nets nw_joined !! 0%nat = Some n /\ rn_active n = Some a /\ active_count a = 2 /\
    active_count a <= rn_nact n.
Proof.
  assert (rtc rionet_step nw_boot nw_joined) as Hr.
  { eapply rtc_l; [apply (step_add_dev 2 _ 0 (after (rionet_add_dev 2) nw_boot)); vm_compute; reflexivity|].
    eapply rtc_l; [apply (step_add_dev 4 _ 0 nw_added); vm_compute; reflexivity|].
    eapply rtc_l; [apply (step_dbell 1 100 9 0 RIONET_DOORBELL_JOIN _ (after (nw_join 9) nw_added));
      [apply (bool_decide_unpack _); vm_compute; exact I|vm_compute; reflexivity]|].
    apply rtc_once. apply (step_dbell 1 100 12 0 RIONET_DOORBELL_JOIN);
      [apply (bool_decide_unpack _); vm_compute; exact I|vm_compute; reflexivity]. }
  split; [exact Hr|].
  assert (Forall (fun n => rn_nact n = 0 /\ rn_active n = None) (nets nw_boot)) as H0 by (cbn [nets nw_boot]; by repeat constructor).
  assert (exists n a, nets nw_joined !! 0%nat = Some n /\ rn_active n = Some a /\ active_count a = 2)
    as (n & a & Hn & Ha & Hc) by (vm_compute; do 2 eexists; done).
  exists n, a. split; [exact Hn|]. split; [exact Ha|]. split; [exact Hc|].
  exact (rionet_peers_covered nw_boot nw_joined H0 Hr 0%nat n a Hn Ha).
Defined.
