(* ===== verification/RioDma.v ===== *)
(** * DMA transfers between RapidIO and memory: the core's interface

    What drivers that offer DMA channels and their clients share: scatter lists, transfer
    requests, and the wrappers of rio.c around the kernel's DMA engine. *)

From S2P Require Import Prelude Regs State Msg.

(** An entry of a scatter list: a piece of memory by its kernel address, if it has one,
    and, once it is mapped, the piece as the device sees it.  The last entry of a list is
    marked as such. *)
Record sg_entry := mk_sg_entry { sg_buf : option Z; sg_length : Z; sg_dma_address : Z; sg_dma_len : Z }.
#[export] Instance eta_sg_entry : Eta sg_entry := fun r =>
  mk_sg_entry (sg_buf r) (sg_length r) (sg_dma_address r) (sg_dma_len r).

(** Enumerations and flags of the DMA engine. *)
Inductive dma_status := DMA_COMPLETE | DMA_IN_PROGRESS | DMA_PAUSED | DMA_ERROR.
#[export] Instance dma_status_eq_dec : EqDecision dma_status.
Proof. solve_decision. Defined.
Inductive dma_transfer_direction := DMA_MEM_TO_MEM | DMA_MEM_TO_DEV | DMA_DEV_TO_MEM | DMA_DEV_TO_DEV.
#[export] Instance dma_transfer_direction_eq_dec : EqDecision dma_transfer_direction.
Proof. solve_decision. Defined.
Definition DMA_PREP_INTERRUPT : Z := 1.
Definition DMA_CTRL_ACK : Z := 2.

(** enum rio_write_type *)
Inductive rio_write_type := RDW_DEFAULT | RDW_ALL_NWRITE | RDW_ALL_NWRITE_R | RDW_LAST_NWRITE_R.
#[export] Instance rio_write_type_eq_dec : EqDecision rio_write_type.
Proof. solve_decision. Defined.

Record rio_dma_ext := mk_rio_dma_ext {
  re_destid : Z; re_rio_addr : Z; re_rio_addr_u : Z; re_wr_type : rio_write_type;
  re_ssdist : Z; re_sssize : Z; re_dsdist : Z; re_dssize : Z;
}.

Record rio_dma_data := mk_rio_dma_data {
  da_sg : option (list sg_entry); da_sg_len : Z; da_rio_addr : Z; da_rio_addr_u : Z;
  da_wr_type : rio_write_type; da_ssdist : Z; da_sssize : Z; da_dsdist : Z; da_dssize : Z;
}.

(** The DMA engine as clients see it; it may call them back, so that it acts on their
    whole state.  A channel and a transaction descriptor are opaque.  A preparation ends with
    an error pointer, a null pointer or a descriptor. *)
Class DmaEngine (S : Type) := {
  (** the port whose DMA device the channel belongs to *)
  chan_mport : ptr -> S -> ptr;
  dma_request_channel : (ptr -> bool) -> M S (option ptr);
  dma_release_channel : ptr -> M S unit;
  device_prep_slave_sg : option (ptr -> option (list sg_entry) -> Z -> dma_transfer_direction -> Z ->
    rio_dma_ext -> M S (Z + option ptr));
  (** the callback is the client's; its parameter is given with the descriptor *)
  tx_set_callback : ptr -> ptr -> M S unit;
  dmaengine_submit : ptr -> M S Z;
  dma_async_issue_pending : ptr -> M S unit;
  dmaengine_terminate_all : ptr -> M S unit;
  dma_async_is_tx_complete : ptr -> Z -> M S dma_status;
}.

Section wrappers.
Context {W S : Type} `{!KernelEnv W} `{!MsgState W S} `{!DmaEngine S}.

(** The channel must belong to the DMA device of the port. *)
Definition rio_chan_filter (s : S) (mport chan : ptr) : bool := bool_decide (mport = chan_mport chan s).

Definition rio_request_mport_dma (mport : ptr) : M S (option ptr) :=
  s <- gets (fun s => s) ;; dma_request_channel (rio_chan_filter s mport).

Definition rio_request_dma (rdev : ptr) : M S (option ptr) :=
  d <- core (get_dev rdev) ;;
  hport <- core (dev_hport d) ;;
  rio_request_mport_dma hport.

Definition rio_release_dma (dchan : ptr) : M S unit := dma_release_channel dchan.

Definition rio_dma_prep_xfer (dchan : ptr) (destid : Z) (data : rio_dma_data)
    (direction : dma_transfer_direction) (flags : Z) : M S (Z + option ptr) :=
  match device_prep_slave_sg with
  | None => ret (inr None)
  | Some prep =>
      prep dchan (da_sg data) (da_sg_len data) direction flags
        (mk_rio_dma_ext destid (da_rio_addr data) (da_rio_addr_u data) (da_wr_type data)
          (da_ssdist data) (da_sssize data) (da_dsdist data) (da_dssize data))
  end.

Definition rio_dma_prep_slave_sg (rdev dchan : ptr) (data : rio_dma_data)
    (direction : dma_transfer_direction) (flags : Z) : M S (Z + option ptr) :=
  d <- core (get_dev rdev) ;;
  rio_dma_prep_xfer dchan (rd_destid d) data direction flags.
End wrappers.
