(* ===== verification/Tsi721Regs.v ===== *)
(** * Registers of the Tsi721 (devices/tsi721.h)

    Offsets in the register space of the bridge and in its PCI configuration space,
    the masks of their fields, sizes of rings and descriptors. *)

From S2P Require Import Prelude Regs Msg.

(** ** Registers and limits *)

Definition TSI721_PC2SR_WINS : Z := 8.
Definition TSI721_PC2SR_ZONES : Z := 8.
Definition IDB_QUEUE : Z := 0.
Definition IDB_QSIZE : Z := 512.
Definition TSI721_REG_SPACE_SIZE : Z := 512 * 1024.
Definition TSI721_DB_WIN_SIZE : Z := 16 * 1024 * 1024.
Definition RIO_TT_CODE_8 : Z := 0x00000000.
Definition RIO_TT_CODE_16 : Z := 0x00000001.
Definition TSI721_DMA_MAXCH : Z := 8.
Definition TSI721_DMA_MINSTSSZ : Z := 32.
Definition TSI721_SRIO_MAXCH : Z := 8.
Definition TSI721_RIO_PW_MSG_SIZE : Z := 16.
Definition TSI721_PCIECFG_MSIXTBL : Z := 0x0a4.
Definition TSI721_MSIXTBL_OFFSET : Z := 0x2c000.
Definition TSI721_PCIECFG_MSIXPBA : Z := 0x0a8.
Definition TSI721_MSIXPBA_OFFSET : Z := 0x2a000.
Definition TSI721_PCIECFG_EPCTL : Z := 0x400.
Definition TSI721_RIO_PLM_IMP_SPEC_CTL : Z := 0x10080.
Definition TSI721_RIO_PLM_IMP_SPEC_CTL_FREINIT : Z := 0x04000000.
Definition TSI721_RIO_EM_INT_STAT : Z := 0x10910.
Definition TSI721_RIO_EM_INT_STAT_PW_RX : Z := 0x00010000.
Definition TSI721_RIO_EM_INT_ENABLE : Z := 0x10914.
Definition TSI721_RIO_EM_INT_ENABLE_PW_RX : Z := 0x00010000.
Definition TSI721_RIO_EM_DEV_INT_EN : Z := 0x10930.
Definition TSI721_RIO_EM_DEV_INT_EN_INT : Z := 0x00000001.
Definition TSI721_RIO_PW_CTL : Z := 0x10a04.
Definition TSI721_RIO_PW_CTL_PWC_REL : Z := 0x01000000.
Definition TSI721_RIO_PW_RX_STAT : Z := 0x10a10.
Definition TSI721_RIO_PW_RX_STAT_PW_DISC : Z := 0x00000002.
Definition TSI721_RIO_PW_RX_STAT_PW_VAL : Z := 0x00000001.
Definition TSI721_RIO_PW_RX_CAPT (x : Z) : Z := 0x10a20 + x*4.
Definition TSI721_IDB_ENTRY_SIZE : Z := 64.
Definition TSI721_IDQ_CTL (x : Z) : Z := 0x20000 + x * 0x1000.
Definition TSI721_IDQ_INIT : Z := 0x00000001.
Definition TSI721_IDQ_MASK (x : Z) : Z := 0x20008 + x * 0x1000.
Definition TSI721_IDQ_RP (x : Z) : Z := 0x2000c + x * 0x1000.
Definition TSI721_IDQ_WP (x : Z) : Z := 0x20010 + x * 0x1000.
Definition TSI721_IDQ_BASEL (x : Z) : Z := 0x20014 + x * 0x1000.
Definition TSI721_IDQ_BASEL_ADDR : Z := 0xffffffc0.
Definition TSI721_IDQ_BASEU (x : Z) : Z := 0x20018 + x * 0x1000.
Definition TSI721_IDQ_SIZE (x : Z) : Z := 0x2001c + x * 0x1000.
Definition TSI721_SR_CHINT (x : Z) : Z := 0x20040 + x * 0x1000.
Definition TSI721_SR_CHINTE (x : Z) : Z := 0x20044 + x * 0x1000.
Definition TSI721_SR_CHINT_ODBOK : Z := 0x00000020.
Definition TSI721_SR_CHINT_IDBQRCV : Z := 0x00000010.
Definition TSI721_SR_CHINT_ODBTO : Z := 0x00000004.
Definition TSI721_SR_CHINT_ODBRTRY : Z := 0x00000002.
Definition TSI721_SR_CHINT_ODBERR : Z := 0x00000001.
Definition TSI721_SR_CHINT_ALL : Z := 0x0000003f.
Definition TSI721_ODB_CNT (x : Z) : Z := 0x20100 + x * 0x1000.
Definition TSI721_ODB_CNT_OK : Z := 0x0000ffff.
Definition TSI721_IBWIN_NUM : Z := 8.
Definition TSI721_IBWIN_LB (x : Z) : Z := 0x29000 + x * 0x20.
Definition TSI721_IBWIN_LB_BA : Z := 0xfffff000.
Definition TSI721_IBWIN_LB_WEN : Z := 0x00000001.
Definition TSI721_IBWIN_UB (x : Z) : Z := 0x29004 + x * 0x20.
Definition TSI721_IBWIN_SZ (x : Z) : Z := 0x29008 + x * 0x20.
Definition TSI721_IBWIN_TLA (x : Z) : Z := 0x2900c + x * 0x20.
Definition TSI721_IBWIN_TLA_ADD : Z := 0xfffff000.
Definition TSI721_IBWIN_TUA (x : Z) : Z := 0x29010 + x * 0x20.
Definition TSI721_SR2PC_GEN_INTE : Z := 0x29800.
Definition TSI721_DEV_INTE : Z := 0x29840.
Definition TSI721_DEV_INT : Z := 0x29844.
Definition TSI721_DEV_INT_BDMA_CH : Z := 0x00002000.
Definition TSI721_DEV_INT_SMSG_CH : Z := 0x00000800.
Definition TSI721_DEV_INT_SR2PC_CH : Z := 0x00000200.
Definition TSI721_DEV_INT_SRIO : Z := 0x00000020.
Definition TSI721_DEV_CHAN_INTE : Z := 0x2984c.
Definition TSI721_DEV_CHAN_INT : Z := 0x29850.
Definition TSI721_INT_SR2PC_CHAN (x : Z) : Z := Z.shiftl 1 (24 + x).
Definition TSI721_INT_IMSG_CHAN_M : Z := 0x00ff0000.
Definition TSI721_INT_IMSG_CHAN (x : Z) : Z := Z.shiftl 1 (16 + x).
Definition TSI721_INT_OMSG_CHAN_M : Z := 0x0000ff00.
Definition TSI721_INT_OMSG_CHAN (x : Z) : Z := Z.shiftl 1 (8 + x).
Definition TSI721_INT_BDMA_CHAN_M : Z := 0x000000ff.
Definition TSI721_INT_BDMA_CHAN (x : Z) : Z := Z.shiftl 1 x.
Definition TSI721_OBWIN_NUM : Z := TSI721_PC2SR_WINS.
Definition TSI721_OBWINLB (x : Z) : Z := 0x40000 + x * 0x20.
Definition TSI721_OBWINLB_BA : Z := 0xffff8000.
Definition TSI721_OBWINLB_WEN : Z := 0x00000001.
Definition TSI721_OBWINUB (x : Z) : Z := 0x40004 + x * 0x20.
Definition TSI721_OBWINSZ (x : Z) : Z := 0x40008 + x * 0x20.
Definition TSI721_ZONE_SEL : Z := 0x41300.
Definition TSI721_ZONE_SEL_GO : Z := 0x00010000.
Definition TSI721_LUT_DATA0 : Z := 0x41304.
Definition TSI721_LUT_DATA0_ADD : Z := 0xfffff000.
Definition TSI721_LUT_DATA0_NREAD : Z := 0x00000100.
Definition TSI721_LUT_DATA0_NWR : Z := 0x00000001.
Definition TSI721_LUT_DATA1 : Z := 0x41308.
Definition TSI721_LUT_DATA2 : Z := 0x4130c.
Definition TSI721_PC2SR_INTE : Z := 0x41310.
Definition TSI721_DEVCTL : Z := 0x48004.
Definition TSI721_DEVCTL_SRBOOT_CMPL : Z := 0x00000004.
Definition TSI721_I2C_INT_ENABLE : Z := 0x49120.
Definition TSI721_DMAC_BASE (x : Z) : Z := 0x51000 + x * 0x1000.
Definition TSI721_DMAC_DWRCNT : Z := 0x000.
Definition TSI721_DMAC_DRDCNT : Z := 0x004.
Definition TSI721_DMAC_CTL : Z := 0x008.
Definition TSI721_DMAC_CTL_SUSP : Z := 0x00000002.
Definition TSI721_DMAC_CTL_INIT : Z := 0x00000001.
Definition TSI721_DMAC_INT : Z := 0x00c.
Definition TSI721_DMAC_INT_STFULL : Z := 0x00000010.
Definition TSI721_DMAC_INT_DONE : Z := 0x00000008.
Definition TSI721_DMAC_INT_ERR : Z := 0x00000002.
Definition TSI721_DMAC_INT_IOFDONE : Z := 0x00000001.
Definition TSI721_DMAC_INT_ALL : Z := 0x0000001f.
Definition TSI721_DMAC_STS : Z := 0x014.
Definition TSI721_DMAC_STS_ABORT : Z := 0x00400000.
Definition TSI721_DMAC_STS_RUN : Z := 0x00200000.
Definition TSI721_DMAC_INTE : Z := 0x018.
Definition TSI721_DMAC_DPTRL : Z := 0x024.
Definition TSI721_DMAC_DPTRL_MASK : Z := 0xffffffe0.
Definition TSI721_DMAC_DPTRH : Z := 0x028.
Definition TSI721_DMAC_DSBL : Z := 0x02c.
Definition TSI721_DMAC_DSBL_MASK : Z := 0xffffffc0.
Definition TSI721_DMAC_DSBH : Z := 0x030.
Definition TSI721_DMAC_DSSZ : Z := 0x034.
Definition TSI721_DMAC_DSRP : Z := 0x038.
Definition TSI721_DMAC_DSWP : Z := 0x03c.
Definition TSI721_BDMA_INTE : Z := 0x5f000.
Definition TSI721_MSG_BUFFER_SIZE : Z := RIO_MAX_MSG_SIZE.
Definition TSI721_MSG_MAX_SIZE : Z := RIO_MAX_MSG_SIZE.
Definition TSI721_IMSG_MAXCH : Z := 8.
Definition TSI721_IMSG_CHNUM : Z := TSI721_IMSG_MAXCH.
Definition TSI721_IMSGD_MIN_RING_SIZE : Z := 32.
Definition TSI721_IMSGD_RING_SIZE : Z := 512.
Definition TSI721_OMSG_CHNUM : Z := 4.
Definition TSI721_OMSGD_MIN_RING_SIZE : Z := 32.
Definition TSI721_OMSGD_RING_SIZE : Z := 512.
Definition TSI721_OBDMAC_DWRCNT (x : Z) : Z := 0x61000 + x * 0x1000.
Definition TSI721_OBDMAC_DRDCNT (x : Z) : Z := 0x61004 + x * 0x1000.
Definition TSI721_OBDMAC_CTL (x : Z) : Z := 0x61008 + x * 0x1000.
Definition TSI721_OBDMAC_CTL_RETRY_THR : Z := 0x00000004.
Definition TSI721_OBDMAC_CTL_INIT : Z := 0x00000001.
Definition TSI721_OBDMAC_INT (x : Z) : Z := 0x6100c + x * 0x1000.
Definition TSI721_OBDMAC_INTSET (x : Z) : Z := 0x61010 + x * 0x1000.
Definition TSI721_OBDMAC_INTE (x : Z) : Z := 0x61018 + x * 0x1000.
Definition TSI721_OBDMAC_INT_MASK : Z := 0x0000001F.
Definition TSI721_OBDMAC_INT_ST_FULL : Z := 0x00000010.
Definition TSI721_OBDMAC_INT_DONE : Z := 0x00000008.
Definition TSI721_OBDMAC_INT_ERROR : Z := 0x00000002.
Definition TSI721_OBDMAC_INT_IOF_DONE : Z := 0x00000001.
Definition TSI721_OBDMAC_INT_ALL : Z := TSI721_OBDMAC_INT_MASK.
Definition TSI721_OBDMAC_STS (x : Z) : Z := 0x61014 + x * 0x1000.
Definition TSI721_OBDMAC_DPTRL (x : Z) : Z := 0x61020 + x * 0x1000.
Definition TSI721_OBDMAC_DPTRL_MASK : Z := 0xfffffff0.
Definition TSI721_OBDMAC_DPTRH (x : Z) : Z := 0x61024 + x * 0x1000.
Definition TSI721_OBDMAC_DSBL (x : Z) : Z := 0x61040 + x * 0x1000.
Definition TSI721_OBDMAC_DSBL_MASK : Z := 0xffffffc0.
Definition TSI721_OBDMAC_DSBH (x : Z) : Z := 0x61044 + x * 0x1000.
Definition TSI721_OBDMAC_DSSZ (x : Z) : Z := 0x61048 + x * 0x1000.
Definition TSI721_OBDMAC_DSRP (x : Z) : Z := 0x6104c + x * 0x1000.
Definition TSI721_OBDMAC_DSWP (x : Z) : Z := 0x61050 + x * 0x1000.
Definition TSI721_IBDMAC_FQBL (x : Z) : Z := 0x61200 + x * 0x1000.
Definition TSI721_IBDMAC_FQBL_MASK : Z := 0xffffffc0.
Definition TSI721_IBDMAC_FQBH (x : Z) : Z := 0x61204 + x * 0x1000.
Definition TSI721_IBDMAC_FQSZ (x : Z) : Z := 0x61208 + x * 0x1000.
Definition TSI721_IBDMAC_FQWP (x : Z) : Z := 0x61210 + x * 0x1000.
Definition TSI721_IB_DEVID : Z := 0x60020.
Definition TSI721_IBDMAC_CTL (x : Z) : Z := 0x61240 + x * 0x1000.
Definition TSI721_IBDMAC_CTL_INIT : Z := 0x00000001.
Definition TSI721_IBDMAC_STS (x : Z) : Z := 0x61244 + x * 0x1000.
Definition TSI721_IBDMAC_INT (x : Z) : Z := 0x61248 + x * 0x1000.
Definition TSI721_IBDMAC_INTE (x : Z) : Z := 0x61250 + x * 0x1000.
Definition TSI721_IBDMAC_INT_MASK : Z := 0x0000100f.
Definition TSI721_IBDMAC_INT_SRTO : Z := 0x00001000.
Definition TSI721_IBDMAC_INT_PC_ERROR : Z := 0x00000004.
Definition TSI721_IBDMAC_INT_FQ_LOW : Z := 0x00000002.
Definition TSI721_IBDMAC_INT_DQ_RCV : Z := 0x00000001.
Definition TSI721_IBDMAC_INT_ALL : Z := TSI721_IBDMAC_INT_MASK.
Definition TSI721_IBDMAC_DQBL (x : Z) : Z := 0x61300 + x * 0x1000.
Definition TSI721_IBDMAC_DQBL_MASK : Z := 0xffffffc0.
Definition TSI721_IBDMAC_DQBH (x : Z) : Z := 0x61304 + x * 0x1000.
Definition TSI721_IBDMAC_DQRP (x : Z) : Z := 0x61308 + x * 0x1000.
Definition TSI721_IBDMAC_DQSZ (x : Z) : Z := 0x61314 + x * 0x1000.
Definition TSI721_SMSG_INTE : Z := 0x6a000.
Definition TSI721_SMSG_ECC_LOG : Z := 0x6a014.
Definition TSI721_RETRY_GEN_CNT : Z := 0x6a100.
Definition TSI721_RETRY_RX_CNT : Z := 0x6a104.
Definition TSI721_SMSG_ECC_COR_LOG (x : Z) : Z := 0x6a300 + x * 4.
Definition TSI721_SMSG_ECC_COR_LOG_MASK : Z := 0x000000ff.
Definition TSI721_SMSG_ECC_NCOR (x : Z) : Z := 0x6a340 + x * 4.
Definition TSI721_SMSG_ECC_NCOR_MASK : Z := 0x000000ff.
Definition TSI721_DMAD_IOF : Z := 0x08000000.
Definition TSI721_DMAD_BCOUNT1 : Z := 0x03ffffff.
Definition TSI721_BDMA_MAX_BCOUNT : Z := TSI721_DMAD_BCOUNT1 + 1.
Definition TSI721_IMD_BCOUNT : Z := 0x00000ff8.
Definition TSI721_IMD_HO : Z := 0x80000000.
Definition TSI721_OMD_IOF : Z := 0x08000000.
Definition TSI721_DMACH_MAINT : Z := 7.
Definition TSI721_MSIX_DMACH_DONE (x : Z) : Z := 0 + x.

Definition TSI721_DMA_CHNUM : Z := TSI721_DMA_MAXCH.

(** ** Functions of sizes *)

(** [__fls] *)
Definition fls (x : Z) : Z := Z.log2 x.
Definition TSI721_IDQ_SIZE_VAL (size : Z) : Z := fls size - 4.
Definition TSI721_IBWIN_SIZE (size : Z) : Z := fls size - 12.
Definition TSI721_OBWIN_SIZE (size : Z) : Z := fls size - 15.
Definition TSI721_DMAC_DSSZ_SIZE (size : Z) : Z := fls size - 4.
Definition is_power_of_2 (n : Z) : bool := negb (n =? 0) && (Z.land n (n - 1) =? 0).
Definition roundup_pow_of_two (n : Z) : Z := 2 ^ Z.log2_up n.

(** ** Doorbell entries: the bytes of the buffer *)

Definition idb_byte (buf : list Z) (i : nat) : Z := u8 (nth i buf 0).
Definition DBELL_SID (buf : list Z) : Z := Z.lor (Z.shiftl (idb_byte buf 2) 8) (idb_byte buf 3).
Definition DBELL_TID (buf : list Z) : Z := Z.lor (Z.shiftl (idb_byte buf 4) 8) (idb_byte buf 5).
Definition DBELL_INF (buf : list Z) : Z := Z.lor (Z.shiftl (idb_byte buf 0) 8) (idb_byte buf 1).

(** ** Descriptors *)

(** enum dma_dtype and enum dma_rtype *)
Definition DTYPE1 : Z := 1.
Definition DTYPE2 : Z := 2.
Definition DTYPE3 : Z := 3.
Definition DTYPE4 : Z := 4.
Definition DTYPE5 : Z := 5.
Definition DTYPE6 : Z := 6.
Definition NREAD : Z := 0.
Definition LAST_NWRITE_R : Z := 1.
Definition ALL_NWRITE : Z := 2.
Definition ALL_NWRITE_R : Z := 3.
Definition MAINT_RD : Z := 4.
Definition MAINT_WR : Z := 5.

(** Sizes of struct tsi721_dma_desc, imsg_desc, omsg_desc and dma_sts, and the
    offsets of their words. *)
Definition DMA_DESC_SIZE : Z := 32.
Definition IMSG_DESC_SIZE : Z := 64.
Definition OMSG_DESC_SIZE : Z := 16.
Definition DMA_STS_SIZE : Z := 64.
Definition OFF_TYPE_ID : Z := 0.
Definition OFF_BCOUNT : Z := 4.
Definition OFF_MSG_INFO : Z := 4.
Definition OFF_RADDR_LO : Z := 8.
Definition OFF_RADDR_HI : Z := 12.
Definition OFF_DATA : Z := 16.
Definition OFF_BUFPTR_LO : Z := 16.
Definition OFF_BUFPTR_HI : Z := 20.
Definition OFF_S_DIST : Z := 24.
Definition OFF_S_SIZE : Z := 28.

(** ** Flags and interrupt vectors *)

Definition TSI721_USING_MSI : Z := Z.shiftl 1 0.
Definition TSI721_USING_MSIX : Z := Z.shiftl 1 1.
Definition TSI721_IMSGID_SET : Z := Z.shiftl 1 2.

(** enum tsi721_msix_vect *)
Definition TSI721_VECT_IDB : Z := 0.
Definition TSI721_VECT_PWRX : Z := 1.
Definition TSI721_VECT_OMB0_DONE : Z := 2.
Definition TSI721_VECT_OMB0_INT : Z := 6.
Definition TSI721_VECT_IMB0_RCV : Z := 10.
Definition TSI721_VECT_IMB0_INT : Z := 14.
Definition TSI721_VECT_DMA0_DONE : Z := 18.
Definition TSI721_VECT_DMA0_INT : Z := 26.
Definition TSI721_VECT_MAX : Z := 34.

(** ** Flags of the port's attributes (rio.h) and further registers of rio_regs.h *)

Definition RIO_MPORT_DMA : Z := Z.shiftl 1 0.
Definition RIO_MPORT_DMA_SG : Z := Z.shiftl 1 1.

Definition RIO_PORT_GEN_HOST : Z := 0x80000000.
Definition RIO_PORT_N_CTL2_CSR (n m : Z) : Z := 0x54 + n * (0x20 * m).
Definition RIO_PORT_N_CTL2_SEL_BAUD : Z := 0xf0000000.
Definition RIO_LINK_SPEED_50 : Z := 4.
Definition RIO_LINK_SPEED_625 : Z := 5.
Definition RIO_PORT_N_CTL_IPW : Z := 0x38000000.
Definition RIO_LINK_DOWN : Z := 0.
Definition ETIME : Z := 62.
