(* ===== verification/Tsi721.v ===== *)
(** * The Tsi721 bridge (devices/tsi721.c): state, maintenance, doorbells, windows

    The driver's private data, access to the registers and to memory that the bridge
    shares, and the operations of the master port other than messaging.  Everything
    that the bridge does happens in the hardware: reading a register may change the
    shared memory. *)

From S2P Require Import Prelude Regs State Access Route Em Msg RioDma Tsi721Regs.

(** ** Data structures *)

(** struct tsi721_bdma_maint; a coherent buffer is named by its bus address. *)
Record tsi721_bdma_maint := mk_bdma_maint {
  md_ch_id : Z; md_bd_num : Z; md_bd_base : option Z; md_sts_base : option Z; md_sts_size : Z;
}.
#[export] Instance eta_bdma_maint : Eta tsi721_bdma_maint := fun r =>
  mk_bdma_maint (md_ch_id r) (md_bd_num r) (md_bd_base r) (md_sts_base r) (md_sts_size r).

(** struct tsi721_tx_desc: the parts of [txd] that are used come first, then the
    request.  [td_sg] is the rest of the scatter list from the entry [sg] on. *)
Record tsi721_tx_desc := mk_tx_desc {
  td_cookie : Z; td_txd_flags : Z; td_callback : option ptr; td_callback_param : ptr;
  td_destid : Z; td_rio_addr : Z; td_rio_addr_u : Z; td_rtype : Z;
  td_sg : list sg_entry; td_sg_len : Z; td_status : dma_status;
  td_ssdist : Z; td_sssize : Z; td_dsdist : Z; td_dssize : Z;
}.
#[export] Instance eta_tx_desc : Eta tsi721_tx_desc := fun r =>
  mk_tx_desc (td_cookie r) (td_txd_flags r) (td_callback r) (td_callback_param r)
    (td_destid r) (td_rio_addr r) (td_rio_addr_u r) (td_rtype r) (td_sg r) (td_sg_len r) (td_status r)
    (td_ssdist r) (td_sssize r) (td_dsdist r) (td_dssize r).

(** The address of a descriptor: the array and the index in it. *)
Abbreviation txd_ptr := (ptr * Z)%type.

(** struct tsi721_bdma_chan.  [bc_regs] is the offset of the channel's registers once they
    are set; [bc_tx_desc] is the address of the array of descriptors;
    [bc_cookie] and [bc_completed_cookie] are those of [dchan]; [bc_tasklet] tells
    whether the tasklet is scheduled. *)
Record tsi721_bdma_chan := mk_bdma_chan {
  bc_id : Z; bc_regs : option Z; bc_bd_num : Z; bc_bd_base : option Z; bc_sts_base : option Z;
  bc_sts_size : Z; bc_sts_rdptr : Z; bc_wr_count : Z; bc_wr_count_next : Z;
  bc_cookie : Z; bc_completed_cookie : Z; bc_tx_desc : option ptr;
  bc_active_tx : option txd_ptr; bc_queue : list txd_ptr; bc_free_list : list txd_ptr;
  bc_tasklet : bool; bc_active : bool;
}.
#[export] Instance eta_bdma_chan : Eta tsi721_bdma_chan := fun r =>
  mk_bdma_chan (bc_id r) (bc_regs r) (bc_bd_num r) (bc_bd_base r) (bc_sts_base r)
    (bc_sts_size r) (bc_sts_rdptr r) (bc_wr_count r) (bc_wr_count_next r)
    (bc_cookie r) (bc_completed_cookie r) (bc_tx_desc r)
    (bc_active_tx r) (bc_queue r) (bc_free_list r) (bc_tasklet r) (bc_active r).

Record tsi721_imsg_ring := mk_imsg_ring {
  ir_size : Z;
  ir_buf_base : option Z;
  ir_imfq_base : option Z;
  ir_imd_base : option Z;
  ir_imq_base : list (option ptr);
  ir_rx_slot : Z;
  ir_dev_id : option ptr;
  ir_fq_wrptr : Z;
  ir_desc_rdptr : Z;
}.
#[export] Instance eta_imsg_ring : Eta tsi721_imsg_ring := fun r =>
  mk_imsg_ring (ir_size r) (ir_buf_base r) (ir_imfq_base r) (ir_imd_base r) (ir_imq_base r)
    (ir_rx_slot r) (ir_dev_id r) (ir_fq_wrptr r) (ir_desc_rdptr r).

Record tsi721_omsg_ring := mk_omsg_ring {
  or_size : Z;
  or_omd_base : option Z;
  or_omq_base : list (option Z);
  or_sts_base : option Z;
  or_sts_size : Z;
  or_sts_rdptr : Z;
  or_tx_slot : Z;
  or_dev_id : option ptr;
  or_wr_count : Z;
}.
#[export] Instance eta_omsg_ring : Eta tsi721_omsg_ring := fun r =>
  mk_omsg_ring (or_size r) (or_omd_base r) (or_omq_base r) (or_sts_base r) (or_sts_size r)
    (or_sts_rdptr r) (or_tx_slot r) (or_dev_id r) (or_wr_count r).

(** [iw_mappings] has the local start addresses of the clients; [iw_size] is a [u32]. *)
Record tsi721_ib_win := mk_ib_win {
  iw_rstart : Z; iw_size : Z; iw_lstart : Z; iw_active : bool; iw_xlat : bool; iw_mappings : list Z;
}.
#[export] Instance eta_ib_win : Eta tsi721_ib_win := fun r =>
  mk_ib_win (iw_rstart r) (iw_size r) (iw_lstart r) (iw_active r) (iw_xlat r) (iw_mappings r).

Record tsi721_obw_bar := mk_obw_bar { ob_base : Z; ob_size : Z; ob_free : Z }.
#[export] Instance eta_obw_bar : Eta tsi721_obw_bar := fun r => mk_obw_bar (ob_base r) (ob_size r) (ob_free r).

(** [ow_pbar] is the index of the BAR in [p2r_bar]. *)
Record tsi721_ob_win := mk_ob_win {
  ow_base : Z; ow_size : Z; ow_destid : Z; ow_rstart : Z; ow_active : bool; ow_pbar : option Z;
}.
#[export] Instance eta_ob_win : Eta tsi721_ob_win := fun r =>
  mk_ob_win (ow_base r) (ow_size r) (ow_destid r) (ow_rstart r) (ow_active r) (ow_pbar r).

(** struct tsi721_device.  The FIFO of port-writes holds whole messages;
    [pv_pw_size] is its size in bytes; [pv_pw_work] tells whether the work is queued.
    [pv_dma_channels] is the list of the channels of the embedded mport's DMA device. *)
Record tsi721_device := mk_tsi721_device {
  pv_mport : ptr;
  pv_flags : Z;
  pv_msix : list Z;
  pv_irq : Z;
  pv_idb_base : option Z;
  pv_db_discard_count : Z;
  pv_pw_work : bool;
  pv_pw_fifo : list rio_pw_msg;
  pv_pw_size : Z;
  pv_pw_discard_count : Z;
  pv_mdma : tsi721_bdma_maint;
  pv_bdma : list tsi721_bdma_chan;
  pv_dma_channels : list Z;
  pv_imsg_init : list Z;
  pv_imsg_ring : list tsi721_imsg_ring;
  pv_omsg_init : list Z;
  pv_omsg_ring : list tsi721_omsg_ring;
  pv_ib_win : list tsi721_ib_win;
  pv_ibwin_cnt : Z;
  pv_p2r_bar : list tsi721_obw_bar;
  pv_ob_win : list tsi721_ob_win;
  pv_obwin_cnt : Z;
}.
#[export] Instance eta_tsi721_device : Eta tsi721_device := fun r =>
  mk_tsi721_device (pv_mport r) (pv_flags r) (pv_msix r) (pv_irq r) (pv_idb_base r)
    (pv_db_discard_count r) (pv_pw_work r) (pv_pw_fifo r) (pv_pw_size r) (pv_pw_discard_count r)
    (pv_mdma r) (pv_bdma r) (pv_dma_channels r) (pv_imsg_init r) (pv_imsg_ring r) (pv_omsg_init r) (pv_omsg_ring r)
    (pv_ib_win r) (pv_ibwin_cnt r) (pv_p2r_bar r) (pv_ob_win r) (pv_obwin_cnt r).

(** The state: the core's with the buffers, the private data of one bridge, and the
    heap of arrays of DMA descriptors. *)
Record tstate (W : Type) := mk_tstate {
  ts_m : mstate W; ts_priv : tsi721_device; ts_txds : gmap ptr (list tsi721_tx_desc);
}.
Arguments mk_tstate {W}. Arguments ts_m {W}. Arguments ts_priv {W}. Arguments ts_txds {W}.
#[export] Instance eta_tstate W : Eta (tstate W) := fun s => mk_tstate (ts_m s) (ts_priv s) (ts_txds s).
Abbreviation TM W := (M (tstate W)).
#[export] Instance tsi_msg_state W : MsgState W (tstate W) := {|
  msg_of s := ts_m s; set_msg m s := setf ts_m m s;
|}.

(** The bridge and the kernel: registers of 32 bits, the window in which writing sends
    a doorbell, memory that the bridge reads and writes as well, interrupt lines. *)
Class Tsi721Hw (W : Type) := {
  hw_read : Z -> W -> Z * W;
  hw_write : Z -> Z -> W -> W;
  odb_write : Z -> Z -> W -> W;
  dma_load : Z -> nat -> W -> list Z;
  dma_store : Z -> list Z -> W -> W;
  dma_alloc_coherent : Z -> W -> option Z * W;
  dma_free_coherent : Z -> Z -> W -> W;
  irq_request : Z -> W -> Z * W;
  irq_free : Z -> W -> W;
}.

(** The handlers that other drivers have given for doorbells, mailboxes and finished
    DMA transfers, called with the address under which they are known. *)
Class Tsi721Callbacks (W : Type) := {
  dinb_call : ptr -> ptr -> ptr -> Z -> Z -> Z -> TM W unit;
  mcback_call : ptr -> ptr -> option ptr -> Z -> Z -> TM W unit;
  dma_callback_call : ptr -> ptr -> TM W unit;
}.

Section access.
Context {W : Type} `{!KernelEnv W} `{!Tsi721Hw W}.

(** ** Access *)

Definition getp {A} (f : tsi721_device -> A) : TM W A := gets (fun s => f (ts_priv s)).
Definition updp (g : tsi721_device -> tsi721_device) : TM W unit :=
  modify (fun s => setf ts_priv (g (ts_priv s)) s).
Definition pmport : TM W (rio_mport W) := p <- getp pv_mport ;; core (get_mport p).

(** A register outside the mapped space must not be touched. *)
Definition ioread32 (off : Z) : TM W Z :=
  if (0 <=? off) && (off <? TSI721_REG_SPACE_SIZE) then
    v <- core (hw_call (hw_read off)) ;; ret (u32 v)
  else ub.
Definition iowrite32 (v off : Z) : TM W unit :=
  if (0 <=? off) && (off <? TSI721_REG_SPACE_SIZE) then core (hw_do (hw_write off (u32 v))) else ub.
Definition iowrite16be (v off : Z) : TM W unit :=
  if (0 <=? off) && (off <? TSI721_DB_WIN_SIZE) then core (hw_do (odb_write off (u16 v))) else ub.

(** Little-endian words of shared memory. *)
Definition dma_get (addr : Z) (n : nat) : TM W (list Z) :=
  core (gets (fun k => dma_load addr n (ks_hw k))).
Definition dma_put (addr : Z) (bytes : list Z) : TM W unit := core (hw_do (dma_store addr bytes)).
Definition dma_get32 (addr : Z) : TM W Z := b <- dma_get addr 4 ;; ret (le_value b).
Definition dma_get64 (addr : Z) : TM W Z := b <- dma_get addr 8 ;; ret (le_value b).
Definition dma_put32 (addr v : Z) : TM W unit := dma_put addr (le_bytes 4 v).
Definition dma_put64 (addr v : Z) : TM W unit := dma_put addr (le_bytes 8 v).
Definition dma_alloc (size : Z) : TM W (option Z) := core (hw_call (dma_alloc_coherent size)).
(** [dma_zalloc_coherent] *)
Definition dma_zalloc (size : Z) : TM W (option Z) :=
  p <- dma_alloc size ;;
  match p with
  | None => ret None
  | Some a => dma_put a (replicate (Z.to_nat size) 0) ;;; ret (Some a)
  end.
Definition dma_free (size addr : Z) : TM W unit := core (hw_do (dma_free_coherent addr size)).
Definition request_irq (vector : Z) : TM W Z := core (hw_call (irq_request vector)).
Definition free_irq (vector : Z) : TM W unit := core (hw_do (irq_free vector)).
Definition tdelay (us : Z) : TM W unit := core (udelay us).

Definition using_msix : TM W bool := f <- getp pv_flags ;; ret (truthy (Z.land f TSI721_USING_MSIX)).
Definition msix_vector (i : Z) : TM W Z := l <- getp pv_msix ;; slot_get l i.

(** ** Configuration space *)

(** A read callback returns its status and the contents of [*data]. *)
Definition tsi721_lcread (offset len data : Z) : TM W (Z * Z) :=
  if negb (len =? 4) then ret (- EINVAL, data)
  else v <- ioread32 offset ;; ret (0, v).
Definition tsi721_lcwrite (offset len data : Z) : TM W Z :=
  if negb (len =? 4) then ret (- EINVAL) else iowrite32 data offset ;;; ret 0.

(** The bytes of [cpu_to_be32] in memory, and back. *)
Definition put_be32_at (addr v : Z) : TM W unit := dma_put addr (be_bytes 4 v).
Definition get_be32_at (addr : Z) : TM W Z := b <- dma_get addr 4 ;; ret (be_value b).

(** Waiting for a maintenance transfer: the channel status, or none after the time
    allowed. *)
Definition maint_wait (sts : Z) (i : Z) : TM W (Z + option Z) :=
  ch_stat <- ioread32 sts ;;
  if truthy (Z.land ch_stat TSI721_DMAC_STS_RUN) then
    tdelay 1 ;;;
    ret (if 5000000 <=? i + 1 then inr None else inl (i + 1))
  else ret (inr (Some ch_stat)).

Definition tsi721_maint_dma (fuel : nat) (sys_size destid hopcount offset len data : Z) (do_wr : bool)
    : TM W (Z * Z) :=
  mdma <- getp pv_mdma ;;
  let regs := TSI721_DMAC_BASE (md_ch_id mdma) in
  let op := if do_wr then MAINT_WR else MAINT_RD in
  if (u32 (RIO_MAINT_SPACE_SZ - len) <? offset) || negb (len =? 4) then ret (- EINVAL, data)
  else
    bd <- deref (md_bd_base mdma) ;;
    rd_count <- ioread32 (regs + TSI721_DMAC_DRDCNT) ;;
    dma_put32 (bd + OFF_TYPE_ID) (Z.lor (Z.lor (Z.shiftl DTYPE2 29) (Z.shiftl op 19)) destid) ;;;
    dma_put32 (bd + OFF_BCOUNT) (Z.lor (Z.shiftl sys_size 26) 0x04) ;;;
    dma_put32 (bd + OFF_RADDR_LO) (Z.lor (Z.shiftl hopcount 24) offset) ;;;
    dma_put32 (bd + OFF_RADDR_HI) 0 ;;;
    (if do_wr then put_be32_at (bd + OFF_DATA) data else dma_put32 (bd + OFF_DATA) 0xffffffff) ;;;
    iowrite32 (rd_count + 2) (regs + TSI721_DMAC_DWRCNT) ;;;
    ioread32 (regs + TSI721_DMAC_DWRCNT) ;;;
    r <- loop fuel (maint_wait (regs + TSI721_DMAC_STS)) 0 ;;
    let failed := if do_wr then data else 0xffffffff in
    match r with
    | None => ret (- EIO, failed)
    | Some ch_stat =>
        if truthy (Z.land ch_stat TSI721_DMAC_STS_ABORT) then
          iowrite32 TSI721_DMAC_INT_ALL (regs + TSI721_DMAC_INT) ;;;
          iowrite32 TSI721_DMAC_CTL_INIT (regs + TSI721_DMAC_CTL) ;;;
          tdelay 10 ;;;
          iowrite32 0 (regs + TSI721_DMAC_DWRCNT) ;;;
          tdelay 1 ;;;
          ret (- EIO, failed)
        else
          data <- (if do_wr then ret data else get_be32_at (bd + OFF_DATA)) ;;
          swr_ptr <- ioread32 (regs + TSI721_DMAC_DSWP) ;;
          iowrite32 swr_ptr (regs + TSI721_DMAC_DSRP) ;;;
          ret (0, data)
    end.

Definition tsi721_cread_dma (fuel : nat) (destid hopcount offset len data : Z) : TM W (Z * Z) :=
  mp <- pmport ;; tsi721_maint_dma fuel (mp_sys_size mp) destid hopcount offset len data false.
Definition tsi721_cwrite_dma (fuel : nat) (destid hopcount offset len data : Z) : TM W Z :=
  mp <- pmport ;;
  let! (err, _) := tsi721_maint_dma fuel (mp_sys_size mp) destid hopcount offset len data true ;;
  ret err.

(** ** Port-writes *)

Definition tsi721_pw_handler : TM W Z :=
  pw_stat <- ioread32 TSI721_RIO_PW_RX_STAT ;;
  when (truthy (Z.land pw_stat TSI721_RIO_PW_RX_STAT_PW_VAL))
    (b0 <- ioread32 (TSI721_RIO_PW_RX_CAPT 0) ;;
     b1 <- ioread32 (TSI721_RIO_PW_RX_CAPT 1) ;;
     b2 <- ioread32 (TSI721_RIO_PW_RX_CAPT 2) ;;
     b3 <- ioread32 (TSI721_RIO_PW_RX_CAPT 3) ;;
     fifo <- getp pv_pw_fifo ;;
     size <- getp pv_pw_size ;;
     let used := TSI721_RIO_PW_MSG_SIZE * Z.of_nat (length fifo) in
     updp (fun p => if TSI721_RIO_PW_MSG_SIZE <=? size - used
       then setf pv_pw_fifo (fifo ++ [mk_rio_pw_msg b0 b1 b2 b3]) p
       else setf pv_pw_discard_count (u32 (pv_pw_discard_count p + 1)) p)) ;;;
  iowrite32 (Z.lor TSI721_RIO_PW_RX_STAT_PW_DISC TSI721_RIO_PW_RX_STAT_PW_VAL) TSI721_RIO_PW_RX_STAT ;;;
  updp (setf pv_pw_work true) ;;;
  ret 0.

Definition tsi721_pw_enable (enable : Z) : TM W Z :=
  rval <- ioread32 TSI721_RIO_EM_INT_ENABLE ;;
  let rval := if truthy enable then Z.lor rval TSI721_RIO_EM_INT_ENABLE_PW_RX
              else Z.land rval (not32 TSI721_RIO_EM_INT_ENABLE_PW_RX) in
  iowrite32 (Z.lor TSI721_RIO_PW_RX_STAT_PW_DISC TSI721_RIO_PW_RX_STAT_PW_VAL) TSI721_RIO_PW_RX_STAT ;;;
  iowrite32 rval TSI721_RIO_EM_INT_ENABLE ;;;
  ret 0.

(** [kfifo_alloc] may fail; [kfifo_free] leaves a FIFO without room. *)
Definition tsi721_port_write_init : TM W Z :=
  updp (setf pv_pw_discard_count 0) ;;;
  ok <- core kzalloc ;;
  updp (fun p => setf pv_pw_fifo [] (setf pv_pw_size (if ok : bool then TSI721_RIO_PW_MSG_SIZE * 32 else 0) p)) ;;;
  if negb ok then ret (- ENOMEM)
  else iowrite32 TSI721_RIO_PW_CTL_PWC_REL TSI721_RIO_PW_CTL ;;; ret 0.
Definition tsi721_port_write_free : TM W unit :=
  size <- getp pv_pw_size ;;
  updp (fun p => setf pv_pw_fifo [] (setf pv_pw_size 0 p)) ;;;
  when (truthy size) (core kfree).

(** ** Doorbells *)

(** Waiting for the counters, [i] microseconds so far. *)
Definition odb_wait (st : Z * Z) : TM W (Z * Z + Z) :=
  let '(odb_count, i) := st in
  if negb (truthy (Z.land odb_count TSI721_ODB_CNT_OK)) && (i <? 1000) then
    tdelay 1 ;;;
    odb_count <- ioread32 (TSI721_ODB_CNT 0) ;;
    ret (inl (odb_count, i + 1))
  else ret (inr odb_count).

(** One attempt; the loop variables are the counter read last and the retries left. *)
Definition dsend_step (data offset : Z) (st : Z * Z) : TM W (Z * Z + Z) :=
  let '(odb_count, rtry_cnt) := st in
  iowrite16be data offset ;;;
  odb_count <- loop 1001 odb_wait (odb_count, 0) ;;
  if odb_count =? 0 then ret (inr (- ETIME))
  else if truthy (Z.land odb_count TSI721_ODB_CNT_OK) then ret (inr 0)
  else
    rval <- ioread32 (TSI721_SR_CHINT 0) ;;
    if truthy (Z.land rval TSI721_SR_CHINT_ODBTO) then ret (inr (- EIO))
    else if truthy (Z.land rval TSI721_SR_CHINT_ODBERR) then ret (inr (- EIO))
    else if truthy (Z.land rval TSI721_SR_CHINT_ODBRTRY) && truthy rtry_cnt
    then ret (inl (odb_count, rtry_cnt - 1))
    else ret (inr (- EAGAIN)).

Definition tsi721_dsend (destid data : Z) : TM W Z :=
  mp <- pmport ;;
  iowrite32 (Z.lor (Z.lor TSI721_SR_CHINT_ODBOK TSI721_SR_CHINT_ODBTO)
    (Z.lor TSI721_SR_CHINT_ODBRTRY TSI721_SR_CHINT_ODBERR)) (TSI721_SR_CHINT 0) ;;;
  let offset := Z.lor (Z.shiftl (if truthy (mp_sys_size mp) then RIO_TT_CODE_16 else RIO_TT_CODE_8) 18)
    (Z.shiftl destid 2) in
  loop 102 (dsend_step data offset) (0, 100).

(** The first doorbell range with the information. *)
Fixpoint find_dbell (inf : Z) (l : list rio_dbell) : option rio_dbell :=
  match l with
  | [] => None
  | d :: l' => if ((db_res d).1 <=? inf) && (inf <=? (db_res d).2) then Some d else find_dbell inf l'
  end.

Context `{!Tsi721Callbacks W}.

(** One entry of the queue.  [found] is never reset: once it is set, an entry for which
    there is no range goes to what the cursor points to, the head of the list. *)
Definition dbell_step (wr_ptr : Z) (st : Z * bool) : TM W (Z * bool + Z * bool) :=
  let '(rd_ptr, found) := st in
  if wr_ptr =? rd_ptr then ret (inr (rd_ptr, found))
  else
    base <- getp pv_idb_base ;;
    base <- deref base ;;
    let entry := base + TSI721_IDB_ENTRY_SIZE * rd_ptr in
    let rd_ptr := Z.rem (u32 (rd_ptr + 1)) IDB_QSIZE in
    idb <- dma_get entry 8 ;;
    dma_put64 entry 0 ;;;
    mport <- getp pv_mport ;;
    mp <- pmport ;;
    let dbell := find_dbell (DBELL_INF idb) (mp_dbells mp) in
    let found := found || bool_decide (is_Some dbell) in
    when found
      (d <- deref dbell ;;
       dinb_call (db_dinb d) mport (db_dev_id d) (DBELL_SID idb) (DBELL_TID idb) (DBELL_INF idb)) ;;;
    ret (inl (rd_ptr, found)).

(** The rounds of the handler; each one empties the queue up to the write pointer. *)
Definition dbell_round (st : Z * bool) : TM W (Z * bool + Z) :=
  let '(rd_ptr, found) := st in
  iowrite32 TSI721_SR_CHINT_IDBQRCV (TSI721_SR_CHINT IDB_QUEUE) ;;;
  wp <- ioread32 (TSI721_IDQ_WP IDB_QUEUE) ;;
  let wr_ptr := Z.rem wp IDB_QSIZE in
  if wr_ptr =? rd_ptr then ret (inr 0)
  else
    let! (rd_ptr, found) := loop 513 (dbell_step wr_ptr) (rd_ptr, found) ;;
    iowrite32 rd_ptr (TSI721_IDQ_RP IDB_QUEUE) ;;;
    regval <- ioread32 (TSI721_SR_CHINT IDB_QUEUE) ;;
    ret (if truthy (Z.land regval TSI721_SR_CHINT_IDBQRCV) then inl (rd_ptr, found) else inr 0).

Definition tsi721_dbell_handler (fuel : nat) : TM W Z :=
  rp <- ioread32 (TSI721_IDQ_RP IDB_QUEUE) ;;
  loop fuel dbell_round (Z.rem rp IDB_QSIZE, false).

Definition tsi721_doorbell_init : TM W Z :=
  ioread32 (TSI721_ODB_CNT 0) ;;;
  updp (setf pv_db_discard_count 0) ;;;
  p <- dma_zalloc (IDB_QSIZE * TSI721_IDB_ENTRY_SIZE) ;;
  updp (setf pv_idb_base p) ;;;
  match p with
  | None => ret (- ENOMEM)
  | Some idb_dma =>
      iowrite32 (TSI721_IDQ_SIZE_VAL IDB_QSIZE) (TSI721_IDQ_SIZE IDB_QUEUE) ;;;
      iowrite32 (Z.shiftr idb_dma 32) (TSI721_IDQ_BASEU IDB_QUEUE) ;;;
      iowrite32 (Z.land idb_dma TSI721_IDQ_BASEL_ADDR) (TSI721_IDQ_BASEL IDB_QUEUE) ;;;
      iowrite32 0 (TSI721_IDQ_MASK IDB_QUEUE) ;;;
      iowrite32 TSI721_IDQ_INIT (TSI721_IDQ_CTL IDB_QUEUE) ;;;
      iowrite32 0 (TSI721_IDQ_RP IDB_QUEUE) ;;;
      ret 0
  end.
Definition tsi721_doorbell_free : TM W unit :=
  p <- getp pv_idb_base ;;
  match p with
  | None => ret tt
  | Some a => dma_free (IDB_QSIZE * TSI721_IDB_ENTRY_SIZE) a ;;; updp (setf pv_idb_base None)
  end.
End access.

Section pw_dpc.
Context {W : Type} `{!KernelEnv W} `{!Externals W} `{!SwitchTables W}.

(** One message of the FIFO goes to the core. *)
Definition pw_dpc_step (fuel : nat) (_ : unit) : TM W (unit + unit) :=
  fifo <- getp pv_pw_fifo ;;
  match fifo with
  | [] => ret (inr tt)
  | pwmsg :: fifo =>
      updp (setf pv_pw_fifo fifo) ;;;
      mport <- getp pv_mport ;;
      core (rio_inb_pwrite_handler fuel mport pwmsg) ;;;
      ret (inl tt)
  end.
Definition tsi721_pw_dpc (fuel : nat) : TM W unit :=
  updp (setf pv_pw_work false) ;;;
  loop fuel (pw_dpc_step fuel) tt.
End pw_dpc.

(** ** Outbound windows *)

Section windows.
Context {W : Type} `{!KernelEnv W} `{!Tsi721Hw W}.

(** The kernel's [ALIGN] on a [u64]. *)
Definition ALIGN (x a : Z) : Z := Z.land (u64 (x + (a - 1))) (Z.lnot (a - 1)).

(** One pass over the windows from index [i] on: the first free window seen so far
    ([-1] for none) and, if a window of the BAR overlaps, the base to try next. *)
Fixpoint obw_scan (bar_base bar_end size win_base : Z) (l : list tsi721_ob_win) (i new_win_idx : Z)
    : Z * option Z :=
  match l with
  | [] => (new_win_idx, None)
  | win :: l' =>
      if negb (ow_active win) then
        obw_scan bar_base bar_end size win_base l' (i + 1) (if new_win_idx =? -1 then i else new_win_idx)
      else if (bar_base <=? ow_base win) && (ow_base win <? bar_end) &&
              (win_base <? u64 (ow_base win + ow_size win)) && (ow_base win <? u64 (win_base + size))
      then (new_win_idx, Some (ALIGN (u64 (ow_base win + ow_size win)) (size / TSI721_PC2SR_ZONES)))
      else obw_scan bar_base bar_end size win_base l' (i + 1) new_win_idx
  end.

(** Passes until one finds no overlap. *)
Definition obw_pass (bar_base bar_end size : Z) (wins : list tsi721_ob_win) (st : Z * Z)
    : TM W (Z * Z + Z * Z) :=
  let '(win_base, new_win_idx) := st in
  match obw_scan bar_base bar_end size win_base wins 0 new_win_idx with
  | (idx, Some base) => ret (inl (base, idx))
  | (idx, None) => ret (inr (win_base, idx))
  end.

(** More passes than windows. *)
Definition OBW_FUEL : nat := 16.

(** Returns the status and the index. *)
Definition tsi721_obw_alloc (bar : Z) (size : Z) : TM W (Z * Z) :=
  bars <- getp pv_p2r_bar ;;
  pbar <- slot_get bars bar ;;
  wins <- getp pv_ob_win ;;
  let bar_base := ob_base pbar in
  let bar_end := u64 (bar_base + ob_size pbar) in
  let! (win_base, new_win_idx) := loop OBW_FUEL (obw_pass bar_base bar_end size wins) (bar_base, -1) ;;
  if bar_end <? u64 (win_base + size) then ret (- ENOMEM, -1)
  else if new_win_idx =? -1 then ret (- EIO, -1)
  else
    win <- slot_get wins new_win_idx ;;
    updp (fun p =>
      setf pv_ob_win (<[Z.to_nat new_win_idx := setf ow_active true (setf ow_base win_base
        (setf ow_size size (setf ow_pbar (Some bar) win)))]> (pv_ob_win p))
      (setf pv_obwin_cnt (pv_obwin_cnt p - 1)
      (setf pv_p2r_bar (<[Z.to_nat bar := setf ob_free (u64 (ob_free pbar - size)) pbar]> (pv_p2r_bar p)) p))) ;;;
    ret (0, new_win_idx).

(** Waiting until the zone registers are free. *)
Definition zone_wait (_ : unit) : TM W (unit + unit) :=
  v <- ioread32 TSI721_ZONE_SEL ;;
  if truthy (Z.land v TSI721_ZONE_SEL_GO) then tdelay 1 ;;; ret (inl tt) else ret (inr tt).

(** One zone of a window. *)
Definition map_zone (fuel : nat) (obw destid rio_addr i : Z) : TM W unit :=
  loop fuel zone_wait tt ;;;
  iowrite32 (Z.lor (Z.lor (u32 (Z.land rio_addr TSI721_LUT_DATA0_ADD)) TSI721_LUT_DATA0_NREAD)
    TSI721_LUT_DATA0_NWR) TSI721_LUT_DATA0 ;;;
  iowrite32 (Z.shiftr rio_addr 32) TSI721_LUT_DATA1 ;;;
  iowrite32 destid TSI721_LUT_DATA2 ;;;
  iowrite32 (Z.lor (Z.lor TSI721_ZONE_SEL_GO (Z.shiftl obw 3)) i) TSI721_ZONE_SEL.

(** A window of the first BAR that has one, or the error of the last attempt. *)
Definition obw_try_bars (size : Z) : TM W (Z * Z) :=
  let attempt i (ret0 : Z) : TM W (Z * Z) :=
    bars <- getp pv_p2r_bar ;;
    pbar <- slot_get bars i ;;
    if size <=? ob_free pbar then tsi721_obw_alloc i size else ret (ret0, -1) in
  let! (rc, obw) := attempt 0 (- ENOMEM) ;;
  if rc =? 0 then ret (rc, obw) else attempt 1 rc.

(** Returns the status and [*laddr]. *)
Definition tsi721_map_outb_win (fuel : nat) (destid rstart size laddr : Z) : TM W (Z * Z) :=
  cnt <- getp pv_obwin_cnt ;;
  if negb (is_power_of_2 size) || (size <? 0x8000) || truthy (Z.land rstart (size - 1))
  then ret (- EINVAL, laddr)
  else if cnt =? 0 then ret (- EBUSY, laddr)
  else
    let! (rc, obw) := obw_try_bars size ;;
    if truthy rc then ret (rc, laddr)
    else
      wins <- getp pv_ob_win ;;
      win <- slot_get wins obw ;;
      updp (fun p => setf pv_ob_win
        (<[Z.to_nat obw := setf ow_destid destid (setf ow_rstart rstart win)]> (pv_ob_win p)) p) ;;;
      for_ (zrange 0 TSI721_PC2SR_ZONES) (fun i =>
        map_zone fuel obw destid (u64 (rstart + i * (size / TSI721_PC2SR_ZONES))) i) ;;;
      iowrite32 (Z.shiftl (TSI721_OBWIN_SIZE size) 8) (TSI721_OBWINSZ obw) ;;;
      iowrite32 (Z.shiftr (ow_base win) 32) (TSI721_OBWINUB obw) ;;;
      iowrite32 (Z.lor (Z.land (ow_base win) TSI721_OBWINLB_BA) TSI721_OBWINLB_WEN) (TSI721_OBWINLB obw) ;;;
      ret (0, ow_base win).

Definition tsi721_unmap_outb_win (destid rstart : Z) : TM W unit :=
  for_exit (zrange 0 TSI721_OBWIN_NUM) (fun i =>
    wins <- getp pv_ob_win ;;
    win <- slot_get wins i ;;
    if ow_active win && (ow_destid win =? destid) && (ow_rstart win =? rstart) then
      updp (fun p => setf pv_ob_win (<[Z.to_nat i := setf ow_active false win]> (pv_ob_win p)) p) ;;;
      iowrite32 0 (TSI721_OBWINLB i) ;;;
      bar <- deref (ow_pbar win) ;;
      bars <- getp pv_p2r_bar ;;
      pbar <- slot_get bars bar ;;
      updp (fun p =>
        setf pv_p2r_bar (<[Z.to_nat bar := setf ob_free (u64 (ob_free pbar + ow_size win)) pbar]> (pv_p2r_bar p))
        (setf pv_obwin_cnt (pv_obwin_cnt p + 1) p)) ;;;
      ret (Some tt)
    else ret None) ;;;
  ret tt.

Definition tsi721_init_pc2sr_mapping (fuel : nat) : TM W unit :=
  for_ (zrange 0 TSI721_OBWIN_NUM) (fun i => iowrite32 0 (TSI721_OBWINLB i)) ;;;
  iowrite32 0 TSI721_LUT_DATA0 ;;;
  iowrite32 0 TSI721_LUT_DATA1 ;;;
  iowrite32 0 TSI721_LUT_DATA2 ;;;
  for_ (zrange 0 TSI721_OBWIN_NUM) (fun i =>
    for_ (zrange 0 TSI721_PC2SR_ZONES) (fun z =>
      loop fuel zone_wait tt ;;;
      iowrite32 (Z.lor (Z.lor TSI721_ZONE_SEL_GO (Z.shiftl i 3)) z) TSI721_ZONE_SEL)) ;;;
  bars <- getp pv_p2r_bar ;;
  if forallb (fun b => ob_size b =? 0) bars then updp (setf pv_obwin_cnt 0)
  else
    updp (fun p =>
      setf pv_p2r_bar ((fun b => setf ob_free (ob_size b) b) <$> bars)
      (setf pv_ob_win (setf ow_active false <$> pv_ob_win p)
      (setf pv_obwin_cnt TSI721_OBWIN_NUM p))).

(** ** Inbound windows *)

(** Growing a direct window until it holds the region; none beyond 16 GB. *)
Definition ibw_grow (lstart size : Z) (st : Z * Z) : TM W (Z * Z + option (Z * Z)) :=
  let '(ibw_size, ibw_start) := st in
  if u64 (ibw_start + ibw_size) <? u64 (lstart + size) then
    let ibw_size := u64 (ibw_size * 2) in
    let ibw_start := Z.land lstart (Z.lnot (ibw_size - 1)) in
    ret (if 0x400000000 <? ibw_size then inr None else inl (ibw_size, ibw_start))
  else ret (inr (Some (ibw_size, ibw_start))).
(** More doublings than there are up to 16 GB. *)
Definition IBW_FUEL : nat := 40.

(** What the scan over the windows has found: an error, the direct window that holds
    the region already, or the first free window ([-1] for none). *)
Inductive ibw_found := ibw_error | ibw_inside (i : Z) | ibw_avail (i : Z).

Fixpoint ibw_scan (direct : bool) (rstart size ibw_start ibw_size : Z) (l : list tsi721_ib_win) (i avail : Z)
    : ibw_found :=
  match l with
  | [] => ibw_avail avail
  | win :: l' =>
      if negb (iw_active win) then
        ibw_scan direct rstart size ibw_start ibw_size l' (i + 1) (if avail =? -1 then i else avail)
      else if (ibw_start <? u64 (iw_rstart win + iw_size win)) && (iw_rstart win <? u64 (ibw_start + ibw_size)) then
        if negb direct || iw_xlat win then ibw_error
        else if (iw_rstart win <=? rstart) && (u64 (rstart + size) <=? u64 (iw_rstart win + iw_size win))
        then ibw_inside i
        else ibw_error
      else ibw_scan direct rstart size ibw_start ibw_size l' (i + 1) avail
  end.

(** [map] is the client's object, allocated for direct windows. *)
Definition ibw_place (direct : bool) (lstart rstart size ibw_start ibw_size loc_start : Z) : TM W Z :=
  let out (rc : Z) : TM W Z := when direct (core kfree) ;;; ret rc in
  wins <- getp pv_ib_win ;;
  match ibw_scan direct rstart size ibw_start ibw_size wins 0 (-1) with
  | ibw_error => out (- EFAULT)
  | ibw_inside i =>
      win <- slot_get wins i ;;
      updp (fun p => setf pv_ib_win
        (<[Z.to_nat i := setf iw_mappings (iw_mappings win ++ [lstart]) win]> (pv_ib_win p)) p) ;;;
      ret 0
  | ibw_avail i =>
      if i =? -1 then out (- EBUSY)
      else
        regval <- ioread32 (TSI721_IBWIN_LB i) ;;
        if truthy (Z.land regval TSI721_IBWIN_LB_WEN) then out (- EIO)
        else
          updp (fun p => setf pv_ib_win (<[Z.to_nat i :=
            mk_ib_win ibw_start (u32 ibw_size) loc_start true (negb (lstart =? rstart))
              (if direct then [lstart] else [])]> (pv_ib_win p)) p) ;;;
          iowrite32 (Z.shiftl (TSI721_IBWIN_SIZE ibw_size) 8) (TSI721_IBWIN_SZ i) ;;;
          iowrite32 (Z.shiftr loc_start 32) (TSI721_IBWIN_TUA i) ;;;
          iowrite32 (Z.land loc_start TSI721_IBWIN_TLA_ADD) (TSI721_IBWIN_TLA i) ;;;
          iowrite32 (Z.shiftr ibw_start 32) (TSI721_IBWIN_UB i) ;;;
          iowrite32 (Z.lor (Z.land ibw_start TSI721_IBWIN_LB_BA) TSI721_IBWIN_LB_WEN) (TSI721_IBWIN_LB i) ;;;
          updp (fun p => setf pv_ibwin_cnt (pv_ibwin_cnt p - 1) p) ;;;
          ret 0
  end.

(** Rounding up zero is undefined. *)
Definition tsi721_rio_map_inb_mem (lstart rstart size : Z) : TM W Z :=
  if 0x400000000 <? size then ret (- EINVAL)
  else if lstart =? rstart then
    (if size =? 0 then ub else ret tt) ;;;
    let ibw_size := roundup_pow_of_two size in
    r <- loop IBW_FUEL (ibw_grow lstart size) (ibw_size, Z.land lstart (Z.lnot (ibw_size - 1))) ;;
    match r with
    | None => ret (- EBUSY)
    | Some (ibw_size, ibw_start) =>
        ok <- core kzalloc ;;
        if negb ok then ret (- ENOMEM)
        else ibw_place true lstart rstart size ibw_start ibw_size ibw_start
    end
  else
    cnt <- getp pv_ibwin_cnt ;;
    if negb (is_power_of_2 size) || (size <? 0x1000) || truthy (Z.land lstart (size - 1)) ||
       truthy (Z.land rstart (size - 1)) then ret (- EINVAL)
    else if cnt =? 0 then ret (- EBUSY)
    else ibw_place false lstart rstart size rstart size lstart.

(** The list without the first client of the address. *)
Fixpoint del_mapping (lstart : Z) (l : list Z) : option (list Z) :=
  match l with
  | [] => None
  | m :: l' => if m =? lstart then Some l' else cons m <$> del_mapping lstart l'
  end.

Definition tsi721_rio_unmap_inb_mem (lstart : Z) : TM W unit :=
  for_exit (zrange 0 TSI721_IBWIN_NUM) (fun i =>
    wins <- getp pv_ib_win ;;
    win <- slot_get wins i ;;
    let set_win w : TM W unit := updp (fun p => setf pv_ib_win (<[Z.to_nat i := w]> (pv_ib_win p)) p) in
    let disable w : TM W (option unit) :=
      iowrite32 0 (TSI721_IBWIN_LB i) ;;;
      set_win (setf iw_active false w) ;;;
      updp (fun p => setf pv_ibwin_cnt (pv_ibwin_cnt p + 1) p) ;;;
      ret (Some tt) in
    if negb (iw_active win) || (iw_xlat win && negb (lstart =? iw_lstart win)) then ret None
    else if (iw_lstart win <=? lstart) && (lstart <? u64 (iw_lstart win + iw_size win)) then
      if iw_xlat win then disable win
      else
        match del_mapping lstart (iw_mappings win) with
        | None => ret None
        | Some maps =>
            let w := setf iw_mappings maps win in
            set_win w ;;;
            core kfree ;;;
            if bool_decide (maps = []) then disable w else ret (Some tt)
        end
    else ret None) ;;;
  ret tt.

Definition tsi721_init_sr2pc_mapping : TM W unit :=
  for_ (zrange 0 TSI721_IBWIN_NUM) (fun i => iowrite32 0 (TSI721_IBWIN_LB i)) ;;;
  updp (setf pv_ibwin_cnt TSI721_IBWIN_NUM).

Definition tsi721_close_sr2pc_mapping : TM W unit :=
  for_ (zrange 0 TSI721_IBWIN_NUM) (fun i =>
    wins <- getp pv_ib_win ;;
    win <- slot_get wins i ;;
    when (iw_active win)
      (iowrite32 0 (TSI721_IBWIN_LB i) ;;;
       updp (fun p => setf pv_ib_win (<[Z.to_nat i := setf iw_active false win]> (pv_ib_win p)) p))).
End windows.
