(* ===== verification/Tsi721Msg.v ===== *)
(** * The Tsi721 bridge: messaging and interrupts (devices/tsi721.c)

    Outbound and inbound mailboxes: rings of descriptors in memory that the bridge
    shares, the interrupt handlers that drain the status queues, and the dispatch of
    interrupts to them. *)

From S2P Require Import Prelude Regs State Access Msg Tsi721Regs Tsi721.

Section msg.
Context {W : Type} `{!KernelEnv W} `{!Tsi721Hw W}.

(** ** Interrupts of the messaging channels *)

(** The registers of a channel: pending and enabled interrupts, and its bit in the
    device's register. *)
Definition msg_interrupt_enable (int inte chan inte_mask : Z) : TM W unit :=
  if inte_mask =? 0 then ret tt
  else
    iowrite32 inte_mask int ;;;
    rval <- ioread32 inte ;;
    iowrite32 (Z.lor rval inte_mask) inte ;;;
    msix <- using_msix ;;
    if msix : bool then ret tt
    else
      rval <- ioread32 TSI721_DEV_CHAN_INTE ;;
      iowrite32 (Z.lor rval chan) TSI721_DEV_CHAN_INTE.
Definition msg_interrupt_disable (int inte chan inte_mask : Z) : TM W unit :=
  if inte_mask =? 0 then ret tt
  else
    iowrite32 inte_mask int ;;;
    rval <- ioread32 inte ;;
    iowrite32 (Z.land rval (not32 inte_mask)) inte ;;;
    msix <- using_msix ;;
    if msix : bool then ret tt
    else
      rval <- ioread32 TSI721_DEV_CHAN_INTE ;;
      iowrite32 (Z.land rval (not32 chan)) TSI721_DEV_CHAN_INTE.

Definition tsi721_imsg_interrupt_enable (ch inte_mask : Z) : TM W unit :=
  msg_interrupt_enable (TSI721_IBDMAC_INT ch) (TSI721_IBDMAC_INTE ch) (TSI721_INT_IMSG_CHAN ch) inte_mask.
Definition tsi721_imsg_interrupt_disable (ch inte_mask : Z) : TM W unit :=
  msg_interrupt_disable (TSI721_IBDMAC_INT ch) (TSI721_IBDMAC_INTE ch) (TSI721_INT_IMSG_CHAN ch) inte_mask.
Definition tsi721_omsg_interrupt_enable (ch inte_mask : Z) : TM W unit :=
  msg_interrupt_enable (TSI721_OBDMAC_INT ch) (TSI721_OBDMAC_INTE ch) (TSI721_INT_OMSG_CHAN ch) inte_mask.
Definition tsi721_omsg_interrupt_disable (ch inte_mask : Z) : TM W unit :=
  msg_interrupt_disable (TSI721_OBDMAC_INT ch) (TSI721_OBDMAC_INTE ch) (TSI721_INT_OMSG_CHAN ch) inte_mask.

(** ** Access to the rings *)

Definition get_oring (mbox : Z) : TM W tsi721_omsg_ring := l <- getp pv_omsg_ring ;; slot_get l mbox.
Definition upd_oring (mbox : Z) (g : tsi721_omsg_ring -> tsi721_omsg_ring) : TM W unit :=
  r <- get_oring mbox ;;
  updp (fun p => setf pv_omsg_ring (<[Z.to_nat mbox := g r]> (pv_omsg_ring p)) p).
Definition get_iring (mbox : Z) : TM W tsi721_imsg_ring := l <- getp pv_imsg_ring ;; slot_get l mbox.
Definition upd_iring (mbox : Z) (g : tsi721_imsg_ring -> tsi721_imsg_ring) : TM W unit :=
  r <- get_iring mbox ;;
  updp (fun p => setf pv_imsg_ring (<[Z.to_nat mbox := g r]> (pv_imsg_ring p)) p).
Definition omsg_init_at (mbox : Z) : TM W bool := l <- getp pv_omsg_init ;; v <- slot_get l mbox ;; ret (truthy v).
Definition set_omsg_init (mbox v : Z) : TM W unit :=
  l <- getp pv_omsg_init ;; l <- slot_set l mbox v ;; updp (setf pv_omsg_init l).
Definition imsg_init_at (mbox : Z) : TM W bool := l <- getp pv_imsg_init ;; v <- slot_get l mbox ;; ret (truthy v).
Definition set_imsg_init (mbox v : Z) : TM W unit :=
  l <- getp pv_imsg_init ;; l <- slot_set l mbox v ;; updp (setf pv_imsg_init l).

(** ** Sending *)

(** The descriptor of a message of [len] bytes in the buffer at [bufptr]. *)
Definition put_omsg_desc (desc destid sys_size mbox len bufptr : Z) : TM W unit :=
  dma_put32 (desc + OFF_TYPE_ID) (Z.lor (Z.shiftl DTYPE4 29) destid) ;;;
  dma_put32 (desc + OFF_MSG_INFO) (Z.lor (Z.lor (Z.shiftl sys_size 26) (Z.shiftl mbox 22))
    (Z.lor (Z.shiftl 0xe 12) (Z.land len 0xff8))) ;;;
  dma_put32 (desc + OFF_RADDR_LO) (Z.land bufptr 0xffffffff) ;;;
  dma_put32 (desc + OFF_RADDR_HI) (Z.shiftr bufptr 32).

(** The ring after a message: past the last slot there is the link descriptor. *)
Definition omsg_next (r : tsi721_omsg_ring) : tsi721_omsg_ring :=
  if u32 (or_tx_slot r + 1) =? or_size r
  then setf or_tx_slot 0 (setf or_wr_count (u32 (u32 (or_wr_count r + 1) + 1)) r)
  else setf or_tx_slot (u32 (or_tx_slot r + 1)) (setf or_wr_count (u32 (or_wr_count r + 1)) r).

Definition tsi721_add_outb_message (rdev : ptr) (mbox : Z) (buffer : ptr) (len : Z) : TM W Z :=
  init <- omsg_init_at mbox ;;
  if negb init || (TSI721_MSG_MAX_SIZE <? len) || (len <? 8) then ret (- EINVAL)
  else
    ring <- get_oring mbox ;;
    let tx_slot := or_tx_slot ring in
    omq <- slot_get (or_omq_base ring) tx_slot ;;
    omq <- deref omq ;;
    bytes <- lift (read_at buffer 0 (Z.to_nat len)) ;;
    dma_put omq bytes ;;;
    let len := if truthy (Z.land len 0x7) then len + 8 else len in
    omd <- deref (or_omd_base ring) ;;
    d <- core (get_dev rdev) ;;
    mp <- pmport ;;
    put_omsg_desc (omd + OMSG_DESC_SIZE * tx_slot) (rd_destid d) (mp_sys_size mp) mbox len omq ;;;
    upd_oring mbox omsg_next ;;;
    iowrite32 (or_wr_count (omsg_next ring)) (TSI721_OBDMAC_DWRCNT mbox) ;;;
    ret 0.

(** Up to [n] entries of a block of the status queue from [j] on, cleared as they are
    read; the results are the last and the last but one descriptor. *)
Fixpoint sts_block (sts : Z) (n : nat) (j last_ptr prev_ptr : Z) : TM W (Z * Z) :=
  match n with
  | O => ret (last_ptr, prev_ptr)
  | S n' =>
      v <- dma_get64 (sts + 8 * j) ;;
      if v =? 0 then ret (last_ptr, prev_ptr)
      else
        dma_put64 (sts + 8 * j) 0 ;;;
        sts_block sts n' (j + 1) v last_ptr
  end.

(** One block; the loop ends at a block without entries. *)
Definition sts_step (sts sts_size : Z) (st : Z * Z * Z) : TM W (Z * Z * Z + Z * Z * Z) :=
  let '(srd_ptr, last_ptr, prev_ptr) := st in
  v <- dma_get64 (sts + 8 * (srd_ptr * 8)) ;;
  if v =? 0 then ret (inr st)
  else
    let! (last_ptr, prev_ptr) := sts_block sts 8 (srd_ptr * 8) last_ptr prev_ptr ;;
    ret (inl (Z.rem (u32 (srd_ptr + 1)) sts_size, last_ptr, prev_ptr)).

(** The slot of a descriptor. *)
Definition desc_slot (omd ptr : Z) : Z := u32 (u64 (ptr - omd) / OMSG_DESC_SIZE).
(** The slot that follows the last one done, unless only the link descriptor is known
    to be done. *)
Definition done_slot (ring : tsi721_omsg_ring) (omd last_ptr prev_ptr : Z) : option Z :=
  let next tx_slot := let t := u32 (tx_slot + 1) in if t =? or_size ring then 0 else t in
  let tx_slot := desc_slot omd last_ptr in
  if tx_slot =? or_size ring then
    if prev_ptr =? 0 then None else Some (next (desc_slot omd prev_ptr))
  else Some (next tx_slot).

(** Draining the status queue: the read pointer, and the slot to report. *)
Definition omsg_done (fuel : nat) (ch : Z) : TM W (Z * option Z) :=
  ring <- get_oring ch ;;
  sts <- deref (or_sts_base ring) ;;
  let! (srd_ptr, last_ptr, prev_ptr) := loop fuel (sts_step sts (or_sts_size ring)) (or_sts_rdptr ring, 0, 0) ;;
  if last_ptr =? 0 then ret (srd_ptr, None)
  else
    upd_oring ch (setf or_sts_rdptr srd_ptr) ;;;
    iowrite32 srd_ptr (TSI721_OBDMAC_DSRP ch) ;;;
    mp <- pmport ;;
    m <- slot_get (mp_outb_msg mp) ch ;;
    match msg_mcback m with
    | None => ret (srd_ptr, None)
    | Some _ =>
        omd <- deref (or_omd_base ring) ;;
        ret (srd_ptr, done_slot ring omd last_ptr prev_ptr)
    end.

(** After an error the channel starts again at the next free slot. *)
Definition omsg_restart (ch : Z) : TM W Z :=
  ioread32 (TSI721_OBDMAC_STS ch) ;;;
  iowrite32 TSI721_OBDMAC_INT_ERROR (TSI721_OBDMAC_INT ch) ;;;
  iowrite32 (Z.lor TSI721_OBDMAC_CTL_RETRY_THR TSI721_OBDMAC_CTL_INIT) (TSI721_OBDMAC_CTL ch) ;;;
  ioread32 (TSI721_OBDMAC_CTL ch) ;;;
  ring <- get_oring ch ;;
  iowrite32 (or_tx_slot ring) (TSI721_OBDMAC_DRDCNT ch) ;;;
  ioread32 (TSI721_OBDMAC_DRDCNT ch) ;;;
  upd_oring ch (fun r => setf or_wr_count (or_tx_slot r) (setf or_sts_rdptr 0 r)) ;;;
  ret (or_tx_slot ring).

Context `{!Tsi721Callbacks W}.

Definition tsi721_omsg_handler (fuel : nat) (ch : Z) : TM W unit :=
  omsg_int <- ioread32 (TSI721_OBDMAC_INT ch) ;;
  iowrite32 omsg_int (TSI721_OBDMAC_INT ch) ;;;
  let! (srd_ptr, report) :=
    (if truthy (Z.land omsg_int (Z.lor TSI721_OBDMAC_INT_DONE TSI721_OBDMAC_INT_IOF_DONE))
     then omsg_done fuel ch else ret (0xffffffff, None)) ;;
  report <- (if truthy (Z.land omsg_int TSI721_OBDMAC_INT_ERROR)
             then t <- omsg_restart ch ;; ret (Some t) else ret report) ;;
  mp <- pmport ;;
  m <- slot_get (mp_outb_msg mp) ch ;;
  (match msg_mcback m, report with
   | Some cb, Some tx_slot =>
       mport <- getp pv_mport ;;
       ring <- get_oring ch ;;
       mcback_call cb mport (or_dev_id ring) ch tx_slot
   | _, _ => ret tt
   end) ;;;
  msix <- using_msix ;;
  if negb msix then ret tt
  else
    omsg_int <- ioread32 (TSI721_OBDMAC_INT ch) ;;
    if truthy (Z.land omsg_int TSI721_OBDMAC_INT_DONE) then ret tt
    else
      swr_ptr <- ioread32 (TSI721_OBDMAC_DSWP ch) ;;
      ring <- get_oring ch ;;
      (if or_sts_size ring =? 0 then ub else ret tt) ;;;
      when (negb (srd_ptr =? Z.rem swr_ptr (or_sts_size ring)))
        (iowrite32 TSI721_OBDMAC_INT_DONE (TSI721_OBDMAC_INTSET ch)).

(** ** Outbound mailboxes *)

(** [mbox_sel], a module parameter. *)
Variable mbox_sel : Z.

(** Freeing the message buffers that there are. *)
Definition free_omq (mbox : Z) : TM W unit :=
  ring <- get_oring mbox ;;
  for_ (zrange 0 (or_size ring)) (fun i =>
    r <- get_oring mbox ;;
    b <- slot_get (or_omq_base r) i ;;
    match b with
    | None => ret tt
    | Some a =>
        dma_free TSI721_MSG_BUFFER_SIZE a ;;;
        l <- slot_set (or_omq_base r) i None ;;
        upd_oring mbox (setf or_omq_base l)
    end).
Definition free_omd (mbox : Z) : TM W unit :=
  r <- get_oring mbox ;;
  a <- deref (or_omd_base r) ;;
  dma_free ((or_size r + 1) * OMSG_DESC_SIZE) a ;;;
  upd_oring mbox (setf or_omd_base None).
Definition free_osts (mbox : Z) : TM W unit :=
  r <- get_oring mbox ;;
  a <- deref (or_sts_base r) ;;
  dma_free (or_sts_size r * DMA_STS_SIZE) a ;;;
  upd_oring mbox (setf or_sts_base None).

(** A buffer for each entry; false when memory runs out. *)
Definition alloc_omq (mbox entries : Z) : TM W bool :=
  r <- for_exit (zrange 0 entries) (fun i =>
    p <- dma_alloc TSI721_MSG_BUFFER_SIZE ;;
    r <- get_oring mbox ;;
    l <- slot_set (or_omq_base r) i p ;;
    upd_oring mbox (setf or_omq_base l) ;;;
    ret (match p with Some _ => None | None => Some tt end)) ;;
  ret (negb (bool_decide (is_Some r))).

(** The two interrupts of a channel: both or none. *)
Definition request_mbox_irqs (done int : Z) : TM W Z :=
  v1 <- msix_vector done ;;
  rc <- request_irq v1 ;;
  if truthy rc then ret rc
  else
    v2 <- msix_vector int ;;
    rc <- request_irq v2 ;;
    if truthy rc then free_irq v1 ;;; ret rc else ret 0.
Definition free_mbox_irqs (done int : Z) : TM W unit :=
  v1 <- msix_vector done ;; free_irq v1 ;;; v2 <- msix_vector int ;; free_irq v2.

Definition start_omsg (mbox entries omd : Z) : TM W unit :=
  tsi721_omsg_interrupt_enable mbox TSI721_OBDMAC_INT_ALL ;;;
  let ld := omd + OMSG_DESC_SIZE * entries in
  dma_put32 (ld + OFF_TYPE_ID) (Z.shiftl DTYPE5 29) ;;;
  dma_put32 (ld + OFF_MSG_INFO) 0 ;;;
  dma_put32 (ld + OFF_RADDR_LO) (Z.land omd TSI721_OBDMAC_DPTRL_MASK) ;;;
  dma_put32 (ld + OFF_RADDR_HI) (Z.shiftr omd 32) ;;;
  upd_oring mbox (setf or_wr_count 0) ;;;
  iowrite32 (Z.lor TSI721_OBDMAC_CTL_RETRY_THR TSI721_OBDMAC_CTL_INIT) (TSI721_OBDMAC_CTL mbox) ;;;
  ioread32 (TSI721_OBDMAC_DWRCNT mbox) ;;;
  tdelay 10 ;;;
  set_omsg_init mbox 1.

Definition tsi721_open_outb_mbox (dev_id : ptr) (mbox entries : Z) : TM W Z :=
  if (entries <? TSI721_OMSGD_MIN_RING_SIZE) || (TSI721_OMSGD_RING_SIZE <? entries) ||
     negb (is_power_of_2 entries) || (RIO_MAX_MBOX <=? mbox) then ret (- EINVAL)
  else if mbox <? 0 then ub
  else if Z.land mbox_sel (Z.shiftl 1 mbox) =? 0 then ret (- ENODEV)
  else
    upd_oring mbox (fun r => setf or_dev_id (Some dev_id) (setf or_size entries (setf or_sts_rdptr 0 r))) ;;;
    ok <- alloc_omq mbox entries ;;
    if negb ok then free_omq mbox ;;; ret (- ENOMEM)
    else
      omd <- dma_alloc ((entries + 1) * OMSG_DESC_SIZE) ;;
      upd_oring mbox (setf or_omd_base omd) ;;;
      match omd with
      | None => free_omq mbox ;;; ret (- ENOMEM)
      | Some omd =>
          let sts_size := roundup_pow_of_two (entries + 1) in
          upd_oring mbox (fun r => setf or_tx_slot 0 (setf or_sts_size sts_size r)) ;;;
          sts <- dma_zalloc (sts_size * DMA_STS_SIZE) ;;
          upd_oring mbox (setf or_sts_base sts) ;;;
          match sts with
          | None => free_omd mbox ;;; free_omq mbox ;;; ret (- ENOMEM)
          | Some sts =>
              iowrite32 (Z.shiftr omd 32) (TSI721_OBDMAC_DPTRH mbox) ;;;
              iowrite32 (Z.land omd TSI721_OBDMAC_DPTRL_MASK) (TSI721_OBDMAC_DPTRL mbox) ;;;
              iowrite32 (Z.shiftr sts 32) (TSI721_OBDMAC_DSBH mbox) ;;;
              iowrite32 (Z.land sts TSI721_OBDMAC_DSBL_MASK) (TSI721_OBDMAC_DSBL mbox) ;;;
              iowrite32 (TSI721_DMAC_DSSZ_SIZE sts_size) (TSI721_OBDMAC_DSSZ mbox) ;;;
              msix <- using_msix ;;
              rc <- (if msix : bool
                     then request_mbox_irqs (TSI721_VECT_OMB0_DONE + mbox) (TSI721_VECT_OMB0_INT + mbox)
                     else ret 0) ;;
              if truthy rc then free_osts mbox ;;; free_omd mbox ;;; free_omq mbox ;;; ret rc
              else start_omsg mbox entries omd ;;; ret 0
          end
      end.

Definition tsi721_close_outb_mbox (mbox : Z) : TM W unit :=
  init <- omsg_init_at mbox ;;
  if negb init then ret tt
  else
    set_omsg_init mbox 0 ;;;
    tsi721_omsg_interrupt_disable mbox TSI721_OBDMAC_INT_ALL ;;;
    msix <- using_msix ;;
    when msix (free_mbox_irqs (TSI721_VECT_OMB0_DONE + mbox) (TSI721_VECT_OMB0_INT + mbox)) ;;;
    free_osts mbox ;;;
    free_omd mbox ;;;
    free_omq mbox.

(** ** Inbound mailboxes *)

Definition tsi721_imsg_handler (ch : Z) : TM W unit :=
  let mbox := ch - 4 in
  imsg_int <- ioread32 (TSI721_IBDMAC_INT ch) ;;
  iowrite32 imsg_int (TSI721_IBDMAC_INT ch) ;;;
  mp <- pmport ;;
  m <- slot_get (mp_inb_msg mp) mbox ;;
  (match msg_mcback m with
   | Some cb =>
       when (truthy (Z.land imsg_int TSI721_IBDMAC_INT_DQ_RCV))
         (mport <- getp pv_mport ;;
          ring <- get_iring mbox ;;
          mcback_call cb mport (ir_dev_id ring) mbox (-1))
   | None => ret tt
   end) ;;;
  msix <- using_msix ;;
  when (negb msix)
    (ch_inte <- ioread32 TSI721_DEV_CHAN_INTE ;;
     iowrite32 (Z.lor ch_inte (TSI721_INT_IMSG_CHAN ch)) TSI721_DEV_CHAN_INTE).

Definition free_imd (mbox : Z) : TM W unit :=
  r <- get_iring mbox ;;
  a <- deref (ir_imd_base r) ;;
  dma_free (ir_size r * IMSG_DESC_SIZE) a ;;;
  upd_iring mbox (setf ir_imd_base None).
Definition free_imfq (mbox : Z) : TM W unit :=
  r <- get_iring mbox ;;
  a <- deref (ir_imfq_base r) ;;
  dma_free (ir_size r * 8) a ;;;
  upd_iring mbox (setf ir_imfq_base None).
Definition free_ibuf (mbox : Z) : TM W unit :=
  r <- get_iring mbox ;;
  a <- deref (ir_buf_base r) ;;
  dma_free (ir_size r * TSI721_MSG_BUFFER_SIZE) a ;;;
  upd_iring mbox (setf ir_buf_base None).
(** The slots of the ring without buffers. *)
Definition clear_imq (mbox : Z) : TM W unit :=
  ring <- get_iring mbox ;;
  for_ (zrange 0 (ir_size ring)) (fun i =>
    r <- get_iring mbox ;;
    l <- slot_set (ir_imq_base r) i None ;;
    upd_iring mbox (setf ir_imq_base l)).

(** The registers of the free queue and of the descriptor queue. *)
Definition setup_imsg (ch entries imfq imd : Z) : TM W unit :=
  iowrite32 (Z.shiftr imfq 32) (TSI721_IBDMAC_FQBH ch) ;;;
  iowrite32 (Z.land imfq TSI721_IBDMAC_FQBL_MASK) (TSI721_IBDMAC_FQBL ch) ;;;
  iowrite32 (TSI721_DMAC_DSSZ_SIZE entries) (TSI721_IBDMAC_FQSZ ch) ;;;
  iowrite32 (Z.shiftr imd 32) (TSI721_IBDMAC_DQBH ch) ;;;
  iowrite32 (Z.land (u32 imd) TSI721_IBDMAC_DQBL_MASK) (TSI721_IBDMAC_DQBL ch) ;;;
  iowrite32 (TSI721_DMAC_DSSZ_SIZE entries) (TSI721_IBDMAC_DQSZ ch).

Definition start_imsg (mbox entries : Z) : TM W unit :=
  let ch := mbox + 4 in
  tsi721_imsg_interrupt_enable ch TSI721_IBDMAC_INT_ALL ;;;
  iowrite32 TSI721_IBDMAC_CTL_INIT (TSI721_IBDMAC_CTL ch) ;;;
  ioread32 (TSI721_IBDMAC_CTL ch) ;;;
  tdelay 10 ;;;
  upd_iring mbox (setf ir_fq_wrptr (entries - 1)) ;;;
  iowrite32 (entries - 1) (TSI721_IBDMAC_FQWP ch) ;;;
  set_imsg_init mbox 1.

Definition tsi721_open_inb_mbox (dev_id : ptr) (mbox entries : Z) : TM W Z :=
  let ch := mbox + 4 in
  if (entries <? TSI721_IMSGD_MIN_RING_SIZE) || (TSI721_IMSGD_RING_SIZE <? entries) ||
     negb (is_power_of_2 entries) || (RIO_MAX_MBOX <=? mbox) then ret (- EINVAL)
  else if mbox <? 0 then ub
  else if Z.land mbox_sel (Z.shiftl 1 mbox) =? 0 then ret (- ENODEV)
  else
    upd_iring mbox (fun r => setf ir_dev_id (Some dev_id) (setf ir_size entries
      (setf ir_rx_slot 0 (setf ir_desc_rdptr 0 (setf ir_fq_wrptr 0 r))))) ;;;
    clear_imq mbox ;;;
    buf <- dma_alloc (entries * TSI721_MSG_BUFFER_SIZE) ;;
    upd_iring mbox (setf ir_buf_base buf) ;;;
    match buf with
    | None => ret (- ENOMEM)
    | Some buf =>
        imfq <- dma_alloc (entries * 8) ;;
        upd_iring mbox (setf ir_imfq_base imfq) ;;;
        match imfq with
        | None => free_ibuf mbox ;;; ret (- ENOMEM)
        | Some imfq =>
            imd <- dma_alloc (entries * IMSG_DESC_SIZE) ;;
            upd_iring mbox (setf ir_imd_base imd) ;;;
            match imd with
            | None => free_imfq mbox ;;; free_ibuf mbox ;;; ret (- ENOMEM)
            | Some imd =>
                for_ (zrange 0 entries) (fun i => dma_put64 (imfq + 8 * i) (buf + i * 0x1000)) ;;;
                flags <- getp pv_flags ;;
                when (negb (truthy (Z.land flags TSI721_IMSGID_SET)))
                  (mp <- pmport ;;
                   iowrite32 (mp_host_deviceid mp) TSI721_IB_DEVID ;;;
                   updp (setf pv_flags (Z.lor flags TSI721_IMSGID_SET))) ;;;
                setup_imsg ch entries imfq imd ;;;
                msix <- using_msix ;;
                rc <- (if msix : bool
                       then request_mbox_irqs (TSI721_VECT_IMB0_RCV + mbox) (TSI721_VECT_IMB0_INT + mbox)
                       else ret 0) ;;
                if truthy rc then free_imd mbox ;;; free_imfq mbox ;;; free_ibuf mbox ;;; ret rc
                else start_imsg mbox entries ;;; ret 0
            end
        end
    end.

(** Disables with the mask of the outbound engine. *)
Definition tsi721_close_inb_mbox (mbox : Z) : TM W unit :=
  let ch := mbox + 4 in
  init <- imsg_init_at mbox ;;
  if negb init then ret tt
  else
    set_imsg_init mbox 0 ;;;
    tsi721_imsg_interrupt_disable ch TSI721_OBDMAC_INT_MASK ;;;
    msix <- using_msix ;;
    when msix (free_mbox_irqs (TSI721_VECT_IMB0_RCV + mbox) (TSI721_VECT_IMB0_INT + mbox)) ;;;
    clear_imq mbox ;;;
    free_ibuf mbox ;;;
    free_imfq mbox ;;;
    free_imd mbox.

Definition tsi721_add_inb_buffer (mbox : Z) (buf : ptr) : TM W Z :=
  ring <- get_iring mbox ;;
  let rx_slot := ir_rx_slot ring in
  b <- slot_get (ir_imq_base ring) rx_slot ;;
  match b with
  | Some _ => ret (- EINVAL)
  | None =>
      l <- slot_set (ir_imq_base ring) rx_slot (Some buf) ;;
      upd_iring mbox (fun r =>
        setf ir_imq_base l
        (setf ir_rx_slot (if u32 (rx_slot + 1) =? ir_size r then 0 else u32 (rx_slot + 1)) r)) ;;;
      ret 0
  end.

(** Looking for a buffer from [rx_slot] on; without one it goes on for ever. *)
Definition imq_step (ring : tsi721_imsg_ring) (rx_slot : Z) : TM W (Z + Z * ptr) :=
  b <- slot_get (ir_imq_base ring) rx_slot ;;
  ret (match b with
       | Some buf => inr (rx_slot, buf)
       | None => inl (if u32 (rx_slot + 1) =? ir_size ring then 0 else u32 (rx_slot + 1))
       end).
Definition IMQ_FUEL : nat := 513.

(** The buffer and the size of the message in it; the bridge names the place of the
    message, which must be in the mailbox's memory. *)
Definition tsi721_get_inb_message (mbox : Z) : TM W (option (ptr * Z)) :=
  let ch := mbox + 4 in
  init <- imsg_init_at mbox ;;
  if negb init then ret None
  else
    ring <- get_iring mbox ;;
    imd <- deref (ir_imd_base ring) ;;
    let desc := imd + IMSG_DESC_SIZE * ir_desc_rdptr ring in
    msg_info <- dma_get32 (desc + OFF_MSG_INFO) ;;
    if negb (truthy (Z.land msg_info TSI721_IMD_HO)) then ret None
    else
      let! (rx_slot, buf) := loop IMQ_FUEL (imq_step ring) (ir_rx_slot ring) ;;
      hi <- dma_get32 (desc + OFF_RADDR_HI) ;;
      lo <- dma_get32 (desc + OFF_RADDR_LO) ;;
      let rx_phys := Z.lor (Z.shiftl hi 32) lo in
      msg_info <- dma_get32 (desc + OFF_MSG_INFO) ;;
      let msg_size := Z.land msg_info TSI721_IMD_BCOUNT in
      let msg_size := if msg_size =? 0 then RIO_MAX_MSG_SIZE else msg_size in
      base <- deref (ir_buf_base ring) ;;
      (if (base <=? rx_phys) && (rx_phys + msg_size <=? base + ir_size ring * TSI721_MSG_BUFFER_SIZE)
       then ret tt else ub) ;;;
      bytes <- dma_get rx_phys (Z.to_nat msg_size) ;;
      lift (write_at buf 0 bytes) ;;;
      msg_info <- dma_get32 (desc + OFF_MSG_INFO) ;;
      dma_put32 (desc + OFF_MSG_INFO) (Z.land msg_info (not32 TSI721_IMD_HO)) ;;;
      let next v := if u32 (v + 1) =? ir_size ring then 0 else u32 (v + 1) in
      l <- slot_set (ir_imq_base ring) rx_slot None ;;
      upd_iring mbox (fun r => setf ir_imq_base l (setf ir_desc_rdptr (next (ir_desc_rdptr r)) r)) ;;;
      iowrite32 (next (ir_desc_rdptr ring)) (TSI721_IBDMAC_DQRP ch) ;;;
      imfq <- deref (ir_imfq_base ring) ;;
      dma_put64 (imfq + 8 * ir_fq_wrptr ring) rx_phys ;;;
      upd_iring mbox (fun r => setf ir_fq_wrptr (next (ir_fq_wrptr r)) r) ;;;
      iowrite32 (next (ir_fq_wrptr ring)) (TSI721_IBDMAC_FQWP ch) ;;;
      ret (Some (buf, msg_size)).

Definition tsi721_messages_init : TM W Z :=
  iowrite32 0 TSI721_SMSG_ECC_LOG ;;;
  iowrite32 0 TSI721_RETRY_GEN_CNT ;;;
  iowrite32 0 TSI721_RETRY_RX_CNT ;;;
  for_ (zrange 0 TSI721_IMSG_CHNUM) (fun ch =>
    iowrite32 TSI721_IBDMAC_INT_MASK (TSI721_IBDMAC_INT ch) ;;;
    iowrite32 0 (TSI721_IBDMAC_STS ch) ;;;
    iowrite32 TSI721_SMSG_ECC_COR_LOG_MASK (TSI721_SMSG_ECC_COR_LOG ch) ;;;
    iowrite32 TSI721_SMSG_ECC_NCOR_MASK (TSI721_SMSG_ECC_NCOR ch)) ;;;
  ret 0.
End msg.
