(* ===== verification/Tsi721Dma.v ===== *)
(** * The DMA engine of the Tsi721 bridge (devices/tsi721_dma.c)

    Seven of the eight channels serve clients of the kernel's DMA engine.  A client takes
    a descriptor from the free list, submits it to the queue, and the channel turns
    its scatter list into hardware descriptors in a ring; interrupts schedule the tasklet that
    completes descriptors and starts the next ones.  The cookie functions of
    include/dmaengine.h are modelled as well.  The parameters of the module are
    variables of the sections. *)

From S2P Require Import Prelude Regs State Access Msg RioDma Tsi721Regs Tsi721.

(** What the DMA core and the kernel's interrupt code do. *)
Class DmaCore (W : Type) := {
  dma_async_device_register : list Z -> W -> Z * W;
  dma_async_device_unregister : W -> W;
  (** [cookie], the last completed and the last used cookie *)
  dma_async_is_complete : Z -> Z -> Z -> dma_status;
  synchronize_irq : Z -> W -> W;
}.

Definition DMA_MIN_COOKIE : Z := 1.

(** The last value of an unsigned address: no previous entry. *)
Definition NO_ADDR : Z := 2 ^ 64 - 1.

Section dma.
Context {W : Type} `{!KernelEnv W} `{!Tsi721Hw W} `{!Tsi721Callbacks W} `{!DmaCore W}.
Variables (dma_desc_per_channel dma_txqueue_sz dma_sel : Z).

(** ** Access *)

Definition get_chan (ch : Z) : TM W tsi721_bdma_chan := l <- getp pv_bdma ;; slot_get l ch.
Definition upd_chan (ch : Z) (g : tsi721_bdma_chan -> tsi721_bdma_chan) : TM W unit :=
  l <- getp pv_bdma ;;
  c <- slot_get l ch ;;
  updp (setf pv_bdma (<[Z.to_nat ch := g c]> l)).
Definition get_desc (d : txd_ptr) : TM W tsi721_tx_desc :=
  l <- gets (fun s => ts_txds s !! d.1) ;;
  l <- deref l ;;
  slot_get l d.2.
Definition upd_desc (d : txd_ptr) (g : tsi721_tx_desc -> tsi721_tx_desc) : TM W unit :=
  l <- gets (fun s => ts_txds s !! d.1) ;;
  l <- deref l ;;
  v <- slot_get l d.2 ;;
  modify (fun s => setf ts_txds (<[d.1 := <[Z.to_nat d.2 := g v]> l]> (ts_txds s)) s).

(** Registers of a channel. *)
Definition creg (ch off : Z) : TM W Z := c <- get_chan ch ;; r <- deref (bc_regs c) ;; ret (r + off).
Definition cread (ch off : Z) : TM W Z := r <- creg ch off ;; ioread32 r.
Definition cwrite (v ch off : Z) : TM W unit := r <- creg ch off ;; iowrite32 v r.

(** *** Lists of descriptors

    A node is in a list or it is initialised and empty.  Adding a node that is in a list
    already corrupts both, and the neighbours must exist. *)

Definition linked (c : tsi721_bdma_chan) (d : txd_ptr) : bool :=
  bool_decide (d ∈ bc_queue c) || bool_decide (d ∈ bc_free_list c).
Definition touch (d : option txd_ptr) : TM W unit :=
  match d with Some d => get_desc d ;;; ret tt | None => ret tt end.
Definition list_add_free (ch : Z) (d : txd_ptr) : TM W unit :=
  get_desc d ;;;
  c <- get_chan ch ;;
  touch (head (bc_free_list c)) ;;;
  if linked c d then ub else upd_chan ch (fun c => setf bc_free_list (d :: bc_free_list c) c).
Definition list_add_tail_queue (ch : Z) (d : txd_ptr) : TM W unit :=
  get_desc d ;;;
  c <- get_chan ch ;;
  touch (last (bc_queue c)) ;;;
  if linked c d then ub else upd_chan ch (fun c => setf bc_queue (bc_queue c ++ [d]) c).

(** ** Cookies (include/dmaengine.h) *)

(** [dma_cookie_t] is an [int]; the kernel's arithmetic wraps around. *)
Definition dma_cookie_init (ch : Z) : TM W unit :=
  upd_chan ch (fun c => setf bc_cookie DMA_MIN_COOKIE (setf bc_completed_cookie DMA_MIN_COOKIE c)).
Definition next_cookie (cookie : Z) : Z :=
  let cookie := s32 (cookie + 1) in if cookie <? DMA_MIN_COOKIE then DMA_MIN_COOKIE else cookie.
Definition dma_cookie_assign (ch : Z) (tx : txd_ptr) : TM W Z :=
  c <- get_chan ch ;;
  let cookie := next_cookie (bc_cookie c) in
  upd_chan ch (setf bc_cookie cookie) ;;;
  upd_desc tx (setf td_cookie cookie) ;;;
  ret cookie.
(** BUG_ON stops the kernel. *)
Definition dma_cookie_complete (ch : Z) (tx : txd_ptr) : TM W unit :=
  d <- get_desc tx ;;
  if td_cookie d <? DMA_MIN_COOKIE then ub
  else upd_chan ch (setf bc_completed_cookie (td_cookie d)) ;;; upd_desc tx (setf td_cookie 0).
(** The status with the contents of [*state]: last, used and residue. *)
Definition dma_cookie_status (ch cookie : Z) : TM W (dma_status * (Z * Z * Z)) :=
  c <- get_chan ch ;;
  ret (dma_async_is_complete cookie (bc_completed_cookie c) (bc_cookie c),
       (bc_completed_cookie c, bc_cookie c, 0)).

(** ** Channel set-up *)

(** The addresses of the ring and of the status FIFO are given to the channel. *)
Definition set_rings (ch bd sts sts_size : Z) : TM W unit :=
  cwrite (Z.shiftr bd 32) ch TSI721_DMAC_DPTRH ;;;
  cwrite (Z.land bd TSI721_DMAC_DPTRL_MASK) ch TSI721_DMAC_DPTRL ;;;
  cwrite (Z.shiftr sts 32) ch TSI721_DMAC_DSBH ;;;
  cwrite (Z.land sts TSI721_DMAC_DSBL_MASK) ch TSI721_DMAC_DSBL ;;;
  cwrite (TSI721_DMAC_DSSZ_SIZE sts_size) ch TSI721_DMAC_DSSZ ;;;
  cwrite TSI721_DMAC_INT_ALL ch TSI721_DMAC_INT ;;;
  cread ch TSI721_DMAC_INT ;;;
  ret tt.

(** Both vectors of the channel or none. *)
Definition request_chan_irqs (id : Z) : TM W Z :=
  v1 <- msix_vector (TSI721_VECT_DMA0_DONE + id) ;;
  rc <- request_irq v1 ;;
  if truthy rc then ret rc
  else
    v2 <- msix_vector (TSI721_VECT_DMA0_INT + id) ;;
    rc <- request_irq v2 ;;
    when (truthy rc) (free_irq v1) ;;;
    ret rc.
Definition free_chan_irqs (id : Z) : TM W unit :=
  v1 <- msix_vector (TSI721_VECT_DMA0_DONE + id) ;;
  free_irq v1 ;;;
  v2 <- msix_vector (TSI721_VECT_DMA0_INT + id) ;;
  free_irq v2.

Definition tsi721_bdma_ch_init (ch bd_num : Z) : TM W Z :=
  bd_ptr <- dma_zalloc ((bd_num + 1) * DMA_DESC_SIZE) ;;
  match bd_ptr with
  | None => ret (- ENOMEM)
  | Some bd =>
      upd_chan ch (fun c => setf bc_bd_num bd_num (setf bc_bd_base (Some bd) c)) ;;;
      let sts_size := roundup_pow_of_two (Z.max (bd_num + 1) TSI721_DMA_MINSTSSZ) in
      sts_ptr <- dma_zalloc (sts_size * DMA_STS_SIZE) ;;
      match sts_ptr with
      | None =>
          dma_free ((bd_num + 1) * DMA_DESC_SIZE) bd ;;;
          upd_chan ch (setf bc_bd_base None) ;;;
          ret (- ENOMEM)
      | Some sts =>
          upd_chan ch (fun c => setf bc_sts_base (Some sts) (setf bc_sts_size sts_size c)) ;;;
          let ld := bd + DMA_DESC_SIZE * bd_num in
          dma_put32 (ld + OFF_TYPE_ID) (Z.shiftl DTYPE3 29) ;;;
          dma_put32 (ld + OFF_RADDR_LO) (Z.land bd TSI721_DMAC_DPTRL_MASK) ;;;
          dma_put32 (ld + OFF_RADDR_HI) (Z.shiftr bd 32) ;;;
          set_rings ch bd sts sts_size ;;;
          msix <- using_msix ;;
          c <- get_chan ch ;;
          rc <- (if msix : bool then request_chan_irqs (bc_id c) else ret 0) ;;
          if truthy rc then
            dma_free ((bd_num + 1) * DMA_DESC_SIZE) bd ;;;
            upd_chan ch (setf bc_bd_base None) ;;;
            dma_free (sts_size * DMA_STS_SIZE) sts ;;;
            upd_chan ch (setf bc_sts_base None) ;;;
            ret (- EIO)
          else
            cwrite TSI721_DMAC_CTL_INIT ch TSI721_DMAC_CTL ;;;
            cread ch TSI721_DMAC_CTL ;;;
            upd_chan ch (fun c => setf bc_wr_count 0 (setf bc_wr_count_next 0 (setf bc_sts_rdptr 0 c))) ;;;
            tdelay 10 ;;;
            ret 0
      end
  end.

Definition tsi721_bdma_ch_free (ch : Z) : TM W Z :=
  c <- get_chan ch ;;
  match bc_bd_base c with
  | None => ret 0
  | Some bd =>
      ch_stat <- cread ch TSI721_DMAC_STS ;;
      if truthy (Z.land ch_stat TSI721_DMAC_STS_RUN) then ret (- EFAULT)
      else
        cwrite TSI721_DMAC_CTL_INIT ch TSI721_DMAC_CTL ;;;
        msix <- using_msix ;;
        when msix (free_chan_irqs (bc_id c)) ;;;
        dma_free ((bc_bd_num c + 1) * DMA_DESC_SIZE) bd ;;;
        upd_chan ch (setf bc_bd_base None) ;;;
        sts <- deref (bc_sts_base c) ;;
        dma_free (bc_sts_size c * DMA_STS_SIZE) sts ;;;
        upd_chan ch (setf bc_sts_base None) ;;;
        ret 0
  end.

Definition tsi721_bdma_interrupt_enable (ch : Z) (enable : bool) : TM W unit :=
  if enable then
    cwrite TSI721_DMAC_INT_ALL ch TSI721_DMAC_INT ;;;
    cread ch TSI721_DMAC_INT ;;;
    cwrite TSI721_DMAC_INT_ALL ch TSI721_DMAC_INTE
  else
    cwrite 0 ch TSI721_DMAC_INTE ;;;
    cwrite TSI721_DMAC_INT_ALL ch TSI721_DMAC_INT.

Definition tsi721_dma_is_idle (ch : Z) : TM W bool :=
  sts <- cread ch TSI721_DMAC_STS ;;
  ret (Z.land sts TSI721_DMAC_STS_RUN =? 0).

(** ** Interrupts *)

Definition tasklet_schedule (ch : Z) : TM W unit :=
  c <- get_chan ch ;; when (bc_active c) (upd_chan ch (setf bc_tasklet true)).
Definition tsi721_bdma_handler (ch : Z) : TM W unit :=
  cwrite 0 ch TSI721_DMAC_INTE ;;;
  tasklet_schedule ch ;;;
  cwrite TSI721_DMAC_INT_ALL ch TSI721_DMAC_INTE.
Definition tsi721_bdma_msix (ch : Z) : TM W unit := tasklet_schedule ch.

(** ** Transfers *)

Definition tsi721_start_dma (ch : Z) : TM W unit :=
  idle <- tsi721_dma_is_idle ch ;;
  c <- get_chan ch ;;
  when ((idle : bool) && negb (bc_wr_count c =? bc_wr_count_next c))
    (cwrite (bc_wr_count_next c) ch TSI721_DMAC_DWRCNT ;;;
     cread ch TSI721_DMAC_DWRCNT ;;;
     upd_chan ch (setf bc_wr_count (bc_wr_count_next c))).

(** A hardware descriptor for the entry, at the RapidIO address in the descriptor. *)
Definition tsi721_desc_fill_init (d : tsi721_tx_desc) (bd_ptr : option Z) (sg : sg_entry) (sys_size : Z) : TM W Z :=
  match bd_ptr with
  | None => ret (- EINVAL)
  | Some bd =>
      dma_put32 (bd + OFF_TYPE_ID) (Z.lor (Z.lor (Z.shiftl DTYPE1 29) (Z.shiftl (td_rtype d) 19)) (td_destid d)) ;;;
      dma_put32 (bd + OFF_BCOUNT) (Z.lor (Z.shiftl (Z.land (td_rio_addr d) 3) 30) (Z.shiftl sys_size 26)) ;;;
      let rio_addr := Z.lor (Z.shiftr (td_rio_addr d) 2) (Z.shiftl (Z.land (td_rio_addr_u d) 3) 62) in
      dma_put32 (bd + OFF_RADDR_LO) (Z.land rio_addr 0xffffffff) ;;;
      dma_put32 (bd + OFF_RADDR_HI) (Z.shiftr rio_addr 32) ;;;
      dma_put32 (bd + OFF_BUFPTR_LO) (Z.land (sg_dma_address sg) 0xffffffff) ;;;
      dma_put32 (bd + OFF_BUFPTR_HI) (Z.shiftr (sg_dma_address sg) 32) ;;;
      dma_put32 (bd + OFF_S_DIST) (Z.lor (Z.shiftl (Z.land (td_dsdist d) 0xffff) 16) (Z.land (td_ssdist d) 0xffff)) ;;;
      dma_put32 (bd + OFF_S_SIZE) (Z.lor (Z.shiftl (Z.land (td_dssize d) 0x0fff) 12) (Z.land (td_sssize d) 0x0fff)) ;;;
      ret 0
  end.

Definition tsi721_desc_fill_end (bd_ptr : option Z) (bcount : Z) (interrupt : bool) : TM W Z :=
  match bd_ptr with
  | None => ret (- EINVAL)
  | Some bd =>
      when interrupt
        (v <- dma_get32 (bd + OFF_TYPE_ID) ;; dma_put32 (bd + OFF_TYPE_ID) (Z.lor v TSI721_DMAD_IOF)) ;;;
      v <- dma_get32 (bd + OFF_BCOUNT) ;;
      dma_put32 (bd + OFF_BCOUNT) (Z.lor v (Z.land bcount TSI721_DMAD_BCOUNT1)) ;;;
      ret 0
  end.

(** [list_move]: out of the list it is in, if any, to the head of the free list. *)
Definition tsi721_dma_tx_err (ch : Z) (desc : txd_ptr) : TM W unit :=
  d <- get_desc desc ;;
  upd_chan ch (fun c => setf bc_queue (filter (.≠ desc) (bc_queue c))
    (setf bc_free_list (filter (.≠ desc) (bc_free_list c)) c)) ;;;
  list_add_free ch desc ;;;
  match td_callback d with
  | Some callback => dma_callback_call callback (td_callback_param d)
  | None => ret tt
  end.

(** The words of one status entry, until one is zero. *)
Definition clr_entry (sts : Z) (st : Z * Z) : TM W (Z * Z + unit) :=
  let '(i, j) := st in
  if i <? 8 then
    v <- dma_get64 (sts + 8 * j) ;;
    if truthy v then dma_put64 (sts + 8 * j) 0 ;;; ret (inl (i + 1, j + 1)) else ret (inr tt)
  else ret (inr tt).
Definition clr_step (sts sts_size : Z) (srd_ptr : Z) : TM W (Z + Z) :=
  v <- dma_get64 (sts + 8 * (srd_ptr * 8)) ;;
  if truthy v then
    loop 9 (clr_entry sts) (0, srd_ptr * 8) ;;;
    (if sts_size =? 0 then ub else ret (inl (Z.rem (u32 (srd_ptr + 1)) sts_size)))
  else ret (inr srd_ptr).
Definition tsi721_clr_stat (fuel : nat) (ch : Z) : TM W unit :=
  c <- get_chan ch ;;
  sts <- deref (bc_sts_base c) ;;
  srd_ptr <- loop fuel (clr_step sts (bc_sts_size c)) (bc_sts_rdptr c) ;;
  cwrite srd_ptr ch TSI721_DMAC_DSRP ;;;
  upd_chan ch (setf bc_sts_rdptr srd_ptr).

(** *** Filling the ring *)

(** The variables of the loop over the entries; [sl_bd] is the hardware descriptor
    under construction, [sl_add] counts those used. *)
Record sg_loop := mk_sg_loop {
  sl_i : Z; sl_sg : list sg_entry; sl_rio_addr : Z; sl_next_addr : Z; sl_bcount : Z;
  sl_bd : option Z; sl_idx : Z; sl_add : Z;
}.
#[export] Instance eta_sg_loop : Eta sg_loop := fun r =>
  mk_sg_loop (sl_i r) (sl_sg r) (sl_rio_addr r) (sl_next_addr r) (sl_bcount r) (sl_bd r) (sl_idx r) (sl_add r).

(** The address of a slot of the ring. *)
Definition bd_slot (bd_base : option Z) (idx : Z) : TM W (option Z) :=
  match bd_base with
  | Some b => ret (Some (b + DMA_DESC_SIZE * idx))
  | None => if idx =? 0 then ret None else ub
  end.

(** After the entry has found its place. *)
Definition entry_done (desc : txd_ptr) (e : sg_entry) (rest : list sg_entry) (st : sg_loop) : TM W sg_loop :=
  match rest with
  | [] =>
      tsi721_desc_fill_end (sl_bd st) (sl_bcount st) false ;;;
      upd_desc desc (setf td_sg_len 0) ;;;
      ret (setf sl_i (u32 (sl_i st + 1)) (setf sl_sg rest st))
  | _ =>
      ret (setf sl_i (u32 (sl_i st + 1)) (setf sl_sg rest
        (setf sl_rio_addr (u64 (sl_rio_addr st + sg_dma_len e))
        (setf sl_next_addr (u64 (sl_next_addr st + sg_dma_len e)) st))))
  end.

(** One entry: the error and the number of descriptors added at the end. *)
Definition sg_step (desc : txd_ptr) (bd_base : option Z) (bd_num rd_idx sys_size : Z) (st : sg_loop)
    : TM W (sg_loop + Z * Z) :=
  d <- get_desc desc ;;
  if negb (sl_i st <? td_sg_len d) then ret (inr (0, sl_add st))
  else
    match sl_sg st with
    | [] => ub
    | e :: rest =>
        if TSI721_BDMA_MAX_BCOUNT <? sg_dma_len e then ret (inr (- EINVAL, sl_add st))
        else if (sl_next_addr st =? sg_dma_address e) &&
                (u32 (sl_bcount st + sg_dma_len e) <=? TSI721_BDMA_MAX_BCOUNT) then
          st <- entry_done desc e rest (setf sl_bcount (u32 (sl_bcount st + sg_dma_len e)) st) ;;
          ret (inl st)
        else
          when (negb (sl_next_addr st =? NO_ADDR)) (tsi721_desc_fill_end (sl_bd st) (sl_bcount st) false ;;; ret tt) ;;;
          upd_desc desc (setf td_rio_addr (sl_rio_addr st)) ;;;
          if truthy (sl_i st) && (sl_idx st =? rd_idx) then
            upd_desc desc (fun d => setf td_sg (sl_sg st) (setf td_sg_len (u32 (td_sg_len d - sl_i st)) d)) ;;;
            ret (inr (0, sl_add st))
          else
            bd_ptr <- bd_slot bd_base (sl_idx st) ;;
            d <- get_desc desc ;;
            err <- tsi721_desc_fill_init d bd_ptr e sys_size ;;
            if truthy err then ret (inr (err, sl_add st))
            else
              let wrap := u32 (sl_idx st + 1) =? bd_num in
              st <- entry_done desc e rest
                (setf sl_bd bd_ptr (setf sl_next_addr (sg_dma_address e) (setf sl_bcount (sg_dma_len e)
                (setf sl_idx (if wrap then 0 else u32 (sl_idx st + 1))
                (setf sl_add (u32 (sl_add st + if wrap then 2 else 1)) st))))) ;;
              ret (inl st)
    end.

(** A list has at most so many entries that the loop goes round once for each. *)
Definition tsi721_submit_sg (ch : Z) (desc : txd_ptr) : TM W Z :=
  idle <- tsi721_dma_is_idle ch ;;
  if negb idle then ret (- EIO)
  else
    d <- get_desc desc ;;
    mp <- pmport ;;
    rd_idx <- cread ch TSI721_DMAC_DRDCNT ;;
    c <- get_chan ch ;;
    (if bc_bd_num c + 1 =? 0 then ub else ret tt) ;;;
    let rd_idx := Z.rem rd_idx (u32 (bc_bd_num c + 1)) in
    let idx := Z.rem (bc_wr_count_next c) (u32 (bc_bd_num c + 1)) in
    let wrap := idx =? bc_bd_num c in
    let! (err, add_count) := loop (S (S (length (td_sg d))))
      (sg_step desc (bc_bd_base c) (bc_bd_num c) rd_idx (mp_sys_size mp))
      (mk_sg_loop 0 (td_sg d) (td_rio_addr d) NO_ADDR 0 None (if wrap then 0 else idx) (if wrap then 1 else 0)) ;;
    when (err =? 0) (upd_chan ch (fun c => setf bc_wr_count_next (u32 (bc_wr_count_next c + add_count)) c)) ;;;
    ret err.

(** [desc] is the transfer to continue, if any. *)
Definition tsi721_advance_work (ch : Z) (desc : option txd_ptr) : TM W unit :=
  idle <- tsi721_dma_is_idle ch ;;
  when idle
    (c <- get_chan ch ;;
     desc <- match desc, bc_active_tx c, bc_queue c with
       | None, None, d :: queue =>
           get_desc d ;;;
           touch (head queue) ;;;
           upd_chan ch (fun c => setf bc_queue queue (setf bc_active_tx (Some d) c)) ;;;
           ret (Some d)
       | _, _, _ => ret desc
       end ;;
     match desc with
     | None => ret tt
     | Some desc =>
         err <- tsi721_submit_sg ch desc ;;
         if err =? 0 then tsi721_start_dma ch else tsi721_dma_tx_err ch desc
     end).

(** *** The tasklet *)

(** Waiting for the abort flag to go, up to 10000 times; the status read last. *)
Definition abort_wait (ch : Z) (i : Z) : TM W (Z + Z) :=
  tdelay 1 ;;;
  dmac_sts <- cread ch TSI721_DMAC_STS ;;
  let i := i - 1 in
  ret (if truthy (Z.land dmac_sts TSI721_DMAC_STS_ABORT) && truthy i then inl i else inr dmac_sts).

(** The failed or finished transfer leaves the channel, and the next one starts. *)
Definition retire (ch : Z) (desc : txd_ptr) (status : dma_status) : TM W unit :=
  upd_desc desc (setf td_status status) ;;;
  dma_cookie_complete ch desc ;;;
  list_add_free ch desc ;;;
  upd_chan ch (setf bc_active_tx None) ;;;
  c <- get_chan ch ;;
  when (bc_active c) (tsi721_advance_work ch None).

(** True when the tasklet goes on after the error. *)
Definition tasklet_error (fuel : nat) (ch : Z) : TM W bool :=
  c <- get_chan ch ;;
  dmac_sts <- cread ch TSI721_DMAC_STS ;;
  desc <- deref (bc_active_tx c) ;;
  get_desc desc ;;;
  if Z.land dmac_sts TSI721_DMAC_STS_ABORT =? 0 then ret false
  else
    tsi721_clr_stat fuel ch ;;;
    cwrite TSI721_DMAC_CTL_INIT ch TSI721_DMAC_CTL ;;;
    dmac_sts <- loop (Z.to_nat 10001) (abort_wait ch) 10000 ;;
    if truthy (Z.land dmac_sts TSI721_DMAC_STS_ABORT) then ret false
    else
      bd <- deref (bc_bd_base c) ;;
      sts <- deref (bc_sts_base c) ;;
      set_rings ch bd sts (bc_sts_size c) ;;;
      upd_chan ch (fun c => setf bc_wr_count 0 (setf bc_wr_count_next 0 (setf bc_sts_rdptr 0 c))) ;;;
      tdelay 10 ;;;
      c <- get_chan ch ;;
      desc <- deref (bc_active_tx c) ;;
      retire ch desc DMA_ERROR ;;;
      ret true.

Definition tasklet_done (fuel : nat) (ch : Z) : TM W unit :=
  tsi721_clr_stat fuel ch ;;;
  c <- get_chan ch ;;
  desc <- deref (bc_active_tx c) ;;
  d <- get_desc desc ;;
  if td_sg_len d =? 0 then
    retire ch desc DMA_COMPLETE ;;;
    match (if truthy (Z.land (td_txd_flags d) DMA_PREP_INTERRUPT) then td_callback d else None) with
    | Some callback => dma_callback_call callback (td_callback_param d)
    | None => ret tt
    end
  else when (bc_active c) (tsi721_advance_work ch (bc_active_tx c)).

Definition tsi721_dma_tasklet (fuel : nat) (ch : Z) : TM W unit :=
  dmac_int <- cread ch TSI721_DMAC_INT ;;
  cwrite dmac_int ch TSI721_DMAC_INT ;;;
  go_on <- (if truthy (Z.land dmac_int TSI721_DMAC_INT_ERR) then tasklet_error fuel ch else ret true) ;;
  when ((go_on : bool) && truthy (Z.land dmac_int (Z.lor TSI721_DMAC_INT_DONE TSI721_DMAC_INT_IOFDONE)))
    (tasklet_done fuel ch).

(** The tasklet runs when it is scheduled; to kill it is to wait for that. *)
Definition tasklet_run (fuel : nat) (ch : Z) : TM W unit :=
  c <- get_chan ch ;;
  when (bc_tasklet c) (upd_chan ch (setf bc_tasklet false) ;;; tsi721_dma_tasklet fuel ch).

(** ** Operations of the DMA device *)

Definition tsi721_tx_submit (ch : Z) (txd : txd_ptr) : TM W Z :=
  get_desc txd ;;;
  c <- get_chan ch ;;
  if linked c txd then ret (- EIO)
  else if negb (bc_active c) then ret (- ENODEV)
  else
    cookie <- dma_cookie_assign ch txd ;;
    upd_desc txd (setf td_status DMA_IN_PROGRESS) ;;;
    list_add_tail_queue ch txd ;;;
    tsi721_advance_work ch None ;;;
    ret cookie.

Definition zero_tx_desc : tsi721_tx_desc :=
  mk_tx_desc 0 DMA_CTRL_ACK None 1%positive 0 0 0 0 [] 0 DMA_COMPLETE 0 0 0 0.

Definition tsi721_alloc_chan_resources (ch : Z) : TM W Z :=
  c <- get_chan ch ;;
  match bc_bd_base c with
  | Some _ => ret (s32 dma_txqueue_sz)
  | None =>
      err <- tsi721_bdma_ch_init ch dma_desc_per_channel ;;
      if truthy err then ret (- ENODEV)
      else
        ok <- core kzalloc ;;
        if negb ok then tsi721_bdma_ch_free ch ;;; ret (- ENOMEM)
        else
          desc <- core fresh_ptr ;;
          modify (fun s => setf ts_txds (<[desc := replicate (Z.to_nat dma_txqueue_sz) zero_tx_desc]> (ts_txds s)) s) ;;;
          upd_chan ch (setf bc_tx_desc (Some desc)) ;;;
          for_ (zrange 0 dma_txqueue_sz) (fun i => list_add_free ch (desc, i)) ;;;
          dma_cookie_init ch ;;;
          upd_chan ch (setf bc_active true) ;;;
          tsi721_bdma_interrupt_enable ch true ;;;
          ret (s32 dma_txqueue_sz)
  end.

Definition irq_sync (vector : Z) : TM W unit := core (hw_do (synchronize_irq vector)).
Definition tsi721_sync_dma_irq (ch : Z) : TM W unit :=
  c <- get_chan ch ;;
  msix <- using_msix ;;
  if msix : bool then
    v1 <- msix_vector (TSI721_VECT_DMA0_DONE + bc_id c) ;; irq_sync v1 ;;;
    v2 <- msix_vector (TSI721_VECT_DMA0_INT + bc_id c) ;; irq_sync v2
  else irq <- getp pv_irq ;; irq_sync irq.

(** [kfree] of the array: it must exist if the pointer is not null. *)
Definition kfree_descs (p : option ptr) : TM W unit :=
  match p with
  | None => ret tt
  | Some p =>
      l <- gets (fun s => ts_txds s !! p) ;;
      deref l ;;;
      modify (fun s => setf ts_txds (delete p (ts_txds s)) s) ;;;
      core kfree
  end.

(** The part that freeing a channel and unregistering share. *)
Definition shut_chan (fuel : nat) (ch : Z) : TM W unit :=
  tsi721_bdma_interrupt_enable ch false ;;;
  upd_chan ch (setf bc_active false) ;;;
  tsi721_sync_dma_irq ch ;;;
  tasklet_run fuel ch ;;;
  upd_chan ch (setf bc_free_list []) ;;;
  c <- get_chan ch ;;
  kfree_descs (bc_tx_desc c) ;;;
  tsi721_bdma_ch_free ch ;;;
  ret tt.

Definition tsi721_free_chan_resources (fuel : nat) (ch : Z) : TM W unit :=
  c <- get_chan ch ;;
  match bc_bd_base c with None => ret tt | Some _ => shut_chan fuel ch end.

Definition tsi721_tx_status (ch cookie : Z) : TM W (dma_status * (Z * Z * Z)) := dma_cookie_status ch cookie.

Definition tsi721_issue_pending (ch : Z) : TM W unit :=
  idle <- tsi721_dma_is_idle ch ;;
  c <- get_chan ch ;;
  when ((idle : bool) && bc_active c) (tsi721_advance_work ch None).

(** The request type for a direction, none if it is not supported. *)
Definition rio_rtype (dir : dma_transfer_direction) (wr_type : rio_write_type) : option Z :=
  match dir with
  | DMA_DEV_TO_MEM => Some NREAD
  | DMA_MEM_TO_DEV => Some match wr_type with
      | RDW_ALL_NWRITE => ALL_NWRITE
      | RDW_ALL_NWRITE_R => ALL_NWRITE_R
      | RDW_LAST_NWRITE_R | RDW_DEFAULT => LAST_NWRITE_R
      end
  | _ => None
  end.

(** An error pointer or the descriptor.  [sgl] is none for a null pointer. *)
Definition tsi721_prep_rio_sg (ch : Z) (sgl : option (list sg_entry)) (sg_len : Z)
    (dir : dma_transfer_direction) (flags : Z) (rext : rio_dma_ext) : TM W (Z + txd_ptr) :=
  match sgl with
  | None => ret (inl (- EINVAL))
  | Some sg =>
      if sg_len =? 0 then ret (inl (- EINVAL))
      else
        match rio_rtype dir (re_wr_type rext) with
        | None => ret (inl (- EINVAL))
        | Some rtype =>
            c <- get_chan ch ;;
            match bc_free_list c with
            | [] => ret (inl (- EBUSY))
            | desc :: free_list =>
                get_desc desc ;;;
                touch (head free_list) ;;;
                upd_chan ch (setf bc_free_list free_list) ;;;
                upd_desc desc (fun d => mk_tx_desc (td_cookie d) flags (td_callback d) (td_callback_param d)
                  (re_destid rext) (re_rio_addr rext) 0 rtype sg sg_len (td_status d)
                  (re_ssdist rext) (re_sssize rext) (re_dsdist rext) (re_dssize rext)) ;;;
                ret (inr desc)
            end
        end
  end.

(** Waiting for the channel. *)
Definition idle_wait (ch : Z) (_ : unit) : TM W (unit + unit) :=
  idle <- tsi721_dma_is_idle ch ;;
  if negb idle then tdelay 5 ;;; ret (inl tt) else ret (inr tt).

(** The active transfer goes to the local list, before the queue is spliced to its
    head.  A transfer that is in a list already corrupts it. *)
Definition tsi721_terminate_all (fuel : nat) (ch : Z) : TM W Z :=
  upd_chan ch (setf bc_active false) ;;;
  loop fuel (idle_wait ch) tt ;;;
  c <- get_chan ch ;;
  active <- match bc_active_tx c with
    | None => ret []
    | Some d => get_desc d ;;; if linked c d then ub else ret [d]
    end ;;
  upd_chan ch (setf bc_queue []) ;;;
  for_ (bc_queue c ++ active) (tsi721_dma_tx_err ch) ;;;
  ret 0.

(** Suspending, and waiting for up to 100000 microseconds; [timeout] is what is left. *)
Definition stop_wait (ch : Z) (timeout : Z) : TM W (Z + unit) :=
  idle <- tsi721_dma_is_idle ch ;;
  if negb idle && truthy (timeout - 1) then tdelay 1 ;;; ret (inl (timeout - 1)) else ret (inr tt).
Definition STOP_FUEL : nat := Z.to_nat 100001.
Definition tsi721_dma_stop (ch : Z) : TM W unit :=
  c <- get_chan ch ;;
  when (bc_active c)
    (idle <- tsi721_dma_is_idle ch ;;
     when (negb idle)
       (cwrite TSI721_DMAC_CTL_SUSP ch TSI721_DMAC_CTL ;;;
        loop STOP_FUEL (stop_wait ch) 100000)).

(** The channels for clients. *)
Definition client_chan (i : Z) : bool :=
  negb (i =? TSI721_DMACH_MAINT) && truthy (Z.land dma_sel (Z.shiftl 1 i)).

Definition tsi721_dma_stop_all : TM W unit :=
  for_ (zrange 0 TSI721_DMA_MAXCH) (fun i => when (client_chan i) (tsi721_dma_stop i)).

Definition tsi721_register_dma : TM W Z :=
  updp (setf pv_dma_channels []) ;;;
  for_ (zrange 0 TSI721_DMA_MAXCH) (fun i =>
    when (client_chan i)
      (upd_chan i (fun c =>
         setf bc_regs (Some (TSI721_DMAC_BASE i)) (setf bc_cookie 1 (setf bc_id i (setf bc_active false
         (setf bc_active_tx None (setf bc_queue [] (setf bc_free_list [] (setf bc_tasklet false c)))))))) ;;;
       updp (fun p => setf pv_dma_channels (pv_dma_channels p ++ [i]) p))) ;;;
  channels <- getp pv_dma_channels ;;
  core (hw_call (dma_async_device_register channels)).

Definition tsi721_unregister_dma (fuel : nat) : TM W unit :=
  tsi721_dma_stop_all ;;;
  core (hw_do dma_async_device_unregister) ;;;
  channels <- getp pv_dma_channels ;;
  for_ channels (fun ch =>
    c <- get_chan ch ;;
    when (bc_active c) (shut_chan fuel ch) ;;;
    updp (fun p => setf pv_dma_channels (filter (.≠ ch) (pv_dma_channels p)) p)).
End dma.

(** A zeroed channel. *)
Definition zero_bdma_chan : tsi721_bdma_chan :=
  mk_bdma_chan 0 None 0 None None 0 0 0 0 0 0 None None [] [] false false.
