(* ===== verification/Tsi721Init.v ===== *)
(** * The Tsi721 bridge: interrupts, probe and removal (devices/tsi721.c)

    Dispatch of interrupts, MSI-X vectors, initialisation of the bridge and its
    registration as a master port, with all error paths.  The code is the one compiled
    with CONFIG_PCI_MSI and CONFIG_RAPIDIO_DMA_ENGINE. *)

From S2P Require Import Prelude Regs State Access Route Em Mbox Mport Msg Tsi721Regs Tsi721 Tsi721Msg Tsi721Dma.

(** Services of the PCI bus: each request returns its error or 0. *)
Inductive pci_request :=
| PCI_ENABLE_DEVICE | PCI_REQUEST_REGIONS | PCI_SET_DMA_MASK (bits : Z) | PCI_SET_CONSISTENT_DMA_MASK (bits : Z)
| PCI_ENABLE_MSI.
Inductive pci_action :=
| PCI_SET_MASTER | PCI_CLEAR_MASTER | PCI_DISABLE_DEVICE | PCI_RELEASE_REGIONS | PCI_IOUNMAP (bar : Z)
| PCI_DISABLE_MSIX | PCI_DISABLE_MSI | PCI_WRITE_CONFIG (off v : Z) | PCIE_CLEAR_AND_SET (reg clear set : Z)
| FLUSH_SCHEDULED_WORK.

Record pci_bar := mk_pci_bar { bar_mem : bool; bar_mem64 : bool; bar_prefetch : bool; bar_start : Z; bar_len : Z }.

Class Tsi721Pci (W : Type) := {
  pci_do : pci_request -> W -> Z * W;
  pci_act : pci_action -> W -> W;
  pci_resource : Z -> W -> pci_bar;
  pci_ioremap_bar : Z -> W -> bool * W;
  (** [pci_enable_msix_exact] for so many vectors: the error and the vectors. *)
  pci_msix : nat -> W -> (Z * list Z) * W;
}.

Section irq.
Context {W : Type} `{!KernelEnv W} `{!Tsi721Hw W} `{!Tsi721Callbacks W}.

(** ** Dispatch *)

Definition tsi721_sr2pc_ch_idb_msix (fuel : nat) : TM W unit := tsi721_dbell_handler fuel ;;; ret tt.
Definition tsi721_srio_msix : TM W unit :=
  srio_int <- ioread32 TSI721_RIO_EM_INT_STAT ;;
  when (truthy (Z.land srio_int TSI721_RIO_EM_INT_STAT_PW_RX)) (tsi721_pw_handler ;;; ret tt).
Definition tsi721_omsg_msix (fuel : nat) (irq : Z) : TM W unit :=
  v <- msix_vector TSI721_VECT_OMB0_DONE ;;
  tsi721_omsg_handler fuel (Z.rem (irq - v) RIO_MAX_MBOX).
Definition tsi721_imsg_msix (irq : Z) : TM W unit :=
  v <- msix_vector TSI721_VECT_IMB0_RCV ;;
  tsi721_imsg_handler (Z.rem (irq - v) RIO_MAX_MBOX + 4).

(** The messaging part: the signalled channels are disabled while they are served, and
    the outbound ones enabled again. *)
Definition irq_messages (fuel : nat) (dev_ch_int : Z) : TM W unit :=
  when (truthy (Z.land dev_ch_int TSI721_INT_IMSG_CHAN_M))
    (ch_inte <- ioread32 TSI721_DEV_CHAN_INTE ;;
     iowrite32 (Z.land ch_inte (not32 (Z.land dev_ch_int TSI721_INT_IMSG_CHAN_M))) TSI721_DEV_CHAN_INTE ;;;
     for_ (zrange 4 (RIO_MAX_MBOX + 4)) (fun ch =>
       when (truthy (Z.land dev_ch_int (TSI721_INT_IMSG_CHAN ch))) (tsi721_imsg_handler ch))) ;;;
  when (truthy (Z.land dev_ch_int TSI721_INT_OMSG_CHAN_M))
    (ch_inte <- ioread32 TSI721_DEV_CHAN_INTE ;;
     iowrite32 (Z.land ch_inte (not32 (Z.land dev_ch_int TSI721_INT_OMSG_CHAN_M))) TSI721_DEV_CHAN_INTE ;;;
     for_ (zrange 0 RIO_MAX_MBOX) (fun ch =>
       when (truthy (Z.land dev_ch_int (TSI721_INT_OMSG_CHAN ch))) (tsi721_omsg_handler fuel ch)) ;;;
     ch_inte <- ioread32 TSI721_DEV_CHAN_INTE ;;
     iowrite32 (Z.lor ch_inte (Z.land dev_ch_int TSI721_INT_OMSG_CHAN_M)) TSI721_DEV_CHAN_INTE).

(** True for an interrupt of the bridge. *)
Definition tsi721_irqhandler (fuel : nat) : TM W bool :=
  flags <- getp pv_flags ;;
  when (truthy (Z.land flags TSI721_USING_MSI)) (iowrite32 0 TSI721_DEV_INTE) ;;;
  dev_int <- ioread32 TSI721_DEV_INT ;;
  if dev_int =? 0 then ret false
  else
    dev_ch_int <- ioread32 TSI721_DEV_CHAN_INT ;;
    when (truthy (Z.land dev_int TSI721_DEV_INT_SR2PC_CH) &&
          truthy (Z.land dev_ch_int (TSI721_INT_SR2PC_CHAN IDB_QUEUE)))
      (intval <- ioread32 (TSI721_SR_CHINT IDB_QUEUE) ;;
       when (truthy (Z.land intval TSI721_SR_CHINT_IDBQRCV)) (tsi721_dbell_handler fuel ;;; ret tt)) ;;;
    when (truthy (Z.land dev_int TSI721_DEV_INT_SMSG_CH)) (irq_messages fuel dev_ch_int) ;;;
    when (truthy (Z.land dev_int TSI721_DEV_INT_SRIO))
      (intval <- ioread32 TSI721_RIO_EM_INT_STAT ;;
       when (truthy (Z.land intval TSI721_RIO_EM_INT_STAT_PW_RX)) (tsi721_pw_handler ;;; ret tt)) ;;;
    when (truthy (Z.land dev_int TSI721_DEV_INT_BDMA_CH) && truthy (Z.land dev_ch_int TSI721_INT_BDMA_CHAN_M))
      (for_ (zrange 0 TSI721_DMA_MAXCH) (fun ch =>
         when (truthy (Z.land dev_ch_int (TSI721_INT_BDMA_CHAN ch))) (tsi721_bdma_handler ch))) ;;;
    when (truthy (Z.land flags TSI721_USING_MSI))
      (iowrite32 (Z.lor (Z.lor TSI721_DEV_INT_SR2PC_CH TSI721_DEV_INT_SRIO)
        (Z.lor TSI721_DEV_INT_SMSG_CH TSI721_DEV_INT_BDMA_CH)) TSI721_DEV_INTE) ;;;
    ret true.

(** ** Enabling and disabling *)

Definition tsi721_interrupts_init : TM W unit :=
  iowrite32 TSI721_SR_CHINT_ALL (TSI721_SR_CHINT IDB_QUEUE) ;;;
  iowrite32 TSI721_SR_CHINT_IDBQRCV (TSI721_SR_CHINTE IDB_QUEUE) ;;;
  iowrite32 TSI721_RIO_EM_DEV_INT_EN_INT TSI721_RIO_EM_DEV_INT_EN ;;;
  iowrite32 (Z.lor (TSI721_INT_SR2PC_CHAN IDB_QUEUE)
    (Z.land TSI721_INT_BDMA_CHAN_M (Z.lnot (TSI721_INT_BDMA_CHAN TSI721_DMACH_MAINT)))) TSI721_DEV_CHAN_INTE ;;;
  msix <- using_msix ;;
  iowrite32 (if msix : bool then TSI721_DEV_INT_SRIO
    else Z.lor (Z.lor TSI721_DEV_INT_SR2PC_CH TSI721_DEV_INT_SRIO)
      (Z.lor TSI721_DEV_INT_SMSG_CH TSI721_DEV_INT_BDMA_CH)) TSI721_DEV_INTE ;;;
  ioread32 TSI721_DEV_INTE ;;;
  ret tt.

Definition tsi721_disable_ints : TM W unit :=
  iowrite32 0 TSI721_DEV_INTE ;;;
  iowrite32 0 TSI721_DEV_CHAN_INTE ;;;
  for_ (zrange 0 TSI721_IMSG_CHNUM) (fun ch => iowrite32 0 (TSI721_IBDMAC_INTE ch)) ;;;
  for_ (zrange 0 TSI721_OMSG_CHNUM) (fun ch => iowrite32 0 (TSI721_OBDMAC_INTE ch)) ;;;
  iowrite32 0 TSI721_SMSG_INTE ;;;
  for_ (zrange 0 TSI721_DMA_MAXCH) (fun ch => iowrite32 0 (TSI721_DMAC_BASE ch + TSI721_DMAC_INTE)) ;;;
  iowrite32 0 TSI721_BDMA_INTE ;;;
  for_ (zrange 0 TSI721_SRIO_MAXCH) (fun ch => iowrite32 0 (TSI721_SR_CHINTE ch)) ;;;
  iowrite32 0 TSI721_SR2PC_GEN_INTE ;;;
  iowrite32 0 TSI721_PC2SR_INTE ;;;
  iowrite32 0 TSI721_I2C_INT_ENABLE ;;;
  iowrite32 0 TSI721_RIO_EM_INT_ENABLE ;;;
  iowrite32 0 TSI721_RIO_EM_DEV_INT_EN.

Definition tsi721_request_msix : TM W Z :=
  v1 <- msix_vector TSI721_VECT_IDB ;;
  err <- request_irq v1 ;;
  if truthy err then ret err
  else
    v2 <- msix_vector TSI721_VECT_PWRX ;;
    err <- request_irq v2 ;;
    if truthy err then free_irq v1 ;;; ret err else ret 0.
Definition tsi721_request_irq : TM W Z :=
  msix <- using_msix ;;
  if msix : bool then tsi721_request_msix else irq <- getp pv_irq ;; request_irq irq.
Definition tsi721_free_irq : TM W unit :=
  msix <- using_msix ;;
  if msix : bool then
    v1 <- msix_vector TSI721_VECT_IDB ;; free_irq v1 ;;;
    v2 <- msix_vector TSI721_VECT_PWRX ;; free_irq v2
  else irq <- getp pv_irq ;; free_irq irq.

(** ** Port attributes *)

Definition tsi721_query_mport (attr : rio_mport_attr) : TM W (Z * rio_mport_attr) :=
  let flags := Z.lor RIO_MPORT_DMA RIO_MPORT_DMA_SG in
  rval <- ioread32 (0x100 + RIO_PORT_N_ERR_STS_CSR 0 0) ;;
  if truthy (Z.land rval RIO_PORT_N_ERR_STS_PORT_OK) then
    rval <- ioread32 (0x100 + RIO_PORT_N_CTL2_CSR 0 0) ;;
    rval' <- ioread32 (0x100 + RIO_PORT_N_CTL_CSR 0 0) ;;
    ret (0, mk_rio_mport_attr flags (Z.shiftr (Z.land rval RIO_PORT_N_CTL2_SEL_BAUD) 28)
      (Z.shiftr (Z.land rval' RIO_PORT_N_CTL_IPW) 27) 0 TSI721_BDMA_MAX_BCOUNT 0)
  else ret (0, mk_rio_mport_attr flags RIO_LINK_DOWN (attr_link_width attr) 0 TSI721_BDMA_MAX_BCOUNT 0).

(** ** The channel for maintenance requests *)

Definition tsi721_bdma_maint_init : TM W Z :=
  updp (fun p => setf pv_mdma (setf md_ch_id TSI721_DMACH_MAINT (pv_mdma p)) p) ;;;
  let regs := TSI721_DMAC_BASE TSI721_DMACH_MAINT in
  let bd_num := 2 in
  bd <- dma_zalloc (bd_num * DMA_DESC_SIZE) ;;
  match bd with
  | None => ret (- ENOMEM)
  | Some bd =>
      updp (fun p => setf pv_mdma (setf md_bd_num bd_num (setf md_bd_base (Some bd) (pv_mdma p))) p) ;;;
      let sts_size := roundup_pow_of_two (Z.max bd_num TSI721_DMA_MINSTSSZ) in
      sts <- dma_zalloc (sts_size * DMA_STS_SIZE) ;;
      match sts with
      | None =>
          dma_free (bd_num * DMA_DESC_SIZE) bd ;;;
          updp (fun p => setf pv_mdma (setf md_bd_base None (pv_mdma p)) p) ;;;
          ret (- ENOMEM)
      | Some sts =>
          updp (fun p => setf pv_mdma (setf md_sts_base (Some sts) (setf md_sts_size sts_size (pv_mdma p))) p) ;;;
          let ld := bd + DMA_DESC_SIZE * (bd_num - 1) in
          dma_put32 (ld + OFF_TYPE_ID) (Z.shiftl DTYPE3 29) ;;;
          dma_put32 (ld + OFF_RADDR_LO) (Z.land bd TSI721_DMAC_DPTRL_MASK) ;;;
          dma_put32 (ld + OFF_RADDR_HI) (Z.shiftr bd 32) ;;;
          iowrite32 (Z.shiftr bd 32) (regs + TSI721_DMAC_DPTRH) ;;;
          iowrite32 (Z.land bd TSI721_DMAC_DPTRL_MASK) (regs + TSI721_DMAC_DPTRL) ;;;
          iowrite32 (Z.shiftr sts 32) (regs + TSI721_DMAC_DSBH) ;;;
          iowrite32 (Z.land sts TSI721_DMAC_DSBL_MASK) (regs + TSI721_DMAC_DSBL) ;;;
          iowrite32 (TSI721_DMAC_DSSZ_SIZE sts_size) (regs + TSI721_DMAC_DSSZ) ;;;
          iowrite32 TSI721_DMAC_INT_ALL (regs + TSI721_DMAC_INT) ;;;
          ioread32 (regs + TSI721_DMAC_INT) ;;;
          iowrite32 TSI721_DMAC_CTL_INIT (regs + TSI721_DMAC_CTL) ;;;
          ioread32 (regs + TSI721_DMAC_CTL) ;;;
          tdelay 10 ;;;
          ret 0
      end
  end.

Definition tsi721_bdma_maint_free : TM W Z :=
  mdma <- getp pv_mdma ;;
  let regs := TSI721_DMAC_BASE (md_ch_id mdma) in
  match md_bd_base mdma with
  | None => ret 0
  | Some bd =>
      ch_stat <- ioread32 (regs + TSI721_DMAC_STS) ;;
      if truthy (Z.land ch_stat TSI721_DMAC_STS_RUN) then ret (- EFAULT)
      else
        iowrite32 TSI721_DMAC_CTL_INIT (regs + TSI721_DMAC_CTL) ;;;
        dma_free (md_bd_num mdma * DMA_DESC_SIZE) bd ;;;
        updp (fun p => setf pv_mdma (setf md_bd_base None (pv_mdma p)) p) ;;;
        sts <- deref (md_sts_base mdma) ;;
        dma_free (md_sts_size mdma * DMA_STS_SIZE) sts ;;;
        updp (fun p => setf pv_mdma (setf md_sts_base None (pv_mdma p)) p) ;;;
        ret 0
  end.
End irq.

(** ** Probe and removal *)

Section probe.
Context {W : Type} `{!KernelEnv W} `{!Externals W} `{!SwitchTables W} `{!Tsi721Hw W} `{!Tsi721Callbacks W}
  `{!DmaCore W} `{!Tsi721Pci W}.
Variables (dma_sel : Z).

Definition pci (r : pci_request) : TM W Z := core (hw_call (pci_do r)).
Definition pci_ (a : pci_action) : TM W unit := core (hw_do (pci_act a)).
Definition get_bar (i : Z) : TM W pci_bar := core (gets (fun k => pci_resource i (ks_hw k))).
Definition ioremap (i : Z) : TM W bool := core (hw_call (pci_ioremap_bar i)).

(** All vectors or none. *)
Definition tsi721_enable_msix : TM W Z :=
  let! (err, vectors) := core (hw_call (pci_msix (Z.to_nat TSI721_VECT_MAX))) ;;
  if truthy err then ret err else updp (setf pv_msix (u16 <$> vectors)) ;;; ret 0.

(** [ops] is the address of the operations record with the functions of this driver. *)
Definition tsi721_setup_mport (fuel : nat) (ops : rio_ops W) : TM W Z :=
  mport <- getp pv_mport ;;
  err <- core (rio_mport_initialize mport) ;;
  if truthy err then ret err
  else
    core (upd_mport mport (fun m =>
      setf mp_ops ops (setf mp_index 0 (setf mp_sys_size 0 (setf mp_phys_efptr 0x100 (setf mp_phys_rmap 1
      (setf mp_dbells []
      (setf mp_riores
        (<[RIO_DOORBELL_RESOURCE := rio_init_dbell_res 0 0xffff]>
         (<[RIO_INB_MBOX_RESOURCE := rio_init_mbox_res 0 3]>
          (<[RIO_OUTB_MBOX_RESOURCE := rio_init_mbox_res 0 3]> (mp_riores m)))) m)))))))) ;;;
    rc <- tsi721_enable_msix ;;
    (if rc =? 0 then updp (fun p => setf pv_flags (Z.lor (pv_flags p) TSI721_USING_MSIX) p)
     else
       rc <- pci PCI_ENABLE_MSI ;;
       when (rc =? 0) (updp (fun p => setf pv_flags (Z.lor (pv_flags p) TSI721_USING_MSI) p))) ;;;
    err <- tsi721_request_irq ;;
    if truthy err then ret err
    else
      err <- tsi721_register_dma dma_sel ;;
      if truthy err then tsi721_free_irq ;;; ret err
      else
        v <- ioread32 TSI721_DEVCTL ;;
        iowrite32 (Z.lor v TSI721_DEVCTL_SRBOOT_CMPL) TSI721_DEVCTL ;;;
        mp <- pmport ;;
        (if 0 <=? mp_host_deviceid mp
         then iowrite32 (Z.lor (Z.lor RIO_PORT_GEN_HOST RIO_PORT_GEN_MASTER) RIO_PORT_GEN_DISCOVERED)
                (0x100 + RIO_PORT_GEN_CTL_CSR)
         else iowrite32 0 (0x100 + RIO_PORT_GEN_CTL_CSR)) ;;;
        err <- core (rio_register_mport mport) ;;
        if truthy err then tsi721_unregister_dma dma_sel fuel ;;; tsi721_free_irq ;;; ret err else ret 0.

(** The BARs as they must be. *)
Definition bar_ok (b : pci_bar) (min_len : Z) : bool :=
  bar_mem b && negb (bar_mem64 b) && (min_len <=? bar_len b).
Definition p2r_bar_of (b : pci_bar) (old : tsi721_obw_bar) : tsi721_obw_bar :=
  if bar_mem64 b && negb (bar_prefetch b) then mk_obw_bar (bar_start b) (bar_len b) (ob_free old)
  else setf ob_size 0 old.

Definition set_dma_masks : TM W Z :=
  e <- pci (PCI_SET_DMA_MASK 64) ;;
  if truthy e then
    err <- pci (PCI_SET_DMA_MASK 32) ;;
    if truthy err then ret err else pci (PCI_SET_CONSISTENT_DMA_MASK 32) ;;; ret 0
  else pci (PCI_SET_CONSISTENT_DMA_MASK 64) ;;; ret 0.

(** PCI_EXP_DEVCTL, DEVCTL2 and their fields. *)
Definition pcie_settings (pcie_mrrs : Z) : TM W unit :=
  pci_ (PCIE_CLEAR_AND_SET 8 (Z.lor 0x0010 0x0800) 0) ;;;
  when ((0 <=? pcie_mrrs) && (pcie_mrrs <=? 5)) (pci_ (PCIE_CLEAR_AND_SET 8 0x7000 (Z.shiftl pcie_mrrs 12))) ;;;
  pci_ (PCIE_CLEAR_AND_SET 40 0xf 0x2) ;;;
  pci_ (PCI_WRITE_CONFIG TSI721_PCIECFG_EPCTL 0x01) ;;;
  pci_ (PCI_WRITE_CONFIG TSI721_PCIECFG_MSIXTBL TSI721_MSIXTBL_OFFSET) ;;;
  pci_ (PCI_WRITE_CONFIG TSI721_PCIECFG_MSIXPBA TSI721_MSIXPBA_OFFSET) ;;;
  pci_ (PCI_WRITE_CONFIG TSI721_PCIECFG_EPCTL 0).

(** The errata workaround for links of 5 Gbaud; the name of the speed is taken from a
    table of six. *)
Definition speed_fixup : TM W unit :=
  rval <- ioread32 (0x100 + RIO_PORT_N_CTL2_CSR 0 0) ;;
  let rval := Z.shiftr (Z.land rval RIO_PORT_N_CTL2_SEL_BAUD) 28 in
  (if (rval =? 0) && (RIO_LINK_SPEED_625 <? rval) then ret tt
   else if rval <? 6 then ret tt else ub) ;;;
  if RIO_LINK_SPEED_50 <=? rval then
    rval <- ioread32 0x4f054 ;;
    when (negb (Z.land rval 0x7f =? 0x6f))
      (for_ [0x4f054; 0x4f454; 0x4f854; 0x4fc54] (iowrite32 0x6f) ;;;
       for_ [0x4f04c; 0x4f44c; 0x4f84c; 0x4fc4c] (iowrite32 0) ;;;
       rval <- ioread32 TSI721_RIO_PLM_IMP_SPEC_CTL ;;
       iowrite32 (Z.lor rval TSI721_RIO_PLM_IMP_SPEC_CTL_FREINIT) TSI721_RIO_PLM_IMP_SPEC_CTL)
  else when (truthy rval)
    (rval <- ioread32 0x4f054 ;;
     when (Z.land rval 0x7f =? 0x6f) (for_ [0x4f054; 0x4f454; 0x4f854; 0x4fc54] (iowrite32 0x0f))).

(** From the registers being mapped on; [err_unmap] is the rest of the error path. *)
Definition probe_bridge (fuel : nat) (ops : rio_ops W) (pcie_mrrs : Z) (err_unmap : Z -> TM W Z) : TM W Z :=
  err <- set_dma_masks ;;
  if truthy err then err_unmap err
  else
    pcie_settings pcie_mrrs ;;;
    speed_fixup ;;;
    tsi721_disable_ints ;;;
    tsi721_init_pc2sr_mapping fuel ;;;
    tsi721_init_sr2pc_mapping ;;;
    err <- tsi721_bdma_maint_init ;;
    if truthy err then err_unmap (- ENOMEM)
    else
      err <- tsi721_doorbell_init ;;
      if truthy err then tsi721_bdma_maint_free ;;; err_unmap err
      else
        tsi721_port_write_init ;;;
        tsi721_messages_init ;;;
        err <- tsi721_setup_mport fuel ops ;;
        if truthy err then
          tsi721_port_write_free ;;; tsi721_doorbell_free ;;; tsi721_bdma_maint_free ;;; err_unmap err
        else tsi721_interrupts_init ;;; ret 0.

(** The zeroed private data with its port. *)
Definition zero_tsi721 (mport : ptr) (irq : Z) : tsi721_device :=
  let ir := mk_imsg_ring 0 None None None (replicate 512 None) 0 None 0 0 in
  let or := mk_omsg_ring 0 None (replicate 512 None) None 0 0 0 None 0 in
  mk_tsi721_device mport 0 (replicate (Z.to_nat TSI721_VECT_MAX) 0) irq None 0 false [] 0 0
    (mk_bdma_maint 0 0 None None 0) (replicate 8 zero_bdma_chan) [] (replicate 8 0) (replicate 8 ir) (replicate 4 0) (replicate 4 or)
    (replicate 8 (mk_ib_win 0 0 0 false false [])) 0
    (replicate 2 (mk_obw_bar 0 0 0)) (replicate 8 (mk_ob_win 0 0 0 0 false None)) 0.

Definition tsi721_probe (fuel : nat) (ops : rio_ops W) (pcie_mrrs : Z) (mport : ptr) (irq : Z) : TM W Z :=
  ok <- core kzalloc ;;
  if negb ok then ret (- ENOMEM)
  else
    updp (fun _ => zero_tsi721 mport irq) ;;;
    let err_clean (err : Z) : TM W Z := core kfree ;;; ret err in
    err <- pci PCI_ENABLE_DEVICE ;;
    if truthy err then err_clean err
    else
      let err_disable err := pci_ PCI_DISABLE_DEVICE ;;; err_clean err in
      b0 <- get_bar 0 ;;
      b1 <- get_bar 1 ;;
      if negb (bar_ok b0 TSI721_REG_SPACE_SIZE) then err_disable (- ENODEV)
      else if negb (bar_ok b1 TSI721_DB_WIN_SIZE) then err_disable (- ENODEV)
      else
        b2 <- get_bar 2 ;;
        b4 <- get_bar 4 ;;
        updp (fun p => setf pv_p2r_bar (zip_with p2r_bar_of [b2; b4] (pv_p2r_bar p)) p) ;;;
        err <- pci PCI_REQUEST_REGIONS ;;
        if truthy err then err_disable err
        else
          pci_ PCI_SET_MASTER ;;;
          let err_free_res err := pci_ PCI_RELEASE_REGIONS ;;; pci_ PCI_CLEAR_MASTER ;;; err_disable err in
          regs <- ioremap 0 ;;
          if negb regs then err_free_res (- ENOMEM)
          else
            odb <- ioremap 1 ;;
            let err_unmap err :=
              pci_ (PCI_IOUNMAP 0) ;;; when odb (pci_ (PCI_IOUNMAP 1)) ;;; err_free_res err in
            if negb odb then err_unmap (- ENOMEM)
            else probe_bridge fuel ops pcie_mrrs err_unmap.

Definition tsi721_remove (fuel : nat) : TM W unit :=
  tsi721_disable_ints ;;;
  tsi721_free_irq ;;;
  pci_ FLUSH_SCHEDULED_WORK ;;;
  mport <- getp pv_mport ;;
  core (rio_unregister_mport mport) ;;;
  tsi721_unregister_dma dma_sel fuel ;;;
  tsi721_bdma_maint_free ;;;
  tsi721_doorbell_free ;;;
  tsi721_port_write_free ;;;
  tsi721_close_sr2pc_mapping ;;;
  pci_ (PCI_IOUNMAP 0) ;;;
  pci_ (PCI_IOUNMAP 1) ;;;
  flags <- getp pv_flags ;;
  (if truthy (Z.land flags TSI721_USING_MSIX) then pci_ PCI_DISABLE_MSIX
   else when (truthy (Z.land flags TSI721_USING_MSI)) (pci_ PCI_DISABLE_MSI)) ;;;
  pci_ PCI_RELEASE_REGIONS ;;;
  pci_ PCI_CLEAR_MASTER ;;;
  pci_ PCI_DISABLE_DEVICE ;;;
  core kfree.

Definition tsi721_shutdown : TM W unit :=
  tsi721_disable_ints ;;; tsi721_dma_stop_all dma_sel ;;; pci_ PCI_CLEAR_MASTER ;;; pci_ PCI_DISABLE_DEVICE.
End probe.
