(* ===== verification/Tsi721Base.v ===== *)
(** * The Tsi721 bridge: what accesses to the bridge leave alone

    Arithmetic of powers of two as the driver uses it, and the frame rules of the
    driver's accesses: reading and writing registers and shared memory changes the
    hardware and never the driver's private data. *)

From S2P Require Import Prelude Regs State Access Route Em Msg Tsi721Regs Tsi721.

(** ** Powers of two *)

Lemma u64_small x : 0 <= x < 2 ^ 64 -> u64 x = x.
Proof. apply Z.mod_small. Qed.

Lemma is_power_of_2_spec n : 0 <= n -> is_power_of_2 n = true -> n = 2 ^ Z.log2 n.
Proof.
  unfold is_power_of_2. intros Hn [H0 H1]%andb_prop.
  apply negb_true_iff, Z.eqb_neq in H0. apply Z.eqb_eq in H1.
  destruct (Z.log2_spec n) as [Hlo Hhi]; [lia|].
  destruct (decide (n = 2 ^ Z.log2 n)) as [|Hne]; [done|]. exfalso.
  pose proof (Z.log2_nonneg n) as Hk.
  assert (Z.log2 (n - 1) = Z.log2 n) as Hl by (apply Z.log2_unique; lia).
  assert (Z.testbit (Z.land n (n - 1)) (Z.log2 n) = true) as Hb.
  { rewrite Z.land_spec, Z.bit_log2 by lia. rewrite <- Hl at 1.
    assert (0 < 2 ^ Z.log2 n) by (by apply Z.pow_pos_nonneg). by rewrite Z.bit_log2 by lia. }
  by rewrite H1, Z.bits_0 in Hb.
Qed.

Lemma is_power_of_2_pow k : 0 <= k -> is_power_of_2 (2 ^ k) = true.
Proof.
  intros Hk. unfold is_power_of_2. rewrite land_mask by done.
  assert (0 < 2 ^ k) by (by apply Z.pow_pos_nonneg). rewrite Z.mod_same by lia.
  by destruct (Z.eqb_spec (2 ^ k) 0); [lia|].
Qed.

Lemma land_clear x k : 0 <= k -> Z.land x (Z.lnot (2 ^ k - 1)) = x - x mod 2 ^ k.
Proof.
  intros Hk. rewrite <- Z.ldiff_land. replace (2 ^ k - 1) with (Z.ones k) by (rewrite Z.ones_equiv; lia).
  rewrite Z.ldiff_ones_r, Z.shiftl_mul_pow2, Z.shiftr_div_pow2 by done.
  assert (0 < 2 ^ k) by (by apply Z.pow_pos_nonneg).
  pose proof (Z.div_mod x (2 ^ k)). lia.
Qed.

(** The least multiple that is not below. *)
Lemma ALIGN_spec x k :
  0 <= k -> 0 <= x -> x + 2 ^ k <= 2 ^ 64 ->
  x <= ALIGN x (2 ^ k) < x + 2 ^ k /\ (2 ^ k | ALIGN x (2 ^ k)) /\
  (forall y, x <= y -> (2 ^ k | y) -> ALIGN x (2 ^ k) <= y).
Proof.
  intros Hk Hx Hm. assert (0 < 2 ^ k) as Hp by (by apply Z.pow_pos_nonneg).
  unfold ALIGN. rewrite u64_small, land_clear by lia.
  pose proof (Z.mod_pos_bound (x + (2 ^ k - 1)) (2 ^ k) Hp) as Hb.
  pose proof (Z.div_mod (x + (2 ^ k - 1)) (2 ^ k)) as Hd.
  split; [lia|]. split.
  - exists ((x + (2 ^ k - 1)) / 2 ^ k). lia.
  - intros y Hy [q ->]. assert ((x + (2 ^ k - 1)) / 2 ^ k <= q); [|nia].
    apply Z.lt_succ_r, Z.div_lt_upper_bound; nia.
Qed.

(** ** Shared memory *)

(** Shared memory as long as nobody else writes to it: it reads as it was written last. *)
Class ByteMemory (W : Type) `{!Tsi721Hw W} := {
  mem_same a bytes w : dma_load a (length bytes) (dma_store a bytes w) = bytes;
  mem_other a n b bytes w : a + Z.of_nat n <= b \/ b + Z.of_nat (length bytes) <= a ->
    dma_load a n (dma_store b bytes w) = dma_load a n w;
}.

(** ** Frame rules *)

(** Predicates that do not look at the hardware. *)
Class HwBlind {W} (P : tstate W -> Prop) := hw_blind : forall s w,
  P s -> P (setf ts_m (setf ms_k (with_hw w (ms_k (ts_m s))) (ts_m s)) s).

(** The hardware. *)
Definition tmem {W} (s : tstate W) : W := ks_hw (ms_k (ts_m s)).

Definition priv_is {W} (p : tsi721_device) (s : tstate W) : Prop := ts_priv s = p.
#[export] Instance priv_is_blind W p : HwBlind (W := W) (priv_is p).
Proof. by intros s w. Qed.

(** The private data, and how many objects are allocated. *)
Definition allocs {W} (s : tstate W) : Z := ks_allocs (ms_k (ts_m s)).
Definition priv_allocs {W} (p : tsi721_device) (n : Z) (s : tstate W) : Prop := ts_priv s = p /\ allocs s = n.
#[export] Instance priv_allocs_blind W p n : HwBlind (W := W) (priv_allocs p n).
Proof. by intros s w. Qed.

Section frame.
Context {W : Type} `{!KernelEnv W} `{!Tsi721Hw W}.
Context (u f : Prop) (P : tstate W -> Prop) `{!HwBlind P}.

Lemma fine_hw_call {A} (g : W -> A * W) : fine u f P any (core (hw_call g) : TM W A).
Proof.
  intros s Hs. unfold spec, core, lift, lift_k, hw_call. destruct (g _). split; [done|]. by apply hw_blind.
Qed.
Lemma fine_hw_do (g : W -> W) : fine u f P any (core (hw_do g) : TM W unit).
Proof. intros s Hs. split; [done|]. by apply hw_blind. Qed.
Lemma fine_tdelay us : fine u f P any (tdelay us : TM W unit).
Proof. apply fine_hw_do. Qed.
Lemma fine_ioread32 off :
  0 <= off < TSI721_REG_SPACE_SIZE -> fine u f P (fun v => 0 <= v < 2 ^ 32) (ioread32 off : TM W Z).
Proof.
  intros Ho. unfold ioread32.
  destruct (Z.leb_spec 0 off); [|lia]. destruct (Z.ltb_spec off TSI721_REG_SPACE_SIZE); [|lia]. simpl.
  eapply fine_bind; [apply fine_hw_call|]. intros v _. apply fine_ret, u32_range.
Qed.
Lemma fine_iowrite32 v off :
  0 <= off < TSI721_REG_SPACE_SIZE -> fine u f P any (iowrite32 v off : TM W unit).
Proof.
  intros Ho. unfold iowrite32.
  destruct (Z.leb_spec 0 off); [|lia]. destruct (Z.ltb_spec off TSI721_REG_SPACE_SIZE); [|lia]. apply fine_hw_do.
Qed.
Lemma fine_dma_get32 addr : fine u f P any (dma_get32 addr : TM W Z).
Proof. intros s Hs. split; [done|]. by destruct s as [[k b] p]. Qed.
Lemma fine_dma_put addr bytes : fine u f P any (dma_put addr bytes : TM W unit).
Proof. apply fine_hw_do. Qed.
End frame.

Lemma fine_getp {W A} (u f : Prop) p (g : tsi721_device -> A) :
  fine u f (priv_is p) (fun a => a = g p) (getp g : TM W A).
Proof. intros s Hs. unfold spec, getp, gets. by rewrite Hs. Qed.
#[export] Hint Resolve fine_hw_call fine_hw_do fine_tdelay fine_dma_get32 fine_dma_put fine_getp : fine.
#[export] Hint Extern 1 (HwBlind _) => typeclasses eauto : fine.

(** An offset in the register space, computed. *)
Ltac in_regs := cbv -[Z.add Z.mul Z.le Z.lt Z.opp Z.sub Z.of_nat]; lia.
#[export] Hint Extern 2 (fine _ _ _ _ (ioread32 _)) => (apply fine_ioread32; [typeclasses eauto|in_regs]) : fine.
#[export] Hint Extern 2 (fine _ _ _ _ (iowrite32 _ _)) => (apply fine_iowrite32; [typeclasses eauto|in_regs]) : fine.

Section updates.
Context {W : Type} `{!KernelEnv W} `{!Tsi721Hw W}.

Lemma spec_updp (u f : Prop) g (s : tstate W) (Q : unit -> tstate W -> Prop) :
  (forall s', ts_priv s' = g (ts_priv s) -> Q tt s') -> spec u f (updp g) s Q.
Proof. intros H. apply spec_modify. by apply H. Qed.

Lemma run_slot_nat {A} (l : list A) (i : nat) x (s : tstate W) :
  l !! i = Some x -> slot_get l (Z.of_nat i) s = Done x s.
Proof. intros H. apply run_slot_get; [lia|]. by rewrite Nat2Z.id. Qed.
End updates.
