(* ===== verification/Tsi721Bench.v ===== *)
(** * A simulated bridge for the witnesses of the Tsi721 driver

    Registers hold what was written to them (a zone is set at once), doorbells are answered at once, shared
    memory is a byte array that is handed out page by page, other drivers' handlers do
    nothing. *)

From S2P Require Import Prelude Regs State Access Msg RioCmBench Tsi721Regs Tsi721 Tsi721Base.

Record t7world := mk_t7world { tw_regs : gmap Z Z; tw_mem : gmap Z Z; tw_next : Z; tw_time : Z; tw_odb : list (Z * Z) }.
#[export] Instance eta_t7world : Eta t7world := fun w =>
  mk_t7world (tw_regs w) (tw_mem w) (tw_next w) (tw_time w) (tw_odb w).

#[export] Instance t7_env : KernelEnv t7world := {|
  env_alloc w := (true, w);
  env_udelay us w := setf tw_time (tw_time w + us) w;
  env_jiffies w := tw_time w / 1000;
  env_HZ := 1000;
  env_try_module_get _ w := (true, w);
  env_module_put _ w := w;
  env_indet w := 0xdeadbeef;
  env_request_resource root r := (0, root);
  env_release_resource root r := (0, root);
|}.

Fixpoint t7_load (addr : Z) (n : nat) (m : gmap Z Z) : list Z :=
  match n with O => [] | S n' => default 0 (m !! addr) :: t7_load (addr + 1) n' m end.

#[export] Instance t7_hw : Tsi721Hw t7world := {|
  hw_read off w := (default 0 (tw_regs w !! off), w);
  hw_write off v w :=
    setf tw_regs (<[off := if off =? TSI721_ZONE_SEL then Z.land v (not32 TSI721_ZONE_SEL_GO) else v]> (tw_regs w)) w;
  odb_write off v w := setf tw_odb (tw_odb w ++ [(off, v)]) (setf tw_regs (<[TSI721_ODB_CNT 0 := TSI721_ODB_CNT_OK]> (tw_regs w)) w);
  dma_load addr n w := t7_load addr n (tw_mem w);
  dma_store addr bytes w := setf tw_mem (user_store addr bytes (tw_mem w)) w;
  dma_alloc_coherent size w := (Some (tw_next w), setf tw_next (tw_next w + 0x1000 * ((size + 0xfff) / 0x1000)) w);
  dma_free_coherent _ _ w := w;
  irq_request _ w := (0, w);
  irq_free _ w := w;
|}.

(** The byte array is a memory. *)
Lemma user_store_before bytes b m a : a < b -> user_store b bytes m !! a = m !! a.
Proof.
  revert b m. induction bytes as [|x bytes IH]; intros b m Hlt; simpl; [done|].
  rewrite IH by lia. apply lookup_insert_ne. lia.
Qed.
Lemma user_store_after bytes b m a : b + Z.of_nat (length bytes) <= a -> user_store b bytes m !! a = m !! a.
Proof.
  revert b m. induction bytes as [|x bytes IH]; intros b m Hle; simpl in *; [done|].
  rewrite IH by lia. apply lookup_insert_ne. lia.
Qed.
Lemma t7_load_ext a n m m' : (forall i, a <= i < a + Z.of_nat n -> m !! i = m' !! i) -> t7_load a n m = t7_load a n m'.
Proof.
  revert a. induction n as [|n IH]; intros a H; simpl; [done|].
  f_equal; [by rewrite H by lia|]. apply IH. intros i Hi. apply H. lia.
Qed.
Lemma t7_load_store a bytes m : t7_load a (length bytes) (user_store a bytes m) = bytes.
Proof.
  revert a m. induction bytes as [|x bytes IH]; intros a m; simpl; [done|].
  f_equal; [|apply IH]. by rewrite user_store_before, lookup_insert_eq by lia.
Qed.
#[export] Instance t7_memory : ByteMemory t7world.
Proof.
  split; [by intros a bytes w; apply t7_load_store|]. intros a n b bytes w H. simpl. apply t7_load_ext. intros i Hi.
  destruct H; [apply user_store_before; lia|apply user_store_after; lia].
Qed.

Definition t7_ops : rio_ops t7world := {|
  op_lcread _ _ _ _ w := ((0, 0), w);
  op_lcwrite _ _ _ _ _ w := (0, w);
  op_cread _ _ _ _ _ _ w := ((0, 0), w);
  op_cwrite _ _ _ _ _ _ _ w := (0, w);
  op_dsend _ _ _ _ w := (0, w);
  op_pwenable := None;
  op_open_outb_mbox := None; op_close_outb_mbox := None;
  op_open_inb_mbox := None; op_close_inb_mbox := None;
  op_map_inb := None; op_unmap_inb := None; op_query_mport := None;
  op_map_outb := None; op_unmap_outb := None;
  op_add_outb_message _ _ _ _ _ w := (0, w);
  op_add_inb_buffer _ _ _ w := (0, w);
  op_get_inb_message _ _ w := (None, w);
|}.

Definition t7_mport : rio_mport t7world := {|
  mp_dbells := []; mp_pwrites := []; mp_nnode := false; mp_net := None;
  mp_riores := []; mp_inb_msg := replicate 4 (mk_rio_msg None None); mp_outb_msg := replicate 4 (mk_rio_msg None None);
  mp_host_deviceid := 7; mp_ops := t7_ops; mp_id := 0; mp_index := 0;
  mp_sys_size := 0; mp_phys_efptr := 0x100; mp_phys_rmap := 1;
  mp_nscan := None; mp_state := RIO_DEVICE_RUNNING; mp_pwe_refcnt := 0;
|}.

(** A bridge with BARs of 256 MB and 1 MB and no rings. *)
Definition t7_priv : tsi721_device :=
  mk_tsi721_device 1%positive 0 (replicate 34 0) 11 None 0 false [] 0 0 (mk_bdma_maint 7 2 (Some 0x1000) (Some 0x2000) 16)
    [] [] (replicate 8 0) [] (replicate 4 0) []
    (replicate 8 (mk_ib_win 0 0 0 false false [])) 8
    [mk_obw_bar 0x80000000 0x10000000 0; mk_obw_bar 0xc0000000 0x100000 0]
    (replicate 8 (mk_ob_win 0 0 0 0 false None)) 0.

(** Device 2 has the destination id 9. *)
Definition t7_state (priv : tsi721_device) (bufs : gmap ptr (list Z)) : tstate t7world := {|
  ts_m := {|
    ms_k := {|
      ks_hw := mk_t7world ∅ ∅ 0x10000 0 []; ks_allocs := 10; ks_fresh := 100%positive;
      ks_devs := {[ 2%positive := setf rd_destid 9 (zero_rio_dev None) ]}; ks_nets := ∅;
      ks_mports := {[ 1%positive := t7_mport ]};
      rio_devices := []; rio_nets := []; rio_mports := [1%positive]; rio_scans := [];
      next_portid := 1; hdid := [1]; ids_num := 1; next_destid := 0; next_comptag := 1;
    |};
    ms_bufs := bufs;
  |};
  ts_priv := priv;
  ts_txds := ∅;
|}.

(** What a run that ends shows, as a boolean to evaluate. *)
Definition done_with {S A} (o : outcome S A) (g : A -> S -> bool) : bool :=
  match o with Done a s => g a s | _ => false end.

Lemma spec_done_with {S A} (u f : Prop) (m : M S A) s (Q : A -> S -> Prop) g :
  spec u f m s Q -> done_with (m s) g = true -> exists a s', m s = Done a s' /\ Q a s' /\ g a s' = true.
Proof. unfold spec. destruct (m s) as [a s'| |]; [|done..]. by exists a, s'. Qed.
