(* ===== verification/Tsi721Obw.v ===== *)
(** * The Tsi721 bridge: outbound windows

    The bridge translates PCI addresses to RapidIO addresses in eight windows, which
    the driver places in two BARs.  Whatever is mapped and unmapped, active windows lie
    inside their BARs and do not overlap, and the counters tell what is free. *)

From S2P Require Import Prelude Regs State Access Route Em Msg Tsi721Regs Tsi721 Tsi721Base Tsi721Bench.

(** ** Sums over the windows *)

Definition zsum {A} (g : A -> Z) (l : list A) : Z := foldr (fun x n => g x + n) 0 l.

Lemma zsum_insert {A} (g : A -> Z) l i x y :
  l !! i = Some x -> zsum g (<[i := y]> l) = zsum g l - g x + g y.
Proof.
  revert i. induction l as [|z l IH]; intros [|i]; simpl; [done..|intros [= ->]; lia|].
  intros H. rewrite (IH i H). lia.
Qed.
Lemma zsum_nonneg {A} (g : A -> Z) l : (forall x, x ∈ l -> 0 <= g x) -> 0 <= zsum g l.
Proof.
  induction l as [|x l IH]; intros Hg; simpl; [lia|].
  pose proof (Hg x (list_elem_of_here _ _)). assert (0 <= zsum g l); [|lia].
  apply IH. intros y Hy. by apply Hg, list_elem_of_further.
Qed.
Lemma zsum_const {A} (g : A -> Z) l c : (forall x, x ∈ l -> g x = c) -> zsum g l = c * Z.of_nat (length l).
Proof.
  induction l as [|x l IH]; intros Hg; simpl; [lia|].
  rewrite (Hg x (list_elem_of_here _ _)), IH; [lia|]. intros y Hy. by apply Hg, list_elem_of_further.
Qed.

(** ** The invariant *)

Definition ow_end (w : tsi721_ob_win) : Z := ow_base w + ow_size w.
Definition bar_last (b : tsi721_obw_bar) : Z := ob_base b + ob_size b.
Definition apart (w v : tsi721_ob_win) : Prop := ow_end w <= ow_base v \/ ow_end v <= ow_base w.

(** BARs as the bus assigns them: apart, below 2^62, on 32 KB boundaries. *)
Record bars_ok (bars : list tsi721_obw_bar) : Prop := {
  bo_two : length bars = 2%nat;
  bo_range : forall i b, bars !! i = Some b ->
    0 <= ob_base b /\ 0 <= ob_size b /\ bar_last b < 2 ^ 62 /\ (0x8000 | ob_base b);
  bo_apart : forall i j b c, i <> j -> bars !! i = Some b -> bars !! j = Some c ->
    bar_last b <= ob_base c \/ bar_last c <= ob_base b;
}.

(** The window lies in its BAR, and its registers can hold its place. *)
Definition in_bar (bars : list tsi721_obw_bar) (w : tsi721_ob_win) : Prop :=
  exists i b, ow_pbar w = Some (Z.of_nat i) /\ bars !! i = Some b /\
    ob_base b <= ow_base w /\ ow_end w <= bar_last b /\ 0x8000 <= ow_size w < 2 ^ 32 /\
    (0x8000 | ow_base w) /\ (0x8000 | ow_size w).

Definition taken (i : nat) (w : tsi721_ob_win) : Z :=
  if ow_active w && bool_decide (ow_pbar w = Some (Z.of_nat i)) then ow_size w else 0.
Definition vacant (w : tsi721_ob_win) : Z := if ow_active w then 0 else 1.

Record obw_inv (p : tsi721_device) : Prop := {
  oi_bars : bars_ok (pv_p2r_bar p);
  oi_eight : length (pv_ob_win p) = 8%nat;
  oi_in : forall w, w ∈ pv_ob_win p -> ow_active w = true -> in_bar (pv_p2r_bar p) w;
  oi_apart : forall i j w v, i <> j -> pv_ob_win p !! i = Some w -> pv_ob_win p !! j = Some v ->
    ow_active w = true -> ow_active v = true -> apart w v;
  oi_count : pv_obwin_cnt p = zsum vacant (pv_ob_win p);
  oi_free : forall i b, pv_p2r_bar p !! i = Some b ->
    0 <= ob_free b /\ ob_free b = ob_size b - zsum (taken i) (pv_ob_win p);
}.

Lemma vacant_nonneg w : 0 <= vacant w.
Proof. unfold vacant. by destruct (ow_active w). Qed.

(** A free slot is there when the counter says so. *)
Lemma count_zero wins : zsum vacant wins = 0 <-> forall w, w ∈ wins -> ow_active w = true.
Proof.
  split.
  - induction wins as [|v wins IH]; simpl; [by intros _ w ?%elem_of_nil|].
    pose proof (vacant_nonneg v). pose proof (zsum_nonneg vacant wins (fun w _ => vacant_nonneg w)).
    intros Hz w [->|Hw]%elem_of_cons; [|apply IH; [lia|done]].
    unfold vacant in *. destruct (ow_active v); [done|lia].
  - intros H. rewrite (zsum_const _ _ 0); [done|]. intros w Hw. unfold vacant. by rewrite H.
Qed.

(** ** The scan *)

Definition free_idx (wins : list tsi721_ob_win) (i : Z) : Prop :=
  i = -1 \/ exists k w, i = Z.of_nat k /\ wins !! k = Some w /\ ow_active w = false.

Section scan.
Context (bb be size wb : Z).

Definition overlaps (w : tsi721_ob_win) : Prop :=
  ow_active w = true /\ bb <= ow_base w < be /\
  wb < u64 (ow_base w + ow_size w) /\ ow_base w < u64 (wb + size).

Lemma obw_scan_spec l : forall pre new,
  free_idx (pre ++ l) new ->
  let '(idx, r) := obw_scan bb be size wb l (Z.of_nat (length pre)) new in
  free_idx (pre ++ l) idx /\
  match r with
  | Some nb => exists w, w ∈ l /\ overlaps w /\
      nb = ALIGN (u64 (ow_base w + ow_size w)) (size / TSI721_PC2SR_ZONES)
  | None => (forall w, w ∈ l -> ~ overlaps w) /\
      (idx = -1 -> new = -1 /\ forall w, w ∈ l -> ow_active w = true)
  end.
Proof.
  induction l as [|win l IH]; intros pre new Hnew; simpl.
  - split; [done|]. split; [by intros w ?%elem_of_nil|]. intros ->. split; [done|]. by intros w ?%elem_of_nil.
  - assert (Z.of_nat (length pre) + 1 = Z.of_nat (length (pre ++ [win]))) as Hlen
      by (rewrite length_app; simpl; lia).
    destruct (ow_active win) eqn:Ha; simpl.
    + destruct ((bb <=? ow_base win) && (ow_base win <? be) &&
        (wb <? u64 (ow_base win + ow_size win)) && (ow_base win <? u64 (wb + size))) eqn:E.
      * split; [done|]. exists win. split; [apply list_elem_of_here|]. split; [|done].
        split; [done|]. lia.
      * rewrite Hlen. specialize (IH (pre ++ [win]) new). rewrite <- app_assoc in IH.
        specialize (IH Hnew). destruct (obw_scan _ _ _ _ _ _ _) as [idx [nb|]].
        -- destruct IH as (H1 & w & Hw & H2). split; [done|]. exists w. by split; [apply list_elem_of_further|].
        -- destruct IH as (H1 & H2 & H3). split; [done|]. split.
           ++ intros w [->|Hw]%elem_of_cons; [intros [_ ?]; lia|by apply H2].
           ++ intros Hi. destruct (H3 Hi) as [H4 H5]. split; [done|].
              intros w [->|Hw]%elem_of_cons; [done|by apply H5].
    + rewrite Hlen. specialize (IH (pre ++ [win])
        (if new =? -1 then Z.of_nat (length pre) else new)). rewrite <- app_assoc in IH.
      assert (free_idx (pre ++ [win] ++ l) (if new =? -1 then Z.of_nat (length pre) else new)) as Hf.
      { destruct (new =? -1); [|done]. right. exists (length pre), win. split; [done|].
        split; [|done]. by apply list_lookup_middle. }
      specialize (IH Hf). destruct (obw_scan _ _ _ _ _ _ _) as [idx [nb|]].
      * destruct IH as (H1 & w & Hw & H2). split; [done|]. exists w. by split; [apply list_elem_of_further|].
      * destruct IH as (H1 & H2 & H3). split; [done|]. split.
        -- intros w [->|Hw]%elem_of_cons; [intros [? _]; congruence|by apply H2].
        -- intros Hi. destruct (H3 Hi) as [H4 H5]. destruct (Z.eqb_spec new (-1)); lia.
Qed.
End scan.

(** ** The search for a place in one BAR *)

Lemma size_range k : 15 <= k < 32 -> 
  0x8000 <= 2 ^ k < 2 ^ 32 /\ (0x8000 | 2 ^ k) /\ 2 ^ k / TSI721_PC2SR_ZONES = 2 ^ (k - 3).
Proof.
  intros Hk. split; [|split].
  - change 0x8000 with (2 ^ 15). split; [apply Z.pow_le_mono_r|apply Z.pow_lt_mono_r]; lia.
  - exists (2 ^ (k - 15)). change 0x8000 with (2 ^ 15). rewrite <- Z.pow_add_r by lia. f_equal. lia.
  - change TSI721_PC2SR_ZONES with (2 ^ 3). replace k with (k - 3 + 3) at 1 by lia.
    rewrite Z.pow_add_r by lia. by apply Z.div_mul.
Qed.

Section place.
Context {W : Type} `{!KernelEnv W} `{!Tsi721Hw W}.
Context (bars : list tsi721_obw_bar) (wins : list tsi721_ob_win) (i : nat) (b : tsi721_obw_bar) (k : Z).
Hypothesis (Hbars : bars_ok bars) (Hb : bars !! i = Some b) (Hk : 15 <= k < 32).
Hypothesis (Hin : forall w, w ∈ wins -> ow_active w = true -> in_bar bars w).
Hypothesis (Hlen : length wins = 8%nat).

Let size : Z := 2 ^ k.
Let be : Z := ob_base b + ob_size b.

(** A window that starts in the BAR is one of the BAR's. *)
Lemma starts_in w :
  w ∈ wins -> ow_active w = true -> ob_base b <= ow_base w < be ->
  ow_end w <= be /\ 0 <= ow_base w /\ 0x8000 <= ow_size w < 2 ^ 32 /\ (0x8000 | ow_end w) /\ ow_pbar w = Some (Z.of_nat i).
Proof.
  intros Hw Ha Hs. destruct (Hin w Hw Ha) as (j & c & Hp & Hc & H1 & H2 & H3 & H4 & H5).
  pose proof (bo_range _ Hbars _ _ Hb) as (R1 & R2 & R3 & R4).
  unfold be, ow_end, bar_last in *.
  destruct (decide (j = i)) as [->|Hne].
  - rewrite Hb in Hc. simplify_eq. split_and!; [lia..| |done]. by apply Z.divide_add_r.
  - pose proof (bo_range _ Hbars _ _ Hc) as (? & ? & _).
    destruct (bo_apart _ Hbars j i c b Hne Hc Hb) as [Hd|Hd]; unfold bar_last in Hd; lia.
Qed.

(** The next base: behind the window, on the boundary. *)
Lemma next_base e :
  0 <= e -> e < 2 ^ 62 -> (0x8000 | e) ->
  e <= ALIGN e (size / TSI721_PC2SR_ZONES) < e + size /\ (0x8000 | ALIGN e (size / TSI721_PC2SR_ZONES)) /\
  (forall y, e <= y -> (2 ^ (k - 3) | y) -> ALIGN e (size / TSI721_PC2SR_ZONES) <= y).
Proof.
  intros H0 He Hd. unfold size; destruct (size_range k Hk) as (Hs & _ & ->).
  assert (2 ^ (k - 3) <= size) as Hle by (apply Z.pow_le_mono_r; lia).
  destruct (ALIGN_spec e (k - 3)) as (H1 & H2 & H3); [lia..|].
  split; [lia|]. split; [|done].
  destruct (decide (15 <= k - 3)) as [Hk3|Hk3].
  - transitivity (2 ^ (k - 3)); [|done]. exists (2 ^ (k - 3 - 15)). change 0x8000 with (2 ^ 15).
    rewrite <- Z.pow_add_r by lia. f_equal. lia.
  - assert (ALIGN e (2 ^ (k - 3)) = e) as ->; [|done].
    assert (2 ^ (k - 3) | e) as Hde; [|specialize (H3 e (Z.le_refl _) Hde); lia].
    transitivity 0x8000; [|done]. exists (2 ^ (15 - (k - 3))). change 0x8000 with (2 ^ 15).
    rewrite <- Z.pow_add_r by lia. f_equal. lia.
Qed.

(** A place of the size at [x] that no window of the BAR touches. *)
Definition clear_at (x : Z) : Prop :=
  forall w, w ∈ wins -> ow_active w = true -> ow_pbar w = Some (Z.of_nat i) ->
    x + size <= ow_base w \/ ow_end w <= x.

(** While searching: the base so far, and every aligned place that is clear is not
    below it. *)
Definition searching (st : Z * Z) : Prop :=
  ob_base b <= st.1 <= be + size /\ (0x8000 | st.1) /\ free_idx wins st.2 /\
  (forall x, ob_base b <= x -> (2 ^ (k - 3) | x) -> clear_at x -> st.1 <= x).

(** The windows of the BAR that end behind the base. *)
Definition ahead (wb : Z) (w : tsi721_ob_win) : Prop :=
  ow_active w = true /\ ob_base b <= ow_base w < be /\ wb < ow_end w.
#[local] Instance ahead_dec wb w : Decision (ahead wb w).
Proof. unfold ahead. apply _. Defined.

Lemma ahead_less wb nb w :
  wb <= nb -> w ∈ wins -> ahead wb w -> ow_end w <= nb ->
  (length (filter (ahead nb) wins) < length (filter (ahead wb) wins))%nat.
Proof.
  intros Hle Hw Ha He. clear Hlen Hin. induction wins as [|v l IH]; [by apply elem_of_nil in Hw|].
  assert (length (filter (ahead nb) l) <= length (filter (ahead wb) l))%nat as Hmono.
  { clear -Hle. induction l as [|u l IHl]; [done|]. rewrite !filter_cons.
    destruct (decide (ahead nb u)) as [A|A], (decide (ahead wb u)) as [B|B]; simpl; try lia.
    destruct B. destruct A as (? & ? & ?). unfold ahead. split_and!; try done; lia. }
  rewrite !filter_cons. apply elem_of_cons in Hw as [<-|Hw].
  - destruct (decide (ahead nb w)) as [A|A]; [destruct A as (? & ? & ?); lia|].
    destruct (decide (ahead wb w)) as [B|B]; [simpl; lia|done].
  - specialize (IH Hw). destruct (decide (ahead nb v)) as [A|A], (decide (ahead wb v)) as [B|B]; simpl; try lia.
    destruct B. destruct A as (? & ? & ?). unfold ahead. split_and!; try done; lia.
Qed.

Lemma overlaps_iff wb w :
  ob_base b <= wb <= be + size -> w ∈ wins ->
  overlaps (ob_base b) be size wb w <->
  ow_active w = true /\ ob_base b <= ow_base w < be /\ wb < ow_end w /\ ow_base w < wb + size.
Proof.
  intros Hwb Hw. pose proof (bo_range _ Hbars _ _ Hb) as (R1 & R2 & R3 & R4).
  destruct (size_range k Hk) as (Hs & _). unfold overlaps. unfold bar_last in R3. fold be in R3.
  split.
  - intros (Ha & Hs1 & Ho). destruct (starts_in w Hw Ha Hs1) as (S1 & S2 & S3 & _).
    unfold ow_end in *. rewrite !u64_small in Ho by lia. tauto.
  - intros (Ha & Hs1 & Ho). destruct (starts_in w Hw Ha Hs1) as (S1 & S2 & S3 & _).
    unfold ow_end in *. rewrite !u64_small by lia. tauto.
Qed.

(** The search ends within its fuel: every pass leaves another window behind. *)
Lemma obw_search (s : tstate W) :
  total (loop OBW_FUEL (obw_pass (ob_base b) be size wins) (ob_base b, -1)) s (fun st s' =>
    s' = s /\ searching st /\
    (forall w, w ∈ wins -> ~ overlaps (ob_base b) be size st.1 w) /\
    (st.2 = -1 -> forall w, w ∈ wins -> ow_active w = true)).
Proof.
  pose proof (bo_range _ Hbars _ _ Hb) as (R1 & R2 & R3 & R4). unfold bar_last in R3. fold be in R3.
  destruct (size_range k Hk) as (Hs & Hsd & Hz).
  apply (spec_loop_measure _ _ (fun st s' => s' = s /\ searching st)
    (fun st _ => length (filter (ahead st.1) wins))).
  - split; [done|]. unfold searching; simpl. split_and!; [lia|unfold be; lia|done|by left|done].
  - simpl. pose proof (length_filter (ahead (ob_base b)) wins). rewrite Hlen in *. unfold OBW_FUEL. lia.
  - intros [wb new] s' [-> (Hwb & Hd & Hf & Hc)]. simpl in *. unfold obw_pass.
    pose proof (obw_scan_spec (ob_base b) be size wb wins [] new Hf) as Hscan. simpl in Hscan.
    destruct (obw_scan _ _ _ _ _ _ _) as [idx [nb|]]; apply spec_ret; destruct Hscan as [Hf' Hr].
    + destruct Hr as (w & Hw & Hov & ->).
      apply (overlaps_iff _ _ Hwb Hw) in Hov as (Ha & Hst & Ho1 & Ho2).
      destruct (starts_in w Hw Ha Hst) as (S1 & S2 & S3 & S4 & S5).
      unfold ow_end in *. rewrite u64_small by lia.
      destruct (next_base (ow_base w + ow_size w)) as (N1 & N2 & N3); [lia..|done|].
      split; [split; [done|]; unfold searching; simpl; split_and!; [lia|lia|done|done|]|].
      * intros x Hx Hxd Hcl. apply N3; [|done]. specialize (Hc x Hx Hxd Hcl).
        destruct (Hcl w Hw Ha S5) as [?|?]; unfold ow_end in *; lia.
      * simpl. apply (ahead_less wb _ w); unfold ahead, ow_end; [lia|done|split_and!; [done|lia..]|lia].
    + destruct Hr as [H1 H2]. split; [done|]. split; [done|]. split; [done|]. intros Hi. by apply H2.
Qed.
End place.

(** ** Taking and giving back a window *)

(** The private data with a window of [size] at [base] in slot [j]. *)
Definition placed (p : tsi721_device) (i : nat) (b : tsi721_obw_bar) (j : nat) (w : tsi721_ob_win)
    (base size : Z) : tsi721_device :=
  setf pv_ob_win (<[j := setf ow_active true (setf ow_base base
    (setf ow_size size (setf ow_pbar (Some (Z.of_nat i)) w)))]> (pv_ob_win p))
  (setf pv_obwin_cnt (pv_obwin_cnt p - 1)
  (setf pv_p2r_bar (<[i := setf ob_free (ob_free b - size) b]> (pv_p2r_bar p)) p)).

(** The private data after slot [j], a window of BAR [i], has been given back. *)
Definition vacated (p : tsi721_device) (i : nat) (b : tsi721_obw_bar) (j : nat) (w : tsi721_ob_win)
    : tsi721_device :=
  setf pv_p2r_bar (<[i := setf ob_free (ob_free b + ow_size w) b]> (pv_p2r_bar p))
  (setf pv_obwin_cnt (pv_obwin_cnt p + 1)
  (setf pv_ob_win (<[j := setf ow_active false w]> (pv_ob_win p)) p)).

Lemma bars_ok_free bars i b v :
  bars !! i = Some b -> bars_ok bars -> bars_ok (<[i := setf ob_free v b]> bars).
Proof.
  intros Hb [H1 H2 H3].
  assert (forall j c, <[i := setf ob_free v b]> bars !! j = Some c ->
    exists c', bars !! j = Some c' /\ ob_base c = ob_base c' /\ ob_size c = ob_size c') as Hsame.
  { intros j c [(-> & <- & _)|[_ Hc]]%list_lookup_insert_Some; eauto. }
  split.
  - by rewrite length_insert.
  - intros j c (c' & Hc & E1 & E2)%Hsame. unfold bar_last. rewrite E1, E2. by apply (H2 j c').
  - intros j j' c d Hne (c' & Hc & E1 & E2)%Hsame (d' & Hd & E3 & E4)%Hsame.
    unfold bar_last. rewrite E1, E2, E3, E4. by apply (H3 j j' c' d').
Qed.
Lemma in_bar_free bars i b v w :
  bars !! i = Some b -> in_bar bars w -> in_bar (<[i := setf ob_free v b]> bars) w.
Proof.
  intros Hb (j & c & Hp & Hc & Hr). destruct (decide (j = i)) as [->|Hne].
  - rewrite Hb in Hc. simplify_eq. exists i, (setf ob_free v c). split; [done|].
    split; [|done]. apply list_lookup_insert_eq. by eapply lookup_lt_Some.
  - exists j, c. by rewrite list_lookup_insert_ne.
Qed.
Lemma apart_comm w v : apart w v -> apart v w.
Proof. unfold apart. tauto. Qed.

(** Replacing one slot. *)
Lemma apart_insert (wins : list tsi721_ob_win) (j : nat) w :
  (forall v (l : nat), l <> j -> wins !! l = Some v -> ow_active w = true -> ow_active v = true -> apart w v) ->
  (forall (i l : nat) w v, i <> l -> wins !! i = Some w -> wins !! l = Some v ->
    ow_active w = true -> ow_active v = true -> apart w v) ->
  forall (i l : nat) w' v, i <> l -> <[j := w]> wins !! i = Some w' -> <[j := w]> wins !! l = Some v ->
    ow_active w' = true -> ow_active v = true -> apart w' v.
Proof.
  intros Hw Hall i l w' v Hne.
  intros [(-> & <- & _)|[Hi Hiw]]%list_lookup_insert_Some [(-> & <- & _)|[Hl Hlw]]%list_lookup_insert_Some; [done| | |].
  - intros. by apply (Hw v l).
  - intros. by apply apart_comm, (Hw w' i).
  - by apply (Hall i l).
Qed.

Lemma placed_inv p i b j w base k :
  obw_inv p -> pv_p2r_bar p !! i = Some b -> 15 <= k < 32 -> 2 ^ k <= ob_free b ->
  pv_ob_win p !! j = Some w -> ow_active w = false ->
  ob_base b <= base -> base + 2 ^ k <= bar_last b -> (0x8000 | base) ->
  (forall v, v ∈ pv_ob_win p -> ow_active v = true -> ob_base b <= ow_base v < bar_last b ->
    ow_end v <= base \/ base + 2 ^ k <= ow_base v) ->
  obw_inv (placed p i b j w base (2 ^ k)).
Proof.
  intros [I1 I2 I3 I4 I5 I6] Hb Hk Hfree Hw Ha Hlo Hhi Hd Hcl.
  destruct (size_range k Hk) as (Hs & Hsd & _).
  set (w' := setf ow_active true (setf ow_base base (setf ow_size (2 ^ k) (setf ow_pbar (Some (Z.of_nat i)) w)))).
  assert (in_bar (pv_p2r_bar p) w') as Hin'.
  { exists i, b. unfold ow_end; simpl. split_and!; try done; lia. }
  split; simpl.
  - by apply bars_ok_free.
  - by rewrite length_insert.
  - intros v [l [(-> & <- & _)|[_ Hv]]%list_lookup_insert_Some]%list_elem_of_lookup Hav; apply in_bar_free; try done.
    apply I3; [by eapply list_elem_of_lookup_2|done].
  - apply apart_insert; [|done]. intros v l Hne Hv _ Hav.
    assert (v ∈ pv_ob_win p) as Hve by (by eapply list_elem_of_lookup_2).
    destruct (I3 v Hve Hav) as (m & c & Hp & Hc & C1 & C2 & C3 & _).
    unfold apart, ow_end in *; simpl. destruct (decide (m = i)) as [->|Hmi].
    + rewrite Hb in Hc. simplify_eq. specialize (Hcl v Hve Hav). lia.
    + destruct (bo_apart _ I1 m i c b Hmi Hc Hb); lia.
  - rewrite (zsum_insert _ _ _ _ _ Hw), I5. unfold vacant; simpl. rewrite Ha. lia.
  - intros m c Hc. rewrite (zsum_insert _ _ _ _ _ Hw). unfold taken at 2 3; simpl. rewrite Ha; simpl.
    apply list_lookup_insert_Some in Hc as [(-> & <- & _)|[Hne Hc]]; simpl.
    + rewrite bool_decide_true by done. destruct (I6 m b Hb). lia.
    + rewrite bool_decide_false; [destruct (I6 m c Hc); lia|]. intros [= E]. apply Hne. lia.
Qed.

Lemma vacated_inv p i b j w :
  obw_inv p -> pv_ob_win p !! j = Some w -> ow_active w = true -> ow_pbar w = Some (Z.of_nat i) ->
  pv_p2r_bar p !! i = Some b -> obw_inv (vacated p i b j w).
Proof.
  intros [I1 I2 I3 I4 I5 I6] Hw Ha Hp Hb.
  assert (w ∈ pv_ob_win p) as Hwe by (by eapply list_elem_of_lookup_2).
  split; simpl.
  - by apply bars_ok_free.
  - by rewrite length_insert.
  - intros v [l [(-> & <- & _)|[_ Hv]]%list_lookup_insert_Some]%list_elem_of_lookup Hav; [done|].
    apply in_bar_free; [done|]. apply I3; [by eapply list_elem_of_lookup_2|done].
  - by apply apart_insert.
  - rewrite (zsum_insert _ _ _ _ _ Hw), I5. unfold vacant; simpl. rewrite Ha. lia.
  - destruct (I3 w Hwe Ha) as (_ & _ & _ & _ & _ & _ & Hs & _).
    intros m c Hc. rewrite (zsum_insert _ _ _ _ _ Hw). unfold taken at 2 3; simpl. rewrite Ha, Hp; simpl.
    apply list_lookup_insert_Some in Hc as [(-> & <- & _)|[Hne Hc]]; simpl.
    + rewrite bool_decide_true by done. destruct (I6 m b Hb). lia.
    + rewrite bool_decide_false; [destruct (I6 m c Hc); lia|]. intros [= E]. apply Hne. lia.
Qed.

(** The counter of a BAR never exceeds its size. *)
Lemma free_le_size p i b : obw_inv p -> pv_p2r_bar p !! i = Some b -> ob_free b <= ob_size b.
Proof.
  intros [_ _ I3 _ _ I6] Hb. destruct (I6 i b Hb) as [_ ->].
  assert (0 <= zsum (taken i) (pv_ob_win p)); [|lia]. apply zsum_nonneg. intros w Hw. unfold taken.
  destruct (ow_active w) eqn:Ha; simpl; [|done].
  destruct (I3 w Hw Ha) as (_ & _ & _ & _ & _ & _ & Hs & _). case_bool_decide; lia.
Qed.

(** All windows vacant, all of the BARs free. *)
Lemma reset_inv p :
  bars_ok (pv_p2r_bar p) -> length (pv_ob_win p) = 8%nat ->
  obw_inv (setf pv_p2r_bar ((fun b => setf ob_free (ob_size b) b) <$> pv_p2r_bar p)
    (setf pv_ob_win (setf ow_active false <$> pv_ob_win p) (setf pv_obwin_cnt TSI721_OBWIN_NUM p))).
Proof.
  intros Hb H8.
  assert (forall w, w ∈ setf ow_active false <$> pv_ob_win p -> ow_active w = false) as Hina.
  { intros w (v & -> & _)%list_elem_of_fmap. done. }
  assert (forall i b, ((fun b => setf ob_free (ob_size b) b) <$> pv_p2r_bar p) !! i = Some b ->
    ob_free b = ob_size b /\ exists c, pv_p2r_bar p !! i = Some c /\ ob_base b = ob_base c /\ ob_size b = ob_size c) as Hsame.
  { intros i b. rewrite list_lookup_fmap. destruct (pv_p2r_bar p !! i) as [c|] eqn:E; [|done].
    intros [= <-]. split; [done|]. by exists c. }
  split; simpl.
  - destruct Hb as [B1 B2 B3]. split; [by rewrite length_fmap| |].
    + intros i b (_ & c & Hc & E1 & E2)%Hsame. unfold bar_last. rewrite E1, E2. by apply (B2 i).
    + intros i j b c Hne (_ & b' & Hb' & E1 & E2)%Hsame (_ & c' & Hc' & E3 & E4)%Hsame.
      unfold bar_last. rewrite E1, E2, E3, E4. by apply (B3 i j).
  - by rewrite length_fmap.
  - intros w Hw Ha. rewrite (Hina w Hw) in Ha. done.
  - intros i j w v _ Hw _ Ha. rewrite (Hina w) in Ha; [done|by eapply list_elem_of_lookup_2].
  - rewrite (zsum_const _ _ 1), length_fmap, H8; [done|]. intros w Hw. unfold vacant. by rewrite Hina.
  - intros i b (-> & c & Hc & _ & ->)%Hsame.
    rewrite (zsum_const _ _ 0); [|intros w Hw; unfold taken; by rewrite (Hina w Hw)].
    destruct (bo_range _ Hb _ _ Hc). lia.
Qed.

(** The target of a window does not matter for its place. *)
Lemma relabel_inv p j w v :
  obw_inv p -> pv_ob_win p !! j = Some w ->
  ow_base v = ow_base w -> ow_size v = ow_size w -> ow_active v = ow_active w -> ow_pbar v = ow_pbar w ->
  obw_inv (setf pv_ob_win (<[j := v]> (pv_ob_win p)) p).
Proof.
  intros [I1 I2 I3 I4 I5 I6] Hw E1 E2 E3 E4.
  assert (w ∈ pv_ob_win p) as Hwe by (by eapply list_elem_of_lookup_2).
  split; simpl; try done.
  - by rewrite length_insert.
  - intros u [l [(-> & <- & _)|[_ Hu]]%list_lookup_insert_Some]%list_elem_of_lookup Hau.
    + rewrite E3 in Hau. destruct (I3 w Hwe Hau) as (i & b & H).
      exists i, b. unfold ow_end in *. by rewrite E1, E2, E4.
    + apply I3; [by eapply list_elem_of_lookup_2|done].
  - apply apart_insert; [|done]. intros u l Hne Hu Hav Hau. unfold apart, ow_end. rewrite E1, E2.
    apply (I4 j l w u); congruence.
  - rewrite (zsum_insert _ _ _ _ _ Hw), I5. unfold vacant. rewrite E3. lia.
  - intros m c Hc. rewrite (zsum_insert _ _ _ _ _ Hw). unfold taken at 2 3. rewrite E2, E3, E4.
    destruct (I6 m c Hc). lia.
Qed.

Section operations.
Context {W : Type} `{!KernelEnv W} `{!Tsi721Hw W}.

(** No aligned place of the BAR is clear. *)
Definition no_room (p : tsi721_device) (i : nat) (b : tsi721_obw_bar) (k : Z) : Prop :=
  forall x, ob_base b <= x -> x + 2 ^ k <= bar_last b -> (2 ^ (k - 3) | x) -> ~ clear_at (pv_ob_win p) i k x.

(** What an attempt to place a window of [2 ^ k] bytes in BAR [i] does. *)
Definition obw_placed (p : tsi721_device) (i : nat) (b : tsi721_obw_bar) (k : Z) (r : Z * Z) (s s' : tstate W) : Prop :=
  exists j w base, r = (0, Z.of_nat j) /\ pv_ob_win p !! j = Some w /\ ow_active w = false /\
    ob_base b <= base /\ base + 2 ^ k <= bar_last b /\
    ts_priv s' = placed p i b j w base (2 ^ k) /\ obw_inv (ts_priv s').

Lemma obw_alloc_spec p i b k (s : tstate W) :
  obw_inv p -> priv_is p s -> pv_p2r_bar p !! i = Some b -> 15 <= k < 32 -> 2 ^ k <= ob_free b ->
  0 < pv_obwin_cnt p ->
  total (tsi721_obw_alloc (Z.of_nat i) (2 ^ k)) s (fun r s' =>
    (r = (- ENOMEM, -1) /\ s' = s /\ no_room p i b k) \/ obw_placed p i b k r s s').
Proof.
  intros Hinv Hs Hb Hk Hfree Hcnt. pose proof Hinv as [I1 I2 I3 I4 I5 I6].
  pose proof (bo_range _ I1 _ _ Hb) as (R1 & R2 & R3 & R4).
  pose proof (free_le_size p i b Hinv Hb). unfold bar_last in *.
  destruct (size_range k Hk) as (Hsz & _).
  unfold tsi721_obw_alloc. unfold priv_is in Hs.
  apply spec_bind, spec_gets. rewrite Hs. eapply spec_run; [by apply run_slot_nat|].
  apply spec_bind, spec_gets. rewrite Hs. rewrite u64_small by lia. apply spec_bind.
  eapply spec_mono; [apply (obw_search (pv_p2r_bar p) (pv_ob_win p) i b k); done|].
  intros [wb new] s' (-> & (Hwb & Hd & Hf & Hc) & Hno & Hfull). simpl in Hwb, Hd, Hf, Hc, Hno, Hfull.
  rewrite u64_small by lia.
  destruct (Z.ltb_spec (ob_base b + ob_size b) (wb + 2 ^ k)) as [Hlt|Hge].
  { apply spec_ret. left. split; [done|]. split; [done|]. intros x Hx1 Hx2 Hx3 Hcl.
    specialize (Hc x Hx1 Hx3 Hcl). unfold bar_last in Hx2. lia. }
  destruct (Z.eqb_spec new (-1)) as [E|Hnew].
  { specialize (Hfull E). apply count_zero in Hfull. lia. }
  destruct Hf as [?|(j & w & -> & Hw & Ha)]; [done|]. eapply spec_run; [by apply run_slot_nat|].
  apply spec_bind, spec_updp. intros s' Hs'. apply spec_ret. right. exists j, w, wb.
  assert (ts_priv s' = placed p i b j w wb (2 ^ k)) as Hp.
  { rewrite Hs', Hs. unfold placed. by rewrite !Nat2Z.id, u64_small by (destruct (I6 i b Hb); lia). }
  split_and!; [done..|lia|unfold bar_last; lia|done|]. rewrite Hp.
  apply placed_inv; try done; [unfold bar_last; lia|].
  intros v Hv Hav Hst. specialize (Hno v Hv). rewrite (overlaps_iff (pv_p2r_bar p) (pv_ob_win p) i b k) in Hno by done.
  unfold bar_last in Hst.
  destruct (decide (ow_end v <= wb)); [by left|]. destruct (decide (wb + 2 ^ k <= ow_base v)); [by right|].
  exfalso. apply Hno. split; [done|]. lia.
Qed.

Lemma obw_try_bars_spec p k (s : tstate W) :
  obw_inv p -> priv_is p s -> 15 <= k < 32 -> 0 < pv_obwin_cnt p ->
  total (obw_try_bars (2 ^ k)) s (fun r s' =>
    (r = (- ENOMEM, -1) /\ s' = s /\
     forall i b, pv_p2r_bar p !! i = Some b -> 2 ^ k <= ob_free b -> no_room p i b k) \/
    exists i b, pv_p2r_bar p !! i = Some b /\ obw_placed p i b k r s s').
Proof.
  intros Hinv Hs Hk Hcnt. pose proof (bo_two _ (oi_bars _ Hinv)) as H2. unfold priv_is in Hs.
  destruct (pv_p2r_bar p) as [|b0 [|b1 [|]]] eqn:Hbars; try done.
  assert (pv_p2r_bar p !! 0%nat = Some b0) as H0 by (by rewrite Hbars).
  assert (pv_p2r_bar p !! 1%nat = Some b1) as H1 by (by rewrite Hbars).
  rewrite <- Hbars in *.
  assert (forall (i : nat) b rc0 (s1 : tstate W), pv_p2r_bar p !! i = Some b -> s1 = s ->
    total (bars <- getp pv_p2r_bar ;; pbar <- slot_get bars (Z.of_nat i) ;;
      if 2 ^ k <=? ob_free pbar then tsi721_obw_alloc (Z.of_nat i) (2 ^ k) else ret (rc0, -1)) s1
      (fun r s' => (r = (rc0, -1) /\ s' = s /\ ob_free b < 2 ^ k) \/
        (r = (- ENOMEM, -1) /\ s' = s /\ no_room p i b k) \/ obw_placed p i b k r s s')) as Hatt.
  { intros i b rc0 s1 Hb ->. apply spec_bind, spec_gets. rewrite Hs.
    eapply spec_run; [by apply run_slot_nat|].
    destruct (Z.leb_spec (2 ^ k) (ob_free b)); [|apply spec_ret; by left].
    eapply spec_mono; [by apply (obw_alloc_spec p i b k)|]. intros r s' Hr. by right. }
  unfold obw_try_bars. cbv zeta. apply spec_bind.
  eapply spec_mono; [by apply (Hatt 0%nat b0)|].
  intros r s' [(-> & -> & Hf)|[(-> & -> & Hf)|(j & w & base & -> & Hr)]].
  3: { apply spec_ret. right. exists 0%nat, b0. split; [done|]. by exists j, w, base. }
  all: eapply spec_mono; [by apply (Hatt 1%nat b1)|];
    intros r s' [(-> & -> & Hf')|[(-> & -> & Hf')|Hr]]; [left|left|right; by exists 1%nat, b1];
    (split; [done|]; split; [done|]); rewrite Hbars; intros [|[|]] c; simpl; intros [= ->] Hc; (done || lia).
Qed.

(** Programming the registers leaves the private data alone. *)
Lemma fine_map_zone fuel obw destid addr i p :
  fine False True (priv_is p) any (map_zone fuel obw destid addr i : TM W unit).
Proof.
  unfold map_zone. eapply fine_bind.
  - apply (fine_loop_partial _ _ _ any any); [done|done|]. intros [] _. unfold zone_wait.
    solve_fine; done.
  - intros _ _. solve_fine.
Qed.

Lemma fine_set_window fuel j destid rstart size base p :
  0 <= j < 8 ->
  fine False True (priv_is p) (fun r => r = (0, base))
    (for_ (zrange 0 TSI721_PC2SR_ZONES) (fun z => map_zone fuel j destid
       (u64 (rstart + z * (size / TSI721_PC2SR_ZONES))) z) ;;;
     iowrite32 (Z.shiftl (TSI721_OBWIN_SIZE size) 8) (TSI721_OBWINSZ j) ;;;
     iowrite32 (Z.shiftr base 32) (TSI721_OBWINUB j) ;;;
     iowrite32 (Z.lor (Z.land base TSI721_OBWINLB_BA) TSI721_OBWINLB_WEN) (TSI721_OBWINLB j) ;;;
     ret (0, base) : TM W (Z * Z)).
Proof.
  intros Hj. eapply fine_bind; [apply (fine_for _ _ _ any); [done|]; intros; apply fine_map_zone|].
  intros _ _. solve_fine.
Qed.

(** A request that the bridge can serve. *)
Definition obw_request (size rstart : Z) : Prop :=
  exists k, 15 <= k < 32 /\ size = 2 ^ k /\ (2 ^ k | rstart).

Lemma obw_request_spec size rstart :
  0 <= size < 2 ^ 32 ->
  negb (is_power_of_2 size) || (size <? 0x8000) || truthy (Z.land rstart (size - 1)) = false <->
  obw_request size rstart.
Proof.
  intros Hs. unfold obw_request, truthy. split.
  - intros [[Hp Hl]%orb_false_elim Hr]%orb_false_elim. apply negb_false_iff in Hp.
    apply is_power_of_2_spec in Hp; [|lia]. apply negb_false_iff, Z.eqb_eq in Hr.
    apply Z.ltb_ge in Hl. exists (Z.log2 size). rewrite Hp in Hr.
    rewrite land_mask in Hr by apply Z.log2_nonneg.
    assert (15 <= Z.log2 size < 32).
    { split; [by apply (Z.log2_le_mono 0x8000)|]. apply Z.log2_lt_pow2; lia. }
    split; [done|]. split; [done|]. apply Z.mod_divide; [|done]. lia.
  - intros (k & Hk & -> & Hd). rewrite is_power_of_2_pow, land_mask by lia.
    destruct (size_range k Hk) as (Hr & _). destruct (Z.ltb_spec (2 ^ k) 0x8000); [lia|].
    apply Z.mod_divide in Hd; [|lia]. by rewrite Hd.
Qed.

(** The outcome of mapping. *)
Definition mapped (p : tsi721_device) (destid rstart size la : Z) (p' : tsi721_device) : Prop :=
  exists i b j w, pv_p2r_bar p !! i = Some b /\ pv_ob_win p !! j = Some w /\ ow_active w = false /\
    ob_base b <= la /\ la + size <= bar_last b /\
    p' = setf pv_ob_win (<[j := mk_ob_win la size destid rstart true (Some (Z.of_nat i))]> (pv_ob_win p))
      (placed p i b j w la size).

Lemma map_outb_win_spec fuel destid rstart size laddr p (s : tstate W) :
  obw_inv p -> priv_is p s -> 0 <= size < 2 ^ 32 ->
  safe (tsi721_map_outb_win fuel destid rstart size laddr) s (fun r s' =>
    (exists rc, r = (rc, laddr) /\ ts_priv s' = p /\
      (rc = - EINVAL /\ ~ obw_request size rstart \/
       rc = - EBUSY /\ obw_request size rstart /\ (forall w, w ∈ pv_ob_win p -> ow_active w = true) \/
       rc = - ENOMEM /\ forall i b, pv_p2r_bar p !! i = Some b -> size <= ob_free b ->
         no_room p i b (Z.log2 size))) \/
    exists la, r = (0, la) /\ mapped p destid rstart size la (ts_priv s') /\ obw_inv (ts_priv s')).
Proof.
  intros Hinv Hs Hsize. unfold tsi721_map_outb_win. apply spec_bind, spec_gets. rewrite Hs.
  pose proof (obw_request_spec size rstart Hsize) as Hreq.
  destruct (_ || _ || _).
  { apply spec_ret. left. eexists. split; [done|]. split; [done|]. left. split; [done|]. by intros ?%Hreq. }
  assert (obw_request size rstart) as Hr by (by apply Hreq). clear Hreq.
  destruct Hr as (k & Hk & -> & Hd). rewrite Z.log2_pow2 by lia.
  destruct (Z.eqb_spec (pv_obwin_cnt p) 0) as [Hc|Hc].
  { apply spec_ret. left. eexists. split; [done|]. split; [done|]. right; left. split; [done|].
    split; [by exists k|]. apply count_zero. by rewrite <- (oi_count _ Hinv). }
  assert (0 < pv_obwin_cnt p).
  { pose proof (zsum_nonneg vacant (pv_ob_win p) (fun w _ => vacant_nonneg w)). rewrite (oi_count _ Hinv) in *. lia. }
  apply spec_bind. pose proof (obw_try_bars_spec p k s Hinv Hs Hk ltac:(lia)) as Ht.
  apply total_Done in Ht as (r & s' & Hrun & Ht). eapply spec_Done; [exact Hrun|].
  destruct Ht as [(-> & -> & Hno)|(i & b & Hb & j & w & la & -> & Hw & Ha & Hl & Hh & Hp & Hi)].
  { apply spec_ret. left. eexists. split; [done|]. split; [done|]. by right; right. }
  change (truthy 0) with false. cbv iota. apply spec_bind, spec_gets. rewrite Hp.
  set (wn := setf ow_active true (setf ow_base la (setf ow_size (2 ^ k) (setf ow_pbar (Some (Z.of_nat i)) w)))).
  assert (pv_ob_win (placed p i b j w la (2 ^ k)) !! j = Some wn) as Hj.
  { simpl. apply list_lookup_insert_eq. by eapply lookup_lt_Some. }
  eapply spec_run; [by apply run_slot_nat|].
  apply spec_bind, spec_updp. intros s2 Hs2.
  set (p2 := setf pv_ob_win (<[j := mk_ob_win la (2 ^ k) destid rstart true (Some (Z.of_nat i))]> (pv_ob_win p))
    (placed p i b j w la (2 ^ k))).
  assert (priv_is p2 s2) as Hp2.
  { unfold priv_is. rewrite Hs2, Hp, Nat2Z.id. unfold p2, placed; simpl. by rewrite list_insert_insert_eq. }
  assert (obw_inv p2) as Hinv2.
  { rewrite Hp in Hi. pose proof (relabel_inv _ _ _ (mk_ob_win la (2 ^ k) destid rstart true (Some (Z.of_nat i))) Hi Hj)
      as Hrel. simpl in Hrel. rewrite list_insert_insert_eq in Hrel. by apply Hrel. }
  assert (0 <= Z.of_nat j < 8).
  { apply lookup_lt_Some in Hw. rewrite (oi_eight _ Hinv) in Hw. lia. }
  eapply spec_mono; [by apply (fine_set_window fuel (Z.of_nat j) destid rstart (2 ^ k) (ow_base wn) p2)|].
  intros r s3 [-> Hs3]. right. exists la. split; [done|].
  rewrite Hs3. split; [|done]. by exists i, b, j, w.
Qed.

(** Unmapping gives back the first window with the key. *)
Definition has_key (destid rstart : Z) (w : tsi721_ob_win) : Prop :=
  ow_active w = true /\ ow_destid w = destid /\ ow_rstart w = rstart.

Definition unmapped (p : tsi721_device) (destid rstart : Z) (p' : tsi721_device) : Prop :=
  (p' = p /\ forall w, w ∈ pv_ob_win p -> ~ has_key destid rstart w) \/
  exists i b j w, pv_p2r_bar p !! i = Some b /\ pv_ob_win p !! j = Some w /\ has_key destid rstart w /\
    (forall l v, (l < j)%nat -> pv_ob_win p !! l = Some v -> ~ has_key destid rstart v) /\
    ow_pbar w = Some (Z.of_nat i) /\ p' = vacated p i b j w.

Lemma unmap_outb_win_spec destid rstart p (s : tstate W) :
  obw_inv p -> priv_is p s ->
  total (tsi721_unmap_outb_win destid rstart) s (fun _ s' =>
    unmapped p destid rstart (ts_priv s') /\ obw_inv (ts_priv s')).
Proof.
  intros Hinv Hs. unfold tsi721_unmap_outb_win. apply spec_bind.
  apply (spec_for_exit _ _ (fun l s' => priv_is p s' /\ exists n, l = zrange n 8 /\ 0 <= n <= 8 /\
    forall i v, (Z.of_nat i < n) -> pv_ob_win p !! i = Some v -> ~ has_key destid rstart v)).
  - split; [done|]. exists 0. split; [done|]. split; [lia|]. lia.
  - intros z l s' [Hs' (n & Hl & Hn & Hbefore)].
    assert (n < 8) as Hn8. { destruct (decide (n < 8)); [done|]. by rewrite zrange_nil in Hl by lia. }
    rewrite zrange_cons in Hl by lia. simplify_eq.
    destruct (lookup_lt_is_Some_2 (pv_ob_win p) (Z.to_nat n)) as [w Hw].
    { rewrite (oi_eight _ Hinv). lia. }
    apply spec_bind, spec_gets. rewrite Hs'.
    eapply spec_run; [rewrite <- (Z2Nat.id n) by lia; by apply run_slot_nat|].
    destruct (ow_active w && (ow_destid w =? destid) && (ow_rstart w =? rstart)) eqn:Hk.
    + assert (has_key destid rstart w) as Hkey by (unfold has_key; split_and!; [by destruct (ow_active w)|lia..]).
      assert (w ∈ pv_ob_win p) as Hwe by (by eapply list_elem_of_lookup_2).
      destruct Hkey as (Ha & Hkey).
      destruct (oi_in _ Hinv w Hwe Ha) as (i & b & Hp & Hb & _).
      assert (obw_inv (vacated p i b (Z.to_nat n) w)) as Hv by (by apply vacated_inv).
      assert (pv_p2r_bar (vacated p i b (Z.to_nat n) w) !! i = Some (setf ob_free (ob_free b + ow_size w) b)) as Hb'.
      { simpl. apply list_lookup_insert_eq. by eapply lookup_lt_Some. }
      pose proof (free_le_size _ _ _ Hv Hb') as Hle. simpl in Hle.
      pose proof (bo_range _ (oi_bars _ Hinv) _ _ Hb) as (R1 & R2 & R3 & _). unfold bar_last in R3.
      destruct (oi_free _ Hv _ _ Hb') as [Hge _]. simpl in Hge.
      apply spec_bind, spec_updp. intros s2 Hs2. apply spec_bind.
      eapply spec_mono; [apply (fine_iowrite32 _ _ (priv_is (ts_priv s2))); [in_regs|done]|]. intros _ s3 [_ Hs3].
      rewrite Hp. apply spec_bind, spec_ret. apply spec_bind, spec_gets. rewrite Hs3, Hs2, Hs'. simpl.
      eapply spec_run; [by apply run_slot_nat|]. apply spec_bind, spec_updp. intros s4 Hs4. apply spec_ret.
      apply spec_ret. assert (ts_priv s4 = vacated p i b (Z.to_nat n) w) as ->; [|split; [|done]].
      { rewrite Hs4, Hs3, Hs2, Hs', Nat2Z.id, u64_small by lia. done. }
      right. exists i, b, (Z.to_nat n), w. split_and!; try done. intros l v Hlt. apply Hbefore. lia.
    + apply spec_ret. split; [done|]. exists (n + 1). split; [done|]. split; [lia|].
      intros i v Hi Hv (Ha & Hd & Hr). destruct (decide (Z.of_nat i = n)) as [<-|]; [|by apply (Hbefore i v); [lia|done|]].
      rewrite Nat2Z.id in Hw. simplify_eq. rewrite Ha in Hk. lia.
  - intros s' [Hs' (n & Hl & Hn & Hbefore)]. apply spec_ret. rewrite Hs'. split; [|done]. left. split; [done|].
    intros w [i Hi]%list_elem_of_lookup. apply (Hbefore i w); [|done].
    assert (n = 8) as ->. { destruct (decide (n < 8)); [|lia]. by rewrite zrange_cons in Hl by lia. }
    apply lookup_lt_Some in Hi. rewrite (oi_eight _ Hinv) in Hi. lia.
Qed.
End operations.

(** ** The windows as a whole *)

(** The same bookkeeping: vacant windows may have other contents. *)
Record same_windows (p p' : tsi721_device) : Prop := {
  sw_bars : pv_p2r_bar p' = pv_p2r_bar p;
  sw_cnt : pv_obwin_cnt p' = pv_obwin_cnt p;
  sw_active : ow_active <$> pv_ob_win p' = ow_active <$> pv_ob_win p;
  sw_same : forall i w, pv_ob_win p !! i = Some w -> ow_active w = true -> pv_ob_win p' !! i = Some w;
}.

Lemma mapped_unmapped p destid rstart size la p1 p2 :
  (forall w, w ∈ pv_ob_win p -> ~ has_key destid rstart w) ->
  mapped p destid rstart size la p1 -> unmapped p1 destid rstart p2 -> same_windows p p2.
Proof.
  intros Hkey (i & b & j & w & Hb & Hw & Ha & _ & _ & ->) Hun.
  set (wn := mk_ob_win la size destid rstart true (Some (Z.of_nat i))) in *.
  assert (j < length (pv_ob_win p))%nat as Hj by (by eapply lookup_lt_Some).
  assert (i < length (pv_p2r_bar p))%nat as Hi by (by eapply lookup_lt_Some).
  destruct Hun as [[_ Hno]|(i' & b' & j' & w' & Hb' & Hw' & Hk' & _ & Hp' & ->)].
  - exfalso. apply (Hno wn); [|done]. simpl. apply list_elem_of_lookup. exists j. by apply list_lookup_insert_eq.
  - simpl in Hw', Hb'. apply list_lookup_insert_Some in Hw' as [(<- & <- & _)|[_ Hw']].
    2: { exfalso. apply (Hkey w'); [by eapply list_elem_of_lookup_2|done]. }
    simpl in Hp'. simplify_eq.
    rewrite list_lookup_insert_eq in Hb' by done. simplify_eq. split; simpl.
    + rewrite list_insert_insert_eq. apply list_insert_id. rewrite Hb. f_equal. destruct b; simpl. f_equal. lia.
    + lia.
    + rewrite list_insert_insert_eq, list_fmap_insert. apply list_insert_id. simpl.
      by rewrite list_lookup_fmap, Hw; simpl; rewrite Ha.
    + intros l v Hv Hav. rewrite list_insert_insert_eq, list_lookup_insert_ne; [done|]. intros <-. congruence.
Qed.

Section theorems.
Context {W : Type} `{!KernelEnv W} `{!Tsi721Hw W}.

Inductive obw_call :=
| obw_map (destid rstart size laddr : Z)
| obw_unmap (destid rstart : Z).

Definition obw_run (fuel : nat) (c : obw_call) : TM W unit :=
  match c with
  | obw_map destid rstart size laddr => tsi721_map_outb_win fuel destid rstart size laddr ;;; ret tt
  | obw_unmap destid rstart => tsi721_unmap_outb_win destid rstart
  end.
Definition u32_size (c : obw_call) : Prop :=
  match c with obw_map _ _ size _ => 0 <= size < 2 ^ 32 | obw_unmap _ _ => True end.

Lemma obw_run_keeps fuel c (s : tstate W) :
  u32_size c -> obw_inv (ts_priv s) -> safe (obw_run fuel c) s (fun _ s' => obw_inv (ts_priv s')).
Proof.
  intros Hc Hinv. destruct c as [destid rstart size laddr|destid rstart]; simpl.
  - apply spec_bind. eapply spec_mono; [by apply map_outb_win_spec|].
    intros r s' Hr. apply spec_ret. by destruct Hr as [(rc & _ & -> & _)|(la & _ & _ & H)].
  - pose proof (unmap_outb_win_spec destid rstart _ s Hinv eq_refl) as H.
    apply total_Done in H as (r & s' & Hrun & _ & H). by eapply spec_Done.
Qed.

Lemma init_pc2sr_spec fuel (s : tstate W) :
  bars_ok (pv_p2r_bar (ts_priv s)) -> length (pv_ob_win (ts_priv s)) = 8%nat ->
  (exists b, b ∈ pv_p2r_bar (ts_priv s) /\ ob_size b <> 0) ->
  safe (tsi721_init_pc2sr_mapping fuel) s (fun _ s' => obw_inv (ts_priv s')).
Proof.
  intros Hb H8 (b0 & Hb0 & Hs0). set (p := ts_priv s) in *. unfold tsi721_init_pc2sr_mapping.
  assert (forall m (k : unit -> TM W unit) (Q : unit -> tstate W -> Prop) s1, priv_is p s1 ->
    fine False True (priv_is p) any m -> (forall s2, priv_is p s2 -> spec False True (k tt) s2 Q) ->
    spec False True (bind m k) s1 Q) as Hstep.
  { intros m k Q s1 Hs1 Hm Hk. apply spec_bind. eapply spec_mono; [by apply Hm|]. intros [] s2 [_ Hs2]. by apply Hk. }
  assert (forall i z, 0 <= i < 8 -> fine False True (priv_is p) any
    (loop fuel zone_wait tt ;;; iowrite32 (Z.lor (Z.lor TSI721_ZONE_SEL_GO (Z.shiftl i 3)) z) TSI721_ZONE_SEL : TM W unit)) as Hz.
  { intros i z Hi. eapply fine_bind.
    - apply (fine_loop_partial _ _ _ any any); [done|done|]. intros [] _. unfold zone_wait. solve_fine; done.
    - intros _ _. solve_fine. }
  apply Hstep; [done| |].
  { apply (fine_for _ _ _ any); [done|]. intros i Hi%elem_of_zrange. change TSI721_OBWIN_NUM with 8 in Hi. solve_fine. }
  do 3 (let s' := fresh in let H := fresh in intros s' H; apply Hstep; [done|solve_fine|]).
  intros s2 Hs2. apply Hstep; [done| |].
  { apply (fine_for _ _ _ any); [done|]. intros i Hi%elem_of_zrange. change TSI721_OBWIN_NUM with 8 in Hi.
    apply (fine_for _ _ _ any); [done|]. intros z _. by apply Hz. }
  intros s3 Hs3. apply spec_bind, spec_gets. rewrite Hs3.
  destruct (forallb _ _) eqn:Hall.
  { exfalso. rewrite forallb_forall in Hall. apply list_elem_of_In in Hb0. specialize (Hall b0 Hb0). lia. }
  apply spec_updp. intros s4 ->. rewrite Hs3. by apply reset_inv.
Qed.

(** C23: From initialisation on, and whatever is then mapped and unmapped with whatever
    result, the active outbound windows lie inside their BARs, at places that the
    registers can hold, and do not overlap; the number of free windows and the free
    bytes of each BAR are what the counters say. *)
Theorem tsi721_outbound_windows_safe fuel calls (s : tstate W) :
  bars_ok (pv_p2r_bar (ts_priv s)) -> length (pv_ob_win (ts_priv s)) = 8%nat ->
  (exists b, b ∈ pv_p2r_bar (ts_priv s) /\ ob_size b <> 0) ->
  Forall u32_size calls ->
  safe (tsi721_init_pc2sr_mapping fuel ;;; for_ calls (obw_run fuel)) s (fun _ s' => obw_inv (ts_priv s')).
Proof.
  intros Hb H8 Hs Hc. apply spec_bind. eapply spec_mono; [by apply init_pc2sr_spec|]. intros [] s1 H1.
  apply (spec_for _ _ (fun l s' => Forall u32_size l /\ obw_inv (ts_priv s'))); [done| |by intros s' []].
  intros c l s' [[Hcc Hl]%Forall_cons Hinv]. eapply spec_mono; [by apply obw_run_keeps|]. done.
Qed.

(** C24: Mapping an outbound window fails without a change and for one of three reasons:
    the size is not a power of two of at least 32 KB that divides the address, all
    eight windows are in use, or no BAR with enough free bytes has an aligned gap of
    the size.  Otherwise a vacant window is placed inside a BAR, at a multiple of 32 KB, and its
    address is returned. *)
Theorem tsi721_map_outb_win_correct fuel destid rstart size laddr (s : tstate W) :
  obw_inv (ts_priv s) -> 0 <= size < 2 ^ 32 ->
  safe (tsi721_map_outb_win fuel destid rstart size laddr) s (fun r s' =>
    (exists rc, r = (rc, laddr) /\ ts_priv s' = ts_priv s /\
      (rc = - EINVAL /\ ~ obw_request size rstart \/
       rc = - EBUSY /\ obw_request size rstart /\ (forall w, w ∈ pv_ob_win (ts_priv s) -> ow_active w = true) \/
       rc = - ENOMEM /\ forall i b, pv_p2r_bar (ts_priv s) !! i = Some b -> size <= ob_free b ->
         no_room (ts_priv s) i b (Z.log2 size))) \/
    exists la, r = (0, la) /\ mapped (ts_priv s) destid rstart size la (ts_priv s') /\ obw_inv (ts_priv s')).
Proof. intros. by apply map_outb_win_spec. Qed.

(** C25: Mapping a window whose target is not mapped yet and unmapping the target again
    restores the bookkeeping: the same windows are active, with the same contents, and
    the counters are as before, whether mapping has failed or not. *)
Theorem tsi721_map_unmap_outb_win fuel destid rstart size laddr (s : tstate W) :
  obw_inv (ts_priv s) -> 0 <= size < 2 ^ 32 ->
  (forall w, w ∈ pv_ob_win (ts_priv s) -> ~ has_key destid rstart w) ->
  safe (tsi721_map_outb_win fuel destid rstart size laddr ;;; tsi721_unmap_outb_win destid rstart) s (fun _ s' =>
    same_windows (ts_priv s) (ts_priv s')).
Proof.
  intros Hinv Hs Hkey. apply spec_bind. eapply spec_mono; [by apply map_outb_win_spec|].
  intros r s1 Hmap.
  assert (obw_inv (ts_priv s1)) as Hi1 by (by destruct Hmap as [(? & _ & -> & _)|(? & _ & _ & ?)]).
  pose proof (unmap_outb_win_spec destid rstart _ s1 Hi1 eq_refl) as Hun.
  apply total_Done in Hun as ([] & s2 & Hrun & Hun & _). eapply spec_Done; [exact Hrun|].
  destruct Hmap as [(rc & _ & E & _)|(la & _ & Hmap & _)].
  - rewrite E in Hun. destruct Hun as [[-> _]|(i & b & j & w & _ & Hw & Hk & _)]; [done|].
    exfalso. apply (Hkey w); [by eapply list_elem_of_lookup_2|done].
  - by eapply mapped_unmapped.
Qed.
End theorems.

(** ** Witnesses *)

(** The bridge after initialisation. *)
Definition obw_ready : tsi721_device :=
  setf pv_p2r_bar [mk_obw_bar 0x80000000 0x10000000 0x10000000; mk_obw_bar 0xc0000000 0x100000 0x100000]
    (setf pv_obwin_cnt 8 t7_priv).

Lemma t7_bars_ok : bars_ok (pv_p2r_bar t7_priv).
Proof.
  split; [done| |].
  - intros [|[|i]] b; intros [= <-]; unfold bar_last; simpl; (split_and!; [lia..|]).
    + by exists 0x10000.
    + by exists 0x18000.
  - intros [|[|i]] [|[|j]] b c Hne; intros [= <-] [= <-]; unfold bar_last; simpl; lia.
Qed.

Lemma obw_ready_inv : obw_inv obw_ready.
Proof. apply (reset_inv t7_priv); [apply t7_bars_ok|done]. Qed.

Lemma obw_ready_free w : w ∈ pv_ob_win obw_ready -> ~ has_key 9 0x200000 w.
Proof.
  intros Hw [Ha _]. cbn in Hw.
  repeat (apply elem_of_cons in Hw as [->|Hw]; [discriminate|]). by apply elem_of_nil in Hw.
Qed.
Lemma t7_bar_size : ob_size (mk_obw_bar 0x80000000 0x10000000 0) <> 0.
Proof. done. Qed.
Lemma t7_calls_ok :
  Forall u32_size [obw_map 9 0 0x100000 0; obw_map 12 0x8000 0x8000 0; obw_unmap 9 0; obw_map 3 0 0x8001 0].
Proof. repeat (apply Forall_cons; split; [simpl; lia || exact I|]). by apply Forall_nil. Qed.

Lemma tsi721_outbound_windows_safe_witness :
  exists s' : tstate t7world,
    (tsi721_init_pc2sr_mapping 10 ;;;
     for_ [obw_map 9 0 0x100000 0; obw_map 12 0x8000 0x8000 0; obw_unmap 9 0; obw_map 3 0 0x8001 0]
       (obw_run 10)) (t7_state t7_priv ∅) = Done tt s' /\
    obw_inv (ts_priv s') /\ pv_obwin_cnt (ts_priv s') = 7 /\
    ow_base <$> filter ow_active (pv_ob_win (ts_priv s')) = [0x80100000].
Proof.
  destruct (spec_done_with _ _ _ _ _ (fun _ s' => (pv_obwin_cnt (ts_priv s') =? 7) &&
      bool_decide (ow_base <$> filter ow_active (pv_ob_win (ts_priv s')) = [0x80100000]))
    (tsi721_outbound_windows_safe 10
      [obw_map 9 0 0x100000 0; obw_map 12 0x8000 0x8000 0; obw_unmap 9 0; obw_map 3 0 0x8001 0] (t7_state t7_priv ∅)
      t7_bars_ok eq_refl (ex_intro _ _ (conj (list_elem_of_here _ _) t7_bar_size)) t7_calls_ok))
    as ([] & s' & Hrun & Hinv & Hb); [vm_compute; reflexivity|].
  apply andb_prop in Hb as [Hc Hw%bool_decide_eq_true]. exists s'. split; [exact Hrun|]. split; [exact Hinv|]. split; [lia|done].
Defined.

Lemma tsi721_map_outb_win_correct_witness :
  exists s' : tstate t7world,
    tsi721_map_outb_win 10 9 0x200000 0x100000 7 (t7_state obw_ready ∅) = Done (0, 0x80000000) s' /\
    mapped obw_ready 9 0x200000 0x100000 0x80000000 (ts_priv s').
Proof.
  destruct (spec_done_with _ _ _ _ _ (fun r _ => bool_decide (r = (0, 0x80000000)))
    (tsi721_map_outb_win_correct 10 9 0x200000 0x100000 7 (t7_state obw_ready ∅) obw_ready_inv ltac:(lia)))
    as (r & s' & Hrun & Hr & ->%bool_decide_eq_true); [vm_compute; reflexivity|].
  exists s'. split; [exact Hrun|]. destruct Hr as [(rc & E & _ & Hrc)|(la & E & Hm & _)].
  - injection E as <-. exfalso. by destruct Hrc as [[Hrc _]|[[Hrc _]|[Hrc _]]]; discriminate Hrc.
  - injection E as <-. exact Hm.
Defined.

Lemma tsi721_map_unmap_outb_win_witness :
  exists s' : tstate t7world,
    (tsi721_map_outb_win 10 9 0x200000 0x100000 7 ;;; tsi721_unmap_outb_win 9 0x200000) (t7_state obw_ready ∅) =
      Done tt s' /\ same_windows obw_ready (ts_priv s').
Proof.
  destruct (spec_done_with _ _ _ _ _ (fun _ _ => true)
    (tsi721_map_unmap_outb_win 10 9 0x200000 0x100000 7 (t7_state obw_ready ∅) obw_ready_inv ltac:(lia) obw_ready_free))
    as ([] & s' & Hrun & Hr & _); [vm_compute; reflexivity|].
  exists s'. split; [exact Hrun|exact Hr].
Defined.
