(* ===== verification/Tsi721Sg.v ===== *)
(** * The DMA engine of the Tsi721 bridge: scatter lists in the ring

    Filling the ring turns the entries of a scatter list into hardware descriptors, merging
    neighbours.  The descriptors move exactly the bytes of the entries that have been
    taken, each to its place in RapidIO space; when the ring is full the rest of the list stays
    for the next time, which goes on where this one ended. *)

From S2P Require Import Prelude Regs State Access Route Em Msg RioDma RioCmBench Tsi721Regs Tsi721 Tsi721Dma Tsi721Base Tsi721Bench.

(** ** Memory of words *)

Section words.
Context {W : Type} `{!Tsi721Hw W} `{!ByteMemory W}.

Lemma word_same a v (w : W) : dma_load a 4 (dma_store a (le_bytes 4 v) w) = le_bytes 4 v.
Proof. apply (mem_same a (le_bytes 4 v)). Qed.
Lemma word_other a b v (w : W) :
  a <> b -> (4 | a - b) -> dma_load a 4 (dma_store b (le_bytes 4 v) w) = dma_load a 4 w.
Proof. intros Hne [q Hq]. apply mem_other. rewrite le_bytes_length. lia. Qed.

Definition word (w : W) (a : Z) : Z := le_value (dma_load a 4 w).
Definition store (a v : Z) (w : W) : W := dma_store a (le_bytes 4 v) w.

Lemma word_store_eq a v w : 0 <= v < 2 ^ 32 -> word (store a v w) a = v.
Proof. intros Hv. unfold word, store. rewrite word_same. by apply le_round_trip. Qed.
Lemma word_store_ne a b v w : a <> b -> (4 | a - b) -> word (store b v w) a = word w a.
Proof. intros H1 H2. unfold word, store. by rewrite word_other. Qed.
End words.

(** ** Bits *)

Lemma lor_high x y n : 0 <= n -> 0 <= y < 2 ^ n -> Z.lor (x * 2 ^ n) y = x * 2 ^ n + y.
Proof.
  intros Hn Hy. symmetry. apply Z.add_nocarry_lor. rewrite <- Z.shiftl_mul_pow2 by done.
  rewrite <- (Z.mod_small y (2 ^ n)) by done. rewrite <- Z.land_ones by done. zbits.
  destruct (Z.lt_ge_cases n0 n); [by rewrite (Z.testbit_neg_r x (n0 - n)) by lia|].
  rewrite Z.ones_spec_high by lia. by rewrite !andb_false_r.
Qed.
Lemma land_low x n : 0 <= n -> Z.land x (Z.ones n) = x mod 2 ^ n.
Proof. apply Z.land_ones. Qed.

Lemma land_mask32 x : Z.land x 0xffffffff = x mod 2 ^ 32.
Proof. apply (land_low x 32). done. Qed.
Lemma type_word rt dest : 0 <= rt < 2 ^ 10 -> 0 <= dest < 2 ^ 19 ->
  Z.lor (Z.lor (Z.shiftl DTYPE1 29) (Z.shiftl rt 19)) dest = DTYPE1 * 2 ^ 29 + rt * 2 ^ 19 + dest.
Proof.
  intros Hr Hd. rewrite (Z.shiftl_mul_pow2 DTYPE1), (Z.shiftl_mul_pow2 rt), lor_high by lia.
  replace (DTYPE1 * 2 ^ 29 + rt * 2 ^ 19) with ((DTYPE1 * 2 ^ 10 + rt) * 2 ^ 19) by lia. by apply lor_high.
Qed.
Lemma bcount_word r sys : 0 <= sys < 16 ->
  Z.lor (Z.shiftl (Z.land r 3) 30) (Z.shiftl sys 26) = (r mod 4) * 2 ^ 30 + sys * 2 ^ 26.
Proof.
  intros Hs. change 3 with (Z.ones 2). rewrite land_low, !Z.shiftl_mul_pow2 by lia. apply (lor_high _ _ 30); lia.
Qed.
Lemma bcount_count r sys c : Z.lor ((r mod 4) * 2 ^ 30 + sys * 2 ^ 26) (Z.land c TSI721_DMAD_BCOUNT1) =
  (r mod 4) * 2 ^ 30 + sys * 2 ^ 26 + c mod 2 ^ 26.
Proof.
  change TSI721_DMAD_BCOUNT1 with (Z.ones 26). rewrite land_low by done. pose proof (Z.mod_pos_bound c (2 ^ 26)).
  replace ((r mod 4) * 2 ^ 30 + sys * 2 ^ 26) with (((r mod 4) * 16 + sys) * 2 ^ 26) by lia. apply lor_high; lia.
Qed.

(** ** Descriptors *)

(** What a descriptor says: RapidIO address, bus address and count, where 0 stands for the
    largest; the other fields come from the transfer. *)
Abbreviation block := (Z * Z * Z)%type.

Section descs.
Context {W : Type} `{!Tsi721Hw W} `{!ByteMemory W}.
Variables (d0 : tsi721_tx_desc) (sys_size : Z).

Definition desc_is (w : W) (bd : Z) (x : block) : Prop :=
  let '(r, bf, c) := x in
  word w (bd + OFF_TYPE_ID) = DTYPE1 * 2 ^ 29 + td_rtype d0 * 2 ^ 19 + td_destid d0 /\
  word w (bd + OFF_BCOUNT) = (r mod 4) * 2 ^ 30 + sys_size * 2 ^ 26 + c mod 2 ^ 26 /\
  word w (bd + OFF_RADDR_LO) = (r / 4) mod 2 ^ 32 /\ word w (bd + OFF_RADDR_HI) = r / 4 / 2 ^ 32 /\
  word w (bd + OFF_BUFPTR_LO) = bf mod 2 ^ 32 /\ word w (bd + OFF_BUFPTR_HI) = bf / 2 ^ 32.

(** The hardware's view: the block of a descriptor. *)
Definition decode_desc (w : W) (bd : Z) : block :=
  let bc := word w (bd + OFF_BCOUNT) in
  ((word w (bd + OFF_RADDR_HI) * 2 ^ 32 + word w (bd + OFF_RADDR_LO)) * 4 + bc / 2 ^ 30,
   word w (bd + OFF_BUFPTR_HI) * 2 ^ 32 + word w (bd + OFF_BUFPTR_LO),
   if bc mod 2 ^ 26 =? 0 then TSI721_BDMA_MAX_BCOUNT else bc mod 2 ^ 26).

Definition good_block (x : block) : Prop :=
  let '(r, bf, c) := x in 0 <= r < 2 ^ 64 /\ 0 <= bf < 2 ^ 64 /\ 0 < c <= TSI721_BDMA_MAX_BCOUNT.

Lemma decode_desc_is w bd x : 0 <= sys_size < 16 -> good_block x -> desc_is w bd x -> decode_desc w bd = x.
Proof.
  destruct x as [[r bf] c]. intros Hsys (Hr & Hb & Hc) (_ & E1 & E2 & E3 & E4 & E5). unfold decode_desc.
  rewrite E1, E2, E3, E4, E5. cbv [TSI721_BDMA_MAX_BCOUNT TSI721_DMAD_BCOUNT1] in *.
  pose proof (Z.mod_pos_bound r 4). pose proof (Z.mod_pos_bound c (2 ^ 26)).
  assert (((r mod 4) * 2 ^ 30 + sys_size * 2 ^ 26 + c mod 2 ^ 26) / 2 ^ 30 = r mod 4) as ->.
  { symmetry. apply (Z.div_unique _ _ _ (sys_size * 2 ^ 26 + c mod 2 ^ 26)); lia. }
  assert (((r mod 4) * 2 ^ 30 + sys_size * 2 ^ 26 + c mod 2 ^ 26) mod 2 ^ 26 = c mod 2 ^ 26) as ->.
  { symmetry. apply (Z.mod_unique _ _ ((r mod 4) * 16 + sys_size)); lia. }
  f_equal; [f_equal|].
  - pose proof (Z.div_mod (r / 4) (2 ^ 32)). pose proof (Z.div_mod r 4). lia.
  - pose proof (Z.div_mod bf (2 ^ 32)). lia.
  - destruct (decide (c = 0x4000000)) as [->|]; [done|]. rewrite Z.mod_small by lia.
    by destruct (Z.eqb_spec c 0); [lia|].
Qed.

(** Two places 32 bytes apart or more do not disturb each other. *)
Lemma desc_is_store w bd bd' off v x :
  desc_is w bd x -> bd <> bd' -> (32 | bd - bd') -> 0 <= off < 32 -> (4 | off) -> desc_is (store (bd' + off) v w) bd x.
Proof.
  destruct x as [[r bf] c]. intros (E0 & E1 & E2 & E3 & E4 & E5) Hne [q Hq] Hoff [k Hk].
  assert (forall o, 0 <= o < 32 -> (4 | o) -> word (store (bd' + off) v w) (bd + o) = word w (bd + o)) as Hw.
  { intros o Ho [j Hj]. apply word_store_ne; [lia|]. exists (8 * q + j - k). lia. }
  unfold desc_is. rewrite !Hw; [done|..]; solve [in_regs|by apply Z.mod_divide].
Qed.

(** A descriptor is begun with a count of 0, which is filled in at the end. *)
Definition began (w : W) (bd : Z) (r bf : Z) : W :=
  store (bd + OFF_S_SIZE) (Z.lor (Z.shiftl (Z.land (td_dssize d0) 0x0fff) 12) (Z.land (td_sssize d0) 0x0fff))
  (store (bd + OFF_S_DIST) (Z.lor (Z.shiftl (Z.land (td_dsdist d0) 0xffff) 16) (Z.land (td_ssdist d0) 0xffff))
  (store (bd + OFF_BUFPTR_HI) (Z.shiftr bf 32) (store (bd + OFF_BUFPTR_LO) (Z.land bf 0xffffffff)
  (store (bd + OFF_RADDR_HI) (Z.shiftr (Z.shiftr r 2) 32) (store (bd + OFF_RADDR_LO) (Z.land (Z.shiftr r 2) 0xffffffff)
  (store (bd + OFF_BCOUNT) (Z.lor (Z.shiftl (Z.land r 3) 30) (Z.shiftl sys_size 26))
  (store (bd + OFF_TYPE_ID) (Z.lor (Z.lor (Z.shiftl DTYPE1 29) (Z.shiftl (td_rtype d0) 19)) (td_destid d0)) w))))))).
Definition ended (w : W) (bd c : Z) : W :=
  store (bd + OFF_BCOUNT) (Z.lor (word w (bd + OFF_BCOUNT)) (Z.land c TSI721_DMAD_BCOUNT1)) w.

Lemma word_other_off w bd o o' v : o <> o' -> (4 | o - o') -> word (store (bd + o') v w) (bd + o) = word w (bd + o).
Proof. intros Hne [q Hq]. apply word_store_ne; [lia|]. exists q. lia. Qed.

Lemma began_is w bd r bf : 0 <= sys_size < 16 -> 0 <= td_rtype d0 < 2 ^ 2 -> 0 <= td_destid d0 < 2 ^ 16 ->
  0 <= r < 2 ^ 64 -> 0 <= bf < 2 ^ 64 -> desc_is (began w bd r bf) bd (r, bf, 0).
Proof.
  intros Hs Ht Hd Hr Hb. unfold desc_is, began.
  rewrite type_word, bcount_word, !land_mask32, !Z.shiftr_div_pow2 by lia.
  change (2 ^ 2) with 4. change (0 mod 2 ^ 26) with 0. rewrite (Z.add_0_r (r mod 4 * 2 ^ 30 + sys_size * 2 ^ 26)). pose proof (Z.mod_pos_bound r 4).
  split_and!; repeat (rewrite word_other_off; [|done|by apply Z.mod_divide]); apply word_store_eq.
  - cbv [DTYPE1]. lia.
  - lia.
  - apply Z.mod_pos_bound. lia.
  - split; [by apply Z.div_pos; [apply Z.div_pos|]; lia|]. apply Z.div_lt_upper_bound, Z.div_lt_upper_bound; lia.
  - apply Z.mod_pos_bound. lia.
  - split; [apply Z.div_pos; lia|]. apply Z.div_lt_upper_bound; lia.
Qed.
Lemma ended_is w bd r bf c : 0 <= sys_size < 16 -> desc_is w bd (r, bf, 0) -> desc_is (ended w bd c) bd (r, bf, c).
Proof.
  intros Hs (E0 & E1 & E2 & E3 & E4 & E5). unfold desc_is, ended.
  split_and!; try (rewrite word_other_off; [done|done|by apply Z.mod_divide]).
  change (0 mod 2 ^ 26) with 0 in E1. rewrite E1, (Z.add_0_r (r mod 4 * 2 ^ 30 + sys_size * 2 ^ 26)), bcount_count. apply word_store_eq.
  pose proof (Z.mod_pos_bound r 4). pose proof (Z.mod_pos_bound c (2 ^ 26)). lia.
Qed.
Lemma desc_is_other w bd bd' x r bf : desc_is w bd x -> bd <> bd' -> (32 | bd - bd') -> desc_is (began w bd' r bf) bd x.
Proof. intros H Hne Hd. unfold began. repeat (apply desc_is_store; [|done|done|in_regs|by apply Z.mod_divide]). done. Qed.
Lemma desc_is_ended w bd bd' x c : desc_is w bd x -> bd <> bd' -> (32 | bd - bd') -> desc_is (ended w bd' c) bd x.
Proof. intros H Hne Hd. unfold ended. apply desc_is_store; [done|done|done|in_regs|by apply Z.mod_divide]. Qed.
End descs.

(** ** Bytes *)

(** The pairs of RapidIO and bus addresses that a block moves; and a list of entries from a
    RapidIO address on. *)
Definition block_bytes (x : block) : list (Z * Z) :=
  let '(r, bf, c) := x in (fun i => (r + i, bf + i)) <$> zrange 0 c.
Arguments block_bytes : simpl never.
Fixpoint sg_bytes (r : Z) (l : list sg_entry) : list (Z * Z) :=
  match l with
  | [] => []
  | e :: l' => block_bytes (r, sg_dma_address e, sg_dma_len e) ++ sg_bytes (r + sg_dma_len e) l'
  end.
Definition sg_total (l : list sg_entry) : Z := foldr (fun e n => sg_dma_len e + n) 0 l.

Lemma zrange_shift lo n k : zrange (lo + k) (lo + k + n) = Z.add k <$> zrange lo (lo + n).
Proof.
  unfold zrange. replace (lo + k + n - (lo + k)) with (lo + n - lo) by lia. generalize (Z.to_nat (lo + n - lo)) as m.
  intros m. revert lo. induction m as [|m IH]; intros lo; simpl; [done|]. f_equal; [lia|]. rewrite <- IH. f_equal. lia.
Qed.
Lemma zrange_app lo mid hi : lo <= mid <= hi -> zrange lo hi = zrange lo mid ++ zrange mid hi.
Proof.
  intros H. unfold zrange. replace (Z.to_nat (hi - lo)) with (Z.to_nat (mid - lo) + Z.to_nat (hi - mid))%nat by lia.
  rewrite zseq_app. do 2 f_equal. lia.
Qed.
Lemma block_bytes_app r bf c n : 0 <= c -> 0 <= n ->
  block_bytes (r, bf, c + n) = block_bytes (r, bf, c) ++ block_bytes (r + c, bf + c, n).
Proof.
  intros Hc Hn. unfold block_bytes. rewrite (zrange_app 0 c) by lia. rewrite fmap_app. f_equal.
  pose proof (zrange_shift 0 n c) as E. rewrite !Z.add_0_l in E. rewrite E, <- list_fmap_compose. apply list_fmap_ext.
  intros i x _. simpl. f_equal; lia.
Qed.
Lemma sg_bytes_app r l1 l2 : sg_bytes r (l1 ++ l2) = sg_bytes r l1 ++ sg_bytes (r + sg_total l1) l2.
Proof.
  revert r. induction l1 as [|e l IH]; intros r; simpl; [by rewrite Z.add_0_r|].
  rewrite IH, (assoc_L (++)). do 2 f_equal. unfold sg_total. simpl. lia.
Qed.
Lemma sg_total_app l1 l2 : sg_total (l1 ++ l2) = sg_total l1 + sg_total l2.
Proof. induction l1 as [|e l IH]; simpl; [done|]. unfold sg_total in *. simpl. lia. Qed.
Lemma sg_total_snoc l e : sg_total (l ++ [e]) = sg_total l + sg_dma_len e.
Proof. rewrite sg_total_app. unfold sg_total at 2. simpl. lia. Qed.

(** ** Runs

    Filling the ring changes shared memory and one descriptor: the states are [at_ w d]. *)

Section runs.
Context {W : Type} `{!KernelEnv W} `{!Tsi721Hw W}.
Variables (s0 : tstate W) (p : ptr) (k : Z) (l0 : list tsi721_tx_desc).
Context (Hl0 : ts_txds s0 !! p = Some l0) (Hk : 0 <= k < Z.of_nat (length l0)).

Definition at_ (w : W) (d : tsi721_tx_desc) : tstate W :=
  setf ts_m (setf ms_k (with_hw w (ms_k (ts_m s0))) (ts_m s0))
    (setf ts_txds (<[p := <[Z.to_nat k := d]> l0]> (ts_txds s0)) s0).

Lemma run_get_desc w d : get_desc (p, k) (at_ w d) = Done d (at_ w d).
Proof.
  unfold get_desc, bind, gets. simpl. rewrite lookup_insert_eq. simpl.
  apply run_slot_get; [lia|]. apply list_lookup_insert_eq. lia.
Qed.
Lemma run_upd_desc g w d : upd_desc (p, k) g (at_ w d) = Done tt (at_ w (g d)).
Proof.
  unfold upd_desc, bind, gets. simpl. rewrite lookup_insert_eq. simpl.
  rewrite (run_slot_get _ _ k d); [|lia|apply list_lookup_insert_eq; lia].
  unfold modify, at_. simpl. by rewrite insert_insert_eq, list_insert_insert_eq.
Qed.
Lemma run_put32 a v w d : dma_put32 a v (at_ w d) = Done tt (at_ (store a v w) d).
Proof. done. Qed.
Lemma run_get32 a w d : dma_get32 a (at_ w d) = Done (word w a) (at_ w d).
Proof. done. Qed.

Lemma run_fill_init d0 d bd e sys w : td_rio_addr_u d = 0 ->
  td_rtype d = td_rtype d0 -> td_destid d = td_destid d0 -> td_dsdist d = td_dsdist d0 -> td_ssdist d = td_ssdist d0 ->
  td_dssize d = td_dssize d0 -> td_sssize d = td_sssize d0 ->
  tsi721_desc_fill_init d (Some bd) e sys (at_ w d) = Done 0 (at_ (began d0 sys w bd (td_rio_addr d) (sg_dma_address e)) d).
Proof.
  intros Hu E1 E2 E3 E4 E5 E6. unfold tsi721_desc_fill_init, began. rewrite Hu, E1, E2, E3, E4, E5, E6.
  simpl Z.land. simpl Z.shiftl at 3. rewrite Z.lor_0_r. done.
Qed.
Lemma run_fill_end bd c w d : tsi721_desc_fill_end (Some bd) c false (at_ w d) = Done 0 (at_ (ended w bd c) d).
Proof. done. Qed.
End runs.

(** ** The ring *)

Section slots.
(** A ring of [N] descriptors at [b], the place to start and the hardware's place. *)
Variables (b N idx0 rd add0 : Z).
Context (HN : 0 < N < 2 ^ 30) (Hidx : 0 <= idx0 < N) (Hrd : 0 <= rd < N) (Hadd : 0 <= add0 <= 1).

(** The descriptors in the order in which they are used; how many there are room for; and how
    far the counter of the hardware has come after [n] of them, counting links. *)
Definition ring_slot (n : Z) : Z := b + DMA_DESC_SIZE * ((idx0 + n) mod N).
Definition ring_room : Z := if (rd - idx0) mod N =? 0 then N else (rd - idx0) mod N.
Definition ring_count (n : Z) : Z := add0 + n + (idx0 + n) / N.

Lemma room_range : 0 < ring_room <= N.
Proof.
  unfold ring_room. pose proof (Z.mod_pos_bound (rd - idx0) N). destruct (Z.eqb_spec ((rd - idx0) mod N) 0); lia.
Qed.
(** The ring is full exactly when the next place is the hardware's. *)
Lemma room_end n : 0 < n <= ring_room -> (idx0 + n) mod N = rd <-> n = ring_room.
Proof.
  unfold ring_room. intros Hn. pose proof (Z.mod_pos_bound (rd - idx0) N) as Hb. pose proof (Z.div_mod (rd - idx0) N) as Hd.
  set (q := (rd - idx0) / N) in *. set (m := (rd - idx0) mod N) in *. split.
  - intros E. pose proof (Z.div_mod (idx0 + n) N) as Hd'. rewrite E in Hd'. set (q' := (idx0 + n) / N) in *.
    assert (n - m = (q' + q) * N) as E' by lia. clear Hd Hd'. generalize dependent (q' + q). intros x E'.
    destruct (Z.eqb_spec m 0).
    + assert (0 < x) by (apply (Z.mul_pos_cancel_r x N); lia). assert (x < 2) by (apply (Z.mul_lt_mono_pos_r N); lia).
      assert (x = 1) by lia. subst x. lia.
    + assert (-1 < x) by (apply (Z.mul_lt_mono_pos_r N); lia). assert (x < 1) by (apply (Z.mul_lt_mono_pos_r N); lia).
      assert (x = 0) by lia. subst x. lia.
  - intros ->. symmetry. destruct (Z.eqb_spec m 0).
    + apply (Z.mod_unique _ _ (1 - q)); [left; lia|]. lia.
    + apply (Z.mod_unique _ _ (- q)); [left; lia|]. lia.
Qed.
Lemma slot_ne i j : 0 <= i < j -> j < N -> ring_slot i <> ring_slot j.
Proof.
  unfold ring_slot, DMA_DESC_SIZE. intros Hi Hj E.
  pose proof (Z.div_mod (idx0 + i) N) as H1. pose proof (Z.div_mod (idx0 + j) N) as H2.
  assert ((idx0 + i) mod N = (idx0 + j) mod N) as E' by lia. rewrite E' in H1.
  set (q1 := (idx0 + i) / N) in *. set (q2 := (idx0 + j) / N) in *.
  assert (j - i = (q2 - q1) * N) as Hm by lia. clear H1 H2.
  revert Hm. generalize (q2 - q1). intros x Hm.
  assert (0 < x) by (apply (Z.mul_pos_cancel_r x N); lia). assert (x < 1) by (apply (Z.mul_lt_mono_pos_r N); lia). lia.
Qed.
Lemma slot_apart i j : (32 | ring_slot i - ring_slot j).
Proof. unfold ring_slot, DMA_DESC_SIZE. exists ((idx0 + i) mod N - (idx0 + j) mod N). lia. Qed.

(** One more descriptor: the place and the count that follow. *)
Lemma ring_next n : 0 <= n < N ->
  let wrap := (idx0 + n) mod N + 1 =? N in
  (if wrap then 0 else (idx0 + n) mod N + 1) = (idx0 + (n + 1)) mod N /\
  ring_count n + (if wrap then 2 else 1) = ring_count (n + 1) /\ 0 <= ring_count (n + 1) < 2 ^ 32.
Proof.
  intros Hn. unfold ring_count. pose proof (Z.div_mod (idx0 + n) N) as Hd. pose proof (Z.mod_pos_bound (idx0 + n) N) as Hb.
  assert (0 <= (idx0 + n) / N < 2) as Hq.
  { split; [apply Z.div_pos; lia|]. apply Z.div_lt_upper_bound; lia. }
  set (q := (idx0 + n) / N) in *. set (m := (idx0 + n) mod N) in *. simpl. destruct (Z.eqb_spec (m + 1) N).
  - assert ((idx0 + (n + 1)) / N = q + 1) as -> by (symmetry; apply (Z.div_unique _ _ _ 0); lia).
    split; [apply (Z.mod_unique _ _ (q + 1)); lia|]. lia.
  - assert ((idx0 + (n + 1)) / N = q) as -> by (symmetry; apply (Z.div_unique _ _ _ (m + 1)); lia).
    split; [apply (Z.mod_unique _ _ q); lia|]. lia.
Qed.

End slots.

(** ** The loop over the entries *)

Definition good_entry (e : sg_entry) : Prop :=
  0 < sg_dma_len e <= TSI721_BDMA_MAX_BCOUNT /\ 0 <= sg_dma_address e /\ sg_dma_address e + sg_dma_len e < 2 ^ 64 - 1.

Lemma total_nonneg l : Forall good_entry l -> 0 <= sg_total l.
Proof. induction 1 as [|e l (H & _) _ IH]; unfold sg_total in *; simpl; lia. Qed.
Section ring.
Context {W : Type} `{!KernelEnv W} `{!Tsi721Hw W} `{!ByteMemory W}.
Variables (s0 : tstate W) (p : ptr) (k : Z) (l0 : list tsi721_tx_desc).
Context (Hl0 : ts_txds s0 !! p = Some l0) (Hk : 0 <= k < Z.of_nat (length l0)).
(** The transfer, the ring of [N] descriptors at [b] and the place to start. *)
Variables (d0 : tsi721_tx_desc) (sys b N idx0 rd add0 : Z).
Context (Hsys : 0 <= sys < 16) (HN : 0 < N < 2 ^ 30) (Hidx : 0 <= idx0 < N) (Hrd : 0 <= rd < N) (Hadd : 0 <= add0 <= 1).
Context (Hlen : td_sg_len d0 = Z.of_nat (length (td_sg d0))) (Hlen32 : td_sg_len d0 < 2 ^ 32)
  (Hgood : Forall good_entry (td_sg d0)) (Hr0 : 0 <= td_rio_addr d0) (Hr64 : td_rio_addr d0 + sg_total (td_sg d0) < 2 ^ 64)
  (Hu : td_rio_addr_u d0 = 0) (Hrt : 0 <= td_rtype d0 < 2 ^ 2) (Hdest : 0 <= td_destid d0 < 2 ^ 16).

Abbreviation ring_slot := (ring_slot b N idx0).
Abbreviation ring_room := (ring_room N idx0 rd).
Abbreviation ring_count := (ring_count N idx0 add0).

(** *** What holds between two entries *)

Abbreviation at_ := (at_ s0 p k l0).
Abbreviation desc_is := (desc_is d0 sys).

(** The descriptors that are complete, in their places. *)
Definition closed (D : list block) (w : W) : Prop := forall j x, D !! j = Some x ->
  good_block x /\ desc_is w (ring_slot (Z.of_nat j)) x.

(** The last descriptor is still open: its count is in the variable [bcount]. *)
Record opened (P : list sg_entry) (D1 : list block) (r bf bcount : Z) (w : W) (bd : option Z) (idx add : Z) : Prop := {
  op_closed : closed D1 w;
  op_bd : bd = Some (ring_slot (Z.of_nat (length D1)));
  op_good : good_block (r, bf, bcount);
  op_end : r + bcount = td_rio_addr d0 + sg_total P;
  op_buf : bf + bcount < 2 ^ 64 - 1;
  op_open : desc_is w (ring_slot (Z.of_nat (length D1))) (r, bf, 0);
  op_bytes : concat (block_bytes <$> (D1 ++ [(r, bf, bcount)])) = sg_bytes (td_rio_addr d0) P;
  op_idx : idx = (idx0 + (Z.of_nat (length D1) + 1)) mod N;
  op_add : add = ring_count (Z.of_nat (length D1) + 1);
  op_room : Z.of_nat (length D1) + 1 <= ring_room;
}.

Lemma closed_began D w r bf : closed D w -> Z.of_nat (length D) < N ->
  closed D (began d0 sys w (ring_slot (Z.of_nat (length D))) r bf).
Proof.
  intros H Hn j x Hx. destruct (H j x Hx) as [Hg Hd]. split; [done|]. apply lookup_lt_Some in Hx.
  apply desc_is_other; [done|apply slot_ne; lia|apply slot_apart].
Qed.
Lemma closed_ended D w r bf c : closed D w -> Z.of_nat (length D) < N -> good_block (r, bf, c) ->
  desc_is w (ring_slot (Z.of_nat (length D))) (r, bf, 0) ->
  closed (D ++ [(r, bf, c)]) (ended w (ring_slot (Z.of_nat (length D))) c).
Proof.
  intros H Hn Hg Ho j x [Hx|[Hj Hx]]%lookup_app_Some.
  - destruct (H j x Hx) as [Hg' Hd]. split; [done|]. apply lookup_lt_Some in Hx.
    apply desc_is_ended; [done|apply slot_ne; lia|apply slot_apart].
  - apply list_lookup_singleton_Some in Hx as [Ej <-]. split; [done|]. replace j with (length D) by lia. by apply ended_is.
Qed.
Lemma opened_closed P D1 r bf c w bd idx add : opened P D1 r bf c w bd idx add ->
  closed (D1 ++ [(r, bf, c)]) (ended w (ring_slot (Z.of_nat (length D1))) c).
Proof.
  intros []. pose proof (room_range N idx0 rd HN). apply closed_ended; try done. lia.
Qed.

(** The first descriptor, the next one, and an entry that joins the last one. *)
Lemma opened_new P D e w : closed D w -> good_entry e ->
  concat (block_bytes <$> D) = sg_bytes (td_rio_addr d0) P -> Z.of_nat (length D) + 1 <= ring_room ->
  0 <= sg_total P -> sg_total (P ++ [e]) <= sg_total (td_sg d0) ->
  let n := Z.of_nat (length D) in
  let r := td_rio_addr d0 + sg_total P in
  opened (P ++ [e]) D r (sg_dma_address e) (sg_dma_len e) (began d0 sys w (ring_slot n) r (sg_dma_address e))
    (Some (ring_slot n)) ((idx0 + (n + 1)) mod N) (ring_count (n + 1)).
Proof.
  intros Hc He Hb Hn HP0 HP n r. pose proof (room_range N idx0 rd HN) as Hroom. destruct He as (H1 & H2 & H3).
  rewrite sg_total_snoc in HP.
  assert (0 <= r < 2 ^ 64) as Hr by (subst r; lia).
  split; try done.
  - apply closed_began; [done|lia].
  - split; [done|]. split; [lia|done].
  - rewrite sg_total_snoc. subst r. lia.
  - apply began_is; try done. lia.
  - rewrite fmap_app, concat_app, Hb, sg_bytes_app. simpl. by rewrite !app_nil_r.
Qed.
Lemma opened_join P D1 r bf c w bd idx add e : opened P D1 r bf c w bd idx add -> good_entry e ->
  sg_dma_address e = bf + c -> c + sg_dma_len e <= TSI721_BDMA_MAX_BCOUNT ->
  opened (P ++ [e]) D1 r bf (c + sg_dma_len e) w bd idx add.
Proof.
  intros [O1 O2 (Hr & Hb & Hcc) Ee Obuf Oo Eb Oi Oa Or] (H1 & H2 & H3) E Hc. split; try done.
  - split; [done|]. split; [done|lia].
  - rewrite sg_total_snoc. lia.
  - lia.
  - rewrite fmap_app, concat_app in Eb |- *. simpl in Eb |- *. rewrite app_nil_r in Eb |- *.
    rewrite sg_bytes_app, <- Eb, <- (assoc_L (++)). f_equal. simpl. rewrite app_nil_r, block_bytes_app by lia.
    by rewrite Ee, E.
Qed.

(** *** The steps of the loop *)

(** What the loop leaves: the descriptors of the entries taken, and the rest of the list in the
    transfer, if the ring had no room for it. *)
Definition filled (w : W) (d : tsi721_tx_desc) (n : Z) : Prop := exists taken rest D,
  td_sg d0 = taken ++ rest /\ D <> [] /\ n = Z.of_nat (length D) /\ n <= ring_room /\ closed D w /\
  concat (block_bytes <$> D) = sg_bytes (td_rio_addr d0) taken /\
  ((rest = [] /\ td_sg_len d = 0) \/
   (rest <> [] /\ n = ring_room /\ d = setf td_sg rest (setf td_sg_len (Z.of_nat (length rest))
      (setf td_rio_addr (td_rio_addr d0 + sg_total taken) d0)))).

Record between (P E : list sg_entry) (D1 : list block) (r bf c : Z) (w : W) (d : tsi721_tx_desc) (st : sg_loop) : Prop := {
  bt_list : td_sg d0 = P ++ E; bt_some : P <> [];
  bt_open : opened P D1 r bf c w (sl_bd st) (sl_idx st) (sl_add st);
  bt_bcount : sl_bcount st = c; bt_i : sl_i st = Z.of_nat (length P); bt_sg : sl_sg st = E;
  bt_rio : sl_rio_addr st = td_rio_addr d0 + sg_total P; bt_next : sl_next_addr st = bf + c;
  bt_d : d = setf td_rio_addr r d0;
}.

Lemma total_prefix P E : td_sg d0 = P ++ E -> 0 <= sg_total P <= sg_total (td_sg d0) /\ Forall good_entry E.
Proof.
  intros H. rewrite H, Forall_app in Hgood. destruct Hgood as [H1 H2]. rewrite H, sg_total_app.
  pose proof (total_nonneg P H1). pose proof (total_nonneg E H2). split; [lia|done].
Qed.

(** After an entry has found its place. *)
Lemma entry_done_spec P e rest D1 r bf c w st Q :
  td_sg d0 = P ++ e :: rest ->
  opened (P ++ [e]) D1 r bf c w (sl_bd st) (sl_idx st) (sl_add st) -> sl_bcount st = c ->
  sl_i st = Z.of_nat (length P) -> sl_rio_addr st = td_rio_addr d0 + sg_total P ->
  sl_next_addr st + sg_dma_len e = bf + c ->
  (rest = [] -> forall st' w' d', sl_add st' = ring_count (Z.of_nat (length D1) + 1) ->
     filled w' d' (Z.of_nat (length D1) + 1) -> td_sg_len d' = 0 -> sl_i st' = Z.of_nat (length P) + 1 -> Q st' (at_ w' d')) ->
  (rest <> [] -> forall st', between (P ++ [e]) rest D1 r bf c w (setf td_rio_addr r d0) st' ->
     Q st' (at_ w (setf td_rio_addr r d0))) ->
  total (entry_done (p, k) e rest st) (at_ w (setf td_rio_addr r d0)) Q.
Proof.
  intros Hd O Hc Hi Hrio Hnext HQ1 HQ2. destruct (total_prefix (P ++ [e]) rest) as [Htot _]; [by rewrite <- (assoc_L (++))|].
  assert (length (td_sg d0) = (length P + S (length rest))%nat) as Hlen' by (rewrite Hd, length_app; done).
  destruct rest as [|e' rest]; simpl.
  - rewrite (op_bd _ _ _ _ _ _ _ _ _ O), Hc. eapply spec_run; [apply run_fill_end|].
    eapply spec_run; [by apply run_upd_desc|]. apply spec_ret, HQ1; [done|apply O| |done|].
    + exists (P ++ [e]), [], (D1 ++ [(r, bf, c)]). rewrite app_nil_r, length_app. simpl.
      split_and!; [done|by intros [_ ?]%app_nil|lia|apply O|by eapply opened_closed|apply O|by left].
    + simpl. rewrite Hi. apply u32_small. lia.
  - apply spec_ret, HQ2; [done|]. split; simpl; try done.
    + by rewrite <- (assoc_L (++)).
    + by destruct P.
    + rewrite Hi, length_app. simpl. rewrite u32_small by (simpl in *; lia). lia.
    + rewrite sg_total_snoc in Htot |- *. destruct (total_prefix P (e :: e' :: rest) Hd) as [Htot' [(He & _) _]%Forall_cons].
      rewrite Hrio, u64_small; lia.
    + rewrite Hnext. apply u64_small. pose proof (op_buf _ _ _ _ _ _ _ _ _ O).
      destruct (op_good _ _ _ _ _ _ _ _ _ O) as (_ & ? & ?). lia.
Qed.

(** A new descriptor for the entry, if there is room: the part of [sg_step] after the test for
    merging and the end of the previous descriptor. *)
Definition sg_place (st : sg_loop) (e : sg_entry) (rest : list sg_entry) : TM W (sg_loop + Z * Z) :=
  upd_desc (p, k) (setf td_rio_addr (sl_rio_addr st)) ;;;
  if truthy (sl_i st) && (sl_idx st =? rd) then
    upd_desc (p, k) (fun d => setf td_sg (e :: rest) (setf td_sg_len (u32 (td_sg_len d - sl_i st)) d)) ;;;
    ret (inr (0, sl_add st))
  else
    bd_ptr <- bd_slot (Some b) (sl_idx st) ;;
    d <- get_desc (p, k) ;;
    err <- tsi721_desc_fill_init d bd_ptr e sys ;;
    if truthy err then ret (inr (err, sl_add st))
    else
      let wrap := u32 (sl_idx st + 1) =? N in
      st <- entry_done (p, k) e rest
        (setf sl_bd bd_ptr (setf sl_next_addr (sg_dma_address e) (setf sl_bcount (sg_dma_len e)
        (setf sl_idx (if wrap then 0 else u32 (sl_idx st + 1))
        (setf sl_add (u32 (sl_add st + if wrap then 2 else 1)) st))))) ;;
      ret (inl st).

(** What a round of the loop leads to: the end, the last entry done, or the next entry. *)
Definition went_on (P rest : list sg_entry) (r : sg_loop + Z * Z) (s : tstate W) : Prop := exists w d,
  s = at_ w d /\
  match r with
  | inr (err, add) => err = 0 /\ exists n, add = ring_count n /\ filled w d n
  | inl st =>
      (exists n, sl_add st = ring_count n /\ filled w d n /\ td_sg_len d = 0 /\ 0 < sl_i st) \/
      (rest <> [] /\ exists D1 r bf c, between P rest D1 r bf c w d st)
  end.

Lemma sg_place_spec P e rest D w d st :
  td_sg d0 = P ++ e :: rest -> closed D w -> concat (block_bytes <$> D) = sg_bytes (td_rio_addr d0) P ->
  (P = [] <-> D = []) -> Z.of_nat (length D) <= ring_room ->
  sl_i st = Z.of_nat (length P) -> sl_sg st = e :: rest -> sl_rio_addr st = td_rio_addr d0 + sg_total P ->
  sl_idx st = (idx0 + Z.of_nat (length D)) mod N -> sl_add st = ring_count (Z.of_nat (length D)) ->
  (exists r, d = setf td_rio_addr r d0) ->
  total (sg_place st e rest) (at_ w d) (went_on (P ++ [e]) rest).
Proof.
  intros Hd Hc Hb HPD Hroom Hi Hsg Hrio Hix Ha [r0 ->]. pose proof (room_range N idx0 rd HN) as Hrr.
  destruct (total_prefix P (e :: rest) Hd) as [Htot [He _]%Forall_cons].
  destruct (total_prefix (P ++ [e]) rest) as [Htot' _]; [by rewrite <- (assoc_L (++))|].
  assert (length (td_sg d0) = (length P + S (length rest))%nat) as Hlen' by (rewrite Hd, length_app; done).
  unfold sg_place. eapply spec_run; [by apply run_upd_desc|]. rewrite Hrio.
  set (r := td_rio_addr d0 + sg_total P). change (setf td_rio_addr r (setf td_rio_addr r0 d0)) with (setf td_rio_addr r d0).
  destruct (truthy (sl_i st) && (sl_idx st =? rd)) eqn:Hfull.
  - apply andb_prop in Hfull as [H1 H2%Z.eqb_eq]. unfold truthy in H1. apply negb_true_iff, Z.eqb_neq in H1.
    assert (D <> []) as HD by (intros E; apply HPD in E; subst P; simpl in Hi; lia).
    rewrite Hix in H2. apply room_end in H2; [|done|done|destruct D; simpl; [done|]; simpl in Hroom; lia].
    eapply spec_run; [by apply run_upd_desc|]. apply spec_ret. eexists _, _. split; [done|]. split; [done|].
    assert (u32 (td_sg_len d0 - sl_i st) = Z.of_nat (length (e :: rest))) as Eu.
    { rewrite Hlen, Hi, Hlen', u32_small; simpl length; lia. }
    exists (Z.of_nat (length D)). split; [done|]. exists P, (e :: rest), D.
    split_and!; try done. right. split_and!; [done|done|].
    rewrite <- Eu. done.
  - assert (Z.of_nat (length D) + 1 <= ring_room) as Hn.
    { destruct (decide (Z.of_nat (length D) = ring_room)) as [E|]; [|lia]. exfalso.
      assert (0 < Z.of_nat (length D) <= ring_room) as HD by lia. pose proof (proj2 (room_end N idx0 rd HN Hrd _ HD) E) as E'.
      rewrite <- Hix in E'. rewrite E', Z.eqb_refl, andb_true_r in Hfull. unfold truthy in Hfull.
      apply negb_false_iff, Z.eqb_eq in Hfull. rewrite Hi in Hfull. destruct P; [|simpl in Hfull; lia].
      rewrite (proj1 HPD eq_refl) in HD. simpl in HD. lia. }
    unfold bd_slot. eapply spec_run; [done|]. eapply spec_run; [by apply run_get_desc|].
    eapply spec_run; [by apply (run_fill_init s0 p k l0 d0)|]. simpl truthy. cbv iota zeta.
    replace (b + DMA_DESC_SIZE * sl_idx st) with (ring_slot (Z.of_nat (length D))) by (by rewrite Hix).
    pose proof (Z.mod_pos_bound (idx0 + Z.of_nat (length D)) N) as Hmb.
    destruct (ring_next N idx0 add0 HN Hidx Hadd (Z.of_nat (length D))) as (E1 & E2 & E3); [lia|].
    rewrite Hix, Ha, !(u32_small ((idx0 + Z.of_nat (length D)) mod N + 1)) by lia. rewrite E1, E2, u32_small by lia.
    apply spec_bind. eapply (entry_done_spec P e rest D r (sg_dma_address e) (sg_dma_len e)); simpl; try done.
    + apply opened_new; try done; lia.
    + intros -> st' w' d' Es Hf Hz Hi'. apply spec_ret. eexists _, _. split; [done|]. left. eexists. split_and!; [done..|lia].
    + intros Hne st' Hbt. apply spec_ret. eexists _, _. split; [done|]. right. split; [done|]. by eexists _, _, _, _.
Qed.

Abbreviation step := (sg_step (p, k) (Some b) N rd sys).

Lemma sg_step_spec P e rest D1 r bf c w d st : between P (e :: rest) D1 r bf c w d st ->
  total (step st) (at_ w d) (went_on (P ++ [e]) rest).
Proof.
  intros []. subst d. destruct (total_prefix P (e :: rest) bt_list0) as [Htot [He _]%Forall_cons].
  assert (length (td_sg d0) = (length P + S (length rest))%nat) as Hlen' by (rewrite bt_list0, length_app; done).
  destruct (op_good _ _ _ _ _ _ _ _ _ bt_open0) as (Hgr & Hgb & Hgc). pose proof (op_buf _ _ _ _ _ _ _ _ _ bt_open0) as Hbuf.
  pose proof (op_room _ _ _ _ _ _ _ _ _ bt_open0) as Hroom. cbv [TSI721_BDMA_MAX_BCOUNT TSI721_DMAD_BCOUNT1] in Hgc.
  pose proof He as (He1 & He2 & He3). cbv [TSI721_BDMA_MAX_BCOUNT TSI721_DMAD_BCOUNT1] in He1.
  unfold sg_step. eapply spec_run; [by apply run_get_desc|].
  change (td_sg_len (setf td_rio_addr r d0)) with (td_sg_len d0).
  destruct (Z.ltb_spec (sl_i st) (td_sg_len d0)); [simpl negb; cbv iota|lia]. rewrite bt_sg0.
  destruct (Z.ltb_spec TSI721_BDMA_MAX_BCOUNT (sg_dma_len e)); [cbv [TSI721_BDMA_MAX_BCOUNT TSI721_DMAD_BCOUNT1] in *; lia|].
  destruct ((sl_next_addr st =? sg_dma_address e) && (u32 (sl_bcount st + sg_dma_len e) <=? TSI721_BDMA_MAX_BCOUNT)) eqn:Hm.
  - apply andb_prop in Hm as [Hm1%Z.eqb_eq Hm2%Z.leb_le]. rewrite bt_bcount0 in Hm2 |- *. rewrite u32_small in Hm2 |- * by lia.
    apply spec_bind. eapply (entry_done_spec P e rest D1 r bf (c + sg_dma_len e)); simpl; try done.
    + apply opened_join; try done. lia.
    + lia.
    + intros -> st' w' d' Es Hf Hz Hi'. apply spec_ret. eexists _, _. split; [done|]. left. eexists. split_and!; [done..|lia].
    + intros Hne st' Hbt. apply spec_ret. eexists _, _. split; [done|]. right. split; [done|]. by eexists _, _, _, _.
  - destruct (Z.eqb_spec (sl_next_addr st) NO_ADDR) as [E|_]; [unfold NO_ADDR in E; lia|]. simpl negb. cbv iota.
    rewrite (op_bd _ _ _ _ _ _ _ _ _ bt_open0), bt_bcount0.
    eapply (spec_run _ _ _ _ _ tt (at_ (ended w (ring_slot (Z.of_nat (length D1))) c) (setf td_rio_addr r d0))); [done|].
    apply (sg_place_spec P e rest (D1 ++ [(r, bf, c)])); try done.
    + by eapply opened_closed.
    + by eapply op_bytes.
    + split; [done|]. by intros [_ ?]%app_nil.
    + rewrite length_app. simpl. lia.
    + rewrite length_app. simpl. rewrite (op_idx _ _ _ _ _ _ _ _ _ bt_open0). do 2 f_equal. lia.
    + rewrite length_app. simpl. rewrite (op_add _ _ _ _ _ _ _ _ _ bt_open0). f_equal. lia.
    + by exists r.
Qed.

Lemma sg_start_spec w e rest : td_sg d0 = e :: rest ->
  total (step (mk_sg_loop 0 (td_sg d0) (td_rio_addr d0) NO_ADDR 0 None idx0 add0)) (at_ w d0) (went_on [e] rest).
Proof.
  intros Hd. pose proof (room_range N idx0 rd HN) as Hroom. destruct (total_prefix [] (e :: rest) Hd) as [_ [He _]%Forall_cons].
  pose proof He as (He1 & He2 & He3).
  unfold sg_step. eapply spec_run; [by apply run_get_desc|]. simpl sl_i.
  destruct (Z.ltb_spec 0 (td_sg_len d0)); [simpl negb; cbv iota|rewrite Hd in Hlen; simpl in Hlen; lia].
  simpl sl_sg. rewrite Hd. destruct (Z.ltb_spec TSI721_BDMA_MAX_BCOUNT (sg_dma_len e)); [lia|]. simpl sl_next_addr.
  destruct (Z.eqb_spec NO_ADDR (sg_dma_address e)) as [E|_]; [unfold NO_ADDR in E; lia|]. simpl andb. cbv iota.
  eapply spec_run; [done|].
  apply (sg_place_spec [] e rest []); simpl; try done.
  - lia.
  - lia.
  - rewrite Z.add_0_r, Z.mod_small; lia.
  - unfold ring_count. rewrite !Z.add_0_r, Z.div_small; lia.
  - exists (td_rio_addr d0). by destruct d0.
Qed.

(** When the transfer has no entries left the loop ends. *)
Lemma sg_stop_spec w d st Q : td_sg_len d = 0 -> 0 < sl_i st -> Q (inr (0, sl_add st)) (at_ w d) ->
  total (step st) (at_ w d) Q.
Proof.
  intros Hz Hi HQ. unfold sg_step. eapply spec_run; [by apply run_get_desc|]. rewrite Hz.
  destruct (Z.ltb_spec (sl_i st) 0); [lia|]. done.
Qed.

Definition all_filled (r : Z * Z) (s : tstate W) : Prop := exists w d n,
  s = at_ w d /\ r = (0, ring_count n) /\ filled w d n.

Lemma sg_loop_spec E fuel P r s : (length E < fuel)%nat -> went_on P E r s ->
  match r with inl st => total (loop fuel step st) s all_filled | inr b => all_filled b s end.
Proof.
  revert fuel P r s. induction E as [|e rest IH]; intros fuel P r s Hf (w & d & -> & Hr); (destruct r as [st|[err add]];
    [destruct fuel as [|fuel]; [lia|]; simpl; destruct Hr as [(n & Ha & Hfl & Hz & Hi)|(Hne & D1 & r & bf & c & Hbt)]
    |destruct Hr as (-> & n & -> & Hfl); by exists w, d, n]); try done.
  1, 2: apply spec_bind, sg_stop_spec; [done|lia|]; apply spec_ret; exists w, d, n; by rewrite Ha.
  apply spec_bind. eapply spec_mono; [by eapply sg_step_spec|]. intros r' s' Hw.
  specialize (IH fuel (P ++ [e]) r' s'). destruct r'; (apply IH; [simpl in Hf; lia|done]).
Qed.

Lemma sg_fill_spec w fuel : td_sg d0 <> [] -> (length (td_sg d0) <= fuel)%nat ->
  total (loop (S fuel) step (mk_sg_loop 0 (td_sg d0) (td_rio_addr d0) NO_ADDR 0 None idx0 add0)) (at_ w d0) all_filled.
Proof.
  intros Hne Hf. assert (exists e rest, td_sg d0 = e :: rest) as (e & rest & Hd).
  { destruct (td_sg d0) as [|e rest]; [done|]. by exists e, rest. }
  simpl loop. apply spec_bind. eapply spec_mono; [by eapply sg_start_spec|]. intros r s Hw.
  pose proof (sg_loop_spec rest fuel [e] r s) as H. rewrite Hd in Hf. destruct r; (apply H; [simpl in Hf; lia|done]).
Qed.
End ring.

(** ** Filling the ring *)

(** A transfer as clients give it, or what is left of it. *)
Record transfer_ok (d : tsi721_tx_desc) : Prop := {
  tr_some : td_sg d <> [];
  tr_len : td_sg_len d = Z.of_nat (length (td_sg d));
  tr_len32 : td_sg_len d < 2 ^ 32;
  tr_good : Forall good_entry (td_sg d);
  tr_rio : 0 <= td_rio_addr d /\ td_rio_addr d + sg_total (td_sg d) < 2 ^ 64;
  tr_u : td_rio_addr_u d = 0;
  tr_rtype : 0 <= td_rtype d < 2 ^ 2;
  tr_dest : 0 <= td_destid d < 2 ^ 16;
}.
Definition bytes_left (d : tsi721_tx_desc) : list (Z * Z) :=
  if td_sg_len d =? 0 then [] else sg_bytes (td_rio_addr d) (td_sg d).

Section submit.
Context {W : Type} `{!KernelEnv W} `{!Tsi721Hw W} `{!ByteMemory W}.

Lemma at_start (s : tstate W) p k l0 d : ts_txds s !! p = Some l0 -> l0 !! Z.to_nat k = Some d ->
  s = at_ s p k l0 (tmem s) d.
Proof.
  intros H1 H2. unfold at_. rewrite (list_insert_id l0) by done. rewrite insert_id by done. by destruct s as [[[]]].
Qed.

Section chan.
Variables (s : tstate W) (p : ptr) (k : Z) (l0 : list tsi721_tx_desc) (ch : Z) (c : tsi721_bdma_chan) (r : Z).
Context (Hch : 0 <= ch) (Hc : pv_bdma (ts_priv s) !! Z.to_nat ch = Some c) (Hr : bc_regs c = Some r).

Lemma run_get_chan w d : get_chan ch (at_ s p k l0 w d) = Done c (at_ s p k l0 w d).
Proof. unfold get_chan, bind, getp, gets. simpl. by apply run_slot_get. Qed.
Lemma run_cread off v w w' d : 0 <= r + off < TSI721_REG_SPACE_SIZE -> hw_read (r + off) w = (v, w') ->
  cread ch off (at_ s p k l0 w d) = Done (u32 v) (at_ s p k l0 w' d).
Proof.
  intros Ho Hv. unfold cread, creg. rewrite bind_assoc. erewrite bind_Done by apply run_get_chan.
  rewrite Hr. erewrite bind_Done by done. unfold ioread32.
  destruct (Z.leb_spec 0 (r + off)); [|lia]. destruct (Z.ltb_spec (r + off) TSI721_REG_SPACE_SIZE); [|lia]. simpl andb. cbv iota.
  unfold bind, core, lift, lift_k, hw_call. simpl. by rewrite Hv.
Qed.
Lemma run_upd_chan g w d : upd_chan ch g (at_ s p k l0 w d) =
  Done tt (setf ts_priv (setf pv_bdma (<[Z.to_nat ch := g c]> (pv_bdma (ts_priv s))) (ts_priv s)) (at_ s p k l0 w d)).
Proof. unfold upd_chan, bind, getp, gets. simpl. by rewrite (run_slot_get _ _ ch c). Qed.
End chan.

(** The place of the next descriptor, which is not the link at the end of the ring. *)
Definition ring_place (N wr : Z) : Z := if wr mod (N + 1) =? N then 0 else wr mod (N + 1).
Definition ring_extra (N wr : Z) : Z := if wr mod (N + 1) =? N then 1 else 0.

Lemma ring_place_range N wr : 0 < N -> 0 <= ring_place N wr < N.
Proof. intros HN. unfold ring_place. pose proof (Z.mod_pos_bound wr (N + 1)). destruct (Z.eqb_spec (wr mod (N + 1)) N); lia. Qed.
Lemma ring_extra_range N wr : 0 <= ring_extra N wr <= 1.
Proof. unfold ring_extra. case_match; lia. Qed.
Lemma ring_place_next N wr n : 0 < N -> 0 <= wr -> 0 <= n ->
  ring_place N (wr + ring_count N (ring_place N wr) (ring_extra N wr) n) = (ring_place N wr + n) mod N.
Proof.
  intros HN Hw Hn. pose proof (Z.mod_pos_bound wr (N + 1)) as Hb. pose proof (Z.div_mod wr (N + 1)) as Hd.
  set (i := ring_place N wr). set (a := ring_extra N wr). unfold ring_count.
  assert (exists q, wr + a = q * (N + 1) + i /\ 0 <= i < N) as (q & Hq & Hi).
  { subst i a. unfold ring_place, ring_extra. destruct (Z.eqb_spec (wr mod (N + 1)) N); [exists (wr / (N + 1) + 1)|exists (wr / (N + 1))]; lia. }
  pose proof (Z.mod_pos_bound (i + n) N) as Hb2. pose proof (Z.div_mod (i + n) N) as Hd2.
  set (t := (i + n) / N) in *. set (m := (i + n) mod N) in *.
  assert ((wr + (a + n + t)) mod (N + 1) = m) as E by (symmetry; apply (Z.mod_unique _ _ (q + t)); lia).
  unfold ring_place. rewrite E. destruct (Z.eqb_spec m N); lia.
Qed.

(** What the hardware answers: the channel is idle, and its read count is not at the link. *)
Definition chan_ready (s : tstate W) (r N : Z) (rdc : Z) (w : W) : Prop := exists v0 w0 v1,
  0 <= r + TSI721_DMAC_STS < TSI721_REG_SPACE_SIZE /\ 0 <= r + TSI721_DMAC_DRDCNT < TSI721_REG_SPACE_SIZE /\
  hw_read (r + TSI721_DMAC_STS) (tmem s) = (v0, w0) /\ Z.land (u32 v0) TSI721_DMAC_STS_RUN = 0 /\
  hw_read (r + TSI721_DMAC_DRDCNT) w0 = (v1, w) /\ rdc = u32 v1 mod (N + 1) /\ rdc <> N.

Section run.
Variables (s : tstate W) (ch : Z) (p : ptr) (k : Z) (l0 : list tsi721_tx_desc) (d : tsi721_tx_desc) (c : tsi721_bdma_chan)
  (r b N : Z) (mp : rio_mport W) (rdc : Z) (w : W).
Context (Hch : 0 <= ch) (Hc : pv_bdma (ts_priv s) !! Z.to_nat ch = Some c) (Hr : bc_regs c = Some r)
  (Hl : ts_txds s !! p = Some l0) (Hk : 0 <= k) (Hd : l0 !! Z.to_nat k = Some d)
  (Hmp : ks_mports (ms_k (ts_m s)) !! pv_mport (ts_priv s) = Some mp) (Hsys : 0 <= mp_sys_size mp < 16)
  (Hb : bc_bd_base c = Some b) (HN : bc_bd_num c = N) (HNr : 0 < N < 2 ^ 30) (Hwr : 0 <= bc_wr_count_next c < 2 ^ 32)
  (Hready : chan_ready s r N rdc w) (Hok : transfer_ok d).

Definition idx_ : Z := ring_place N (bc_wr_count_next c).
Definition extra_ : Z := ring_extra N (bc_wr_count_next c).

Lemma k_range : 0 <= k < Z.of_nat (length l0).
Proof. apply lookup_lt_Some in Hd. lia. Qed.

(** Up to the loop. *)
Lemma submit_prefix : tsi721_submit_sg ch (p, k) (at_ s p k l0 (tmem s) d) =
  (let! (err, add_count) := loop (S (S (length (td_sg d)))) (sg_step (p, k) (Some b) N rdc (mp_sys_size mp))
     (mk_sg_loop 0 (td_sg d) (td_rio_addr d) NO_ADDR 0 None idx_ extra_) ;;
   when (err =? 0) (upd_chan ch (fun c => setf bc_wr_count_next (u32 (bc_wr_count_next c + add_count)) c)) ;;;
   ret err) (at_ s p k l0 w d).
Proof.
  destruct Hready as (v0 & w0 & v1 & Ho1 & Ho2 & Hv0 & Hrun & Hv1 & Erd & Hlink). pose proof k_range as Hk'.
  match goal with |- _ = ?rhs => set (R := rhs) end.
  unfold tsi721_submit_sg, tsi721_dma_is_idle. rewrite bind_assoc.
  erewrite bind_Done by (eapply run_cread; [exact Hch|exact Hc|exact Hr|exact Ho1|exact Hv0]).
  rewrite Hrun. erewrite bind_Done by done. change (negb (0 =? 0)) with false. cbv iota.
  erewrite bind_Done by (by apply run_get_desc). rewrite (bind_Done pmport _ _ mp (at_ s p k l0 w0 d)).
  2: { unfold pmport, getp, bind, gets, core, lift, lift_k, get_mport. simpl. unfold bind, gets. simpl. by rewrite Hmp. }
  erewrite bind_Done by (eapply run_cread; [exact Hch|exact Hc|exact Hr|exact Ho2|exact Hv1]).
  erewrite bind_Done by (eapply run_get_chan; [exact Hch|exact Hc]).
  rewrite HN, Hb. destruct (Z.eqb_spec (N + 1) 0); [lia|]. erewrite bind_Done by done.
  rewrite (u32_small (N + 1)) by lia. pose proof (u32_range v1).
  rewrite !Z.rem_mod_nonneg by lia. by rewrite <- Erd.
Qed.

Lemma submit_runs : exists w' d' n, filled d (mp_sys_size mp) b N idx_ rdc w' d' n /\
  tsi721_submit_sg ch (p, k) s = Done 0 (setf ts_priv (setf pv_bdma (<[Z.to_nat ch :=
    setf bc_wr_count_next (u32 (bc_wr_count_next c + ring_count N idx_ extra_ n)) c]> (pv_bdma (ts_priv s))) (ts_priv s)) (at_ s p k l0 w' d')).
Proof.
  assert (0 <= idx_ < N) as Hidx by (apply ring_place_range; lia). pose proof (ring_extra_range N (bc_wr_count_next c)) as Hextra.
  pose proof k_range as Hk'.
  assert (0 <= rdc < N) as Hrd.
  { destruct Hready as (v0 & w0 & v1 & _ & _ & _ & _ & _ & -> & Hne). pose proof (Z.mod_pos_bound (u32 v1) (N + 1)). lia. }
  destruct Hok as [Hsome Hlen Hlen32 Hgood [Hr0 Hr64] Hu Hrt Hdest].
  assert (total (loop (S (S (length (td_sg d)))) (sg_step (p, k) (Some b) N rdc (mp_sys_size mp))
    (mk_sg_loop 0 (td_sg d) (td_rio_addr d) NO_ADDR 0 None idx_ extra_)) (at_ s p k l0 w d)
    (all_filled s p k l0 d (mp_sys_size mp) b N idx_ rdc extra_)) as Hloop by (apply sg_fill_spec; first [done|lia]).
  apply total_Done in Hloop as (res & s' & Hrun & w' & d' & n & -> & -> & Hf).
  exists w', d', n. split; [done|]. pose proof submit_prefix as E. rewrite <- (at_start s p k l0 d Hl Hd) in E.
  rewrite E. erewrite bind_Done by exact Hrun. cbv beta iota.
  erewrite bind_Done by (eapply run_upd_chan; [exact Hch|exact Hc]). done.
Qed.
End run.

(** C2: A scatter list in an idle channel becomes hardware descriptors that move exactly the
    bytes of its first entries, in order and each to its place in RapidIO space, whether or not entries
    are merged; the count field, where 0 stands for 64 MB, is right; the slots are distinct and none is one that the
    hardware has not read yet.  If the ring is too small, it is filled up and the transfer keeps
    exactly the bytes that are left, in the form in which it can be submitted again; and unless the 32-bit
    counter has wrapped around, the next fill starts at the slot after the last one. *)
Theorem tsi721_submit_sg_correct (s : tstate W) ch p k l0 d c r b N mp rdc w :
  0 <= ch -> pv_bdma (ts_priv s) !! Z.to_nat ch = Some c -> bc_regs c = Some r ->
  ts_txds s !! p = Some l0 -> 0 <= k -> l0 !! Z.to_nat k = Some d ->
  ks_mports (ms_k (ts_m s)) !! pv_mport (ts_priv s) = Some mp -> 0 <= mp_sys_size mp < 16 ->
  bc_bd_base c = Some b -> bc_bd_num c = N -> 0 < N < 2 ^ 30 -> 0 <= bc_wr_count_next c < 2 ^ 32 ->
  chan_ready s r N rdc w -> transfer_ok d ->
  let first := ring_place N (bc_wr_count_next c) in
  exists s' d' c' D, tsi721_submit_sg ch (p, k) s = Done 0 s' /\
    ts_txds s' = <[p := <[Z.to_nat k := d']> l0]> (ts_txds s) /\
    pv_bdma (ts_priv s') = <[Z.to_nat ch := c']> (pv_bdma (ts_priv s)) /\
    0 < Z.of_nat (length D) <= ring_room N first rdc /\
    (forall j x, D !! j = Some x -> decode_desc (tmem s') (ring_slot b N first (Z.of_nat j)) = x) /\
    (forall i j, 0 <= i < j -> j < Z.of_nat (length D) -> ring_slot b N first i <> ring_slot b N first j) /\
    (forall j, 0 < j < Z.of_nat (length D) -> ring_slot b N first j <> b + DMA_DESC_SIZE * rdc) /\
    concat (block_bytes <$> D) ++ bytes_left d' = sg_bytes (td_rio_addr d) (td_sg d) /\
    (td_sg_len d' <> 0 -> Z.of_nat (length D) = ring_room N first rdc /\ transfer_ok d') /\
    (bc_wr_count_next c + 2 * Z.of_nat (length D) + 2 < 2 ^ 32 ->
      ring_place N (bc_wr_count_next c') = (first + Z.of_nat (length D)) mod N).
Proof.
  intros Hch Hc Hr Hl Hk Hd Hmp Hsys Hb HN HNr Hwr Hready Hok first.
  destruct (submit_runs s ch p k l0 d c r b N mp rdc w) as (w' & d' & n & Hf & Hrun); try done.
  unfold idx_ in Hf, Hrun. fold first in Hf, Hrun.
  assert (0 <= first < N) as Hidx by (apply ring_place_range; lia).
  assert (0 <= rdc < N) as Hrd.
  { destruct Hready as (v0 & w0 & v1 & _ & _ & _ & _ & _ & -> & Hne). pose proof (Z.mod_pos_bound (u32 v1) (N + 1)). lia. }
  destruct Hf as (taken & rest & D & Etr & Hne & -> & Hroom & Hcl & Hby & Hrest).
  assert (0 < ring_room N first rdc <= N) as Hrr by (apply room_range; done).
  assert (0 < Z.of_nat (length D)) as HD by (destruct D; [done|simpl; lia]). destruct Hok.
  eexists _, d', _, D. split; [exact Hrun|]. split_and!; try done.
  - intros j x Hj. destruct (Hcl j x Hj) as [Hg Hx]. by apply (decode_desc_is d (mp_sys_size mp)).
  - intros i j Hi Hj. apply slot_ne; lia.
  - intros j Hj E. unfold ring_slot, DMA_DESC_SIZE in E.
    assert ((first + j) mod N = rdc) as E' by lia. apply room_end in E'; lia.
  - rewrite Hby, Etr. unfold bytes_left. destruct Hrest as [[-> ->]|(Hr' & _ & ->)]; [by rewrite Z.eqb_refl, !app_nil_r|].
    simpl td_sg_len. destruct (Z.eqb_spec (Z.of_nat (length rest)) 0); [by destruct rest|]. by rewrite sg_bytes_app.
  - destruct Hrest as [[-> ->]|(Hr' & Hn & ->)]; [done|]. intros _. split; [done|].
    rewrite Etr, Forall_app in tr_good0. rewrite Etr, sg_total_app in tr_rio0. rewrite Etr, length_app in tr_len0.
    destruct tr_good0 as [Hg1 Hg2]. pose proof (total_nonneg taken Hg1). pose proof (total_nonneg rest Hg2).
    split; simpl; try done; try lia; try (split; lia).
  - intros Hlt. simpl. pose proof (ring_extra_range N (bc_wr_count_next c)) as He. unfold extra_ in *.
    assert (0 <= (first + Z.of_nat (length D)) / N < 2) as Hq.
    { split; [apply Z.div_pos; lia|]. apply Z.div_lt_upper_bound; lia. }
    rewrite u32_small; [apply ring_place_next; lia|]. unfold ring_count. lia.
Qed.
End submit.

(** ** Witness *)

(** A ring of two descriptors, and four entries of which the first two are neighbours. *)
Definition sg_chan : tsi721_bdma_chan :=
  mk_bdma_chan 1 (Some (TSI721_DMAC_BASE 1)) 2 (Some 0x8000) (Some 0x9000) 32 0 0 0 5 4 (Some 50%positive) None [] [] false true.
Definition sg_transfer : tsi721_tx_desc :=
  mk_tx_desc 5 0 None 1%positive 9 0x10000 0 1
    [mk_sg_entry None 0x100 0x1000 0x100; mk_sg_entry None 0x80 0x1100 0x80; mk_sg_entry None 0x40 0x3000 0x40;
     mk_sg_entry None 0x40 0x5000 0x40] 4 DMA_IN_PROGRESS 0 0 0 0.
Definition sg_state : tstate t7world :=
  setf ts_txds {[ 50%positive := [sg_transfer] ]} (t7_state (setf pv_bdma [sg_chan] t7_priv) ∅).

Lemma sg_transfer_ok : transfer_ok sg_transfer.
Proof.
  split; try (simpl; lia); try done. cbn [td_sg sg_transfer]. unfold good_entry, TSI721_BDMA_MAX_BCOUNT.
  repeat (apply Forall_cons_2; [unfold TSI721_DMAD_BCOUNT1; simpl; lia|]). by apply Forall_nil_2.
Qed.
Lemma sg_state_ready : chan_ready sg_state (TSI721_DMAC_BASE 1) 2 0 (tmem sg_state).
Proof. exists 0, (tmem sg_state), 0. vm_compute. repeat split; discriminate. Qed.

Lemma tsi721_submit_sg_correct_witness :
  exists s' d', tsi721_submit_sg 0 (50%positive, 0) sg_state = Done 0 s' /\
    decode_desc (tmem s') 0x8000 = (0x10000, 0x1000, 0x180) /\ decode_desc (tmem s') 0x8020 = (0x10180, 0x3000, 0x40) /\
    transfer_ok d' /\ bytes_left d' = block_bytes (0x101c0, 0x5000, 0x40).
Proof.
  destruct (tsi721_submit_sg_correct sg_state 0 50%positive 0 [sg_transfer] sg_transfer sg_chan (TSI721_DMAC_BASE 1)
    0x8000 2 t7_mport 0 (tmem sg_state) ltac:(lia) eq_refl eq_refl eq_refl ltac:(lia) eq_refl eq_refl ltac:(simpl; lia)
    eq_refl eq_refl ltac:(lia) ltac:(simpl; lia) sg_state_ready sg_transfer_ok)
    as (s' & d' & c' & D & Hrun & Hd' & _ & _ & _ & _ & _ & _ & Hleft & _).
  assert (done_with (tsi721_submit_sg 0 (50%positive, 0) sg_state) (fun _ s' =>
    bool_decide (decode_desc (tmem s') 0x8000 = (0x10000, 0x1000, 0x180)) &&
    bool_decide (decode_desc (tmem s') 0x8020 = (0x10180, 0x3000, 0x40)) &&
    match ts_txds s' !! 50%positive with
    | Some [d] => (td_sg_len d =? 1) && bool_decide (bytes_left d = block_bytes (0x101c0, 0x5000, 0x40))
    | _ => false end) = true) as Hb by (vm_compute; reflexivity).
  rewrite Hrun in Hb. unfold done_with in Hb. rewrite Hd', lookup_insert_eq in Hb. change (Z.to_nat 0) with 0%nat in Hb.
  apply andb_prop in Hb as [[H1%bool_decide_eq_true H2%bool_decide_eq_true]%andb_prop [H3 H4%bool_decide_eq_true]%andb_prop].
  exists s', d'. split; [exact Hrun|]. split; [exact H1|]. split; [exact H2|]. split; [|exact H4]. apply Hleft. lia.
Defined.
