(* ===== verification/Tsi721Queue.v ===== *)
(** * The DMA engine of the Tsi721 bridge: descriptors in circulation

    A channel owns an array of descriptors that circulate: free, in the hands of a client,
    queued, active, free again.  Whatever clients submit and interrupts report, no
    descriptor is lost or in two places, work is finished in the order in which it was
    submitted, and no call touches a list node or a null pointer in a wrong way.
    Terminating all transfers breaks this when one is active. *)

From S2P Require Import Prelude Regs State Access Route Em Msg RioDma Tsi721Regs Tsi721 Tsi721Dma Tsi721Base Tsi721Bench.

(** ** What is relied upon *)

(** A channel that is idle stays so until it is started. *)
Class QuietDma (W : Type) `{!Tsi721Hw W} := {
  idle_stays ch w v w1 v' w2 :
    hw_read (TSI721_DMAC_BASE ch + TSI721_DMAC_STS) w = (v, w1) -> Z.land (u32 v) TSI721_DMAC_STS_RUN = 0 ->
    hw_read (TSI721_DMAC_BASE ch + TSI721_DMAC_STS) w1 = (v', w2) -> Z.land (u32 v') TSI721_DMAC_STS_RUN = 0;
}.

(** The callbacks of clients do not call the driver. *)
Class QuietCallbacks (W : Type) `{!Tsi721Callbacks W} := {
  callback_quiet callback param (s : tstate W) :
    total (dma_callback_call callback param) s (fun _ s' =>
      ts_priv s' = ts_priv s /\ ts_txds s' = ts_txds s /\ ks_mports (ms_k (ts_m s')) = ks_mports (ms_k (ts_m s)));
}.

(** ** Cookies *)

Lemma next_cookie_range x : 1 <= next_cookie x < 2 ^ 31.
Proof.
  unfold next_cookie, DMA_MIN_COOKIE. pose proof (s32_range (x + 1)). destruct (Z.ltb_spec (s32 (x + 1)) 1); lia.
Qed.

(** The cookies [l] follow each other, from [first] (not included) to [last]. *)
Fixpoint cookie_chain (first : Z) (l : list Z) (last : Z) : Prop :=
  match l with [] => first = last | x :: l' => x = next_cookie first /\ cookie_chain x l' last end.

Lemma cookie_chain_snoc first l last : cookie_chain first l last -> cookie_chain first (l ++ [next_cookie last]) (next_cookie last).
Proof. revert first. induction l as [|x l IH]; intros first; simpl; [by intros ->|]. intros [? ?]. auto. Qed.

(** ** The state of a channel *)

(** The work of the channel: the active transfer, and those that wait. *)
Definition work (c : tsi721_bdma_chan) : list txd_ptr := option_list (bc_active_tx c) ++ bc_queue c.

Definition desc_at (l : list tsi721_tx_desc) (d : txd_ptr) : option tsi721_tx_desc := l !! Z.to_nat d.2.
Definition cookies (l : list tsi721_tx_desc) (ds : list txd_ptr) : list Z := (fun d => default 0 (td_cookie <$> desc_at l d)) <$> ds.
Definition all_descs (p : ptr) (n : nat) : list txd_ptr := (fun i => (p, Z.of_nat i)) <$> seq 0 n.

(** The scatter list has the entries that are to be transferred, none too large. *)
Definition entries_ok (t : tsi721_tx_desc) : Prop :=
  td_sg_len t <= Z.of_nat (length (td_sg t)) < 2 ^ 32 /\
  Forall (fun e => sg_dma_len e <= TSI721_BDMA_MAX_BCOUNT) (td_sg t).

(** A channel with registers, and one that is set up. *)
Definition has_regs (ch : Z) (c : tsi721_bdma_chan) : Prop :=
  0 <= ch < TSI721_DMA_MAXCH /\ bc_regs c = Some (TSI721_DMAC_BASE ch).
Record chan_fit (ch : Z) (c : tsi721_bdma_chan) : Prop := {
  cf_regs : has_regs ch c;
  cf_base : is_Some (bc_bd_base c); cf_sts : is_Some (bc_sts_base c); cf_num : 0 <= bc_bd_num c < 2 ^ 30;
  cf_size : 0 < bc_sts_size c < 2 ^ 32; cf_rdptr : 0 <= bc_sts_rdptr c < bc_sts_size c;
}.

Lemma cf_ch ch c : chan_fit ch c -> 0 <= ch < TSI721_DMA_MAXCH.
Proof. intros H. apply (cf_regs _ _ H). Qed.
#[export] Hint Extern 0 (has_regs _ _) => (apply cf_regs; assumption) : core.

(** Descriptors are free, at work, or among those that clients hold; cookies tell the order. *)
Record in_order (p : ptr) (held : list txd_ptr) (c : tsi721_bdma_chan) (l : list tsi721_tx_desc) : Prop := {
  io_active : bc_active c = true; io_desc : bc_tx_desc c = Some p;
  io_parts : work c ++ bc_free_list c ++ held ≡ₚ all_descs p (length l);
  io_entries : forall d t, d ∈ work c ++ held -> desc_at l d = Some t -> entries_ok t;
  io_cookies : cookie_chain (bc_completed_cookie c) (cookies l (work c)) (bc_cookie c);
}.

Lemma elem_all_descs p n d : d ∈ all_descs p n <-> d.1 = p /\ 0 <= d.2 < Z.of_nat n.
Proof.
  unfold all_descs. rewrite list_elem_of_fmap. setoid_rewrite elem_of_seq. split.
  - intros (i & -> & Hi). simpl. lia.
  - intros [<- Hd]. exists (Z.to_nat d.2). destruct d as [q k]. simpl in *. split; [f_equal|]; lia.
Qed.
Lemma all_descs_NoDup p n : NoDup (all_descs p n).
Proof. apply NoDup_fmap_2; [|apply NoDup_seq]. intros i j [= ?]. lia. Qed.

Section order.
Context {p : ptr} {held : list txd_ptr} {c : tsi721_bdma_chan} {l : list tsi721_tx_desc} (H : in_order p held c l).

Lemma parts_NoDup : NoDup (work c ++ bc_free_list c ++ held).
Proof. rewrite (io_parts _ _ _ _ H). apply all_descs_NoDup. Qed.
Lemma parts_place d : d ∈ work c ++ bc_free_list c ++ held -> d.1 = p /\ 0 <= d.2 < Z.of_nat (length l).
Proof. rewrite (io_parts _ _ _ _ H). apply elem_all_descs. Qed.
Lemma parts_desc d : d ∈ work c ++ bc_free_list c ++ held -> d.1 = p /\ 0 <= d.2 /\ is_Some (desc_at l d).
Proof. intros (E & Hd)%parts_place. split; [done|]. split; [lia|]. apply lookup_lt_is_Some. lia. Qed.
End order.

(** ** Access *)

Section access.
Context {W : Type} `{!KernelEnv W} `{!Tsi721Hw W} `{!Tsi721Callbacks W} `{!DmaCore W}.
Variables (ch : Z) (p : ptr) (u f : Prop).

(** The channel and its array of descriptors, if it is allocated; the master port is there. *)
Record at_chan (c : tsi721_bdma_chan) (l : list tsi721_tx_desc) (s : tstate W) : Prop := {
  ac_chan : pv_bdma (ts_priv s) !! Z.to_nat ch = Some c;
  ac_descs : default [] (ts_txds s !! p) = l;
  ac_msix : Z.of_nat (length (pv_msix (ts_priv s))) = TSI721_VECT_MAX;
  ac_mport : is_Some (ks_mports (ms_k (ts_m s)) !! pv_mport (ts_priv s));
}.
#[export] Instance at_chan_blind c l : HwBlind (at_chan c l).
Proof. intros s w []. by split. Qed.

Definition good_desc (l : list tsi721_tx_desc) (d : txd_ptr) : Prop := d.1 = p /\ 0 <= d.2 /\ is_Some (desc_at l d).
Definition put_desc (l : list tsi721_tx_desc) (d : txd_ptr) (t : tsi721_tx_desc) : list tsi721_tx_desc := <[Z.to_nat d.2 := t]> l.

Lemma chan_read c l s : 0 <= ch -> at_chan c l s -> get_chan ch s = Done c s.
Proof. intros Hch Hs. apply (run_slot_get _ _ ch c); [done|apply Hs]. Qed.
Lemma ac_array c l s d t : at_chan c l s -> desc_at l d = Some t -> ts_txds s !! p = Some l.
Proof. intros Hs Ht. rewrite <- (ac_descs _ _ _ Hs) in *. by destruct (ts_txds s !! p). Qed.
Lemma desc_read c l d t s : at_chan c l s -> d.1 = p -> 0 <= d.2 -> desc_at l d = Some t -> get_desc d s = Done t s.
Proof.
  intros Hs E Hd Ht. unfold get_desc, bind, gets. rewrite E, (ac_array c l s d t) by done. by apply (run_slot_get _ _ d.2 t).
Qed.
Lemma run_touch c l o s : at_chan c l s -> (forall d, o = Some d -> good_desc l d) -> touch o s = Done tt s.
Proof.
  intros Hs Ho. destruct o as [d|]; [|done]. destruct (Ho d eq_refl) as (H1 & H2 & t & H3). unfold touch, bind.
  by erewrite desc_read.
Qed.
Lemma fine_get_chan c l : 0 <= ch -> fine u f (at_chan c l) (fun c' => c' = c) (get_chan ch).
Proof. intros Hch s Hs. unfold spec. by erewrite chan_read. Qed.
Lemma fine_get_desc c l d t : d.1 = p -> 0 <= d.2 -> desc_at l d = Some t -> fine u f (at_chan c l) (fun t' => t' = t) (get_desc d).
Proof. intros E Hd Ht s Hs. unfold spec. by erewrite desc_read. Qed.
Lemma fine_creg c l off : has_regs ch c -> fine u f (at_chan c l) (fun v => v = TSI721_DMAC_BASE ch + off) (creg ch off).
Proof.
  intros Hc. eapply fine_bind; [apply fine_get_chan, Hc|]. intros ? ->. rewrite (proj2 Hc). by apply fine_ret.
Qed.
Lemma regs_place c off : has_regs ch c -> 0 <= off < 0x1000 -> 0 <= TSI721_DMAC_BASE ch + off < TSI721_REG_SPACE_SIZE.
Proof. intros [Hc _] Ho. unfold TSI721_DMAC_BASE, TSI721_REG_SPACE_SIZE, TSI721_DMA_MAXCH in *. lia. Qed.
Lemma fine_cread c l off : has_regs ch c -> 0 <= off < 0x1000 ->
  fine u f (at_chan c l) (fun v => 0 <= v < 2 ^ 32) (cread ch off).
Proof.
  intros Hc Ho. eapply fine_bind; [by eapply fine_creg|]. intros v ->. apply fine_ioread32; [typeclasses eauto|]. by eapply regs_place.
Qed.
Lemma fine_cwrite c l v off : has_regs ch c -> 0 <= off < 0x1000 -> fine u f (at_chan c l) any (cwrite v ch off).
Proof.
  intros Hc Ho. eapply fine_bind; [by eapply fine_creg|]. intros r ->. apply fine_iowrite32; [typeclasses eauto|]. by eapply regs_place.
Qed.
Lemma fine_pmport c l : fine u f (at_chan c l) any pmport.
Proof.
  intros s Hs. destruct (ac_mport _ _ _ Hs) as [mp Hmp]. unfold pmport, spec, getp, bind, gets, core, lift, lift_k, get_mport.
  simpl. unfold bind, gets. simpl. rewrite Hmp. simpl. split; [done|]. by destruct s as [[]].
Qed.

Lemma spec_upd_chan c l g s (Q : unit -> tstate W -> Prop) : 0 <= ch -> at_chan c l s ->
  (forall s', at_chan (g c) l s' -> tmem s' = tmem s -> Q tt s') -> spec u f (upd_chan ch g) s Q.
Proof.
  intros Hch Hs HQ. unfold upd_chan, getp. apply spec_bind, spec_gets. apply spec_bind. unfold spec at 1.
  rewrite (run_slot_get _ _ ch c); [|done|apply Hs]. apply HQ; [|by destruct s as [[]]].
  destruct Hs as [Hc Hl Hx Hm]. split; [|done|done|done]. simpl. apply list_lookup_insert_eq. by eapply lookup_lt_Some.
Qed.
Lemma spec_upd_desc c l d t g s (Q : unit -> tstate W -> Prop) : at_chan c l s -> d.1 = p -> 0 <= d.2 -> desc_at l d = Some t ->
  (forall s', at_chan c (put_desc l d (g t)) s' -> tmem s' = tmem s -> Q tt s') -> spec u f (upd_desc d g) s Q.
Proof.
  intros Hs E Hd Ht HQ. unfold upd_desc. apply spec_bind, spec_gets. rewrite E, (ac_array c l s d t) by done. apply spec_bind, spec_ret.
  apply spec_bind. unfold spec at 1. rewrite (run_slot_get _ _ d.2 t) by done. apply spec_modify.
  apply HQ; [|by destruct s as [[]]]. destruct Hs as [Hc Hl Hx Hm]. split; [done| |done|done]. simpl. by rewrite lookup_insert_eq.
Qed.
Lemma desc_put_eq l d t x : desc_at l d = Some x -> desc_at (put_desc l d t) d = Some t.
Proof. intros H. apply list_lookup_insert_eq. by eapply lookup_lt_Some. Qed.
Lemma desc_put_ne l d d' t : d.1 = d'.1 -> 0 <= d.2 -> 0 <= d'.2 -> d <> d' -> desc_at (put_desc l d t) d' = desc_at l d'.
Proof.
  intros E H1 H2 Hne. apply list_lookup_insert_ne. intros E'. apply Hne. destruct d, d'; simpl in *. f_equal; [done|lia].
Qed.
Lemma put_put l d t t' : put_desc (put_desc l d t) d t' = put_desc l d t'.
Proof. apply list_insert_insert_eq. Qed.

(** An idle channel is idle when it is looked at again. *)
Definition idle_at (w : W) : Prop := forall v w1,
  hw_read (TSI721_DMAC_BASE ch + TSI721_DMAC_STS) w = (v, w1) -> Z.land (u32 v) TSI721_DMAC_STS_RUN = 0.
Lemma cread_run c l off s : has_regs ch c -> at_chan c l s -> 0 <= off < 0x1000 ->
  exists s', cread ch off s = Done (u32 (hw_read (TSI721_DMAC_BASE ch + off) (tmem s)).1) s' /\
    at_chan c l s' /\ tmem s' = (hw_read (TSI721_DMAC_BASE ch + off) (tmem s)).2.
Proof.
  intros Hc Hs Ho. pose proof (regs_place c off Hc Ho) as Hr. unfold cread, creg, get_chan, getp, bind, gets.
  rewrite (run_slot_get _ _ ch c); [|apply Hc|apply Hs]. rewrite (proj2 Hc). cbn [deref ret]. unfold ioread32.
  destruct (Z.leb_spec 0 (TSI721_DMAC_BASE ch + off)); [|lia]. destruct (Z.ltb_spec (TSI721_DMAC_BASE ch + off) TSI721_REG_SPACE_SIZE); [|lia].
  cbn [andb]. unfold bind, core, lift, lift_k, hw_call. cbn [msg_of tsi_msg_state]. unfold tmem.
  destruct (hw_read _ (ks_hw (ms_k (ts_m s)))) as [v w] eqn:E. eexists. split; [reflexivity|].
  split; [|by destruct s as [[]]]. by apply (at_chan_blind c l s w).
Qed.
End access.

Section moves.
Context {W : Type} `{!KernelEnv W} `{!Tsi721Hw W} `{!Tsi721Callbacks W} `{!DmaCore W} `{!QuietDma W}.
Variables (ch : Z) (p : ptr) (u f : Prop).
Abbreviation at_chan := (at_chan ch p).

Lemma spec_at {A B} c l (V : A -> Prop) (m : TM W A) (k : A -> TM W B) s Q : at_chan c l s -> fine u f (at_chan c l) V m ->
  (forall a s', V a -> at_chan c l s' -> spec u f (k a) s' Q) -> spec u f (bind m k) s Q.
Proof.
  intros Hs Hm HQ. apply spec_bind. eapply spec_mono; [by apply Hm|]. intros a s' []. by apply HQ.
Qed.
Lemma spec_cread_bind {B} c l off (k : Z -> TM W B) s Q : at_chan c l s -> has_regs ch c -> 0 <= off < 0x1000 ->
  (forall v s', 0 <= v < 2 ^ 32 -> at_chan c l s' -> spec u f (k v) s' Q) -> spec u f (bind (cread ch off) k) s Q.
Proof. intros Hs Hc Ho. eapply spec_at; [done|by apply fine_cread]. Qed.
Lemma spec_cwrite_bind {B} c l v off (k : unit -> TM W B) s Q : at_chan c l s -> has_regs ch c -> 0 <= off < 0x1000 ->
  (forall s', at_chan c l s' -> spec u f (k tt) s' Q) -> spec u f (bind (cwrite v ch off) k) s Q.
Proof. intros Hs Hc Ho HQ. eapply spec_at; [done|by apply fine_cwrite|]. intros [] s' _. apply HQ. Qed.

Lemma spec_is_idle c l s (Q : bool -> tstate W -> Prop) : chan_fit ch c -> at_chan c l s ->
  (forall b s', at_chan c l s' -> (b = true -> idle_at ch (tmem s')) -> Q b s') -> spec u f (tsi721_dma_is_idle ch) s Q.
Proof.
  intros Hc Hs HQ. destruct (cread_run ch p c l TSI721_DMAC_STS s (cf_regs _ _ Hc) Hs) as (s' & E & Hs' & Hw); [done|].
  srun E. apply spec_ret, HQ; [done|]. intros Hb v w1 Hv. rewrite Hw in Hv.
  destruct (hw_read _ (tmem s)) as [v0 w0] eqn:E0. simpl in *. eapply (idle_stays ch); [exact E0|lia|exact Hv].
Qed.
Lemma spec_idle_again c l s (Q : bool -> tstate W -> Prop) : chan_fit ch c -> at_chan c l s -> idle_at ch (tmem s) ->
  (forall s', at_chan c l s' -> Q true s') -> spec u f (tsi721_dma_is_idle ch) s Q.
Proof.
  intros Hc Hs Hi HQ. destruct (cread_run ch p c l TSI721_DMAC_STS s (cf_regs _ _ Hc) Hs) as (s' & E & Hs' & _); [done|].
  srun E. apply spec_ret. destruct (hw_read _ (tmem s)) as [v w] eqn:E0. cbn [fst]. rewrite (Hi _ _ E0). by apply HQ.
Qed.

(** *** Filling the ring *)

(** The transfer [t'] is what is left of [t]. *)
Definition left_of (t t' : tsi721_tx_desc) : Prop := td_cookie t' = td_cookie t /\ entries_ok t'.

Lemma fine_fill_init c l t b e sys : fine u f (at_chan c l) (fun r => r = 0) (tsi721_desc_fill_init t (Some b) e sys).
Proof. unfold tsi721_desc_fill_init, dma_put32. repeat (eapply fine_bind; [apply fine_dma_put; typeclasses eauto|intros _ _]). by apply fine_ret. Qed.
Lemma fine_fill_end c l o n i : fine u f (at_chan c l) any (tsi721_desc_fill_end o n i).
Proof.
  destruct o as [b|]; [|by apply fine_ret].
  unfold tsi721_desc_fill_end, dma_put32. eapply (fine_bind _ _ _ any); [apply fine_when; [exact I|intros _]|intros _ _].
  - eapply fine_bind; [apply fine_dma_get32; typeclasses eauto|]. intros v _. apply fine_dma_put. typeclasses eauto.
  - eapply fine_bind; [apply fine_dma_get32; typeclasses eauto|]. intros v _.
    eapply fine_bind; [apply fine_dma_put; typeclasses eauto|]. intros _ _. by apply fine_ret.
Qed.

Section ring.
Context (c : tsi721_bdma_chan) (l : list tsi721_tx_desc) (d : txd_ptr) (t0 : tsi721_tx_desc) (b n rd sys : Z).
Context (Hp : d.1 = p) (Hd : 0 <= d.2) (Ht : desc_at l d = Some t0) (Hok : entries_ok t0).

Record filling (st : sg_loop) (s : tstate W) : Prop := {
  fi_desc : exists t, at_chan c (put_desc l d t) s /\ td_cookie t = td_cookie t0 /\ td_sg t = td_sg t0 /\
    td_sg_len t <= Z.of_nat (length (td_sg t0));
  fi_i : 0 <= sl_i st /\ sl_i st + Z.of_nat (length (sl_sg st)) = Z.of_nat (length (td_sg t0));
  fi_sg : Forall (fun e => sg_dma_len e <= TSI721_BDMA_MAX_BCOUNT) (sl_sg st);
}.
Definition filled_to (r : Z * Z) (s : tstate W) : Prop := r.1 = 0 /\ exists t, at_chan c (put_desc l d t) s /\ left_of t0 t.

Lemma put_at t : desc_at (put_desc l d t) d = Some t.
Proof. by eapply desc_put_eq. Qed.

Lemma spec_entry_done e rest st s : filling st s -> sl_sg st = e :: rest ->
  spec u f (entry_done d e rest st) s (fun st' s' => filling st' s' /\ (length (sl_sg st') < length (sl_sg st))%nat).
Proof.
  intros [(t & Hs & E1 & E2 & E3) [Hi0 Hi] Hf] Esg. destruct Hok as [[_ H32] _]. rewrite Esg in *. simpl in Hi.
  apply Forall_cons in Hf as [_ Hf].
  destruct rest as [|e' rest]; unfold entry_done; cbn [length] in Hi.
  - eapply spec_at; [done|apply fine_fill_end|]. intros _ s1 _ Hs1. apply spec_bind.
    eapply spec_upd_desc; [done..|apply put_at|]. intros s2 Hs2 _. apply spec_ret. split; [|simpl; lia].
    rewrite put_put in Hs2. split; simpl; rewrite ?u32_small by lia; [|lia|done]. eexists. split_and!; [exact Hs2|done..|simpl; lia].
  - apply spec_ret. split; [|simpl; lia]. split; simpl in *; rewrite ?u32_small by lia; [by exists t|lia|done].
Qed.

Lemma spec_sg_step st s : filling st s ->
  spec u f (sg_step d (Some b) n rd sys st) s (fun r s' => match r with
    | inl st' => filling st' s' /\ (length (sl_sg st') < length (sl_sg st))%nat
    | inr r => filled_to r s' end).
Proof.
  intros Hst. pose proof Hst as [(t & Hs & E1 & E2 & E3) [Hi0 Hi] Hf]. pose proof Hok as [[_ H32] Hsm]. unfold sg_step.
  srun (desc_read ch p c _ d t s Hs Hp Hd (put_at t)).
  destruct (Z.ltb_spec (sl_i st) (td_sg_len t)) as [Hlt|Hge]; cbn [negb].
  2: { apply spec_ret. split; [done|]. exists t. split; [done|]. split; [done|]. split; [|by rewrite E2]. by rewrite E2. }
  destruct (sl_sg st) as [|e rest] eqn:Esg; [cbn [length] in Hi; lia|]. pose proof Hf as [Hle _]%Forall_cons.
  destruct (Z.ltb_spec TSI721_BDMA_MAX_BCOUNT (sg_dma_len e)); [lia|].
  assert (forall st' s', filling st' s' -> sl_sg st' = e :: rest ->
    spec u f (st' <- entry_done d e rest st' ;; ret (inl st')) s' (fun r s' => match r with
      | inl st' => filling st' s' /\ (length (sl_sg st') < length (e :: rest))%nat
      | inr r => filled_to r s' end)) as Hdone.
  { intros st' s' Hst' E. apply spec_bind. eapply spec_mono; [by eapply spec_entry_done|]. intros st2 s2 [H1 H2].
    apply spec_ret. split; [done|]. by rewrite <- E. }
  destruct (_ && _).
  - apply Hdone; [|done]. split; simpl; [by exists t|by rewrite Esg|by rewrite Esg].
  - eapply (spec_at c _ any); [done| |].
    { apply fine_when; [done|]. intros _. eapply fine_bind; [apply fine_fill_end|]. intros _ _. by apply fine_ret. }
    intros _ s1 _ Hs1. apply spec_bind. eapply spec_upd_desc; [done..|apply put_at|]. intros s2 Hs2 _. rewrite put_put in Hs2.
    destruct (_ && _).
    + apply spec_bind. eapply spec_upd_desc; [done..|apply put_at|]. intros s3 Hs3 _. rewrite put_put in Hs3.
      apply spec_ret. split; [done|]. eexists. split; [exact Hs3|]. split; [done|]. split; simpl; [|done].
      cbn [length] in Hi |- *. rewrite u32_small by lia. lia.
    + unfold bd_slot. eapply spec_run; [done|]. srun (desc_read ch p c _ d _ s2 Hs2 Hp Hd (put_at _)).
      eapply spec_at; [done|apply fine_fill_init|]. intros err s3 -> Hs3. apply Hdone; [|done].
      split; simpl; [eexists; by split_and!|by rewrite Esg|by rewrite Esg].
Qed.

Lemma spec_sg_loop st s fuel : filling st s -> (length (sl_sg st) < fuel)%nat ->
  spec u f (loop fuel (sg_step d (Some b) n rd sys) st) s filled_to.
Proof.
  intros Hst Hfuel. apply (spec_loop_measure _ _ filling (fun st _ => length (sl_sg st))); [done|done|].
  intros st' s' Hst'. eapply spec_mono; [by apply spec_sg_step|]. by intros [].
Qed.
End ring.

(** *** Starting a transfer *)

Lemma spec_submit c l d t s : chan_fit ch c -> at_chan c l s -> idle_at ch (tmem s) ->
  d.1 = p -> 0 <= d.2 -> desc_at l d = Some t -> entries_ok t ->
  spec u f (tsi721_submit_sg ch d) s (fun e s' => e = 0 /\
    exists t' n, at_chan (setf bc_wr_count_next n c) (put_desc l d t') s' /\ left_of t t').
Proof.
  intros Hc Hs Hi Hp Hd Ht Hok. pose proof (cf_ch _ _ Hc) as Hch. pose proof (cf_num _ _ Hc) as Hn. destruct (cf_base _ _ Hc) as [b Hb].
  unfold tsi721_submit_sg. apply spec_bind. eapply spec_idle_again; [done..|]. intros s1 Hs1. cbn [negb].
  srun (desc_read ch p c l d t s1 Hs1 Hp Hd Ht). eapply spec_at; [done|apply fine_pmport|]. intros mp s2 _ Hs2.
  eapply spec_cread_bind; [done..|]. intros v s3 _ Hs3. srun (chan_read ch p c l s3 (proj1 Hch) Hs3).
  destruct (Z.eqb_spec (bc_bd_num c + 1) 0); [lia|]. eapply spec_run; [done|]. rewrite Hb.
  apply spec_bind. eapply spec_mono; [eapply (spec_sg_loop c l d t); [done..| |cbn; lia]|].
  { split; cbn; [|lia|apply Hok]. exists t. split; [|split; [done|split; [done|apply Hok]]].
    unfold put_desc. rewrite list_insert_id by done. exact Hs3. }
  intros [err add] s4 (E & t' & Hs4 & Hl). cbn in E. subst err. apply spec_bind.
  change (0 =? 0) with true. cbn [when]. eapply spec_upd_chan; [lia|done|]. intros s5 Hs5 _. apply spec_ret. split; [done|]. eauto.
Qed.

Lemma spec_start c l s : chan_fit ch c -> at_chan c l s ->
  spec u f (tsi721_start_dma ch) s (fun _ s' => exists n, at_chan (setf bc_wr_count n c) l s').
Proof.
  intros Hc Hs. pose proof (cf_ch _ _ Hc) as Hch. unfold tsi721_start_dma. apply spec_bind.
  eapply spec_is_idle; [done..|]. intros b s1 Hs1 _. srun (chan_read ch p c l s1 (proj1 Hch) Hs1).
  apply spec_when; intros _; [|exists (bc_wr_count c); by destruct c].
  eapply spec_cwrite_bind; [done..|]. intros s2 Hs2. eapply spec_cread_bind; [done..|]. intros v s3 _ Hs3.
  eapply spec_upd_chan; [lia|done|]. eauto.
Qed.
End moves.

(** ** Descriptors on their way *)

(** Membership in one of the parts. *)
Ltac in_parts := rewrite ?elem_of_app in *; tauto.

Lemma work_moved p held c c' l : in_order p held c l -> work c' = work c -> bc_free_list c' = bc_free_list c ->
  bc_active c' = bc_active c -> bc_tx_desc c' = bc_tx_desc c -> bc_cookie c' = bc_cookie c ->
  bc_completed_cookie c' = bc_completed_cookie c -> in_order p held c' l.
Proof. intros [] E1 E2 E3 E4 E5 E6. split; rewrite ?E1, ?E2, ?E3, ?E4, ?E5, ?E6; done. Qed.

Lemma cookies_put l d t ds : (forall d', d' ∈ ds -> d'.1 = d.1 /\ 0 <= d'.2) -> 0 <= d.2 ->
  (d ∈ ds -> exists t0, desc_at l d = Some t0 /\ td_cookie t = td_cookie t0) -> cookies (put_desc l d t) ds = cookies l ds.
Proof.
  intros Hds Hd Ht. apply list_fmap_ext. intros i d' Hi%list_elem_of_lookup_2. destruct (Hds d' Hi) as [E1 E2].
  destruct (decide (d = d')) as [<-|Hne]; [|by rewrite desc_put_ne].
  destruct (Ht Hi) as (t0 & E & Et). rewrite (desc_put_eq _ _ _ t0) by done. rewrite E. simpl. by rewrite Et.
Qed.

Lemma in_order_put p held c l d t t' : in_order p held c l -> d ∈ work c ++ bc_free_list c ++ held ->
  desc_at l d = Some t -> left_of t t' -> in_order p held c (put_desc l d t').
Proof.
  intros H Hd Ht [Ec Hok]. pose proof (fun d' => parts_desc H d') as Hparts. destruct (Hparts d Hd) as (Ep & Hd0 & _).
  split; try apply H.
  - unfold put_desc. rewrite length_insert. apply H.
  - intros d' t2 Hd' Ht2. assert (d' ∈ work c ++ bc_free_list c ++ held) as Hin by in_parts.
    destruct (Hparts d' Hin) as (Ep' & Hd0' & _). destruct (decide (d = d')) as [<-|Hne].
    + rewrite (desc_put_eq _ _ _ t) in Ht2 by done. by simplify_eq.
    + rewrite desc_put_ne in Ht2 by (done || congruence). by apply (io_entries _ _ _ _ H d').
  - rewrite cookies_put; [apply H| |done|by eauto]. intros d' Hd'. destruct (Hparts d') as (? & ? & _); [in_parts|]. split; [congruence|done].
Qed.

(** The transfer at work is finished: its descriptor is free. *)
Lemma in_order_retire p held c l d t t' : in_order p held c l -> bc_active_tx c = Some d -> desc_at l d = Some t ->
  in_order p held (setf bc_active_tx None (setf bc_free_list (d :: bc_free_list c) (setf bc_completed_cookie (td_cookie t) c)))
    (put_desc l d t').
Proof.
  intros H Ha Ht. pose proof (parts_NoDup H) as Hnd. pose proof (fun d' => parts_desc H d') as Hparts.
  pose proof (io_parts _ _ _ _ H) as Hperm. pose proof (io_cookies _ _ _ _ H) as Hck. pose proof (io_entries _ _ _ _ H) as Hen.
  unfold work in *. rewrite Ha in *. cbn [option_list app] in *.
  destruct (Hparts d) as (Ep & Hd0 & _); [by apply list_elem_of_here|].
  apply NoDup_cons in Hnd as [Hnd _].
  assert (forall d', d' ∈ bc_queue c ++ held -> d'.1 = p /\ 0 <= d'.2 /\ d <> d') as Hq.
  { intros d' Hd'. destruct (Hparts d') as (? & ? & _); [apply list_elem_of_further; in_parts|]. split_and!; [done..|].
    intros <-. apply Hnd. in_parts. }
  split; cbn [work option_list app bc_active_tx bc_free_list bc_queue bc_completed_cookie bc_cookie setf updf]; try apply H.
  - unfold put_desc. rewrite length_insert, <- Hperm. by rewrite <- (Permutation_middle (bc_queue c)).
  - intros d' t2 Hd' Ht2. destruct (Hq d' Hd') as (? & ? & ?). rewrite desc_put_ne in Ht2 by (done || congruence).
    apply (Hen d'); [|done]. by apply list_elem_of_further.
  - cbn in Hck. rewrite Ht in Hck. cbn in Hck. destruct Hck as [_ Hck]. rewrite cookies_put; [done| |done|].
    + intros d' Hd'. destruct (Hq d') as (? & ? & _); [in_parts|]. split; [congruence|done].
    + intros Hd'. destruct (Hq d) as (_ & _ & []); [in_parts|done].
Qed.

(** A client takes a free descriptor, and gives one to the queue. *)
Lemma in_order_prep p held c l d fl t t' : in_order p held c l -> bc_free_list c = d :: fl -> desc_at l d = Some t -> left_of t t' ->
  in_order p (d :: held) (setf bc_free_list fl c) (put_desc l d t').
Proof.
  intros H Hf Ht Hl. assert (d ∈ work c ++ bc_free_list c ++ held) as Hd.
  { rewrite Hf, !elem_of_app. right. left. apply list_elem_of_here. }
  pose proof (in_order_put p held c l d t t' H Hd Ht Hl) as H'. split; try apply H'.
  - rewrite <- (io_parts _ _ _ _ H'), Hf. apply (Permutation_app_head (work c)). symmetry. apply (Permutation_middle fl held d).
  - intros d' t2 Hd' Ht2. destruct (decide (d' = d)) as [->|Hne].
    + rewrite (desc_put_eq _ _ _ t) in Ht2 by done. injection Ht2 as <-. apply Hl.
    + apply (io_entries _ _ _ _ H' d'); [|done]. change (work (setf bc_free_list fl c)) with (work c) in Hd'.
      rewrite elem_of_app in *. destruct Hd' as [|[-> |]%elem_of_cons]; [by left|done|by right].
Qed.

Lemma without_perm {A} `{!EqDecision A} (x : A) l : NoDup l -> x ∈ l -> l ≡ₚ x :: filter (.≠ x) l.
Proof.
  intros Hnd Hx. apply NoDup_Permutation; [done|constructor; [|by apply NoDup_filter]|].
  - rewrite list_elem_of_filter. by intros [].
  - intros y. rewrite elem_of_cons, list_elem_of_filter. destruct (decide (y = x)) as [->|]; tauto.
Qed.

Lemma in_order_submit p held c l d t t' : in_order p held c l -> d ∈ held -> desc_at l d = Some t ->
  td_cookie t' = next_cookie (bc_cookie c) -> td_sg t' = td_sg t -> td_sg_len t' = td_sg_len t ->
  in_order p (filter (.≠ d) held) (setf bc_queue (bc_queue c ++ [d]) (setf bc_cookie (next_cookie (bc_cookie c)) c)) (put_desc l d t').
Proof.
  intros H Hd Ht Ec Es El. pose proof (parts_NoDup H) as Hnd. pose proof (fun d' => parts_desc H d') as Hparts.
  assert (NoDup held) as Hndh by (by apply NoDup_app in Hnd as (_ & _ & (_ & _ & Hnd)%NoDup_app)).
  pose proof (without_perm d held Hndh Hd) as Hperm. destruct (Hparts d) as (Ep & Hd0 & _); [in_parts|].
  assert (d ∉ work c) as Hw. { intros Hw. apply NoDup_app in Hnd as (_ & Hnd & _). apply (Hnd d Hw). in_parts. }
  set (c' := setf bc_queue _ _). assert (work c' = work c ++ [d]) as Ew by (unfold work; cbn; by rewrite (assoc_L (++))).
  split; try apply H.
  - rewrite Ew. unfold put_desc. rewrite length_insert, <- (io_parts _ _ _ _ H), <- (assoc_L (++)). apply (Permutation_app_head (work c)).
    etrans; [apply (Permutation_middle (bc_free_list c) _ d)|]. apply Permutation_app_head. by symmetry.
  - intros d' t2 Hd' Ht2. rewrite Ew in Hd'. destruct (decide (d = d')) as [<-|Hne].
    + rewrite (desc_put_eq _ _ _ t) in Ht2 by done. injection Ht2 as <-. pose proof (io_entries _ _ _ _ H d t) as Hok.
      unfold entries_ok in *. rewrite Es, El. apply Hok; [in_parts|done].
    + assert (d' ∈ work c ++ held) as Hin.
      { rewrite !elem_of_app, list_elem_of_singleton, list_elem_of_filter in *. destruct Hd' as [[Hd'| ->]|[Hx Hd']]; [tauto|done|tauto]. }
      destruct (Hparts d') as (Ep' & Hd0' & _); [in_parts|]. rewrite desc_put_ne in Ht2 by (done || congruence).
      by apply (io_entries _ _ _ _ H d').
  - rewrite Ew. unfold cookies. rewrite fmap_app. cbn [fmap list_fmap]. rewrite (desc_put_eq _ _ _ t) by done. cbn. rewrite Ec.
    fold (cookies (put_desc l d t') (work c)). rewrite cookies_put; [apply cookie_chain_snoc, H| |done|by intros ?].
    intros d' Hd'. destruct (Hparts d') as (? & ? & _); [in_parts|]. split; [congruence|done].
Qed.

Lemma filter_less {A} (P Q : A -> Prop) `{!forall x, Decision (P x), !forall x, Decision (Q x)} (l : list A) x :
  (forall y, y ∈ l -> Q y -> P y) -> x ∈ l -> P x -> ~ Q x -> (length (filter Q l) < length (filter P l))%nat.
Proof.
  intros HQ Hx HP Hn. induction l as [|y l IH]; [by apply elem_of_nil in Hx|].
  assert (length (filter Q l) <= length (filter P l))%nat as Hle.
  { clear IH Hx. assert (forall z, z ∈ l -> Q z -> P z) as HPQ by (intros z Hz; apply HQ; by apply list_elem_of_further).
    clear HQ. induction l as [|z l IH]; [done|]. rewrite !filter_cons. pose proof (HPQ z (list_elem_of_here _ _)).
    assert (forall z, z ∈ l -> Q z -> P z) by (intros z' Hz'; apply HPQ; by apply list_elem_of_further).
    specialize (IH ltac:(done)). repeat case_decide; simpl; try lia. tauto. }
  rewrite !filter_cons. apply elem_of_cons in Hx as [<-|Hx].
  - repeat case_decide; simpl; try done. lia.
  - pose proof (HQ y (list_elem_of_here _ _)). specialize (IH (fun z Hz => HQ z (list_elem_of_further _ _ _ Hz)) Hx).
    repeat case_decide; simpl; try lia. tauto.
Qed.

Section running.
Context {W : Type} `{!KernelEnv W} `{!Tsi721Hw W} `{!Tsi721Callbacks W} `{!DmaCore W} `{!QuietDma W} `{!ByteMemory W}
  `{!QuietCallbacks W}.
Variables (ch : Z) (p : ptr).
Abbreviation at_chan := (at_chan ch p).

(** A channel that works as it should. *)
Definition running (held : list txd_ptr) (s : tstate W) : Prop :=
  exists c l, chan_fit ch c /\ in_order p held c l /\ at_chan c l s.

Lemma desc_of held c l d : in_order p held c l -> d ∈ work c ++ bc_free_list c ++ held ->
  d.1 = p /\ 0 <= d.2 /\ exists t, desc_at l d = Some t.
Proof. intros H Hd. destruct (parts_desc H d Hd) as (? & ? & [t ?]). eauto. Qed.
Lemma free_good held c l d : in_order p held c l -> head (bc_free_list c) = Some d -> good_desc p l d.
Proof.
  intros H Hd. apply (parts_desc H). destruct (bc_free_list c); [done|]. injection Hd as ->. rewrite !elem_of_app.
  right. left. apply list_elem_of_here.
Qed.

Lemma active_goes held c l s d : chan_fit ch c -> in_order p held c l -> at_chan c l s -> idle_at ch (tmem s) ->
  bc_active_tx c = Some d ->
  total (err <- tsi721_submit_sg ch d ;; if err =? 0 then tsi721_start_dma ch else tsi721_dma_tx_err ch d) s (fun _ => running held).
Proof.
  intros Hc H Hs Hi Ha. assert (d ∈ work c ++ held) as Hd by (unfold work; rewrite Ha; by apply list_elem_of_here).
  destruct (desc_of held c l d H) as (Ep & Hd0 & t & Ht); [in_parts|].
  apply spec_bind. eapply spec_mono; [eapply (spec_submit _ p); try done; by eapply (io_entries _ _ _ _ H d)|].
  intros err s1 (-> & t' & n & Hs1 & Hl). change (0 =? 0) with true. cbv iota.
  assert (chan_fit ch (setf bc_wr_count_next n c)) as Hc1 by (by destruct Hc).
  eapply spec_mono; [by eapply spec_start|]. intros _ s2 [m Hs2]. eexists _, _. split; [|split; [|exact Hs2]]; [by destruct Hc1|].
  eapply work_moved; [eapply in_order_put; [exact H| |exact Ht|exact Hl]|done..]. in_parts.
Qed.

Lemma spec_advance held c l s o : chan_fit ch c -> in_order p held c l -> at_chan c l s -> o = None \/ o = bc_active_tx c ->
  total (tsi721_advance_work ch o) s (fun _ => running held).
Proof.
  intros Hc H Hs Ho. pose proof (cf_ch _ _ Hc) as Hch. unfold tsi721_advance_work. apply spec_bind.
  eapply spec_is_idle; [done..|]. intros b s1 Hs1 Hi. apply spec_when; [|intros _; by exists c, l]. intros Hb. specialize (Hi Hb).
  srun (chan_read ch p c l s1 (proj1 Hch) Hs1).
  destruct o as [d|].
  { destruct Ho as [|Ho]; [done|]. eapply spec_run; [done|]. by eapply active_goes. }
  destruct (bc_active_tx c) as [d|] eqn:Ea; [eapply spec_run; [done|]; by exists c, l|].
  destruct (bc_queue c) as [|d q] eqn:Eq; [eapply spec_run; [done|]; by exists c, l|].
  assert (work c = d :: q) as Ew by (unfold work; by rewrite Ea, Eq).
  destruct (desc_of held c l d H) as (Ep & Hd0 & t & Ht); [rewrite Ew; by apply list_elem_of_here|].
  apply spec_assoc. srun (desc_read ch p c l d t s1 Hs1 Ep Hd0 Ht). apply spec_assoc.
  assert (forall d', head q = Some d' -> good_desc p l d') as Hq.
  { intros d' Hd'. apply (parts_desc H). rewrite Ew. destruct q; [done|]. injection Hd' as ->.
    apply elem_of_app. left. apply list_elem_of_further, list_elem_of_here. }
  srun (run_touch ch p c l _ s1 Hs1 Hq). apply spec_assoc, spec_bind.
  eapply spec_upd_chan; [lia|done|]. intros s2 Hs2 Hw. eapply spec_run; [done|].
  eapply active_goes; [| |exact Hs2|by rewrite Hw|done]; [by destruct Hc|].
  eapply work_moved; [exact H|..]; try done.
Qed.

Lemma linked_false c d : d ∉ bc_queue c -> d ∉ bc_free_list c -> linked c d = false.
Proof. intros H1 H2. unfold linked. by rewrite !bool_decide_eq_false_2. Qed.

Lemma spec_retire held c l s d status : chan_fit ch c -> in_order p held c l -> at_chan c l s -> bc_active_tx c = Some d ->
  total (retire ch d status) s (fun _ => running held).
Proof.
  intros Hc H Hs Ha. pose proof (cf_ch _ _ Hc) as Hch. pose proof (parts_NoDup H) as Hnd.
  assert (work c = d :: bc_queue c) as Ew by (unfold work; by rewrite Ha).
  destruct (desc_of held c l d H) as (Ep & Hd0 & t & Ht); [rewrite Ew; apply list_elem_of_here|].
  pose proof (io_cookies _ _ _ _ H) as Hck. rewrite Ew in Hck, Hnd. cbn in Hck. rewrite Ht in Hck. destruct Hck as [Ect _]. cbn in Ect.
  cbn [app] in Hnd. apply NoDup_cons in Hnd as [Hnd _]. pose proof (next_cookie_range (bc_completed_cookie c)).
  unfold retire. apply spec_bind. eapply spec_upd_desc; [done..|]. intros s1 Hs1 _.
  unfold dma_cookie_complete. apply spec_assoc.
  eapply (spec_run _ _ _ _ _ _ s1); [eapply desc_read; [exact Hs1|done..|by eapply desc_put_eq]|]. cbn [td_cookie setf updf].
  unfold DMA_MIN_COOKIE. destruct (Z.ltb_spec (td_cookie t) 1); [lia|]. apply spec_assoc, spec_bind.
  eapply spec_upd_chan; [lia|exact Hs1|]. intros s2 Hs2 _. apply spec_bind.
  eapply spec_upd_desc; [exact Hs2|done..|by eapply desc_put_eq|]. intros s3 Hs3 _. rewrite put_put in Hs3.
  unfold list_add_free. apply spec_assoc.
  eapply (spec_run _ _ _ _ _ _ s3); [eapply desc_read; [exact Hs3|done..|by eapply desc_put_eq]|]. apply spec_assoc.
  srun (chan_read ch p _ _ s3 (proj1 Hch) Hs3). apply spec_assoc.
  eapply (spec_run _ _ _ _ _ _ s3); [eapply run_touch; [exact Hs3|]|].
  { intros d' Hd'. destruct (free_good held c l d' H Hd') as (? & ? & Hx). split_and!; [done..|].
    unfold desc_at, put_desc in *. rewrite lookup_lt_is_Some, length_insert, <- lookup_lt_is_Some. exact Hx. }
  rewrite linked_false by (cbn; intros ?; apply Hnd; in_parts). apply spec_bind. eapply spec_upd_chan; [lia|exact Hs3|]. intros s4 Hs4 _.
  apply spec_bind. eapply spec_upd_chan; [lia|exact Hs4|]. intros s5 Hs5 _.
  srun (chan_read ch p _ _ s5 (proj1 Hch) Hs5).
  pose proof (in_order_retire p held c l d t (setf td_cookie 0 (setf td_status status t)) H Ha Ht) as H'.
  apply spec_when; intros _; [|by eexists _, _; split; [|split; [exact H'|exact Hs5]]; destruct Hc].
  eapply spec_advance; [|exact H'|exact Hs5|by left]. by destruct Hc.
Qed.

(** *** The status FIFO

    Clearing it visits one line of 64 bytes after the other and stops at one that begins with zero:
    it ends after as many lines as there are. *)

Definition line_word (sts : Z) (w : W) (k : Z) : Z := le_value (dma_load (sts + 64 * k) 8 w).
Definition pending (sts size : Z) (w : W) : nat := length (filter (fun k => line_word sts w k <> 0) (zrange 0 size)).

Lemma pending_le sts size w : (pending sts size w <= Z.to_nat size)%nat.
Proof. unfold pending. etrans; [apply length_filter|]. unfold zrange. rewrite zseq_length. lia. Qed.

Lemma run_get64 a (s : tstate W) : dma_get64 a s = Done (le_value (dma_load a 8 (tmem s))) s.
Proof. by destruct s as [[]]. Qed.
Lemma run_put64 c l a v s : at_chan c l s -> exists s', dma_put64 a v s = Done tt s' /\ at_chan c l s' /\
  tmem s' = dma_store a (le_bytes 8 v) (tmem s).
Proof. intros Hs. eexists. split; [done|]. split; [by apply at_chan_blind|]. by destruct s as [[]]. Qed.

(** What clearing line [k] does to memory. *)
Definition line_cleared (sts k : Z) (w w' : W) : Prop :=
  line_word sts w' k = 0 /\ forall j, j <> k -> line_word sts w' j = line_word sts w j.

Lemma spec_clr_line c l sts k s : at_chan c l s -> line_word sts (tmem s) k <> 0 ->
  total (loop 9 (clr_entry sts) (0, k * 8)) s (fun _ s' => at_chan c l s' /\ line_cleared sts k (tmem s) (tmem s')).
Proof.
  intros Hs Hk. apply (spec_loop_measure _ _ (fun st s' => 0 <= st.1 <= 8 /\ st.2 = k * 8 + st.1 /\ at_chan c l s' /\
    line_word sts (tmem s') k = (if st.1 =? 0 then line_word sts (tmem s) k else 0) /\
    forall j, j <> k -> line_word sts (tmem s') j = line_word sts (tmem s) j) (fun st _ => Z.to_nat (8 - st.1)));
    [cbn; split_and!; try done; lia|cbn; lia|].
  intros [i j] s1 (Hi & Hj & Hs1 & Hk1 & Ho). cbn in Hi, Hj, Hk1. subst j. unfold clr_entry.
  destruct (Z.ltb_spec i 8).
  2: { apply spec_ret. split; [done|]. split; [|done]. by destruct (Z.eqb_spec i 0); [lia|]. }
  srun (run_get64 (sts + 8 * (k * 8 + i)) s1).
  destruct (truthy _) eqn:Ev.
  - destruct (run_put64 c l (sts + 8 * (k * 8 + i)) 0 s1 Hs1) as (s2 & E & Hs2 & Hw). srun E. apply spec_ret. cbn.
    assert (forall j, j <> k \/ i <> 0 -> line_word sts (tmem s2) j = line_word sts (tmem s1) j) as Hother.
    { intros j Hj. unfold line_word. rewrite Hw, mem_other; [done|]. rewrite le_bytes_length. lia. }
    split; [|lia]. split_and!; try done; try lia.
    + destruct (Z.eqb_spec (i + 1) 0); [lia|]. destruct (Z.eqb_spec i 0) as [->|].
      * unfold line_word. rewrite Hw. replace (sts + 8 * (k * 8 + 0)) with (sts + 64 * k) by lia.
        pose proof (mem_same (sts + 64 * k) (le_bytes 8 0) (tmem s1)) as Em. rewrite le_bytes_length in Em. by rewrite Em.
      * rewrite Hother by auto. done.
    + intros j Hj. rewrite Hother by auto. auto.
  - apply spec_ret. split; [done|]. split; [|done]. destruct (Z.eqb_spec i 0) as [->|]; [|done]. exfalso. apply Hk.
    rewrite <- Hk1. unfold truthy in Ev. apply negb_false_iff, Z.eqb_eq in Ev. rewrite <- Ev. unfold line_word. do 2 f_equal. lia.
Qed.

Lemma cleared_less sts size k w w' : 0 <= k < size -> line_word sts w k <> 0 -> line_cleared sts k w w' ->
  (pending sts size w' < pending sts size w)%nat.
Proof.
  intros Hk Hw [H0 Ho]. unfold pending. apply filter_less with k; [|by apply elem_of_zrange|done|by intros []].
  intros j _ Hj. destruct (decide (j = k)) as [->|]; [done|]. by rewrite <- Ho.
Qed.

Lemma spec_clr_stat fuel c l s : chan_fit ch c -> at_chan c l s -> (Z.to_nat (bc_sts_size c) < fuel)%nat ->
  total (tsi721_clr_stat fuel ch) s (fun _ s' => exists n, 0 <= n < bc_sts_size c /\ at_chan (setf bc_sts_rdptr n c) l s').
Proof.
  intros Hc Hs Hfuel. pose proof (cf_ch _ _ Hc) as Hch. destruct (cf_sts _ _ Hc) as [sts Hsts]. pose proof (cf_size _ _ Hc) as Hsz.
  pose proof (cf_rdptr _ _ Hc) as Hrd. unfold tsi721_clr_stat. srun (chan_read ch p c l s (proj1 Hch) Hs). rewrite Hsts.
  eapply spec_run; [done|]. apply spec_bind.
  apply (spec_loop_measure _ _ (fun k s' => 0 <= k < bc_sts_size c /\ at_chan c l s') (fun _ s' => pending sts (bc_sts_size c) (tmem s'))).
  - done.
  - pose proof (pending_le sts (bc_sts_size c) (tmem s)). lia.
  - intros k s1 [Hk Hs1]. unfold clr_step. srun (run_get64 (sts + 8 * (k * 8)) s1).
    replace (sts + 8 * (k * 8)) with (sts + 64 * k) by lia. fold (line_word sts (tmem s1) k).
    destruct (truthy _) eqn:Ev.
    + unfold truthy in Ev. apply negb_true_iff, Z.eqb_neq in Ev. apply spec_bind. eapply spec_mono; [by eapply spec_clr_line|].
      intros _ s2 [Hs2 Hcl]. destruct (Z.eqb_spec (bc_sts_size c) 0); [lia|]. apply spec_ret. rewrite Z.rem_mod_nonneg by (pose proof (u32_range (k + 1)); lia).
      split; [|by eapply cleared_less]. split; [|done]. apply Z.mod_pos_bound. lia.
    + apply spec_ret. eapply spec_cwrite_bind; [done..|]. intros s2 Hs2. eapply spec_upd_chan; [lia|done|]. eauto.
Qed.

(** *** The tasklet *)

(** Changes of a channel that keep it in order, and fit. *)
Lemma running_upd held c l (s : tstate W) c' : chan_fit ch c -> in_order p held c l -> at_chan c' l s -> bc_regs c' = bc_regs c ->
  bc_bd_base c' = bc_bd_base c -> bc_sts_base c' = bc_sts_base c -> bc_bd_num c' = bc_bd_num c -> bc_sts_size c' = bc_sts_size c ->
  0 <= bc_sts_rdptr c' < bc_sts_size c -> work c' = work c -> bc_free_list c' = bc_free_list c ->
  bc_active c' = bc_active c -> bc_tx_desc c' = bc_tx_desc c -> bc_cookie c' = bc_cookie c ->
  bc_completed_cookie c' = bc_completed_cookie c -> chan_fit ch c' /\ in_order p held c' l.
Proof.
  intros [] H Hs E1 E2 E3 E4 E5 E6 E7 E8 E9 E10 E11 E12. split; [|by eapply work_moved].
  split; unfold has_regs in *; rewrite ?E1, ?E2, ?E3, ?E4, ?E5; done.
Qed.

Lemma fine_set_rings c l bd sts n : has_regs ch c -> fine False False (at_chan c l) any (set_rings ch bd sts n).
Proof.
  intros Hc. unfold set_rings. repeat (eapply fine_bind; [by apply fine_cwrite|intros _ _]).
  eapply fine_bind; [by apply fine_cread|]. intros _ _. by apply fine_ret.
Qed.
Lemma fine_abort_wait c l : has_regs ch c -> fine False False (at_chan c l) any (loop (Z.to_nat 10001) (abort_wait ch) 10000).
Proof.
  intros Hc. apply (fine_loop _ _ _ _ (fun i => 0 < i <= 10000) Z.to_nat); [lia|lia|]. intros i Hi. unfold abort_wait.
  eapply fine_bind; [apply fine_tdelay; typeclasses eauto|intros _ _]. eapply fine_bind; [by apply fine_cread|]. intros v _.
  apply fine_ret. unfold truthy at 2. destruct (Z.eqb_spec (i - 1) 0); [by rewrite andb_false_r|]. destruct (truthy _); simpl; [lia|done].
Qed.

Lemma spec_tasklet_error held c l s d fuel : chan_fit ch c -> in_order p held c l -> at_chan c l s -> bc_active_tx c = Some d ->
  (Z.to_nat (bc_sts_size c) < fuel)%nat -> total (tasklet_error fuel ch) s (fun _ => running held).
Proof.
  intros Hc H Hs Ha Hfuel. pose proof (cf_ch _ _ Hc) as Hch. destruct (cf_base _ _ Hc) as [b Hb]. destruct (cf_sts _ _ Hc) as [sts Hsts].
  destruct (desc_of held c l d H) as (Ep & Hd0 & t & Ht); [unfold work; rewrite Ha; apply list_elem_of_here|].
  unfold tasklet_error. srun (chan_read ch p c l s (proj1 Hch) Hs). eapply spec_cread_bind; [done..|]. intros v s1 _ Hs1.
  rewrite Ha. eapply spec_run; [done|]. srun (desc_read ch p c l d t s1 Hs1 Ep Hd0 Ht).
  destruct (_ =? 0); [apply spec_ret; by exists c, l|].
  apply spec_bind. eapply spec_mono; [by eapply spec_clr_stat|]. intros _ s2 (n & Hn & Hs2).
  edestruct (running_upd held c l s2) as [Hc2 H2]; first [exact Hs2|done|cbn; lia|idtac].
  eapply spec_cwrite_bind; [done..|]. intros s3 Hs3. eapply spec_at; [done|by apply fine_abort_wait, cf_regs|]. intros v' s4 _ Hs4.
  destruct (truthy _); [apply spec_ret; by eexists _, _|].
  cbn [bc_bd_base bc_sts_base setf updf]. rewrite Hb, Hsts. do 2 (eapply spec_run; [done|]).
  eapply spec_at; [done|by apply fine_set_rings, cf_regs|]. intros _ s5 _ Hs5. apply spec_bind.
  eapply spec_upd_chan; [lia|done|]. intros s6 Hs6 _.
  eapply spec_at; [done|apply fine_tdelay; typeclasses eauto|]. intros _ s7 _ Hs7.
  srun (chan_read ch p _ _ s7 (proj1 Hch) Hs7). cbn [bc_active_tx setf updf]. rewrite Ha. eapply spec_run; [done|].
  pose proof (cf_size _ _ Hc). edestruct (running_upd held c l s7) as [Hc7 H7]; first [exact Hs7|done|cbn; lia|idtac].
  apply spec_bind. eapply spec_mono; [eapply spec_retire; [exact Hc7|exact H7|exact Hs7|done]|]. intros ? s8 Hs8. by apply spec_ret.
Qed.

Lemma running_callback held callback param s : running held s ->
  total (dma_callback_call callback param) s (fun _ => running held).
Proof.
  intros (c & l & Hc & H & [H1 H2 H3 H4]). eapply spec_mono; [apply callback_quiet|]. intros _ s' (E1 & E2 & E3).
  exists c, l. split; [done|]. split; [done|]. split; by rewrite ?E1, ?E2, ?E3.
Qed.

Lemma spec_tasklet_done held c l s d fuel : chan_fit ch c -> in_order p held c l -> at_chan c l s -> bc_active_tx c = Some d ->
  (Z.to_nat (bc_sts_size c) < fuel)%nat -> total (tasklet_done fuel ch) s (fun _ => running held).
Proof.
  intros Hc H Hs Ha Hfuel. pose proof (cf_ch _ _ Hc) as Hch.
  destruct (desc_of held c l d H) as (Ep & Hd0 & t & Ht); [unfold work; rewrite Ha; apply list_elem_of_here|].
  unfold tasklet_done. apply spec_bind. eapply spec_mono; [by eapply spec_clr_stat|]. intros _ s2 (n & Hn & Hs2).
  edestruct (running_upd held c l s2) as [Hc2 H2]; first [exact Hs2|done|cbn; lia|idtac].
  srun (chan_read ch p _ l s2 (proj1 Hch) Hs2). cbn [bc_active_tx setf updf]. rewrite Ha. eapply spec_run; [done|].
  srun (desc_read ch p _ l d t s2 Hs2 Ep Hd0 Ht). destruct (_ =? 0).
  - apply spec_bind. eapply spec_mono; [by eapply spec_retire|]. intros ? s3 Hs3.
    destruct (if truthy _ then _ else _); [by apply running_callback|by apply spec_ret].
  - apply spec_when; intros _; [|by eexists _, _]. eapply spec_advance; [exact Hc2|exact H2|exact Hs2|right; done].
Qed.

(** *** What clients and interrupts do *)

Lemma spec_prep held c l s sgl sg_len dir flags rext : chan_fit ch c -> in_order p held c l -> at_chan c l s ->
  (forall sg, sgl = Some sg -> sg_len <= Z.of_nat (length sg) < 2 ^ 32 /\ Forall (fun e => sg_dma_len e <= TSI721_BDMA_MAX_BCOUNT) sg) ->
  total (tsi721_prep_rio_sg ch sgl sg_len dir flags rext) s (fun r s' =>
    match r with inr d => running (d :: held) s' | inl _ => running held s' end).
Proof.
  intros Hc H Hs Hsg. pose proof (cf_ch _ _ Hc) as Hch. unfold tsi721_prep_rio_sg.
  destruct sgl as [sg|]; [|apply spec_ret; by exists c, l]. destruct (sg_len =? 0); [apply spec_ret; by exists c, l|].
  destruct (rio_rtype _ _) as [rtype|]; [|apply spec_ret; by exists c, l].
  srun (chan_read ch p c l s (proj1 Hch) Hs). destruct (bc_free_list c) as [|d fl] eqn:Ef; [apply spec_ret; by exists c, l|].
  destruct (desc_of held c l d H) as (Ep & Hd0 & t & Ht); [rewrite Ef, !elem_of_app; right; left; apply list_elem_of_here|].
  srun (desc_read ch p c l d t s Hs Ep Hd0 Ht).
  assert (forall d', head fl = Some d' -> good_desc p l d') as Hfl.
  { intros d' Hd'. apply (parts_desc H). rewrite Ef, !elem_of_app. right. left. destruct fl; [done|]. injection Hd' as ->.
    apply list_elem_of_further, list_elem_of_here. }
  srun (run_touch ch p c l _ s Hs Hfl). apply spec_bind. eapply spec_upd_chan; [lia|done|]. intros s1 Hs1 _.
  apply spec_bind. eapply spec_upd_desc; [done..|]. intros s2 Hs2 _. apply spec_ret.
  eexists _, _. split; [|split; [|exact Hs2]]; [by destruct Hc|]. eapply in_order_prep; [done..|]. split; [done|]. by apply Hsg.
Qed.

Lemma spec_submit_call held c l s d : chan_fit ch c -> in_order p held c l -> at_chan c l s -> d ∈ held ->
  total (tsi721_tx_submit ch d) s (fun r s' => r = next_cookie (bc_cookie c) /\ running (filter (.≠ d) held) s').
Proof.
  intros Hc H Hs Hd. pose proof (cf_ch _ _ Hc) as Hch. pose proof (parts_NoDup H) as Hnd.
  destruct (desc_of held c l d H) as (Ep & Hd0 & t & Ht); [in_parts|].
  assert ((d ∉ bc_queue c) /\ (d ∉ bc_free_list c)) as [Hq Hf].
  { apply NoDup_app in Hnd as (_ & Hw & (_ & Hf & _)%NoDup_app). split; intros Hx; [|by apply (Hf d)].
    apply (Hw d); [unfold work|]; in_parts. }
  unfold tsi721_tx_submit. srun (desc_read ch p c l d t s Hs Ep Hd0 Ht). srun (chan_read ch p c l s (proj1 Hch) Hs).
  rewrite (linked_false c d Hq Hf), (io_active _ _ _ _ H). cbn [negb]. unfold dma_cookie_assign. apply spec_assoc.
  srun (chan_read ch p c l s (proj1 Hch) Hs). apply spec_assoc, spec_bind. eapply spec_upd_chan; [lia|done|]. intros s1 Hs1 _.
  apply spec_assoc, spec_bind. eapply spec_upd_desc; [exact Hs1|done..|]. intros s2 Hs2 _. eapply spec_run; [done|].
  apply spec_bind. eapply spec_upd_desc; [exact Hs2|done..|by eapply desc_put_eq|]. intros s3 Hs3 _. rewrite put_put in Hs3.
  unfold list_add_tail_queue. apply spec_assoc.
  eapply (spec_run _ _ _ _ _ _ s3); [eapply desc_read; [exact Hs3|done..|by eapply desc_put_eq]|]. apply spec_assoc.
  srun (chan_read ch p _ _ s3 (proj1 Hch) Hs3). apply spec_assoc.
  eapply (spec_run _ _ _ _ _ _ s3); [eapply run_touch; [exact Hs3|]|].
  { intros d' Hd'%last_Some_elem_of. destruct (desc_of held c l d' H) as (? & ? & t' & Ht'); [unfold work; cbn in Hd'; in_parts|].
    split_and!; [done..|]. unfold desc_at, put_desc. rewrite lookup_lt_is_Some, length_insert, <- lookup_lt_is_Some. by exists t'. }
  rewrite linked_false by done. apply spec_bind. eapply spec_upd_chan; [lia|exact Hs3|]. intros s4 Hs4 _.
  pose proof (in_order_submit p held c l d t (setf td_status DMA_IN_PROGRESS (setf td_cookie (next_cookie (bc_cookie c)) t))
    H Hd Ht eq_refl eq_refl eq_refl) as H'.
  apply spec_bind. eapply spec_mono; [eapply spec_advance; [|exact H'|exact Hs4|by left]; by destruct Hc|].
  intros ? s5 Hs5. by apply spec_ret.
Qed.
End running.

(** ** Allocating the channel's resources *)

Section alloc.
Context {W : Type} `{!KernelEnv W} `{!Tsi721Hw W} `{!Tsi721Callbacks W} `{!DmaCore W}.
Variables (ch : Z) (p : ptr) (dma_desc_per_channel dma_txqueue_sz : Z).
Context (Hnum : 0 <= dma_desc_per_channel < 2 ^ 30) (Hsz : 0 < dma_txqueue_sz < 2 ^ 31).
Abbreviation at_chan := (at_chan ch p).

(** The channel after registration. *)
Record registered (c : tsi721_bdma_chan) : Prop := {
  rg_regs : has_regs ch c; rg_id : bc_id c = ch; rg_base : bc_bd_base c = None;
  rg_active : bc_active_tx c = None; rg_queue : bc_queue c = []; rg_free : bc_free_list c = [];
}.

Lemma fine_msix_vector c l i : 0 <= i < TSI721_VECT_MAX -> fine False False (at_chan c l) any (msix_vector i : TM W Z).
Proof.
  intros Hi s Hs. unfold msix_vector, spec, bind, getp, gets. pose proof (ac_msix _ _ _ _ _ Hs) as Hm.
  destruct (lookup_lt_is_Some_2 (pv_msix (ts_priv s)) (Z.to_nat i)) as [v Hv]; [lia|].
  by rewrite (run_slot_get _ _ i v) by (done || lia).
Qed.
Lemma fine_request_irqs c l id : 0 <= id < 8 -> fine False False (at_chan c l) any (request_chan_irqs id : TM W Z).
Proof.
  intros Hid. unfold request_chan_irqs. eapply fine_bind; [apply fine_msix_vector; in_regs|intros v1 _].
  eapply (fine_bind _ _ _ any); [apply fine_hw_call; typeclasses eauto|intros rc _]. destruct (truthy rc); [by apply fine_ret|].
  eapply fine_bind; [apply fine_msix_vector; in_regs|intros v2 _].
  eapply (fine_bind _ _ _ any); [apply fine_hw_call; typeclasses eauto|intros rc2 _].
  eapply (fine_bind _ _ _ any); [apply fine_when; [done|intros _; apply fine_hw_do; typeclasses eauto]|intros _ _]. by apply fine_ret.
Qed.
Lemma fine_free_irqs c l id : 0 <= id < 8 -> fine False False (at_chan c l) any (free_chan_irqs id : TM W unit).
Proof.
  intros Hid. unfold free_chan_irqs. eapply fine_bind; [apply fine_msix_vector; in_regs|intros v1 _].
  eapply (fine_bind _ _ _ any); [apply fine_hw_do; typeclasses eauto|intros _ _].
  eapply fine_bind; [apply fine_msix_vector; in_regs|intros v2 _]. apply fine_hw_do. typeclasses eauto.
Qed.
Lemma fine_zalloc c l n : fine False False (at_chan c l) any (dma_zalloc n : TM W (option Z)).
Proof.
  unfold dma_zalloc. eapply (fine_bind _ _ _ any); [apply fine_hw_call; typeclasses eauto|intros o _].
  destruct o; [|by apply fine_ret]. eapply (fine_bind _ _ _ any); [apply fine_hw_do; typeclasses eauto|intros _ _]. by apply fine_ret.
Qed.
Lemma fine_using_msix c l : fine False False (at_chan c l) any (using_msix : TM W bool).
Proof. intros s Hs. done. Qed.

Lemma sts_size_range : 0 < roundup_pow_of_two (Z.max (dma_desc_per_channel + 1) TSI721_DMA_MINSTSSZ) < 2 ^ 32.
Proof.
  unfold roundup_pow_of_two, TSI721_DMA_MINSTSSZ. set (n := Z.max _ _).
  assert (Z.log2_up n <= 30) by (change 30 with (Z.log2_up (2 ^ 30)); apply Z.log2_up_le_mono; lia).
  pose proof (Z.log2_up_nonneg n). split; [by apply Z.pow_pos_nonneg|].
  apply Z.le_lt_trans with (2 ^ 30); [|done]. by apply Z.pow_le_mono_r.
Qed.

(** The channel is set up, its lists are still empty. *)
Definition set_up (c : tsi721_bdma_chan) : Prop :=
  chan_fit ch c /\ bc_id c = ch /\ bc_active_tx c = None /\ bc_queue c = [] /\ bc_free_list c = [].

Lemma spec_ch_init c l s : registered c -> at_chan c l s ->
  total (tsi721_bdma_ch_init ch dma_desc_per_channel) s (fun r s' => exists c', at_chan c' l s' /\
    (r < 0 \/ r = 0 /\ set_up c')).
Proof.
  intros [Hr Hid Hb Ha Hq Hf] Hs. pose proof (proj1 Hr) as Hch. unfold TSI721_DMA_MAXCH in Hch. pose proof sts_size_range as Hsts.
  unfold tsi721_bdma_ch_init. eapply spec_at; [done|apply fine_zalloc|]. intros [bd|] s1 _ Hs1; [|apply spec_ret; eexists; split; [done|by left]].
  apply spec_bind. eapply spec_upd_chan; [lia|done|]. intros s2 Hs2 _. cbv zeta.
  eapply spec_at; [done|apply fine_zalloc|]. intros [sts|] s3 _ Hs3.
  2: { eapply spec_at; [done|apply fine_hw_do; typeclasses eauto|]. intros _ s4 _ Hs4. apply spec_bind.
       eapply spec_upd_chan; [lia|done|]. intros s5 Hs5 _. apply spec_ret. eexists. split; [done|by left]. }
  apply spec_bind. eapply spec_upd_chan; [lia|done|]. intros s4 Hs4 _.
  set (c4 := setf bc_sts_base _ _) in Hs4. assert (has_regs ch c4) as Hr4 by done.
  do 3 (eapply spec_at; [eassumption|apply fine_dma_put; typeclasses eauto|]; intros _ ? _ ?).
  eapply spec_at; [eassumption|by apply fine_set_rings|]. intros _ s8 _ Hs8.
  eapply spec_at; [done|apply fine_using_msix|]. intros msix s9 _ Hs9. srun (chan_read ch p _ _ s9 (proj1 Hch) Hs9).
  eapply (spec_at _ _ _ _ _ _ any); [done| |].
  { destruct msix; [|by apply fine_ret]. apply fine_request_irqs. cbn. lia. }
  intros rc s10 _ Hs10. destruct (truthy rc).
  - eapply spec_at; [done|apply fine_hw_do; typeclasses eauto|]. intros _ s11 _ Hs11. apply spec_bind.
    eapply spec_upd_chan; [lia|done|]. intros s12 Hs12 _.
    eapply spec_at; [done|apply fine_hw_do; typeclasses eauto|]. intros _ s13 _ Hs13. apply spec_bind.
    eapply spec_upd_chan; [lia|done|]. intros s14 Hs14 _. apply spec_ret. eexists. split; [done|by left].
  - eapply spec_cwrite_bind; [done..|]. intros s11 Hs11. eapply spec_cread_bind; [done..|]. intros _ s12 _ Hs12. apply spec_bind.
    eapply spec_upd_chan; [lia|done|]. intros s13 Hs13 _.
    eapply spec_at; [done|apply fine_tdelay; typeclasses eauto|]. intros _ s14 _ Hs14. apply spec_ret.
    eexists. split; [done|]. right. split; [done|]. split; [|done]. split; cbn; (done || lia || by eexists).
Qed.

Lemma spec_ch_free c l s : set_up c -> at_chan c l s ->
  total (tsi721_bdma_ch_free ch) s (fun _ s' => exists c', at_chan c' l s').
Proof.
  intros [Hc [Hid _]] Hs. pose proof (cf_ch _ _ Hc) as Hch. destruct (cf_base _ _ Hc) as [b Hb]. destruct (cf_sts _ _ Hc) as [sts Hsts].
  unfold tsi721_bdma_ch_free. srun (chan_read ch p c l s (proj1 Hch) Hs). rewrite Hb, Hsts, Hid.
  eapply spec_cread_bind; [done..|]. intros v s1 _ Hs1. destruct (truthy _); [apply spec_ret; eauto|].
  eapply spec_cwrite_bind; [done..|]. intros s2 Hs2. eapply spec_at; [done|apply fine_using_msix|]. intros msix s3 _ Hs3.
  eapply (spec_at _ _ _ _ _ _ any); [done|apply fine_when; [done|intros _; by apply fine_free_irqs]|]. intros _ s4 _ Hs4.
  eapply spec_at; [done|apply fine_hw_do; typeclasses eauto|]. intros _ s5 _ Hs5. apply spec_bind.
  eapply spec_upd_chan; [lia|done|]. intros s6 Hs6 _. eapply spec_run; [done|].
  eapply spec_at; [done|apply fine_hw_do; typeclasses eauto|]. intros _ s7 _ Hs7. apply spec_bind.
  eapply spec_upd_chan; [lia|done|]. intros s8 Hs8 _. apply spec_ret. eauto.
Qed.

Lemma fine_chan_kzalloc c l : fine False False (at_chan c l) any (core kzalloc : TM W bool).
Proof.
  intros s []. unfold spec, core, lift, lift_k, kzalloc, bind, hw_call. cbn.
  destruct (env_alloc _) as [[] w]; cbn; by split.
Qed.
End alloc.

Section allocation.
Context {W : Type} `{!KernelEnv W} `{!Tsi721Hw W} `{!Tsi721Callbacks W} `{!DmaCore W}.
Variables (ch : Z) (p : ptr) (dma_desc_per_channel dma_txqueue_sz : Z).
Context (Hnum : 0 <= dma_desc_per_channel < 2 ^ 30) (Hsz : 0 < dma_txqueue_sz < 2 ^ 31).

(** All descriptors go to the free list, the last one to its head. *)
Lemma spec_fill_free q c l n (s : tstate W) : 0 <= ch -> at_chan ch q c l s -> length l = n -> bc_queue c = [] -> bc_free_list c = [] ->
  total (for_ (zrange 0 (Z.of_nat n)) (fun i => list_add_free ch (q, i))) s (fun _ s' => exists fl,
    at_chan ch q (setf bc_free_list fl c) l s' /\ fl ≡ₚ all_descs q n).
Proof.
  intros Hch Hs Hl Hq Hf.
  apply (spec_for _ _ (fun rest s' => exists k fl, 0 <= k /\ rest = zrange k (Z.of_nat n) /\ k <= Z.of_nat n /\
    at_chan ch q (setf bc_free_list fl c) l s' /\ fl ≡ₚ all_descs q (Z.to_nat k))).
  - exists 0, []. split_and!; [done|done|lia| |done]. rewrite <- Hf. by destruct c.
  - intros i rest s' (k & fl & Hk & E & Hle & Hs' & Hfl).
    destruct (decide (k < Z.of_nat n)); [|rewrite zrange_nil in E by lia; done]. rewrite zrange_cons in E by lia. injection E as -> ->.
    assert (is_Some (l !! Z.to_nat k)) as [t Ht] by (apply lookup_lt_is_Some; lia).
    unfold list_add_free. srun (desc_read ch q _ l (q, k) t s' Hs' eq_refl Hk Ht). srun (chan_read ch q _ l s' Hch Hs').
    assert (forall d, d ∈ fl -> d.1 = q /\ 0 <= d.2 < k) as Hin.
    { intros d Hd. rewrite Hfl, elem_all_descs in Hd. lia || (destruct Hd; split; [done|lia]). }
    eapply (spec_run _ _ _ _ _ _ s'); [eapply run_touch; [exact Hs'|]|].
    { intros d Hd. destruct (Hin d) as (? & ?); [destruct fl; [done|]; injection Hd as ->; apply list_elem_of_here|].
      split_and!; [done|lia|]. apply lookup_lt_is_Some. lia. }
    rewrite linked_false; [|cbn; rewrite Hq; apply not_elem_of_nil|cbn; intros Hd; destruct (Hin _ Hd) as [_ Hd2]; cbn in Hd2; lia].
    eapply spec_upd_chan; [done|exact Hs'|]. intros s2 Hs2 _. exists (k + 1), ((q, k) :: fl).
    split_and!; [lia|done|lia|exact Hs2|]. rewrite Hfl. unfold all_descs. replace (Z.to_nat (k + 1)) with (S (Z.to_nat k)) by lia.
    rewrite seq_S, fmap_app. cbn. rewrite Z2Nat.id by done. apply Permutation_cons_append.
  - intros s' (k & fl & Hk & E & Hle & Hs' & Hfl). exists fl. split; [done|].
    destruct (decide (k < Z.of_nat n)); [by rewrite zrange_cons in E by lia|]. by replace n with (Z.to_nat k) by lia.
Qed.

(** A registered channel of a bridge with a port and its interrupt vectors. *)
Definition at_start (c : tsi721_bdma_chan) (s : tstate W) : Prop :=
  registered ch c /\ pv_bdma (ts_priv s) !! Z.to_nat ch = Some c /\
  Z.of_nat (length (pv_msix (ts_priv s))) = TSI721_VECT_MAX /\ is_Some (ks_mports (ms_k (ts_m s)) !! pv_mport (ts_priv s)).

Lemma spec_alloc c s : at_start c s ->
  total (tsi721_alloc_chan_resources dma_desc_per_channel dma_txqueue_sz ch) s (fun r s' =>
    r < 0 \/ r = dma_txqueue_sz /\ exists q, running ch q [] s').
Proof.
  intros (Hr & Hc & Hm & Hp). pose proof (proj1 (rg_regs _ _ Hr)) as Hch.
  assert (at_chan ch p c (default [] (ts_txds s !! p)) s) as Hs by done. set (l := default [] _) in Hs.
  unfold tsi721_alloc_chan_resources. srun (chan_read ch p c l s (proj1 Hch) Hs). rewrite (rg_base _ _ Hr).
  apply spec_bind. eapply spec_mono; [by eapply spec_ch_init|]. intros err s1 (c1 & Hs1 & [Herr|[-> Hc1]]).
  { unfold truthy. destruct (Z.eqb_spec err 0); [lia|]. apply spec_ret. by left. }
  change (truthy 0) with false. cbv iota. eapply spec_at; [done|apply fine_chan_kzalloc|]. intros [] s2 _ Hs2; cbn [negb].
  2: { apply spec_bind. eapply spec_mono; [by eapply spec_ch_free|]. intros _ s3 _. apply spec_ret. by left. }
  pose proof Hc1 as (Hfit & _ & Ha & Hq & Hf). set (q := ks_fresh (ms_k (ts_m s2))).
  set (l2 := replicate (Z.to_nat dma_txqueue_sz) zero_tx_desc).
  set (s3 := setf ts_txds (<[q := l2]> (ts_txds s2))
    (setf ts_m (setf ms_k (setf ks_fresh (Pos.succ q) (ms_k (ts_m s2))) (ts_m s2)) s2)).
  assert (at_chan ch q c1 l2 s3) as Hs3.
  { destruct Hs2. split; [done| |done|done]. unfold s3. cbn. by rewrite lookup_insert_eq. }
  eapply spec_run; [done|]. eapply (spec_run _ _ _ _ _ _ s3); [done|].
  apply spec_bind. eapply spec_upd_chan; [lia|exact Hs3|]. intros s4 Hs4 _. apply spec_bind.
  assert (length l2 = Z.to_nat dma_txqueue_sz) as Hl by apply length_replicate.
  eapply spec_mono; [replace (zrange 0 dma_txqueue_sz) with (zrange 0 (Z.of_nat (Z.to_nat dma_txqueue_sz))) by (f_equal; lia);
    eapply spec_fill_free; [lia|exact Hs4|done..]|].
  intros _ s5 (fl & Hs5 & Hfl). apply spec_bind. eapply spec_upd_chan; [lia|exact Hs5|]. intros s6 Hs6 _. apply spec_bind.
  eapply spec_upd_chan; [lia|exact Hs6|]. intros s7 Hs7 _.
  assert (has_regs ch c1) as Hregs by done. unfold tsi721_bdma_interrupt_enable.
  apply spec_assoc. eapply spec_cwrite_bind; [exact Hs7|done..|]. intros s8 Hs8.
  apply spec_assoc. eapply spec_cread_bind; [exact Hs8|done..|]. intros _ s9 _ Hs9.
  eapply spec_cwrite_bind; [exact Hs9|done..|]. intros s10 Hs10. apply spec_ret. rewrite s32_small by lia. right. split; [done|].
  exists q. eexists _, _. split; [|split; [|exact Hs10]]; [by destruct Hfit|].
  split; cbn; [done|done|..]; unfold work; cbn; rewrite Ha, Hq; cbn; [by rewrite app_nil_r, Hl| |done].
  intros d t Hd. by apply elem_of_nil in Hd.
Qed.
End allocation.

(** ** Any sequence of calls *)

(** The status of a cookie is read as well. *)
Inductive dma_event :=
| EV_PREP (sgl : option (list sg_entry)) (sg_len : Z) (dir : dma_transfer_direction) (flags : Z) (rext : rio_dma_ext)
| EV_SUBMIT (txd : txd_ptr)
| EV_ISSUE_PENDING
| EV_TX_STATUS (cookie : Z)
| EV_INTERRUPT (msix : bool)
| EV_TASKLET.

Section events.
Context {W : Type} `{!KernelEnv W} `{!Tsi721Hw W} `{!Tsi721Callbacks W} `{!DmaCore W}.
Variables (ch : Z) (fuel : nat).

(** The value tells what becomes of the set of descriptors that clients hold. *)
Definition dma_do (e : dma_event) : TM W (list txd_ptr -> list txd_ptr) :=
  match e with
  | EV_PREP sgl n dir flags rext => r <- tsi721_prep_rio_sg ch sgl n dir flags rext ;;
      ret (fun held => match r with inr d => d :: held | inl _ => held end)
  | EV_SUBMIT d => r <- tsi721_tx_submit ch d ;; ret (fun held => if r <? 0 then held else filter (.≠ d) held)
  | EV_ISSUE_PENDING => tsi721_issue_pending ch ;;; ret (fun held => held)
  | EV_TX_STATUS cookie => tsi721_tx_status ch cookie ;;; ret (fun held => held)
  | EV_INTERRUPT msix => (if msix : bool then tsi721_bdma_msix ch else tsi721_bdma_handler ch) ;;; ret (fun held => held)
  | EV_TASKLET => tasklet_run fuel ch ;;; ret (fun held => held)
  end.

Definition DONE_BITS : Z := Z.lor TSI721_DMAC_INT_DONE TSI721_DMAC_INT_IOFDONE.

(** A client submits what it has prepared, with a list that is long enough and entries that
    are small enough; the hardware reports the end or the failure of a transfer that is active. *)
Definition dma_ok (held : list txd_ptr) (e : dma_event) (s : tstate W) : Prop :=
  match e with
  | EV_PREP sgl n _ _ _ => forall sg, sgl = Some sg -> n <= Z.of_nat (length sg) < 2 ^ 32 /\
      Forall (fun e => sg_dma_len e <= TSI721_BDMA_MAX_BCOUNT) sg
  | EV_SUBMIT d => d ∈ held
  | EV_TASKLET => let v := u32 (hw_read (TSI721_DMAC_BASE ch + TSI721_DMAC_INT) (tmem s)).1 in
      let failed := truthy (Z.land v TSI721_DMAC_INT_ERR) in let done := truthy (Z.land v DONE_BITS) in
      forall c, pv_bdma (ts_priv s) !! Z.to_nat ch = Some c ->
        (Z.to_nat (bc_sts_size c) < fuel)%nat /\ failed && done = false /\ (failed || done = true -> is_Some (bc_active_tx c))
  | _ => True
  end.

(** What the tasklet is going to read of the interrupt register. *)
Definition reported (s : tstate W) : Z := u32 (hw_read (TSI721_DMAC_BASE ch + TSI721_DMAC_INT) (tmem s)).1.

Inductive dma_reach (n_desc n_txd : Z) (s0 : tstate W) : list txd_ptr -> tstate W -> Prop :=
| reach_alloc s : tsi721_alloc_chan_resources n_desc n_txd ch s0 = Done n_txd s -> dma_reach n_desc n_txd s0 [] s
| reach_event held s e g s' : dma_reach n_desc n_txd s0 held s -> dma_ok held e s -> dma_do e s = Done g s' ->
    dma_reach n_desc n_txd s0 (g held) s'.
End events.

Section calls.
Context {W : Type} `{!KernelEnv W} `{!Tsi721Hw W} `{!Tsi721Callbacks W} `{!DmaCore W} `{!QuietDma W} `{!ByteMemory W}
  `{!QuietCallbacks W}.
Variables (ch : Z) (p : ptr) (fuel : nat).

Lemma running_flag held c l (s : tstate W) b : chan_fit ch c -> in_order p held c l -> at_chan ch p (setf bc_tasklet b c) l s -> running ch p held s.
Proof. intros Hc H Hs. eexists _, _. split; [|split; [|exact Hs]]; [by destruct Hc|by eapply work_moved]. Qed.

Lemma spec_schedule held (s : tstate W) : running ch p held s -> total (tasklet_schedule ch) s (fun _ => running ch p held).
Proof.
  intros (c & l & Hc & H & Hs). pose proof (cf_ch _ _ Hc) as Hch. unfold tasklet_schedule. srun (chan_read ch p c l s (proj1 Hch) Hs).
  apply spec_when; intros _; [|by exists c, l]. eapply spec_upd_chan; [lia|done|]. intros s1 Hs1 _. by eapply running_flag.
Qed.

Lemma running_fine {A} held (V : A -> Prop) (m : TM W A) s :
  running ch p held s -> (forall c l, chan_fit ch c -> fine False False (at_chan ch p c l) V m) ->
  total m s (fun _ => running ch p held).
Proof.
  intros (c & l & Hc & H & Hs) Hm. eapply spec_mono; [by apply (Hm c l)|]. intros a s1 [_ Hs1]. by exists c, l.
Qed.

Lemma spec_tasklet_run held (s : tstate W) : running ch p held s -> dma_ok ch fuel held EV_TASKLET s ->
  total (tasklet_run fuel ch) s (fun _ => running ch p held).
Proof.
  intros (c & l & Hc & H & Hs) Hok. pose proof (cf_ch _ _ Hc) as Hch. destruct (Hok c (ac_chan _ _ _ _ _ Hs)) as (Hfuel & Hboth & Hact).
  unfold tasklet_run. srun (chan_read ch p c l s (proj1 Hch) Hs). apply spec_when; intros _; [|by exists c, l].
  apply spec_bind. eapply spec_upd_chan; [lia|done|]. intros s1 Hs1 Hw. set (c1 := setf bc_tasklet false c) in *.
  assert (chan_fit ch c1) as Hc1 by (by destruct Hc). assert (in_order p held c1 l) as H1 by (by eapply work_moved).
  unfold tsi721_dma_tasklet.
  destruct (cread_run ch p c1 l TSI721_DMAC_INT s1 (cf_regs _ _ Hc1) Hs1) as (s2 & E & Hs2 & _); [done|]. srun E. rewrite Hw.
  set (v := u32 _) in *. eapply spec_cwrite_bind; [done..|]. intros s3 Hs3. change (Z.lor TSI721_DMAC_INT_DONE TSI721_DMAC_INT_IOFDONE) with DONE_BITS.
  destruct (truthy (Z.land v TSI721_DMAC_INT_ERR)) eqn:Ee; cbn [andb orb] in Hboth, Hact.
  - destruct (Hact eq_refl) as [d Hd]. apply spec_bind. eapply spec_mono; [by eapply (spec_tasklet_error ch p _ c1)|]. intros b s4 Hs4.
    rewrite Hboth, andb_false_r. by apply spec_ret.
  - eapply spec_run; [done|]. cbn [andb]. destruct (truthy (Z.land v DONE_BITS)); [|by exists c1, l].
    destruct (Hact eq_refl) as [d Hd]. by eapply (spec_tasklet_done ch p _ c1).
Qed.

(** A report without an active transfer, which [dma_ok] leaves out. *)
Lemma spurious_report held c (s : tstate W) : running ch p held s -> pv_bdma (ts_priv s) !! Z.to_nat ch = Some c ->
  bc_tasklet c = true -> bc_active_tx c = None -> (Z.to_nat (bc_sts_size c) < fuel)%nat ->
  truthy (Z.land (reported ch s) TSI721_DMAC_INT_ERR) || truthy (Z.land (reported ch s) DONE_BITS) = true ->
  dma_do ch fuel EV_TASKLET s = UB.
Proof.
  intros (c' & l & Hc & H & Hs) Hch' Ht Ha Hfuel Hrep. rewrite (ac_chan _ _ _ _ _ Hs) in Hch'. injection Hch' as ->.
  pose proof (cf_ch _ _ Hc) as Hch.
  assert (spec True False (dma_do ch fuel EV_TASKLET) s (fun _ _ => False)) as Hub;
    [|unfold spec in Hub; by destruct (dma_do ch fuel EV_TASKLET s)].
  cbn [dma_do]. apply spec_assoc. unfold tasklet_run. srun (chan_read ch p c l s (proj1 Hch) Hs). rewrite Ht. cbn [when].
  apply spec_assoc, spec_bind. eapply spec_upd_chan; [lia|done|]. intros s1 Hs1 Hw. set (c1 := setf bc_tasklet false c) in *.
  assert (chan_fit ch c1) as Hc1 by (by destruct Hc). unfold tsi721_dma_tasklet. apply spec_assoc.
  destruct (cread_run ch p c1 l TSI721_DMAC_INT s1 (cf_regs _ _ Hc1) Hs1) as (s2 & E & Hs2 & _); [done|]. srun E. rewrite Hw.
  fold (reported ch s). set (v := reported ch s) in *. apply spec_assoc. eapply spec_cwrite_bind; [done..|]. intros s3 Hs3.
  change (Z.lor TSI721_DMAC_INT_DONE TSI721_DMAC_INT_IOFDONE) with DONE_BITS. apply spec_assoc.
  destruct (truthy (Z.land v TSI721_DMAC_INT_ERR)) eqn:Ee; cbn [orb] in Hrep.
  - unfold tasklet_error. apply spec_assoc. srun (chan_read ch p c1 l s3 (proj1 Hch) Hs3). apply spec_assoc.
    destruct (cread_run ch p c1 l TSI721_DMAC_STS s3 (cf_regs _ _ Hc1) Hs3) as (s4 & E4 & Hs4 & _); [done|]. srun E4.
    unfold c1. cbn [bc_active_tx setf updf]. rewrite Ha. done.
  - eapply spec_run; [done|]. cbn [andb]. rewrite Hrep. cbn [when]. unfold tasklet_done. apply spec_assoc.
    destruct (proj1 (total_Done _ _ _) (spec_clr_stat ch p fuel c1 l s3 Hc1 Hs3 Hfuel)) as (? & s4 & E4 & n & _ & Hs4). srun E4.
    apply spec_assoc.
    srun (chan_read ch p _ l s4 (proj1 Hch) Hs4). unfold c1. cbn [bc_active_tx setf updf]. rewrite Ha. done.
Qed.

Lemma spec_event held e s : running ch p held s -> dma_ok ch fuel held e s ->
  total (dma_do ch fuel e) s (fun g => running ch p (g held)).
Proof.
  intros Hs He. pose proof Hs as (c & l & Hc & H & Ha). pose proof (cf_ch _ _ Hc) as Hch. destruct e; cbn [dma_do].
  - apply spec_bind. eapply spec_mono; [by eapply (spec_prep ch p)|]. intros [e|d] s' Hs'; by apply spec_ret.
  - apply spec_bind. eapply spec_mono; [by eapply (spec_submit_call ch p)|]. intros r s' [-> Hs']. apply spec_ret.
    pose proof (next_cookie_range (bc_cookie c)). destruct (Z.ltb_spec (next_cookie (bc_cookie c)) 0); [lia|done].
  - unfold tsi721_issue_pending. apply spec_assoc, spec_bind. eapply (spec_is_idle ch p); [done..|]. intros b s1 Hs1 _.
    apply spec_assoc. srun (chan_read ch p c l s1 (proj1 Hch) Hs1). apply spec_bind, spec_when; intros _; [|by apply spec_ret; exists c, l].
    eapply spec_mono; [eapply (spec_advance ch p); [done..|by left]|]. intros ? s2 Hs2. by apply spec_ret.
  - unfold tsi721_tx_status, dma_cookie_status. apply spec_assoc. srun (chan_read ch p c l s (proj1 Hch) Ha). done.
  - apply spec_bind. destruct msix.
    + eapply spec_mono; [by apply spec_schedule|]. intros ? s1 Hs1. by apply spec_ret.
    + unfold tsi721_bdma_handler. eapply spec_cwrite_bind; [done..|]. intros s1 Hs1. apply spec_bind.
      eapply spec_mono; [apply spec_schedule; by exists c, l|]. intros ? s2 Hs2.
      eapply spec_mono; [eapply (running_fine _ any); [exact Hs2|]; intros c' l' Hc'; by apply fine_cwrite|]. intros ? s3 Hs3. by apply spec_ret.
  - apply spec_bind. eapply spec_mono; [by apply spec_tasklet_run|]. intros ? s1 Hs1. by apply spec_ret.
Qed.
End calls.

Lemma reach_running {W : Type} `{!KernelEnv W} `{!Tsi721Hw W} `{!Tsi721Callbacks W} `{!DmaCore W} `{!QuietDma W} `{!ByteMemory W}
    `{!QuietCallbacks W} ch fuel n_desc n_txd c0 (s0 s : tstate W) held :
  0 <= n_desc < 2 ^ 30 -> 0 < n_txd < 2 ^ 31 -> at_start ch c0 s0 -> dma_reach ch fuel n_desc n_txd s0 held s ->
  exists p, running ch p held s.
Proof.
  intros Hn Ht H0. induction 1 as [s Hs|held s e g s' _ [p IH] He Hs].
  - pose proof (spec_alloc ch 1%positive n_desc n_txd Hn Ht c0 s0 H0) as H. unfold spec in H. rewrite Hs in H.
    destruct H as [|[_ ?]]; [lia|done].
  - exists p. pose proof (spec_event ch p fuel held e s IH He) as H. unfold spec in H. by rewrite Hs in H.
Qed.

(** C3: On a channel that is allocated and whose transfers are not terminated, clients prepare
    lists of entries no larger than TSI721_BDMA_MAX_BCOUNT, with at least the number of entries
    they say, and submit what they have prepared; its interrupts report a failure or an end, not
    both at once, and only while a transfer is active ([dma_ok]); the clients' callbacks leave the
    channel alone.  Then, in any order of these calls: every descriptor is in one place, at work, free or in the hands of a client, and none
    is lost; the transfers at work have consecutive cookies in the order in which they were
    submitted, from the last completed to the last used, so that they are completed in that order;
    a transfer that is submitted gets the next cookie; and every further such call ends without an
    undefined access.  The condition on reports is needed: if the tasklet is scheduled and finds a
    failure or an end while no transfer is active, it dereferences a null pointer. *)
Theorem tsi721_dma_descriptors_kept {W : Type} `{!KernelEnv W} `{!Tsi721Hw W} `{!Tsi721Callbacks W} `{!DmaCore W} `{!QuietDma W}
    `{!ByteMemory W} `{!QuietCallbacks W} ch fuel n_desc n_txd c0 (s0 s : tstate W) held :
  0 <= n_desc < 2 ^ 30 -> 0 < n_txd < 2 ^ 31 -> at_start ch c0 s0 -> dma_reach ch fuel n_desc n_txd s0 held s ->
  exists p c l, pv_bdma (ts_priv s) !! Z.to_nat ch = Some c /\ default [] (ts_txds s !! p) = l /\
    work c ++ bc_free_list c ++ held ≡ₚ all_descs p (length l) /\ NoDup (work c ++ bc_free_list c ++ held) /\
    cookie_chain (bc_completed_cookie c) (cookies l (work c)) (bc_cookie c) /\
    (forall d, d ∈ held -> exists s', tsi721_tx_submit ch d s = Done (next_cookie (bc_cookie c)) s') /\
    (forall e, dma_ok ch fuel held e s -> exists g s', dma_do ch fuel e s = Done g s') /\
    (bc_tasklet c = true -> bc_active_tx c = None -> (Z.to_nat (bc_sts_size c) < fuel)%nat ->
      truthy (Z.land (reported ch s) TSI721_DMAC_INT_ERR) || truthy (Z.land (reported ch s) DONE_BITS) = true ->
      dma_do ch fuel EV_TASKLET s = UB).
Proof.
  intros Hn Ht H0 Hreach. destruct (reach_running ch fuel n_desc n_txd c0 s0 s held Hn Ht H0 Hreach) as [p Hs].
  pose proof Hs as (c & l & Hc & H & Ha). exists p, c, l. split_and!; [apply Ha|apply Ha|apply H|exact (parts_NoDup H)|apply H|..].
  - intros d Hd. pose proof (spec_submit_call ch p held c l s d Hc H Ha Hd) as (r & s' & Hr & -> & _)%total_Done. by exists s'.
  - intros e He. pose proof (spec_event ch p fuel held e s Hs He) as (g & s' & Hr & _)%total_Done. by exists g, s'.
  - intros Hsched Hnone Hfuel Hrep. eapply (spurious_report ch p fuel held c); [exact Hs|apply Ha|done..].
Qed.

(** ** Terminating all transfers *)

Section terminate.
Context {W : Type} `{!KernelEnv W} `{!Tsi721Hw W} `{!Tsi721Callbacks W} `{!DmaCore W} `{!QuietDma W} `{!ByteMemory W}
  `{!QuietCallbacks W}.
Variables (ch : Z) (p : ptr).

Lemma at_callback c l callback param (s : tstate W) : at_chan ch p c l s ->
  total (dma_callback_call callback param) s (fun _ => at_chan ch p c l).
Proof.
  intros [H1 H2 H3 H4]. eapply spec_mono; [apply callback_quiet|]. intros _ s' (E1 & E2 & E3). split; by rewrite ?E1, ?E2, ?E3.
Qed.

(** The channel while its transfers go to the free list [fl]. *)
Definition emptied (c : tsi721_bdma_chan) (fl : list txd_ptr) : tsi721_bdma_chan :=
  setf bc_free_list fl (setf bc_queue [] (setf bc_active false c)).

Lemma spec_tx_err c fl l x s : 0 <= ch -> at_chan ch p (emptied c fl) l s -> good_desc p l x -> (forall y, y ∈ fl -> good_desc p l y) ->
  total (tsi721_dma_tx_err ch x) s (fun _ => at_chan ch p (emptied c (x :: filter (.≠ x) fl)) l).
Proof.
  intros Hch Hs (Ex & Hx0 & t & Ht) Hfl. unfold tsi721_dma_tx_err. srun (desc_read ch p _ l x t s Hs Ex Hx0 Ht).
  apply spec_bind. eapply spec_upd_chan; [done|exact Hs|]. intros s1 Hs1 _. unfold list_add_free. apply spec_assoc.
  srun (desc_read ch p _ l x t s1 Hs1 Ex Hx0 Ht). apply spec_assoc. srun (chan_read ch p _ l s1 Hch Hs1). apply spec_assoc.
  eapply (spec_run _ _ _ _ _ _ s1); [eapply run_touch; [exact Hs1|]|].
  { intros y Hy. apply Hfl. cbn in Hy. destruct (filter _ fl) eqn:E; [done|]. injection Hy as ->.
    assert (y ∈ filter (.≠ x) fl) as [_ ?]%list_elem_of_filter by (rewrite E; apply list_elem_of_here). done. }
  rewrite linked_false; [|cbn; apply not_elem_of_nil|cbn; rewrite list_elem_of_filter; tauto].
  apply spec_bind. eapply spec_upd_chan; [done|exact Hs1|]. intros s2 Hs2 _. destruct (td_callback t); [by apply at_callback|by apply spec_ret].
Qed.

Lemma spec_terminate held c l d n s : chan_fit ch c -> in_order p held c l -> at_chan ch p c l s -> idle_at ch (tmem s) ->
  bc_active_tx c = Some d ->
  total (tsi721_terminate_all (S n) ch) s (fun r s' => r = 0 /\ exists fl, at_chan ch p (emptied c fl) l s' /\ d ∈ fl /\
    forall y, y ∈ fl -> good_desc p l y).
Proof.
  intros Hc H Hs Hi Ha. pose proof (cf_ch _ _ Hc) as Hch. pose proof (fun x => parts_desc H x) as Hparts. pose proof (parts_NoDup H) as Hnd.
  assert (work c = d :: bc_queue c) as Ew by (unfold work; by rewrite Ha). rewrite Ew in Hparts, Hnd. cbn [app] in Hnd.
  assert (good_desc p l d) as Hd by (apply Hparts, list_elem_of_here).
  apply NoDup_cons in Hnd as [Hnd _].
  unfold tsi721_terminate_all. apply spec_bind. eapply spec_upd_chan; [lia|done|]. intros s1 Hs1 Hw.
  assert (chan_fit ch (setf bc_active false c)) as Hc1 by (by destruct Hc).
  apply spec_bind. cbn [loop]. apply spec_bind. unfold idle_wait. apply spec_bind.
  eapply (spec_idle_again ch p); [exact Hc1|exact Hs1|by rewrite Hw|]. intros s2 Hs2. cbn [negb]. do 2 apply spec_ret.
  srun (chan_read ch p _ l s2 (proj1 Hch) Hs2). cbn [bc_active_tx bc_queue setf updf]. rewrite Ha.
  destruct Hd as (Ed & Hd0 & t & Ht). apply spec_assoc. srun (desc_read ch p _ l d t s2 Hs2 Ed Hd0 Ht).
  rewrite linked_false by (cbn; intros ?; apply Hnd; in_parts). eapply spec_run; [done|].
  apply spec_bind. eapply spec_upd_chan; [lia|exact Hs2|]. intros s3 Hs3 _. apply spec_bind.
  apply (spec_for _ _ (fun rest s' => exists fl, at_chan ch p (emptied c fl) l s' /\ (d ∈ rest \/ d ∈ fl) /\
    (forall y, y ∈ rest -> y ∈ d :: bc_queue c) /\ forall y, y ∈ fl -> good_desc p l y)).
  - exists (bc_free_list c). split_and!; [by destruct c| |..].
    + left. apply elem_of_app. right. apply list_elem_of_here.
    + intros y. rewrite elem_of_app, list_elem_of_singleton, elem_of_cons. tauto.
    + intros y Hy. apply Hparts. cbn. apply list_elem_of_further. in_parts.
  - intros x rest s' (fl & Hs' & Hdx & Hrest & Hfl). assert (good_desc p l x) as Hx.
    { apply Hparts. apply elem_of_app. left. apply Hrest, list_elem_of_here. }
    eapply spec_mono; [eapply spec_tx_err; [lia|done..]|]. intros ? s4 Hs4. eexists. split; [exact Hs4|]. split_and!.
    + destruct (decide (x = d)) as [->|]; [right; apply list_elem_of_here|]. destruct Hdx as [[|]%elem_of_cons|]; [done|by left|].
      right. apply list_elem_of_further, list_elem_of_filter. auto.
    + intros y Hy. by apply Hrest, list_elem_of_further.
    + intros y [->|[_ Hy]%list_elem_of_filter]%elem_of_cons; auto.
  - intros s' (fl & Hs' & Hdx & _ & Hfl). apply spec_ret. split; [done|]. exists fl. split; [done|]. split; [|done].
    destruct Hdx as [[]%elem_of_nil|]; done.
Qed.

(** Finishing a transfer whose descriptor is free. *)
Lemma retire_free c fl l d status (s : tstate W) : 0 <= ch -> at_chan ch p (emptied c fl) l s -> d ∈ fl ->
  (forall y, y ∈ fl -> good_desc p l y) -> retire ch d status s = UB.
Proof.
  intros Hch Hs Hd Hfl. destruct (Hfl d Hd) as (Ed & Hd0 & t & Ht).
  assert (spec True False (retire ch d status) s (fun _ _ => False)) as H; [|unfold spec in H; by destruct (retire ch d status s)].
  unfold retire. apply spec_bind. eapply spec_upd_desc; [done..|]. intros s1 Hs1 _.
  unfold dma_cookie_complete. apply spec_assoc.
  eapply (spec_run _ _ _ _ _ _ s1); [eapply desc_read; [exact Hs1|done..|by eapply desc_put_eq]|].
  destruct (_ <? _); [done|]. apply spec_assoc, spec_bind. eapply spec_upd_chan; [lia|exact Hs1|]. intros s2 Hs2 _. apply spec_bind.
  eapply spec_upd_desc; [exact Hs2|done..|by eapply desc_put_eq|]. intros s3 Hs3 _. rewrite put_put in Hs3.
  unfold list_add_free. apply spec_assoc.
  eapply (spec_run _ _ _ _ _ _ s3); [eapply desc_read; [exact Hs3|done..|by eapply desc_put_eq]|]. apply spec_assoc.
  srun (chan_read ch p _ _ s3 Hch Hs3). apply spec_assoc.
  eapply (spec_run _ _ _ _ _ _ s3); [eapply run_touch; [exact Hs3|]|].
  { intros y Hy. destruct (Hfl y) as (? & ? & Hx); [cbn in Hy; destruct fl; [done|]; injection Hy as ->; apply list_elem_of_here|].
    split_and!; [done..|]. unfold desc_at, put_desc in *. rewrite lookup_lt_is_Some, length_insert, <- lookup_lt_is_Some. exact Hx. }
  assert (linked (setf bc_completed_cookie (td_cookie (setf td_status status t)) (emptied c fl)) d = true) as ->; [|done].
  unfold linked. cbn. by rewrite (bool_decide_eq_true_2 (d ∈ fl)), orb_true_r.
Qed.
End terminate.

(** C21: Terminating all transfers while one is active puts its descriptor on the free list
    and leaves it active, although clients can get it from there; and finishing it, which
    the tasklet does on an interrupt that is still to come, adds its node to the list again. *)
Theorem tsi721_terminate_all_leaves_active {W : Type} `{!KernelEnv W} `{!Tsi721Hw W} `{!Tsi721Callbacks W} `{!DmaCore W} `{!QuietDma W}
    `{!ByteMemory W} `{!QuietCallbacks W} ch fuel n_desc n_txd n c0 (s0 s : tstate W) held c d :
  0 <= n_desc < 2 ^ 30 -> 0 < n_txd < 2 ^ 31 -> at_start ch c0 s0 -> dma_reach ch fuel n_desc n_txd s0 held s ->
  pv_bdma (ts_priv s) !! Z.to_nat ch = Some c -> bc_active_tx c = Some d -> idle_at ch (tmem s) ->
  exists s' c', tsi721_terminate_all (S n) ch s = Done 0 s' /\ pv_bdma (ts_priv s') !! Z.to_nat ch = Some c' /\
    bc_active_tx c' = Some d /\ d ∈ bc_free_list c' /\ forall status, retire ch d status s' = UB.
Proof.
  intros Hn Ht H0 Hreach Hlook Hact Hidle.
  destruct (reach_running ch fuel n_desc n_txd c0 s0 s held Hn Ht H0 Hreach) as (p & c' & l & Hc & H & Ha).
  assert (c' = c) as -> by (pose proof (ac_chan _ _ _ _ _ Ha); congruence). pose proof (cf_ch _ _ Hc) as Hch.
  pose proof (spec_terminate ch p held c l d n s Hc H Ha Hidle Hact) as (r & s' & Hr & -> & fl & Hs' & Hd & Hfl)%total_Done.
  exists s', (emptied c fl). split; [done|]. split; [apply Hs'|]. split; [done|]. split; [done|].
  intros status. eapply (retire_free ch p); [lia|done..].
Qed.

(** ** Witness *)

#[export] Instance t7_quiet_dma : QuietDma t7world.
Proof. split. by intros ch w v w1 v' w2 [= <- <-] H [= <- <-]. Qed.
#[export] Instance t7_callbacks : Tsi721Callbacks t7world := {|
  dinb_call _ _ _ _ _ _ := ret tt; mcback_call _ _ _ _ _ := ret tt; dma_callback_call _ _ := ret tt;
|}.
#[export] Instance t7_quiet_callbacks : QuietCallbacks t7world.
Proof. by split. Qed.
#[export] Instance t7_dma_core : DmaCore t7world := {|
  dma_async_device_register _ w := (0, w); dma_async_device_unregister w := w;
  dma_async_is_complete cookie last used :=
    if if last <=? used then (cookie <=? last) || (used <? cookie) else (cookie <=? last) && (used <? cookie)
    then DMA_COMPLETE else DMA_IN_PROGRESS;
  synchronize_irq _ w := w;
|}.

(** A channel is allocated with two descriptors, of which one is prepared and submitted. *)
Definition dq_chan : tsi721_bdma_chan :=
  setf bc_cookie 1 (setf bc_regs (Some (TSI721_DMAC_BASE 0)) zero_bdma_chan).
Definition dq_start : tstate t7world := t7_state (setf pv_bdma [dq_chan] t7_priv) ∅.
Definition dq_events (p : ptr) : list dma_event :=
  [EV_PREP (Some [mk_sg_entry None 0x100 0x1000 0x100]) 1 DMA_MEM_TO_DEV 0 (mk_rio_dma_ext 9 0x10000 0 RDW_DEFAULT 0 0 0 0);
   EV_SUBMIT (p, 1)].
Definition state_of {S A} (o : outcome S A) (s : S) : S := match o with Done _ s' => s' | _ => s end.
Definition dq_alloc : tstate t7world := state_of (tsi721_alloc_chan_resources 4 2 0 dq_start) dq_start.
Definition dq_after (n : nat) : tstate t7world :=
  foldl (fun s e => state_of (dma_do 0 64 e s) s) dq_alloc (take n (dq_events 100%positive)).

Lemma dq_at_start : at_start 0 dq_chan dq_start.
Proof. split; [by split; [split; [unfold TSI721_DMA_MAXCH; lia|]|..]|]. split; [done|]. split; [done|by eexists]. Qed.
Lemma dq_reach : dma_reach 0 64 4 2 dq_start [] (dq_after 2).
Proof.
  set (g1 := fun held => (100%positive, 1) :: held : list txd_ptr).
  set (g2 := fun held : list txd_ptr => if 2 <? 0 then held else filter (.≠ (100%positive, 1)) held).
  apply (reach_event 0 64 4 2 dq_start (g1 []) (dq_after 1) (EV_SUBMIT (100%positive, 1)) g2).
  - apply (reach_event 0 64 4 2 dq_start [] (dq_after 0) (hd EV_ISSUE_PENDING (dq_events 100%positive)) g1).
    + apply reach_alloc. vm_compute. reflexivity.
    + intros sg [= <-]. split; [simpl; lia|]. apply Forall_singleton. done.
    + vm_compute. reflexivity.
  - apply list_elem_of_here.
  - vm_compute. reflexivity.
Qed.

Lemma tsi721_dma_descriptors_kept_witness :
  exists (s : tstate t7world) p c, dma_reach 0 64 4 2 dq_start [] s /\ pv_bdma (ts_priv s) !! 0%nat = Some c /\
    NoDup (work c ++ bc_free_list c ++ []) /\ work c = [(p, 1)] /\ bc_free_list c = [(p, 0)] /\ bc_cookie c = 2.
Proof.
  destruct (tsi721_dma_descriptors_kept 0 64 4 2 dq_chan dq_start (dq_after 2) [] ltac:(lia) ltac:(lia) dq_at_start dq_reach)
    as (p & c & l & Hc & Hl & Hperm & Hnd & _).
  assert ((fun c => (work c, bc_free_list c, bc_cookie c)) <$> pv_bdma (ts_priv (dq_after 2)) !! 0%nat =
    Some ([(100%positive, 1)], [(100%positive, 0)], 2)) as E by (vm_compute; reflexivity).
  change (Z.to_nat 0) with 0%nat in Hc. rewrite Hc in E. injection E as E1 E2 E3.
  exists (dq_after 2), 100%positive, c. split; [exact dq_reach|]. split; [exact Hc|]. split; [exact Hnd|]. split; [exact E1|]. split; [exact E2|exact E3].
Defined.

Lemma tsi721_terminate_all_leaves_active_witness :
  exists (s s' : tstate t7world) c', dma_reach 0 64 4 2 dq_start [] s /\ tsi721_terminate_all 1 0 s = Done 0 s' /\
    pv_bdma (ts_priv s') !! 0%nat = Some c' /\ bc_active_tx c' = Some (100%positive, 1) /\
    retire 0 (100%positive, 1) DMA_COMPLETE s' = UB.
Proof.
  assert (bc_active_tx <$> pv_bdma (ts_priv (dq_after 2)) !! Z.to_nat 0 = Some (Some (100%positive, 1))) as E by (vm_compute; reflexivity).
  destruct (pv_bdma (ts_priv (dq_after 2)) !! Z.to_nat 0) as [c|] eqn:Ec; [|discriminate E]. injection E as E.
  assert (idle_at 0 (tmem (dq_after 2))) as Hi.
  { intros v w1 Hv. assert (Z.land (u32 (hw_read (TSI721_DMAC_BASE 0 + TSI721_DMAC_STS) (tmem (dq_after 2))).1) TSI721_DMAC_STS_RUN = 0) as H
      by (vm_compute; reflexivity). rewrite Hv in H. exact H. }
  destruct (tsi721_terminate_all_leaves_active 0 64 4 2 0 dq_chan dq_start (dq_after 2) [] c (100%positive, 1)
    ltac:(lia) ltac:(lia) dq_at_start dq_reach Ec E Hi) as (s' & c' & H1 & H2 & H3 & _ & H5).
  exists (dq_after 2), s', c'. split; [exact dq_reach|]. split; [exact H1|]. split; [exact H2|]. split; [exact H3|apply H5].
Defined.
