(* ===== verification/MportCdev.v ===== *)
(** * The char device of a master port: data and mappings (devices/rio_mport_cdev.c)

    Each open file has its private data; the ports' char devices keep the buffers and
    windows that files have mapped, with a reference count for each.  This file has the
    data structures, maintenance access, and the mappings of all three kinds. *)

From S2P Require Import Prelude Regs State Access Mbox Mport Msg RioDma.

Definition EACCES : Z := 13.
Definition EEXIST : Z := 17.
Definition EINTR : Z := 4.
Definition ETIMEDOUT : Z := 110.
Definition EPROTONOSUPPORT : Z := 93.
Definition ERESTARTSYS : Z := 512.
Definition PAGE_SHIFT : Z := 12.

(** ** Data structures *)

Inductive rio_mport_map_dir := MAP_INBOUND | MAP_OUTBOUND | MAP_DMA.
#[export] Instance rio_mport_map_dir_eq_dec : EqDecision rio_mport_map_dir.
Proof. solve_decision. Defined.

(** [mm_ref] is the kref; [mm_virt_addr] is none for reserved memory. *)
Record rio_mport_mapping := mk_rio_mport_mapping {
  mm_md : ptr; mm_dir : rio_mport_map_dir; mm_rioid : Z; mm_rio_addr : Z; mm_phys_addr : Z;
  mm_dma_addr : Z; mm_virt_addr : option Z; mm_size : Z; mm_ref : Z; mm_filp : option ptr;
}.
#[export] Instance eta_mapping : Eta rio_mport_mapping := fun r =>
  mk_rio_mport_mapping (mm_md r) (mm_dir r) (mm_rioid r) (mm_rio_addr r) (mm_phys_addr r)
    (mm_dma_addr r) (mm_virt_addr r) (mm_size r) (mm_ref r) (mm_filp r).

Definition MPORT_EVENT_DEPTH : Z := 10.

Record rio_mport_properties := mk_rio_mport_properties {
  pp_hdid : Z; pp_id : Z; pp_index : Z; pp_flags : Z; pp_sys_size : Z; pp_port_ok : Z;
  pp_link_speed : Z; pp_link_width : Z; pp_dma_max_sge : Z; pp_dma_max_size : Z; pp_dma_align : Z;
  pp_transfer_mode : Z; pp_cap_sys_size : Z; pp_cap_addr_size : Z; pp_cap_transfer_mode : Z; pp_cap_mport : Z;
}.
#[export] Instance eta_properties : Eta rio_mport_properties := fun r =>
  mk_rio_mport_properties (pp_hdid r) (pp_id r) (pp_index r) (pp_flags r) (pp_sys_size r) (pp_port_ok r)
    (pp_link_speed r) (pp_link_width r) (pp_dma_max_sge r) (pp_dma_max_size r) (pp_dma_align r)
    (pp_transfer_mode r) (pp_cap_sys_size r) (pp_cap_addr_size r) (pp_cap_transfer_mode r) (pp_cap_mport r).

(** [md_ref] is the reference count of the embedded device, [md_dma_ref] the kref of the
    default channel. *)
Record mport_dev := mk_mport_dev {
  md_active : bool; md_mport : ptr; md_file_list : list ptr; md_properties : rio_mport_properties;
  md_doorbells : list ptr; md_portwrites : list ptr; md_mappings : list ptr;
  md_dma_chan : option ptr; md_dma_ref : Z; md_ref : Z;
}.
#[export] Instance eta_mport_dev : Eta mport_dev := fun r =>
  mk_mport_dev (md_active r) (md_mport r) (md_file_list r) (md_properties r) (md_doorbells r)
    (md_portwrites r) (md_mappings r) (md_dma_chan r) (md_dma_ref r) (md_ref r).

(** The private data of a file.  [pr_event_fifo] has the bytes of the queued events,
    [pr_fifo_size] is the room, zero once it is freed; [pr_comp] counts the completions. *)
Record mport_cdev_priv := mk_mport_cdev_priv {
  pr_md : ptr; pr_async_queue : bool; pr_db_filters : list ptr; pr_pw_filters : list ptr;
  pr_event_fifo : list Z; pr_fifo_size : Z; pr_event_mask : Z;
  pr_dmach : option ptr; pr_async_list : list ptr; pr_dma_ref : Z; pr_comp : Z;
}.
#[export] Instance eta_priv : Eta mport_cdev_priv := fun r =>
  mk_mport_cdev_priv (pr_md r) (pr_async_queue r) (pr_db_filters r) (pr_pw_filters r)
    (pr_event_fifo r) (pr_fifo_size r) (pr_event_mask r) (pr_dmach r) (pr_async_list r) (pr_dma_ref r) (pr_comp r).

(** The filters as the application gives them, without padding. *)
Record rio_doorbell_filter := mk_rio_doorbell_filter { df_rioid : Z; df_low : Z; df_high : Z }.
#[export] Instance rio_doorbell_filter_eq_dec : EqDecision rio_doorbell_filter.
Proof. solve_decision. Defined.
Record rio_pw_filter := mk_rio_pw_filter { pf_mask : Z; pf_low : Z; pf_high : Z }.
#[export] Instance rio_pw_filter_eq_dec : EqDecision rio_pw_filter.
Proof. solve_decision. Defined.
Record rio_mport_db_filter := mk_db_filter { dbf_priv : ptr; dbf_filter : rio_doorbell_filter }.
Record rio_mport_pw_filter := mk_pw_filter { pwf_priv : ptr; pwf_filter : rio_pw_filter }.

(** enum rio_transfer_sync; enum dma_data_direction as far as it is used *)
Definition RIO_TRANSFER_SYNC : Z := 0.
Definition RIO_TRANSFER_ASYNC : Z := 1.
Definition RIO_TRANSFER_FAF : Z := 2.
Inductive dma_data_direction := DMA_TO_DEVICE | DMA_FROM_DEVICE.
#[export] Instance dma_data_direction_eq_dec : EqDecision dma_data_direction.
Proof. solve_decision. Defined.

(** A pending transfer.  [rq_sgl] is none until the table is allocated, [rq_comp] counts
    the completions.  An element of a page list is none as long as it is uninitialised. *)
Record mport_dma_req := mk_mport_dma_req {
  rq_refcount : Z; rq_filp : ptr; rq_priv : ptr; rq_sync : Z; rq_sgl : option (list sg_entry); rq_nents : Z;
  rq_page_list : option (list (option ptr)); rq_nr_pages : Z; rq_map : option ptr; rq_dmach : ptr;
  rq_dir : dma_data_direction; rq_cookie : Z; rq_status : dma_status; rq_comp : Z;
}.
#[export] Instance eta_dma_req : Eta mport_dma_req := fun r =>
  mk_mport_dma_req (rq_refcount r) (rq_filp r) (rq_priv r) (rq_sync r) (rq_sgl r) (rq_nents r)
    (rq_page_list r) (rq_nr_pages r) (rq_map r) (rq_dmach r) (rq_dir r) (rq_cookie r) (rq_status r) (rq_comp r).

(** The state: the core's with the objects of the driver; [mc_files] has the private data
    of the open files, [mc_vmas] the mappings behind memory areas of processes. *)
Record mcstate (W : Type) := mk_mcstate {
  mc_m : mstate W;
  mc_devs : gmap ptr mport_dev;
  mc_privs : gmap ptr mport_cdev_priv;
  mc_maps : gmap ptr rio_mport_mapping;
  mc_reqs : gmap ptr mport_dma_req;
  mc_dbfs : gmap ptr rio_mport_db_filter;
  mc_pwfs : gmap ptr rio_mport_pw_filter;
  mc_files : gmap ptr ptr;
  mc_vmas : gmap ptr ptr;
  mport_devs : list ptr;
}.
Arguments mk_mcstate {W}. Arguments mc_m {W}. Arguments mc_devs {W}. Arguments mc_privs {W}.
Arguments mc_maps {W}. Arguments mc_reqs {W}. Arguments mc_dbfs {W}. Arguments mc_pwfs {W}.
Arguments mc_files {W}. Arguments mc_vmas {W}. Arguments mport_devs {W}.
#[export] Instance eta_mcstate W : Eta (mcstate W) := fun s =>
  mk_mcstate (mc_m s) (mc_devs s) (mc_privs s) (mc_maps s) (mc_reqs s) (mc_dbfs s) (mc_pwfs s)
    (mc_files s) (mc_vmas s) (mport_devs s).
Abbreviation MC W := (M (mcstate W)).
#[export] Instance mc_msg_state W : MsgState W (mcstate W) := {|
  msg_of s := mc_m s; set_msg m s := setf mc_m m s;
|}.

(** User memory and memory that devices can reach.  [user_write] gives the number of
    bytes that could not be copied; [dma_alloc_coherent] the kernel's and the device's
    address; [dma_map_page] the device's address of reserved memory; [dma_map_sg]
    the number of entries and the list with the device's addresses; the mapping functions
    of [mmap] take the area. *)
Class CdevEnv (W : Type) := {
  user_read : Z -> Z -> W -> option (list Z);
  user_write : Z -> list Z -> W -> Z * W;
  dma_alloc_coherent : Z -> W -> option (Z * Z) * W;
  dma_free_coherent : Z -> Z -> Z -> W -> W;
  dma_map_page : Z -> Z -> W -> option Z * W;
  dma_unmap_page : Z -> Z -> W -> W;
  get_user_pages : Z -> Z -> bool -> W -> (Z * list ptr) * W;
  put_page : ptr -> W -> W;
  sg_alloc_table : Z -> W -> (Z * list sg_entry) * W;
  sg_alloc_table_from_pages : list (option ptr) -> Z -> Z -> W -> (Z * list sg_entry) * W;
  sg_free_table : list sg_entry -> W -> W;
  dma_map_sg : list sg_entry -> Z -> dma_data_direction -> W -> (Z * list sg_entry) * W;
  dma_unmap_sg : list sg_entry -> Z -> dma_data_direction -> W -> W;
  dma_mmap_coherent : ptr -> Z -> Z -> Z -> Z -> W -> Z * W;
  remap_pfn_range : ptr -> Z -> Z -> W -> Z * W;
  vm_iomap_memory : ptr -> Z -> Z -> W -> Z * W;
  (** the size of the buffer that is allocated for a FIFO of so many bytes *)
  kfifo_room : Z -> Z;
  msecs_to_jiffies : Z -> Z;
}.

Section cdev.
Context {W : Type} `{!KernelEnv W} `{!CdevEnv W}.

(** ** Access to the objects *)

Definition get_md (p : ptr) : MC W mport_dev := o <- gets (fun s => mc_devs s !! p) ;; deref o.
Definition upd_md (p : ptr) (g : mport_dev -> mport_dev) : MC W unit :=
  d <- get_md p ;; modify (fun s => setf mc_devs (<[p := g d]> (mc_devs s)) s).
Definition get_priv (p : ptr) : MC W mport_cdev_priv := o <- gets (fun s => mc_privs s !! p) ;; deref o.
Definition upd_priv (p : ptr) (g : mport_cdev_priv -> mport_cdev_priv) : MC W unit :=
  d <- get_priv p ;; modify (fun s => setf mc_privs (<[p := g d]> (mc_privs s)) s).
Definition get_map (p : ptr) : MC W rio_mport_mapping := o <- gets (fun s => mc_maps s !! p) ;; deref o.
Definition upd_map (p : ptr) (g : rio_mport_mapping -> rio_mport_mapping) : MC W unit :=
  d <- get_map p ;; modify (fun s => setf mc_maps (<[p := g d]> (mc_maps s)) s).
(** [filp->private_data] *)
Definition file_priv (filp : ptr) : MC W ptr := o <- gets (fun s => mc_files s !! filp) ;; deref o.
Definition env {A} (g : W -> A * W) : MC W A := core (hw_call g).
Definition env_ (g : W -> W) : MC W unit := core (hw_do g).
Definition copy_from_user (arg len : Z) : MC W (option (list Z)) :=
  core (gets (fun s => user_read arg len (ks_hw s))).
Definition copy_to_user (arg : Z) (bytes : list Z) : MC W bool :=
  n <- env (user_write arg bytes) ;; ret (n =? 0).
Definition le_at (off n : nat) (bytes : list Z) : Z := le_value (get_bytes off n bytes).

(** A handler on the object that the application gives, [len] bytes at [arg]. *)
Definition with_user (arg len : Z) (k : list Z -> MC W Z) : MC W Z :=
  b <- copy_from_user arg len ;;
  match b with None => ret (- EFAULT) | Some b => k b end.
(** Copying the result out. *)
Definition to_user (arg : Z) (bytes : list Z) : MC W Z :=
  ok <- copy_to_user arg bytes ;; ret (if ok : bool then 0 else - EFAULT).

(** The list without an element that must be in it. *)
Definition unlink (p : ptr) (l : list ptr) : MC W (list ptr) := deref (list_del p l).

(** ** Maintenance *)

Record rio_mport_maint_io := mk_maint_io {
  mi_rioid : Z; mi_hopcount : Z; mi_offset : Z; mi_length : Z; mi_buffer : Z;
}.
Definition MAINT_IO_SIZE : Z := 24.
Definition get_maint_io (b : list Z) : rio_mport_maint_io :=
  mk_maint_io (le_at 0 2 b) (le_at 2 1 b) (le_at 8 4 b) (le_at 12 4 b) (le_at 16 8 b).

(** The checks on the range; the sum of two [u32] wraps around. *)
Definition maint_bad (io : rio_mport_maint_io) : bool :=
  truthy (mi_offset io mod 4) || (mi_length io =? 0) || truthy (mi_length io mod 4) ||
  (RIO_MAINT_SPACE_SZ <? u32 (mi_length io + mi_offset io)).

(** The words at the offsets, or the first error. *)
Fixpoint maint_read_loop (mport : ptr) (local : bool) (io : rio_mport_maint_io) (n : nat) (offset : Z)
    (buffer : list Z) : MC W (Z + list Z) :=
  match n with
  | O => ret (inr buffer)
  | S n' =>
      let! (rc, v) := core (if local then rio_local_read_config_32 mport offset 0
        else rio_mport_read_config_32 mport (mi_rioid io) (mi_hopcount io) offset 0) ;;
      if truthy rc then ret (inl rc)
      else maint_read_loop mport local io n' (u32 (offset + 4)) (buffer ++ le_bytes 4 v)
  end.

Definition rio_mport_maint_rd (priv : ptr) (arg : Z) (local : bool) : MC W Z :=
  p <- get_priv priv ;;
  md <- get_md (pr_md p) ;;
  with_user arg MAINT_IO_SIZE (fun b =>
    let io := get_maint_io b in
    if maint_bad io then ret (- EINVAL)
    else
      ok <- core kzalloc ;;
      if negb ok then ret (- ENOMEM)
      else
        r <- maint_read_loop (md_mport md) local io (Z.to_nat (mi_length io / 4)) (mi_offset io) [] ;;
        rc <- match r with inl rc => ret rc | inr bytes => to_user (mi_buffer io) bytes end ;;
        core kfree ;;;
        ret rc).

Fixpoint maint_write_loop (mport : ptr) (local : bool) (io : rio_mport_maint_io) (n : nat) (offset : Z)
    (buffer : list Z) : MC W Z :=
  match n with
  | O => ret 0
  | S n' =>
      let v := le_at 0 4 buffer in
      rc <- core (if local then rio_local_write_config_32 mport offset v
        else rio_mport_write_config_32 mport (mi_rioid io) (mi_hopcount io) offset v) ;;
      if truthy rc then ret rc
      else maint_write_loop mport local io n' (u32 (offset + 4)) (drop 4 buffer)
  end.

Definition rio_mport_maint_wr (priv : ptr) (arg : Z) (local : bool) : MC W Z :=
  p <- get_priv priv ;;
  md <- get_md (pr_md p) ;;
  with_user arg MAINT_IO_SIZE (fun b =>
    let io := get_maint_io b in
    if maint_bad io then ret (- EINVAL)
    else
      ok <- core kzalloc ;;
      if negb ok then ret (- ENOMEM)
      else
        rc <- with_user (mi_buffer io) (mi_length io) (fun buffer =>
          maint_write_loop (md_mport md) local io (Z.to_nat (mi_length io / 4)) (mi_offset io) buffer) ;;
        core kfree ;;;
        ret rc).

Definition maint_hdid_set (priv : ptr) (arg : Z) : MC W Z :=
  p <- get_priv priv ;;
  md <- get_md (pr_md p) ;;
  with_user arg 2 (fun b =>
    let hdid := le_at 0 2 b in
    core (upd_mport (md_mport md) (setf mp_host_deviceid hdid)) ;;;
    upd_md (pr_md p) (fun m => setf md_properties (setf pp_hdid hdid (md_properties m)) m) ;;;
    core (rio_local_set_device_id (md_mport md) hdid) ;;;
    ret 0).

Definition maint_comptag_set (priv : ptr) (arg : Z) : MC W Z :=
  p <- get_priv priv ;;
  md <- get_md (pr_md p) ;;
  with_user arg 4 (fun b =>
    core (rio_local_write_config_32 (md_mport md) RIO_COMPONENT_TAG_CSR (le_at 0 4 b)) ;;;
    ret 0).

Definition maint_port_idx_get (priv : ptr) (arg : Z) : MC W Z :=
  p <- get_priv priv ;;
  md <- get_md (pr_md p) ;;
  mp <- core (get_mport (md_mport md)) ;;
  to_user arg (le_bytes 4 (mp_index mp)).

(** ** Mappings *)

(** A new mapping at the end of the device's list. *)
Definition add_mapping (md : ptr) (m : rio_mport_mapping) : MC W ptr :=
  p <- core fresh_ptr ;;
  modify (fun s => setf mc_maps (<[p := m]> (mc_maps s)) s) ;;;
  upd_md md (fun d => setf md_mappings (md_mappings d ++ [p]) d) ;;;
  ret p.

(** An inbound buffer is unmapped from RapidIO and then freed like a DMA buffer. *)
Definition free_buffer (map : rio_mport_mapping) : MC W unit :=
  match mm_virt_addr map with
  | Some v => env_ (dma_free_coherent (mm_size map) v (mm_dma_addr map))
  | None => env_ (dma_unmap_page (mm_dma_addr map) (mm_size map))
  end.
Definition mport_release_mapping (p : ptr) : MC W unit :=
  map <- get_map p ;;
  md <- get_md (mm_md map) ;;
  l <- unlink p (md_mappings md) ;;
  upd_md (mm_md map) (setf md_mappings l) ;;;
  (match mm_dir map with
   | MAP_INBOUND => core (rio_unmap_inb_region (md_mport md) (mm_dma_addr map)) ;;; free_buffer map
   | MAP_DMA => free_buffer map
   | MAP_OUTBOUND => core (rio_unmap_outb_region (md_mport md) (mm_rioid map) (mm_rio_addr map))
   end) ;;;
  modify (fun s => setf mc_maps (delete p (mc_maps s)) s) ;;;
  core kfree.

Definition map_get (p : ptr) : MC W unit := upd_map p (fun m => setf mm_ref (mm_ref m + 1) m).
(** [kref_put] with [mport_release_mapping]. *)
Definition map_put (p : ptr) : MC W unit :=
  map <- get_map p ;;
  upd_map p (setf mm_ref (mm_ref map - 1)) ;;;
  when (mm_ref map =? 1) (mport_release_mapping p).

(** The first mapping of a list for which the test says something. *)
Fixpoint find_map {A} (test : rio_mport_mapping -> option A) (l : list ptr) : MC W (option (ptr * A)) :=
  match l with
  | [] => ret None
  | p :: l' =>
      m <- get_map p ;;
      match test m with Some a => ret (Some (p, a)) | None => find_map test l' end
  end.

(** *** Outbound windows *)

Record rio_mmap := mk_rio_mmap {
  um_rioid : Z; um_rio_addr : Z; um_length : Z; um_handle : Z; um_address : Z;
}.
#[export] Instance eta_rio_mmap : Eta rio_mmap := fun r =>
  mk_rio_mmap (um_rioid r) (um_rio_addr r) (um_length r) (um_handle r) (um_address r).
Definition MMAP_SIZE : Z := 40.
Definition get_rio_mmap (b : list Z) : rio_mmap :=
  mk_rio_mmap (le_at 0 2 b) (le_at 8 8 b) (le_at 16 8 b) (le_at 24 8 b) (le_at 32 8 b).
(** The object with the fields stored in it; the padding is as it was. *)
Definition put_rio_mmap (m : rio_mmap) (b : list Z) : list Z :=
  put_bytes 0 (le_bytes 2 (um_rioid m)) (put_bytes 8 (le_bytes 8 (um_rio_addr m))
    (put_bytes 16 (le_bytes 8 (um_length m)) (put_bytes 24 (le_bytes 8 (um_handle m))
    (put_bytes 32 (le_bytes 8 (um_address m)) b)))).

(** [paddr] is the contents of [*paddr]; [size] is a [u32]. *)
Definition rio_mport_create_outbound_mapping (md filp : ptr) (rioid raddr size paddr : Z) : MC W (Z * Z) :=
  d <- get_md md ;;
  ok <- core kzalloc ;;
  if negb ok then ret (- ENOMEM, paddr)
  else
    let! (rc, paddr) := core (rio_map_outb_region (md_mport d) rioid raddr size 0 paddr) ;;
    if rc <? 0 then core kfree ;;; ret (rc, paddr)
    else
      add_mapping md (mk_rio_mport_mapping md MAP_OUTBOUND rioid raddr paddr paddr None size 1 (Some filp)) ;;;
      ret (0, paddr).

(** An existing mapping of the same region, or a conflict with one. *)
Definition outbound_match (rioid raddr size : Z) (map : rio_mport_mapping) : option (option Z) :=
  if negb (bool_decide (mm_dir map = MAP_OUTBOUND)) then None
  else if (rioid =? mm_rioid map) && (raddr =? mm_rio_addr map) && (size =? mm_size map)
  then Some (Some (mm_phys_addr map))
  else if (rioid =? mm_rioid map) && (raddr <? u64 (mm_rio_addr map + mm_size map - 1)) &&
          (mm_rio_addr map <? u64 (raddr + size)) then Some None
  else None.

Definition rio_mport_get_outbound_mapping (md filp : ptr) (rioid raddr size paddr : Z) : MC W (Z * Z) :=
  d <- get_md md ;;
  r <- find_map (outbound_match rioid raddr size) (md_mappings d) ;;
  match r with
  | Some (_, Some phys) => ret (0, phys)
  | Some (_, None) => ret (- EBUSY, paddr)
  | None => rio_mport_create_outbound_mapping md filp rioid raddr size paddr
  end.

Definition rio_mport_obw_map (filp : ptr) (arg : Z) : MC W Z :=
  priv <- file_priv filp ;;
  p <- get_priv priv ;;
  with_user arg MMAP_SIZE (fun b =>
    let map := get_rio_mmap b in
    v <- core uninit ;;
    let! (rc, paddr) := rio_mport_get_outbound_mapping (pr_md p) filp (um_rioid map) (um_rio_addr map)
      (u32 (um_length map)) v ;;
    if rc <? 0 then ret rc
    else to_user arg (put_rio_mmap (setf um_handle paddr map) b)).

(** The file's reference to a mapping is given up; only the first mapping that fits is
    looked at. *)
Definition drop_mapping (fits : rio_mport_mapping -> bool) (filp md : ptr) : MC W unit :=
  d <- get_md md ;;
  r <- find_map (fun m => if fits m then Some m else None) (md_mappings d) ;;
  match r with
  | Some (p, m) =>
      when (bool_decide (mm_filp m = Some filp)) (upd_map p (setf mm_filp None) ;;; map_put p)
  | None => ret tt
  end.

Definition rio_mport_obw_free (filp : ptr) (arg : Z) : MC W Z :=
  priv <- file_priv filp ;;
  p <- get_priv priv ;;
  md <- get_md (pr_md p) ;;
  mp <- core (get_mport (md_mport md)) ;;
  match op_unmap_outb (mp_ops mp) with
  | None => ret (- EPROTONOSUPPORT)
  | Some _ =>
      with_user arg 8 (fun b =>
        let handle := le_at 0 8 b in
        drop_mapping (fun m => bool_decide (mm_dir m = MAP_OUTBOUND) && (mm_phys_addr m =? handle))
          filp (pr_md p) ;;;
        ret 0)
  end.

(** *** Buffers *)

Variables (rio_res_mem rio_res_size : Z).
Definition RIO_MAP_ANY_ADDR : Z := 2 ^ 64 - 1.

(** A coherent buffer, or a place in reserved memory: the kernel's address if there is
    one, the physical address and the device's. *)
Definition outside_reserved (address length : Z) : bool :=
  (rio_res_size =? 0) || (address <? rio_res_mem) ||
  (u64 (rio_res_mem + rio_res_size) <? u64 (address + length)).
Definition get_buffer (address length : Z) : MC W (Z + option Z * Z * Z) :=
  if address =? RIO_MAP_ANY_ADDR then
    a <- env (dma_alloc_coherent length) ;;
    match a with None => ret (inl (- ENOMEM)) | Some (v, d) => ret (inr (Some v, 0, d)) end
  else if outside_reserved address length then ret (inl (- EINVAL))
  else
    d <- env (dma_map_page address length) ;;
    match d with None => ret (inl (- EIO)) | Some d => ret (inr (None, address, d)) end.

Record rio_dma_mem := mk_rio_dma_mem { dm_length : Z; dm_dma_handle : Z; dm_address : Z }.
#[export] Instance eta_rio_dma_mem : Eta rio_dma_mem := fun r =>
  mk_rio_dma_mem (dm_length r) (dm_dma_handle r) (dm_address r).
Definition DMA_MEM_SIZE : Z := 24.
Definition get_rio_dma_mem (b : list Z) : rio_dma_mem := mk_rio_dma_mem (le_at 0 8 b) (le_at 8 8 b) (le_at 16 8 b).
Definition put_rio_dma_mem (m : rio_dma_mem) : list Z :=
  le_bytes 8 (dm_length m) ++ le_bytes 8 (dm_dma_handle m) ++ le_bytes 8 (dm_address m).

Definition rio_mport_create_dma_mapping (md filp : ptr) (dm : rio_dma_mem) : MC W (Z + ptr) :=
  ok <- core kzalloc ;;
  if negb ok then ret (inl (- ENOMEM))
  else
    r <- get_buffer (dm_address dm) (dm_length dm) ;;
    match r with
    | inl e => core kfree ;;; ret (inl e)
    | inr (virt, phys, dma) =>
        p <- add_mapping md (mk_rio_mport_mapping md MAP_DMA 0 0 phys dma virt (dm_length dm) 1 (Some filp)) ;;
        ret (inr p)
    end.

Definition rio_mport_check_dma_mapping (md : ptr) (dm : rio_dma_mem) : MC W Z :=
  d <- get_md md ;;
  r <- find_map (fun map =>
    if bool_decide (mm_dir map = MAP_DMA) && (dm_address dm <? u64 (mm_phys_addr map + mm_size map)) &&
       (mm_phys_addr map <? u64 (dm_address dm + dm_length dm)) then Some tt else None) (md_mappings d) ;;
  ret (match r with Some _ => - EBUSY | None => 0 end).

Definition rio_mport_alloc_dma (filp : ptr) (arg : Z) : MC W Z :=
  priv <- file_priv filp ;;
  p <- get_priv priv ;;
  with_user arg DMA_MEM_SIZE (fun b =>
    let map := get_rio_dma_mem b in
    rc <- (if negb (dm_address map =? RIO_MAP_ANY_ADDR) then rio_mport_check_dma_mapping (pr_md p) map else ret 0) ;;
    if truthy rc then ret rc
    else
      r <- rio_mport_create_dma_mapping (pr_md p) filp map ;;
      match r with
      | inl e => ret e
      | inr mapping =>
          m <- get_map mapping ;;
          ok <- copy_to_user arg (put_rio_dma_mem (setf dm_dma_handle (mm_dma_addr m) map)) ;;
          if negb ok then map_put mapping ;;; ret (- EFAULT) else ret 0
      end).

(** The file stays the owner of the mapping. *)
Definition rio_mport_free_dma (filp : ptr) (arg : Z) : MC W Z :=
  priv <- file_priv filp ;;
  p <- get_priv priv ;;
  md <- get_md (pr_md p) ;;
  with_user arg 8 (fun b =>
    let handle := le_at 0 8 b in
    r <- find_map (fun m =>
      if bool_decide (mm_dir m = MAP_DMA) && (mm_dma_addr m =? handle) && bool_decide (mm_filp m = Some filp)
      then Some tt else None) (md_mappings md) ;;
    match r with
    | Some (map, _) => map_put map ;;; ret 0
    | None => ret (- EFAULT)
    end).

(** *** Inbound windows *)

Definition rio_mport_create_inbound_mapping (md filp : ptr) (ib : rio_mmap) : MC W (Z + ptr) :=
  d <- get_md md ;;
  let size := um_length ib in
  if 0xffffffff <? size then ret (inl (- EINVAL))
  else
    ok <- core kzalloc ;;
    if negb ok then ret (inl (- ENOMEM))
    else
      r <- get_buffer (um_address ib) size ;;
      match r with
      | inl e => core kfree ;;; ret (inl e)
      | inr (virt, phys, dma) =>
          let raddr := if um_rio_addr ib =? RIO_MAP_ANY_ADDR then dma else um_rio_addr ib in
          let map := mk_rio_mport_mapping md MAP_INBOUND 0 raddr phys dma virt size 1 (Some filp) in
          rc <- core (rio_map_inb_region (md_mport d) dma raddr size 0) ;;
          if rc <? 0 then free_buffer map ;;; core kfree ;;; ret (inl rc)
          else p <- add_mapping md map ;; ret (inr p)
      end.

(** A mapping of the same region that can be shared, or a conflict. *)
Definition inbound_match (raddr size address : Z) (map : rio_mport_mapping) : option bool :=
  if negb (bool_decide (mm_dir map = MAP_INBOUND)) then None
  else if (raddr =? mm_rio_addr map) && (size =? mm_size map) then
    Some ((address =? RIO_MAP_ANY_ADDR) || (address =? mm_phys_addr map))
  else if (raddr <? u64 (mm_rio_addr map + mm_size map - 1)) && (mm_rio_addr map <? u64 (raddr + size))
  then Some false
  else None.

Definition rio_mport_get_inbound_mapping (md filp : ptr) (ib : rio_mmap) : MC W (Z + ptr) :=
  if um_rio_addr ib =? RIO_MAP_ANY_ADDR then rio_mport_create_inbound_mapping md filp ib
  else
    d <- get_md md ;;
    r <- find_map (inbound_match (um_rio_addr ib) (um_length ib) (um_address ib)) (md_mappings d) ;;
    match r with
    | Some (p, true) => ret (inr p)
    | Some (_, false) => ret (inl (- EBUSY))
    | None => rio_mport_create_inbound_mapping md filp ib
    end.

Definition rio_mport_map_inbound (filp : ptr) (arg : Z) : MC W Z :=
  priv <- file_priv filp ;;
  p <- get_priv priv ;;
  md <- get_md (pr_md p) ;;
  mp <- core (get_mport (md_mport md)) ;;
  match op_map_inb (mp_ops mp) with
  | None => ret (- EPROTONOSUPPORT)
  | Some _ =>
      with_user arg MMAP_SIZE (fun b =>
        let map := get_rio_mmap b in
        r <- rio_mport_get_inbound_mapping (pr_md p) filp map ;;
        match r with
        | inl e => ret e
        | inr mapping =>
            m <- get_map mapping ;;
            ok <- copy_to_user arg (put_rio_mmap (setf um_handle (mm_dma_addr m) (setf um_rio_addr (mm_rio_addr m) map)) b) ;;
            if negb ok then
              when (bool_decide (mm_filp m = Some filp)) (map_put mapping) ;;; ret (- EFAULT)
            else ret 0
        end)
  end.

Definition rio_mport_inbound_free (filp : ptr) (arg : Z) : MC W Z :=
  priv <- file_priv filp ;;
  p <- get_priv priv ;;
  md <- get_md (pr_md p) ;;
  mp <- core (get_mport (md_mport md)) ;;
  match op_unmap_inb (mp_ops mp) with
  | None => ret (- EPROTONOSUPPORT)
  | Some _ =>
      with_user arg 8 (fun b =>
        let handle := le_at 0 8 b in
        drop_mapping (fun m => bool_decide (mm_dir m = MAP_INBOUND) && (mm_dma_addr m =? handle))
          filp (pr_md p) ;;;
        ret 0)
  end.

(** ** Memory areas of processes *)

Definition mport_mm_open (vma : ptr) : MC W unit :=
  map <- (o <- gets (fun s => mc_vmas s !! vma) ;; deref o) ;; map_get map.
(** The kernel forgets the area afterwards. *)
Definition mport_mm_close (vma : ptr) : MC W unit :=
  map <- (o <- gets (fun s => mc_vmas s !! vma) ;; deref o) ;; map_put map.

(** The first mapping of any kind that has the device's address in it. *)
Definition holds_addr (baddr : Z) (m : rio_mport_mapping) : option rio_mport_mapping :=
  if (mm_dma_addr m <=? baddr) && (baddr <? u64 (mm_dma_addr m + mm_size m)) then Some m else None.

Definition mport_cdev_mmap (filp vma : ptr) (vm_start vm_end vm_pgoff : Z) : MC W Z :=
  priv <- file_priv filp ;;
  p <- get_priv priv ;;
  md <- get_md (pr_md p) ;;
  let size := u64 (vm_end - vm_start) in
  let baddr := u64 (Z.shiftl vm_pgoff PAGE_SHIFT) in
  r <- find_map (holds_addr baddr) (md_mappings md) ;;
  match r with
  | None => ret (- ENOMEM)
  | Some (mapp, map) =>
      let offset := baddr - mm_dma_addr map in
      if mm_size map <? u64 (size + offset) then ret (- EINVAL)
      else
        rc <- match mm_dir map with
          | MAP_INBOUND | MAP_DMA =>
              match mm_virt_addr map with
              | Some v => env (dma_mmap_coherent vma (Z.shiftr offset PAGE_SHIFT) v (mm_dma_addr map) (mm_size map))
              | None => env (remap_pfn_range vma (Z.shiftr (u64 (mm_phys_addr map + offset)) PAGE_SHIFT) size)
              end
          | MAP_OUTBOUND => env (vm_iomap_memory vma (mm_phys_addr map) (mm_size map))
          end ;;
        when (rc =? 0)
          (modify (fun s => setf mc_vmas (<[vma := mapp]> (mc_vmas s)) s) ;;; mport_mm_open vma) ;;;
        ret rc
  end.
End cdev.
