(* ===== verification/MportDma.v ===== *)
(** * The char device of a master port: DMA transfers (devices/rio_mport_cdev.c)

    A transfer request pins the buffer of the application, or refers to a mapping, and goes to
    a DMA channel; it is freed with its last reference, which the thread that started it and the
    completion callback share. *)

From S2P Require Import Prelude Regs State Access Msg RioDma MportCdev.

(** What waits for completions: a request's, or the one of the file's channel.  It gives
    what is left of the time, 0 for a timeout or a negative error, and everything may
    happen meanwhile. *)
Inductive mport_wait := WAIT_REQ (req : ptr) | WAIT_DMA (priv : ptr).
Class CdevWait (W : Type) := { wait_for_completion : mport_wait -> Z -> MC W Z }.

Section dma.
Context {W : Type} `{!KernelEnv W} `{!CdevEnv W} `{!DmaEngine (mcstate W)} `{!CdevWait W}.
Variables (dma_timeout : Z).

Definition get_req (p : ptr) : MC W mport_dma_req := o <- gets (fun s => mc_reqs s !! p) ;; deref o.
Definition upd_req (p : ptr) (g : mport_dma_req -> mport_dma_req) : MC W unit :=
  d <- get_req p ;; modify (fun s => setf mc_reqs (<[p := g d]> (mc_reqs s)) s).

(** ** References *)

(** The default channel goes with the last file that uses it. *)
Definition mport_release_def_dma (md : ptr) : MC W unit :=
  d <- get_md md ;;
  chan <- deref (md_dma_chan d) ;;
  rio_release_dma chan ;;;
  upd_md md (setf md_dma_chan None).
Definition def_dma_put (md : ptr) : MC W unit :=
  d <- get_md md ;;
  upd_md md (setf md_dma_ref (md_dma_ref d - 1)) ;;;
  when (md_dma_ref d =? 1) (mport_release_def_dma md).

Definition mport_release_dma (priv : ptr) : MC W unit :=
  upd_priv priv (fun p => setf pr_comp (comp_complete (pr_comp p)) p).
Definition put_dma_channel (priv : ptr) : MC W unit :=
  p <- get_priv priv ;;
  upd_priv priv (setf pr_dma_ref (pr_dma_ref p - 1)) ;;;
  when (pr_dma_ref p =? 1) (mport_release_dma priv).

Definition put_pages (pages : list (option ptr)) : MC W unit :=
  for_ pages (fun o => pg <- deref o ;; env_ (put_page pg)).

Definition dma_req_free (req : ptr) : MC W unit :=
  r <- get_req req ;;
  let sgl := default [] (rq_sgl r) in
  env_ (dma_unmap_sg sgl (rq_nents r) (rq_dir r)) ;;;
  env_ (sg_free_table sgl) ;;;
  (match rq_page_list r with
   | Some pages => put_pages (take (Z.to_nat (rq_nr_pages r)) pages) ;;; core kfree
   | None => ret tt
   end) ;;;
  (match rq_map r with Some map => map_put map | None => ret tt end) ;;;
  put_dma_channel (rq_priv r) ;;;
  modify (fun s => setf mc_reqs (delete req (mc_reqs s)) s) ;;;
  core kfree.

Definition req_get (req : ptr) : MC W unit := upd_req req (fun r => setf rq_refcount (rq_refcount r + 1) r).
Definition req_put (req : ptr) : MC W unit :=
  r <- get_req req ;;
  upd_req req (setf rq_refcount (rq_refcount r - 1)) ;;;
  when (rq_refcount r =? 1) (dma_req_free req).

(** The callback, run by the DMA driver when the transfer is over. *)
Definition dma_xfer_callback (req : ptr) : MC W unit :=
  r <- get_req req ;;
  p <- get_priv (rq_priv r) ;;
  chan <- deref (pr_dmach p) ;;
  status <- dma_async_is_tx_complete chan (rq_cookie r) ;;
  upd_req req (fun r => setf rq_status status (setf rq_comp (comp_complete (rq_comp r)) r)) ;;;
  req_put req.

(** ** Starting a transfer *)

(** struct rio_transfer_io and its place in memory *)
Record rio_transfer_io := mk_rio_transfer_io {
  tr_rio_addr : Z; tr_loc_addr : Z; tr_handle : Z; tr_offset : Z; tr_length : Z;
  tr_rioid : Z; tr_method : Z; tr_ssdist : Z; tr_sssize : Z; tr_dsdist : Z; tr_dssize : Z;
}.
Definition TRANSFER_IO_SIZE : Z := 56.
Definition get_transfer_io (b : list Z) : rio_transfer_io :=
  mk_rio_transfer_io (le_at 0 8 b) (le_at 8 8 b) (le_at 16 8 b) (le_at 24 8 b) (le_at 32 8 b)
    (le_at 40 2 b) (le_at 42 2 b) (le_at 48 2 b) (le_at 50 2 b) (le_at 52 2 b) (le_at 54 2 b).

(** enum rio_exchange: the kinds that have a write type. *)
Definition exchange_type (method : Z) : option rio_write_type :=
  match method with
  | 0 => Some RDW_DEFAULT | 1 => Some RDW_ALL_NWRITE | 3 => Some RDW_LAST_NWRITE_R
  | 5 => Some RDW_ALL_NWRITE_R | _ => None
  end.

(** The write type of a read is not initialised; it is not used either. *)
Definition prep_dma_xfer (chan : ptr) (transfer : rio_transfer_io) (sgl : option (list sg_entry)) (nents : Z)
    (dir : dma_transfer_direction) (flags : Z) : MC W (Z + option ptr) :=
  let wr_type :=
    if bool_decide (dir = DMA_MEM_TO_DEV) then exchange_type (tr_method transfer) else Some RDW_DEFAULT in
  match wr_type with
  | None => ret (inl (- EINVAL))
  | Some wr_type =>
      rio_dma_prep_xfer chan (tr_rioid transfer)
        (mk_rio_dma_data sgl nents (tr_rio_addr transfer) 0 wr_type
          (tr_ssdist transfer) (tr_sssize transfer) (tr_dsdist transfer) (tr_dssize transfer)) dir flags
  end.

(** A channel for the file: one of its own, or the default one. *)
Definition get_dma_channel (priv : ptr) : MC W Z :=
  p <- get_priv priv ;;
  rc <- match pr_dmach p with
    | Some _ => ret 0
    | None =>
        md <- get_md (pr_md p) ;;
        chan <- rio_request_mport_dma (md_mport md) ;;
        md <- get_md (pr_md p) ;;
        let started chan : MC W Z := upd_priv priv (fun p =>
          setf pr_dmach (Some chan) (setf pr_dma_ref 1 (setf pr_comp 0 p))) ;;; ret 0 in
        match chan, md_dma_chan md with
        | None, None => ret (- ENODEV)
        | None, Some def =>
            upd_md (pr_md p) (setf md_dma_ref (md_dma_ref md + 1)) ;;; started def
        | Some chan, None =>
            upd_md (pr_md p) (fun d => setf md_dma_chan (Some chan) (setf md_dma_ref 1 d)) ;;; started chan
        | Some chan, Some _ => started chan
        end
    end ;;
  if truthy rc then ret rc
  else upd_priv priv (fun p => setf pr_dma_ref (pr_dma_ref p + 1) p) ;;; ret 0.

(** After the descriptor is prepared. *)
Definition submit_request (req tx chan : ptr) (sync : Z) : MC W Z :=
  tx_set_callback tx req ;;;
  upd_req req (setf rq_status DMA_IN_PROGRESS) ;;;
  req_get req ;;;
  cookie <- dmaengine_submit tx ;;
  upd_req req (setf rq_cookie cookie) ;;;
  if cookie <? 0 then req_put req ;;; ret (- EIO)
  else
    dma_async_issue_pending chan ;;;
    if sync =? RIO_TRANSFER_ASYNC then
      r <- get_req req ;;
      upd_priv (rq_priv r) (fun p => setf pr_async_list (pr_async_list p ++ [req]) p) ;;;
      ret cookie
    else if sync =? RIO_TRANSFER_FAF then ret 0
    else
      wret <- wait_for_completion (WAIT_REQ req) (msecs_to_jiffies dma_timeout) ;;
      if wret =? 0 then ret (- ETIMEDOUT)
      else if wret =? - ERESTARTSYS then ret (- EINTR)
      else
        r <- get_req req ;;
        ret (if bool_decide (rq_status r = DMA_COMPLETE) then 0 else - EIO).

Definition do_dma_request (req : ptr) (xfer : rio_transfer_io) (sync nents : Z) : MC W Z :=
  r <- get_req req ;;
  p <- get_priv (rq_priv r) ;;
  chan <- deref (pr_dmach p) ;;
  let dir := if bool_decide (rq_dir r = DMA_FROM_DEVICE) then DMA_DEV_TO_MEM else DMA_MEM_TO_DEV in
  tx <- prep_dma_xfer chan xfer (rq_sgl r) nents dir (Z.lor DMA_CTRL_ACK DMA_PREP_INTERRUPT) ;;
  match tx with
  | inr None => ret (- EIO)
  | inl e => ret e
  | inr (Some tx) => submit_request req tx chan sync
  end.

(** *** The memory of a transfer *)

Definition PAGE_SIZE : Z := Z.shiftl 1 PAGE_SHIFT.
Definition PAGE_ALIGN (x : Z) : Z := Z.land (u64 (x + (PAGE_SIZE - 1))) (Z.lnot (PAGE_SIZE - 1)).

(** Pages of the application.  The second component is what is left to clean up after an
    error: the pages to put, in an array that the request does not own. *)
Definition pin_pages (req : ptr) (xfer : rio_transfer_io) (dir : dma_data_direction)
    : MC W (Z * option (list (option ptr))) :=
  let offset := Z.land (tr_loc_addr xfer) (PAGE_SIZE - 1) in
  let nr_pages := Z.shiftr (PAGE_ALIGN (u64 (tr_length xfer + offset))) PAGE_SHIFT in
  ok <- core kzalloc ;;
  if negb ok then ret (- ENOMEM, None)
  else
    let! (pinned, pages) := env (get_user_pages (Z.land (tr_loc_addr xfer) (Z.lnot (PAGE_SIZE - 1)))
      nr_pages (bool_decide (dir = DMA_FROM_DEVICE))) ;;
    let page_list := take (Z.to_nat nr_pages)
      ((Some <$> take (Z.to_nat pinned) pages) ++ replicate (Z.to_nat (nr_pages - pinned)) None) in
    if negb (pinned =? nr_pages) then
      ret (- EFAULT, Some (if pinned <? 0 then [] else page_list))
    else
      let! (rc, sgl) := env (sg_alloc_table_from_pages page_list offset (tr_length xfer)) ;;
      if truthy rc then ret (rc, Some page_list)
      else
        upd_req req (fun r => setf rq_sgl (Some sgl) (setf rq_nents (Z.of_nat (length sgl))
          (setf rq_page_list (Some page_list) (setf rq_nr_pages (u32 nr_pages) r)))) ;;;
        ret (0, None).

(** A part of a mapping: a table of one entry.  The second component tells whether the
    memory is reserved memory, which is not mapped for the device again. *)
Definition use_mapping (req md : ptr) (xfer : rio_transfer_io) : MC W (Z * bool) :=
  let baddr := tr_handle xfer in
  d <- get_md md ;;
  r <- find_map (holds_addr baddr) (md_mappings d) ;;
  match r with
  | None => ret (- ENOMEM, false)
  | Some (mapp, map) =>
      map_get mapp ;;;
      upd_req req (setf rq_map (Some mapp)) ;;;
      if mm_size map <? u64 (tr_length xfer + tr_offset xfer) then ret (- EINVAL, false)
      else
        let! (rc, sgl) := env (sg_alloc_table 1) ;;
        if truthy rc then ret (rc, false)
        else
          e <- deref (head sgl) ;;
          let e := match mm_virt_addr map with
            | Some v => setf sg_buf (Some (u64 (v + (baddr - mm_dma_addr map) + tr_offset xfer)))
                (setf sg_length (u32 (tr_length xfer)) e)
            | None => setf sg_dma_address (u64 (baddr + tr_offset xfer)) (setf sg_dma_len (u32 (tr_length xfer)) e)
            end in
          upd_req req (fun r => setf rq_sgl (Some (e :: tail sgl)) (setf rq_nents (Z.of_nat (length sgl)) r)) ;;;
          ret (0, negb (bool_decide (is_Some (mm_virt_addr map))))
  end.

(** The request is mapped for the device and runs.  The result tells whether the caller's
    reference goes to the list of asynchronous transfers. *)
Definition run_request (req : ptr) (xfer : rio_transfer_io) (sync : Z) (reserved : bool) : MC W (Z * bool) :=
  r <- get_req req ;;
  nents <- (if reserved then ret (rq_nents r)
    else
      let! (nents, sgl) := env (dma_map_sg (default [] (rq_sgl r)) (rq_nents r) (rq_dir r)) ;;
      upd_req req (fun r => setf rq_sgl (Some sgl) r) ;;;
      ret nents) ;;
  if negb reserved && (nents =? - EFAULT) then ret (- EFAULT, true)
  else
    rc <- do_dma_request req xfer sync (u32 nents) ;;
    ret (rc, (0 <=? rc) && (sync =? RIO_TRANSFER_ASYNC)).

Definition rio_dma_transfer (filp : ptr) (sync : Z) (dir : dma_data_direction) (xfer : rio_transfer_io) : MC W Z :=
  priv <- file_priv filp ;;
  p <- get_priv priv ;;
  if tr_length xfer =? 0 then ret (- EINVAL)
  else
    ok <- core kzalloc ;;
    if negb ok then ret (- ENOMEM)
    else
      rc <- get_dma_channel priv ;;
      if truthy rc then core kfree ;;; ret rc
      else
        p <- get_priv priv ;;
        chan <- deref (pr_dmach p) ;;
        req <- core fresh_ptr ;;
        modify (fun s => setf mc_reqs (<[req :=
          mk_mport_dma_req 1 filp priv sync None 0 None 0 None chan dir 0 DMA_COMPLETE 0]> (mc_reqs s)) s) ;;;
        if truthy (tr_loc_addr xfer) then
          let! (rc, pinned) := pin_pages req xfer dir ;;
          if truthy rc then
            (match pinned with Some pages => put_pages pages ;;; core kfree | None => ret tt end) ;;;
            req_put req ;;; ret rc
          else
            let! (rc, kept) := run_request req xfer sync false ;;
            when (negb kept) (req_put req) ;;;
            ret rc
        else
          let! (rc, reserved) := use_mapping req (pr_md p) xfer ;;
          if truthy rc then req_put req ;;; ret rc
          else
            let! (rc, kept) := run_request req xfer sync reserved ;;
            when (negb kept) (req_put req) ;;;
            ret rc.

(** ** Operations *)

Definition TRANSACTION_SIZE : Z := 24.

(** One transfer at a time; what the application gave is copied back. *)
Definition rio_mport_transfer_ioctl (filp : ptr) (arg : Z) : MC W Z :=
  priv <- file_priv filp ;;
  p <- get_priv priv ;;
  with_user arg TRANSACTION_SIZE (fun b =>
    let block := le_at 0 8 b in
    md <- get_md (pr_md p) ;;
    if negb (le_at 8 4 b =? 1) then ret (- EINVAL)
    else if Z.land (le_at 12 4 b) (pp_transfer_mode (md_properties md)) =? 0 then ret (- ENODEV)
    else
      ok <- core kzalloc ;;
      if negb ok then ret (- ENOMEM)
      else
        rc <- with_user block TRANSFER_IO_SIZE (fun t =>
          rc <- rio_dma_transfer filp (le_at 16 2 b)
            (if le_at 18 2 b =? 0 then DMA_FROM_DEVICE else DMA_TO_DEVICE) (get_transfer_io t) ;;
          ok <- copy_to_user block t ;;
          ret (if ok : bool then rc else - EFAULT)) ;;
        core kfree ;;;
        ret rc).

(** The first pending request with the cookie. *)
Fixpoint find_req (cookie : Z) (l : list ptr) : MC W (option ptr) :=
  match l with
  | [] => ret None
  | p :: l' => r <- get_req p ;; if rq_cookie r =? cookie then ret (Some p) else find_req cookie l'
  end.

Definition rio_mport_wait_for_async_dma (filp : ptr) (arg : Z) : MC W Z :=
  priv <- file_priv filp ;;
  p <- get_priv priv ;;
  with_user arg 8 (fun b =>
    let timeout := le_at 4 4 b in
    let tmo := msecs_to_jiffies (if truthy timeout then timeout else dma_timeout) in
    req <- find_req (s32 (le_at 0 4 b)) (pr_async_list p) ;;
    match req with
    | None => ret (- EAGAIN)
    | Some req =>
        l <- unlink req (pr_async_list p) ;;
        upd_priv priv (setf pr_async_list l) ;;;
        wret <- wait_for_completion (WAIT_REQ req) tmo ;;
        if (wret =? 0) || (wret =? - ERESTARTSYS) then
          upd_priv priv (fun p => setf pr_async_list (pr_async_list p ++ [req]) p) ;;;
          ret (if wret =? 0 then - ETIMEDOUT else - EINTR)
        else
          r <- get_req req ;;
          when (negb (bool_decide (rq_status r = DMA_IN_PROGRESS)) && negb (bool_decide (rq_status r = DMA_PAUSED)))
            (req_put req) ;;;
          ret (if bool_decide (rq_status r = DMA_COMPLETE) then 0 else - EIO)
    end).

(** ** Closing a file: its transfers and its channel *)

Definition mport_cdev_release_dma (filp : ptr) : MC W unit :=
  priv <- file_priv filp ;;
  p <- get_priv priv ;;
  match pr_dmach p with
  | None => ret tt
  | Some _ =>
      upd_priv priv (setf pr_async_list []) ;;;
      for_ (pr_async_list p) req_put ;;;
      put_dma_channel priv ;;;
      wait_for_completion (WAIT_DMA priv) (msecs_to_jiffies dma_timeout) ;;;
      p <- get_priv priv ;;
      md <- get_md (pr_md p) ;;
      (if bool_decide (pr_dmach p = md_dma_chan md) then def_dma_put (pr_md p)
       else chan <- deref (pr_dmach p) ;; rio_release_dma chan) ;;;
      upd_priv priv (setf pr_dmach None)
  end.

(** ** Removing the port: all channels are stopped and released *)

Definition stop_channel (chan : ptr) : MC W unit := dmaengine_terminate_all chan ;;; rio_release_dma chan.
Definition mport_cdev_terminate_dma (md : ptr) : MC W unit :=
  d <- get_md md ;;
  for_ (md_file_list d) (fun client =>
    p <- get_priv client ;;
    match pr_dmach p with Some chan => stop_channel chan | None => ret tt end) ;;;
  d <- get_md md ;;
  match md_dma_chan d with
  | Some chan => stop_channel chan ;;; upd_md md (setf md_dma_chan None)
  | None => ret tt
  end.
End dma.
