(* ===== verification/MportOps.v ===== *)
(** * The char device of a master port: events, devices, files (devices/rio_mport_cdev.c)

    Doorbells and port-writes go to the files whose filters they pass; applications add and
    remove devices; files are opened, read, written and closed; and the char devices
    come and go with the ports. *)

From S2P Require Import Prelude Regs State Access ExtFeat Mbox Em Driver Mport Msg RioDma MportCdev MportDma.

(** What the driver registers with the kernel. *)
Inductive mport_registration :=
| MC_CLASS | MC_CHRDEV_REGION | MC_INTERFACE | MC_CDEV (md : ptr) | MC_DEVICE (md : ptr).

(** The kernel's side: registration with an error, which is negative, or 0; looking up a
    device takes a reference to it; a thread that waits for events of a file; signals. *)
Class CdevKernel (W : Type) := {
  mc_register : mport_registration -> MC W Z;
  mc_unregister : mport_registration -> MC W unit;
  bus_find_device_by_name : list Z -> KM W (option ptr);
  wait_event : ptr -> MC W Z;
  fasync_helper : bool -> W -> Z * W;
  kill_fasync : ptr -> W -> W;
}.

Definition RIO_DOORBELL : Z := 1.
Definition RIO_PORTWRITE : Z := 2.
(** struct rio_event: header, union of 64 bytes, padding *)
Definition EVENT_SIZE : Z := 72.

Section events.
Context {W : Type} `{!KernelEnv W} `{!CdevEnv W}.
(** The addresses of the two handlers. *)
Variables (rio_mport_doorbell_handler_p rio_mport_pw_handler_p : ptr).

(** ** Events *)

(** The bytes of an object on the stack that nothing is stored in. *)
Definition stack_bytes (n : nat) : MC W (list Z) := v <- core uninit ;; ret (replicate n (u8 v)).

Definition rio_mport_add_event (priv : ptr) (header : Z) (event : list Z) : MC W Z :=
  p <- get_priv priv ;;
  if Z.land (pr_event_mask p) header =? 0 then ret (- EACCES)
  else if pr_fifo_size p - Z.of_nat (length (pr_event_fifo p)) <? EVENT_SIZE then ret (- EBUSY)
  else upd_priv priv (fun p => setf pr_event_fifo (pr_event_fifo p ++ event) p) ;;; ret 0.

Definition db_passes (src info : Z) (f : rio_doorbell_filter) : bool :=
  ((df_rioid f =? RIO_INVALID_DESTID) || (df_rioid f =? src)) && (df_low f <=? info) && (info <=? df_high f).

(** Every filter that lets the doorbell pass gives its file an event. *)
Definition rio_mport_doorbell_handler (mport dev_id : ptr) (src dst info : Z) : MC W unit :=
  d <- get_md dev_id ;;
  rest <- stack_bytes 64 ;;
  let event := le_bytes 4 RIO_DOORBELL ++ le_bytes 2 src ++ le_bytes 2 info ++ rest in
  for_ (md_doorbells d) (fun f =>
    f <- (o <- gets (fun s => mc_dbfs s !! f) ;; deref o) ;;
    when (db_passes src info (dbf_filter f))
      (rio_mport_add_event (dbf_priv f) RIO_DOORBELL event ;;; ret tt)).

Definition get_db_filter (b : list Z) : rio_doorbell_filter :=
  mk_rio_doorbell_filter (le_at 0 2 b) (le_at 2 2 b) (le_at 4 2 b).

Definition rio_mport_add_db_filter (priv : ptr) (arg : Z) : MC W Z :=
  p <- get_priv priv ;;
  md <- get_md (pr_md p) ;;
  with_user arg 8 (fun b =>
    let filter := get_db_filter b in
    if df_high filter <? df_low filter then ret (- EINVAL)
    else
      rc <- core (rio_request_inb_dbell (md_mport md) (pr_md p) (df_low filter) (df_high filter)
        rio_mport_doorbell_handler_p) ;;
      if truthy rc then ret rc
      else
        ok <- core kzalloc ;;
        if negb ok then
          core (rio_release_inb_dbell (md_mport md) (df_low filter) (df_high filter)) ;;; ret (- ENOMEM)
        else
          f <- core fresh_ptr ;;
          modify (fun s => setf mc_dbfs (<[f := mk_db_filter priv filter]> (mc_dbfs s)) s) ;;;
          upd_priv priv (fun p => setf pr_db_filters (pr_db_filters p ++ [f]) p) ;;;
          upd_md (pr_md p) (fun d => setf md_doorbells (md_doorbells d ++ [f]) d) ;;;
          ret 0).

Definition rio_mport_delete_db_filter (f : ptr) : MC W unit :=
  flt <- (o <- gets (fun s => mc_dbfs s !! f) ;; deref o) ;;
  p <- get_priv (dbf_priv flt) ;;
  d <- get_md (pr_md p) ;;
  l <- unlink f (md_doorbells d) ;;
  upd_md (pr_md p) (setf md_doorbells l) ;;;
  l <- unlink f (pr_db_filters p) ;;
  upd_priv (dbf_priv flt) (setf pr_db_filters l) ;;;
  modify (fun s => setf mc_dbfs (delete f (mc_dbfs s)) s) ;;;
  core kfree.

Definition rio_mport_remove_db_filter (priv : ptr) (arg : Z) : MC W Z :=
  p <- get_priv priv ;;
  md <- get_md (pr_md p) ;;
  with_user arg 8 (fun b =>
    let filter := get_db_filter b in
    if df_high filter <? df_low filter then ret (- EINVAL)
    else
      rc <- for_exit (pr_db_filters p) (fun f =>
        flt <- (o <- gets (fun s => mc_dbfs s !! f) ;; deref o) ;;
        if bool_decide (dbf_filter flt = filter) then rio_mport_delete_db_filter f ;;; ret (Some 0) else ret None) ;;
      match rc with
      | None => ret (- EINVAL)
      | Some _ => core (rio_release_inb_dbell (md_mport md) (df_low filter) (df_high filter)) ;;; ret 0
      end).

Definition rio_mport_match_pw (msg : rio_pw_msg) (f : rio_pw_filter) : bool :=
  negb ((Z.land (pw_comptag msg) (pf_mask f) <? pf_low f) || (pf_high f <? Z.land (pw_comptag msg) (pf_mask f))).

(** The message is kept by its first four words; what follows in the union comes from
    the caller's stack as well. *)
Definition rio_mport_pw_handler (mport context : ptr) (msg : rio_pw_msg) (step : Z) : MC W Z :=
  d <- get_md context ;;
  rest <- stack_bytes 52 ;;
  let event := le_bytes 4 RIO_PORTWRITE ++ le_bytes 4 (pw_comptag msg) ++ le_bytes 4 (pw_errdetect msg) ++
    le_bytes 4 (pw_is_port msg) ++ le_bytes 4 (pw_ltlerrdet msg) ++ rest in
  for_ (md_portwrites d) (fun f =>
    f <- (o <- gets (fun s => mc_pwfs s !! f) ;; deref o) ;;
    when (rio_mport_match_pw msg (pwf_filter f))
      (rio_mport_add_event (pwf_priv f) RIO_PORTWRITE event ;;; ret tt)) ;;;
  ret 0.

Definition get_pw_filter (b : list Z) : rio_pw_filter :=
  mk_rio_pw_filter (le_at 0 4 b) (le_at 4 4 b) (le_at 8 4 b).

(** The first filter of the port registers the handler; if that fails the filter stays. *)
Definition rio_mport_add_pw_filter (priv : ptr) (arg : Z) : MC W Z :=
  p <- get_priv priv ;;
  md <- get_md (pr_md p) ;;
  with_user arg 16 (fun b =>
    ok <- core kzalloc ;;
    if negb ok then ret (- ENOMEM)
    else
      f <- core fresh_ptr ;;
      modify (fun s => setf mc_pwfs (<[f := mk_pw_filter priv (get_pw_filter b)]> (mc_pwfs s)) s) ;;;
      d <- get_md (pr_md p) ;;
      let hadd := bool_decide (md_portwrites d = []) in
      upd_priv priv (fun p => setf pr_pw_filters (pr_pw_filters p ++ [f]) p) ;;;
      upd_md (pr_md p) (fun d => setf md_portwrites (md_portwrites d ++ [f]) d) ;;;
      if hadd then
        rc <- core (rio_add_mport_pw_handler (md_mport md) (pr_md p) rio_mport_pw_handler_p) ;;
        if truthy rc then ret rc
        else core (rio_pw_enable (md_mport md) 1) ;;; ret 0
      else ret 0).

Definition rio_mport_delete_pw_filter (f : ptr) : MC W unit :=
  flt <- (o <- gets (fun s => mc_pwfs s !! f) ;; deref o) ;;
  p <- get_priv (pwf_priv flt) ;;
  d <- get_md (pr_md p) ;;
  l <- unlink f (md_portwrites d) ;;
  upd_md (pr_md p) (setf md_portwrites l) ;;;
  l <- unlink f (pr_pw_filters p) ;;
  upd_priv (pwf_priv flt) (setf pr_pw_filters l) ;;;
  modify (fun s => setf mc_pwfs (delete f (mc_pwfs s)) s) ;;;
  core kfree.

Definition rio_mport_match_pw_filter (a b : rio_pw_filter) : bool := bool_decide (a = b).

(** The handler goes when no filter is left, whether or not one was removed. *)
Definition rio_mport_remove_pw_filter (priv : ptr) (arg : Z) : MC W Z :=
  p <- get_priv priv ;;
  with_user arg 16 (fun b =>
    let filter := get_pw_filter b in
    rc <- for_exit (pr_pw_filters p) (fun f =>
      flt <- (o <- gets (fun s => mc_pwfs s !! f) ;; deref o) ;;
      if rio_mport_match_pw_filter (pwf_filter flt) filter
      then rio_mport_delete_pw_filter f ;;; ret (Some 0) else ret None) ;;
    md <- get_md (pr_md p) ;;
    when (bool_decide (md_portwrites md = []))
      (core (rio_del_mport_pw_handler (md_mport md) (pr_md p) rio_mport_pw_handler_p) ;;;
       core (rio_pw_enable (md_mport md) 0)) ;;;
    ret (default (- EINVAL) rc)).

(** ** Reading and writing *)

Definition POLLIN : Z := 0x0001.
Definition POLLRDNORM : Z := 0x0040.
Definition mport_cdev_poll (filp : ptr) : MC W Z :=
  priv <- file_priv filp ;;
  p <- get_priv priv ;;
  ret (if bool_decide (pr_event_fifo p = []) then 0 else Z.lor POLLIN POLLRDNORM).

(** Up to an event goes to the user; what could not be copied stays.  The loop variables
    are the bytes read so far and the place for the next. *)
Definition read_step (priv : ptr) (count : Z) (st : Z * Z) : MC W (Z * Z + Z) :=
  let '(done_, buf) := st in
  if done_ <? count then
    p <- get_priv priv ;;
    let bytes := take (Z.to_nat EVENT_SIZE) (pr_event_fifo p) in
    left_ <- env (user_write buf bytes) ;;
    let copied := Z.of_nat (length bytes) - left_ in
    upd_priv priv (fun p => setf pr_event_fifo (drop (Z.to_nat copied) (pr_event_fifo p)) p) ;;;
    ret (if truthy left_ then inr (- EFAULT) else inl (done_ + copied, buf + copied))
  else ret (inr done_).

Definition mport_read `{!CdevKernel W} (fuel : nat) (filp : ptr) (nonblock : bool) (buf count : Z) : MC W Z :=
  if count =? 0 then ret 0
  else
    priv <- file_priv filp ;;
    p <- get_priv priv ;;
    if bool_decide (pr_event_fifo p = []) && nonblock then ret (- EAGAIN)
    else if truthy (count mod EVENT_SIZE) then ret (- EINVAL)
    else
      rc <- wait_event priv ;;
      if truthy rc then ret rc else loop fuel (read_step priv count) (0, buf).

(** Doorbells to send, one event each. *)
Definition write_step (mport : ptr) (count : Z) (st : Z * Z) : MC W (Z * Z + Z) :=
  let '(len, buf) := st in
  if EVENT_SIZE <=? count - len then
    b <- copy_from_user buf EVENT_SIZE ;;
    match b with
    | None => ret (inr (- EFAULT))
    | Some b =>
        if negb (le_at 0 4 b =? RIO_DOORBELL) then ret (inr (- EINVAL))
        else
          rc <- core (rio_mport_send_doorbell mport (le_at 4 2 b) (le_at 6 2 b)) ;;
          ret (if rc <? 0 then inr rc else inl (len + EVENT_SIZE, buf + EVENT_SIZE))
    end
  else ret (inr len).

Definition mport_write (filp : ptr) (buf count : Z) : MC W Z :=
  priv <- file_priv filp ;;
  p <- get_priv priv ;;
  md <- get_md (pr_md p) ;;
  if count =? 0 then ret 0
  else if truthy (count mod EVENT_SIZE) then ret (- EINVAL)
  else loop (S (Z.to_nat (count / EVENT_SIZE))) (write_step (md_mport md) count) (0, buf).
End events.

Section devices.
Context {W : Type} `{!KernelEnv W} `{!Externals W} `{!SwitchTables W} `{!CdevEnv W} `{!CdevKernel W}.

(** ** Devices added by applications *)

(** The release callbacks of devices and networks made here. *)
Definition rio_release_dev (rdev : ptr) : MC W unit :=
  core (modify (fun s => setf ks_devs (delete rdev (ks_devs s)) s)) ;;; core kfree.
Definition rio_release_net (net : ptr) : MC W unit :=
  core (modify (fun s => setf ks_nets (delete net (ks_nets s)) s)) ;;; core kfree.

Record rio_rdev_info := mk_rdev_info { ri_destid : Z; ri_hopcount : Z; ri_comptag : Z; ri_name : list Z }.
Definition RIO_MAX_DEVNAME_SZ : nat := 20.
Definition RDEV_INFO_SIZE : Z := 32.
Definition get_rdev_info (b : list Z) : rio_rdev_info :=
  mk_rdev_info (le_at 0 2 b) (le_at 2 1 b) (le_at 4 4 b) (get_bytes 8 (S RIO_MAX_DEVNAME_SZ) b).

(** The string in an array; without a final zero there is none. *)
Fixpoint cstring (l : list Z) : option (list Z) :=
  match l with
  | [] => None
  | c :: l' => if c =? 0 then Some [] else cons c <$> cstring l'
  end.

(** A network for the port if it has none; a failure of [rio_add_net] frees it, while the port
    keeps its address. *)
Definition need_net (mport : ptr) : MC W Z :=
  mp <- core (get_mport mport) ;;
  match mp_net mp with
  | Some _ => ret 0
  | None =>
      net <- core (rio_alloc_net mport) ;;
      match net with
      | None => ret (- ENOMEM)
      | Some net =>
          core (upd_net net (fun n => setf net_id (mp_id mp) (setf net_hport (Some mport) n))) ;;;
          err <- core (rio_add_net net) ;;
          if truthy err then rio_release_net net ;;; ret err else ret 0
      end
  end.

(** Identity and features, as the registers say; read errors are ignored. *)
Definition read_riodev (fuel : nat) (mport rdev : ptr) (destid hopcount pef : Z) : MC W unit :=
  let rd off v := core (rio_mport_read_config_32 mport destid hopcount off v) in
  let! (_, id) := rd RIO_DEV_ID_CAR pef ;;
  core (upd_dev rdev (fun d => setf rd_did (Z.shiftr id 16) (setf rd_vid (Z.land id 0xffff) d))) ;;;
  let! (_, rev) := rd RIO_DEV_INFO_CAR 0 ;;
  core (upd_dev rdev (setf rd_device_rev rev)) ;;;
  let! (_, asm) := rd RIO_ASM_ID_CAR id ;;
  core (upd_dev rdev (fun d => setf rd_asm_did (Z.shiftr asm 16) (setf rd_asm_vid (Z.land asm 0xffff) d))) ;;;
  let! (_, info) := rd RIO_ASM_INFO_CAR asm ;;
  core (upd_dev rdev (setf rd_asm_rev (Z.shiftr info 16))) ;;;
  when (truthy (Z.land pef RIO_PEF_EXT_FEATURES))
    (core (upd_dev rdev (setf rd_efptr (Z.land info 0xffff))) ;;;
     let! (efptr, rmap) := core (rio_mport_get_physefb fuel mport false destid hopcount 0) ;;
     core (upd_dev rdev (fun d => setf rd_phys_efptr efptr (setf rd_phys_rmap rmap d))) ;;;
     em <- core (rio_mport_get_feature fuel mport false destid hopcount RIO_EFB_ERR_MGMNT) ;;
     core (upd_dev rdev (setf rd_em_efptr em))) ;;;
  let! (_, src) := rd RIO_SRC_OPS_CAR 0 ;;
  let! (_, dst) := rd RIO_DST_OPS_CAR 0 ;;
  core (upd_dev rdev (fun d => setf rd_src_ops src (setf rd_dst_ops dst d))).

Definition rio_mport_add_riodev (fuel : nat) (priv : ptr) (arg : Z) : MC W Z :=
  p <- get_priv priv ;;
  md <- get_md (pr_md p) ;;
  with_user arg RDEV_INFO_SIZE (fun b =>
    let dev_info := get_rdev_info b in
    name <- deref (cstring (ri_name dev_info)) ;;
    known <- core (bus_find_device_by_name name) ;;
    match known with
    | Some _ => ret (- EEXIST)
    | None =>
        let mport := md_mport md in
        let destid := ri_destid dev_info in
        let hopcount := ri_hopcount dev_info in
        v <- core uninit ;;
        let! (rc, pef) := core (rio_mport_read_config_32 mport destid hopcount RIO_PEF_CAR v) ;;
        if truthy rc then ret (- EIO)
        else
          let! (_, swpinfo) := (if truthy (Z.land pef RIO_PEF_SWITCH)
            then core (rio_mport_read_config_32 mport destid hopcount RIO_SWP_INFO_CAR 0) else ret (0, 0)) ;;
          let rswitch := if truthy (Z.land pef RIO_PEF_SWITCH)
            then Some (mk_rio_switch None 0 None (replicate (Z.to_nat (RIO_GET_TOTAL_PORTS swpinfo)) None))
            else None in
          ok <- core kzalloc ;;
          if negb ok then ret (- ENOMEM)
          else
            rdev <- core fresh_ptr ;;
            core (modify (fun s => setf ks_devs (<[rdev := zero_rio_dev rswitch]> (ks_devs s)) s)) ;;;
            let cleanup err : MC W Z := rio_release_dev rdev ;;; ret err in
            err <- need_net mport ;;
            if truthy err then cleanup err
            else
              mp <- core (get_mport mport) ;;
              core (upd_dev rdev (fun d => setf rd_net (mp_net mp) (setf rd_pef pef (setf rd_swpinfo swpinfo d)))) ;;;
              read_riodev fuel mport rdev destid hopcount pef ;;;
              core (upd_dev rdev (fun d =>
                setf rd_comp_tag (ri_comptag dev_info) (setf rd_destid destid (setf rd_hopcount hopcount d)))) ;;;
              d <- core (get_dev rdev) ;;
              when (truthy (Z.land (rd_dst_ops d) RIO_DST_OPS_DOORBELL))
                (core (upd_dev rdev (setf rd_riores
                  (<[RIO_DOORBELL_RESOURCE := rio_init_dbell_res 0 0xffff]> (rd_riores d))))) ;;;
              err <- core (rio_add_device rdev) ;;
              if truthy err then cleanup err else core (rio_dev_get (Some rdev)) ;;; ret 0
    end).

(** The next device with the tag that has the address and hangs on the port's network. *)
Definition riodev_step (mport : ptr) (info : rio_rdev_info) (from : option ptr)
    : MC W (option ptr + option ptr) :=
  rdev <- core (rio_get_comptag (ri_comptag info) from) ;;
  match rdev with
  | None => ret (inr None)
  | Some r =>
      d <- core (get_dev r) ;;
      mp <- core (get_mport mport) ;;
      ret (if bool_decide (is_Some (rd_net d)) && bool_decide (rd_net d = mp_net mp) &&
              (rd_destid d =? ri_destid info) && (rd_hopcount d =? ri_hopcount info)
           then inr rdev else inl rdev)
  end.

Definition rio_mport_del_riodev (priv : ptr) (arg : Z) : MC W Z :=
  p <- get_priv priv ;;
  with_user arg RDEV_INFO_SIZE (fun b =>
    let dev_info := get_rdev_info b in
    md <- get_md (pr_md p) ;;
    let mport := md_mport md in
    name <- deref (cstring (ri_name dev_info)) ;;
    n <- core (gets (fun s => length (rio_devices s))) ;;
    rdev <- (if bool_decide (name = []) then loop (S (S n)) (riodev_step mport dev_info) None
             else core (bus_find_device_by_name name)) ;;
    match rdev with
    | None => ret (- ENODEV)
    | Some rdev =>
        d <- core (get_dev rdev) ;;
        core (rio_dev_put (Some rdev)) ;;;
        core (rio_del_device rdev RIO_DEVICE_SHUTDOWN) ;;;
        net <- deref (rd_net d) ;;
        n <- core (get_net net) ;;
        when (bool_decide (net_devices n = []))
          (core (rio_free_net net) ;;; core (upd_mport mport (setf mp_net None))) ;;;
        ret 0
    end).
End devices.

Section files.
Context {W : Type} `{!KernelEnv W} `{!Externals W} `{!SwitchTables W} `{!CdevEnv W} `{!CdevKernel W}
  `{!DmaEngine (mcstate W)} `{!CdevWait W}.
Variables (rio_mport_doorbell_handler_p rio_mport_pw_handler_p : ptr).
Variables (dma_timeout rio_res_mem rio_res_size : Z).

(** ** Files *)

(** The device of the char device: the last reference frees it. *)
Definition mport_device_release (md : ptr) : MC W unit :=
  modify (fun s => setf mc_devs (delete md (mc_devs s)) s) ;;; core kfree.
Definition md_get (md : ptr) : MC W unit := upd_md md (fun d => setf md_ref (md_ref d + 1) d).
Definition md_put (md : ptr) : MC W unit :=
  d <- get_md md ;;
  upd_md md (setf md_ref (md_ref d - 1)) ;;;
  when (md_ref d =? 1) (mport_device_release md).

(** When there is no memory for the events, the private data are freed but stay in the list
    of files, and the reference to the device stays. *)
Definition mport_cdev_open (filp : ptr) (minor : Z) (chdev : ptr) : MC W Z :=
  if RIO_MAX_MPORTS <=? minor then ret (- EINVAL)
  else
    d <- get_md chdev ;;
    if negb (md_active d) then ret (- ENODEV)
    else
      md_get chdev ;;;
      ok <- core kzalloc ;;
      if negb ok then md_put chdev ;;; ret (- ENOMEM)
      else
        priv <- core fresh_ptr ;;
        modify (fun s => setf mc_privs (<[priv :=
          mk_mport_cdev_priv chdev false [] [] [] 0 0 None [] 0 0]> (mc_privs s)) s) ;;;
        upd_md chdev (fun d => setf md_file_list (md_file_list d ++ [priv]) d) ;;;
        ok <- core kzalloc ;;
        if negb ok then
          modify (fun s => setf mc_privs (delete priv (mc_privs s)) s) ;;; core kfree ;;; ret (- ENOMEM)
        else
          upd_priv priv (setf pr_fifo_size (kfifo_room (EVENT_SIZE * MPORT_EVENT_DEPTH))) ;;;
          modify (fun s => setf mc_files (<[filp := priv]> (mc_files s)) s) ;;;
          ret 0.

Definition mport_cdev_fasync (filp : ptr) (on : bool) : MC W Z :=
  priv <- file_priv filp ;;
  rc <- env (fasync_helper on) ;;
  when (0 <=? rc) (upd_priv priv (setf pr_async_queue on)) ;;;
  ret rc.

(** The references of the file to mappings. *)
Definition put_mappings (md : ptr) (fits : rio_mport_mapping -> bool) : MC W unit :=
  d <- get_md md ;;
  for_ (md_mappings d) (fun p => m <- get_map p ;; when (fits m) (map_put p)).

Definition mport_cdev_release (filp : ptr) : MC W Z :=
  priv <- file_priv filp ;;
  p <- get_priv priv ;;
  let chdev := pr_md p in
  mport_cdev_release_dma dma_timeout filp ;;;
  upd_priv priv (setf pr_event_mask 0) ;;;
  p <- get_priv priv ;;
  for_ (pr_pw_filters p) rio_mport_delete_pw_filter ;;;
  for_ (pr_db_filters p) rio_mport_delete_db_filter ;;;
  upd_priv priv (fun p => setf pr_event_fifo [] (setf pr_fifo_size 0 p)) ;;;
  core kfree ;;;
  put_mappings chdev (fun m => bool_decide (mm_filp m = Some filp)) ;;;
  mport_cdev_fasync filp false ;;;
  modify (fun s => setf mc_files (delete filp (mc_files s)) s) ;;;
  d <- get_md chdev ;;
  l <- unlink priv (md_file_list d) ;;
  upd_md chdev (setf md_file_list l) ;;;
  md_put chdev ;;;
  modify (fun s => setf mc_privs (delete priv (mc_privs s)) s) ;;;
  core kfree ;;;
  ret 0.

Definition PROPERTIES_SIZE : Z := 48.
Definition put_properties (p : rio_mport_properties) : list Z :=
  le_bytes 2 (pp_hdid p) ++ le_bytes 1 (pp_id p) ++ le_bytes 1 (pp_index p) ++ le_bytes 4 (pp_flags p) ++
  le_bytes 4 (pp_sys_size p) ++ le_bytes 1 (pp_port_ok p) ++ le_bytes 1 (pp_link_speed p) ++
  le_bytes 1 (pp_link_width p) ++ le_bytes 1 0 ++ le_bytes 4 (pp_dma_max_sge p) ++ le_bytes 4 (pp_dma_max_size p) ++
  le_bytes 4 (pp_dma_align p) ++ le_bytes 4 (pp_transfer_mode p) ++ le_bytes 4 (pp_cap_sys_size p) ++
  le_bytes 4 (pp_cap_addr_size p) ++ le_bytes 4 (pp_cap_transfer_mode p) ++ le_bytes 4 (pp_cap_mport p).

(** The requests; any other number is refused. *)
Inductive mport_request :=
| RIO_MPORT_MAINT_READ_LOCAL | RIO_MPORT_MAINT_WRITE_LOCAL | RIO_MPORT_MAINT_READ_REMOTE
| RIO_MPORT_MAINT_WRITE_REMOTE | RIO_MPORT_MAINT_HDID_SET | RIO_MPORT_MAINT_COMPTAG_SET
| RIO_MPORT_MAINT_PORT_IDX_GET | RIO_MPORT_GET_PROPERTIES
| RIO_ENABLE_DOORBELL_RANGE | RIO_DISABLE_DOORBELL_RANGE
| RIO_ENABLE_PORTWRITE_RANGE | RIO_DISABLE_PORTWRITE_RANGE | RIO_SET_EVENT_MASK | RIO_GET_EVENT_MASK
| RIO_MAP_OUTBOUND | RIO_MAP_INBOUND | RIO_UNMAP_OUTBOUND | RIO_UNMAP_INBOUND
| RIO_ALLOC_DMA | RIO_FREE_DMA | RIO_WAIT_FOR_ASYNC | RIO_TRANSFER | RIO_DEV_ADD | RIO_DEV_DEL
| RIO_OTHER_REQUEST.

Definition mport_cdev_ioctl (fuel : nat) (filp : ptr) (cmd : mport_request) (arg : Z) : MC W Z :=
  data <- file_priv filp ;;
  p <- get_priv data ;;
  md <- get_md (pr_md p) ;;
  if negb (md_active md) then ret (- ENODEV)
  else match cmd with
  | RIO_MPORT_MAINT_READ_LOCAL => rio_mport_maint_rd data arg true
  | RIO_MPORT_MAINT_WRITE_LOCAL => rio_mport_maint_wr data arg true
  | RIO_MPORT_MAINT_READ_REMOTE => rio_mport_maint_rd data arg false
  | RIO_MPORT_MAINT_WRITE_REMOTE => rio_mport_maint_wr data arg false
  | RIO_MPORT_MAINT_HDID_SET => maint_hdid_set data arg
  | RIO_MPORT_MAINT_COMPTAG_SET => maint_comptag_set data arg
  | RIO_MPORT_MAINT_PORT_IDX_GET => maint_port_idx_get data arg
  | RIO_MPORT_GET_PROPERTIES =>
      mp <- core (get_mport (md_mport md)) ;;
      upd_md (pr_md p) (fun d => setf md_properties (setf pp_hdid (u16 (mp_host_deviceid mp)) (md_properties d)) d) ;;;
      md <- get_md (pr_md p) ;;
      to_user arg (put_properties (md_properties md))
  | RIO_ENABLE_DOORBELL_RANGE => rio_mport_add_db_filter rio_mport_doorbell_handler_p data arg
  | RIO_DISABLE_DOORBELL_RANGE => rio_mport_remove_db_filter data arg
  | RIO_ENABLE_PORTWRITE_RANGE => rio_mport_add_pw_filter rio_mport_pw_handler_p data arg
  | RIO_DISABLE_PORTWRITE_RANGE => rio_mport_remove_pw_filter rio_mport_pw_handler_p data arg
  | RIO_SET_EVENT_MASK => upd_priv data (setf pr_event_mask (u32 arg)) ;;; ret 0
  | RIO_GET_EVENT_MASK => to_user arg (le_bytes 4 (pr_event_mask p))
  | RIO_MAP_OUTBOUND => rio_mport_obw_map filp arg
  | RIO_MAP_INBOUND => rio_mport_map_inbound rio_res_mem rio_res_size filp arg
  | RIO_UNMAP_OUTBOUND => rio_mport_obw_free filp arg
  | RIO_UNMAP_INBOUND => rio_mport_inbound_free filp arg
  | RIO_ALLOC_DMA => rio_mport_alloc_dma rio_res_mem rio_res_size filp arg
  | RIO_FREE_DMA => rio_mport_free_dma filp arg
  | RIO_WAIT_FOR_ASYNC => rio_mport_wait_for_async_dma dma_timeout filp arg
  | RIO_TRANSFER => rio_mport_transfer_ioctl dma_timeout filp arg
  | RIO_DEV_ADD => rio_mport_add_riodev fuel data arg
  | RIO_DEV_DEL => rio_mport_del_riodev data arg
  | RIO_OTHER_REQUEST => ret (- EINVAL)
  end.

(** ** Char devices of ports *)

Definition RIO_TRANSFER_MODE_TRANSFER : Z := Z.shiftl 1 1.
Definition zero_properties : rio_mport_properties := mk_rio_mport_properties 0 0 0 0 0 0 0 0 0 0 0 0 0 0 0 0.

(** What the port says of itself. *)
Definition set_properties (mport md : ptr) : MC W unit :=
  mp <- core (get_mport mport) ;;
  upd_md md (fun d => setf md_properties
    (setf pp_id (u8 (mp_id mp)) (setf pp_sys_size (u32 (mp_sys_size mp))
    (setf pp_hdid (u16 (mp_host_deviceid mp)) (setf pp_index (u8 (mp_index mp))
    (setf pp_transfer_mode (Z.lor (pp_transfer_mode (md_properties d)) RIO_TRANSFER_MODE_TRANSFER)
      (md_properties d)))))) d) ;;;
  v <- core uninit ;;
  let! (rc, attr) := core (rio_query_mport mport (mk_rio_mport_attr v v v v v v)) ;;
  when (rc =? 0)
    (upd_md md (fun d => setf md_properties
      (setf pp_flags (u32 (attr_flags attr)) (setf pp_link_speed (u8 (attr_link_speed attr))
      (setf pp_link_width (u8 (attr_link_width attr)) (setf pp_dma_max_sge (u32 (attr_dma_max_sge attr))
      (setf pp_dma_max_size (u32 (attr_dma_max_size attr)) (setf pp_dma_align (u32 (attr_dma_align attr))
      (setf pp_cap_sys_size 0 (setf pp_cap_transfer_mode 0 (setf pp_cap_addr_size 0 (md_properties d)))))))))) d)).

Definition mport_cdev_add (mport : ptr) : MC W (option ptr) :=
  ok <- core kzalloc ;;
  if negb ok then ret None
  else
    md <- core fresh_ptr ;;
    modify (fun s => setf mc_devs (<[md :=
      mk_mport_dev false mport [] zero_properties [] [] [] None 0 0]> (mc_devs s)) s) ;;;
    rc <- mc_register (MC_CDEV md) ;;
    if rc <? 0 then mport_device_release md ;;; ret None
    else
      upd_md md (fun d => setf md_active true (setf md_ref 1 d)) ;;;
      rc <- mc_register (MC_DEVICE md) ;;
      if truthy rc then mc_unregister (MC_CDEV md) ;;; mport_device_release md ;;; ret None
      else
        md_get md ;;;
        upd_md md (fun d => setf md_doorbells [] (setf md_portwrites [] (setf md_mappings [] d))) ;;;
        set_properties mport md ;;;
        modify (fun s => setf mport_devs (mport_devs s ++ [md]) s) ;;;
        ret (Some md).

(** The number of open files. *)
Definition mport_cdev_kill_fasync (md : ptr) : MC W Z :=
  d <- get_md md ;;
  for_ (md_file_list d) (fun client =>
    p <- get_priv client ;; when (pr_async_queue p) (env_ (kill_fasync client))) ;;;
  ret (s32 (Z.of_nat (length (md_file_list d)))).

Definition mport_cdev_remove (md : ptr) : MC W unit :=
  upd_md md (setf md_active false) ;;;
  mport_cdev_terminate_dma md ;;;
  d <- get_md md ;;
  core (rio_del_mport_pw_handler (md_mport d) md rio_mport_pw_handler_p) ;;;
  mc_unregister (MC_CDEV md) ;;;
  mport_cdev_kill_fasync md ;;;
  put_mappings md (fun _ => true) ;;;
  core (rio_release_inb_dbell (md_mport d) 0 0x0fff) ;;;
  mc_unregister (MC_DEVICE md) ;;;
  md_put md ;;;
  md_put md.

Definition mport_add_mport (mport : ptr) : MC W Z :=
  chdev <- mport_cdev_add mport ;; ret (match chdev with Some _ => 0 | None => - ENODEV end).

(** The first char device of a port with the number. *)
Fixpoint find_mport_dev (id : Z) (l : list ptr) : MC W (option ptr) :=
  match l with
  | [] => ret None
  | c :: l' =>
      d <- get_md c ;;
      mp <- core (get_mport (md_mport d)) ;;
      if mp_id mp =? id then ret (Some c) else find_mport_dev id l'
  end.
Definition mport_remove_mport (mport : ptr) : MC W unit :=
  mp <- core (get_mport mport) ;;
  l <- gets mport_devs ;;
  chdev <- find_mport_dev (mp_id mp) l ;;
  match chdev with
  | None => ret tt
  | Some c =>
      upd_md c (setf md_active false) ;;;
      l <- unlink c l ;;
      modify (setf mport_devs l) ;;;
      mport_cdev_remove c
  end.

(** ** Loading and unloading *)

Definition mport_init : MC W Z :=
  rc <- mc_register MC_CLASS ;;
  if rc <? 0 then ret rc
  else
    rc <- mc_register MC_CHRDEV_REGION ;;
    if rc <? 0 then mc_unregister MC_CLASS ;;; ret rc
    else
      rc <- mc_register MC_INTERFACE ;;
      if truthy rc then mc_unregister MC_CHRDEV_REGION ;;; mc_unregister MC_CLASS ;;; ret rc
      else ret 0.
Definition mport_exit : MC W unit :=
  mc_unregister MC_INTERFACE ;;; mc_unregister MC_CLASS ;;; mc_unregister MC_CHRDEV_REGION.
End files.
