(* ===== verification/MportBench.v ===== *)
(** * A simulated machine for the witnesses of the char device

    Memory is always available, user memory is a byte array in which addresses below 2^16
    are valid, buffers are handed out page by page, windows are recorded, there is no DMA channel, and nothing
    happens while a thread waits. *)

From S2P Require Import Prelude Regs State Bench ScanBench RioCmBench Route Driver Msg RioDma MportCdev MportDma MportOps.

Record mcworld := mk_mcworld { mw_user : gmap Z Z; mw_next : Z; mw_time : Z; mw_windows : list (Z * Z) }.
#[export] Instance eta_mcworld : Eta mcworld := fun w => mk_mcworld (mw_user w) (mw_next w) (mw_time w) (mw_windows w).

#[export] Instance mw_env : KernelEnv mcworld := {|
  env_alloc w := (true, w);
  env_udelay us w := setf mw_time (mw_time w + us) w;
  env_jiffies w := mw_time w / 1000;
  env_HZ := 1000;
  env_try_module_get _ w := (true, w);
  env_module_put _ w := w;
  env_indet w := 0xdeadbeef;
  env_request_resource root r := (0, root);
  env_release_resource root r := (0, root);
|}.

(** What an address has: from 0xf000 on the memory is read only.  It has the number 0x10000 there,
    and the description of an inbound window of a page, at any place, for the address 0x4000. *)
Definition mw_rom : gmap Z Z :=
  user_store 0xf000 (le_bytes 8 0x10000)
    (user_store 0xf100 (put_rio_mmap (mk_rio_mmap 0 0x4000 0x1000 0 RIO_MAP_ANY_ADDR) (replicate 40 0)) ∅).
Definition mw_byte (w : mcworld) (i : Z) : Z :=
  if 0xf000 <=? i then u8 (default 0 (mw_rom !! i)) else u8 (default 0 (mw_user w !! i)).

#[export] Instance mw_cdev_env : CdevEnv mcworld := {|
  user_read addr len w :=
    if user_valid addr len then Some (mw_byte w <$> zrange addr (addr + len)) else None;
  user_write addr bytes w :=
    if user_valid addr 0 && (addr <? 0xf000) then (0, setf mw_user (user_store addr bytes (mw_user w)) w) else (Z.of_nat (length bytes), w);
  dma_alloc_coherent size w := (Some (mw_next w, mw_next w), setf mw_next (mw_next w + 0x1000 * ((size + 0xfff) / 0x1000)) w);
  dma_free_coherent _ _ _ w := w;
  dma_map_page addr _ w := (Some addr, w);
  dma_unmap_page _ _ w := w;
  get_user_pages _ _ _ w := ((0, []), w);
  put_page _ w := w;
  sg_alloc_table n w := ((0, replicate (Z.to_nat n) (mk_sg_entry None 0 0 0)), w);
  sg_alloc_table_from_pages _ _ _ w := ((0, []), w);
  sg_free_table _ w := w;
  dma_map_sg sgl n _ w := ((n, sgl), w);
  dma_unmap_sg _ _ _ w := w;
  dma_mmap_coherent _ _ _ _ _ w := (0, w);
  remap_pfn_range _ _ _ w := (0, w);
  vm_iomap_memory _ _ _ w := (0, w);
  kfifo_room n := 1024;
  msecs_to_jiffies m := m;
|}.

#[export] Instance mw_wait : CdevWait mcworld := {| wait_for_completion _ _ := ret 0 |}.
#[export] Instance mw_kernel : CdevKernel mcworld := {|
  mc_register _ := ret 0;
  mc_unregister _ := ret tt;
  bus_find_device_by_name _ := ret None;
  wait_event _ := ret 0;
  fasync_helper _ w := (0, w);
  kill_fasync _ w := w;
|}.
#[export] Instance mw_dma : DmaEngine (mcstate mcworld) := {|
  chan_mport _ _ := 1%positive;
  dma_request_channel _ := ret None;
  dma_release_channel _ := ret tt;
  device_prep_slave_sg := None;
  tx_set_callback _ _ := ret tt;
  dmaengine_submit _ := ret (-1);
  dma_async_issue_pending _ := ret tt;
  dmaengine_terminate_all _ := ret tt;
  dma_async_is_tx_complete _ _ := ret DMA_ERROR;
|}.
#[export] Instance mw_tables : SwitchTables mcworld := fun _ => {|
  so_owner := 13%positive;
  so_add_entry := None; so_get_entry := None; so_clr_table := None;
  so_set_domain := None; so_get_domain := None; so_em_init := None; so_em_handle := None;
|}.
#[export] Instance mw_externals : Externals mcworld := idle_externals.

Definition mw_ops : rio_ops mcworld := {|
  op_lcread _ _ _ _ w := ((0, 0), w);
  op_lcwrite _ _ _ _ _ w := (0, w);
  op_cread _ _ _ _ _ _ w := ((0, 0), w);
  op_cwrite _ _ _ _ _ _ _ w := (0, w);
  op_dsend _ _ _ _ w := (0, w);
  op_pwenable := None;
  op_open_outb_mbox := None; op_close_outb_mbox := None;
  op_open_inb_mbox := None; op_close_inb_mbox := None;
  op_map_inb := Some (fun _ local rbase _ _ w => (0, setf mw_windows ((local, rbase) :: mw_windows w) w));
  op_unmap_inb := Some (fun _ _ w => w); op_query_mport := None;
  op_map_outb := Some (fun _ _ rbase _ _ w => ((0, u64 (0x80000000 + rbase)), w));
  op_unmap_outb := Some (fun _ _ _ w => w);
  op_add_outb_message _ _ _ _ _ w := (0, w);
  op_add_inb_buffer _ _ _ w := (0, w);
  op_get_inb_message _ _ w := (None, w);
|}.

Definition mw_mport : rio_mport mcworld := {|
  mp_dbells := []; mp_pwrites := []; mp_nnode := false; mp_net := None;
  mp_riores := []; mp_inb_msg := replicate 4 (mk_rio_msg None None); mp_outb_msg := replicate 4 (mk_rio_msg None None);
  mp_host_deviceid := 7; mp_ops := mw_ops; mp_id := 0; mp_index := 0;
  mp_sys_size := 0; mp_phys_efptr := 0x100; mp_phys_rmap := 1;
  mp_nscan := None; mp_state := RIO_DEVICE_RUNNING; mp_pwe_refcnt := 0;
|}.

(** A port, at address 1, with its char device, at address 2, and nothing open; the
    user's memory is given. *)
Definition mw_state (user : gmap Z Z) : mcstate mcworld := {|
  mc_m := {|
    ms_k := {|
      ks_hw := mk_mcworld user 0x10000 0 []; ks_allocs := 1; ks_fresh := 100%positive;
      ks_devs := ∅; ks_nets := ∅; ks_mports := {[ 1%positive := mw_mport ]};
      rio_devices := []; rio_nets := []; rio_mports := [1%positive]; rio_scans := [];
      next_portid := 1; hdid := [1]; ids_num := 1; next_destid := 0; next_comptag := 1;
    |};
    ms_bufs := ∅;
  |};
  mc_devs := {[ 2%positive := mk_mport_dev true 1%positive [] zero_properties [] [] [] None 0 2 ]};
  mc_privs := ∅; mc_maps := ∅; mc_reqs := ∅; mc_dbfs := ∅; mc_pwfs := ∅; mc_files := ∅; mc_vmas := ∅;
  mport_devs := [2%positive];
|}.
