(* ===== verification/MportEvents.v ===== *)
(** * Events of the char device of a master port

    Doorbells become events in the queues of the files whose filters they pass, and reading
    a file takes whole events from its queue. *)

From S2P Require Import Prelude Regs State Mbox Msg RioCmBench MportCdev MportDma MportOps MportBench.

(** ** Queues of events *)

Definition is_event (e : list Z) : Prop := length e = 72%nat.

Lemma concat_events_length evs : Forall is_event evs -> length (concat evs) = (72 * length evs)%nat.
Proof.
  induction evs as [|e evs IH]; intros H; [done|]. apply Forall_cons in H as [He H].
  cbn [concat]. unfold is_event in He. rewrite length_app, IH, He by done. cbn [length]. lia.
Qed.
Lemma take_event_bytes e evs : is_event e -> take 72 (concat (e :: evs)) = e.
Proof. intros He. cbn [concat]. by apply take_app_length'. Qed.
Lemma drop_event_bytes e evs : is_event e -> drop 72 (concat (e :: evs)) = concat evs.
Proof. intros He. cbn [concat]. by apply drop_app_length'. Qed.

(** How many more events a file takes, and the file after it has been given [k] copies. *)
Definition event_room (p : mport_cdev_priv) : Z := (pr_fifo_size p - Z.of_nat (length (pr_event_fifo p))) / 72.
Definition accepts (p : mport_cdev_priv) : bool := negb (Z.land (pr_event_mask p) RIO_DOORBELL =? 0).
Definition queued (k : nat) (e : list Z) (p : mport_cdev_priv) : mport_cdev_priv :=
  setf pr_event_fifo (pr_event_fifo p ++ concat (replicate
    (if accepts p then Nat.min k (Z.to_nat (event_room p)) else 0) e)) p.

(** One event: it is appended when the file wants it and has room for it. *)
Definition give (e : list Z) (p : mport_cdev_priv) : mport_cdev_priv :=
  if accepts p && (72 <=? pr_fifo_size p - Z.of_nat (length (pr_event_fifo p)))
  then setf pr_event_fifo (pr_event_fifo p ++ e) p else p.

Lemma queued_none e p : queued 0 e p = p.
Proof. unfold queued. destruct p, (accepts _); cbn; by rewrite app_nil_r. Qed.
Lemma queued_give k e p : is_event e -> queued k e (give e p) = queued (S k) e p.
Proof.
  intros He. unfold queued, give. destruct (accepts p) eqn:Ha; cbn [andb].
  2: { by rewrite Ha. }
  set (room := pr_fifo_size p - Z.of_nat (length (pr_event_fifo p))). destruct (Z.leb_spec 72 room) as [Hr|Hr].
  - change (accepts (setf pr_event_fifo (pr_event_fifo p ++ e) p)) with (accepts p). rewrite Ha.
    assert (event_room (setf pr_event_fifo (pr_event_fifo p ++ e) p) = event_room p - 1) as ->.
    { unfold event_room. cbn. rewrite length_app. rewrite He. fold room.
      replace (pr_fifo_size p - Z.of_nat (length (pr_event_fifo p) + 72)) with (room + (-1) * 72) by (unfold room; lia).
      rewrite Z.div_add by lia. lia. }
    assert (1 <= event_room p) as H1 by (unfold event_room; fold room; apply Z.div_le_lower_bound; lia).
    replace (Nat.min (S k) (Z.to_nat (event_room p))) with (S (Nat.min k (Z.to_nat (event_room p - 1)))) by lia.
    cbn. by rewrite <- app_assoc.
  - rewrite Ha. assert (Z.to_nat (event_room p) = 0%nat) as ->.
    { unfold event_room. fold room. pose proof (Z.div_lt_upper_bound room 72 1 ltac:(lia) ltac:(lia)). lia. }
    by rewrite !Nat.min_0_r.
Qed.

Section events.
Context {W : Type} `{!KernelEnv W} `{!CdevEnv W}.
Implicit Types s : mcstate W.

Definition with_privs (m : gmap ptr mport_cdev_priv) s : mcstate W := setf mc_privs m s.
Definition with_priv (q : ptr) (p : mport_cdev_priv) s : mcstate W := with_privs (<[q := p]> (mc_privs s)) s.

Lemma run_file_state s q p : mc_privs s !! q = Some p -> get_priv q s = Done p s.
Proof. intros H. unfold get_priv, gets, bind. by rewrite H. Qed.
Lemma run_upd_file s q p g : mc_privs s !! q = Some p -> upd_priv q g s = Done tt (with_priv q (g p) s).
Proof. intros H. unfold upd_priv. by run (run_file_state _ _ _ H). Qed.
Lemma run_get_md s q d : mc_devs s !! q = Some d -> get_md q s = Done d s.
Proof. intros H. unfold get_md, gets, bind. by rewrite H. Qed.

(** ** Delivering doorbells *)

Lemma run_add_event s q p e :
  mc_privs s !! q = Some p ->
  exists rc, rio_mport_add_event q RIO_DOORBELL e s = Done rc (with_priv q (give e p) s).
Proof.
  intros Hp. unfold rio_mport_add_event. run (run_file_state _ _ _ Hp). unfold give, accepts.
  assert (with_priv q p s = s) as Hs by (unfold with_priv, with_privs; rewrite insert_id by done; by destruct s).
  destruct (Z.land (pr_event_mask p) RIO_DOORBELL =? 0); cbn [negb andb]; [eexists; by rewrite Hs|].
  change EVENT_SIZE with 72. destruct (Z.ltb_spec (pr_fifo_size p - Z.of_nat (length (pr_event_fifo p))) 72) as [Hr|Hr].
  - destruct (Z.leb_spec 72 (pr_fifo_size p - Z.of_nat (length (pr_event_fifo p)))); [lia|].
    eexists. by rewrite Hs.
  - destruct (Z.leb_spec 72 (pr_fifo_size p - Z.of_nat (length (pr_event_fifo p)))); [|lia].
    eexists. by run (run_upd_file s q p (fun p => setf pr_event_fifo (pr_event_fifo p ++ e) p) Hp).
Qed.

(** A filter asks for a range of doorbells, from one sender or from any. *)
Definition wants (f : rio_doorbell_filter) (src info : Z) : Prop :=
  (df_rioid f = RIO_INVALID_DESTID \/ df_rioid f = src) /\ df_low f <= info <= df_high f.
#[export] Instance wants_dec f src info : Decision (wants f src info).
Proof. unfold wants. apply _. Defined.

Lemma db_passes_wants src info f : db_passes src info f = bool_decide (wants f src info).
Proof.
  apply eq_bool_prop_intro. rewrite bool_decide_spec. unfold db_passes, wants.
  rewrite !Is_true_true, !andb_true_iff, orb_true_iff, !Z.eqb_eq, !Z.leb_le. tauto.
Qed.

(** Whether a filter is of the file [q] and lets the doorbell pass. *)
Definition filter_hits s (src info : Z) (q f : ptr) : bool :=
  match mc_dbfs s !! f with
  | Some flt => bool_decide (dbf_priv flt = q) && bool_decide (wants (dbf_filter flt) src info)
  | None => false
  end.
Definition hits s src info q (fs : list ptr) : nat := length (List.filter (filter_hits s src info q) fs).

(** The filters of a device belong to files. *)
Definition filters_ok s (fs : list ptr) : Prop :=
  Forall (fun f => exists flt, mc_dbfs s !! f = Some flt /\ is_Some (mc_privs s !! dbf_priv flt)) fs.

Lemma run_deliver src info e fs : forall s, filters_ok s fs -> is_event e ->
  exists m, for_ fs (fun f =>
      f <- (o <- gets (fun s => mc_dbfs s !! f) ;; deref o) ;;
      when (db_passes src info (dbf_filter f)) (rio_mport_add_event (dbf_priv f) RIO_DOORBELL e ;;; ret tt)) s =
      Done tt (with_privs m s) /\
    forall q, m !! q = queued (hits s src info q fs) e <$> mc_privs s !! q.
Proof.
  induction fs as [|f fs IH]; intros s Hok He.
  - exists (mc_privs s). split; [cbn; unfold ret, with_privs; by destruct s|]. intros q. cbn.
    destruct (mc_privs s !! q); cbn; [by rewrite queued_none|done].
  - apply Forall_cons in Hok as [(flt & Hf & p & Hp) Hok]. cbn [for_].
    assert (forall q, hits s src info q (f :: fs) =
      ((if bool_decide (dbf_priv flt = q) && bool_decide (wants (dbf_filter flt) src info) then 1 else 0) + hits s src info q fs)%nat) as Hhits.
    { intros q. unfold hits. cbn [List.filter]. unfold filter_hits at 1. rewrite Hf. by destruct (_ && _). }
    rewrite !bind_assoc. unfold bind at 1, gets at 1. rewrite Hf. cbn [deref]. rewrite bind_ret, db_passes_wants.
    destruct (bool_decide (wants (dbf_filter flt) src info)); cbn [when].
    + destruct (run_add_event s (dbf_priv flt) p e Hp) as [rc Hrc]. rewrite !bind_assoc. run Hrc. rewrite bind_ret.
      set (s1 := with_priv (dbf_priv flt) (give e p) s).
      destruct (IH s1) as (m & Hm & Hl); [|done|].
      { eapply Forall_impl; [exact Hok|]. intros f' (flt' & H1 & H2). exists flt'. split; [done|].
        cbn. destruct (decide (dbf_priv flt = dbf_priv flt')) as [<-|]; [rewrite lookup_insert_eq; by eexists|].
        by rewrite lookup_insert_ne. }
      exists m. split; [rewrite Hm; done|]. intros q. rewrite Hl, Hhits, andb_true_r. change (hits s1 src info q fs) with (hits s src info q fs).
      cbn [s1 with_priv with_privs mc_privs setf updf]. case_bool_decide as Hq.
      * subst q. rewrite lookup_insert_eq, Hp. cbn [fmap option_fmap option_map]. by rewrite queued_give.
      * by rewrite lookup_insert_ne.
    + rewrite bind_ret. destruct (IH s Hok He) as (m & Hm & Hl). exists m. split; [exact Hm|]. intros q.
      by rewrite Hl, Hhits, andb_false_r.
Qed.
End events.

(** ** Reading *)

Section read.
Context {W : Type} `{!KernelEnv W} `{!CdevEnv W} `{!CdevKernel W}.
Implicit Types s : mcstate W.

(** The hardware and the user's memory after events have been copied to addresses from
    [buf] on. *)
Fixpoint copied_out (buf : Z) (evs : list (list Z)) (w : W) : W :=
  match evs with [] => w | e :: evs' => copied_out (buf + 72) evs' (user_write buf e w).2 end.
Definition with_mhw (w : W) s : mcstate W := setf mc_m (setf ms_k (with_hw w (ms_k (mc_m s))) (mc_m s)) s.
Abbreviation mhw s := (ks_hw (ms_k (mc_m s))).
(** The state after the events [evs] have been read and [rest] are left. *)
Definition events_read (priv : ptr) (p : mport_cdev_priv) (rest : list Z) (w : W) s : mcstate W :=
  with_mhw w (with_priv priv (setf pr_event_fifo rest p) s).

(** The user's memory can be written from [lo] to [hi]. *)
Context (lo hi : Z) (Hout : forall b bytes (w : W), lo <= b <= hi -> (user_write b bytes w).1 = 0).

Lemma run_user_write s b bytes : lo <= b <= hi ->
  env (user_write b bytes) s = Done 0 (with_mhw (user_write b bytes (mhw s)).2 s).
Proof.
  intros Hb. unfold env, core, lift, lift_k, hw_call. cbn. pose proof (Hout b bytes (mhw s) Hb) as H.
  destruct (user_write b bytes (mhw s)) as [n w]. cbn in H. by subst.
Qed.

(** A round with an event in the queue, and one without. *)
Lemma run_read_event s priv p e rest count len buf :
  mc_privs s !! priv = Some p -> pr_event_fifo p = e ++ rest -> is_event e -> len < count ->
  lo <= buf <= hi ->
  read_step priv count (len, buf) s =
    Done (inl (len + 72, buf + 72)) (events_read priv p rest (user_write buf e (mhw s)).2 s).
Proof.
  intros Hp Hq He Hlt Hb. unfold read_step. destruct (Z.ltb_spec len count); [|lia].
  run (run_file_state _ _ _ Hp). change (Z.to_nat EVENT_SIZE) with 72%nat.
  assert (take 72 (pr_event_fifo p) = e) as -> by (rewrite Hq; by apply take_app_length').
  run (run_user_write s buf e Hb). rewrite Z.sub_0_r. rewrite He.
  set (s1 := with_mhw _ s). assert (mc_privs s1 !! priv = Some p) as Hp1 by done.
  run (run_upd_file s1 priv p (fun p => setf pr_event_fifo (drop (Z.to_nat (Z.of_nat 72)) (pr_event_fifo p)) p) Hp1).
  change (truthy 0) with false. cbv iota. unfold ret. change (Z.of_nat 72) with 72. f_equal.
  unfold events_read, s1. change (Z.to_nat 72) with 72%nat. rewrite Hq. by rewrite drop_app_length'.
Qed.
Lemma run_read_empty s priv p count len buf :
  mc_privs s !! priv = Some p -> pr_event_fifo p = [] -> len < count -> lo <= buf <= hi ->
  exists w, read_step priv count (len, buf) s = Done (inl (len, buf)) (with_mhw w s).
Proof.
  intros Hp Hq Hlt Hb. unfold read_step. destruct (Z.ltb_spec len count); [|lia].
  run (run_file_state _ _ _ Hp). rewrite Hq, take_nil. run (run_user_write s buf [] Hb). eexists.
  set (s1 := with_mhw _ s). assert (mc_privs s1 !! priv = Some p) as Hp1 by done.
  run (run_upd_file s1 priv p (fun p => setf pr_event_fifo (drop (Z.to_nat (Z.of_nat 0 - 0)) (pr_event_fifo p)) p) Hp1).
  change (truthy 0) with false. cbv iota. unfold ret. cbn [length]. rewrite !Z.add_0_r. f_equal.
  change (Z.to_nat (Z.of_nat 0 - 0)) with 0%nat. rewrite drop_0. unfold s1, with_priv, with_privs.
  assert (setf pr_event_fifo (pr_event_fifo p) p = p) as -> by (by destruct p).
  rewrite insert_id by done. by destruct s.
Qed.

(** Without events the loop goes round for ever. *)
Lemma read_for_ever fuel : forall s priv p count len buf,
  mc_privs s !! priv = Some p -> pr_event_fifo p = [] -> len < count -> lo <= buf <= hi ->
  loop fuel (read_step priv count) (len, buf) s = NoFuel.
Proof.
  induction fuel as [|fuel IH]; intros s priv p count len buf Hp Hq Hlt Hb; [done|]. cbn [loop].
  destruct (run_read_empty s priv p count len buf Hp Hq Hlt Hb) as [w Hw]. run Hw. by apply (IH _ priv p).
Qed.

(** [k] events are asked for. *)
Lemma run_read_loop fuel k : forall s priv p evs len buf,
  mc_privs s !! priv = Some p -> pr_event_fifo p = concat evs -> Forall is_event evs ->
  lo <= buf -> buf + 72 * Z.of_nat k <= hi ->
  loop fuel (read_step priv (len + 72 * Z.of_nat k)) (len, buf) s =
    if (k <=? length evs)%nat then
      if (k <? fuel)%nat then
        Done (len + 72 * Z.of_nat k)
          (events_read priv p (concat (drop k evs)) (copied_out buf (take k evs) (mhw s)) s)
      else NoFuel
    else NoFuel.
Proof.
  revert k. induction fuel as [|fuel IH]; intros k s priv p evs len buf Hp Hq Hev Hlo Hhi.
  { cbn. by destruct (k <=? length evs)%nat. }
  destruct k as [|k].
  - cbn [loop]. unfold read_step. rewrite Z.mul_0_r, Z.add_0_r, Z.ltb_irrefl. rewrite bind_ret.
    cbn [Nat.leb Nat.ltb]. unfold ret. f_equal. rewrite take_0, drop_0. cbn [copied_out]. unfold events_read, with_priv, with_privs, with_mhw.
    rewrite <- Hq. assert (setf pr_event_fifo (pr_event_fifo p) p = p) as -> by (by destruct p).
    rewrite insert_id by done. by destruct s as [[[]] ? ? ? ? ? ? ? ? ?].
  - destruct evs as [|e evs]; [by rewrite (read_for_ever _ s priv p) by (done || lia)|].
    apply Forall_cons in Hev as [He Hev]. cbn [loop].
    run (run_read_event s priv p e (concat evs) (len + 72 * Z.of_nat (S k)) len buf Hp Hq He ltac:(lia) ltac:(lia)).
    set (s1 := events_read priv p (concat evs) _ s). replace (len + 72 * Z.of_nat (S k)) with (len + 72 + 72 * Z.of_nat k) by lia.
    rewrite (IH k s1 priv (setf pr_event_fifo (concat evs) p) evs (len + 72) (buf + 72)) by
      (done || lia || (unfold s1; cbn; by rewrite lookup_insert_eq)).
    change (S k <=? length (e :: evs))%nat with (k <=? length evs)%nat. change (S k <? S fuel)%nat with (k <? fuel)%nat.
    destruct (k <=? length evs)%nat; [|done]. destruct (k <? fuel)%nat; [|done]. f_equal.
    unfold s1, events_read, with_priv, with_privs, with_mhw. cbn. by rewrite insert_insert_eq.
Qed.
End read.

(** ** The properties *)

Section claims.
Context {W : Type} `{!KernelEnv W} `{!CdevEnv W} `{!CdevKernel W}.
Implicit Types s : mcstate W.

(** C20: a doorbell is queued, as one event of 72 bytes that carries the sender's id and the
    payload, for every filter that it passes: in files that have enabled doorbells, once per
    filter of theirs as long as there is room.  Nothing else changes. *)
Theorem rio_mport_doorbell_handler_correct mport md d src dst info s
    (Hmd : mc_devs s !! md = Some d) (Hok : filters_ok s (md_doorbells d)) :
  exists e privs', rio_mport_doorbell_handler mport md src dst info s = Done tt (with_privs privs' s) /\
    length e = 72%nat /\ le_at 0 4 e = RIO_DOORBELL /\ le_at 4 2 e = u16 src /\ le_at 6 2 e = u16 info /\
    forall q p, mc_privs s !! q = Some p ->
      privs' !! q = Some (queued (hits s src info q (md_doorbells d)) e p).
Proof.
  unfold rio_mport_doorbell_handler. run (run_get_md _ _ _ Hmd).
  set (rest := replicate 64 (u8 (u32 (env_indet (ks_hw (ms_k (mc_m s))))))).
  assert (stack_bytes 64 s = Done rest s) as Hrest.
  { unfold stack_bytes, core, lift, lift_k, uninit, gets, bind, ret. cbn. by destruct s as [[] ? ? ? ? ? ? ? ? ?]. }
  run Hrest. set (e := le_bytes 4 RIO_DOORBELL ++ le_bytes 2 src ++ le_bytes 2 info ++ rest).
  assert (is_event e) as He by (unfold is_event, e; rewrite !length_app, !le_bytes_length; done).
  destruct (run_deliver src info e (md_doorbells d) s Hok He) as (m & Hm & Hl). exists e, m.
  split; [exact Hm|]. split; [exact He|].
  assert (forall off n v pre post, e = pre ++ le_bytes n v ++ post -> length pre = off ->
    le_at off n e = v mod 2 ^ (8 * Z.of_nat n)) as Hat.
  { intros off n v pre post -> <-. unfold le_at, get_bytes. rewrite drop_app_length, take_app_length' by (by rewrite le_bytes_length).
    unfold le_value, le_bytes. by rewrite reverse_involutive, be_value_bytes. }
  split; [by rewrite (Hat 0%nat 4%nat RIO_DOORBELL [] (le_bytes 2 src ++ le_bytes 2 info ++ rest))|].
  split; [by apply (Hat 4%nat 2%nat src (le_bytes 4 RIO_DOORBELL) (le_bytes 2 info ++ rest))|].
  split; [apply (Hat 6%nat 2%nat info (le_bytes 4 RIO_DOORBELL ++ le_bytes 2 src) rest); [by unfold e; rewrite <- app_assoc|done]|].
  intros q p Hp. by rewrite Hl, Hp.
Qed.

(** C19: reading takes the oldest events, whole and in order, copies them to the user one
    after the other and leaves the others.  With nothing to read a non-blocking call gets
    -EAGAIN, and a count that is no multiple of the size of an event gets -EINVAL.  When
    more events are asked for than are queued, the call does not return as long as the
    handlers queue no further event: no fuel is enough.  The handlers, which append at
    the other end of the queue, do not run during the call here. *)
Theorem mport_read_correct filp priv p evs nonblock buf count s
    (Hout : forall b bytes (w : W), buf <= b <= buf + count -> (user_write b bytes w).1 = 0)
    (Hf : mc_files s !! filp = Some priv) (Hp : mc_privs s !! priv = Some p)
    (Hq : pr_event_fifo p = concat evs) (Hev : Forall is_event evs) (Hc : 0 <= count)
    (Hwait : evs <> [] -> wait_event priv s = Done 0 s) :
  let k := Z.to_nat (count / 72) in
  if count =? 0 then forall fuel, mport_read fuel filp nonblock buf count s = Done 0 s
  else if bool_decide (evs = []) && nonblock then
    forall fuel, mport_read fuel filp nonblock buf count s = Done (- EAGAIN) s
  else if negb (count mod 72 =? 0) then
    forall fuel, mport_read fuel filp nonblock buf count s = Done (- EINVAL) s
  else evs <> [] ->
    if (k <=? length evs)%nat then forall fuel, (k < fuel)%nat ->
      mport_read fuel filp nonblock buf count s =
        Done count (events_read priv p (concat (drop k evs))
          (copied_out buf (take k evs) (ks_hw (ms_k (mc_m s)))) s)
    else forall fuel, mport_read fuel filp nonblock buf count s = NoFuel.
Proof.
  intros k. destruct (Z.eqb_spec count 0) as [Hz|Hnz].
  { intros fuel. unfold mport_read. by rewrite Hz. }
  assert (bool_decide (pr_event_fifo p = []) = bool_decide (evs = [])) as Hempty.
  { apply bool_decide_ext. rewrite Hq. split; [|by intros ->]. destruct evs as [|e evs]; [done|].
    apply Forall_cons in Hev as [He _]. unfold is_event in He. by destruct e. }
  assert (forall fuel, mport_read fuel filp nonblock buf count s =
    (if bool_decide (evs = []) && nonblock then ret (- EAGAIN)
     else if negb (count mod 72 =? 0) then ret (- EINVAL)
     else rc <- wait_event priv ;; if truthy rc then ret rc else loop fuel (read_step priv count) (0, buf)) s) as Hrun.
  { intros fuel. unfold mport_read. destruct (Z.eqb_spec count 0); [done|].
    assert (file_priv filp s = Done priv s) as Hfp by (unfold file_priv, gets, bind; by rewrite Hf).
    run Hfp. run (run_file_state _ _ _ Hp). by rewrite Hempty. }
  destruct (bool_decide (evs = []) && nonblock); [exact Hrun|].
  destruct (negb (count mod 72 =? 0)) eqn:Hmod; [exact Hrun|]. intros Hne. apply negb_false_iff, Z.eqb_eq in Hmod.
  assert (0 + 72 * Z.of_nat k = count) as Hk.
  { unfold k. rewrite Z2Nat.id by (apply Z.div_pos; lia). pose proof (Z.div_mod count 72). lia. }
  assert (forall fuel, mport_read fuel filp nonblock buf count s = loop fuel (read_step priv count) (0, buf) s) as Hloop.
  { intros fuel. rewrite Hrun. by run (Hwait Hne). }
  pose proof (fun fuel => run_read_loop buf (buf + count) Hout fuel k s priv p evs 0 buf Hp Hq Hev ltac:(lia) ltac:(lia)) as H. rewrite Hk in H.
  destruct (k <=? length evs)%nat; intros fuel; [intros Hfuel|]; rewrite Hloop, H; [|done].
  by rewrite (proj2 (Nat.ltb_lt _ _) Hfuel).
Qed.
End claims.

(** Two files: one with two filters for the payloads 0x10 to 0x1f and 0 to 0xff, of any sender,
    and one with a filter for another sender. *)
Definition ev_priv (filters : list ptr) (fifo : list Z) : mport_cdev_priv :=
  mk_mport_cdev_priv 2%positive false filters [] fifo 144 RIO_DOORBELL None [] 0 0.
Definition ev_event (b : Z) : list Z := replicate 72 b.
Definition ev_state (fifo : list Z) : mcstate mcworld :=
  setf mc_files {[ 5%positive := 20%positive; 6%positive := 21%positive ]}
    (setf mc_privs {[ 20%positive := ev_priv [30%positive; 31%positive] fifo; 21%positive := ev_priv [32%positive] [] ]}
      (setf mc_dbfs {[ 30%positive := mk_db_filter 20%positive (mk_rio_doorbell_filter RIO_INVALID_DESTID 0x10 0x1f);
          31%positive := mk_db_filter 20%positive (mk_rio_doorbell_filter RIO_INVALID_DESTID 0 0xff);
          32%positive := mk_db_filter 21%positive (mk_rio_doorbell_filter 8 0 0xff) ]}
        (setf mc_devs {[ 2%positive := mk_mport_dev true 1%positive [20%positive; 21%positive] zero_properties
            [30%positive; 32%positive; 31%positive] [] [] None 0 2 ]} (mw_state ∅)))).

Lemma rio_mport_doorbell_handler_correct_witness :
  exists s', rio_mport_doorbell_handler (W := mcworld) 1 2 7 0 0x12 (ev_state []) = Done tt s' /\
    (length ∘ pr_event_fifo <$> mc_privs s' !! 20%positive) = Some 144%nat /\
    (length ∘ pr_event_fifo <$> mc_privs s' !! 21%positive) = Some 0%nat.
Proof.
  destruct (rio_mport_doorbell_handler_correct 1 2 _ 7 0 0x12 (ev_state []) eq_refl) as (e & m & Hrun & He & _ & _ & _ & Hl).
  { repeat constructor; eexists; (split; [reflexivity|by eexists]). }
  eexists. split; [exact Hrun|]. cbn [mc_privs with_privs setf updf].
  rewrite (Hl 20%positive _ eq_refl), (Hl 21%positive _ eq_refl). split; [|reflexivity].
  cbn [fmap option_fmap option_map compose]. f_equal.
  change (length (concat [e; e]) = 144%nat). cbn [concat]. rewrite !length_app, He. reflexivity.
Defined.

Lemma mport_read_correct_witness :
  let s := ev_state (concat [ev_event 1; ev_event 2]) in
  (exists s', mport_read 2 5%positive false 0x100 72 s = Done 72 s' /\
     (pr_event_fifo <$> mc_privs s' !! 20%positive) = Some (ev_event 2)) /\
  forall fuel, mport_read fuel 5%positive false 0x100 216 s = NoFuel.
Proof.
  intros s.
  assert (forall count, 0 <= count <= 0x1000 -> forall b bytes (w : mcworld), 0x100 <= b <= 0x100 + count -> (user_write b bytes w).1 = 0) as Hout.
  { intros count Hc b bytes w Hb. cbn. unfold user_valid. destruct (Z.leb_spec 0 b), (Z.leb_spec (b + 0) (2 ^ 16)), (Z.ltb_spec b 0xf000); (done || lia). }
  assert (Forall is_event [ev_event 1; ev_event 2]) as Hev by (repeat constructor).
  split.
  - pose proof (mport_read_correct 5%positive 20%positive _ [ev_event 1; ev_event 2] false 0x100 72 s
      (Hout 72 ltac:(lia)) eq_refl eq_refl eq_refl Hev ltac:(lia) ltac:(done) ltac:(done) 2%nat ltac:(apply Nat.ltb_lt; reflexivity)) as H.
    eexists. split; [exact H|]. reflexivity.
  - exact (mport_read_correct 5%positive 20%positive _ [ev_event 1; ev_event 2] false 0x100 216 s
      (Hout 216 ltac:(lia)) eq_refl eq_refl eq_refl Hev ltac:(lia) ltac:(done) ltac:(done)).
Defined.
