(* ===== verification/MportInv.v ===== *)
(** * The char device of a master port: mappings and who refers to them

    A mapping is shared by the file that made it, the memory areas of processes and pending
    transfers.  The invariant says that its reference count is the number of these, and
    that nobody refers to a mapping that is gone.  Every call of an application that makes,
    shares or frees mappings keeps it, except [rio_mport_free_dma]. *)

From S2P Require Import Prelude Regs State Access Mbox Mport Msg RioDma MportCdev MportDma MportOps.

(** ** Counting references in a heap *)

Definition nrefs {A} (f : A -> option ptr) (p : ptr) (m : gmap ptr A) : Z :=
  Z.of_nat (size (filter (fun kv => f kv.2 = Some p) m)).

Section nrefs.
Context {A : Type} (f : A -> option ptr) (p : ptr).
Implicit Type m : gmap ptr A.

Definition is_ref (a : A) : Z := if decide (f a = Some p) then 1 else 0.

Lemma nrefs_nonneg m : 0 <= nrefs f p m.
Proof. unfold nrefs. lia. Qed.
Lemma nrefs_insert m k a : m !! k = None -> nrefs f p (<[k := a]> m) = nrefs f p m + is_ref a.
Proof.
  intros Hk. unfold nrefs, is_ref. destruct (decide (f a = Some p)) as [Hf|Hf].
  - rewrite map_filter_insert_True, map_size_insert_None; [lia| |done].
    apply map_lookup_filter_None. by left.
  - rewrite map_filter_insert_False, delete_id by done. lia.
Qed.
Lemma nrefs_delete m k a : m !! k = Some a -> nrefs f p (delete k m) = nrefs f p m - is_ref a.
Proof.
  intros Hk. rewrite <- (insert_delete_id m k a Hk) at 2. rewrite nrefs_insert; [lia|apply lookup_delete_eq].
Qed.
Lemma nrefs_update m k a a' : m !! k = Some a -> f a' = f a -> nrefs f p (<[k := a']> m) = nrefs f p m.
Proof.
  intros Hk Hf. rewrite <- insert_delete_eq, nrefs_insert by apply lookup_delete_eq.
  rewrite (nrefs_delete m k a Hk). unfold is_ref. rewrite Hf. lia.
Qed.
Lemma nrefs_pos m k a : m !! k = Some a -> f a = Some p -> 0 < nrefs f p m.
Proof.
  intros Hk Hf. rewrite <- (insert_delete_id m k a Hk), nrefs_insert by apply lookup_delete_eq.
  unfold is_ref. rewrite decide_True by done. pose proof (nrefs_nonneg (delete k m)). lia.
Qed.
Lemma nrefs_fresh m : (forall k a, m !! k = Some a -> f a <> Some p) -> nrefs f p m = 0.
Proof.
  intros H. unfold nrefs. replace (filter _ m) with (∅ : gmap ptr A); [done|].
  symmetry. apply map_empty. intros k. apply map_lookup_filter_None. right. intros a Ha. by apply (H k).
Qed.
End nrefs.

(** ** The part of the state that matters *)

Record mview (W : Type) := mk_mview {
  v_devs : gmap ptr mport_dev; v_privs : gmap ptr mport_cdev_priv; v_maps : gmap ptr rio_mport_mapping;
  v_files : gmap ptr ptr; v_vmas : gmap ptr ptr;
  v_mports : gmap ptr (rio_mport W); v_fresh : ptr;
}.
Arguments mk_mview {W}. Arguments v_devs {W}. Arguments v_privs {W}. Arguments v_maps {W}. Arguments v_files {W}. Arguments v_vmas {W}. Arguments v_mports {W}. Arguments v_fresh {W}.
#[export] Instance eta_mview W : Eta (mview W) := fun v =>
  mk_mview (v_devs v) (v_privs v) (v_maps v) (v_files v) (v_vmas v) (v_mports v) (v_fresh v).
Definition view {W} (s : mcstate W) : mview W :=
  mk_mview (mc_devs s) (mc_privs s) (mc_maps s) (mc_files s) (mc_vmas s)
    (ks_mports (ms_k (mc_m s))) (ks_fresh (ms_k (mc_m s))).
Definition has_view {W} (v : mview W) (s : mcstate W) : Prop := view s = v.

Section access.
Context {W : Type} `{!KernelEnv W} `{!CdevEnv W}.
Context (u f : Prop) (v : mview W).

(** What only looks at the state, or only changes the hardware. *)
Lemma fine_env {A} (g : W -> A * W) : fine u f (has_view v) any (env g : MC W A).
Proof. intros s Hs. unfold spec, env, core, lift, lift_k, hw_call. by destruct (g _). Qed.
Lemma fine_env_ (g : W -> W) : fine u f (has_view v) any (env_ g : MC W unit).
Proof. by intros s Hs. Qed.
Lemma fine_kzalloc : fine u f (has_view v) any (core kzalloc : MC W bool).
Proof.
  intros s Hs. unfold spec, core, lift, lift_k, kzalloc, bind, hw_call. by destruct (env_alloc _) as [[] w].
Qed.
Lemma fine_kfree : fine u f (has_view v) any (core kfree : MC W unit).
Proof. by intros s Hs. Qed.
Lemma fine_uninit : fine u f (has_view v) any (core uninit : MC W Z).
Proof. intros s Hs. split; [done|]. by destruct s as [[]]. Qed.
Lemma fine_from_user arg len : fine u f (has_view v) any (copy_from_user arg len : MC W (option (list Z))).
Proof. intros s Hs. split; [done|]. by destruct s as [[]]. Qed.
Lemma fine_to_user arg bytes : fine u f (has_view v) any (copy_to_user arg bytes : MC W bool).
Proof. unfold copy_to_user. eapply fine_bind; [apply fine_env|]. intros n _. by apply fine_ret. Qed.
Lemma fine_copied arg bytes : fine u f (has_view v) any (to_user arg bytes : MC W Z).
Proof. unfold to_user. eapply fine_bind; [apply fine_to_user|]. intros ok _. by apply fine_ret. Qed.

Lemma fine_lookup {A} (o : mcstate W -> option A) a :
  (forall s, view s = v -> o s = Some a) ->
  fine u f (has_view v) (fun x => x = a) (x <- gets o ;; deref x).
Proof. intros H s Hs. unfold spec, bind, gets. by rewrite (H s Hs). Qed.
Lemma fine_get_md p d : v_devs v !! p = Some d -> fine u f (has_view v) (fun x => x = d) (get_md p : MC W _).
Proof. intros H. apply fine_lookup. by intros s <-. Qed.
Lemma fine_get_priv p d : v_privs v !! p = Some d -> fine u f (has_view v) (fun x => x = d) (get_priv p : MC W _).
Proof. intros H. apply fine_lookup. by intros s <-. Qed.
Lemma fine_get_map p d : v_maps v !! p = Some d -> fine u f (has_view v) (fun x => x = d) (get_map p : MC W _).
Proof. intros H. apply fine_lookup. by intros s <-. Qed.
Lemma fine_file_priv p d : v_files v !! p = Some d -> fine u f (has_view v) (fun x => x = d) (file_priv p : MC W _).
Proof. intros H. apply fine_lookup. by intros s <-. Qed.
Lemma fine_get_mport p mp : v_mports v !! p = Some mp ->
  fine u f (has_view v) (fun x => x = mp) (core (get_mport p) : MC W _).
Proof.
  intros H s Hs. unfold spec, core, lift, lift_k, get_mport, bind, gets.
  assert (ks_mports (ms_k (mc_m s)) !! p = Some mp) as Hp by by rewrite <- H, <- Hs.
  cbn [msg_of mc_msg_state ms_k]. rewrite Hp. split; [done|]. rewrite <- Hs. by destruct s as [[]].
Qed.

(** Windows of the port: its driver acts on the hardware. *)
Lemma fine_core_mport {A} p mp (k : rio_mport W -> KM W A) : v_mports v !! p = Some mp ->
  fine u f (has_view v) any (core (k mp) : MC W A) ->
  fine u f (has_view v) any (core (x <- get_mport p ;; k x) : MC W A).
Proof.
  intros H Hk s Hs. specialize (Hk s Hs). unfold spec, core, lift, lift_k, get_mport, bind, gets in *.
  assert (ks_mports (ms_k (mc_m s)) !! p = Some mp) as Hp by by rewrite <- H, <- Hs.
  cbn [msg_of mc_msg_state ms_k] in *. rewrite Hp. exact Hk.
Qed.
Lemma fine_map_inb p a b c d : is_Some (v_mports v !! p) ->
  fine u f (has_view v) any (core (rio_map_inb_region p a b c d) : MC W Z).
Proof.
  intros [mp H]. apply (fine_core_mport p mp); [done|].
  destruct (op_map_inb (mp_ops mp)); [apply fine_env|by intros s Hs].
Qed.
Lemma fine_unmap_inb p a : is_Some (v_mports v !! p) ->
  fine u f (has_view v) any (core (rio_unmap_inb_region p a) : MC W unit).
Proof.
  intros [mp H]. apply (fine_core_mport p mp); [done|].
  destruct (op_unmap_inb (mp_ops mp)); [apply fine_env_|by intros s Hs].
Qed.
Lemma fine_map_outb p a b c d e : is_Some (v_mports v !! p) ->
  fine u f (has_view v) any (core (rio_map_outb_region p a b c d e) : MC W (Z * Z)).
Proof.
  intros [mp H]. apply (fine_core_mport p mp); [done|].
  destruct (op_map_outb (mp_ops mp)); [apply fine_env|by intros s Hs].
Qed.
Lemma fine_unmap_outb p a b : is_Some (v_mports v !! p) ->
  fine u f (has_view v) any (core (rio_unmap_outb_region p a b) : MC W unit).
Proof.
  intros [mp H]. apply (fine_core_mport p mp); [done|].
  destruct (op_unmap_outb (mp_ops mp)); [apply fine_env_|by intros s Hs].
Qed.

(** Steps that change the view. *)
Lemma spec_view_modify (g : mcstate W -> mcstate W) s v' (Q : unit -> mcstate W -> Prop) :
  (view (g s) = v') -> (forall s', has_view v' s' -> Q tt s') -> spec u f (modify g) s Q.
Proof. intros Hg HQ. apply spec_modify. by apply HQ. Qed.
Lemma spec_upd_md p d g s (Q : unit -> mcstate W -> Prop) : has_view v s -> v_devs v !! p = Some d ->
  (forall s', has_view (setf v_devs (<[p := g d]> (v_devs v)) v) s' -> Q tt s') -> spec u f (upd_md p g) s Q.
Proof.
  intros Hs H HQ. unfold upd_md. apply spec_bind. eapply spec_mono; [by apply fine_get_md|].
  intros _ s' [-> Hs']. eapply spec_view_modify; [|exact HQ]. unfold view. simpl. by rewrite <- Hs'.
Qed.
Lemma spec_upd_priv p d g s (Q : unit -> mcstate W -> Prop) : has_view v s -> v_privs v !! p = Some d ->
  (forall s', has_view (setf v_privs (<[p := g d]> (v_privs v)) v) s' -> Q tt s') -> spec u f (upd_priv p g) s Q.
Proof.
  intros Hs H HQ. unfold upd_priv. apply spec_bind. eapply spec_mono; [by apply fine_get_priv|].
  intros _ s' [-> Hs']. eapply spec_view_modify; [|exact HQ]. unfold view. simpl. by rewrite <- Hs'.
Qed.
Lemma spec_upd_map p d g s (Q : unit -> mcstate W -> Prop) : has_view v s -> v_maps v !! p = Some d ->
  (forall s', has_view (setf v_maps (<[p := g d]> (v_maps v)) v) s' -> Q tt s') -> spec u f (upd_map p g) s Q.
Proof.
  intros Hs H HQ. unfold upd_map. apply spec_bind. eapply spec_mono; [by apply fine_get_map|].
  intros _ s' [-> Hs']. eapply spec_view_modify; [|exact HQ]. unfold view. simpl. by rewrite <- Hs'.
Qed.
Lemma spec_maps g s (Q : unit -> mcstate W -> Prop) : has_view v s ->
  (forall s', has_view (setf v_maps (g (v_maps v)) v) s' -> Q tt s') ->
  spec u f (modify (fun s => setf mc_maps (g (mc_maps s)) s)) s Q.
Proof. intros <- HQ. by eapply spec_view_modify. Qed.
Lemma spec_privs g s (Q : unit -> mcstate W -> Prop) : has_view v s ->
  (forall s', has_view (setf v_privs (g (v_privs v)) v) s' -> Q tt s') ->
  spec u f (modify (fun s => setf mc_privs (g (mc_privs s)) s)) s Q.
Proof. intros <- HQ. by eapply spec_view_modify. Qed.
Lemma spec_files g s (Q : unit -> mcstate W -> Prop) : has_view v s ->
  (forall s', has_view (setf v_files (g (v_files v)) v) s' -> Q tt s') ->
  spec u f (modify (fun s => setf mc_files (g (mc_files s)) s)) s Q.
Proof. intros <- HQ. by eapply spec_view_modify. Qed.
Lemma spec_vmas g s (Q : unit -> mcstate W -> Prop) : has_view v s ->
  (forall s', has_view (setf v_vmas (g (v_vmas v)) v) s' -> Q tt s') ->
  spec u f (modify (fun s => setf mc_vmas (g (mc_vmas s)) s)) s Q.
Proof. intros <- HQ. by eapply spec_view_modify. Qed.
Lemma spec_fresh s (Q : ptr -> mcstate W -> Prop) : has_view v s ->
  (forall s', has_view (setf v_fresh (Pos.succ (v_fresh v)) v) s' -> Q (v_fresh v) s') ->
  spec u f (core fresh_ptr) s Q.
Proof.
  intros Hs HQ. unfold spec, core, lift, lift_k, fresh_ptr. cbn.
  replace (ks_fresh (ms_k (mc_m s))) with (v_fresh v) by by rewrite <- Hs. apply HQ.
  rewrite <- Hs. by destruct s as [[]].
Qed.
End access.

#[export] Hint Resolve fine_env fine_env_ fine_kzalloc fine_kfree fine_uninit fine_from_user fine_to_user fine_copied
  fine_get_md fine_get_priv fine_get_map fine_file_priv fine_get_mport
  fine_map_inb fine_unmap_inb fine_map_outb fine_unmap_outb : fine.

(** A step that keeps the view; the next one follows. *)
Lemma spec_quiet {W A B} (u f : Prop) (v : mview W) (V : A -> Prop) (m : MC W A) (k : A -> MC W B) s Q :
  has_view v s -> fine u f (has_view v) V m ->
  (forall a s', V a -> has_view v s' -> spec u f (k a) s' Q) -> spec u f (bind m k) s Q.
Proof. intros Hs Hm Hk. apply spec_bind. eapply spec_mono; [by apply Hm|]. intros a s' [Ha Hs']. by apply Hk. Qed.

(** ** The invariant *)

(** Every mapping has as many references as [own] says, and one for every area; the lists
    of the devices have exactly the mappings. *)
Record counted {W} (own : ptr -> rio_mport_mapping -> Z) (vm : gmap ptr ptr) (v : mview W) : Prop := {
  ct_ref p m : v_maps v !! p = Some m -> mm_ref m = own p m + nrefs Some p vm;
  ct_pos p m : v_maps v !! p = Some m -> 0 < mm_ref m;
  ct_area a p : vm !! a = Some p -> is_Some (v_maps v !! p);
  ct_md p m : v_maps v !! p = Some m -> exists d, v_devs v !! mm_md m = Some d /\ p ∈ md_mappings d;
  ct_list x d p : v_devs v !! x = Some d -> p ∈ md_mappings d -> exists m, v_maps v !! p = Some m /\ mm_md m = x;
  ct_nodup x d : v_devs v !! x = Some d -> NoDup (md_mappings d);
  ct_port x d : v_devs v !! x = Some d -> is_Some (v_mports v !! md_mport d);
  ct_fresh p m : v_maps v !! p = Some m -> (p < v_fresh v)%positive;
}.

(** An open file that has made a mapping has a reference to it. *)
Definition owned (files : gmap ptr ptr) (m : rio_mport_mapping) : Z :=
  match mm_filp m with Some f => if decide (is_Some (files !! f)) then 1 else 0 | None => 0 end.

(** Files and devices: every file has private data of its own, and a reference to its
    device, which lists it; mappings of a file are mappings of its device. *)
Record files_ok {W} (v : mview W) : Prop := {
  fo_priv f pr : v_files v !! f = Some pr -> is_Some (v_privs v !! pr);
  fo_inj f g pr : v_files v !! f = Some pr -> v_files v !! g = Some pr -> f = g;
  fo_list f pr p : v_files v !! f = Some pr -> v_privs v !! pr = Some p ->
    exists d, v_devs v !! pr_md p = Some d /\ pr ∈ md_file_list d;
  fo_count x d : v_devs v !! x = Some d -> 1 + nrefs (fun p => Some (pr_md p)) x (v_privs v) <= md_ref d;
  fo_fresh pr p : v_privs v !! pr = Some p -> (pr < v_fresh v)%positive;
  fo_owner q m f pr p : v_maps v !! q = Some m -> mm_filp m = Some f -> v_files v !! f = Some pr ->
    v_privs v !! pr = Some p -> mm_md m = pr_md p;
}.

Definition maps_inv {W} (v : mview W) : Prop := counted (fun _ => owned (v_files v)) (v_vmas v) v /\ files_ok v.

Lemma owned_nonneg files m : 0 <= owned files m.
Proof. unfold owned. destruct (mm_filp m); [case_decide|]; lia. Qed.

Lemma elem_list_del p q l l' : list_del p l = Some l' -> q <> p -> q ∈ l' <-> q ∈ l.
Proof.
  revert l'. induction l as [|x l IH]; intros l' H Hq; simpl in H; [done|]. case_decide as Hx.
  - simplify_eq. rewrite elem_of_cons. split; [by right|by intros [->|]].
  - destruct (list_del p l) as [l1|] eqn:E; [|done]. simplify_eq/=.
    rewrite !elem_of_cons. by rewrite (IH l1 eq_refl Hq).
Qed.
Lemma list_del_nodup p l l' : list_del p l = Some l' -> NoDup l -> NoDup l' /\ p ∉ l'.
Proof.
  revert l'. induction l as [|x l IH]; intros l' H Hn; simpl in H; [done|].
  apply NoDup_cons in Hn as [Hx Hn]. case_decide as Hd; [by simplify_eq|].
  destruct (list_del p l) as [l1|] eqn:E; [|done]. simplify_eq/=. destruct (IH l1 eq_refl Hn) as [H1 H2].
  split; [|by rewrite not_elem_of_cons]. apply NoDup_cons. split; [|done]. by rewrite elem_list_del.
Qed.
Lemma list_del_some p l : p ∈ l -> is_Some (list_del p l).
Proof.
  induction l as [|x l IH]; intros H; simpl; [by apply elem_of_nil in H|]. case_decide as Hx; [done|].
  destruct IH as [l' ->]; [|done]. apply elem_of_cons in H as [->|]; done.
Qed.

(** ** Releasing and putting a mapping *)

(** What becomes of the rest: other mappings, files and areas stay, devices keep all but the
    list of their mappings. *)
Record lessened {W} (p : ptr) (v v' : mview W) : Prop := {
  ls_privs : v_privs v' = v_privs v; ls_files : v_files v' = v_files v; ls_vmas : v_vmas v' = v_vmas v;
  ls_mports : v_mports v' = v_mports v; ls_fresh : v_fresh v' = v_fresh v;
  ls_other q : q <> p -> v_maps v' !! q = v_maps v !! q;
  ls_same m' : v_maps v' !! p = Some m' -> exists m, v_maps v !! p = Some m /\ m' = setf mm_ref (mm_ref m') m;
  ls_devs x d' : v_devs v' !! x = Some d' -> exists d, v_devs v !! x = Some d /\ d' = setf md_mappings (md_mappings d') d;
  ls_kept x d : v_devs v !! x = Some d -> is_Some (v_devs v' !! x);
}.

Lemma lessened_map {W} p q (v v' : mview W) m' : lessened p v v' -> v_maps v' !! q = Some m' ->
  exists m, v_maps v !! q = Some m /\ mm_md m' = mm_md m /\ mm_filp m' = mm_filp m.
Proof.
  intros L H. destruct (decide (q = p)) as [->|Hq].
  - destruct (ls_same _ _ _ L m' H) as (m & Hm & ->). by exists m.
  - exists m'. by rewrite <- (ls_other _ _ _ L q Hq).
Qed.
Lemma lessened_dev {W} p (v v' : mview W) x d : lessened p v v' -> v_devs v !! x = Some d ->
  exists l, v_devs v' !! x = Some (setf md_mappings l d).
Proof.
  intros L H. destruct (ls_kept _ _ _ L x d H) as [d' Hd'].
  destruct (ls_devs _ _ _ L x d' Hd') as (d0 & H0 & E). simplify_eq. exists (md_mappings d'). by rewrite <- E.
Qed.
Lemma lessened_files_ok {W} p (v v' : mview W) : lessened p v v' -> files_ok v -> files_ok v'.
Proof.
  intros L F. split.
  - intros f pr. rewrite (ls_files _ _ _ L), (ls_privs _ _ _ L). apply (fo_priv v F).
  - intros f g pr. rewrite (ls_files _ _ _ L). apply (fo_inj v F).
  - intros f pr q. rewrite (ls_files _ _ _ L), (ls_privs _ _ _ L). intros H1 H2.
    destruct (fo_list v F f pr q H1 H2) as (d & Hd & Hin).
    destruct (lessened_dev p v v' _ d L Hd) as [l Hl]. by exists (setf md_mappings l d).
  - intros x d' H. destruct (ls_devs _ _ _ L x d' H) as (d & Hd & E). rewrite (ls_privs _ _ _ L), E.
    exact (fo_count v F x d Hd).
  - intros pr q. rewrite (ls_privs _ _ _ L), (ls_fresh _ _ _ L). apply (fo_fresh v F).
  - intros q m' f pr pv H. rewrite (ls_files _ _ _ L), (ls_privs _ _ _ L).
    destruct (lessened_map p q v v' m' L H) as (m & Hm & -> & ->). by apply (fo_owner v F q).
Qed.

Section put.
Context {W : Type} `{!KernelEnv W} `{!CdevEnv W}.

Lemma spec_release_mapping (v : mview W) p m d s (Q : unit -> mcstate W -> Prop) :
  has_view v s -> v_maps v !! p = Some m -> v_devs v !! mm_md m = Some d -> p ∈ md_mappings d ->
  is_Some (v_mports v !! md_mport d) ->
  (forall l s', list_del p (md_mappings d) = Some l ->
    has_view (setf v_maps (delete p (v_maps v)) (setf v_devs (<[mm_md m := setf md_mappings l d]> (v_devs v)) v)) s' ->
    Q tt s') ->
  total (mport_release_mapping p) s Q.
Proof.
  intros Hs Hm Hd Hp Hport HQ. unfold mport_release_mapping.
  eapply spec_quiet; [exact Hs|by apply fine_get_map|]. intros _ s1 -> Hs1.
  eapply spec_quiet; [exact Hs1|by apply fine_get_md|]. intros _ s2 -> Hs2.
  destruct (list_del_some p (md_mappings d) Hp) as [l Hl]. unfold unlink. rewrite Hl.
  eapply spec_run; [done|]. apply spec_bind. eapply spec_upd_md; [exact Hs2|exact Hd|]. intros s3 Hs3.
  eapply (spec_quiet _ _ _ any); [exact Hs3| |].
  - destruct (mm_dir m); unfold free_buffer; destruct (mm_virt_addr m); solve_fine.
  - intros [] s4 _ Hs4. apply spec_bind.
    eapply (spec_maps _ _ _ (delete p)); [exact Hs4|]. intros s5 Hs5. by apply (HQ l).
Qed.

(** The pure parts: a reference fewer, and a mapping fewer. *)
Lemma counted_less own own' (vm : gmap ptr ptr) (v : mview W) p m :
  counted own vm v -> v_maps v !! p = Some m -> 1 < mm_ref m ->
  (forall q mq, q <> p -> v_maps v !! q = Some mq -> own' q mq = own q mq) ->
  own' p (setf mm_ref (mm_ref m - 1) m) = own p m - 1 ->
  let v' := setf v_maps (<[p := setf mm_ref (mm_ref m - 1) m]> (v_maps v)) v in counted own' vm v' /\ lessened p v v'.
Proof.
  intros C Hm Hr Ho Hp v'.
  assert (forall q m', v_maps v' !! q = Some m' ->
    (q <> p /\ v_maps v !! q = Some m') \/ (q = p /\ m' = setf mm_ref (mm_ref m - 1) m)) as Hin.
  { intros q m'. subst v'. simpl. rewrite lookup_insert_Some. intros [[<- <-]|[]]; auto. }
  split; split; try done.
  - intros q m' [[Hq H]|[-> ->]]%Hin; [rewrite Ho by done; by apply (ct_ref own vm v C)|].
    rewrite Hp. simpl. rewrite (ct_ref own vm v C p m Hm). lia.
  - intros q m' [[Hq H]|[-> ->]]%Hin; [by apply (ct_pos own vm v C q)|simpl; lia].
  - intros a q H. subst v'. simpl. rewrite lookup_insert_is_Some'. right. exact (ct_area own vm v C a q H).
  - intros q m' [[Hq H]|[-> ->]]%Hin; [by apply (ct_md own vm v C)|by apply (ct_md own vm v C p m)].
  - intros x d q Hd Hq. destruct (ct_list own vm v C x d q Hd Hq) as (mq & Hmq & <-). subst v'. simpl.
    destruct (decide (q = p)) as [->|]; [|rewrite lookup_insert_ne by done; by exists mq].
    rewrite lookup_insert_eq. simplify_eq. by eexists.
  - apply (ct_nodup own vm v C).
  - apply (ct_port own vm v C).
  - intros q m' [[Hq H]|[-> ->]]%Hin; by eapply (ct_fresh own vm v C).
  - intros q Hq. subst v'. simpl. by rewrite lookup_insert_ne.
  - intros m'. subst v'. simpl. rewrite lookup_insert_eq. intros [= <-]. by exists m.
  - intros x d' H. exists d'. by destruct d'.
Qed.

Lemma counted_gone own own' (vm : gmap ptr ptr) (v : mview W) p m d l :
  counted own vm v -> v_maps v !! p = Some m -> mm_ref m = 1 -> 1 <= own p m ->
  (forall q mq, q <> p -> v_maps v !! q = Some mq -> own' q mq = own q mq) ->
  v_devs v !! mm_md m = Some d -> list_del p (md_mappings d) = Some l ->
  let v' := setf v_maps (delete p (v_maps v)) (setf v_devs (<[mm_md m := setf md_mappings l d]> (v_devs v)) v) in
  counted own' vm v' /\ lessened p v v'.
Proof.
  intros C Hm Hr Hown Ho Hd Hl v'.
  assert (forall q m', v_maps v' !! q = Some m' -> q <> p /\ v_maps v !! q = Some m') as Hin.
  { intros q m'. subst v'. simpl. rewrite lookup_delete_Some. intros []; auto. }
  assert (nrefs Some p vm = 0) as H0.
  { pose proof (ct_ref own vm v C p m Hm). pose proof (nrefs_nonneg Some p vm). lia. }
  destruct (list_del_nodup _ _ _ Hl (ct_nodup own vm v C _ d Hd)) as [Hn Hpl].
  assert (forall x d', v_devs v' !! x = Some d' -> exists d0 l0, v_devs v !! x = Some d0 /\
    d' = setf md_mappings l0 d0 /\ NoDup l0 /\ (p ∉ l0) /\ (forall q, q <> p -> q ∈ l0 <-> q ∈ md_mappings d0)) as Hdev.
  { intros x d'. subst v'. simpl. rewrite lookup_insert_Some. intros [[<- <-]|[Hx H]].
    - exists d, l. split_and!; try done. intros q. by apply elem_list_del.
    - exists d', (md_mappings d'). split_and!; [done|by destruct d'|by apply (ct_nodup own vm v C x)| |done].
      intros Hp. destruct (ct_list own vm v C x d' p H Hp) as (m1 & H1 & <-). by simplify_eq. }
  split; split; try done.
  - intros q m' [Hq H]%Hin. rewrite Ho by done. by apply (ct_ref own vm v C).
  - intros q m' [Hq H]%Hin. by apply (ct_pos own vm v C q).
  - intros a q H. subst v'. simpl. rewrite lookup_delete_ne; [exact (ct_area own vm v C a q H)|]. intros <-.
    pose proof (nrefs_pos Some p vm a p H eq_refl). lia.
  - intros q m' [Hq H]%Hin. destruct (ct_md own vm v C q m' H) as (d1 & H1 & H2). subst v'. simpl.
    destruct (decide (mm_md m = mm_md m')) as [E|]; [|rewrite lookup_insert_ne by done; by exists d1].
    rewrite <- E in H1 |- *. rewrite lookup_insert_eq. simplify_eq. eexists. split; [done|].
    by apply (elem_list_del p q (md_mappings d)).
  - intros x d' q (d0 & l0 & H1 & -> & H3 & H4 & H5)%Hdev Hq.
    assert (q <> p) as Hqp by by intros ->. simpl in Hq. apply H5 in Hq; [|done].
    destruct (ct_list own vm v C x d0 q H1 Hq) as (mq & Hmq & <-). exists mq. split; [|done].
    subst v'. simpl. by rewrite lookup_delete_ne.
  - intros x d' (d0 & l0 & H1 & -> & H3 & H4 & H5)%Hdev. exact H3.
  - intros x d' (d0 & l0 & H1 & -> & H3 & H4 & H5)%Hdev. exact (ct_port own vm v C x d0 H1).
  - intros q m' [Hq H]%Hin. by apply (ct_fresh own vm v C q m').
  - intros q Hq. subst v'. simpl. by rewrite lookup_delete_ne.
  - intros m' [Hq _]%Hin. done.
  - intros x d' (d0 & l0 & H1 & -> & H3)%Hdev. by exists d0.
  - intros x d1 H. subst v'. simpl. rewrite lookup_insert_is_Some'. right. by exists d1.
Qed.

(** [map_put] gives up a reference that the caller has. *)
Lemma map_put_spec own own' (vm : gmap ptr ptr) (v : mview W) p m s (Q : unit -> mcstate W -> Prop) :
  has_view v s -> counted own vm v -> v_maps v !! p = Some m -> 1 <= own p m ->
  (forall q mq, q <> p -> v_maps v !! q = Some mq -> own' q mq = own q mq) ->
  own' p (setf mm_ref (mm_ref m - 1) m) = own p m - 1 ->
  (forall v' s', has_view v' s' -> counted own' vm v' -> lessened p v v' -> Q tt s') ->
  total (map_put p) s Q.
Proof.
  intros Hs C Hm Hown Ho Hp HQ. unfold map_put.
  eapply spec_quiet; [exact Hs|by apply fine_get_map|]. intros _ s1 -> Hs1.
  apply spec_bind. eapply spec_upd_map; [exact Hs1|exact Hm|]. intros s2 Hs2.
  destruct (ct_md own vm v C p m Hm) as (d & Hd & Hin). pose proof (ct_pos own vm v C p m Hm) as Hpos.
  apply spec_when; intros Hr.
  - apply Z.eqb_eq in Hr. eapply spec_release_mapping; [exact Hs2|apply lookup_insert_eq|done|done| |].
    + by apply (ct_port own vm v C (mm_md m)).
    + intros l s3 Hl Hs3. simpl in Hs3. rewrite delete_insert_eq in Hs3.
      destruct (counted_gone own own' vm v p m d l) as [C' L]; try done. by eapply HQ.
  - apply Z.eqb_neq in Hr. destruct (counted_less own own' vm v p m) as [C' L]; try done; [lia|]. by eapply HQ.
Qed.
End put.
