(* ===== verification/MportCalls.v ===== *)
(** * The char device of a master port: any sequence of calls

    Applications open and close files, make and give up mappings, and map, share and unmap
    memory areas, in any order.  All these calls keep the invariant on mappings of MportInv, and end
    without an undefined access. *)

From S2P Require Import Prelude Regs State Access Mbox Mport Msg RioDma MportCdev MportDma MportOps MportInv.

(** ** Changes of the invariant *)

Section changes.
Context {W : Type}.
Implicit Types (v : mview W) (vm : gmap ptr ptr).

Lemma counted_ext own own' vm v :
  counted own vm v -> (forall p m, v_maps v !! p = Some m -> own' p m = own p m) -> counted own' vm v.
Proof.
  intros C H. split; try apply C. intros p m Hm. rewrite H by done. by apply (ct_ref own vm v C).
Qed.

Lemma file_of v f pr : maps_inv v -> v_files v !! f = Some pr ->
  exists p d mp, v_privs v !! pr = Some p /\ v_devs v !! pr_md p = Some d /\ v_mports v !! md_mport d = Some mp.
Proof.
  intros [C F] Hf. destruct (fo_priv v F f pr Hf) as [p Hp]. destruct (fo_list v F f pr p Hf Hp) as (d & Hd & _).
  destruct (ct_port _ _ v C _ d Hd) as [mp Hmp]. by exists p, d, mp.
Qed.
Lemma maps_live v x d p : maps_inv v -> v_devs v !! x = Some d -> p ∈ md_mappings d -> is_Some (v_maps v !! p).
Proof. intros [C F] Hd Hp. destruct (ct_list _ _ v C x d p Hd Hp) as (m & Hm & _). by exists m. Qed.

(** A new mapping of a file. *)
Definition with_map (v : mview W) (md : ptr) (d : mport_dev) (m : rio_mport_mapping) : mview W :=
  setf v_devs (<[md := setf md_mappings (md_mappings d ++ [v_fresh v]) d]> (v_devs v))
    (setf v_maps (<[v_fresh v := m]> (v_maps v)) (setf v_fresh (Pos.succ (v_fresh v)) v)).

Lemma fresh_map own vm v : counted own vm v -> v_maps v !! v_fresh v = None.
Proof.
  intros C. destruct (v_maps v !! v_fresh v) as [m|] eqn:E; [|done]. pose proof (ct_fresh own vm v C _ m E). lia.
Qed.
Lemma fresh_areas own vm v : counted own vm v -> nrefs Some (v_fresh v) vm = 0.
Proof.
  intros C. apply nrefs_fresh. intros a p Ha [= ->]. destruct (ct_area own vm v C a _ Ha) as [m Hm].
  by rewrite (fresh_map own vm v C) in Hm.
Qed.

Lemma counted_add own vm v md d m :
  counted own vm v -> v_devs v !! md = Some d -> mm_md m = md -> mm_ref m = 1 -> own (v_fresh v) m = 1 ->
  counted own vm (with_map v md d m).
Proof.
  intros C Hd Hmd Hr Hown. pose proof (fresh_map own vm v C) as Hf.
  assert (forall q m', v_maps (with_map v md d m) !! q = Some m' ->
    (q = v_fresh v /\ m' = m) \/ (q <> v_fresh v /\ v_maps v !! q = Some m')) as Hin.
  { intros q m'. simpl. rewrite lookup_insert_Some. intros [[<- <-]|[]]; auto. }
  split; simpl.
  - intros q m' [[-> ->]|[Hq H]]%Hin; [rewrite (fresh_areas own vm v C); lia|by apply (ct_ref own vm v C)].
  - intros q m' [[-> ->]|[Hq H]]%Hin; [lia|by apply (ct_pos own vm v C q)].
  - intros a q H. rewrite lookup_insert_is_Some'. right. by apply (ct_area own vm v C a).
  - intros q m' [[-> ->]|[Hq H]]%Hin.
    + rewrite Hmd, lookup_insert_eq. eexists. split; [done|]. simpl. apply elem_of_app. right. apply list_elem_of_here.
    + destruct (ct_md own vm v C q m' H) as (d1 & H1 & H2). destruct (decide (mm_md m' = md)) as [E|].
      * rewrite E in *. rewrite lookup_insert_eq. simplify_eq. eexists. split; [done|]. simpl. apply elem_of_app. by left.
      * rewrite lookup_insert_ne by done. by exists d1.
  - intros x d' q. rewrite lookup_insert_Some. intros [[<- <-]|[Hx H]] Hq.
    + simpl in Hq. apply elem_of_app in Hq as [Hq| ->%list_elem_of_singleton].
      * destruct (ct_list own vm v C md d q Hd Hq) as (m1 & H1 & H2). exists m1. split; [|done].
        rewrite lookup_insert_ne; [done|]. intros <-. by rewrite Hf in H1.
      * exists m. by rewrite lookup_insert_eq.
    + destruct (ct_list own vm v C x d' q H Hq) as (m1 & H1 & H2). exists m1. split; [|done].
      rewrite lookup_insert_ne; [done|]. intros <-. by rewrite Hf in H1.
  - intros x d'. rewrite lookup_insert_Some. intros [[<- <-]|[Hx H]]; [|by apply (ct_nodup own vm v C x)].
    simpl. apply NoDup_app. split_and!; [by apply (ct_nodup own vm v C md)| |apply NoDup_singleton].
    intros q Hq ->%list_elem_of_singleton. destruct (ct_list own vm v C md d _ Hd Hq) as (m1 & H1 & _). by rewrite Hf in H1.
  - intros x d'. rewrite lookup_insert_Some. intros [[<- <-]|[Hx H]];
      [exact (ct_port own vm v C md d Hd)|exact (ct_port own vm v C x d' H)].
  - intros q m' [[-> ->]|[Hq H]]%Hin; [lia|]. pose proof (ct_fresh own vm v C q m' H). lia.
Qed.

(** Files are not touched by what happens to the mappings of devices. *)
Lemma files_ok_maps v v' md d l :
  files_ok v -> v_privs v' = v_privs v -> v_files v' = v_files v -> (v_fresh v <= v_fresh v')%positive ->
  v_devs v !! md = Some d -> v_devs v' = <[md := setf md_mappings l d]> (v_devs v) ->
  (forall q m f pr p, v_maps v' !! q = Some m -> mm_filp m = Some f -> v_files v !! f = Some pr ->
    v_privs v !! pr = Some p -> mm_md m = pr_md p) -> files_ok v'.
Proof.
  intros F Ep Ef En Hd Ed Ho. split.
  - intros f pr. rewrite Ep, Ef. apply (fo_priv v F).
  - intros f g pr. rewrite Ef. apply (fo_inj v F).
  - intros f pr p. rewrite Ep, Ef, Ed. intros H1 H2. destruct (fo_list v F f pr p H1 H2) as (d1 & H3 & H4).
    destruct (decide (pr_md p = md)) as [E|]; [|rewrite lookup_insert_ne by done; by exists d1].
    rewrite E in *. simplify_eq. rewrite lookup_insert_eq. by eexists.
  - intros x d'. rewrite Ep, Ed, lookup_insert_Some. intros [[<- <-]|[Hx H]]; [exact (fo_count v F md d Hd)|].
    by apply (fo_count v F).
  - intros pr p. rewrite Ep. intros H. pose proof (fo_fresh v F pr p H). lia.
  - intros q m f pr p. rewrite Ep, Ef. apply Ho.
Qed.

Lemma maps_inv_add v md d m f pr p :
  maps_inv v -> v_files v !! f = Some pr -> v_privs v !! pr = Some p -> pr_md p = md -> v_devs v !! md = Some d ->
  mm_md m = md -> mm_ref m = 1 -> mm_filp m = Some f -> maps_inv (with_map v md d m).
Proof.
  intros [C F] Hf Hp Hmd Hd Hm Hr Ho. split.
  - apply counted_add; try done. unfold owned. rewrite Ho. by rewrite decide_True.
  - eapply files_ok_maps; try done; [simpl; lia|]. intros q m' g pr' p'. simpl. rewrite lookup_insert_Some.
    intros [[<- <-]|[Hq H]]; [|by apply (fo_owner v F q)]. congruence.
Qed.

(** A mapping that changes hands. *)
Lemma counted_relabel own own' vm v q m m' :
  counted own vm v -> v_maps v !! q = Some m -> mm_md m' = mm_md m -> mm_ref m' = mm_ref m -> own' q m' = own q m ->
  (forall x mx, x <> q -> v_maps v !! x = Some mx -> own' x mx = own x mx) ->
  counted own' vm (setf v_maps (<[q := m']> (v_maps v)) v).
Proof.
  intros C Hm Hmd Hr Hq Ho.
  assert (forall x m0, <[q := m']> (v_maps v) !! x = Some m0 ->
    (x = q /\ m0 = m') \/ (x <> q /\ v_maps v !! x = Some m0)) as Hin.
  { intros x m0. rewrite lookup_insert_Some. intros [[<- <-]|[]]; auto. }
  split; simpl.
  - intros x m0 [[-> ->]|[Hx H]]%Hin; [|rewrite Ho by done; by apply (ct_ref own vm v C)].
    rewrite Hq, Hr. by apply (ct_ref own vm v C).
  - intros x m0 [[-> ->]|[Hx H]]%Hin; [rewrite Hr; by apply (ct_pos own vm v C q)|by apply (ct_pos own vm v C x)].
  - intros a x H. rewrite lookup_insert_is_Some'. right. by apply (ct_area own vm v C a).
  - intros x m0 [[-> ->]|[Hx H]]%Hin; [rewrite Hmd|]; by apply (ct_md own vm v C).
  - intros x d y Hd Hy. destruct (ct_list own vm v C x d y Hd Hy) as (m0 & H & <-).
    destruct (decide (y = q)) as [->|]; [|rewrite lookup_insert_ne by done; by exists m0].
    rewrite lookup_insert_eq. simplify_eq. by exists m'.
  - apply (ct_nodup own vm v C).
  - apply (ct_port own vm v C).
  - intros x m0 [[-> ->]|[Hx H]]%Hin; by eapply (ct_fresh own vm v C).
Qed.
Lemma files_ok_relabel v q m' : files_ok v ->
  (forall f pr p, mm_filp m' = Some f -> v_files v !! f = Some pr -> v_privs v !! pr = Some p -> mm_md m' = pr_md p) ->
  files_ok (setf v_maps (<[q := m']> (v_maps v)) v).
Proof.
  intros F Ho. split; try apply F. intros x m f pr p. simpl. rewrite lookup_insert_Some.
  intros [[<- <-]|[Hx H]]; [apply Ho|by apply (fo_owner v F x)].
Qed.

(** Memory areas come and go. *)
Lemma is_ref_some (p q : ptr) : is_ref Some p q = if decide (p = q) then 1 else 0.
Proof. unfold is_ref. repeat case_decide; by simplify_eq. Qed.

Lemma counted_area_add own vm v q m a :
  counted own vm v -> v_maps v !! q = Some m -> vm !! a = None ->
  (forall x mx r, own x (setf mm_ref r mx) = own x mx) ->
  counted own (<[a := q]> vm) (setf v_maps (<[q := setf mm_ref (mm_ref m + 1) m]> (v_maps v)) v).
Proof.
  intros C Hm Ha Ho.
  assert (forall x m0, <[q := setf mm_ref (mm_ref m + 1) m]> (v_maps v) !! x = Some m0 ->
    (x = q /\ m0 = setf mm_ref (mm_ref m + 1) m) \/ (x <> q /\ v_maps v !! x = Some m0)) as Hin.
  { intros x m0. rewrite lookup_insert_Some. intros [[<- <-]|[]]; auto. }
  split; cbn [v_maps v_devs v_mports v_fresh setf updf].
  - intros x m0 [[-> ->]|[Hx H]]%Hin; rewrite nrefs_insert, is_ref_some by done.
    + rewrite decide_True, Ho by done. simpl. rewrite (ct_ref own vm v C q m Hm). lia.
    + rewrite decide_False by done. rewrite (ct_ref own vm v C x m0 H). lia.
  - intros x m0 [[-> ->]|[Hx H]]%Hin; [|by apply (ct_pos own vm v C x)].
    pose proof (ct_pos own vm v C q m Hm). simpl. lia.
  - intros b x. rewrite lookup_insert_Some, lookup_insert_is_Some'. intros [[<- <-]|[Hb H]]; [by left|].
    right. by apply (ct_area own vm v C b).
  - intros x m0 [[-> ->]|[Hx H]]%Hin; [by apply (ct_md own vm v C q m)|by apply (ct_md own vm v C)].
  - intros x d y Hd Hy. destruct (ct_list own vm v C x d y Hd Hy) as (m0 & H & <-).
    destruct (decide (y = q)) as [->|]; [|rewrite lookup_insert_ne by done; by exists m0].
    rewrite lookup_insert_eq. simplify_eq. by eexists.
  - apply (ct_nodup own vm v C).
  - apply (ct_port own vm v C).
  - intros x m0 [[-> ->]|[Hx H]]%Hin; by eapply (ct_fresh own vm v C).
Qed.
Lemma counted_area_del own own' vm v q a :
  counted own vm v -> vm !! a = Some q -> (forall m, own' q m = own q m + 1) ->
  (forall x mx, x <> q -> own' x mx = own x mx) -> counted own' (delete a vm) v.
Proof.
  intros C Ha Hq Ho. split; try apply C.
  - intros x m Hm. rewrite (nrefs_delete Some x vm a q Ha), is_ref_some, (ct_ref own vm v C x m Hm).
    case_decide as E; [subst; rewrite Hq|rewrite Ho by done]; lia.
  - intros b x. rewrite lookup_delete_Some. intros [_ H]. by apply (ct_area own vm v C b).
Qed.

(** Devices and files that change in other respects. *)
Lemma counted_dev own vm v x d d' : counted own vm v -> v_devs v !! x = Some d ->
  md_mappings d' = md_mappings d -> md_mport d' = md_mport d ->
  counted own vm (setf v_devs (<[x := d']> (v_devs v)) v).
Proof.
  intros C Hd Hm Hp. split; try apply C; cbn [v_maps v_devs v_mports v_fresh setf updf].
  - intros p m H. destruct (ct_md own vm v C p m H) as (d1 & H1 & H2).
    destruct (decide (mm_md m = x)) as [E|]; [|rewrite lookup_insert_ne by done; by exists d1].
    rewrite E in *. rewrite lookup_insert_eq. simplify_eq. exists d'. by rewrite Hm.
  - intros y d1 p. rewrite lookup_insert_Some. intros [[<- <-]|[Hx H]]; [rewrite Hm|]; by apply (ct_list own vm v C).
  - intros y d1. rewrite lookup_insert_Some. intros [[<- <-]|[Hx H]]; [rewrite Hm|]; by eapply (ct_nodup own vm v C).
  - intros y d1. rewrite lookup_insert_Some. intros [[<- <-]|[Hx H]]; [rewrite Hp|]; by eapply (ct_port own vm v C).
Qed.
Lemma counted_fresh own vm v n : counted own vm v -> (v_fresh v <= n)%positive -> counted own vm (setf v_fresh n v).
Proof. intros C Hn. split; try apply C. intros p m H. pose proof (ct_fresh own vm v C p m H). simpl. lia. Qed.
Lemma counted_rest own vm v ps fs vs : counted own vm v -> counted own vm (setf v_privs ps (setf v_files fs (setf v_vmas vs v))).
Proof. intros C. split; apply C. Qed.
Lemma nrefs_privs v pr p p' x : v_privs v !! pr = Some p -> pr_md p' = pr_md p ->
  nrefs (fun p => Some (pr_md p)) x (<[pr := p']> (v_privs v)) = nrefs (fun p => Some (pr_md p)) x (v_privs v).
Proof. intros Hp Hm. eapply nrefs_update; [exact Hp|]. by rewrite Hm. Qed.
Lemma files_ok_priv v pr p p' : files_ok v -> v_privs v !! pr = Some p -> pr_md p' = pr_md p ->
  files_ok (setf v_privs (<[pr := p']> (v_privs v)) v).
Proof.
  intros F Hp Hm.
  assert (forall x p0, <[pr := p']> (v_privs v) !! x = Some p0 ->
    exists p1, v_privs v !! x = Some p1 /\ pr_md p0 = pr_md p1) as Hin.
  { intros x p0. rewrite lookup_insert_Some. intros [[<- <-]|[Hx H]]; [by exists p|by exists p0]. }
  split; cbn [v_maps v_devs v_privs v_files v_fresh setf updf].
  - intros f x H. rewrite lookup_insert_is_Some'. right. by apply (fo_priv v F f).
  - apply (fo_inj v F).
  - intros f x p0 H (p1 & H1 & ->)%Hin. by apply (fo_list v F f x).
  - intros x d Hd. rewrite (nrefs_privs v pr p p') by done. by apply (fo_count v F).
  - intros x p0 (p1 & H1 & _)%Hin. by apply (fo_fresh v F x p1).
  - intros q m f x p0 H1 H2 H3 (p1 & H4 & ->)%Hin. by apply (fo_owner v F q m f x).
Qed.

Lemma files_ok_dev v x d d' : files_ok v -> v_devs v !! x = Some d ->
  (forall pr, pr ∈ md_file_list d -> pr ∈ md_file_list d') ->
  1 + nrefs (fun p => Some (pr_md p)) x (v_privs v) <= md_ref d' ->
  files_ok (setf v_devs (<[x := d']> (v_devs v)) v).
Proof.
  intros F Hd Hl Hr. split; try apply F; cbn [v_maps v_devs v_privs v_files v_fresh setf updf].
  - intros f pr p Hf Hp. destruct (fo_list v F f pr p Hf Hp) as (d1 & H1 & H2).
    destruct (decide (pr_md p = x)) as [E|]; [|rewrite lookup_insert_ne by done; by exists d1].
    rewrite E in *. rewrite lookup_insert_eq. simplify_eq. exists d'. auto.
  - intros y d1. rewrite lookup_insert_Some. intros [[<- <-]|[Hx H]]; [done|]. by apply (fo_count v F).
Qed.
Lemma maps_inv_dev v x d d' : maps_inv v -> v_devs v !! x = Some d ->
  md_mappings d' = md_mappings d -> md_mport d' = md_mport d ->
  (forall pr, pr ∈ md_file_list d -> pr ∈ md_file_list d') ->
  1 + nrefs (fun p => Some (pr_md p)) x (v_privs v) <= md_ref d' ->
  maps_inv (setf v_devs (<[x := d']> (v_devs v)) v).
Proof. intros [C F] Hd Hm Hp Hl Hr. split; [by eapply counted_dev|by eapply files_ok_dev]. Qed.
Lemma maps_inv_fresh v n : maps_inv v -> (v_fresh v <= n)%positive -> maps_inv (setf v_fresh n v).
Proof.
  intros [C F] Hn. split; [by apply counted_fresh|]. split; try apply F.
  intros pr p H. pose proof (fo_fresh v F pr p H). simpl. lia.
Qed.

(** *** Opening and closing *)
Lemma maps_inv_open v f md d p :
  maps_inv v -> v_devs v !! md = Some d -> v_files v !! f = None ->
  (forall q m, v_maps v !! q = Some m -> mm_filp m <> Some f) -> pr_md p = md ->
  maps_inv (setf v_files (<[f := v_fresh v]> (v_files v)) (setf v_privs (<[v_fresh v := p]> (v_privs v))
    (setf v_devs (<[md := setf md_file_list (md_file_list d ++ [v_fresh v]) (setf md_ref (md_ref d + 1) d)]> (v_devs v))
    (setf v_fresh (Pos.succ (v_fresh v)) v)))).
Proof.
  intros [C F] Hd Hf Hm Hp.
  assert (v_privs v !! v_fresh v = None) as Hfr.
  { destruct (v_privs v !! v_fresh v) as [p1|] eqn:E; [|done]. pose proof (fo_fresh v F _ p1 E). lia. }
  set (dn := setf md_file_list _ _).
  assert (v_fresh v <= Pos.succ (v_fresh v))%positive as Hn by lia.
  pose proof (counted_rest _ _ _ (<[v_fresh v := p]> (v_privs v)) (<[f := v_fresh v]> (v_files v)) (v_vmas v)
    (counted_dev _ _ _ md d dn (counted_fresh _ _ v _ C Hn) Hd eq_refl eq_refl)) as C'.
  split.
  - eapply counted_ext; [exact C'|].
    intros q m Hq. simpl. unfold owned. destruct (mm_filp m) as [g|] eqn:E; [|done].
      assert (g <> f) as Hg by by intros ->; apply (Hm q m Hq). by rewrite lookup_insert_ne by done.
  - split; cbn [v_maps v_devs v_privs v_files v_fresh setf updf].
    + intros g x. rewrite lookup_insert_Some, lookup_insert_is_Some'. intros [[<- <-]|[Hg H]]; [by left|].
      right. by apply (fo_priv v F g).
    + intros g h x. rewrite !lookup_insert_Some.
      intros [[<- <-]|[Hg H]] [[<- E]|[Hh H']]; [done| | |by apply (fo_inj v F g h x)].
      * destruct (fo_priv v F h _ H') as [p1 H1]. congruence.
      * subst x. destruct (fo_priv v F g _ H) as [p1 H1]. congruence.
    + intros g x p0. rewrite !lookup_insert_Some. intros [[<- <-]|[Hg H]] [[E <-]|[Hx H1]]; [|done| |].
      * rewrite Hp, lookup_insert_eq. eexists. split; [done|]. simpl. apply elem_of_app. right. apply list_elem_of_here.
      * subst x. destruct (fo_priv v F g _ H) as [p1 H2]. congruence.
      * destruct (fo_list v F g x p0 H H1) as (d1 & H2 & H3).
        destruct (decide (pr_md p0 = md)) as [E|]; [|rewrite lookup_insert_ne by done; by exists d1].
        rewrite E in *. rewrite lookup_insert_eq. simplify_eq. eexists. split; [done|]. simpl. apply elem_of_app. by left.
    + intros x d1. rewrite nrefs_insert by done. unfold is_ref. rewrite Hp, lookup_insert_Some. intros [[<- <-]|[Hx H]].
      * pose proof (fo_count v F md d Hd). simpl. rewrite decide_True by done. lia.
      * pose proof (fo_count v F x d1 H). rewrite decide_False by congruence. lia.
    + intros x p0. rewrite lookup_insert_Some. intros [[<- <-]|[Hx H]]; [lia|].
      pose proof (fo_fresh v F x p0 H). lia.
    + intros q m g x p0 Hq Ho. rewrite !lookup_insert_Some. intros [[<- <-]|[Hg H]]; [by destruct (Hm q m Hq)|].
      intros [[<- <-]|[Hx H1]]; [|by apply (fo_owner v F q m g x)].
      destruct (fo_priv v F g _ H) as [p1 H2]. congruence.
Qed.

Lemma files_ok_close v f pr p d l : files_ok v -> v_files v !! f = Some pr -> v_privs v !! pr = Some p ->
  v_devs v !! pr_md p = Some d -> list_del pr (md_file_list d) = Some l ->
  files_ok (setf v_files (delete f (v_files v)) (setf v_privs (delete pr (v_privs v))
    (setf v_devs (<[pr_md p := setf md_file_list l (setf md_ref (md_ref d - 1) d)]> (v_devs v)) v))).
Proof.
  intros F Hf Hp Hd Hl.
  assert (forall g x, v_files v !! g = Some x -> g <> f -> x <> pr) as Hne.
  { intros g x Hg Hgf ->. by apply Hgf, (fo_inj v F g f pr). }
  split; cbn [v_maps v_devs v_privs v_files v_fresh setf updf].
  - intros g x. rewrite lookup_delete_Some. intros [Hg H]. rewrite lookup_delete_ne by by apply not_eq_sym, (Hne g).
    by apply (fo_priv v F g).
  - intros g h x. rewrite !lookup_delete_Some. intros [_ H1] [_ H2]. by apply (fo_inj v F g h x).
  - intros g x p0. rewrite !lookup_delete_Some. intros [Hg H] [Hx H1]. destruct (fo_list v F g x p0 H H1) as (d1 & H2 & H3).
    destruct (decide (pr_md p = pr_md p0)) as [E|]; [|rewrite lookup_insert_ne by done; by exists d1].
    rewrite E in *. rewrite lookup_insert_eq. simplify_eq. eexists. split; [done|].
    simpl. rewrite (elem_list_del pr x _ l Hl); [done|]. by apply (Hne g).
  - intros x d1. rewrite (nrefs_delete _ x _ pr p) by done. unfold is_ref. rewrite lookup_insert_Some. intros [[<- <-]|[Hx H]].
    + pose proof (fo_count v F _ d Hd). rewrite decide_True by done. simpl. lia.
    + pose proof (fo_count v F x d1 H). rewrite decide_False by congruence. lia.
  - intros x p0. rewrite lookup_delete_Some. intros [_ H]. by apply (fo_fresh v F x p0).
  - intros q m g x p0 Hq Ho. rewrite !lookup_delete_Some. intros [Hg H] [Hx H1]. by apply (fo_owner v F q m g x).
Qed.
End changes.

(** ** The calls *)

Section steps.
Context {W : Type} `{!KernelEnv W} `{!CdevEnv W}.

(** The call ends, and the invariant still holds. *)
Definition stays {A} (m : MC W A) (s : mcstate W) : Prop := total m s (fun _ s' => maps_inv (view s')).

Lemma stays_quiet {A} (v : mview W) V (m : MC W A) s :
  has_view v s -> maps_inv v -> fine False False (has_view v) V m -> stays m s.
Proof. intros Hs Hi Hm. eapply spec_mono; [by apply Hm|]. by intros a s' [_ ->]. Qed.

Lemma fine_find_map {A} (v : mview W) (test : rio_mport_mapping -> option A) l :
  (forall p, p ∈ l -> is_Some (v_maps v !! p)) ->
  fine False False (has_view v) (fun r => match r with
    | Some (p, a) => exists m, v_maps v !! p = Some m /\ test m = Some a | None => True end) (find_map test l).
Proof.
  induction l as [|p l IH]; intros Hl; simpl; [by apply fine_ret|].
  destruct (Hl p) as [m Hm]; [apply list_elem_of_here|].
  eapply fine_bind; [by apply fine_get_map|]. intros _ ->.
  destruct (test m) as [a|] eqn:E; [apply fine_ret; by exists m|]. apply IH. intros q Hq. by apply Hl, list_elem_of_further.
Qed.

Lemma spec_add_mapping (v : mview W) md d m s (Q : ptr -> mcstate W -> Prop) :
  has_view v s -> v_devs v !! md = Some d ->
  (forall s', has_view (with_map v md d m) s' -> Q (v_fresh v) s') ->
  total (add_mapping md m) s Q.
Proof.
  intros Hs Hd HQ. unfold add_mapping. apply spec_bind. eapply spec_fresh; [exact Hs|]. intros s1 Hs1.
  apply spec_bind. eapply (spec_maps _ _ _ (insert (v_fresh v) m)); [exact Hs1|]. intros s2 Hs2.
  apply spec_bind. eapply spec_upd_md; [exact Hs2|exact Hd|]. intros s3 Hs3. by apply HQ.
Qed.

Lemma run_get_vma (v : mview W) (s : mcstate W) a q : has_view v s -> v_vmas v !! a = Some q ->
  (o <- gets (fun s => mc_vmas s !! a) ;; deref o) s = Done q s.
Proof. intros <- H. unfold bind, gets. simpl in H. by rewrite H. Qed.

(** A new area refers to a mapping. *)
Lemma share_stays (v : mview W) q m b s : maps_inv v -> has_view v s -> v_maps v !! q = Some m -> v_vmas v !! b = None ->
  stays (modify (fun s => setf mc_vmas (<[b := q]> (mc_vmas s)) s) ;;; mport_mm_open b) s.
Proof.
  intros [C F] Hs Hm Hb. unfold stays, mport_mm_open, map_get.
  apply spec_bind. eapply (spec_vmas _ _ _ (insert b q)); [exact Hs|]. intros s2 Hs2.
  eapply spec_run; [eapply run_get_vma; [exact Hs2|apply lookup_insert_eq]|].
  eapply spec_upd_map; [exact Hs2|exact Hm|]. intros s3 Hs3. rewrite Hs3.
  pose proof (counted_area_add _ _ v q m b C Hm Hb (fun _ _ _ => eq_refl)) as C'. split.
  - exact (counted_rest _ _ _ (v_privs v) (v_files v) (<[b := q]> (v_vmas v)) C').
  - assert (files_ok (setf v_maps (<[q := setf mm_ref (mm_ref m + 1) m]> (v_maps v)) v)) as F'.
    { apply files_ok_relabel; [exact F|]. intros g x p0. by apply (fo_owner v F q m). }
    by destruct F'.
Qed.

End steps.

(** One more step of a run: one that keeps the view, by the rule; the rest of the run when
    it keeps the view. *)
Ltac quiet :=
  match goal with Hs : has_view _ ?s0 |- _ =>
    eapply spec_quiet; [exact Hs|solve [eauto 3 with fine | apply (fine_any _ _ _ any); solve_fine]|]; clear Hs; clear s0;
    let H := fresh "H" in let s := fresh "s" in let Hs := fresh "Hs" in
    intros ? s H Hs; cbv beta in H; try match type of H with ?x = _ => subst x | any _ => clear H end
  end.
Ltac rest_quiet :=
  match goal with Hs : has_view ?v _ |- _ => eapply (stays_quiet v any); [exact Hs|done|solve_fine] end.

(** An open file gives up a mapping of its own that no area maps: the mapping is gone. *)
Lemma put_unmapped {W} `{!KernelEnv W} `{!CdevEnv W} (v : mview W) q m f s : maps_inv v -> has_view v s ->
  v_maps v !! q = Some m -> mm_filp m = Some f -> is_Some (v_files v !! f) -> nrefs Some q (v_vmas v) = 0 ->
  stays (map_put q) s.
Proof.
  intros [C F] Hs Hm Ho Hf Hn.
  eapply (map_put_spec (fun _ => owned (v_files v)) (fun x m => if decide (x = q) then 0 else owned (v_files v) m) (v_vmas v));
    [done..| |intros x mx Hx _; by rewrite decide_False| |].
  - unfold owned. rewrite Ho, decide_True; [lia|done].
  - rewrite decide_True by done. unfold owned. rewrite Ho, decide_True; [lia|done].
  - intros v' s' <- C' L. split; [|by eapply lessened_files_ok].
    rewrite (ls_files _ _ _ L), (ls_vmas _ _ _ L). eapply counted_ext; [exact C'|]. intros x mx Hx. simpl. case_decide as E; [|done]. subst x.
    pose proof (ct_ref _ _ _ C' _ _ Hx) as H1. pose proof (ct_pos _ _ _ C' _ _ Hx) as H2. cbv beta in H1. rewrite decide_True in H1 by done.
    lia.
Qed.

(** No area maps a mapping of the kind [dir] that the file owns. *)
Definition unmapped {W} (v : mview W) (f : ptr) (dir : rio_mport_map_dir) : Prop :=
  forall q m a, v_maps v !! q = Some m -> mm_dir m = dir -> mm_filp m = Some f -> v_vmas v !! a <> Some q.

Section calls.
Context {W : Type} `{!KernelEnv W} `{!CdevEnv W}.

(** What is given to every call: the file and what it refers to. *)
Context (v : mview W) (f pr : ptr) (p : mport_cdev_priv) (d : mport_dev) (mp : rio_mport W).
Context (Hv : maps_inv v) (Hf : v_files v !! f = Some pr) (Hp : v_privs v !! pr = Some p)
  (Hd : v_devs v !! pr_md p = Some d) (Hmp : v_mports v !! md_mport d = Some mp).

Lemma fine_find_mine {A} (test : rio_mport_mapping -> option A) :
  fine False False (has_view v) (fun r => match r with
    | Some (q, a) => exists m, v_maps v !! q = Some m /\ test m = Some a | None => True end)
    (find_map test (md_mappings d)).
Proof. apply fine_find_map. intros q. by apply (maps_live v (pr_md p) d). Qed.

Lemma fine_get_buffer mem size address length :
  fine False False (has_view v) any (get_buffer mem size address length : MC W _).
Proof. unfold get_buffer. solve_fine. Qed.
Lemma fine_free_buffer m : fine False False (has_view v) any (free_buffer m : MC W unit).
Proof. unfold free_buffer. solve_fine. Qed.

Lemma has_port : is_Some (v_mports v !! md_mport d).
Proof. by exists mp. Qed.
Hint Resolve fine_find_mine fine_get_buffer fine_free_buffer has_port : fine.

Lemma mine_add m : mm_md m = pr_md p -> mm_ref m = 1 -> mm_filp m = Some f -> maps_inv (with_map v (pr_md p) d m).
Proof. intros. by apply (maps_inv_add v _ d m f pr p). Qed.

Lemma create_outbound_stays rioid raddr size paddr s : has_view v s ->
  stays (rio_mport_create_outbound_mapping (pr_md p) f rioid raddr size paddr) s.
Proof.
  intros Hs. unfold stays, rio_mport_create_outbound_mapping.
  quiet. quiet. destruct (negb _); [rest_quiet|].
  quiet. case_match. case_match; [rest_quiet|].
  apply spec_bind. eapply spec_add_mapping; [done..|]. intros s4 Hs4.
  eapply (stays_quiet _ any); [exact Hs4|by apply mine_add|by apply fine_ret].
Qed.

Lemma obw_map_stays arg s : has_view v s -> stays (rio_mport_obw_map f arg) s.
Proof.
  intros Hs. unfold stays, rio_mport_obw_map, with_user.
  quiet. quiet. quiet. case_match; [|rest_quiet].
  quiet.
  apply spec_bind. eapply spec_mono with (P := fun _ s' => maps_inv (view s')).
  - unfold rio_mport_get_outbound_mapping. quiet. quiet.
    case_match; [case_match; case_match; rest_quiet|by apply create_outbound_stays].
  - intros [rc phys] s5 Hs5. eapply (stays_quiet (view s5) any); [done|done|].
    destruct (rc <? 0); [by apply fine_ret|]. unfold to_user. solve_fine.
Qed.

(** Giving up a mapping. *)
Lemma drop_mapping_stays fits s : has_view v s -> stays (drop_mapping fits f (pr_md p)) s.
Proof.
  intros Hs. unfold stays, drop_mapping. quiet. quiet. case_match; [|rest_quiet]. case_match.
  destruct H as (m0 & Hm & Hfit). case_match; simplify_eq.
  apply spec_when; intros Hown; [|by rewrite Hs].
  apply bool_decide_eq_true in Hown. apply spec_bind. eapply spec_upd_map; [done..|]. intros s1 Hs1.
  destruct Hv as [C F].
  eapply (map_put_spec (fun x m => owned (v_files v) m + if decide (x = p1) then 1 else 0)
    (fun _ => owned (v_files v)) (v_vmas v)); [exact Hs1| |apply lookup_insert_eq|..].
  - eapply counted_relabel; [exact C|done..| |].
    + rewrite decide_True by done. unfold owned. simpl. rewrite Hown, decide_True; [lia|by exists pr].
    + intros x mx Hx _. rewrite decide_False by done. lia.
  - rewrite decide_True by done. pose proof (owned_nonneg (v_files v) (setf mm_filp None r)). lia.
  - intros x mx Hx _. rewrite decide_False by done. lia.
  - rewrite decide_True by done. simpl. unfold owned. simpl. lia.
  - intros v' s' <- C' L. split; [by rewrite (ls_files _ _ _ L), (ls_vmas _ _ _ L)|]. eapply lessened_files_ok; [exact L|].
    by apply files_ok_relabel.
Qed.

Lemma fine_drop_tail {A} (m : MC W A) (r : Z) s : stays m s -> stays (m ;;; ret r) s.
Proof. intros H. apply spec_bind. eapply spec_mono; [exact H|]. by intros a s' H'. Qed.

Lemma obw_free_stays arg s : has_view v s -> stays (rio_mport_obw_free f arg) s.
Proof.
  intros Hs. unfold stays, rio_mport_obw_free, with_user. do 4 quiet. case_match; [|rest_quiet].
  quiet. case_match; [|rest_quiet]. by apply fine_drop_tail, drop_mapping_stays.
Qed.
Lemma inbound_free_stays arg s : has_view v s -> stays (rio_mport_inbound_free f arg) s.
Proof.
  intros Hs. unfold stays, rio_mport_inbound_free, with_user. do 4 quiet. case_match; [|rest_quiet].
  quiet. case_match; [|rest_quiet]. by apply fine_drop_tail, drop_mapping_stays.
Qed.

(** What the functions that create mappings leave. *)
Definition made (r : Z + ptr) (s' : mcstate W) : Prop :=
  match r with
  | inl _ => has_view v s'
  | inr q => q = v_fresh v /\ exists m, has_view (with_map v (pr_md p) d m) s' /\
      mm_md m = pr_md p /\ mm_ref m = 1 /\ mm_filp m = Some f
  end.

Lemma made_quiet V (m : MC W (Z + ptr)) s : has_view v s ->
  fine False False (has_view v) V m -> (forall r, V r -> exists e, r = inl e) -> total m s made.
Proof. intros Hs Hm Hr. eapply spec_mono; [by apply Hm|]. by intros r s' [[e ->]%Hr Hs']. Qed.
Lemma made_add m s : has_view v s -> mm_md m = pr_md p -> mm_ref m = 1 -> mm_filp m = Some f ->
  total (q <- add_mapping (pr_md p) m ;; ret (inr q)) s made.
Proof.
  intros Hs ???. apply spec_bind. eapply spec_add_mapping; [done..|]. intros s1 Hs1. split; [done|]. by exists m.
Qed.
Ltac refused := match goal with Hs : has_view _ _ |- _ =>
  eapply (made_quiet (fun r => exists e, r = inl e)); [exact Hs|solve_fine; by eexists|done] end.

Lemma create_dma_made mem size dm s : has_view v s -> total (rio_mport_create_dma_mapping mem size (pr_md p) f dm) s made.
Proof.
  intros Hs. unfold rio_mport_create_dma_mapping. quiet. destruct (negb _); [refused|]. quiet.
  case_match; [refused|]. repeat case_match. by apply made_add.
Qed.
Lemma create_inbound_made mem size ib s : has_view v s ->
  total (rio_mport_create_inbound_mapping mem size (pr_md p) f ib) s made.
Proof.
  intros Hs. unfold rio_mport_create_inbound_mapping. quiet. case_match; [refused|]. quiet.
  destruct (negb _); [refused|]. quiet.
  case_match; [refused|]. repeat case_match; quiet; (case_match; [refused|by apply made_add]).
Qed.

Lemma made_stays {A} (m : MC W (Z + ptr)) (k : Z + ptr -> MC W A) s :
  total m s made -> (forall r s', made r s' -> stays (k r) s') -> stays (r <- m ;; k r) s.
Proof. intros Hm Hk. apply spec_bind. eapply spec_mono; [exact Hm|]. by intros r s' H; apply Hk. Qed.

Lemma fine_check_dma dm : fine False False (has_view v) any (rio_mport_check_dma_mapping (pr_md p) dm : MC W Z).
Proof.
  unfold rio_mport_check_dma_mapping. eapply fine_bind; [by apply fine_get_md|]. intros _ ->.
  eapply fine_bind; [apply fine_find_mine|]. intros r _. by apply fine_ret.
Qed.
Hint Resolve fine_check_dma : fine.

(** The buffer is given back when its address cannot be told. *)
Lemma alloc_dma_stays mem size arg s : has_view v s -> stays (rio_mport_alloc_dma mem size f arg) s.
Proof.
  intros Hs. unfold stays, rio_mport_alloc_dma, with_user. do 3 quiet.
  case_match; [|rest_quiet]. quiet. case_match; [rest_quiet|].
  apply made_stays; [by apply create_dma_made|]. intros [e|q] s' Hm; [by eapply (stays_quiet v any); [done..|apply fine_ret]|].
  destruct Hm as (-> & m & Hs' & Hmd & Hr & Ho). unfold stays. clear dependent s.
  assert (v_maps (with_map v (pr_md p) d m) !! v_fresh v = Some m) as Hq by apply lookup_insert_eq.
  pose proof (mine_add m Hmd Hr Ho) as Hi. quiet. quiet. destruct (negb _); [|rest_quiet].
  apply fine_drop_tail. eapply put_unmapped; [exact Hi|done|done|done|by exists pr|].
  exact (fresh_areas _ _ v (proj1 Hv)).
Qed.

(** Freeing a buffer that no area maps. *)
Lemma free_dma_stays arg s : has_view v s -> unmapped v f MAP_DMA -> stays (rio_mport_free_dma f arg) s.
Proof.
  intros Hs Hu. unfold stays, rio_mport_free_dma, with_user. do 4 quiet. case_match; [|rest_quiet].
  quiet. destruct a0 as [[q []]|]; [|rest_quiet]. destruct H0 as (m & Hm & Ht).
  destruct (_ && _) eqn:E in Ht; [|done]. apply andb_prop in E as [[H1 _]%andb_prop H2]. apply bool_decide_eq_true in H1, H2.
  apply fine_drop_tail. eapply put_unmapped; [exact Hv|done|done|exact H2|by exists pr|].
  apply nrefs_fresh. intros k x Hk [= ->]. exact (Hu _ m k Hm H1 H2 Hk).
Qed.

(** Asking for an inbound window: the result can be told, or no area maps a window of the file. *)
Definition inbound_found (writable : Prop) (r : Z + ptr) (s' : mcstate W) : Prop :=
  maps_inv (view s') /\ v_files (view s') !! f = Some pr /\ match r with
  | inl _ => True
  | inr q => exists m, v_maps (view s') !! q = Some m /\
      (writable \/ (mm_filp m = Some f -> nrefs Some q (v_vmas (view s')) = 0))
  end.

Lemma get_inbound_found writable mem size ib s : has_view v s -> writable \/ unmapped v f MAP_INBOUND ->
  total (rio_mport_get_inbound_mapping mem size (pr_md p) f ib) s (inbound_found writable).
Proof.
  intros Hs Hu.
  assert (forall s, has_view v s -> total (rio_mport_create_inbound_mapping mem size (pr_md p) f ib) s (inbound_found writable)) as Hc.
  { intros s1 Hs1. eapply spec_mono; [by apply create_inbound_made|]. intros [e|q] s2 Hm; [by unfold inbound_found; rewrite Hm|].
    destruct Hm as (-> & m & E & Hmd & Hr & Ho). unfold inbound_found. rewrite E. split; [by apply mine_add|].
    split; [done|]. exists m. rewrite E. split; [apply lookup_insert_eq|]. right. intros _. exact (fresh_areas _ _ v (proj1 Hv)). }
  unfold rio_mport_get_inbound_mapping. case_match; [by apply Hc|]. quiet. quiet.
  destruct a as [[q b]|]; [|by apply Hc]. destruct H0 as (m & Hm & Ht). unfold inbound_found.
  assert (mm_dir m = MAP_INBOUND) as Hdir.
  { destruct (bool_decide (mm_dir m = MAP_INBOUND)) eqn:E; [by apply bool_decide_eq_true in E|]. unfold inbound_match in Ht. by rewrite E in Ht. }
  destruct b; (split; [by rewrite Hs|]); (split; [by rewrite Hs|]); [|done].
  exists m. rewrite Hs. split; [done|]. destruct Hu as [Hw|Hu]; [by left|]. right. intros Ho.
  apply nrefs_fresh. intros k a Ha [= ->]. exact (Hu _ m k Hm Hdir Ho Ha).
Qed.

Lemma map_inbound_stays mem size arg s : has_view v s ->
  (forall b w, (user_write arg b w).1 = 0) \/ unmapped v f MAP_INBOUND -> stays (rio_mport_map_inbound mem size f arg) s.
Proof.
  intros Hs Hw. unfold stays, rio_mport_map_inbound, with_user. do 4 quiet. case_match; [|rest_quiet].
  quiet. case_match; [|rest_quiet]. apply spec_bind.
  eapply spec_mono; [by eapply get_inbound_found|].
  intros [e|q] s' (Hi & Hf' & Hq); [done|]. destruct Hq as (m & Hq & Hor). remember (view s') as v' eqn:E.
  assert (has_view v' s') as Hs' by done. clear dependent s.
  eapply spec_quiet; [exact Hs'|by apply fine_get_map|]. intros _ s1 -> Hs1.
  eapply (spec_quiet _ _ _ (fun ok => ok = true \/ (mm_filp m = Some f -> nrefs Some q (v_vmas v') = 0))); [exact Hs1| |].
  - intros s2 Hs2. destruct Hor as [Hor|Hor].
    + unfold copy_to_user, env, core, lift, lift_k, hw_call, spec, bind.
      pose proof (Hor (put_rio_mmap (setf um_handle (mm_dma_addr m) (setf um_rio_addr (mm_rio_addr m) (get_rio_mmap l))) l)
        (ks_hw (ms_k (msg_of s2)))) as Hn. destruct (user_write _ _ _). simpl in Hn. subst. simpl. split; [by left|by rewrite <- Hs2].
    + eapply spec_mono; [by apply fine_to_user|]. intros b s3 [_ Hs3]. split; [by right|done].
  - intros ok s2 Hok Hs2. destruct ok; cbn [negb]; [change (maps_inv (view s2)); by rewrite Hs2|]. destruct Hok as [|Hok]; [done|].
    apply fine_drop_tail. apply spec_when; intros Hown; [|by rewrite Hs2].
    apply bool_decide_eq_true in Hown. eapply put_unmapped; [exact Hi|done|done|done|by exists pr|by apply Hok].
Qed.

(** Mapping a memory area. *)
Lemma fine_area_map vma size m offset : fine False False (has_view v) any
  (match mm_dir m with
   | MAP_INBOUND | MAP_DMA =>
       match mm_virt_addr m with
       | Some a => env (dma_mmap_coherent vma (Z.shiftr offset PAGE_SHIFT) a (mm_dma_addr m) (mm_size m))
       | None => env (remap_pfn_range vma (Z.shiftr (u64 (mm_phys_addr m + offset)) PAGE_SHIFT) size)
       end
   | MAP_OUTBOUND => env (vm_iomap_memory vma (mm_phys_addr m) (mm_size m))
   end : MC W Z).
Proof. solve_fine. Qed.

Lemma mmap_stays vma a b off s : has_view v s -> v_vmas v !! vma = None -> stays (mport_cdev_mmap f vma a b off) s.
Proof.
  intros Hs Hvma. unfold stays, mport_cdev_mmap. do 4 quiet. case_match; [|rest_quiet]. case_match.
  destruct H as (m & Hm & Ht). unfold holds_addr in Ht. case_match; simplify_eq. case_match; [rest_quiet|].
  eapply spec_quiet; [exact Hs|apply fine_area_map|]. intros rc s1 _ Hs1. apply fine_drop_tail.
  apply spec_when; intros _; [|by rewrite Hs1].
  by eapply share_stays.
Qed.
End calls.

Section areas.
Context {W : Type} `{!KernelEnv W} `{!CdevEnv W} (v : mview W) (Hv : maps_inv v).

(** A process is forked, or part of an area is split off: the kernel copies the area. *)
Definition area_copy (a b : ptr) : MC W unit :=
  map <- (o <- gets (fun s => mc_vmas s !! a) ;; deref o) ;;
  modify (fun s => setf mc_vmas (<[b := map]> (mc_vmas s)) s) ;;;
  mport_mm_open b.
(** An area is unmapped; the kernel frees it afterwards. *)
Definition area_close (a : ptr) : MC W unit :=
  mport_mm_close a ;;; modify (fun s => setf mc_vmas (delete a (mc_vmas s)) s).

Lemma area_close_stays a q s : has_view v s -> v_vmas v !! a = Some q -> stays (area_close a) s.
Proof.
  intros Hs Ha. unfold stays, area_close, mport_mm_close. apply spec_bind.
  eapply spec_run; [by eapply run_get_vma|]. destruct Hv as [C F]. destruct (ct_area _ _ v C a q Ha) as [m Hm].
  set (own' := fun x (m : rio_mport_mapping) => owned (v_files v) m + if decide (x = q) then 1 else 0).
  assert (counted own' (delete a (v_vmas v)) v) as C1.
  { eapply counted_area_del; [exact C|exact Ha|intros m0; unfold own'; by rewrite decide_True|].
    intros x mx Hx. unfold own'. rewrite decide_False by done. lia. }
  eapply (map_put_spec own' (fun _ => owned (v_files v)) (delete a (v_vmas v))); [exact Hs|exact C1|exact Hm|..].
  - unfold own'. rewrite decide_True by done. pose proof (owned_nonneg (v_files v) m). lia.
  - intros x mx Hx _. unfold own'. rewrite decide_False by done. lia.
  - unfold own'. rewrite decide_True by done. unfold owned. simpl. lia.
  - intros v' s' Hs' C' L. eapply (spec_vmas _ _ _ (delete a)); [exact Hs'|]. intros s2 Hs2. rewrite Hs2. split.
    + rewrite <- (ls_vmas _ _ _ L), <- (ls_files _ _ _ L) in C'.
      exact (counted_rest _ _ _ (v_privs v') (v_files v') (delete a (v_vmas v')) C').
    + pose proof (lessened_files_ok q v v' L F) as F'. by destruct F'.
Qed.

Lemma area_copy_stays a b q s : has_view v s -> v_vmas v !! a = Some q -> v_vmas v !! b = None -> stays (area_copy a b) s.
Proof.
  intros Hs Ha Hb. unfold stays, area_copy. eapply spec_run; [by eapply run_get_vma|].
  destruct Hv as [C F]. destruct (ct_area _ _ v C a q Ha) as [m Hm].
  by eapply share_stays.
Qed.
End areas.

Section files.
Context {W : Type} `{!KernelEnv W} `{!CdevEnv W} `{!CdevKernel W} `{!DmaEngine (mcstate W)} `{!CdevWait W}.

(** A reference to a device that is not the last. *)
Lemma spec_md_put (v : mview W) x d s (Q : unit -> mcstate W -> Prop) :
  has_view v s -> v_devs v !! x = Some d -> 1 < md_ref d ->
  (forall s', has_view (setf v_devs (<[x := setf md_ref (md_ref d - 1) d]> (v_devs v)) v) s' -> Q tt s') ->
  total (md_put x) s Q.
Proof.
  intros Hs Hd Hr HQ. unfold md_put. quiet. apply spec_bind. eapply spec_upd_md; [done..|]. intros s1 Hs1.
  apply spec_when; [|by intros _; apply HQ]. intros E%Z.eqb_eq. lia.
Qed.

Lemma open_stays (v : mview W) f minor md d s :
  maps_inv v -> has_view v s -> v_devs v !! md = Some d -> v_files v !! f = None ->
  (forall q m, v_maps v !! q = Some m -> mm_filp m <> Some f) ->
  stays (mport_cdev_open f minor md) s.
Proof.
  intros Hv Hs Hd Hf Hm. unfold stays, mport_cdev_open. case_match; [rest_quiet|]. quiet.
  case_match; [rest_quiet|]. unfold md_get. apply spec_bind. eapply spec_upd_md; [done..|]. clear s Hs. intros s Hs.
  pose proof (fo_count v (proj2 Hv) md d Hd) as Hc. pose proof (nrefs_nonneg (fun p => Some (pr_md p)) md (v_privs v)) as Hn.
  quiet. case_match.
  { apply fine_drop_tail. eapply spec_md_put; [exact Hs|apply lookup_insert_eq|simpl; lia|].
    intros s1 Hs1. rewrite Hs1. clear dependent s s1. cbn [v_devs setf updf]. rewrite insert_insert_eq.
    eapply (maps_inv_dev v md d); try done. simpl. lia. }
  apply spec_bind. eapply spec_fresh; [exact Hs|]. clear s Hs. intros s Hs. simpl in Hs.
  apply spec_bind. eapply (spec_privs _ _ _ (insert (v_fresh v) _)); [exact Hs|]. clear s Hs. intros s Hs.
  apply spec_bind. eapply spec_upd_md; [exact Hs|apply lookup_insert_eq|]. clear s Hs. intros s Hs. simpl in Hs.
  rewrite insert_insert_eq in Hs. quiet. case_match.
  - apply spec_bind. eapply (spec_privs _ _ _ (delete (v_fresh v))); [exact Hs|]. intros s1 Hs1. simpl in Hs1.
    rewrite delete_insert_id in Hs1.
    2: { destruct (v_privs v !! v_fresh v) eqn:E; [|done]. pose proof (fo_fresh v (proj2 Hv) _ _ E). lia. }
    assert (v_fresh v <= Pos.succ (v_fresh v))%positive as Hle by lia.
    set (dn := setf md_file_list (md_file_list d ++ [v_fresh v]) (setf md_ref (md_ref d + 1) d)).
    set (vf := setf v_fresh (Pos.succ (v_fresh v)) v).
    assert (maps_inv (setf v_devs (<[md := dn]> (v_devs vf)) vf)) as Hi.
    { apply (maps_inv_dev vf md d dn); try done; [by apply maps_inv_fresh| |simpl; lia].
      intros q Hq. simpl. apply elem_of_app. by left. }
    eapply (stays_quiet _ any); [exact Hs1|exact Hi|solve_fine].
  - apply spec_bind. eapply spec_upd_priv; [exact Hs|apply lookup_insert_eq|]. clear s Hs. intros s Hs. simpl in Hs.
    rewrite insert_insert_eq in Hs.
    apply spec_bind. eapply (spec_files _ _ _ (insert f (v_fresh v))); [exact Hs|]. clear s Hs. intros s Hs.
    eapply (stays_quiet _ any); [exact Hs| |by apply fine_ret].
    by apply (maps_inv_open v f md d).
Qed.

(** Closing puts the mappings of the file, one after the other.  The references that are
    still to be put: *)
Definition to_put (f : ptr) (files : gmap ptr ptr) (l : list ptr) (q : ptr) (m : rio_mport_mapping) : Z :=
  if decide (mm_filp m = Some f) then (if decide (q ∈ l) then 1 else 0) else owned files m.

Lemma to_put_skip f files i l q m : (q = i -> mm_filp m <> Some f) -> to_put f files l q m = to_put f files (i :: l) q m.
Proof.
  intros H. unfold to_put. case_decide as Hf; [|done]. repeat case_decide; try done.
  - exfalso. by apply H1, list_elem_of_further.
  - apply elem_of_cons in H1 as [->|]; [by destruct (H eq_refl)|done].
Qed.
Lemma to_put_start (v : mview W) f pr p d q m : maps_inv v -> v_files v !! f = Some pr -> v_privs v !! pr = Some p ->
  v_devs v !! pr_md p = Some d -> v_maps v !! q = Some m ->
  to_put f (v_files v) (md_mappings d) q m = owned (v_files v) m.
Proof.
  intros [C F] Hf Hp Hd Hm. unfold to_put. case_decide as Ho; [|done].
  pose proof (fo_owner v F q m f pr p Hm Ho Hf Hp) as E. destruct (ct_md _ _ v C q m Hm) as (d1 & H1 & H2).
  rewrite E in H1. simplify_eq. unfold owned. rewrite Ho, !decide_True; [done|by exists pr|done].
Qed.
Lemma to_put_end f files q m : to_put f files [] q m = owned (delete f files) m.
Proof.
  unfold to_put, owned. case_decide as Ho.
  - rewrite Ho, lookup_delete_eq, !decide_False; [done|by intros []|by intros ?%elem_of_nil].
  - destruct (mm_filp m) as [g|]; [|done]. by rewrite lookup_delete_ne by congruence.
Qed.

Definition putting (v : mview W) (f : ptr) (l : list ptr) (s : mcstate W) : Prop := exists v', has_view v' s /\
  counted (to_put f (v_files v) l) (v_vmas v) v' /\ files_ok v' /\
  v_files v' = v_files v /\ v_privs v' = v_privs v /\ v_vmas v' = v_vmas v /\
  NoDup l /\ (forall q, q ∈ l -> is_Some (v_maps v' !! q)).

Lemma put_one (v : mview W) f i l s : putting v f (i :: l) s ->
  total (m <- get_map i ;; when (bool_decide (mm_filp m = Some f)) (map_put i)) s (fun _ s' => putting v f l s').
Proof.
  intros (v' & Hs & C & F & E1 & E2 & E3 & [Hi Hn]%NoDup_cons & Hl).
  destruct (Hl i) as [m Hm]; [apply list_elem_of_here|]. quiet.
  apply spec_when; intros Ho; [apply bool_decide_eq_true in Ho|apply bool_decide_eq_false in Ho].
  - eapply (map_put_spec _ (to_put f (v_files v) l)); [exact Hs|exact C|exact Hm|..].
    + unfold to_put. rewrite !decide_True; [lia|apply list_elem_of_here|done].
    + intros q mq Hq _. by apply to_put_skip.
    + unfold to_put. simpl. rewrite decide_True, decide_False, !decide_True; [lia|apply list_elem_of_here|done..].
    + intros v2 s2 Hs2 C2 L. exists v2.
      rewrite (ls_files _ _ _ L), (ls_privs _ _ _ L), (ls_vmas _ _ _ L).
      split_and!; try done; [by eapply lessened_files_ok|]. intros q Hq.
      rewrite (ls_other _ _ _ L) by (by intros ->). by apply Hl, list_elem_of_further.
  - exists v'. split_and!; try done.
    + eapply counted_ext; [exact C|]. intros q mq Hq. apply to_put_skip. intros ->. by simplify_eq.
    + intros q Hq. by apply Hl, list_elem_of_further.
Qed.

Lemma close_put (v : mview W) f pr p d s (Q : unit -> mcstate W -> Prop) :
  maps_inv v -> has_view v s -> v_files v !! f = Some pr -> v_privs v !! pr = Some p -> v_devs v !! pr_md p = Some d ->
  (forall s', putting v f [] s' -> Q tt s') ->
  total (put_mappings (pr_md p) (fun m => bool_decide (mm_filp m = Some f))) s Q.
Proof.
  intros Hv Hs Hf Hp Hd HQ. unfold put_mappings. quiet.
  apply (spec_for _ _ (putting v f)); [|intros i l s'; apply put_one|exact HQ].
  exists v. split_and!; try done; [|apply Hv|by apply (ct_nodup _ _ v (proj1 Hv) (pr_md p))|].
  - eapply counted_ext; [apply Hv|]. intros q m Hm. by apply (to_put_start v f pr p d).
  - intros q. by apply (maps_live v (pr_md p) d).
Qed.

(** The rest of closing, once the file has no mapping. *)
Definition close_tail (f pr md : ptr) : MC W Z :=
  mport_cdev_fasync f false ;;;
  modify (fun s => setf mc_files (delete f (mc_files s)) s) ;;;
  d <- get_md md ;;
  l <- unlink pr (md_file_list d) ;;
  upd_md md (setf md_file_list l) ;;;
  md_put md ;;;
  modify (fun s => setf mc_privs (delete pr (mc_privs s)) s) ;;;
  core kfree ;;;
  ret 0.

Lemma spec_fasync (v : mview W) f pr p on s (Q : Z -> mcstate W -> Prop) :
  has_view v s -> v_files v !! f = Some pr -> v_privs v !! pr = Some p ->
  (forall rc p' s', has_view (setf v_privs (<[pr := p']> (v_privs v)) v) s' -> pr_md p' = pr_md p -> Q rc s') ->
  total (mport_cdev_fasync f on) s Q.
Proof.
  intros Hs Hf Hp HQ. unfold mport_cdev_fasync. quiet. quiet. apply spec_bind. apply spec_when; intros _.
  - eapply spec_upd_priv; [exact Hs|exact Hp|]. intros s1 Hs1. by eapply HQ.
  - apply (HQ _ p); [|done]. rewrite insert_id by done. by rewrite <- Hs.
Qed.

Lemma close_tail_stays (v : mview W) f pr p d s :
  putting v f [] s -> v_files v !! f = Some pr -> v_privs v !! pr = Some p -> v_devs v !! pr_md p = Some d ->
  stays (close_tail f pr (pr_md p)) s.
Proof.
  intros (v' & Hs & C & F & E1 & E2 & E3 & _ & _) Hf Hp Hd. rewrite <- E1 in C, Hf. rewrite <- E2 in Hp. rewrite <- E3 in C.
  unfold stays, close_tail. apply spec_bind. eapply spec_fasync; [exact Hs|done..|]. clear s Hs. intros _ p' s Hs Hmd.
  pose proof (files_ok_priv v' pr p p' F Hp Hmd) as F1.
  pose proof (counted_rest _ _ v' (<[pr := p']> (v_privs v')) (v_files v') (v_vmas v') C) as C1.
  set (v1 := setf v_privs (<[pr := p']> (v_privs v')) v') in *.
  change (counted (to_put f (v_files v1) []) (v_vmas v1) v1) in C1.
  assert (v_files v1 !! f = Some pr) as Hf1 by exact Hf.
  assert (v_privs v1 !! pr = Some p') as Hp1 by apply lookup_insert_eq.
  destruct (fo_list v1 F1 f pr p' Hf1 Hp1) as (d1 & Hd1 & Hin). rewrite <- Hmd.
  clearbody v1. clear dependent v v' p d.
  apply spec_bind. eapply (spec_files _ _ _ (delete f)); [exact Hs|]. clear s Hs. intros s Hs. quiet.
  destruct (list_del_some pr (md_file_list d1) Hin) as [l Hl]. unfold unlink. rewrite Hl. eapply spec_run; [done|].
  apply spec_bind. eapply spec_upd_md; [exact Hs|exact Hd1|]. clear s Hs. intros s Hs.
  pose proof (fo_count v1 F1 (pr_md p') d1 Hd1) as Hc.
  pose proof (nrefs_pos (fun p => Some (pr_md p)) (pr_md p') (v_privs v1) pr p' Hp1 eq_refl) as Hpos.
  apply spec_bind. eapply spec_md_put; [exact Hs|apply lookup_insert_eq|simpl; lia|]. clear s Hs. intros s Hs.
  apply spec_bind. eapply (spec_privs _ _ _ (delete pr)); [exact Hs|]. clear s Hs. intros s Hs.
  set (dn := setf md_file_list l (setf md_ref (md_ref d1 - 1) d1)).
  pose proof (counted_rest _ _ _ (delete pr (v_privs v1)) (delete f (v_files v1)) (v_vmas v1)
    (counted_dev _ _ v1 (pr_md p') d1 dn C1 Hd1 eq_refl eq_refl)) as C2.
  pose proof (files_ok_close v1 f pr p' d1 l F1 Hf1 Hp1 Hd1 Hl) as F2. fold dn in F2.
  set (vn := setf v_files (delete f (v_files v1)) _) in F2.
  assert (has_view vn s) as Hsn.
  { unfold has_view. rewrite Hs. unfold vn. cbn [v_devs setf updf]. by rewrite insert_insert_eq. }
  eapply (stays_quiet vn any); [exact Hsn| |solve_fine]. split; [|exact F2].
  eapply counted_ext; [exact C2|]. intros q m _. simpl. by rewrite to_put_end.
Qed.

Lemma fine_release_dma (v : mview W) timeout f pr p : v_files v !! f = Some pr -> v_privs v !! pr = Some p ->
  pr_dmach p = None -> fine False False (has_view v) any (mport_cdev_release_dma timeout f).
Proof.
  intros Hf Hp Hn. unfold mport_cdev_release_dma. eapply fine_bind; [by apply fine_file_priv|]. intros _ ->.
  eapply fine_bind; [by apply fine_get_priv|]. intros _ ->. rewrite Hn. by apply fine_ret.
Qed.
Lemma maps_inv_priv (v : mview W) pr p p' : maps_inv v -> v_privs v !! pr = Some p -> pr_md p' = pr_md p ->
  maps_inv (setf v_privs (<[pr := p']> (v_privs v)) v).
Proof.
  intros [C F] Hp Hm. split; [|by eapply files_ok_priv].
  exact (counted_rest _ _ v (<[pr := p']> (v_privs v)) (v_files v) (v_vmas v) C).
Qed.

Lemma spec_own_priv (v : mview W) f pr p g s (Q : unit -> mcstate W -> Prop) :
  maps_inv v -> has_view v s -> v_files v !! f = Some pr -> v_privs v !! pr = Some p -> pr_md (g p) = pr_md p ->
  (forall v' s', maps_inv v' -> has_view v' s' -> v_files v' !! f = Some pr -> v_privs v' !! pr = Some (g p) -> Q tt s') ->
  total (upd_priv pr g) s Q.
Proof.
  intros Hv Hs Hf Hp Hm HQ. eapply spec_upd_priv; [exact Hs|exact Hp|]. intros s1 Hs1.
  eapply HQ; [|exact Hs1|exact Hf|apply lookup_insert_eq]. by eapply maps_inv_priv.
Qed.

(** A file that has given back its channel and its filters. *)
Lemma close_stays (v : mview W) timeout f pr p s :
  maps_inv v -> has_view v s -> v_files v !! f = Some pr -> v_privs v !! pr = Some p ->
  pr_dmach p = None -> pr_pw_filters p = [] -> pr_db_filters p = [] ->
  stays (mport_cdev_release timeout f) s.
Proof.
  intros Hv Hs Hf Hp Hn Hw Hd. unfold stays, mport_cdev_release. quiet. quiet.
  eapply spec_quiet; [exact Hs|by eapply fine_release_dma|]. clear s Hs. intros _ s _ Hs.
  apply spec_bind. eapply spec_own_priv; [exact Hv|exact Hs|done|exact Hp|done|]. clear s Hs. intros v1 s Hv1 Hs Hf1 Hp1.
  eapply spec_quiet; [exact Hs|by apply fine_get_priv|]. clear s Hs. intros _ s -> Hs.
  simpl pr_pw_filters. simpl pr_db_filters. rewrite Hw, Hd. do 2 (eapply spec_run; [done|]).
  apply spec_bind. eapply spec_own_priv; [exact Hv1|exact Hs|done|exact Hp1|done|]. clear s Hs. intros v2 s Hv2 Hs Hf2 Hp2.
  simpl in Hp2. destruct (file_of v2 f pr Hv2 Hf2) as (p2 & d & mp & Hp3 & Hd2 & Hmp).
  assert (pr_md p = pr_md p2) as E by by simplify_eq. rewrite E. clear dependent v v1 p. quiet.
  apply spec_bind. eapply close_put; [done..|]. intros s' Hs'. by eapply close_tail_stays.
Qed.
End files.
