(* ===== verification/MportLife.v ===== *)
(** * The char device of a master port: the life of mappings

    In every state that applications can reach from a fresh device, each mapping has exactly
    the references that open files and memory areas have, and no area refers to a
    mapping that is gone.  Three uses of the driver break this, and are left out: freeing a
    DMA buffer that an area maps, asking again for a mapped inbound window with an argument
    that cannot be written, and opening a file at the address of one that has been closed
    and has left a mapping behind.  The end of the file shows that they do. *)

From S2P Require Import Prelude Regs State Access Route Mbox Driver Mport Msg RioCmBench Tsi721Bench RioDma MportCdev MportDma MportOps MportBench MportInv MportCalls.

(** ** Calls *)

Inductive mport_call :=
| CALL_OPEN (filp : ptr) (minor : Z) (md : ptr)
| CALL_CLOSE (filp : ptr)
| CALL_IOCTL (filp : ptr) (cmd : mport_request) (arg : Z)
| CALL_MMAP (filp vma : ptr) (vm_start vm_end vm_pgoff : Z)
| CALL_COPY_AREA (vma new : ptr)
| CALL_UNMAP (vma : ptr).

(** The requests in question: all on windows and buffers, and those that only read or set
    an event mask or a port number. *)
Definition map_request (cmd : mport_request) : bool :=
  match cmd with
  | RIO_MAP_OUTBOUND | RIO_UNMAP_OUTBOUND | RIO_MAP_INBOUND | RIO_UNMAP_INBOUND | RIO_ALLOC_DMA | RIO_FREE_DMA
  | RIO_SET_EVENT_MASK | RIO_GET_EVENT_MASK | RIO_MPORT_MAINT_PORT_IDX_GET | RIO_OTHER_REQUEST => true
  | _ => false
  end.

Section life.
Context {W : Type} `{!KernelEnv W} `{!Externals W} `{!SwitchTables W} `{!CdevEnv W} `{!CdevKernel W}
  `{!DmaEngine (mcstate W)} `{!CdevWait W}.
Variables (db_handler pw_handler : ptr) (dma_timeout res_mem res_size : Z) (fuel : nat).

Definition mport_do (c : mport_call) : MC W Z :=
  match c with
  | CALL_OPEN f minor md => mport_cdev_open f minor md
  | CALL_CLOSE f => mport_cdev_release dma_timeout f
  | CALL_IOCTL f cmd arg => mport_cdev_ioctl db_handler pw_handler dma_timeout res_mem res_size fuel f cmd arg
  | CALL_MMAP f vma a b off => mport_cdev_mmap f vma a b off
  | CALL_COPY_AREA a b => area_copy a b ;;; ret 0
  | CALL_UNMAP a => area_close a ;;; ret 0
  end.

(** What the kernel guarantees: files and areas are used while they exist, and new ones have
    addresses that are not in use. *)
Definition call_valid (c : mport_call) (s : mcstate W) : Prop :=
  match c with
  | CALL_OPEN f _ md => is_Some (mc_devs s !! md) /\ mc_files s !! f = None
  | CALL_CLOSE f => exists pr, mc_files s !! f = Some pr /\ is_Some (mc_privs s !! pr)
  | CALL_IOCTL f cmd _ => is_Some (mc_files s !! f) /\ map_request cmd = true
  | CALL_MMAP f vma _ _ _ => is_Some (mc_files s !! f) /\ mc_vmas s !! vma = None
  | CALL_COPY_AREA a b => is_Some (mc_vmas s !! a) /\ mc_vmas s !! b = None
  | CALL_UNMAP a => is_Some (mc_vmas s !! a)
  end.

(** What is left out.  The driver takes a new file for the owner of the mappings of a closed
    one that had its address; it lets go of the file's reference to a DMA buffer, and to an
    inbound window whose description it cannot write, and keeps the file as its owner, which
    matters when an area maps it; and a file that is closed has no filters and no DMA channel
    left. *)
Definition ioctl_careful (v : mview W) (f : ptr) (cmd : mport_request) (arg : Z) : Prop :=
  match cmd with
  | RIO_FREE_DMA => unmapped v f MAP_DMA
  | RIO_MAP_INBOUND => (forall b w, (user_write arg b w).1 = 0) \/ unmapped v f MAP_INBOUND
  | _ => True
  end.
Definition call_careful (c : mport_call) (s : mcstate W) : Prop :=
  match c with
  | CALL_OPEN f _ _ => forall q m, mc_maps s !! q = Some m -> mm_filp m <> Some f
  | CALL_CLOSE f => forall pr p, mc_files s !! f = Some pr -> mc_privs s !! pr = Some p ->
      pr_dmach p = None /\ pr_pw_filters p = [] /\ pr_db_filters p = []
  | CALL_IOCTL f cmd arg => ioctl_careful (view s) f cmd arg
  | _ => True
  end.
Definition call_ok (c : mport_call) (s : mcstate W) : Prop := call_valid c s /\ call_careful c s.

Inductive mport_reach (s0 : mcstate W) : mcstate W -> Prop :=
| reach_start : mport_reach s0 s0
| reach_call s c r s' : mport_reach s0 s -> call_ok c s -> mport_do c s = Done r s' -> mport_reach s0 s'.

(** Char devices of which nothing is open. *)
Definition mport_start (s : mcstate W) : Prop :=
  mc_maps s = ∅ /\ mc_privs s = ∅ /\ mc_files s = ∅ /\ mc_vmas s = ∅ /\
  forall x d, mc_devs s !! x = Some d ->
    md_mappings d = [] /\ 1 <= md_ref d /\ is_Some (ks_mports (ms_k (mc_m s)) !! md_mport d).

Lemma start_inv s : mport_start s -> maps_inv (view s).
Proof.
  intros (Em & Ep & Ef & Ev & Hd). split; split; cbn [view v_maps v_devs v_privs v_files v_vmas v_mports v_fresh];
    rewrite ?Em, ?Ep, ?Ef, ?Ev; try (intros * ?%lookup_empty_Some; done).
  - intros x d q H. destruct (Hd x d H) as (-> & _). by intros ?%elem_of_nil.
  - intros x d H. destruct (Hd x d H) as (-> & _). apply NoDup_nil_2.
  - intros x d H. by apply (Hd x d H).
  - intros x d H. destruct (Hd x d H) as (_ & H1 & _). rewrite nrefs_fresh; [lia|by intros * ?%lookup_empty_Some].
Qed.

(** Every call in turn. *)
Lemma ioctl_stays (v : mview W) f pr cmd arg s :
  maps_inv v -> has_view v s -> v_files v !! f = Some pr -> map_request cmd = true ->
  ioctl_careful v f cmd arg ->
  stays (mport_cdev_ioctl db_handler pw_handler dma_timeout res_mem res_size fuel f cmd arg) s.
Proof.
  intros Hv Hs Hf Hc Hw. destruct (file_of v f pr Hv Hf) as (p & d & mp & Hp & Hd & Hmp).
  unfold stays, mport_cdev_ioctl. quiet. quiet. quiet. case_match; [rest_quiet|].
  destruct cmd; simpl in Hc, Hw; try discriminate.
  - unfold maint_port_idx_get, with_user. quiet. quiet. quiet. rest_quiet.
  - apply spec_bind. eapply spec_own_priv; [exact Hv|exact Hs|done|exact Hp|done|]. intros v' s' Hv' Hs' _ _.
    eapply (stays_quiet v' any); [exact Hs'|exact Hv'|by apply fine_ret].
  - rest_quiet.
  - by eapply obw_map_stays.
  - by eapply map_inbound_stays.
  - by eapply obw_free_stays.
  - by eapply inbound_free_stays.
  - by eapply alloc_dma_stays.
  - by eapply free_dma_stays.
  - rest_quiet.
Qed.

Lemma call_stays c s : maps_inv (view s) -> call_ok c s -> stays (mport_do c) s.
Proof.
  intros Hv [Hc Hb]. assert (has_view (view s) s) as Hs by done. destruct c; simpl in Hc.
  - destruct Hc as ([d Hd] & Hf). by eapply (open_stays (view s)).
  - destruct Hc as (pr & Hf & p & Hp). destruct (Hb pr p Hf Hp) as (H1 & H2 & H3). by eapply (close_stays (view s)).
  - destruct Hc as ([pr Hf] & Hc). by eapply (ioctl_stays (view s)).
  - destruct Hc as ([pr Hf] & Hvma). destruct (file_of (view s) filp pr Hv Hf) as (p & d & mp & Hp & Hd & Hmp).
    by eapply (mmap_stays (view s)).
  - destruct Hc as ([q Hq] & Hn). apply fine_drop_tail. by eapply (area_copy_stays (view s)).
  - destruct Hc as [q Hq]. apply fine_drop_tail. by eapply (area_close_stays (view s)).
Qed.

Lemma reach_inv s0 s : mport_start s0 -> mport_reach s0 s -> maps_inv (view s).
Proof.
  intros H0. induction 1 as [|s c r s' _ IH Hc Hr]; [by apply start_inv|].
  pose proof (call_stays c s IH Hc) as H. unfold stays, spec in H. by rewrite Hr in H.
Qed.
End life.

Section results.
Context {W : Type} `{!KernelEnv W} `{!Externals W} `{!SwitchTables W} `{!CdevEnv W} `{!CdevKernel W}
  `{!DmaEngine (mcstate W)} `{!CdevWait W}.
Variables (db_handler pw_handler : ptr) (dma_timeout res_mem res_size : Z) (fuel : nat).
Abbreviation reach := (mport_reach db_handler pw_handler dma_timeout res_mem res_size fuel).
Abbreviation perform := (mport_do db_handler pw_handler dma_timeout res_mem res_size fuel).

End results.

(** ** At the simulated machine *)

(** A DMA buffer of two pages is asked for at 0x100, an outbound window at 0x200. *)
Definition mw_user0 : gmap Z Z :=
  user_store 0x100 (put_rio_dma_mem (mk_rio_dma_mem 0x2000 0 RIO_MAP_ANY_ADDR))
    (user_store 0x200 (put_rio_mmap (mk_rio_mmap 5 0x4000 0x1000 0 0) (replicate 40 0)) ∅).
Definition mw_calls : list mport_call :=
  [CALL_OPEN 50 0 2; CALL_IOCTL 50 RIO_ALLOC_DMA 0x100; CALL_IOCTL 50 RIO_MAP_OUTBOUND 0x200;
   CALL_MMAP 50 60 0 0x2000 0x10; CALL_COPY_AREA 60 61; CALL_CLOSE 50; CALL_UNMAP 60].
Definition mw_do : mport_call -> MC mcworld Z := mport_do 3%positive 4%positive 1000 0 0 100.
Definition mw_after (c : mport_call) (s : mcstate mcworld) : mcstate mcworld :=
  match mw_do c s with Done _ s' => s' | _ => s end.
Abbreviation mw_reach := (mport_reach 3%positive 4%positive 1000 0 0 100).

Lemma mw_step s0 s c : mw_reach s0 s -> call_ok c s -> done_with (mw_do c s) (fun _ _ => true) = true ->
  mw_reach s0 (mw_after c s).
Proof.
  intros Hr Hc Hd. unfold mw_after. destruct (mw_do c s) as [r s'| |] eqn:E; [|done..].
  by apply (reach_call _ _ _ _ _ _ s0 s c r s').
Qed.
Definition mw_end : mcstate mcworld := foldl (fun s c => mw_after c s) (mw_state mw_user0) mw_calls.

(** The calls are valid and careful. *)
Ltac mw_open := split; [split; [by vm_compute; eexists|done]|intros q m Hm; cbn in Hm; by apply lookup_empty_Some in Hm].
Ltac mw_ioctl := split; [split; [by vm_compute; eexists|done]|done].
Ltac mw_area := split; [split; [by vm_compute; eexists|by vm_compute]|done].

Lemma mw_reached : mw_reach (mw_state mw_user0) mw_end.
Proof.
  unfold mw_end, mw_calls, foldl.
  apply mw_step; [|split; [by vm_compute; eexists|done]|by vm_compute].
  apply mw_step; [|split; [by vm_compute; eexists; split; [reflexivity|eexists]|]|by vm_compute].
  2: { intros pr p Hf Hp. vm_compute in Hf. injection Hf as <-. vm_compute in Hp. by injection Hp as <-. }
  apply mw_step; [|mw_area|by vm_compute].
  apply mw_step; [|mw_area|by vm_compute].
  apply mw_step; [|mw_ioctl|by vm_compute].
  apply mw_step; [|mw_ioctl|by vm_compute].
  apply mw_step; [apply reach_start|mw_open|by vm_compute].
Qed.

Lemma mw_started : mport_start (mw_state mw_user0).
Proof.
  unfold mport_start. cbn. split_and!; try done. intros x d [<- <-]%lookup_singleton_Some. split_and!; [done|cbn; lia|].
  rewrite lookup_singleton_eq. by eexists.
Qed.

Lemma all_maps (g : ptr -> rio_mport_mapping -> bool) (ms : gmap ptr rio_mport_mapping) q m :
  forallb (fun kv => g kv.1 kv.2) (map_to_list ms) = true -> ms !! q = Some m -> g q m = true.
Proof.
  intros H Hm. rewrite forallb_forall in H. apply (H (q, m)), list_elem_of_In. by apply elem_of_map_to_list.
Qed.


(** ** Freeing a buffer twice *)

Section twice.
Context {W : Type} `{!KernelEnv W} `{!Externals W} `{!SwitchTables W} `{!CdevEnv W} `{!CdevKernel W}
  `{!DmaEngine (mcstate W)} `{!CdevWait W}.

Lemma find_map_only {A} (v : mview W) (test : rio_mport_mapping -> option A) l q m a s Q :
  has_view v s -> (forall x, x ∈ l -> is_Some (v_maps v !! x)) -> q ∈ l -> v_maps v !! q = Some m -> test m = Some a ->
  (forall x mx b, v_maps v !! x = Some mx -> test mx = Some b -> x = q) ->
  (forall s', has_view v s' -> Q (Some (q, a)) s') -> total (find_map test l) s Q.
Proof.
  intros Hs Hl Hq Hm Ht Hu HQ. revert s Hs. induction l as [|x l IH]; intros s Hs; [by apply elem_of_nil in Hq|].
  destruct (Hl x) as [mx Hx]; [apply list_elem_of_here|]. simpl. quiet.
  destruct (test mx) as [b|] eqn:E.
  - pose proof (Hu x mx b Hx E) as ->. simplify_eq. by apply HQ.
  - apply elem_of_cons in Hq as [->|Hq]; [by simplify_eq|]. apply IH; [|done|done].
    intros y Hy. by apply Hl, list_elem_of_further.
Qed.

(** The request puts the one mapping that it is about. *)
Lemma free_dma_put (v : mview W) f pr p d q m arg s (Q : Z -> mcstate W -> Prop) :
  has_view v s -> v_files v !! f = Some pr -> v_privs v !! pr = Some p -> v_devs v !! pr_md p = Some d ->
  (forall x, x ∈ md_mappings d -> is_Some (v_maps v !! x)) -> q ∈ md_mappings d ->
  v_maps v !! q = Some m -> mm_dir m = MAP_DMA -> mm_filp m = Some f -> 0 <= mm_dma_addr m < 2 ^ 64 ->
  (forall x mx, v_maps v !! x = Some mx -> mm_dir mx = MAP_DMA -> mm_filp mx = Some f -> mm_dma_addr mx = mm_dma_addr m -> x = q) ->
  (forall w, user_read arg 8 w = Some (le_bytes 8 (mm_dma_addr m))) ->
  (forall s', has_view v s' -> total (map_put q) s' (fun _ => Q 0)) -> total (rio_mport_free_dma f arg) s Q.
Proof.
  intros Hs Hf Hp Hd Hl Hq Hm Hdir Hfilp Hr Hu Har HQ. unfold rio_mport_free_dma, with_user. quiet. quiet. quiet.
  eapply (spec_quiet _ _ _ (fun b => b = Some (le_bytes 8 (mm_dma_addr m)))); [exact Hs| |].
  { intros s1 Hs1. split; [apply Har|]. rewrite <- Hs1. by destruct s1 as [[]]. }
  clear s Hs. intros _ s -> Hs. apply spec_bind.
  assert (le_at 0 8 (le_bytes 8 (mm_dma_addr m)) = mm_dma_addr m) as Hle.
  { unfold le_at, get_bytes. rewrite drop_0, take_ge by by rewrite le_bytes_length. by apply le_round_trip. }
  rewrite Hle. eapply (find_map_only v _ (md_mappings d) q m tt); [exact Hs|done..| | |].
  - by rewrite Hdir, Hfilp, Z.eqb_refl, !bool_decide_true.
  - intros x mx b Hx E. case_match; [|done]. apply andb_prop in H as [[H1 H2]%andb_prop H3].
    apply bool_decide_eq_true in H1, H3. apply Z.eqb_eq in H2. by apply (Hu x mx).
  - intros s' Hs'. apply spec_bind. eapply spec_mono; [by apply HQ|]. by intros [] s2 H.
Qed.

(** C22: An application that frees a DMA buffer while an area maps it, and then frees it again,
    gets no error: the second request takes the reference of the area, the mapping is
    released, and unmapping the area uses freed memory. *)
Theorem rio_mport_free_dma_twice db_handler pw_handler dma_timeout res_mem res_size fuel (s0 s : mcstate W) f pr q m a arg :
  mport_start s0 -> mport_reach db_handler pw_handler dma_timeout res_mem res_size fuel s0 s ->
  mc_files s !! f = Some pr -> mc_maps s !! q = Some m -> mc_vmas s !! a = Some q ->
  mm_dir m = MAP_DMA -> mm_filp m = Some f -> mm_ref m = 2 -> 0 <= mm_dma_addr m < 2 ^ 64 ->
  (forall x mx, mc_maps s !! x = Some mx -> mm_dir mx = MAP_DMA -> mm_filp mx = Some f ->
    mm_dma_addr mx = mm_dma_addr m -> x = q) ->
  (forall w, user_read arg 8 w = Some (le_bytes 8 (mm_dma_addr m))) ->
  exists s1 s2, rio_mport_free_dma f arg s = Done 0 s1 /\ rio_mport_free_dma f arg s1 = Done 0 s2 /\
    mc_maps s2 !! q = None /\ mc_vmas s2 !! a = Some q /\ mport_mm_close a s2 = UB.
Proof.
  intros H0 Hreach Hf Hm Ha Hdir Hfilp Href Hr Hu Har.
  pose proof (reach_inv _ _ _ _ _ _ s0 s H0 Hreach) as Hv. pose proof Hv as [C F].
  destruct (file_of (view s) f pr Hv Hf) as (p & d & mp & Hp & Hd & Hmp).
  destruct (ct_md _ _ _ C q m Hm) as (d' & Hd' & Hq).
  pose proof (fo_owner _ F q m f pr p Hm Hfilp Hf Hp) as E. rewrite <- E in Hd. simplify_eq.
  pose proof (fun x => maps_live (view s) (mm_md m) d x Hv Hd) as Hl.
  set (m1 := setf mm_ref 1 m). set (v1 := setf v_maps (<[q := m1]> (v_maps (view s))) (view s)).
  assert (total (rio_mport_free_dma f arg) s (fun r s' => r = 0 /\ has_view v1 s')) as R1.
  { eapply (free_dma_put (view s)); first [by rewrite <- E | done | idtac]. intros s' Hs'. unfold map_put. quiet.
    apply spec_bind. eapply spec_upd_map; [done..|]. intros s2 Hs2. rewrite Href in *. by split. }
  apply total_Done in R1 as (r & s1 & R1 & -> & Hs1).
  assert (forall x mx, v_maps v1 !! x = Some mx -> (x = q /\ mx = m1) \/ (x <> q /\ mc_maps s !! x = Some mx)) as Hin.
  { intros x mx. simpl. rewrite lookup_insert_Some. intros [[<- <-]|[]]; auto. }
  set (vx := setf v_maps (delete q (v_maps v1)) v1).
  assert (total (rio_mport_free_dma f arg) s1 (fun r s' => r = 0 /\ v_maps (view s') !! q = None /\ v_vmas (view s') = mc_vmas s)) as R2.
  { eapply (free_dma_put v1 f pr p d q m1); first [by rewrite <- E | done | idtac].
    - intros x Hx. simpl. rewrite lookup_insert_is_Some'. right. by apply Hl.
    - apply lookup_insert_eq.
    - intros x mx [[-> ->]|[Hx H]]%Hin; [done|by apply Hu].
    - intros s' Hs'. unfold map_put. eapply spec_quiet; [exact Hs'|apply fine_get_map, lookup_insert_eq|].
      intros _ s2 -> Hs2. apply spec_bind. eapply spec_upd_map; [exact Hs2|apply lookup_insert_eq|]. intros s3 Hs3.
      eapply spec_release_mapping; [exact Hs3|apply lookup_insert_eq|exact Hd|exact Hq| |].
      + by apply (ct_port _ _ _ C (mm_md m)).
      + intros l s4 _ ->. split; [done|]. split; [apply lookup_delete_eq|done]. }
  apply total_Done in R2 as (r & s2 & R2 & -> & Hn & Ev). simpl in Hn, Ev.
  exists s1, s2. split_and!; [done..|by rewrite Ev|].
  unfold mport_mm_close, map_put, get_map, bind, gets. rewrite Ev, Ha. simpl. by rewrite Hn.
Qed.
End twice.

(** A file with a buffer that an area maps. *)
Definition mw_shared : mcstate mcworld := foldl (fun s c => mw_after c s) (mw_state mw_user0) (take 4 mw_calls).

Lemma mw_shared_reached : mw_reach (mw_state mw_user0) mw_shared.
Proof.
  unfold mw_shared, mw_calls, take, foldl.
  apply mw_step; [|mw_area|by vm_compute].
  apply mw_step; [|mw_ioctl|by vm_compute].
  apply mw_step; [|mw_ioctl|by vm_compute].
  apply mw_step; [apply reach_start|mw_open|by vm_compute].
Qed.

Lemma rio_mport_free_dma_twice_witness : exists s1 s2,
  rio_mport_free_dma 50 0xf000 mw_shared = Done 0 s1 /\ rio_mport_free_dma 50 0xf000 s1 = Done 0 s2 /\
  mport_mm_close 60 s2 = UB.
Proof.
  destruct (rio_mport_free_dma_twice 3%positive 4%positive 1000 0 0 100 _ mw_shared 50 100 101
    (mk_rio_mport_mapping 2 MAP_DMA 0 0 0 0x10000 (Some 0x10000) 0x2000 2 (Some 50%positive)) 60 0xf000
    mw_started mw_shared_reached) as (s1 & s2 & R1 & R2 & _ & _ & R3).
  - by vm_compute.
  - by vm_compute.
  - by vm_compute.
  - done.
  - done.
  - done.
  - simpl. lia.
  - intros x mx Hx Hdir _ _.
    pose proof (all_maps (fun x m => negb (bool_decide (mm_dir m = MAP_DMA)) || bool_decide (x = 101%positive)) (mc_maps mw_shared) x mx) as Ha.
    cbv beta in Ha. rewrite Hdir in Ha. eapply bool_decide_eq_true, Ha; [by vm_compute|exact Hx].
  - intros w. by vm_compute.
  - exists s1, s2. exact (conj R1 (conj R2 R3)).
Defined.

(** ** The other uses that are left out *)

(** A file at the address of a closed one takes over its buffer, and gives up the reference
    of the area when it is closed. *)
Lemma mport_reopened_file :
  let s := foldl (fun s c => mw_after c s) mw_shared [CALL_CLOSE 50; CALL_OPEN 50 0 2; CALL_CLOSE 50] in
  mc_vmas s !! 60%positive = Some 101%positive /\ mc_maps s !! 101%positive = None /\ mw_do (CALL_UNMAP 60) s = UB.
Proof. vm_compute. split_and!; reflexivity. Qed.

(** A file that asks again for its inbound window, with an argument in read-only memory, gives
    up its reference; when it is closed it gives up that of the area. *)
Lemma mport_inbound_unwritable :
  let user := user_store 0x300 (put_rio_mmap (mk_rio_mmap 0 0x4000 0x1000 0 RIO_MAP_ANY_ADDR) (replicate 40 0)) ∅ in
  let s := foldl (fun s c => mw_after c s) (mw_state user)
    [CALL_OPEN 50 0 2; CALL_IOCTL 50 RIO_MAP_INBOUND 0x300; CALL_MMAP 50 60 0 0x1000 0x10] in
  let s1 := mw_after (CALL_IOCTL 50 RIO_MAP_INBOUND 0xf100) s in
  let s2 := mw_after (CALL_CLOSE 50) s1 in
  done_with (mw_do (CALL_IOCTL 50 RIO_MAP_INBOUND 0xf100) s) (fun r _ => r =? - EFAULT) = true /\
  (mm_ref <$> mc_maps s !! 101%positive) = Some 2 /\ (mm_ref <$> mc_maps s1 !! 101%positive) = Some 1 /\
  mc_vmas s2 !! 60%positive = Some 101%positive /\ mc_maps s2 !! 101%positive = None /\ mw_do (CALL_UNMAP 60) s2 = UB.
Proof. vm_compute. split_and!; reflexivity. Qed.
